(* ===== verification/_CoqProject ===== *)
-Q . S2P
Prelude.v
PyStr.v
PyFloat.v
PyNum.v
Json.v
Config.v
PyTime.v
JsonText.v
PyParse.v
Permissions.v
Schema.v
Realtime.v
Alerts.v
ApiWorld.v
DemoEnv.v
Security.v
RateLimit.v
Auth.v
AuthRoutes.v
AdminRoutes.v
AuthSafety.v
WebSocket.v
ControlApi.v
ControlSafety.v
ControlRoutes.v
Watcher.v
Orchestrator.v
OrchestratorSafety.v
Provisioning.v
Agent.v
AgentSafety.v
MarketTime.v
Symbols.v
MarketCache.v
MarketDb.v
Candles.v
StraddlePulse.v
MarketSession.v
Providers.v
BreezeProvider.v
ZerodhaProvider.v
MarketService.v
ServiceSafety.v
OptionsIntel.v
OptionsService.v
OptionsRoutes.v
MarketRoutes.v
Payoff.v
Candidates.v
ResearchMarket.v
ResearchData.v
ResearchSchema.v
ResearchDb.v
ResearchRuns.v
Backtest.v
BacktestRuns.v
OptionsResearch.v
OptionsResearchRuns.v
