(* ===== verification/Prelude.v ===== *)
(** * CentralizedAlgoSystem: verification library

    A development beside the control plane of the algorithmic-trading system:
    the FastAPI control center ([src/trading/api/]), its configuration, schema
    and alerting, the orchestrator Lambda
    ([src/trading/infrastructure/lambda/orchestrator.py]) that drives the
    trading servers over AWS SSM, the trading agent ([src/trading/agent/]) that
    runs the strategies on a server, the market-data subsystem
    ([src/trading/market_data/]) that turns a broker's ticks into quotes,
    candles and option data, the option analytics and the payoff engine built on
    it, and the research jobs and backtests ([src/trading/ai_research/]) run on
    historical data.

    ** How the system is put together

    A dashboard user (or a machine holding the control API key) calls the
    control center.  The control center authenticates the caller, limits its
    rate, checks its permission, reads and writes the relational database, and
    publishes events to websocket clients and Telegram alerts.  To act on a
    trading server it records a command row, invokes the orchestrator Lambda
    with a small JSON event, and polls the Lambda for the outcome.  The Lambda
    starts and stops EC2 instances and runs the trading agent on them through
    SSM; the agent prints one JSON object, which travels back to the command
    row.  Strategies report heartbeats, logs, positions, trades and P&L through
    the telemetry routes; a background watcher alerts on silent strategies.
    During market hours a scheduler runs the market feed: ticks go to a live
    cache and a candle aggregator whose finished minutes are written in batches,
    and the straddle pulse locks the day's at-the-money strike from the opening
    minute and records open interest around it.  Research requests are recorded
    as runs, executed in the background by a third-party framework of LLM agents
    that may see no price past the research date, and swept over symbols and
    dates by backtests; a restart fails what it finds unfinished.

    ** The files

    Shared:
    - [Prelude]: Python's exceptions ([exn]), results, the state-and-exception
      monad [M] with its notations, the [preserves] (invariant), [yields] and
      [triple] (Hoare) rules and the [preserves] hint database, rows of a table
      ([one_or_none], [update_where], [delete_where], [unique_on]), sorting.
    - [PyStr], [PyFloat], [PyNum], [PyTime], [Json], [JsonText], [PyParse]: the
      parts of Python's standard library the code uses - strings, IEEE binary64
      floats (the Standard Library's executable [SpecFloat]), the operations
      that raise, dates and decimal formats, JSON values,
      [json.loads]/[json.dumps], [repr] of a value, [strptime] and
      [datetime.fromisoformat]; [exp], [log] and [erf] are the class [Libm].

    Control center:
    - [Config] ([core/config.py]): [load_settings] over an environment.
    - [Permissions] ([api/security/permissions.py]).
    - [Schema] ([database/models.py]): one record per table, [Db], and
      [db_ok], the uniqueness and foreign-key constraints.
    - [Realtime] ([api/realtime/bus.py, events.py, publish.py]) and [WebSocket]
      ([api/realtime/ws.py]): the bus, and connections as a step relation.
    - [Alerts] ([alerts/telegram.py]): deduplication, retries, every alert.
    - [ApiWorld]: what a request handler runs in.  [World] is the committed
      tables, the open transaction, the unit of work, the commits other
      connections make before each of ours ([w_others], the source of every
      race), the clock, the random generator, the bus, the alerts sent and the
      Lambda calls made.  [Env] is the code the API only calls (hashes, JWT,
      bcrypt, the Lambda), [DemoEnv] a computable instance of it.
    - [Security] (audit rows, tokens, passwords), [RateLimit] ([deps._consume]),
      [Auth] ([deps.py]: principals, guards, the order of a route's
      dependencies), [AuthRoutes], [AdminRoutes], and [AuthSafety] (their
      properties over sequences of requests).
    - [ControlApi] ([routes.py], [lambda_client.py]): every handler;
      [ControlSafety] their properties; [ControlRoutes] the guard of each route
      and what callers can reach; [Watcher] ([watcher.py]).

    Orchestrator:
    - [Orchestrator]: every action and [lambda_handler], over [LWorld] (the
      monotonic clock and the trace of AWS and API calls with their answers);
      AWS is an oracle that sees the whole trace ([Cloud]).
    - [OrchestratorSafety]: its properties.  [Provisioning]: the Lambda's
      progress reports played against the control center's own route.

    Trading agent:
    - [Agent] ([agent/trading_agent.py], [common/utils.py]): each command over
      [Host] (the files and processes of a machine, the monotonic clock, the
      trace of system calls); everything else on the machine acts through
      [Machine.others] before each call.  [AgentSafety]: its properties.

    Market data ([market_data/]):
    - [MarketTime] ([market_hours.py, status.py, scheduler.py]): instants as UTC
      microseconds, trading days, the scheduler as a function of its polls.
    - [Symbols] ([symbols.py, schemas.py, underlying_config.py]) and
      [MarketCache] ([cache.py, instruments.py, option_chain.py]).
    - [MarketDb] ([models.py]): the tables, [mdb_ok] their constraints, and a
      session whose reads and commits interleave with the commits of other
      connections ([m_others]).
    - [Candles] ([aggregator.py, retention.py]), with the reference candle of a
      minute's ticks; [StraddlePulse] ([expiry_cycle.py, daily_session.py,
      atm_lock.py, oi_pcr.py, straddle_pulse.py]).
    - [MarketSession] ([session.py]): which credentials are current and whether
      the broker accepts them.  [Providers] ([providers/base.py, __init__.py]):
      the provider interface, a class [MarketDataProvider] with the laws
      [ProviderLaws] its clients rely on; [BreezeProvider]
      ([providers/icici_breeze.py]) and [ZerodhaProvider]
      ([providers/zerodha_kite.py]) are instances that discharge them.
    - [MarketService] ([service.py], and the scheduler's calls of it): the state of
      the service with its suspended tasks, every piece of every task, and
      [perform], one step of any of them; [ServiceSafety] its properties, over
      every sequence of steps and any provider that keeps the laws.
    - [OptionsIntel] ([options_intelligence.py]): every figure computed from a
      chain; [OptionsService] ([options_service.py]): where a chain comes from and
      how it is written; [OptionsRoutes] ([api/options_routes.py]) and
      [MarketRoutes] ([api/market_routes.py, straddle_pulse_routes.py]).

    Option strategies ([ai_options_research/]):
    - [Payoff] ([payoff.py]): the engine over a class of arithmetics, with the
      code's floats and the rationals as instances; [Candidates]
      ([strategy_templates.py, candidates.py]).
    - [OptionsResearch] ([schemas.py, context.py, agent_schemas.py, agents.py]):
      the request, the frozen context, the guard against made-up levels and the
      agents, over the class [OptionsLLM], which sees every call made of it;
      [OptionsResearchRuns] ([models.py, repository.py, service.py],
      [api/ai_options_research_routes.py]): runs, the pipeline and the job, whose
      timeout falls before any chosen write of the thread it abandons (a write's
      read and commit being one step).

    Research ([ai_research/]):
    - [ResearchMarket] ([market/]): the calendar, instruments and symbols;
      [ResearchData] ([market_data/]): candles up to a date and their backfill.
    - [ResearchSchema] ([schemas.py, config.py, trading_agents_adapter.py]): the
      requests and the adapter; the agents are the class [Agents], which answers
      the nodes reported and how the graph ended.
    - [ResearchDb] ([models.py, backtest/models.py]): the tables and their session,
      [rdb_ok] their keys; [ResearchRuns] ([repository.py, service.py, router.py,
      jobs.py]): runs.
    - [Backtest] ([backtest/schemas.py, evaluator.py] and the limits of
      [service.py]) and [BacktestRuns] ([backtest/repository.py, service.py,
      router.py]): sweeps of runs.

    ** What the theorems show

    - Who can do what: the machine's key controls nothing; reading changes
      nothing; a refresh token is used once, while no other request holds the
      session it read; password changes, resets and deactivations end every
      session; an active administrator remains; an
      access token resolves to its user with current rights until it expires.
    - What the database holds: commands are recorded before they are
      dispatched and their rows tell the outcome; deleting a strategy is all or
      nothing and leaves a consistent database; positions are upserts;
      heartbeats update exactly the rows they should and alert exactly on a
      change of status.
    - Limits: the rate limiter refines a fixed-window counter and its
      [Retry-After] is exact and bounded; the websocket counter is exact; the
      bus delivers a prefix of what was published; alerts are spaced by the
      deduplication window, retried a bounded number of times and re-armed by
      recovery.
    - The orchestrator never stops or reboots an instance blindly, routes the
      fleet-wide commands to the strategies' own servers, always ends, and
      passes the agent's result through unchanged.
    - The agent kills only the pid it read, after the grace period; launches only
      under the start lock with no live process; deletes only files it compared
      with the incoming ones; tells the truth in STATUS; every command ends, once
      it gets the start lock if it takes it.
    - Market data: the scheduler runs the start and stop flows alternately and
      inside the session; a canonical option symbol reads back; the instrument
      master answers from the universe loaded last and the chain is a window
      around the money; the candles emitted are exactly the reference candles of
      the ticks taken, and writing them loses none and repeats none under
      concurrent writers; the locked ATM is the listed strike nearest to the
      opening close and never moves; the pulse is idempotent; each snapshot is
      the sum over the window.
    - Option analytics: a summary's figures come from the rows of its chain; max
      pain is least over the strikes; a certified implied volatility prices the
      option within the tolerance; a historical chain holds nothing later than
      its instant; a chain is that of the underlying and of the expiry the request
      names, no older than the cache's lifetime; the extremes and break-evens of a combination are those of
      the whole half-line of prices, on exact arithmetic; a candidate has the
      legs of its strategy at the strikes the configuration asks for, with the
      figures and the liquidity of their own rows.
    - Research: a run that was recorded settles whatever the agents do, when there
      are slots to run it in, and the
      request read back from it is the one that was made; a restart leaves nothing
      unfinished; a run sees no candle past its date, and asking for history makes
      a bounded number of provider calls; the estimate of a backtest foretells its
      submission; a sweep never runs a completed cell again, and ends the job
      unless it raises; the metrics account for every completed cell.
    - The market-data service: publications of a symbol are spaced by the
      interval; recovery is bounded, one loop at a time and with its cool-down;
      the close loses no candle; the feed's ticks name the contract that was
      subscribed; a VALID session is one the broker accepted; the Kite socket has
      been asked for exactly the tokens recorded, and a Kite chain is the quotes
      of its contracts.
    - Options research: a report holds only levels its frozen context knows,
      about the candidates generated from it; a job settles, timed out or not, with
      no stage left open; it asks the LLM a bounded number of times.
    - Defects, as theorems: a reconnect that leaves the options unsubscribed, a
      reconnect loop that outlives the stop, contract ids of rolled-back rows, a
      feed declared running without a tick, a nearer expiry that blocks the pulse, a foreign
      process that STOP forgets, the lost update of the rate limiter, the race on
      the last administrator, the leak and the overrun of the websocket
      capacity, commands that never settle, provisioning reports that are
      always refused, alerts suppressed although their content differs, a
      backtest left RUNNING by a symbol its market does not know, cells counted
      twice after a resume, a late node on a failed run, a timed-out research that
      completes, a queue that no restart clears, two refreshes of one token, runs
      that wait for a slot that does not exist, a start that waits for a held
      lock, a minute reopened during the forced close, a candle dropped for want
      of its contract, a failed run with a stage left running.

    ** Bounds and fuel

    Polling loops ([Orchestrator.poll]) have fuel [timeout / interval + 2]:
    each turn sleeps one interval, so the deadline passes within that many
    turns ([handler_ends]).  The JSON parser's fuel is twice the length of the
    text, and each nested call consumes a character.  The agent's two waits have
    as many turns as sleeps fit before their deadline ([agent_command_ends]).
    The bisection of the implied volatility has the code's own limit of turns; the
    search for a neighbouring trading day has the code's own thirty.  All other
    recursion is structural.

    ** Not modelled

    The scripted Zerodha login over HTTP.  The strategies themselves, their broker clients and their runtime helpers
    (third-party network APIs, log and heartbeat senders).  The
    framework of LLM agents the research runs on and the LLM clients of the options
    research, third-party libraries.  The
    bootstrap of the first administrator, the operator's SSM script, the
    application's assembly, migrations, the frontend, deployment files and
    logging.  FastAPI's validation of request bodies is represented by the types of
    the request records where the code has no validator of its own; timestamps are
    UTC microseconds and the ISO text of an instant is opaque. *)
From stdpp Require Export base option list list_numbers numbers strings gmap sorting.
From Stdlib Require Export ZArith Lia.

#[global] Open Scope Z_scope.
Declare Scope py_scope.
Delimit Scope py_scope with py.

(** ** Python exceptions

    The exceptions the modelled code raises or catches.  [HTTPErr] is
    FastAPI's [HTTPException] (status code, detail, headers); the others carry the text the code
    formats from them. *)
Inductive exn : Type :=
| HTTPErr (code : Z) (detail : string) (headers : list (string * string))
| IntegrityError
| MultipleResultsFound
| NoResultFound
| ValueError (msg : string)
| KeyError (key : string)
| ZeroDivisionError
| TokenError (msg : string)
| WeakPasswordError (msg : string)
| LambdaInvokeError (msg : string)
| ClientError (code : string) (msg : string)
| BotoCoreError (msg : string)
| AlgoListError (msg : string)
| AlgoNotFoundError (msg : string)
| OtherError (cls : string) (msg : string).

Definition HTTPException (code : Z) (detail : string) : exn := HTTPErr code detail [].

#[global] Instance exn_eq_dec : EqDecision exn.
Proof. solve_decision. Defined.

(** ** Fallible results and the state-and-exception monad *)
Inductive result (E A : Type) : Type :=
| Ok (a : A)
| Err (e : E).
Arguments Ok {E A} a.
Arguments Err {E A} e.

Definition is_ok {E A} (r : result E A) : bool :=
  match r with Ok _ => true | Err _ => false end.

(** A computation over a state [S] that may raise [E]: like a Python call,
    the state reached before an exception survives the exception. *)
Definition M (S E A : Type) : Type := S -> result E A * S.

Definition ret {S E A} (a : A) : M S E A := fun s => (Ok a, s).
Definition raise {S E A} (e : E) : M S E A := fun s => (Err e, s).
Definition bind {S E A B} (m : M S E A) (k : A -> M S E B) : M S E B :=
  fun s => match m s with
           | (Ok a, s') => k a s'
           | (Err e, s') => (Err e, s')
           end.
Definition get {S E} : M S E S := fun s => (Ok s, s).
Definition gets {S E A} (f : S -> A) : M S E A := fun s => (Ok (f s), s).
Definition modify {S E} (f : S -> S) : M S E unit := fun s => (Ok tt, f s).
Definition lift {S E A} (r : result E A) : M S E A := fun s => (r, s).

(** [try: m except e: h e]; the handler sees the state the body left. *)
Definition try_except {S E A} (m : M S E A) (h : E -> M S E A) : M S E A :=
  fun s => match m s with
           | (Ok a, s') => (Ok a, s')
           | (Err e, s') => h e s'
           end.

Notation "'let!' x ':=' m 'in' k" := (bind m (fun x => k))
  (at level 10, x pattern, m at level 100, k at level 200) : py_scope.
Notation "m ';;;' k" := (bind m (fun _ => k))
  (at level 199, right associativity) : py_scope.
Notation "'when' b 'do' m" := (if b then m else ret tt)
  (at level 10, b at level 100, m at level 100) : py_scope.
#[global] Open Scope py_scope.

Fixpoint for_each {S E A} (l : list A) (body : A -> M S E unit) : M S E unit :=
  match l with
  | [] => ret tt
  | x :: l' => body x ;;; for_each l' body
  end.

(** Fallible values, one after the other. *)
Definition rbind {E A B} (r : result E A) (k : A -> result E B) : result E B :=
  match r with Ok a => k a | Err e => Err e end.
Notation "'let?' x ':=' m 'in' k" := (rbind m (fun x => k))
  (at level 10, x pattern, m at level 100, k at level 200) : py_scope.
Fixpoint fold_r {A B} (f : A -> B -> result exn A) (acc : A) (l : list B) : result exn A :=
  match l with [] => Ok acc | x :: r => let? acc := f acc x in fold_r f acc r end.
Fixpoint map_r {A B} (f : A -> result exn B) (l : list A) : result exn (list B) :=
  match l with [] => Ok [] | x :: r => let? y := f x in let? ys := map_r f r in Ok (y :: ys) end.

Fixpoint map_m {S E A B} (f : A -> M S E B) (l : list A) : M S E (list B) :=
  match l with
  | [] => ret []
  | x :: l' => let! y := f x in let! ys := map_m f l' in ret (y :: ys)
  end.

(** ** Invariants of computations

    [preserves I m]: whatever [m] does, and whether or not it raises, a state
    satisfying [I] leads to one satisfying [I].  The lemmas below are the
    syntax-directed rules; the hint database [preserves] chains them. *)
Definition preserves {S E A} (I : S -> Prop) (m : M S E A) : Prop :=
  forall s, I s -> I (snd (m s)).

Create HintDb preserves discriminated.
#[export] Hint Constants Opaque : preserves.

Section preserves_rules.
Context {S E : Type} (I : S -> Prop).

Lemma preserves_ret {A} (a : A) : preserves (E := E) I (ret a).
Proof. now intros s. Qed.

Lemma preserves_raise {A} (e : E) : preserves (A := A) I (raise e).
Proof. now intros s. Qed.

Lemma preserves_get : preserves (E := E) I get.
Proof. now intros s. Qed.

Lemma preserves_gets {A} (f : S -> A) : preserves (E := E) I (gets f).
Proof. now intros s. Qed.

Lemma preserves_lift {A} (r : result E A) : preserves I (lift r).
Proof. now intros s. Qed.

Lemma preserves_modify (f : S -> S) :
  (forall s, I s -> I (f s)) -> preserves (E := E) I (modify f).
Proof. intros H s Hs. now apply H. Qed.

Lemma preserves_bind {A B} (m : M S E A) (k : A -> M S E B) :
  preserves I m -> (forall a, preserves I (k a)) -> preserves I (bind m k).
Proof.
  intros Hm Hk s Hs. unfold bind. specialize (Hm s Hs).
  destruct (m s) as [[a|e] s']; [now apply Hk | exact Hm].
Qed.

Lemma preserves_try {A} (m : M S E A) (h : E -> M S E A) :
  preserves I m -> (forall e, preserves I (h e)) -> preserves I (try_except m h).
Proof.
  intros Hm Hh s Hs. unfold try_except. specialize (Hm s Hs).
  destruct (m s) as [[a|e] s']; [exact Hm | now apply Hh].
Qed.

Lemma preserves_for_each {A} (l : list A) (body : A -> M S E unit) :
  (forall a, preserves I (body a)) -> preserves I (for_each l body).
Proof.
  intros Hb. induction l as [|x l IH]; cbn.
  - apply preserves_ret.
  - apply preserves_bind; [apply Hb | intros _; exact IH].
Qed.

Lemma preserves_map_m {A B} (f : A -> M S E B) (l : list A) :
  (forall a, preserves I (f a)) -> preserves I (map_m f l).
Proof.
  intros Hf. induction l as [|x l IH]; cbn; [apply preserves_ret|].
  apply preserves_bind; [apply Hf | intros y].
  apply preserves_bind; [exact IH | intros ys; apply preserves_ret].
Qed.
End preserves_rules.

#[export] Hint Resolve preserves_ret preserves_raise preserves_get preserves_gets
  preserves_lift preserves_bind preserves_try preserves_for_each preserves_map_m
  : preserves.

(** Walk a computation, splitting every test of the code. *)
Ltac preserve :=
  repeat first
    [ progress intros
    | solve [eauto 2 with preserves]
    | match goal with
      | |- preserves _ (bind _ _) => apply preserves_bind
      | |- preserves _ (try_except _ _) => apply preserves_try
      | |- preserves _ (for_each _ _) => apply preserves_for_each
      | |- preserves _ (map_m _ _) => apply preserves_map_m
      | |- preserves _ (match ?x with _ => _ end) => destruct x eqn:?
      end ].

(** [yields I m Q]: [m] keeps [I], and a value it returns satisfies [Q]. *)
Definition yields {S E A} (I : S -> Prop) (m : M S E A) (Q : A -> Prop) : Prop :=
  forall s, I s -> I (snd (m s)) /\ forall a, fst (m s) = Ok a -> Q a.

Section yields_rules.
Context {S E : Type} (I : S -> Prop).

Lemma yields_preserves {A} (m : M S E A) : preserves I m -> yields I m (fun _ => True).
Proof. intros H s Hs. split; [now apply H | auto]. Qed.
Lemma yields_forget {A} (m : M S E A) Q : yields I m Q -> preserves I m.
Proof. intros H s Hs. now apply H. Qed.
Lemma yields_ret {A} (a : A) (Q : A -> Prop) : Q a -> yields (E := E) I (ret a) Q.
Proof. intros Ha s Hs. cbn. split; [exact Hs|]. now intros b [= <-]. Qed.
Lemma yields_raise {A} (e : E) (Q : A -> Prop) : yields I (raise e) Q.
Proof. intros s Hs. cbn. now split. Qed.
Lemma yields_bind {A B} (m : M S E A) (k : A -> M S E B) (P : A -> Prop) (Q : B -> Prop) :
  yields I m P -> (forall a, P a -> yields I (k a) Q) -> yields I (bind m k) Q.
Proof.
  intros Hm Hk s Hs. unfold bind. destruct (Hm s Hs) as [H1 H2].
  destruct (m s) as [[a|e] s']; cbn in *; [apply Hk; auto | now split].
Qed.
Lemma yields_then {A B} (m : M S E A) (k : A -> M S E B) (Q : B -> Prop) :
  preserves I m -> (forall a, yields I (k a) Q) -> yields I (bind m k) Q.
Proof. intros Hm Hk. eapply yields_bind; [now apply yields_preserves | intros a _; apply Hk]. Qed.
End yields_rules.

(** [triple P m Q X]: from a state satisfying [P], a return satisfies [Q] and
    an exception [X]. *)
Definition triple {S E A} (P : S -> Prop) (m : M S E A) (Q : A -> S -> Prop) (X : E -> S -> Prop) : Prop :=
  forall s, P s -> match m s with (Ok a, s') => Q a s' | (Err e, s') => X e s' end.

Section triple_rules.
Context {S E : Type}.

Lemma triple_ret {A} (P : S -> Prop) (a : A) (Q : A -> S -> Prop) (X : E -> S -> Prop) :
  (forall s, P s -> Q a s) -> triple P (ret a) Q X.
Proof. intros H s Hs. now apply H. Qed.
Lemma triple_raise {A} (P : S -> Prop) (e : E) (Q : A -> S -> Prop) (X : E -> S -> Prop) :
  (forall s, P s -> X e s) -> triple P (raise e) Q X.
Proof. intros H s Hs. now apply H. Qed.
Lemma triple_lift {A} (P : S -> Prop) (r : result E A) (Q : A -> S -> Prop) (X : E -> S -> Prop) :
  (forall s, P s -> match r with Ok a => Q a s | Err e => X e s end) -> triple P (lift r) Q X.
Proof. intros H s Hs. cbn. specialize (H s Hs). now destruct r. Qed.
Lemma triple_gets {A} (P : S -> Prop) (f : S -> A) (Q : A -> S -> Prop) (X : E -> S -> Prop) :
  (forall s, P s -> Q (f s) s) -> triple P (gets f) Q X.
Proof. intros H s Hs. now apply H. Qed.
Lemma triple_bind {A B} (P : S -> Prop) (m : M S E A) (k : A -> M S E B) (R : A -> S -> Prop)
    (Q : B -> S -> Prop) (X : E -> S -> Prop) :
  triple P m R X -> (forall a, triple (R a) (k a) Q X) -> triple P (bind m k) Q X.
Proof.
  intros Hm Hk s Hs. unfold bind. specialize (Hm s Hs). destruct (m s) as [[a|e] s']; [|exact Hm].
  now apply Hk.
Qed.
Lemma triple_try {A} (P : S -> Prop) (m : M S E A) (h : E -> M S E A) (Q : A -> S -> Prop)
    (Y X : E -> S -> Prop) :
  triple P m Q Y -> (forall e, triple (Y e) (h e) Q X) -> triple P (try_except m h) Q X.
Proof.
  intros Hm Hh s Hs. unfold try_except. specialize (Hm s Hs). destruct (m s) as [[a|e] s']; [exact Hm|].
  now apply Hh.
Qed.
Lemma triple_weaken {A} (P P' : S -> Prop) (m : M S E A) (Q Q' : A -> S -> Prop) (X X' : E -> S -> Prop) :
  triple P m Q X -> (forall s, P' s -> P s) -> (forall a s, Q a s -> Q' a s) ->
  (forall e s, X e s -> X' e s) -> triple P' m Q' X'.
Proof.
  intros H HP HQ HX s Hs. specialize (H s (HP s Hs)). destruct (m s) as [[a|e] s']; auto.
Qed.
Lemma triple_pre {A} (P P' : S -> Prop) (m : M S E A) (Q : A -> S -> Prop) (X : E -> S -> Prop) :
  triple P m Q X -> (forall s, P' s -> P s) -> triple P' m Q X.
Proof. intros H HP. eapply triple_weaken; eauto. Qed.
Lemma triple_map_m {A B} (J : S -> Prop) (X : E -> S -> Prop) (f : A -> M S E B) l :
  (forall x, In x l -> triple J (f x) (fun _ => J) X) -> triple J (map_m f l) (fun _ => J) X.
Proof.
  induction l as [|x l IH]; intros Hf; cbn; [now apply triple_ret|].
  eapply triple_bind; [apply Hf; now left|]. intros y.
  eapply triple_bind; [apply IH; intros z Hz; apply Hf; now right|]. intros ys. now apply triple_ret.
Qed.
Lemma triple_preserves {A} (I : S -> Prop) (m : M S E A) :
  preserves I m -> triple I m (fun _ => I) (fun _ => I).
Proof. intros H s Hs. specialize (H s Hs). now destruct (m s) as [[a|e] s']. Qed.
Lemma preserves_triple {A} (I : S -> Prop) (m : M S E A) :
  triple I m (fun _ => I) (fun _ => I) -> preserves I m.
Proof. intros H s Hs. specialize (H s Hs). now destruct (m s) as [[a|e] s']. Qed.
End triple_rules.

(** ** Reasoning on one run *)
Lemma bind_Ok {S E A B} (m : M S E A) (k : A -> M S E B) s a s' :
  m s = (Ok a, s') -> bind m k s = k a s'.
Proof. unfold bind. now intros ->. Qed.

Lemma bind_Err {S E A B} (m : M S E A) (k : A -> M S E B) s e s' :
  m s = (Err e, s') -> bind m k s = (Err e, s').
Proof. unfold bind. now intros ->. Qed.

Lemma bind_inv_Ok {S E A B} (m : M S E A) (k : A -> M S E B) s b s' :
  bind m k s = (Ok b, s') -> exists a s1, m s = (Ok a, s1) /\ k a s1 = (Ok b, s').
Proof. unfold bind. destruct (m s) as [[a|e] s1]; [eauto | discriminate]. Qed.

(** Unfold the monad's operators so a run computes. *)
Ltac msimp := cbv [bind ret raise get gets modify lift try_except] in *; cbn in *.
Tactic Notation "mrun" := unfold bind, ret, raise, get, gets, modify, lift, try_except; cbn.

(** Split on the test of the first [match]/[if] of a hypothesis. *)
Ltac split_in H :=
  match type of H with
  | context [match ?x with _ => _ end] =>
      lazymatch x with
      | context [match _ with _ => _ end] => fail
      | _ => destruct x eqn:?
      end
  end.

(** ** Booleans of the code and propositions of the theorems *)
Lemma bool_decide_eqb_string (s t : string) : String.eqb s t = bool_decide (s = t).
Proof.
  destruct (String.eqb_spec s t); symmetry;
    [now apply bool_decide_eq_true | now apply bool_decide_eq_false].
Qed.

Ltac to_prop :=
  repeat match goal with
    | H : (_ && _)%bool = true |- _ => apply andb_prop in H; destruct H
    | H : (_ || _)%bool = false |- _ => apply orb_false_elim in H; destruct H
    | H : negb _ = true |- _ => apply negb_true_iff in H
    | H : negb _ = false |- _ => apply negb_false_iff in H
    | H : (_ =? _)%Z = true |- _ => apply Z.eqb_eq in H
    | H : (_ =? _)%Z = false |- _ => apply Z.eqb_neq in H
    | H : (_ <? _)%Z = true |- _ => apply Z.ltb_lt in H
    | H : (_ <? _)%Z = false |- _ => apply Z.ltb_ge in H
    | H : (_ <=? _)%Z = true |- _ => apply Z.leb_le in H
    | H : (_ <=? _)%Z = false |- _ => apply Z.leb_gt in H
    | H : String.eqb _ _ = true |- _ => apply String.eqb_eq in H
    | H : String.eqb _ _ = false |- _ => apply String.eqb_neq in H
    | H : bool_decide _ = true |- _ => apply bool_decide_eq_true in H
    | H : bool_decide _ = false |- _ => apply bool_decide_eq_false in H
    end.

(** ** Rows: the list operations behind a table *)
Section rows.
Context {A : Type}.

(** [query.filter(p).one_or_none()] *)
Definition one_or_none (p : A -> bool) (l : list A) : result exn (option A) :=
  match List.filter p l with
  | [] => Ok None
  | [x] => Ok (Some x)
  | _ => Err MultipleResultsFound
  end.

(** [row.attr = v] on the rows selected by [p]. *)
Definition update_where (p : A -> bool) (f : A -> A) (l : list A) : list A :=
  map (fun x => if p x then f x else x) l.

(** [query.filter(p).delete()] *)
Definition delete_where (p : A -> bool) (l : list A) : list A :=
  List.filter (fun x => negb (p x)) l.

(** Uniqueness of a column (or tuple of columns) [k]. *)
Definition unique_on {K} `{EqDecision K} (k : A -> K) (l : list A) : bool :=
  bool_decide (NoDup (map k l)).

Lemma one_or_none_Some p l x :
  one_or_none p l = Ok (Some x) -> In x l /\ p x = true.
Proof.
  unfold one_or_none. destruct (List.filter p l) as [|y [|z r]] eqn:E; try discriminate.
  intros [= <-]. apply List.filter_In. rewrite E. now left.
Qed.

Lemma one_or_none_None p l x :
  one_or_none p l = Ok None -> In x l -> p x = false.
Proof.
  unfold one_or_none. destruct (List.filter p l) as [|y [|z r]] eqn:E; try discriminate.
  intros _ Hin. destruct (p x) eqn:Hp; [|reflexivity].
  assert (In x (List.filter p l)) as Hx by (now apply List.filter_In).
  rewrite E in Hx. destruct Hx.
Qed.

Lemma filter_NoDup_le1 {K} (k : A -> K) p (l : list A) :
  NoDup (map k l) ->
  (forall x y, In x l -> In y l -> p x = true -> p y = true -> k x = k y) ->
  (List.length (List.filter p l) <= 1)%nat.
Proof.
  induction l as [|a l IH]; cbn; intros Hnd Hp; [lia|].
  apply NoDup_cons in Hnd as [Hna Hnd].
  assert (List.length (List.filter p l) <= 1)%nat by (apply IH; auto).
  destruct (p a) eqn:Ea; [|assumption]. cbn.
  destruct (List.filter p l) as [|b r] eqn:E; [cbn; lia|].
  exfalso. apply Hna.
  assert (In b l /\ p b = true) as [Hb Hpb].
  { apply List.filter_In. rewrite E. now left. }
  rewrite (Hp a b); auto.
  apply list_elem_of_In, in_map, Hb.
Qed.

(** A query on a unique column never raises [MultipleResultsFound]. *)
Lemma one_or_none_unique {K} (k : A -> K) p l :
  NoDup (map k l) ->
  (forall x y, In x l -> In y l -> p x = true -> p y = true -> k x = k y) ->
  exists o, one_or_none p l = Ok o.
Proof.
  intros Hnd Hp. pose proof (filter_NoDup_le1 k p l Hnd Hp) as Hlen.
  unfold one_or_none. destruct (List.filter p l) as [|x [|y r]]; eauto.
  cbn in Hlen. lia.
Qed.

Lemma delete_where_In p l x : In x (delete_where p l) <-> In x l /\ p x = false.
Proof.
  unfold delete_where. rewrite List.filter_In. now rewrite negb_true_iff.
Qed.

Lemma update_where_In (p : A -> bool) (f : A -> A) l x :
  In x l -> In (if p x then f x else x) (update_where p f l).
Proof. apply in_map with (f := fun x => if p x then f x else x). Qed.

Lemma In_update_where (p : A -> bool) (f : A -> A) l y :
  In y (update_where p f l) -> exists x, In x l /\ y = if p x then f x else x.
Proof.
  unfold update_where. intros H. apply in_map_iff in H as (x & <- & Hx). eauto.
Qed.

Lemma NoDup_map_filter {K} (k : A -> K) (p : A -> bool) l :
  NoDup (map k l) -> NoDup (map k (List.filter p l)).
Proof.
  induction l as [|a l IH]; cbn; intros Hnd; [constructor|].
  apply NoDup_cons in Hnd as [Hna Hnd].
  destruct (p a); cbn; [|auto].
  apply NoDup_cons. split; [|auto].
  rewrite list_elem_of_In in *. contradict Hna.
  apply in_map_iff in Hna as (x & <- & Hx). apply List.filter_In in Hx as [Hx _].
  now apply in_map.
Qed.

(** Updating columns other than [k] keeps [k] unique. *)
Lemma map_update_where {K} (k : A -> K) (p : A -> bool) (f : A -> A) l :
  (forall x, p x = true -> k (f x) = k x) -> map k (update_where p f l) = map k l.
Proof.
  intros Hk. unfold update_where. rewrite map_map. apply map_ext.
  intros x. destruct (p x) eqn:E; auto.
Qed.

Lemma NoDup_map_app_one {K} (k : A -> K) l x :
  NoDup (map k l) -> (forall y, In y l -> k y <> k x) -> NoDup (map k (l ++ [x])).
Proof.
  intros Hnd Hx. rewrite map_app. apply NoDup_app. split; [exact Hnd|].
  split; [|apply NoDup_singleton].
  intros z Hz. cbn. rewrite list_elem_of_singleton. intros ->.
  apply list_elem_of_In, in_map_iff in Hz as (y & E & Hy). eapply Hx; eauto.
Qed.

Lemma delete_where_none p l : (forall x, In x l -> p x = false) -> delete_where p l = l.
Proof.
  induction l as [|a l IH]; intros H; [reflexivity|]. unfold delete_where in *. cbn.
  rewrite (H a (or_introl eq_refl)). cbn. f_equal. apply IH. intros x Hx. apply H. now right.
Qed.

(** Two rows that agree on a unique column are the same row. *)
Lemma NoDup_map_inj_in {K} (k : A -> K) l x y :
  NoDup (map k l) -> In x l -> In y l -> k x = k y -> x = y.
Proof.
  induction l as [|a l IH]; cbn; [tauto|]. intros [Ha Hnd]%NoDup_cons.
  rewrite list_elem_of_In in Ha.
  intros [<-|Hx] [<-|Hy] E; auto; exfalso; apply Ha.
  - rewrite E. now apply in_map.
  - rewrite <- E. now apply in_map.
Qed.

Lemma one_or_none_filter p l o :
  one_or_none p l = Ok o -> List.filter p l = match o with Some x => [x] | None => [] end.
Proof.
  unfold one_or_none. destruct (List.filter p l) as [|x [|y r]]; intros [= <-]; reflexivity.
Qed.

(** Updating, deleting and adding rows as seen by a query. *)
Lemma update_where_ext p q (f : A -> A) l :
  (forall y, In y l -> p y = q y) -> update_where p f l = update_where q f l.
Proof. intros H. apply map_ext_in. intros y Hy. now rewrite (H y Hy). Qed.
Lemma delete_where_ext p q (l : list A) :
  (forall y, In y l -> p y = q y) -> delete_where p l = delete_where q l.
Proof. intros H. apply List.filter_ext_in. intros y Hy. now rewrite (H y Hy). Qed.
Lemma filter_update_where p (f : A -> A) l :
  (forall y, p y = true -> p (f y) = true) ->
  List.filter p (update_where p f l) = map f (List.filter p l) /\
  delete_where p (update_where p f l) = delete_where p l.
Proof.
  intros H. unfold delete_where, update_where. induction l as [|y l [IH1 IH2]]; [now split|]. cbn.
  destruct (p y) eqn:E; cbn; rewrite ?E, ?H by exact E; cbn; rewrite IH1, IH2; now split.
Qed.
Lemma filter_delete_where p (l : list A) :
  List.filter p (delete_where p l) = [] /\ delete_where p (delete_where p l) = delete_where p l.
Proof.
  unfold delete_where. induction l as [|y l [IH1 IH2]]; [now split|]. cbn.
  destruct (p y) eqn:E; cbn; rewrite ?E; cbn; [now split|]. now rewrite IH2.
Qed.
Lemma filter_app_one p l (x : A) :
  p x = true -> List.filter p (l ++ [x]) = List.filter p l ++ [x] /\
                delete_where p (l ++ [x]) = delete_where p l.
Proof.
  intros H. unfold delete_where. rewrite !List.filter_app. cbn. rewrite H. cbn.
  now rewrite app_nil_r.
Qed.

(** The query of a row by a key that identifies it finds it. *)
Lemma one_or_none_found {K} (k : A -> K) p l x :
  NoDup (map k l) -> In x l -> p x = true ->
  (forall y, In y l -> p y = true -> k y = k x) ->
  one_or_none p l = Ok (Some x).
Proof.
  intros Hnd Hx Hp Hk.
  destruct (one_or_none_unique k p l Hnd) as [[y|] E].
  - intros u v Hu Hv Hpu Hpv. now rewrite (Hk u), (Hk v).
  - rewrite E. apply one_or_none_Some in E as [Hy Hpy]. do 2 f_equal.
    apply (NoDup_map_inj_in k l); auto.
  - pose proof (one_or_none_None _ _ _ E Hx). congruence.
Qed.
(** The id a new row gets, a sequence's next value. *)
Definition next_id (id : A -> Z) (rows : list A) : Z := 1 + fold_right Z.max 0 (map id rows).
Lemma next_id_above (id : A -> Z) rows x : In x rows -> id x < next_id id rows.
Proof.
  unfold next_id. induction rows as [|y r IH]; [intros []|]. cbn. intros [<-|Hx]; [lia | specialize (IH Hx); lia].
Qed.
End rows.

#[global] Arguments delete_where : simpl never.
#[global] Arguments unique_on : simpl never.
#[global] Arguments update_where : simpl never.
#[export] Hint Resolve NoDup_map_filter : core.

(** ** Sorting by a boolean comparison

    [sorted(l, key=...)] and [ORDER BY]: a stable sort; [leb a b] says that [a]
    may come before [b]. *)
Section sort_by.
Context {A : Type} (leb : A -> A -> bool).

Fixpoint insert_by (x : A) (l : list A) : list A :=
  match l with
  | [] => [x]
  | y :: r => if leb x y then x :: l else y :: insert_by x r
  end.
Fixpoint sort_by (l : list A) : list A :=
  match l with
  | [] => []
  | x :: r => insert_by x (sort_by r)
  end.

Lemma insert_by_Permutation x l : Permutation (insert_by x l) (x :: l).
Proof.
  induction l as [|y r IH]; cbn; [reflexivity|]. destruct (leb x y); [reflexivity|].
  rewrite IH. apply perm_swap.
Qed.
Lemma sort_by_Permutation l : Permutation (sort_by l) l.
Proof. induction l as [|x r IH]; cbn; [reflexivity|]. now rewrite insert_by_Permutation, IH. Qed.
Lemma In_sort_by x l : In x (sort_by l) <-> In x l.
Proof. split; apply Permutation_in; [|symmetry]; apply sort_by_Permutation. Qed.

Lemma Sorted_sort_by l :
  (forall a b, leb a b = true \/ leb b a = true) ->
  (forall a b c, leb a b = true -> leb b c = true -> leb a c = true) ->
  StronglySorted (fun a b => leb a b = true) (sort_by l).
Proof.
  intros Htot Htr. induction l as [|x r IH]; cbn; [constructor|].
  induction IH as [|y l Hl IHl Hy]; cbn; [repeat constructor|].
  destruct (leb x y) eqn:E.
  - constructor; [now constructor|]. constructor; [exact E|].
    eapply Forall_impl; [exact Hy|]. eauto.
  - constructor; [exact IHl|]. rewrite insert_by_Permutation. constructor; [|exact Hy].
    destruct (Htot x y); congruence.
Qed.
End sort_by.

(** ** Fallible maps *)
Lemma map_r_Ok {A B} (f : A -> result exn B) l ys : map_r f l = Ok ys -> Forall2 (fun x y => f x = Ok y) l ys.
Proof.
  revert ys. induction l as [|x l IH]; intros ys; cbn; [intros [= <-]; constructor|].
  destruct (f x) as [y|] eqn:E; [|discriminate]. cbn. destruct (map_r f l) as [r|]; [|discriminate].
  intros [= <-]. constructor; auto.
Qed.

Lemma Forall2_In_r {A B} (P : A -> B -> Prop) l l' y : Forall2 P l l' -> In y l' -> exists x, In x l /\ P x y.
Proof. induction 1 as [|a b l l' H _ IH]; cbn; [tauto|]. intros [->|Hi]; [eauto|]. destruct (IH Hi) as (x & ? & ?). eauto. Qed.

Lemma fold_r_map {A B C} (f : A -> C -> result exn A) (g : B -> C) l : forall acc,
  fold_r f acc (map g l) = fold_r (fun a x => f a (g x)) acc l.
Proof. induction l as [|x l IH]; intros acc; cbn; [reflexivity|]. destruct (f acc (g x)); cbn; [apply IH | reflexivity]. Qed.


(** ** Sorted lists *)
Lemma StronglySorted_weaken {A} (R S : A -> A -> Prop) l : (forall a b, R a b -> S a b) -> StronglySorted R l -> StronglySorted S l.
Proof. intros H. induction 1 as [|x l _ IH Hx]; constructor; [exact IH|]. eapply Forall_impl; [exact Hx | auto]. Qed.
Lemma StronglySorted_app {A} (R : A -> A -> Prop) l1 l2 : StronglySorted R (l1 ++ l2) ->
  StronglySorted R l1 /\ StronglySorted R l2 /\ forall x y, In x l1 -> In y l2 -> R x y.
Proof.
  induction l1 as [|a l1 IH]; cbn; [intros H; repeat split; [constructor | exact H | tauto]|].
  inversion 1 as [|? ? Hs Hf]; subst. destruct (IH Hs) as (H1 & H2 & H3). apply Forall_app in Hf as [F1 F2].
  repeat split; [now constructor | exact H2|]. intros x y [<-|Hx] Hy; [|now apply H3]. rewrite Forall_forall in F2. apply F2. now apply list_elem_of_In.
Qed.
Lemma StronglySorted_snoc {A} (R : A -> A -> Prop) l x : StronglySorted R l -> Forall (fun y => R y x) l -> StronglySorted R (l ++ [x]).
Proof.
  induction 1 as [|y l Hl IH Hy]; cbn; [repeat constructor|]. inversion 1 as [|? ? Hx Hr]; subst. constructor; [now apply IH|].
  apply Forall_app. split; [exact Hy | now repeat constructor].
Qed.
Lemma StronglySorted_rev {A} (R : A -> A -> Prop) l : StronglySorted R l -> StronglySorted (fun a b => R b a) (rev l).
Proof.
  induction 1 as [|x l _ IH Hx]; cbn; [constructor|]. apply StronglySorted_snoc; [exact IH|]. now rewrite <- Permutation_rev.
Qed.
Lemma StronglySorted_filter {A} (R : A -> A -> Prop) p l : StronglySorted R l -> StronglySorted R (List.filter p l).
Proof.
  induction 1 as [|x l _ IH Hx]; cbn; [constructor|]. destruct (p x); [|exact IH]. constructor; [exact IH|].
  apply List.Forall_forall. intros y Hy. apply List.filter_In in Hy as [Hy _]. rewrite List.Forall_forall in Hx. auto.
Qed.
