(* ===== verification/PyStr.v ===== *)
(** * Python strings

    The string operations of Python's standard library that the modelled code
    uses, on [Stdlib]'s [string] (the ASCII fragment of [str]): case, strip,
    split, prefix tests, decimal conversions, and [sorted(set(...))]. *)
From S2P Require Import Prelude.
From stdpp Require Import pretty.
From Stdlib Require Import Ascii.

#[global] Open Scope string_scope.
#[global] Open Scope list_scope.
#[global] Open Scope Z_scope.

Definition truthy (s : string) : bool := negb (String.eqb s "").

(** [a or b] on strings and on optional strings. *)
Definition str_or (a b : string) : string := if truthy a then a else b.
Definition opt_truthy (o : option string) : bool :=
  match o with Some s => truthy s | None => false end.
Definition opt_str_or (a b : option string) : option string := if opt_truthy a then a else b.

Definition ascii_between (lo hi : nat) (c : ascii) : bool :=
  ((lo <=? nat_of_ascii c) && (nat_of_ascii c <=? hi))%nat.
Definition is_lower (c : ascii) : bool := ascii_between 97 122 c.
Definition is_upper (c : ascii) : bool := ascii_between 65 90 c.
Definition is_digit (c : ascii) : bool := ascii_between 48 57 c.
Definition is_alnum (c : ascii) : bool := is_lower c || is_upper c || is_digit c.
(** [str.isspace] on ASCII: tab to carriage return, the four separators, space. *)
Definition is_space (c : ascii) : bool :=
  ascii_between 9 13 c || ascii_between 28 31 c || (nat_of_ascii c =? 32)%nat.

Definition ascii_lower (c : ascii) : ascii :=
  if is_upper c then ascii_of_nat (nat_of_ascii c + 32) else c.
Definition ascii_upper (c : ascii) : ascii :=
  if is_lower c then ascii_of_nat (nat_of_ascii c - 32) else c.

Fixpoint str_map (f : ascii -> ascii) (s : string) : string :=
  match s with
  | EmptyString => EmptyString
  | String c r => String (f c) (str_map f r)
  end.
Definition lower : string -> string := str_map ascii_lower.
Definition upper : string -> string := str_map ascii_upper.

Fixpoint chars (s : string) : list ascii :=
  match s with EmptyString => [] | String c r => c :: chars r end.
Fixpoint unchars (l : list ascii) : string :=
  match l with [] => EmptyString | c :: r => String c (unchars r) end.

Fixpoint drop_while (p : ascii -> bool) (l : list ascii) : list ascii :=
  match l with
  | [] => []
  | c :: r => if p c then drop_while p r else l
  end.
Definition strip_chars (p : ascii -> bool) (s : string) : string :=
  unchars (rev (drop_while p (rev (drop_while p (chars s))))).
Definition strip : string -> string := strip_chars is_space.

(** [s.split(sep)] for a one-character separator. *)
Fixpoint split_go (sep : ascii) (cur : list ascii) (l : list ascii) : list string :=
  match l with
  | [] => [unchars (rev cur)]
  | c :: r =>
      if Ascii.eqb c sep then unchars (rev cur) :: split_go sep [] r
      else split_go sep (c :: cur) r
  end.
Definition split (sep : ascii) (s : string) : list string := split_go sep [] (chars s).

Definition startswith (p s : string) : bool := String.prefix p s.
(** [s[n:]] *)
Definition str_drop (n : nat) (s : string) : string := unchars (drop n (chars s)).
(** [s[:n]] *)
Definition str_take (n : nat) (s : string) : string := unchars (take n (chars s)).
Definition str_len (s : string) : Z := Z.of_nat (String.length s).

(** [str(n)] *)
Definition str_of_Z (n : Z) : string := pretty n.

(** [int(s)]: surrounding blanks, a sign, digits with single underscores
    between them. *)
Definition digit_val (c : ascii) : Z := Z.of_nat (nat_of_ascii c) - 48.
Fixpoint int_digits (acc : Z) (l : list ascii) : option Z :=
  match l with
  | [] => Some acc
  | c :: r =>
      if is_digit c then int_digits (acc * 10 + digit_val c) r
      else if Ascii.eqb c "_" then
        match r with
        | d :: _ => if is_digit d then int_digits acc r else None
        | [] => None
        end
      else None
  end.
Definition int_unsigned (l : list ascii) : option Z :=
  match l with
  | c :: _ => if is_digit c then int_digits 0 l else None
  | [] => None
  end.
Definition py_int (s : string) : option Z :=
  match chars (strip s) with
  | "-"%char :: r => Z.opp <$> int_unsigned r
  | "+"%char :: r => int_unsigned r
  | l => int_unsigned l
  end.

(** [s in (...)] *)
Definition str_in (s : string) (l : list string) : bool := existsb (String.eqb s) l.
(** [needle in s] *)
Definition contains (needle s : string) : bool := match String.index 0 needle s with Some _ => true | None => false end.

(** [s.splitlines()], with an empty last line when the text ends in a break. *)
Definition is_linebreak (c : ascii) : bool := ascii_between 10 13 c || ascii_between 28 30 c.
Fixpoint split_lines (cur : list ascii) (l : list ascii) : list string :=
  match l with
  | [] => [unchars (rev cur)]
  | c :: r => if is_linebreak c then unchars (rev cur) :: split_lines [] r else split_lines (c :: cur) r
  end.

(** [sorted(set(l))] *)
Definition sorted_set (l : list string) : list string := merge_sort String.le (remove_dups l).

#[global] Arguments sorted_set : simpl never.
#[global] Arguments lower : simpl never.
#[global] Arguments upper : simpl never.
#[global] Arguments strip : simpl never.
#[global] Arguments split : simpl never.
#[global] Arguments py_int : simpl never.
#[global] Arguments str_of_Z : simpl never.

Lemma elem_of_sorted_set l s : s ∈ sorted_set l <-> s ∈ l.
Proof.
  unfold sorted_set. rewrite merge_sort_Permutation. apply elem_of_remove_dups.
Qed.

Lemma NoDup_sorted_set l : NoDup (sorted_set l).
Proof. unfold sorted_set. rewrite merge_sort_Permutation. apply NoDup_remove_dups. Qed.

Lemma Sorted_sorted_set l : StronglySorted String.le (sorted_set l).
Proof. apply StronglySorted_merge_sort; apply _. Qed.

Lemma chars_unchars l : chars (unchars l) = l.
Proof. induction l; cbn; congruence. Qed.

Lemma unchars_chars s : unchars (chars s) = s.
Proof. induction s; cbn; congruence. Qed.

Lemma truthy_spec s : truthy s = true <-> s <> "".
Proof. unfold truthy. rewrite negb_true_iff. apply String.eqb_neq. Qed.

Lemma str_in_spec s l : str_in s l = true <-> In s l.
Proof.
  unfold str_in. rewrite existsb_exists. split.
  - intros (x & Hx & E). apply String.eqb_eq in E. congruence.
  - intros H. exists s. split; [exact H | apply String.eqb_refl].
Qed.

(** ** [int(str(n)) = n] *)
Lemma drop_while_none p l : forallb (fun c => negb (p c)) l = true -> drop_while p l = l.
Proof. destruct l as [|c r]; cbn; [auto|]. intros [H _]%andb_prop. apply negb_true_iff in H. now rewrite H. Qed.

Lemma strip_chars_none p s :
  forallb (fun c => negb (p c)) (chars s) = true -> strip_chars p s = s.
Proof.
  intros H. unfold strip_chars. rewrite (drop_while_none p (chars s)) by exact H.
  rewrite drop_while_none; [now rewrite rev_involutive, unchars_chars|].
  apply forallb_forall. intros c Hc. rewrite forallb_forall in H. apply H. now apply in_rev.
Qed.

Lemma is_digit_not_space c : is_digit c = true -> is_space c = false.
Proof.
  unfold is_digit, is_space, ascii_between. intros H. apply andb_prop in H as [H1 H2].
  apply Nat.leb_le in H1, H2.
  rewrite (proj2 (Nat.leb_gt (nat_of_ascii c) 13)), (proj2 (Nat.leb_gt (nat_of_ascii c) 31)),
    (proj2 (Nat.eqb_neq (nat_of_ascii c) 32)) by lia. now rewrite !andb_false_r.
Qed.

Lemma strip_digits s : forallb is_digit (chars s) = true -> strip s = s.
Proof.
  intros H. apply strip_chars_none. rewrite forallb_forall in *. intros c Hc.
  now rewrite is_digit_not_space by auto.
Qed.

Lemma pretty_N_char_digit n :
  (n < 10)%N -> is_digit (pretty_N_char n) = true /\ digit_val (pretty_N_char n) = Z.of_N n.
Proof.
  intros H. destruct n as [|p]; [now vm_compute|].
  do 4 (destruct p as [p|p|]; try (now vm_compute); try lia).
Qed.

Lemma pretty_N_go_digits x : forall s,
  forallb is_digit (chars s) = true ->
  forallb is_digit (chars (pretty_N_go x s)) = true /\
  int_digits 0 (chars (pretty_N_go x s)) = int_digits (Z.of_N x) (chars s).
Proof.
  induction (N.lt_wf_0 x) as [x _ IH]. intros s Hs.
  destruct (decide (0 < x)%N) as [Hx|Hx].
  - rewrite pretty_N_go_step by exact Hx.
    assert (x `mod` 10 < 10)%N as Hm by (apply N.mod_lt; lia).
    destruct (pretty_N_char_digit _ Hm) as [Hd Hv].
    destruct (IH (x `div` 10)%N ltac:(apply N.div_lt; lia)
                (String (pretty_N_char (x `mod` 10)) s)) as [H1 H2].
    { cbn [chars forallb]. now rewrite Hd, Hs. }
    split; [exact H1|]. rewrite H2. cbn [chars int_digits]. rewrite Hd, Hv. f_equal.
    pose proof (N.div_mod x 10). lia.
  - replace x with 0%N by lia. now rewrite pretty_N_go_0.
Qed.

Lemma pretty_N_digits x :
  forallb is_digit (chars (pretty x)) = true /\ int_digits 0 (chars (pretty x)) = Some (Z.of_N x)
  /\ pretty x <> "".
Proof.
  unfold pretty, pretty_N. case_decide as Hx; [subst; now vm_compute|].
  destruct (pretty_N_go_digits x "" eq_refl) as [H1 H2].
  split; [exact H1|]. split; [exact H2|]. intros E. rewrite E in H2. cbn in H2.
  injection H2 as H2. lia.
Qed.

Lemma int_unsigned_pretty x : int_unsigned (chars (pretty x)) = Some (Z.of_N x).
Proof.
  destruct (pretty_N_digits x) as (H1 & H2 & H3). unfold int_unsigned.
  destruct (chars (pretty x)) as [|c r] eqn:E; [now destruct (pretty x)|].
  cbn in H1. apply andb_prop in H1 as [Hc _]. now rewrite Hc.
Qed.

(** Decimal text of an integer reads back as that integer. *)
Lemma py_int_str_of_Z n : py_int (str_of_Z n) = Some n.
Proof.
  unfold py_int, str_of_Z. destruct n as [|p|p]; [reflexivity| |].
  - change (pretty (Z.pos p)) with (pretty (N.pos p)).
    destruct (pretty_N_digits (N.pos p)) as (H1 & _ & _). rewrite strip_digits by exact H1.
    pose proof (int_unsigned_pretty (N.pos p)) as Hu. destruct (chars _) as [|c r]; [discriminate|].
    cbn in H1. apply andb_prop in H1 as [Hc _].
    destruct (Ascii.eqb_spec c "-"%char) as [->|H1]; [discriminate|].
    destruct (Ascii.eqb_spec c "+"%char) as [->|H2]; [discriminate|].
    destruct c as [[] [] [] [] [] [] [] []]; first [exact Hu | congruence].
  - change (pretty (Z.neg p)) with ("-" +:+ pretty (N.pos p)).
    destruct (pretty_N_digits (N.pos p)) as (H1 & _ & _).
    unfold strip. rewrite strip_chars_none.
    + change (Z.opp <$> int_unsigned (chars (pretty (N.pos p))) = Some (Z.neg p)).
      now rewrite int_unsigned_pretty.
    + change (forallb (fun c => negb (is_space c)) (chars (pretty (N.pos p))) = true).
      rewrite forallb_forall in *. intros c Hc. rewrite is_digit_not_space; auto.
Qed.
