(* ===== verification/PyFloat.v ===== *)
(** * Python floats

    [float] is IEEE 754 binary64, taken from the Standard Library's
    executable specification [SpecFloat] (precision 53, maximal exponent
    1024): no axioms, and every operation computes.  The comparison lemmas
    view a non-NaN float through a lexicographic key, which gives the total
    preorder the sorting and [min]/[max] arguments need. *)
From S2P Require Import Prelude.
From Stdlib Require Import SpecFloat.

Definition float : Type := spec_float.
Definition prec : Z := 53.
Definition emax : Z := 1024.

Definition f_add : float -> float -> float := SFadd prec emax.
Definition f_sub : float -> float -> float := SFsub prec emax.
Definition f_mul : float -> float -> float := SFmul prec emax.
Definition f_div : float -> float -> float := SFdiv prec emax.
Definition f_sqrt : float -> float := SFsqrt prec emax.
Definition f_opp : float -> float := SFopp.
Definition f_abs : float -> float := SFabs.
Definition f_ltb : float -> float -> bool := SFltb.
Definition f_leb : float -> float -> bool := SFleb.
Definition f_eqb : float -> float -> bool := SFeqb.
Definition f_gtb (x y : float) : bool := f_ltb y x.
Definition f_geb (x y : float) : bool := f_leb y x.
Definition f_zero : float := S754_zero false.

(** [float(n)] for an integer, correctly rounded. *)
Definition f_of_Z (n : Z) : float := binary_normalize prec emax n 0 false.
(** The literal [m * 10^-k] for [m < 2^53] and [k <= 22]: both operands are
    exact, so the quotient is the correctly rounded decimal. *)
Definition f_dec (m : Z) (k : Z) : float := f_div (f_of_Z m) (f_of_Z (10 ^ k)).

(** Python's [max(a, b)] and [min(a, b)]: the second argument wins only when
    it compares strictly. *)
Definition f_max (a b : float) : float := if f_ltb a b then b else a.
Definition f_min (a b : float) : float := if f_ltb b a then b else a.

(** [int(x)]: towards zero; [None] where Python raises (infinities, NaN). *)
Definition f_trunc (x : float) : option Z :=
  match x with
  | S754_zero _ => Some 0
  | S754_finite s m e =>
      let a := if 0 <=? e then Zpos m * 2 ^ e else Zpos m / 2 ^ (- e) in
      Some (if s then - a else a)
  | _ => None
  end.

Definition f_is_nan (x : float) : bool := match x with S754_nan => true | _ => false end.

#[global] Instance float_eq_dec : EqDecision float.
Proof. solve_decision. Defined.

(** ** The order of non-NaN floats *)
Definition f_key (x : float) : Z * Z * Z :=
  match x with
  | S754_zero _ => (0, 0, 0)
  | S754_infinity false => (2, 0, 0)
  | S754_infinity true => (-2, 0, 0)
  | S754_nan => (0, 0, 0)
  | S754_finite false m e => (1, e, Zpos m)
  | S754_finite true m e => (-1, - e, Zneg m)
  end.
Definition key_lt (a b : Z * Z * Z) : Prop :=
  let '(a1, a2, a3) := a in let '(b1, b2, b3) := b in
  a1 < b1 \/ (a1 = b1 /\ (a2 < b2 \/ (a2 = b2 /\ a3 < b3))).

Definition f_num (x : float) : Prop := f_is_nan x = false.
Definition f_le (x y : float) : Prop := ~ key_lt (f_key y) (f_key x).

Lemma pos_compare_cont_cases m n :
  match Pos.compare_cont Eq m n with
  | Lt => Zpos m < Zpos n | Eq => m = n | Gt => Zpos n < Zpos m
  end.
Proof.
  change (Pos.compare_cont Eq m n) with (Pos.compare m n).
  destruct (Pos.compare_spec m n); lia.
Qed.

Lemma SFcompare_key x y : f_num x -> f_num y ->
  match SFcompare x y with
  | Some Lt => key_lt (f_key x) (f_key y)
  | Some Eq => f_key x = f_key y
  | Some Gt => key_lt (f_key y) (f_key x)
  | None => False
  end.
Proof.
  destruct x as [sx|[]| |[] mx ex], y as [sy|[]| |[] my ey]; unfold f_num; cbn;
    intros Hx Hy; try discriminate; try reflexivity; try lia;
    destruct (Z.compare_spec ex ey) as [->|He|He]; cbn; try lia;
    pose proof (pos_compare_cont_cases mx my) as Hm;
    destruct (Pos.compare_cont Eq mx my); cbn; subst; first [reflexivity | lia].
Qed.

Lemma f_ltb_key x y : f_num x -> f_num y ->
  f_ltb x y = true <-> key_lt (f_key x) (f_key y).
Proof.
  intros Hx Hy. pose proof (SFcompare_key x y Hx Hy) as H. unfold f_ltb, SFltb.
  destruct (f_key x) as [[a b] c], (f_key y) as [[a' b'] c']. cbn in *.
  destruct (SFcompare x y) as [[]|]; try (injection H as <- <- <-);
    (split; [intros K | intros K]); try discriminate; try reflexivity; try tauto; lia.
Qed.

Lemma f_ltb_nan_l x y : f_ltb x y = true -> f_num x /\ f_num y.
Proof. unfold f_num. destruct x as [|[]| |[]], y as [|[]| |[]]; cbn; auto; discriminate. Qed.

Lemma f_leb_key x y : f_num x -> f_num y ->
  f_leb x y = true <-> ~ key_lt (f_key y) (f_key x).
Proof.
  intros Hx Hy. pose proof (SFcompare_key x y Hx Hy) as H. unfold f_leb, SFleb.
  destruct (f_key x) as [[a b] c], (f_key y) as [[a' b'] c']. cbn in *.
  destruct (SFcompare x y) as [[]|]; try (injection H as <- <- <-);
    (split; [intros K | intros K]); try discriminate; try reflexivity; try tauto; lia.
Qed.

Lemma f_leb_num x y : f_leb x y = true -> f_num x /\ f_num y.
Proof. unfold f_num. destruct x as [|[]| |[]], y as [|[]| |[]]; cbn; auto; discriminate. Qed.

Lemma f_leb_refl x : f_num x -> f_leb x x = true.
Proof.
  intros Hx. apply f_leb_key; auto. destruct (f_key x) as [[a b] c]. cbn. lia.
Qed.

Lemma f_leb_trans x y z : f_leb x y = true -> f_leb y z = true -> f_leb x z = true.
Proof.
  intros H1 H2. destruct (f_leb_num _ _ H1) as [Hx Hy], (f_leb_num _ _ H2) as [_ Hz].
  rewrite f_leb_key in * by assumption.
  destruct (f_key x) as [[a b] c], (f_key y) as [[a' b'] c'], (f_key z) as [[a2 b2] c2].
  cbn in *. lia.
Qed.

Lemma f_leb_total x y : f_num x -> f_num y -> f_leb x y = true \/ f_leb y x = true.
Proof.
  intros Hx Hy. rewrite !f_leb_key by assumption.
  destruct (f_key x) as [[a b] c], (f_key y) as [[a' b'] c']. cbn. lia.
Qed.

Lemma f_ltb_leb x y : f_ltb x y = true -> f_leb x y = true.
Proof.
  intros H. destruct (f_ltb_nan_l _ _ H) as [Hx Hy].
  rewrite f_leb_key by assumption. rewrite f_ltb_key in H by assumption.
  destruct (f_key x) as [[a b] c], (f_key y) as [[a' b'] c']. cbn in *. lia.
Qed.

Lemma f_ltb_false x y : f_num x -> f_num y -> f_ltb x y = false -> f_leb y x = true.
Proof.
  intros Hx Hy H. rewrite f_leb_key by assumption. intros Hk.
  apply f_ltb_key in Hk; auto. congruence.
Qed.

Lemma f_max_ub a b : f_num a -> f_num b ->
  f_leb a (f_max a b) = true /\ f_leb b (f_max a b) = true /\ f_num (f_max a b).
Proof.
  intros Ha Hb. unfold f_max. destruct (f_ltb a b) eqn:E.
  - auto using f_ltb_leb, f_leb_refl.
  - auto using f_ltb_false, f_leb_refl.
Qed.

Lemma f_min_lb a b : f_num a -> f_num b ->
  f_leb (f_min a b) a = true /\ f_leb (f_min a b) b = true /\ f_num (f_min a b).
Proof.
  intros Ha Hb. unfold f_min. destruct (f_ltb b a) eqn:E.
  - auto using f_ltb_leb, f_leb_refl.
  - auto using f_ltb_false, f_leb_refl.
Qed.

#[global] Arguments f_add : simpl never.
#[global] Arguments f_sub : simpl never.
#[global] Arguments f_mul : simpl never.
#[global] Arguments f_div : simpl never.
#[global] Arguments f_ltb : simpl never.
#[global] Arguments f_leb : simpl never.
#[global] Arguments f_eqb : simpl never.
#[global] Arguments f_max : simpl never.
#[global] Arguments f_min : simpl never.

(** ** [==] on floats is a partial equivalence: a NaN is not equal to itself *)
Lemma f_eqb_key x y : f_eqb x y = true <-> f_num x /\ f_num y /\ f_key x = f_key y.
Proof.
  split.
  - intros H. assert (f_num x /\ f_num y) as [Hx Hy]
      by (unfold f_num; destruct x as [|[]| |[]], y as [|[]| |[]]; cbn; auto; discriminate).
    split; [exact Hx|]. split; [exact Hy|]. pose proof (SFcompare_key x y Hx Hy) as K.
    unfold f_eqb, SFeqb in H. destruct (SFcompare x y) as [[]|]; try discriminate. exact K.
  - intros (Hx & Hy & E). pose proof (SFcompare_key x y Hx Hy) as K. unfold f_eqb, SFeqb. rewrite E in K.
    destruct (f_key y) as [[a b] c]. destruct (SFcompare x y) as [[]|]; cbn in K; try reflexivity; try tauto; lia.
Qed.
Lemma f_eqb_refl x : f_num x -> f_eqb x x = true.
Proof. intros. now apply f_eqb_key. Qed.
Lemma f_eqb_sym x y : f_eqb x y = f_eqb y x.
Proof.
  apply eq_true_iff_eq. rewrite !f_eqb_key. intuition congruence.
Qed.
Lemma f_eqb_trans x y z : f_eqb x y = true -> f_eqb y z = true -> f_eqb x z = true.
Proof. rewrite !f_eqb_key. intuition congruence. Qed.
