(* ===== verification/PyNum.v ===== *)
(** * Arithmetic that can raise, and least elements

    Python's number operations with their exceptions: division, the conversion
    of an integer to a float, [int / int] correctly rounded, [int(x)], the
    functions of [math]; and [min(l, key=...)] for a strict order.
    [math.log], [math.exp] and [math.erf] belong to the platform's C library:
    they are the class [Libm]. *)
From S2P Require Import Prelude PyStr PyFloat.
From Stdlib Require Import SpecFloat.

(** ** Arithmetic that can raise *)
Definition OverflowError (m : string) : exn := OtherError "OverflowError" m.
Definition TypeError (m : string) : exn := OtherError "TypeError" m.
Definition AttributeError (m : string) : exn := OtherError "AttributeError" m.
(** [a / b] on floats. *)
Definition py_div (a b : float) : result exn float := if f_eqb b f_zero then Err ZeroDivisionError else Ok (f_div a b).
(** [float(n)], the conversion inside [x * n]. *)
Definition py_float_of_int (n : Z) : result exn float :=
  match f_of_Z n with
  | S754_infinity _ => Err (OverflowError "int too large to convert to float")
  | x => Ok x
  end.
(** [a / b] on integers: the correctly rounded quotient. *)
Definition int_div (a b : Z) : result exn float :=
  if b =? 0 then Err ZeroDivisionError
  else if a =? 0 then Ok (S754_zero (b <? 0))
  else
    let '(q, e, l) := SFdiv_core_binary prec emax (Z.abs a) 0 (Z.abs b) 0 in
    match binary_round_aux prec emax (xorb (a <? 0) (b <? 0)) q e l with
    | S754_infinity _ => Err (OverflowError "integer division result too large for a float")
    | x => Ok x
    end.
(** [int(x)] *)
Definition py_int_of_float (x : float) : result exn Z :=
  match f_trunc x with
  | Some n => Ok n
  | None => Err (if f_is_nan x then ValueError "cannot convert float NaN to integer"
                 else OverflowError "cannot convert float infinity to integer")
  end.

Class Libm : Type := { c_log : float -> float; c_exp : float -> float; c_erf : float -> float }.
Section libm.
Context `{Libm}.
Definition is_inf (x : float) : bool := match x with S754_infinity _ => true | _ => false end.
Definition m_log (x : float) : result exn float :=
  if f_leb x f_zero then Err (ValueError "math domain error") else Ok (c_log x).
Definition m_exp (x : float) : result exn float :=
  if is_inf (c_exp x) && negb (is_inf x) then Err (OverflowError "math range error") else Ok (c_exp x).
Definition m_sqrt (x : float) : result exn float :=
  if f_ltb x f_zero then Err (ValueError "math domain error") else Ok (f_sqrt x).
End libm.
(** The double nearest to pi. *)
Definition pi : float := S754_finite false 7074237752028440 (-51).
Definition f_one : float := f_of_Z 1.
Definition f_two : float := f_of_Z 2.
Definition half : float := f_dec 5 1.

(** [min(l, key=...)]: the first of the least for a strict order. *)
Fixpoint min_lt {A} (ltb : A -> A -> bool) (best : A) (l : list A) : A :=
  match l with
  | [] => best
  | x :: r => min_lt ltb (if ltb x best then x else best) r
  end.
(** [(a, b) < (c, d)] on float pairs. *)
Definition pair_ltb (x y : float * float) : bool :=
  if f_eqb (fst x) (fst y) then f_ltb (snd x) (snd y) else f_ltb (fst x) (fst y).

(** [min(l)] and [max(l)] of a non-empty list of floats. *)
Definition min_float (x : float) (l : list float) : float := min_lt f_ltb x l.
Definition max_float (x : float) (l : list float) : float := min_lt (fun a b => f_ltb b a) x l.

(** ** The least element of a list *)
Section min_lt_lemmas.
Context {A : Type} (ltb : A -> A -> bool).
Context (irrefl : forall a, ltb a a = false) (trans : forall a b c, ltb a b = true -> ltb b c = true -> ltb a c = true).
Lemma min_lt_In l : forall best, In (min_lt ltb best l) (best :: l).
Proof.
  induction l as [|x l IH]; intros best; cbn [min_lt]; [now left|].
  destruct (IH (if ltb x best then x else best)) as [E|Hi]; [|right; now right].
  rewrite <- E. destruct (ltb x best); [right; now left | now left].
Qed.
Lemma min_lt_below l : forall best, min_lt ltb best l = best \/ ltb (min_lt ltb best l) best = true.
Proof.
  induction l as [|x l IH]; intros best; cbn; [now left|]. destruct (ltb x best) eqn:E; [|apply IH]. right.
  destruct (IH x) as [->|H]; [exact E | eapply trans; eauto].
Qed.
Lemma min_lt_least l : forall best x, In x (best :: l) -> ltb x (min_lt ltb best l) = false.
Proof.
  induction l as [|y l IH]; intros best x; cbn [min_lt]; [intros [->|[]]; apply irrefl|].
  assert (forall b, b = best \/ b = y -> ltb b (min_lt ltb (if ltb y best then y else best) l) = false) as H.
  { set (b' := if ltb y best then y else best). intros b Hb. destruct (ltb b (min_lt ltb b' l)) eqn:E; [|reflexivity].
    assert (ltb b b' = true) as Hbb by (destruct (min_lt_below l b') as [<-|]; [exact E | eapply trans; eauto]).
    assert (b' = best \/ b' = y) as Hb' by (unfold b'; destruct (ltb y best); auto). unfold b' in Hbb.
    destruct (ltb y best) eqn:Ey; destruct Hb as [->| ->]; rewrite ?irrefl in Hbb; try congruence.
    pose proof (trans _ _ _ Ey Hbb). rewrite irrefl in *. congruence. }
  intros [->|[->|Hi]]; [apply H; now left | apply H; now right|]. apply IH. now right.
Qed.
End min_lt_lemmas.
Lemma f_ltb_irrefl x : f_ltb x x = false.
Proof.
  destruct (f_ltb x x) eqn:E; [|reflexivity]. destruct (f_ltb_nan_l _ _ E) as [Hx _]. apply f_ltb_key in E; auto.
  destruct (f_key x) as [[a b] c]. cbn in E. lia.
Qed.
Lemma f_ltb_trans x y z : f_ltb x y = true -> f_ltb y z = true -> f_ltb x z = true.
Proof.
  intros H1 H2. destruct (f_ltb_nan_l _ _ H1) as [Hx Hy], (f_ltb_nan_l _ _ H2) as [_ Hz].
  rewrite f_ltb_key in * by assumption.
  destruct (f_key x) as [[a b] c], (f_key y) as [[a' b'] c'], (f_key z) as [[a2 b2] c2]. cbn in *. lia.
Qed.
Lemma f_eqb_ltb x y : f_eqb x y = true -> f_ltb x y = false.
Proof.
  intros (Hx & Hy & E)%f_eqb_key. destruct (f_ltb x y) eqn:L; [|reflexivity]. apply f_ltb_key in L; auto. rewrite E in L.
  destruct (f_key y) as [[a b] c]. cbn in L. lia.
Qed.
Lemma f_ltb_eqb_l x y z : f_eqb x y = true -> f_ltb x z = f_ltb y z.
Proof.
  intros (Hx & Hy & E)%f_eqb_key. apply eq_true_iff_eq. split; intros L; destruct (f_ltb_nan_l _ _ L) as [_ Hz];
    rewrite f_ltb_key in * by assumption; [now rewrite <- E | now rewrite E].
Qed.
Lemma min_float_In x l : In (min_float x l) (x :: l).
Proof. apply min_lt_In. Qed.
Lemma min_float_least x l y : In y (x :: l) -> f_ltb y (min_float x l) = false.
Proof. apply min_lt_least; [apply f_ltb_irrefl | apply f_ltb_trans]. Qed.
