(* ===== verification/Json.v ===== *)
(** * JSON values

    The dynamically typed dictionaries the orchestrator, the agent and the API
    exchange: [json.loads] results, Lambda events and responses.  An object is
    an association list in insertion order, as a Python dict is. *)
From S2P Require Import Prelude PyStr PyFloat.

Inductive json : Type :=
| JNull
| JBool (b : bool)
| JInt (n : Z)
| JFloat (x : float)
| JStr (s : string)
| JArr (l : list json)
| JObj (kvs : list (string * json)).

Fixpoint assoc (k : string) (kvs : list (string * json)) : option json :=
  match kvs with
  | [] => None
  | (k', v) :: r => if String.eqb k k' then Some v else assoc k r
  end.

(** [d[k] = v]: an existing key keeps its place. *)
Fixpoint assoc_set (k : string) (v : json) (kvs : list (string * json)) : list (string * json) :=
  match kvs with
  | [] => [(k, v)]
  | (k', v') :: r => if String.eqb k k' then (k, v) :: r else (k', v') :: assoc_set k v r
  end.

(** [{**d, **e}] *)
Definition assoc_update (d e : list (string * json)) : list (string * json) :=
  fold_left (fun acc kv => assoc_set (fst kv) (snd kv) acc) e d.

(** [d.get(k)] ([None] is [JNull]) and [d.get(k, dflt)]. *)
Definition jlookup (k : string) (j : json) : option json :=
  match j with JObj kvs => assoc k kvs | _ => None end.
Definition jget (k : string) (j : json) : json := default JNull (jlookup k j).
Definition jget_or (k : string) (dflt : json) (j : json) : json := default dflt (jlookup k j).

(** [bool(v)] *)
Definition jtruthy (j : json) : bool :=
  match j with
  | JNull => false
  | JBool b => b
  | JInt n => negb (n =? 0)
  | JFloat x => negb (f_eqb x f_zero)
  | JStr s => truthy s
  | JArr l => negb (bool_decide (l = []))
  | JObj kvs => match kvs with [] => false | _ => true end
  end.
(** [a or b] *)
Definition jor (a b : json) : json := if jtruthy a then a else b.

Definition jstr_opt (j : json) : option string :=
  match j with JStr s => Some s | _ => None end.
Definition jopt_str (o : option string) : json :=
  match o with Some s => JStr s | None => JNull end.
Definition jopt_int (o : option Z) : json :=
  match o with Some n => JInt n | None => JNull end.
Definition jis_str (s : string) (j : json) : bool :=
  match j with JStr t => String.eqb s t | _ => false end.

Lemma assoc_set_same k v kvs : assoc k (assoc_set k v kvs) = Some v.
Proof.
  induction kvs as [|[k' v'] r IH]; cbn; [now rewrite String.eqb_refl|].
  destruct (String.eqb_spec k k') as [->|Hne]; cbn.
  - now rewrite String.eqb_refl.
  - apply String.eqb_neq in Hne. now rewrite Hne.
Qed.

Lemma assoc_set_other k k' v kvs : k <> k' -> assoc k (assoc_set k' v kvs) = assoc k kvs.
Proof.
  intros Hne. assert (String.eqb k k' = false) as Hf by now apply String.eqb_neq.
  induction kvs as [|[k2 v2] r IH]; cbn; [now rewrite Hf|].
  destruct (String.eqb_spec k' k2) as [->|]; cbn; [now rewrite Hf | now rewrite IH].
Qed.

Lemma assoc_set_lookup k k' v kvs :
  assoc k (assoc_set k' v kvs) = if String.eqb k k' then Some v else assoc k kvs.
Proof.
  destruct (String.eqb_spec k k') as [->|Hne].
  - apply assoc_set_same.
  - now apply assoc_set_other.
Qed.

(** [{**d, **e}[k]]: the later dictionary wins. *)
Lemma assoc_update_lookup k e : NoDup (map fst e) -> forall d,
  assoc k (assoc_update d e) = match assoc k e with Some v => Some v | None => assoc k d end.
Proof.
  unfold assoc_update. induction e as [|[k' v] e IH]; intros Hnd d; [reflexivity|].
  cbn [map fst] in Hnd. apply NoDup_cons in Hnd as [Hk Hnd]. cbn [fold_left]. rewrite IH by exact Hnd.
  cbn [fst snd assoc]. rewrite assoc_set_lookup.
  destruct (String.eqb_spec k k') as [->|]; [|reflexivity].
  assert (assoc k' e = None) as ->; [|reflexivity].
  clear -Hk. rewrite list_elem_of_In in Hk. induction e as [|[k2 v2] e IH]; [reflexivity|]. cbn in *.
  destruct (String.eqb_spec k' k2) as [->|]; [tauto | apply IH; tauto].
Qed.

Create Rewrite HintDb json.
#[export] Hint Rewrite assoc_set_lookup : json.
