(* ===== verification/Config.v ===== *)
(** * Configuration

    [trading/core/config.py]: the environment readers and the [Settings]
    snapshot [load_settings] takes of the process environment.  The
    environment is a finite map; [int()] and [float()] may raise
    [ValueError], so the snapshot is a computation that may fail.
    [database_url] and [credentials] are left out: no modelled code reads
    them from the snapshot. *)
From S2P Require Import Prelude PyStr PyFloat.
From Stdlib Require Import SpecFloat Ascii.

Abbreviation environ := (gmap string string) (only parsing).

(** ** [float(s)]

    The decimal literal [digits.digits e exp] as the correctly rounded
    quotient of two integers. *)
Definition f_ratio (n d : positive) : float :=
  SFdiv prec emax (S754_finite false n 0) (S754_finite false d 0).
Definition dec_value (m : Z) (e : Z) : float :=
  match m with
  | Zpos p =>
      if 0 <=? e then f_of_Z (m * 10 ^ e)
      else match 10 ^ (- e) with Zpos q => f_ratio p q | _ => f_zero end
  | _ => f_zero
  end.

(** A run of digits with single underscores between them: value, number of
    digits, rest. *)
Fixpoint float_digits (acc : Z) (n : Z) (l : list ascii) : option (Z * Z * list ascii) :=
  match l with
  | [] => Some (acc, n, [])
  | c :: r =>
      if is_digit c then float_digits (acc * 10 + digit_val c) (n + 1) r
      else if Ascii.eqb c "_" then
        match r with
        | d :: _ => if (0 <? n) && is_digit d then float_digits acc n r else None
        | [] => None
        end
      else Some (acc, n, l)
  end.
Definition float_exponent (l : list ascii) : option Z :=
  match l with
  | [] => Some 0
  | c :: r =>
      if Ascii.eqb (ascii_lower c) "e" then
        match r with
        | "-"%char :: r' => Z.opp <$> int_unsigned r'
        | "+"%char :: r' => int_unsigned r'
        | _ => int_unsigned r
        end
      else None
  end.
Definition float_unsigned (l : list ascii) : option float :=
  if str_in (lower (unchars l)) ["inf"; "infinity"] then Some (S754_infinity false)
  else if String.eqb (lower (unchars l)) "nan" then Some S754_nan
  else
    match float_digits 0 0 l with
    | None => None
    | Some (m, n, "."%char :: r) =>
        match float_digits m 0 r with
        | None => None
        | Some (m', k, r') =>
            if n + k =? 0 then None
            else e ← float_exponent r'; Some (dec_value m' (e - k))
        end
    | Some (m, n, r) =>
        if n =? 0 then None else e ← float_exponent r; Some (dec_value m e)
    end.
Definition py_float (s : string) : option float :=
  match chars (strip s) with
  | "-"%char :: r => f_opp <$> float_unsigned r
  | "+"%char :: r => float_unsigned r
  | l => float_unsigned l
  end.

(** ** Environment readers *)
Definition _env (name dflt : string) (e : environ) : string := strip (default dflt (e !! name)).

Definition _env_int (name : string) (dflt : Z) : M environ exn Z := fun e =>
  match e !! name with
  | None => (Ok dflt, e)
  | Some raw =>
      if String.eqb raw "" then (Ok dflt, e)
      else match py_int raw with
           | Some n => (Ok n, e)
           | None => (Err (ValueError ("invalid literal for int(): " +:+ raw)), e)
           end
  end.

Definition _env_float (name : string) (dflt : float) : M environ exn float := fun e =>
  match e !! name with
  | None => (Ok dflt, e)
  | Some raw =>
      if String.eqb raw "" then (Ok dflt, e)
      else match py_float raw with
           | Some x => (Ok x, e)
           | None => (Err (ValueError ("could not convert string to float: " +:+ raw)), e)
           end
  end.

Definition _env_bool (name : string) (e : environ) : bool :=
  str_in (lower (_env name "" e)) ["1"; "true"; "yes"].

Definition _env_bool_default_true (name : string) (e : environ) : bool :=
  match e !! name with
  | None => true
  | Some raw =>
      if String.eqb (strip raw) "" then true
      else negb (str_in (lower (strip raw)) ["0"; "false"; "no"])
  end.

Record Settings : Type := mkSettings {
  s_app_env : string;
  s_log_level : string;
  s_trading_mode : string;
  s_broker_name : string;
  s_strategy_name : string;
  s_server_name : string;
  s_api_base_url : string;
  s_heartbeat_interval_seconds : Z;
  s_control_heartbeat_interval_seconds : Z;
  s_control_api_key : string;
  s_rate_limit_max_requests : Z;
  s_rate_limit_window_seconds : Z;
  s_auth_secret_key : string;
  s_auth_access_ttl_minutes : Z;
  s_auth_refresh_ttl_days : Z;
  s_auth_cookie_secure : bool;
  s_auth_cookie_domain : string;
  s_auth_allowed_origins : string;
  s_auth_login_max_attempts : Z;
  s_auth_login_window_seconds : Z;
  s_auth_bootstrap_admin_username : string;
  s_auth_bootstrap_admin_password : string;
  s_realtime_enabled : bool;
  s_realtime_ping_interval_seconds : Z;
  s_realtime_client_timeout_seconds : Z;
  s_market_data_enabled : bool;
  s_market_data_provider : string;
  s_market_data_timezone : string;
  s_market_data_start_time : string;
  s_market_data_stop_time : string;
  s_market_data_holidays : string;
  s_nifty_option_strike_range : Z;
  s_sensex_option_strike_range : Z;
  s_market_data_stale_seconds : Z;
  s_market_ws_update_interval_ms : Z;
  s_market_data_retention_days : Z;
  s_option_data_retention_days : Z;
  s_zerodha_enabled : bool;
  s_zerodha_api_key : string;
  s_zerodha_api_secret : string;
  s_zerodha_access_token : string;
  s_zerodha_secret_id : string;
  s_zerodha_user_id : string;
  s_zerodha_password : string;
  s_zerodha_totp_key : string;
  s_breeze_enabled : bool;
  s_breeze_api_key : string;
  s_breeze_secret_key : string;
  s_breeze_session_token : string;
  s_breeze_secret_id : string;
  s_market_data_max_backfill_days : Z;
  s_market_data_max_provider_calls : Z;
  s_options_chain_strike_window : Z;
  s_options_risk_free_rate : float;
  s_options_snapshot_cache_seconds : Z;
  s_options_intelligence_enabled : bool;
  s_stale_threshold_minutes : float;
  s_stale_check_interval_seconds : Z;
  s_disable_background_watcher : bool;
  s_day_loss_limit : float;
  s_aws_region : string;
  s_lambda_function_name : string;
  s_broker_reconnect_max_attempts : Z;
  s_broker_reconnect_backoff_seconds : float;
  s_telegram_bot_token : string;
  s_telegram_chat_id : string;
  s_alert_dedup_seconds : Z;
  s_alert_max_retries : Z;
  s_alert_retry_delay : float
}.

Definition load_settings : M environ exn Settings :=
  let! app_env := gets (fun e => _env "APP_ENV" "development" e) in
  let! log_level := gets (fun e => upper (_env "LOG_LEVEL" "INFO" e)) in
  let! trading_mode := gets (fun e => lower (_env "TRADING_MODE" "paper" e)) in
  let! broker_name := gets (fun e => lower (_env "BROKER" "paper" e)) in
  let! strategy_name := gets (fun e => _env "STRATEGY_NAME" "example_strategy" e) in
  let! server_name := gets (fun e => _env "SERVER_NAME" "local-dev" e) in
  let! api_base_url := gets (fun e => _env "API_BASE_URL" "http://127.0.0.1:8000" e) in
  let! heartbeat_interval_seconds := _env_int "HEARTBEAT_INTERVAL_SECONDS" 30 in
  let! control_heartbeat_interval_seconds := _env_int "CONTROL_HEARTBEAT_INTERVAL_SECONDS" 10 in
  let! control_api_key := gets (fun e => _env "CONTROL_API_KEY" "" e) in
  let! rate_limit_max_requests := _env_int "RATE_LIMIT_MAX_REQUESTS" 60 in
  let! rate_limit_window_seconds := _env_int "RATE_LIMIT_WINDOW_SECONDS" 60 in
  let! auth_secret_key := gets (fun e => _env "AUTH_SECRET_KEY" "" e) in
  let! auth_access_ttl_minutes := _env_int "AUTH_ACCESS_TTL_MINUTES" 15 in
  let! auth_refresh_ttl_days := _env_int "AUTH_REFRESH_TTL_DAYS" 7 in
  let! auth_cookie_secure := gets (fun e => negb (str_in (lower (_env "AUTH_COOKIE_SECURE" "true" e)) ["0"; "false"; "no"])) in
  let! auth_cookie_domain := gets (fun e => _env "AUTH_COOKIE_DOMAIN" "" e) in
  let! auth_allowed_origins := gets (fun e => _env "AUTH_ALLOWED_ORIGINS" "" e) in
  let! auth_login_max_attempts := _env_int "AUTH_LOGIN_MAX_ATTEMPTS" 5 in
  let! auth_login_window_seconds := _env_int "AUTH_LOGIN_WINDOW_SECONDS" 300 in
  let! auth_bootstrap_admin_username := gets (fun e => _env "AUTH_BOOTSTRAP_ADMIN_USERNAME" "" e) in
  let! auth_bootstrap_admin_password := gets (fun e => _env "AUTH_BOOTSTRAP_ADMIN_PASSWORD" "" e) in
  let! realtime_enabled := gets (fun e => negb (str_in (lower (_env "REALTIME_ENABLED" "true" e)) ["0"; "false"; "no"])) in
  let! realtime_ping_interval_seconds := _env_int "REALTIME_PING_INTERVAL_SECONDS" 25 in
  let! realtime_client_timeout_seconds := _env_int "REALTIME_CLIENT_TIMEOUT_SECONDS" 60 in
  let! market_data_enabled := gets (_env_bool "MARKET_DATA_ENABLED") in
  let! market_data_provider := gets (fun e => lower (_env "MARKET_DATA_PROVIDER" "zerodha" e)) in
  let! market_data_timezone := gets (fun e => _env "MARKET_DATA_TIMEZONE" "Asia/Kolkata" e) in
  let! market_data_start_time := gets (fun e => _env "MARKET_DATA_START_TIME" "09:10" e) in
  let! market_data_stop_time := gets (fun e => _env "MARKET_DATA_STOP_TIME" "15:45" e) in
  let! market_data_holidays := gets (fun e => _env "MARKET_DATA_HOLIDAYS" "" e) in
  let! nifty_option_strike_range := _env_int "NIFTY_OPTION_STRIKE_RANGE" 10 in
  let! sensex_option_strike_range := _env_int "SENSEX_OPTION_STRIKE_RANGE" 10 in
  let! market_data_stale_seconds := _env_int "MARKET_DATA_STALE_SECONDS" 10 in
  let! market_ws_update_interval_ms := _env_int "MARKET_WS_UPDATE_INTERVAL_MS" 1000 in
  let! market_data_retention_days := _env_int "MARKET_DATA_RETENTION_DAYS" 365 in
  let! option_data_retention_days := _env_int "OPTION_DATA_RETENTION_DAYS" 180 in
  let! zerodha_enabled := gets (_env_bool "ZERODHA_ENABLED") in
  let! zerodha_api_key := gets (fun e => str_or (_env "ZERODHA_API_KEY" "" e) (_env "KITE_API_KEY" "" e)) in
  let! zerodha_api_secret := gets (fun e => str_or (_env "ZERODHA_API_SECRET" "" e) (_env "KITE_API_SECRET" "" e)) in
  let! zerodha_access_token := gets (fun e => str_or (_env "ZERODHA_ACCESS_TOKEN" "" e) (_env "KITE_ACCESS_TOKEN" "" e)) in
  let! zerodha_secret_id := gets (fun e => str_or (_env "ZERODHA_SECRET_ID" "" e) (_env "KITE_SECRET_ID" "" e)) in
  let! zerodha_user_id := gets (fun e => str_or (_env "ZERODHA_USER_ID" "" e) (_env "KITE_USER_ID" "" e)) in
  let! zerodha_password := gets (fun e => str_or (_env "ZERODHA_PASSWORD" "" e) (_env "KITE_PASSWORD" "" e)) in
  let! zerodha_totp_key := gets (fun e => str_or (_env "ZERODHA_TOTP_KEY" "" e) (str_or (_env "ZERODHA_TOTP_SECRET" "" e) (_env "KITE_TOTP_KEY" "" e))) in
  let! breeze_enabled := gets (_env_bool "BREEZE_ENABLED") in
  let! breeze_api_key := gets (fun e => str_or (_env "BREEZE_API_KEY" "" e) (_env "ICICI_BREEZE_API_KEY" "" e)) in
  let! breeze_secret_key := gets (fun e => str_or (_env "BREEZE_SECRET_KEY" "" e) (_env "ICICI_BREEZE_API_SECRET" "" e)) in
  let! breeze_session_token := gets (fun e => str_or (_env "BREEZE_SESSION_TOKEN" "" e) (_env "ICICI_BREEZE_SESSION_TOKEN" "" e)) in
  let! breeze_secret_id := gets (fun e => _env "BREEZE_SECRET_ID" "" e) in
  let! market_data_max_backfill_days := _env_int "MARKET_DATA_MAX_BACKFILL_DAYS" 30 in
  let! market_data_max_provider_calls := _env_int "MARKET_DATA_MAX_PROVIDER_CALLS" 5 in
  let! options_chain_strike_window := _env_int "OPTIONS_CHAIN_STRIKE_WINDOW" 5 in
  let! options_risk_free_rate := _env_float "OPTIONS_RISK_FREE_RATE" (f_dec 65 3) in
  let! options_snapshot_cache_seconds := _env_int "OPTIONS_SNAPSHOT_CACHE_SECONDS" 5 in
  let! options_intelligence_enabled := gets (_env_bool_default_true "OPTIONS_INTELLIGENCE_ENABLED") in
  let! stale_threshold_minutes := _env_float "STALE_THRESHOLD_MINUTES" (f_dec 20 1) in
  let! stale_check_interval_seconds := _env_int "STALE_CHECK_INTERVAL_SECONDS" 60 in
  let! disable_background_watcher := gets (_env_bool "DISABLE_BACKGROUND_WATCHER") in
  let! day_loss_limit := _env_float "DAY_LOSS_LIMIT" (f_dec 100000 1) in
  let! aws_region := gets (fun e => _env "AWS_REGION" "" e) in
  let! lambda_function_name := gets (fun e => _env "LAMBDA_FUNCTION_NAME" "" e) in
  let! broker_reconnect_max_attempts := _env_int "BROKER_RECONNECT_MAX_ATTEMPTS" 5 in
  let! broker_reconnect_backoff_seconds := _env_float "BROKER_RECONNECT_BACKOFF_SECONDS" (f_dec 20 1) in
  let! telegram_bot_token := gets (fun e => _env "TELEGRAM_BOT_TOKEN" "" e) in
  let! telegram_chat_id := gets (fun e => _env "TELEGRAM_CHAT_ID" "" e) in
  let! alert_dedup_seconds := _env_int "ALERT_DEDUP_SECONDS" 120 in
  let! alert_max_retries := _env_int "ALERT_MAX_RETRIES" 3 in
  let! alert_retry_delay := _env_float "ALERT_RETRY_DELAY" (f_dec 20 1) in
  ret (mkSettings app_env log_level trading_mode broker_name strategy_name server_name api_base_url heartbeat_interval_seconds control_heartbeat_interval_seconds control_api_key rate_limit_max_requests rate_limit_window_seconds auth_secret_key auth_access_ttl_minutes auth_refresh_ttl_days auth_cookie_secure auth_cookie_domain auth_allowed_origins auth_login_max_attempts auth_login_window_seconds auth_bootstrap_admin_username auth_bootstrap_admin_password realtime_enabled realtime_ping_interval_seconds realtime_client_timeout_seconds market_data_enabled market_data_provider market_data_timezone market_data_start_time market_data_stop_time market_data_holidays nifty_option_strike_range sensex_option_strike_range market_data_stale_seconds market_ws_update_interval_ms market_data_retention_days option_data_retention_days zerodha_enabled zerodha_api_key zerodha_api_secret zerodha_access_token zerodha_secret_id zerodha_user_id zerodha_password zerodha_totp_key breeze_enabled breeze_api_key breeze_secret_key breeze_session_token breeze_secret_id market_data_max_backfill_days market_data_max_provider_calls options_chain_strike_window options_risk_free_rate options_snapshot_cache_seconds options_intelligence_enabled stale_threshold_minutes stale_check_interval_seconds disable_background_watcher day_loss_limit aws_region lambda_function_name broker_reconnect_max_attempts broker_reconnect_backoff_seconds telegram_bot_token telegram_chat_id alert_dedup_seconds alert_max_retries alert_retry_delay).

(** [Settings.is_live] *)
Definition is_live (s : Settings) : bool := String.eqb s.(s_trading_mode) "live".

(** ** Lemmas *)

(** A field read by a total reader always succeeds and leaves the
    environment alone; the numeric readers succeed unless the text is bad. *)
Lemma load_settings_env e : snd (load_settings e) = e.
Proof.
  assert (preserves (fun e' => e' = e) load_settings) as H; [|exact (H e eq_refl)].
  unfold load_settings.
  assert (forall n d, preserves (E := exn) (fun e' => e' = e) (_env_int n d)) as Hi.
  { intros n d s ->. unfold _env_int. destruct (e !! n); [|reflexivity].
    destruct (String.eqb _ _); [reflexivity|]. now destruct (py_int _). }
  assert (forall n d, preserves (E := exn) (fun e' => e' = e) (_env_float n d)) as Hf.
  { intros n d s ->. unfold _env_float. destruct (e !! n); [|reflexivity].
    destruct (String.eqb _ _); [reflexivity|]. now destruct (py_float _). }
  repeat (apply preserves_bind; [auto with preserves | intros ?]). apply preserves_ret.
Qed.

Lemma load_settings_trading_mode e s e' :
  load_settings e = (Ok s, e') ->
  s.(s_trading_mode) = lower (_env "TRADING_MODE" "paper" e).
Proof.
  unfold load_settings. intros H.
  do 3 (apply bind_inv_Ok in H as (? & ? & [= <- <-] & H)).
  repeat (apply bind_inv_Ok in H as (? & ? & _ & H)).
  injection H as <- _. reflexivity.
Qed.

(** The trading safety gate fails safe: a loaded configuration is live
    exactly when [TRADING_MODE] is set and reads ["live"] once stripped and
    lower-cased; unset, empty, ["paper"] and any misspelling give paper. *)
Theorem is_live_exactly_when_set (e : environ) (s : Settings) (e' : environ) :
  load_settings e = (Ok s, e') ->
  (is_live s = true <->
   exists raw, e !! "TRADING_MODE" = Some raw /\ lower (strip raw) = "live").
Proof.
  intros H%load_settings_trading_mode. unfold is_live. rewrite H, String.eqb_eq.
  unfold _env. destruct (e !! "TRADING_MODE") as [raw|]; cbn.
  - split; [eauto | now intros (? & [= <-] & ?)].
  - split; [vm_compute; discriminate | now intros (? & ? & _)].
Qed.

Theorem is_live_exactly_when_set_witness :
  let e : environ := <["TRADING_MODE" := " Live "]> (<["RATE_LIMIT_MAX_REQUESTS" := "5"]> ∅) in
  match load_settings e with
  | (Ok s, _) =>
      is_live s = true <-> exists raw, e !! "TRADING_MODE" = Some raw /\ lower (strip raw) = "live"
  | (Err _, _) => False
  end.
Proof.
  cbv zeta. destruct (load_settings _) as [[s|x] e'] eqn:H.
  - exact (is_live_exactly_when_set _ _ _ H).
  - apply (f_equal (fun r => is_ok (fst r))) in H. vm_compute in H. discriminate.
Defined.
