(* ===== verification/PyTime.v ===== *)
(** * Python dates and number formatting

    [datetime.date] as its proleptic Gregorian ordinal (day 1 is 0001-01-01),
    with the civil conversions and [strptime('%Y-%m-%d')]; the fixed-point
    formats [f'{x:.kf}'] and [round(x, k)] of floats. *)
From S2P Require Import Prelude PyStr PyFloat Config.
From Stdlib Require Import SpecFloat Ascii.

(** ** Calendar *)
Definition is_leap (y : Z) : bool :=
  (y mod 4 =? 0) && (negb (y mod 100 =? 0) || (y mod 400 =? 0)).
Definition days_before_year (y : Z) : Z :=
  let p := y - 1 in p * 365 + p / 4 - p / 100 + p / 400.
Definition days_in_month (y m : Z) : Z :=
  if m =? 2 then (if is_leap y then 29 else 28)
  else if (m =? 4) || (m =? 6) || (m =? 9) || (m =? 11) then 30 else 31.
Fixpoint days_before_month_go (y : Z) (n : nat) : Z :=
  match n with
  | O => 0
  | S k => days_before_month_go y k + days_in_month y (Z.of_nat n)
  end.
Definition days_before_month (y m : Z) : Z := days_before_month_go y (Z.to_nat (m - 1)).
Definition ymd2ord (y m d : Z) : Z := days_before_year y + days_before_month y m + d.
Definition valid_date (y m d : Z) : bool :=
  (1 <=? y) && (y <=? 9999) && (1 <=? m) && (m <=? 12) && (1 <=? d) && (d <=? days_in_month y m).

(** The ordinal of 1970-01-01. *)
Definition EPOCH_ORDINAL : Z := 719163.
Definition US_PER_DAY : Z := 86400 * 1000000.
(** [dt.date()] and midnight of a date, for an instant in microseconds UTC. *)
Definition date_of (t : Z) : Z := t / US_PER_DAY + EPOCH_ORDINAL.
Definition midnight (ordinal : Z) : Z := (ordinal - EPOCH_ORDINAL) * US_PER_DAY.
(** [date.weekday()]: Monday is 0. *)
Definition weekday (ordinal : Z) : Z := (ordinal + 6) mod 7.

(** [datetime.strptime(s, '%Y-%m-%d')] *)
Definition digits_value (s : string) : option Z :=
  if truthy s && forallb is_digit (chars s) then int_digits 0 (chars s) else None.
Definition strptime_ymd (s : string) : option Z :=
  match split "-"%char s with
  | [ys; ms; ds] =>
      if negb ((str_len ys =? 4) && (str_len ms <=? 2) && (str_len ds <=? 2)) then None
      else
        let ds' := match chars ds with [" "%char; c] => unchars [c] | _ => ds end in
        y ← digits_value ys; m ← digits_value ms; d ← digits_value ds';
        if valid_date y m d then Some (ymd2ord y m d) else None
  | _ => None
  end.

(** ** Fixed-point formats *)

(** [x * 10^k] rounded half to even, on the exact binary value. *)
Definition round_half_even (n d : Z) : Z :=
  let q := n / d in
  let r := 2 * (n mod d) in
  if r <? d then q else if d <? r then q + 1 else if Z.even q then q else q + 1.
Definition f_scaled (k : Z) (m : positive) (e : Z) : Z :=
  if 0 <=? e then Zpos m * 10 ^ k * 2 ^ e else round_half_even (Zpos m * 10 ^ k) (2 ^ (- e)).

Definition pad_zeros (n : nat) (s : string) : string :=
  unchars (replicate (n - String.length s) "0"%char) +:+ s.
Definition fmt_scaled (k : nat) (n : Z) : string :=
  let p := 10 ^ Z.of_nat k in
  match k with
  | O => str_of_Z n
  | _ => str_of_Z (n / p) +:+ "." +:+ pad_zeros k (str_of_Z (n mod p))
  end.
Definition f_fmt (k : nat) (x : float) : string :=
  match x with
  | S754_nan => "nan"
  | S754_infinity false => "inf"
  | S754_infinity true => "-inf"
  | S754_zero s => (if s then "-" else "") +:+ fmt_scaled k 0
  | S754_finite s m e => (if s then "-" else "") +:+ fmt_scaled k (f_scaled (Z.of_nat k) m e)
  end.
(** [round(x, k)]: the double nearest the rounded decimal. *)
Definition f_round (k : Z) (x : float) : float :=
  match x with
  | S754_finite s m e =>
      let v := dec_value (f_scaled k m e) (- k) in if s then f_opp v else v
  | _ => x
  end.

(** ** Lemmas *)
Lemma date_of_midnight o : date_of (midnight o) = o.
Proof. unfold date_of, midnight. rewrite Z.div_mul by (unfold US_PER_DAY; lia). lia. Qed.

Lemma midnight_le t : midnight (date_of t) <= t < midnight (date_of t + 1).
Proof.
  unfold midnight, date_of. pose proof (Z.div_mod t US_PER_DAY).
  pose proof (Z.mod_pos_bound t US_PER_DAY). unfold US_PER_DAY in *. lia.
Qed.

Lemma weekday_bound o : 0 <= weekday o < 7.
Proof. apply Z.mod_pos_bound. lia. Qed.

(** ** From an ordinal back to a date *)
(** [datetime._ord2ymd]. *)
Definition month_of (leap : bool) (n : Z) : Z * Z :=
  let month := Z.shiftr (n + 50) 5 in
  let y := if leap then 4 else 1 in
  let preceding := days_before_month y month in
  if n <? preceding then (month - 1, n - days_before_month y (month - 1) + 1) else (month, n - preceding + 1).
Definition ord2ymd (ordinal : Z) : Z * Z * Z :=
  let n := ordinal - 1 in
  let n400 := n / 146097 in let n := n mod 146097 in
  let n100 := n / 36524 in let n := n mod 36524 in
  let n4 := n / 1461 in let n := n mod 1461 in
  let n1 := n / 365 in let n := n mod 365 in
  let year := n400 * 400 + 1 + n100 * 100 + n4 * 4 + n1 in
  if (n1 =? 4) || (n100 =? 4) then (year - 1, 12, 31)
  else
    let leap := (n1 =? 3) && (negb (n4 =? 24) || (n100 =? 3)) in
    let '(m, d) := month_of leap n in (year, m, d).
(** [date.isoformat()] *)
Definition isoformat (ordinal : Z) : string :=
  let '(y, m, d) := ord2ymd ordinal in
  pad_zeros 4 (str_of_Z y) +:+ "-" +:+ pad_zeros 2 (str_of_Z m) +:+ "-" +:+ pad_zeros 2 (str_of_Z d).

(** [date.fromisoformat]: [YYYY-MM-DD], [YYYYMMDD] and the week forms. *)
Definition iso_week1 (y : Z) : Z :=
  let first := ymd2ord y 1 1 in
  let monday := first - weekday first in
  if 3 <? weekday first then monday + 7 else monday.
Definition iso_week_date (y w d : Z) : option Z :=
  let o := iso_week1 y + (w - 1) * 7 + (d - 1) in
  if (1 <=? w) && (o - (d - 1) <? iso_week1 (y + 1)) && (1 <=? d) && (d <=? 7) && (1 <=? y) then Some o else None.
Definition slice (i n : nat) (l : list ascii) : string := unchars (take n (drop i l)).
Definition is_char (c : ascii) (i : nat) (l : list ascii) : bool :=
  match l !! i with Some d => Ascii.eqb c d | None => false end.
Definition fromisoformat (s : string) : option Z :=
  let l := chars s in
  let n := List.length l in
  if negb ((n =? 7) || (n =? 8) || (n =? 10))%nat then None
  else
    y ← digits_value (slice 0 4 l);
    let sep := is_char "-" 4 l in
    let p := (if sep then 5 else 4)%nat in
    if is_char "W" p l then
      w ← digits_value (slice (p + 1) 2 l);
      if (n =? p + 3)%nat then iso_week_date y w 1
      else if Bool.eqb (is_char "-" (p + 3) l) sep then
        let q := (p + 3 + if sep then 1 else 0)%nat in
        if negb (n =? q + 1)%nat then None
        else d ← digits_value (slice q 1 l); iso_week_date y w d
      else None
    else
      m ← digits_value (slice p 2 l);
      if negb (Bool.eqb (is_char "-" (p + 2) l) sep) then None
      else
        let q := (p + 2 + if sep then 1 else 0)%nat in
        if negb (n =? q + 2)%nat then None
        else d ← digits_value (slice q 2 l); if valid_date y m d then Some (ymd2ord y m d) else None.

Definition leap_year_of (leap : bool) : Z := if leap then 4 else 1.
Lemma days_in_month_leap y m : days_in_month y m = days_in_month (leap_year_of (is_leap y)) m.
Proof. unfold days_in_month. now destruct (is_leap y). Qed.
Lemma days_before_month_leap y m : days_before_month y m = days_before_month (leap_year_of (is_leap y)) m.
Proof.
  unfold days_before_month. induction (Z.to_nat (m - 1)) as [|n IH]; [reflexivity|].
  cbn [days_before_month_go]. now rewrite IH, days_in_month_leap.
Qed.

(** The month and day inside a year, for each of its days. *)
Definition month_ok (leap : bool) (n : Z) : bool :=
  let '(m, d) := month_of leap n in
  (1 <=? m) && (m <=? 12) && (1 <=? d) && (d <=? days_in_month (leap_year_of leap) m) &&
  (days_before_month (leap_year_of leap) m + d =? n + 1).
Lemma month_of_table : forallb (fun n => month_ok true n && month_ok false n) (seqZ 0 365) = true.
Proof. vm_compute. reflexivity. Qed.
Lemma month_of_ok leap n : 0 <= n < 365 -> month_ok leap n = true.
Proof.
  intros Hn. pose proof month_of_table as H. rewrite List.forallb_forall in H.
  specialize (H n). rewrite <- list_elem_of_In, elem_of_seqZ in H. specialize (H ltac:(lia)).
  apply andb_prop in H as [H1 H2]. now destruct leap.
Qed.

Lemma is_leap_split a b c e : 0 <= b <= 3 -> 0 <= c <= 24 -> 0 <= e <= 3 ->
  is_leap (a * 400 + 1 + b * 100 + c * 4 + e) = (e =? 3) && (negb (c =? 24) || (b =? 3)).
Proof.
  intros Hb Hc He. unfold is_leap. set (y := a * 400 + 1 + b * 100 + c * 4 + e).
  assert (y mod 4 = (1 + e) mod 4) as ->.
  { replace y with (1 + e + (a * 100 + b * 25 + c) * 4) by (unfold y; lia). apply Z_mod_plus_full. }
  assert (y mod 100 = (1 + e + c * 4) mod 100) as ->.
  { replace y with (1 + e + c * 4 + (a * 4 + b) * 100) by (unfold y; lia). apply Z_mod_plus_full. }
  assert (y mod 400 = (1 + e + c * 4 + b * 100) mod 400) as ->.
  { replace y with (1 + e + c * 4 + b * 100 + a * 400) by (unfold y; lia). apply Z_mod_plus_full. }
  destruct (Z.eqb_spec e 3) as [->|]; cbn [andb].
  - change ((1 + 3) mod 4) with 0. cbn [Z.eqb andb].
    destruct (Z.eqb_spec c 24) as [->|Hc24]; cbn [negb orb].
    + change ((1 + 3 + 24 * 4) mod 100) with 0. cbn [Z.eqb negb orb].
      destruct (Z.eqb_spec b 3) as [->|Hb3]; [reflexivity|]. apply Z.eqb_neq. rewrite Z.mod_small by lia. lia.
    + rewrite (Z.mod_small _ 100) by lia. destruct (Z.eqb_spec (1 + 3 + c * 4) 0); [lia | reflexivity].
  - rewrite (Z.mod_small (1 + e)) by lia. destruct (Z.eqb_spec (1 + e) 0); [lia | reflexivity].
Qed.
Lemma days_before_year_split a b c e : 0 <= b <= 3 -> 0 <= c <= 24 -> 0 <= e <= 3 ->
  days_before_year (a * 400 + 1 + b * 100 + c * 4 + e) = a * 146097 + b * 36524 + c * 1461 + e * 365.
Proof.
  intros Hb Hc He. unfold days_before_year. set (p := a * 400 + 1 + b * 100 + c * 4 + e - 1).
  assert (p / 4 = a * 100 + b * 25 + c) as -> by (symmetry; apply Z.div_unique with e; unfold p; lia).
  assert (p / 100 = a * 4 + b) as -> by (symmetry; apply Z.div_unique with (c * 4 + e); unfold p; lia).
  assert (p / 400 = a) as -> by (symmetry; apply Z.div_unique with (b * 100 + c * 4 + e); unfold p; lia).
  unfold p. lia.
Qed.

(** A date of the year's table. *)
Lemma ymd2ord_ord2ymd ordinal : 1 <= ordinal ->
  let '(y, m, d) := ord2ymd ordinal in
  1 <= y /\ 1 <= m <= 12 /\ 1 <= d <= days_in_month y m /\ ymd2ord y m d = ordinal.
Proof.
  intros Ho. unfold ord2ymd. set (n := ordinal - 1).
  pose proof (Z.div_mod n 146097 ltac:(lia)) as E1. pose proof (Z.mod_pos_bound n 146097 ltac:(lia)) as B1.
  set (a := n / 146097) in *. set (r1 := n mod 146097) in *. clearbody a r1.
  pose proof (Z.div_mod r1 36524 ltac:(lia)) as E2. pose proof (Z.mod_pos_bound r1 36524 ltac:(lia)) as B2.
  set (b := r1 / 36524) in *. set (r2 := r1 mod 36524) in *. clearbody b r2.
  pose proof (Z.div_mod r2 1461 ltac:(lia)) as E3. pose proof (Z.mod_pos_bound r2 1461 ltac:(lia)) as B3.
  set (c := r2 / 1461) in *. set (r3 := r2 mod 1461) in *. clearbody c r3.
  pose proof (Z.div_mod r3 365 ltac:(lia)) as E4. pose proof (Z.mod_pos_bound r3 365 ltac:(lia)) as B4.
  set (e := r3 / 365) in *. set (r4 := r3 mod 365) in *. clearbody e r4.
  assert (0 <= a /\ 0 <= b <= 4 /\ 0 <= c <= 24 /\ 0 <= e <= 4) as (Ha & Hb & Hc & He) by (unfold n in *; lia).
  assert (forall y, ymd2ord y 12 31 = days_before_year y + 365 + (if is_leap y then 1 else 0)) as Last.
  { intros y. unfold ymd2ord. rewrite days_before_month_leap. destruct (is_leap y); unfold leap_year_of.
    - change (days_before_month 4 12) with 335. lia.
    - change (days_before_month 1 12) with 334. lia. }
  destruct (Z.eqb_spec e 4) as [->|He4]; cbn [orb].
  - assert (b <= 3) by lia. replace (a * 400 + 1 + b * 100 + c * 4 + 4 - 1) with (a * 400 + 1 + b * 100 + c * 4 + 3) by lia.
    rewrite Last, is_leap_split, days_before_year_split by lia. cbn [Z.eqb Pos.eqb andb].
    assert (negb (c =? 24) || (b =? 3) = true) as ->.
    { destruct (Z.eqb_spec c 24); [|reflexivity]. destruct (Z.eqb_spec b 3); [reflexivity | exfalso; lia]. }
    assert (days_in_month (a * 400 + 1 + b * 100 + c * 4 + 3) 12 = 31) as -> by reflexivity. unfold n in *; lia.
  - destruct (Z.eqb_spec b 4) as [->|Hb4].
    + assert (r2 = 0) by lia. assert (c = 0) by lia. assert (e = 0) by lia. assert (r4 = 0) by lia. subst c e r4.
      replace (a * 400 + 1 + 4 * 100 + 0 * 4 + 0 - 1) with (a * 400 + 1 + 3 * 100 + 24 * 4 + 3) by lia.
      rewrite Last, is_leap_split, days_before_year_split by lia. cbn [Z.eqb Pos.eqb andb orb negb].
      assert (days_in_month (a * 400 + 1 + 3 * 100 + 24 * 4 + 3) 12 = 31) as -> by reflexivity. unfold n in *; lia.
    + pose proof (is_leap_split a b c e ltac:(lia) ltac:(lia) ltac:(lia)) as L. cbn zeta. rewrite <- L.
      set (y := a * 400 + 1 + b * 100 + c * 4 + e) in *.
      pose proof (month_of_ok (is_leap y) r4 B4) as M. unfold month_ok in M.
      destruct (month_of (is_leap y) r4) as [m d]. to_prop. unfold ymd2ord.
      rewrite days_before_month_leap, days_in_month_leap. unfold y at 3. rewrite days_before_year_split by lia.
      repeat match goal with H : (_ <=? _) = true |- _ => apply Z.leb_le in H end.
      unfold y, n in *. lia.
Qed.

Lemma isoformat_examples :
  map isoformat [ymd2ord 2026 9 3; ymd2ord 2024 2 29; ymd2ord 2000 12 31; 1] =
  ["2026-09-03"; "2024-02-29"; "2000-12-31"; "0001-01-01"].
Proof. vm_compute. reflexivity. Qed.

(** ** [fromisoformat] reads what [isoformat] writes *)
Definition field_ok (n : nat) (k : Z) : bool :=
  let l := chars (pad_zeros n (str_of_Z k)) in
  (List.length l =? n)%nat && bool_decide (digits_value (unchars l) = Some k) && forallb is_digit l.
Lemma field4_table : forallb (field_ok 4) (seqZ 0 10000) = true.
Proof. vm_compute. reflexivity. Qed.
Lemma field2_table : forallb (field_ok 2) (seqZ 0 100) = true.
Proof. vm_compute. reflexivity. Qed.
Lemma field_spec n k : field_ok n k = true ->
  exists l, pad_zeros n (str_of_Z k) = unchars l /\ List.length l = n /\ digits_value (unchars l) = Some k /\
    forallb is_digit l = true.
Proof.
  unfold field_ok. rewrite unchars_chars. intros H. apply andb_prop in H as [H H3]. apply andb_prop in H as [H1 H2].
  exists (chars (pad_zeros n (str_of_Z k))). rewrite unchars_chars. repeat split; auto.
  - now apply Nat.eqb_eq.
  - now apply bool_decide_eq_true in H2.
Qed.
Lemma table_at (p : Z -> bool) n k : forallb p (seqZ 0 n) = true -> 0 <= k < n -> p k = true.
Proof. rewrite List.forallb_forall. intros H Hk. apply H, list_elem_of_In, elem_of_seqZ. lia. Qed.

Lemma app_unchars l l' : unchars l +:+ unchars l' = unchars (l ++ l').
Proof. induction l as [|c l IH]; [reflexivity | exact (f_equal (String c) IH)]. Qed.
Lemma digit_not_W c : is_digit c = true -> Ascii.eqb "W" c = false.
Proof. destruct (Ascii.eqb_spec "W" c) as [<-|]; [discriminate | reflexivity]. Qed.

Lemma iso_digits_parse (y1 y2 y3 y4 m1 m2 d1 d2 : ascii) y m d : forallb is_digit [m1; m2] = true ->
  digits_value (unchars [y1; y2; y3; y4]) = Some y -> digits_value (unchars [m1; m2]) = Some m ->
  digits_value (unchars [d1; d2]) = Some d ->
  fromisoformat (unchars ([y1; y2; y3; y4] ++ "-"%char :: [m1; m2] ++ "-"%char :: [d1; d2])) =
  if valid_date y m d then Some (ymd2ord y m d) else None.
Proof.
  intros Hm Ey Em Ed. cbn [forallb] in Hm. apply andb_prop in Hm as [Hm1 _].
  unfold fromisoformat. rewrite chars_unchars.
  set (l := [y1; y2; y3; y4] ++ "-"%char :: [m1; m2] ++ "-"%char :: [d1; d2]).
  change (List.length l) with 10%nat. change (slice 0 4 l) with (unchars [y1; y2; y3; y4]). rewrite Ey.
  change (is_char "-" 4 l) with true. change (is_char "W" 5 l) with (Ascii.eqb "W" m1).
  cbn -[digits_value valid_date ymd2ord unchars l slice is_char].
  change (is_char "W" 5 l) with (Ascii.eqb "W" m1). rewrite (digit_not_W m1 Hm1).
  change (slice 5 2 l) with (unchars [m1; m2]). rewrite Em. cbn -[digits_value valid_date ymd2ord unchars l slice is_char].
  change (is_char "-" 7 l) with true. change (slice 8 2 l) with (unchars [d1; d2]).
  cbn -[digits_value valid_date ymd2ord unchars l slice is_char]. rewrite Ed. reflexivity.
Qed.

Definition MAX_ORDINAL : Z := 3652059.
Lemma days_before_year_mono a b : a <= b -> days_before_year a <= days_before_year b.
Proof.
  intros H. unfold days_before_year.
  pose proof (Z.div_le_mono (a - 1) (b - 1) 4 ltac:(lia) ltac:(lia)).
  pose proof (Z.div_le_mono (a - 1) (b - 1) 400 ltac:(lia) ltac:(lia)).
  assert ((b - 1) / 100 <= (a - 1) / 100 + (b - a)); [|lia].
  replace ((a - 1) / 100 + (b - a)) with ((a - 1 + (b - a) * 100) / 100) by (rewrite Z.div_add; lia).
  apply Z.div_le_mono; lia.
Qed.
Lemma days_before_month_bounds y m : 1 <= m <= 12 ->
  0 <= days_before_month y m /\ days_before_month y m + days_in_month y m <= (if is_leap y then 366 else 365).
Proof.
  intros Hm. rewrite days_before_month_leap, days_in_month_leap.
  assert (m = 1 \/ m = 2 \/ m = 3 \/ m = 4 \/ m = 5 \/ m = 6 \/ m = 7 \/ m = 8 \/ m = 9 \/ m = 10 \/ m = 11 \/ m = 12) as H by lia. clear Hm.
  destruct (is_leap y); repeat (destruct H as [-> | H]); subst; vm_compute; split; discriminate.
Qed.
(** The years of four digits. *)
Lemma year_at_most_9999 y m d : 1 <= m <= 12 -> 1 <= d -> ymd2ord y m d <= MAX_ORDINAL -> y <= 9999.
Proof.
  intros Hm Hd H. destruct (Z.le_gt_cases y 9999) as [|Hgt]; [assumption|]. exfalso. unfold ymd2ord in H.
  pose proof (days_before_month_bounds y m Hm) as [B _]. pose proof (days_before_year_mono 10000 y ltac:(lia)).
  change (days_before_year 10000) with MAX_ORDINAL in *. lia.
Qed.
Definition FIRST_FOUR_DIGIT_DAY : Z := 364878.
Lemma year_at_least_1000 y m d : 1 <= m <= 12 -> d <= days_in_month y m -> FIRST_FOUR_DIGIT_DAY <= ymd2ord y m d -> 1000 <= y.
Proof.
  intros Hm Hd H. destruct (Z.le_gt_cases 1000 y) as [|Hgt]; [assumption|]. exfalso. unfold ymd2ord in H.
  pose proof (days_before_month_bounds y m Hm) as [_ B]. unfold FIRST_FOUR_DIGIT_DAY in H. destruct (Z.eq_dec y 999) as [->|].
  - change (days_before_year 999) with 364512 in H. change (is_leap 999) with false in B. cbv iota in B. lia.
  - pose proof (days_before_year_mono y 998 ltac:(lia)). change (days_before_year 998) with 364147 in *. destruct (is_leap y); lia.
Qed.
(** The text is three runs of digits: four, two and two. *)
Lemma isoformat_shape o : 1 <= o <= MAX_ORDINAL ->
  exists y1 y2 y3 y4 m1 m2 d1 d2 y m d,
    isoformat o = unchars ([y1; y2; y3; y4] ++ "-"%char :: [m1; m2] ++ "-"%char :: [d1; d2]) /\
    forallb is_digit [y1; y2; y3; y4; m1; m2; d1; d2] = true /\ forallb is_digit [m1; m2] = true /\
    digits_value (unchars [y1; y2; y3; y4]) = Some y /\ digits_value (unchars [m1; m2]) = Some m /\
    digits_value (unchars [d1; d2]) = Some d /\ valid_date y m d = true /\ ymd2ord y m d = o.
Proof.
  intros [Ho Hmax]. pose proof (ymd2ord_ord2ymd o Ho) as H. unfold isoformat. destruct (ord2ymd o) as [[y m] d].
  destruct H as (Hy & Hm & Hd & E).
  pose proof (year_at_most_9999 y m d Hm ltac:(lia) ltac:(lia)) as Hy'.
  assert (days_in_month y m <= 31) by (unfold days_in_month; repeat case_match; lia).
  destruct (field_spec 4 y (table_at (field_ok 4) 10000 y field4_table ltac:(lia))) as (ly & -> & Ly & Ey & Dy).
  destruct (field_spec 2 m (table_at (field_ok 2) 100 m field2_table ltac:(lia))) as (lm & -> & Lm & Em & Dm).
  destruct (field_spec 2 d (table_at (field_ok 2) 100 d field2_table ltac:(lia))) as (ld & -> & Ld & Ed & Dd).
  do 5 (destruct ly as [|? ly]; try discriminate Ly). do 3 (destruct lm as [|? lm]; try discriminate Lm).
  do 3 (destruct ld as [|? ld]; try discriminate Ld).
  eexists _, _, _, _, _, _, _, _, y, m, d. split; [change "-" with (unchars ["-"%char]); now rewrite !app_unchars|].
  split; [cbn [forallb] in *; rewrite !andb_true_iff in *; tauto|]. do 4 (split; [eassumption|]).
  split; [|exact E]. unfold valid_date. rewrite !andb_true_iff, !Z.leb_le. lia.
Qed.
Lemma fromisoformat_isoformat o : 1 <= o <= MAX_ORDINAL -> fromisoformat (isoformat o) = Some o.
Proof.
  intros Ho. destruct (isoformat_shape o Ho) as (y1 & y2 & y3 & y4 & m1 & m2 & d1 & d2 & y & m & d & -> & _ & Dm & Ey & Em & Ed & V & <-).
  rewrite (iso_digits_parse y1 y2 y3 y4 m1 m2 d1 d2 y m d Dm Ey Em Ed). now rewrite V.
Qed.
