(* ===== verification/JsonText.v ===== *)
(** * JSON text

    [json.loads] and [json.dumps] of Python's standard library, and the
    [repr] of a float, as the orchestrator and the agent use them to exchange
    results over standard output.  Strings are byte strings: an escape beyond
    ASCII decodes to UTF-8. *)
From S2P Require Import Prelude PyStr PyFloat Json Config PyTime.
From stdpp Require Import pretty.
From Stdlib Require Import SpecFloat Ascii.
#[local] Open Scope string_scope.
#[local] Open Scope list_scope.
#[local] Open Scope Z_scope.

(** ** [json.loads] *)
Definition dq : ascii := Eval vm_compute in ascii_of_nat 34.
Definition nl : string := Eval vm_compute in String (ascii_of_nat 10) "".
Definition bslash : ascii := Eval vm_compute in ascii_of_nat 92.
Definition is_ws (c : ascii) : bool :=
  let n := nat_of_ascii c in ((n =? 32) || (n =? 9) || (n =? 10) || (n =? 13))%nat.
Definition skip_ws : list ascii -> list ascii := drop_while is_ws.

Definition hex_val (c : ascii) : option Z :=
  let n := Z.of_nat (nat_of_ascii c) in
  if is_digit c then Some (n - 48)
  else if ascii_between 65 70 c then Some (n - 55)
  else if ascii_between 97 102 c then Some (n - 87)
  else None.
Definition hex4 (l : list ascii) : option (Z * list ascii) :=
  match l with
  | a :: b :: c :: d :: r =>
      x ← hex_val a; y ← hex_val b; z ← hex_val c; t ← hex_val d;
      Some (((x * 16 + y) * 16 + z) * 16 + t, r)
  | _ => None
  end.
Definition byte (n : Z) : ascii := ascii_of_nat (Z.to_nat n).
Definition utf8 (n : Z) : list ascii :=
  if n <? 128 then [byte n]
  else if n <? 2048 then [byte (192 + n / 64); byte (128 + n mod 64)]
  else if n <? 65536 then [byte (224 + n / 4096); byte (128 + n / 64 mod 64); byte (128 + n mod 64)]
  else [byte (240 + n / 262144); byte (128 + n / 4096 mod 64); byte (128 + n / 64 mod 64);
        byte (128 + n mod 64)].

(** The character an escape stands for. *)
Definition unescape (c : ascii) : option ascii :=
  if Ascii.eqb c dq then Some dq
  else if Ascii.eqb c bslash then Some bslash
  else if Ascii.eqb c "/" then Some "/"%char
  else if Ascii.eqb c "b" then Some (ascii_of_nat 8)
  else if Ascii.eqb c "f" then Some (ascii_of_nat 12)
  else if Ascii.eqb c "n" then Some (ascii_of_nat 10)
  else if Ascii.eqb c "r" then Some (ascii_of_nat 13)
  else if Ascii.eqb c "t" then Some (ascii_of_nat 9)
  else None.

Definition high_surrogate (n : Z) : bool := (55296 <=? n) && (n <=? 56319).
Definition low_surrogate (n : Z) : bool := (56320 <=? n) && (n <=? 57343).

(** After an [\u]: a code unit, or two when they form a surrogate pair. *)
Definition code_point (l : list ascii) : option (Z * list ascii) :=
  match hex4 l with
  | None => None
  | Some (n, r) =>
      if high_surrogate n then
        match r with
        | c :: u :: r' =>
            if Ascii.eqb c bslash && Ascii.eqb u "u" then
              match hex4 r' with
              | Some (n2, r2) =>
                  if low_surrogate n2 then Some (65536 + (n - 55296) * 1024 + (n2 - 56320), r2)
                  else Some (n, r)
              | None => None
              end
            else Some (n, r)
        | _ => Some (n, r)
        end
      else Some (n, r)
  end.

(** The rest of a string, after its opening quote. *)
Fixpoint p_string (fuel : nat) (l : list ascii) : option (list ascii * list ascii) :=
  match fuel with
  | O => None
  | S n =>
      match l with
      | [] => None
      | c :: r =>
          if Ascii.eqb c dq then Some ([], r)
          else if Ascii.eqb c bslash then
            match r with
            | [] => None
            | e :: r' =>
                if Ascii.eqb e "u" then
                  match code_point r' with
                  | Some (k, r2) =>
                      match p_string n r2 with Some (s, r3) => Some (utf8 k ++ s, r3) | None => None end
                  | None => None
                  end
                else
                  match unescape e with
                  | Some x => match p_string n r' with Some (s, r3) => Some (x :: s, r3) | None => None end
                  | None => None
                  end
            end
          else if (nat_of_ascii c <? 32)%nat then None
          else match p_string n r with Some (s, r3) => Some (c :: s, r3) | None => None end
      end
  end.

Fixpoint take_while (p : ascii -> bool) (l : list ascii) : list ascii :=
  match l with c :: r => if p c then c :: take_while p r else [] | [] => [] end.
Definition digits_Z (l : list ascii) : Z := fold_left (fun acc c => acc * 10 + digit_val c) l 0.

(** An exponent part, when there is one. *)
Definition p_exponent (l : list ascii) : option (Z * list ascii) :=
  match l with
  | c :: r =>
      if Ascii.eqb c "e" || Ascii.eqb c "E" then
        let '(neg, r1) := match r with
                          | s :: r' => if Ascii.eqb s "-" then (true, r')
                                       else if Ascii.eqb s "+" then (false, r') else (false, r)
                          | [] => (false, [])
                          end in
        match take_while is_digit r1 with
        | [] => None
        | ds => Some ((if neg then - digits_Z ds else digits_Z ds), drop_while is_digit r1)
        end
      else None
  | [] => None
  end.

(** The fraction and the exponent after the digits [ds]. *)
Definition p_tail (neg : bool) (ds r1 : list ascii) : option (json * list ascii) :=
  let '(fs, r2) := match r1 with
                   | d :: r' => if Ascii.eqb d "." then
                                  match take_while is_digit r' with
                                  | [] => ([], r1)
                                  | fs => (fs, drop_while is_digit r')
                                  end
                                else ([], r1)
                   | [] => ([], r1)
                   end in
  match fs, p_exponent r2 with
  | [], None => Some (JInt (if neg then - digits_Z ds else digits_Z ds), r2)
  | _, ex =>
      let '(e, r3) := match ex with Some (e, r3) => (e, r3) | None => (0, r2) end in
      let x := dec_value (digits_Z (ds ++ fs)) (e - Z.of_nat (List.length fs)) in
      Some (JFloat (if neg then f_opp x else x), r3)
  end.

Definition p_unsigned (neg : bool) (l : list ascii) : option (json * list ascii) :=
  match l with
  | [] => None
  | c :: r =>
      if negb (is_digit c) then None
      else if Ascii.eqb c "0" then p_tail neg [c] r
      else p_tail neg (take_while is_digit l) (drop_while is_digit l)
  end.
Definition p_number (l : list ascii) : option (json * list ascii) :=
  match l with
  | c :: r => if Ascii.eqb c "-" then p_unsigned true r else p_unsigned false l
  | [] => None
  end.

Fixpoint after (p l : list ascii) : option (list ascii) :=
  match p, l with
  | [], _ => Some l
  | c :: p', d :: l' => if Ascii.eqb c d then after p' l' else None
  | _, [] => None
  end.
Fixpoint p_literal (names : list (string * json)) (l : list ascii) : option (json * list ascii) :=
  match names with
  | [] => None
  | (s, v) :: ns => match after (chars s) l with Some r => Some (v, r) | None => p_literal ns l end
  end.
Definition literals : list (string * json) :=
  [("null", JNull); ("true", JBool true); ("false", JBool false); ("NaN", JFloat S754_nan);
   ("Infinity", JFloat (S754_infinity false)); ("-Infinity", JFloat (S754_infinity true))].

Fixpoint p_value (fuel : nat) (l : list ascii) : option (json * list ascii) :=
  match fuel with
  | O => None
  | S n =>
      match l with
      | [] => None
      | c :: r =>
          if Ascii.eqb c dq then
            match p_string (S (List.length r)) r with Some (s, r') => Some (JStr (unchars s), r') | None => None end
          else if Ascii.eqb c "{" then
            match skip_ws r with
            | d :: r' => if Ascii.eqb d "}" then Some (JObj [], r') else p_members n (d :: r') []
            | [] => None
            end
          else if Ascii.eqb c "[" then
            match skip_ws r with
            | d :: r' => if Ascii.eqb d "]" then Some (JArr [], r') else p_elements n (d :: r')
            | [] => None
            end
          else match p_literal literals l with Some x => Some x | None => p_number l end
      end
  end
with p_members (fuel : nat) (l : list ascii) (acc : list (string * json)) : option (json * list ascii) :=
  match fuel with
  | O => None
  | S n =>
      match l with
      | c :: r =>
          if negb (Ascii.eqb c dq) then None
          else match p_string (S (List.length r)) r with
               | None => None
               | Some (k, r1) =>
                   match skip_ws r1 with
                   | d :: r2 =>
                       if negb (Ascii.eqb d ":") then None
                       else match p_value n (skip_ws r2) with
                            | None => None
                            | Some (v, r3) =>
                                let acc' := assoc_set (unchars k) v acc in
                                match skip_ws r3 with
                                | e :: r4 =>
                                    if Ascii.eqb e "," then p_members n (skip_ws r4) acc'
                                    else if Ascii.eqb e "}" then Some (JObj acc', r4) else None
                                | [] => None
                                end
                            end
                   | [] => None
                   end
               end
      | [] => None
      end
  end
with p_elements (fuel : nat) (l : list ascii) : option (json * list ascii) :=
  match fuel with
  | O => None
  | S n =>
      match p_value n l with
      | None => None
      | Some (v, r1) =>
          match skip_ws r1 with
          | e :: r2 =>
              if Ascii.eqb e "," then
                match p_elements n (skip_ws r2) with
                | Some (JArr vs, r3) => Some (JArr (v :: vs), r3)
                | _ => None
                end
              else if Ascii.eqb e "]" then Some (JArr [v], r2) else None
          | [] => None
          end
      end
  end.

(** [None] is [JSONDecodeError]. *)
Definition json_loads (s : string) : option json :=
  let l := skip_ws (chars s) in
  match p_value (2 * S (List.length l)) l with
  | Some (v, r) => match skip_ws r with [] => Some v | _ => None end
  | None => None
  end.

(** ** [repr] of a float

    The shortest decimal that reads back as the same float. *)
Definition n_digits (n : Z) : Z := Z.of_nat (String.length (str_of_Z n)).
Definition floor_log10 (num den : Z) : Z :=
  let d := n_digits num - n_digits den in
  let ge := if 0 <=? d then den * 10 ^ d <=? num else den <=? num * 10 ^ (- d) in
  if ge then d else d - 1.
(** [num/den * 10^k] rounded half to even. *)
Definition scaled (num den k : Z) : Z :=
  if 0 <=? k then round_half_even (num * 10 ^ k) den else round_half_even num (den * 10 ^ (- k)).
Fixpoint shortest (n : nat) (k : Z) (x : float) (num den e10 : Z) : Z * Z :=
  let d := scaled num den (k - 1 - e10) in
  match n with
  | O => (d, e10 - k + 1)
  | S n' => if f_eqb (dec_value d (e10 - k + 1)) x then (d, e10 - k + 1) else shortest n' (k + 1) x num den e10
  end.
Definition strip_zeros (s : string) : string :=
  unchars (rev (drop_while (fun c => Ascii.eqb c "0") (rev (chars s)))).
Definition f_repr (x : float) : string :=
  match x with
  | S754_nan => "nan"
  | S754_infinity s => if s then "-inf" else "inf"
  | S754_zero s => if s then "-0.0" else "0.0"
  | S754_finite s m e =>
      let num := if 0 <=? e then Zpos m * 2 ^ e else Zpos m in
      let den := if 0 <=? e then 1 else 2 ^ (- e) in
      let '(d, p) := shortest 16 1 (S754_finite false m e) num den (floor_log10 num den) in
      let ds := strip_zeros (str_of_Z d) in
      let n := n_digits d + p in            (* the value is 0.ds * 10^n *)
      let len := Z.of_nat (String.length ds) in
      (if s then "-" else "") +:+
      (if (-4 <? n) && (n <=? 16) then
         if n <=? 0 then "0." +:+ unchars (replicate (Z.to_nat (- n)) "0"%char) +:+ ds
         else if len <=? n then ds +:+ unchars (replicate (Z.to_nat (n - len)) "0"%char) +:+ ".0"
         else str_take (Z.to_nat n) ds +:+ "." +:+ str_drop (Z.to_nat n) ds
       else
         str_take 1 ds +:+ (if 1 <? len then "." +:+ str_drop 1 ds else "") +:+ "e" +:+
         (if n - 1 <? 0 then "-" else "+") +:+ pad_zeros 2 (str_of_Z (Z.abs (n - 1))))
  end.

(** ** [json.dumps] *)
Definition hex_digit (n : Z) : ascii := if n <? 10 then byte (n + 48) else byte (n + 87).
Definition escape (c : ascii) : list ascii :=
  let n := Z.of_nat (nat_of_ascii c) in
  if Ascii.eqb c dq then [bslash; dq]
  else if Ascii.eqb c bslash then [bslash; bslash]
  else if n =? 8 then [bslash; "b"%char]
  else if n =? 12 then [bslash; "f"%char]
  else if n =? 10 then [bslash; "n"%char]
  else if n =? 13 then [bslash; "r"%char]
  else if n =? 9 then [bslash; "t"%char]
  else if (32 <=? n) && (n <? 127) then [c]
  else [bslash; "u"%char; "0"%char; "0"%char; hex_digit (n / 16); hex_digit (n mod 16)].
Definition d_string (s : string) : list ascii := dq :: flat_map escape (chars s) ++ [dq].
Definition d_float (x : float) : string :=
  match x with
  | S754_nan => "NaN"
  | S754_infinity s => if s then "-Infinity" else "Infinity"
  | _ => f_repr x
  end.
Fixpoint join_with (sep : list ascii) (l : list (list ascii)) : list ascii :=
  match l with
  | [] => []
  | [x] => x
  | x :: r => x ++ sep ++ join_with sep r
  end.
Definition comma : list ascii := [","%char; " "%char].
Fixpoint d_value (j : json) : list ascii :=
  match j with
  | JNull => chars "null"
  | JBool b => chars (if b then "true" else "false")
  | JInt n => chars (str_of_Z n)
  | JFloat x => chars (d_float x)
  | JStr s => d_string s
  | JArr l => "["%char :: join_with comma (map d_value l) ++ ["]"%char]
  | JObj kvs =>
      "{"%char :: join_with comma (map (fun kv => d_string (fst kv) ++ [":"%char; " "%char] ++ d_value (snd kv)) kvs)
      ++ ["}"%char]
  end.
Definition json_dumps (j : json) : string := unchars (d_value j).

Example repr_examples :
  map f_repr [f_dec 1 1; f_dec 125 2; f_of_Z 100; f_div (f_of_Z 1) (f_of_Z 3); f_of_Z (10 ^ 16); f_dec 12 6]
  = ["0.1"; "1.25"; "100.0"; "0.3333333333333333"; "1e+16"; "1.2e-05"].
Proof. vm_compute. reflexivity. Qed.

(** ** Reading back what was written *)

(** Values whose text determines them: no floats, ASCII strings, and no key
    twice in an object. *)
Definition ascii_string (s : string) : bool :=
  forallb (fun c => (nat_of_ascii c <? 128)%nat) (chars s).
Fixpoint plain (j : json) : bool :=
  match j with
  | JNull | JBool _ | JInt _ => true
  | JFloat _ => false
  | JStr s => ascii_string s
  | JArr l => forallb plain l
  | JObj kvs => bool_decide (NoDup (map fst kvs)) &&
                forallb (fun kv => ascii_string (fst kv) && plain (snd kv)) kvs
  end.

Fixpoint jsize (j : json) : nat :=
  match j with
  | JArr l => S (list_sum (map (fun x => S (jsize x)) l))
  | JObj kvs => S (list_sum (map (fun kv => S (jsize (snd kv))) kvs))
  | _ => 1%nat
  end.

(** What may follow a value. *)
Definition stop (l : list ascii) : Prop :=
  match l with
  | [] => True
  | c :: _ => is_digit c = false /\ Ascii.eqb c "." = false /\ Ascii.eqb c "e" = false /\ Ascii.eqb c "E" = false
  end.

Lemma p_string_char c n r :
  (nat_of_ascii c <? 128)%nat = true ->
  p_string (S n) (escape c ++ r) =
  match p_string n r with Some (s, r3) => Some (c :: s, r3) | None => None end.
Proof.
  intros H. destruct c as [[] [] [] [] [] [] [] []]; try discriminate H; clear H;
    match goal with |- context [escape ?c] =>
      let e := eval vm_compute in (escape c) in change (escape c) with e end;
    reflexivity.
Qed.

Lemma p_string_text s : forall n rest,
  forallb (fun c => (nat_of_ascii c <? 128)%nat) s = true -> (List.length s < n)%nat ->
  p_string n (flat_map escape s ++ dq :: rest) = Some (s, rest).
Proof.
  induction s as [|c s IH]; intros n rest H Hn.
  - destruct n; [cbn in Hn; lia | reflexivity].
  - destruct n as [|n]; [cbn in Hn; lia|]. cbn [forallb flat_map] in *. apply andb_prop in H as [Hc H].
    rewrite <- app_assoc, p_string_char by exact Hc. rewrite IH; [reflexivity | exact H | cbn in Hn; lia].
Qed.

Lemma flat_map_escape_len s : (List.length s <= List.length (flat_map escape s))%nat.
Proof.
  induction s as [|c s IH]; [reflexivity|]. cbn [flat_map]. rewrite length_app.
  assert (1 <= List.length (escape c))%nat
    by (unfold escape; repeat match goal with |- context [if ?b then _ else _] => destruct b end; cbn; lia).
  cbn [List.length]. lia.
Qed.

Lemma p_string_d s rest :
  ascii_string s = true ->
  exists r, d_string s ++ rest = dq :: r /\ p_string (S (List.length r)) r = Some (chars s, rest).
Proof.
  intros H. unfold d_string. rewrite <- app_comm_cons, <- app_assoc. eexists. split; [reflexivity|].
  apply p_string_text; [exact H|]. rewrite length_app. pose proof (flat_map_escape_len (chars s)). lia.
Qed.

(** *** Numbers *)
Lemma digits_Z_int l : forall acc n,
  forallb is_digit l = true -> int_digits acc l = Some n ->
  fold_left (fun acc c => acc * 10 + digit_val c) l acc = n.
Proof.
  induction l as [|c l IH]; intros acc n H E; [now injection E|].
  cbn in *. apply andb_prop in H as [Hc H]. rewrite Hc in E. now apply IH.
Qed.

Lemma span_digits l rest :
  forallb is_digit l = true -> stop rest ->
  take_while is_digit (l ++ rest) = l /\ drop_while is_digit (l ++ rest) = rest.
Proof.
  intros H Hs. induction l as [|c l IH].
  - destruct rest as [|c r]; [now split|]. destruct Hs as (Hc & _). cbn. now rewrite Hc.
  - cbn in *. apply andb_prop in H as [Hc H]. rewrite Hc. destruct (IH H) as [-> ->]. now split.
Qed.

Lemma p_exponent_stop rest : stop rest -> p_exponent rest = None.
Proof. destruct rest as [|c r]; [reflexivity|]. intros (_ & _ & H1 & H2). cbn. now rewrite H1, H2. Qed.

Lemma p_tail_stop neg ds n rest :
  stop rest -> forallb is_digit ds = true -> int_digits 0 ds = Some n ->
  p_tail neg ds rest = Some (JInt (if neg then - n else n), rest).
Proof.
  intros Hs Hd Hi. pose proof (digits_Z_int ds 0 n Hd Hi) as E. fold (digits_Z ds) in E.
  pose proof (p_exponent_stop rest Hs) as He. unfold p_tail. destruct rest as [|d r'].
  - cbn. now rewrite E.
  - destruct Hs as (_ & Hdot & _). now rewrite Hdot, He, E.
Qed.

(** No leading zero. *)
Lemma pretty_N_go_head x : forall s, (0 < x)%N ->
  exists c l, chars (pretty_N_go x s) = c :: l /\ is_digit c = true /\ Ascii.eqb c "0" = false.
Proof.
  induction (N.lt_wf_0 x) as [x _ IH]. intros s Hx. rewrite pretty_N_go_step by exact Hx.
  destruct (decide (0 < x `div` 10)%N) as [Hd|Hd].
  - apply IH; [apply N.div_lt; lia | exact Hd].
  - assert ((x `div` 10)%N = 0%N) as E0 by (apply N.le_0_r, N.nlt_ge, Hd). rewrite E0, pretty_N_go_0. cbn.
    pose proof (N.div_mod x 10 ltac:(lia)). assert (x `mod` 10 < 10)%N by (apply N.mod_lt; lia).
    destruct (pretty_N_char_digit (x `mod` 10)%N ltac:(lia)) as [H1 H2].
    eexists _, _. split; [reflexivity|]. split; [exact H1|].
    destruct (Ascii.eqb_spec (pretty_N_char (x `mod` 10)) "0") as [E|]; [|reflexivity].
    rewrite E in H2. change (digit_val "0") with 0 in H2. rewrite E0 in *. lia.
Qed.

Lemma p_unsigned_pretty neg x rest :
  stop rest -> p_unsigned neg (chars (pretty x) ++ rest) = Some (JInt (if neg then - Z.of_N x else Z.of_N x), rest).
Proof.
  intros Hs. destruct (pretty_N_digits x) as (H1 & H2 & _).
  destruct (decide (x = 0%N)) as [->|Hx].
  - exact (p_tail_stop neg ["0"%char] 0 rest Hs eq_refl eq_refl).
  - unfold pretty, pretty_N in *. rewrite decide_False in * by exact Hx.
    destruct (pretty_N_go_head x "" ltac:(lia)) as (c & l & E & Hc & H0).
    rewrite E in *. unfold p_unsigned. cbn [app]. rewrite Hc, H0. cbn [negb].
    rewrite app_comm_cons. destruct (span_digits (c :: l) rest H1 Hs) as [-> ->].
    exact (p_tail_stop neg (c :: l) _ rest Hs H1 H2).
Qed.

Lemma digit_no_literal c r : is_digit c = true -> p_literal literals (c :: r) = None /\ Ascii.eqb c "-" = false
  /\ Ascii.eqb c dq = false /\ Ascii.eqb c "{" = false /\ Ascii.eqb c "[" = false.
Proof. intros H. destruct c as [[] [] [] [] [] [] [] []]; try discriminate H; cbn; auto. Qed.

Lemma minus_no_literal c r : is_digit c = true -> p_literal literals ("-"%char :: c :: r) = None.
Proof. intros H. destruct c as [[] [] [] [] [] [] [] []]; try discriminate H; reflexivity. Qed.

Lemma pretty_cons (x : N) : exists c l, chars (pretty x) = c :: l /\ is_digit c = true.
Proof.
  destruct (pretty_N_digits x) as (H1 & _ & H3). destruct (chars (pretty x)) as [|c l] eqn:E.
  - now destruct (pretty x).
  - cbn in H1. apply andb_prop in H1 as [H _]. eauto.
Qed.

Lemma p_value_int m n rest : stop rest -> p_value (S m) (chars (str_of_Z n) ++ rest) = Some (JInt n, rest).
Proof.
  intros Hs. assert (forall x : N, p_value (S m) (chars (pretty x) ++ rest) = Some (JInt (Z.of_N x), rest)) as Hpos.
  { intros x. pose proof (p_unsigned_pretty false x rest Hs) as Hu.
    destruct (pretty_cons x) as (c & l & E & Hc). rewrite E in *. cbn [app] in *.
    destruct (digit_no_literal c (l ++ rest) Hc) as (H1 & H2 & H3 & H4 & H5).
    cbn [p_value]. now rewrite H3, H4, H5, H1; cbn [p_number]; rewrite H2. }
  destruct n as [|p|p].
  - exact (Hpos 0%N).
  - exact (Hpos (N.pos p)).
  - change (chars (str_of_Z (Z.neg p))) with ("-"%char :: chars (pretty (N.pos p))).
    pose proof (p_unsigned_pretty true (N.pos p) rest Hs) as Hu.
    destruct (pretty_cons (N.pos p)) as (c & l & E & Hc). rewrite E in *. cbn [app] in *.
    change (p_value (S m) ("-"%char :: c :: l ++ rest)) with
      (match p_literal literals ("-"%char :: c :: l ++ rest) with
       | Some x => Some x | None => p_unsigned true (c :: l ++ rest) end).
    rewrite minus_no_literal by exact Hc. exact Hu.
Qed.

(** *** Values *)
Definition starts (c : ascii) : Prop := is_ws c = false /\ Ascii.eqb c "]" = false /\ Ascii.eqb c "}" = false.

Lemma forallb_Forall {A} (p : A -> bool) l : forallb p l = true -> Forall (fun x => p x = true) l.
Proof.
  rewrite forallb_forall. intros H. apply Forall_forall. intros x Hx. now apply H, list_elem_of_In.
Qed.

Lemma d_value_head j : plain j = true -> exists c l, d_value j = c :: l /\ starts c.
Proof.
  destruct j as [|[]|n|x|s|l|kvs]; cbn; intros H; try discriminate H;
    try (eexists _, _; split; [reflexivity | now repeat split]).
  assert (forall x : N, exists c l, chars (pretty x) = c :: l /\ starts c) as Hp.
  { intros x. destruct (pretty_cons x) as (c & l & E & Hc). exists c, l. split; [exact E|].
    destruct c as [[] [] [] [] [] [] [] []]; try discriminate Hc; now repeat split. }
  destruct n as [|p|p].
  - exact (Hp 0%N).
  - exact (Hp (N.pos p)).
  - eexists _, _. split; [reflexivity|]. now repeat split.
Qed.

Lemma skip_ws_head c l : is_ws c = false -> skip_ws (c :: l) = c :: l.
Proof. unfold skip_ws. cbn. now intros ->. Qed.

Lemma join_cons sep x l : l <> [] -> join_with sep (x :: l) = x ++ sep ++ join_with sep l.
Proof. now destruct l. Qed.

Lemma join_head {A} (f : A -> list ascii) (P : A -> Prop) l tail :
  (forall x, P x -> exists c r, f x = c :: r /\ starts c) -> Forall P l -> l <> [] ->
  exists c r, join_with comma (map f l) ++ tail = c :: r /\ starts c.
Proof.
  intros Hf Hl Hne. destruct l as [|x [|y r]]; [congruence| |]; inversion Hl; subst;
    destruct (Hf x) as (c & l & E & Hc); auto; cbn; rewrite E; eauto.
Qed.

Lemma p_elements_d (l : list json) : forall n rest,
  Forall (fun x => forall m r, (jsize x <= m)%nat -> stop r -> p_value m (d_value x ++ r) = Some (x, r)) l ->
  forallb plain l = true -> l <> [] -> (list_sum (map (fun x => S (jsize x)) l) <= n)%nat ->
  p_elements n (join_with comma (map d_value l) ++ "]"%char :: rest) = Some (JArr l, rest).
Proof.
  induction l as [|x l IH]; intros n rest Hl Hp Hne Hn; [congruence|].
  inversion Hl as [|? ? Hx Hl']; subst. cbn [forallb map list_sum foldr] in *.
  apply andb_prop in Hp as [Hpx Hpl]. destruct n as [|n]; [cbn in Hn; lia|]. cbn [p_elements].
  destruct (decide (l = [])) as [->|Hl0].
  - cbn [map join_with]. rewrite Hx; [reflexivity | cbn in Hn; lia | now repeat split].
  - rewrite join_cons by now destruct l. rewrite <- !app_assoc. cbn [comma app].
    rewrite Hx; [|lia|now repeat split].
    rewrite (skip_ws_head ",") by reflexivity. cbn [Ascii.eqb Bool.eqb].
    destruct (join_head d_value (fun y => plain y = true) l ("]"%char :: rest)) as (c & r & E & Hc & _);
      [apply d_value_head | now apply forallb_Forall | exact Hl0|].
    change (skip_ws (" "%char :: join_with comma (map d_value l) ++ "]"%char :: rest))
      with (skip_ws (join_with comma (map d_value l) ++ "]"%char :: rest)).
    rewrite E, skip_ws_head, <- E by exact Hc. rewrite IH; auto. unfold list_sum. lia.
Qed.

Lemma assoc_set_fresh k v l : ~ In k (map fst l) -> assoc_set k v l = l ++ [(k, v)].
Proof.
  induction l as [|[k' v'] l IH]; cbn; intros H; [reflexivity|].
  destruct (String.eqb_spec k k') as [->|]; [tauto|]. now rewrite IH by tauto.
Qed.

Definition d_member (kv : string * json) : list ascii :=
  d_string (fst kv) ++ [":"%char; " "%char] ++ d_value (snd kv).

Lemma p_member_step kv n r acc :
  ascii_string (fst kv) = true -> plain (snd kv) = true ->
  p_value n (d_value (snd kv) ++ r) = Some (snd kv, r) ->
  p_members (S n) (d_member kv ++ r) acc =
  match skip_ws r with
  | e :: r4 =>
      if Ascii.eqb e "," then p_members n (skip_ws r4) (assoc_set (fst kv) (snd kv) acc)
      else if Ascii.eqb e "}" then Some (JObj (assoc_set (fst kv) (snd kv) acc), r4) else None
  | [] => None
  end.
Proof.
  destruct kv as [k v]. cbn [fst snd]. intros Hk Hpv Hv. unfold d_member. cbn [fst snd].
  rewrite <- !app_assoc.
  destruct (p_string_d k ([":"%char; " "%char] ++ d_value v ++ r) Hk) as (r0 & E & Es).
  rewrite E. cbn [p_members]. rewrite Ascii.eqb_refl. cbn [negb]. rewrite Es. cbn [app].
  rewrite (skip_ws_head ":") by reflexivity. cbn [Ascii.eqb Bool.eqb negb].
  destruct (d_value_head v Hpv) as (c & t & Ev & Hc & _).
  change (skip_ws (" "%char :: d_value v ++ r)) with (skip_ws (d_value v ++ r)).
  rewrite Ev in *. cbn [app] in *. rewrite skip_ws_head by exact Hc. rewrite Hv.
  now rewrite unchars_chars.
Qed.

Lemma p_members_d (l : list (string * json)) : forall n rest acc,
  Forall (fun kv => forall m r, (jsize (snd kv) <= m)%nat -> stop r ->
                    p_value m (d_value (snd kv) ++ r) = Some (snd kv, r)) l ->
  forallb (fun kv => ascii_string (fst kv) && plain (snd kv)) l = true ->
  NoDup (map fst (acc ++ l)) -> l <> [] ->
  (list_sum (map (fun kv => S (jsize (snd kv))) l) <= n)%nat ->
  p_members n (join_with comma (map d_member l) ++ "}"%char :: rest) acc = Some (JObj (acc ++ l), rest).
Proof.
  induction l as [|kv l IH]; intros n rest acc Hl Hp Hnd Hne Hn; [congruence|].
  inversion Hl as [|? ? Hx Hl']; subst. cbn [forallb map list_sum foldr] in *.
  apply andb_prop in Hp as [Hpx Hpl]. apply andb_prop in Hpx as [Hk Hv].
  destruct n as [|n]; [cbn in Hn; lia|].
  assert (~ In (fst kv) (map fst acc)) as Hfresh.
  { rewrite map_app in Hnd. apply NoDup_app in Hnd as (_ & Hd & _). intros Hin.
    apply list_elem_of_In in Hin. apply (Hd _ Hin). cbn. now apply elem_of_cons; left. }
  assert (acc ++ kv :: l = (acc ++ [kv]) ++ l) as Eacc by now rewrite <- app_assoc.
  destruct (decide (l = [])) as [->|Hl0].
  - cbn [map join_with]. rewrite p_member_step; [|exact Hk|exact Hv|apply Hx; [cbn in Hn; lia | now repeat split]].
    rewrite assoc_set_fresh by exact Hfresh. now destruct kv.
  - rewrite join_cons by now destruct l. rewrite <- !app_assoc. cbn [comma app].
    rewrite p_member_step; [|exact Hk|exact Hv|apply Hx; [lia | now repeat split]].
    rewrite (skip_ws_head ",") by reflexivity. cbn [Ascii.eqb Bool.eqb].
    destruct (join_head d_member (fun _ => True) l ("}"%char :: rest)) as (c & r & E & Hc & _);
      [intros x _; eexists _, _; split; [reflexivity | now repeat split] | now apply Forall_forall | exact Hl0|].
    change (skip_ws (" "%char :: join_with comma (map d_member l) ++ "}"%char :: rest))
      with (skip_ws (join_with comma (map d_member l) ++ "}"%char :: rest)).
    rewrite E, skip_ws_head, <- E by exact Hc. rewrite assoc_set_fresh by exact Hfresh.
    destruct kv as [k v]. rewrite Eacc in *. apply IH; auto. unfold list_sum. lia.
Qed.

Lemma jsize_elem {A} (f : A -> nat) x l : In x l -> (f x < list_sum (map (fun y => S (f y)) l))%nat.
Proof. unfold list_sum. induction l as [|y l IH]; cbn; [tauto|]. intros [->|H]; [lia|]. apply IH in H. lia. Qed.

Lemma p_value_d : forall k j n rest,
  (jsize j <= k)%nat -> (jsize j <= n)%nat -> plain j = true -> stop rest ->
  p_value n (d_value j ++ rest) = Some (j, rest).
Proof.
  induction k as [|k IH]; intros j n rest Hk Hn Hp Hs; [destruct j; cbn in Hk; lia|].
  destruct n as [|n]; [destruct j; cbn in Hn; lia|].
  destruct j as [|[]|z|x|s|l|kvs]; try discriminate Hp; try reflexivity.
  - now apply p_value_int.
  - destruct (p_string_d s rest Hp) as (r & E & Es). cbn [d_value]. rewrite E. cbn [p_value].
    rewrite Ascii.eqb_refl, Es. now rewrite unchars_chars.
  - cbn [d_value]. destruct (decide (l = [])) as [->|Hne]; [reflexivity|].
    rewrite <- app_comm_cons, <- app_assoc. cbn [plain jsize app] in *.
    destruct (join_head d_value (fun y => plain y = true) l ("]"%char :: rest)) as (c & r & E & Hc & Hb & _);
      [apply d_value_head | now apply forallb_Forall | exact Hne|].
    cbn [p_value]. change (Ascii.eqb "[" dq) with false. change (Ascii.eqb "[" "{") with false.
    change (Ascii.eqb "[" "[") with true. cbn iota.
    rewrite E, skip_ws_head by exact Hc. rewrite Hb, <- E. apply p_elements_d; auto; [|lia].
    apply Forall_forall. intros y Hy%list_elem_of_In m r' Hm Hr. apply IH; auto.
    + pose proof (jsize_elem jsize y l Hy). lia.
    + rewrite forallb_forall in Hp. auto.
  - destruct (decide (kvs = [])) as [->|Hne]; [reflexivity|].
    change (d_value (JObj kvs)) with ("{"%char :: join_with comma (map d_member kvs) ++ ["}"%char]).
    rewrite <- app_comm_cons, <- app_assoc. cbn [plain jsize app] in *.
    apply andb_prop in Hp as [Hnd%bool_decide_eq_true Hp].
    destruct (join_head d_member (fun _ => True) kvs ("}"%char :: rest)) as (c & r & E & Hc & _ & Hb);
      [intros x _; eexists _, _; split; [reflexivity | now repeat split] | now apply Forall_forall | exact Hne|].
    cbn [p_value]. change (Ascii.eqb "{" dq) with false. change (Ascii.eqb "{" "{") with true. cbn iota.
    rewrite E, skip_ws_head by exact Hc. rewrite Hb, <- E. apply (p_members_d kvs n rest []); auto; [|lia].
    apply Forall_forall. intros y Hy%list_elem_of_In m r' Hm Hr. apply IH; auto.
    + pose proof (jsize_elem (fun kv : string * json => jsize (snd kv)) y kvs Hy). cbn in *. lia.
    + rewrite forallb_forall in Hp. specialize (Hp y Hy). now apply andb_prop in Hp.
Qed.

Lemma join_length {A} (f : A -> list ascii) (g : A -> nat) l :
  (forall x, In x l -> (S (g x) <= 2 * List.length (f x))%nat) ->
  (list_sum (map (fun x => S (g x)) l) <= 2 * List.length (join_with comma (map f l)))%nat.
Proof.
  unfold list_sum. induction l as [|x l IH]; intros H; [cbn; lia|]. cbn [map foldr].
  assert (S (g x) <= 2 * List.length (f x))%nat by (apply H; now left).
  destruct (decide (l = [])) as [->|Hne]; [cbn; lia|].
  rewrite join_cons by now destruct l. rewrite !length_app. cbn [comma List.length].
  assert (foldr Nat.add 0%nat (map (fun x => S (g x)) l) <= 2 * List.length (join_with comma (map f l)))%nat
    by (apply IH; intros y Hy; apply H; now right). lia.
Qed.

Lemma jsize_len : forall k j, (jsize j <= k)%nat -> plain j = true ->
  (S (jsize j) <= 2 * List.length (d_value j))%nat.
Proof.
  induction k as [|k IH]; intros j Hk Hp; [destruct j; cbn in Hk; lia|].
  destruct j as [|[]|z|x|s|l|kvs]; try discriminate Hp; try (cbn; lia).
  - destruct (d_value_head (JInt z) Hp) as (c & r & E & _). rewrite E. cbn. lia.
  - cbn [d_value jsize plain] in *. cbn [List.length]. rewrite length_app. cbn [List.length].
    enough (list_sum (map (fun x => S (jsize x)) l) <= 2 * List.length (join_with comma (map d_value l)))%nat by lia.
    apply join_length. intros y Hy. pose proof (jsize_elem jsize y l Hy). apply IH; [lia|].
    rewrite forallb_forall in Hp. auto.
  - change (d_value (JObj kvs)) with ("{"%char :: join_with comma (map d_member kvs) ++ ["}"%char]).
    cbn [jsize plain] in *. apply andb_prop in Hp as [_ Hp]. cbn [List.length]. rewrite length_app. cbn [List.length].
    enough (list_sum (map (fun kv => S (jsize (snd kv))) kvs) <= 2 * List.length (join_with comma (map d_member kvs)))%nat by lia.
    apply (join_length d_member (fun kv => jsize (snd kv))). intros y Hy.
    pose proof (jsize_elem (fun kv : string * json => jsize (snd kv)) y kvs Hy) as He. cbv beta in He.
    rewrite forallb_forall in Hp. specialize (Hp y Hy). apply andb_prop in Hp as [_ Hp].
    specialize (IH (snd y) ltac:(lia) Hp). unfold d_member. rewrite !length_app. lia.
Qed.

Lemma chars_app s t : chars (s +:+ t) = chars s ++ chars t.
Proof. induction s as [|c s IH]; [reflexivity|]. exact (f_equal (cons c) IH). Qed.

(** A plain value is read back from its text, whatever blanks follow. *)
Lemma json_loads_dumps j blanks :
  plain j = true -> forallb is_ws (chars blanks) = true ->
  json_loads (json_dumps j +:+ blanks) = Some j.
Proof.
  intros Hp Hb. unfold json_loads, json_dumps. rewrite chars_app, chars_unchars.
  destruct (d_value_head j Hp) as (c & r & E & Hc & _).
  assert (skip_ws (d_value j ++ chars blanks) = d_value j ++ chars blanks) as ->
    by (rewrite E; now apply skip_ws_head).
  pose proof (jsize_len _ j (le_n _) Hp). rewrite (p_value_d (jsize j) j); auto.
  - assert (skip_ws (chars blanks) = []) as ->; [|reflexivity].
    induction (chars blanks) as [|b l IH]; [reflexivity|]. cbn in *. apply andb_prop in Hb as [Hb1 Hb].
    unfold skip_ws in *. cbn. now rewrite Hb1, IH.
  - rewrite length_app. lia.
  - destruct (chars blanks) as [|b l]; [exact I|]. cbn in Hb. apply andb_prop in Hb as [Hb _].
    destruct b as [[] [] [] [] [] [] [] []]; try discriminate Hb; now repeat split.
Qed.

(** [repr] of a [str] and of a list of them. *)
Definition squote : ascii := "'"%char.
Definition repr_char (q : ascii) (c : ascii) : list ascii :=
  let n := Z.of_nat (nat_of_ascii c) in
  if Ascii.eqb c q || Ascii.eqb c bslash then [bslash; c]
  else if n =? 10 then [bslash; "n"%char]
  else if n =? 13 then [bslash; "r"%char]
  else if n =? 9 then [bslash; "t"%char]
  else if (n <? 32) || (n =? 127) then [bslash; "x"%char; hex_digit (n / 16); hex_digit (n mod 16)]
  else [c].
Definition py_repr (s : string) : string :=
  let has c := existsb (Ascii.eqb c) (chars s) in
  let q := if has squote && negb (has dq) then dq else squote in
  unchars (q :: flat_map (repr_char q) (chars s) ++ [q]).
Definition repr_list (l : list string) : string := "[" +:+ String.concat ", " (map py_repr l) +:+ "]".
