(* ===== verification/PyParse.v ===== *)
(** * Dates and texts of untyped values

    Python's [str] and [repr] of a JSON value, [datetime.strptime] and
    [datetime.fromisoformat]: what the providers apply to the values a broker
    sends. *)
From S2P Require Import Prelude PyStr PyFloat Json PyTime JsonText.
From Stdlib Require Import Ascii.

(** ** [repr] and [str] *)
Definition squote_char : ascii := "'"%char.
Definition repr_escape (q : ascii) (c : ascii) : list ascii :=
  let n := Z.of_nat (nat_of_ascii c) in
  if Ascii.eqb c q || Ascii.eqb c bslash then [bslash; c]
  else if n =? 10 then [bslash; "n"%char]
  else if n =? 13 then [bslash; "r"%char]
  else if n =? 9 then [bslash; "t"%char]
  else if (n <? 32) || (n =? 127) then [bslash; "x"%char; hex_digit (n / 16); hex_digit (n mod 16)]
  else [c].
Definition str_repr (s : string) : string :=
  let has c := existsb (Ascii.eqb c) (chars s) in
  let q := if has squote_char && negb (has dq) then dq else squote_char in
  unchars (q :: flat_map (repr_escape q) (chars s) ++ [q]).
Fixpoint json_repr (j : json) : string :=
  match j with
  | JNull => "None"
  | JBool b => if b then "True" else "False"
  | JInt n => str_of_Z n
  | JFloat x => f_repr x
  | JStr s => str_repr s
  | JArr l => "[" +:+ String.concat ", " (map json_repr l) +:+ "]"
  | JObj kvs => "{" +:+ String.concat ", " (map (fun kv => str_repr (fst kv) +:+ ": " +:+ json_repr (snd kv)) kvs) +:+ "}"
  end.
Definition py_str (j : json) : string := match j with JStr s => s | _ => json_repr j end.

(** ** [strptime]

    A directive is an alternation of a regular expression: the ways it can
    match, in the order they are tried, each with what is left.  The first match
    of the whole format decides; it must leave nothing. *)
Inductive field : Type := FYear | FMonth | FDay | FHour | FMinute | FSecond | FMicro | FMonthName.
Inductive directive : Type := Lit (c : ascii) | Blank | Dir (f : field) (ways : list ascii -> list (Z * list ascii)).

Definition is_blank (c : ascii) : bool := is_space c.
(** [n] digits, with a test on their value. *)
Definition digits_n (n : nat) (ok : Z -> bool) (l : list ascii) : list (Z * list ascii) :=
  let d := take n l in
  if (List.length d =? n)%nat && forallb is_digit d && ok (digits_Z d) then [(digits_Z d, drop n l)] else [].
Definition between (a b x : Z) : bool := (a <=? x) && (x <=? b).
Definition w_year := digits_n 4 (fun _ => true).
Definition w_month l := digits_n 2 (between 10 12) l ++ digits_n 2 (between 1 9) l ++ digits_n 1 (between 1 9) l.
Definition w_day l :=
  digits_n 2 (between 30 31) l ++ digits_n 2 (between 10 29) l ++ digits_n 2 (between 1 9) l ++ digits_n 1 (between 1 9) l ++
  match l with c :: r => if Ascii.eqb c " " then digits_n 1 (between 1 9) r else [] | [] => [] end.
Definition w_hour l := digits_n 2 (between 20 23) l ++ digits_n 2 (between 0 19) l ++ digits_n 1 (fun _ => true) l.
Definition w_minute l := digits_n 2 (between 0 59) l ++ digits_n 1 (fun _ => true) l.
Definition w_second l := digits_n 2 (between 60 61) l ++ digits_n 2 (between 0 59) l ++ digits_n 1 (fun _ => true) l.
(** One to six digits, as many as possible first. *)
Definition w_micro l :=
  flat_map (fun n => map (fun vr : Z * list ascii => (fst vr * 10 ^ Z.of_nat (6 - n), snd vr)) (digits_n n (fun _ => true) l)) [6; 5; 4; 3; 2; 1]%nat.
Definition named (names : list (string * Z)) (l : list ascii) : list (Z * list ascii) :=
  omap (fun nm => (fun r => (snd nm, r)) <$>
          (let k := String.length (fst nm) in
           if String.eqb (lower (unchars (take k l))) (fst nm) then Some (drop k l) else None)) names.
Definition MONTHS3 : list (string * Z) :=
  [("jan", 1); ("feb", 2); ("mar", 3); ("apr", 4); ("may", 5); ("jun", 6); ("jul", 7); ("aug", 8); ("sep", 9); ("oct", 10); ("nov", 11); ("dec", 12)].
Definition MONTHS : list (string * Z) :=
  [("september", 9); ("february", 2); ("november", 11); ("december", 12); ("january", 1); ("october", 10); ("august", 8);
   ("march", 3); ("april", 4); ("june", 6); ("july", 7); ("may", 5)].

Fixpoint format_of (l : list ascii) : list directive :=
  match l with
  | [] => []
  | c :: r =>
      if Ascii.eqb c "%" then
        match r with
        | [] => []
        | d :: r' =>
            (if Ascii.eqb d "Y" then [Dir FYear w_year] else if Ascii.eqb d "m" then [Dir FMonth w_month]
             else if Ascii.eqb d "d" then [Dir FDay w_day] else if Ascii.eqb d "H" then [Dir FHour w_hour]
             else if Ascii.eqb d "M" then [Dir FMinute w_minute] else if Ascii.eqb d "S" then [Dir FSecond w_second]
             else if Ascii.eqb d "f" then [Dir FMicro w_micro] else if Ascii.eqb d "b" then [Dir FMonthName (named MONTHS3)]
             else if Ascii.eqb d "B" then [Dir FMonthName (named MONTHS)] else []) ++ format_of r'
        end
      else if is_blank c then Blank :: format_of r
      else Lit c :: format_of r
  end.
Record Fields : Type := mkFields { f_y : Z; f_mo : Z; f_d : Z; f_h : Z; f_mi : Z; f_s : Z; f_us : Z }.
Definition set_field (k : field) (v : Z) (x : Fields) : Fields :=
  match k with
  | FYear => mkFields v x.(f_mo) x.(f_d) x.(f_h) x.(f_mi) x.(f_s) x.(f_us)
  | FMonth | FMonthName => mkFields x.(f_y) v x.(f_d) x.(f_h) x.(f_mi) x.(f_s) x.(f_us)
  | FDay => mkFields x.(f_y) x.(f_mo) v x.(f_h) x.(f_mi) x.(f_s) x.(f_us)
  | FHour => mkFields x.(f_y) x.(f_mo) x.(f_d) v x.(f_mi) x.(f_s) x.(f_us)
  | FMinute => mkFields x.(f_y) x.(f_mo) x.(f_d) x.(f_h) v x.(f_s) x.(f_us)
  | FSecond => mkFields x.(f_y) x.(f_mo) x.(f_d) x.(f_h) x.(f_mi) v x.(f_us)
  | FMicro => mkFields x.(f_y) x.(f_mo) x.(f_d) x.(f_h) x.(f_mi) x.(f_s) v
  end.
(** [\s+]: as many as possible first. *)
Fixpoint blanks (l : list ascii) : list (list ascii) :=
  match l with c :: r => if is_blank c then blanks r ++ [r] else [] | [] => [] end.
(** The first match. *)
Fixpoint scan (fmt : list directive) (l : list ascii) (x : Fields) : option (Fields * list ascii) :=
  match fmt with
  | [] => Some (x, l)
  | Lit c :: f =>
      match l with
      | d :: r => if Ascii.eqb (ascii_lower c) (ascii_lower d) then scan f r x else None
      | [] => None
      end
  | Blank :: f => (fix first (ls : list (list ascii)) := match ls with
                   | [] => None
                   | r :: ls => match scan f r x with Some y => Some y | None => first ls end
                   end) (blanks l)
  | Dir k ways :: f => (fix first (vs : list (Z * list ascii)) := match vs with
                        | [] => None
                        | (v, r) :: vs => match scan f r (set_field k v x) with Some y => Some y | None => first vs end
                        end) (ways l)
  end.
Definition US_PER_SECOND : Z := 1000000.
Definition time_us (h mi s us : Z) : Z := ((h * 60 + mi) * 60 + s) * US_PER_SECOND + us.
(** The wall-clock instant: microseconds since the epoch, as if in UTC. *)
Definition strptime (fmt s : string) : option Z :=
  match scan (format_of (chars fmt)) (chars s) (mkFields 1900 1 1 0 0 0 0) with
  | Some (x, []) =>
      if valid_date x.(f_y) x.(f_mo) x.(f_d) && (x.(f_s) <=? 59) then
        Some (midnight (ymd2ord x.(f_y) x.(f_mo) x.(f_d)) + time_us x.(f_h) x.(f_mi) x.(f_s) x.(f_us))
      else None
  | _ => None
  end.
Fixpoint strptime_any (fmts : list string) (s : string) : option Z :=
  match fmts with [] => None | f :: r => match strptime f s with Some t => Some t | None => strptime_any r s end end.

(** ** [datetime.fromisoformat] *)
Fixpoint find_char (c : ascii) (l : list ascii) : option nat :=
  match l with [] => None | d :: r => if Ascii.eqb c d then Some O else S <$> find_char c r end.
Fixpoint digit_run (n : nat) (l : list ascii) : nat :=
  match l with c :: r => if is_digit c then digit_run (S n) r else n | [] => n end.
(** Where the date part ends. *)
Definition date_length (l : list ascii) : option nat :=
  let n := List.length l in
  if (n =? 7)%nat then Some 7%nat
  else if is_char "-" 4 l then
    if is_char "W" 5 l then
      if (8 <? n)%nat && is_char "-" 8 l then
        if (n =? 9)%nat then None
        else if (10 <? n)%nat && match l !! 10%nat with Some c => is_digit c | None => false end then Some 8%nat else Some 10%nat
      else Some 8%nat
    else Some 10%nat
  else if is_char "W" 4 l then
    let i := digit_run 7 (drop 7 l) in
    if (i <? 9)%nat then Some i else if Nat.even i then Some 7%nat else Some 8%nat
  else Some 8%nat.
Definition two_digits (l : list ascii) : option Z :=
  match l with a :: b :: _ => if is_digit a && is_digit b then Some (digits_Z [a; b]) else None | _ => None end.
(** [hh[:mm[:ss[.ffffff]]]], or without the colons. *)
Definition clock_fraction (h mi s : Z) (l : list ascii) : option (Z * Z * Z * Z) :=
  match l with
  | [] => Some (h, mi, s, 0)
  | c :: r =>
      if Ascii.eqb c "." || Ascii.eqb c "," then
        let d := take 6 r in
        if bool_decide (d = []) || negb (forallb is_digit r) then None
        else Some (h, mi, s, digits_Z d * 10 ^ (6 - Z.of_nat (List.length d)))
      else None
  end.
Definition clock_of (l : list ascii) : option (Z * Z * Z * Z) :=
  h ← two_digits l;
  match drop 2 l with
  | [] => Some (h, 0, 0, 0)
  | c :: r =>
      let sep := Ascii.eqb c ":" in
      let l1 := if sep then r else c :: r in
      mi ← two_digits l1;
      match drop 2 l1 with
      | [] => Some (h, mi, 0, 0)
      | c2 :: r2 =>
          if sep && negb (Ascii.eqb c2 ":") then None
          else
            let l2 := if sep then r2 else c2 :: r2 in
            s ← two_digits l2;
            clock_fraction h mi s (drop 2 l2)
      end
  end.
Definition clock_us (c : Z * Z * Z * Z) : option Z :=
  let '(h, mi, s, us) := c in
  if (h <? 24) && (mi <? 60) && (s <? 60) then Some (time_us h mi s us) else None.
(** The first of [-], [+], [Z], in this order of preference. *)
Definition zone_at (l : list ascii) : option nat :=
  match find_char "-" l with
  | Some i => Some i
  | None => match find_char "+" l with Some i => Some i | None => find_char "Z" l end
  end.
(** The time of day and the offset from UTC, if one is given. *)
Definition iso_time (l : list ascii) : option (Z * option Z) :=
  if (List.length l <? 2)%nat then None
  else
    match zone_at l with
    | None => t ← clock_of l; u ← clock_us t; Some (u, None)
    | Some i =>
        t ← clock_of (take i l); u ← clock_us t;
        let z := drop (S i) l in
        if is_char "Z" i l then if bool_decide (z = []) then Some (u, Some 0) else None
        else if existsb (Nat.eqb (List.length z)) [0; 1; 3]%nat then None
        else
          c ← clock_of z;
          let '(h, mi, s, us) := c in
          let off := time_us h mi s us in
          if US_PER_DAY <=? off then None
          else Some (u, Some (if is_char "-" i l then - off else off))
    end.
(** A wall-clock instant with its offset; [None] for a naive one. *)
Record stamp : Type := mkStamp { st_local : Z; st_offset : option Z }.
Definition datetime_fromisoformat (s : string) : option stamp :=
  let l := chars s in
  if (List.length l <? 7)%nat then None
  else
    n ← date_length l;
    d ← fromisoformat (unchars (take n l));
    match drop (S n) l with
    | [] => Some (mkStamp (midnight d) None)
    | tl => t ← iso_time tl; Some (mkStamp (midnight d + fst t) (snd t))
    end.
(** [astimezone]: a naive value is in the host's zone. *)
Definition instant_of (host_zone : Z) (x : stamp) : Z := x.(st_local) - default host_zone x.(st_offset).

(** [s.replace('Z', '+00:00')] *)
Definition zulu (c : ascii) : string := if Ascii.eqb c "Z" then "+00:00" else unchars [c].
Definition replace_Z (s : string) : string := String.concat "" (map zulu (chars s)).

Example strptime_examples :
  map (fun fs => strptime (fst fs) (snd fs))
    [("%d-%b-%Y", "08-Sep-2026"); ("%d-%b-%Y", "8-sep-2026"); ("%d%b%Y", "08SEP2026"); ("%d-%b-%Y", "31-Feb-2026"); ("%Y-%m-%d", "2026-9-8")] =
    [Some (midnight (ymd2ord 2026 9 8)); Some (midnight (ymd2ord 2026 9 8)); Some (midnight (ymd2ord 2026 9 8)); None;
     Some (midnight (ymd2ord 2026 9 8))] /\
  strptime "%Y-%m-%dT%H:%M:%S.%fZ" "2026-09-08T09:15:30.25Z" = Some (midnight (ymd2ord 2026 9 8) + time_us 9 15 30 250000) /\
  strptime "%d-%b-%Y %H:%M:%S" "08-Sep-2026   09:15:61" = None.
Proof. vm_compute. repeat split. Qed.
Example fromiso_examples :
  datetime_fromisoformat "2026-09-08T09:15:30+05:30" = Some (mkStamp (midnight (ymd2ord 2026 9 8) + time_us 9 15 30 0) (Some (time_us 5 30 0 0))) /\
  datetime_fromisoformat "2026-09-08 09:15" = Some (mkStamp (midnight (ymd2ord 2026 9 8) + time_us 9 15 0 0) None) /\
  datetime_fromisoformat "20260908T091530.5-0330" = Some (mkStamp (midnight (ymd2ord 2026 9 8) + time_us 9 15 30 500000) (Some (- time_us 3 30 0 0))) /\
  datetime_fromisoformat "2026-09-08" = Some (mkStamp (midnight (ymd2ord 2026 9 8)) None) /\
  datetime_fromisoformat "2026-09-08T25:00" = None.
Proof. vm_compute. repeat split. Qed.

(** ** [strptime] reads what was written *)
Lemma scan_lit c f l x : scan (Lit c :: f) (c :: l) x = scan f l x.
Proof. cbn. now rewrite Ascii.eqb_refl. Qed.
Lemma scan_dir k ways f l x v r rest y : ways l = (v, r) :: rest -> scan f r (set_field k v x) = Some y ->
  scan (Dir k ways :: f) l x = Some y.
Proof. intros E H. cbn [scan]. rewrite E. cbn. now rewrite H. Qed.

Lemma day_scans d : 1 <= d <= 31 ->
  exists c1 c2, chars (pad_zeros 2 (str_of_Z d)) = [c1; c2] /\ forall l, exists rest, w_day (c1 :: c2 :: l) = (d, l) :: rest.
Proof.
  intros H. assert (In d (seqZ 1 31)) as Hi by (apply list_elem_of_In, elem_of_seqZ; lia). vm_compute in Hi. clear H.
  repeat (destruct Hi as [<-|Hi]; [eexists _, _; split; [vm_compute; reflexivity | intros l; eexists; reflexivity]|]).
  destruct Hi.
Qed.
Definition year_ok (y : Z) : bool :=
  let l := chars (str_of_Z y) in (List.length l =? 4)%nat && forallb is_digit l && (digits_Z l =? y) && String.eqb (pad_zeros 4 (str_of_Z y)) (str_of_Z y).
Lemma year_table : forallb (fun k => year_ok (1000 + k)) (seqZ 0 9000) = true.
Proof. vm_compute. reflexivity. Qed.
Lemma year_scans y l : 1000 <= y <= 9999 -> w_year (chars (str_of_Z y) ++ l) = [(y, l)].
Proof.
  intros H. pose proof (table_at (fun k => year_ok (1000 + k)) 9000 (y - 1000) year_table ltac:(lia)) as K. cbn beta in K.
  replace (1000 + (y - 1000)) with y in K by lia. unfold year_ok in K. rewrite !andb_true_iff, Nat.eqb_eq, Z.eqb_eq in K.
  destruct K as [[[K1 K2] K3] _]. unfold w_year, digits_n. rewrite (take_app_length' _ l 4 (eq_sym K1)), (drop_app_length' _ l 4 (eq_sym K1)). cbv zeta. now rewrite K1, K2, K3.
Qed.
Lemma month_number_scans m : 1 <= m <= 12 ->
  exists c1 c2, chars (pad_zeros 2 (str_of_Z m)) = [c1; c2] /\ forall l, exists rest, w_month (c1 :: c2 :: l) = (m, l) :: rest.
Proof.
  intros H. assert (In m (seqZ 1 12)) as Hi by (apply list_elem_of_In, elem_of_seqZ; lia). vm_compute in Hi. clear H.
  repeat (destruct Hi as [<-|Hi]; [eexists _, _; split; [vm_compute; reflexivity | intros l; eexists; reflexivity]|]).
  destruct Hi.
Qed.
Definition four_digit_year (e : Z) : Prop := 1 <= e /\ 1000 <= fst (fst (ord2ymd e)) <= 9999.
Lemma four_digit_days o : FIRST_FOUR_DIGIT_DAY <= o <= MAX_ORDINAL -> four_digit_year o.
Proof.
  intros H. assert (1 <= o) as Ho by (unfold FIRST_FOUR_DIGIT_DAY in H; lia). split; [exact Ho|].
  pose proof (ymd2ord_ord2ymd o Ho) as E. destruct (ord2ymd o) as [[y m] d]. destruct E as (_ & Hm & Hd & E). cbn.
  split; [apply (year_at_least_1000 y m d); lia | apply (year_at_most_9999 y m d); lia].
Qed.
Lemma four_digit_padded y : 1000 <= y <= 9999 -> pad_zeros 4 (str_of_Z y) = str_of_Z y.
Proof.
  intros H. pose proof (table_at (fun k => year_ok (1000 + k)) 9000 (y - 1000) year_table ltac:(lia)) as K. cbn beta in K.
  replace (1000 + (y - 1000)) with y in K by lia. unfold year_ok in K. rewrite !andb_true_iff, String.eqb_eq in K. tauto.
Qed.
Lemma strptime_isoformat o : four_digit_year o -> strptime "%Y-%m-%d" (isoformat o) = Some (midnight o).
Proof.
  intros [Ho Hy]. pose proof (ymd2ord_ord2ymd o Ho) as H. unfold isoformat. destruct (ord2ymd o) as [[y m] d].
  destruct H as (_ & Hm & Hd & <-). cbn [fst] in Hy. rewrite four_digit_padded by exact Hy.
  assert (days_in_month y m <= 31) as H31 by (unfold days_in_month; repeat case_match; lia).
  destruct (day_scans d ltac:(lia)) as (d1 & d2 & Ed & Wd). destruct (month_number_scans m Hm) as (m1 & m2 & Em & Wm).
  unfold strptime. rewrite !chars_app, Ed, Em.
  change (format_of (chars "%Y-%m-%d")) with (Dir FYear w_year :: Lit "-" :: Dir FMonth w_month :: Lit "-" :: [Dir FDay w_day]).
  change (chars "-") with ["-"%char]. cbn [app].
  destruct (Wm ("-"%char :: [d1; d2])) as [rm Rm]. destruct (Wd []) as [rd Rd].
  erewrite scan_dir; [|apply year_scans, Hy|].
  2:{ rewrite scan_lit. eapply scan_dir; [exact Rm|]. rewrite scan_lit. eapply scan_dir; [exact Rd|]. cbn. reflexivity. }
  cbn [f_y f_mo f_d f_h f_mi f_s f_us set_field].
  assert (valid_date y m d = true) as ->. { unfold valid_date. rewrite !andb_true_iff, !Z.leb_le. lia. }
  cbn [andb Z.leb]. f_equal. unfold time_us. cbn. lia.
Qed.
