(* ===== verification/Permissions.v ===== *)
(** * Permission model

    [trading/api/security/permissions.py]: the six capabilities, the role
    bundles, the machine identity's fixed rights, and the two functions that
    turn a user row's [role] and [extra_permissions] into a permission set. *)
From S2P Require Import Prelude PyStr.

Inductive Permission : Type :=
| VIEW | START | STOP | RESTART | TRADING_CONTROL | ADMIN.

#[global] Instance Permission_eq_dec : EqDecision Permission.
Proof. solve_decision. Defined.

Definition Permission_to_nat (p : Permission) : nat :=
  match p with
  | VIEW => 0 | START => 1 | STOP => 2 | RESTART => 3 | TRADING_CONTROL => 4 | ADMIN => 5
  end%nat.
Definition Permission_of_nat (n : nat) : Permission :=
  match n with
  | 0 => VIEW | 1 => START | 2 => STOP | 3 => RESTART | 4 => TRADING_CONTROL | _ => ADMIN
  end%nat.
#[global] Program Instance Permission_countable : Countable Permission :=
  inj_countable' Permission_to_nat Permission_of_nat _.
Next Obligation. now intros []. Qed.

(** [Permission.value] and [Permission(name)] (a [ValueError] is [None]). *)
Definition perm_value (p : Permission) : string :=
  match p with
  | VIEW => "VIEW" | START => "START" | STOP => "STOP" | RESTART => "RESTART"
  | TRADING_CONTROL => "TRADING_CONTROL" | ADMIN => "ADMIN"
  end.
Definition perm_of_name (s : string) : option Permission :=
  List.find (fun p => String.eqb (perm_value p) s)
    [VIEW; START; STOP; RESTART; TRADING_CONTROL; ADMIN].

Definition ROLE_PERMISSIONS : list (string * gset Permission) :=
  [("viewer", {[VIEW]});
   ("trader", {[VIEW; START; STOP; RESTART]});
   ("operator", {[VIEW; START; STOP; RESTART; TRADING_CONTROL]});
   ("admin", {[VIEW; START; STOP; RESTART; TRADING_CONTROL; ADMIN]})].

Definition role_permissions (role : string) : gset Permission :=
  match List.find (fun kv => String.eqb (fst kv) role) ROLE_PERMISSIONS with
  | Some (_, ps) => ps
  | None => ∅
  end.

Definition VALID_ROLES : list string := map fst ROLE_PERMISSIONS.
Definition DEFAULT_ROLE : string := "viewer".
Definition SERVICE_PERMISSIONS : gset Permission := {[VIEW]}.

(** Unknown names in [extra] are skipped ([except ValueError: continue]). *)
Definition permissions_for (role : string) (extra : option (list string)) : gset Permission :=
  fold_left (fun perms name =>
               match perm_of_name name with
               | Some p => {[p]} ∪ perms
               | None => perms
               end)
    (default [] extra) (role_permissions role).

Fixpoint normalize_loop (out : list string) (values : list string) : result exn (list string) :=
  match values with
  | [] => Ok out
  | v :: r =>
      match perm_of_name v with
      | Some p => normalize_loop (out ++ [perm_value p]) r
      | None => Err (ValueError ("Unknown permission: '" +:+ v +:+ "'"))
      end
  end.
Definition normalize_extra_permissions (values : option (list string)) : result exn (list string) :=
  match normalize_loop [] (default [] values) with
  | Ok out => Ok (sorted_set out)
  | Err e => Err e
  end.

(** [sorted(p.value for p in perms)] *)
Definition perm_values (perms : gset Permission) : list string :=
  merge_sort String.le (perm_value <$> elements perms).

#[global] Arguments perm_of_name : simpl never.

(** ** Lemmas *)
Lemma perm_of_name_value p : perm_of_name (perm_value p) = Some p.
Proof. now destruct p. Qed.

Lemma perm_of_name_Some s p : perm_of_name s = Some p -> s = perm_value p.
Proof. unfold perm_of_name. intros H. apply find_some in H as [_ H]. to_prop. congruence. Qed.

Lemma elem_of_extra_fold p l s :
  p ∈ fold_left (fun perms name =>
        match perm_of_name name with Some q => {[q]} ∪ perms | None => perms end) l s
  <-> p ∈ (s : gset Permission) \/ perm_value p ∈ l.
Proof.
  revert s. induction l as [|v l IH]; intros s; cbn; [set_solver|].
  rewrite IH. destruct (perm_of_name v) as [q|] eqn:E.
  - apply perm_of_name_Some in E as ->. rewrite elem_of_union, elem_of_singleton, elem_of_cons.
    assert (perm_value p = perm_value q <-> p = q); [|naive_solver].
    split; [|congruence]. intros H. apply (f_equal perm_of_name) in H.
    rewrite !perm_of_name_value in H. congruence.
  - rewrite elem_of_cons. assert (perm_value p <> v); [|naive_solver].
    intros <-. now rewrite perm_of_name_value in E.
Qed.

Lemma elem_of_permissions_for p role extra :
  p ∈ permissions_for role extra
  <-> p ∈ role_permissions role \/ perm_value p ∈ default [] extra.
Proof. apply elem_of_extra_fold. Qed.

Lemma normalize_loop_spec values : forall out,
  normalize_loop out values =
    match List.find (fun v => match perm_of_name v with Some _ => false | None => true end) values with
    | Some v => Err (ValueError ("Unknown permission: '" +:+ v +:+ "'"))
    | None => Ok (out ++ values)
    end.
Proof.
  induction values as [|v r IH]; intros out; cbn; [now rewrite app_nil_r|].
  destruct (perm_of_name v) as [p|] eqn:E; [|reflexivity].
  rewrite IH. apply perm_of_name_Some in E as ->.
  destruct (List.find _ r); [reflexivity|]. now rewrite <- app_assoc.
Qed.

(** Storing a user's extra grants is faithful: when
    [normalize_extra_permissions] accepts a list, what it returns is strictly
    sorted and gives exactly the same permission set as the caller's list for
    every role, with nothing silently dropped; it rejects a list exactly when
    some name is not a permission. *)
Theorem normalize_extra_permissions_faithful (values : option (list string)) :
  match normalize_extra_permissions values with
  | Ok out =>
      StronglySorted String.le out /\ NoDup out /\
      (forall v, v ∈ default [] values -> is_Some (perm_of_name v)) /\
      (forall role, permissions_for role (Some out) = permissions_for role values)
  | Err e => exists v, v ∈ default [] values /\ perm_of_name v = None /\
                       e = ValueError ("Unknown permission: '" +:+ v +:+ "'")
  end.
Proof.
  unfold normalize_extra_permissions. rewrite normalize_loop_spec.
  destruct (List.find _ _) as [v|] eqn:E.
  - apply find_some in E as [Hin Hv]. exists v. rewrite list_elem_of_In.
    destruct (perm_of_name v); [discriminate | auto].
  - split; [apply Sorted_sorted_set|]. split; [apply NoDup_sorted_set|]. split.
    + intros v Hv. apply list_elem_of_In in Hv. pose proof (find_none _ _ E _ Hv) as H.
      cbn in H. destruct (perm_of_name v); [eauto | discriminate].
    + intros role. apply leibniz_equiv. intros p.
      rewrite !elem_of_permissions_for. cbn. now rewrite elem_of_sorted_set.
Qed.
