(* ===== verification/Schema.v ===== *)
(** * Relational schema of the control plane

    [trading/database/models.py]: one record per table, with the columns the
    modelled code reads or writes, and the constraints the classes declare
    (primary keys, [unique=True], [UniqueConstraint], [ForeignKey]).  A
    timestamp is the instant in microseconds since the epoch (all columns are
    [DateTime(timezone=True)] in UTC); a date is its proleptic ordinal.
    [created_at]/[updated_at] columns are kept where some code reads them. *)
From S2P Require Import Prelude PyStr PyFloat Json.

Abbreviation timestamp := Z (only parsing).

Record Server : Type := mkServer {
  srv_id : Z;
  srv_name : string;
  srv_ec2_instance_id : string;
  srv_region : string;
  srv_status : string;
  srv_os : string;
  srv_repo_path : string;
  srv_provisioning_status : string;
  srv_provisioning_message : option string;
  srv_last_heartbeat : option timestamp
}.

Record Algo : Type := mkAlgo {
  algo_pk : Z;
  algo_name : string;
  algo_server_id : Z;
  algo_script_path : string;
  algo_status : string;
  algo_enabled : bool;
  algo_trading_mode : option string;
  algo_running_lots : option Z;
  algo_updated_at : timestamp
}.

Record AlgoRun : Type := mkAlgoRun {
  run_id : Z;
  run_algo_id : Z;
  run_server_id : Z;
  run_status : string
}.

Record Heartbeat : Type := mkHeartbeat {
  hb_id : Z;
  hb_algo_id : Z;
  hb_server_id : Z;
  hb_timestamp : timestamp;
  hb_status : string;
  hb_cpu : option float;
  hb_memory : option float;
  hb_pnl : option float;
  hb_position : option string
}.

Record LogRow : Type := mkLogRow {
  log_id : Z;
  log_algo_id : option Z;
  log_server_id : option Z;
  log_timestamp : timestamp;
  log_level : string;
  log_event : string;
  log_details : json
}.

Record Position : Type := mkPosition {
  pos_id : Z;
  pos_algo_id : Z;
  pos_server_id : Z;
  pos_symbol : string;
  pos_quantity : Z;
  pos_average_price : float;
  pos_last_price : option float;
  pos_pnl : option float
}.

Record Trade : Type := mkTrade {
  trade_id : Z;
  trade_algo_id : Z;
  trade_server_id : Z;
  trade_symbol : string;
  trade_side : string;
  trade_quantity : Z;
  trade_price : float;
  trade_executed_at : timestamp;
  trade_order_id : option string
}.

Record DailyPnl : Type := mkDailyPnl {
  dp_id : Z;
  dp_algo_id : Z;
  dp_server_id : Z;
  dp_date : Z;
  dp_pnl : float;
  dp_trade_count : Z
}.

Record Command : Type := mkCommand {
  cmd_id : Z;
  cmd_algo_id : option Z;
  cmd_server_id : Z;
  cmd_command : string;
  cmd_job_id : option string;
  cmd_requested_by : option string;
  cmd_status : string;
  cmd_result : json;
  cmd_error : option string
}.

Record RateLimitWindow : Type := mkWindow {
  rlw_id : Z;
  rlw_api_key_hash : string;
  rlw_window_start : Z;      (* seconds since the epoch *)
  rlw_request_count : Z
}.

Record User : Type := mkUser {
  usr_id : Z;
  usr_username : string;
  usr_email : option string;
  usr_password_hash : string;
  usr_role : string;
  usr_extra_permissions : option (list string);
  usr_is_active : bool;
  usr_must_change_password : bool;
  usr_last_login_at : option timestamp
}.

Record AuthSession : Type := mkAuthSession {
  ses_id : Z;
  ses_user_id : Z;
  ses_token_hash : string;
  ses_csrf_token : string;
  ses_expires_at : timestamp;
  ses_revoked_at : option timestamp;
  ses_rotated_to : option Z;
  ses_ip : option string;
  ses_user_agent : option string
}.

Record AuditLog : Type := mkAuditLog {
  aud_id : Z;
  aud_timestamp : timestamp;
  aud_actor : string;
  aud_actor_label : option string;
  aud_action : string;
  aud_target : option string;
  aud_outcome : string;
  aud_ip : option string;
  aud_user_agent : option string;
  aud_detail : json
}.

(** The database: every table, and one [on_<table>] updater per table. *)
Record Db : Type := mkDb {
  servers : list Server;
  algos : list Algo;
  algo_runs : list AlgoRun;
  heartbeats : list Heartbeat;
  logs : list LogRow;
  positions : list Position;
  trades : list Trade;
  daily_pnl : list DailyPnl;
  commands : list Command;
  rate_limit_windows : list RateLimitWindow;
  users : list User;
  auth_sessions : list AuthSession;
  audit_log : list AuditLog
}.

Definition on_servers (f : list Server -> list Server) (d : Db) : Db :=
  mkDb (f (d.(servers))) d.(algos) d.(algo_runs) d.(heartbeats) d.(logs) d.(positions) d.(trades) d.(daily_pnl) d.(commands) d.(rate_limit_windows) d.(users) d.(auth_sessions) d.(audit_log).
Definition on_algos (f : list Algo -> list Algo) (d : Db) : Db :=
  mkDb d.(servers) (f (d.(algos))) d.(algo_runs) d.(heartbeats) d.(logs) d.(positions) d.(trades) d.(daily_pnl) d.(commands) d.(rate_limit_windows) d.(users) d.(auth_sessions) d.(audit_log).
Definition on_algo_runs (f : list AlgoRun -> list AlgoRun) (d : Db) : Db :=
  mkDb d.(servers) d.(algos) (f (d.(algo_runs))) d.(heartbeats) d.(logs) d.(positions) d.(trades) d.(daily_pnl) d.(commands) d.(rate_limit_windows) d.(users) d.(auth_sessions) d.(audit_log).
Definition on_heartbeats (f : list Heartbeat -> list Heartbeat) (d : Db) : Db :=
  mkDb d.(servers) d.(algos) d.(algo_runs) (f (d.(heartbeats))) d.(logs) d.(positions) d.(trades) d.(daily_pnl) d.(commands) d.(rate_limit_windows) d.(users) d.(auth_sessions) d.(audit_log).
Definition on_logs (f : list LogRow -> list LogRow) (d : Db) : Db :=
  mkDb d.(servers) d.(algos) d.(algo_runs) d.(heartbeats) (f (d.(logs))) d.(positions) d.(trades) d.(daily_pnl) d.(commands) d.(rate_limit_windows) d.(users) d.(auth_sessions) d.(audit_log).
Definition on_positions (f : list Position -> list Position) (d : Db) : Db :=
  mkDb d.(servers) d.(algos) d.(algo_runs) d.(heartbeats) d.(logs) (f (d.(positions))) d.(trades) d.(daily_pnl) d.(commands) d.(rate_limit_windows) d.(users) d.(auth_sessions) d.(audit_log).
Definition on_trades (f : list Trade -> list Trade) (d : Db) : Db :=
  mkDb d.(servers) d.(algos) d.(algo_runs) d.(heartbeats) d.(logs) d.(positions) (f (d.(trades))) d.(daily_pnl) d.(commands) d.(rate_limit_windows) d.(users) d.(auth_sessions) d.(audit_log).
Definition on_daily_pnl (f : list DailyPnl -> list DailyPnl) (d : Db) : Db :=
  mkDb d.(servers) d.(algos) d.(algo_runs) d.(heartbeats) d.(logs) d.(positions) d.(trades) (f (d.(daily_pnl))) d.(commands) d.(rate_limit_windows) d.(users) d.(auth_sessions) d.(audit_log).
Definition on_commands (f : list Command -> list Command) (d : Db) : Db :=
  mkDb d.(servers) d.(algos) d.(algo_runs) d.(heartbeats) d.(logs) d.(positions) d.(trades) d.(daily_pnl) (f (d.(commands))) d.(rate_limit_windows) d.(users) d.(auth_sessions) d.(audit_log).
Definition on_rate_limit_windows (f : list RateLimitWindow -> list RateLimitWindow) (d : Db) : Db :=
  mkDb d.(servers) d.(algos) d.(algo_runs) d.(heartbeats) d.(logs) d.(positions) d.(trades) d.(daily_pnl) d.(commands) (f (d.(rate_limit_windows))) d.(users) d.(auth_sessions) d.(audit_log).
Definition on_users (f : list User -> list User) (d : Db) : Db :=
  mkDb d.(servers) d.(algos) d.(algo_runs) d.(heartbeats) d.(logs) d.(positions) d.(trades) d.(daily_pnl) d.(commands) d.(rate_limit_windows) (f (d.(users))) d.(auth_sessions) d.(audit_log).
Definition on_auth_sessions (f : list AuthSession -> list AuthSession) (d : Db) : Db :=
  mkDb d.(servers) d.(algos) d.(algo_runs) d.(heartbeats) d.(logs) d.(positions) d.(trades) d.(daily_pnl) d.(commands) d.(rate_limit_windows) d.(users) (f (d.(auth_sessions))) d.(audit_log).
Definition on_audit_log (f : list AuditLog -> list AuditLog) (d : Db) : Db :=
  mkDb d.(servers) d.(algos) d.(algo_runs) d.(heartbeats) d.(logs) d.(positions) d.(trades) d.(daily_pnl) d.(commands) d.(rate_limit_windows) d.(users) d.(auth_sessions) (f (d.(audit_log))).

Definition empty_db : Db := mkDb [] [] [] [] [] [] [] [] [] [] [] [] [].

(** ** Constraints

    The condition a transaction must satisfy to commit; a violation is
    SQLAlchemy's [IntegrityError]. *)
Definition refers {A B} (fk : A -> Z) (l : list A) (pk : B -> Z) (t : list B) : bool :=
  forallb (fun x => existsb (fun y => pk y =? fk x) t) l.
Definition refers_opt {A B} (fk : A -> option Z) (l : list A) (pk : B -> Z) (t : list B) : bool :=
  forallb (fun x => match fk x with
                    | None => true
                    | Some k => existsb (fun y => pk y =? k) t
                    end) l.

Definition uniques_ok (d : Db) : bool :=
  unique_on srv_id d.(servers) && unique_on srv_name d.(servers) &&
  unique_on algo_pk d.(algos) &&
  unique_on (fun a => (algo_name a, algo_server_id a)) d.(algos) &&
  unique_on run_id d.(algo_runs) &&
  unique_on hb_id d.(heartbeats) &&
  unique_on log_id d.(logs) &&
  unique_on pos_id d.(positions) &&
  unique_on (fun p => (pos_algo_id p, pos_server_id p, pos_symbol p)) d.(positions) &&
  unique_on trade_id d.(trades) &&
  unique_on dp_id d.(daily_pnl) &&
  unique_on (fun p => (dp_algo_id p, dp_server_id p, dp_date p)) d.(daily_pnl) &&
  unique_on cmd_id d.(commands) &&
  unique_on rlw_id d.(rate_limit_windows) &&
  unique_on (fun w => (rlw_api_key_hash w, rlw_window_start w)) d.(rate_limit_windows) &&
  unique_on usr_id d.(users) && unique_on usr_username d.(users) &&
  unique_on ses_id d.(auth_sessions) && unique_on ses_token_hash d.(auth_sessions) &&
  unique_on aud_id d.(audit_log).

Definition foreign_keys_ok (d : Db) : bool :=
  refers algo_server_id d.(algos) srv_id d.(servers) &&
  refers run_algo_id d.(algo_runs) algo_pk d.(algos) &&
  refers run_server_id d.(algo_runs) srv_id d.(servers) &&
  refers hb_algo_id d.(heartbeats) algo_pk d.(algos) &&
  refers hb_server_id d.(heartbeats) srv_id d.(servers) &&
  refers_opt log_algo_id d.(logs) algo_pk d.(algos) &&
  refers_opt log_server_id d.(logs) srv_id d.(servers) &&
  refers pos_algo_id d.(positions) algo_pk d.(algos) &&
  refers pos_server_id d.(positions) srv_id d.(servers) &&
  refers trade_algo_id d.(trades) algo_pk d.(algos) &&
  refers trade_server_id d.(trades) srv_id d.(servers) &&
  refers dp_algo_id d.(daily_pnl) algo_pk d.(algos) &&
  refers dp_server_id d.(daily_pnl) srv_id d.(servers) &&
  refers_opt cmd_algo_id d.(commands) algo_pk d.(algos) &&
  refers cmd_server_id d.(commands) srv_id d.(servers) &&
  refers ses_user_id d.(auth_sessions) usr_id d.(users) &&
  refers_opt ses_rotated_to d.(auth_sessions) ses_id d.(auth_sessions).

Definition db_ok (d : Db) : bool := uniques_ok d && foreign_keys_ok d.

#[global] Arguments refers : simpl never.
#[global] Arguments refers_opt : simpl never.

Lemma unique_on_NoDup {A K} `{EqDecision K} (k : A -> K) l :
  unique_on k l = true <-> NoDup (map k l).
Proof. apply bool_decide_eq_true. Qed.

Lemma refers_spec {A B} (fk : A -> Z) l (pk : B -> Z) t :
  refers fk l pk t = true <-> forall x, In x l -> exists y, In y t /\ pk y = fk x.
Proof.
  unfold refers. rewrite forallb_forall. split; intros H x Hx.
  - apply H, existsb_exists in Hx as (y & Hy & E). to_prop. eauto.
  - apply existsb_exists. destruct (H x Hx) as (y & Hy & E). exists y.
    split; [exact Hy | now apply Z.eqb_eq].
Qed.

Lemma refers_opt_spec {A B} (fk : A -> option Z) l (pk : B -> Z) t :
  refers_opt fk l pk t = true <->
  forall x k, In x l -> fk x = Some k -> exists y, In y t /\ pk y = k.
Proof.
  unfold refers_opt. rewrite forallb_forall. split.
  - intros H x k Hx E. apply H in Hx. rewrite E in Hx.
    apply existsb_exists in Hx as (y & Hy & E'). to_prop. eauto.
  - intros H x Hx. destruct (fk x) as [k|] eqn:E; [|reflexivity].
    destruct (H x k Hx E) as (y & Hy & E'). apply existsb_exists. exists y.
    split; [exact Hy | now apply Z.eqb_eq].
Qed.

(** ** Constraints under deletion *)
Lemma refers_delete_rows {A B} (fk : A -> Z) p l (pk : B -> Z) t :
  refers fk l pk t = true -> refers fk (delete_where p l) pk t = true.
Proof. rewrite !refers_spec. intros H x [Hx _]%delete_where_In. auto. Qed.

Lemma refers_opt_delete_rows {A B} (fk : A -> option Z) p l (pk : B -> Z) t :
  refers_opt fk l pk t = true -> refers_opt fk (delete_where p l) pk t = true.
Proof. rewrite !refers_opt_spec. intros H x k [Hx _]%delete_where_In. eauto. Qed.

(** Once the rows that refer to a deleted key are deleted too, no reference
    dangles. *)
Lemma refers_purge {A B} (fk : A -> Z) l (pk : B -> Z) t i :
  refers fk l pk t = true ->
  refers fk (delete_where (fun x => fk x =? i) l) pk (delete_where (fun y => pk y =? i) t) = true.
Proof.
  rewrite !refers_spec. intros H x [Hx Hi]%delete_where_In.
  destruct (H x Hx) as (y & Hy & E). exists y. split; [|exact E].
  apply delete_where_In. split; [exact Hy|]. now rewrite E.
Qed.

Lemma refers_opt_purge {A B} (fk : A -> option Z) l (pk : B -> Z) t i :
  refers_opt fk l pk t = true ->
  refers_opt fk (delete_where (fun x => match fk x with Some k => k =? i | None => false end) l)
    pk (delete_where (fun y => pk y =? i) t) = true.
Proof.
  rewrite !refers_opt_spec. intros H x k [Hx Hi]%delete_where_In E. rewrite E in Hi.
  destruct (H x k Hx E) as (y & Hy & E'). exists y. split; [|exact E'].
  apply delete_where_In. split; [exact Hy|]. now rewrite E'.
Qed.

Lemma unique_on_delete {A K} `{EqDecision K} (k : A -> K) p l :
  unique_on k l = true -> unique_on k (delete_where p l) = true.
Proof. rewrite !unique_on_NoDup. apply NoDup_map_filter. Qed.

Lemma unique_on_update {A K} `{EqDecision K} (k : A -> K) p f l :
  (forall x, k (f x) = k x) -> unique_on k (update_where p f l) = unique_on k l.
Proof. intros H'. unfold unique_on. now rewrite (map_update_where k p f l) by auto. Qed.
Lemma unique_on_app_one {A K} `{EqDecision K} (k : A -> K) l x :
  unique_on k l = true -> (forall y, In y l -> k y <> k x) -> unique_on k (l ++ [x]) = true.
Proof. rewrite !unique_on_NoDup. apply NoDup_map_app_one. Qed.
Lemma refers_update {A B} (fk : A -> Z) p f l (pk : B -> Z) t :
  (forall x, fk (f x) = fk x) -> refers fk l pk t = true -> refers fk (update_where p f l) pk t = true.
Proof.
  rewrite !refers_spec. intros Hf H y (x & Hx & ->)%In_update_where.
  destruct (p x); rewrite ?Hf; auto.
Qed.
Lemma refers_opt_update {A B} (fk : A -> option Z) p f l (pk : B -> Z) t :
  (forall x, fk (f x) = fk x) -> refers_opt fk l pk t = true ->
  refers_opt fk (update_where p f l) pk t = true.
Proof.
  rewrite !refers_opt_spec. intros Hf H y k (x & Hx & ->)%In_update_where E.
  apply (H x k Hx). destruct (p x); [now rewrite <- Hf | exact E].
Qed.
Lemma refers_app_one {A B} (fk : A -> Z) l x (pk : B -> Z) t :
  refers fk l pk t = true -> (exists y, In y t /\ pk y = fk x) -> refers fk (l ++ [x]) pk t = true.
Proof. rewrite !refers_spec. intros H Hx y [Hy|[<-|[]]]%in_app_or; auto. Qed.

(** Updating other columns of the rows referred to keeps every reference. *)
Lemma refers_target_update {A B} (fk : A -> Z) l (pk : B -> Z) p f t :
  (forall y, pk (f y) = pk y) -> refers fk l pk t = true -> refers fk l pk (update_where p f t) = true.
Proof.
  rewrite !refers_spec. intros Hf H x Hx. destruct (H x Hx) as (y & Hy & E).
  eexists. split; [apply update_where_In, Hy|]. destruct (p y); now rewrite ?Hf.
Qed.
Lemma refers_opt_target_update {A B} (fk : A -> option Z) l (pk : B -> Z) p f t :
  (forall y, pk (f y) = pk y) ->
  refers_opt fk l pk t = true -> refers_opt fk l pk (update_where p f t) = true.
Proof.
  rewrite !refers_opt_spec. intros Hf H x k Hx Ek. destruct (H x k Hx Ek) as (y & Hy & E).
  eexists. split; [apply update_where_In, Hy|]. destruct (p y); now rewrite ?Hf.
Qed.

(** Split the constraints of a database into one hypothesis each. *)
Lemma db_ok_split d : db_ok d = true -> uniques_ok d = true /\ foreign_keys_ok d = true.
Proof. apply andb_prop. Qed.
Ltac db_split H :=
  apply db_ok_split in H as [? ?]; unfold uniques_ok, foreign_keys_ok in *;
  repeat match goal with E : (_ && _)%bool = true |- _ => apply andb_prop in E as [? ?] end.
Ltac db_join :=
  unfold db_ok, uniques_ok, foreign_keys_ok; rewrite !andb_true_iff; repeat split.
