(* ===== verification/Realtime.v ===== *)
(** * Realtime event stream

    [trading/api/realtime/]: the in-process fan-out bus ([bus.py]), the event
    envelope and its process-wide sequence counter ([events.py]), the typed
    publish helpers ([publish.py]) and the connection life cycle of the
    websocket endpoint ([ws.py]).

    A queue is the list of events waiting, oldest first; a subscription also
    records, as ghost data, what was published to the bus since it subscribed
    and what its writer task has taken, so that delivery can be stated. *)
From S2P Require Import Prelude PyStr PyFloat Json.

Definition QUEUE_MAXSIZE : nat := 1000.

(** ** [events.py] *)
Definition STRATEGY_STATUS : string := "strategy_status".
Definition HEARTBEAT : string := "heartbeat".
Definition PNL : string := "pnl".
Definition POSITION : string := "position".
Definition TRADE : string := "trade".
Definition SERVER_HEALTH : string := "server_health".
Definition COMMAND : string := "command".
Definition ALERT : string := "alert".
Definition MARKET_QUOTE : string := "market_quote".
Definition MARKET_STATUS : string := "market_status".
Definition MONITORING_TYPES : list string :=
  [STRATEGY_STATUS; HEARTBEAT; PNL; POSITION; TRADE; SERVER_HEALTH; COMMAND; ALERT;
   MARKET_QUOTE; MARKET_STATUS].

Record Event : Type := mkEvent {
  ev_type : string;
  ev_seq : Z;
  ev_ts : Z;
  ev_data : json
}.

Record Subscription : Type := mkSub {
  sub_id : nat;
  sub_queue : list Event;
  sub_dropped : bool;
  sub_published : list Event;   (* ghost: published since [subscribe] *)
  sub_taken : list Event        (* ghost: returned by [get] so far *)
}.

Record EventBus : Type := mkBus {
  bus_subs : list Subscription;
  bus_next_sub : nat;           (* fresh subscription identity *)
  bus_seq : Z                   (* next value of [itertools.count(1)] *)
}.
Definition new_bus : EventBus := mkBus [] 0 1.

Definition next_seq (b : EventBus) : Z * EventBus :=
  (b.(bus_seq), mkBus b.(bus_subs) b.(bus_next_sub) (b.(bus_seq) + 1)).

Definition make_event (ty : string) (data : json) (ts : Z) (b : EventBus)
  : result exn Event * EventBus :=
  if existsb (String.eqb ty) MONITORING_TYPES then
    let '(n, b') := next_seq b in (Ok (mkEvent ty n ts data), b')
  else (Err (ValueError ("unknown monitoring event type: '" +:+ ty +:+ "'")), b).

(** ** [bus.py] *)
Definition subscribe (b : EventBus) : nat * EventBus :=
  (b.(bus_next_sub),
   mkBus (b.(bus_subs) ++ [mkSub b.(bus_next_sub) [] false [] []]) (S b.(bus_next_sub)) b.(bus_seq)).

Definition remove_sub (i : nat) (b : EventBus) : EventBus :=
  mkBus (List.filter (fun s => negb (Nat.eqb s.(sub_id) i)) b.(bus_subs)) b.(bus_next_sub) b.(bus_seq).

(** [queue.put_nowait(event)], and [dropped = True] on [QueueFull]. *)
Definition offer (e : Event) (s : Subscription) : Subscription :=
  if (List.length s.(sub_queue) <? QUEUE_MAXSIZE)%nat then
    mkSub s.(sub_id) (s.(sub_queue) ++ [e]) s.(sub_dropped) (s.(sub_published) ++ [e]) s.(sub_taken)
  else mkSub s.(sub_id) s.(sub_queue) true (s.(sub_published) ++ [e]) s.(sub_taken).

Definition publish (e : Event) (b : EventBus) : EventBus :=
  mkBus (map (offer e) b.(bus_subs)) b.(bus_next_sub) b.(bus_seq).

(** [await sub.get()] when an event is waiting. *)
Definition get_nowait (s : Subscription) : option Event * Subscription :=
  match s.(sub_queue) with
  | e :: q => (Some e, mkSub s.(sub_id) q s.(sub_dropped) s.(sub_published) (s.(sub_taken) ++ [e]))
  | [] => (None, s)
  end.
Definition take_event (i : nat) (b : EventBus) : option Event * EventBus :=
  match List.find (fun s => Nat.eqb s.(sub_id) i) b.(bus_subs) with
  | Some s =>
      (fst (get_nowait s),
       mkBus (map (fun t => if Nat.eqb t.(sub_id) i then snd (get_nowait t) else t) b.(bus_subs))
         b.(bus_next_sub) b.(bus_seq))
  | None => (None, b)
  end.

(** ** [publish.py]: [_emit] swallows every exception. *)
Definition emit (ty : string) (data : json) (ts : Z) (b : EventBus) : EventBus :=
  match make_event ty data ts b with
  | (Ok e, b') => publish e b'
  | (Err _, b') => b'
  end.

Definition jopt_float (o : option float) : json :=
  match o with Some x => JFloat x | None => JNull end.

Definition ev_heartbeat (algo_id server_id status : string) (cpu memory pnl : option float)
    (position : option string) (timestamp : json) (trading_mode : option string)
    (running_lots : option Z) : string * json :=
  (HEARTBEAT, JObj
    [("algo_id", JStr algo_id); ("server_id", JStr server_id); ("status", JStr status);
     ("cpu", jopt_float cpu); ("memory", jopt_float memory); ("pnl", jopt_float pnl);
     ("position", jopt_str position); ("timestamp", timestamp);
     ("trading_mode", jopt_str trading_mode); ("running_lots", jopt_int running_lots)]).

Definition ev_strategy_status (algo_id server_id status : string)
    (previous_status : option string) (source : string) : string * json :=
  (STRATEGY_STATUS, JObj
    [("algo_id", JStr algo_id); ("server_id", JStr server_id); ("status", JStr status);
     ("previous_status", jopt_str previous_status); ("source", JStr source)]).

Definition ev_pnl (algo_id server_id : string) (date : json) (pnl : float) (trade_count : Z)
  : string * json :=
  (PNL, JObj
    [("algo_id", JStr algo_id); ("server_id", JStr server_id); ("date", date);
     ("pnl", JFloat pnl); ("trade_count", JInt trade_count)]).

Definition ev_position (algo_id server_id symbol : string) (quantity : Z)
    (average_price last_price pnl : option float) (closed : bool) : string * json :=
  (POSITION, JObj
    [("algo_id", JStr algo_id); ("server_id", JStr server_id); ("symbol", JStr symbol);
     ("quantity", JInt quantity); ("average_price", jopt_float average_price);
     ("last_price", jopt_float last_price); ("pnl", jopt_float pnl); ("closed", JBool closed)]).

Definition ev_trade (algo_id server_id symbol side : string) (quantity : Z) (price : float)
    (executed_at : json) (order_id : option string) : string * json :=
  (TRADE, JObj
    [("algo_id", JStr algo_id); ("server_id", JStr server_id); ("symbol", JStr symbol);
     ("side", JStr side); ("quantity", JInt quantity); ("price", JFloat price);
     ("executed_at", executed_at); ("order_id", jopt_str order_id)]).

Definition ev_server_health (server_id status : string) (ssm_status healthy last_heartbeat : json)
    (source : string) : string * json :=
  (SERVER_HEALTH, JObj
    [("server_id", JStr server_id); ("status", JStr status); ("ssm_status", ssm_status);
     ("healthy", healthy); ("last_heartbeat", last_heartbeat); ("source", JStr source)]).

Definition ev_command (command_id : Z) (algo_id : option string) (server_id action status : string)
    (job_id requested_by message : json) : string * json :=
  (COMMAND, JObj
    [("command_id", JInt command_id); ("algo_id", jopt_str algo_id); ("server_id", JStr server_id);
     ("action", JStr action); ("status", JStr status); ("job_id", job_id);
     ("requested_by", requested_by); ("message", message)]).

Definition ev_alert (kind severity message : string) (algo_id server_id : option string)
    (detail : json) : string * json :=
  (ALERT, JObj
    [("kind", JStr kind); ("severity", JStr severity); ("message", JStr message);
     ("algo_id", jopt_str algo_id); ("server_id", jopt_str server_id);
     ("detail", jor detail (JObj []))]).

Definition ev_market_quote (symbol kind : string) (ltp change change_percent : option float)
    (timestamp : json) (extra : list (string * json)) : string * json :=
  (MARKET_QUOTE, JObj (assoc_update
    [("symbol", JStr symbol); ("kind", JStr kind); ("ltp", jopt_float ltp);
     ("change", jopt_float change); ("change_percent", jopt_float change_percent);
     ("timestamp", timestamp)] extra)).

Definition ev_market_status (feed_state session_state : string) (detail : list (string * json))
  : string * json :=
  (MARKET_STATUS, JObj (assoc_update
    [("feed_state", JStr feed_state); ("session_state", JStr session_state)] detail)).

(** ** The bus as a transition system *)
Inductive bus_op : Type :=
| BusSubscribe
| BusClose (i : nat)
| BusEmit (ty : string) (data : json) (ts : Z)
| BusGet (i : nat)
| BusHello.                     (* a websocket greeting draws a sequence number *)

Definition bus_step (b : EventBus) (o : bus_op) : EventBus :=
  match o with
  | BusSubscribe => snd (subscribe b)
  | BusClose i => remove_sub i b
  | BusEmit ty data ts => emit ty data ts b
  | BusGet i => snd (take_event i b)
  | BusHello => snd (next_seq b)
  end.
Definition bus_run (l : list bus_op) : EventBus := fold_left bus_step l new_bus.

(** What holds of one subscription when the next sequence number is [n]. *)
Record sub_ok (n : Z) (s : Subscription) : Prop := {
  so_bound : (List.length s.(sub_queue) <= QUEUE_MAXSIZE)%nat;
  so_order : sublist (s.(sub_taken) ++ s.(sub_queue)) s.(sub_published);
  so_exact : s.(sub_dropped) = false -> s.(sub_taken) ++ s.(sub_queue) = s.(sub_published);
  so_lost : s.(sub_dropped) = true ->
            (List.length (s.(sub_taken) ++ s.(sub_queue)) < List.length s.(sub_published))%nat;
  so_seq : StronglySorted (fun a b => a.(ev_seq) < b.(ev_seq)) s.(sub_published);
  so_next : Forall (fun e => e.(ev_seq) < n) s.(sub_published)
}.
Definition bus_ok (b : EventBus) : Prop := Forall (sub_ok b.(bus_seq)) b.(bus_subs).

Lemma sub_ok_seq n m s : n <= m -> sub_ok n s -> sub_ok m s.
Proof.
  intros Hle []. constructor; auto. eapply Forall_impl; [eassumption|]. cbn. intros. lia.
Qed.

Lemma sub_ok_offer n e s : e.(ev_seq) = n -> sub_ok n s -> sub_ok (n + 1) (offer e s).
Proof.
  intros He [H1 H2 H3 H4 H5 H6]. unfold offer.
  assert (StronglySorted (fun a b => ev_seq a < ev_seq b) (sub_published s ++ [e])) as Hs.
  { apply StronglySorted_snoc; [exact H5|]. now rewrite He. }
  assert (Forall (fun x => ev_seq x < n + 1) (sub_published s ++ [e])) as Hn.
  { apply Forall_app. split; [eapply Forall_impl; [exact H6|]; cbn; lia | repeat constructor; lia]. }
  destruct (_ <? _)%nat eqn:E; constructor; cbn; auto.
  - rewrite length_app. apply Nat.ltb_lt in E. cbn. lia.
  - rewrite app_assoc. now apply sublist_app.
  - intros Hd. rewrite app_assoc. now rewrite H3.
  - intros Hd. specialize (H4 Hd). rewrite !length_app in *. cbn. lia.
  - now apply sublist_inserts_r.
  - discriminate.
  - intros _. apply sublist_length in H2. rewrite !length_app in *. cbn. lia.
Qed.

Lemma sub_ok_get n s : sub_ok n s -> sub_ok n (snd (get_nowait s)).
Proof.
  intros [H1 H2 H3 H4 H5 H6]. unfold get_nowait. destruct (sub_queue s) as [|e q] eqn:E; cbn.
  - constructor; rewrite ?E; auto.
  - constructor; cbn; rewrite <- ?app_assoc; cbn in *; auto. lia.
Qed.

Lemma bus_ok_step b o : bus_ok b -> bus_ok (bus_step b o).
Proof.
  unfold bus_ok. intros Hb. destruct o as [|i|ty data ts|i|]; cbn.
  - apply Forall_app. split; [exact Hb|]. constructor; [|constructor]. constructor; cbn; auto using sublist_nil_l; try discriminate; [unfold QUEUE_MAXSIZE; lia | constructor].
  - rewrite Forall_forall in *. intros s. rewrite list_elem_of_In, filter_In.
    intros [Hs _]. apply Hb. now apply list_elem_of_In.
  - unfold emit, make_event. destruct (existsb _ _); cbn; [|exact Hb].
    apply Forall_fmap. eapply Forall_impl; [exact Hb|]. intros s Hs. now apply sub_ok_offer.
  - unfold take_event. destruct (List.find _ _) as [s|]; [|exact Hb]. cbn.
    apply Forall_fmap. eapply Forall_impl; [exact Hb|]. intros t Ht. cbn.
    destruct (Nat.eqb _ _); [now apply sub_ok_get | exact Ht].
  - eapply Forall_impl; [exact Hb|]. intros s. apply sub_ok_seq. lia.
Qed.

Lemma bus_ok_run l : bus_ok (bus_run l).
Proof.
  unfold bus_run. assert (bus_ok new_bus) as H by constructor. revert H. generalize new_bus.
  induction l as [|o l IH]; intros b Hb; [exact Hb|]. cbn. apply IH, bus_ok_step, Hb.
Qed.

(** The event bus delivers in order and says when it does not: after any
    sequence of subscriptions, publications, reads and closes, every queue
    holds at most [QUEUE_MAXSIZE] events; what a subscriber has read and has
    waiting is, in order, part of what was published since it subscribed, with
    strictly increasing sequence numbers; and its [dropped] flag is set exactly
    when something published is missing from it. *)
Theorem bus_delivery (l : list bus_op) (s : Subscription) :
  In s (bus_run l).(bus_subs) ->
  (List.length s.(sub_queue) <= QUEUE_MAXSIZE)%nat /\
  sublist (s.(sub_taken) ++ s.(sub_queue)) s.(sub_published) /\
  StronglySorted (fun a b => a.(ev_seq) < b.(ev_seq)) s.(sub_published) /\
  (s.(sub_dropped) = false <-> s.(sub_taken) ++ s.(sub_queue) = s.(sub_published)).
Proof.
  intros Hs. pose proof (bus_ok_run l) as Hb. unfold bus_ok in Hb. rewrite Forall_forall in Hb.
  destruct (Hb s) as [H1 H2 H3 H4 H5 H6]; [now apply list_elem_of_In|].
  repeat split; auto. intros E. destruct (sub_dropped s); [|reflexivity].
  specialize (H4 eq_refl). rewrite E in H4. lia.
Qed.

Theorem bus_delivery_witness :
  exists s, In s (bus_run [BusSubscribe; BusEmit "pnl" JNull 5; BusHello; BusEmit "trade" JNull 6; BusGet 0]).(bus_subs)
    /\ sub_taken s ++ sub_queue s = sub_published s /\ sub_taken s = [mkEvent "pnl" 1 5 JNull].
Proof.
  eexists. split; [now left|]. split; [|reflexivity].
  apply (bus_delivery [BusSubscribe; BusEmit "pnl" JNull 5; BusHello; BusEmit "trade" JNull 6; BusGet 0]);
    [now left | reflexivity].
Defined.
