(* ===== verification/Alerts.v ===== *)
(** * The Telegram alert service

    [alerts/telegram.py]: the six alerts, the deduplication cache, and the
    send loop with retries and exponential back-off.  Time is the monotonic
    clock in microseconds.  The Bot API is an oracle: the answer to the [n]-th
    request ever made, and how long it took.  A message is the alert it
    renders. *)
From S2P Require Import Prelude PyStr PyFloat.

Inductive Alert : Type :=
| StrategyStarted (strategy server : string)
| StrategyStopped (strategy server : string)
| StrategyCrashed (strategy server reason : string)
| DayLossExceeded (strategy server : string) (loss limit : float)
| HeartbeatMissing (strategy server : string) (minutes : float)
| StrategyRecovered (strategy server : string) (downtime_minutes : float).

Definition key3 (kind strategy server : string) : string :=
  kind +:+ ":" +:+ strategy +:+ ":" +:+ server.
Definition dedup_key (a : Alert) : string :=
  match a with
  | StrategyStarted s v => key3 "started" s v
  | StrategyStopped s v => key3 "stopped" s v
  | StrategyCrashed s v _ => key3 "crashed" s v
  | DayLossExceeded s v _ _ => key3 "loss" s v
  | HeartbeatMissing s v _ => key3 "missing" s v
  | StrategyRecovered s v _ => key3 "recovered" s v
  end.

(** What one [client.post(...)] followed by [response.json()] gives. *)
Inductive outcome : Type :=
| Response (status_code : Z) (ok : bool)
| TimeoutException
| RequestError
| Unexpected.            (* any other exception, an unreadable body included *)

Record AlertService : Type := mkAlertService {
  al_bot_token : string;
  al_chat_id : string;
  al_dedup_us : Z;
  al_max_retries : Z;
  al_retry_delay_us : Z
}.

(** [AlertService(...)]: [arg or default] for every parameter, the defaults
    being what the environment says. *)
Definition int_or (o : option Z) (dflt : Z) : Z :=
  match o with Some n => if n =? 0 then dflt else n | None => dflt end.
Definition new_AlertService (bot_token chat_id : option string)
    (dedup_seconds max_retries retry_delay_us : option Z)
    (env_token env_chat : string) (env_dedup env_retries env_delay_us : Z) : AlertService :=
  mkAlertService (str_or (default "" bot_token) env_token) (str_or (default "" chat_id) env_chat)
    (int_or dedup_seconds env_dedup * 1000000) (int_or max_retries env_retries)
    (int_or retry_delay_us env_delay_us).

Inductive alert_event : Type :=
| Posted (key : string) (t : Z)          (* a request was sent *)
| Delivered (key : string) (t : Z)       (* accepted and marked at [t] *)
| Slept (us : Z)
| Cleared (key : string).

Record AlertState : Type := mkAlertState {
  as_clock : Z;
  as_cache : gmap string Z;
  as_posts : nat;                        (* requests made so far *)
  as_log : list alert_event
}.
Definition new_alert_state (t : Z) : AlertState := mkAlertState t ∅ 0 [].

Definition Al (A : Type) : Type := M AlertState exn A.

Section service.
Context (net : nat -> outcome * Z) (svc : AlertService).

Definition sleep (us : Z) : Al unit :=
  modify (fun s => mkAlertState (s.(as_clock) + us) s.(as_cache) s.(as_posts) (s.(as_log) ++ [Slept us])).
Definition post (key : string) : Al outcome := fun s =>
  let '(o, dur) := net s.(as_posts) in
  (Ok o, mkAlertState (s.(as_clock) + dur) s.(as_cache) (S s.(as_posts))
           (s.(as_log) ++ [Posted key s.(as_clock)])).

Definition _is_duplicate (key : string) : Al bool :=
  gets (fun s => match s.(as_cache) !! key with
                 | None => false
                 | Some last => s.(as_clock) - last <? svc.(al_dedup_us)
                 end).
Definition _mark_sent (key : string) : Al unit :=
  modify (fun s => mkAlertState s.(as_clock) (<[key := s.(as_clock)]> s.(as_cache)) s.(as_posts)
                     (s.(as_log) ++ [Delivered key s.(as_clock)])).
Definition _clear_dedup (key : string) : Al unit :=
  modify (fun s => mkAlertState s.(as_clock) (delete key s.(as_cache)) s.(as_posts)
                     (s.(as_log) ++ [Cleared key])).

(** The loop [for attempt in range(1, max_retries + 1)]: [n] attempts left. *)
Fixpoint attempts (key : string) (delay : Z) (n : nat) : Al bool :=
  match n with
  | O => ret false
  | S m =>
      let again := match m with
                   | O => ret false
                   | S _ => sleep delay ;;; attempts key (delay * 2) m
                   end in
      let! o := post key in
      match o with
      | Response code ok =>
          if (code =? 200) && ok then _mark_sent key ;;; ret true
          else if (400 <=? code) && (code <? 500) then ret false
          else again
      | TimeoutException | RequestError => again
      | Unexpected => ret false
      end
  end.

Definition _send (key : string) : Al bool :=
  let! dup := _is_duplicate key in
  if dup then ret true
  else if negb (truthy svc.(al_bot_token)) || negb (truthy svc.(al_chat_id)) then ret false
  else attempts key svc.(al_retry_delay_us) (Z.to_nat svc.(al_max_retries)).

Definition raise_alert (a : Alert) : Al bool :=
  match a with
  | StrategyRecovered s v _ =>
      _clear_dedup (key3 "missing" s v) ;;;
      _clear_dedup (key3 "crashed" s v) ;;;
      _clear_dedup (key3 "stopped" s v) ;;;
      _send (dedup_key a)
  | _ => _send (dedup_key a)
  end.

(** A caller's history: each alert is raised some time after the last. *)
Fixpoint raise_all (l : list (Z * Alert)) : Al (list bool) :=
  match l with
  | [] => ret []
  | (wait, a) :: r =>
      modify (fun s => mkAlertState (s.(as_clock) + wait) s.(as_cache) s.(as_posts) s.(as_log)) ;;;
      let! b := raise_alert a in
      let! bs := raise_all r in
      ret (b :: bs)
  end.
End service.

(** ** Specification *)

(** The back-off waits: [d], [2d], [4d], ... *)
Fixpoint backoff (d : Z) (n : nat) : list Z :=
  match n with O => [] | S m => d :: backoff (d * 2) m end.

Definition sleeps (l : list alert_event) : list Z :=
  omap (fun e => match e with Slept us => Some us | _ => None end) l.
Definition posted (l : list alert_event) : nat :=
  List.length (List.filter (fun e => match e with Posted _ _ => true | _ => false end) l).

(** Replaying a log against the suppression window: [None] when a delivery of
    a key comes too early after the previous one, with no clearing between. *)
Definition replay1 (window : Z) (m : option (gmap string Z)) (e : alert_event) : option (gmap string Z) :=
  c ← m;
  match e with
  | Delivered k t =>
      match c !! k with
      | Some t0 => if t - t0 <? window then None else Some (<[k := t]> c)
      | None => Some (<[k := t]> c)
      end
  | Cleared k => Some (delete k c)
  | _ => Some c
  end.
Definition replay (window : Z) (l : list alert_event) : option (gmap string Z) :=
  fold_left (replay1 window) l (Some ∅).

Lemma replay_snoc window l e : replay window (l ++ [e]) = replay1 window (replay window l) e.
Proof. unfold replay. now rewrite fold_left_app. Qed.

Section service_facts.
Context (net : nat -> outcome * Z) (svc : AlertService).

Lemma attempts_spec key n : forall d s,
  exists b k suf s',
    attempts net key d n s = (Ok b, s') /\
    s'.(as_log) = s.(as_log) ++ suf /\ posted suf = k /\ (k <= n)%nat /\
    ((0 < n)%nat -> (0 < k)%nat) /\
    sleeps suf = backoff d (k - 1) /\
    (b = true -> exists t, last suf = Some (Delivered key t) /\ s'.(as_cache) = <[key := t]> s.(as_cache)) /\
    (b = false -> s'.(as_cache) = s.(as_cache)).
Proof.
  induction n as [|n IH]; intros d s.
  - exists false, O, [], s. cbn. rewrite app_nil_r. repeat split; auto; lia || discriminate.
  - set (s1 := snd (post net key s)).
    assert (exists k suf,
      as_log s1 = as_log s ++ suf /\ posted suf = k /\ (k <= S n)%nat /\
      ((0 < S n)%nat -> (0 < k)%nat) /\ sleeps suf = backoff d (k - 1) /\
      as_cache s1 = as_cache s) as Hstop.
    { exists 1%nat, [Posted key s.(as_clock)].
      unfold s1, post. destruct (net _). cbn. repeat split; auto; lia. }
    assert (exists b k suf s',
      (match n with O => ret false | S _ => sleep d ;;; attempts net key (d * 2) n end) s1 = (Ok b, s') /\
      as_log s' = as_log s ++ suf /\ posted suf = k /\ (k <= S n)%nat /\
      ((0 < S n)%nat -> (0 < k)%nat) /\ sleeps suf = backoff d (k - 1) /\
      (b = true -> exists t, last suf = Some (Delivered key t) /\ as_cache s' = <[key := t]> (as_cache s)) /\
      (b = false -> as_cache s' = as_cache s)) as Hagain.
    { destruct n as [|n].
      - destruct Hstop as (k & suf & H). exists false, k, suf, s1.
        cbn. intuition discriminate.
      - set (s2 := mkAlertState (as_clock s1 + d) (as_cache s1) (as_posts s1) (as_log s1 ++ [Slept d])).
        destruct (IH (d * 2) s2) as (b & k & suf & s' & H1 & H2 & H3 & H4 & H5 & H6 & H7 & H8).
        exists b, (S k), (Posted key s.(as_clock) :: Slept d :: suf), s'.
        split; [exact H1|]. split; [rewrite H2; unfold s2, s1, post; destruct (net _); cbn;
          now rewrite <- !app_assoc|].
        split; [unfold posted in *; cbn; now rewrite H3|].
        split; [lia|]. split; [lia|]. split.
        { cbn. unfold sleeps in H6. rewrite H6. specialize (H5 ltac:(lia)).
          destruct k as [|k]; [lia|]. cbn. now rewrite Nat.sub_0_r. }
        assert (as_cache s2 = as_cache s) as Ec by (unfold s2, s1, post; now destruct (net _)).
        rewrite Ec in *. split; [|exact H8]. intros Hb. destruct (H7 Hb) as (t & Ht & Hc).
        exists t. split; [|exact Hc]. destruct suf; [discriminate | exact Ht]. }
    cbn [attempts]. unfold bind at 1. 
    assert (post net key s = (Ok (fst (net s.(as_posts))), s1)) as ->
      by (unfold s1, post; now destruct (net _)).
    destruct (fst (net (as_posts s))) as [code ok| | |]; try exact Hagain.
    + destruct ((code =? 200) && ok) eqn:E200.
      * exists true, 1%nat, [Posted key s.(as_clock); Delivered key s1.(as_clock)].
        eexists. split; [reflexivity|]. unfold s1, post. destruct (net _). cbn.
        rewrite <- app_assoc. repeat split; auto; try lia; try discriminate. eauto.
      * destruct ((400 <=? code) && (code <? 500)); [|exact Hagain].
        destruct Hstop as (k & suf & H). exists false, k, suf, s1.
        intuition discriminate.
    + destruct Hstop as (k & suf & H). exists false, k, suf, s1.
      intuition discriminate.
Qed.

(** ** The suppression window *)
Definition window_ok (s : AlertState) : Prop :=
  replay svc.(al_dedup_us) s.(as_log) = Some s.(as_cache) /\
  forall k t, s.(as_cache) !! k = Some t -> t <= s.(as_clock).

(** The key may be delivered now. *)
Definition due (key : string) (s : AlertState) : Prop :=
  forall t, s.(as_cache) !! key = Some t -> svc.(al_dedup_us) <= s.(as_clock) - t.

Context (Hnet : forall n, 0 <= snd (net n)).

Lemma window_ok_wait us ev s :
  0 <= us -> (match ev with Delivered _ _ | Cleared _ => False | _ => True end) ->
  forall n, window_ok s -> window_ok (mkAlertState (s.(as_clock) + us) s.(as_cache) n (s.(as_log) ++ [ev])).
Proof.
  intros Hus Hev n [H1 H2]. split; cbn [as_log as_cache as_clock].
  - rewrite replay_snoc, H1. now destruct ev.
  - intros k t Hk. apply H2 in Hk. lia.
Qed.

Lemma attempts_window key n : forall d s,
  0 <= d -> window_ok s -> due key s -> window_ok (snd (attempts net key d n s)).
Proof.
  induction n as [|n IH]; intros d s Hd Hs Hdue; [exact Hs|].
  cbn [attempts]. unfold bind at 1, post. pose proof (Hnet s.(as_posts)) as Hdur.
  destruct (net (as_posts s)) as [o dur]. cbn in Hdur.
  set (s1 := mkAlertState _ _ _ _).
  assert (window_ok s1) as H1 by now apply window_ok_wait.
  assert (due key s1) as Hdue1 by (intros t Ht; apply Hdue in Ht; cbn; lia).
  clearbody s1.
  assert (window_ok (snd ((match n with O => ret false | S _ => sleep d ;;; attempts net key (d * 2) n end) s1))) as Hagain.
  { destruct n as [|n]; [exact H1|]. unfold bind, sleep, modify. cbn [fst snd].
    apply IH; [lia | now apply window_ok_wait |]. intros t Ht. apply Hdue1 in Ht. cbn in *. lia. }
  destruct o as [code ok| | |]; try exact Hagain; [|exact H1].
  destruct ((code =? 200) && ok).
  - unfold _mark_sent. mrun. destruct H1 as [Hr Hc]. split; cbn [as_log as_cache as_clock].
    + rewrite replay_snoc, Hr. cbn [replay1 mbind option_bind].
      destruct (as_cache s1 !! key) as [t0|] eqn:E; [|reflexivity].
      rewrite (proj2 (Z.ltb_ge _ _)); [reflexivity|]. apply Hdue1 in E. exact E.
    + intros k t. rewrite lookup_insert_Some. intros [[_ <-]|[_ Hk]]; [lia|]. exact (Hc k t Hk).
  - destruct ((400 <=? code) && (code <? 500)); [exact H1 | exact Hagain].
Qed.

Context (Hdelay : 0 <= svc.(al_retry_delay_us)).

Lemma send_window key : preserves window_ok (_send net svc key).
Proof.
  intros s Hs. unfold _send, _is_duplicate. mrun.
  destruct (as_cache s !! key) as [t|] eqn:E.
  - destruct (as_clock s - t <? al_dedup_us svc) eqn:Hd; [exact Hs|].
    destruct (_ || _); [exact Hs|]. apply attempts_window; auto.
    intros t' Ht'. rewrite E in Ht'. injection Ht' as <-. now apply Z.ltb_ge in Hd.
  - destruct (_ || _); [exact Hs|]. apply attempts_window; auto.
    intros t' Ht'. congruence.
Qed.

Lemma clear_window key : preserves window_ok (_clear_dedup key).
Proof.
  apply preserves_modify. intros s [H1 H2]. split; cbn [as_log as_cache as_clock].
  - now rewrite replay_snoc, H1.
  - intros k t. rewrite lookup_delete_Some. intros [_ Hk]. exact (H2 k t Hk).
Qed.

Lemma raise_alert_window a : preserves window_ok (raise_alert net svc a).
Proof.
  pose proof send_window. pose proof clear_window. unfold raise_alert. destruct a; preserve.
Qed.

Lemma raise_all_window l :
  Forall (fun x => 0 <= fst x) l -> preserves window_ok (raise_all net svc l).
Proof.
  pose proof raise_alert_window. induction 1 as [|[wait a] l Hw Hl IH]; cbn; [apply preserves_ret|].
  apply preserves_bind; [|intros _; preserve].
  apply preserves_modify. intros s [H1 H2]. split; cbn; [exact H1|].
  intros k t Hk. apply H2 in Hk. cbn in Hw. lia.
Qed.
End service_facts.

(** What a successful replay says of two deliveries of one key. *)
Lemma replay_None window l : fold_left (replay1 window) l None = None.
Proof. induction l as [|e l IH]; [reflexivity|]. exact IH. Qed.

Lemma replay_keeps window k t0 l : forall c c',
  c !! k = Some t0 -> (forall t, ~ In (Delivered k t) l) -> ~ In (Cleared k) l ->
  fold_left (replay1 window) l (Some c) = Some c' -> c' !! k = Some t0.
Proof.
  induction l as [|e l IH]; intros c c' Hc Hd Hcl; cbn; [now intros [= <-]|].
  assert (forall x, k <> x -> forall t, <[x:=t]> c !! k = Some t0) as Hi
    by (intros x Hx t; rewrite lookup_insert_ne by (intros ->; now apply Hx); exact Hc).
  destruct e as [x t|x t|us|x]; cbn.
  - apply IH; auto; [intros t' Ht'; exact (Hd t' (or_intror Ht')) | intros H; exact (Hcl (or_intror H))].
  - assert (k <> x) as Hx by (intros ->; exact (Hd t (or_introl eq_refl))).
    destruct (c !! x); [destruct (_ <? _); [now rewrite replay_None|]|];
      (apply IH; auto; [intros t' Ht'; exact (Hd t' (or_intror Ht')) | intros H; exact (Hcl (or_intror H))]).
  - apply IH; auto; [intros t' Ht'; exact (Hd t' (or_intror Ht')) | intros H; exact (Hcl (or_intror H))].
  - assert (k <> x) as Hx by (intros ->; exact (Hcl (or_introl eq_refl))).
    apply IH; [rewrite lookup_delete_ne by (intros ->; now apply Hx); exact Hc | |];
      [intros t' Ht'; exact (Hd t' (or_intror Ht')) | intros H; exact (Hcl (or_intror H))].
Qed.

(** ** Properties *)

(** Sending an alert always terminates with an answer and is bounded: it
    makes at most [max_retries] requests, sleeping [d], [2d], [4d], ... between
    consecutive ones and nowhere else; when it answers [False] the
    deduplication cache is unchanged (the alert may be sent again at once), and
    when it answers [True] it either was a suppressed duplicate, with no
    request at all, or its last action was an accepted delivery. *)
Theorem send_bounded (net : nat -> outcome * Z) (svc : AlertService) (key : string) (s : AlertState) :
  let '(r, s') := _send net svc key s in
  exists b suf, r = Ok b /\ s'.(as_log) = s.(as_log) ++ suf /\
    (posted suf <= Z.to_nat svc.(al_max_retries))%nat /\
    sleeps suf = backoff svc.(al_retry_delay_us) (posted suf - 1) /\
    (b = false -> s'.(as_cache) = s.(as_cache)) /\
    (b = true -> (suf = [] /\ s' = s) \/
                 exists t, last suf = Some (Delivered key t) /\ s'.(as_cache) = <[key := t]> s.(as_cache)).
Proof.
  assert (forall b, exists b' suf, (Ok b : result exn bool) = Ok b' /\ as_log s = as_log s ++ suf /\
    (posted suf <= Z.to_nat (al_max_retries svc))%nat /\
    sleeps suf = backoff (al_retry_delay_us svc) (posted suf - 1) /\
    (b' = false -> as_cache s = as_cache s) /\
    (b' = true -> (suf = [] /\ s = s) \/
       exists t, last suf = Some (Delivered key t) /\ as_cache s = <[key:=t]> (as_cache s))) as Hsame.
  { intros b. exists b, []. rewrite app_nil_r. cbn. repeat split; auto. lia. }
  unfold _send, _is_duplicate, bind at 1. cbn [gets].
  destruct (match as_cache s !! key with Some _ => _ | None => _ end); [apply Hsame|].
  destruct (_ || _); [apply Hsame|].
  destruct (attempts_spec net key (Z.to_nat svc.(al_max_retries)) svc.(al_retry_delay_us) s)
    as (b & k & suf & s' & -> & H2 & H3 & H4 & _ & H6 & H7 & H8).
  exists b, suf. subst k. repeat split; auto.
Qed.

(** Duplicate suppression: starting with an empty cache, over any history
    of alerts, two successive deliveries with the same deduplication key are
    at least the suppression window apart, unless a recovery cleared the key in
    between. *)
Theorem deliveries_spaced (net : nat -> outcome * Z) (svc : AlertService) (l : list (Z * Alert))
    (t0 : Z) (k : string) (t1 t2 : Z) (l1 l2 l3 : list alert_event) :
  (forall n, 0 <= snd (net n)) -> 0 <= svc.(al_retry_delay_us) ->
  Forall (fun x => 0 <= fst x) l ->
  (snd (raise_all net svc l (new_alert_state t0))).(as_log)
    = l1 ++ Delivered k t1 :: l2 ++ Delivered k t2 :: l3 ->
  (forall t, ~ In (Delivered k t) l2) -> ~ In (Cleared k) l2 ->
  svc.(al_dedup_us) <= t2 - t1.
Proof.
  intros Hnet Hd Hl Hlog Hdel Hcl.
  assert (window_ok svc (new_alert_state t0)) as H0 by (split; [reflexivity | intros k' t' H; discriminate]).
  destruct (raise_all_window net svc Hnet Hd l Hl _ H0) as [Hr _].
  rewrite Hlog in Hr. unfold replay in Hr.
  rewrite fold_left_app in Hr. cbn [fold_left] in Hr. rewrite fold_left_app in Hr. cbn [fold_left] in Hr.
  destruct (fold_left (replay1 (al_dedup_us svc)) l1 (Some ∅)) as [c1|]; [|cbn in Hr; now rewrite !replay_None in Hr].
  destruct (replay1 (al_dedup_us svc) (Some c1) (Delivered k t1)) as [c2|] eqn:E2; [|cbn in Hr; now rewrite !replay_None in Hr].
  assert (c2 !! k = Some t1) as Hc2.
  { cbn in E2. destruct (c1 !! k); [destruct (_ <? _); [discriminate|]|];
      injection E2 as <-; apply lookup_insert_eq. }
  destruct (fold_left (replay1 (al_dedup_us svc)) l2 (Some c2)) as [c3|] eqn:E3;
    [|cbn in Hr; now rewrite !replay_None in Hr].
  pose proof (replay_keeps _ k t1 l2 c2 c3 Hc2 Hdel Hcl E3) as Hc3.
  cbn in Hr. rewrite Hc3 in Hr. destruct (t2 - t1 <? _) eqn:E; [now rewrite replay_None in Hr|].
  now apply Z.ltb_ge in E.
Qed.

Theorem deliveries_spaced_witness :
  let net := fun _ : nat => (Response 200 true, 1000) in
  let svc := mkAlertService "tok" "chat" 120000000 3 2000000 in
  let a := StrategyCrashed "arb" "ec2" "KeyError" in
  120000000 <= 130002000 - 1000.
Proof.
  cbv zeta. apply (deliveries_spaced (fun _ => (Response 200 true, 1000))
    (mkAlertService "tok" "chat" 120000000 3 2000000)
    [(0, StrategyCrashed "arb" "ec2" "KeyError"); (60000000, StrategyCrashed "arb" "ec2" "KeyError");
     (70000000, StrategyCrashed "arb" "ec2" "ValueError")] 0
    "crashed:arb:ec2" 1000 130002000 [Posted "crashed:arb:ec2" 0] [Posted "crashed:arb:ec2" 130001000] []).
  - now intros n.
  - now cbn.
  - repeat constructor; cbn; lia.
  - vm_compute. reflexivity.
  - intros t [[=]|[]].
  - intros [[=]|[]].
Defined.

(** A recovery re-arms the alerts: right after [strategy_recovered] for a
    strategy, whether or not its own message got through, a crash, a missing
    heartbeat or a stop of that strategy is not suppressed. *)
Theorem recovery_rearms (net : nat -> outcome * Z) (svc : AlertService) (strategy server : string)
    (downtime : float) (kind : string) (s : AlertState) :
  In kind ["missing"; "crashed"; "stopped"] ->
  let s' := snd (raise_alert net svc (StrategyRecovered strategy server downtime) s) in
  fst (_is_duplicate svc (key3 kind strategy server) s') = Ok false.
Proof.
  intros Hk. cbn [raise_alert]. set (key := dedup_key _).
  assert (key3 kind strategy server <> key) as Hne.
  { unfold key. cbn [dedup_key]. unfold key3. destruct Hk as [<-|[<-|[<-|[]]]]; discriminate. }
  unfold bind, _clear_dedup, modify. cbn [as_cache as_clock as_posts as_log].
  set (s1 := mkAlertState _ _ _ _).
  assert (as_cache s1 !! key3 kind strategy server = None) as H1.
  { unfold s1. cbn [as_cache]. rewrite !lookup_delete_None.
    destruct Hk as [<-|[<-|[<-|[]]]]; auto. }
  pose proof (send_bounded net svc key s1) as H. destruct (_send net svc key s1) as [r s'].
  destruct H as (b & suf & _ & _ & _ & _ & Hf & Ht). cbn [snd]. unfold _is_duplicate. cbn [gets fst].
  assert (as_cache s' !! key3 kind strategy server = None) as ->; [|reflexivity].
  destruct b.
  - destruct (Ht eq_refl) as [[_ ->]|(t & _ & ->)]; [exact H1|].
    now rewrite lookup_insert_ne by congruence.
  - now rewrite Hf.
Qed.

Theorem recovery_rearms_witness :
  let net := fun _ : nat => (Response 200 true, 1000) in
  let svc := mkAlertService "tok" "chat" 120000000 3 2000000 in
  let s := mkAlertState 50 {[ "crashed:arb:ec2" := 40 ]} 0 [] in
  fst (_is_duplicate svc (key3 "crashed" "arb" "ec2")
         (snd (raise_alert net svc (StrategyRecovered "arb" "ec2" f_zero) s))) = Ok false.
Proof. cbv zeta. apply recovery_rearms. right. now left. Defined.

(** Suppression is by strategy and server, not by content: within the
    window after a crash alert was delivered, a crash of the same strategy for
    a different reason is not sent, and the caller is told [True]. *)
Theorem crash_with_other_reason_suppressed (net : nat -> outcome * Z) (svc : AlertService)
    (strategy server reason : string) (t : Z) (s : AlertState) :
  s.(as_cache) !! key3 "crashed" strategy server = Some t ->
  s.(as_clock) - t < svc.(al_dedup_us) ->
  raise_alert net svc (StrategyCrashed strategy server reason) s = (Ok true, s).
Proof.
  intros Hc Ht. cbn. unfold _send, _is_duplicate. mrun. rewrite Hc.
  now rewrite (proj2 (Z.ltb_lt _ _) Ht).
Qed.

Theorem crash_with_other_reason_suppressed_witness :
  let s := mkAlertState 50 {[ "crashed:arb:ec2" := 40 ]} 0 [] in
  raise_alert (fun _ => (Response 200 true, 1000)) (mkAlertService "tok" "chat" 120000000 3 2000000)
    (StrategyCrashed "arb" "ec2" "disk full") s = (Ok true, s).
Proof.
  cbv zeta. apply crash_with_other_reason_suppressed with (t := 40); [reflexivity | now cbn].
Defined.
