(* ===== verification/ApiWorld.v ===== *)
(** * The world an API request runs in

    A request handler of [trading/api/] runs against a SQLAlchemy session, the
    wall clock, a source of random tokens, the realtime bus, the alert
    service and the AWS Lambda client.  [World] holds them; a handler is a
    computation [Api A] over it that may raise.

    The session is the one [trading/database/connection.py] makes
    ([autoflush=False], [expire_on_commit=False]): [w_tx] is the effect of the
    statements already executed in the open transaction, [w_new] the unit of
    work not yet flushed.  Queries see [w_tx] applied to the committed tables
    and not [w_new]; [commit] flushes and commits, and raises
    [IntegrityError] when a constraint of the schema fails.  [w_others] is what
    the other connections commit before each of our commits: it is the source
    of every race, and [[]] when the request runs alone. *)
From S2P Require Import Prelude PyStr PyFloat Json Config Schema Realtime Alerts.

(** ** External code *)

(** The primitives the API calls and does not define: hashing, JWT, bcrypt,
    the random generator and the control Lambda (one answer per call, which
    may depend on how many calls were made before). *)
Class Env : Type := {
  sha256_hex : string -> string;
  sha256_b64 : string -> string;
  jwt_encode : json -> string -> string;
  jwt_decode : string -> string -> Z -> result string json;
  bcrypt_hashpw : string -> Z -> string;
  bcrypt_checkpw : string -> string -> option bool;
  token_urlsafe : Z -> Z -> string;
  uuid4_hex : Z -> string;
  lambda_invoke : nat -> json -> result exn json;
  settings : Settings
}.

(** ** Requests *)
Record Request : Type := mkRequest {
  req_method : string;
  req_path : string;
  req_headers : list (string * string);    (* lower-case names *)
  req_cookies : list (string * string);
  req_client : option string
}.

Definition assoc_get (k : string) (l : list (string * string)) : option string :=
  snd <$> List.find (fun kv => String.eqb (fst kv) k) l.
Definition header (r : Request) (k : string) : option string := assoc_get k r.(req_headers).
Definition cookie (r : Request) (k : string) : option string := assoc_get k r.(req_cookies).

(** ** The world *)
Record World : Type := mkWorld {
  w_db : Db;
  w_tx : Db -> Db;
  w_new : Db -> Db;
  w_others : list (Db -> Db);
  w_seq : Z;                    (* next primary key *)
  w_now : timestamp;            (* the clock, in microseconds *)
  w_rand : Z;                   (* draws made from the random generator *)
  w_bus : EventBus;
  w_alerts : list Alert;        (* alerts handed to the alert service *)
  w_calls : list json           (* Lambda payloads sent, oldest first *)
}.

Definition Api (A : Type) : Type := M World exn A.

Definition set_db (d : Db) (w : World) : World :=
  mkWorld d w.(w_tx) w.(w_new) w.(w_others) w.(w_seq) w.(w_now) w.(w_rand) w.(w_bus) w.(w_alerts) w.(w_calls).
Definition set_session (tx new : Db -> Db) (w : World) : World :=
  mkWorld w.(w_db) tx new w.(w_others) w.(w_seq) w.(w_now) w.(w_rand) w.(w_bus) w.(w_alerts) w.(w_calls).
Definition set_others (o : list (Db -> Db)) (w : World) : World :=
  mkWorld w.(w_db) w.(w_tx) w.(w_new) o w.(w_seq) w.(w_now) w.(w_rand) w.(w_bus) w.(w_alerts) w.(w_calls).
Definition set_seq (n : Z) (w : World) : World :=
  mkWorld w.(w_db) w.(w_tx) w.(w_new) w.(w_others) n w.(w_now) w.(w_rand) w.(w_bus) w.(w_alerts) w.(w_calls).
Definition set_now (t : timestamp) (w : World) : World :=
  mkWorld w.(w_db) w.(w_tx) w.(w_new) w.(w_others) w.(w_seq) t w.(w_rand) w.(w_bus) w.(w_alerts) w.(w_calls).
Definition set_rand (n : Z) (w : World) : World :=
  mkWorld w.(w_db) w.(w_tx) w.(w_new) w.(w_others) w.(w_seq) w.(w_now) n w.(w_bus) w.(w_alerts) w.(w_calls).
Definition set_bus (b : EventBus) (w : World) : World :=
  mkWorld w.(w_db) w.(w_tx) w.(w_new) w.(w_others) w.(w_seq) w.(w_now) w.(w_rand) b w.(w_alerts) w.(w_calls).
Definition set_alerts (l : list Alert) (w : World) : World :=
  mkWorld w.(w_db) w.(w_tx) w.(w_new) w.(w_others) w.(w_seq) w.(w_now) w.(w_rand) w.(w_bus) l w.(w_calls).
Definition set_calls (l : list json) (w : World) : World :=
  mkWorld w.(w_db) w.(w_tx) w.(w_new) w.(w_others) w.(w_seq) w.(w_now) w.(w_rand) w.(w_bus) w.(w_alerts) l.

(** A session just opened on [d]. *)
Definition fresh_world (d : Db) (seq now : Z) : World :=
  mkWorld d id id [] seq now 0 new_bus [] [].

(** ** Session operations *)

(** What a query sees. *)
Definition view (w : World) : Db := w.(w_tx) w.(w_db).

Definition query {A} (f : Db -> A) : Api A := gets (fun w => f (view w)).
Definition one_or_none_q {A} (tbl : Db -> list A) (p : A -> bool) : Api (option A) :=
  let! o := query (fun d => one_or_none p (tbl d)) in lift o.
(** [.one()] *)
Definition one_q {A} (tbl : Db -> list A) (p : A -> bool) : Api A :=
  let! o := one_or_none_q tbl p in
  match o with Some x => ret x | None => raise NoResultFound end.

(** A change to the unit of work: [db.add], or assigning to a loaded row. *)
Definition stage (f : Db -> Db) : Api unit :=
  modify (fun w => set_session w.(w_tx) (fun d => f (w.(w_new) d)) w).
(** A statement executed at once ([query.update], [query.delete]). *)
Definition execute (f : Db -> Db) : Api unit :=
  modify (fun w => set_session (fun d => f (w.(w_tx) d)) w.(w_new) w).
(** The primary key of the next inserted row. *)
Definition fresh_id : Api Z := fun w => (Ok w.(w_seq), set_seq (w.(w_seq) + 1) w).

Definition rollback : Api unit := modify (set_session id id).

(** [db.flush()]: the unit of work is sent inside the transaction. *)
Definition flush : Api unit := fun w =>
  let new := fun d => w.(w_new) (w.(w_tx) d) in
  if db_ok (new w.(w_db)) then (Ok tt, set_session new id w)
  else (Err IntegrityError, set_session id id w).

(** [db.commit()]: what the other connections committed meanwhile is under
    our transaction when its constraints are checked. *)
Definition commit : Api unit := fun w =>
  let '(base, others) := match w.(w_others) with
                         | [] => (w.(w_db), [])
                         | o :: r => (o w.(w_db), r)
                         end in
  let new := w.(w_new) (w.(w_tx) base) in
  let w' := set_session id id (set_others others w) in
  if db_ok new then (Ok tt, set_db new w')
  else (Err IntegrityError, set_db base w').

(** The end of a request: [db.close()] rolls back what was not committed. *)
Definition close : Api unit := rollback.

(** ** Clock, randomness, events *)
Definition now : Api timestamp := gets w_now.
Definition random : Api Z := fun w => (Ok w.(w_rand), set_rand (w.(w_rand) + 1) w).
Definition emit_event (ev : string * json) : Api unit :=
  modify (fun w => set_bus (emit (fst ev) (snd ev) w.(w_now) w.(w_bus)) w).
Definition send_alert (a : Alert) : Api unit :=
  modify (fun w => set_alerts (w.(w_alerts) ++ [a]) w).

(** The ISO text of an instant is opaque: the events carry the instant. *)
Definition isoformat (t : timestamp) : json := JInt t.

(** ** Lemmas *)

Lemma commit_alone w :
  w.(w_others) = [] ->
  commit w = if db_ok (w.(w_new) (w.(w_tx) w.(w_db)))
             then (Ok tt, set_db (w.(w_new) (w.(w_tx) w.(w_db))) (set_session id id w))
             else (Err IntegrityError, set_session id id w).
Proof.
  intros H. destruct w. cbn in *. subst. unfold commit. cbn.
  now destruct (db_ok _).
Qed.

(** Only commits change the committed tables. *)
Definition db_is (d : Db) (w : World) : Prop := w.(w_db) = d.

Lemma db_is_query {A} d (f : Db -> A) : preserves (db_is d) (query f).
Proof. apply preserves_gets. Qed.
#[local] Hint Resolve db_is_query : preserves.
Lemma db_is_one_or_none_q {A} d (tbl : Db -> list A) p : preserves (db_is d) (one_or_none_q tbl p).
Proof. unfold one_or_none_q. preserve. Qed.
Lemma db_is_stage d f : preserves (db_is d) (stage f).
Proof. now apply preserves_modify. Qed.
Lemma db_is_execute d f : preserves (db_is d) (execute f).
Proof. now apply preserves_modify. Qed.
Lemma db_is_fresh_id d : preserves (db_is d) fresh_id.
Proof. now intros w. Qed.
Lemma db_is_rollback d : preserves (db_is d) rollback.
Proof. now apply preserves_modify. Qed.
Lemma db_is_flush d : preserves (db_is d) flush.
Proof. intros w Hw. unfold flush. now destruct (db_ok _). Qed.
Lemma db_is_random d : preserves (db_is d) random.
Proof. now intros w. Qed.
Lemma db_is_now d : preserves (db_is d) now.
Proof. apply preserves_gets. Qed.
Lemma db_is_emit d e : preserves (db_is d) (emit_event e).
Proof. now apply preserves_modify. Qed.
Lemma db_is_alert d a : preserves (db_is d) (send_alert a).
Proof. now apply preserves_modify. Qed.

#[export] Hint Resolve db_is_query db_is_one_or_none_q db_is_stage db_is_execute db_is_fresh_id
  db_is_rollback db_is_flush db_is_random db_is_now db_is_emit db_is_alert : preserves.

(** A reachable database satisfies every constraint, whatever the other
    connections do, provided they commit through the same constraints. *)
Definition others_ok (w : World) : Prop :=
  Forall (fun o => forall d, db_ok d = true -> db_ok (o d) = true) w.(w_others).
Definition world_ok (w : World) : Prop := db_ok w.(w_db) = true /\ others_ok w.

Lemma world_ok_frame w w' :
  w'.(w_db) = w.(w_db) -> w'.(w_others) = w.(w_others) -> world_ok w -> world_ok w'.
Proof. unfold world_ok, others_ok. now intros -> ->. Qed.

Lemma world_ok_commit : preserves world_ok commit.
Proof.
  intros w [Hd Ho]. unfold commit, world_ok, others_ok in *.
  destruct w.(w_others) as [|o r].
  - destruct (db_ok (w.(w_new) _)) eqn:E; cbn; auto.
  - inversion Ho; subst. destruct (db_ok (w.(w_new) _)) eqn:E; cbn; auto.
Qed.
Lemma world_ok_query {A} (f : Db -> A) : preserves world_ok (query f).
Proof. apply preserves_gets. Qed.
#[local] Hint Resolve world_ok_query : preserves.
Lemma world_ok_one_or_none_q {A} (tbl : Db -> list A) p : preserves world_ok (one_or_none_q tbl p).
Proof. unfold one_or_none_q. preserve. Qed.
#[local] Hint Resolve world_ok_one_or_none_q : preserves.
Lemma world_ok_one_q {A} (tbl : Db -> list A) p : preserves world_ok (one_q tbl p).
Proof. unfold one_q. preserve. Qed.
Lemma world_ok_modify f :
  (forall w, (f w).(w_db) = w.(w_db)) -> (forall w, (f w).(w_others) = w.(w_others)) ->
  preserves (E := exn) world_ok (modify f).
Proof. intros H1 H2. apply preserves_modify. intros w. now apply world_ok_frame. Qed.
Lemma world_ok_stage f : preserves world_ok (stage f).
Proof. now apply world_ok_modify. Qed.
Lemma world_ok_execute f : preserves world_ok (execute f).
Proof. now apply world_ok_modify. Qed.
Lemma world_ok_rollback : preserves world_ok rollback.
Proof. now apply world_ok_modify. Qed.
Lemma world_ok_fresh_id : preserves world_ok fresh_id.
Proof. intros w. now apply world_ok_frame. Qed.
Lemma world_ok_flush : preserves world_ok flush.
Proof. intros w. unfold flush. destruct (db_ok _); now apply world_ok_frame. Qed.
Lemma world_ok_now : preserves world_ok now.
Proof. apply preserves_gets. Qed.
Lemma world_ok_random : preserves world_ok random.
Proof. intros w. now apply world_ok_frame. Qed.
Lemma world_ok_emit e : preserves world_ok (emit_event e).
Proof. now apply world_ok_modify. Qed.
Lemma world_ok_alert a : preserves world_ok (send_alert a).
Proof. now apply world_ok_modify. Qed.

#[export] Hint Resolve world_ok_commit world_ok_query world_ok_one_or_none_q world_ok_one_q
  world_ok_stage world_ok_execute world_ok_rollback world_ok_fresh_id world_ok_flush
  world_ok_now world_ok_random world_ok_emit world_ok_alert : preserves.

(** ** Invariants of the committed tables

    [db_inv I w]: the committed tables satisfy [I] and nothing under way, in
    this session or in the others, can break it.  Handlers that only stage
    changes preserving [I] keep [db_inv I]: the rules below reduce the proof to
    the functions the handler stages and executes. *)
Definition keeps (I : Db -> Prop) (f : Db -> Db) : Prop := forall d, I d -> I (f d).

Record db_inv (I : Db -> Prop) (w : World) : Prop := {
  di_db : I w.(w_db);
  di_tx : keeps I w.(w_tx);
  di_new : keeps I w.(w_new);
  di_others : Forall (keeps I) w.(w_others)
}.

Section db_inv_rules.
Context (I : Db -> Prop).

Lemma keeps_id : keeps I id.
Proof. now intros d. Qed.

Lemma db_inv_fresh d seq t : I d -> db_inv I (fresh_world d seq t).
Proof. intros H. constructor; cbn; auto using keeps_id. Qed.

Lemma db_inv_frame w w' :
  w'.(w_db) = w.(w_db) -> w'.(w_tx) = w.(w_tx) -> w'.(w_new) = w.(w_new) ->
  w'.(w_others) = w.(w_others) -> db_inv I w -> db_inv I w'.
Proof. intros E1 E2 E3 E4 []. constructor; now rewrite ?E1, ?E2, ?E3, ?E4. Qed.

Lemma db_inv_stage f : keeps I f -> preserves (db_inv I) (stage f).
Proof.
  intros Hf. apply preserves_modify. intros w []. constructor; cbn; auto.
  intros d Hd. apply Hf. auto.
Qed.
Lemma db_inv_execute f : keeps I f -> preserves (db_inv I) (execute f).
Proof.
  intros Hf. apply preserves_modify. intros w []. constructor; cbn; auto.
  intros d Hd. apply Hf. auto.
Qed.
Lemma db_inv_rollback : preserves (db_inv I) rollback.
Proof. apply preserves_modify. intros w []. constructor; cbn; auto using keeps_id. Qed.
Lemma db_inv_commit : preserves (db_inv I) commit.
Proof.
  intros w []. unfold commit. destruct w.(w_others) as [|o r]; cbn.
  - destruct (db_ok _); constructor; cbn; auto using keeps_id.
  - inversion di_others0; subst.
    destruct (db_ok _); constructor; cbn; auto using keeps_id.
Qed.
Lemma db_inv_flush : preserves (db_inv I) flush.
Proof.
  intros w []. unfold flush. destruct (db_ok _); constructor; cbn; auto using keeps_id.
  intros d Hd. auto.
Qed.
Lemma db_inv_query {A} (f : Db -> A) : preserves (db_inv I) (query f).
Proof. apply preserves_gets. Qed.
#[local] Hint Resolve db_inv_query : preserves.
Lemma db_inv_one_or_none_q {A} (tbl : Db -> list A) p : preserves (db_inv I) (one_or_none_q tbl p).
Proof. unfold one_or_none_q. preserve. Qed.
#[local] Hint Resolve db_inv_one_or_none_q : preserves.
Lemma db_inv_one_q {A} (tbl : Db -> list A) p : preserves (db_inv I) (one_q tbl p).
Proof. unfold one_q. preserve. Qed.
Lemma db_inv_fresh_id : preserves (db_inv I) fresh_id.
Proof. intros w. now apply db_inv_frame. Qed.
Lemma db_inv_now : preserves (db_inv I) now.
Proof. apply preserves_gets. Qed.
Lemma db_inv_random : preserves (db_inv I) random.
Proof. intros w. now apply db_inv_frame. Qed.
Lemma db_inv_emit e : preserves (db_inv I) (emit_event e).
Proof. apply preserves_modify. intros w. now apply db_inv_frame. Qed.
Lemma db_inv_alert a : preserves (db_inv I) (send_alert a).
Proof. apply preserves_modify. intros w. now apply db_inv_frame. Qed.
End db_inv_rules.

#[export] Hint Resolve db_inv_stage db_inv_execute db_inv_rollback db_inv_commit db_inv_flush
  db_inv_query db_inv_one_or_none_q db_inv_one_q db_inv_fresh_id db_inv_now db_inv_random
  db_inv_emit db_inv_alert : preserves.

(** Run the session operations of a goal, commits and flushes apart. *)
Ltac api_run :=
  unfold one_q, one_or_none_q, query, stage, execute, fresh_id, rollback, close, now, random, view;
  mrun.

(** ** Effects outside the database *)
Definition effects (w : World) : list json * EventBus * list Alert := (w.(w_calls), w.(w_bus), w.(w_alerts)).
Definition silent (e : list json * EventBus * list Alert) (w : World) : Prop := effects w = e.

Section silent_rules.
Context (e : list json * EventBus * list Alert).
Lemma silent_query {A} (f : Db -> A) : preserves (silent e) (query f).
Proof. apply preserves_gets. Qed.
#[local] Hint Resolve silent_query : preserves.
Lemma silent_one_or_none_q {A} (tbl : Db -> list A) p : preserves (silent e) (one_or_none_q tbl p).
Proof. unfold one_or_none_q. preserve. Qed.
#[local] Hint Resolve silent_one_or_none_q : preserves.
Lemma silent_one_q {A} (tbl : Db -> list A) p : preserves (silent e) (one_q tbl p).
Proof. unfold one_q. preserve. Qed.
Lemma silent_stage f : preserves (silent e) (stage f).
Proof. now apply preserves_modify. Qed.
Lemma silent_execute f : preserves (silent e) (execute f).
Proof. now apply preserves_modify. Qed.
Lemma silent_rollback : preserves (silent e) rollback.
Proof. now apply preserves_modify. Qed.
Lemma silent_commit : preserves (silent e) commit.
Proof. intros w Hw. unfold commit. destruct w.(w_others); now destruct (db_ok _). Qed.
Lemma silent_flush : preserves (silent e) flush.
Proof. intros w Hw. unfold flush. now destruct (db_ok _). Qed.
Lemma silent_fresh_id : preserves (silent e) fresh_id.
Proof. now intros w. Qed.
Lemma silent_random : preserves (silent e) random.
Proof. now intros w. Qed.
Lemma silent_now : preserves (silent e) now.
Proof. apply preserves_gets. Qed.
End silent_rules.
#[export] Hint Resolve silent_query silent_one_or_none_q silent_one_q silent_stage silent_execute
  silent_rollback silent_commit silent_flush silent_fresh_id silent_random silent_now : preserves.

(** ** One run, alone *)

(** The operations that cannot fail, one step each. *)
Section steps.
Context {A : Type} (k : unit -> Api A) (w : World).
Lemma stage_step f :
  bind (stage f) k w = k tt (set_session w.(w_tx) (fun d => f (w.(w_new) d)) w).
Proof. reflexivity. Qed.
Lemma emit_step ev :
  bind (emit_event ev) k w = k tt (set_bus (emit (fst ev) (snd ev) w.(w_now) w.(w_bus)) w).
Proof. reflexivity. Qed.
Lemma alert_step a : bind (send_alert a) k w = k tt (set_alerts (w.(w_alerts) ++ [a]) w).
Proof. reflexivity. Qed.
Lemma now_step (h : timestamp -> Api A) : bind now h w = h w.(w_now) w.
Proof. reflexivity. Qed.
Lemma fresh_id_step (h : Z -> Api A) : bind fresh_id h w = h w.(w_seq) (set_seq (w.(w_seq) + 1) w).
Proof. reflexivity. Qed.
End steps.

(** A session with nothing pending, running alone. *)
Record idle (w : World) : Prop := {
  idle_others : w.(w_others) = [];
  idle_tx : w.(w_tx) = id;
  idle_new : w.(w_new) = id
}.

Lemma commit_Ok w w' :
  w.(w_others) = [] -> commit w = (Ok tt, w') ->
  w' = set_db (w.(w_new) (w.(w_tx) w.(w_db))) (set_session id id w) /\
  db_ok w'.(w_db) = true.
Proof.
  intros Ho. rewrite commit_alone by exact Ho. destruct (db_ok _) eqn:E; [|discriminate].
  intros [= <-]. now split.
Qed.

Lemma flush_Ok w w' :
  flush w = (Ok tt, w') -> w' = set_session (fun d => w.(w_new) (w.(w_tx) d)) id w.
Proof. unfold flush. destruct (db_ok _); [now intros [= <-] | discriminate]. Qed.

Lemma idle_db_inv (I : Db -> Prop) w : idle w -> I w.(w_db) -> db_inv I w.
Proof.
  intros [Ho Ht Hn] HI. constructor; rewrite ?Ho, ?Ht, ?Hn; auto using keeps_id.
Qed.

Lemma commit_idle w w' : w.(w_others) = [] -> commit w = (Ok tt, w') -> idle w'.
Proof. intros Ho H. apply commit_Ok in H as [-> _]; [|exact Ho]. now constructor. Qed.

Lemma one_or_none_q_Ok {A} (tbl : Db -> list A) p w o w' :
  one_or_none_q tbl p w = (Ok o, w') -> w' = w /\ one_or_none p (tbl (view w)) = Ok o.
Proof. api_run. fold (view w). destruct (one_or_none _ _); now intros [= <- <-]. Qed.

Lemma one_q_Ok {A} (tbl : Db -> list A) p w x w' :
  one_q tbl p w = (Ok x, w') -> w' = w /\ In x (tbl (view w)) /\ p x = true.
Proof.
  unfold one_q. intros H. apply bind_inv_Ok in H as (o & w1 & H1 & H).
  apply one_or_none_q_Ok in H1 as [-> E]. destruct o as [y|]; [|discriminate].
  injection H as <- <-. apply one_or_none_Some in E. now split.
Qed.
