(* ===== verification/DemoEnv.v ===== *)
(** * A concrete instance of the external code

    The primitives the API only calls ([Env]) instantiated by computable
    functions: the hypotheses the theorems make about them hold here, so the
    theorems can be applied to concrete requests.  Tokens are the decimal text
    of an injective encoding of their payload and key. *)
From S2P Require Import Prelude PyStr PyFloat Json Config Schema Realtime ApiWorld.
From stdpp Require Import countable pretty.
From Stdlib Require Import SpecFloat Ascii.
#[local] Open Scope string_scope.
#[local] Open Scope list_scope.
#[local] Open Scope Z_scope.

(** ** JSON values are countable *)
#[global] Program Instance float_countable : Countable float :=
  inj_countable'
    (fun x => match x with
              | S754_zero s => inl (inl s)
              | S754_infinity s => inl (inr s)
              | S754_nan => inr (inl tt)
              | S754_finite s m e => inr (inr (s, m, e))
              end)
    (fun y : (bool + bool) + (unit + bool * positive * Z) =>
       match y with
       | inl (inl s) => S754_zero s
       | inl (inr s) => S754_infinity s
       | inr (inl _) => S754_nan
       | inr (inr (s, m, e)) => S754_finite s m e
       end) _.
Next Obligation. now intros []. Qed.

Definition json_leaf : Type := unit + bool + (Z + float) + string.

Fixpoint json_to_tree (j : json) : gen_tree json_leaf :=
  match j with
  | JNull => GenLeaf (inl (inl (inl tt)))
  | JBool b => GenLeaf (inl (inl (inr b)))
  | JInt n => GenLeaf (inl (inr (inl n)))
  | JFloat x => GenLeaf (inl (inr (inr x)))
  | JStr s => GenLeaf (inr s)
  | JArr l => GenNode 0 (map json_to_tree l)
  | JObj kvs => GenNode 1 (map (fun kv => GenNode 2 [GenLeaf (inr (fst kv)); json_to_tree (snd kv)]) kvs)
  end.

Fixpoint tree_to_json (t : gen_tree json_leaf) : json :=
  match t with
  | GenLeaf (inl (inl (inl _))) => JNull
  | GenLeaf (inl (inl (inr b))) => JBool b
  | GenLeaf (inl (inr (inl n))) => JInt n
  | GenLeaf (inl (inr (inr x))) => JFloat x
  | GenLeaf (inr s) => JStr s
  | GenNode 0 l => JArr (map tree_to_json l)
  | GenNode _ l =>
      JObj (map (fun u => match u with
                          | GenNode _ [GenLeaf (inr k); v] => (k, tree_to_json v)
                          | _ => ("", JNull)
                          end) l)
  end.

Fixpoint tree_json_id (j : json) : tree_to_json (json_to_tree j) = j.
Proof.
  destruct j as [|b|n|x|s|l|kvs]; cbn; try reflexivity; f_equal.
  - induction l as [|a l IH]; cbn; [reflexivity|]. now rewrite tree_json_id, IH.
  - induction kvs as [|[k v] l IH]; cbn; [reflexivity|]. now rewrite tree_json_id, IH.
Qed.

#[global] Instance json_eq_dec : EqDecision json.
Proof. intros x y. destruct (decide (json_to_tree x = json_to_tree y)) as [E|E].
  - left. rewrite <- (tree_json_id x), <- (tree_json_id y). now rewrite E.
  - right. now intros ->.
Defined.
#[global] Instance json_countable : Countable json :=
  inj_countable' json_to_tree tree_to_json tree_json_id.

(** ** Tokens *)
Definition demo_jwt_encode (payload : json) (key : string) : string :=
  pretty (Npos (encode (payload, key))).
Definition demo_jwt_decode (token key : string) (t : Z) : result string json :=
  match py_int token with
  | Some (Zpos p) =>
      match decode p : option (json * string) with
      | Some (payload, k) =>
          if negb (String.eqb k key) then Err "InvalidSignatureError"
          else match jget "iat" payload, jget "exp" payload with
               | JInt iat, JInt exp =>
                   if t <? iat then Err "ImmatureSignatureError"
                   else if exp <=? t then Err "ExpiredSignatureError" else Ok payload
               | _, _ => Ok payload
               end
      | None => Err "DecodeError"
      end
  | _ => Err "DecodeError"
  end.

(** What the code relies on of PyJWT: a token it encoded decodes to the same
    payload under the same key from the second it was issued until it expires,
    and carries no surrounding blanks. *)
Definition jwt_law {env : Env} : Prop :=
  forall payload key t iat exp,
    jget "iat" payload = JInt iat -> jget "exp" payload = JInt exp -> iat <= t < exp ->
    jwt_decode (jwt_encode payload key) key t = Ok payload /\
    strip (jwt_encode payload key) = jwt_encode payload key.

Definition demo_settings : Settings :=
  Eval vm_compute in
    match load_settings (<["AUTH_SECRET_KEY" := "k"]> (<["CONTROL_API_KEY" := "key"]>
                         (<["LAMBDA_FUNCTION_NAME" := "orchestrator"]>
                         (<["ALERT_DEDUP_SECONDS" := "120"]> ∅)))) as r
          return match fst r with Ok _ => Settings | Err _ => unit end
    with (Ok s, _) => s | (Err _, _) => tt end.

Definition demo_env (lam : nat -> json -> result exn json) : Env := {|
  sha256_hex := fun s => "h" +:+ s;
  sha256_b64 := fun s => "b" +:+ s;
  jwt_encode := demo_jwt_encode;
  jwt_decode := demo_jwt_decode;
  bcrypt_hashpw := fun p salt => p;
  bcrypt_checkpw := fun p h => Some (String.eqb p h);
  token_urlsafe := fun n r => "t" +:+ pretty r;
  uuid4_hex := fun r => pretty r;
  lambda_invoke := lam;
  settings := demo_settings
|}.

Lemma demo_jwt_law lam : @jwt_law (demo_env lam).
Proof.
  intros payload key t iat exp Hi He Ht. cbn [jwt_encode jwt_decode demo_env]. split.
  - unfold demo_jwt_decode, demo_jwt_encode.
    change (pretty (N.pos (encode (payload, key)))) with (str_of_Z (Zpos (encode (payload, key)))).
    rewrite py_int_str_of_Z, decode_encode, String.eqb_refl, Hi, He. cbn.
    rewrite (proj2 (Z.ltb_ge _ _)), (proj2 (Z.leb_gt _ _)) by lia. reflexivity.
  - apply strip_digits, pretty_N_digits.
Qed.
