(* ===== verification/Security.v ===== *)
(** * Security primitives of the API

    [trading/api/security/]: the audit-log writer ([audit.py]), access and
    refresh tokens ([tokens.py]), and password policy and verification
    ([passwords.py]). *)
From S2P Require Import Prelude PyStr PyFloat Json Config Permissions Schema Realtime ApiWorld.

Section security.
Context {env : Env}.

(** ** [audit.py] *)
Definition clip_user_agent (ua : option string) : option string :=
  opt_str_or (Some (str_take 255 (default "" ua))) None.

Definition audit_record (actor action : string) (actor_label target : option string)
    (outcome : string) (ip user_agent : option string) (detail : json) : Api unit :=
  try_except
    (let! i := fresh_id in
     let! t := now in
     stage (on_audit_log (fun l =>
       l ++ [mkAuditLog i t actor actor_label action target outcome ip
               (clip_user_agent user_agent) detail])) ;;;
     commit)
    (fun _ => rollback).

(** ** [tokens.py] *)
Definition ACCESS_TOKEN_TYPE : string := "access".
Definition secret : result exn string :=
  if truthy settings.(s_auth_secret_key) then Ok settings.(s_auth_secret_key)
  else Err (TokenError "AUTH_SECRET_KEY is not configured").

Definition create_access_token (user_id : Z) (username role : string) (permissions : list string)
  : Api (string * Z) :=
  let ttl := settings.(s_auth_access_ttl_minutes) * 60 in
  let! t := now in
  let! jti := random in
  let payload := JObj
    [("sub", JStr (str_of_Z user_id)); ("username", JStr username); ("role", JStr role);
     ("perms", JArr (map JStr permissions)); ("type", JStr ACCESS_TOKEN_TYPE);
     ("iat", JInt (t / 1000000)); ("exp", JInt ((t + ttl * 1000000) / 1000000));
     ("jti", JStr (uuid4_hex jti))] in
  let! key := lift secret in
  ret (jwt_encode payload key, ttl).

Definition decode_access_token (token : string) (t : timestamp) : result exn json :=
  match secret with
  | Err e => Err e
  | Ok key =>
      match jwt_decode token key (t / 1000000) with
      | Err "ExpiredSignatureError" => Err (TokenError "token expired")
      | Err _ => Err (TokenError "invalid token")
      | Ok claims =>
          if jis_str ACCESS_TOKEN_TYPE (jget "type" claims) then Ok claims
          else Err (TokenError "wrong token type")
      end
  end.

Definition new_refresh_token : Api string :=
  let! r := random in ret (token_urlsafe 48 r).
Definition hash_refresh_token (raw : string) : string := sha256_hex raw.
Definition new_csrf_token : Api string :=
  let! r := random in ret (token_urlsafe 32 r).
Definition refresh_expiry : Api timestamp :=
  let! t := now in ret (t + settings.(s_auth_refresh_ttl_days) * 86400 * 1000000).

(** ** [passwords.py] *)
Definition _MIN_LEN : Z := 10.
Definition _MAX_LEN : Z := 256.
Definition _prehash (password : string) : string := sha256_b64 password.

Definition validate_password_strength (password : string) : result exn unit :=
  if str_len password <? _MIN_LEN then
    Err (WeakPasswordError "Password must be at least 10 characters.")
  else if _MAX_LEN <? str_len password then
    Err (WeakPasswordError "Password must be at most 256 characters.")
  else
    let cs := chars password in
    let classes := [existsb is_lower cs; existsb is_upper cs; existsb is_digit cs;
                    existsb (fun c => negb (is_alnum c)) cs] in
    if (List.length (List.filter (fun b => b) classes) <? 3)%nat then
      Err (WeakPasswordError
             "Password must include at least three of: lowercase, uppercase, digit, symbol.")
    else Ok tt.

Definition hash_password (password : string) : Api string :=
  let! salt := random in ret (bcrypt_hashpw (_prehash password) salt).
Definition verify_password (password password_hash : string) : bool :=
  if negb (truthy password_hash) then false
  else default false (bcrypt_checkpw (_prehash password) password_hash).

(** ** Lemmas *)

(** An audit write never raises. *)
Lemma audit_record_ok a1 a2 a3 a4 a5 a6 a7 a8 w :
  fst (audit_record a1 a2 a3 a4 a5 a6 a7 a8 w) = Ok tt.
Proof.
  unfold audit_record. mrun. unfold try_except.
  destruct (commit _) as [[[]|e] w']; reflexivity.
Qed.

(** Its effect on the committed tables: the concurrent commits, the staged
    work, and at most one new audit row. *)
Lemma audit_record_alone a1 a2 a3 a4 a5 a6 a7 a8 w :
  w.(w_others) = [] -> w.(w_new) = id -> w.(w_tx) = id ->
  let w' := snd (audit_record a1 a2 a3 a4 a5 a6 a7 a8 w) in
  let row := mkAuditLog w.(w_seq) w.(w_now) a1 a3 a2 a4 a5 a6 (clip_user_agent a7) a8 in
  (w'.(w_db) = w.(w_db) \/ w'.(w_db) = on_audit_log (fun l => l ++ [row]) w.(w_db))
  /\ w'.(w_others) = [] /\ w'.(w_tx) = id /\ w'.(w_new) = id /\ w'.(w_now) = w.(w_now).
Proof.
  intros Ho Hn Ht. destruct w; cbn in *; subst. unfold audit_record. mrun.
  unfold commit. cbn. destruct (db_ok _); cbn; (split; [first [left; reflexivity | right; reflexivity]|]); repeat split.
Qed.

Lemma world_ok_audit a1 a2 a3 a4 a5 a6 a7 a8 :
  preserves world_ok (audit_record a1 a2 a3 a4 a5 a6 a7 a8).
Proof. unfold audit_record. preserve. Qed.

(** Auditing touches the audit table only. *)
Lemma db_inv_audit (I : Db -> Prop) a1 a2 a3 a4 a5 a6 a7 a8 :
  (forall f, keeps I (on_audit_log f)) ->
  preserves (db_inv I) (audit_record a1 a2 a3 a4 a5 a6 a7 a8).
Proof. intros HI. unfold audit_record. preserve. Qed.

Lemma silent_audit e a1 a2 a3 a4 a5 a6 a7 a8 :
  preserves (silent e) (audit_record a1 a2 a3 a4 a5 a6 a7 a8).
Proof. unfold audit_record. preserve. Qed.

Lemma audit_record_keeps (I : Db -> Prop) a1 a2 a3 a4 a5 a6 a7 a8 w res w' :
  (forall f, keeps I (on_audit_log f)) -> db_inv I w ->
  audit_record a1 a2 a3 a4 a5 a6 a7 a8 w = (res, w') -> I w'.(w_db).
Proof.
  intros HI Hw E. apply (db_inv_audit I a1 a2 a3 a4 a5 a6 a7 a8 HI) in Hw.
  rewrite E in Hw. apply Hw.
Qed.
End security.

#[export] Hint Resolve silent_audit db_inv_audit world_ok_audit : preserves.
#[global] Arguments validate_password_strength : simpl never.
