(* ===== verification/RateLimit.v ===== *)
(** * The fixed-window rate limiter

    [trading/api/deps.py]: [_consume], the counter behind both
    [enforce_rate_limit] (per identity) and [enforce_login_rate_limit] (per
    user name and address). *)
From S2P Require Import Prelude PyStr Schema ApiWorld.

Definition epoch_seconds (t : timestamp) : Z := t / 1000000.
(** The start of the window [t] falls in. *)
Definition window_epoch (window_seconds : Z) (t : timestamp) : Z :=
  epoch_seconds t / window_seconds * window_seconds.

Definition window_row (subject_hash : string) (epoch : Z) (r : RateLimitWindow) : bool :=
  String.eqb r.(rlw_api_key_hash) subject_hash && (r.(rlw_window_start) =? epoch).

Definition set_request_count (n : Z) (r : RateLimitWindow) : RateLimitWindow :=
  mkWindow r.(rlw_id) r.(rlw_api_key_hash) r.(rlw_window_start) n.

Definition _consume (subject_hash : string) (max_requests window_seconds : Z) : Api (bool * Z) :=
  let! t := now in
  if window_seconds =? 0 then raise ZeroDivisionError else
  let epoch := window_epoch window_seconds t in
  let! row := one_or_none_q rate_limit_windows (window_row subject_hash epoch) in
  let! row' :=
    match row with
    | Some r => ret (Some r)
    | None =>
        try_except
          (let! i := fresh_id in
           stage (on_rate_limit_windows (fun l => l ++ [mkWindow i subject_hash epoch 1])) ;;;
           commit ;;;
           ret None)
          (fun e => match e with
                    | IntegrityError =>
                        rollback ;;;
                        let! r := one_q rate_limit_windows (window_row subject_hash epoch) in
                        ret (Some r)
                    | _ => raise e
                    end)
    end in
  match row' with
  | None => ret (true, 0)
  | Some r =>
      if max_requests <=? r.(rlw_request_count) then
        ret (false, Z.max (window_seconds - (epoch_seconds t - epoch)) 1)
      else
        stage (on_rate_limit_windows
                 (update_where (fun x => x.(rlw_id) =? r.(rlw_id))
                    (set_request_count (r.(rlw_request_count) + 1)))) ;;;
        commit ;;;
        ret (true, 0)
  end.

#[global] Arguments _consume : simpl never.

Lemma world_ok_consume s m n : preserves world_ok (_consume s m n).
Proof. unfold _consume. preserve. Qed.
Lemma db_inv_consume (I : Db -> Prop) s m n :
  (forall f, keeps I (on_rate_limit_windows f)) -> preserves (db_inv I) (_consume s m n).
Proof. intros HI. unfold _consume. preserve. Qed.
Lemma silent_consume e s m n : preserves (silent e) (_consume s m n).
Proof. unfold _consume. preserve. Qed.
#[export] Hint Resolve silent_consume world_ok_consume db_inv_consume : preserves.

(** ** The committed table after one call *)

Lemma db_ok_windows f d :
  db_ok d = true ->
  NoDup (map rlw_id (f d.(rate_limit_windows))) ->
  NoDup (map (fun w => (rlw_api_key_hash w, rlw_window_start w)) (f d.(rate_limit_windows))) ->
  db_ok (on_rate_limit_windows f d) = true.
Proof.
  unfold db_ok, uniques_ok, foreign_keys_ok. rewrite !andb_true_iff, !unique_on_NoDup.
  cbn. tauto.
Qed.

Lemma db_ok_windows_NoDup d :
  db_ok d = true ->
  NoDup (map rlw_id d.(rate_limit_windows)) /\
  NoDup (map (fun w => (rlw_api_key_hash w, rlw_window_start w)) d.(rate_limit_windows)).
Proof.
  unfold db_ok, uniques_ok, foreign_keys_ok. rewrite !andb_true_iff, !unique_on_NoDup. tauto.
Qed.

(** ** A history of requests

    Each request is the instant it arrives and the subject it counts for; the
    session is closed after it. *)
Abbreviation hit := (timestamp * string)%type (only parsing).

Fixpoint run_hits (max_requests window_seconds : Z) (l : list hit) : Api (list bool) :=
  match l with
  | [] => ret []
  | (t, s) :: r =>
      modify (set_now t) ;;;
      let! a := _consume s max_requests window_seconds in
      close ;;;
      let! rest := run_hits max_requests window_seconds r in
      ret (fst a :: rest)
  end.

(** Requests of subject [s] in the window starting at [k]. *)
Definition nhits (window_seconds : Z) (past : list hit) (s : string) (k : Z) : Z :=
  Z.of_nat (List.length (List.filter
    (fun h => String.eqb (snd h) s && (window_epoch window_seconds (fst h) =? k)) past)).

(** The abstract limiter: time is cut into windows of [window_seconds] from
    the epoch on, and a request is served when fewer than the budget were made
    before it, by the same subject, in the same window.  A budget below one
    counts as one: the request that opens a window is never refused. *)
Definition budget (max_requests : Z) : Z := Z.max 1 max_requests.
Definition same_window (window_seconds : Z) (t t' : timestamp) : bool :=
  t / 1000000 / window_seconds =? t' / 1000000 / window_seconds.
Definition earlier (window_seconds : Z) (past : list hit) (s : string) (t : timestamp) : Z :=
  Z.of_nat (List.length (List.filter
    (fun h => String.eqb (snd h) s && same_window window_seconds (fst h) t) past)).
Fixpoint spec_hits (max_requests window_seconds : Z) (past l : list hit) : list bool :=
  match l with
  | [] => []
  | (t, s) :: r =>
      (earlier window_seconds past s t <? budget max_requests)
      :: spec_hits max_requests window_seconds (past ++ [(t, s)]) r
  end.

Section sequential.
Context (max_requests window_seconds : Z) (Hwin : window_seconds <> 0).

Record limiter_inv (past : list hit) (w : World) : Prop := {
  li_alone : w.(w_others) = [];
  li_tx : w.(w_tx) = id;
  li_new : w.(w_new) = id;
  li_ok : db_ok w.(w_db) = true;
  li_ids : forall r, In r w.(w_db).(rate_limit_windows) -> r.(rlw_id) < w.(w_seq);
  li_count : forall r, In r w.(w_db).(rate_limit_windows) ->
    let n := nhits window_seconds past r.(rlw_api_key_hash) r.(rlw_window_start) in
    1 <= n /\ r.(rlw_request_count) = Z.min n (budget max_requests);
  li_rows : forall s k, 0 < nhits window_seconds past s k ->
    exists r, In r w.(w_db).(rate_limit_windows) /\ window_row s k r = true
}.

Lemma nhits_snoc past t s s' k :
  nhits window_seconds (past ++ [(t, s)]) s' k =
  nhits window_seconds past s' k +
  (if String.eqb s s' && (window_epoch window_seconds t =? k) then 1 else 0).
Proof.
  unfold nhits. rewrite List.filter_app, length_app. cbn.
  destruct (_ && _); cbn; lia.
Qed.

Lemma nhits_earlier past s t :
  nhits window_seconds past s (window_epoch window_seconds t) = earlier window_seconds past s t.
Proof.
  unfold nhits, earlier, same_window, window_epoch, epoch_seconds. f_equal. f_equal.
  apply List.filter_ext. intros h. f_equal. apply eq_iff_eq_true. rewrite !Z.eqb_eq.
  split; [now intros H%Z.mul_reg_r | now intros ->].
Qed.

Lemma nhits_nonneg past s k : 0 <= nhits window_seconds past s k.
Proof. unfold nhits. lia. Qed.

Lemma window_row_true s k r :
  window_row s k r = true <-> r.(rlw_api_key_hash) = s /\ r.(rlw_window_start) = k.
Proof. unfold window_row. now rewrite andb_true_iff, String.eqb_eq, Z.eqb_eq. Qed.

Lemma limiter_query past w s k :
  limiter_inv past w ->
  exists o, one_or_none (window_row s k) w.(w_db).(rate_limit_windows) = Ok o.
Proof.
  intros H. apply (one_or_none_unique (fun w => (rlw_api_key_hash w, rlw_window_start w))).
  - now apply db_ok_windows_NoDup, (li_ok past).
  - intros x y _ _ [-> ->]%window_row_true [-> ->]%window_row_true. reflexivity.
Qed.

(** Opening a window. *)
Lemma limiter_insert past w t s :
  limiter_inv past w ->
  let k := window_epoch window_seconds t in
  one_or_none (window_row s k) w.(w_db).(rate_limit_windows) = Ok None ->
  let add := on_rate_limit_windows (fun l => l ++ [mkWindow w.(w_seq) s k 1]) in
  db_ok (add w.(w_db)) = true /\
  nhits window_seconds past s k = 0 /\
  limiter_inv (past ++ [(t, s)])
    (set_db (add w.(w_db)) (set_seq (w.(w_seq) + 1) (set_now t w))).
Proof.
  intros Hi k Hq add. destruct Hi as [Ho Ht Hn Hok Hids Hcount Hrows].
  assert (nhits window_seconds past s k = 0) as H0.
  { pose proof (nhits_nonneg past s k). destruct (Z.eq_dec (nhits window_seconds past s k) 0); [auto|].
    destruct (Hrows s k) as (r & Hr & Hk); [lia|].
    now rewrite (one_or_none_None _ _ _ Hq Hr) in Hk. }
  destruct (db_ok_windows_NoDup _ Hok) as [Hn1 Hn2].
  assert (db_ok (add w.(w_db)) = true) as Hok'.
  { apply db_ok_windows; [exact Hok| |]; apply NoDup_map_app_one; auto; cbn.
    - intros y Hy E. apply Hids in Hy. lia.
    - intros y Hy [= E1 E2]. pose proof (one_or_none_None _ _ _ Hq Hy) as Hf.
      rewrite (proj2 (window_row_true s k y)) in Hf; [discriminate | auto]. }
  split; [exact Hok'|]. split; [exact H0|].
  constructor; cbn; auto.
  - intros r [Hr|[<-|[]]]%in_app_iff; cbn; [apply Hids in Hr|]; lia.
  - intros r [Hr|[<-|[]]]%in_app_iff; rewrite nhits_snoc; cbn.
    + pose proof (one_or_none_None _ _ _ Hq Hr) as Hf. unfold window_row in Hf.
      rewrite (String.eqb_sym s), (Z.eqb_sym (window_epoch _ _)). fold k.
      rewrite Hf, Z.add_0_r. now apply Hcount.
    + fold k. rewrite String.eqb_refl, Z.eqb_refl, H0. cbn. unfold budget. lia.
  - intros s' k'. rewrite nhits_snoc. fold k. intros Hpos.
    destruct (String.eqb s s' && (k =? k')) eqn:E.
    + to_prop. subst. eexists. split; [apply in_app_iff; right; now left|].
      now apply window_row_true.
    + destruct (Hrows s' k') as (r & Hr & Hk); [lia|]. exists r.
      split; [apply in_app_iff; now left | exact Hk].
Qed.

(** Counting one more request in an open window, below the budget. *)
Lemma limiter_bump past w t s r :
  limiter_inv past w ->
  let k := window_epoch window_seconds t in
  one_or_none (window_row s k) w.(w_db).(rate_limit_windows) = Ok (Some r) ->
  r.(rlw_request_count) < max_requests ->
  let upd := on_rate_limit_windows
               (update_where (fun x => x.(rlw_id) =? r.(rlw_id))
                  (set_request_count (r.(rlw_request_count) + 1))) in
  db_ok (upd w.(w_db)) = true /\
  limiter_inv (past ++ [(t, s)]) (set_db (upd w.(w_db)) (set_now t w)).
Proof.
  intros Hi k Hq Hlt upd. destruct Hi as [Ho Ht Hn Hok Hids Hcount Hrows].
  destruct (db_ok_windows_NoDup _ Hok) as [Hn1 Hn2].
  apply one_or_none_Some in Hq as [Hr Hk]. apply window_row_true in Hk as [Hs Hst].
  assert (forall x, In x w.(w_db).(rate_limit_windows) -> (x.(rlw_id) =? r.(rlw_id)) = true -> x = r) as Hid.
  { intros x Hx E. to_prop. exact (NoDup_map_inj_in rlw_id _ _ _ Hn1 Hx Hr E). }
  assert (db_ok (upd w.(w_db)) = true) as Hok'.
  { apply db_ok_windows; [exact Hok| |]; rewrite map_update_where; auto. }
  split; [exact Hok'|]. constructor; cbn; auto.
  - intros x (y & Hy & ->)%In_update_where. apply Hids in Hy. now destruct (_ =? _).
  - intros x (y & Hy & ->)%In_update_where. rewrite nhits_snoc. destruct (Hcount y Hy) as [H1 H2].
    destruct (rlw_id y =? rlw_id r) eqn:E; cbn.
    + apply Hid in E; [subst y | exact Hy]. rewrite Hs, Hst in *. fold k.
      rewrite String.eqb_refl, Z.eqb_refl. cbn. unfold budget in *. lia.
    + rewrite Z.add_comm. destruct (String.eqb s _ && _) eqn:E'; [|rewrite Z.add_0_l; auto].
      exfalso. apply andb_prop in E' as [E1 E2]. apply String.eqb_eq in E1. apply Z.eqb_eq in E2.
      apply Z.eqb_neq in E. apply E. f_equal.
      apply (NoDup_map_inj_in (fun w => (rlw_api_key_hash w, rlw_window_start w)) _ _ _ Hn2 Hy Hr).
      unfold k in Hst. congruence.
  - intros s' k'. rewrite nhits_snoc. fold k. intros Hpos.
    assert (exists y, In y w.(w_db).(rate_limit_windows) /\ window_row s' k' y = true) as (y & Hy & Hyk).
    { destruct (String.eqb s s' && (k =? k')) eqn:E; [|apply Hrows; lia].
      to_prop. subst. exists r. split; [auto|]. now apply window_row_true. }
    eexists. split; [apply update_where_In, Hy|]. now destruct (rlw_id y =? rlw_id r).
Qed.

(** Refusing a request leaves the table as it is. *)
Lemma limiter_refuse past w t s r :
  limiter_inv past w ->
  one_or_none (window_row s (window_epoch window_seconds t)) w.(w_db).(rate_limit_windows) = Ok (Some r) ->
  max_requests <= r.(rlw_request_count) ->
  budget max_requests <= nhits window_seconds past s (window_epoch window_seconds t) /\
  limiter_inv (past ++ [(t, s)]) (set_now t w).
Proof.
  intros [Ho Ht Hn Hok Hids Hcount Hrows] Hq Hle.
  apply one_or_none_Some in Hq as [Hr Hk]. apply window_row_true in Hk as [Hs Hst].
  destruct (Hcount r Hr) as [H1 H2]. rewrite Hs, Hst in *.
  assert (budget max_requests <= nhits window_seconds past s (window_epoch window_seconds t)) as Hb
    by (unfold budget in *; lia).
  split; [exact Hb|]. constructor; cbn; auto.
  - intros x Hx. destruct (Hcount x Hx) as [Hx1 Hx2]. rewrite nhits_snoc.
    destruct (String.eqb s _ && _) eqn:E; [|rewrite Z.add_0_r; auto].
    apply andb_prop in E as [E1 E2]. apply String.eqb_eq in E1. apply Z.eqb_eq in E2.
    rewrite <- E1, <- E2 in *. lia.
  - intros s' k'. rewrite nhits_snoc. intros Hpos.
    destruct (String.eqb s s' && _) eqn:E; [|apply Hrows; lia].
    to_prop. subst. exists r. split; [auto|]. now apply window_row_true.
Qed.

(** One call follows the abstract limiter and keeps the invariant. *)
Lemma consume_spec past w t s :
  limiter_inv past w ->
  exists n w',
    _consume s max_requests window_seconds (set_now t w) =
      (Ok (nhits window_seconds past s (window_epoch window_seconds t) <? budget max_requests, n), w')
    /\ limiter_inv (past ++ [(t, s)]) w'.
Proof.
  intros Hi. destruct (limiter_query past w s (window_epoch window_seconds t) Hi) as [o Hq].
  pose proof Hi as [Ho Ht Hn Hok _ Hcount _].
  unfold _consume. api_run. rewrite (proj2 (Z.eqb_neq _ _) Hwin). cbn.
  rewrite Ht. unfold id at 1. rewrite Hq. destruct o as [r|].
  - destruct (max_requests <=? rlw_request_count r) eqn:E; to_prop.
    + destruct (limiter_refuse past w t s r Hi Hq E) as [Hb Hi'].
      rewrite (proj2 (Z.ltb_ge _ _) Hb). eauto.
    + destruct (limiter_bump past w t s r Hi Hq E) as [Hok' Hi'].
      rewrite commit_alone by exact Ho. cbn. rewrite ?Ht, ?Hn.
      replace (db_ok _) with true by (symmetry; exact Hok').
      destruct (one_or_none_Some _ _ _ Hq) as [Hr [Hs Hst]%window_row_true].
      destruct (Hcount r Hr) as [H1 H2]. rewrite Hs, Hst in *.
      rewrite (proj2 (Z.ltb_lt _ _)) by (unfold budget in *; lia).
      do 2 eexists. split; [reflexivity|]. destruct w; cbn in *; subst; exact Hi'.
  - destruct (limiter_insert past w t s Hi Hq) as (Hok' & H0 & Hi').
    rewrite commit_alone by exact Ho. cbn. rewrite ?Ht, ?Hn.
      replace (db_ok _) with true by (symmetry; exact Hok').
    rewrite H0, (proj2 (Z.ltb_lt _ _)) by (unfold budget in *; lia).
    do 2 eexists. split; [reflexivity|]. destruct w; cbn in *; subst; exact Hi'.
Qed.

Lemma run_hits_spec l : forall past w,
  limiter_inv past w ->
  fst (run_hits max_requests window_seconds l w) = Ok (spec_hits max_requests window_seconds past l).
Proof.
  induction l as [|[t s] l IH]; intros past w Hi; [reflexivity|].
  destruct (consume_spec past w t s Hi) as (n & w' & Hc & Hi').
  cbn. mrun. rewrite Hc. cbn. rewrite nhits_earlier.
  assert (limiter_inv (past ++ [(t, s)]) (set_session id id w')) as Hi2.
  { destruct Hi'. destruct w'. cbn in *. subst. now constructor. }
  specialize (IH _ _ Hi2). destruct (run_hits _ _ l _) as [r w2]. cbn in IH. now subst r.
Qed.
End sequential.

(** C8: the limiter refines its specification: over any sequence of requests
    by any subjects at any instants, run one after the other (no other
    connection commits meanwhile) on a consistent database that holds no window
    row yet, with a window length other than zero (zero raises
    [ZeroDivisionError]), [_consume] serves a request exactly when fewer than
    [max(1, max_requests)] earlier requests of the same subject fell in the
    same window of [window_seconds] seconds; in particular it never fails. *)
Theorem consume_refines_fixed_window
    (max_requests window_seconds : Z) (d : Db) (seq t0 : Z) (l : list hit) :
  window_seconds <> 0 -> db_ok d = true -> d.(rate_limit_windows) = [] ->
  fst (run_hits max_requests window_seconds l (fresh_world d seq t0))
  = Ok (spec_hits max_requests window_seconds [] l).
Proof.
  intros Hwin Hok Hempty. apply run_hits_spec; [exact Hwin|].
  constructor; cbn; auto; rewrite ?Hempty; cbn; try tauto.
  intros s k H. unfold nhits in H. cbn in H. lia.
Qed.

Theorem consume_refines_fixed_window_witness :
  fst (run_hits 2 60
         [(0, "a"); (1000000, "a"); (2000000, "b"); (3000000, "a"); (60000000, "a")]
         (fresh_world empty_db 1 0)) = Ok [true; true; true; false; true].
Proof.
  rewrite (consume_refines_fixed_window 2 60 empty_db 1 0) by (lia || reflexivity).
  reflexivity.
Defined.

(** A refused caller is told to wait between one second and the window's
    length, and after that wait it is in a later window. *)
Theorem consume_retry_after (s : string) (max_requests window_seconds : Z) (w : World) (n : Z) (w' : World) :
  0 < window_seconds ->
  _consume s max_requests window_seconds w = (Ok (false, n), w') ->
  1 <= n <= window_seconds /\
  window_epoch window_seconds w.(w_now) + window_seconds
    <= window_epoch window_seconds (w.(w_now) + n * 1000000).
Proof.
  intros Hpos H. unfold _consume in H.
  apply bind_inv_Ok in H as (t & w1 & [= <- <-] & H).
  destruct (window_seconds =? 0) eqn:E0; [discriminate|].
  apply bind_inv_Ok in H as (o & w2 & _ & H).
  apply bind_inv_Ok in H as (row & w3 & _ & H).
  destruct row as [r|]; [|discriminate].
  destruct (max_requests <=? _).
  2:{ cbv [bind stage modify ret] in H. cbn in H. destruct (commit _) as [[[]|] ?]; discriminate. }
  injection H as Hn _. set (m := epoch_seconds (w_now w)) in *.
  assert (epoch_seconds (w_now w + n * 1000000) = m + n) as Em.
  { unfold epoch_seconds, m. apply Z.div_add. lia. }
  unfold window_epoch in *. rewrite Em. fold m in Hn |- *.
  pose proof (Z.div_mod m window_seconds) as Hm. pose proof (Z.mod_pos_bound m window_seconds Hpos) as Hb.
  set (q := m / window_seconds) in *.
  assert (n = window_seconds - m mod window_seconds) as -> by lia. split; [lia|].
  replace (m + (window_seconds - m mod window_seconds)) with ((q + 1) * window_seconds) by lia.
  rewrite Z.div_mul by lia. lia.
Qed.

Theorem consume_retry_after_witness :
  let w := set_now 61500000 (fresh_world (on_rate_limit_windows (fun _ => [mkWindow 1 "a" 60 5]) empty_db) 2 0) in
  1 <= 59 <= 60 /\ window_epoch 60 61500000 + 60 <= window_epoch 60 (61500000 + 59 * 1000000).
Proof.
  cbv zeta. eapply (consume_retry_after "a" 5 60
    (set_now 61500000 (fresh_world (on_rate_limit_windows (fun _ => [mkWindow 1 "a" 60 5]) empty_db) 2 0)));
    [lia | vm_compute; reflexivity].
Defined.

(** ** Two requests at once *)

(** What another connection's request commits when it runs on [d]. *)
Definition concurrent_consume (s : string) (max_requests window_seconds seq t : Z) (d : Db) : Db :=
  (snd (_consume s max_requests window_seconds (fresh_world d seq t))).(w_db).

Lemma consume_last_slot_alone s m n seq t d r :
  n <> 0 -> db_ok d = true -> In r d.(rate_limit_windows) ->
  window_row s (window_epoch n t) r = true -> r.(rlw_request_count) < m ->
  let upd := on_rate_limit_windows (update_where (fun x => x.(rlw_id) =? r.(rlw_id))
                                      (set_request_count (r.(rlw_request_count) + 1))) in
  one_or_none (window_row s (window_epoch n t)) d.(rate_limit_windows) = Ok (Some r) /\
  (forall d', db_ok d' = true -> db_ok (upd d') = true) /\
  _consume s m n (fresh_world d seq t) =
    (Ok (true, 0), set_db (upd d) (fresh_world d seq t)).
Proof.
  intros Hn Hok Hr Hk Hlt upd.
  assert (one_or_none (window_row s (window_epoch n t)) d.(rate_limit_windows) = Ok (Some r)) as Hq.
  { destruct (one_or_none_unique (fun w => (rlw_api_key_hash w, rlw_window_start w))
                (window_row s (window_epoch n t)) d.(rate_limit_windows)) as [[x|] E].
    - now apply db_ok_windows_NoDup.
    - intros x y _ _ [-> ->]%window_row_true [-> ->]%window_row_true. reflexivity.
    - rewrite E. do 2 f_equal. apply one_or_none_Some in E as [Hx Hkx].
      apply (NoDup_map_inj_in (fun w => (rlw_api_key_hash w, rlw_window_start w)) d.(rate_limit_windows));
        [now apply db_ok_windows_NoDup | auto | auto |].
      apply window_row_true in Hk as [-> ->]. now apply window_row_true in Hkx as [-> ->].
    - now rewrite (one_or_none_None _ _ _ E Hr) in Hk. }
  assert (forall d', db_ok d' = true -> db_ok (upd d') = true) as Hupd.
  { intros d' H. apply db_ok_windows; [exact H| |]; rewrite map_update_where;
      auto; now apply db_ok_windows_NoDup. }
  split; [exact Hq|]. split; [exact Hupd|].
  unfold _consume. api_run. rewrite (proj2 (Z.eqb_neq _ _) Hn). cbn. rewrite Hq.
  rewrite (proj2 (Z.leb_gt _ _) Hlt). rewrite commit_alone by reflexivity. cbn.
  replace (db_ok _) with true by (symmetry; now apply Hupd). reflexivity.
Qed.

(** The limiter's read-modify-write is not atomic: when one request of the
    budget is left and two requests of the subject overlap (the second reads
    the counter before the first commits), both are served, and the counter
    ends at the budget as if only one had been: every overlap lets one more
    request through. *)
Theorem consume_lost_update (s : string) (m n seq t : Z) (d : Db) (r : RateLimitWindow) :
  n <> 0 -> db_ok d = true -> In r d.(rate_limit_windows) ->
  window_row s (window_epoch n t) r = true -> r.(rlw_request_count) = m - 1 ->
  fst (_consume s m n (fresh_world d seq t)) = Ok (true, 0) /\
  let w := set_others [concurrent_consume s m n seq t] (fresh_world d seq t) in
  fst (_consume s m n w) = Ok (true, 0) /\
  forall x, In x (snd (_consume s m n w)).(w_db).(rate_limit_windows) ->
            x.(rlw_id) = r.(rlw_id) -> x.(rlw_request_count) = m.
Proof.
  intros Hn Hok Hr Hk Hc.
  destruct (consume_last_slot_alone s m n seq t d r Hn Hok Hr Hk) as (Hq & Hupd & Hone); [lia|].
  split; [now rewrite Hone|]. intros w.
  assert (_consume s m n w = (Ok (true, 0),
    set_db (on_rate_limit_windows (update_where (fun x => x.(rlw_id) =? r.(rlw_id))
              (set_request_count (r.(rlw_request_count) + 1)))
              (concurrent_consume s m n seq t d)) (fresh_world d seq t))) as ->.
  { unfold _consume, w. api_run. rewrite (proj2 (Z.eqb_neq _ _) Hn). cbn. rewrite Hq.
    rewrite (proj2 (Z.leb_gt _ _)) by lia. unfold commit. cbn.
    replace (db_ok _) with true; [reflexivity|]. symmetry. apply Hupd.
    unfold concurrent_consume. rewrite Hone. now apply Hupd. }
  split; [reflexivity|]. cbn. intros x (y & Hy & ->)%In_update_where.
  destruct (rlw_id y =? rlw_id r) eqn:E; cbn; [lia | now apply Z.eqb_neq in E].
Qed.

Theorem consume_lost_update_witness :
  let d := on_rate_limit_windows (fun _ => [mkWindow 1 "a" 60 4]) empty_db in
  fst (_consume "a" 5 60 (fresh_world d 2 61000000)) = Ok (true, 0) /\
  fst (_consume "a" 5 60 (set_others [concurrent_consume "a" 5 60 2 61000000]
                            (fresh_world d 2 61000000))) = Ok (true, 0).
Proof.
  cbv zeta. edestruct (consume_lost_update "a" 5 60 2 61000000
    (on_rate_limit_windows (fun _ => [mkWindow 1 "a" 60 4]) empty_db) (mkWindow 1 "a" 60 4))
    as (H1 & H2 & _); try (vm_compute; reflexivity || (now left) || discriminate).
  split; [exact H1 | exact H2].
Defined.
