(* ===== verification/Auth.v ===== *)
(** * Authentication and authorisation

    [trading/api/deps.py]: the two authentication lanes (a user's bearer token,
    the machine's API key), the principal they resolve to, the permission and
    ingestion guards, the rate-limit guards, and the order in which FastAPI
    runs them for a route. *)
From S2P Require Import Prelude PyStr PyFloat Json Config Permissions Schema Realtime ApiWorld.
From S2P Require Import DemoEnv Security RateLimit.
From Stdlib Require Import Ascii.

Definition SERVICE_ACTOR : string := "service:control-api-key".
Definition SERVICE_LABEL : string := "control-api-key (machine)".

Record Principal : Type := mkPrincipal {
  pr_kind : string;
  pr_permissions : gset Permission;
  pr_user_id : option Z;
  pr_username : option string;
  pr_role : option string;
  pr_label : string;
  pr_must_change_password : bool
}.

Definition actor (p : Principal) : string :=
  if String.eqb p.(pr_kind) "user"
  then "user:" +:+ match p.(pr_user_id) with Some n => str_of_Z n | None => "None" end
  else SERVICE_ACTOR.
Definition has (p : Principal) (perm : Permission) : bool := bool_decide (perm ∈ p.(pr_permissions)).

Definition client_ip (r : Request) : string :=
  let xff := default "" (header r "x-forwarded-for") in
  if truthy xff then strip (default "" (head (split ","%char xff)))
  else default "unknown" r.(req_client).

Section auth.
Context {env : Env}.

(** [int(claims["sub"])] *)
Definition claims_subject (claims : json) : result exn Z :=
  let malformed := HTTPException 401 "Malformed token subject" in
  match jlookup "sub" claims with
  | None => Err malformed
  | Some (JStr s) => match py_int s with Some n => Ok n | None => Err malformed end
  | Some (JInt n) => Ok n
  | Some (JBool b) => Ok (if b then 1 else 0)
  | Some (JFloat x) =>
      match f_trunc x with
      | Some n => Ok n
      | None => if f_is_nan x then Err malformed
                else Err (OtherError "OverflowError" "cannot convert float infinity to integer")
      end
  | Some _ => Err (OtherError "TypeError" "int() argument")
  end.

Definition _service_principal_from_key (presented : option string) : option Principal :=
  let expected := settings.(s_control_api_key) in
  match presented with
  | Some k =>
      if negb (truthy expected) || negb (truthy k) then None
      else if String.eqb k expected
           then Some (mkPrincipal "service" SERVICE_PERMISSIONS None None None SERVICE_LABEL false)
           else None
  | None => None
  end.

Definition user_principal (u : User) : Principal :=
  mkPrincipal "user" (permissions_for u.(usr_role) u.(usr_extra_permissions))
    (Some u.(usr_id)) (Some u.(usr_username)) (Some u.(usr_role)) u.(usr_username)
    u.(usr_must_change_password).

Definition _user_principal_from_bearer (authorization : option string) : Api (option Principal) :=
  match authorization with
  | None => ret None
  | Some a =>
      if negb (truthy a) || negb (startswith "bearer " (lower a)) then ret None
      else
        let token := strip (str_drop 7 a) in
        let! t := now in
        let! claims :=
          match decode_access_token token t with
          | Ok c => ret c
          | Err (TokenError msg) => raise (HTTPException 401 ("Invalid access token: " +:+ msg))
          | Err e => raise e
          end in
        let! user_id := lift (claims_subject claims) in
        let! user := one_or_none_q users (fun u => u.(usr_id) =? user_id) in
        match user with
        | Some u =>
            if u.(usr_is_active) then ret (Some (user_principal u))
            else raise (HTTPException 401 "User not found or deactivated")
        | None => raise (HTTPException 401 "User not found or deactivated")
        end
  end.

Definition get_principal (r : Request) : Api Principal :=
  let! u := _user_principal_from_bearer (header r "authorization") in
  match u with
  | Some p => ret p
  | None =>
      match _service_principal_from_key (header r "x-api-key") with
      | Some p => ret p
      | None => raise (HTTPErr 401 "Authentication required" [("WWW-Authenticate", "Bearer")])
      end
  end.

Definition PERMISSION_DENIED : string := "PERMISSION_DENIED".

Definition require_permission (perm : Permission) (r : Request) (p : Principal) : Api Principal :=
  if has p perm then ret p
  else
    audit_record (actor p) PERMISSION_DENIED (Some p.(pr_label))
      (Some (r.(req_method) +:+ " " +:+ r.(req_path))) "denied" (Some (client_ip r))
      (header r "user-agent")
      (JObj [("required", JStr (perm_value perm));
             ("held", JArr (map JStr (perm_values p.(pr_permissions))))]) ;;;
    raise (HTTPException 403 ("Requires the " +:+ perm_value perm +:+ " permission")).

Definition require_ingest (p : Principal) : Api Principal :=
  if String.eqb p.(pr_kind) "service" || has p TRADING_CONTROL then ret p
  else raise (HTTPException 403 "Telemetry ingestion is not permitted for this identity").

Definition get_current_user (p : Principal) : Api Principal :=
  if String.eqb p.(pr_kind) "user" then ret p
  else raise (HTTPException 403 "This endpoint requires a signed-in user").

(** ** Rate-limit guards *)
Definition _subject_hash (subject : string) : string := sha256_hex subject.

Definition enforce_rate_limit (p : Principal) : Api unit :=
  let m := settings.(s_rate_limit_max_requests) in
  let n := settings.(s_rate_limit_window_seconds) in
  let! r := _consume (_subject_hash (actor p)) m n in
  let '(allowed, retry_after) := r in
  when negb allowed do
    raise (HTTPErr 429 ("Rate limit exceeded: " +:+ str_of_Z m +:+ " requests per "
                        +:+ str_of_Z n +:+ "s") [("Retry-After", str_of_Z retry_after)]).

Definition enforce_login_rate_limit (username ip : string) : Api unit :=
  let subject_hash := _subject_hash ("login:" +:+ lower username +:+ ":" +:+ ip) in
  let! r := _consume subject_hash settings.(s_auth_login_max_attempts)
              settings.(s_auth_login_window_seconds) in
  let '(allowed, retry_after) := r in
  when negb allowed do
    raise (HTTPErr 429 "Too many failed sign-in attempts. Try again later."
             [("Retry-After", str_of_Z retry_after)]).

(** ** A route

    FastAPI resolves a router's dependencies before the handler's: the
    principal, then the rate limit where the router has one, then the
    handler's permission guard.  The session is closed at the end. *)
Definition request_session {A} (m : Api A) : Api A := fun w =>
  let '(r, w') := m w in (r, snd (close w')).

Definition limited_route {A} (guard : Request -> Principal -> Api Principal) (r : Request)
    (body : Principal -> Api A) : Api A :=
  request_session
    (let! p := get_principal r in
     enforce_rate_limit p ;;;
     let! p' := guard r p in
     body p').

(** A router without the rate limit ([/auth], [/admin]). *)
Definition plain_route {A} (guard : Request -> Principal -> Api Principal) (r : Request)
    (body : Principal -> Api A) : Api A :=
  request_session
    (let! p := get_principal r in
     let! p' := guard r p in
     body p').

(** ** Lemmas *)

(** Resolving the caller writes nothing. *)
Lemma get_principal_state r w : snd (get_principal r w) = w.
Proof.
  assert (forall w0, preserves (fun w' => w' = w0) (get_principal r)) as Hp; [|exact (Hp w w eq_refl)].
  intros w0. unfold get_principal, _user_principal_from_bearer, one_or_none_q, query, now.
  preserve.
Qed.

Section guards.
Context (I : Db -> Prop) (HA : forall f, keeps I (on_audit_log f))
  (HR : forall f, keeps I (on_rate_limit_windows f)).

Lemma db_inv_get_principal r : preserves (db_inv I) (get_principal r).
Proof. intros w Hw. now rewrite get_principal_state. Qed.
Lemma db_inv_enforce_rate_limit p : preserves (db_inv I) (enforce_rate_limit p).
Proof. unfold enforce_rate_limit. preserve. Qed.
Lemma db_inv_require_permission perm r p : preserves (db_inv I) (require_permission perm r p).
Proof. unfold require_permission. preserve. Qed.
Lemma db_inv_request_session {A} (m : Api A) :
  preserves (db_inv I) m -> preserves (db_inv I) (request_session m).
Proof.
  intros Hm w Hw. unfold request_session. specialize (Hm w Hw). destruct (m w) as [r w'].
  exact (db_inv_rollback I w' Hm).
Qed.
End guards.

Lemma silent_get_principal e r : preserves (silent e) (get_principal r).
Proof. intros w Hw. now rewrite get_principal_state. Qed.
Lemma silent_enforce_rate_limit e p : preserves (silent e) (enforce_rate_limit p).
Proof. unfold enforce_rate_limit. preserve. Qed.
Lemma silent_require_permission e perm r p : preserves (silent e) (require_permission perm r p).
Proof. unfold require_permission. preserve. Qed.
Lemma silent_request_session {A} e (m : Api A) :
  preserves (silent e) m -> preserves (silent e) (request_session m).
Proof.
  intros Hm w Hw. unfold request_session. specialize (Hm w Hw). now destruct (m w) as [r w'].
Qed.

Lemma require_permission_Ok perm r p w q w' :
  require_permission perm r p w = (Ok q, w') -> q = p /\ has p perm = true /\ w' = w.
Proof.
  unfold require_permission. destruct (has p perm); [now intros [= -> ->]|].
  intros H. apply bind_inv_Ok in H as (? & ? & _ & [=]).
Qed.

Lemma service_principal_spec k p :
  _service_principal_from_key k = Some p ->
  p = mkPrincipal "service" SERVICE_PERMISSIONS None None None SERVICE_LABEL false
  /\ k = Some settings.(s_control_api_key) /\ settings.(s_control_api_key) <> "".
Proof.
  unfold _service_principal_from_key. destruct k as [k|]; [|discriminate].
  destruct (negb _ || _) eqn:E; [discriminate|].
  apply orb_false_elim in E as [E1%negb_false_iff%truthy_spec _].
  destruct (String.eqb_spec k (s_control_api_key settings)) as [->|]; [|discriminate].
  now intros [= <-].
Qed.

End auth.

#[export] Hint Resolve db_inv_get_principal db_inv_enforce_rate_limit db_inv_require_permission
  db_inv_request_session silent_get_principal silent_enforce_rate_limit silent_require_permission
  silent_request_session : preserves.

(** ** Properties *)

(** Every table but the audit log and the rate-limit windows. *)
Definition control_state (d : Db) : Db :=
  on_audit_log (fun _ => []) (on_rate_limit_windows (fun _ => []) d).

(** A caller without the permission a route requires changes nothing: [pre]
    stands for what a router checks between the principal and the guard. *)
Lemma route_denied {env : Env} {A} (perm : Permission) (pre : Principal -> Api unit) (r : Request)
    (body : Principal -> Api A) (w : World) (s : Db) :
  (forall p, fst (get_principal r w) = Ok p -> has p perm = false) ->
  (forall e p, preserves (silent e) (pre p)) ->
  (forall p, preserves (db_inv (fun d => control_state d = s)) (pre p)) ->
  db_inv (fun d => control_state d = s) w ->
  let route body := request_session (let! p := get_principal r in
    pre p ;;; let! p' := require_permission perm r p in body p') in
  let '(res, w') := route body w in
  is_ok res = false /\ effects w' = effects w /\ db_inv (fun d => control_state d = s) w'.
Proof.
  intros Hp Hs Hd Hinv route.
  assert (forall p w1 w2, get_principal r w = (Ok p, w1) ->
    is_ok (fst ((let! p' := require_permission perm r p in body p') w2)) = false /\
    (let! p' := require_permission perm r p in body p') w2 =
    (let! p' := require_permission perm r p in raise (A := A) IntegrityError) w2) as Hstop.
  { intros p w1 w2 E. unfold bind. destruct (require_permission _ _ _ w2) as [[q|e] w3] eqn:E'; [|auto].
    apply require_permission_Ok in E' as (_ & Hhas & _). rewrite (Hp p) in Hhas; [discriminate|].
    now rewrite E. }
  assert (is_ok (fst (route body w)) = false /\ route body w = route (fun _ => raise IntegrityError) w) as [Hf Heq].
  { unfold route, request_session.
    destruct (get_principal r w) as [[p|e] w1] eqn:E; [|rewrite !(bind_Err _ _ _ _ _ E); auto].
    rewrite !(bind_Ok _ _ _ _ _ E). destruct (pre p w1) as [[[]|e] w2] eqn:E'.
    - rewrite !(bind_Ok _ _ _ _ _ E'). destruct (Hstop p w1 w2 eq_refl) as [H1 H2].
      rewrite <- H2. split; [|reflexivity]. now destruct (bind _ _ w2) as [res w3].
    - rewrite !(bind_Err _ _ _ _ _ E'). auto. }
  rewrite Heq in *. destruct (route _ w) as [res w'] eqn:E. cbn in Hf.
  split; [exact Hf|]. apply (f_equal snd) in E. cbn in E. subst w'. split.
  - assert (preserves (silent (effects w)) (route (fun _ => raise IntegrityError))) as H; [|now apply H].
    unfold route. apply silent_request_session. preserve.
  - set (I := fun d => control_state d = s) in *.
    assert (forall f, keeps I (on_audit_log f)) as HA by (intros f d Hf'; exact Hf').
    assert (preserves (db_inv I) (route (fun _ => raise IntegrityError))) as H; [|exact (H w Hinv)].
    unfold route. apply db_inv_request_session. preserve.
Qed.

Lemma limited_route_denied {env : Env} {A} (perm : Permission) (r : Request)
    (body : Principal -> Api A) (w : World) :
  (forall p, fst (get_principal r w) = Ok p -> has p perm = false) ->
  forall s, db_inv (fun d => control_state d = s) w ->
  let '(res, w') := limited_route (require_permission perm) r body w in
  is_ok res = false /\ effects w' = effects w /\ db_inv (fun d => control_state d = s) w'.
Proof.
  intros Hp s Hinv. apply (route_denied perm enforce_rate_limit r body w s Hp); [..|exact Hinv].
  - auto with preserves.
  - intros p. apply db_inv_enforce_rate_limit. now intros f d Hd.
Qed.

Lemma plain_route_denied {env : Env} {A} (perm : Permission) (r : Request)
    (body : Principal -> Api A) (w : World) :
  (forall p, fst (get_principal r w) = Ok p -> has p perm = false) ->
  forall s, db_inv (fun d => control_state d = s) w ->
  let '(res, w') := plain_route (require_permission perm) r body w in
  is_ok res = false /\ effects w' = effects w /\ db_inv (fun d => control_state d = s) w'.
Proof.
  intros Hp s Hinv. apply (route_denied perm (fun _ => ret tt) r body w s Hp); [..|exact Hinv];
    intros; apply preserves_ret.
Qed.

(** The request carries no bearer token: no [Authorization] header, an empty
    one, or one of another scheme. *)
Definition no_bearer (r : Request) : Prop :=
  match header r "authorization" with
  | None => True
  | Some a => a = "" \/ startswith "bearer " (lower a) = false
  end.

Lemma get_principal_no_bearer {env : Env} r w p w' :
  no_bearer r -> get_principal r w = (Ok p, w') ->
  p = mkPrincipal "service" SERVICE_PERMISSIONS None None None SERVICE_LABEL false /\ w' = w.
Proof.
  intros Hh. assert (_user_principal_from_bearer (header r "authorization") w = (Ok None, w)) as E.
  { unfold no_bearer in Hh. destruct (header r "authorization") as [a|]; [|reflexivity].
    unfold _user_principal_from_bearer. destruct Hh as [-> | ->]; [reflexivity|].
    now rewrite orb_true_r. }
  unfold get_principal, bind. rewrite E.
  destruct (_service_principal_from_key _) as [q|] eqn:Eq; [|discriminate].
  intros [= <- <-]. now apply service_principal_spec in Eq as [-> _].
Qed.

Lemma service_key_lacks {env : Env} perm r w p :
  no_bearer r -> perm <> VIEW ->
  fst (get_principal r w) = Ok p -> has p perm = false.
Proof.
  intros Hh Hperm E. destruct (get_principal r w) as [res w1] eqn:Eg. cbn in E. subst res.
  apply get_principal_no_bearer in Eg as [-> _]; [|exact Hh].
  destruct perm; [congruence | vm_compute; reflexivity..].
Qed.

(** C3: the machine's API key controls nothing: a request without a bearer
    token (no [Authorization] header, an empty one or one of another scheme) to
    a route that requires any permission other than [VIEW], of a router with
    the rate limit ([/algo], [/market], ...) or without ([/admin]), fails
    whatever key it presents and whatever the handler is, makes no Lambda call,
    publishes no event, sends no alert, and leaves every table but the audit
    log and the rate-limit windows as it was (given that no other connection
    changes them meanwhile). *)
Theorem service_key_cannot_control {env : Env} {A} (limited : bool) (perm : Permission) (r : Request)
    (body : Principal -> Api A) (w : World) :
  no_bearer r -> perm <> VIEW ->
  db_inv (fun d => control_state d = control_state w.(w_db)) w ->
  let route := if limited then limited_route (A := A) else plain_route in
  let '(res, w') := route (require_permission perm) r body w in
  is_ok res = false /\ effects w' = effects w /\
  control_state w'.(w_db) = control_state w.(w_db).
Proof.
  intros Hh Hperm Hinv route. pose proof (fun p => service_key_lacks perm r w p Hh Hperm) as Hp.
  assert (let '(res, w') := route (require_permission perm) r body w in
    is_ok res = false /\ effects w' = effects w /\
    db_inv (fun d => control_state d = control_state w.(w_db)) w') as H.
  { unfold route. destruct limited; [now apply limited_route_denied | now apply plain_route_denied]. }
  destruct (route _ _ _ w) as [res w']. destruct H as (H1 & H2 & H3). now destruct H3.
Qed.

Theorem service_key_cannot_control_witness :
  let env := demo_env (fun _ _ => Ok JNull) in
  let r := mkRequest "DELETE" "/api/admin/users/1" [("authorization", "Basic x"); ("x-api-key", "key")] [] None in
  let w := fresh_world empty_db 1 5000000 in
  let '(res, w') := plain_route (A := unit) (require_permission ADMIN) r (fun _ => ret tt) w in
  is_ok res = false /\ effects w' = effects w /\ control_state w'.(w_db) = control_state w.(w_db).
Proof.
  cbv zeta. apply (service_key_cannot_control (env := demo_env (fun _ _ => Ok JNull)) false);
    [now right | discriminate | now apply db_inv_fresh].
Defined.

(** An access token resolves to its user until it expires: presented from
    the instant it was issued and before its expiry second, it authenticates
    the active user it was issued for, with the permissions of that user's
    current role and grants (not those written in the token). *)
Theorem access_token_resolves {env : Env} (u : User) (perms : list string)
    (w w1 w2 : World) (tok : string) (ttl : Z) (r : Request) :
  jwt_law ->
  create_access_token u.(usr_id) u.(usr_username) u.(usr_role) perms w = (Ok (tok, ttl), w1) ->
  epoch_seconds w.(w_now) <= epoch_seconds w2.(w_now) < epoch_seconds (w.(w_now) + ttl * 1000000) ->
  header r "authorization" = Some ("Bearer " +:+ tok) ->
  forall u', one_or_none (fun v => v.(usr_id) =? u.(usr_id)) (view w2).(users) = Ok (Some u') ->
  u'.(usr_is_active) = true ->
  get_principal r w2 = (Ok (user_principal u'), w2).
Proof.
  intros Hlaw Hc Ht Hh u' Hu Ha. unfold create_access_token in Hc.
  apply bind_inv_Ok in Hc as (t & w3 & [= <- <-] & Hc).
  apply bind_inv_Ok in Hc as (jti & w4 & _ & Hc).
  apply bind_inv_Ok in Hc as (key & w5 & [= Hkey _] & Hc).
  injection Hc as <- <- _.
  set (payload := JObj _) in *.
  destruct (Hlaw payload key (epoch_seconds w2.(w_now)) _ _ eq_refl eq_refl Ht) as [Hd Hs].
  unfold get_principal. rewrite Hh. unfold _user_principal_from_bearer.
  change (truthy ("Bearer " +:+ jwt_encode payload key)) with true.
  assert (forall s, startswith "bearer " (lower ("Bearer " +:+ s)) = true) as -> by now intros [].
  cbn [negb orb].
  assert (str_drop 7 ("Bearer " +:+ jwt_encode payload key) = jwt_encode payload key) as ->
    by apply unchars_chars.
  rewrite Hs. unfold decode_access_token. rewrite Hkey.
  api_run. fold (epoch_seconds w2.(w_now)). rewrite Hd. cbn.
  rewrite py_int_str_of_Z. cbn. unfold view in Hu. rewrite Hu. cbn. rewrite Ha. reflexivity.
Qed.

Theorem access_token_resolves_witness :
  let env := demo_env (fun _ _ => Ok JNull) in
  let u := mkUser 7 "ann" None "h" "trader" None true false None in
  let w := fresh_world (on_users (fun _ => [u]) empty_db) 8 1000000 in
  match create_access_token 7 "ann" "viewer" [] w with
  | (Ok (tok, _), _) =>
      get_principal (mkRequest "GET" "/" [("authorization", "Bearer " +:+ tok)] [] None)
        (set_now 2000000 w) = (Ok (user_principal u), set_now 2000000 w)
  | (Err _, _) => False
  end.
Proof.
  cbv zeta. set (w := fresh_world _ 8 1000000).
  destruct (create_access_token _ _ _ _ w) as [[[tok ttl]|e] w1] eqn:E.
  - assert (ttl = 900) as Httl.
    { apply (f_equal (fun r => match fst r with Ok (_, n) => n | Err _ => 0 end)) in E.
      vm_compute in E. congruence. }
    apply (access_token_resolves (env := demo_env (fun _ _ => Ok JNull))
            (mkUser 7 "ann" None "h" "viewer" None true false None) [] w w1 (set_now 2000000 w) tok ttl _
            (demo_jwt_law _) E); subst ttl; try reflexivity.
    vm_compute. split; [discriminate | reflexivity].
  - apply (f_equal (fun r => is_ok (fst r))) in E. vm_compute in E. discriminate.
Defined.
