(* ===== verification/AuthRoutes.v ===== *)
(** * Sign-in, token refresh, sign-out and password change

    [trading/api/auth_routes.py].  A handler returns what it answers together
    with the cookies it sets (name, value; an empty value deletes). *)
From S2P Require Import Prelude PyStr PyFloat Json Config Permissions Schema Realtime ApiWorld.
From S2P Require Import DemoEnv Security RateLimit Auth.

Definition REFRESH_COOKIE : string := "cas_refresh".
Definition CSRF_COOKIE : string := "cas_csrf".

Record UserOut : Type := mkUserOut {
  uo_id : Z;
  uo_username : string;
  uo_email : option string;
  uo_role : string;
  uo_permissions : list string;
  uo_must_change_password : bool
}.
Record TokenOut : Type := mkTokenOut {
  to_access_token : string;
  to_token_type : string;
  to_expires_in : Z;
  to_user : UserOut
}.
Abbreviation cookies := (list (string * string)) (only parsing).

(** Assignments to a loaded row. *)
Definition set_last_login (t : timestamp) (u : User) : User :=
  mkUser u.(usr_id) u.(usr_username) u.(usr_email) u.(usr_password_hash) u.(usr_role)
    u.(usr_extra_permissions) u.(usr_is_active) u.(usr_must_change_password) (Some t).
Definition set_password (h : string) (must_change : bool) (u : User) : User :=
  mkUser u.(usr_id) u.(usr_username) u.(usr_email) h u.(usr_role)
    u.(usr_extra_permissions) u.(usr_is_active) must_change u.(usr_last_login_at).
Definition set_revoked (t : timestamp) (s : AuthSession) : AuthSession :=
  mkAuthSession s.(ses_id) s.(ses_user_id) s.(ses_token_hash) s.(ses_csrf_token) s.(ses_expires_at)
    (Some t) s.(ses_rotated_to) s.(ses_ip) s.(ses_user_agent).
Definition set_rotated (t : timestamp) (to : Z) (s : AuthSession) : AuthSession :=
  mkAuthSession s.(ses_id) s.(ses_user_id) s.(ses_token_hash) s.(ses_csrf_token) s.(ses_expires_at)
    (Some t) (Some to) s.(ses_ip) s.(ses_user_agent).

(** The sessions of a user that are not revoked. *)
Definition live_session_of (uid : Z) (s : AuthSession) : bool :=
  (s.(ses_user_id) =? uid) && negb (bool_decide (is_Some s.(ses_revoked_at))).

Section auth_routes.
Context {env : Env}.

Definition _user_out (u : User) : UserOut :=
  mkUserOut u.(usr_id) u.(usr_username) u.(usr_email) u.(usr_role)
    (perm_values (permissions_for u.(usr_role) u.(usr_extra_permissions)))
    u.(usr_must_change_password).

Definition _set_auth_cookies (refresh_raw csrf : string) : cookies :=
  [(REFRESH_COOKIE, refresh_raw); (CSRF_COOKIE, csrf)].
Definition _clear_auth_cookies : cookies := [(REFRESH_COOKIE, ""); (CSRF_COOKIE, "")].

Definition _issue_session (u : User) (r : Request) : Api (string * string * AuthSession) :=
  let! refresh_raw := new_refresh_token in
  let! csrf := new_csrf_token in
  let! exp := refresh_expiry in
  let! i := fresh_id in
  let row := mkAuthSession i u.(usr_id) (hash_refresh_token refresh_raw) csrf exp None None
               (Some (client_ip r)) (clip_user_agent (header r "user-agent")) in
  stage (on_auth_sessions (fun l => l ++ [row])) ;;;
  flush ;;;
  ret (refresh_raw, csrf, row).

Definition _active_session (refresh_raw : string) : Api (option AuthSession) :=
  let! row := one_or_none_q auth_sessions
                (fun s => String.eqb s.(ses_token_hash) (hash_refresh_token refresh_raw)) in
  match row with
  | None => ret None
  | Some s =>
      if bool_decide (is_Some s.(ses_revoked_at)) then ret None
      else
        let! t := now in
        if s.(ses_expires_at) <=? t then ret None else ret (Some s)
  end.

(** The answer of a successful sign-in or refresh. *)
Definition token_out (u : User) : Api TokenOut :=
  let perms := perm_values (permissions_for u.(usr_role) u.(usr_extra_permissions)) in
  let! a := create_access_token u.(usr_id) u.(usr_username) u.(usr_role) perms in
  ret (mkTokenOut (fst a) "bearer" (snd a) (_user_out u)).

Definition user_ref (u : User) : string := "user:" +:+ str_of_Z u.(usr_id).

Definition login (username password : string) (r : Request) : Api (TokenOut * cookies) :=
  let ip := client_ip r in
  let ua := header r "user-agent" in
  enforce_login_rate_limit username ip ;;;
  let! user := one_or_none_q users (fun u => String.eqb u.(usr_username) username) in
  let denied :=
    audit_record (match user with Some u => user_ref u | None => "anonymous" end)
      "AUTH_LOGIN_FAILED" (Some username) None "denied" (Some ip) ua
      (JObj [("reason", JStr (match user with Some _ => "bad_credentials" | None => "unknown_user" end))]) ;;;
    raise (HTTPException 401 "Invalid username or password") in
  match user with
  | None => denied
  | Some u =>
      if negb (u.(usr_is_active) && verify_password password u.(usr_password_hash)) then denied
      else
        let! s := _issue_session u r in
        let '(refresh_raw, csrf, _) := s in
        let! t := now in
        stage (on_users (update_where (fun v => v.(usr_id) =? u.(usr_id)) (set_last_login t))) ;;;
        commit ;;;
        let! out := token_out u in
        audit_record (user_ref u) "AUTH_LOGIN" (Some u.(usr_username)) None "success" (Some ip) ua JNull ;;;
        ret (out, _set_auth_cookies refresh_raw csrf)
  end.

Definition refresh_deny {A} (r : Request) (reason : string) : Api A :=
  audit_record "anonymous" "AUTH_REFRESH_DENIED" None None "denied" (Some (client_ip r))
    (header r "user-agent") (JObj [("reason", JStr reason)]) ;;;
  raise (HTTPException 401 "Could not refresh session").

Definition rotate_session (session : AuthSession) (u : User) (r : Request) : Api (TokenOut * cookies) :=
  let! s := _issue_session u r in
  let '(new_raw, new_csrf, new_row) := s in
  let! t := now in
  stage (on_auth_sessions (update_where (fun x => x.(ses_id) =? session.(ses_id))
                             (set_rotated t new_row.(ses_id)))) ;;;
  commit ;;;
  let! out := token_out u in
  audit_record (user_ref u) "AUTH_REFRESH" (Some u.(usr_username)) None "success"
    (Some (client_ip r)) (header r "user-agent") JNull ;;;
  ret (out, _set_auth_cookies new_raw new_csrf).

Definition refresh (x_csrf_token : option string) (r : Request) : Api (TokenOut * cookies) :=
  match cookie r REFRESH_COOKIE with
  | None => refresh_deny r "no_cookie"
  | Some refresh_raw =>
      if negb (truthy refresh_raw) then refresh_deny r "no_cookie"
      else if negb (opt_truthy x_csrf_token) || negb (opt_truthy (cookie r CSRF_COOKIE))
              || negb (bool_decide (x_csrf_token = cookie r CSRF_COOKIE))
      then refresh_deny r "csrf_mismatch"
      else
        let! session := _active_session refresh_raw in
        match session with
        | None => refresh_deny r "invalid_session"
        | Some s =>
            if negb (bool_decide (Some s.(ses_csrf_token) = x_csrf_token))
            then refresh_deny r "invalid_session"
            else
              let! user := one_or_none_q users (fun u => u.(usr_id) =? s.(ses_user_id)) in
              match user with
              | None => refresh_deny r "user_inactive"
              | Some u =>
                  if negb u.(usr_is_active) then refresh_deny r "user_inactive"
                  else rotate_session s u r
              end
        end
  end.

Definition logout (x_csrf_token : option string) (r : Request) : Api cookies :=
  let csrf_cookie := cookie r CSRF_COOKIE in
  (match cookie r REFRESH_COOKIE with
   | None => ret tt
   | Some refresh_raw =>
       when truthy refresh_raw && opt_truthy x_csrf_token && opt_truthy csrf_cookie
            && bool_decide (x_csrf_token = csrf_cookie) do
         (let! session := _active_session refresh_raw in
          match session with
          | None => ret tt
          | Some s =>
              when bool_decide (Some s.(ses_csrf_token) = x_csrf_token) do
                (let! t := now in
                 stage (on_auth_sessions (update_where (fun x => x.(ses_id) =? s.(ses_id)) (set_revoked t))) ;;;
                 commit ;;;
                 audit_record ("user:" +:+ str_of_Z s.(ses_user_id)) "AUTH_LOGOUT" None None "success"
                   (Some (client_ip r)) (header r "user-agent") JNull)
          end)
   end) ;;;
  ret _clear_auth_cookies.

Definition me (p : Principal) : Api UserOut :=
  let! row := one_q users (fun u => bool_decide (Some u.(usr_id) = p.(pr_user_id))) in
  ret (_user_out row).

(** The bulk [UPDATE] that revokes a user's open sessions. *)
Definition _revoke_sessions (uid : Z) : Api unit :=
  let! t := now in
  execute (on_auth_sessions (update_where (live_session_of uid) (set_revoked t))).

Definition change_password (current_password new_password : string) (r : Request) (p : Principal) : Api unit :=
  let! row := one_q users (fun u => bool_decide (Some u.(usr_id) = p.(pr_user_id))) in
  if negb (verify_password current_password row.(usr_password_hash)) then
    raise (HTTPException 400 "Current password is incorrect")
  else match validate_password_strength new_password with
  | Err (WeakPasswordError msg) => raise (HTTPException 422 msg)
  | Err e => raise e
  | Ok _ =>
      if verify_password new_password row.(usr_password_hash) then
        raise (HTTPException 422 "New password must differ from the current one")
      else
        let! h := hash_password new_password in
        stage (on_users (update_where (fun u => u.(usr_id) =? row.(usr_id)) (set_password h false))) ;;;
        _revoke_sessions row.(usr_id) ;;;
        commit ;;;
        audit_record (user_ref row) "AUTH_PASSWORD_CHANGED" (Some row.(usr_username)) None "success"
          (Some (client_ip r)) (header r "user-agent") JNull
  end.
End auth_routes.
