(* ===== verification/AdminRoutes.v ===== *)
(** * User administration

    [trading/api/admin_routes.py]: creating, updating, resetting and
    deactivating users, the guard that keeps an active administrator, and the
    audit-log query. *)
From S2P Require Import Prelude PyStr PyFloat Json Config Permissions Schema Realtime ApiWorld.
From S2P Require Import DemoEnv Security RateLimit Auth AuthRoutes.

Record UserAdminOut : Type := mkUserAdminOut {
  ua_id : Z;
  ua_username : string;
  ua_email : option string;
  ua_role : string;
  ua_extra_permissions : list string;
  ua_effective_permissions : list string;
  ua_is_active : bool;
  ua_must_change_password : bool;
  ua_last_login_at : option timestamp
}.

Record CreateUserIn : Type := mkCreateUserIn {
  cu_username : string;
  cu_password : string;
  cu_role : string;
  cu_email : option string;
  cu_extra_permissions : option (list string)
}.

Record UpdateUserIn : Type := mkUpdateUserIn {
  uu_role : option string;
  uu_is_active : option bool;
  uu_email : option string;
  uu_extra_permissions : option (list string)
}.

Definition set_role (x : string) (u : User) : User :=
  mkUser u.(usr_id) u.(usr_username) u.(usr_email) u.(usr_password_hash) x
    u.(usr_extra_permissions) u.(usr_is_active) u.(usr_must_change_password) u.(usr_last_login_at).
Definition set_active (x : bool) (u : User) : User :=
  mkUser u.(usr_id) u.(usr_username) u.(usr_email) u.(usr_password_hash) u.(usr_role)
    u.(usr_extra_permissions) x u.(usr_must_change_password) u.(usr_last_login_at).
Definition set_email (x : option string) (u : User) : User :=
  mkUser u.(usr_id) u.(usr_username) x u.(usr_password_hash) u.(usr_role)
    u.(usr_extra_permissions) u.(usr_is_active) u.(usr_must_change_password) u.(usr_last_login_at).
Definition set_extra (x : option (list string)) (u : User) : User :=
  mkUser u.(usr_id) u.(usr_username) u.(usr_email) u.(usr_password_hash) u.(usr_role)
    x u.(usr_is_active) u.(usr_must_change_password) u.(usr_last_login_at).

Definition _out (u : User) : UserAdminOut :=
  mkUserAdminOut u.(usr_id) u.(usr_username) u.(usr_email) u.(usr_role)
    (default [] u.(usr_extra_permissions))
    (perm_values (permissions_for u.(usr_role) u.(usr_extra_permissions)))
    u.(usr_is_active) u.(usr_must_change_password) u.(usr_last_login_at).

(** [extra or None] *)
Definition list_or_none {A} (l : list A) : option (list A) :=
  match l with [] => None | _ => Some l end.

Definition active_admin (u : User) : bool := String.eqb u.(usr_role) "admin" && u.(usr_is_active).

Section admin_routes.
Context {env : Env}.

Definition _validate_role (role : string) : Api unit :=
  if str_in role VALID_ROLES then ret tt
  else raise (HTTPException 422 "role must be one of ['viewer', 'trader', 'operator', 'admin']").

Definition _active_admin_count (exclude_id : Z) : Api Z :=
  query (fun d => Z.of_nat (List.length (List.filter
    (fun u => active_admin u && negb (u.(usr_id) =? exclude_id)) d.(users)))).

Definition list_users : Api (list UserAdminOut) :=
  query (fun d => map _out
    (sort_by (fun u v => String.leb u.(usr_username) v.(usr_username)) d.(users))).

Definition create_user (b : CreateUserIn) (r : Request) (admin : Principal) : Api UserAdminOut :=
  _validate_role b.(cu_role) ;;;
  let! extra :=
    match validate_password_strength b.(cu_password) with
    | Err (WeakPasswordError msg) => raise (HTTPException 422 msg)
    | Err e => raise e
    | Ok _ =>
        match normalize_extra_permissions b.(cu_extra_permissions) with
        | Err (ValueError msg) => raise (HTTPException 422 msg)
        | Err e => raise e
        | Ok extra => ret extra
        end
    end in
  let! h := hash_password b.(cu_password) in
  let! i := fresh_id in
  let user := mkUser i b.(cu_username) b.(cu_email) h b.(cu_role) (list_or_none extra) true true None in
  stage (on_users (fun l => l ++ [user])) ;;;
  try_except commit
    (fun e => match e with
              | IntegrityError =>
                  rollback ;;; raise (HTTPException 409 ("Username already taken: " +:+ b.(cu_username)))
              | _ => raise e
              end) ;;;
  audit_record (actor admin) "USER_CREATED" (Some admin.(pr_label)) (Some (user_ref user)) "success"
    (Some (client_ip r)) (header r "user-agent")
    (JObj [("username", JStr user.(usr_username)); ("role", JStr user.(usr_role));
           ("extra_permissions", JArr (map JStr extra))]) ;;;
  ret (_out user).

Definition stage_user (uid : Z) (f : User -> User) : Api unit :=
  stage (on_users (update_where (fun u => u.(usr_id) =? uid) f)).

(** The first guarded step of [update_user]: a role change. *)
Definition update_role (role : option string) (user : User) : Api (User * list (string * json)) :=
  match role with
  | None => ret (user, [])
  | Some new_role =>
      if String.eqb new_role user.(usr_role) then ret (user, [])
      else
        _validate_role new_role ;;;
        let! n := _active_admin_count user.(usr_id) in
        if String.eqb user.(usr_role) "admin" && negb (String.eqb new_role "admin") && (n =? 0)
        then raise (HTTPException 409 "Cannot demote the last active admin")
        else
          stage_user user.(usr_id) (set_role new_role) ;;;
          ret (set_role new_role user,
               [("role", JObj [("from", JStr user.(usr_role)); ("to", JStr new_role)])])
  end.

(** The second: activation or deactivation. *)
Definition update_active (is_active : option bool) (admin : Principal) (user : User)
  : Api (User * list (string * json)) :=
  match is_active with
  | None => ret (user, [])
  | Some b =>
      if Bool.eqb b user.(usr_is_active) then ret (user, [])
      else
        (if b then ret tt
         else if bool_decide (Some user.(usr_id) = admin.(pr_user_id))
         then raise (HTTPException 409 "You cannot deactivate your own account")
         else
           let! n := _active_admin_count user.(usr_id) in
           if String.eqb user.(usr_role) "admin" && (n =? 0)
           then raise (HTTPException 409 "Cannot deactivate the last active admin")
           else _revoke_sessions user.(usr_id)) ;;;
        stage_user user.(usr_id) (set_active b) ;;;
        ret (set_active b user, [("is_active", JBool b)])
  end.

Definition update_email (email : option string) (user : User) : Api (User * list (string * json)) :=
  match email with
  | None => ret (user, [])
  | Some e =>
      let e' := if truthy e then Some e else None in
      stage_user user.(usr_id) (set_email e') ;;;
      ret (set_email e' user, [("email", jopt_str e')])
  end.

Definition update_extra (extra : option (list string)) (user : User) : Api (User * list (string * json)) :=
  match extra with
  | None => ret (user, [])
  | Some _ =>
      match normalize_extra_permissions extra with
      | Err (ValueError msg) => raise (HTTPException 422 msg)
      | Err e => raise e
      | Ok x =>
          stage_user user.(usr_id) (set_extra (list_or_none x)) ;;;
          ret (set_extra (list_or_none x) user, [("extra_permissions", JArr (map JStr x))])
      end
  end.

Definition update_user (user_id : Z) (b : UpdateUserIn) (r : Request) (admin : Principal)
  : Api UserAdminOut :=
  let! user := one_or_none_q users (fun u => u.(usr_id) =? user_id) in
  match user with
  | None => raise (HTTPException 404 "Unknown user")
  | Some u0 =>
      let! s1 := update_role b.(uu_role) u0 in
      let! s2 := update_active b.(uu_is_active) admin (fst s1) in
      let! s3 := update_email b.(uu_email) (fst s2) in
      let! s4 := update_extra b.(uu_extra_permissions) (fst s3) in
      let user := fst s4 in
      let changes := snd s1 ++ snd s2 ++ snd s3 ++ snd s4 in
      commit ;;;
      audit_record (actor admin)
        (match assoc "is_active" changes with
         | Some (JBool false) => "USER_DEACTIVATED"
         | _ => "USER_UPDATED"
         end) (Some admin.(pr_label)) (Some (user_ref user)) "success"
        (Some (client_ip r)) (header r "user-agent") (JObj changes) ;;;
      ret (_out user)
  end.

Definition reset_password (user_id : Z) (new_password : string) (r : Request) (admin : Principal)
  : Api unit :=
  let! user := one_or_none_q users (fun u => u.(usr_id) =? user_id) in
  match user with
  | None => raise (HTTPException 404 "Unknown user")
  | Some u =>
      match validate_password_strength new_password with
      | Err (WeakPasswordError msg) => raise (HTTPException 422 msg)
      | Err e => raise e
      | Ok _ =>
          let! h := hash_password new_password in
          stage_user u.(usr_id) (set_password h true) ;;;
          _revoke_sessions u.(usr_id) ;;;
          commit ;;;
          audit_record (actor admin) "USER_PASSWORD_RESET" (Some admin.(pr_label)) (Some (user_ref u))
            "success" (Some (client_ip r)) (header r "user-agent") JNull
      end
  end.

Definition deactivate_user (user_id : Z) (r : Request) (admin : Principal) : Api unit :=
  let! user := one_or_none_q users (fun u => u.(usr_id) =? user_id) in
  match user with
  | None => raise (HTTPException 404 "Unknown user")
  | Some u =>
      if bool_decide (Some u.(usr_id) = admin.(pr_user_id))
      then raise (HTTPException 409 "You cannot deactivate your own account")
      else
        let! n := _active_admin_count u.(usr_id) in
        if String.eqb u.(usr_role) "admin" && (n =? 0)
        then raise (HTTPException 409 "Cannot deactivate the last active admin")
        else
          stage_user u.(usr_id) (set_active false) ;;;
          _revoke_sessions u.(usr_id) ;;;
          commit ;;;
          audit_record (actor admin) "USER_DEACTIVATED" (Some admin.(pr_label)) (Some (user_ref u))
            "success" (Some (client_ip r)) (header r "user-agent") JNull
  end.

(** [GET /audit]: an empty filter text is no filter, newest first, at most
    [min(max(limit, 1), 1000)] rows. *)
Definition read_audit (f_actor f_action f_outcome : option string) (since : option timestamp)
    (limit : Z) : Api (list AuditLog) :=
  let matches (o : option string) (s : string) :=
    negb (opt_truthy o) || bool_decide (o = Some s) in
  query (fun d =>
    take (Z.to_nat (Z.min (Z.max limit 1) 1000))
      (sort_by (fun a b => b.(aud_timestamp) <=? a.(aud_timestamp))
        (List.filter (fun a => matches f_actor a.(aud_actor) && matches f_action a.(aud_action)
                       && matches f_outcome a.(aud_outcome)
                       && match since with None => true | Some t => t <=? a.(aud_timestamp) end)
           d.(audit_log)))).
End admin_routes.
