(* ===== verification/AuthSafety.v ===== *)
(** * Safety of the identity store

    The requests of [auth_routes.py] and [admin_routes.py] as one transition
    system over the database, and two of its invariants: a revoked refresh
    token stays revoked, and an active administrator remains. *)
From S2P Require Import Prelude PyStr PyFloat Json Config Permissions Schema Realtime ApiWorld.
From S2P Require Import DemoEnv Security RateLimit Auth AuthRoutes AdminRoutes.

(** ** The requests *)
Inductive auth_op : Type :=
| OpLogin (username password : string) (r : Request)
| OpRefresh (x_csrf_token : option string) (r : Request)
| OpLogout (x_csrf_token : option string) (r : Request)
| OpChangePassword (current new : string) (r : Request) (p : Principal)
| OpCreateUser (b : CreateUserIn) (r : Request) (admin : Principal)
| OpUpdateUser (user_id : Z) (b : UpdateUserIn) (r : Request) (admin : Principal)
| OpResetPassword (user_id : Z) (new : string) (r : Request) (admin : Principal)
| OpDeactivateUser (user_id : Z) (r : Request) (admin : Principal).

Section ops.
Context {env : Env}.

Definition discard {A} (m : Api A) : Api unit := m ;;; ret tt.

Definition run_op (o : auth_op) : Api unit :=
  match o with
  | OpLogin u p r => discard (login u p r)
  | OpRefresh x r => discard (refresh x r)
  | OpLogout x r => discard (logout x r)
  | OpChangePassword c n r p => change_password c n r p
  | OpCreateUser b r a => discard (create_user b r a)
  | OpUpdateUser i b r a => discard (update_user i b r a)
  | OpResetPassword i n r a => reset_password i n r a
  | OpDeactivateUser i r a => deactivate_user i r a
  end.

(** One request: it arrives at [t] on a new session, the other connections
    commit [others] meanwhile, and whatever it answers its session closes. *)
Definition serve (t : timestamp) (others : list (Db -> Db)) (o : auth_op) : Api unit :=
  modify (fun w => set_session id id (set_others others (set_now t w))) ;;;
  try_except (request_session (run_op o)) (fun _ => ret tt).

Definition serve_all (l : list (timestamp * list (Db -> Db) * auth_op)) : Api unit :=
  for_each l (fun x => serve (fst (fst x)) (snd (fst x)) (snd x)).

(** ** Every request leaves a consistent database *)
Lemma world_ok_session {A} (m : Api A) : preserves world_ok m -> preserves world_ok (request_session m).
Proof.
  intros Hm w Hw. unfold request_session. specialize (Hm w Hw). destruct (m w) as [r w'].
  exact (world_ok_rollback w' Hm).
Qed.

Lemma world_ok_issue u r : preserves world_ok (_issue_session u r).
Proof. unfold _issue_session, new_refresh_token, new_csrf_token, refresh_expiry. preserve. Qed.
Lemma world_ok_token_out u : preserves world_ok (token_out u).
Proof. unfold token_out, create_access_token. preserve. Qed.
Lemma world_ok_active_session x : preserves world_ok (_active_session x).
Proof. unfold _active_session. preserve. Qed.
Lemma world_ok_revoke i : preserves world_ok (_revoke_sessions i).
Proof. unfold _revoke_sessions. preserve. Qed.
Lemma world_ok_hash p : preserves world_ok (hash_password p).
Proof. unfold hash_password. preserve. Qed.
#[local] Hint Resolve world_ok_issue world_ok_token_out world_ok_active_session world_ok_revoke
  world_ok_hash : preserves.

Lemma world_ok_run_op o : preserves world_ok (run_op o).
Proof.
  destruct o; cbn; unfold discard.
  - unfold login, enforce_login_rate_limit. preserve.
  - unfold refresh, refresh_deny, rotate_session. preserve.
  - unfold logout. preserve.
  - unfold change_password. preserve.
  - unfold create_user, _validate_role. preserve.
  - unfold update_user, update_role, update_active, update_email, update_extra, stage_user,
      _validate_role, _active_admin_count. preserve.
  - unfold reset_password, stage_user. preserve.
  - unfold deactivate_user, stage_user, _active_admin_count. preserve.
Qed.

(** ** Changes the requests stage *)
Section staged.
Context (I : Db -> Prop).

(** [I] survives what every request but an administrator's role or activity
    change stages. *)
Record auth_stable : Prop := {
  as_audit : forall f, keeps I (on_audit_log f);
  as_windows : forall f, keeps I (on_rate_limit_windows f);
  as_session : forall s, s.(ses_revoked_at) = None -> keeps I (on_auth_sessions (fun l => l ++ [s]));
  as_rotate : forall p t i, keeps I (on_auth_sessions (update_where p (set_rotated t i)));
  as_revoke : forall p t, keeps I (on_auth_sessions (update_where p (set_revoked t)));
  as_login : forall p t, keeps I (on_users (update_where p (set_last_login t)));
  as_password : forall p h b, keeps I (on_users (update_where p (set_password h b)));
  as_user : forall u, keeps I (on_users (fun l => l ++ [u]))
}.
Context (HI : auth_stable).

Lemma db_inv_issue u r : preserves (db_inv I) (_issue_session u r).
Proof.
  unfold _issue_session, new_refresh_token, new_csrf_token, refresh_expiry. preserve.
  now apply db_inv_stage, as_session.
Qed.
Lemma db_inv_token_out u : preserves (db_inv I) (token_out u).
Proof. unfold token_out, create_access_token. preserve. Qed.
Lemma db_inv_active_session x : preserves (db_inv I) (_active_session x).
Proof. unfold _active_session. preserve. Qed.
Lemma db_inv_revoke i : preserves (db_inv I) (_revoke_sessions i).
Proof. unfold _revoke_sessions. preserve. apply db_inv_execute, as_revoke, HI. Qed.
Lemma db_inv_hash p : preserves (db_inv I) (hash_password p).
Proof. unfold hash_password. preserve. Qed.
Lemma db_inv_audit' a1 a2 a3 a4 a5 a6 a7 a8 :
  preserves (db_inv I) (audit_record a1 a2 a3 a4 a5 a6 a7 a8).
Proof. apply db_inv_audit, as_audit, HI. Qed.
#[local] Hint Resolve db_inv_issue db_inv_token_out db_inv_active_session db_inv_revoke
  db_inv_hash db_inv_audit' : preserves.

(** Requests that do not change a user's role or activity. *)
Definition plain_op (o : auth_op) : bool :=
  match o with OpUpdateUser _ _ _ _ | OpDeactivateUser _ _ _ => false | _ => true end.

Lemma db_inv_plain_op o : plain_op o = true -> preserves (db_inv I) (run_op o).
Proof.
  destruct HI as [H1 H2 H3 H4 H5 H6 H7 H8].
  intros Hp. destruct o; try discriminate Hp; cbn; unfold discard.
  - unfold login, enforce_login_rate_limit. preserve.
  - unfold refresh, refresh_deny, rotate_session. preserve.
  - unfold logout. preserve.
  - unfold change_password. preserve.
  - unfold create_user, _validate_role. preserve.
  - unfold reset_password, stage_user. preserve.
Qed.

Lemma db_inv_run_op o :
  (forall f, keeps I (on_users f)) -> preserves (db_inv I) (run_op o).
Proof.
  intros Hu. destruct (plain_op o) eqn:Hp; [now apply db_inv_plain_op|].
  destruct o; try discriminate Hp; cbn; unfold discard.
  - unfold update_user, update_role, update_active, update_email, update_extra, stage_user,
      _validate_role, _active_admin_count. preserve.
  - unfold deactivate_user, stage_user, _active_admin_count. preserve.
Qed.
End staged.

(** ** Revoked tokens *)
Definition token_revoked (h : string) (d : Db) : Prop :=
  exists s, In s d.(auth_sessions) /\ s.(ses_token_hash) = h /\ is_Some s.(ses_revoked_at).

Lemma token_revoked_map h f :
  (forall s, s.(ses_token_hash) = (f s).(ses_token_hash) /\ is_Some (f s).(ses_revoked_at)) ->
  forall p, keeps (token_revoked h) (on_auth_sessions (update_where p f)).
Proof.
  intros Hf p d (s & Hs & Hh & Hr). exists (if p s then f s else s).
  split; [now apply update_where_In|]. destruct (Hf s) as [H1 H2].
  destruct (p s); [rewrite <- H1|]; auto.
Qed.

Lemma token_revoked_stable h : auth_stable (token_revoked h).
Proof.
  constructor; intros; try (intros d Hd; exact Hd).
  - intros d (x & Hx & Hh & Hr). exists x. split; [apply in_app_iff; now left | auto].
  - apply token_revoked_map. intros x. split; [reflexivity | eauto].
  - apply token_revoked_map. intros x. split; [reflexivity | eauto].
Qed.

Lemma token_revoked_users h f : keeps (token_revoked h) (on_users f).
Proof. now intros d Hd. Qed.

(** A revoked token finds no active session. *)
Lemma revoked_no_session raw w :
  db_ok (view w) = true -> token_revoked (hash_refresh_token raw) (view w) ->
  _active_session raw w = (Ok None, w).
Proof.
  intros Hok (s & Hs & Hh & Hr). unfold _active_session. api_run. fold (view w).
  destruct (one_or_none _ _) as [[x|]|e] eqn:E.
  - assert (x = s) as ->.
    { apply one_or_none_Some in E as [Hx Ex]. to_prop.
      apply (NoDup_map_inj_in ses_token_hash (view w).(auth_sessions)); auto; [|congruence].
      unfold db_ok, uniques_ok in Hok. rewrite !andb_true_iff, !unique_on_NoDup in Hok. tauto. }
    now rewrite bool_decide_eq_true_2.
  - reflexivity.
  - exfalso. unfold one_or_none in E. 
    pose proof (filter_NoDup_le1 ses_token_hash
      (fun s => String.eqb s.(ses_token_hash) (hash_refresh_token raw)) (view w).(auth_sessions)) as Hle.
    destruct (List.filter _ _) as [|a [|b l]]; try discriminate. cbn in Hle.
    enough (2 <= 1)%nat by lia. etransitivity; [|apply Hle]; [cbn; lia| |].
    + unfold db_ok, uniques_ok in Hok. rewrite !andb_true_iff, !unique_on_NoDup in Hok. tauto.
    + intros u v _ _ Hu Hv. to_prop. congruence.
Qed.

Lemma refresh_deny_Err {A} r reason w :
  fst (refresh_deny (A := A) r reason w) = Err (HTTPException 401 "Could not refresh session").
Proof.
  unfold refresh_deny, bind. 
  pose proof (audit_record_ok "anonymous" "AUTH_REFRESH_DENIED" None None "denied" (Some (client_ip r))
    (header r "user-agent") (JObj [("reason", JStr reason)]) w) as H.
  destruct (audit_record _ _ _ _ _ _ _ _ w) as [res w']. cbn in H. now subst res.
Qed.

Lemma refresh_revoked raw x r w :
  db_ok (view w) = true -> token_revoked (hash_refresh_token raw) (view w) ->
  cookie r REFRESH_COOKIE = Some raw ->
  fst (refresh x r w) = Err (HTTPException 401 "Could not refresh session").
Proof.
  intros Hok Hrev Hc. unfold refresh. rewrite Hc.
  destruct (negb (truthy raw)); [apply refresh_deny_Err|].
  destruct (_ || _); [apply refresh_deny_Err|].
  rewrite (bind_Ok _ _ w None w); [apply refresh_deny_Err | now apply revoked_no_session].
Qed.

(** A history in which the other connections respect the constraints and do
    not bring the token back. *)
Definition benign (h : string) (l : list (timestamp * list (Db -> Db) * auth_op)) : Prop :=
  Forall (fun x => Forall (fun o => keeps (fun d => db_ok d = true) o /\ keeps (token_revoked h) o)
                     (snd (fst x))) l.

Lemma serve_keeps_revoked h t others o w :
  Forall (fun f => keeps (fun d => db_ok d = true) f /\ keeps (token_revoked h) f) others ->
  db_ok w.(w_db) = true -> token_revoked h w.(w_db) ->
  db_ok (snd (serve t others o w)).(w_db) = true /\ token_revoked h (snd (serve t others o w)).(w_db).
Proof.
  intros Ho Hok Hrev. unfold serve, try_except. mrun.
  set (w1 := set_session _ _ _).
  assert (world_ok w1) as H1.
  { split; [exact Hok|]. cbn. eapply Forall_impl; [exact Ho|]. cbn. intros f [Hf _]. exact Hf. }
  assert (db_inv (token_revoked h) w1) as H2.
  { constructor; cbn; auto using keeps_id. eapply Forall_impl; [exact Ho|]. cbn. intros f [_ Hf]. exact Hf. }
  pose proof (world_ok_session _ (world_ok_run_op o) w1 H1) as [H3 _].
  pose proof (db_inv_request_session _ _
    (db_inv_run_op _ (token_revoked_stable h) o (token_revoked_users h)) w1 H2) as [H4 _ _ _].
  destruct (request_session (run_op o) w1) as [[[]|e] w2]; auto.
Qed.

Lemma serve_all_keeps_revoked h l : forall w,
  benign h l -> db_ok w.(w_db) = true -> token_revoked h w.(w_db) ->
  db_ok (snd (serve_all l w)).(w_db) = true /\ token_revoked h (snd (serve_all l w)).(w_db).
Proof.
  induction l as [|[[t others] o] l IH]; intros w Hb Hok Hrev; [auto|].
  inversion Hb as [|? ? Ho Hb']; subst.
  destruct (serve_keeps_revoked h t others o w Ho Hok Hrev) as [H1 H2].
  unfold serve_all. cbn. fold (serve_all l). unfold bind.
  assert (fst (serve t others o w) = Ok tt) as He.
  { unfold serve, try_except. mrun. now destruct (request_session _ _) as [[[]|] ?]. }
  destruct (serve t others o w) as [res w1]. cbn in *. subst res. now apply IH.
Qed.

(** Once a token is revoked, no later request refreshes with it. *)
Lemma revoked_forever raw l w x r t :
  benign (hash_refresh_token raw) l ->
  db_ok w.(w_db) = true -> token_revoked (hash_refresh_token raw) w.(w_db) ->
  cookie r REFRESH_COOKIE = Some raw ->
  fst (refresh x r (set_session id id (set_now t (snd (serve_all l w)))))
  = Err (HTTPException 401 "Could not refresh session").
Proof.
  intros Hb Hok Hrev Hc.
  destruct (serve_all_keeps_revoked _ l w Hb Hok Hrev). now apply (refresh_revoked raw).
Qed.

(** ** What a successful request revokes *)

Lemma active_session_Ok raw w o w' :
  _active_session raw w = (Ok o, w') ->
  w' = w /\ forall s, o = Some s ->
    In s (view w).(auth_sessions) /\ s.(ses_token_hash) = hash_refresh_token raw /\
    s.(ses_revoked_at) = None /\ w.(w_now) < s.(ses_expires_at).
Proof.
  unfold _active_session. api_run. fold (view w).
  destruct (one_or_none _ _) as [[s|]|e] eqn:E; try discriminate.
  - apply one_or_none_Some in E as [Hin Hh]. to_prop. case_bool_decide as Hr.
    + intros [= <- <-]. split; [reflexivity | discriminate].
    + destruct (ses_expires_at s <=? w_now w) eqn:Ht; intros [= <- <-]; (split; [reflexivity|]);
        [discriminate|]. intros s' [= <-]. to_prop. repeat split; auto.
      now apply eq_None_not_Some.
  - intros [= <- <-]. split; [reflexivity | discriminate].
Qed.

(** The token's session row: the session [i] of user [u] has the hash [h]. *)
Definition token_row (h : string) (i u : Z) (d : Db) : Prop :=
  exists s, In s d.(auth_sessions) /\ s.(ses_token_hash) = h /\ s.(ses_id) = i /\ s.(ses_user_id) = u.

(** A commit of another connection that respects the constraints, keeps the
    token's session row and does not bring a revoked token back. *)
Definition respects (h : string) (f : Db -> Db) : Prop :=
  keeps (fun d => db_ok d = true) f /\ keeps (token_revoked h) f /\
  forall i u, keeps (token_row h i u) f.

(** A request that has just opened its session, the other connections
    committing what they like as long as it respects the token. *)
Record opened (h : string) (w : World) : Prop := {
  op_tx : w.(w_tx) = id;
  op_new : w.(w_new) = id;
  op_others : Forall (respects h) w.(w_others)
}.

Lemma opened_world_ok h w : opened h w -> db_ok w.(w_db) = true -> world_ok w.
Proof.
  intros [_ _ Ho] Hok. split; [exact Hok|]. eapply Forall_impl; [exact Ho|]. now intros f [Hf _].
Qed.

(** What is pending revokes the token at the next commit, whatever the other
    connections commit before it. *)
Definition will_revoke (h : string) (i u : Z) (w : World) : Prop :=
  forall d, token_row h i u d -> token_revoked h (w.(w_new) (w.(w_tx) d)).

Lemma commit_revokes h i u w w' :
  token_row h i u w.(w_db) -> Forall (respects h) w.(w_others) -> will_revoke h i u w ->
  commit w = (Ok tt, w') -> db_inv (token_revoked h) w'.
Proof.
  intros Hrow Ho Hw. unfold commit. destruct w.(w_others) as [|f l].
  - destruct (db_ok _); [intros [= <-] | discriminate]. constructor; cbn; auto using keeps_id.
  - inversion Ho as [|? ? [_ [Hf Hr]] Hl]; subst.
    destruct (db_ok _); [intros [= <-] | discriminate]. constructor; cbn; auto using keeps_id.
    + apply Hw, Hr, Hrow.
    + eapply Forall_impl; [exact Hl|]. now intros g (_ & Hg & _).
Qed.

(** Revoking every live session of [u] revokes the token, and so does
    rotating the session [i]. *)
Lemma update_revokes h i u p f d :
  (forall s, s.(ses_id) = i -> s.(ses_user_id) = u -> p s = true \/ is_Some s.(ses_revoked_at)) ->
  (forall s, (f s).(ses_token_hash) = s.(ses_token_hash) /\ is_Some (f s).(ses_revoked_at)) ->
  token_row h i u d -> token_revoked h (on_auth_sessions (update_where p f) d).
Proof.
  intros Hp Hf (s & Hs & Hh & Hi & Hu). apply (update_where_In p f) in Hs.
  exists (if p s then f s else s). split; [exact Hs|]. destruct (Hf s) as [F1 F2].
  destruct (Hp s Hi Hu) as [-> | Hr]; [split; [congruence | exact F2]|].
  destruct (p s); split; congruence || assumption.
Qed.

Lemma live_session_revokes h i u t d :
  token_row h i u d ->
  token_revoked h (on_auth_sessions (update_where (live_session_of u) (set_revoked t)) d).
Proof.
  apply update_revokes.
  - intros s _ Hu. unfold live_session_of. rewrite Hu, Z.eqb_refl. cbn.
    destruct (ses_revoked_at s) as [x|] eqn:E; [right; eauto | left; reflexivity].
  - intros s. split; [reflexivity | cbn; eauto].
Qed.

(** Only user rows changed between two states of a request. *)
Record only_users (w0 w : World) : Prop := {
  ou_db : w.(w_db) = w0.(w_db);
  ou_others : w.(w_others) = w0.(w_others);
  ou_tx : w.(w_tx) = w0.(w_tx);
  ou_new : forall d, (w.(w_new) d).(auth_sessions) = (w0.(w_new) d).(auth_sessions)
}.

Lemma only_users_refl w : only_users w w.
Proof. now constructor. Qed.
Lemma only_users_query {A} w0 (f : Db -> A) : preserves (only_users w0) (query f).
Proof. apply preserves_gets. Qed.
Lemma only_users_stage_user w0 i f : preserves (only_users w0) (stage_user i f).
Proof. apply preserves_modify. intros w []. now constructor. Qed.
#[local] Hint Resolve only_users_query only_users_stage_user : preserves.

Lemma only_users_role w0 x u : preserves (only_users w0) (update_role x u).
Proof. unfold update_role, _validate_role, _active_admin_count. preserve. Qed.
Lemma only_users_email w0 x u : preserves (only_users w0) (update_email x u).
Proof. unfold update_email. preserve. Qed.
Lemma only_users_extra w0 x u : preserves (only_users w0) (update_extra x u).
Proof. unfold update_extra. preserve. Qed.

Lemma only_users_will_revoke h i u w w' : only_users w w' -> will_revoke h i u w -> will_revoke h i u w'.
Proof.
  intros [_ _ Et En] Hw d Hd. destruct (Hw d Hd) as (s & Hs & Hr). exists s. split; [|exact Hr].
  now rewrite Et, En.
Qed.

Lemma issue_Ok u r w a w' :
  w.(w_tx) = id -> w.(w_new) = id -> _issue_session u r w = (Ok a, w') ->
  w'.(w_db) = w.(w_db) /\ w'.(w_others) = w.(w_others) /\ w'.(w_new) = id /\
  exists row, forall d, w'.(w_tx) d = on_auth_sessions (fun l => l ++ [row]) d.
Proof.
  intros Ht Hn H. unfold _issue_session in H.
  apply bind_inv_Ok in H as (raw & w1 & H1 & H). apply bind_inv_Ok in H as (csrf & w2 & H2 & H).
  apply bind_inv_Ok in H as (exp & w3 & H3 & H). apply bind_inv_Ok in H as (i & w4 & H4 & H).
  apply bind_inv_Ok in H as ([] & w5 & H5 & H). apply bind_inv_Ok in H as ([] & w6 & H6 & H).
  injection H as _ <-. apply flush_Ok in H6 as ->.
  injection H1 as _ <-. injection H2 as _ <-. injection H3 as _ <-. injection H4 as _ <-.
  injection H5 as <-. cbn. rewrite Hn, Ht. repeat split; auto. eexists. intros d. reflexivity.
Qed.

Lemma rotate_revokes h s u r w out w' :
  opened h w -> In s w.(w_db).(auth_sessions) -> s.(ses_token_hash) = h ->
  rotate_session s u r w = (Ok out, w') -> db_inv (token_revoked h) w'.
Proof.
  intros [Ht Hn Ho] Hin Hh H. unfold rotate_session in H.
  apply bind_inv_Ok in H as ([[nraw ncsrf] row] & w1 & H1 & H).
  apply issue_Ok in H1 as (E1 & E2 & E3 & row' & E4); [|assumption..].
  apply bind_inv_Ok in H as (t & w2 & H2 & H). injection H2 as _ <-.
  apply bind_inv_Ok in H as ([] & w3 & H3 & H). injection H3 as <-.
  apply bind_inv_Ok in H as ([] & w4 & H4 & H).
  apply (commit_revokes h s.(ses_id) s.(ses_user_id)) in H4; cbn; rewrite ?E1, ?E2; auto.
  - pose proof (token_revoked_stable h) as Hs. pose proof (as_audit _ Hs).
    pose proof (db_inv_token_out (token_revoked h) u).
    match type of H with ?m w4 = _ => assert (preserves (db_inv (token_revoked h)) m) as Hp by preserve end.
    specialize (Hp _ H4). now rewrite H in Hp.
  - now exists s.
  - intros d Hd. cbn. rewrite E3, E4. unfold id. apply (update_revokes h s.(ses_id) s.(ses_user_id)).
    + intros x Hx _. left. now apply Z.eqb_eq.
    + intros x. split; [reflexivity | eauto].
    + destruct Hd as (x & Hx & Hr). exists x. split; [apply in_app_iff; now left | exact Hr].
Qed.

Lemma refresh_Ok_revokes x r w out w' raw :
  opened (hash_refresh_token raw) w -> cookie r REFRESH_COOKIE = Some raw ->
  refresh x r w = (Ok out, w') -> token_revoked (hash_refresh_token raw) w'.(w_db).
Proof.
  intros Hw Hc H. unfold refresh in H. rewrite Hc in H.
  assert (forall reason (w : World) (out : TokenOut * list (string * string)) w',
    refresh_deny r reason w <> (Ok out, w')) as Hd.
  { intros reason w1 o1 w1' E. apply (f_equal fst) in E. now rewrite refresh_deny_Err in E. }
  destruct (negb _); [now apply Hd in H|]. destruct (_ || _); [now apply Hd in H|].
  apply bind_inv_Ok in H as (o & w1 & H1 & H). apply active_session_Ok in H1 as [-> Hs].
  destruct o as [s|]; [|now apply Hd in H]. specialize (Hs s eq_refl) as (Hin & Hh & _ & _).
  destruct (negb _); [now apply Hd in H|].
  apply bind_inv_Ok in H as (o & w1 & H1 & H). apply one_or_none_q_Ok in H1 as [-> _].
  destruct o as [u|]; [|now apply Hd in H]. destruct (negb _); [now apply Hd in H|].
  unfold view in Hin. rewrite (op_tx _ _ Hw) in Hin. eapply rotate_revokes; eauto.
Qed.

(** The tail shared by the requests that revoke a user's sessions. *)
Lemma commit_tail h i u a1 a2 a3 a4 a5 a6 a7 a8 w w' :
  token_row h i u w.(w_db) -> Forall (respects h) w.(w_others) -> will_revoke h i u w ->
  (commit ;;; audit_record a1 a2 a3 a4 a5 a6 a7 a8) w = (Ok tt, w') ->
  token_revoked h w'.(w_db).
Proof.
  intros Hrow Ho Hw H. apply bind_inv_Ok in H as ([] & w1 & H1 & H).
  apply (commit_revokes h i u) in H1; [|assumption..].
  refine (audit_record_keeps _ _ _ _ _ _ _ _ _ _ _ _ _ H1 H). apply as_audit, token_revoked_stable.
Qed.

Lemma revoke_tail h i g uid a1 a2 a3 a4 a5 a6 a7 a8 w w' :
  opened h w -> token_row h i uid w.(w_db) ->
  (stage (on_users g) ;;; _revoke_sessions uid ;;; commit ;;;
   audit_record a1 a2 a3 a4 a5 a6 a7 a8) w = (Ok tt, w') ->
  token_revoked h w'.(w_db).
Proof.
  intros [Ht Hn Ho] Hrow H.
  apply bind_inv_Ok in H as ([] & w1 & H1 & H). injection H1 as <-.
  apply bind_inv_Ok in H as ([] & w2 & H2 & H). unfold _revoke_sessions in H2.
  apply bind_inv_Ok in H2 as (t & w3 & H3 & H2). injection H3 as <- <-. injection H2 as <-.
  revert H. apply (commit_tail h i uid); [exact Hrow | exact Ho|].
  intros d Hd. cbn. rewrite Ht, Hn. now apply (live_session_revokes h i uid (w_now w)) in Hd.
Qed.

(** A deactivation through [PATCH /users/{id}]: the role, e-mail and
    permission changes of the same request touch user rows only. *)
Lemma update_active_false admin u w x w' :
  u.(usr_is_active) = true -> update_active (Some false) admin u w = (Ok x, w') ->
  exists t w1, only_users w1 w' /\
    w1 = set_session (fun d => on_auth_sessions (update_where (live_session_of u.(usr_id)) (set_revoked t))
                                 (w.(w_tx) d)) w.(w_new) w.
Proof.
  intros Ha H. unfold update_active in H. rewrite Ha in H. cbn [Bool.eqb] in H.
  apply bind_inv_Ok in H as ([] & w2 & H2 & H). destruct (bool_decide _); [discriminate|].
  apply bind_inv_Ok in H2 as (n & w3 & H3 & H2). injection H3 as _ <-.
  destruct (_ && _); [discriminate|]. unfold _revoke_sessions in H2.
  apply bind_inv_Ok in H2 as (t & w3 & H3 & H2). injection H3 as <- <-. injection H2 as <-.
  eexists _, _. split; [|reflexivity].
  apply bind_inv_Ok in H as ([] & w4 & H4 & H). injection H as _ <-.
  pose proof (only_users_stage_user _ u.(usr_id) (set_active false) _ (only_users_refl
    (set_session (fun d => on_auth_sessions (update_where (live_session_of u.(usr_id))
       (set_revoked (w_now w))) (w.(w_tx) d)) w.(w_new) w))) as Hp.
  unfold execute, modify in *. cbn in H4, Hp |- *. injection H4 as <-. exact Hp.
Qed.

Lemma update_role_same x u w y w' :
  update_role x u w = (Ok y, w') ->
  (fst y).(usr_id) = u.(usr_id) /\ (fst y).(usr_is_active) = u.(usr_is_active).
Proof.
  unfold update_role. destruct x as [role|]; [|intros [= <- _]; auto].
  destruct (String.eqb role _); [intros [= <- _]; auto|]. intros H.
  apply bind_inv_Ok in H as ([] & w1 & _ & H). apply bind_inv_Ok in H as (n & w2 & _ & H).
  destruct (_ && _); [discriminate|]. apply bind_inv_Ok in H as ([] & w3 & _ & H).
  now injection H as <- _.
Qed.

Lemma preserves_Ok {A} (I : World -> Prop) (m : Api A) w a w' :
  preserves I m -> I w -> m w = (Ok a, w') -> I w'.
Proof. intros Hm Hw H. specialize (Hm w Hw). now rewrite H in Hm. Qed.

Lemma update_user_revokes h i b r admin w out w' uid u :
  opened h w -> token_row h i uid w.(w_db) ->
  one_or_none (fun u => u.(usr_id) =? uid) w.(w_db).(users) = Ok (Some u) ->
  b.(uu_is_active) = Some false -> u.(usr_is_active) = true ->
  update_user uid b r admin w = (Ok out, w') -> token_revoked h w'.(w_db).
Proof.
  intros Hw Hrow Eu Hb Ha H. destruct Hw as [Ht Hn Ho]. unfold update_user in H.
  apply bind_inv_Ok in H as (o & w0 & H0 & H). apply one_or_none_q_Ok in H0 as [-> E].
  unfold view in E. rewrite Ht in E. unfold id in E. rewrite Eu in E. injection E as <-.
  apply one_or_none_Some in Eu as [_ Eu]. to_prop. rewrite Hb in H.
  apply bind_inv_Ok in H as (s1 & w1 & H1 & H).
  pose proof (update_role_same _ _ _ _ _ H1) as [Ei Ea].
  apply (preserves_Ok _ _ _ _ _ (only_users_role w _ _) (only_users_refl w)) in H1.
  apply bind_inv_Ok in H as (s2 & w2 & H2 & H).
  apply update_active_false in H2 as (t & w2' & H2 & E2); [|congruence]. rewrite Ei, Eu in E2.
  apply bind_inv_Ok in H as (s3 & w3 & H3 & H). apply (preserves_Ok _ _ _ _ _ (only_users_email w2' _ _) H2) in H3.
  apply bind_inv_Ok in H as (s4 & w4 & H4 & H). apply (preserves_Ok _ _ _ _ _ (only_users_extra w2' _ _) H3) in H4.
  apply bind_inv_Ok in H as ([] & w5 & H5 & H). apply bind_inv_Ok in H as ([] & w6 & H6 & H).
  injection H as _ <-. 
  assert (token_row h i uid w4.(w_db) /\ Forall (respects h) w4.(w_others)) as [Hr4 Ho4].
  { destruct H1 as [D1 O1 _ _], H4 as [D4 O4 _ _]. rewrite D4, O4, E2. cbn. now rewrite D1, O1. }
  refine (commit_tail h i uid _ _ _ _ _ _ _ _ w4 w6 Hr4 Ho4 _ _);
    [|unfold bind; rewrite H5; exact H6].
  apply (only_users_will_revoke _ _ _ _ _ H4). intros d Hd. rewrite E2. cbn.
  destruct H1 as [_ _ T1 N1]. rewrite T1, Ht. unfold id.
  apply (live_session_revokes h i uid t) in Hd as (s & Hs & Hr). exists s. split; [|exact Hr].
  now rewrite N1, Hn.
Qed.

(** The user whose sessions a request revokes, if it succeeds: a password
    change, an administrator's reset, and a deactivation, be it by
    [DELETE /users/{id}] or by a [PATCH] that clears [is_active] of an active
    user. *)
Definition revoked_user (o : auth_op) (d : Db) : option Z :=
  match o with
  | OpChangePassword _ _ _ p => p.(pr_user_id)
  | OpResetPassword i _ _ _ | OpDeactivateUser i _ _ => Some i
  | OpUpdateUser i b _ _ =>
      if bool_decide (b.(uu_is_active) = Some false)
         && existsb (fun u => (u.(usr_id) =? i) && u.(usr_is_active)) d.(users)
      then Some i else None
  | _ => None
  end.

Lemma active_user_row i d :
  db_ok d = true -> existsb (fun u => (u.(usr_id) =? i) && u.(usr_is_active)) d.(users) = true ->
  forall u, one_or_none (fun u => u.(usr_id) =? i) d.(users) = Ok (Some u) -> u.(usr_is_active) = true.
Proof.
  intros Hok He u Hu. apply existsb_exists in He as (v & Hv & Hb). apply andb_prop in Hb as [Hi Ha].
  apply one_or_none_Some in Hu as [Hu Eu]. to_prop.
  enough (u = v) as -> by exact Ha. apply (NoDup_map_inj_in usr_id d.(users)); auto; [|congruence].
  unfold db_ok, uniques_ok in Hok. rewrite !andb_true_iff, !unique_on_NoDup in Hok. tauto.
Qed.

Lemma revoking_op_revokes h o i uid w w' :
  db_ok w.(w_db) = true -> opened h w -> revoked_user o w.(w_db) = Some uid ->
  run_op o w = (Ok tt, w') -> token_row h i uid w.(w_db) -> token_revoked h w'.(w_db).
Proof.
  intros Hok Hw Hu H Hrow.
  destruct o; try discriminate Hu; cbn [revoked_user run_op] in Hu, H.
  - unfold change_password in H. apply bind_inv_Ok in H as (u & w1 & H1 & H).
    apply one_q_Ok in H1 as (-> & _ & Hp). apply bool_decide_eq_true in Hp.
    destruct (negb _); [discriminate|].
    destruct (validate_password_strength _) as [|[]]; try discriminate.
    destruct (verify_password _ _); [discriminate|].
    apply bind_inv_Ok in H as (x & w2 & H2 & H). injection H2 as _ <-.
    replace (usr_id u) with uid in H by congruence.
    eapply revoke_tail; [| |exact H]; [now destruct Hw | exact Hrow].
  - destruct (bool_decide _) eqn:Hb; [|discriminate]. destruct (existsb _ _) eqn:He; [|discriminate].
    injection Hu as ->. apply bool_decide_eq_true in Hb. unfold discard in H.
    apply bind_inv_Ok in H as (out & w1 & H & H1). injection H1 as <-.
    destruct (one_or_none (fun u => u.(usr_id) =? uid) w.(w_db).(users)) as [[u|]|e] eqn:Eu.
    + eapply update_user_revokes; eauto. eapply active_user_row; eauto.
    + exfalso. unfold update_user in H. apply bind_inv_Ok in H as (o & w0 & H0 & H).
      apply one_or_none_q_Ok in H0 as [-> E]. unfold view in E. rewrite (op_tx _ _ Hw) in E.
      unfold id in E. rewrite Eu in E. injection E as <-. discriminate.
    + exfalso. unfold update_user in H. apply bind_inv_Ok in H as (o & w0 & H0 & _).
      apply one_or_none_q_Ok in H0 as [-> E]. unfold view in E. rewrite (op_tx _ _ Hw) in E.
      unfold id in E. now rewrite Eu in E.
  - injection Hu as Hu. unfold reset_password in H. apply bind_inv_Ok in H as (o & w1 & H1 & H).
    apply one_or_none_q_Ok in H1 as [-> E]. destruct o as [u|]; [|discriminate].
    apply one_or_none_Some in E as [_ E]. to_prop.
    destruct (validate_password_strength _) as [|[]]; try discriminate.
    apply bind_inv_Ok in H as (x & w2 & H2 & H). injection H2 as _ <-.
    replace (usr_id u) with uid in H by congruence.
    eapply revoke_tail; [| |exact H]; [now destruct Hw | exact Hrow].
  - injection Hu as Hu. unfold deactivate_user in H. apply bind_inv_Ok in H as (o & w1 & H1 & H).
    apply one_or_none_q_Ok in H1 as [-> E]. destruct o as [u|]; [|discriminate].
    apply one_or_none_Some in E as [_ E]. to_prop.
    destruct (bool_decide _); [discriminate|].
    apply bind_inv_Ok in H as (n & w2 & H2 & H). injection H2 as <- <-.
    destruct (_ && _); [discriminate|]. replace (usr_id u) with uid in H by congruence.
    eapply revoke_tail; [| |exact H]; [now destruct Hw | exact Hrow].
Qed.

(** ** The last administrator *)
Definition has_admin (d : Db) : Prop := existsb active_admin d.(users) = true.
Definition other_admin (x : Z) (d : Db) : Prop :=
  existsb (fun u => active_admin u && negb (u.(usr_id) =? x)) d.(users) = true.

#[local] Instance other_admin_dec x d : Decision (other_admin x d).
Proof. unfold other_admin. apply _. Defined.

Lemma existsb_update_where {A} (q p : A -> bool) f l :
  (forall x, q x = true -> p x = true -> q (f x) = true) ->
  existsb q l = true -> existsb q (update_where p f l) = true.
Proof.
  intros Hf. rewrite !existsb_exists. intros (x & Hx & Hq).
  exists (if p x then f x else x). split; [now apply update_where_In|].
  destruct (p x) eqn:E; auto.
Qed.

Lemma has_admin_map f p :
  (forall u, active_admin u = true -> active_admin (f u) = true) ->
  keeps has_admin (on_users (update_where p f)).
Proof. intros Hf d. apply existsb_update_where. auto. Qed.

Lemma has_admin_stable : auth_stable has_admin.
Proof.
  constructor; intros; try (intros d Hd; exact Hd).
  - now apply has_admin_map.
  - now apply has_admin_map.
  - intros d Hd. unfold has_admin in *. cbn. rewrite existsb_app, Hd. reflexivity.
Qed.

Lemma other_admin_stable x : auth_stable (other_admin x).
Proof.
  constructor; intros; try (intros d Hd; exact Hd).
  - intros d. now apply existsb_update_where.
  - intros d. now apply existsb_update_where.
  - intros d Hd. unfold other_admin in *. cbn. rewrite existsb_app, Hd. reflexivity.
Qed.

Lemma other_admin_has x d : other_admin x d -> has_admin d.
Proof.
  unfold other_admin, has_admin. rewrite !existsb_exists. intros (u & Hu & [Ha _]%andb_prop). eauto.
Qed.

(** Staging a change of user [x] keeps the other administrators. *)
Lemma db_inv_stage_user x y f :
  y = x -> (forall u, (f u).(usr_id) = u.(usr_id)) ->
  preserves (db_inv (other_admin x)) (stage_user y f).
Proof.
  intros -> Hf. apply db_inv_stage. intros d. apply existsb_update_where.
  intros u [_ H1]%andb_prop H2. now rewrite H2 in H1.
Qed.

Lemma count_zero x (l : list User) :
  (Z.of_nat (List.length (List.filter (fun u => active_admin u && negb (u.(usr_id) =? x)) l)) =? 0)
  = negb (existsb (fun u => active_admin u && negb (u.(usr_id) =? x)) l).
Proof.
  induction l as [|u l IH]; [reflexivity|]. cbn.
  destruct (active_admin u && negb (usr_id u =? x)); [|exact IH].
  cbn [List.length negb orb]. apply Z.eqb_neq. lia.
Qed.

(** With no other active administrator, an active administrator is neither
    demoted nor deactivated. *)
Lemma update_role_sole role u w :
  active_admin u = true -> ~ other_admin u.(usr_id) (view w) ->
  (exists e, update_role role u w = (Err e, w)) \/ update_role role u w = (Ok (u, []), w).
Proof.
  intros [Hr _]%andb_prop Ho. apply not_true_is_false in Ho. unfold update_role.
  destruct role as [nr|]; [|now right]. destruct (String.eqb nr _) eqn:E; [now right|].
  left. unfold _validate_role, _active_admin_count.
  destruct (str_in nr VALID_ROLES); [|eexists; reflexivity].
  api_run. fold (view w). rewrite count_zero, Ho, Hr.
  apply String.eqb_eq in Hr. rewrite Hr in E. rewrite E. eexists. reflexivity.
Qed.

Lemma update_active_sole b adm u w :
  active_admin u = true -> ~ other_admin u.(usr_id) (view w) ->
  (exists e, update_active b adm u w = (Err e, w)) \/ update_active b adm u w = (Ok (u, []), w).
Proof.
  intros [Hr Ha]%andb_prop Ho. apply not_true_is_false in Ho. unfold update_active.
  destruct b as [[]|]; rewrite ?Ha; [now right| |now right]. left. cbn.
  unfold _active_admin_count. api_run.
  case_bool_decide; [eexists; reflexivity|]. fold (view w). rewrite count_zero, Ho, Hr.
  eexists. reflexivity.
Qed.

Lemma update_role_other x role u :
  u.(usr_id) = x ->
  yields (db_inv (other_admin x)) (update_role role u) (fun s => (fst s).(usr_id) = x).
Proof.
  intros Hx. unfold update_role, _validate_role, _active_admin_count.
  destruct role as [nr|]; [|now apply yields_ret]. destruct (String.eqb _ _); [now apply yields_ret|].
  apply yields_then; [preserve | intros _]. apply yields_then; [preserve | intros n].
  destruct (_ && _); [apply yields_raise|].
  apply yields_then; [now apply db_inv_stage_user | intros _; now apply yields_ret].
Qed.

Lemma update_active_other x b adm u :
  u.(usr_id) = x ->
  yields (db_inv (other_admin x)) (update_active b adm u) (fun s => (fst s).(usr_id) = x).
Proof.
  intros Hx. unfold update_active, _active_admin_count.
  pose proof (db_inv_revoke _ (other_admin_stable x) u.(usr_id)).
  destruct b as [b|]; [|now apply yields_ret]. destruct (Bool.eqb _ _); [now apply yields_ret|].
  apply yields_then; [preserve | intros _].
  apply yields_then; [now apply db_inv_stage_user | intros _; now apply yields_ret].
Qed.

Lemma update_email_other x e u :
  u.(usr_id) = x ->
  yields (db_inv (other_admin x)) (update_email e u) (fun s => (fst s).(usr_id) = x).
Proof.
  intros Hx. unfold update_email. destruct e as [e|]; [|now apply yields_ret].
  apply yields_then; [now apply db_inv_stage_user | intros _; now apply yields_ret].
Qed.

Lemma update_extra_other x e u :
  u.(usr_id) = x ->
  yields (db_inv (other_admin x)) (update_extra e u) (fun s => (fst s).(usr_id) = x).
Proof.
  intros Hx. unfold update_extra. destruct e as [e|]; [|now apply yields_ret].
  destruct (normalize_extra_permissions _) as [y|[]]; try apply yields_raise.
  apply yields_then; [now apply db_inv_stage_user | intros _; now apply yields_ret].
Qed.

(** Contact details and grants do not touch role or activity. *)
Lemma has_admin_email e u : preserves (db_inv has_admin) (update_email e u).
Proof. unfold update_email. preserve. apply db_inv_stage. now apply has_admin_map. Qed.
Lemma has_admin_extra e u : preserves (db_inv has_admin) (update_extra e u).
Proof. unfold update_extra. preserve. apply db_inv_stage. now apply has_admin_map. Qed.

Lemma sole_admin u d :
  db_ok d = true -> has_admin d -> In u d.(users) -> ~ other_admin u.(usr_id) d -> active_admin u = true.
Proof.
  intros Hok Ha Hu Ho. apply existsb_exists in Ha as (v & Hv & Hav).
  destruct (Z.eq_dec v.(usr_id) u.(usr_id)) as [E|E].
  - assert (v = u) as ->; [|exact Hav].
    apply (NoDup_map_inj_in usr_id d.(users)); auto.
    unfold db_ok, uniques_ok in Hok. rewrite !andb_true_iff, !unique_on_NoDup in Hok. tauto.
  - exfalso. apply Ho. apply existsb_exists. exists v. split; [exact Hv|].
    rewrite Hav. apply Z.eqb_neq in E. now rewrite E.
Qed.

Lemma update_user_admin i b r adm w :
  db_ok w.(w_db) = true -> idle w -> has_admin w.(w_db) ->
  has_admin (snd (update_user i b r adm w)).(w_db).
Proof.
  intros Hok Hidle Ha. pose proof Hidle as [Ho Ht Hn]. unfold update_user.
  destruct (one_or_none_q users (fun u => usr_id u =? i) w) as [[o|e] w1] eqn:E0.
  2:{ rewrite (bind_Err _ _ _ _ _ E0). revert E0. api_run.
      destruct (one_or_none _ _); now intros [= _ <-]. }
  rewrite (bind_Ok _ _ _ _ _ E0). apply one_or_none_q_Ok in E0 as [-> E0].
  destruct o as [u0|]; [|exact Ha]. apply one_or_none_Some in E0 as [Hin _].
  unfold view in Hin. rewrite Ht in Hin.
  destruct (decide (other_admin u0.(usr_id) w.(w_db))) as [Hother|Hother].
  - pose proof (other_admin_stable u0.(usr_id)) as Hs. pose proof (as_audit _ Hs).
    match goal with |- has_admin (w_db (snd (?m w))) =>
      assert (yields (db_inv (other_admin u0.(usr_id))) m (fun _ => True)) as Hy end.
    { eapply yields_bind; [now apply update_role_other | intros s1 H1].
      eapply yields_bind; [now apply update_active_other | intros s2 H2].
      eapply yields_bind; [now apply update_email_other | intros s3 H3].
      eapply yields_bind; [now apply update_extra_other | intros s4 H4].
      apply yields_preserves. preserve. }
    destruct (Hy w (idle_db_inv _ _ Hidle Hother)) as [[Hd _ _ _] _].
    eapply other_admin_has, Hd.
  - assert (~ other_admin (usr_id u0) (view w)) as Hv by (unfold view; now rewrite Ht).
    assert (active_admin u0 = true) as Hau by (eapply sole_admin; eauto).
    destruct (update_role_sole b.(uu_role) u0 w Hau Hv) as [[e E]|E];
      [now rewrite (bind_Err _ _ _ _ _ E)|rewrite (bind_Ok _ _ _ _ _ E)].
    destruct (update_active_sole b.(uu_is_active) adm u0 w Hau Hv) as [[e E']|E'];
      cbn [fst]; [now rewrite (bind_Err _ _ _ _ _ E')|rewrite (bind_Ok _ _ _ _ _ E')].
    pose proof (as_audit _ has_admin_stable). pose proof has_admin_email. pose proof has_admin_extra.
    match goal with |- has_admin (w_db (snd (?m w))) =>
      assert (preserves (db_inv has_admin) m) as Hp by preserve end.
    apply (Hp w (idle_db_inv _ _ Hidle Ha)).
Qed.

Lemma deactivate_user_admin i r adm w :
  db_ok w.(w_db) = true -> idle w -> has_admin w.(w_db) ->
  has_admin (snd (deactivate_user i r adm w)).(w_db).
Proof.
  intros Hok Hidle Ha. pose proof Hidle as [Ho Ht Hn]. unfold deactivate_user.
  destruct (one_or_none_q users (fun u => usr_id u =? i) w) as [[o|e] w1] eqn:E0.
  2:{ rewrite (bind_Err _ _ _ _ _ E0). revert E0. api_run.
      destruct (one_or_none _ _); now intros [= _ <-]. }
  rewrite (bind_Ok _ _ _ _ _ E0). apply one_or_none_q_Ok in E0 as [-> E0].
  destruct o as [u0|]; [|exact Ha]. apply one_or_none_Some in E0 as [Hin _].
  unfold view in Hin. rewrite Ht in Hin. destruct (bool_decide _); [exact Ha|].
  unfold _active_admin_count, query. unfold bind at 1. cbn [gets].
  rewrite count_zero. unfold view. rewrite Ht.
  destruct (decide (other_admin u0.(usr_id) w.(w_db))) as [Hother|Hother].
  - pose proof (other_admin_stable u0.(usr_id)) as Hs. pose proof (as_audit _ Hs).
    pose proof (db_inv_revoke _ Hs u0.(usr_id)).
    assert (preserves (db_inv (other_admin u0.(usr_id))) (stage_user u0.(usr_id) (set_active false)))
      by now apply db_inv_stage_user.
    destruct (_ && _); [exact Ha|].
    match goal with |- has_admin (w_db (snd (?m w))) =>
      assert (preserves (db_inv (other_admin u0.(usr_id))) m) as Hp by preserve end.
    eapply other_admin_has. apply (Hp w (idle_db_inv _ _ Hidle Hother)).
  - assert (active_admin u0 = true) as Hau by (eapply sole_admin; eauto).
    apply not_true_is_false in Hother. apply andb_prop in Hau as [Hr _]. unfold id.
    rewrite Hother, Hr. exact Ha.
Qed.

Lemma serve_admin t o w :
  db_ok w.(w_db) = true -> has_admin w.(w_db) ->
  fst (serve t [] o w) = Ok tt /\
  db_ok (snd (serve t [] o w)).(w_db) = true /\ has_admin (snd (serve t [] o w)).(w_db).
Proof.
  intros Hok Ha. unfold serve, try_except. mrun. set (w1 := set_session _ _ _).
  assert (idle w1) as Hidle by now constructor.
  assert (world_ok w1) as Hw by (split; [exact Hok | constructor]).
  pose proof (world_ok_session _ (world_ok_run_op o) w1 Hw) as [Hok' _].
  assert (has_admin (snd (request_session (run_op o) w1)).(w_db)) as Ha'.
  { assert (has_admin (snd (run_op o w1)).(w_db)) as H;
      [|unfold request_session; now destruct (run_op o w1)].
    destruct (plain_op o) eqn:Hp.
    - apply (db_inv_plain_op _ has_admin_stable o Hp w1). now apply idle_db_inv.
    - destruct o; try discriminate Hp; cbn [run_op]; unfold discard.
      + pose proof (update_user_admin user_id b r admin w1 Hok Hidle Ha) as H. unfold bind.
        now destruct (update_user user_id b r admin w1) as [[]].
      + now apply deactivate_user_admin. }
  destruct (request_session (run_op o) w1) as [[[]|e] w2]; auto.
Qed.
End ops.

(** ** Properties *)

(** C2: refresh tokens are single-use: once [POST /auth/refresh] has answered
    with a new token for some cookie, a refresh with that cookie that starts
    afterwards is refused, whatever requests (sign-in, refresh, sign-out,
    password change, user administration) follow, in any order and at any
    time.  The database is consistent and the refresh starts on a fresh
    session; during it and during every later request the other connections
    commit whatever they like, provided those commits keep the schema's
    constraints, do not delete the token's session row, move it to another
    user or change its hash, and do not clear a revocation mark.  Two refreshes
    in flight at once with the same cookie are outside the statement: both can
    succeed ([refresh_race] below). *)
Theorem refresh_token_single_use {env : Env} (x x' : option string) (r r' : Request) (raw : string)
    (w w' : World) (out : TokenOut * list (string * string))
    (l : list (timestamp * list (Db -> Db) * auth_op)) (t : timestamp) :
  db_ok w.(w_db) = true -> opened (hash_refresh_token raw) w ->
  cookie r REFRESH_COOKIE = Some raw -> refresh x r w = (Ok out, w') ->
  benign (hash_refresh_token raw) l ->
  cookie r' REFRESH_COOKIE = Some raw ->
  fst (refresh x' r' (set_session id id (set_now t (snd (serve_all l w')))))
  = Err (HTTPException 401 "Could not refresh session").
Proof.
  intros Hok Hw Hc H Hb Hc'. apply (revoked_forever raw); auto.
  - pose proof (world_ok_run_op (OpRefresh x r) w (opened_world_ok _ _ Hw Hok)) as [Hok' _]. cbn in Hok'.
    unfold discard, bind in Hok'. rewrite H in Hok'. exact Hok'.
  - exact (refresh_Ok_revokes x r w out w' raw Hw Hc H).
Qed.

Theorem refresh_token_single_use_witness :
  let env := demo_env (fun _ _ => Ok JNull) in
  let u := mkUser 7 "ann" None "h" "viewer" None true false None in
  let s := mkAuthSession 3 7 "hraw" "c" 900000000 None None None None in
  let w := set_others [id] (fresh_world (on_auth_sessions (fun _ => [s]) (on_users (fun _ => [u]) empty_db)) 8 1000000) in
  let r := mkRequest "POST" "/api/auth/refresh" [] [("cas_refresh", "raw"); ("cas_csrf", "c")] None in
  match refresh (Some "c") r w with
  | (Ok _, w') =>
      fst (refresh (Some "c") r (set_session id id (set_now 2000000
             (snd (serve_all [(1500000, [], OpLogout (Some "c") r)] w')))))
      = Err (HTTPException 401 "Could not refresh session")
  | (Err _, _) => False
  end.
Proof.
  cbv zeta. set (w := set_others _ _). set (r := mkRequest _ _ _ _ _).
  destruct (refresh (Some "c") r w) as [[out|e] w'] eqn:E.
  - apply (refresh_token_single_use (env := demo_env (fun _ _ => Ok JNull))
             (Some "c") (Some "c") r r "raw" w w' out [(1500000, [], OpLogout (Some "c") r)] 2000000).
    + vm_compute. reflexivity.
    + constructor; [reflexivity..|]. constructor; [|constructor].
      split; [apply keeps_id | split; [apply keeps_id | intros i v; apply keeps_id]].
    + reflexivity.
    + exact E.
    + repeat constructor.
    + reflexivity.
  - apply (f_equal (fun r => is_ok (fst r))) in E. vm_compute in E. discriminate.
Defined.

(** Rotation is not atomic with the read: when a second refresh with the same
    cookie reads the session before the first commits, both answer with a new
    token and two sessions are live, although the cookie was meant to be used
    once. *)
Theorem refresh_race :
  let env := demo_env (fun _ _ => Ok JNull) in
  let u := mkUser 7 "ann" None "h" "viewer" None true false None in
  let s := mkAuthSession 3 7 "hraw" "c" 900000000 None None None None in
  let d := on_auth_sessions (fun _ => [s]) (on_users (fun _ => [u]) empty_db) in
  let r := mkRequest "POST" "/api/auth/refresh" [] [("cas_refresh", "raw"); ("cas_csrf", "c")] None in
  let first d := snd (refresh (Some "c") r (fresh_world d 50 1000000)) in
  let second := refresh (Some "c") r (set_rand 10 (set_others [fun d => (first d).(w_db)] (fresh_world d 100 1000000))) in
  is_ok (fst (refresh (Some "c") r (fresh_world d 50 1000000))) = true /\
  is_ok (fst second) = true /\
  map (fun s => (s.(ses_id), bool_decide (s.(ses_revoked_at) = None))) (snd second).(w_db).(auth_sessions)
  = [(3, false); (50, true); (100, true)].
Proof. repeat split; vm_compute; reflexivity. Qed.

(** C5: revocation is permanent: once a password change, an administrator's
    password reset or a deactivation ([DELETE /users/{id}], or a
    [PATCH /users/{id}] that sets [is_active] to false on an active user) has
    succeeded for a user, no refresh cookie that belonged to one of that user's
    sessions when the request started ever refreshes again, whatever requests
    follow.  The database is consistent and the request starts on a fresh
    session; during it and during every later request the other connections
    commit whatever they like, provided those commits keep the schema's
    constraints, do not delete the cookie's session row, move it to another
    user or change its hash, and do not clear a revocation mark. *)
Theorem revoking_request_is_final {env : Env} (o : auth_op) (uid : Z) (w w' : World)
    (s : AuthSession) (raw : string) (l : list (timestamp * list (Db -> Db) * auth_op))
    (t : timestamp) (x : option string) (r : Request) :
  db_ok w.(w_db) = true -> opened (hash_refresh_token raw) w ->
  revoked_user o w.(w_db) = Some uid -> run_op o w = (Ok tt, w') ->
  In s w.(w_db).(auth_sessions) -> s.(ses_user_id) = uid ->
  s.(ses_token_hash) = hash_refresh_token raw ->
  benign (hash_refresh_token raw) l -> cookie r REFRESH_COOKIE = Some raw ->
  fst (refresh x r (set_session id id (set_now t (snd (serve_all l w')))))
  = Err (HTTPException 401 "Could not refresh session").
Proof.
  intros Hok Hw Hu H Hin Hs Hh Hb Hc. apply (revoked_forever raw); auto.
  - pose proof (world_ok_run_op o w (opened_world_ok _ _ Hw Hok)) as [Hok' _]. now rewrite H in Hok'.
  - eapply (revoking_op_revokes _ o s.(ses_id)); eauto. now exists s.
Qed.

Theorem revoking_request_is_final_witness :
  let env := demo_env (fun _ _ => Ok JNull) in
  let u := mkUser 7 "ann" None "h" "viewer" None true false None in
  let s := mkAuthSession 3 7 "hraw" "c" 900000000 None None None None in
  let w := fresh_world (on_auth_sessions (fun _ => [s]) (on_users (fun _ => [u]) empty_db)) 8 1000000 in
  let r := mkRequest "POST" "/api/auth/refresh" [] [("cas_refresh", "raw"); ("cas_csrf", "c")] None in
  let admin := mkPrincipal "user" ∅ (Some 1) None None "root" false in
  let o := OpUpdateUser 7 (mkUpdateUserIn (Some "trader") (Some false) None None) r admin in
  match run_op o w with
  | (Ok tt, w') =>
      fst (refresh (Some "c") r (set_session id id (set_now 2000000 (snd (serve_all [] w')))))
      = Err (HTTPException 401 "Could not refresh session")
  | (Err _, _) => False
  end.
Proof.
  cbv zeta. set (w := fresh_world _ _ _). set (r := mkRequest _ _ _ _ _). set (o := OpUpdateUser _ _ _ _).
  destruct (run_op o w) as [[[]|e] w'] eqn:E.
  - apply (revoking_request_is_final (env := demo_env (fun _ _ => Ok JNull)) o 7 w w'
             (mkAuthSession 3 7 "hraw" "c" 900000000 None None None None) "raw" [] 2000000).
    + vm_compute. reflexivity.
    + constructor; [reflexivity..|]. constructor.
    + vm_compute. reflexivity.
    + exact E.
    + now left.
    + reflexivity.
    + reflexivity.
    + constructor.
    + reflexivity.
  - apply (f_equal (fun r => is_ok (fst r))) in E. vm_compute in E. discriminate.
Defined.

(** C6: an active administrator always remains: on a consistent database that
    has one, any sequence of identity requests served one at a time (sign-ins,
    refreshes, password changes, user creation, role changes, activation and
    deactivation by any callers) leaves a consistent database that has one. *)
Theorem active_admin_remains {env : Env} (l : list (timestamp * auth_op)) (w : World) :
  db_ok w.(w_db) = true -> existsb active_admin w.(w_db).(users) = true ->
  let w' := snd (serve_all (map (fun x => (fst x, [], snd x)) l) w) in
  db_ok w'.(w_db) = true /\ existsb active_admin w'.(w_db).(users) = true.
Proof.
  revert w. induction l as [|[t o] l IH]; intros w Hok Ha; [auto|]. cbn [map].
  destruct (serve_admin t o w Hok Ha) as (He & Hok' & Ha').
  unfold serve_all in *. cbn. unfold bind. destruct (serve t [] o w) as [res w1]. cbn in *.
  subst res. now apply IH.
Qed.

Theorem active_admin_remains_witness :
  let env := demo_env (fun _ _ => Ok JNull) in
  let root := mkUser 1 "root" None "h" "admin" None true false None in
  let w := fresh_world (on_users (fun _ => [root]) empty_db) 2 1000000 in
  let adm := mkPrincipal "user" ∅ (Some 1) None None "root" false in
  let other := mkPrincipal "user" ∅ (Some 9) None None "x" false in
  let r := mkRequest "PATCH" "/api/admin/users/1" [] [] None in
  let w' := snd (serve_all (map (fun x => (fst x, [], snd x))
     [(1, OpUpdateUser 1 (mkUpdateUserIn (Some "viewer") (Some false) None None) r other);
      (2, OpDeactivateUser 1 r other)]) w) in
  db_ok w'.(w_db) = true /\ existsb active_admin w'.(w_db).(users) = true.
Proof.
  cbv zeta. apply (active_admin_remains (env := demo_env (fun _ _ => Ok JNull)));
    vm_compute; reflexivity.
Defined.

(** The last-administrator check is not atomic: when two administrators
    deactivate each other at once (the second request reads the tables before
    the first commits), both requests succeed and no active administrator is
    left. *)
Theorem last_admin_race :
  let env := demo_env (fun _ _ => Ok JNull) in
  let a := mkUser 1 "a" None "h" "admin" None true false None in
  let b := mkUser 2 "b" None "h" "admin" None true false None in
  let d := on_users (fun _ => [a; b]) empty_db in
  let by_user n := mkPrincipal "user" ∅ (Some n) None None "" false in
  let r := mkRequest "DELETE" "/api/admin/users" [] [] None in
  let first d := (snd (deactivate_user 2 r (by_user 1) (fresh_world d 3 1000000))).(w_db) in
  let w := set_others [first] (fresh_world d 100 1000000) in
  fst (deactivate_user 2 r (by_user 1) (fresh_world d 3 1000000)) = Ok tt /\
  fst (deactivate_user 1 r (by_user 2) w) = Ok tt /\
  existsb active_admin (snd (deactivate_user 1 r (by_user 2) w)).(w_db).(users) = false.
Proof. repeat split; vm_compute; reflexivity. Qed.
