(* ===== verification/WebSocket.v ===== *)
(** * The realtime websocket endpoint

    [trading/api/realtime/ws.py]: token extraction and authorisation, and the
    life of a connection.  Between two [await]s the event loop runs nothing
    else, so a step of the transition system is the code from one [await] to
    the next; other connections' steps interleave at the [await]s. *)
From S2P Require Import Prelude PyStr PyFloat Json Config Permissions Schema Realtime ApiWorld.
From S2P Require Import DemoEnv Security RateLimit Auth.

Definition SUBPROTOCOL : string := "cas.realtime.v1".
Definition _MAX_CONNECTIONS : Z := 250.

(** [offered] are the subprotocols of the handshake, [qtoken] the
    [access_token] query parameter. *)
Definition _extract_token (offered : list string) (qtoken : option string)
  : option string * option string :=
  let proto := if str_in SUBPROTOCOL offered then Some SUBPROTOCOL else None in
  match List.find (startswith "bearer.") offered with
  | Some p => (Some (str_drop 7 p), proto)
  | None => (if opt_truthy qtoken then qtoken else None, proto)
  end.

Definition _authorize {env : Env} (token : option string) (d : Db) (t : timestamp)
  : result exn (option (Z * string)) :=
  match token with
  | None => Ok None
  | Some tok =>
      if negb (truthy tok) then Ok None
      else
        match decode_access_token tok t with
        | Err (TokenError _) => Ok None
        | Err e => Err e
        | Ok claims =>
            match claims_subject claims with
            | Err (HTTPErr _ _ _) => Ok None
            | Err e => Err e
            | Ok user_id =>
                match one_or_none (fun u => u.(usr_id) =? user_id) d.(users) with
                | Err e => Err e
                | Ok None => Ok None
                | Ok (Some u) =>
                    if negb u.(usr_is_active) then Ok None
                    else if bool_decide (VIEW ∈ permissions_for u.(usr_role) u.(usr_extra_permissions))
                         then Ok (Some (u.(usr_id), u.(usr_username)))
                         else Ok None
                end
            end
        end
  end.

(** ** Connections *)
Inductive phase : Type :=
| Accepting                (* passed the checks, awaiting [accept()] *)
| Greeting (sub : nat)     (* counted and subscribed, awaiting the hello send *)
| Open (sub : nat)         (* reader, writer and liveness tasks running *)
| Refused (code : Z)       (* 1008 unauthorised, 1013 at capacity *)
| Closed                   (* the [finally] block has run *)
| Failed (sub : option nat).  (* an exception left the handler before [try] *)

Record WsServer : Type := mkWs {
  ws_active : Z;            (* [_active_connections] *)
  ws_bus : EventBus;
  ws_conns : list phase     (* by connection number *)
}.
Definition new_ws : WsServer := mkWs 0 new_bus [].

Inductive ws_op : Type :=
| WsConnect (authorized : bool)
| WsAccept (c : nat)          (* [accept()] completes *)
| WsAcceptFails (c : nat)     (* [accept()] raises: the peer left *)
| WsHello (c : nat)           (* the hello frame is sent *)
| WsHelloFails (c : nat)      (* sending the hello frame raises *)
| WsEnd (c : nat)             (* a task of the connection finishes *)
| WsBus (o : bus_op).         (* anything else that happens on the bus *)

Definition set_phase (c : nat) (p : phase) (s : WsServer) : WsServer :=
  mkWs s.(ws_active) s.(ws_bus) (<[c := p]> s.(ws_conns)).

Definition ws_step (s : WsServer) (o : ws_op) : WsServer :=
  match o with
  | WsConnect authorized =>
      let p := if negb authorized then Refused 1008
               else if _MAX_CONNECTIONS <=? s.(ws_active) then Refused 1013
               else Accepting in
      mkWs s.(ws_active) s.(ws_bus) (s.(ws_conns) ++ [p])
  | WsAccept c =>
      match s.(ws_conns) !! c with
      | Some Accepting =>
          let '(i, b) := subscribe s.(ws_bus) in
          mkWs (s.(ws_active) + 1) (snd (next_seq b)) (<[c := Greeting i]> s.(ws_conns))
      | _ => s
      end
  | WsAcceptFails c =>
      match s.(ws_conns) !! c with
      | Some Accepting => set_phase c (Failed None) s
      | _ => s
      end
  | WsHello c =>
      match s.(ws_conns) !! c with
      | Some (Greeting i) => set_phase c (Open i) s
      | _ => s
      end
  | WsHelloFails c =>
      match s.(ws_conns) !! c with
      | Some (Greeting i) => set_phase c (Failed (Some i)) s
      | _ => s
      end
  | WsEnd c =>
      match s.(ws_conns) !! c with
      | Some (Open i) => mkWs (s.(ws_active) - 1) (remove_sub i s.(ws_bus)) (<[c := Closed]> s.(ws_conns))
      | _ => s
      end
  | WsBus o => mkWs s.(ws_active) (bus_step s.(ws_bus) o) s.(ws_conns)
  end.
Definition ws_run (l : list ws_op) : WsServer := fold_left ws_step l new_ws.

(** A connection that holds a slot: counted in [_active_connections]. *)
Definition holds_slot (p : phase) : bool :=
  match p with Greeting _ | Open _ | Failed (Some _) => true | _ => false end.
Definition slots (s : WsServer) : Z :=
  Z.of_nat (List.length (List.filter holds_slot s.(ws_conns))).

(** ** Lemmas *)
Lemma filter_insert_count {A} (p : A -> bool) l c x y :
  l !! c = Some x ->
  Z.of_nat (List.length (List.filter p (<[c := y]> l)))
  = Z.of_nat (List.length (List.filter p l)) - (if p x then 1 else 0) + (if p y then 1 else 0).
Proof.
  revert c. induction l as [|a l IH]; intros [|c] H; try discriminate.
  - injection H as ->. cbn [List.filter insert list_insert]. destruct (p x), (p y); cbn [List.length]; lia.
  - specialize (IH c H). change (<[S c:=y]> (a :: l)) with (a :: <[c:=y]> l).
    cbn [List.filter]. destruct (p a); cbn [List.length]; lia.
Qed.

Lemma slots_step s o : s.(ws_active) = slots s -> (ws_step s o).(ws_active) = slots (ws_step s o).
Proof.
  unfold slots. intros H.
  destruct o as [a|c|c|c|c|c|o]; cbn;
    try (destruct (ws_conns s !! c) as [[]|] eqn:E; try exact H; cbn;
         rewrite (filter_insert_count _ _ _ _ _ E); cbn; lia).
  - rewrite List.filter_app, length_app. destruct a; cbn; [destruct (_ <=? _)|]; cbn; lia.
  - exact H.
Qed.

Lemma slots_run l : (ws_run l).(ws_active) = slots (ws_run l).
Proof.
  unfold ws_run. assert (new_ws.(ws_active) = slots new_ws) as H by reflexivity.
  revert H. generalize new_ws. induction l as [|o l IH]; intros s Hs; [exact Hs|].
  cbn. now apply IH, slots_step.
Qed.

Definition hello_fails (o : ws_op) : bool := match o with WsHelloFails _ => true | _ => false end.
Definition failed_open (p : phase) : bool := match p with Failed (Some _) => true | _ => false end.

Lemma existsb_insert {A} (p : A -> bool) l c y :
  existsb p l = false -> p y = false -> existsb p (<[c := y]> l) = false.
Proof.
  revert c. induction l as [|a l IH]; intros [|c]; cbn; auto;
    intros [Ha Hl]%orb_false_elim Hy; apply orb_false_intro; auto.
Qed.

Lemma no_leak_step s o :
  hello_fails o = false -> existsb failed_open s.(ws_conns) = false ->
  existsb failed_open (ws_step s o).(ws_conns) = false.
Proof.
  intros Ho H. destruct o as [a|c|c|c|c|c|o]; cbn; try discriminate Ho;
    try (destruct (ws_conns s !! c) as [[]|] eqn:E; try exact H; now apply existsb_insert).
  - rewrite existsb_app, H. destruct a; cbn; [destruct (_ <=? _)|]; reflexivity.
  - exact H.
Qed.

Lemma no_leak_run l :
  forallb (fun o => negb (hello_fails o)) l = true -> existsb failed_open (ws_run l).(ws_conns) = false.
Proof.
  unfold ws_run. assert (existsb failed_open new_ws.(ws_conns) = false) as H by reflexivity.
  revert H. generalize new_ws. induction l as [|o l IH]; cbn; intros s Hs; [auto|].
  intros [H1 H2]%andb_prop. apply IH; [|exact H2].
  apply no_leak_step; [now apply negb_true_iff | exact Hs].
Qed.

(** A connection being greeted or served. *)
Definition serving (p : phase) : bool := match p with Greeting _ | Open _ => true | _ => false end.

(** The connection count is exact while greetings succeed: after any
    interleaving of connections in which no hello send fails,
    [_active_connections] is the number of connections being greeted or served,
    so it returns to zero when they all end. *)
Theorem active_connections_exact (l : list ws_op) :
  forallb (fun o => negb (hello_fails o)) l = true ->
  (ws_run l).(ws_active) = Z.of_nat (List.length (List.filter serving (ws_run l).(ws_conns))).
Proof.
  intros H. apply no_leak_run in H. rewrite slots_run. unfold slots. f_equal. f_equal.
  apply List.filter_ext_in. intros p Hp. destruct p as [| | | | |[i|]]; try reflexivity.
  exfalso. apply not_true_iff_false in H. apply H, existsb_exists. now exists (Failed (Some i)).
Qed.

Theorem active_connections_exact_witness :
  (ws_run [WsConnect true; WsConnect false; WsAccept 0; WsHello 0; WsBus BusHello; WsEnd 0]).(ws_active) = 0.
Proof.
  rewrite active_connections_exact by (vm_compute; reflexivity). vm_compute. reflexivity.
Defined.

(** ** Slots that are never given back *)
Definition leak (c : nat) : list ws_op := [WsConnect true; WsAccept c; WsHelloFails c].

Lemma leak_step s :
  s.(ws_active) < _MAX_CONNECTIONS ->
  fold_left ws_step (leak (List.length s.(ws_conns))) s =
  let '(i, b) := subscribe s.(ws_bus) in
  mkWs (s.(ws_active) + 1) (snd (next_seq b)) (s.(ws_conns) ++ [Failed (Some i)]).
Proof.
  intros H. unfold leak. cbn [fold_left ws_step negb].
  rewrite (proj2 (Z.leb_gt _ _) H). cbn [ws_conns ws_active ws_bus].
  rewrite lookup_app_r, Nat.sub_diag by lia. cbn.
  rewrite list_lookup_insert_eq by (rewrite length_app; cbn; lia).
  unfold set_phase. cbn. rewrite list_insert_insert_eq.
  now rewrite insert_app_r_alt, Nat.sub_diag by lia.
Qed.

Fixpoint leaks (n : nat) : list ws_op :=
  match n with O => [] | S m => leaks m ++ leak m end.

Lemma leaks_run n : Z.of_nat n <= _MAX_CONNECTIONS ->
  (ws_run (leaks n)).(ws_active) = Z.of_nat n /\
  List.length (ws_run (leaks n)).(ws_conns) = n /\
  List.length (ws_run (leaks n)).(ws_bus).(bus_subs) = n /\
  Forall (fun p => failed_open p = true) (ws_run (leaks n)).(ws_conns).
Proof.
  induction n as [|n IH]; intros Hn; [repeat split; constructor|].
  destruct IH as (H1 & H2 & H3 & H4); [lia|].
  unfold ws_run in *. cbn [leaks]. rewrite fold_left_app.
  set (s := fold_left ws_step (leaks n) new_ws) in *.
  assert (fold_left ws_step (leak n) s = _) as -> by (rewrite <- H2 at 1; apply leak_step; lia).
  cbn [subscribe next_seq snd ws_active ws_bus ws_conns bus_subs]. rewrite !length_app, H1, H2, H3. cbn [List.length].
  repeat split; try lia.
  apply Forall_app. split; [exact H4 | repeat constructor].
Qed.

(** A failed greeting leaks its slot: the hello frame is sent before the
    [try] whose [finally] releases the slot and the subscription, so after
    [_MAX_CONNECTIONS] clients that leave during the greeting nobody is
    connected, every slot is taken, as many dead subscriptions receive every
    event, and an authorised client is refused with 1013. *)
Theorem hello_failures_exhaust_capacity :
  let s := ws_run (leaks (Z.to_nat _MAX_CONNECTIONS)) in
  s.(ws_active) = _MAX_CONNECTIONS /\
  forallb (fun p => negb (serving p)) s.(ws_conns) = true /\
  List.length s.(ws_bus).(bus_subs) = Z.to_nat _MAX_CONNECTIONS /\
  last (ws_step s (WsConnect true)).(ws_conns) = Some (Refused 1013).
Proof.
  intros s. destruct (leaks_run (Z.to_nat _MAX_CONNECTIONS)) as (H1 & H2 & H3 & H4); [unfold _MAX_CONNECTIONS; lia|].
  fold s in H1, H2, H3, H4. rewrite Z2Nat.id in H1 by (unfold _MAX_CONNECTIONS; lia).
  split; [exact H1|]. split; [|split; [exact H3|]].
  - apply forallb_forall. intros p Hp. rewrite Forall_forall in H4.
    apply list_elem_of_In, H4 in Hp. now destruct p as [| | | | |[]].
  - cbn. rewrite H1, Z.leb_refl. apply last_snoc.
Qed.

(** The capacity check does not bound the connections: [accept()] is
    awaited between the check and the increment, so any number of clients
    whose handshakes overlap are all served. *)
Theorem capacity_check_overrun (n : nat) :
  (ws_run (replicate n (WsConnect true) ++ map WsAccept (seq 0 n))).(ws_active) = Z.of_nat n.
Proof.
  unfold ws_run. rewrite fold_left_app.
  assert (forall m s, s.(ws_active) < _MAX_CONNECTIONS ->
    fold_left ws_step (replicate m (WsConnect true)) s
    = mkWs s.(ws_active) s.(ws_bus) (s.(ws_conns) ++ replicate m Accepting)) as H1.
  { induction m as [|m IH]; intros s Hs; cbn; [rewrite app_nil_r; now destruct s|].
    rewrite (proj2 (Z.leb_gt _ _) Hs). rewrite IH by exact Hs. cbn.
    now rewrite <- app_assoc. }
  rewrite H1 by reflexivity. cbn.
  assert (forall m k a b l, (forall j, (k <= j < k + m)%nat -> l !! j = Some Accepting) ->
    (fold_left ws_step (map WsAccept (seq k m)) (mkWs a b l)).(ws_active) = a + Z.of_nat m) as H2.
  { induction m as [|m IH]; intros k a b l Hl; cbn; [lia|].
    rewrite Hl by lia. cbn. rewrite IH; [lia|].
    intros j Hj. rewrite list_lookup_insert_ne by lia. apply Hl. lia. }
  rewrite H2; [lia|]. intros j Hj. apply lookup_replicate_2. lia.
Qed.
