(* ===== verification/ControlApi.v ===== *)
(** * The control-center API

    [trading/api/lambda_client.py] and [trading/api/routes.py]: dispatching
    commands to the orchestrator Lambda and following them up, registering and
    removing servers and strategies, ingesting telemetry and reading it back. *)
From S2P Require Import Prelude PyStr PyFloat Json Config PyTime Permissions Schema Realtime.
From S2P Require Import Alerts ApiWorld DemoEnv Security RateLimit Auth.

Section control_api.
Context {env : Env}.

(** ** [lambda_client.py] *)
Definition lambda_call (event : json) : Api json := fun w =>
  (lambda_invoke (List.length w.(w_calls)) event, set_calls (w.(w_calls) ++ [event]) w).

Definition invoke_error (prefix : string) (e : exn) : exn :=
  match e with
  | ClientError _ msg | BotoCoreError msg => LambdaInvokeError (prefix +:+ ": " +:+ msg)
  | OtherError "FunctionError" raw => LambdaInvokeError ("Lambda returned an error: " +:+ raw)
  | OtherError "JSONDecodeError" msg => LambdaInvokeError ("Lambda response was not valid JSON: " +:+ msg)
  | e => e
  end.

Definition invoke_orchestrator (action : string) (payload : list (string * json)) : Api json :=
  if negb (truthy settings.(s_lambda_function_name)) then
    raise (LambdaInvokeError "LAMBDA_FUNCTION_NAME environment variable is not set")
  else
    try_except (lambda_call (JObj (("action", JStr action) :: payload)))
      (fun e => raise (invoke_error "Lambda invoke failed" e)).

(** The asynchronous form ignores the response: only a failure to invoke
    surfaces. *)
Definition invoke_orchestrator_async (action : string) (payload : list (string * json)) : Api unit :=
  if negb (truthy settings.(s_lambda_function_name)) then
    raise (LambdaInvokeError "LAMBDA_FUNCTION_NAME environment variable is not set")
  else
    try_except (lambda_call (JObj (("action", JStr action) :: payload)) ;;; ret tt)
      (fun e => match e with
                | ClientError _ msg | BotoCoreError msg =>
                    raise (LambdaInvokeError ("Lambda async invoke failed: " +:+ msg))
                | OtherError "FunctionError" _ | OtherError "JSONDecodeError" _ => ret tt
                | e => raise e
                end).

(** [result.get(...)]: an answer that is not a JSON object has no [get]. *)
Definition as_dict (result : json) : Api json :=
  match result with
  | JObj _ => ret result
  | _ => raise (OtherError "AttributeError" "object has no attribute 'get'")
  end.

(** ** Requests and responses *)
Record AlgoActionRequest : Type := mkActionRequest {
  ar_algo_id : string;
  ar_server_id : string;
  ar_requested_by : option string
}.
Record CommandResponse : Type := mkCommandResponse {
  cr_success : bool;
  cr_command_id : Z;
  cr_job_id : json;
  cr_status : json;
  cr_message : json
}.

Inductive algo_action : Type := ActStart | ActStop | ActRestart | ActUpdate.
Definition action_name (a : algo_action) : string :=
  match a with ActStart => "start" | ActStop => "stop" | ActRestart => "restart" | ActUpdate => "update" end.
Definition _ACTION_TO_AGENT_COMMAND (a : algo_action) : string :=
  match a with
  | ActStart => "START_ALGO" | ActStop => "STOP_ALGO" | ActRestart => "RESTART_ALGO" | ActUpdate => "UPDATE"
  end.
Definition _ACTION_PERMISSION (a : algo_action) : Permission :=
  match a with ActStart => START | ActStop => STOP | ActRestart => RESTART | ActUpdate => TRADING_CONTROL end.
Definition _ACTION_AUDIT (a : algo_action) : string :=
  match a with
  | ActStart => "ALGO_START" | ActStop => "ALGO_STOP" | ActRestart => "ALGO_RESTART" | ActUpdate => "ALGO_UPDATE"
  end.
Definition lambda_action (a : algo_action) : string :=
  match a with
  | ActStart => "start_algo" | ActStop => "stop_algo" | ActRestart => "restart_algo" | ActUpdate => "update_algo"
  end.

(** ** Look-ups *)
Definition _resolve_server (server_name : string) : Api Server :=
  let! s := one_or_none_q servers (fun s => String.eqb s.(srv_name) server_name) in
  match s with
  | Some s => ret s
  | None => raise (HTTPException 404 ("Unknown server: " +:+ server_name))
  end.

Definition find_algo (name : string) (server : Server) : Api (option Algo) :=
  one_or_none_q algos (fun a => String.eqb a.(algo_name) name && (a.(algo_server_id) =? server.(srv_id))).

Definition _get_or_create_algo (name : string) (server : Server) : Api Algo :=
  let! a := find_algo name server in
  match a with
  | Some a => ret a
  | None => raise (HTTPException 404 ("Algo not registered: " +:+ name +:+ " on " +:+ server.(srv_name)
                                      +:+ ". Register it via POST /api/algos first."))
  end.

(** ** Assignments to loaded rows *)
Definition set_command (status : string) (job_id : option string) (result : json)
    (error : option string) (c : Command) : Command :=
  mkCommand c.(cmd_id) c.(cmd_algo_id) c.(cmd_server_id) c.(cmd_command) job_id
    c.(cmd_requested_by) status result error.
Definition stage_command (id : Z) (f : Command -> Command) : Api unit :=
  stage (on_commands (update_where (fun c => c.(cmd_id) =? id) f)).
(** An update of an algo row sets [updated_at] ([onupdate]) when some column
    changes. *)
Definition set_algo (script_path status : string) (enabled : bool) (trading_mode : option string)
    (running_lots : option Z) (t : timestamp) (a : Algo) : Algo :=
  mkAlgo a.(algo_pk) a.(algo_name) a.(algo_server_id) script_path status enabled trading_mode
    running_lots
    (if bool_decide (script_path = a.(algo_script_path)) && bool_decide (status = a.(algo_status))
        && Bool.eqb enabled a.(algo_enabled) && bool_decide (trading_mode = a.(algo_trading_mode))
        && bool_decide (running_lots = a.(algo_running_lots))
     then a.(algo_updated_at) else t).
Definition stage_algo (id : Z) (f : Algo -> Algo) : Api unit :=
  stage (on_algos (update_where (fun a => a.(algo_pk) =? id) f)).
Definition set_algo_status (status : string) (t : timestamp) (a : Algo) : Algo :=
  set_algo a.(algo_script_path) status a.(algo_enabled) a.(algo_trading_mode) a.(algo_running_lots) t a.
Definition set_server_status (x : string) (s : Server) : Server :=
  mkServer s.(srv_id) s.(srv_name) s.(srv_ec2_instance_id) s.(srv_region) x s.(srv_os)
    s.(srv_repo_path) s.(srv_provisioning_status) s.(srv_provisioning_message) s.(srv_last_heartbeat).
Definition set_server_heartbeat (t : timestamp) (s : Server) : Server :=
  mkServer s.(srv_id) s.(srv_name) s.(srv_ec2_instance_id) s.(srv_region) s.(srv_status) s.(srv_os)
    s.(srv_repo_path) s.(srv_provisioning_status) s.(srv_provisioning_message) (Some t).
Definition set_provisioning (status : string) (msg : option string) (s : Server) : Server :=
  mkServer s.(srv_id) s.(srv_name) s.(srv_ec2_instance_id) s.(srv_region) s.(srv_status) s.(srv_os)
    s.(srv_repo_path) status msg s.(srv_last_heartbeat).
Definition stage_server (id : Z) (f : Server -> Server) : Api unit :=
  stage (on_servers (update_where (fun s => s.(srv_id) =? id) f)).

(** A value assigned to a text column: [NULL] where the column forbids it
    fails the flush, another type fails the driver. *)
Definition text_column (j : json) : Api string :=
  match j with
  | JStr s => ret s
  | JNull => raise IntegrityError
  | _ => raise (OtherError "ProgrammingError" "can't adapt type")
  end.
Definition nullable_text (j : json) : Api (option string) :=
  match j with
  | JStr s => ret (Some s)
  | JNull => ret None
  | _ => raise (OtherError "ProgrammingError" "can't adapt type")
  end.

Definition exn_text (e : exn) : string :=
  match e with
  | LambdaInvokeError m | ValueError m | TokenError m | WeakPasswordError m | BotoCoreError m
  | ClientError _ m | AlgoListError m | AlgoNotFoundError m | OtherError _ m => m
  | KeyError k => "'" +:+ k +:+ "'"
  | _ => ""
  end.

Definition audit_as (p : Principal) (r : Request) (action target : string) (detail : json) : Api unit :=
  audit_record (actor p) action (Some p.(pr_label)) (Some target) "success" (Some (client_ip r))
    (header r "user-agent") detail.

(** ** Commands *)
Definition _run_algo_action (a : algo_action) (b : AlgoActionRequest) (r : Request) (p : Principal)
  : Api CommandResponse :=
  let! server := _resolve_server b.(ar_server_id) in
  let! algo := _get_or_create_algo b.(ar_algo_id) server in
  let requested_by := opt_str_or (Some p.(pr_label)) b.(ar_requested_by) in
  let! i := fresh_id in
  stage (on_commands (fun l =>
    l ++ [mkCommand i (Some algo.(algo_pk)) server.(srv_id) (_ACTION_TO_AGENT_COMMAND a) None
            requested_by "PENDING" JNull None])) ;;;
  commit ;;;
  audit_as p r (_ACTION_AUDIT a)
    ("algo:" +:+ b.(ar_algo_id) +:+ "@" +:+ b.(ar_server_id)) (JObj [("command_id", JInt i)]) ;;;
  let! res :=
    try_except
      (let! x := invoke_orchestrator (lambda_action a)
         [("algo_id", JStr b.(ar_algo_id)); ("instance_id", JStr server.(srv_ec2_instance_id));
          ("repo_path", JStr server.(srv_repo_path)); ("os_name", JStr server.(srv_os));
          ("server_name", JStr server.(srv_name))] in
       ret (inl x))
      (fun e => match e with LambdaInvokeError msg => ret (inr msg) | _ => raise e end) in
  match res with
  | inr msg =>
      stage_command i (set_command "FAILED" None JNull (Some msg)) ;;;
      commit ;;;
      emit_event (ev_command i (Some b.(ar_algo_id)) b.(ar_server_id) (action_name a) "FAILED" JNull
                    (jopt_str requested_by) (JStr msg)) ;;;
      ret (mkCommandResponse false i JNull (JStr "FAILED") (JStr msg))
  | inl result =>
      let! result := as_dict result in
      let! job := nullable_text (jget "job_id" result) in
      let! st := text_column (jget_or "status" (JStr "FAILED") result) in
      let! err := if jtruthy (jget "success" result) then ret None else nullable_text (jget "error" result) in
      stage_command i (set_command st job result err) ;;;
      commit ;;;
      let shown := jget_or "status" (JStr "UNKNOWN") result in
      let message := jor (jget "error" result) (jget "message" result) in
      emit_event (ev_command i (Some b.(ar_algo_id)) b.(ar_server_id) (action_name a)
                    (default "" (jstr_opt shown)) (jget "job_id" result) (jopt_str requested_by) message) ;;;
      ret (mkCommandResponse (jtruthy (jget "success" result)) i (jget "job_id" result) shown message)
  end.

(** The four command routes. *)
Definition algo_command_route (a : algo_action) (b : AlgoActionRequest) (r : Request)
  : Api CommandResponse :=
  limited_route (require_permission (_ACTION_PERMISSION a)) r (_run_algo_action a b r).

Definition pending_statuses : list string := ["PENDING"; "STARTING"; "STOPPING"; "RESTARTING"; "UPDATING"].
Definition failed_statuses : list string := ["FAILED"; "ERROR"; "UNKNOWN"].

Definition command_response (c : Command) : CommandResponse :=
  mkCommandResponse (negb (str_in c.(cmd_status) failed_statuses)) c.(cmd_id)
    (jopt_str c.(cmd_job_id)) (JStr c.(cmd_status)) (jopt_str c.(cmd_error)).

(** The outcome the Lambda reports for a finished command, written to the
    command row and, when it carries a status, to the strategy's row. *)
Definition settle_command (row : Command) (server : Server) (result : json) : Api Command :=
  let! st := text_column (jget_or "status" (JStr row.(cmd_status)) result) in
  let! failure := if jtruthy (jget "success" result) then ret None
                  else let! e := nullable_text (jor (jget "error" result) (jget "message" result)) in
                       ret (Some e) in
  let assign c := set_command st c.(cmd_job_id) result (default c.(cmd_error) failure) c in
  let row' := assign row in
  stage_command row.(cmd_id) assign ;;;
  let! synced :=
    match row.(cmd_algo_id) with
    | None => ret None
    | Some aid =>
        if negb (jtruthy (jget "status" result)) then ret None
        else
          let! a := one_or_none_q algos (fun a => a.(algo_pk) =? aid) in
          match a with
          | None => ret None
          | Some a =>
              let! t := now in
              stage_algo a.(algo_pk) (set_algo_status st t) ;;;
              ret (Some a.(algo_name))
          end
    end in
  commit ;;;
  emit_event (ev_command row.(cmd_id) synced server.(srv_name) row.(cmd_command) st
                (jopt_str row.(cmd_job_id)) (jopt_str row.(cmd_requested_by))
                (jopt_str row'.(cmd_error))) ;;;
  (match synced with
   | Some name =>
       when truthy name do emit_event (ev_strategy_status name server.(srv_name) st None "command")
   | None => ret tt
   end) ;;;
  ret row'.

Definition get_command (command_id : Z) : Api CommandResponse :=
  let! row := one_or_none_q commands (fun c => c.(cmd_id) =? command_id) in
  match row with
  | None => raise (HTTPException 404 ("Unknown command_id: " +:+ str_of_Z command_id))
  | Some row =>
      if negb (str_in row.(cmd_status) pending_statuses && opt_truthy row.(cmd_job_id))
      then ret (command_response row)
      else
        let! server := one_or_none_q servers (fun s => s.(srv_id) =? row.(cmd_server_id)) in
        match server with
        | None => raise (HTTPException 404 ("Server for command " +:+ str_of_Z command_id +:+ " no longer exists"))
        | Some server =>
            let! result :=
              try_except
                (invoke_orchestrator "get_command_status"
                   [("job_id", jopt_str row.(cmd_job_id)); ("instance_id", JStr server.(srv_ec2_instance_id))])
                (fun e => match e with
                          | LambdaInvokeError msg => raise (HTTPException 502 ("Could not reach Lambda: " +:+ msg))
                          | _ => raise e
                          end) in
            let! result := as_dict result in
            if jis_str "IN_PROGRESS" (jget "status" result) then ret (command_response row)
            else
              let! row' := settle_command row server result in
              ret (command_response row')
        end
  end.

(** ** Status reads *)
Record AlgoStatusResponse : Type := mkAlgoStatus {
  as_success : bool;
  as_algo_id : string;
  as_status : json;
  as_pid : json;
  as_started_at : json;
  as_message : json
}.
Record ServerStatusResponse : Type := mkServerStatus {
  ss_name : string;
  ss_ec2_instance_id : string;
  ss_region : string;
  ss_status : string;
  ss_last_heartbeat : option timestamp;
  ss_ssm_status : json;
  ss_live_check_healthy : json
}.

Definition algo_status_view (algo_id server_id : string) : Api AlgoStatusResponse :=
  let! server := _resolve_server server_id in
  let! result :=
    try_except
      (invoke_orchestrator "get_algo_status"
         [("algo_id", JStr algo_id); ("instance_id", JStr server.(srv_ec2_instance_id));
          ("repo_path", JStr server.(srv_repo_path)); ("os_name", JStr server.(srv_os))])
      (fun e => match e with
                | LambdaInvokeError msg => raise (HTTPException 502 ("Could not reach Lambda: " +:+ msg))
                | _ => raise e
                end) in
  let! result := as_dict result in
  ret (mkAlgoStatus (jtruthy (jget "success" result)) algo_id
         (jget_or "status" (JStr "UNKNOWN") result) (jget "pid" result) (jget "started_at" result)
         (jor (jget "error" result) (jget "message" result))).

Definition jopt_time (o : option timestamp) : json :=
  match o with Some t => isoformat t | None => JNull end.

Definition server_status_view (server_id : string) (live : bool) : Api ServerStatusResponse :=
  let! server := _resolve_server server_id in
  let view (st : string) (ssm healthy : json) :=
    mkServerStatus server.(srv_name) server.(srv_ec2_instance_id) server.(srv_region) st
      server.(srv_last_heartbeat) ssm healthy in
  if negb live then ret (view server.(srv_status) JNull JNull)
  else
    try_except
      (let! result := invoke_orchestrator "check_ec2_health" [("instance_id", JStr server.(srv_ec2_instance_id))] in
       let! result := as_dict result in
       if negb (jtruthy (jget "success" result)) then ret (view server.(srv_status) JNull JNull)
       else
         let! st := text_column (jget_or "ec2_status" (JStr server.(srv_status)) result) in
         stage_server server.(srv_id) (set_server_status st) ;;;
         commit ;;;
         emit_event (ev_server_health server.(srv_name) st (jget "ssm_status" result) (jget "healthy" result)
                       (jopt_time server.(srv_last_heartbeat)) "live_check") ;;;
         ret (view st (jget "ssm_status" result) (jget "healthy" result)))
      (fun e => match e with
                | LambdaInvokeError _ => ret (view server.(srv_status) JNull JNull)
                | _ => raise e
                end).

(** ** Servers *)
Record ServerListEntry : Type := mkServerEntry {
  se_server_id : string;
  se_ec2_instance_id : string;
  se_region : string;
  se_status : string;
  se_os : string;
  se_repo_path : string;
  se_provisioning_status : string;
  se_provisioning_message : option string;
  se_last_heartbeat : option timestamp
}.
Record ServerIn : Type := mkServerIn {
  si_server_id : string;
  si_ec2_instance_id : string;
  si_region : string;
  si_status : string;
  si_os : string;
  si_repo_path : string;
  si_auto_provision : bool
}.
Record ServerUpdate : Type := mkServerUpdate {
  su_server_id : option string;
  su_ec2_instance_id : option string;
  su_region : option string;
  su_status : option string;
  su_os : option string;
  su_repo_path : option string;
  su_provisioning_status : option string;
  su_provisioning_message : option string
}.

Definition _server_entry (s : Server) : ServerListEntry :=
  mkServerEntry s.(srv_name) s.(srv_ec2_instance_id) s.(srv_region) s.(srv_status) s.(srv_os)
    s.(srv_repo_path) s.(srv_provisioning_status) s.(srv_provisioning_message) s.(srv_last_heartbeat).

(** [try: commit() except IntegrityError: rollback(); raise HTTPException(...)] *)
Definition commit_or (e : exn) : Api unit :=
  try_except commit
    (fun x => match x with IntegrityError => rollback ;;; raise e | _ => raise x end).

Definition register_server (b : ServerIn) (r : Request) (p : Principal) : Api ServerListEntry :=
  let! i := fresh_id in
  let server := mkServer i b.(si_server_id) b.(si_ec2_instance_id) b.(si_region) b.(si_status)
                  b.(si_os) b.(si_repo_path)
                  (if b.(si_auto_provision) then "PROVISIONING" else "READY") None None in
  stage (on_servers (fun l => l ++ [server])) ;;;
  commit_or (HTTPException 409 ("Server already registered: " +:+ b.(si_server_id))) ;;;
  let! server' :=
    if negb b.(si_auto_provision) then ret server
    else
      try_except
        (invoke_orchestrator_async "provision_server"
           [("instance_id", JStr server.(srv_ec2_instance_id)); ("os_name", JStr server.(srv_os));
            ("repo_path", JStr server.(srv_repo_path)); ("server_name", JStr server.(srv_name))] ;;;
         ret server)
        (fun e => match e with
                  | LambdaInvokeError msg =>
                      let f := set_provisioning "FAILED" (Some ("Could not start provisioning: " +:+ msg)) in
                      stage_server i f ;;; commit ;;; ret (f server)
                  | _ => raise e
                  end) in
  audit_as p r "SERVER_REGISTERED" ("server:" +:+ server.(srv_name))
    (JObj [("ec2_instance_id", JStr server.(srv_ec2_instance_id)); ("auto_provision", JBool b.(si_auto_provision))]) ;;;
  ret (_server_entry server').

Definition list_servers : Api (list ServerListEntry) :=
  query (fun d => map _server_entry
    (sort_by (fun a b => String.leb a.(srv_name) b.(srv_name)) d.(servers))).

Definition apply_server_update (b : ServerUpdate) (s : Server) : Server :=
  mkServer s.(srv_id) (default s.(srv_name) b.(su_server_id))
    (default s.(srv_ec2_instance_id) b.(su_ec2_instance_id)) (default s.(srv_region) b.(su_region))
    (default s.(srv_status) b.(su_status)) (default s.(srv_os) b.(su_os))
    (default s.(srv_repo_path) b.(su_repo_path))
    (default s.(srv_provisioning_status) b.(su_provisioning_status))
    (match b.(su_provisioning_message) with Some m => Some m | None => s.(srv_provisioning_message) end)
    s.(srv_last_heartbeat).

(** [body.model_dump(exclude_none=True)] *)
Definition dump_field (k : string) (o : option string) : list (string * json) :=
  match o with Some v => [(k, JStr v)] | None => [] end.
Definition dump_server_update (b : ServerUpdate) : json :=
  JObj (dump_field "server_id" b.(su_server_id) ++ dump_field "ec2_instance_id" b.(su_ec2_instance_id) ++
        dump_field "region" b.(su_region) ++ dump_field "status" b.(su_status) ++ dump_field "os" b.(su_os) ++
        dump_field "repo_path" b.(su_repo_path) ++
        dump_field "provisioning_status" b.(su_provisioning_status) ++
        dump_field "provisioning_message" b.(su_provisioning_message)).

Definition update_server (server_id : string) (b : ServerUpdate) (r : Request) (p : Principal)
  : Api ServerListEntry :=
  let! server := _resolve_server server_id in
  stage_server server.(srv_id) (apply_server_update b) ;;;
  commit_or (HTTPException 409 ("Server already registered: " +:+ default "None" b.(su_server_id))) ;;;
  let server' := apply_server_update b server in
  audit_as p r "SERVER_UPDATED" ("server:" +:+ server'.(srv_name)) (dump_server_update b) ;;;
  ret (_server_entry server').

Definition delete_server (server_id : string) (r : Request) (p : Principal) : Api unit :=
  let! server := _resolve_server server_id in
  let! n := query (fun d => Z.of_nat (List.length
              (List.filter (fun a => a.(algo_server_id) =? server.(srv_id)) d.(algos)))) in
  if negb (n =? 0) then
    raise (HTTPException 409 ("Cannot delete server '" +:+ server_id +:+ "': " +:+ str_of_Z n
                              +:+ " algo(s) still registered against it."))
  else
    stage (on_servers (delete_where (fun s => s.(srv_id) =? server.(srv_id)))) ;;;
    commit_or (HTTPException 409 ("Cannot delete server '" +:+ server_id +:+ "': it still has related records.")) ;;;
    audit_as p r "SERVER_DELETED" ("server:" +:+ server_id) JNull.

(** ** Server power *)
Inductive power_action : Type := PowStart | PowStop | PowRestart.
Definition power_name (a : power_action) : string :=
  match a with PowStart => "start" | PowStop => "stop" | PowRestart => "restart" end.
Definition _SERVER_POWER (a : power_action) : string * string :=
  match a with
  | PowStart => ("start_ec2", "SERVER_START")
  | PowStop => ("stop_ec2", "SERVER_STOP")
  | PowRestart => ("restart_ec2", "SERVER_RESTART")
  end.

Record ServerPowerResponse : Type := mkPowerResponse {
  sp_server_id : string;
  sp_ec2_instance_id : string;
  sp_status : string;
  sp_message : json
}.

Definition _run_server_power (a : power_action) (server_id : string) (force : bool) (r : Request)
    (p : Principal) : Api ServerPowerResponse :=
  let '(lambda_action, audit_action) := _SERVER_POWER a in
  let! server := _resolve_server server_id in
  let! result :=
    try_except
      (invoke_orchestrator lambda_action
         [("instance_id", JStr server.(srv_ec2_instance_id)); ("os_name", JStr server.(srv_os));
          ("server_name", JStr server.(srv_name)); ("force", JBool force)])
      (fun e => match e with
                | LambdaInvokeError msg => raise (HTTPException 502 ("Could not reach Lambda: " +:+ msg))
                | _ => raise e
                end) in
  let! result := as_dict result in
  audit_as p r audit_action ("server:" +:+ server.(srv_name))
    (JObj [("force", JBool force); ("result_status", jget "status" result);
           ("success", jget "success" result)]) ;;;
  if negb (jtruthy (jget "success" result)) then
    let msg dflt := default dflt (jstr_opt (jor (jget "error" result) (JStr dflt))) in
    if jis_str "blocked" (jget "safe_stop" result) || jis_str "unverified" (jget "safe_stop" result) then
      raise (HTTPException 409 (msg "Stop blocked: trading processes still alive on this server."))
    else raise (HTTPException 502 (msg (lambda_action +:+ " failed")))
  else
    let! st := text_column (jget_or "status" (JStr server.(srv_status)) result) in
    stage_server server.(srv_id) (set_server_status st) ;;;
    commit ;;;
    emit_event (ev_server_health server.(srv_name) st JNull JNull
                  (jopt_time server.(srv_last_heartbeat)) ("power_" +:+ power_name a)) ;;;
    ret (mkPowerResponse server.(srv_name) server.(srv_ec2_instance_id) st (jget "message" result)).

(** ** Strategies *)
Record AlgoListEntry : Type := mkAlgoEntry {
  ae_algo_id : string;
  ae_server_id : string;
  ae_status : string;
  ae_enabled : bool;
  ae_script_path : string;
  ae_updated_at : timestamp;
  ae_last_heartbeat : option timestamp;
  ae_trading_mode : option string;
  ae_running_lots : option Z
}.
Record AlgoIn : Type := mkAlgoIn {
  ai_algo_id : string;
  ai_server_id : string;
  ai_script_path : option string;
  ai_status : string;
  ai_enabled : bool
}.
Record AlgoUpdate : Type := mkAlgoUpdate {
  au_script_path : option string;
  au_status : option string;
  au_enabled : option bool
}.
Record AlgoRegisterResponse : Type := mkAlgoRegister {
  rr_algo : AlgoListEntry;
  rr_sync_attempted : bool;
  rr_sync_success : bool;
  rr_sync_message : json
}.

Definition algo_entry (a : Algo) (server_name : string) (last : option timestamp) : AlgoListEntry :=
  mkAlgoEntry a.(algo_name) server_name a.(algo_status) a.(algo_enabled) a.(algo_script_path)
    a.(algo_updated_at) last a.(algo_trading_mode) a.(algo_running_lots).

(** [SELECT max(timestamp) ... WHERE algo_id = i] *)
Definition max_opt (l : list Z) : option Z :=
  match l with [] => None | x :: r => Some (fold_left Z.max r x) end.
Definition latest_heartbeat (d : Db) (i : Z) : option timestamp :=
  max_opt (map hb_timestamp (List.filter (fun h => h.(hb_algo_id) =? i) d.(heartbeats))).

Definition register_algo (b : AlgoIn) (r : Request) (p : Principal) : Api AlgoRegisterResponse :=
  let! server := _resolve_server b.(ai_server_id) in
  let conflict := HTTPException 409 ("Algo already registered: " +:+ b.(ai_algo_id) +:+ " on " +:+ b.(ai_server_id)) in
  let! existing := find_algo b.(ai_algo_id) server in
  match existing with
  | Some _ => raise conflict
  | None =>
      let! i := fresh_id in
      let! t := now in
      let script := default "" (opt_str_or b.(ai_script_path)
                      (Some ("trading/algos/" +:+ b.(ai_algo_id) +:+ "/main.py"))) in
      let algo := mkAlgo i b.(ai_algo_id) server.(srv_id) script b.(ai_status) b.(ai_enabled) None None t in
      stage (on_algos (fun l => l ++ [algo])) ;;;
      commit_or conflict ;;;
      let! sync :=
        try_except
          (let! res := invoke_orchestrator "sync_repo"
             [("instance_id", JStr server.(srv_ec2_instance_id)); ("repo_path", JStr server.(srv_repo_path));
              ("os_name", JStr server.(srv_os)); ("algo_id", JStr b.(ai_algo_id))] in
           let! res := as_dict res in
           ret (jtruthy (jget "success" res),
                jor (jget "output" res) (jor (jget "error" res) (jget "message" res))))
          (fun e => match e with LambdaInvokeError msg => ret (false, JStr msg) | _ => raise e end) in
      audit_as p r "ALGO_REGISTERED" ("algo:" +:+ b.(ai_algo_id) +:+ "@" +:+ b.(ai_server_id))
        (JObj [("sync_success", JBool (fst sync))]) ;;;
      ret (mkAlgoRegister (algo_entry algo server.(srv_name) None) true (fst sync) (snd sync))
  end.

Definition apply_algo_update (b : AlgoUpdate) (t : timestamp) (a : Algo) : Algo :=
  set_algo (default a.(algo_script_path) b.(au_script_path)) (default a.(algo_status) b.(au_status))
    (default a.(algo_enabled) b.(au_enabled)) a.(algo_trading_mode) a.(algo_running_lots) t a.

Definition unknown_algo (algo_id server_id : string) : exn :=
  HTTPException 404 ("Unknown algo: " +:+ algo_id +:+ " on " +:+ server_id).

Definition patch_algo (algo_id server_id : string) (b : AlgoUpdate) (r : Request) (p : Principal)
  : Api AlgoListEntry :=
  let! server := _resolve_server server_id in
  let! algo := find_algo algo_id server in
  match algo with
  | None => raise (unknown_algo algo_id server_id)
  | Some a =>
      let! t := now in
      stage_algo a.(algo_pk) (apply_algo_update b t) ;;;
      commit ;;;
      audit_as p r "ALGO_PATCHED" ("algo:" +:+ algo_id +:+ "@" +:+ server_id)
        (JObj (dump_field "script_path" b.(au_script_path) ++ dump_field "status" b.(au_status) ++
               match b.(au_enabled) with Some x => [("enabled", JBool x)] | None => [] end)) ;;;
      let! last := query (fun d => latest_heartbeat d a.(algo_pk)) in
      ret (algo_entry (apply_algo_update b t a) server.(srv_name) last)
  end.

(** The seven tables whose rows refer to a strategy. *)
Inductive related : Type := RHeartbeat | RLog | RPosition | RTrade | RDailyPnl | RCommand | RRun.
Definition related_models : list (string * related) :=
  [("heartbeat(s)", RHeartbeat); ("log(s)", RLog); ("position(s)", RPosition); ("trade(s)", RTrade);
   ("daily P&L row(s)", RDailyPnl); ("command(s)", RCommand); ("run(s)", RRun)].
Definition opt_is (i : Z) (o : option Z) : bool := match o with Some k => k =? i | None => false end.
Definition related_count (i : Z) (m : related) (d : Db) : Z :=
  Z.of_nat match m with
  | RHeartbeat => List.length (List.filter (fun x => x.(hb_algo_id) =? i) d.(heartbeats))
  | RLog => List.length (List.filter (fun x => opt_is i x.(log_algo_id)) d.(logs))
  | RPosition => List.length (List.filter (fun x => x.(pos_algo_id) =? i) d.(positions))
  | RTrade => List.length (List.filter (fun x => x.(trade_algo_id) =? i) d.(trades))
  | RDailyPnl => List.length (List.filter (fun x => x.(dp_algo_id) =? i) d.(daily_pnl))
  | RCommand => List.length (List.filter (fun x => opt_is i x.(cmd_algo_id)) d.(commands))
  | RRun => List.length (List.filter (fun x => x.(run_algo_id) =? i) d.(algo_runs))
  end.
Definition related_delete (i : Z) (m : related) : Db -> Db :=
  match m with
  | RHeartbeat => on_heartbeats (delete_where (fun x => x.(hb_algo_id) =? i))
  | RLog => on_logs (delete_where (fun x => opt_is i x.(log_algo_id)))
  | RPosition => on_positions (delete_where (fun x => x.(pos_algo_id) =? i))
  | RTrade => on_trades (delete_where (fun x => x.(trade_algo_id) =? i))
  | RDailyPnl => on_daily_pnl (delete_where (fun x => x.(dp_algo_id) =? i))
  | RCommand => on_commands (delete_where (fun x => opt_is i x.(cmd_algo_id)))
  | RRun => on_algo_runs (delete_where (fun x => x.(run_algo_id) =? i))
  end.

Definition blocking_of (i : Z) (d : Db) : list (string * related * Z) :=
  List.filter (fun x => negb (snd x =? 0))
    (map (fun lm => (lm, related_count i (snd lm) d)) related_models).

Definition delete_algo (algo_id server_id : string) (force : bool) (r : Request) (p : Principal)
  : Api unit :=
  let! server := _resolve_server server_id in
  let! algo := find_algo algo_id server in
  match algo with
  | None => raise (unknown_algo algo_id server_id)
  | Some a =>
      let! blocking := query (blocking_of a.(algo_pk)) in
      if negb (bool_decide (blocking = [])) && negb force then
        let detail := String.concat ", "
                        (map (fun x => str_of_Z (snd x) +:+ " " +:+ fst (fst x)) blocking) in
        raise (HTTPException 409 ("Cannot delete algo '" +:+ algo_id +:+ "' on '" +:+ server_id
          +:+ "': still has " +:+ detail +:+ ". Retry with ?force=true to also purge this history."))
      else
        for_each blocking (fun x => execute (related_delete a.(algo_pk) (snd (fst x)))) ;;;
        stage (on_algos (delete_where (fun x => x.(algo_pk) =? a.(algo_pk)))) ;;;
        commit_or (HTTPException 409 ("Cannot delete algo '" +:+ algo_id +:+ "': it still has related records.")) ;;;
        audit_as p r "ALGO_DELETED" ("algo:" +:+ algo_id +:+ "@" +:+ server_id)
          (JObj [("force", JBool force);
                 ("purged", JObj (map (fun x => (fst (fst x), JInt (snd x))) blocking))])
  end.

(** Strategies joined with their server, by server name then strategy name. *)
Definition list_algos : Api (list AlgoListEntry) :=
  query (fun d =>
    map (fun x => algo_entry (fst x) (snd x) (latest_heartbeat d (fst x).(algo_pk)))
      (sort_by (fun x y =>
          if String.eqb (snd x) (snd y) then String.leb (fst x).(algo_name) (fst y).(algo_name)
          else String.leb (snd x) (snd y))
        (flat_map (fun a => map (fun s => (a, s.(srv_name)))
           (List.filter (fun s => s.(srv_id) =? a.(algo_server_id)) d.(servers))) d.(algos)))).

(** ** Telemetry *)
Record HeartbeatIn : Type := mkHeartbeatIn {
  hi_algo_id : string;
  hi_server_id : string;
  hi_status : string;
  hi_cpu : option float;
  hi_memory : option float;
  hi_pnl : option float;
  hi_position : option string;
  hi_timestamp : option timestamp;
  hi_trading_mode : option string;
  hi_running_lots : option Z
}.
Record LogIn : Type := mkLogIn {
  li_algo_id : string;
  li_server_id : string;
  li_level : string;
  li_event : string;
  li_details : json;
  li_timestamp : option timestamp
}.
Record PositionIn : Type := mkPositionIn {
  pi_algo_id : string;
  pi_server_id : string;
  pi_symbol : string;
  pi_quantity : Z;
  pi_average_price : float;
  pi_last_price : option float;
  pi_pnl : option float
}.
Record TradeIn : Type := mkTradeIn {
  ti_algo_id : string;
  ti_server_id : string;
  ti_symbol : string;
  ti_side : string;
  ti_quantity : Z;
  ti_price : float;
  ti_order_id : option string;
  ti_executed_at : option timestamp
}.
Record DailyPnlIn : Type := mkDailyPnlIn {
  di_algo_id : string;
  di_server_id : string;
  di_pnl : float;
  di_trade_count : Z;
  di_pnl_date : option Z
}.

Definition opt_or {A} (a b : option A) : option A := match a with Some x => Some x | None => b end.

(** The strategy's row after a heartbeat. *)
Definition apply_heartbeat (b : HeartbeatIn) (t : timestamp) (a : Algo) : Algo :=
  set_algo a.(algo_script_path) b.(hi_status) a.(algo_enabled)
    (opt_or b.(hi_trading_mode) a.(algo_trading_mode))
    (opt_or b.(hi_running_lots) a.(algo_running_lots)) t a.

(** The alert and the event of a change to [status]. *)
Definition transition_alert (algo_id server_id status : string) : Api unit :=
  let announce a kind severity text :=
    send_alert a ;;;
    emit_event (ev_alert kind severity (algo_id +:+ text +:+ server_id) (Some algo_id) (Some server_id) JNull) in
  if String.eqb status "RUNNING" then
    announce (StrategyRecovered algo_id server_id f_zero) "strategy_recovered" "info" " recovered on "
  else if String.eqb status "STOPPED" then
    announce (StrategyStopped algo_id server_id) "strategy_stopped" "warning" " stopped on "
  else if String.eqb status "ERROR" then
    announce (StrategyCrashed algo_id server_id "Status changed to ERROR") "strategy_crashed" "critical"
      " entered ERROR on "
  else ret tt.

Definition post_heartbeat (b : HeartbeatIn) : Api unit :=
  let! server := _resolve_server b.(hi_server_id) in
  let! algo := _get_or_create_algo b.(hi_algo_id) server in
  let previous_status := algo.(algo_status) in
  let! t := now in
  let ts := default t b.(hi_timestamp) in
  let! i := fresh_id in
  stage (on_heartbeats (fun l =>
    l ++ [mkHeartbeat i algo.(algo_pk) server.(srv_id) ts b.(hi_status) b.(hi_cpu) b.(hi_memory)
            b.(hi_pnl) b.(hi_position)])) ;;;
  stage_algo algo.(algo_pk) (apply_heartbeat b t) ;;;
  stage_server server.(srv_id) (set_server_heartbeat ts) ;;;
  commit ;;;
  let algo' := apply_heartbeat b t algo in
  emit_event (ev_heartbeat b.(hi_algo_id) b.(hi_server_id) b.(hi_status) b.(hi_cpu) b.(hi_memory)
                b.(hi_pnl) b.(hi_position) (isoformat ts) algo'.(algo_trading_mode) algo'.(algo_running_lots)) ;;;
  when negb (String.eqb previous_status b.(hi_status)) do
    (emit_event (ev_strategy_status b.(hi_algo_id) b.(hi_server_id) b.(hi_status)
                   (Some previous_status) "heartbeat") ;;;
     transition_alert b.(hi_algo_id) b.(hi_server_id) b.(hi_status)).

Definition post_log (b : LogIn) : Api unit :=
  let! server := _resolve_server b.(li_server_id) in
  let! algo := _get_or_create_algo b.(li_algo_id) server in
  let level := upper b.(li_level) in
  let! t := now in
  let! i := fresh_id in
  stage (on_logs (fun l =>
    l ++ [mkLogRow i (Some algo.(algo_pk)) (Some server.(srv_id)) (default t b.(li_timestamp)) level
            b.(li_event) b.(li_details)])) ;;;
  commit ;;;
  when str_in level ["ERROR"; "WARNING"] do
    emit_event (ev_alert "log" (if String.eqb level "ERROR" then "critical" else "warning")
      (b.(li_event) +:+ " (" +:+ b.(li_algo_id) +:+ ")") (Some b.(li_algo_id)) (Some b.(li_server_id))
      b.(li_details)).

Definition position_key (aid sid : Z) (symbol : string) (x : Position) : bool :=
  (x.(pos_algo_id) =? aid) && (x.(pos_server_id) =? sid) && String.eqb x.(pos_symbol) symbol.
Definition set_position (b : PositionIn) (x : Position) : Position :=
  mkPosition x.(pos_id) x.(pos_algo_id) x.(pos_server_id) x.(pos_symbol) b.(pi_quantity)
    b.(pi_average_price) b.(pi_last_price) b.(pi_pnl).

(** The answer says whether the position was closed. *)
Definition post_position (b : PositionIn) : Api bool :=
  let! server := _resolve_server b.(pi_server_id) in
  let! algo := _get_or_create_algo b.(pi_algo_id) server in
  let! existing := one_or_none_q positions (position_key algo.(algo_pk) server.(srv_id) b.(pi_symbol)) in
  if b.(pi_quantity) =? 0 then
    (match existing with
     | Some x => stage (on_positions (delete_where (fun y => y.(pos_id) =? x.(pos_id)))) ;;; commit
     | None => ret tt
     end) ;;;
    emit_event (ev_position b.(pi_algo_id) b.(pi_server_id) b.(pi_symbol) 0 None None None true) ;;;
    ret true
  else
    (match existing with
     | Some x => stage (on_positions (update_where (fun y => y.(pos_id) =? x.(pos_id)) (set_position b)))
     | None =>
         let! i := fresh_id in
         stage (on_positions (fun l =>
           l ++ [mkPosition i algo.(algo_pk) server.(srv_id) b.(pi_symbol) b.(pi_quantity)
                   b.(pi_average_price) b.(pi_last_price) b.(pi_pnl)]))
     end) ;;;
    commit ;;;
    emit_event (ev_position b.(pi_algo_id) b.(pi_server_id) b.(pi_symbol) b.(pi_quantity)
                  (Some b.(pi_average_price)) b.(pi_last_price) b.(pi_pnl) false) ;;;
    ret false.

Definition post_trade (b : TradeIn) : Api unit :=
  let! server := _resolve_server b.(ti_server_id) in
  let! algo := _get_or_create_algo b.(ti_algo_id) server in
  let! t := now in
  let executed_at := default t b.(ti_executed_at) in
  let! i := fresh_id in
  stage (on_trades (fun l =>
    l ++ [mkTrade i algo.(algo_pk) server.(srv_id) b.(ti_symbol) (upper b.(ti_side)) b.(ti_quantity)
            b.(ti_price) executed_at b.(ti_order_id)])) ;;;
  commit ;;;
  emit_event (ev_trade b.(ti_algo_id) b.(ti_server_id) b.(ti_symbol) (upper b.(ti_side)) b.(ti_quantity)
                b.(ti_price) (isoformat executed_at) b.(ti_order_id)).

Definition pnl_key (aid sid date : Z) (x : DailyPnl) : bool :=
  (x.(dp_algo_id) =? aid) && (x.(dp_server_id) =? sid) && (x.(dp_date) =? date).
Definition set_pnl (pnl : float) (trade_count : Z) (x : DailyPnl) : DailyPnl :=
  mkDailyPnl x.(dp_id) x.(dp_algo_id) x.(dp_server_id) x.(dp_date) pnl trade_count.
(** [pnl < 0 and abs(pnl) > day_loss_limit] *)
Definition loss_breached (pnl limit : float) : bool := f_ltb pnl f_zero && f_gtb (f_abs pnl) limit.

(** The answer is the day, its P&L and its trade count. *)
Definition post_pnl (b : DailyPnlIn) : Api (Z * float * Z) :=
  let! server := _resolve_server b.(di_server_id) in
  let! algo := _get_or_create_algo b.(di_algo_id) server in
  let! t := now in
  let target_date := default (date_of t) b.(di_pnl_date) in
  let! existing := one_or_none_q daily_pnl (pnl_key algo.(algo_pk) server.(srv_id) target_date) in
  (match existing with
   | Some x =>
       stage (on_daily_pnl (update_where (fun y => y.(dp_id) =? x.(dp_id))
                              (set_pnl b.(di_pnl) b.(di_trade_count))))
   | None =>
       let! i := fresh_id in
       stage (on_daily_pnl (fun l =>
         l ++ [mkDailyPnl i algo.(algo_pk) server.(srv_id) target_date b.(di_pnl) b.(di_trade_count)]))
   end) ;;;
  commit ;;;
  emit_event (ev_pnl b.(di_algo_id) b.(di_server_id) (JInt target_date) b.(di_pnl) b.(di_trade_count)) ;;;
  let limit := settings.(s_day_loss_limit) in
  when loss_breached b.(di_pnl) limit do
    (send_alert (DayLossExceeded b.(di_algo_id) b.(di_server_id) b.(di_pnl) limit) ;;;
     emit_event (ev_alert "day_loss_exceeded" "critical"
       (b.(di_algo_id) +:+ " day loss " +:+ f_fmt 0 b.(di_pnl) +:+ " exceeds limit " +:+ f_fmt 0 limit)
       (Some b.(di_algo_id)) (Some b.(di_server_id)) JNull)) ;;;
  ret (target_date, b.(di_pnl), b.(di_trade_count)).

(** ** Reads

    The texts Python appends to the two date errors are left out. *)
Definition get_logs (algo_id server_id : string) (limit : Z) (level event log_date : option string)
  : Api (list LogRow) :=
  let! server := _resolve_server server_id in
  let! algo := _get_or_create_algo algo_id server in
  commit ;;;
  let! day :=
    match log_date with
    | None => ret None
    | Some s =>
        if negb (truthy s) then ret None
        else match strptime_ymd s with
             | Some o => ret (Some o)
             | None => raise (HTTPException 400 "log_date must be YYYY-MM-DD")
             end
    end in
  query (fun d =>
    take (Z.to_nat limit)
      (sort_by (fun a b => b.(log_timestamp) <=? a.(log_timestamp))
        (List.filter (fun x =>
            opt_is algo.(algo_pk) x.(log_algo_id) &&
            (negb (opt_truthy level) || String.eqb x.(log_level) (upper (default "" level))) &&
            (negb (opt_truthy event) || String.eqb x.(log_event) (default "" event)) &&
            match day with
            | None => true
            | Some o => (midnight o <=? x.(log_timestamp)) && (x.(log_timestamp) <? midnight (o + 1))
            end) d.(logs)))).

Definition get_today_pnl_bulk (pnl_date : option string) : Api (list (string * float)) :=
  let! t := now in
  let! target_date :=
    match pnl_date with
    | Some s =>
        if truthy s then
          match strptime_ymd s with
          | Some o => ret o
          | None => raise (HTTPException 400 "pnl_date must be YYYY-MM-DD")
          end
        else ret (date_of t)
    | None => ret (date_of t)
    end in
  query (fun d =>
    flat_map (fun x =>
      flat_map (fun a => map (fun s => (a.(algo_name) +:+ "|" +:+ s.(srv_name), x.(dp_pnl)))
                           (List.filter (fun s => s.(srv_id) =? x.(dp_server_id)) d.(servers)))
        (List.filter (fun a => a.(algo_pk) =? x.(dp_algo_id)) d.(algos)))
      (List.filter (fun x => x.(dp_date) =? target_date) d.(daily_pnl))).

Definition get_pnl (algo_id server_id : string) : Api (list DailyPnl) :=
  let! server := _resolve_server server_id in
  let! algo := _get_or_create_algo algo_id server in
  commit ;;;
  query (fun d => sort_by (fun a b => b.(dp_date) <=? a.(dp_date))
                    (List.filter (fun x => x.(dp_algo_id) =? algo.(algo_pk)) d.(daily_pnl))).

Definition get_positions (algo_id server_id : string) : Api (list Position) :=
  let! server := _resolve_server server_id in
  let! algo := _get_or_create_algo algo_id server in
  commit ;;;
  query (fun d => List.filter (fun x => x.(pos_algo_id) =? algo.(algo_pk)) d.(positions)).

Definition get_trades (algo_id server_id : string) (limit : Z) : Api (list Trade) :=
  let! server := _resolve_server server_id in
  let! algo := _get_or_create_algo algo_id server in
  commit ;;;
  query (fun d =>
    take (Z.to_nat limit)
      (sort_by (fun a b => b.(trade_executed_at) <=? a.(trade_executed_at))
        (List.filter (fun x => x.(trade_algo_id) =? algo.(algo_pk)) d.(trades)))).
End control_api.
