(* ===== verification/ControlSafety.v ===== *)
(** * Properties of the control-center API

    What the handlers of [ControlApi] guarantee: purging a strategy leaves a
    consistent database, positions and daily P&L are upserts, every Lambda
    dispatch is recorded before it is made, and the telemetry alerts follow
    the status changes. *)
From S2P Require Import Prelude PyStr PyFloat Json Config PyTime Permissions Schema Realtime.
From S2P Require Import Alerts ApiWorld DemoEnv Security RateLimit Auth ControlApi.

Section lookups.
Context {env : Env}.

Lemma lookup_server d s :
  db_ok d = true -> In s d.(servers) ->
  one_or_none (fun x => String.eqb x.(srv_name) s.(srv_name)) d.(servers) = Ok (Some s).
Proof.
  intros Hok Hs. db_split Hok. apply (one_or_none_found srv_name); auto.
  - now apply unique_on_NoDup.
  - apply String.eqb_refl.
  - intros y _ E. now apply String.eqb_eq in E.
Qed.

Lemma lookup_algo d a s :
  db_ok d = true -> In a d.(algos) -> a.(algo_server_id) = s.(srv_id) ->
  one_or_none (fun x => String.eqb x.(algo_name) a.(algo_name) && (x.(algo_server_id) =? s.(srv_id)))
    d.(algos) = Ok (Some a).
Proof.
  intros Hok Ha Hs. db_split Hok.
  apply (one_or_none_found (fun x => (algo_name x, algo_server_id x))); auto.
  - now apply unique_on_NoDup.
  - now rewrite Hs, String.eqb_refl, Z.eqb_refl.
  - intros y _ E. to_prop. congruence.
Qed.

Lemma resolve_server_run w s :
  w.(w_tx) = id -> db_ok w.(w_db) = true -> In s w.(w_db).(servers) ->
  _resolve_server s.(srv_name) w = (Ok s, w).
Proof.
  intros Ht Hok Hs. unfold _resolve_server. api_run. rewrite Ht. unfold id.
  now rewrite (lookup_server _ _ Hok Hs).
Qed.

Lemma find_algo_run w a s :
  w.(w_tx) = id -> db_ok w.(w_db) = true -> In a w.(w_db).(algos) -> a.(algo_server_id) = s.(srv_id) ->
  find_algo a.(algo_name) s w = (Ok (Some a), w).
Proof.
  intros Ht Hok Ha Hs. unfold find_algo. api_run. rewrite Ht. unfold id.
  now rewrite (lookup_algo _ _ _ Hok Ha Hs).
Qed.

Lemma get_algo_run w a s :
  w.(w_tx) = id -> db_ok w.(w_db) = true -> In a w.(w_db).(algos) -> a.(algo_server_id) = s.(srv_id) ->
  _get_or_create_algo a.(algo_name) s w = (Ok a, w).
Proof.
  intros Hi Hok Ha Hs. unfold _get_or_create_algo.
  now rewrite (bind_Ok _ _ _ _ _ (find_algo_run w a s Hi Hok Ha Hs)).
Qed.

(** ** Purging a strategy *)

(** The strategy and everything that refers to it. *)
Definition purge_algo (i : Z) (d : Db) : Db :=
  on_algos (delete_where (fun x => x.(algo_pk) =? i))
    (fold_left (fun d lm => related_delete i (snd lm) d) related_models d).

Lemma purge_algo_ok i d : db_ok d = true -> db_ok (purge_algo i d) = true.
Proof.
  intros Hok. db_split Hok. db_join; cbn; rewrite ?andb_true_iff;
    auto using unique_on_delete, refers_delete_rows, refers_opt_delete_rows, refers_purge.
  - now apply (refers_opt_purge log_algo_id).
  - now apply (refers_opt_purge cmd_algo_id).
Qed.

Lemma related_count_zero i m d : related_count i m d = 0 -> related_delete i m d = d.
Proof.
  assert (forall A (p : A -> bool) l, Z.of_nat (List.length (List.filter p l)) = 0 -> delete_where p l = l) as H.
  { intros A p l E. apply delete_where_none. intros x Hx. destruct (p x) eqn:Ep; [|reflexivity].
    assert (In x (List.filter p l)) as Hin by now apply List.filter_In.
    destruct (List.filter p l); [destruct Hin | cbn in E; lia]. }
  destruct d, m; cbn -[delete_where]; intros E; apply H in E; cbn in E;
    unfold on_heartbeats, on_logs, on_positions, on_trades, on_daily_pnl, on_commands, on_algo_runs;
    cbn -[delete_where]; now rewrite E.
Qed.

Lemma related_count_other i m m' d :
  m <> m' -> related_count i m (related_delete i m' d) = related_count i m d.
Proof. now destruct m, m'. Qed.

Lemma fold_blocking i l : forall d d0,
  NoDup (map snd l) -> (forall lm, In lm l -> related_count i (snd lm) d = related_count i (snd lm) d0) ->
  fold_left (fun d x => related_delete i (snd (fst x)) d)
    (List.filter (fun x => negb (snd x =? 0)) (map (fun lm => (lm, related_count i (snd lm) d0)) l)) d
  = fold_left (fun d (lm : string * related) => related_delete i (snd lm) d) l d.
Proof.
  induction l as [|lm l IH]; intros d d0 Hnd Hc; [reflexivity|].
  cbn [map] in Hnd. apply NoDup_cons in Hnd as [Hni Hnd].
  cbn [map List.filter fold_left snd].
  assert (forall lm', In lm' l -> snd lm' <> snd lm) as Hne.
  { intros lm' Hl E. apply Hni. rewrite <- E. apply list_elem_of_In, in_map, Hl. }
  destruct (related_count i (snd lm) d0 =? 0) eqn:E; cbn [negb fold_left fst snd].
  - apply Z.eqb_eq in E. rewrite (related_count_zero i (snd lm) d).
    + apply IH; auto. intros x Hx. apply Hc. now right.
    + rewrite Hc by now left. exact E.
  - apply IH; auto. intros x Hx. rewrite related_count_other by auto. apply Hc. now right.
Qed.

Lemma for_each_execute {A} (f : A -> Db -> Db) l : forall w,
  exists tx, for_each l (fun x => execute (f x)) w = (Ok tt, set_session tx w.(w_new) w) /\
             forall d, tx d = fold_left (fun d x => f x d) l (w.(w_tx) d).
Proof.
  induction l as [|x l IH]; intros w.
  - exists w.(w_tx). split; [now destruct w | reflexivity].
  - destruct (IH (set_session (fun d => f x (w_tx w d)) (w_new w) w)) as (tx & E & H).
    exists tx. split; [exact E | exact H].
Qed.

Lemma blocking_purge i d :
  fold_left (fun d x => related_delete i (snd (fst x)) d) (blocking_of i d) d
  = fold_left (fun d (lm : string * related) => related_delete i (snd lm) d) related_models d.
Proof.
  apply fold_blocking; [|reflexivity].
  repeat (apply NoDup_cons; split; [cbn; rewrite ?elem_of_cons, ?elem_of_nil; naive_solver|]).
  constructor.
Qed.

(** Writing the audit row cannot fail the request, and touches no other
    table. *)
Lemma audit_as_run p r action target detail w :
  w.(w_others) = [] -> w.(w_tx) = id -> w.(w_new) = id -> db_ok w.(w_db) = true ->
  exists w', audit_as p r action target detail w = (Ok tt, w') /\
             control_state w'.(w_db) = control_state w.(w_db) /\ db_ok w'.(w_db) = true /\ idle w' /\
             effects w' = effects w.
Proof.
  intros Ho Ht Hn Hok. unfold audit_as, audit_record. mrun. unfold fresh_id, now, stage. mrun.
  rewrite commit_alone by exact Ho. cbn. rewrite Ht, Hn. unfold id.
  destruct (db_ok (on_audit_log _ _)) eqn:E; eexists; (split; [reflexivity|]); cbn; auto using Build_idle.
Qed.
End lookups.

(** ** The purge under a concurrent commit *)

Definition refs_gone (i : Z) (d : Db) : Prop := forall m, related_count i m d = 0.

Lemma filter_none_length {A} (p : A -> bool) l :
  (forall x, In x l -> p x = false) -> Z.of_nat (List.length (List.filter p l)) = 0.
Proof.
  intros H. replace (List.filter p l) with (@nil A); [reflexivity|]. symmetry.
  induction l as [|x l IH]; [reflexivity|]. cbn. rewrite (H x) by now left. apply IH. intros y Hy. apply H. now right.
Qed.

Lemma refers_count_zero {A B} (fk : A -> Z) l (pk : B -> Z) t i :
  refers fk l pk (delete_where (fun y => pk y =? i) t) = true ->
  Z.of_nat (List.length (List.filter (fun x => fk x =? i) l)) = 0.
Proof.
  rewrite refers_spec. intros H. apply filter_none_length. intros x Hx.
  apply H in Hx as (y & [_ Hy]%delete_where_In & E). now rewrite <- E.
Qed.

Lemma refers_opt_count_zero {A B} (fk : A -> option Z) l (pk : B -> Z) t i :
  refers_opt fk l pk (delete_where (fun y => pk y =? i) t) = true ->
  Z.of_nat (List.length (List.filter (fun x => opt_is i (fk x)) l)) = 0.
Proof.
  rewrite refers_opt_spec. intros H. apply filter_none_length. intros x Hx.
  destruct (fk x) as [k|] eqn:E; [|reflexivity]. cbn.
  destruct (H x k Hx E) as (y & [_ Hy]%delete_where_In & E'). now rewrite <- E'.
Qed.

(** The constraints leave no row that refers to a strategy just deleted. *)
Lemma deleted_refs_gone i d :
  db_ok (on_algos (delete_where (fun x => x.(algo_pk) =? i)) d) = true -> refs_gone i d.
Proof.
  intros Hok m. db_split Hok. destruct m; cbn in *;
    eauto using refers_count_zero, refers_opt_count_zero.
Qed.

Definition delete_all (i : Z) (l : list (string * related)) (d : Db) : Db :=
  fold_left (fun d (lm : string * related) => related_delete i (snd lm) d) l d.

Lemma delete_all_gone i l d : refs_gone i d -> delete_all i l d = d.
Proof.
  intros H. induction l as [|lm l IH]; [reflexivity|]. cbn. now rewrite related_count_zero.
Qed.

(** Deleting some of the related rows first changes nothing. *)
Lemma delete_where_twice {A} (p : A -> bool) l : delete_where p (delete_where p l) = delete_where p l.
Proof. apply delete_where_none. intros x [_ Hx]%delete_where_In. exact Hx. Qed.

Lemma related_delete_twice i m d : related_delete i m (related_delete i m d) = related_delete i m d.
Proof.
  destruct m;
    [ exact (f_equal (fun l => on_heartbeats (fun _ => l) d) (delete_where_twice _ _))
    | exact (f_equal (fun l => on_logs (fun _ => l) d) (delete_where_twice _ _))
    | exact (f_equal (fun l => on_positions (fun _ => l) d) (delete_where_twice _ _))
    | exact (f_equal (fun l => on_trades (fun _ => l) d) (delete_where_twice _ _))
    | exact (f_equal (fun l => on_daily_pnl (fun _ => l) d) (delete_where_twice _ _))
    | exact (f_equal (fun l => on_commands (fun _ => l) d) (delete_where_twice _ _))
    | exact (f_equal (fun l => on_algo_runs (fun _ => l) d) (delete_where_twice _ _)) ].
Qed.

Lemma related_delete_comm i m m' d :
  related_delete i m (related_delete i m' d) = related_delete i m' (related_delete i m d).
Proof. destruct m, m'; reflexivity. Qed.

Lemma delete_all_comm i m l : forall d,
  delete_all i l (related_delete i m d) = related_delete i m (delete_all i l d).
Proof.
  induction l as [|lm l IH]; intros d; [reflexivity|].
  cbn. rewrite related_delete_comm. apply IH.
Qed.

Lemma delete_all_absorb i m d :
  delete_all i related_models (related_delete i m d) = delete_all i related_models d.
Proof.
  assert (In m (map snd related_models)) as Hm by (destruct m; cbn; tauto).
  revert Hm d. generalize related_models. intros l. induction l as [|lm l IH]; intros Hm d; [destruct Hm|].
  cbn. destruct Hm as [<-|Hm]; [now rewrite related_delete_twice|].
  rewrite related_delete_comm. now apply IH.
Qed.

Lemma delete_all_some i (l : list (string * related * Z)) : forall d,
  delete_all i related_models (fold_left (fun d x => related_delete i (snd (fst x)) d) l d)
  = delete_all i related_models d.
Proof.
  induction l as [|x l IH]; intros d; [reflexivity|]. cbn [fold_left]. now rewrite IH, delete_all_absorb.
Qed.

(** The strategy [i] and every row that refers to it, gone. *)
Definition without_algo (i : Z) (d : Db) : Db :=
  mkDb d.(servers)
    (List.filter (fun x => negb (x.(algo_pk) =? i)) d.(algos))
    (List.filter (fun x => negb (x.(run_algo_id) =? i)) d.(algo_runs))
    (List.filter (fun x => negb (x.(hb_algo_id) =? i)) d.(heartbeats))
    (List.filter (fun x => negb (bool_decide (x.(log_algo_id) = Some i))) d.(logs))
    (List.filter (fun x => negb (x.(pos_algo_id) =? i)) d.(positions))
    (List.filter (fun x => negb (x.(trade_algo_id) =? i)) d.(trades))
    (List.filter (fun x => negb (x.(dp_algo_id) =? i)) d.(daily_pnl))
    (List.filter (fun x => negb (bool_decide (x.(cmd_algo_id) = Some i))) d.(commands))
    d.(rate_limit_windows) d.(users) d.(auth_sessions) d.(audit_log).

Lemma filter_opt_is {A} (f : A -> option Z) i l :
  List.filter (fun x => negb (bool_decide (f x = Some i))) l = delete_where (fun x => opt_is i (f x)) l.
Proof.
  apply List.filter_ext. intros x. f_equal. apply eq_iff_eq_true. rewrite bool_decide_eq_true.
  destruct (f x) as [k|]; cbn; [rewrite Z.eqb_eq|]; split; congruence.
Qed.

Lemma purge_without i d : purge_algo i d = without_algo i d.
Proof. unfold without_algo. rewrite (filter_opt_is log_algo_id), (filter_opt_is cmd_algo_id). reflexivity. Qed.

(** Some row refers to the strategy [i]. *)
Definition referred (i : Z) (d : Db) : bool :=
  existsb (fun x => x.(hb_algo_id) =? i) d.(heartbeats)
  || existsb (fun x => bool_decide (x.(log_algo_id) = Some i)) d.(logs)
  || existsb (fun x => x.(pos_algo_id) =? i) d.(positions)
  || existsb (fun x => x.(trade_algo_id) =? i) d.(trades)
  || existsb (fun x => x.(dp_algo_id) =? i) d.(daily_pnl)
  || existsb (fun x => bool_decide (x.(cmd_algo_id) = Some i)) d.(commands)
  || existsb (fun x => x.(run_algo_id) =? i) d.(algo_runs).

Lemma existsb_count {A} (p : A -> bool) l :
  existsb p l = negb (Z.of_nat (List.length (List.filter p l)) =? 0).
Proof.
  induction l as [|x l IH]; [reflexivity|]. cbn. destruct (p x); [reflexivity | exact IH].
Qed.
Lemma existsb_opt_is {A} (f : A -> option Z) i l :
  existsb (fun x => bool_decide (f x = Some i)) l = existsb (fun x => opt_is i (f x)) l.
Proof.
  induction l as [|x l IH]; [reflexivity|]. cbn. f_equal; [|exact IH]. apply eq_iff_eq_true.
  rewrite bool_decide_eq_true. destruct (f x) as [k|]; cbn; [rewrite Z.eqb_eq|]; split; congruence.
Qed.

Lemma blocking_existsb (c : related -> Z) (l : list (string * related)) :
  negb (bool_decide (List.filter (fun x => negb (snd x =? 0)) (map (fun lm => (lm, c (snd lm))) l) = []))
  = existsb (fun lm => negb (c (snd lm) =? 0)) l.
Proof.
  induction l as [|lm l IH]; [reflexivity|]. cbn. destruct (c (snd lm) =? 0); [exact IH | reflexivity].
Qed.

Lemma blocking_referred i d : negb (bool_decide (blocking_of i d = [])) = referred i d.
Proof.
  unfold referred. rewrite !(existsb_opt_is _ i), !existsb_count.
  change (Z.of_nat (List.length (List.filter (fun x => x.(hb_algo_id) =? i) d.(heartbeats)))) with (related_count i RHeartbeat d).
  change (Z.of_nat (List.length (List.filter (fun x => opt_is i x.(log_algo_id)) d.(logs)))) with (related_count i RLog d).
  change (Z.of_nat (List.length (List.filter (fun x => x.(pos_algo_id) =? i) d.(positions)))) with (related_count i RPosition d).
  change (Z.of_nat (List.length (List.filter (fun x => x.(trade_algo_id) =? i) d.(trades)))) with (related_count i RTrade d).
  change (Z.of_nat (List.length (List.filter (fun x => x.(dp_algo_id) =? i) d.(daily_pnl)))) with (related_count i RDailyPnl d).
  change (Z.of_nat (List.length (List.filter (fun x => opt_is i x.(cmd_algo_id)) d.(commands)))) with (related_count i RCommand d).
  change (Z.of_nat (List.length (List.filter (fun x => x.(run_algo_id) =? i) d.(algo_runs)))) with (related_count i RRun d).
  unfold blocking_of. rewrite (blocking_existsb (fun m => related_count i m d)).
  unfold related_models. cbn [existsb snd]. now rewrite orb_false_r, !orb_assoc.
Qed.

(** What the delete leaves when the commit goes through, whatever another
    connection committed in between. *)
Lemma blocking_purge_between i d base :
  let d' := on_algos (delete_where (fun x => x.(algo_pk) =? i))
              (fold_left (fun d x => related_delete i (snd (fst x)) d) (blocking_of i d) base) in
  db_ok d' = true -> d' = without_algo i base.
Proof.
  cbv zeta. intros Hok. apply deleted_refs_gone in Hok. rewrite <- purge_without. unfold purge_algo. f_equal.
  change (fold_left _ related_models base) with (delete_all i related_models base).
  now rewrite <- (delete_all_some i (blocking_of i d) base), delete_all_gone.
Qed.



(** ** Positions *)
Section positions.
Context (aid sid : Z) (symbol : string).

Lemma position_key_spec y :
  position_key aid sid symbol y = true <->
  (pos_algo_id y, pos_server_id y, pos_symbol y) = (aid, sid, symbol).
Proof.
  unfold position_key. rewrite !andb_true_iff, !Z.eqb_eq, String.eqb_eq. split.
  - now intros [[-> ->] ->].
  - intros [= H1 H2 H3]. auto.
Qed.

Lemma position_query d :
  db_ok d = true -> exists o, one_or_none (position_key aid sid symbol) d.(positions) = Ok o.
Proof.
  intros Hok. db_split Hok.
  eapply (one_or_none_unique (fun p => (pos_algo_id p, pos_server_id p, pos_symbol p)));
    [now apply unique_on_NoDup|].
  intros x y _ _ Hx%position_key_spec Hy%position_key_spec. congruence.
Qed.

(** Selecting the row found by its primary key is selecting it by its key. *)
Lemma position_by_id d x :
  db_ok d = true -> one_or_none (position_key aid sid symbol) d.(positions) = Ok (Some x) ->
  forall y, In y d.(positions) -> (y.(pos_id) =? x.(pos_id)) = position_key aid sid symbol y.
Proof.
  intros Hok Hx y Hy. db_split Hok. apply one_or_none_Some in Hx as [Hx Hk].
  apply eq_iff_eq_true. rewrite Z.eqb_eq, position_key_spec. apply position_key_spec in Hk.
  split; intros E.
  - assert (y = x) as -> by (apply (NoDup_map_inj_in pos_id d.(positions)); auto; now apply unique_on_NoDup).
    exact Hk.
  - assert (y = x) as -> by (apply (NoDup_map_inj_in (fun p => (pos_algo_id p, pos_server_id p, pos_symbol p)) d.(positions));
      [now apply unique_on_NoDup | assumption | assumption | congruence]).
    reflexivity.
Qed.
End positions.

Lemma set_position_id b x : (set_position b x).(pos_id) = x.(pos_id).
Proof. reflexivity. Qed.

Ltac db_keep :=
  db_join; cbn;
  rewrite ?unique_on_update by reflexivity;
  auto using unique_on_delete, refers_delete_rows, refers_update.

Lemma db_ok_update_algo p f d :
  (forall a, algo_pk (f a) = algo_pk a /\ algo_name (f a) = algo_name a /\
             algo_server_id (f a) = algo_server_id a) ->
  db_ok d = true -> db_ok (on_algos (update_where p f) d) = true.
Proof.
  intros Hf Hok. assert (forall a, algo_pk (f a) = algo_pk a) by (intros; apply Hf).
  assert (forall a, algo_server_id (f a) = algo_server_id a) by (intros; apply Hf).
  db_split Hok. db_join; cbn; auto using refers_target_update, refers_opt_target_update, refers_update.
  - now rewrite unique_on_update.
  - rewrite unique_on_update; [assumption|]. intros a. destruct (Hf a) as (? & ? & ?). congruence.
Qed.
Lemma db_ok_update_server p f d :
  (forall s, srv_id (f s) = srv_id s /\ srv_name (f s) = srv_name s) ->
  db_ok d = true -> db_ok (on_servers (update_where p f) d) = true.
Proof.
  intros Hf Hok. assert (forall a, srv_id (f a) = srv_id a) by (intros; apply Hf).
  assert (forall a, srv_name (f a) = srv_name a) by (intros; apply Hf).
  db_split Hok. db_join; cbn; auto using refers_target_update, refers_opt_target_update;
    now rewrite unique_on_update.
Qed.
Lemma db_ok_add_heartbeat h d :
  db_ok d = true -> (forall y, In y d.(heartbeats) -> y.(hb_id) <> h.(hb_id)) ->
  (exists a, In a d.(algos) /\ a.(algo_pk) = h.(hb_algo_id)) ->
  (exists s, In s d.(servers) /\ s.(srv_id) = h.(hb_server_id)) ->
  db_ok (on_heartbeats (fun l => l ++ [h]) d) = true.
Proof.
  intros Hok Hid Ha Hs. db_split Hok. db_join; cbn; auto using unique_on_app_one, refers_app_one.
Qed.

Lemma db_ok_delete_position p d : db_ok d = true -> db_ok (on_positions (delete_where p) d) = true.
Proof. intros Hok. db_split Hok. db_keep. Qed.
Lemma db_ok_update_position p b d :
  db_ok d = true -> db_ok (on_positions (update_where p (set_position b)) d) = true.
Proof. intros Hok. db_split Hok. db_keep. Qed.

Lemma db_ok_add_position x d :
  db_ok d = true -> (forall y, In y d.(positions) -> y.(pos_id) <> x.(pos_id)) ->
  one_or_none (position_key x.(pos_algo_id) x.(pos_server_id) x.(pos_symbol)) d.(positions) = Ok None ->
  (exists a, In a d.(algos) /\ a.(algo_pk) = x.(pos_algo_id)) ->
  (exists s, In s d.(servers) /\ s.(srv_id) = x.(pos_server_id)) ->
  db_ok (on_positions (fun l => l ++ [x]) d) = true.
Proof.
  intros Hok Hid Hk Ha Hs. db_split Hok. db_join; cbn; auto using unique_on_app_one, refers_app_one.
  apply unique_on_app_one; [assumption|]. intros y Hy E.
  pose proof (one_or_none_None _ _ _ Hk Hy) as Hf.
  rewrite (proj2 (position_key_spec _ _ _ y) E) in Hf. discriminate.
Qed.

(** A reported position replaces the stored one.  After a report for a
    (strategy, server, symbol) the table holds, for that key, no row when the
    quantity is zero and exactly one row with the reported quantity and prices
    otherwise; every other row and every other table are as they were, and the
    database satisfies the schema.  The answer says whether the position was
    closed. *)
Theorem post_position_upserts {env : Env} (b : PositionIn) (s : Server) (a : Algo) (w : World) :
  idle w -> db_ok w.(w_db) = true -> In s w.(w_db).(servers) -> In a w.(w_db).(algos) ->
  a.(algo_server_id) = s.(srv_id) -> b.(pi_server_id) = s.(srv_name) -> b.(pi_algo_id) = a.(algo_name) ->
  (forall x, In x w.(w_db).(positions) -> x.(pos_id) <> w.(w_seq)) ->
  let key := position_key a.(algo_pk) s.(srv_id) b.(pi_symbol) in
  let '(res, w') := post_position b w in
  res = Ok (b.(pi_quantity) =? 0) /\
  (if b.(pi_quantity) =? 0 then List.filter key w'.(w_db).(positions) = []
   else exists i, List.filter key w'.(w_db).(positions) =
          [mkPosition i a.(algo_pk) s.(srv_id) b.(pi_symbol) b.(pi_quantity) b.(pi_average_price)
             b.(pi_last_price) b.(pi_pnl)]) /\
  delete_where key w'.(w_db).(positions) = delete_where key w.(w_db).(positions) /\
  on_positions (fun _ => []) w'.(w_db) = on_positions (fun _ => []) w.(w_db) /\
  db_ok w'.(w_db) = true.
Proof.
  intros Hi Hok Hs Ha Has Hbs Hba Hseq. cbv zeta. unfold post_position. rewrite Hbs, Hba.
  rewrite (bind_Ok _ _ _ _ _ (resolve_server_run w s (idle_tx w Hi) Hok Hs)).
  rewrite (bind_Ok _ _ _ _ _ (get_algo_run w a s (idle_tx w Hi) Hok Ha Has)).
  destruct Hi as [Ho Ht Hn]. set (key := position_key _ _ _).
  destruct (position_query a.(algo_pk) s.(srv_id) b.(pi_symbol) _ Hok) as [o Hq]. fold key in Hq.
  rewrite (bind_Ok (one_or_none_q positions key) _ w o w) by (api_run; rewrite Ht; unfold id; now rewrite Hq).
  pose proof (one_or_none_filter _ _ _ Hq) as Hf.
  destruct (b.(pi_quantity) =? 0) eqn:Eq.
  - destruct o as [x|].
    + pose proof (position_by_id _ _ _ _ _ Hok Hq) as Hkey. fold key in Hkey.
      unfold stage, emit_event. mrun. rewrite commit_alone by exact Ho. cbn. rewrite Ht, Hn. unfold id.
      rewrite db_ok_delete_position by exact Hok. cbn.
      rewrite (delete_where_ext _ _ _ Hkey). destruct (filter_delete_where key w.(w_db).(positions)).
      repeat split; auto. now apply db_ok_delete_position.
    + unfold emit_event. mrun. now rewrite Hok.
  - destruct o as [x|].
    + pose proof (position_by_id _ _ _ _ _ Hok Hq) as Hkey. fold key in Hkey.
      unfold stage, emit_event. mrun. rewrite commit_alone by exact Ho. cbn. rewrite Ht, Hn. unfold id.
      rewrite db_ok_update_position by exact Hok. cbn.
      rewrite (update_where_ext _ _ _ _ Hkey).
      destruct (filter_update_where key (set_position b) w.(w_db).(positions)) as [-> ->]; [auto|].
      rewrite Hf. apply one_or_none_Some in Hq as [_ Hkx].
      apply position_key_spec in Hkx as [= <- <- <-].
      repeat split; [now eexists|]. now apply db_ok_update_position.
    + set (x := mkPosition w.(w_seq) a.(algo_pk) s.(srv_id) b.(pi_symbol) b.(pi_quantity)
                  b.(pi_average_price) b.(pi_last_price) b.(pi_pnl)).
      assert (db_ok (on_positions (fun l => l ++ [x]) w.(w_db)) = true) as Hok'
        by (apply db_ok_add_position; eauto).
      unfold stage, fresh_id, emit_event. mrun. rewrite commit_alone by exact Ho. cbn.
      rewrite Ht, Hn. unfold id. fold x. rewrite Hok'. cbn.
      destruct (filter_app_one key w.(w_db).(positions) x) as [-> ->];
        [now apply position_key_spec|].
      rewrite Hf. repeat split; [now eexists | exact Hok'].
Qed.

Theorem post_position_upserts_witness :
  let env := demo_env (fun _ _ => Ok JNull) in
  let s := mkServer 1 "srv" "i-1" "ap-south-1" "running" "linux" "/repo" "READY" None None in
  let a := mkAlgo 2 "algo" 1 "main.py" "RUNNING" true None None 0 in
  let d := on_servers (fun _ => [s]) (on_algos (fun _ => [a])
             (on_positions (fun _ => [mkPosition 3 2 1 "NIFTY" 75 f_zero None None]) empty_db)) in
  let b := mkPositionIn "algo" "srv" "NIFTY" 0 f_zero None None in
  let key := position_key 2 1 "NIFTY" in
  let '(res, w') := post_position b (fresh_world d 4 0) in
  res = Ok true /\ List.filter key w'.(w_db).(positions) = [] /\
  delete_where key w'.(w_db).(positions) = [] /\
  on_positions (fun _ => []) w'.(w_db) = on_positions (fun _ => []) d /\ db_ok w'.(w_db) = true.
Proof.
  cbv zeta.
  apply (post_position_upserts (env := demo_env (fun _ _ => Ok JNull))
           (mkPositionIn "algo" "srv" "NIFTY" 0 f_zero None None)
           (mkServer 1 "srv" "i-1" "ap-south-1" "running" "linux" "/repo" "READY" None None)
           (mkAlgo 2 "algo" 1 "main.py" "RUNNING" true None None 0));
    [now constructor | vm_compute; reflexivity | now left | now left | reflexivity..|].
  intros x [<-|[]]. discriminate.
Defined.

(** ** Heartbeats *)

(** The alert a change to [status] calls for. *)
Definition status_alerts (algo_id server_id previous status : string) : list Alert :=
  if String.eqb previous status then []
  else if String.eqb status "RUNNING" then [StrategyRecovered algo_id server_id f_zero]
  else if String.eqb status "STOPPED" then [StrategyStopped algo_id server_id]
  else if String.eqb status "ERROR" then [StrategyCrashed algo_id server_id "Status changed to ERROR"]
  else [].

Lemma transition_alert_run i srv prev st w :
  exists b, (when negb (String.eqb prev st) do
               (emit_event (ev_strategy_status i srv st (Some prev) "heartbeat") ;;; transition_alert i srv st)) w
            = (Ok tt, set_alerts (w.(w_alerts) ++ status_alerts i srv prev st) (set_bus b w)).
Proof.
  unfold status_alerts, transition_alert. destruct (String.eqb prev st); cbn [negb].
  - exists w.(w_bus). unfold ret. rewrite app_nil_r. now destruct w.
  - destruct (String.eqb st "RUNNING"); [eexists; reflexivity|].
    destruct (String.eqb st "STOPPED"); [eexists; reflexivity|].
    destruct (String.eqb st "ERROR"); eexists; mrun; [reflexivity|]. rewrite app_nil_r. reflexivity.
Qed.

(** Changing the row found by its primary key is replacing that row. *)
Lemma update_by_key {A} (k : A -> Z) (f : A -> A) (x : A) l :
  NoDup (map k l) -> In x l ->
  update_where (fun y => k y =? k x) f l = map (fun y => if k y =? k x then f x else y) l.
Proof.
  intros Hnd Hx. apply map_ext_in. intros y Hy. destruct (Z.eqb_spec (k y) (k x)) as [E|]; [|reflexivity].
  f_equal. now apply (NoDup_map_inj_in k l).
Qed.

Lemma heartbeat_row b now a :
  apply_heartbeat b now a =
  let mode := match b.(hi_trading_mode) with Some m => Some m | None => a.(algo_trading_mode) end in
  let lots := match b.(hi_running_lots) with Some n => Some n | None => a.(algo_running_lots) end in
  mkAlgo a.(algo_pk) a.(algo_name) a.(algo_server_id) a.(algo_script_path) b.(hi_status)
    a.(algo_enabled) mode lots
    (if bool_decide (b.(hi_status) = a.(algo_status) /\ mode = a.(algo_trading_mode) /\
                     lots = a.(algo_running_lots)) then a.(algo_updated_at) else now).
Proof.
  unfold apply_heartbeat, set_algo, opt_or. cbv zeta. f_equal.
  rewrite (bool_decide_eq_true_2 (algo_script_path a = algo_script_path a)), Bool.eqb_reflx by reflexivity.
  cbn [andb]. rewrite andb_true_r.
  match goal with |- context [bool_decide (?P /\ ?Q /\ ?R)] =>
    replace (bool_decide (P /\ Q /\ R)) with (bool_decide P && bool_decide Q && bool_decide R); [reflexivity|] end.
  apply eq_iff_eq_true. rewrite !andb_true_iff, !bool_decide_eq_true. tauto.
Qed.



(** ** Commands *)
Lemma db_ok_update_command p f d :
  (forall c, cmd_id (f c) = cmd_id c /\ cmd_algo_id (f c) = cmd_algo_id c /\
             cmd_server_id (f c) = cmd_server_id c) ->
  db_ok d = true -> db_ok (on_commands (update_where p f) d) = true.
Proof.
  intros Hf Hok. assert (forall a, cmd_id (f a) = cmd_id a) by (intros; apply Hf).
  assert (forall a, cmd_server_id (f a) = cmd_server_id a) by (intros; apply Hf).
  assert (forall a, cmd_algo_id (f a) = cmd_algo_id a) by (intros; apply Hf).
  db_split Hok. db_join; cbn; auto using refers_update, refers_opt_update.
  now rewrite unique_on_update.
Qed.
Lemma db_ok_add_command c d :
  db_ok d = true -> (forall y, In y d.(commands) -> y.(cmd_id) <> c.(cmd_id)) ->
  (forall k, c.(cmd_algo_id) = Some k -> exists a, In a d.(algos) /\ a.(algo_pk) = k) ->
  (exists s, In s d.(servers) /\ s.(srv_id) = c.(cmd_server_id)) ->
  db_ok (on_commands (fun l => l ++ [c]) d) = true.
Proof.
  intros Hok Hid Ha Hs. db_split Hok. db_join; cbn; auto using unique_on_app_one, refers_app_one.
  rewrite refers_opt_spec in *. intros x k [Hx|[<-|[]]]%in_app_or; eauto.
Qed.

Lemma update_last (c : Command) f l :
  (forall y, In y l -> y.(cmd_id) <> c.(cmd_id)) ->
  update_where (fun x => x.(cmd_id) =? c.(cmd_id)) f (l ++ [c]) = l ++ [f c].
Proof.
  intros H. unfold update_where. rewrite map_app. cbn. rewrite Z.eqb_refl. f_equal.
  transitivity (map id l); [|apply map_id]. apply map_ext_in. intros y Hy.
  destruct (Z.eqb_spec y.(cmd_id) c.(cmd_id)); [|reflexivity]. now apply H in Hy.
Qed.

(** The columns a Lambda answer can be written to: the answer is an object with
    a text status, and a job id and an error that are text or absent. *)
Definition is_object (j : json) : bool := match j with JObj _ => true | _ => false end.
Definition opt_text (j : json) : option (option string) :=
  match j with JStr s => Some (Some s) | JNull => Some None | _ => None end.
Definition answer_columns (j : json) : option (option string * string * option string) :=
  if negb (is_object j) then None else
  match opt_text (jget "job_id" j), jget_or "status" (JStr "FAILED") j,
        (if jtruthy (jget "success" j) then Some None else opt_text (jget "error" j)) with
  | Some job, JStr st, Some err => Some (job, st, err)
  | _, _, _ => None
  end.

(** The command row once the Lambda has answered. *)
Definition answered_row (row : Command) (reply : result exn json) : Command :=
  match reply with
  | Ok j => match answer_columns j with
            | Some (job, st, err) => set_command st job j err row
            | None => row
            end
  | Err e => match invoke_error "Lambda invoke failed" e with
             | LambdaInvokeError msg => set_command "FAILED" None JNull (Some msg) row
             | _ => row
             end
  end.

Lemma invoke_run {env : Env} action payload w :
  truthy settings.(s_lambda_function_name) = true ->
  invoke_orchestrator action payload w =
  let event := JObj (("action", JStr action) :: payload) in
  (match lambda_invoke (List.length w.(w_calls)) event with
   | Ok j => Ok j
   | Err e => Err (invoke_error "Lambda invoke failed" e)
   end, set_calls (w.(w_calls) ++ [event]) w).
Proof.
  intros H. unfold invoke_orchestrator. rewrite H. cbn [negb]. unfold try_except, lambda_call.
  now destruct (lambda_invoke _ _).
Qed.

(** What [invoke_orchestrator] gets: nothing is sent when the name of the
    Lambda is not configured. *)
Definition lambda_reply {env : Env} (n : nat) (event : json) : result exn json :=
  if truthy settings.(s_lambda_function_name) then lambda_invoke n event
  else Err (LambdaInvokeError "LAMBDA_FUNCTION_NAME environment variable is not set").
Definition lambda_sent {env : Env} (event : json) : list json :=
  if truthy settings.(s_lambda_function_name) then [event] else [].

Lemma invoke_reply {env : Env} action payload w :
  invoke_orchestrator action payload w =
  let event := JObj (("action", JStr action) :: payload) in
  (match lambda_reply (List.length w.(w_calls)) event with
   | Ok j => Ok j
   | Err e => Err (invoke_error "Lambda invoke failed" e)
   end, set_calls (w.(w_calls) ++ lambda_sent event) w).
Proof.
  unfold lambda_reply, lambda_sent. destruct (truthy _) eqn:E; [now apply invoke_run|].
  unfold invoke_orchestrator. rewrite E. cbn. rewrite app_nil_r. now destruct w.
Qed.

Lemma nullable_text_run j w :
  exists e, nullable_text j w = (match opt_text j with Some o => Ok o | None => Err e end, w).
Proof. exists (OtherError "ProgrammingError" "can't adapt type"). now destruct j. Qed.

(** The row of a command, settled. *)
Lemma settle_row {env : Env} w0 w row f (k : unit -> Api CommandResponse) :
  idle w -> db_ok w.(w_db) = true ->
  control_state w.(w_db) = control_state (on_commands (fun l => l ++ [row]) w0) ->
  (forall y, In y w0.(commands) -> y.(cmd_id) <> row.(cmd_id)) ->
  (forall c, cmd_id (f c) = cmd_id c /\ cmd_algo_id (f c) = cmd_algo_id c /\
             cmd_server_id (f c) = cmd_server_id c) ->
  exists w', (stage_command row.(cmd_id) f ;;; commit ;;; k tt) w = k tt w' /\
    w'.(w_calls) = w.(w_calls) /\ db_ok w'.(w_db) = true /\
    control_state w'.(w_db) = control_state (on_commands (fun l => l ++ [f row]) w0).
Proof.
  intros [Ho Ht Hn] Hok Hc Hrow Hf. unfold stage_command. rewrite stage_step.
  set (d' := on_commands (update_where (fun c => c.(cmd_id) =? row.(cmd_id)) f) w.(w_db)).
  assert (db_ok d' = true) as Hok' by now apply db_ok_update_command.
  match goal with |- context [bind commit _ ?W] => set (w1 := W) end.
  assert (commit w1 = (Ok tt, set_db d' (set_session id id w))) as E.
  { rewrite commit_alone by exact Ho. cbn. rewrite Ht, Hn. unfold id. fold d'. now rewrite Hok'. }
  rewrite (bind_Ok _ _ _ _ _ E). eexists. split; [reflexivity|]. cbn. split; [reflexivity|].
  split; [exact Hok'|].
  change (on_commands (update_where (fun c => c.(cmd_id) =? row.(cmd_id)) f) (control_state w.(w_db)) =
          control_state (on_commands (fun l => l ++ [f row]) w0)).
  rewrite Hc. unfold control_state, on_commands, on_audit_log, on_rate_limit_windows. cbn.
  now rewrite update_last.
Qed.



(** ** Following a command *)

(** The row after an answer without a status. *)
Definition repeated (j : json) (row c : Command) : Command :=
  set_command row.(cmd_status) c.(cmd_job_id) j c.(cmd_error) c.

Lemma settle_status_less {env : Env} row s j w :
  w.(w_others) = [] -> w.(w_tx) = id -> w.(w_new) = id -> db_ok w.(w_db) = true ->
  jlookup "status" j = None -> jtruthy (jget "success" j) = true ->
  exists b, settle_command row s j w =
    (Ok (repeated j row row),
     set_bus b (set_db (on_commands (update_where (fun c => c.(cmd_id) =? row.(cmd_id)) (repeated j row)) w.(w_db))
                  (set_session id id w))).
Proof.
  intros Ho Ht Hn Hok Hst Hsucc. unfold settle_command, jget_or. rewrite Hst, Hsucc.
  assert (jget "status" j = JNull) as -> by (unfold jget; now rewrite Hst).
  cbn [default from_option text_column jtruthy negb].
  rewrite (bind_Ok (ret row.(cmd_status)) _ w _ w eq_refl), (bind_Ok (ret None) _ w _ w eq_refl).
  unfold stage_command. rewrite stage_step. cbn [from_option default].
  assert (forall A (k : option string -> Api A) (f : Z -> Api (option string)) w0,
    (forall aid, f aid = ret None) ->
    bind (match row.(cmd_algo_id) with Some aid => f aid | None => ret None end) k w0 = k None w0) as Hm
    by (intros A k f w0 Hf; destruct row.(cmd_algo_id); [rewrite Hf|]; reflexivity).
  rewrite Hm by reflexivity.
  match goal with |- context [bind commit _ ?W] => set (w1 := W) end.
  set (d' := on_commands (update_where (fun c => c.(cmd_id) =? row.(cmd_id)) (repeated j row)) w.(w_db)).
  assert (db_ok d' = true) as Hok' by now apply db_ok_update_command.
  assert (commit w1 = (Ok tt, set_db d' (set_session id id w))) as Hc.
  { rewrite commit_alone by exact Ho. cbn. rewrite Ht, Hn. unfold id. fold (repeated j row). fold d'.
    now rewrite Hok'. }
  rewrite (bind_Ok _ _ _ _ _ Hc), emit_step. eexists. reflexivity.
Qed.

(** A Lambda answer without a status settles nothing: polling a pending
    command whose Lambda answer is successful but carries no ["status"] (what
    the agent prints for UPDATE) reports success with the same pending status
    and stores the answer in the row, which is left pending: the next poll asks
    the Lambda again, and so on for ever. *)
Theorem status_less_answer_stays_pending {env : Env} (row : Command) (s : Server) (job : string)
    (j : json) (w : World) :
  idle w -> db_ok w.(w_db) = true -> In row w.(w_db).(commands) -> In s w.(w_db).(servers) ->
  s.(srv_id) = row.(cmd_server_id) -> row.(cmd_job_id) = Some job -> truthy job = true ->
  str_in row.(cmd_status) pending_statuses = true ->
  truthy settings.(s_lambda_function_name) = true ->
  lambda_invoke (List.length w.(w_calls))
    (JObj [("action", JStr "get_command_status"); ("job_id", JStr job);
           ("instance_id", JStr s.(srv_ec2_instance_id))]) = Ok j ->
  jlookup "status" j = None -> jtruthy (jget "success" j) = true ->
  let row' := set_command row.(cmd_status) (Some job) j row.(cmd_error) row in
  let '(res, w') := get_command row.(cmd_id) w in
  res = Ok (mkCommandResponse true row.(cmd_id) (JStr job) (JStr row.(cmd_status)) (jopt_str row.(cmd_error))) /\
  w'.(w_db) = on_commands (update_where (fun c => c.(cmd_id) =? row.(cmd_id))
                             (fun c => set_command row.(cmd_status) c.(cmd_job_id) j c.(cmd_error) c)) w.(w_db) /\
  In row' w'.(w_db).(commands) /\ str_in row'.(cmd_status) pending_statuses = true.
Proof.
  intros [Ho Ht Hn] Hok Hrow Hs Hsid Hjob Htr Hpend Hlam Hans Hst Hsucc. cbv zeta. unfold get_command.
  assert (one_or_none (fun c => c.(cmd_id) =? row.(cmd_id)) w.(w_db).(commands) = Ok (Some row)) as Hq.
  { db_split Hok. apply (one_or_none_found cmd_id); auto.
    - now apply unique_on_NoDup.
    - apply Z.eqb_refl.
    - intros y _ E. now apply Z.eqb_eq in E. }
  assert (one_or_none (fun x => x.(srv_id) =? row.(cmd_server_id)) w.(w_db).(servers) = Ok (Some s)) as Hsq.
  { db_split Hok. apply (one_or_none_found srv_id); auto.
    - now apply unique_on_NoDup.
    - now apply Z.eqb_eq.
    - intros y _ E. apply Z.eqb_eq in E. congruence. }
  rewrite (bind_Ok (one_or_none_q commands _) _ w (Some row) w)
    by (api_run; rewrite Ht; unfold id; now rewrite Hq).
  rewrite Hpend, Hjob. cbn [opt_truthy]. rewrite Htr. cbn [andb negb].
  rewrite (bind_Ok (one_or_none_q servers _) _ w (Some s) w)
    by (api_run; rewrite Ht; unfold id; now rewrite Hsq).
  cbn [jopt_str]. unfold bind at 1, try_except at 1. rewrite invoke_run by exact Hlam. cbv zeta. rewrite Hans.
  assert (jget "status" j = JNull) as Hnull by (unfold jget; now rewrite Hst).
  destruct j as [| | | | | |kvs]; try discriminate Hsucc.
  match goal with |- context [bind (as_dict _) ?k ?W] =>
    change (bind (as_dict (JObj kvs)) k W) with (k (JObj kvs) W) end.
  cbv beta. rewrite Hnull. cbn [jis_str].
  assert (str_in row.(cmd_status) failed_statuses = false) as Hnf.
  { apply str_in_spec in Hpend. cbn in Hpend.
    repeat (destruct Hpend as [<-|Hpend]; [reflexivity|]). destruct Hpend. }
  destruct (settle_status_less row s (JObj kvs) (set_calls (w.(w_calls) ++ [JObj [("action", JStr "get_command_status");
    ("job_id", JStr job); ("instance_id", JStr s.(srv_ec2_instance_id))]]) w)) as [b Hb]; auto.
  rewrite (bind_Ok _ _ _ _ _ Hb). unfold ret, command_response, repeated, set_command.
  cbn [cmd_status cmd_id cmd_job_id cmd_error w_db set_bus set_db]. rewrite Hnf, Hjob. cbn [negb jopt_str].
  split; [reflexivity|]. split; [reflexivity|]. split; [|exact Hpend].
  rewrite <- Hjob. pose proof (update_where_In (fun c => c.(cmd_id) =? row.(cmd_id)) (repeated (JObj kvs) row) _ _ Hrow) as Hin.
  cbv beta in Hin. rewrite Z.eqb_refl in Hin. exact Hin.
Qed.

Theorem status_less_answer_stays_pending_witness :
  let j := JObj [("success", JBool true); ("algo_id", JStr "algo")] in
  let env := demo_env (fun _ _ => Ok j) in
  let s := mkServer 1 "srv" "i-1" "ap-south-1" "running" "linux" "/repo" "READY" None None in
  let row := mkCommand 4 None 1 "UPDATE" (Some "c-1") (Some "ann") "UPDATING" JNull None in
  let d := on_servers (fun _ => [s]) (on_commands (fun _ => [row]) empty_db) in
  let '(res, w') := get_command 4 (fresh_world d 5 0) in
  res = Ok (mkCommandResponse true 4 (JStr "c-1") (JStr "UPDATING") JNull) /\
  In (set_command "UPDATING" (Some "c-1") j None row) w'.(w_db).(commands).
Proof.
  cbv zeta.
  pose proof (status_less_answer_stays_pending
    (env := demo_env (fun _ _ => Ok (JObj [("success", JBool true); ("algo_id", JStr "algo")])))
    (mkCommand 4 None 1 "UPDATE" (Some "c-1") (Some "ann") "UPDATING" JNull None)
    (mkServer 1 "srv" "i-1" "ap-south-1" "running" "linux" "/repo" "READY" None None) "c-1"
    (JObj [("success", JBool true); ("algo_id", JStr "algo")])
    (fresh_world (on_servers (fun _ => [mkServer 1 "srv" "i-1" "ap-south-1" "running" "linux" "/repo" "READY" None None])
       (on_commands (fun _ => [mkCommand 4 None 1 "UPDATE" (Some "c-1") (Some "ann") "UPDATING" JNull None]) empty_db)) 5 0)) as H.
  cbv zeta in H. cbn [cmd_id] in H. destruct (get_command _ _) as [res w'].
  destruct H as (H1 & _ & H2 & _); [now constructor | vm_compute; reflexivity | now left | now left | reflexivity..|].
  split; [exact H1 | exact H2].
Defined.
