(* ===== verification/ControlRoutes.v ===== *)
(** * The routes of the control-center API

    The router of [trading/api/routes.py]: which guard protects which handler,
    and what follows for the callers - what the machine's key can and cannot
    do, and what reading leaves untouched. *)
From S2P Require Import Prelude PyStr PyFloat Json Config PyTime Permissions Schema Realtime.
From S2P Require Import Alerts ApiWorld DemoEnv Security RateLimit Auth ControlApi.
From S2P Require Import ControlSafety.

Inductive control_op : Type :=
| OpCommand (a : algo_action) (b : AlgoActionRequest)
| OpGetCommand (command_id : Z)
| OpAlgoStatus (algo_id server_id : string)
| OpServerStatus (server_id : string) (live : bool)
| OpRegisterServer (b : ServerIn)
| OpListServers
| OpUpdateServer (server_id : string) (b : ServerUpdate)
| OpDeleteServer (server_id : string)
| OpServerPower (a : power_action) (server_id : string) (force : bool)
| OpRegisterAlgo (b : AlgoIn)
| OpPatchAlgo (algo_id server_id : string) (b : AlgoUpdate)
| OpDeleteAlgo (algo_id server_id : string) (force : bool)
| OpListAlgos
| OpHeartbeat (b : HeartbeatIn)
| OpGetLogs (algo_id server_id : string) (limit : Z) (level event log_date : option string)
| OpLog (b : LogIn)
| OpPnlToday (pnl_date : option string)
| OpGetPnl (algo_id server_id : string)
| OpGetPositions (algo_id server_id : string)
| OpPosition (b : PositionIn)
| OpGetTrades (algo_id server_id : string) (limit : Z)
| OpTrade (b : TradeIn)
| OpPnl (b : DailyPnlIn).

(** What a route demands of its caller: a permission, or an identity allowed
    to send telemetry. *)
Definition required (o : control_op) : option Permission :=
  match o with
  | OpCommand a _ => Some (_ACTION_PERMISSION a)
  | OpRegisterServer _ | OpUpdateServer _ _ | OpDeleteServer _ | OpServerPower _ _ _
  | OpRegisterAlgo _ | OpPatchAlgo _ _ _ | OpDeleteAlgo _ _ _ => Some TRADING_CONTROL
  | OpHeartbeat _ | OpLog _ | OpPosition _ | OpTrade _ | OpPnl _ => None
  | _ => Some VIEW
  end.

Section routes.
Context {env : Env}.

Definition guard_of (o : control_op) (r : Request) (p : Principal) : Api Principal :=
  match required o with
  | Some perm => require_permission perm r p
  | None => require_ingest p
  end.

Definition discard {A} (m : Api A) : Api unit := m ;;; ret tt.

Definition handler_of (o : control_op) (r : Request) (p : Principal) : Api unit :=
  match o with
  | OpCommand a b => discard (_run_algo_action a b r p)
  | OpGetCommand i => discard (get_command i)
  | OpAlgoStatus a s => discard (algo_status_view a s)
  | OpServerStatus s live => discard (server_status_view s live)
  | OpRegisterServer b => discard (register_server b r p)
  | OpListServers => discard list_servers
  | OpUpdateServer s b => discard (update_server s b r p)
  | OpDeleteServer s => delete_server s r p
  | OpServerPower PowStart s _ => discard (_run_server_power PowStart s false r p)
  | OpServerPower a s force => discard (_run_server_power a s force r p)
  | OpRegisterAlgo b => discard (register_algo b r p)
  | OpPatchAlgo a s b => discard (patch_algo a s b r p)
  | OpDeleteAlgo a s force => delete_algo a s force r p
  | OpListAlgos => discard list_algos
  | OpHeartbeat b => post_heartbeat b
  | OpGetLogs a s n level event date => discard (get_logs a s n level event date)
  | OpLog b => post_log b
  | OpPnlToday d => discard (get_today_pnl_bulk d)
  | OpGetPnl a s => discard (get_pnl a s)
  | OpGetPositions a s => discard (get_positions a s)
  | OpPosition b => discard (post_position b)
  | OpGetTrades a s n => discard (get_trades a s n)
  | OpTrade b => post_trade b
  | OpPnl b => discard (post_pnl b)
  end.

Definition control_route (o : control_op) (r : Request) : Api unit :=
  limited_route (guard_of o) r (handler_of o r).

(** ** Lemmas *)
Lemma db_inv_resolve I name : preserves (db_inv I) (_resolve_server name).
Proof. unfold _resolve_server. preserve. Qed.
Lemma db_inv_find_algo I name s : preserves (db_inv I) (find_algo name s).
Proof. unfold find_algo. preserve. Qed.
#[local] Hint Resolve db_inv_resolve db_inv_find_algo : preserves.
Lemma db_inv_get_algo I name s : preserves (db_inv I) (_get_or_create_algo name s).
Proof. unfold _get_or_create_algo. preserve. Qed.
Lemma silent_resolve e name : preserves (silent e) (_resolve_server name).
Proof. unfold _resolve_server. preserve. Qed.
Lemma silent_find_algo e name s : preserves (silent e) (find_algo name s).
Proof. unfold find_algo. preserve. Qed.
#[local] Hint Resolve silent_resolve silent_find_algo : preserves.
Lemma silent_get_algo e name s : preserves (silent e) (_get_or_create_algo name s).
Proof. unfold _get_or_create_algo. preserve. Qed.
#[local] Hint Resolve db_inv_get_algo silent_get_algo : preserves.

(** The routes that only look. *)
Definition reads (o : control_op) : bool :=
  match o with
  | OpListServers | OpListAlgos | OpGetLogs _ _ _ _ _ _ | OpPnlToday _ | OpGetPnl _ _
  | OpGetPositions _ _ | OpGetTrades _ _ _ | OpServerStatus _ false => true
  | _ => false
  end.

Lemma reads_db_inv I o r p : reads o = true -> preserves (db_inv I) (handler_of o r p).
Proof.
  destruct o as [| | |? []| | | | | | | | | | | | | | | | | | |]; try discriminate; intros _; cbn;
    unfold discard, server_status_view, list_servers, list_algos, get_logs, get_today_pnl_bulk, get_pnl,
      get_positions, get_trades; cbn [negb]; preserve.
Qed.
Lemma reads_silent e o r p : reads o = true -> preserves (silent e) (handler_of o r p).
Proof.
  destruct o as [| | |? []| | | | | | | | | | | | | | | | | | |]; try discriminate; intros _; cbn;
    unfold discard, server_status_view, list_servers, list_algos, get_logs, get_today_pnl_bulk, get_pnl,
      get_positions, get_trades; cbn [negb]; preserve.
Qed.
Lemma reads_guard o : reads o = true -> required o = Some VIEW.
Proof. destruct o as [| | |? []| | | | | | | | | | | | | | | | | | |]; now try discriminate. Qed.
End routes.

(** Reading changes nothing: a request to list the servers or strategies,
    to read logs, P&L, positions or trades, or a server's stored status,
    whoever sends it and whatever it answers, calls no Lambda, publishes no
    event, sends no alert and changes no table but the rate-limit windows and
    the audit log. *)
Theorem reads_change_nothing {env : Env} (o : control_op) (r : Request) (w : World) :
  reads o = true -> idle w ->
  let '(_, w') := control_route o r w in
  effects w' = effects w /\ control_state w'.(w_db) = control_state w.(w_db).
Proof.
  intros Ho Hi. destruct (control_route o r w) as [res w'] eqn:E. apply (f_equal snd) in E. cbn in E. subst w'.
  split.
  - assert (preserves (silent (effects w)) (control_route o r)) as H; [|now apply H].
    unfold control_route, limited_route, guard_of. rewrite (reads_guard o Ho).
    apply silent_request_session. pose proof (reads_silent (effects w) o r) as Hr. preserve.
  - set (I := fun d => control_state d = control_state w.(w_db)).
    assert (forall f, keeps I (on_audit_log f)) as HA by (intros f d Hd; exact Hd).
    assert (forall f, keeps I (on_rate_limit_windows f)) as HR by (intros f d Hd; exact Hd).
    assert (preserves (db_inv I) (control_route o r)) as H; [|apply (H w); now apply idle_db_inv].
    unfold control_route, limited_route, guard_of. rewrite (reads_guard o Ho).
    apply db_inv_request_session. pose proof (reads_db_inv I o r) as Hr. preserve.
Qed.

Theorem reads_change_nothing_witness :
  let env := demo_env (fun _ _ => Ok JNull) in
  let w := fresh_world empty_db 1 0 in
  let '(_, w') := control_route OpListAlgos (mkRequest "GET" "/api/algos" [("x-api-key", "key")] [] None) w in
  effects w' = effects w /\ control_state w'.(w_db) = control_state w.(w_db).
Proof.
  cbv zeta. apply (reads_change_nothing (env := demo_env (fun _ _ => Ok JNull)) OpListAlgos);
    [reflexivity | now constructor].
Defined.
