(* ===== verification/Watcher.v ===== *)
(** * The stale-heartbeat watcher

    [trading/api/watcher.py]: one scan of the strategies whose last heartbeat is
    too old, and the background loop that repeats it.  The state is the same
    [World] the API handlers run in. *)
From S2P Require Import Prelude PyStr PyFloat Json Config PyTime Schema Realtime Alerts.
From S2P Require Import ApiWorld DemoEnv ControlApi.
From Stdlib Require Import SpecFloat.

Section watcher.
Context {env : Env}.

(** [timedelta(minutes=m)] in microseconds: the whole minutes exactly, the
    fraction of a minute as a float rounded half to even. *)
Definition MAX_TIMEDELTA_US : Z := 1000000000 * US_PER_DAY.
Definition timedelta_minutes (m : float) : result exn Z :=
  match m with
  | S754_nan => Err (ValueError "cannot convert float NaN to integer")
  | S754_infinity _ => Err (OtherError "OverflowError" "cannot convert float infinity to integer")
  | _ =>
      let whole := default 0 (f_trunc m) in
      let us := whole * 60000000 +
        match f_mul (f_sub m (f_of_Z whole)) (f_of_Z 60000000) with
        | S754_finite s p e => if s then - f_scaled 0 p e else f_scaled 0 p e
        | _ => 0
        end in
      if (us <=? - MAX_TIMEDELTA_US) || (MAX_TIMEDELTA_US <=? us)
      then Err (OtherError "OverflowError" "days out of range") else Ok us
  end.

(** [datetime - timedelta]: the years 1 to 9999. *)
Definition datetime_sub (t us : Z) : result exn Z :=
  if (midnight 1 <=? t - us) && (t - us <? midnight 3652060) then Ok (t - us)
  else Err (OtherError "OverflowError" "date value out of range").

(** [total_seconds() / 60] *)
Definition minutes_between (t1 t2 : Z) : float :=
  f_div (f_div (f_of_Z (t2 - t1)) (f_of_Z 1000000)) (f_of_Z 60).

(** The rows of the scan: strategies not STOPPED, with their server's name and
    the time of their latest heartbeat, if any. *)
Definition scan_rows (d : Db) : list (Algo * string * option timestamp) :=
  flat_map (fun a =>
    map (fun s => (a, s.(srv_name), latest_heartbeat d a.(algo_pk)))
      (List.filter (fun s => s.(srv_id) =? a.(algo_server_id)) d.(servers)))
    (List.filter (fun a => negb (String.eqb a.(algo_status) "STOPPED")) d.(algos)).

Definition check_row (now cutoff : timestamp) (x : Algo * string * option timestamp)
  : Api (option (string * string * float)) :=
  let '(algo, server_name, last_ts) := x in
  let reference := default algo.(algo_updated_at) last_ts in
  if cutoff <=? reference then ret None
  else
    let silent_for := minutes_between reference now in
    send_alert (HeartbeatMissing algo.(algo_name) server_name silent_for) ;;;
    emit_event (ev_alert "heartbeat_missing" "warning"
      (algo.(algo_name) +:+ " on " +:+ server_name +:+ ": no heartbeat for " +:+ f_fmt 1 silent_for +:+ " min")
      (Some algo.(algo_name)) (Some server_name)
      (JObj [("minutes_silent", JFloat (f_round 1 silent_for))])) ;;;
    emit_event (ev_strategy_status algo.(algo_name) server_name "STALE" (Some algo.(algo_status)) "watcher") ;;;
    ret (Some (algo.(algo_name), server_name, silent_for)).

Definition check_stale_heartbeats_once (at_time : option timestamp)
  : Api (list (string * string * float)) :=
  let! t := now in
  let t := default t at_time in
  let! delta := lift (timedelta_minutes settings.(s_stale_threshold_minutes)) in
  let! cutoff := lift (datetime_sub t delta) in
  let! rows := query scan_rows in
  let! found := map_m (check_row t cutoff) rows in
  ret (omap id found).

(** One turn of the loop: sleep, scan with a session of its own, survive any
    exception. *)
Definition watcher_turn : Api unit :=
  modify (fun w => set_now (w.(w_now) + settings.(s_stale_check_interval_seconds) * 1000000) w) ;;;
  try_except
    (fun w => let '(r, w') := check_stale_heartbeats_once None w in
              (match r with Ok _ => Ok tt | Err e => Err e end, snd (close w')))
    (fun _ => ret tt).
Fixpoint stale_heartbeat_watcher (turns : nat) : Api unit :=
  match turns with
  | O => ret tt
  | S n => watcher_turn ;;; stale_heartbeat_watcher n
  end.

(** ** Lemmas *)

(** What a scan finds, as a list comprehension. *)
Definition stale_of (now cutoff : timestamp) (x : Algo * string * option timestamp)
  : option (string * string * float) :=
  let '(a, server_name, last) := x in
  let reference := default a.(algo_updated_at) last in
  if reference <? cutoff then Some (a.(algo_name), server_name, minutes_between reference now) else None.
Definition missing_alert (x : string * string * float) : Alert :=
  HeartbeatMissing (fst (fst x)) (snd (fst x)) (snd x).

Lemma check_row_run now cutoff x w :
  exists w', check_row now cutoff x w = (Ok (stale_of now cutoff x), w') /\
    w'.(w_db) = w.(w_db) /\ w'.(w_tx) = w.(w_tx) /\ w'.(w_new) = w.(w_new) /\
    w'.(w_others) = w.(w_others) /\ w'.(w_calls) = w.(w_calls) /\ w'.(w_now) = w.(w_now) /\
    w'.(w_alerts) = w.(w_alerts) ++ map missing_alert (option_list (stale_of now cutoff x)).
Proof.
  destruct x as [[a s] last]. unfold check_row, stale_of. rewrite Z.ltb_antisym.
  destruct (cutoff <=? _); cbn [negb].
  - eexists. split; [reflexivity|]. cbn. rewrite app_nil_r. auto 10.
  - rewrite alert_step, !emit_step. eexists. split; [reflexivity|]. cbn. auto 10.
Qed.

Lemma check_rows_run now cutoff rows : forall w,
  exists w', map_m (check_row now cutoff) rows w = (Ok (map (stale_of now cutoff) rows), w') /\
    w'.(w_db) = w.(w_db) /\ w'.(w_tx) = w.(w_tx) /\ w'.(w_new) = w.(w_new) /\
    w'.(w_others) = w.(w_others) /\ w'.(w_calls) = w.(w_calls) /\ w'.(w_now) = w.(w_now) /\
    w'.(w_alerts) = w.(w_alerts) ++ map missing_alert (omap (stale_of now cutoff) rows).
Proof.
  induction rows as [|x rows IH]; intros w.
  - eexists. split; [reflexivity|]. cbn. rewrite app_nil_r. auto 10.
  - destruct (check_row_run now cutoff x w) as (w1 & E1 & ? & ? & ? & ? & ? & ? & Ha1).
    destruct (IH w1) as (w2 & E2 & ? & ? & ? & ? & ? & ? & Ha2).
    exists w2. cbn [map_m]. rewrite (bind_Ok _ _ _ _ _ E1), (bind_Ok _ _ _ _ _ E2).
    split; [reflexivity|]. repeat (split; [congruence|]).
    rewrite Ha2, Ha1, <- app_assoc. f_equal. cbn. destruct (stale_of now cutoff x); reflexivity.
Qed.
End watcher.

(** A scan alerts on exactly the silent strategies: those not STOPPED whose
    last sign of life - the latest heartbeat, or the row's last update when it
    never sent one - is older than the threshold; each is reported once with
    its server and the minutes of silence, and the scan writes nothing to the
    database. *)
Theorem scan_finds_stale {env : Env} (w : World) (delta cutoff : Z) :
  timedelta_minutes settings.(s_stale_threshold_minutes) = Ok delta ->
  datetime_sub w.(w_now) delta = Ok cutoff ->
  exists found w', check_stale_heartbeats_once None w = (Ok found, w') /\
    w'.(w_db) = w.(w_db) /\ w'.(w_new) = w.(w_new) /\ w'.(w_tx) = w.(w_tx) /\
    w'.(w_alerts) = w.(w_alerts) ++ map missing_alert found /\
    forall name server m, In (name, server, m) found <->
      exists a s, In a (view w).(algos) /\ In s (view w).(servers) /\ s.(srv_id) = a.(algo_server_id) /\
        a.(algo_status) <> "STOPPED" /\ name = a.(algo_name) /\ server = s.(srv_name) /\
        let seen := default a.(algo_updated_at) (latest_heartbeat (view w) a.(algo_pk)) in
        seen < cutoff /\ m = minutes_between seen w.(w_now).
Proof.
  intros Hd Hc. unfold check_stale_heartbeats_once. rewrite now_step. cbn [default from_option].
  rewrite Hd. rewrite (bind_Ok (lift (Ok delta)) _ w delta w) by reflexivity.
  rewrite Hc. rewrite (bind_Ok (lift (Ok cutoff)) _ w cutoff w) by reflexivity.
  rewrite (bind_Ok (query scan_rows) _ w (scan_rows (view w)) w) by reflexivity.
  destruct (check_rows_run w.(w_now) cutoff (scan_rows (view w)) w)
    as (w' & E & ? & ? & ? & ? & ? & ? & Ha).
  rewrite (bind_Ok _ _ _ _ _ E). eexists. exists w'. split; [reflexivity|].
  assert (forall rows, omap id (map (stale_of w.(w_now) cutoff) rows) = omap (stale_of w.(w_now) cutoff) rows)
    as -> by (intros rows; induction rows as [|x rows IH]; cbn; [reflexivity|];
              rewrite IH; now destruct (stale_of _ _ x)).
  repeat (split; [assumption|]). intros name server m.
  rewrite <- list_elem_of_In, list_elem_of_omap. unfold scan_rows. split.
  - intros ([[a sn] last] & Hin & Hx). rewrite list_elem_of_In in Hin.
    apply in_flat_map in Hin as (b & Hb & Hin). apply in_map_iff in Hin as (s & [= -> <- <-] & Hs).
    apply List.filter_In in Hb as [Hb Hst], Hs as [Hs Hsid]. to_prop.
    unfold stale_of in Hx. destruct (_ <? cutoff) eqn:Ec; [|discriminate]. injection Hx as <- <- <-.
    to_prop. exists a, s. auto 10.
  - intros (a & s & Hin & Hs & Hid & Hst & -> & -> & Hseen & ->).
    exists (a, s.(srv_name), latest_heartbeat (view w) a.(algo_pk)). split.
    + apply list_elem_of_In, in_flat_map. exists a. split.
      * apply List.filter_In. split; [exact Hin|]. apply negb_true_iff. now apply String.eqb_neq.
      * apply in_map_iff. exists s. split; [reflexivity|]. apply List.filter_In.
        split; [exact Hs|]. now apply Z.eqb_eq.
    + unfold stale_of. now rewrite (proj2 (Z.ltb_lt _ _) Hseen).
Qed.

Theorem scan_finds_stale_witness :
  let env := demo_env (fun _ _ => Ok JNull) in
  let s := mkServer 1 "srv" "i-1" "ap-south-1" "running" "linux" "/repo" "READY" None None in
  let a := mkAlgo 2 "algo" 1 "main.py" "RUNNING" true None None 0 in
  let d := on_servers (fun _ => [s]) (on_algos (fun _ => [a]) empty_db) in
  exists delta cutoff found w',
    timedelta_minutes settings.(s_stale_threshold_minutes) = Ok delta /\
    datetime_sub 6000000000 delta = Ok cutoff /\
    check_stale_heartbeats_once None (fresh_world d 3 6000000000) = (Ok found, w') /\
    w'.(w_alerts) = map missing_alert found.
Proof.
  cbv zeta.
  destruct (timedelta_minutes (s_stale_threshold_minutes (@settings (demo_env (fun _ _ => Ok JNull)))))
    as [delta|] eqn:Ed; [|vm_compute in Ed; discriminate].
  destruct (datetime_sub 6000000000 delta) as [cutoff|] eqn:Ec.
  - pose proof (scan_finds_stale (env := demo_env (fun _ _ => Ok JNull))
      (fresh_world (on_servers (fun _ => [mkServer 1 "srv" "i-1" "ap-south-1" "running" "linux" "/repo" "READY" None None])
        (on_algos (fun _ => [mkAlgo 2 "algo" 1 "main.py" "RUNNING" true None None 0]) empty_db)) 3 6000000000)
      delta cutoff Ed Ec) as (found & w' & H1 & _ & _ & _ & H2 & _).
    exists delta, cutoff, found, w'. auto.
  - vm_compute in Ed. injection Ed as <-. vm_compute in Ec. discriminate.
Defined.

(** The watcher never stops and never writes: after any number of turns,
    whatever the database holds and whether or not the scans raised, the loop
    is still running, the committed tables are untouched, no Lambda was called
    and the clock has advanced by one interval per turn. *)
Theorem watcher_survives {env : Env} (n : nat) (w : World) :
  exists w', stale_heartbeat_watcher n w = (Ok tt, w') /\ w'.(w_db) = w.(w_db) /\
    w'.(w_calls) = w.(w_calls) /\
    w'.(w_now) = w.(w_now) + Z.of_nat n * (settings.(s_stale_check_interval_seconds) * 1000000).
Proof.
  revert w. induction n as [|n IH]; intros w.
  { exists w. repeat split; cbn; lia. }
  assert (exists w1, watcher_turn w = (Ok tt, w1) /\ w1.(w_db) = w.(w_db) /\ w1.(w_calls) = w.(w_calls) /\
    w1.(w_now) = w.(w_now) + settings.(s_stale_check_interval_seconds) * 1000000) as (w1 & E1 & H1 & H2 & H3).
  { unfold watcher_turn. set (w0 := set_now (w.(w_now) + settings.(s_stale_check_interval_seconds) * 1000000) w).
    rewrite (bind_Ok (modify _) _ w tt w0) by reflexivity. unfold try_except, check_stale_heartbeats_once.
    rewrite now_step. unfold bind at 1, lift at 1. destruct (timedelta_minutes _) as [delta|]; [|now eexists].
    unfold bind at 1, lift at 1. destruct (datetime_sub _ _) as [cutoff|]; [|now eexists].
    rewrite (bind_Ok (query scan_rows) _ w0 (scan_rows (view w0)) w0) by reflexivity.
    destruct (check_rows_run (default w0.(w_now) None) cutoff (scan_rows (view w0)) w0)
      as (w' & E & Hdb & _ & _ & _ & Hc & Hn & _).
    rewrite (bind_Ok _ _ _ _ _ E). eexists. split; [reflexivity|]. cbn.
    now rewrite Hdb, Hc, Hn. }
  destruct (IH w1) as (w' & E & H4 & H5 & H6). exists w'. cbn [stale_heartbeat_watcher].
  rewrite (bind_Ok _ _ _ _ _ E1), E. split; [reflexivity|]. split; [congruence|]. split; [congruence|]. lia.
Qed.
