(* ===== verification/Orchestrator.v ===== *)
(** * The orchestrator Lambda

    [trading/infrastructure/lambda/orchestrator.py]: every action the Lambda
    dispatches.  AWS and the control-center API answer through [Cloud]: an
    oracle that may depend on everything done before.  [LWorld] keeps the
    monotonic clock and the trace of the calls made with their answers.  A
    polling loop ([while time.monotonic() < deadline]) has fuel; the fuel
    suffices because every turn sleeps at least one interval
    ([OrchestratorSafety]).  AWS answers are dictionaries; the event is the
    record of the fields the code reads, the text fields being absent or text;
    an instance's state name is text. *)
From S2P Require Import Prelude PyStr PyFloat Json JsonText.
From Stdlib Require Import Ascii.

(** ** The outside *)
Inductive aws_call : Type :=
| DescribeInstances (instance_id : string)
| StartInstances (instance_id : string)
| StopInstances (instance_id : string)
| RebootInstances (instance_id : string)
| SendCommand (instance_id document command : string)
| GetCommandInvocation (command_id instance_id : string)
| DescribeInstanceInformation (instance_id : string)
| DescribeProfileAssociations (instance_id : string)
| AssociateProfile (instance_id profile_name : string)
| ApiRequest (method url api_key : string) (body : option json) (timeout : Z)
| Sleep (seconds : Z).

Definition Trace : Type := list (aws_call * result exn json).

Class Cloud : Type := {
  aws : Trace -> aws_call -> result exn json;
  took : Trace -> aws_call -> Z;               (* microseconds *)
  env_var : string -> option string
}.

Record LWorld : Type := mkLWorld { l_clock : Z; l_trace : Trace }.
Definition L (A : Type) : Type := M LWorld exn A.

(** ** The event *)
Record LEvent : Type := mkEvent {
  e_action : option string;
  e_instance_id : option string;
  e_repo_path : option string;
  e_os_name : option string;
  e_server_name : option string;
  e_algo_id : option string;
  e_algo_name : option string;
  e_lines : option Z;
  e_force : json;
  e_job_id : option string;
  e_command_id : option string
}.
Definition empty_event : LEvent := mkEvent None None None None None None None None JNull None None.

(** ** Text *)
(** A literal of the source with its double quotes, written [~] here. *)
Definition qt (s : string) : string := str_map (fun c => if Ascii.eqb c "~" then dq else c) s.

Definition OK : string -> list (string * json) -> json := fun id extra =>
  JObj ([("success", JBool true); ("server_id", JStr id)] ++ extra).
Definition _error (message : string) (extra : list (string * json)) : json :=
  JObj ([("success", JBool false); ("error", JStr message)] ++ extra).

Definition exc_str (e : exn) : string :=
  match e with
  | LambdaInvokeError m | ValueError m | TokenError m | WeakPasswordError m | BotoCoreError m
  | ClientError _ m | AlgoListError m | AlgoNotFoundError m | OtherError _ m => m
  | KeyError k => "'" +:+ k +:+ "'"
  | _ => ""
  end.
Definition IndexError : exn := OtherError "IndexError" "list index out of range".
Definition TypeError (msg : string) : exn := OtherError "TypeError" msg.
Definition AttributeError : exn := OtherError "AttributeError" "object has no such attribute".

(** [except (ClientError, BotoCoreError)], [except (ClientError, IndexError,
    KeyError)], [except (URLError, HTTPError, TimeoutError)], and the last with
    [JSONDecodeError]. *)
Definition is_boto (e : exn) : bool :=
  match e with ClientError _ _ | BotoCoreError _ => true | _ => false end.
Definition is_describe (e : exn) : bool :=
  match e with ClientError _ _ | KeyError _ => true | OtherError c _ => String.eqb c "IndexError" | _ => false end.
Definition is_http (e : exn) : bool :=
  match e with OtherError c _ => str_in c ["URLError"; "HTTPError"; "TimeoutError"] | _ => false end.
Definition is_api (e : exn) : bool :=
  is_http e || match e with OtherError c _ => String.eqb c "JSONDecodeError" | _ => false end.

Definition catch {A} (p : exn -> bool) (m : L A) (h : exn -> L A) : L A :=
  try_except m (fun e => if p e then h e else raise e).

(** ** Dictionaries and lists *)
Definition jindex (k : string) (j : json) : result exn json :=
  match j with
  | JObj kvs => match assoc k kvs with Some v => Ok v | None => Err (KeyError k) end
  | _ => Err (TypeError "indices must be integers")
  end.
Definition jfirst (j : json) : result exn json :=
  match j with
  | JArr (x :: _) => Ok x
  | JArr [] => Err IndexError
  | JObj _ => Err (KeyError "0")
  | _ => Err (TypeError "object is not subscriptable")
  end.
Definition text (j : json) : result exn string :=
  match j with JStr s => Ok s | _ => Err AttributeError end.
Definition as_list (j : json) : result exn (list json) :=
  match j with
  | JArr l => Ok l
  | JObj kvs => Ok (map (fun kv => JStr (fst kv)) kvs)
  | JStr s => Ok (map (fun c => JStr (String c "")) (chars s))
  | _ => Err (TypeError "object is not iterable")
  end.
(** [x.get(k)] *)
Definition dict_get (k : string) (x : json) : result exn json :=
  match x with JObj _ => Ok (jget k x) | _ => Err AttributeError end.
Definition dict_get_or (k : string) (dflt x : json) : result exn json :=
  match x with JObj _ => Ok (jget_or k dflt x) | _ => Err AttributeError end.

Section orchestrator.
Context {cloud : Cloud}.

(** ** Calls *)
Definition call (c : aws_call) : L json := fun w =>
  let r := aws w.(l_trace) c in
  (r, mkLWorld (w.(l_clock) + Z.max 0 (took w.(l_trace) c)) (w.(l_trace) ++ [(c, r)])).
Definition sleep (seconds : Z) : L unit := fun w =>
  (Ok tt, mkLWorld (w.(l_clock) + seconds * 1000000 + Z.max 0 (took w.(l_trace) (Sleep seconds)))
            (w.(l_trace) ++ [(Sleep seconds, Ok JNull)])).
Definition monotonic : L Z := gets l_clock.
Definition _get_env (name : string) : option string := env_var name.
Definition env_text (name : string) : string := default "" (_get_env name).

Definition OutOfFuel : exn := OtherError "OutOfFuel" "".

(** [while time.monotonic() < deadline: ...; time.sleep(interval)]: [None] when
    the deadline passes. *)
Fixpoint poll_until {A} (fuel : nat) (deadline interval : Z) (probe : L (option A)) : L (option A) :=
  match fuel with
  | O => raise OutOfFuel
  | S n =>
      let! t := monotonic in
      if t <? deadline then
        let! r := probe in
        match r with
        | Some x => ret (Some x)
        | None => sleep interval ;;; poll_until n deadline interval probe
        end
      else ret None
  end.
Definition poll {A} (timeout interval : Z) (probe : L (option A)) : L (option A) :=
  let! t := monotonic in
  poll_until (S (S (Z.to_nat (timeout / interval)))) (t + timeout * 1000000) interval probe.

Definition STATUS_POLL_TIMEOUT_SECONDS : Z := 10.
Definition STATUS_POLL_INTERVAL_SECONDS : Z := 1.
Definition SAFE_STOP_CHECK_TIMEOUT_SECONDS : Z := 20.
Definition SAFE_STOP_CHECK_INTERVAL_SECONDS : Z := 2.
Definition SYNC_REPO_POLL_TIMEOUT_SECONDS : Z := 8.
Definition SYNC_REPO_POLL_INTERVAL_SECONDS : Z := 1.
Definition PROVISION_SSM_WAIT_TIMEOUT_SECONDS : Z := 480.
Definition PROVISION_SSM_WAIT_INTERVAL_SECONDS : Z := 15.
Definition PROVISION_SETUP_TIMEOUT_SECONDS : Z := 300.
Definition PROVISION_SETUP_POLL_INTERVAL_SECONDS : Z := 5.

Definition ALGO_ACTIONS : list (string * string) :=
  [("start_algo", "START_ALGO"); ("stop_algo", "STOP_ALGO"); ("restart_algo", "RESTART_ALGO");
   ("update_algo", "UPDATE")].
Definition algo_action (a : string) : option string :=
  snd <$> List.find (fun kv => String.eqb (fst kv) a) ALGO_ACTIONS.
Definition ALL_ALGOS_ACTIONS : list string := ["start_all_algos"; "stop_all_algos"; "update_all_algos"].
Definition ALL_EC2_ACTIONS : list string := ["start_all_ec2"; "stop_all_ec2"].

(** ** Command lines *)
Definition needs_env (agent_command : string) (server_name api_base_url control_api_key : option string) : bool :=
  str_in agent_command ["START_ALGO"; "RESTART_ALGO"] && opt_truthy server_name &&
  opt_truthy api_base_url && opt_truthy control_api_key.
Definition lines_arg (agent_command : string) (lines : option Z) : list string :=
  match lines with
  | Some n => if String.eqb agent_command "LOGS" then ["--lines " +:+ str_of_Z n] else []
  | None => []
  end.

Definition _build_algo_shell_command (repo_path agent_command algo_name : string) (lines : option Z)
    (server_name api_base_url control_api_key : option string) : string :=
  String.concat " "
    ((if needs_env agent_command server_name api_base_url control_api_key
      then [qt "export STRATEGY_NAME=~" +:+ algo_name +:+ qt "~ SERVER_NAME=~" +:+ default "" server_name +:+
            qt "~ API_BASE_URL=~" +:+ default "" api_base_url +:+ qt "~ CONTROL_API_KEY=~" +:+
            default "" control_api_key +:+ qt "~;"]
      else []) ++
     [qt "cd ~" +:+ repo_path +:+ qt "~;";
      "sudo -u ec2-user -E venv/bin/python3 trading/agent/trading_agent.py"; agent_command; algo_name] ++
     lines_arg agent_command lines).

Definition _build_algo_powershell_command (repo_path agent_command algo_name : string) (lines : option Z)
    (server_name api_base_url control_api_key : option string) : string :=
  String.concat " "
    ((if needs_env agent_command server_name api_base_url control_api_key
      then [qt "$env:STRATEGY_NAME=~" +:+ algo_name +:+ qt "~; $env:SERVER_NAME=~" +:+ default "" server_name +:+
            qt "~; $env:API_BASE_URL=~" +:+ default "" api_base_url +:+ qt "~; $env:CONTROL_API_KEY=~" +:+
            default "" control_api_key +:+ qt "~;"]
      else []) ++
     [qt "cd ~" +:+ repo_path +:+ qt "~;"; "python trading\agent\trading_agent.py"; agent_command; algo_name] ++
     lines_arg agent_command lines).

Definition _build_algo_command (os_name : string) :=
  if String.eqb os_name "windows" then _build_algo_powershell_command else _build_algo_shell_command.

(** ** SSM *)
Definition _send_ssm_command (instance_id command os_name : string) : L string :=
  let document := if String.eqb os_name "windows" then "AWS-RunPowerShellScript" else "AWS-RunShellScript" in
  let! response := call (SendCommand instance_id document command) in
  let! c := lift (jindex "Command" response) in
  let! i := lift (jindex "CommandId" c) in
  lift (text i).

Definition _get_command_result (command_id instance_id : string) : L json :=
  try_except (call (GetCommandInvocation command_id instance_id))
    (fun e => match e with
              | ClientError code _ =>
                  if String.eqb code "InvocationDoesNotExist" then ret (JObj [("Status", JStr "Pending")])
                  else raise e
              | _ => raise e
              end).

Definition _parse_agent_output (stdout : string) : option json :=
  let s := strip stdout in
  if negb (truthy s) then None
  else match json_loads s with
       | Some JNull | None => None
       | Some j => Some j
       end.

Definition rstrip_slash (s : string) : string :=
  unchars (rev (drop_while (fun c => Ascii.eqb c "/") (rev (chars s)))).
Definition _api_request (method path api_base_url api_key : string) (body : option json) (timeout : Z) : L json :=
  call (ApiRequest method (rstrip_slash api_base_url +:+ path) api_key body timeout).

(** ** Instances *)
Definition state_name (j : json) : result exn json :=
  match jindex "Reservations" j with
  | Err e => Err e
  | Ok r => match jfirst r with
    | Err e => Err e
    | Ok r0 => match jindex "Instances" r0 with
      | Err e => Err e
      | Ok i => match jfirst i with
        | Err e => Err e
        | Ok i0 => match jindex "State" i0 with Err e => Err e | Ok s => jindex "Name" s end
        end
      end
    end
  end.

Definition _instance_state (instance_id : string) : L string :=
  let! j := call (DescribeInstances instance_id) in
  let! s := lift (state_name j) in
  lift (text s).

Definition jis_upper (j : json) : result exn json :=
  match text j with Ok s => Ok (JStr (upper s)) | Err e => Err e end.

Definition _action_check_ec2_health (instance_id : string) : L json :=
  let! st := catch is_describe
    (let! j := call (DescribeInstances instance_id) in let! s := lift (state_name j) in ret (inl s))
    (fun e => ret (inr (_error ("could not describe instance: " +:+ exc_str e)
                          [("server_id", JStr instance_id)]))) in
  match st with
  | inr err => ret err
  | inl ec2_status =>
      let! info := catch is_boto
        (let! j := call (DescribeInstanceInformation instance_id) in
         ret (inl (jget_or "InstanceInformationList" (JArr []) j)))
        (fun e => ret (inr (_error ("describe_instance_information failed: " +:+ exc_str e)
                              [("server_id", JStr instance_id); ("ec2_status", ec2_status)]))) in
      match info with
      | inr err => ret err
      | inl instances =>
          let! ping :=
            if negb (jtruthy instances) then ret (JStr "NOT_REGISTERED", JNull)
            else
              let! i := lift (jfirst instances) in
              let! s := lift (dict_get_or "PingStatus" (JStr "UNKNOWN") i) in
              let last := jget "LastPingDateTime" i in
              ret (s, if jtruthy last then last else JNull) in
          let '(ssm_status, last_ping) := ping in
          let healthy := jis_str "running" ec2_status && jis_str "Online" ssm_status in
          let! e_up := lift (jis_upper ec2_status) in
          let! s_up := lift (jis_upper ssm_status) in
          ret (OK instance_id [("ec2_status", e_up); ("ssm_status", s_up); ("last_ping", last_ping);
                               ("healthy", JBool healthy)])
      end
  end.

(** ** The safe-stop guard *)
Definition _TRADING_PROC_PATTERN : string :=
  "trading/agent/trading_agent\.py|trading/algos/[^/]+/main\.py".
Definition process_check_command (os_name : string) : string :=
  if String.eqb os_name "windows" then
    "Get-CimInstance Win32_Process | " +:+
    qt "Where-Object { $_.CommandLine -match ~trading_agent\.py|algos\\[^\\]+\\main\.py~ } | " +:+
    "ForEach-Object { $_.CommandLine }"
  else "pgrep -af '" +:+ _TRADING_PROC_PATTERN +:+ "' || true".

(** [[ln.strip() for ln in s.splitlines() if ln.strip()]] *)
Definition nonblank_lines (s : string) : list string :=
  List.filter truthy (map strip (split_lines [] (chars s))).

(** [None] when the check could not be completed. *)
Definition process_probe (command_id instance_id : string) : L (option (option (list string))) :=
  let! res := _get_command_result command_id instance_id in
  let status := jget_or "Status" (JStr "Pending") res in
  if jis_str "Success" status then
    let! out := lift (text (jget_or "StandardOutputContent" (JStr "") res)) in
    ret (Some (Some (nonblank_lines out)))
  else if jis_str "Failed" status || jis_str "Cancelled" status || jis_str "TimedOut" status then ret (Some None)
  else ret None.

Definition _running_trading_processes (instance_id os_name : string) : L (option (list string)) :=
  let! sent := catch is_boto
    (let! i := _send_ssm_command instance_id (process_check_command os_name) os_name in ret (Some i))
    (fun _ => ret None) in
  match sent with
  | None => ret None
  | Some command_id =>
      let! r := poll SAFE_STOP_CHECK_TIMEOUT_SECONDS SAFE_STOP_CHECK_INTERVAL_SECONDS
                  (process_probe command_id instance_id) in
      ret (default None r)
  end.

Definition is_true (j : json) : bool := match j with JBool b => b | _ => false end.

Definition _safe_stop_blocked (instance_id os_name : string) (event : LEvent) : L (option json) :=
  if is_true event.(e_force) then ret None
  else
    let! procs := _running_trading_processes instance_id os_name in
    match procs with
    | None =>
        ret (Some (_error ("safe-stop check could not be completed (SSM unreachable / agent offline); "
          +:+ "not stopping the instance. Run the safe-shutdown first, or pass force:true.")
          [("server_id", JStr instance_id); ("safe_stop", JStr "unverified")]))
    | Some [] => ret None
    | Some l =>
        ret (Some (_error (str_of_Z (Z.of_nat (List.length l)) +:+ " trading process(es) still alive on "
          +:+ instance_id +:+ "; safe-shutdown protocol not confirmed complete. Stop the algos "
          +:+ "(stop_all_algos / stop_algo) first, or pass force:true to override.")
          [("server_id", JStr instance_id); ("safe_stop", JStr "blocked"); ("running", JArr (map JStr l))]))
    end.

(** ** Power *)
Definition with_state (instance_id : string) (k : string -> L json) : L json :=
  let! st := catch is_describe
    (let! s := _instance_state instance_id in ret (inl s))
    (fun e => ret (inr (_error ("could not describe instance: " +:+ exc_str e)
                          [("server_id", JStr instance_id)]))) in
  match st with inr err => ret err | inl s => k s end.

(** [try: call except (ClientError, BotoCoreError): return _error(...)] *)
Definition attempt (instance_id what : string) (c : aws_call) (status : string) : L json :=
  catch is_boto
    (call c ;;; ret (OK instance_id [("status", JStr status)]))
    (fun e => ret (_error (what +:+ " failed: " +:+ exc_str e) [("server_id", JStr instance_id)])).

Definition _action_start_ec2 (instance_id : string) : L json :=
  with_state instance_id (fun state =>
    if str_in state ["running"; "pending"] then ret (OK instance_id [("status", JStr (upper state))])
    else attempt instance_id "start_instances" (StartInstances instance_id) "STARTING").

Definition _action_stop_ec2 (instance_id : string) (event : LEvent) (os_name : string) : L json :=
  with_state instance_id (fun state =>
    if str_in state ["stopped"; "stopping"] then ret (OK instance_id [("status", JStr (upper state))])
    else
      let! blocked := if String.eqb state "running" then _safe_stop_blocked instance_id os_name event
                      else ret None in
      match blocked with
      | Some err => ret err
      | None => attempt instance_id "stop_instances" (StopInstances instance_id) "STOPPING"
      end).

Definition _action_restart_ec2 (instance_id : string) (event : LEvent) (os_name : string) : L json :=
  with_state instance_id (fun state =>
    if String.eqb state "stopped" then
      attempt instance_id "start_instances" (StartInstances instance_id) "STARTING"
    else if String.eqb state "running" then
      let! blocked := _safe_stop_blocked instance_id os_name event in
      match blocked with
      | Some err => ret err
      | None => attempt instance_id "reboot_instances" (RebootInstances instance_id) "REBOOTING"
      end
    else ret (_error ("instance is '" +:+ state +:+ "' -- retry restart_ec2 once it settles")
                [("server_id", JStr instance_id); ("status", JStr (upper state))])).

(** ** Strategy commands *)
Definition algo_of (event : LEvent) : option string :=
  let o := opt_str_or event.(e_algo_id) event.(e_algo_name) in if opt_truthy o then o else None.

Definition pending_status (agent_command : string) : string :=
  if String.eqb agent_command "START_ALGO" then "STARTING"
  else if String.eqb agent_command "STOP_ALGO" then "STOPPING"
  else if String.eqb agent_command "RESTART_ALGO" then "RESTARTING"
  else "UPDATING".

Definition send_failed (instance_id algo_name : string) (e : exn) : json :=
  _error ("send_command failed: " +:+ exc_str e)
    [("server_id", JStr instance_id); ("algo_id", JStr algo_name)].

Definition _action_algo_command (action instance_id repo_path os_name : string) (event : LEvent) : L json :=
  match algo_of event with
  | None => ret (_error "algo_id (or algo_name) is required for this action" [])
  | Some algo_name =>
      match algo_action action with
      | None => raise (KeyError action)
      | Some agent_command =>
          let command := _build_algo_command os_name repo_path agent_command algo_name event.(e_lines)
                           (opt_str_or event.(e_server_name) (_get_env "SERVER_NAME"))
                           (_get_env "API_BASE_URL") (_get_env "CONTROL_API_KEY") in
          catch is_boto
            (let! command_id := _send_ssm_command instance_id command os_name in
             ret (JObj [("success", JBool true); ("job_id", JStr command_id); ("server_id", JStr instance_id);
                        ("algo_id", JStr algo_name); ("status", JStr (pending_status agent_command))]))
            (fun e => ret (send_failed instance_id algo_name e))
      end
  end.

(** ** The control-center API, with retries *)
Definition _API_RETRIES : nat := 3.
Definition _API_TIMEOUT : Z := 25.
Definition _API_BACKOFF : Z := 10.

(** [for attempt in range(1, 4): try: ... except ...: sleep unless last]; the
    exception of the last attempt is reported. *)
Fixpoint retrying {A} (attempts : nat) (what : string) (body : L A) (last : exn) : L A :=
  match attempts with
  | O => raise (AlgoListError (what +:+ " after 3 attempts: " +:+ exc_str last))
  | S n =>
      catch is_api body
        (fun e => match n with
                  | O => retrying n what body e
                  | _ => sleep _API_BACKOFF ;;; retrying n what body e
                  end)
  end.

Definition enabled_only (algos : json) : result exn (list json) :=
  match as_list algos with
  | Err e => Err e
  | Ok l =>
      fold_right (fun a acc =>
        match dict_get "enabled" a with
        | Err e => Err e
        | Ok v => match acc with Err e => Err e | Ok r => Ok (if jtruthy v then a :: r else r) end
        end) (Ok []) l
  end.

Definition _list_enabled_algos (api_base_url api_key : string) : L (list json) :=
  retrying _API_RETRIES ("could not fetch algo list from " +:+ api_base_url +:+ "/api/algos")
    (let! algos := _api_request "GET" "/api/algos" api_base_url api_key None _API_TIMEOUT in
     lift (enabled_only algos)) OutOfFuel.

(** [{s["server_id"]: s for s in servers}], the names being text. *)
Fixpoint by_server_id (l : list json) (acc : list (string * json)) : result exn (list (string * json)) :=
  match l with
  | [] => Ok acc
  | s :: r => match jindex "server_id" s with
              | Ok (JStr k) => by_server_id r (assoc_set k s acc)
              | Ok _ => Err (TypeError "unhashable type")
              | Err e => Err e
              end
  end.

Definition _list_servers (api_base_url api_key : string) : L (list (string * json)) :=
  retrying _API_RETRIES ("could not fetch server list from " +:+ api_base_url +:+ "/api/servers")
    (let! servers := _api_request "GET" "/api/servers" api_base_url api_key None _API_TIMEOUT in
     let! l := lift (as_list servers) in
     lift (by_server_id l [])) OutOfFuel.

Definition all_succeeded (results : list json) : json :=
  JObj [("success", JBool (forallb (fun r => jtruthy (jget "success" r)) results)); ("results", JArr results)].

(** [action.removesuffix(suffix)] *)
Definition removesuffix (suffix s : string) : string :=
  let n := (String.length s - String.length suffix)%nat in
  if String.eqb (str_drop n s) suffix then str_take n s else s.

Definition text_field (k : string) (j : json) : L string :=
  let! v := lift (jindex k j) in lift (text v).

(** One strategy of the list, on its own server. *)
Definition one_algo_command (single_action : string) (servers_by_name : list (string * json)) (algo : json)
  : L json :=
  let! server_id := text_field "server_id" algo in
  match assoc server_id servers_by_name with
  | None =>
      let! algo_id := lift (jindex "algo_id" algo) in
      ret (_error ("unknown server for algo: " +:+ server_id) [("algo_id", algo_id)])
  | Some server =>
      let! instance_id := text_field "ec2_instance_id" server in
      let! repo_path := text_field "repo_path" server in
      let! os_name := lift (text (jget_or "os" (JStr "linux") server)) in
      let! algo_id := text_field "algo_id" algo in
      _action_algo_command single_action instance_id repo_path os_name
        (mkEvent None None None None (Some server_id) (Some algo_id) None None JNull None None)
  end.

Definition _action_all_algos_command (action : string) : L json :=
  let api_base_url := env_text "API_BASE_URL" in
  let api_key := env_text "CONTROL_API_KEY" in
  if negb (truthy api_base_url) || negb (truthy api_key) then
    ret (_error "API_BASE_URL and CONTROL_API_KEY environment variables are required for *_all_algos actions" [])
  else
    let! fetched := try_except
      (let! algos := _list_enabled_algos api_base_url api_key in
       let! servers := _list_servers api_base_url api_key in
       ret (inl (algos, servers)))
      (fun e => match e with AlgoListError msg => ret (inr (_error msg [])) | _ => raise e end) in
    match fetched with
    | inr err => ret err
    | inl ([], _) =>
        ret (JObj [("success", JBool true); ("results", JArr []); ("message", JStr "no enabled algos found")])
    | inl (algos, servers) =>
        let single_action := removesuffix "_all_algos" action +:+ "_algo" in
        let! results := map_m (one_algo_command single_action servers) algos in
        ret (all_succeeded results)
    end.

Definition set_server_name (name : string) (r : json) : json :=
  match r with JObj kvs => JObj (assoc_set "server_name" (JStr name) kvs) | _ => r end.

Definition one_ec2_command (action : string) (event : LEvent) (ns : string * json) : L json :=
  let '(name, server) := ns in
  let! i := lift (dict_get "ec2_instance_id" server) in
  if negb (jtruthy i) then
    ret (_error ("server '" +:+ name +:+ "' has no ec2_instance_id") [("server_id", JStr name)])
  else
    let! instance_id := lift (text i) in
    let! os_name := lift (text (jget_or "os" (JStr "linux") server)) in
    let! r := if String.eqb action "start_all_ec2" then _action_start_ec2 instance_id
              else _action_stop_ec2 instance_id event os_name in
    ret (set_server_name name r).

Definition _action_all_ec2 (action : string) (event : LEvent) : L json :=
  let api_base_url := env_text "API_BASE_URL" in
  let api_key := env_text "CONTROL_API_KEY" in
  if negb (truthy api_base_url) || negb (truthy api_key) then
    ret (_error "API_BASE_URL and CONTROL_API_KEY environment variables are required for *_all_ec2 actions" [])
  else
    let! fetched := try_except
      (let! servers := _list_servers api_base_url api_key in ret (inl servers))
      (fun e => match e with AlgoListError msg => ret (inr (_error msg [])) | _ => raise e end) in
    match fetched with
    | inr err => ret err
    | inl [] =>
        ret (JObj [("success", JBool true); ("results", JArr []); ("message", JStr "no servers registered")])
    | inl servers =>
        let! results := map_m (one_ec2_command action event)
                          (sort_by (fun a b => String.leb (fst a) (fst b)) servers) in
        ret (all_succeeded results)
    end.

(** ** Following a command *)
Definition terminal (status : json) : bool :=
  jis_str "Success" status || jis_str "Failed" status || jis_str "Cancelled" status || jis_str "TimedOut" status.

Definition command_outcome (command_id : string) (invocation : json) : result exn json :=
  let ssm_status := jget_or "Status" (JStr "Pending") invocation in
  if negb (terminal ssm_status) then
    Ok (JObj [("success", JBool true); ("job_id", JStr command_id); ("ssm_status", ssm_status);
              ("status", JStr "IN_PROGRESS")])
  else
    match text (jget_or "StandardOutputContent" (JStr "") invocation) with
    | Err e => Err e
    | Ok stdout =>
        match _parse_agent_output stdout with
        | Some (JObj kvs) =>
            Ok (JObj (assoc_update
              [("success", JBool (jis_str "Success" ssm_status)); ("job_id", JStr command_id);
               ("ssm_status", ssm_status)] kvs))
        | Some _ => Err (TypeError "'**' argument is not a mapping")
        | None =>
            Ok (JObj [("success", JBool false); ("job_id", JStr command_id); ("ssm_status", ssm_status);
                      ("status", JStr "UNKNOWN"); ("stdout", JStr stdout);
                      ("stderr", jget_or "StandardErrorContent" (JStr "") invocation)])
        end
    end.

Definition _action_get_command_status (instance_id : string) (event : LEvent) : L json :=
  let command_id := opt_str_or event.(e_job_id) event.(e_command_id) in
  if negb (opt_truthy command_id) then
    ret (_error "job_id (or command_id) is required for this action" [])
  else
    let command_id := default "" command_id in
    let! res := catch is_boto
      (let! r := _get_command_result command_id instance_id in ret (inl r))
      (fun e => ret (inr (_error ("get_command_invocation failed: " +:+ exc_str e) [("job_id", JStr command_id)]))) in
    match res with
    | inr err => ret err
    | inl r => lift (command_outcome command_id r)
    end.

Definition job_event (command_id : string) : LEvent :=
  mkEvent None None None None None None None None JNull (Some command_id) None.

Definition status_probe (instance_id command_id : string) : L (option json) :=
  let! result := _action_get_command_status instance_id (job_event command_id) in
  ret (if jis_str "IN_PROGRESS" (jget "status" result) then None else Some result).

Definition still_running (command_id instance_id : string) (algo : list (string * json)) (message : string) : json :=
  JObj ([("success", JBool true); ("job_id", JStr command_id); ("server_id", JStr instance_id)] ++ algo ++
        [("status", JStr "PENDING"); ("message", JStr message)]).

Definition _action_get_algo_status (instance_id repo_path os_name : string) (event : LEvent) : L json :=
  match algo_of event with
  | None => ret (_error "algo_id (or algo_name) is required for this action" [])
  | Some algo_name =>
      let command := _build_algo_command os_name repo_path "STATUS" algo_name None None None None in
      let! sent := catch is_boto
        (let! i := _send_ssm_command instance_id command os_name in ret (inl i))
        (fun e => ret (inr (send_failed instance_id algo_name e))) in
      match sent with
      | inr err => ret err
      | inl command_id =>
          let! r := poll STATUS_POLL_TIMEOUT_SECONDS STATUS_POLL_INTERVAL_SECONDS
                      (status_probe instance_id command_id) in
          ret (default (still_running command_id instance_id [("algo_id", JStr algo_name)]
                 "status check still running — poll get_command_status with this job_id") r)
      end
  end.

Definition sync_command (os_name repo_path : string) (algo_name : option string) : string :=
  let pull := qt "cd ~" +:+ repo_path +:+ qt "~; git -c safe.directory=~" +:+ repo_path +:+
              qt "~ pull --ff-only 2>&1" in
  if String.eqb os_name "windows" then
    pull +:+ " | Out-String" +:+
    match algo_name with
    | Some a => qt "; $req = ~trading\algos\" +:+ a +:+ qt "\requirements.txt~; " +:+
                "if (Test-Path $req) { pip install -r $req 2>&1 | Out-String }"
    | None => ""
    end
  else
    pull +:+
    match algo_name with
    | Some a => qt "; req=~trading/algos/" +:+ a +:+ qt "/requirements.txt~; " +:+
                qt "if [ -f ~$req~ ]; then venv/bin/pip install -r ~$req~ 2>&1; fi"
    | None => ""
    end.

Definition sync_probe (command_id instance_id : string) : L (option json) :=
  let! res := catch is_boto
    (let! r := _get_command_result command_id instance_id in ret (inl r))
    (fun e => ret (inr (_error ("get_command_invocation failed: " +:+ exc_str e) [("job_id", JStr command_id)]))) in
  match res with
  | inr err => ret (Some err)
  | inl r =>
      let ssm_status := jget_or "Status" (JStr "Pending") r in
      if terminal ssm_status then
        let! out := lift (text (jget_or "StandardOutputContent" (JStr "") r)) in
        let! output := if truthy (strip out) then ret (strip out)
                       else let! err := lift (text (jget_or "StandardErrorContent" (JStr "") r)) in ret (strip err) in
        ret (Some (JObj [("success", JBool (jis_str "Success" ssm_status)); ("job_id", JStr command_id);
                         ("ssm_status", ssm_status); ("server_id", JStr instance_id); ("output", JStr output)]))
      else ret None
  end.

Definition _action_sync_repo (instance_id repo_path os_name : string) (event : LEvent) : L json :=
  let command := sync_command os_name repo_path (algo_of event) in
  let! sent := catch is_boto
    (let! i := _send_ssm_command instance_id command os_name in ret (inl i))
    (fun e => ret (inr (_error ("send_command failed: " +:+ exc_str e) [("server_id", JStr instance_id)]))) in
  match sent with
  | inr err => ret err
  | inl command_id =>
      let! r := poll SYNC_REPO_POLL_TIMEOUT_SECONDS SYNC_REPO_POLL_INTERVAL_SECONDS
                  (sync_probe command_id instance_id) in
      ret (default (still_running command_id instance_id []
             "sync still running — poll get_command_status with this job_id") r)
  end.

(** ** Provisioning *)
Definition _wait_for_ssm_command (instance_id command_id : string) (timeout interval : Z) : L (option json) :=
  poll timeout interval
    (let! r := catch is_boto (_get_command_result command_id instance_id)
       (fun e => ret (JObj [("Status", JStr "Failed"); ("StandardErrorContent", JStr (exc_str e));
                            ("StandardOutputContent", JStr "")])) in
     ret (if terminal (jget_or "Status" (JStr "Pending") r) then Some r else None)).

(** [report(status, message)]: a failure to reach the API is only logged. *)
Definition report (server_name api_base_url api_key provisioning_status message : string) : L unit :=
  catch is_http
    (_api_request "PATCH" ("/api/servers/" +:+ server_name) api_base_url api_key
       (Some (JObj [("provisioning_status", JStr provisioning_status);
                    ("provisioning_message", JStr (str_take 2000 message))])) 15 ;;; ret tt)
    (fun _ => ret tt).

Definition setup_command (os_name repo_path repo_url branch : string) : string :=
  if String.eqb os_name "windows" then
    qt "if (-not (Test-Path ~" +:+ repo_path +:+ qt "~)) { git clone --branch " +:+ branch +:+ " " +:+ repo_url
    +:+ qt " ~" +:+ repo_path +:+ qt "~ }; " +:+
    qt "cd ~" +:+ repo_path +:+ qt "~; pip install -r requirements.txt; " +:+
    qt "Get-ChildItem -Path ~trading\algos~ -Filter requirements.txt -Recurse " +:+
    "| ForEach-Object { pip install -r $_.FullName }"
  else
    "if ! command -v git >/dev/null 2>&1 || ! command -v python3 >/dev/null 2>&1; then " +:+
    "if command -v yum >/dev/null 2>&1; then sudo yum install -y git python3 python3-pip; " +:+
    "elif command -v apt-get >/dev/null 2>&1; then sudo apt-get update -y && sudo apt-get install -y git python3 python3-pip python3-venv; " +:+
    "fi; fi" +:+ "; " +:+
    qt "if [ ! -d ~" +:+ repo_path +:+ qt "~ ]; then sudo git clone --branch " +:+ branch +:+ " " +:+ repo_url
    +:+ qt " ~" +:+ repo_path +:+ qt "~; fi; " +:+
    "target_user=$(ls /home | head -1); target_user=${target_user:-ec2-user}" +:+
    qt "; sudo chown -R ~$target_user~:~$target_user~ ~" +:+ repo_path +:+ qt "~; " +:+
    qt "cd ~" +:+ repo_path +:+ qt "~; python3 -m venv venv; " +:+
    "venv/bin/pip install --upgrade pip; " +:+
    "venv/bin/pip install -r requirements.txt; " +:+
    "find trading/algos -maxdepth 2 -name requirements.txt -exec venv/bin/pip install -r {} \;".

Definition has_state (states : list string) (a : json) : result exn bool :=
  match jindex "State" a with
  | Ok s => Ok (existsb (fun x => jis_str x s) states)
  | Err e => Err e
  end.
(** [any(a["State"] in states for a in l)] *)
Fixpoint any_state (states : list string) (l : list json) : result exn bool :=
  match l with
  | [] => Ok false
  | a :: r => match has_state states a with
              | Ok true => Ok true
              | Ok false => any_state states r
              | Err e => Err e
              end
  end.

Definition ssm_online (instance_id : string) : L bool :=
  catch is_boto
    (let! info := call (DescribeInstanceInformation instance_id) in
     let instances := jget_or "InstanceInformationList" (JArr []) info in
     if negb (jtruthy instances) then ret false
     else
       let! i := lift (jfirst instances) in
       let! s := lift (dict_get "PingStatus" i) in
       ret (jis_str "Online" s))
    (fun _ => ret false).

(** Step 1: the instance profile; the answer says whether it was attached now. *)
Definition ensure_profile (instance_id : string) (rep : string -> string -> L unit) : L (bool + json) :=
  let profile_name := default "" (opt_str_or (_get_env "EC2_INSTANCE_PROFILE_NAME") (Some "TradingEC2SSMProfile")) in
  let! has_profile := catch is_boto
    (let! assoc := call (DescribeProfileAssociations instance_id) in
     let! l := lift (as_list (jget_or "IamInstanceProfileAssociations" (JArr []) assoc)) in
     let! b := lift (any_state ["associating"; "associated"] l) in ret (inl b))
    (fun e => rep "FAILED" ("could not check instance profile: " +:+ exc_str e) ;;;
              ret (inr (_error (exc_str e) []))) in
  match has_profile with
  | inr err => ret (inr err)
  | inl true => ret (inl false)
  | inl false =>
      let! attached := catch is_boto
        (call (AssociateProfile instance_id profile_name) ;;; ret None)
        (fun e => rep "FAILED" ("could not attach IAM instance profile '" +:+ profile_name +:+ "': " +:+ exc_str e) ;;;
                  ret (Some (_error (exc_str e) []))) in
      match attached with
      | Some err => ret (inr err)
      | None => rep "PROVISIONING" "IAM instance profile attached; checking SSM registration" ;;; ret (inl true)
      end
  end.

(** Step 2: the SSM agent; [Some err] when it cannot be brought online. *)
Definition ensure_online (instance_id : string) (attached_profile_now : bool) (rep : string -> string -> L unit)
  : L (option json) :=
  let! online := ssm_online instance_id in
  if online then ret None
  else
    let! rebooted := catch is_boto
      (call (RebootInstances instance_id) ;;; ret None)
      (fun e => rep "FAILED" ("could not reboot instance: " +:+ exc_str e) ;;; ret (Some (_error (exc_str e) []))) in
    match rebooted with
    | Some err => ret (Some err)
    | None =>
        rep "PROVISIONING"
          (if attached_profile_now then
             "Instance rebooting (needed for the SSM Agent to pick up credentials); waiting for it to come online"
           else "SSM Agent not responding; rebooted instance and waiting for it to come online") ;;;
        let! r := poll PROVISION_SSM_WAIT_TIMEOUT_SECONDS PROVISION_SSM_WAIT_INTERVAL_SECONDS
                    (let! b := ssm_online instance_id in ret (if b then Some tt else None)) in
        match r with
        | Some _ => ret None
        | None =>
            rep "FAILED" ("SSM Agent did not come online within " +:+ str_of_Z PROVISION_SSM_WAIT_TIMEOUT_SECONDS
                          +:+ "s after reboot") ;;;
            ret (Some (_error "SSM Agent did not come online after reboot" []))
        end
    end.

Definition status_text (j : json) : string :=
  match j with JStr s => s | _ => "None" end.

(** Step 3: the repository and its dependencies. *)
Definition setup_repo (instance_id os_name repo_path : string) (rep : string -> string -> L unit) : L json :=
  let repo_url := default "" (opt_str_or (_get_env "REPO_CLONE_URL")
                    (Some "https://github.com/ssamirr123/CentralizedAlgoSystem.git")) in
  let branch := default "" (opt_str_or (_get_env "REPO_BRANCH") (Some "web-base-algo-trading-control")) in
  let! sent := catch is_boto
    (let! i := _send_ssm_command instance_id (setup_command os_name repo_path repo_url branch) os_name in ret (inl i))
    (fun e => rep "FAILED" ("send_command for repo setup failed: " +:+ exc_str e) ;;;
              ret (inr (_error (exc_str e) []))) in
  match sent with
  | inr err => ret err
  | inl command_id =>
      let! r := _wait_for_ssm_command instance_id command_id PROVISION_SETUP_TIMEOUT_SECONDS
                  PROVISION_SETUP_POLL_INTERVAL_SECONDS in
      match r with
      | None =>
          rep "FAILED" ("repo setup did not complete within " +:+ str_of_Z PROVISION_SETUP_TIMEOUT_SECONDS +:+ "s") ;;;
          ret (_error "repo setup timed out" [])
      | Some res =>
          if jis_str "Success" (jget "Status" res) then
            rep "READY" "Repo cloned and dependencies installed successfully" ;;;
            ret (OK instance_id [("provisioning_status", JStr "READY")])
          else
            let! detail := lift (text (jor (jor (jget "StandardErrorContent" res) (jget "StandardOutputContent" res))
                                         (JStr ""))) in
            rep "FAILED" ("repo setup failed (" +:+ status_text (jget "Status" res) +:+ "): " +:+ strip detail) ;;;
            ret (_error ("repo setup failed: " +:+ status_text (jget "Status" res)) [])
      end
  end.

Definition _action_provision_server (instance_id os_name repo_path server_name : string) : L json :=
  let api_base_url := env_text "API_BASE_URL" in
  let api_key := env_text "CONTROL_API_KEY" in
  if negb (truthy api_base_url) || negb (truthy api_key) then
    ret (_error "API_BASE_URL and CONTROL_API_KEY are required for provisioning callbacks" [])
  else
    let rep := report server_name api_base_url api_key in
    let! profile := ensure_profile instance_id rep in
    match profile with
    | inr err => ret err
    | inl attached_profile_now =>
        let! online := ensure_online instance_id attached_profile_now rep in
        match online with
        | Some err => ret err
        | None =>
            rep "PROVISIONING" "SSM Agent online; cloning repo and installing dependencies" ;;;
            setup_repo instance_id os_name repo_path rep
        end
    end.

(** ** The entry point *)
Definition repo_required (repo_path : option string) (k : string -> L json) : L json :=
  match repo_path with
  | Some p => if truthy p then k p else ret (_error "repo_path is required for this action" [])
  | None => ret (_error "repo_path is required for this action" [])
  end.

Definition instance_action (action instance_id : string) (repo_path : option string) (os_name : string)
    (event : LEvent) : L json :=
  if String.eqb action "start_ec2" then _action_start_ec2 instance_id
  else if String.eqb action "stop_ec2" then _action_stop_ec2 instance_id event os_name
  else if String.eqb action "restart_ec2" then _action_restart_ec2 instance_id event os_name
  else if String.eqb action "check_ec2_health" then _action_check_ec2_health instance_id
  else if str_in action (map fst ALGO_ACTIONS) then
    repo_required repo_path (fun p => _action_algo_command action instance_id p os_name event)
  else if String.eqb action "get_command_status" then _action_get_command_status instance_id event
  else if String.eqb action "get_algo_status" then
    repo_required repo_path (fun p => _action_get_algo_status instance_id p os_name event)
  else if String.eqb action "sync_repo" then
    repo_required repo_path (fun p => _action_sync_repo instance_id p os_name event)
  else ret (_error ("unknown action: " +:+ action) []).

Definition lambda_handler (event : LEvent) : L json :=
  match opt_str_or event.(e_action) None with
  | None => ret (_error "event.action is required" [])
  | Some action =>
      let instance_id := opt_str_or event.(e_instance_id) (_get_env "INSTANCE_ID") in
      let repo_path := opt_str_or event.(e_repo_path) (_get_env "REPO_PATH") in
      let os_name := default "" (opt_str_or (opt_str_or event.(e_os_name) (_get_env "SERVER_OS")) (Some "linux")) in
      if str_in action ALL_ALGOS_ACTIONS then _action_all_algos_command action
      else if str_in action ALL_EC2_ACTIONS then _action_all_ec2 action event
      else if String.eqb action "provision_server" then
        if negb (opt_truthy instance_id) || negb (opt_truthy event.(e_server_name)) then
          ret (_error "instance_id and server_name are required for provision_server" [])
        else
          _action_provision_server (default "" instance_id) os_name
            (default "" (opt_str_or repo_path (Some "/trading-app"))) (default "" event.(e_server_name))
      else if negb (opt_truthy instance_id) then
        ret (_error "instance_id is required (pass it explicitly, or set INSTANCE_ID as a fallback)" [])
      else instance_action action (default "" instance_id) repo_path os_name event
  end.
End orchestrator.

(** The Windows command names the strategy's own requirements file, with its
    backslashes. *)
Example windows_requirements_path :
  sync_command "windows" "C:\repo" (Some "demo") =
  qt "cd ~C:\repo~; git -c safe.directory=~C:\repo~ pull --ff-only 2>&1 | Out-String; $req = ~trading\algos\demo\requirements.txt~; if (Test-Path $req) { pip install -r $req 2>&1 | Out-String }".
Proof. reflexivity. Qed.
