(* ===== verification/OrchestratorSafety.v ===== *)
(** * Properties of the orchestrator Lambda

    What the trace of AWS calls can and cannot contain, why the polling loops
    end, where the fleet-wide actions send their commands, and how a command's
    outcome travels from the agent's standard output to the answer. *)
From S2P Require Import Prelude PyStr PyFloat Json JsonText Orchestrator.
From Stdlib Require Import Ascii.
#[local] Open Scope string_scope.
#[local] Open Scope list_scope.
#[local] Open Scope Z_scope.

(** ** The safe-stop guard *)

(** The instance was described in a state other than running, or a listing of
    its trading processes came back complete and empty. *)
Definition not_running (tr : Trace) (i : string) : Prop :=
  exists j s, In (DescribeInstances i, Ok j) tr /\ state_name j = Ok (JStr s) /\ s <> "running".
Definition listed_empty (tr : Trace) (i : string) : Prop :=
  exists os doc r cmd inv,
    In (SendCommand i doc (process_check_command os), Ok r) tr /\
    (exists c, jindex "Command" r = Ok c /\ jindex "CommandId" c = Ok (JStr cmd)) /\
    In (GetCommandInvocation cmd i, Ok inv) tr /\
    jget "Status" inv = JStr "Success" /\
    exists out, jget_or "StandardOutputContent" (JStr "") inv = JStr out /\ nonblank_lines out = [].

Definition stops (c : aws_call) : option string :=
  match c with StopInstances i | RebootInstances i => Some i | _ => None end.

(** Every stop or reboot of the trace was allowed when it was made. *)
Definition guarded (force : bool) (tr : Trace) : Prop :=
  forall pre c r post i, tr = pre ++ (c, r) :: post -> stops c = Some i ->
    force = true \/ not_running pre i \/ listed_empty pre i.

Section safe_stop.
Context {cloud : Cloud} (force : bool).

Definition safe (w : LWorld) : Prop := guarded force w.(l_trace).

Lemma not_running_mono tr x i : not_running tr i -> not_running (tr ++ x) i.
Proof. intros (j & s & H & ?). exists j, s. split; [apply in_or_app; now left | assumption]. Qed.
Lemma listed_empty_mono tr x i : listed_empty tr i -> listed_empty (tr ++ x) i.
Proof.
  intros (os & doc & r & cmd & inv & H1 & H2 & H3 & H4). exists os, doc, r, cmd, inv.
  split; [apply in_or_app; now left|]. split; [exact H2|]. split; [apply in_or_app; now left | exact H4].
Qed.

Lemma guarded_snoc tr c r :
  guarded force tr ->
  (forall i, stops c = Some i -> force = true \/ not_running tr i \/ listed_empty tr i) ->
  guarded force (tr ++ [(c, r)]).
Proof.
  intros Hg Hc pre c' r' post i E Hs. destruct (decide (post = [])) as [->|Hne].
  - apply app_inj_tail in E as [<- [= <- <-]]. now apply Hc.
  - destruct (exists_last Hne) as (post' & x & ->).
    rewrite app_comm_cons, app_assoc in E. apply app_inj_tail in E as [-> _].
    eapply Hg; [reflexivity | exact Hs].
Qed.

Lemma safe_call c : stops c = None -> preserves safe (call c).
Proof. intros Hc w Hw. apply guarded_snoc; [exact Hw|]. rewrite Hc. discriminate. Qed.
Lemma safe_sleep n : preserves safe (sleep n).
Proof. intros w Hw. apply guarded_snoc; [exact Hw|]. discriminate. Qed.
Lemma safe_monotonic : preserves safe monotonic.
Proof. apply preserves_gets. Qed.
Lemma safe_catch {A} p (m : L A) h :
  preserves safe m -> (forall e, preserves safe (h e)) -> preserves safe (catch p m h).
Proof. intros Hm Hh. unfold catch. apply preserves_try; [exact Hm|]. intros e. destruct (p e); auto with preserves. Qed.
Hint Resolve safe_sleep safe_monotonic : preserves.

Lemma safe_poll_until {A} (probe : L (option A)) n deadline interval :
  preserves safe probe -> preserves safe (poll_until n deadline interval probe).
Proof. intros Hp. induction n as [|n IH]; cbn; preserve. Qed.
Lemma safe_poll {A} (probe : L (option A)) timeout interval :
  preserves safe probe -> preserves safe (poll timeout interval probe).
Proof. intros Hp. unfold poll. apply preserves_bind; [preserve|]. intros t. now apply safe_poll_until. Qed.

Lemma safe_send i c os : preserves safe (_send_ssm_command i c os).
Proof. unfold _send_ssm_command. apply preserves_bind; [now apply safe_call|]. preserve. Qed.
Lemma safe_result c i : preserves safe (_get_command_result c i).
Proof. unfold _get_command_result. apply preserves_try; [now apply safe_call|]. preserve. Qed.
Lemma safe_api m p b k body t : preserves safe (_api_request m p b k body t).
Proof. now apply safe_call. Qed.
Lemma safe_state i : preserves safe (_instance_state i).
Proof. unfold _instance_state. apply preserves_bind; [now apply safe_call|]. preserve. Qed.
Hint Resolve safe_send safe_result safe_api safe_state : preserves.

Ltac safe :=
  repeat first
    [ progress intros
    | solve [eauto 2 with preserves]
    | match goal with
      | |- preserves _ (bind _ _) => apply preserves_bind
      | |- preserves _ (catch _ _ _) => apply safe_catch
      | |- preserves _ (try_except _ _) => apply preserves_try
      | |- preserves _ (poll _ _ _) => apply safe_poll
      | |- preserves _ (call _) => apply safe_call; reflexivity
      | |- preserves _ (map_m _ _) => apply preserves_map_m
      | |- preserves _ (match ?x with _ => _ end) => destruct x eqn:?
      end ].

(** What the guard establishes when it lets the stop through. *)
Lemma send_command_spec i c os :
  triple safe (_send_ssm_command i c os)
    (fun cmd w => safe w /\ exists doc r, In (SendCommand i doc c, Ok r) w.(l_trace) /\
       exists x, jindex "Command" r = Ok x /\ jindex "CommandId" x = Ok (JStr cmd))
    (fun _ => safe).
Proof.
  intros w Hw. unfold _send_ssm_command. set (doc := if String.eqb os "windows" then _ else _).
  unfold bind at 1, call at 1. set (w1 := mkLWorld _ _).
  assert (safe w1) as Hw1 by now apply (safe_call (SendCommand i doc c) eq_refl w).
  destruct (aws _ _) as [r|e] eqn:E; [|exact Hw1].
  unfold bind, lift. destruct (jindex "Command" r) as [x|] eqn:Ex; [|exact Hw1].
  destruct (jindex "CommandId" x) as [y|] eqn:Ey; [|exact Hw1].
  destruct y; cbn; try exact Hw1. split; [exact Hw1|]. exists doc, r. split; [|now exists x].
  apply in_or_app. right. now left.
Qed.

Lemma process_probe_spec cmd i (P : LWorld -> Prop) :
  (forall w x, P w -> P (mkLWorld (l_clock x) (l_trace w ++ l_trace x))) ->
  triple (fun w => safe w /\ P w) (process_probe cmd i)
    (fun r w => (safe w /\ P w) /\
       (r = Some (Some []) -> exists inv, In (GetCommandInvocation cmd i, Ok inv) w.(l_trace) /\
          jget "Status" inv = JStr "Success" /\
          exists out, jget_or "StandardOutputContent" (JStr "") inv = JStr out /\ nonblank_lines out = []))
    (fun _ => safe).
Proof.
  intros HP w [Hw Hp]. unfold process_probe, _get_command_result, try_except, bind at 1, call at 1.
  set (w1 := mkLWorld _ _).
  assert (safe w1) as Hw1 by now apply (safe_call (GetCommandInvocation cmd i) eq_refl w).
  assert (P w1) as Hp1.
  { exact (HP w (mkLWorld (l_clock w1) [(GetCommandInvocation cmd i, aws (l_trace w) (GetCommandInvocation cmd i))]) Hp). }
  destruct (aws _ _) as [inv|e] eqn:E.
  - destruct (jis_str "Success" (jget_or "Status" (JStr "Pending") inv)) eqn:Es.
    + unfold bind, lift. destruct (text _) as [out|] eqn:Et; [|exact Hw1]. cbn. split; [now split|].
      intros [= Hl]. exists inv. split; [apply in_or_app; right; now left|].
      unfold jis_str, jget_or in Es. unfold jget. destruct (jlookup "Status" inv) as [[]|]; try discriminate.
      apply String.eqb_eq in Es as <-. split; [reflexivity|]. exists out. split; [|exact Hl].
      now destruct (jget_or _ _ inv); try discriminate; injection Et as ->.
    + destruct (_ || _); (split; [now split | discriminate]).
  - destruct e as [| | | | | | | | | |code msg| | | |]; try exact Hw1.
    destruct (String.eqb code "InvocationDoesNotExist"); [|exact Hw1].
    cbn. split; [now split | discriminate].
Qed.

Lemma triple_poll {A} (J : LWorld -> Prop) (probe : L (option A)) (R : A -> LWorld -> Prop)
    (X : exn -> LWorld -> Prop) timeout interval :
  (forall n w, J w -> J (snd (sleep n w))) -> (forall w, J w -> X OutOfFuel w) ->
  triple J probe (fun r w => J w /\ forall x, r = Some x -> R x w) X ->
  triple J (poll timeout interval probe) (fun r w => J w /\ forall x, r = Some x -> R x w) X.
Proof.
  intros Hs Hf Hp. unfold poll. eapply (triple_bind _ _ _ (fun _ => J)); [now apply triple_gets|]. intros t. generalize (S (S (Z.to_nat (timeout / interval)))) (t + timeout * 1000000).
  intros n d. induction n as [|n IH]; cbn; [now apply triple_raise|].
  eapply (triple_bind _ _ _ (fun _ => J)); [now apply triple_gets|]. intros t'.
  destruct (t' <? d); [|apply triple_ret; intros w Hw; now split].
  eapply triple_bind; [exact Hp|]. intros [x|]; cbn.
  - apply triple_ret. auto.
  - eapply (triple_pre J); [|now intros w [Hw _]].
    eapply (triple_bind _ _ _ (fun _ => J)); [|intros _; exact IH].
    intros w Hw. now apply (Hs interval).
Qed.

Definition sent (i c cmd : string) (w : LWorld) : Prop :=
  exists doc r, In (SendCommand i doc c, Ok r) w.(l_trace) /\
    exists x, jindex "Command" r = Ok x /\ jindex "CommandId" x = Ok (JStr cmd).
Lemma sent_mono i c cmd w t x : sent i c cmd w -> sent i c cmd (mkLWorld t (l_trace w ++ x)).
Proof. intros (doc & r & H & Hr). exists doc, r. split; [|exact Hr]. apply in_or_app. now left. Qed.

Lemma running_spec i os :
  triple safe (_running_trading_processes i os)
    (fun r w => safe w /\ (r = Some [] -> listed_empty w.(l_trace) i)) (fun _ => safe).
Proof.
  unfold _running_trading_processes.
  eapply (triple_bind _ _ _ (fun r w => safe w /\ forall cmd, r = Some cmd -> sent i (process_check_command os) cmd w)).
  { unfold catch. eapply triple_try.
    - eapply triple_bind; [apply send_command_spec|]. intros cmd. apply triple_ret.
      intros w [Hw Hs]. split; [exact Hw|]. now intros c' [= <-].
    - intros e. destruct (is_boto e); [|now apply triple_raise].
      apply triple_ret. intros w Hw. now split. }
  intros [cmd|]; [|apply triple_ret; intros w [Hw _]; now split].
  apply (triple_pre (fun w => safe w /\ sent i (process_check_command os) cmd w));
    [|intros w [Hw Hs]; auto].
  eapply (triple_bind _ _ _ (fun r w => (safe w /\ sent i (process_check_command os) cmd w) /\
            forall x, r = Some x -> x = Some [] -> listed_empty w.(l_trace) i)).
  - apply triple_poll.
    + intros n w [Hw Hs]. split; [now apply safe_sleep | now apply sent_mono].
    + now intros w [Hw _].
    + eapply triple_weaken; [apply (process_probe_spec cmd i (sent i (process_check_command os) cmd))| | |]; auto.
      * intros w x Hs. now apply sent_mono.
      * intros r w [[Hw Hs] Hr]. split; [now split|]. intros x -> ->.
        destruct Hr as (inv & H1 & H2 & H3); [reflexivity|].
        destruct Hs as (doc & r & H4 & H5). exists os, doc, r, cmd, inv. auto.
  - intros r. apply triple_ret. intros w [[Hw _] Hr]. split; [exact Hw|].
    destruct r as [x|]; cbn; [|discriminate]. intros ->. now apply (Hr (Some [])).
Qed.

Lemma blocked_spec i os event :
  is_true event.(e_force) = force ->
  triple safe (_safe_stop_blocked i os event)
    (fun r w => safe w /\ (r = None -> force = true \/ listed_empty w.(l_trace) i)) (fun _ => safe).
Proof.
  intros Hf. unfold _safe_stop_blocked. rewrite Hf. destruct force eqn:Ef.
  { apply triple_ret. intros w Hw. split; [exact Hw|]. now left. }
  rewrite <- Ef. eapply triple_bind; [apply running_spec|].
  intros [[|p l]|]; apply triple_ret; intros w [Hw Hl]; (split; [exact Hw|]); try discriminate.
  intros _. right. now apply Hl.
Qed.

Lemma with_state_safe i k :
  (forall s, triple (fun w => safe w /\ (s <> "running" -> not_running w.(l_trace) i)) (k s)
               (fun _ => safe) (fun _ => safe)) ->
  preserves safe (with_state i k).
Proof.
  intros Hk. apply preserves_triple. unfold with_state.
  eapply (triple_bind _ _ _ (fun r w => safe w /\ forall s, r = inl s -> s <> "running" -> not_running w.(l_trace) i)).
  - unfold catch. eapply (triple_try _ _ _ _ (fun _ => safe)).
    + intros w Hw. unfold _instance_state, bind at 1, bind at 1, call at 1. set (w1 := mkLWorld _ _).
      assert (safe w1) as Hw1 by now apply (safe_call (DescribeInstances i) eq_refl w).
      destruct (aws _ _) as [j|e] eqn:E; [|exact Hw1]. unfold bind, lift.
      destruct (state_name j) as [n|] eqn:En; [|exact Hw1]. destruct n; try exact Hw1. cbn.
      split; [exact Hw1|]. intros s' [= <-] Hne. exists j, s. split; [|now split].
      apply in_or_app. right. now left.
    + intros e. destruct (is_describe e); [|now apply triple_raise].
      apply triple_ret. intros w Hw. now split.
  - intros [s|err]; [|apply triple_ret; now intros w [Hw _]].
    eapply triple_pre; [apply Hk|]. intros w [Hw Hs]. split; [exact Hw | now apply Hs].
Qed.

Lemma attempt_safe i what c st :
  (forall i', stops c = Some i' -> i' = i) ->
  triple (fun w => safe w /\ (force = true \/ not_running w.(l_trace) i \/ listed_empty w.(l_trace) i))
    (attempt i what c st) (fun _ => safe) (fun _ => safe).
Proof.
  intros Hc w [Hw Hok]. unfold attempt, catch, try_except, bind, call. set (w1 := mkLWorld _ _).
  assert (safe w1) as Hw1.
  { apply guarded_snoc; [exact Hw|]. intros i' Hi. now rewrite (Hc i' Hi). }
  destruct (aws _ _) as [r|e]; [exact Hw1|]. destruct (is_boto e); exact Hw1.
Qed.

Lemma start_attempt_safe i what st : preserves safe (attempt i what (StartInstances i) st).
Proof. unfold attempt. safe. Qed.

Lemma start_safe i : preserves safe (_action_start_ec2 i).
Proof.
  apply with_state_safe. intros s. apply (triple_pre safe); [|now intros w [Hw _]].
  apply triple_preserves. destruct (str_in _ _); [safe | apply start_attempt_safe].
Qed.

Lemma stop_safe i event os : is_true event.(e_force) = force -> preserves safe (_action_stop_ec2 i event os).
Proof.
  intros Hf. apply with_state_safe. intros s.
  destruct (str_in _ _); [apply triple_ret; now intros w [Hw _]|].
  destruct (String.eqb_spec s "running") as [->|Hne].
  - eapply triple_bind; [eapply triple_pre; [now apply blocked_spec | now intros w [Hw _]]|].
    intros [err|]; [apply triple_ret; now intros w [Hw _]|].
    eapply triple_pre; [apply attempt_safe; intros i' E; cbn in E; congruence|]. intros w [Hw Hb]. split; [exact Hw|].
    destruct (Hb eq_refl); auto.
  - eapply (triple_bind _ _ _ (fun r w => r = None /\ safe w /\ not_running w.(l_trace) i)).
    { apply triple_ret. intros w [Hw Hn]. auto. }
    intros r w (-> & Hw & Hn). eapply attempt_safe; [intros i' E; cbn in E; congruence|]. auto.
Qed.

Lemma restart_safe i event os :
  is_true event.(e_force) = force -> preserves safe (_action_restart_ec2 i event os).
Proof.
  intros Hf. apply with_state_safe. intros s.
  destruct (String.eqb s "stopped").
  { eapply triple_pre; [apply triple_preserves, start_attempt_safe | now intros w [Hw _]]. }
  destruct (String.eqb_spec s "running") as [->|Hne]; [|apply triple_ret; now intros w [Hw _]].
  eapply triple_bind; [eapply triple_pre; [now apply blocked_spec | now intros w [Hw _]]|].
  intros [err|]; [apply triple_ret; now intros w [Hw _]|].
  eapply triple_pre; [apply attempt_safe; intros i' E; cbn in E; congruence|]. intros w [Hw Hb]. split; [exact Hw|].
  destruct (Hb eq_refl); auto.
Qed.

Lemma retrying_safe {A} n what (body : L A) : preserves safe body -> forall last, preserves safe (retrying n what body last).
Proof. intros Hb. induction n as [|n IH]; intros last; cbn; [safe|]. safe; apply IH. Qed.
Lemma health_safe i : preserves safe (_action_check_ec2_health i).
Proof. unfold _action_check_ec2_health. safe. Qed.
Lemma algo_command_safe a i p os event : preserves safe (_action_algo_command a i p os event).
Proof. unfold _action_algo_command. safe. Qed.
Hint Resolve start_safe health_safe algo_command_safe : preserves.
Lemma command_status_safe i event : preserves safe (_action_get_command_status i event).
Proof. unfold _action_get_command_status. safe. Qed.
Hint Resolve command_status_safe : preserves.
Lemma algo_status_safe i p os event : preserves safe (_action_get_algo_status i p os event).
Proof. unfold _action_get_algo_status, status_probe. safe. Qed.
Lemma sync_safe i p os event : preserves safe (_action_sync_repo i p os event).
Proof. unfold _action_sync_repo, sync_probe. safe. Qed.
Hint Resolve algo_status_safe sync_safe : preserves.

Lemma list_servers_safe b k : preserves safe (_list_servers b k).
Proof. apply retrying_safe. safe. Qed.
Lemma list_algos_safe b k : preserves safe (_list_enabled_algos b k).
Proof. apply retrying_safe. safe. Qed.
Hint Resolve list_servers_safe list_algos_safe : preserves.
Lemma one_algo_safe a s x : preserves safe (one_algo_command a s x).
Proof. unfold one_algo_command, text_field. safe. Qed.
Hint Resolve one_algo_safe : preserves.
Lemma all_algos_safe a : preserves safe (_action_all_algos_command a).
Proof. unfold _action_all_algos_command. safe. Qed.

Lemma all_ec2_safe a event : is_true event.(e_force) = force -> preserves safe (_action_all_ec2 a event).
Proof.
  intros Hf. pose proof (fun i os => stop_safe i event os Hf) as Hst.
  unfold _action_all_ec2, one_ec2_command. safe.
Qed.

Lemma handler_safe event :
  is_true event.(e_force) = force -> event.(e_action) <> Some "provision_server" ->
  preserves safe (lambda_handler event).
Proof.
  intros Hf Hp. pose proof (fun i os => stop_safe i event os Hf) as Hst.
  pose proof (fun i os => restart_safe i event os Hf) as Hre.
  pose proof all_algos_safe as Haa. pose proof (fun a => all_ec2_safe a event Hf) as Hae.
  unfold lambda_handler. destruct event.(e_action) as [a|]; [|cbn; safe].
  destruct (opt_str_or (Some a) None) as [a'|] eqn:Ea; [|safe].
  assert (a' = a) as -> by (unfold opt_str_or in Ea; destruct (opt_truthy _); congruence).
  destruct (String.eqb_spec a "provision_server") as [->|Hne]; [congruence|].
  unfold instance_action, repo_required. safe.
Qed.
End safe_stop.

(** C1: the Lambda never stops or reboots an instance blindly.  Whatever AWS
    and the API answer, in the trace of calls of any action but
    [provision_server] every stop or reboot is preceded, for the same instance,
    by an answer that described it in a state other than running, or by the
    trading-process listing sent to it, completed with success and empty -
    unless the event forces it with the literal [true]. *)
Theorem safe_stop {cloud : Cloud} (event : LEvent) (clock : Z) :
  event.(e_action) <> Some "provision_server" ->
  guarded (is_true event.(e_force)) (snd (lambda_handler event (mkLWorld clock []))).(l_trace).
Proof.
  intros Hp. apply (handler_safe (is_true event.(e_force)) event eq_refl Hp).
  intros pre c r post i E. destruct pre; discriminate.
Qed.

(** A concrete cloud: one running instance whose agent lists no process and
    prints [stdout], and an API that lists one server and one strategy. *)
Definition demo_listing (output : string) : json :=
  JObj [("Status", JStr "Success"); ("StandardOutputContent", JStr output)].
Definition demo_aws (output : string) (tr : Trace) (c : aws_call) : result exn json :=
  match c with
  | DescribeInstances _ =>
      Ok (JObj [("Reservations", JArr [JObj [("Instances", JArr [JObj [("State", JObj [("Name", JStr "running")])]])]])])
  | SendCommand _ _ _ => Ok (JObj [("Command", JObj [("CommandId", JStr "c-1")])])
  | GetCommandInvocation _ _ => Ok (demo_listing output)
  | ApiRequest "GET" "http://api/api/algos" _ _ _ =>
      Ok (JArr [JObj [("algo_id", JStr "algo"); ("server_id", JStr "srv"); ("enabled", JBool true)]])
  | ApiRequest "GET" _ _ _ _ =>
      Ok (JArr [JObj [("server_id", JStr "srv"); ("ec2_instance_id", JStr "i-1"); ("repo_path", JStr "/repo");
                      ("os", JStr "linux")]])
  | _ => Ok (JObj [])
  end.
Definition demo_cloud (output : string) : Cloud := {|
  aws := demo_aws output;
  took := fun _ _ => 200000;
  env_var := fun k => if String.eqb k "API_BASE_URL" then Some "http://api/"
                      else if String.eqb k "CONTROL_API_KEY" then Some "key" else None
|}.
Definition stop_event : LEvent :=
  mkEvent (Some "stop_ec2") (Some "i-1") None None None None None None JNull None None.

Example stop_blocked :
  let cloud := demo_cloud "123 venv/bin/python3 trading/algos/algo/main.py" in
  existsb (fun cr => match stops (fst cr) with Some _ => true | None => false end)
    (snd (lambda_handler stop_event (mkLWorld 0 []))).(l_trace) = false.
Proof. vm_compute. reflexivity. Qed.
Example stop_allowed :
  let cloud := demo_cloud "" in
  existsb (fun cr => match stops (fst cr) with Some _ => true | None => false end)
    (snd (lambda_handler stop_event (mkLWorld 0 []))).(l_trace) = true.
Proof. vm_compute. reflexivity. Qed.

Theorem safe_stop_witness :
  let cloud := demo_cloud "" in
  guarded false (snd (lambda_handler stop_event (mkLWorld 0 []))).(l_trace).
Proof. cbv zeta. apply (safe_stop (cloud := demo_cloud "") stop_event 0). discriminate. Defined.

(** ** Every action ends *)
Create HintDb ends discriminated.
#[export] Hint Constants Opaque : ends.

Section termination.
Context {cloud : Cloud} (Haws : forall tr c, aws tr c <> Err OutOfFuel).

(** [m] returns or raises something other than the exhaustion of its fuel, and
    time does not go back. *)
Definition ends {A} (m : L A) : Prop :=
  forall w, fst (m w) <> Err OutOfFuel /\ l_clock w <= l_clock (snd (m w)).

Lemma ends_ret {A} (a : A) : ends (ret a).
Proof. intros w. cbn. split; [discriminate | lia]. Qed.
Lemma ends_raise {A} e : e <> OutOfFuel -> ends (raise (A := A) e).
Proof. intros H w. cbn. split; [congruence | lia]. Qed.
Lemma ends_lift {A} (r : result exn A) : r <> Err OutOfFuel -> ends (lift r).
Proof. intros H w. cbn. split; [exact H | lia]. Qed.
Lemma ends_bind {A B} (m : L A) (k : A -> L B) : ends m -> (forall a, ends (k a)) -> ends (bind m k).
Proof.
  intros Hm Hk w. unfold bind. destruct (Hm w) as [H1 H2]. destruct (m w) as [[a|e] w']; cbn in *.
  - destruct (Hk a w') as [H3 H4]. split; [exact H3 | lia].
  - split; [congruence | lia].
Qed.
Lemma ends_try {A} (m : L A) h : ends m -> (forall e, e <> OutOfFuel -> ends (h e)) -> ends (try_except m h).
Proof.
  intros Hm Hh w. unfold try_except. destruct (Hm w) as [H1 H2]. destruct (m w) as [[a|e] w']; cbn in *.
  - split; [discriminate | lia].
  - destruct (Hh e ltac:(congruence) w') as [H3 H4]. split; [exact H3 | lia].
Qed.
Lemma ends_catch {A} p (m : L A) h : ends m -> (forall e, e <> OutOfFuel -> ends (h e)) -> ends (catch p m h).
Proof. intros Hm Hh. apply ends_try; [exact Hm|]. intros e He. destruct (p e); [now apply Hh | now apply ends_raise]. Qed.
Lemma ends_call c : ends (call c).
Proof. intros w. cbn. split; [apply Haws | lia]. Qed.
Lemma ends_sleep n : 0 <= n -> ends (sleep n).
Proof. intros Hn w. cbn. split; [discriminate | lia]. Qed.
Lemma ends_map_m {A B} (f : A -> L B) l : (forall a, ends (f a)) -> ends (map_m f l).
Proof.
  intros Hf. induction l as [|x l IH]; cbn; [apply ends_ret|].
  apply ends_bind; [apply Hf|]. intros y. apply ends_bind; [exact IH|]. intros ys. apply ends_ret.
Qed.

(** One turn of a polling loop. *)
Lemma poll_step {A} (probe : L (option A)) n deadline interval w :
  poll_until (S n) deadline interval probe w =
  if l_clock w <? deadline then
    match probe w with
    | (Ok (Some x), w1) => (Ok (Some x), w1)
    | (Ok None, w1) => poll_until n deadline interval probe (snd (sleep interval w1))
    | (Err e, w1) => (Err e, w1)
    end
  else (Ok None, w).
Proof.
  cbn [poll_until]. unfold bind at 1, monotonic, gets. destruct (_ <? _); [|reflexivity].
  unfold bind at 1. now destruct (probe w) as [[[x|]|e] w1].
Qed.

(** The fuel of a polling loop covers its deadline: every turn sleeps. *)
Lemma ends_poll_until {A} (probe : L (option A)) interval deadline : ends probe -> 0 < interval ->
  forall n w, deadline - l_clock w <= Z.of_nat n * (interval * 1000000) ->
  fst (poll_until (S n) deadline interval probe w) <> Err OutOfFuel /\
  l_clock w <= l_clock (snd (poll_until (S n) deadline interval probe w)).
Proof.
  intros Hp Hi n. induction n as [|n IH]; intros w Hd; rewrite poll_step;
    (destruct (l_clock w <? deadline) eqn:Et; [|cbn; split; [discriminate | lia]]).
  - apply Z.ltb_lt in Et. lia.
  - destruct (Hp w) as [H1 H2]. destruct (probe w) as [[[x|]|e] w1]; cbn [fst snd] in *.
    + split; [discriminate | lia].
    + set (w2 := snd (sleep interval w1)).
      assert (l_clock w1 + interval * 1000000 <= l_clock w2) by (subst w2; cbn; lia).
      destruct (IH w2) as [H3 H4]; [lia|]. split; [exact H3 | lia].
    + split; [congruence | lia].
Qed.
Lemma ends_poll {A} (probe : L (option A)) timeout interval :
  ends probe -> 0 < interval -> 0 <= timeout -> ends (poll timeout interval probe).
Proof.
  intros Hp Hi Ht w. unfold poll, bind at 1, monotonic, gets.
  apply ends_poll_until; auto. rewrite Nat2Z.inj_succ, Z2Nat.id by (apply Z.div_pos; lia).
  pose proof (Z.div_mod timeout interval ltac:(lia)). pose proof (Z.mod_pos_bound timeout interval Hi).
  replace (Z.succ (timeout / interval) * (interval * 1000000))
    with ((interval * (timeout / interval) + interval) * 1000000) by ring. lia.
Qed.

Lemma pure_jindex k j : jindex k j <> Err OutOfFuel.
Proof. destruct j; cbn; try discriminate. now destruct (assoc k kvs). Qed.
Lemma pure_jfirst j : jfirst j <> Err OutOfFuel.
Proof. destruct j as [| | | | |[]|]; discriminate. Qed.
Lemma pure_text j : text j <> Err OutOfFuel.
Proof. now destruct j. Qed.
Lemma pure_as_list j : as_list j <> Err OutOfFuel.
Proof. now destruct j. Qed.
Lemma pure_dict_get k j : dict_get k j <> Err OutOfFuel.
Proof. now destruct j. Qed.
Lemma pure_dict_get_or k d j : dict_get_or k d j <> Err OutOfFuel.
Proof. now destruct j. Qed.
Lemma pure_upper j : jis_upper j <> Err OutOfFuel.
Proof. now destruct j. Qed.
Lemma pure_state_name j : state_name j <> Err OutOfFuel.
Proof.
  unfold state_name.
  repeat match goal with
    | |- context [match jindex ?k ?x with _ => _ end] => pose proof (pure_jindex k x); destruct (jindex k x); [|congruence]
    | |- context [match jfirst ?x with _ => _ end] => pose proof (pure_jfirst x); destruct (jfirst x); [|congruence]
    end.
  apply pure_jindex.
Qed.
Lemma pure_any_state st l : any_state st l <> Err OutOfFuel.
Proof.
  induction l as [|a l IH]; cbn; [discriminate|]. unfold has_state.
  pose proof (pure_jindex "State" a). destruct (jindex "State" a); [|congruence].
  now destruct (existsb _ st).
Qed.
Lemma pure_enabled j : enabled_only j <> Err OutOfFuel.
Proof.
  unfold enabled_only. pose proof (pure_as_list j). destruct (as_list j) as [l|]; [|congruence]. clear.
  induction l as [|a l IH]; cbn; [discriminate|].
  pose proof (pure_dict_get "enabled" a). destruct (dict_get _ a); [|congruence].
  now destruct (foldr _ _ l).
Qed.
Lemma pure_by_server l : forall acc, by_server_id l acc <> Err OutOfFuel.
Proof.
  induction l as [|a l IH]; intros acc; cbn; [discriminate|].
  pose proof (pure_jindex "server_id" a). destruct (jindex _ a) as [[]|]; try discriminate; [apply IH | congruence].
Qed.
Lemma pure_outcome c r : command_outcome c r <> Err OutOfFuel.
Proof.
  unfold command_outcome. destruct (negb _); [discriminate|].
  pose proof (pure_text (jget_or "StandardOutputContent" (JStr "") r)). destruct (text _); [|congruence].
  destruct (_parse_agent_output a) as [[]|]; discriminate.
Qed.
Hint Resolve pure_jindex pure_jfirst pure_text pure_as_list pure_dict_get pure_dict_get_or pure_upper
  pure_state_name pure_any_state pure_enabled pure_by_server pure_outcome : ends.
Hint Resolve ends_ret ends_call : ends.

Ltac ends :=
  repeat first
    [ progress intros
    | solve [eauto 2 with ends]
    | match goal with
      | |- ends (bind _ _) => apply ends_bind
      | |- ends (catch _ _ _) => apply ends_catch
      | |- ends (try_except _ _) => apply ends_try
      | |- ends (poll _ _ _) => apply ends_poll; [|reflexivity|discriminate]
      | |- ends (sleep _) => apply ends_sleep; discriminate
      | |- ends (map_m _ _) => apply ends_map_m
      | |- ends (lift _) => apply ends_lift
      | |- ends (raise _) => apply ends_raise; first [assumption | discriminate | congruence]
      | |- ends (match ?x with _ => _ end) => destruct x eqn:?
      end ].

Lemma ends_send i c os : ends (_send_ssm_command i c os).
Proof. unfold _send_ssm_command. ends. Qed.
Lemma ends_result c i : ends (_get_command_result c i).
Proof. unfold _get_command_result. ends. Qed.
Lemma ends_state i : ends (_instance_state i).
Proof. unfold _instance_state. ends. Qed.
Lemma ends_api m p b k body t : ends (_api_request m p b k body t).
Proof. apply ends_call. Qed.
Hint Resolve ends_send ends_result ends_state ends_api : ends.
Lemma ends_blocked i os e : ends (_safe_stop_blocked i os e).
Proof. unfold _safe_stop_blocked, _running_trading_processes, process_probe. ends. Qed.
Hint Resolve ends_blocked : ends.
Lemma ends_start i : ends (_action_start_ec2 i).
Proof. unfold _action_start_ec2, with_state, attempt. ends. Qed.
Lemma ends_stop i e os : ends (_action_stop_ec2 i e os).
Proof. unfold _action_stop_ec2, with_state, attempt. ends. Qed.
Lemma ends_restart i e os : ends (_action_restart_ec2 i e os).
Proof. unfold _action_restart_ec2, with_state, attempt. ends. Qed.
Lemma ends_health i : ends (_action_check_ec2_health i).
Proof. unfold _action_check_ec2_health. ends. Qed.
Lemma ends_algo a i p os e : ends (_action_algo_command a i p os e).
Proof. unfold _action_algo_command. ends. Qed.
Lemma ends_command i e : ends (_action_get_command_status i e).
Proof. unfold _action_get_command_status. ends. Qed.
Hint Resolve ends_start ends_stop ends_restart ends_health ends_algo ends_command : ends.
Lemma ends_algo_status i p os e : ends (_action_get_algo_status i p os e).
Proof. unfold _action_get_algo_status, status_probe. ends. Qed.
Lemma ends_sync i p os e : ends (_action_sync_repo i p os e).
Proof. unfold _action_sync_repo, sync_probe. ends. Qed.
Lemma ends_retrying {A} n what (body : L A) : ends body -> forall last, ends (retrying n what body last).
Proof. intros Hb. induction n as [|n IH]; intros last; cbn; [ends|]. ends; apply IH. Qed.
Lemma ends_list_servers b k : ends (_list_servers b k).
Proof. apply ends_retrying. ends. Qed.
Lemma ends_list_algos b k : ends (_list_enabled_algos b k).
Proof. apply ends_retrying. ends. Qed.
Lemma ends_one_algo a s x : ends (one_algo_command a s x).
Proof. unfold one_algo_command, text_field. ends. Qed.
Lemma ends_one_ec2 a e x : ends (one_ec2_command a e x).
Proof. unfold one_ec2_command. ends. Qed.
Hint Resolve ends_algo_status ends_sync ends_list_servers ends_list_algos ends_one_algo ends_one_ec2 : ends.
Lemma ends_all_algos a : ends (_action_all_algos_command a).
Proof. unfold _action_all_algos_command. ends. Qed.
Lemma ends_all_ec2 a e : ends (_action_all_ec2 a e).
Proof. unfold _action_all_ec2. ends. Qed.
Lemma ends_report a b c d e : ends (report a b c d e).
Proof. unfold report. ends. Qed.
Lemma ends_online i : ends (ssm_online i).
Proof. unfold ssm_online. ends. Qed.
Hint Resolve ends_all_algos ends_all_ec2 ends_report ends_online : ends.
Lemma ends_provision i os p n : ends (_action_provision_server i os p n).
Proof.
  unfold _action_provision_server, ensure_profile, ensure_online, setup_repo, _wait_for_ssm_command. ends.
Qed.
Hint Resolve ends_provision : ends.
Lemma ends_handler event : ends (lambda_handler event).
Proof. unfold lambda_handler, instance_action, repo_required. ends. Qed.
End termination.

(** Every invocation of the Lambda ends.  The fuel of the polling loops is
    never exhausted - each turn sleeps, so the deadline is passed within the
    turns allowed - whatever AWS and the API answer and however long they
    take: the handler returns a dictionary or raises an exception of AWS, of
    the API or of Python. *)
Theorem handler_ends {cloud : Cloud} (event : LEvent) (w : LWorld) :
  (forall tr c, aws tr c <> Err OutOfFuel) ->
  fst (lambda_handler event w) <> Err OutOfFuel /\ l_clock w <= l_clock (snd (lambda_handler event w)).
Proof. intros H. apply (ends_handler H). Qed.

Theorem handler_ends_witness :
  let cloud := demo_cloud "" in
  fst (lambda_handler stop_event (mkLWorld 0 [])) <> Err OutOfFuel /\
  0 <= l_clock (snd (lambda_handler stop_event (mkLWorld 0 []))).
Proof.
  cbv zeta. apply (handler_ends (cloud := demo_cloud "") stop_event (mkLWorld 0 [])).
  intros tr c. cbn. unfold demo_aws.
  destruct c; try discriminate.
  repeat (match goal with |- context [match ?x with _ => _ end] => destruct x end; try discriminate).
Defined.

(** ** Where the fleet-wide commands go *)
Section routing.
Context {cloud : Cloud} (action : string).

Definition api_url (path : string) : string := rstrip_slash (env_text "API_BASE_URL") +:+ path.
Definition fetched (path : string) (tr : Trace) (l : list json) : Prop :=
  exists j, In (ApiRequest "GET" (api_url path) (env_text "CONTROL_API_KEY") None _API_TIMEOUT, Ok j) tr /\
            as_list j = Ok l.

(** A strategy [a] of the list, enabled, on the server [s] of the list that it
    names; the command is the one of [a], for the instance of [s]. *)
Definition route (a s : json) (i cmd : string) : Prop :=
  jtruthy (jget "enabled" a) = true /\
  exists name algo os repo agent,
    jget "server_id" a = JStr name /\ jget "algo_id" a = JStr algo /\
    jget "server_id" s = JStr name /\ jget "ec2_instance_id" s = JStr i /\
    jget "repo_path" s = JStr repo /\ jget_or "os" (JStr "linux") s = JStr os /\
    algo_action (removesuffix "_all_algos" action +:+ "_algo") = Some agent /\
    cmd = _build_algo_command os repo agent algo None (opt_str_or (Some name) (_get_env "SERVER_NAME"))
            (_get_env "API_BASE_URL") (_get_env "CONTROL_API_KEY").

Definition routed (tr : Trace) : Prop :=
  forall i doc cmd r, In (SendCommand i doc cmd, r) tr ->
    exists la ls a s, fetched "/api/algos" tr la /\ fetched "/api/servers" tr ls /\
      In a la /\ In s ls /\ route a s i cmd.

Definition quiet (w : LWorld) : Prop := forall i doc cmd r, ~ In (SendCommand i doc cmd, r) w.(l_trace).

Lemma fetched_mono p tr x l : fetched p tr l -> fetched p (tr ++ x) l.
Proof. intros (j & H & E). exists j. split; [apply in_or_app; now left | exact E]. Qed.

Lemma in_snoc {A} (x y : A) l : In x (l ++ [y]) <-> In x l \/ x = y.
Proof. rewrite in_app_iff. cbn. naive_solver. Qed.

Lemma triple_retrying {A} (J : LWorld -> Prop) (R : A -> LWorld -> Prop) n what body :
  (forall k w, J w -> J (snd (sleep k w))) ->
  triple J body (fun a w => J w /\ R a w) (fun _ => J) ->
  forall last, triple J (retrying n what body last) (fun a w => J w /\ R a w) (fun _ => J).
Proof.
  intros Hs Hb. induction n as [|n IH]; intros last; cbn; [now apply triple_raise|].
  unfold catch. eapply triple_try; [exact Hb|]. intros e. destruct (is_api e); [|now apply triple_raise].
  destruct n as [|n]; [apply IH|]. eapply (triple_bind _ _ _ (fun _ => J)); [|intros _; apply IH].
  intros w Hw. now apply (Hs _API_BACKOFF).
Qed.

(** A request keeps the strategies' list known, and makes its answer known. *)
Lemma api_call_spec (J : LWorld -> Prop) path :
  (forall w t x, J w -> (forall i doc cmd r, ~ In (SendCommand i doc cmd, r) x) -> J (mkLWorld t (w.(l_trace) ++ x))) ->
  triple J (_api_request "GET" path (env_text "API_BASE_URL") (env_text "CONTROL_API_KEY") None _API_TIMEOUT)
    (fun j w => J w /\ In (ApiRequest "GET" (api_url path) (env_text "CONTROL_API_KEY") None _API_TIMEOUT, Ok j)
                         w.(l_trace)) (fun _ => J).
Proof.
  intros HJ w Hw. unfold _api_request, call. fold (api_url path). set (c := ApiRequest _ _ _ _ _).
  assert (forall r, J (mkLWorld (l_clock w + Z.max 0 (took (l_trace w) c)) (l_trace w ++ [(c, r)]))) as HJ'.
  { intros r. apply HJ; [exact Hw|]. intros i doc cmd r' [[=]|[]]. }
  destruct (aws _ c) as [j|e]; [|apply HJ']. split; [apply HJ'|]. apply in_snoc. now right.
Qed.

Lemma enabled_only_spec j l : enabled_only j = Ok l ->
  exists la, as_list j = Ok la /\ forall a, In a l -> In a la /\ jtruthy (jget "enabled" a) = true.
Proof.
  unfold enabled_only. destruct (as_list j) as [la|]; [|discriminate]. intros H. exists la. split; [reflexivity|].
  revert l H. induction la as [|a la IH]; cbn; [intros l [= <-] x []|]. intros l.
  destruct a; try discriminate. cbn [dict_get]. destruct (foldr _ _ la) as [r|]; [|discriminate].
  destruct (jtruthy _) eqn:E; intros [= <-] x Hx.
  - destruct Hx as [<-|Hx]; [split; [now left | exact E]|]. destruct (IH r eq_refl x Hx). auto.
  - destruct (IH r eq_refl x Hx). auto.
Qed.

Lemma by_server_spec l : forall acc out, by_server_id l acc = Ok out ->
  forall k s, assoc k out = Some s -> assoc k acc = Some s \/ (In s l /\ jget "server_id" s = JStr k).
Proof.
  induction l as [|x l IH]; cbn; intros acc out H k s Hs; [left; congruence|].
  destruct (jindex "server_id" x) as [[| | | |n| |]|] eqn:Ex; try discriminate.
  destruct (IH _ _ H k s Hs) as [Ha|[Ha Hb]]; [|auto].
  rewrite assoc_set_lookup in Ha. destruct (String.eqb_spec k n) as [->|]; [|now left].
  injection Ha as <-. right. split; [now left|].
  destruct x; try discriminate. cbn in *. unfold jget. cbn. destruct (assoc "server_id" kvs); [|discriminate].
  now injection Ex as ->.
Qed.

Lemma list_algos_spec :
  triple quiet (_list_enabled_algos (env_text "API_BASE_URL") (env_text "CONTROL_API_KEY"))
    (fun l w => quiet w /\ exists la, fetched "/api/algos" w.(l_trace) la /\
       forall a, In a l -> In a la /\ jtruthy (jget "enabled" a) = true)
    (fun _ => quiet).
Proof.
  apply triple_retrying.
  - intros k w Hw i doc cmd r H. apply in_snoc in H as [H|[=]]. exact (Hw _ _ _ _ H).
  - eapply triple_bind.
    + apply (api_call_spec quiet). intros w t x Hw Hx i doc cmd r H. apply in_app_or in H as [H|H].
      * exact (Hw _ _ _ _ H).
      * exact (Hx _ _ _ _ H).
    + intros j. apply triple_lift. intros w [Hw Hj]. destruct (enabled_only j) as [l|] eqn:E; [|exact Hw].
      split; [exact Hw|]. destruct (enabled_only_spec j l E) as (la & Ela & Hl).
      exists la. split; [now exists j | exact Hl].
Qed.

Definition known (algos : list json) (w : LWorld) : Prop :=
  exists la, fetched "/api/algos" w.(l_trace) la /\
    forall a, In a algos -> In a la /\ jtruthy (jget "enabled" a) = true.
Definition known_servers (servers : list (string * json)) (w : LWorld) : Prop :=
  exists ls, fetched "/api/servers" w.(l_trace) ls /\
    forall k s, assoc k servers = Some s -> In s ls /\ jget "server_id" s = JStr k.

Lemma list_servers_spec algos :
  triple (fun w => quiet w /\ known algos w)
    (_list_servers (env_text "API_BASE_URL") (env_text "CONTROL_API_KEY"))
    (fun servers w => (quiet w /\ known algos w) /\ known_servers servers w)
    (fun _ w => quiet w /\ known algos w).
Proof.
  apply triple_retrying.
  - intros k w [Hw (la & Hla & Hl)]. split.
    + intros i doc cmd r H. apply in_snoc in H as [H|[=]]. exact (Hw _ _ _ _ H).
    + exists la. split; [now apply fetched_mono | exact Hl].
  - eapply triple_bind.
    + apply (api_call_spec (fun w => quiet w /\ known algos w)). intros w t x [Hw (la & Hla & Hl)] Hx. split.
      * intros i doc cmd r H. apply in_app_or in H as [H|H]; [exact (Hw _ _ _ _ H) | exact (Hx _ _ _ _ H)].
      * exists la. split; [now apply fetched_mono | exact Hl].
    + intros j. eapply (triple_bind _ _ _ (fun l w => (quiet w /\ known algos w) /\ fetched "/api/servers" w.(l_trace) l)).
      { apply triple_lift. intros w [Hw Hj]. destruct (as_list j) as [l|] eqn:E; [|exact Hw].
        split; [exact Hw | now exists j]. }
      intros l. apply triple_lift. intros w [Hw Hl].
      destruct (by_server_id l []) as [out|] eqn:E; [|exact Hw]. split; [exact Hw|].
      exists l. split; [exact Hl|]. intros k s Hs. now destruct (by_server_spec l [] out E k s Hs).
Qed.

Lemma text_field_spec (P J : LWorld -> Prop) k j :
  (forall w, P w -> J w) -> triple P (text_field k j) (fun s w => P w /\ jget k j = JStr s) (fun _ => J).
Proof.
  intros HJ w Hw. unfold text_field, bind, lift. destruct (jindex k j) as [v|] eqn:E; [|now apply HJ].
  destruct v; try now apply HJ. cbn. split; [exact Hw|]. destruct j; try discriminate. cbn in E. unfold jget. cbn.
  destruct (assoc k kvs); [now injection E as -> | discriminate].
Qed.

(** The invariant of the loop over the strategies. *)
Definition sending (algos : list json) (servers : list (string * json)) (w : LWorld) : Prop :=
  routed w.(l_trace) /\ known algos w /\ known_servers servers w.

Lemma sending_call algos servers w t c r :
  sending algos servers w ->
  (forall i doc cmd, c = SendCommand i doc cmd ->
     exists a s k, In a algos /\ assoc k servers = Some s /\ route a s i cmd) ->
  sending algos servers (mkLWorld t (w.(l_trace) ++ [(c, r)])).
Proof.
  intros (Hr & (la & Hla & Ha) & (ls & Hls & Hs)) Hc. repeat split.
  - intros i doc cmd r' H. apply in_snoc in H as [H|[= <- <-]].
    + destruct (Hr _ _ _ _ H) as (la' & ls' & a & s & H1 & H2 & H3).
      exists la', ls', a, s. split; [now apply fetched_mono|]. split; [now apply fetched_mono | exact H3].
    + destruct (Hc _ _ _ eq_refl) as (a & s & k & H1 & H2 & H3). exists la, ls, a, s.
      split; [now apply fetched_mono|]. split; [now apply fetched_mono|].
      split; [now apply Ha|]. split; [now apply (Hs k s) | exact H3].
  - exists la. split; [now apply fetched_mono | exact Ha].
  - exists ls. split; [now apply fetched_mono | exact Hs].
Qed.

Lemma send_sending (P : LWorld -> Prop) algos servers i cmd os :
  (forall w, P w -> sending algos servers w /\
     exists a s k, In a algos /\ assoc k servers = Some s /\ route a s i cmd) ->
  triple P (_send_ssm_command i cmd os) (fun _ => sending algos servers) (fun _ => sending algos servers).
Proof.
  intros HP w Hw. destruct (HP w Hw) as [Hs Hr]. unfold _send_ssm_command. set (doc := if String.eqb os "windows" then _ else _).
  unfold bind at 1, call. set (c := SendCommand i doc cmd).
  assert (forall r, sending algos servers (mkLWorld (l_clock w + Z.max 0 (took (l_trace w) c)) (l_trace w ++ [(c, r)])))
    as Hc by (intros r; apply sending_call; [exact Hs|]; now intros ? ? ? [= <- <- <-]).
  destruct (aws _ c) as [r|e]; [|apply Hc]. unfold bind, lift.
  destruct (jindex "Command" r) as [x|]; [|apply Hc]. destruct (jindex "CommandId" x) as [y|]; [|apply Hc].
  destruct (text y); apply Hc.
Qed.

Lemma one_algo_spec algos servers a :
  In a algos -> jtruthy (jget "enabled" a) = true ->
  triple (sending algos servers) (one_algo_command (removesuffix "_all_algos" action +:+ "_algo") servers a)
    (fun _ => sending algos servers) (fun _ => sending algos servers).
Proof.
  intros Ha Hen. unfold one_algo_command. set (J := sending algos servers).
  eapply triple_bind; [apply (text_field_spec J J); auto|]. intros name.
  destruct (assoc name servers) as [s|] eqn:Es.
  2:{ eapply (triple_bind _ _ _ (fun _ => J)); [|intros v; now apply triple_ret].
      apply triple_lift. intros w [Hw _]. now destruct (jindex _ a). }
  eapply triple_bind; [apply (text_field_spec _ J); tauto|]. intros i.
  eapply triple_bind; [apply (text_field_spec _ J); tauto|]. intros repo.
  eapply (triple_bind _ _ _ (fun os w => (((J w /\ jget "server_id" a = JStr name) /\
            jget "ec2_instance_id" s = JStr i) /\ jget "repo_path" s = JStr repo) /\
            jget_or "os" (JStr "linux") s = JStr os)).
  { apply triple_lift. intros w Hw. destruct (jget_or "os" _ s); cbn; tauto. }
  intros os. eapply triple_bind; [apply (text_field_spec _ J); tauto|]. intros algo.
  unfold _action_algo_command, algo_of. cbn [e_algo_id e_algo_name e_server_name e_lines].
  destruct (opt_truthy _) eqn:Et; [|apply triple_ret; tauto].
  assert (opt_str_or (Some algo) None = Some algo) as -> by (unfold opt_str_or in *; destruct (opt_truthy (Some algo)); [reflexivity | discriminate]).
  destruct (algo_action _) as [agent|] eqn:Eag; [|apply triple_raise; tauto].
  unfold catch. eapply (triple_try _ _ _ _ (fun _ => J)).
  - eapply (triple_bind _ _ _ (fun _ => J)); [|intros c; now apply triple_ret].
    apply send_sending. intros w (((((Hw & H1) & H2) & H3) & H4) & H5). split; [exact Hw|].
    exists a, s, name. split; [exact Ha|]. split; [exact Es|]. split; [exact Hen|].
    exists name, algo, os, repo, agent. destruct Hw as (_ & _ & ls & _ & Hs). destruct (Hs name s Es) as [_ Hn].
    repeat split; assumption.
  - intros e. destruct (is_boto e); [now apply triple_ret | now apply triple_raise].
Qed.

Lemma all_algos_routed w :
  quiet w -> routed (snd (_action_all_algos_command action w)).(l_trace).
Proof.
  assert (forall w', quiet w' -> routed w'.(l_trace)) as Hq.
  { intros w' Hw i doc cmd r H. now apply Hw in H. }
  assert (triple quiet (_action_all_algos_command action) (fun _ w' => routed w'.(l_trace))
            (fun _ w' => routed w'.(l_trace))) as H.
  { unfold _action_all_algos_command. destruct (_ || _); [now apply triple_ret|].
    eapply (triple_bind _ _ _ (fun x w' => match x with
              | inl (algos, servers) => quiet w' /\ known algos w' /\ known_servers servers w'
              | inr _ => quiet w' end)).
    - eapply (triple_try _ _ _ _ (fun _ => quiet)).
      + eapply triple_bind; [apply list_algos_spec|]. intros algos.
        eapply (triple_bind _ _ _ (fun servers w' => quiet w' /\ known algos w' /\ known_servers servers w')).
        * intros w' Hw'. pose proof (list_servers_spec algos w' Hw') as Hs.
          destruct (_list_servers _ _ w') as [[servers|e] w2]; [|tauto]. tauto.
        * intros servers. now apply triple_ret.
      + intros e. destruct e; try (apply triple_raise; auto). apply triple_ret. auto.
    - intros [[algos servers]|err]; [|now apply triple_ret].
      destruct algos as [|a algos]; [apply triple_ret; intros w' [Hw' _]; auto|].
      intros w' (Hw' & Hk & Hks). assert (sending (a :: algos) servers w') as Hs by (split; auto).
      assert (forall x, In x (a :: algos) -> jtruthy (jget "enabled" x) = true) as Hen.
      { destruct Hk as (la & _ & Hl). intros x Hx. now apply Hl. }
      assert (triple (sending (a :: algos) servers)
        (let! results := map_m (one_algo_command (removesuffix "_all_algos" action +:+ "_algo") servers) (a :: algos) in
         ret (all_succeeded results)) (fun _ w1 => routed w1.(l_trace)) (fun _ w1 => routed w1.(l_trace)))
        as Ht; [|exact (Ht w' Hs)].
      eapply (triple_bind _ _ _ (fun _ => sending (a :: algos) servers)).
      + eapply triple_weaken; [apply (triple_map_m (sending (a :: algos) servers) (fun _ => sending (a :: algos) servers))| | |]; auto.
        * intros x Hx. apply one_algo_spec; auto.
        * now intros e w2 (Hr & _).
      + intros rs. apply triple_ret. now intros w2 (Hr & _). }
  intros Hw. specialize (H w Hw). now destruct (_action_all_algos_command action w) as [[]].
Qed.
End routing.

(** C32: the scheduled fleet-wide actions reach only the right instances.  In
    the trace of [start_all_algos], [stop_all_algos] or [update_all_algos],
    every command sent comes from a strategy of the list the API answered that
    is enabled, is sent to the instance of the listed server that strategy is
    registered on, and is that strategy's own command line for that server's
    repository and operating system. *)
Theorem all_algos_reach_their_servers {cloud : Cloud} (action : string) (clock : Z) :
  routed action (snd (_action_all_algos_command action (mkLWorld clock []))).(l_trace).
Proof. apply all_algos_routed. intros i doc cmd r []. Qed.

Example all_algos_sends :
  let cloud := demo_cloud "" in
  existsb (fun cr => match fst cr with SendCommand "i-1" _ _ => true | _ => false end)
    (snd (_action_all_algos_command "start_all_algos" (mkLWorld 0 []))).(l_trace) = true.
Proof. vm_compute. reflexivity. Qed.

(** ** From the agent's output to the answer *)
Lemma drop_while_head p (c : ascii) r : p c = false -> drop_while p (c :: r) = c :: r.
Proof. cbn. now intros ->. Qed.
Lemma strip_line (a z : ascii) (m : list ascii) :
  is_space a = false -> is_space z = false ->
  strip (unchars (a :: m ++ [z]) +:+ nl) = unchars (a :: m ++ [z]).
Proof.
  intros Ha Hz. unfold strip, strip_chars. rewrite chars_app, chars_unchars.
  assert ((a :: m ++ [z]) ++ chars nl = a :: (m ++ z :: chars nl)) as -> by (cbn; now rewrite <- app_assoc).
  rewrite drop_while_head by exact Ha.
  assert (rev (a :: (m ++ z :: chars nl)) = chars nl ++ z :: rev (a :: m)) as ->.
  { rewrite app_comm_cons, rev_app_distr. cbn [rev]. rewrite <- app_assoc. reflexivity. }
  assert (drop_while is_space (chars nl ++ z :: rev (a :: m)) = z :: rev (a :: m)) as ->
    by (cbn; now rewrite Hz).
  cbn [rev]. rewrite rev_app_distr, rev_involutive. cbn. reflexivity.
Qed.

Lemma parse_printed kvs :
  plain (JObj kvs) = true -> _parse_agent_output (json_dumps (JObj kvs) +:+ nl) = Some (JObj kvs).
Proof.
  intros Hp. unfold _parse_agent_output.
  assert (strip (json_dumps (JObj kvs) +:+ nl) = json_dumps (JObj kvs)) as ->.
  { unfold json_dumps. now apply strip_line. }
  pose proof (json_loads_dumps (JObj kvs) "" Hp eq_refl) as H.
  assert (forall s, s +:+ "" = s) as Happ by (intros s; induction s as [|c s IH]; [reflexivity | exact (f_equal (String c) IH)]).
  rewrite Happ in H. rewrite H. reflexivity.
Qed.

(** What the agent prints is what the caller gets.  For a finished command
    whose standard output is the line [print(json.dumps(result))] of a plain
    dictionary (no floats, ASCII text, distinct keys), the answer of
    [get_command_status] has, under every key of [result], the value the agent
    gave it - its own ["success"] and ["status"] included - and under every
    other key the job and the SSM status only. *)
Theorem agent_result_reaches_answer (command_id status : string) (kvs : list (string * json)) :
  plain (JObj kvs) = true -> terminal (JStr status) = true ->
  exists out,
    command_outcome command_id
      (JObj [("Status", JStr status); ("StandardOutputContent", JStr (json_dumps (JObj kvs) +:+ nl))])
    = Ok out /\
    forall k, jlookup k out =
      match assoc k kvs with
      | Some v => Some v
      | None => assoc k [("success", JBool (String.eqb "Success" status)); ("job_id", JStr command_id);
                         ("ssm_status", JStr status)]
      end.
Proof.
  intros Hp Ht. set (stdout := json_dumps (JObj kvs) +:+ nl). set (inv := JObj _).
  exists (JObj (assoc_update [("success", JBool (jis_str "Success" (JStr status))); ("job_id", JStr command_id);
                              ("ssm_status", JStr status)] kvs)).
  split.
  - unfold command_outcome. assert (jget_or "Status" (JStr "Pending") inv = JStr status) as -> by reflexivity.
    rewrite Ht. cbn [negb].
    assert (text (jget_or "StandardOutputContent" (JStr "") inv) = Ok stdout) as -> by reflexivity.
    unfold stdout. now rewrite parse_printed.
  - intros k. cbn in Hp. apply andb_prop in Hp as [Hnd%bool_decide_eq_true _].
    cbn [jlookup]. now rewrite assoc_update_lookup by exact Hnd.
Qed.

Theorem agent_result_reaches_answer_witness :
  let kvs := [("success", JBool false); ("status", JStr "ERROR"); ("error", JStr "boom")] in
  exists out,
    command_outcome "c-1" (JObj [("Status", JStr "Success"); ("StandardOutputContent", JStr (json_dumps (JObj kvs) +:+ nl))])
    = Ok out /\ jlookup "status" out = Some (JStr "ERROR") /\ jlookup "success" out = Some (JBool false).
Proof.
  cbv zeta.
  destruct (agent_result_reaches_answer "c-1" "Success"
    [("success", JBool false); ("status", JStr "ERROR"); ("error", JStr "boom")]) as (out & H & Hk);
    [vm_compute; reflexivity | reflexivity |].
  exists out. split; [exact H|]. rewrite !Hk. split; reflexivity.
Defined.
