(* ===== verification/Provisioning.v ===== *)
(** * Provisioning, end to end

    The orchestrator reports the progress of [provision_server] by calling the
    control-center API back ([report], a [PATCH /api/servers/{name}] with the
    machine's key).  This file plays those requests against the API's own
    route. *)
From S2P Require Import Prelude PyStr PyFloat Json JsonText Config PyTime Permissions Schema.
From S2P Require Import Realtime Alerts ApiWorld DemoEnv Security RateLimit Auth ControlApi.
From S2P Require Import ControlRoutes Orchestrator OrchestratorSafety.

(** The body of the request as the route parses it. *)
Definition update_of (body : json) : ServerUpdate :=
  let f k := jstr_opt (jget k body) in
  mkServerUpdate (f "server_id") (f "ec2_instance_id") (f "region") (f "status") (f "os") (f "repo_path")
    (f "provisioning_status") (f "provisioning_message").

(** The request the orchestrator sends for a call, with the headers
    [_api_request] sets. *)
Definition request_of (method url api_key : string) : Request :=
  mkRequest method url [("x-api-key", api_key); ("content-type", "application/json")] [] None.

Definition is_report {cloud : Cloud} (server_name : string) (c : aws_call) : bool :=
  match c with
  | ApiRequest m url _ (Some _) _ =>
      String.eqb m "PATCH" && String.eqb url (rstrip_slash (env_text "API_BASE_URL") +:+ "/api/servers/" +:+ server_name)
  | _ => false
  end.

(** The API receives the orchestrator's calls one after the other. *)
Definition deliver {cloud : Cloud} {env : Env} (server_name : string) (w : World) (c : aws_call) : World :=
  match c with
  | ApiRequest m url key (Some body) _ =>
      if is_report server_name c
      then snd (control_route (OpUpdateServer server_name (update_of body)) (request_of m url key) w)
      else w
  | _ => w
  end.

Section reports.
Context {cloud : Cloud} (server_name : string).

Definition only_reports (w : LWorld) : Prop :=
  forall c r, In (c, r) w.(l_trace) ->
    match c with ApiRequest _ _ _ _ _ => is_report server_name c = true | _ => True end.

Lemma reports_call c :
  match c with ApiRequest _ _ _ _ _ => is_report server_name c = true | _ => True end ->
  preserves only_reports (call c).
Proof. intros Hc w Hw c' r H. apply in_snoc in H as [H|[= -> ->]]; [now apply (Hw c' r) | exact Hc]. Qed.
Lemma reports_sleep n : preserves only_reports (sleep n).
Proof. intros w Hw c r H. apply in_snoc in H as [H|[= -> ->]]; [now apply (Hw c r) | exact I]. Qed.
Lemma reports_monotonic : preserves only_reports monotonic.
Proof. apply preserves_gets. Qed.
Lemma reports_catch {A} p (m : L A) h :
  preserves only_reports m -> (forall e, preserves only_reports (h e)) -> preserves only_reports (catch p m h).
Proof. intros Hm Hh. unfold catch. apply preserves_try; [exact Hm|]. intros e. destruct (p e); auto with preserves. Qed.
Hint Resolve reports_sleep reports_monotonic : preserves.
Lemma reports_poll {A} (probe : L (option A)) timeout interval :
  preserves only_reports probe -> preserves only_reports (poll timeout interval probe).
Proof.
  intros Hp. unfold poll. apply preserves_bind; [preserve|]. intros t.
  generalize (S (S (Z.to_nat (timeout / interval)))). intros n. induction n as [|n IH]; cbn; preserve.
Qed.
Lemma reports_report status message :
  preserves only_reports
    (report server_name (env_text "API_BASE_URL") (env_text "CONTROL_API_KEY") status message).
Proof.
  unfold report. apply reports_catch; [|preserve]. apply preserves_bind; [|preserve].
  apply reports_call. cbn. now rewrite String.eqb_refl.
Qed.
Hint Resolve reports_report : preserves.

Ltac reports :=
  repeat first
    [ progress intros
    | solve [eauto 2 with preserves]
    | match goal with
      | |- preserves _ (bind _ _) => apply preserves_bind
      | |- preserves _ (catch _ _ _) => apply reports_catch
      | |- preserves _ (try_except _ _) => apply preserves_try
      | |- preserves _ (poll _ _ _) => apply reports_poll
      | |- preserves _ (call _) => apply reports_call; exact I
      | |- preserves _ (match ?x with _ => _ end) => destruct x eqn:?
      end ].

Lemma provision_only_reports i os repo :
  preserves only_reports (_action_provision_server i os repo server_name).
Proof.
  unfold _action_provision_server, ensure_profile, ensure_online, setup_repo, _wait_for_ssm_command,
    ssm_online, _send_ssm_command, _get_command_result.
  reports.
Qed.
End reports.

Lemma deliver_refused {cloud : Cloud} {env : Env} server_name s c w :
  db_inv (fun d => control_state d = s) w ->
  db_inv (fun d => control_state d = s) (deliver server_name w c) /\
  effects (deliver server_name w c) = effects w.
Proof.
  intros Hw. destruct c; try (now split). destruct body as [body|]; [|now split]. cbn [deliver].
  destruct (is_report _ _); [|now split]. unfold control_route, guard_of. cbn [required].
  pose proof (limited_route_denied TRADING_CONTROL (request_of method url api_key)
    (handler_of (OpUpdateServer server_name (update_of body)) (request_of method url api_key)) w
    (fun p => service_key_lacks TRADING_CONTROL (request_of method url api_key) w p I ltac:(discriminate))
    s Hw) as H.
  destruct (limited_route _ _ _ w) as [res w']. now destruct H as (_ & H1 & H2).
Qed.

(** The outcome of a provisioning never reaches the control center.  The
    only requests [provision_server] sends are its progress reports, which
    carry the machine's key; the route they are sent to requires
    [TRADING_CONTROL], which that key does not have: whatever happened on the
    instance, after all of them are delivered every table but the audit log
    and the rate-limit windows is as it was - the server keeps the provisioning
    status it was registered with - and no event was published. *)
Theorem provisioning_never_reported {cloud : Cloud} {env : Env} (i os repo name : string) (clock : Z) (w : World) :
  idle w ->
  let tr := (snd (_action_provision_server i os repo name (mkLWorld clock []))).(l_trace) in
  let w' := fold_left (deliver name) (map fst tr) w in
  (forall m url key body t, In (ApiRequest m url key body t) (map fst tr) ->
     is_report name (ApiRequest m url key body t) = true) /\
  control_state w'.(w_db) = control_state w.(w_db) /\ effects w' = effects w.
Proof.
  intros Hi. cbv zeta. split.
  - intros m url key body t H. apply in_map_iff in H as ([c r] & [= ->] & H).
    exact (provision_only_reports name i os repo (mkLWorld clock []) (fun _ _ H => match H with end) _ _ H).
  - assert (db_inv (fun d => control_state d = control_state w.(w_db)) w) as Hw by now apply idle_db_inv.
    revert Hw. generalize (control_state w.(w_db)) as s. intros s. clear Hi.
    generalize (map fst (snd (_action_provision_server i os repo name (mkLWorld clock []))).(l_trace)) as l.
    intros l. revert w. induction l as [|c l IH]; intros w Hw; cbn.
    + split; [apply Hw | reflexivity].
    + destruct (deliver_refused name s c w Hw) as [H1 H2]. destruct (IH _ H1) as [H3 H4].
      split; [exact H3 | congruence].
Qed.

Theorem provisioning_never_reported_witness :
  let cloud := demo_cloud "" in
  let env := demo_env (fun _ _ => Ok JNull) in
  let s := mkServer 1 "srv" "i-1" "ap-south-1" "running" "linux" "/repo" "PROVISIONING" None None in
  let w := fresh_world (on_servers (fun _ => [s]) empty_db) 2 0 in
  let tr := (snd (_action_provision_server "i-1" "linux" "/repo" "srv" (mkLWorld 0 []))).(l_trace) in
  (exists c, In c (map fst tr) /\ is_report "srv" c = true) /\
  control_state (fold_left (deliver "srv") (map fst tr) w).(w_db) = control_state w.(w_db).
Proof.
  cbv zeta. split.
  - vm_compute. eexists. split; [right; right; left; reflexivity | reflexivity].
  - apply (provisioning_never_reported (cloud := demo_cloud "") (env := demo_env (fun _ _ => Ok JNull))
             "i-1" "linux" "/repo" "srv" 0). now constructor.
Defined.
