(* ===== verification/Agent.v ===== *)
(** * The trading agent

    [trading/agent/trading_agent.py] and the process helpers of
    [trading/common/utils.py], on a POSIX host.  One invocation is a short
    command; what invocations agree on lives in the file system and the process
    table ([Disk]).  Everything else on the host (the strategies, the watchdog,
    other invocations) acts through [Machine.others] before each system call, so
    every interleaving at the granularity of a call is covered.  [h_trace] keeps
    the calls made, each with the monotonic instant of its start; whether the
    start lock is ever granted is [Machine.lock_granted]. *)
From S2P Require Import Prelude PyStr PyFloat Json JsonText Orchestrator.
From Stdlib Require Import Ascii.

(** ** The host *)
(** What [os.kill(pid, 0)] answers for a live process. *)
Inductive proc : Type := Mine | Theirs.

Record Disk : Type := mkDisk { files : gmap string string; procs : gmap Z proc }.

Inductive act : Type :=
| Exists (path : string) (found : bool)
| ReadText (path : string) (contents : option string)
| WriteText (path text : string)
| AppendText (path text : string)
| Unlink (path : string)
| Flock (path : string)
| Unflock (path : string)
| Probe (pid : Z) (alive : bool)
| Sigkill (pid : Z)
| Spawn (argv : list string)
| Poll (exited : bool)
| SleepUs (us : Z)
| Git (args : list string) (returncode : Z) (stdout stderr : string).

Definition Trace : Type := list (Z * act).
Record Host : Type := mkHost { h_disk : Disk; h_clock : Z; h_trace : Trace }.
Definition HostM (A : Type) : Type := M Host exn A.
Definition except {A} (p : exn -> bool) (m : HostM A) (h : exn -> HostM A) : HostM A :=
  try_except m (fun e => if p e then h e else raise e).

Class Machine : Type := {
  others : Trace -> Disk -> Disk;
  elapsed : Trace -> Z;                       (* microseconds a call takes *)
  wall_clock : Trace -> string;               (* [datetime.now(utc).isoformat()] *)
  io_refused : Trace -> option string;        (* an [OSError] of a file operation *)
  launcher_exited : Trace -> bool;            (* [proc.poll() is not None] *)
  lock_granted : Trace -> bool;               (* the start lock is free, or its holder releases it *)
  git : Trace -> list string -> result exn (Z * string * string);
  python : string;                            (* [sys.executable] *)
  PROJECT_ROOT : string
}.

Definition OSError (m : string) : exn := OtherError "OSError" m.
(** [CalledProcessError]; the text is [exc.stderr.strip() if exc.stderr else exc]. *)
Definition CalledProcessError (m : string) : exn := OtherError "CalledProcessError" m.
Definition is_class (c : string) (e : exn) : bool :=
  match e with OtherError c' _ => String.eqb c c' | _ => false end.

(** ** Text *)
(** [a / b] of two paths (an absolute [b] wins). *)
Definition join_path (a b : string) : string := if startswith "/" b then b else a +:+ "/" +:+ b.
(** Text mode reads [\r\n] and [\r] as [\n]. *)
Fixpoint universal_newlines (l : list ascii) : list ascii :=
  match l with
  | [] => []
  | c :: r =>
      if (nat_of_ascii c =? 13)%nat then
        match r with
        | d :: r' => if (nat_of_ascii d =? 10)%nat then ascii_of_nat 10 :: universal_newlines r'
                     else ascii_of_nat 10 :: universal_newlines r
        | [] => [ascii_of_nat 10]
        end
      else c :: universal_newlines r
  end.
Definition as_text (s : string) : string := unchars (universal_newlines (chars s)).

Section agent.
Context {machine : Machine}.

(** ** System calls *)
(** One call: the others act, the call runs on the disk they left. *)
Definition syscall {A} (run : Disk -> result exn A * Disk) (log : Disk -> act) : HostM A := fun h =>
  let d := others h.(h_trace) h.(h_disk) in
  let '(r, d') := run d in
  (r, mkHost d' (h.(h_clock) + Z.max 0 (elapsed h.(h_trace))) (h.(h_trace) ++ [(h.(h_clock), log d)])).

Definition on_files (f : gmap string string -> gmap string string) (d : Disk) : Disk := mkDisk (f d.(files)) d.(procs).
Definition guard {A} (t : Trace) (k : result exn A * Disk) (d : Disk) : result exn A * Disk :=
  match io_refused t with Some m => (Err (OSError m), d) | None => k end.
Definition file_call {A} (run : Disk -> result exn A * Disk) (log : Disk -> act) : HostM A := fun h =>
  syscall (fun d => guard h.(h_trace) (run d) d) log h.

Definition exists_ (path : string) : HostM bool :=
  syscall (fun d => (Ok (bool_decide (is_Some (d.(files) !! path))), d))
          (fun d => Exists path (bool_decide (is_Some (d.(files) !! path)))).
Definition read_text (path : string) : HostM string :=
  file_call (fun d => (match d.(files) !! path with
                       | Some s => Ok (as_text s)
                       | None => Err (OSError "No such file or directory")
                       end, d))
            (fun d => ReadText path (as_text <$> d.(files) !! path)).
Definition write_text (path text : string) : HostM unit :=
  file_call (fun d => (Ok tt, on_files <[path := text]> d)) (fun _ => WriteText path text).
Definition append_text (path text : string) : HostM unit :=
  file_call (fun d => (Ok tt, on_files (fun f => <[path := default "" (f !! path) +:+ text]> f) d))
            (fun _ => AppendText path text).
(** [path.unlink(missing_ok=True)] *)
Definition unlink (path : string) : HostM unit :=
  file_call (fun d => (Ok tt, on_files (delete path) d)) (fun _ => Unlink path).
(** [path.unlink()] *)
Definition unlink_existing (path : string) : HostM unit :=
  file_call (fun d => match d.(files) !! path with
                      | Some _ => (Ok tt, on_files (delete path) d)
                      | None => (Err (OSError "No such file or directory"), d)
                      end) (fun _ => Unlink path).
Definition monotonic : HostM Z := gets h_clock.
Definition sleep (us : Z) : HostM unit := fun h =>
  let '(r, h') := syscall (fun d => (Ok tt, d)) (fun _ => SleepUs us) h in
  (r, mkHost h'.(h_disk) (h'.(h_clock) + us) h'.(h_trace)).
Definition _now_iso : HostM string := gets (fun h => wall_clock h.(h_trace)).

(** ** [trading/common/utils.py] *)
Definition DATA_DIR : string := join_path PROJECT_ROOT "trading/data".
Definition LOGS_DIR : string := join_path PROJECT_ROOT "trading/logs".
Definition ALGOS_DIR : string := join_path PROJECT_ROOT "trading/algos".

Definition pid_file_path (algo_name : string) : string := join_path DATA_DIR (algo_name +:+ ".pid").
Definition read_pid_file (algo_name : string) : HostM (option Z) :=
  let! found := exists_ (pid_file_path algo_name) in
  if negb found then ret None
  else
    except (fun e => is_class "OSError" e || is_class "ValueError" e)
      (let! s := read_text (pid_file_path algo_name) in
       match py_int (strip s) with
       | Some n => ret (Some n)
       | None => raise (OtherError "ValueError" "invalid literal for int()")
       end)
      (fun _ => ret None).
Definition write_pid_file (pid : Z) (algo_name : string) : HostM unit :=
  write_text (pid_file_path algo_name) (str_of_Z pid).
Definition remove_pid_file (algo_name : string) : HostM unit := unlink (pid_file_path algo_name).

Definition stop_flag_path (algo_name : string) : string :=
  join_path DATA_DIR (algo_name +:+ ".stop_requested").
Definition request_stop (algo_name : string) : HostM unit :=
  let! t := _now_iso in write_text (stop_flag_path algo_name) t.
Definition clear_stop_flag (algo_name : string) : HostM unit := unlink (stop_flag_path algo_name).
Definition is_stop_requested (algo_name : string) : HostM bool := exists_ (stop_flag_path algo_name).

(** Signal 0: delivered or refused means alive, no such process means dead. *)
Definition kill0 (pid : Z) (d : Disk) : bool := bool_decide (is_Some (d.(procs) !! pid)).
Definition is_process_running (pid : Z) : HostM bool :=
  if pid <=? 0 then ret false
  else syscall (fun d => (Ok (kill0 pid d), d)) (fun d => Probe pid (kill0 pid d)).
(** [os.kill(pid, SIGKILL)]: a killed process is gone at once. *)
Definition sigkill (pid : Z) : HostM unit :=
  syscall (fun d => match d.(procs) !! pid with
                    | Some Mine => (Ok tt, mkDisk d.(files) (delete pid d.(procs)))
                    | Some Theirs => (Err (OSError "Operation not permitted"), d)
                    | None => (Err (OSError "No such process"), d)
                    end) (fun _ => Sigkill pid).

(** [GracefulShutdown]: the stop event and the polled flag file. *)
Record GracefulShutdown : Type := mkShutdown {
  stop_event : bool; gs_algo_name : option string; poll_interval : Z
}.
Definition _handle_signal (g : GracefulShutdown) : GracefulShutdown :=
  mkShutdown true g.(gs_algo_name) g.(poll_interval).
Definition _flag_requested (g : GracefulShutdown) : HostM bool :=
  match g.(gs_algo_name) with None => ret false | Some a => is_stop_requested a end.
Definition is_set (g : GracefulShutdown) : HostM bool :=
  if g.(stop_event) then ret true else _flag_requested g.
(** [signalled t]: a signal handler ran during the wait that follows [t]. *)
Fixpoint wait (fuel : nat) (signalled : Trace -> bool) (deadline : option Z) (g : GracefulShutdown)
    : HostM (bool * GracefulShutdown) :=
  match fuel with
  | O => raise OutOfFuel
  | S n =>
      if g.(stop_event) then ret (true, g)
      else
        let! requested := _flag_requested g in
        if requested then ret (true, _handle_signal g)
        else
          let! t := monotonic in
          let step := match deadline with
                      | Some d => if d - t <=? 0 then None else Some (Z.min g.(poll_interval) (d - t))
                      | None => Some g.(poll_interval)
                      end in
          match step with
          | None => ret (false, g)
          | Some us =>
              let! woken := gets (fun h => signalled h.(h_trace)) in
              if woken then ret (true, _handle_signal g)
              else sleep us ;;; wait n signalled deadline g
          end
  end.

(** ** Paths and the state file *)
Definition _algo_main_path (algo_name : string) : HostM string :=
  let path := join_path (join_path ALGOS_DIR algo_name) "main.py" in
  let! found := exists_ path in
  if negb found then
    raise (AlgoNotFoundError ("No algo named '" +:+ algo_name +:+ "' (expected " +:+ path +:+ " to exist)."))
  else ret path.
Definition _state_file_path (algo_name : string) : string := join_path DATA_DIR (algo_name +:+ ".state.json").

(** The file holds whatever JSON it holds; [{}] when it is absent or broken. *)
Definition _read_state (algo_name : string) : HostM json :=
  let! found := exists_ (_state_file_path algo_name) in
  if negb found then ret (JObj [])
  else
    except (fun e => is_class "OSError" e || is_class "ValueError" e)
      (let! s := read_text (_state_file_path algo_name) in
       match json_loads s with
       | Some j => ret j
       | None => raise (OtherError "ValueError" "Expecting value")
       end)
      (fun _ => ret (JObj [])).
Definition dict_update (j : json) (fields : list (string * json)) : result exn json :=
  match j with JObj kvs => Ok (JObj (assoc_update kvs fields)) | _ => Err AttributeError end.
Definition _write_state (algo_name : string) (fields : list (string * json)) : HostM json :=
  let! state := _read_state algo_name in
  let! state := lift (dict_update state fields) in
  write_text (_state_file_path algo_name) (json_dumps state) ;;;
  ret state.

Definition _launch_log_path (algo_name : string) : string := join_path LOGS_DIR (algo_name +:+ ".agent-launch.log").
Definition _algo_log_path (algo_name : string) : string := join_path LOGS_DIR (algo_name +:+ ".log").

Definition _current_pid_if_alive (algo_name : string) : HostM (option Z) :=
  let! pid := read_pid_file algo_name in
  match pid with
  | Some p => let! alive := is_process_running p in ret (if alive then Some p else None)
  | None => ret None
  end.

(** [with _start_lock(algo_name): body]: the lock is released however the body
    ends.  [fcntl.flock(fd, LOCK_EX)] waits until the lock is free ([elapsed]
    tells how long), for ever when its holder never releases it; a call that
    never returns is [OutOfFuel], as a git that never answers. *)
Definition finally {A} (m : HostM A) (f : HostM unit) : HostM A := fun h =>
  match m h with
  | (r, h') => match f h' with (Ok _, h2) => (r, h2) | (Err e, h2) => (Err e, h2) end
  end.
Definition _start_lock_path (algo_name : string) : string := join_path DATA_DIR (algo_name +:+ ".start.lock").
Definition flock (path : string) : HostM unit := fun h =>
  if lock_granted h.(h_trace) then syscall (fun d => (Ok tt, d)) (fun _ => Flock path) h
  else (Err OutOfFuel, h).
Definition unflock (path : string) : HostM unit := syscall (fun d => (Ok tt, d)) (fun _ => Unflock path).
Definition with_start_lock {A} (algo_name : string) (body : HostM A) : HostM A :=
  flock (_start_lock_path algo_name) ;;;
  finally body (unflock (_start_lock_path algo_name)).

(** [f.readlines()[-lines:]]: the last [lines] lines; every line for 0, and all
    but the first [-lines] for a negative number. *)
Fixpoint read_lines (cur l : list ascii) : list string :=
  match l with
  | [] => match cur with [] => [] | _ => [unchars (rev cur)] end
  | c :: r => if (nat_of_ascii c =? 10)%nat then unchars (rev cur) :: read_lines [] r else read_lines (c :: cur) r
  end.
Definition last_slice {A} (n : Z) (l : list A) : list A :=
  if 0 <? n then drop (List.length l - Z.to_nat n) l else drop (Z.to_nat (- n)) l.
Definition _tail_file (path : string) (lines : Z) : HostM (list string) :=
  let! found := exists_ path in
  if negb found then ret []
  else
    let! s := read_text path in
    ret (last_slice lines (read_lines [] (chars s))).

(** ** [start_algo] *)
Definition START_CRASH_CHECK : Z := 2000000.
Definition STOP_GRACE_TIMEOUT : Z := 10000000.

Definition spawn (argv : list string) : HostM unit := syscall (fun d => (Ok tt, d)) (fun _ => Spawn argv).
Definition poll_launcher : HostM bool := fun h =>
  let b := launcher_exited h.(h_trace) in syscall (fun d => (Ok b, d)) (fun _ => Poll b) h.

(** The wait for the PID file: a live pid, or [None]. *)
Fixpoint await_pid (fuel : nat) (deadline : Z) (algo_name : string) : HostM (option Z) :=
  match fuel with
  | O => raise OutOfFuel
  | S n =>
      let! t := monotonic in
      if negb (t <? deadline) then ret None
      else
        let! child_pid := _current_pid_if_alive algo_name in
        match child_pid with
        | Some p => ret (Some p)
        | None =>
            let! exited := poll_launcher in
            if exited then ret None
            else sleep 200000 ;;; await_pid n deadline algo_name
        end
  end.

Definition already_running : string := "already running — did not start a duplicate process".
Definition exited_at_once : string := "process exited immediately after launch".

Definition _start_algo_locked (algo_name : string) : HostM json :=
  let! existing_pid := _current_pid_if_alive algo_name in
  match existing_pid with
  | Some p =>
      let! state := _read_state algo_name in
      let! started_at := lift (dict_get "started_at" state) in
      ret (JObj [("algo", JStr algo_name); ("status", JStr "RUNNING"); ("pid", JInt p);
                 ("started_at", started_at); ("message", JStr already_running)])
  | None =>
      let! main := _algo_main_path algo_name in
      let launch_log := _launch_log_path algo_name in
      let! t := _now_iso in
      append_text launch_log (nl +:+ "--- launch attempt at " +:+ t +:+ " ---" +:+ nl) ;;;
      spawn [python; main] ;;;
      let! t := monotonic in
      let! child_pid := await_pid 12 (t + START_CRASH_CHECK) algo_name in
      match child_pid with
      | None =>
          let! tail := _tail_file launch_log 20 in
          _write_state algo_name
            [("status", JStr "ERROR"); ("pid", JNull); ("started_at", JNull);
             ("last_command", JStr "START_ALGO"); ("last_error", JStr exited_at_once)] ;;;
          ret (JObj [("algo", JStr algo_name); ("status", JStr "ERROR"); ("pid", JNull);
                     ("message", JStr exited_at_once); ("log_tail", JArr (map JStr tail))])
      | Some p =>
          let! started_at := _now_iso in
          _write_state algo_name
            [("status", JStr "RUNNING"); ("pid", JInt p); ("started_at", JStr started_at);
             ("last_command", JStr "START_ALGO"); ("last_error", JNull)] ;;;
          ret (JObj [("algo", JStr algo_name); ("status", JStr "RUNNING"); ("pid", JInt p);
                     ("started_at", JStr started_at)])
      end
  end.

Definition start_algo (algo_name : string) : HostM json :=
  _algo_main_path algo_name ;;;
  with_start_lock algo_name (_start_algo_locked algo_name).

(** ** [stop_algo] and [restart_algo] *)
(** [while is_process_running(pid) and time.monotonic() < deadline: sleep]. *)
Fixpoint await_death (fuel : nat) (deadline interval : Z) (pid : Z) : HostM unit :=
  match fuel with
  | O => raise OutOfFuel
  | S n =>
      let! alive := is_process_running pid in
      let! t := monotonic in
      if alive && (t <? deadline) then sleep interval ;;; await_death n deadline interval pid
      else ret tt
  end.
Definition death_fuel (timeout interval : Z) : nat := S (S (Z.to_nat (timeout / interval))).

Definition stop_algo (algo_name : string) (timeout : Z) : HostM json :=
  let! pid := read_pid_file algo_name in
  let! live := match pid with
               | None => ret None
               | Some p => let! alive := is_process_running p in ret (if alive then Some p else None)
               end in
  match live with
  | None =>
      remove_pid_file algo_name ;;;
      let! t := _now_iso in
      _write_state algo_name [("status", JStr "STOPPED"); ("pid", JNull); ("last_command", JStr "STOP_ALGO");
                              ("stopped_at", JStr t)] ;;;
      ret (JObj [("algo", JStr algo_name); ("status", JStr "STOPPED"); ("pid", JNull);
                 ("message", JStr "was not running")])
  | Some p =>
      _write_state algo_name [("status", JStr "STOPPING"); ("last_command", JStr "STOP_ALGO")] ;;;
      request_stop algo_name ;;;
      let! t := monotonic in
      await_death (death_fuel timeout 500000) (t + timeout) 500000 p ;;;
      let! alive := is_process_running p in
      (when alive do
         (except (is_class "OSError") (sigkill p) (fun _ => ret tt) ;;;
          let! t := monotonic in
          await_death (death_fuel 5000000 200000) (t + 5000000) 200000 p)) ;;;
      remove_pid_file algo_name ;;;
      clear_stop_flag algo_name ;;;
      let! stopped_at := _now_iso in
      _write_state algo_name [("status", JStr "STOPPED"); ("pid", JNull); ("last_command", JStr "STOP_ALGO");
                              ("stopped_at", JStr stopped_at)] ;;;
      ret (JObj [("algo", JStr algo_name); ("status", JStr "STOPPED"); ("pid", JNull);
                 ("graceful", JBool (negb alive)); ("forced", JBool alive);
                 ("message", JStr (if alive then "force-killed after grace timeout" else "stopped gracefully"))])
  end.

Definition restart_algo (algo_name : string) : HostM json :=
  _algo_main_path algo_name ;;;
  let! results := with_start_lock algo_name
    (let! stop_result := stop_algo algo_name STOP_GRACE_TIMEOUT in
     let! start_result := _start_algo_locked algo_name in
     ret (stop_result, start_result)) in
  let '(stop_result, start_result) := results in
  let! st := lift (jindex "status" start_result) in
  ret (JObj [("algo", JStr algo_name); ("stop", stop_result); ("start", start_result); ("status", st)]).

(** ** [status] *)
(** [pid == x] of Python, exact on integers. *)
Definition f_is_integer (x : float) (n : Z) : bool :=
  match f_trunc x with Some m => (m =? n) && f_eqb (f_of_Z m) x | None => false end.
Definition json_eqb_int (n : Z) (j : json) : bool :=
  match j with
  | JInt m => n =? m
  | JBool b => n =? (if b then 1 else 0)
  | JFloat x => f_is_integer x n
  | _ => false
  end.

Definition status (algo_name : string) : HostM json :=
  _algo_main_path algo_name ;;;
  let! state := _read_state algo_name in
  let! pid := read_pid_file algo_name in
  let! live := match pid with
               | None => ret false
               | Some p => is_process_running p
               end in
  match pid with
  | Some p =>
      if live then
        let! st := lift (dict_get "status" state) in
        let! stale := if negb (jis_str "RUNNING" st) then ret true
                      else let! q := lift (dict_get "pid" state) in ret (negb (json_eqb_int p q)) in
        let! state := if stale
                      then _write_state algo_name [("status", JStr "RUNNING"); ("pid", JInt p)]
                      else ret state in
        let! started_at := lift (dict_get "started_at" state) in
        ret (JObj [("algo", JStr algo_name); ("status", JStr "RUNNING"); ("pid", JInt p);
                   ("started_at", started_at); ("last_heartbeat", JNull)])
      else
        remove_pid_file algo_name ;;;
        let! state := _write_state algo_name [("status", JStr "ERROR"); ("pid", JNull);
                                              ("last_error", JStr "process not found (crashed?)")] in
        let! started_at := lift (dict_get "started_at" state) in
        ret (JObj [("algo", JStr algo_name); ("status", JStr "ERROR"); ("pid", JNull);
                   ("started_at", started_at); ("message", JStr "PID file existed but process is not running")])
  | None =>
      let! last_status := lift (dict_get_or "status" (JStr "STOPPED") state) in
      let last_status := if jis_str "RUNNING" last_status then JStr "STOPPED" else last_status in
      let! started_at := lift (dict_get "started_at" state) in
      ret (JObj [("algo", JStr algo_name); ("status", last_status); ("pid", JNull);
                 ("started_at", started_at); ("last_heartbeat", JNull)])
  end.

(** ** [update_algo] *)
Record completed : Type := mkCompleted { args : list string; returncode : Z; out : string; err : string }.

(** [subprocess.run([git, ...], capture_output=True, text=True)]; git works on
    the files through [others]. *)
Definition run_git (a : list string) : HostM completed := fun h =>
  match git h.(h_trace) a with
  | Ok (code, o, e) =>
      syscall (fun d => (Ok (mkCompleted ("git" :: a) code (as_text o) (as_text e)), d))
              (fun _ => Git a code (as_text o) (as_text e)) h
  | Err x => syscall (fun d => (Err x, d)) (fun _ => Git a (-1) "" "") h
  end.
Definition process_error_text (r : completed) : string :=
  if truthy r.(err) then strip r.(err)
  else "Command '" +:+ repr_list r.(args) +:+ "' returned non-zero exit status " +:+ str_of_Z r.(returncode) +:+ ".".
Definition check_returncode (r : completed) : HostM unit :=
  if r.(returncode) =? 0 then ret tt else raise (CalledProcessError (process_error_text r)).

(** [_UNTRACKED_CONFLICT_RE]: the marker, anything but a colon, a colon and a
    line feed, then the shortest text before a line that begins with [Please] or
    [Aborting]; the leftmost match wins. *)
Definition conflict_marker : list ascii := chars "untracked working tree files would be overwritten".
Fixpoint before_verdict (acc l : list ascii) : option (list ascii) :=
  match l with
  | [] => None
  | c :: r =>
      if (nat_of_ascii c =? 10)%nat &&
         (bool_decide (is_Some (after (chars "Please") r)) || bool_decide (is_Some (after (chars "Aborting") r)))
      then Some (rev acc)
      else before_verdict (c :: acc) r
  end.
Definition conflict_at (l : list ascii) : option (list ascii) :=
  r ← after conflict_marker l;
  match drop_while (fun c => negb (Ascii.eqb c ":")) r with
  | _ :: c :: r' => if (nat_of_ascii c =? 10)%nat then before_verdict [] r' else None
  | _ => None
  end.
Fixpoint conflict_search (l : list ascii) : option (list ascii) :=
  match conflict_at l with
  | Some g => Some g
  | None => match l with [] => None | _ :: r => conflict_search r end
  end.
Definition _conflicting_untracked_paths (stderr : string) : list string :=
  match conflict_search (chars stderr) with
  | None => []
  | Some g => nonblank_lines (unchars g)
  end.

Definition is_file (path : string) : HostM bool := exists_ path.
(** One conflicting path: its text must be the incoming one. *)
Definition verify_conflict (remote_ref : string) (result : completed) (rel_path : string) : HostM unit :=
  let local_path := join_path PROJECT_ROOT rel_path in
  let! found := is_file local_path in
  (when negb found do check_returncode result) ;;;
  let! remote_blob := run_git ["show"; remote_ref +:+ ":" +:+ rel_path] in
  if negb (remote_blob.(returncode) =? 0) then check_returncode result
  else
    let! text := read_text local_path in
    when negb (String.eqb text remote_blob.(out)) do check_returncode result.

(** [None] when the pull went through; otherwise the paths cleared. *)
Definition _pull_ff_only_with_conflict_recovery : HostM (option (list string)) :=
  let! result := run_git ["pull"; "--ff-only"] in
  if result.(returncode) =? 0 then ret None
  else
    let conflicts := _conflicting_untracked_paths result.(err) in
    (when bool_decide (conflicts = []) do check_returncode result) ;;;
    let! fetched := run_git ["fetch"; "origin"] in
    check_returncode fetched ;;;
    let! branch := run_git ["rev-parse"; "--abbrev-ref"; "HEAD"] in
    let remote_ref := "origin/" +:+ strip branch.(out) in
    for_each conflicts (verify_conflict remote_ref result) ;;;
    for_each conflicts (fun rel_path => unlink_existing (join_path PROJECT_ROOT rel_path)) ;;;
    let! again := run_git ["pull"; "--ff-only"] in
    check_returncode again ;;;
    ret (Some conflicts).

Definition _git (a : list string) : HostM string :=
  let! r := run_git a in check_returncode r ;;; ret (strip r.(out)).

Definition bad_algo_name (algo_name : string) : bool :=
  negb (truthy algo_name) || str_in algo_name ["."; ".."] ||
  existsb (fun c => Ascii.eqb c "/" || Ascii.eqb c bslash) (chars algo_name).

Definition is_not_found (e : exn) : bool := match e with AlgoNotFoundError _ => true | _ => false end.
Definition not_updated (algo_name : string) (extra : list (string * json)) (message : string) : json :=
  JObj ([("algo", JStr algo_name); ("updated", JBool false)] ++ extra ++ [("message", JStr message)]).

Definition pull_versions : HostM (string * option (list string) * string) :=
  let! previous_version := _git ["rev-parse"; "HEAD"] in
  let! recovery := _pull_ff_only_with_conflict_recovery in
  let! new_version := _git ["rev-parse"; "HEAD"] in
  ret (previous_version, recovery, new_version).

Definition update_result (algo_name previous_version new_version : string)
    (recovery : option (list string)) : json :=
  JObj ([("algo", JStr algo_name); ("updated", JBool (negb (String.eqb previous_version new_version)));
         ("previous_version", JStr previous_version); ("new_version", JStr new_version)] ++
        match recovery with
        | Some paths =>
            [("warning", JStr ("cleared " +:+ str_of_Z (Z.of_nat (List.length paths)) +:+
               " stray untracked file(s) blocking the pull (verified byte-identical to the incoming version first): " +:+
               repr_list paths))]
        | None => []
        end).

Definition update_algo (algo_name : string) : HostM json :=
  if bad_algo_name algo_name then raise (AlgoNotFoundError ("Invalid algo name '" +:+ algo_name +:+ "'."))
  else
    let! running := _current_pid_if_alive algo_name in
    match running with
    | Some _ => ret (not_updated algo_name [] "refusing to update while RUNNING — stop the algo first")
    | None =>
        let! pulled := except (is_class "CalledProcessError") (let! v := pull_versions in ret (inl v))
                         (fun e => ret (inr (exc_str e))) in
        match pulled with
        | inr why => ret (not_updated algo_name [] ("git update failed: " +:+ why))
        | inl (previous_version, recovery, new_version) =>
            let! missing := except is_not_found (_algo_main_path algo_name ;;; ret None)
                              (fun e => ret (Some (exc_str e))) in
            match missing with
            | Some why =>
                ret (not_updated algo_name
                       [("previous_version", JStr previous_version); ("new_version", JStr new_version)]
                       ("pulled " +:+ str_take 7 new_version +:+ " but " +:+ why))
            | None =>
                let! t := _now_iso in
                _write_state algo_name [("last_command", JStr "UPDATE"); ("last_update_at", JStr t);
                                        ("version", JStr new_version)] ;;;
                ret (update_result algo_name previous_version new_version recovery)
            end
        end
    end.

(** ** [get_logs] and the command line *)
Definition get_logs (algo_name : string) (lines : Z) : HostM json :=
  _algo_main_path algo_name ;;;
  let! tail := _tail_file (_algo_log_path algo_name) lines in
  ret (JObj [("algo", JStr algo_name); ("log_file", JStr (_algo_log_path algo_name));
             ("lines", JArr (map JStr tail))]).

Definition COMMANDS : list string := ["START_ALGO"; "STOP_ALGO"; "RESTART_ALGO"; "STATUS"; "UPDATE"; "LOGS"].
Definition run_command (command algo_name : string) (lines : Z) : HostM json :=
  if String.eqb command "START_ALGO" then start_algo algo_name
  else if String.eqb command "STOP_ALGO" then stop_algo algo_name STOP_GRACE_TIMEOUT
  else if String.eqb command "RESTART_ALGO" then restart_algo algo_name
  else if String.eqb command "STATUS" then status algo_name
  else if String.eqb command "UPDATE" then update_algo algo_name
  else if String.eqb command "LOGS" then get_logs algo_name lines
  else raise (ValueError ("Unknown command: " +:+ command)).
(** The line printed and the exit code, for parsed arguments. *)
Definition _cli (command algo_name : string) (lines : Z) : HostM (string * Z) :=
  let! r := except is_not_found (let! j := run_command command algo_name lines in ret (inl j))
              (fun e => ret (inr (exc_str e))) in
  match r with
  | inr why => ret (json_dumps (JObj [("error", JStr why)]), 2)
  | inl result =>
      let! st := lift (dict_get "status" result) in
      ret (json_dumps result, if jis_str "ERROR" st then 1 else 0)
  end.
End agent.
