(* ===== verification/AgentSafety.v ===== *)
(** * The trading agent: theorems

    Which calls an agent command makes, in which order, whatever the rest of the
    host does between them; what its answers mean; that every command ends. *)
From S2P Require Import Prelude PyStr PyFloat Json JsonText Orchestrator Agent.
From Stdlib Require Import Ascii.

(** ** What a computation adds to the trace *)
Definition acts (p : act -> bool) (tr : Trace) : Prop := Forall (fun x => p (snd x) = true) tr.

Lemma acts_nil p : acts p [].
Proof. constructor. Qed.
Lemma acts_app p tr tr' : acts p tr -> acts p tr' -> acts p (tr ++ tr').
Proof. intros. now apply Forall_app. Qed.
Lemma acts_weaken (p q : act -> bool) tr : (forall x, p x = true -> q x = true) -> acts p tr -> acts q tr.
Proof. intros H Hp. eapply Forall_impl; [exact Hp | cbn; auto]. Qed.
Lemma acts_in p tr x : acts p tr -> In x tr -> p (snd x) = true.
Proof. unfold acts. rewrite List.Forall_forall. auto. Qed.

(** [grows p m]: [m] appends calls satisfying [p] and the clock does not go back. *)
Definition grows (p : act -> bool) {A} (m : HostM A) : Prop :=
  forall h, (exists tr, h_trace (snd (m h)) = h_trace h ++ tr /\ acts p tr) /\ h_clock h <= h_clock (snd (m h)).

Create HintDb grows discriminated.
#[export] Hint Constants Opaque : grows.

Section rules.
Context {machine : Machine} (p : act -> bool).

Lemma grows_pure {A} (m : HostM A) : (forall h, snd (m h) = h) -> grows p m.
Proof.
  intros H h. rewrite H. split; [|lia]. exists []. rewrite app_nil_r. split; [reflexivity | apply acts_nil].
Qed.
Lemma grows_ret {A} (a : A) : grows p (ret a).
Proof. now apply grows_pure. Qed.
Lemma grows_raise {A} (e : exn) : grows (A := A) p (raise e).
Proof. now apply grows_pure. Qed.
Lemma grows_lift {A} (r : result exn A) : grows p (lift r).
Proof. now apply grows_pure. Qed.
Lemma grows_gets {A} (f : Host -> A) : grows p (gets f).
Proof. now apply grows_pure. Qed.
Lemma grows_seq {A B} (m : HostM A) (k : result exn A -> HostM B) :
  grows p m -> (forall r, grows p (k r)) -> grows p (fun h => let '(r, h') := m h in k r h').
Proof.
  intros Hm Hk h. destruct (Hm h) as [(tr & E & P) C]. destruct (m h) as [r h']. cbn in *.
  destruct (Hk r h') as [(tr' & E' & P') C']. split; [|lia]. exists (tr ++ tr').
  rewrite E', E, app_assoc. split; [reflexivity | now apply acts_app].
Qed.
Lemma grows_ext {A} (m m' : HostM A) : (forall h, m h = m' h) -> grows p m -> grows p m'.
Proof. intros E H h. rewrite <- E. apply H. Qed.
Lemma grows_bind {A B} (m : HostM A) (k : A -> HostM B) :
  grows p m -> (forall a, grows p (k a)) -> grows p (bind m k).
Proof.
  intros Hm Hk. eapply grows_ext; [|apply (grows_seq m (fun r => match r with Ok a => k a | Err e => raise e end)); [exact Hm|]].
  - intros h. unfold bind. now destruct (m h) as [[a|e] h'].
  - intros [a|e]; [apply Hk | apply grows_raise].
Qed.
Lemma grows_except {A} (q : exn -> bool) (m : HostM A) (k : exn -> HostM A) :
  grows p m -> (forall e, grows p (k e)) -> grows p (except q m k).
Proof.
  intros Hm Hk. eapply grows_ext;
    [|apply (grows_seq m (fun r => match r with Ok a => ret a | Err e => if q e then k e else raise e end)); [exact Hm|]].
  - intros h. unfold except, try_except. now destruct (m h) as [[a|e] h'].
  - intros [a|e]; [apply grows_ret|]. destruct (q e); [apply Hk | apply grows_raise].
Qed.
Lemma grows_finally {A} (m : HostM A) (f : HostM unit) : grows p m -> grows p f -> grows p (finally m f).
Proof.
  intros Hm Hf. eapply grows_ext;
    [|apply (grows_seq m (fun r => bind f (fun _ => lift r))); [exact Hm|]].
  - intros h. unfold finally, bind, lift. destruct (m h) as [r h']. now destruct (f h') as [[a|e] h2].
  - intros r. apply grows_bind; [exact Hf | intros; apply grows_lift].
Qed.
Lemma grows_for_each {A} (l : list A) (body : A -> HostM unit) :
  (forall a, grows p (body a)) -> grows p (for_each l body).
Proof.
  intros Hb. induction l as [|x l IH]; cbn; [apply grows_ret|]. apply grows_bind; [apply Hb | intros _; exact IH].
Qed.
Lemma grows_syscall {A} (run : Disk -> result exn A * Disk) (log : Disk -> act) :
  (forall d, p (log d) = true) -> grows p (syscall run log).
Proof.
  intros Hp h. unfold syscall. destruct (run _) as [r d']. cbn. split; [|lia].
  eexists. split; [reflexivity|]. constructor; [apply Hp | constructor].
Qed.
Lemma grows_flock path : (forall q, p (Flock q) = true) -> grows p (flock path).
Proof.
  intros Hp h. unfold flock. destruct (lock_granted _); [now apply grows_syscall|].
  cbn. split; [|lia]. exists []. split; [now rewrite app_nil_r | constructor].
Qed.
Lemma grows_syscall_at {A} (f : Host -> HostM A) : (forall h, grows p (f h)) -> grows p (fun h => f h h).
Proof. intros H h. apply H. Qed.
Lemma grows_sleep us : 0 <= us -> p (SleepUs us) = true -> grows p (sleep us).
Proof.
  intros Hus Hp h. unfold sleep.
  destruct (grows_syscall (A := unit) (fun d => (Ok tt, d)) (fun _ => SleepUs us) (fun _ => Hp) h) as [H C].
  destruct (syscall _ _ h) as [r h']. cbn in *. split; [exact H | lia].
Qed.
End rules.

Ltac grow_step :=
  match goal with
  | |- grows _ (bind _ _) => apply grows_bind
  | |- grows _ (ret _) => apply grows_ret
  | |- grows _ (raise _) => apply grows_raise
  | |- grows _ (lift _) => apply grows_lift
  | |- grows _ (gets _) => apply grows_gets
  | |- grows _ monotonic => apply grows_gets
  | |- grows _ _now_iso => apply grows_gets
  | |- grows _ (except _ _ _) => apply grows_except
  | |- grows _ (finally _ _) => apply grows_finally
  | |- grows _ (for_each _ _) => apply grows_for_each
  | |- grows _ (sleep _) => apply grows_sleep; [lia|]
  | |- grows _ (syscall _ _) => apply grows_syscall
  | |- grows _ (match ?x with _ => _ end) => destruct x eqn:?
  | |- grows _ (fun h => ?m) => apply (grows_syscall_at _ (fun h => m))
  end.
Ltac grow := repeat first [ progress intros | assumption | solve [eauto 5 with grows] | grow_step ].

(** Calls that neither start, kill nor delete anything and run no git. *)
Definition harmless (x : act) : bool :=
  match x with Spawn _ | Sigkill _ | Unlink _ | Git _ _ _ _ | Flock _ | Unflock _ => false | _ => true end.

(** Calls on files. *)
Definition filey (x : act) : bool :=
  match x with Exists _ _ | ReadText _ _ | WriteText _ _ | AppendText _ _ => true | _ => false end.
Lemma filey_harmless x : filey x = true -> harmless x = true.
Proof. now destruct x. Qed.

Section file_helpers.
Context {machine : Machine} (p : act -> bool) (Hp : forall x, filey x = true -> p x = true).
#[local] Hint Extern 1 (p _ = true) => (now apply Hp) : grows.

Lemma grows_exists path : grows p (exists_ path).
Proof. unfold exists_. grow. Qed.
Lemma grows_file_call {A} (run : Disk -> result exn A * Disk) (log : Disk -> act) :
  (forall d, p (log d) = true) -> grows p (file_call run log).
Proof. intros Hl h. unfold file_call. now apply grows_syscall. Qed.
Lemma grows_read_text path : grows p (read_text path).
Proof. apply grows_file_call. eauto with grows. Qed.
Lemma grows_write_text path s : grows p (write_text path s).
Proof. apply grows_file_call. eauto with grows. Qed.
Lemma grows_append_text path s : grows p (append_text path s).
Proof. apply grows_file_call. eauto with grows. Qed.
Hint Resolve grows_exists grows_read_text grows_write_text grows_append_text : grows.
Lemma grows_read_pid_file a : grows p (read_pid_file a).
Proof. unfold read_pid_file. grow. Qed.
Lemma grows_main_path a : grows p (_algo_main_path a).
Proof. unfold _algo_main_path. cbn zeta. grow. Qed.
Lemma grows_read_state a : grows p (_read_state a).
Proof. unfold _read_state. grow. Qed.
Hint Resolve grows_read_state : grows.
Lemma grows_write_state a fs : grows p (_write_state a fs).
Proof. unfold _write_state. grow. Qed.
Lemma grows_tail_file path n : grows p (_tail_file path n).
Proof. unfold _tail_file. grow. Qed.
Lemma grows_request_stop a : grows p (request_stop a).
Proof. unfold request_stop. grow. Qed.
End file_helpers.
#[export] Hint Resolve grows_exists grows_read_text grows_write_text grows_append_text grows_read_pid_file
  grows_main_path grows_read_state grows_write_state grows_tail_file grows_request_stop : grows.

Section helpers.
Context {machine : Machine} (p : act -> bool) (Hp : forall x, harmless x = true -> p x = true).
#[local] Hint Extern 1 (p _ = true) => (now apply Hp) : grows.

Lemma filey_wider x : filey x = true -> p x = true.
Proof. intros. now apply Hp, filey_harmless. Qed.
Hint Resolve filey_wider : grows.
Lemma grows_is_process_running q : grows p (is_process_running q).
Proof. unfold is_process_running. grow. Qed.
Hint Resolve grows_is_process_running : grows.
Lemma grows_current_pid a : grows p (_current_pid_if_alive a).
Proof. unfold _current_pid_if_alive. grow. Qed.
Lemma grows_poll_launcher : grows p poll_launcher.
Proof. intros h. apply grows_syscall. eauto with grows. Qed.
Hint Resolve grows_poll_launcher grows_current_pid : grows.
Lemma grows_await_pid n : forall dl a, grows p (await_pid n dl a).
Proof. induction n as [|n IH]; intros; cbn [await_pid]; grow. Qed.
Lemma grows_await_death n : forall dl i q, 0 <= i -> grows p (await_death n dl i q).
Proof. induction n as [|n IH]; intros; cbn [await_death]; grow. Qed.
End helpers.
#[export] Hint Resolve grows_is_process_running grows_current_pid grows_poll_launcher grows_await_pid
  grows_await_death : grows.
#[export] Hint Extern 4 (forall x, filey x = true -> _ x = true) => (intros [] ?; solve [discriminate | reflexivity]) : grows.
#[export] Hint Extern 4 (forall x, harmless x = true -> _ x = true) => (intros [] ?; solve [discriminate | reflexivity]) : grows.

(** ** Stages of a run

    [since T S]: the calls made since the trace was [T] and the clock are in
    stage [S]. *)
Definition since (T : Trace) (S : Z -> Trace -> Prop) (h : Host) : Prop :=
  exists tr, h_trace h = T ++ tr /\ S (h_clock h) tr.

Definition stable (p : act -> bool) (S : Z -> Trace -> Prop) : Prop :=
  forall c c' u v, S c u -> c <= c' -> acts p v -> S c' (u ++ v).

Section stages.
Context {machine : Machine} (T : Trace).

Lemma triple_grows {A} (p : act -> bool) (S : Z -> Trace -> Prop) (m : HostM A) :
  grows p m -> stable p S -> triple (since T S) m (fun _ => since T S) (fun _ => since T S).
Proof.
  intros Hg Hs h (tr & E & HS). destruct (Hg h) as [(v & E' & Hv) C].
  assert (since T S (snd (m h))) as G.
  { exists (tr ++ v). rewrite E', E, app_assoc. split; [reflexivity|]. eapply Hs; eauto. }
  now destruct (m h) as [[a|e] h'].
Qed.
Lemma since_weaken (S S' : Z -> Trace -> Prop) h : (forall c tr, S c tr -> S' c tr) -> since T S h -> since T S' h.
Proof. intros H (tr & E & HS). exists tr; auto. Qed.
Lemma since_snoc (S : Z -> Trace -> Prop) h tr d c x :
  h_trace h = T ++ tr -> S c (tr ++ [x]) -> since T S (mkHost d c (h_trace h ++ [x])).
Proof. intros E HS. exists (tr ++ [x]). cbn. now rewrite E, app_assoc. Qed.
(** A call whose log and answer are known. *)
Lemma triple_syscall {A} (S : Z -> Trace -> Prop) (Q : result exn A -> Z -> Trace -> Prop)
    (run : Disk -> result exn A * Disk) (log : Disk -> act) :
  (forall d c c' tr, S c tr -> c <= c' -> Q (fst (run d)) c' (tr ++ [(c, log d)])) ->
  triple (since T S) (syscall run log) (fun a => since T (Q (Ok a))) (fun e => since T (Q (Err e))).
Proof.
  intros HQ h (tr & E & HS). unfold syscall. specialize (HQ (others (h_trace h) (h_disk h)) (h_clock h)).
  destruct (run _) as [r d'] eqn:R. cbn [fst] in HQ.
  assert (since T (Q r) (mkHost d' (h_clock h + Z.max 0 (elapsed (h_trace h)))
            (h_trace h ++ [(h_clock h, log (others (h_trace h) (h_disk h)))]))) as G.
  { apply (since_snoc _ _ tr); [exact E|]. apply HQ; [exact HS | lia]. }
  now destruct r.
Qed.
Lemma triple_monotonic (S : Z -> Trace -> Prop) X :
  triple (since T S) monotonic (fun t => since T (fun c tr => S c tr /\ c = t)) X.
Proof. intros h (tr & E & HS). cbn. exists tr. auto. Qed.
End stages.

Definition recorded `{machine : Machine} (a : string) (q : Z) (tr : Trace) : Prop :=
  exists t s, In (t, ReadText (pid_file_path a) (Some s)) tr /\ py_int (strip s) = Some q.
Lemma recorded_app `{machine : Machine} a q tr v : recorded a q tr -> recorded a q (tr ++ v).
Proof. intros (t & s & Hi & E). exists t, s. split; [|exact E]. apply in_or_app. now left. Qed.

Section pid_files.
Context {machine : Machine} (T : Trace).

(** What [read_pid_file] answers was read from the PID file. *)
Lemma read_pid_file_recorded (p : act -> bool) (S : Z -> Trace -> Prop) a :
  (forall x, filey x = true -> p x = true) -> stable p S ->
  triple (since T S) (read_pid_file a)
    (fun r => since T (fun c tr => S c tr /\ forall q, r = Some q -> recorded a q tr)) (fun _ => since T S).
Proof.
  intros Hp Hs. unfold read_pid_file. eapply triple_bind; [apply (triple_grows T p); [auto with grows | exact Hs]|].
  intros found. destruct (negb found).
  { apply triple_ret. intros h. apply since_weaken. intros; split; [assumption | discriminate]. }
  apply triple_try with (Y := fun _ => since T S).
  - eapply triple_bind with (R := fun s => since T (fun c tr => S c tr /\
      exists t, In (t, ReadText (pid_file_path a) (Some s)) tr)).
    + intros h (tr & E & HS). unfold read_text, file_call, syscall, guard. cbv zeta beta.
      assert (forall r, S (h_clock h + Z.max 0 (elapsed (h_trace h))) (tr ++ [(h_clock h, ReadText (pid_file_path a) r)])) as HS'.
      { intros r. eapply Hs; [exact HS | lia | constructor; [now apply Hp | constructor]]. }
      destruct (io_refused (h_trace h)); 
        [|destruct (files (others (h_trace h) (h_disk h)) !! pid_file_path a) as [s|] eqn:F]; cbn [fst].
      * now apply (since_snoc T S _ tr).
      * cbn [fmap option_fmap option_map]. apply (since_snoc T _ _ tr); [exact E|]. split; [apply HS'|].
        eexists. apply in_or_app. right. left. reflexivity.
      * now apply (since_snoc T S _ tr).
    + intros s. destruct (py_int (strip s)) as [n|] eqn:N.
      * apply triple_ret. intros h. apply since_weaken. intros c tr [HS (t & Hi)]. split; [exact HS|].
        intros q [= <-]. now exists t, s.
      * apply triple_raise. intros h. apply since_weaken. now intros c tr [HS _].
  - intros e. destruct (_ || _).
    + apply triple_ret. intros h. apply since_weaken. intros; split; [assumption | discriminate].
    + apply triple_raise. auto.
Qed.

(** [is_process_running]: the answer is the probe's. *)
Lemma is_process_running_probe (p : act -> bool) (S : Z -> Trace -> Prop) q :
  (forall x, harmless x = true -> p x = true) -> stable p S ->
  triple (since T S) (is_process_running q)
    (fun r => since T (fun c tr => S c tr /\ if r then 0 < q /\ (exists t, In (t, Probe q true) tr)
                                             else 0 < q -> exists t, In (t, Probe q false) tr))
    (fun _ => since T S).
Proof.
  intros Hp Hs. unfold is_process_running. destruct (Z.leb_spec q 0).
  { apply triple_ret. intros h. apply since_weaken. intros; split; [assumption | lia]. }
  eapply triple_weaken; [apply (triple_syscall T S (fun r c tr => match r with
      | Ok b => S c tr /\ exists t, In (t, Probe q b) tr | Err _ => S c tr end))| | |].
  - intros d c c' tr HS Hc. cbn. split.
    + eapply Hs; [exact HS | exact Hc | constructor; [now apply Hp | constructor]].
    + exists c. apply in_or_app. right. now left.
  - auto.
  - intros r h. apply since_weaken. intros c tr [HS H1]. split; [exact HS|]. destruct r; [now split | auto].
  - intros e h. apply since_weaken. auto.
Qed.
End pid_files.

(** ** Stopping *)
Definition no_kill (x : act) : bool := match x with Sigkill _ => false | _ => true end.
Lemma harmless_no_kill x : harmless x = true -> no_kill x = true.
Proof. now destruct x. Qed.
#[export] Hint Resolve harmless_no_kill : grows.

Section stopping.
Context {machine : Machine} (T : Trace) (a : string).

(** The stages of [stop_algo]: the pid was read and found alive; the flag was
    written at [tf]; the grace period is over, or the process was seen ended. *)
Definition picked (q : Z) (c : Z) (tr : Trace) : Prop := acts no_kill tr /\ recorded a q tr /\ 0 < q.
Definition flagged (q tf : Z) (c : Z) (tr : Trace) : Prop :=
  picked q c tr /\ tf <= c /\ exists s, In (tf, WriteText (stop_flag_path a) s) tr.
Definition waited (q tf timeout : Z) (c : Z) (tr : Trace) : Prop :=
  flagged q tf c tr /\ (tf + timeout <= c \/ exists t, In (t, Probe q false) tr).
Definition kill_justified (timeout : Z) (tr : Trace) : Prop :=
  forall u t q v, tr = u ++ (t, Sigkill q) :: v ->
    recorded a q u /\ 0 < q /\ acts no_kill u /\ acts no_kill v /\
    exists tf s, In (tf, WriteText (stop_flag_path a) s) u /\
                 (tf + timeout <= t \/ exists t', In (t', Probe q false) u).

Lemma in_app_l {A} (x : A) u v : In x u -> In x (u ++ v).
Proof. intros. apply in_or_app. now left. Qed.

Lemma quiet_stable : stable no_kill (fun _ => acts no_kill).
Proof. intros c c' u v Hu _ Hv. now apply acts_app. Qed.
Lemma picked_stable q : stable no_kill (picked q).
Proof.
  intros c c' u v (Hk & Hr & Hq) _ Hv. split; [now apply acts_app | split; [now apply recorded_app | exact Hq]].
Qed.
Lemma flagged_stable q tf : stable no_kill (flagged q tf).
Proof.
  intros c c' u v (Hp & Hc & s & Hs) Hc' Hv. split; [now apply (picked_stable q c c')|].
  split; [lia|]. exists s. now apply in_app_l.
Qed.
Lemma waited_stable q tf timeout : stable no_kill (waited q tf timeout).
Proof.
  intros c c' u v (Hf & Hw) Hc' Hv. split; [now apply (flagged_stable q tf c c')|].
  destruct Hw as [Hw | [t Ht]]; [left; lia | right; exists t; now apply in_app_l].
Qed.
Lemma no_kill_split u t q v : acts no_kill (u ++ (t, Sigkill q) :: v) -> False.
Proof. unfold acts. rewrite Forall_app, Forall_cons. cbn. now intros (_ & H & _). Qed.
Lemma justified_quiet timeout tr : acts no_kill tr -> kill_justified timeout tr.
Proof. intros H u t q v ->. now apply no_kill_split in H. Qed.

Lemma kill_unique u v u2 v2 t q t2 q2 : acts no_kill u -> acts no_kill v ->
  u ++ (t, Sigkill q) :: v = u2 ++ (t2, Sigkill q2) :: v2 -> u = u2 /\ t = t2 /\ q = q2 /\ v = v2.
Proof.
  revert u2. induction u as [|x u IH]; intros [|x2 u2] Hu Hv E; cbn in E.
  - now injection E as -> -> ->.
  - injection E as _ ->. now apply no_kill_split in Hv.
  - injection E as -> _. apply Forall_cons in Hu as [Hx _]. discriminate Hx.
  - injection E as -> E. apply Forall_cons in Hu as [_ Hu]. destruct (IH u2 Hu Hv E) as (-> & -> & -> & ->). auto.
Qed.
Lemma justified_kill timeout c q tf tr :
  waited q tf timeout c tr -> kill_justified timeout (tr ++ [(c, Sigkill q)]).
Proof.
  intros (((Hk & Hr & Hq) & Hc & s & Hs) & Hw) u t q2 v E.
  destruct (kill_unique tr [] u v c q t q2 Hk (acts_nil _) E) as (-> & -> & -> & <-).
  split; [exact Hr|]. split; [exact Hq|]. split; [exact Hk|]. split; [apply acts_nil|]. now exists tf, s.
Qed.
Lemma justified_stable timeout : stable no_kill (fun _ => kill_justified timeout).
Proof.
  intros c c' tr v Hj _ Hv u t q w E.
  apply app_eq_inv in E as [(l & -> & Hl) | (l & -> & ->)].
  - destruct l as [|x l]; [cbn in Hl; subst v; now apply (no_kill_split [] t q w) in Hv|].
    injection Hl as <- ->. destruct (Hj u t q l eq_refl) as (H1 & H2 & H3 & H4 & H5).
    split; [exact H1|]. split; [exact H2|]. split; [exact H3|]. split; [now apply acts_app | exact H5].
  - now apply no_kill_split in Hv.
Qed.
Lemma flagged_justified q tf timeout c tr : flagged q tf c tr -> kill_justified timeout tr.
Proof. intros ((Hk & _) & _). now apply justified_quiet. Qed.

(** The loop ends when the deadline is reached or the process was seen ended. *)
Lemma await_death_waits n q tf timeout i : forall dl, tf + timeout <= dl -> 0 <= i ->
  triple (since T (flagged q tf)) (await_death n dl i q)
    (fun _ => since T (waited q tf timeout)) (fun _ => since T (flagged q tf)).
Proof.
  induction n as [|n IH]; intros dl Hdl Hi; cbn [await_death]; [now apply triple_raise|].
  eapply triple_bind; [apply (is_process_running_probe T no_kill); [auto with grows | apply flagged_stable]|].
  intros alive. eapply triple_bind; [apply triple_monotonic|].
  intros t. cbn beta. destruct (alive && (t <? dl)) eqn:B.
  - eapply triple_bind; [|intros u; now apply IH].
    eapply triple_pre; [apply (triple_grows T no_kill); [apply grows_sleep; [lia | reflexivity] | apply (flagged_stable q tf)]|].
    intros h Hh. eapply since_weaken; [|exact Hh]. now intros c tr [[Hf _] _].
  - apply triple_ret. intros h. apply since_weaken. intros c tr [[Hf Ha] ->]. split; [exact Hf|].
    destruct alive; cbn in B; [left; apply Z.ltb_ge in B; lia | right; apply Ha, Hf].
Qed.

End stopping.

Lemma grows_unlink `{machine : Machine} (p : act -> bool) path : p (Unlink path) = true -> grows p (unlink path).
Proof. intros. apply grows_file_call. auto. Qed.
#[export] Hint Resolve grows_unlink : grows.
#[export] Hint Resolve quiet_stable picked_stable flagged_stable waited_stable justified_stable : grows.

Section stop_kills.
Context {machine : Machine} (T : Trace) (a : string) (timeout : Z).

#[local] Abbreviation justified := (since T (fun _ => kill_justified a timeout)).
Definition harmless_stage (S : Z -> Trace -> Prop) : Prop :=
  stable no_kill S /\ forall c tr, S c tr -> kill_justified a timeout tr.

Lemma stage_quiet : harmless_stage (fun _ => acts no_kill).
Proof. split; [apply quiet_stable | intros c tr; apply justified_quiet]. Qed.
Lemma stage_picked q : harmless_stage (picked a q).
Proof. split; [apply picked_stable | intros c tr [H _]; now apply justified_quiet]. Qed.
Lemma stage_flagged q tf : harmless_stage (flagged a q tf).
Proof. split; [apply flagged_stable | intros c tr; apply flagged_justified]. Qed.
Lemma stage_waited q tf t : harmless_stage (waited a q tf t).
Proof. split; [apply waited_stable | intros c tr [H _]; revert H; apply flagged_justified]. Qed.
Lemma stage_justified : harmless_stage (fun _ => kill_justified a timeout).
Proof. split; [apply justified_stable | auto]. Qed.
Hint Resolve stage_quiet stage_picked stage_flagged stage_waited stage_justified : grows.

Lemma triple_exists {A B} (P : B -> Host -> Prop) (m : HostM A) Q X :
  (forall b, triple (P b) m Q X) -> triple (fun h => exists b, P b h) m Q X.
Proof. intros Hm h [b Hb]. now apply (Hm b). Qed.
Lemma triple_fact {A} (P : Host -> Prop) (F : Prop) (m : HostM A) Q X :
  (F -> triple P m Q X) -> triple (fun h => P h /\ F) m Q X.
Proof. intros Hm h [Hh HF]. now apply Hm. Qed.

Lemma triple_exn {A} (P : Host -> Prop) (m : HostM A) Q (X X' : exn -> Host -> Prop) :
  triple P m Q X -> (forall e s, X e s -> X' e s) -> triple P m Q X'.
Proof. intros Hm HX. eapply triple_weaken; [exact Hm | auto | auto | exact HX]. Qed.

(** One step that kills nothing, from any stage. *)
Lemma quiet_step {A B} (m : HostM A) (k : A -> HostM B) S Q :
  grows no_kill m -> harmless_stage S ->
  (forall x, triple (since T S) (k x) Q (fun _ => justified)) ->
  triple (since T S) (bind m k) Q (fun _ => justified).
Proof.
  intros Hg [Hs Hj] Hk. eapply triple_bind; [|exact Hk].
  eapply triple_weaken; [apply (triple_grows T no_kill S); [exact Hg | exact Hs] | auto | auto |].
  intros e h. now apply since_weaken.
Qed.
Lemma quiet_end {A} (x : A) S : harmless_stage S ->
  triple (E := exn) (since T S) (ret x) (fun _ => justified) (fun _ => justified).
Proof. intros [_ Hj]. apply triple_ret. intros h. now apply since_weaken. Qed.

Ltac quiet := eapply quiet_step; [match goal with |- ?g => first [ solve [auto with grows | apply grows_gets | apply grows_unlink; reflexivity] | fail 2 "NO" g ] end| match goal with |- ?g => first [ solve [auto with grows] | fail 2 "NO2" g ] end | intros ?].

Lemma sigkill_justified q tf :
  triple (since T (waited a q tf timeout)) (sigkill q) (fun _ => justified) (fun _ => justified).
Proof.
  unfold sigkill.
  intros h (tr & E & Hw). unfold syscall. destruct (procs _ !! q) as [[|]|]; cbn;
    (apply (since_snoc T _ _ tr); [exact E | now apply (justified_kill a timeout (h_clock h) q tf)]).
Qed.
Lemma force_kill_justified q tf :
  triple (since T (waited a q tf timeout))
    (except (is_class "OSError") (sigkill q) (fun _ => ret tt) ;;;
     let! t := monotonic in
     await_death (death_fuel 5000000 200000) (t + 5000000) 200000 q)
    (fun _ => justified) (fun _ => justified).
Proof.
  eapply triple_bind with (R := fun _ => justified).
  - eapply triple_try; [apply sigkill_justified|]. intros e. cbn beta. destruct (is_class _ e).
    + apply triple_ret. auto.
    + apply triple_raise. auto.
  - intros _. quiet. apply (triple_grows T no_kill); [apply grows_await_death; [auto with grows | lia]|].
    apply stage_justified.
Qed.

Definition stop_finish (result : json) : HostM json :=
  remove_pid_file a ;;; clear_stop_flag a ;;;
  let! stopped_at := _now_iso in
  _write_state a [("status", JStr "STOPPED"); ("pid", JNull); ("last_command", JStr "STOP_ALGO");
                  ("stopped_at", JStr stopped_at)] ;;;
  ret result.
Lemma stop_finish_justified S result : harmless_stage S ->
  triple (since T S) (stop_finish result) (fun _ => justified) (fun _ => justified).
Proof.
  intros HS. unfold stop_finish, remove_pid_file, clear_stop_flag. quiet. quiet. quiet. quiet. now apply quiet_end.
Qed.

(** The request: the flag is in the trace, not after the clock. *)
Lemma request_stop_flags q :
  triple (since T (picked a q)) (request_stop a)
    (fun _ => since T (fun c tr => exists tf, flagged a q tf c tr)) (fun _ => justified).
Proof.
  unfold request_stop. quiet. intros h (tr & E & Hp). unfold write_text, file_call, syscall, guard.
  assert (forall d, since T (fun c tr => exists tf, flagged a q tf c tr)
     (mkHost d (h_clock h + Z.max 0 (elapsed (h_trace h))) (h_trace h ++ [(h_clock h, WriteText (stop_flag_path a) x)]))) as G.
  { intros d. apply (since_snoc T _ _ tr); [exact E|]. exists (h_clock h). split; [|split; [lia|]].
    - apply (picked_stable a q (h_clock h) _ tr [(h_clock h, WriteText (stop_flag_path a) x)]);
        [exact Hp | lia | repeat constructor].
    - exists x. apply in_or_app. right. now left. }
  destruct (io_refused (h_trace h)); cbn; [|apply G].
  eapply since_weaken; [|apply G]. intros c tr' [tf Hf]. revert Hf. apply flagged_justified.
Qed.

Lemma stop_algo_justified :
  triple (since T (fun _ tr => tr = [])) (stop_algo a timeout) (fun _ => justified) (fun _ => justified).
Proof.
  eapply triple_pre with (P := since T (fun _ => acts no_kill)).
  2: { intros h. apply since_weaken. intros c tr ->. apply acts_nil. }
  unfold stop_algo. eapply triple_bind.
  { eapply triple_exn; [apply (read_pid_file_recorded T no_kill (fun _ => acts no_kill)); auto with grows|].
    cbn. intros e h. apply since_weaken. intros c tr. apply justified_quiet. }
  intros pid. eapply triple_bind with (R := fun live => since T (match live with
      | Some q => picked a q | None => fun _ => acts no_kill end)).
  { destruct pid as [q|].
    - eapply triple_bind.
      + eapply triple_exn; [apply (is_process_running_probe T no_kill (fun c tr =>
           acts no_kill tr /\ forall q0, Some q = Some q0 -> recorded a q0 tr)); [auto with grows|]|].
        * intros c c' u v [H1 H2] _ Hv. split; [now apply acts_app|]. intros q0 E. now apply recorded_app, H2.
        * cbn. intros e h. apply since_weaken. intros c tr [H _]. now apply justified_quiet.
      + intros alive. apply triple_ret. intros h. apply since_weaken. intros c tr [[H1 H2] H3].
        destruct alive; [|exact H1]. split; [exact H1|]. split; [now apply H2 | apply H3].
    - apply triple_ret. intros h. apply since_weaken. now intros c tr [H _]. }
  intros [q|].
  2: { unfold remove_pid_file. quiet. quiet. quiet. auto using quiet_end with grows. }
  quiet. eapply triple_bind; [apply request_stop_flags|]. intros [].
  eapply triple_bind; [apply triple_monotonic|]. intros t. cbn beta.
  eapply triple_pre with (P := fun h => exists tf, since T (flagged a q tf) h /\ tf <= t).
  2: { intros h (tr & E & (tf & Hf) & <-). exists tf. split; [now exists tr | apply Hf]. }
  apply triple_exists. intros tf. apply triple_fact. intros Htf.
  eapply triple_bind.
  { eapply triple_exn; [apply (await_death_waits T a _ q tf timeout); [lia | lia]|].
    cbn. intros _ h. apply since_weaken. intros c tr. apply flagged_justified. }
  intros []. quiet. eapply triple_bind with (R := fun _ => justified).
  { destruct x0; [apply (force_kill_justified q tf)|]. apply quiet_end. auto with grows. }
  intros _. apply (stop_finish_justified (fun _ => kill_justified a timeout)). auto with grows.
Qed.
End stop_kills.

(** C9: SIGKILL is sent by [stop_algo] at most once, to the pid it read from the
    strategy's PID file, after the stop flag was written, and not before the
    grace period is over unless the process was seen to end meanwhile -- whatever
    the rest of the host does between the agent's calls. *)
Theorem stop_kills_recorded_pid {machine : Machine} a timeout h :
  exists tr, h_trace (snd (stop_algo a timeout h)) = h_trace h ++ tr /\ kill_justified a timeout tr.
Proof.
  assert (since (h_trace h) (fun _ => kill_justified a timeout) (snd (stop_algo a timeout h))) as G.
  { pose proof (stop_algo_justified (h_trace h) a timeout h) as Ht. specialize (Ht (ex_intro _ [] (conj (eq_sym (app_nil_r _)) eq_refl))).
    now destruct (stop_algo a timeout h) as [[j|e] h']. }
  destruct G as (tr & E & Hj). now exists tr.
Qed.

(** ** Starting *)
(** Before the launch: nothing is started or released, and no probe found the
    strategy alive.  After it: nothing is started. *)
Definition unseen (x : act) : bool :=
  match x with Spawn _ | Unflock _ | Flock _ | Probe _ true => false | _ => true end.
Definition no_spawn (x : act) : bool := match x with Spawn _ => false | _ => true end.
Definition held (x : act) : bool := match x with Spawn _ | Unflock _ | Flock _ => false | _ => true end.

Lemma harmless_no_spawn x : harmless x = true -> no_spawn x = true.
Proof. now destruct x. Qed.
Lemma harmless_held x : harmless x = true -> held x = true.
Proof. now destruct x. Qed.
Lemma unseen_held x : unseen x = true -> held x = true.
Proof. now destruct x. Qed.
Lemma held_no_spawn x : held x = true -> no_spawn x = true.
Proof. now destruct x. Qed.
#[export] Hint Resolve harmless_no_spawn harmless_held : grows.

Section starting.
Context {machine : Machine} (a : string).

Definition looked (tr : Trace) : Prop := exists t b, In (t, Exists (pid_file_path a) b) tr.
(** A launch, with what came before it and after it while the lock was held. *)
Definition launch_ok (tr : Trace) : Prop :=
  forall u t argv v, tr = u ++ (t, Spawn argv) :: v -> acts unseen u /\ looked u /\ acts held v.
Definition looking (c : Z) (tr : Trace) : Prop := acts unseen tr /\ looked tr.
Definition launched (c : Z) (tr : Trace) : Prop :=
  exists u t argv v, tr = u ++ (t, Spawn argv) :: v /\ acts unseen u /\ looked u /\ acts held v.

Lemma looked_app u v : looked u -> looked (u ++ v).
Proof. intros (t & b & Hi). exists t, b. now apply in_app_l. Qed.
Lemma looking_stable : stable unseen looking.
Proof. intros c c' u v [H1 H2] _ Hv. split; [now apply acts_app | now apply looked_app]. Qed.
Lemma launched_stable : stable held launched.
Proof.
  intros c c' tr w (u & t & argv & v & -> & H1 & H2 & H3) _ Hw. exists u, t, argv, (v ++ w).
  rewrite <- app_assoc. repeat split; auto. now apply acts_app.
Qed.
Lemma held_stable : stable held (fun _ => acts held).
Proof. intros c c' u v H _ Hv. now apply acts_app. Qed.
Lemma spawn_not_held u t argv v : acts held (u ++ (t, Spawn argv) :: v) -> False.
Proof. unfold acts. rewrite Forall_app, Forall_cons. cbn. now intros (_ & H & _). Qed.
Lemma held_launch_ok tr : acts held tr -> launch_ok tr.
Proof. intros H u t argv v ->. now apply spawn_not_held in H. Qed.
Lemma launched_launch_ok c tr : launched c tr -> launch_ok tr.
Proof.
  intros (u & t & argv & v & -> & H1 & H2 & H3) u2 t2 argv2 v2 E.
  assert (acts held u) as Hu by (revert H1; apply acts_weaken, unseen_held).
  apply app_eq_inv in E as [(l & -> & E) | (l & -> & E)]; destruct l as [|x l]; cbn in E.
  - injection E as -> -> ->. rewrite app_nil_r in H1, H2. auto.
  - injection E as <- ->. now apply spawn_not_held in Hu.
  - injection E as -> -> ->. now rewrite app_nil_r.
  - injection E as <- ->. now apply spawn_not_held in H3.
Qed.

(** [read_pid_file] looks at the PID file; a first look on a fresh stage. *)
Lemma read_pid_file_looks T :
  triple (since T (fun _ tr => acts unseen tr)) (read_pid_file a) (fun _ => since T looking)
    (fun _ => since T (fun _ => acts unseen)).
Proof.
  unfold read_pid_file. eapply triple_bind.
  - apply (triple_syscall T _ (fun (r : result exn bool) c tr => match r with Ok _ => looking c tr | Err _ => acts unseen tr end)).
    intros d c c' tr Hu _. cbn. split; [now apply acts_app; [|repeat constructor]|].
    exists c. eexists. apply in_or_app. right. now left.
  - intros found. cbn beta iota. eapply triple_weaken with (P := since T looking) (X := fun _ => since T looking);
      [|auto| |intros e h; apply since_weaken; now intros c tr [H _]].
    + apply (triple_grows T unseen); [|apply looking_stable]. destruct (negb found); [apply grows_ret|].
      grow.
    + auto.
Qed.
Lemma current_pid_looks T :
  triple (since T (fun _ tr => acts unseen tr)) (_current_pid_if_alive a)
    (fun r => since T (fun c tr => if r is Some _ then acts held tr else looking c tr))
    (fun _ => since T (fun _ => acts held)).
Proof.
  assert (forall tr, acts unseen tr -> acts held tr) as W by (intros tr; apply acts_weaken, unseen_held).
  unfold _current_pid_if_alive. eapply triple_bind.
  { eapply triple_exn; [apply read_pid_file_looks|]. intros e h. apply since_weaken. auto. }
  intros [q|]; [|now apply triple_ret]. unfold is_process_running. eapply triple_bind with
    (R := fun (b : bool) => since T (fun c tr => if b then acts held tr else looking c tr)).
  - destruct (q <=? 0); [now apply triple_ret|].
    eapply triple_exn; [apply (triple_syscall T _ (fun (r : result exn bool) c tr => match r with
        | Ok b => if b then acts held tr else looking c tr | Err _ => False end))|].
    + intros d c c' tr [H1 H2] _. cbn. destruct (kill0 q d).
      * apply acts_app; [now apply W | repeat constructor].
      * split; [now apply acts_app; [|repeat constructor] | now apply looked_app].
    + intros e h (tr & _ & []).
  - intros [|]; apply triple_ret; auto.
Qed.

Lemma start_locked_launches T :
  triple (since T (fun _ tr => tr = [])) (_start_algo_locked a)
    (fun _ => since T (fun _ => launch_ok)) (fun _ => since T (fun _ => launch_ok)).
Proof.
  assert (forall h, since T (fun _ => acts held) h -> since T (fun _ => launch_ok) h) as Wh.
  { intros h. apply since_weaken. intros c tr. apply held_launch_ok. }
  assert (forall h, since T looking h -> since T (fun _ => launch_ok) h) as Wl.
  { intros h. apply since_weaken. intros c tr [H _]. apply held_launch_ok. revert H. apply acts_weaken, unseen_held. }
  unfold _start_algo_locked. eapply triple_bind.
  { eapply triple_weaken; [apply (current_pid_looks T) | | intros r h Hr; exact Hr | cbn; auto].
    intros h. apply since_weaken. intros c tr ->. apply acts_nil. }
  intros [q|].
  { eapply triple_weaken; [apply (triple_grows T held (fun _ => acts held)); [grow | apply held_stable] | cbn; auto | cbn; auto | cbn; auto]. }
  eapply triple_bind.
  { eapply triple_exn; [apply (triple_grows T unseen); [auto with grows | apply looking_stable] | cbn; auto]. }
  intros main. cbn zeta. eapply triple_bind.
  { eapply triple_exn; [apply (triple_grows T unseen); [apply grows_gets | apply looking_stable] | cbn; auto]. }
  intros t. eapply triple_bind.
  { eapply triple_exn; [apply (triple_grows T unseen); [now apply grows_file_call | apply looking_stable] | cbn; auto]. }
  intros []. eapply triple_bind with (R := fun _ => since T launched).
  { eapply triple_weaken; [apply (triple_syscall T looking (fun _ => launched)) | auto | auto | ].
    - intros d c c' tr [H1 H2] _. exists tr, c, [python; main], []. repeat split; auto. apply acts_nil.
    - cbn. intros e h. apply since_weaken. intros c tr. apply launched_launch_ok. }
  intros []. eapply triple_weaken; [apply (triple_grows T held launched); [grow | apply launched_stable] | cbn; auto | | ];
    cbn; intros x h; apply since_weaken; intros c tr; apply launched_launch_ok.
Qed.
End starting.

Lemma with_start_lock_hangs {machine : Machine} {A} a (body : HostM A) h :
  lock_granted (h_trace h) = false -> with_start_lock a body h = (Err OutOfFuel, h).
Proof. intros H. unfold with_start_lock, flock, bind. now rewrite H. Qed.

Lemma with_start_lock_trace {machine : Machine} {A} a (body : HostM A) h :
  lock_granted (h_trace h) = true ->
  exists d c, let h1 := mkHost d c (h_trace h ++ [(h_clock h, Flock (_start_lock_path a))]) in
  exists d' c',
    snd (with_start_lock a body h) =
      mkHost d' c' (h_trace (snd (body h1)) ++ [(h_clock (snd (body h1)), Unflock (_start_lock_path a))]) /\
    fst (with_start_lock a body h) = fst (body h1).
Proof.
  intros Hl. unfold with_start_lock, flock, unflock, finally, bind, syscall. rewrite Hl. cbv zeta beta.
  exists (others (h_trace h) (h_disk h)), (h_clock h + Z.max 0 (elapsed (h_trace h))). cbn.
  destruct (body _) as [r h']. do 2 eexists. split; reflexivity.
Qed.

(** C10: [start_algo] launches at most one process, and only while it holds the
    start lock, after it has looked at the PID file under that lock and no probe
    found the strategy alive; the lock is released afterwards on every path.
    Whatever else happens on the host between its calls. *)
Theorem start_launches_under_lock {machine : Machine} a h u t argv v :
  h_trace (snd (start_algo a h)) = h_trace h ++ u ++ (t, Spawn argv) :: v ->
  exists u1 t1 u2 v1 t2,
    u = u1 ++ (t1, Flock (_start_lock_path a)) :: u2 /\ acts no_spawn u1 /\ acts unseen u2 /\ looked a u2 /\
    v = v1 ++ [(t2, Unflock (_start_lock_path a))] /\ acts held v1.
Proof.
  unfold start_algo, bind. intros E.
  destruct (grows_main_path unseen ltac:(auto with grows) a h) as [(tr0 & E0 & H0) _].
  assert (acts held tr0) as H0' by (revert H0; apply acts_weaken, unseen_held).
  destruct (_algo_main_path a h) as [[main|e] h0]; cbn [snd] in E, E0.
  2: { rewrite E0 in E. apply app_inv_head in E. subst tr0. now apply spawn_not_held in H0'. }
  destruct (lock_granted (h_trace h0)) eqn:Hl.
  2: { rewrite with_start_lock_hangs in E by exact Hl. cbn [snd] in E. rewrite E0 in E.
       apply app_inv_head in E. subst tr0. now apply spawn_not_held in H0'. }
  destruct (with_start_lock_trace a (_start_algo_locked a) h0 Hl) as (d & c & Es).
  cbv zeta in Es. destruct Es as (d' & c' & Es & _). rewrite Es in E. cbn [h_trace] in E. clear Es.
  set (h1 := mkHost d c _) in E. pose proof (start_locked_launches a (h_trace h1) h1) as HB.
  specialize (HB (ex_intro _ [] (conj (eq_sym (app_nil_r _)) eq_refl))).
  assert (since (h_trace h1) (fun _ => launch_ok a) (snd (_start_algo_locked a h1))) as (tr & Et & Hok)
    by now destruct (_start_algo_locked a h1) as [[j|e] h']. clear HB.
  rewrite Et in E. cbn [h_trace h1] in E. rewrite E0, <- !app_assoc in E. apply app_inv_head in E.
  cbn [app] in E. set (t2 := h_clock (snd (_start_algo_locked a h1))) in E. set (t1 := h_clock h0) in E.
  clearbody t1 t2.
  assert (exists u', u = tr0 ++ (t1, Flock (_start_lock_path a)) :: u' /\
            tr ++ [(t2, Unflock (_start_lock_path a))] = u' ++ (t, Spawn argv) :: v) as (u' & -> & E').
  { clear -E H0'. apply app_eq_inv in E as [(l & -> & E) | (l & -> & E)].
    - destruct l as [|x l]; cbn in E; [discriminate E|]. injection E as <- _. now apply spawn_not_held in H0'.
    - destruct l as [|x l]; cbn in E; [discriminate E|]. injection E as <- ->. now exists l. }
  assert (exists v', v = v' ++ [(t2, Unflock (_start_lock_path a))] /\ tr = u' ++ (t, Spawn argv) :: v') as (v' & -> & Et').
  { clear -E'. destruct (exists_last (l := (t, Spawn argv) :: v)) as (v' & x & Ev); [discriminate|].
    rewrite Ev, app_assoc in E'. apply app_inj_tail in E' as [-> <-].
    destruct v' as [|y v']; cbn in Ev; [discriminate Ev|]. injection Ev as <- ->. now exists v'. }
  destruct (Hok _ _ _ _ Et') as (H1 & H2 & H3). exists tr0, t1, u', v', t2.
  repeat split; auto. revert H0'. apply acts_weaken, held_no_spawn.
Qed.

(** ** Updating *)
Definition no_unlink (x : act) : bool := match x with Unlink _ => false | _ => true end.
Lemma harmless_no_unlink x : harmless x = true -> no_unlink x = true.
Proof. now destruct x. Qed.
#[export] Hint Resolve harmless_no_unlink : grows.

Lemma grows_run_git {machine : Machine} (p : act -> bool) args :
  (forall l c o e, p (Git l c o e) = true) -> grows p (run_git args).
Proof.
  intros Hp h. unfold run_git. destruct (git _ _) as [[[c o] e]|x]; now apply grows_syscall.
Qed.
Lemma grows_check p r : grows p (check_returncode r).
Proof. unfold check_returncode. grow. Qed.
#[export] Hint Resolve grows_run_git grows_check : grows.

(** What a complaint that names conflicting files looks like. *)
Lemma after_Some p : forall l r, after p l = Some r -> l = p ++ r.
Proof.
  induction p as [|c p IH]; intros l r; [now intros [= ->]|].
  destruct l as [|d l]; [discriminate|]. cbn. destruct (Ascii.eqb_spec c d) as [->|]; [|discriminate].
  intros H. now rewrite (IH l r H).
Qed.
Lemma drop_while_split p l :
  exists u, l = u ++ drop_while p l /\ match drop_while p l with x :: _ => p x = false | [] => True end.
Proof.
  induction l as [|x l (u & E & H)]; [now exists []|]. cbn. destruct (p x) eqn:Ep.
  - exists (x :: u). cbn. split; [now rewrite <- E | exact H].
  - exists []. now split.
Qed.
Lemma before_verdict_Some l : forall acc g, before_verdict acc l = Some g ->
  exists block verdict post, g = rev acc ++ block /\ In verdict ["Please"; "Aborting"] /\
    l = block ++ ascii_of_nat 10 :: chars verdict ++ post.
Proof.
  induction l as [|c r IH]; intros acc g; [discriminate|]. cbn [before_verdict].
  destruct (_ && _) eqn:E.
  - intros [= <-]. apply andb_prop in E as [Ec Ev]. apply Nat.eqb_eq in Ec.
    assert (c = ascii_of_nat 10) as -> by (rewrite <- Ec; symmetry; apply ascii_nat_embedding).
    apply orb_true_iff in Ev as [Ev|Ev]; apply bool_decide_eq_true in Ev as [post Ep]; apply after_Some in Ep; subst r.
    + exists [], "Please", post. rewrite app_nil_r. cbn. auto.
    + exists [], "Aborting", post. rewrite app_nil_r. cbn. auto.
  - intros H. apply IH in H as (block & verdict & post & -> & Hv & ->).
    exists (c :: block), verdict, post. cbn. now rewrite <- app_assoc.
Qed.
Lemma conflict_at_Some l g : conflict_at l = Some g ->
  exists mid verdict post, In verdict ["Please"; "Aborting"] /\
    l = conflict_marker ++ mid ++ ":"%char :: ascii_of_nat 10 :: g ++ ascii_of_nat 10 :: chars verdict ++ post.
Proof.
  unfold conflict_at. destruct (after _ l) as [r|] eqn:E; [|discriminate]. apply after_Some in E as ->. cbn [mbind option_bind].
  destruct (drop_while_split (fun c => negb (Ascii.eqb c ":")) r) as (mid & Er & Hh).
  destruct (drop_while _ r) as [|x [|c r']]; [discriminate..|].
  destruct (Nat.eqb_spec (nat_of_ascii c) 10) as [Ec|]; [|discriminate]. intros H.
  apply before_verdict_Some in H as (block & verdict & post & -> & Hv & ->).
  apply negb_false_iff in Hh. apply Ascii.eqb_eq in Hh as ->.
  assert (c = ascii_of_nat 10) as -> by (rewrite <- Ec; symmetry; apply ascii_nat_embedding).
  exists mid, verdict, post. now rewrite Er.
Qed.
Lemma conflict_search_Some l g : conflict_search l = Some g ->
  exists pre mid verdict post, In verdict ["Please"; "Aborting"] /\
    l = pre ++ conflict_marker ++ mid ++ ":"%char :: ascii_of_nat 10 :: g ++ ascii_of_nat 10 :: chars verdict ++ post.
Proof.
  induction l as [|c l IH]; cbn [conflict_search]; destruct (conflict_at _) as [g'|] eqn:E; try discriminate.
  { intros [= H]; rewrite H in E. apply conflict_at_Some in E as (mid & verdict & post & Hv & E). now exists [], mid, verdict, post. }
  intros H. destruct (IH H) as (pre & mid & verdict & post & Hv & E'). exists (c :: pre), mid, verdict, post.
  split; [exact Hv|]. now rewrite E'.
Qed.

Section updating.
Context {machine : Machine} (T : Trace).

Definition logged (x : act) (tr : Trace) : Prop := exists t, In (t, x) tr.

(** git refused to pull because of untracked files, and named them: the
    trimmed non-blank lines between the colon that ends the complaint and the
    line that begins with [Please] or [Aborting]. *)
Definition refused_pull (names : list string) (tr : Trace) : Prop :=
  exists code o e pre mid block verdict post,
    logged (Git ["pull"; "--ff-only"] code o e) tr /\ code <> 0 /\
    chars e = pre ++ chars "untracked working tree files would be overwritten" ++ mid ++
              ":"%char :: ascii_of_nat 10 :: block ++ ascii_of_nat 10 :: chars verdict ++ post /\
    In verdict ["Please"; "Aborting"] /\ names = nonblank_lines (unchars block).
(** [ref] is the branch of [origin] that git says is checked out. *)
Definition upstream (ref : string) (tr : Trace) : Prop :=
  exists code o e, logged (Git ["rev-parse"; "--abbrev-ref"; "HEAD"] code o e) tr /\ ref = "origin/" +:+ strip o.
(** The text of [rel] in [ref] was asked from git, the local text was read, and
    they are the same. *)
Definition verified (ref rel : string) (tr : Trace) : Prop :=
  exists text e, logged (Git ["show"; ref +:+ ":" +:+ rel] 0 text e) tr /\
                 logged (ReadText (join_path PROJECT_ROOT rel) (Some text)) tr.
Definition deletes_verified (tr : Trace) : Prop :=
  forall u t path v, tr = u ++ (t, Unlink path) :: v ->
    exists names ref rel, refused_pull names u /\ upstream ref u /\
      In rel names /\ path = join_path PROJECT_ROOT rel /\ Forall (fun r => verified ref r u) names.

Lemma conflicts_refused (r : completed) tr :
  r.(returncode) <> 0 -> _conflicting_untracked_paths r.(err) <> [] ->
  logged (Git ["pull"; "--ff-only"] r.(returncode) r.(out) r.(err)) tr ->
  refused_pull (_conflicting_untracked_paths r.(err)) tr.
Proof.
  unfold _conflicting_untracked_paths. intros Hr Hne L.
  destruct (conflict_search _) as [g|] eqn:E; [|now destruct Hne].
  apply conflict_search_Some in E as (pre & mid & verdict & post & Hv & E).
  now exists (returncode r), (out r), (err r), pre, mid, g, verdict, post.
Qed.

(** What the update knows: the calls [seen] were made and the paths [done] are
    verified against [ref]. *)
Definition checked (seen : list act) (ref : string) (done : list string) (c : Z) (tr : Trace) : Prop :=
  deletes_verified tr /\ Forall (fun x => logged x tr) seen /\ Forall (fun rel => verified ref rel tr) done.
Definition fresh : Host -> Prop := since T (checked [] "" []).

Lemma logged_app x u v : logged x u -> logged x (u ++ v).
Proof. intros [t H]. exists t. now apply in_app_l. Qed.
Lemma verified_app ref rel u v : verified ref rel u -> verified ref rel (u ++ v).
Proof. intros (text & e & H1 & H2). exists text, e. split; now apply logged_app. Qed.
Lemma deletes_app u v : deletes_verified u -> acts no_unlink v -> deletes_verified (u ++ v).
Proof.
  intros Hu Hv u' t path w E. apply app_eq_inv in E as [(l & -> & E) | (l & -> & ->)].
  - destruct l as [|x l]; cbn in E; [subst v; apply Forall_cons in Hv as [Hx _]; discriminate Hx|].
    injection E as <- _. now apply (Hu u' t path l).
  - unfold acts in Hv. apply Forall_app in Hv as [_ Hv]. apply Forall_cons in Hv as [Hx _]. discriminate Hx.
Qed.
Lemma checked_more seen ref done c c' u v :
  checked seen ref done c u -> acts no_unlink v -> checked seen ref done c' (u ++ v).
Proof.
  intros (H1 & H2 & H3) Hv. split; [now apply deletes_app|].
  split; (eapply Forall_impl; [eassumption|]; intros; now (apply logged_app || apply verified_app)).
Qed.
Lemma checked_stable seen ref done : stable no_unlink (checked seen ref done).
Proof. intros c c' u v H _ Hv. now apply (checked_more seen ref done c). Qed.
Lemma checked_fresh seen ref done h : since T (checked seen ref done) h -> fresh h.
Proof. apply since_weaken. intros c tr [H _]. now repeat split. Qed.

Lemma checked_ref seen ref ref' h : since T (checked seen ref []) h -> since T (checked seen ref' []) h.
Proof. apply since_weaken. intros c tr (H1 & H2 & _). split; [exact H1|]. split; [exact H2 | constructor]. Qed.

(** Any step that deletes nothing. *)
Lemma update_step {A B} (m : HostM A) (k : A -> HostM B) seen ref done Q :
  grows no_unlink m -> (forall x, triple (since T (checked seen ref done)) (k x) Q (fun _ => fresh)) ->
  triple (since T (checked seen ref done)) (bind m k) Q (fun _ => fresh).
Proof.
  intros Hg Hk. eapply triple_bind; [|exact Hk].
  eapply triple_exn; [apply (triple_grows T no_unlink _ m Hg), checked_stable|].
  intros e h. apply checked_fresh.
Qed.

(** A call just logged is among those seen. *)
Lemma since_logged seen ref done h x d c :
  since T (checked seen ref done) h -> no_unlink x = true ->
  since T (checked (x :: seen) ref done) (mkHost d c (h_trace h ++ [(h_clock h, x)])).
Proof.
  intros (tr & E & HS) Hx. apply (since_snoc T _ _ tr); [exact E|].
  apply (checked_more _ _ _ _ 0 _ [(h_clock h, x)]) in HS as (H1 & H2 & H3);
    [|repeat constructor; exact Hx].
  split; [exact H1|]. split; [|exact H3]. constructor; [|exact H2].
  eexists. apply in_or_app. right. now left.
Qed.

Lemma run_git_logs args seen ref done :
  triple (since T (checked seen ref done)) (run_git args)
    (fun r => since T (checked (Git args r.(returncode) r.(out) r.(err) :: seen) ref done)) (fun _ => fresh).
Proof.
  intros h HS. unfold run_git. destruct (git _ _) as [[[code o] e]|x]; unfold syscall; cbv zeta beta.
  - now apply since_logged.
  - eapply checked_fresh. now apply (since_logged seen ref done).
Qed.
Lemma read_text_logs path seen ref done :
  triple (since T (checked seen ref done)) (read_text path)
    (fun s => since T (checked (ReadText path (Some s) :: seen) ref done)) (fun _ => fresh).
Proof.
  intros h HS. unfold read_text, file_call, syscall, guard. cbv zeta beta.
  assert (forall d c x, since T (checked (ReadText path x :: seen) ref done)
    (mkHost d c (h_trace h ++ [(h_clock h, ReadText path x)]))) as G by (intros; now apply since_logged).
  destruct (io_refused (h_trace h)); cbn [fst]; [eapply checked_fresh, G|].
  destruct (files (others (h_trace h) (h_disk h)) !! path) as [s|]; [apply G | eapply checked_fresh, G].
Qed.

Lemma verify_conflict_verifies ref result rel seen done : result.(returncode) <> 0 ->
  triple (since T (checked seen ref done)) (verify_conflict ref result rel)
    (fun _ => since T (checked seen ref (done ++ [rel]))) (fun _ => fresh).
Proof.
  intros Hr.
  assert (check_returncode result = raise (CalledProcessError (process_error_text result))) as Er.
  { unfold check_returncode. apply Z.eqb_neq in Hr. now rewrite Hr. }
  unfold verify_conflict, is_file. cbn zeta. apply update_step; [auto with grows|]. intros found.
  apply update_step; [destruct (negb found); [apply grows_check | apply grows_ret]|]. intros [].
  eapply triple_bind; [apply run_git_logs|]. intros blob. cbn beta.
  destruct (Z.eqb_spec (returncode blob) 0) as [Eb|]; cbn [negb].
  2: { rewrite Er. apply triple_raise. intros h. apply checked_fresh. }
  eapply triple_bind; [apply read_text_logs|]. intros s. cbn beta.
  destruct (String.eqb_spec s (out blob)) as [->|]; cbn [negb].
  2: { rewrite Er. apply triple_raise. intros h. apply checked_fresh. }
  apply triple_ret. intros h. apply since_weaken. intros c tr (H1 & H2 & H3). rewrite Eb in H2.
  apply Forall_cons in H2 as [L1 H2]. apply Forall_cons in H2 as [L2 H2].
  split; [exact H1|]. split; [exact H2|]. apply Forall_app. split; [exact H3|].
  constructor; [|constructor]. now exists (out blob), (err blob).
Qed.
Lemma verify_all ref result seen : result.(returncode) <> 0 -> forall l done,
  triple (since T (checked seen ref done)) (for_each l (verify_conflict ref result))
    (fun _ => since T (checked seen ref (done ++ l))) (fun _ => fresh).
Proof.
  intros Hr. induction l as [|rel l IH]; intros done; cbn [for_each].
  - apply triple_ret. now rewrite app_nil_r.
  - eapply triple_bind; [now apply verify_conflict_verifies|]. intros [].
    replace (done ++ rel :: l) with ((done ++ [rel]) ++ l) by now rewrite <- app_assoc. apply IH.
Qed.

Lemma unlink_all seen ref cs :
  (forall tr, Forall (fun x => logged x tr) seen -> refused_pull cs tr /\ upstream ref tr) -> forall l, incl l cs ->
  triple (since T (checked seen ref cs)) (for_each l (fun rel => unlink_existing (join_path PROJECT_ROOT rel)))
    (fun _ => since T (checked seen ref cs)) (fun _ => fresh).
Proof.
  intros Hseen. induction l as [|rel l IH]; intros Hl; cbn [for_each]; [now apply triple_ret|].
  eapply triple_bind; [|intros ?; apply IH; intros x Hx; apply Hl; now right].
  intros h (tr & E & H1 & H2 & H3). unfold unlink_existing, file_call, syscall, guard. cbv zeta beta.
  assert (forall d c, since T (checked seen ref cs) (mkHost d c (h_trace h ++ [(h_clock h, Unlink (join_path PROJECT_ROOT rel))]))) as G.
  { intros d c. apply (since_snoc T _ _ tr); [exact E|]. split; [|split].
    - intros u t path v Eu. destruct v as [|x v _] using rev_ind.
      + apply app_inj_tail in Eu as [<- [= _ <-]]. destruct (Hseen tr H2) as [Hp Hu].
        exists cs, ref, rel. repeat split; auto. apply Hl. now left.
      + rewrite app_comm_cons, app_assoc in Eu. apply app_inj_tail in Eu as [Eu _].
        now apply (H1 u t path v).
    - eapply Forall_impl; [exact H2|]. intros x. apply logged_app.
    - eapply Forall_impl; [exact H3|]. intros r. apply verified_app. }
  destruct (io_refused (h_trace h)); cbn [fst]; [eapply checked_fresh, G|].
  destruct (files _ !! _); [apply G | eapply checked_fresh, G].
Qed.

Lemma pull_deletes_verified :
  triple fresh _pull_ff_only_with_conflict_recovery (fun _ => fresh) (fun _ => fresh).
Proof.
  unfold _pull_ff_only_with_conflict_recovery. eapply triple_bind; [apply run_git_logs|]. intros result. cbn beta.
  destruct (Z.eqb_spec (returncode result) 0) as [|Hr].
  { apply triple_ret. intros h. apply checked_fresh. }
  cbn zeta. set (cs := _conflicting_untracked_paths result.(err)).
  destruct (bool_decide_reflect (cs = [])) as [|Hcs].
  { unfold check_returncode. rewrite (proj2 (Z.eqb_neq _ _) Hr). intros h. apply checked_fresh. }
  apply update_step; [apply grows_ret|]. intros [].
  apply update_step; [auto with grows|]. intros fetched. apply update_step; [auto with grows|]. intros [].
  eapply triple_bind; [apply run_git_logs|]. intros branch. cbn beta.
  set (ref := "origin/" +:+ strip branch.(out)).
  eapply triple_pre; [|intros h; apply checked_ref with (ref' := ref)].
  eapply triple_bind; [now apply verify_all|]. intros []. rewrite app_nil_l.
  eapply triple_bind; [apply (unlink_all _ ref cs); [|apply incl_refl]|].
  { intros tr H. apply Forall_cons in H as [Lb H]. apply Forall_cons in H as [Lp _]. split.
    - now apply (conflicts_refused result).
    - now exists (returncode branch), (out branch), (err branch). }
  intros []. apply update_step; [auto with grows|]. intros again. apply update_step; [auto with grows|]. intros [].
  apply triple_ret. intros h. apply checked_fresh.
Qed.

Lemma grows_git (p : act -> bool) args : (forall l c o e, p (Git l c o e) = true) -> grows p (_git args).
Proof. intros. unfold _git. grow. Qed.

Lemma update_deletes_verified a : triple fresh (update_algo a) (fun _ => fresh) (fun _ => fresh).
Proof.
  unfold update_algo. destruct (bad_algo_name a); [now apply triple_raise|].
  apply update_step; [auto 6 with grows|]. intros [q|]; [now apply triple_ret|].
  eapply triple_bind with (R := fun _ => fresh).
  - apply triple_try with (Y := fun _ => fresh).
    + eapply triple_bind with (R := fun _ => fresh); [|intros; now apply triple_ret].
      unfold pull_versions. apply update_step; [now apply grows_git|]. intros prev.
      eapply triple_bind; [apply pull_deletes_verified|]. intros rec.
      apply update_step; [now apply grows_git|]. intros new. now apply triple_ret.
    + intros e. destruct (is_class _ e); [now apply triple_ret | now apply triple_raise].
  - intros [[[prev rec] new]|why]; [|now apply triple_ret].
    apply update_step; [grow|]. intros [why|]; [now apply triple_ret|].
    apply update_step; [apply grows_gets|]. intros t. apply update_step; [auto 6 with grows|]. intros j. now apply triple_ret.
Qed.
End updating.

(** C11: whatever git answers and whatever happens to the working tree meanwhile,
    when [update_algo] deletes a file then, before that: git refused to pull,
    complaining that untracked working tree files would be overwritten, and
    the file is one of the paths that complaint lists; and for every one of the
    paths it lists, git showed the text that path has in [origin/<the branch
    git said is checked out>], the local file was read, and the two texts are
    equal. *)
Theorem update_deletes_only_verified {machine : Machine} a h :
  exists tr, h_trace (snd (update_algo a h)) = h_trace h ++ tr /\
  forall u t path v, tr = u ++ (t, Unlink path) :: v ->
    exists names ref rel, refused_pull names u /\ upstream ref u /\
      In rel names /\ path = join_path PROJECT_ROOT rel /\ Forall (fun r => verified ref r u) names.
Proof.
  pose proof (update_deletes_verified (h_trace h) a h) as Hu.
  assert (fresh (h_trace h) h) as H0.
  { exists []. rewrite app_nil_r. split; [reflexivity|]. repeat split; try constructor.
    intros u t path v E. now destruct u. }
  specialize (Hu H0). assert (fresh (h_trace h) (snd (update_algo a h))) as (tr & E & H1 & _)
    by now destruct (update_algo a h) as [[j|e] h']. now exists tr.
Qed.

(** ** Every command ends *)
Definition ends {A} (m : HostM A) : Prop := forall h, fst (m h) <> Err OutOfFuel.

Section ending.
Context {machine : Machine}.

Lemma halts_ret {A} (x : A) : ends (ret x).
Proof. discriminate. Qed.
Lemma halts_raise {A} e : e <> OutOfFuel -> ends (raise (A := A) e).
Proof. intros He h [= E]. now apply He. Qed.
Lemma halts_lift {A} (r : result exn A) : r <> Err OutOfFuel -> ends (lift r).
Proof. now intros H h. Qed.
Lemma ends_gets {A} (f : Host -> A) : ends (gets f).
Proof. discriminate. Qed.
Lemma halts_bind {A B} (m : HostM A) (k : A -> HostM B) : ends m -> (forall x, ends (k x)) -> ends (bind m k).
Proof.
  intros Hm Hk h. unfold bind. specialize (Hm h). destruct (m h) as [[x|e] h']; cbn in *; [apply Hk|].
  intros [= ->]. now apply Hm.
Qed.
Lemma ends_except {A} q (m : HostM A) k : ends m -> (forall e, ends (k e)) -> ends (except q m k).
Proof.
  intros Hm Hk h. unfold except, try_except. specialize (Hm h). destruct (m h) as [[x|e] h']; [exact Hm|].
  destruct (q e); [apply Hk | exact Hm].
Qed.
Lemma ends_finally {A} (m : HostM A) f : ends m -> ends f -> ends (finally m f).
Proof.
  intros Hm Hf h. unfold finally. specialize (Hm h). destruct (m h) as [r h']. specialize (Hf h').
  destruct (f h') as [[x|e] h2]; [exact Hm|]. cbn in *. congruence.
Qed.
Lemma ends_for_each {A} (l : list A) body : (forall x, ends (body x)) -> ends (for_each l body).
Proof. intros Hb. induction l as [|x l IH]; cbn; [apply halts_ret | apply halts_bind; [apply Hb | auto]]. Qed.
Lemma ends_syscall {A} (run : Disk -> result exn A * Disk) log :
  (forall d, fst (run d) <> Err OutOfFuel) -> ends (syscall run log).
Proof. intros Hr h. unfold syscall. specialize (Hr (others (h_trace h) (h_disk h))). now destruct (run _). Qed.
Lemma ends_file_call {A} (run : Disk -> result exn A * Disk) log :
  (forall d, fst (run d) <> Err OutOfFuel) -> ends (file_call run log).
Proof.
  intros Hr h. unfold file_call. apply ends_syscall. intros d. unfold guard. now destruct (io_refused _).
Qed.
Lemma halts_sleep us : ends (sleep us).
Proof. intros h. unfold sleep, syscall. cbn. discriminate. Qed.

Lemma ends_exists path : ends (exists_ path).
Proof. now apply ends_syscall. Qed.
Lemma ends_read_text path : ends (read_text path).
Proof. apply ends_file_call. intros d. now destruct (files d !! path). Qed.
Lemma ends_write_text path s : ends (write_text path s).
Proof. now apply ends_file_call. Qed.
Lemma ends_append_text path s : ends (append_text path s).
Proof. now apply ends_file_call. Qed.
Lemma ends_unlink path : ends (unlink path).
Proof. now apply ends_file_call. Qed.
Lemma ends_unlink_existing path : ends (unlink_existing path).
Proof. apply ends_file_call. intros d. now destruct (files d !! path). Qed.
Lemma ends_sigkill q : ends (sigkill q).
Proof. apply ends_syscall. intros d. now destruct (procs d !! q) as [[|]|]. Qed.
Lemma ends_spawn argv : ends (spawn argv).
Proof. now apply ends_syscall. Qed.
Lemma halts_poll : ends poll_launcher.
Proof. intros h. now apply ends_syscall. Qed.
Lemma ends_flock path : (forall tr, lock_granted tr = true) -> ends (flock path).
Proof. intros Hl h. unfold flock. rewrite Hl. now apply ends_syscall. Qed.
Lemma ends_unflock path : ends (unflock path).
Proof. now apply ends_syscall. Qed.
Lemma ends_is_running q : ends (is_process_running q).
Proof. unfold is_process_running. destruct (q <=? 0); [apply halts_ret | now apply ends_syscall]. Qed.
Lemma ends_now : ends _now_iso.
Proof. apply ends_gets. Qed.
Lemma ends_monotonic : ends monotonic.
Proof. apply ends_gets. Qed.
Lemma ends_dict_get k j : ends (lift (dict_get k j)).
Proof. apply halts_lift. now destruct j. Qed.
Lemma ends_dict_get_or k x j : ends (lift (dict_get_or k x j)).
Proof. apply halts_lift. now destruct j. Qed.
Lemma ends_dict_update j fs : ends (lift (dict_update j fs)).
Proof. apply halts_lift. now destruct j. Qed.
Lemma ends_jindex k j : ends (lift (jindex k j)).
Proof. apply halts_lift. destruct j; try discriminate. cbn. now destruct (assoc k kvs). Qed.
End ending.

Create HintDb ends discriminated.
#[export] Hint Constants Opaque : ends.
#[export] Hint Resolve halts_ret ends_gets halts_sleep ends_exists ends_read_text ends_write_text ends_append_text
  ends_unlink ends_unlink_existing ends_sigkill ends_spawn halts_poll ends_unflock ends_is_running
  ends_now ends_monotonic ends_dict_get ends_dict_get_or ends_dict_update ends_jindex : ends.
Ltac ends_step :=
  match goal with
  | |- ends (bind _ _) => apply halts_bind
  | |- ends (raise _) => apply halts_raise; discriminate
  | |- ends (except _ _ _) => apply ends_except
  | |- ends (finally _ _) => apply ends_finally
  | |- ends (for_each _ _) => apply ends_for_each
  | |- ends (match ?x with _ => _ end) => destruct x
  end.
Ltac ending := repeat first [ progress intros | assumption | solve [auto 3 with ends] | ends_step ].

Section commands_end.
Context {machine : Machine}.

Lemma ends_read_pid a : ends (read_pid_file a).
Proof. unfold read_pid_file. ending. Qed.
Hint Resolve ends_read_pid : ends.
Lemma ends_current_pid a : ends (_current_pid_if_alive a).
Proof. unfold _current_pid_if_alive. ending. Qed.
Lemma ends_main_path a : ends (_algo_main_path a).
Proof. unfold _algo_main_path. cbn zeta. ending. Qed.
Lemma ends_read_state a : ends (_read_state a).
Proof. unfold _read_state. ending. Qed.
Hint Resolve ends_read_state ends_current_pid ends_main_path : ends.
Lemma ends_write_state a fs : ends (_write_state a fs).
Proof. unfold _write_state. ending. Qed.
Lemma ends_tail_file path n : ends (_tail_file path n).
Proof. unfold _tail_file. ending. Qed.
Hint Resolve ends_write_state ends_tail_file : ends.
End commands_end.
#[export] Hint Resolve ends_read_pid ends_current_pid ends_main_path ends_read_state ends_write_state ends_tail_file : ends.

Section loops_end.
Context {machine : Machine}.

(** A loop with a deadline: every turn sleeps, so the clock passes the deadline
    before the fuel is gone. *)
Lemma clock_after {A} (m : HostM A) h : grows (fun _ => true) m -> h_clock h <= h_clock (snd (m h)).
Proof. intros Hg. apply Hg. Qed.
Lemma sleep_clock us h : h_clock h + us <= h_clock (snd (sleep us h)).
Proof. unfold sleep, syscall. cbn. lia. Qed.

Lemma await_pid_ends n a : forall dl h,
  dl <= h_clock h + 200000 * (Z.of_nat n - 1) -> (0 < n)%nat -> fst (await_pid n dl a h) <> Err OutOfFuel.
Proof.
  induction n as [|n IH]; intros dl h Hdl Hn; [lia|]. cbn [await_pid]. unfold bind at 1, monotonic, gets.
  destruct (Z.ltb_spec (h_clock h) dl); cbn [negb]; [|discriminate]. unfold bind at 1.
  pose proof (clock_after (_current_pid_if_alive a) h ltac:(auto with grows)) as C1.
  pose proof (ends_current_pid a h) as E1.
  destruct (_current_pid_if_alive a h) as [[[q|]|e] h1]; cbn [fst snd] in *; [discriminate| |congruence].
  unfold bind at 1. pose proof (clock_after poll_launcher h1 ltac:(auto with grows)) as C2.
  pose proof (halts_poll h1) as E2. destruct (poll_launcher h1) as [[b|e] h2]; cbn [fst snd] in *; [|congruence].
  destruct b; [discriminate|]. unfold bind at 1. pose proof (sleep_clock 200000 h2) as C3.
  destruct (sleep 200000 h2) as [[[]|e] h3] eqn:S; cbn [snd] in C3; [|discriminate S]. apply IH; lia.
Qed.
Lemma await_death_ends n q i : 0 < i -> forall dl h,
  dl <= h_clock h + i * (Z.of_nat n - 1) -> (0 < n)%nat -> fst (await_death n dl i q h) <> Err OutOfFuel.
Proof.
  intros Hi. induction n as [|n IH]; intros dl h Hdl Hn; [lia|]. cbn [await_death]. unfold bind at 1.
  pose proof (clock_after (is_process_running q) h ltac:(auto with grows)) as C1.
  pose proof (ends_is_running q h) as E1.
  destruct (is_process_running q h) as [[b|e] h1]; cbn [fst snd] in *; [|congruence].
  unfold bind at 1, monotonic, gets. destruct b; [|discriminate]. cbn [andb].
  destruct (Z.ltb_spec (h_clock h1) dl); [|discriminate]. unfold bind at 1. pose proof (sleep_clock i h1) as C3.
  destruct (sleep i h1) as [[[]|e] h3] eqn:S; cbn [snd] in C3; [|discriminate S]. apply IH; lia.
Qed.
Lemma death_fuel_enough timeout i : 0 < i -> timeout <= i * (Z.of_nat (death_fuel timeout i) - 1).
Proof.
  intros Hi. unfold death_fuel. pose proof (Z.div_mod timeout i ltac:(lia)).
  pose proof (Z.mod_pos_bound timeout i Hi). destruct (Z.leb_spec 0 (timeout / i)); nia.
Qed.
(** A deadline set now, the loop, and what follows it. *)
Lemma ends_deadline {A B} (loop : Z -> HostM A) (k : A -> HostM B) :
  (forall h, fst (loop (h_clock h) h) <> Err OutOfFuel) -> (forall x, ends (k x)) ->
  ends (let! t := monotonic in let! x := loop t in k x).
Proof.
  intros Hl Hk h. unfold bind at 1, monotonic, gets. unfold bind. specialize (Hl h).
  destruct (loop (h_clock h) h) as [[x|e] h']; [apply Hk | cbn in *; congruence].
Qed.
Lemma await_death_now timeout i q h : 0 < i ->
  fst (await_death (death_fuel timeout i) (h_clock h + timeout) i q h) <> Err OutOfFuel.
Proof.
  intros Hi. apply await_death_ends; [exact Hi | | unfold death_fuel; lia].
  pose proof (death_fuel_enough timeout i Hi). lia.
Qed.
Lemma ends_start_locked a : ends (_start_algo_locked a).
Proof.
  unfold _start_algo_locked. apply halts_bind; [auto with ends|]. intros [q|]; [ending|].
  apply halts_bind; [auto with ends|]. intros main. cbn zeta.
  apply halts_bind; [auto with ends|]. intros t. apply halts_bind; [auto with ends|]. intros [].
  apply halts_bind; [auto with ends|]. intros [].
  apply (ends_deadline (fun t => await_pid 12 (t + START_CRASH_CHECK) a)); [|intros x; ending].
  intros h. apply await_pid_ends; [unfold START_CRASH_CHECK|]; lia.
Qed.
Lemma halts_stop a timeout : ends (stop_algo a timeout).
Proof.
  unfold stop_algo, remove_pid_file, clear_stop_flag, request_stop. apply halts_bind; [auto with ends|]. intros pid.
  apply halts_bind; [ending|]. intros [q|]; [|ending]. apply halts_bind; [auto with ends|]. intros _.
  apply halts_bind; [ending|]. intros _.
  apply (ends_deadline (fun t => await_death (death_fuel timeout 500000) (t + timeout) 500000 q)).
  { intros h. now apply await_death_now. }
  intros _. apply halts_bind; [auto with ends|]. intros [|]; [|ending].
  apply halts_bind; [|intros _; ending]. apply halts_bind; [ending|]. intros _ h.
  unfold bind, monotonic, gets. now apply await_death_now.
Qed.
Hint Resolve ends_start_locked halts_stop : ends.
Lemma ends_lock {A} a (body : HostM A) :
  (forall tr, lock_granted tr = true) -> ends body -> ends (with_start_lock a body).
Proof. intros Hl Hb. apply halts_bind; [now apply ends_flock | intros _; ending]. Qed.
Lemma halts_start a : (forall tr, lock_granted tr = true) -> ends (start_algo a).
Proof.
  intros Hl. unfold start_algo. apply halts_bind; [auto with ends|]. intros _. apply ends_lock; auto with ends.
Qed.
Lemma halts_restart a : (forall tr, lock_granted tr = true) -> ends (restart_algo a).
Proof.
  intros Hl. unfold restart_algo. apply halts_bind; [auto with ends|]. intros _.
  apply halts_bind; [apply ends_lock; [exact Hl | ending] | intros [s1 s2]; ending].
Qed.
Lemma ends_status a : ends (status a).
Proof. unfold status, remove_pid_file. ending. Qed.
Lemma ends_logs a n : ends (get_logs a n).
Proof. unfold get_logs. ending. Qed.
End loops_end.

Section update_ends.
Context {machine : Machine} (Hgit : forall tr args, git tr args <> Err OutOfFuel).

Lemma ends_run_git args : ends (run_git args).
Proof.
  intros h. unfold run_git. specialize (Hgit (h_trace h) args).
  destruct (git _ _) as [[[c o] e]|x]; [now apply ends_syscall|]. apply ends_syscall. cbn. congruence.
Qed.
Hint Resolve ends_run_git : ends.
Lemma ends_check r : ends (check_returncode r).
Proof. unfold check_returncode. ending. Qed.
Hint Resolve ends_check : ends.
Lemma ends_verify ref r rel : ends (verify_conflict ref r rel).
Proof. unfold verify_conflict, is_file. cbn zeta. ending. Qed.
Hint Resolve ends_verify : ends.
Lemma ends_update a : ends (update_algo a).
Proof.
  unfold update_algo, pull_versions, _git, _pull_ff_only_with_conflict_recovery. cbn zeta. ending.
Qed.
End update_ends.

(** What a command waits for, and must get to end: START and RESTART the start
    lock, UPDATE git's answers. *)
Definition answered {machine : Machine} (command : string) : Prop :=
  (In command ["START_ALGO"; "RESTART_ALGO"] -> forall tr, lock_granted tr = true) /\
  (command = "UPDATE" -> forall tr args, git tr args <> Err OutOfFuel).

Lemma ends_cli {machine : Machine} command a n : answered command -> ends (_cli command a n).
Proof.
  intros [Hl Hg]. assert (ends (run_command command a n)) as Hr; [|unfold _cli; ending].
  unfold run_command.
  destruct (String.eqb_spec command "START_ALGO"); [apply halts_start, Hl; now left|].
  destruct (String.eqb_spec command "STOP_ALGO"); [apply halts_stop|].
  destruct (String.eqb_spec command "RESTART_ALGO"); [apply halts_restart, Hl; right; now left|].
  destruct (String.eqb_spec command "STATUS"); [apply ends_status|].
  destruct (String.eqb_spec command "UPDATE"); [apply ends_update, Hg; assumption|].
  destruct (String.eqb command "LOGS"); [apply ends_logs | now apply halts_raise].
Qed.

(** ** What STATUS means *)
Definition no_probe (x : act) : bool := match x with Probe _ _ => false | _ => true end.
Definition no_alive (x : act) : bool := match x with Probe _ true => false | _ => true end.

Section status_answers.
Context {machine : Machine} (T : Trace) (a : string).

Definition seen_alive (q : Z) (c : Z) (tr : Trace) : Prop := recorded a q tr /\ exists t, In (t, Probe q true) tr.
Lemma seen_alive_stable q p : stable p (seen_alive q).
Proof.
  intros c c' u v [H1 [t H2]] _ _. split; [now apply recorded_app|]. exists t. now apply in_app_l.
Qed.
Lemma no_alive_stable : stable no_alive (fun _ => acts no_alive).
Proof. intros c c' u v H _ Hv. now apply acts_app. Qed.
Definition status_meaning (j : json) (c : Z) (tr : Trace) : Prop :=
  if jis_str "RUNNING" (jget "status" j) then exists q, jget "pid" j = JInt q /\ seen_alive q c tr
  else jget "pid" j = JNull /\ acts no_alive tr.

#[local] Abbreviation anything := (fun _ : exn => since T (fun _ _ => True)).
Lemma since_True S h : since T S h -> since T (fun _ _ => True) h.
Proof. now apply since_weaken. Qed.
Lemma status_step {A B} (m : HostM A) (k : A -> HostM B) p S Q :
  grows p m -> stable p S -> (forall x, triple (since T S) (k x) Q anything) ->
  triple (since T S) (bind m k) Q anything.
Proof.
  intros Hg Hs Hk. eapply triple_bind; [|exact Hk].
  eapply triple_exn; [apply (triple_grows T p S m Hg Hs)|]. intros e h. apply since_True.
Qed.
Lemma status_end j S : (forall c tr, S c tr -> status_meaning j c tr) ->
  triple (since T S) (ret j) (fun j => since T (status_meaning j)) anything.
Proof. intros H. apply triple_ret. intros h. now apply since_weaken. Qed.

Lemma status_means :
  triple (since T (fun _ => acts no_alive)) (status a) (fun j => since T (status_meaning j)) anything.
Proof.
  unfold status. eapply (status_step _ _ no_alive); [auto with grows | apply no_alive_stable | intros _].
  eapply (status_step _ _ no_alive); [auto with grows | apply no_alive_stable | intros state].
  eapply triple_bind.
  { eapply triple_exn; [apply (read_pid_file_recorded T no_alive); [auto with grows | apply no_alive_stable]|].
    intros e h. apply since_True. }
  intros pid. eapply triple_bind with (R := fun live => since T (fun c tr =>
    match pid with Some q => if live : bool then seen_alive q c tr else acts no_alive tr | None => acts no_alive tr end)).
  { destruct pid as [q|]; [|apply triple_ret; intros h; apply since_weaken; now intros c tr [H _]].
    unfold is_process_running. destruct (q <=? 0);
      [apply triple_ret; intros h; apply since_weaken; now intros c tr [H _]|].
    eapply triple_exn; [apply (triple_syscall T _ (fun (r : result exn bool) c tr => match r with
       | Ok b => if b then seen_alive q c tr else acts no_alive tr | Err _ => True end))|intros e h; apply since_True].
    intros d c c' tr [H1 H2] _. cbn. destruct (kill0 q d).
    - split; [now apply recorded_app, H2|]. exists c. apply in_or_app. right. now left.
    - apply acts_app; [exact H1 | repeat constructor]. }
  intros live. destruct pid as [q|].
  - destruct live.
    + eapply (status_step _ _ filey); [apply grows_lift | apply seen_alive_stable | intros st].
      eapply (status_step _ _ filey); [grow | apply seen_alive_stable | intros stale].
      eapply (status_step _ _ filey); [destruct stale; auto with grows; apply grows_ret | apply seen_alive_stable | intros s2].
      eapply (status_step _ _ filey); [apply grows_lift | apply seen_alive_stable | intros started].
      apply status_end. intros c tr H. now exists q.
    + unfold remove_pid_file.
      eapply (status_step _ _ no_alive); [auto with grows | apply no_alive_stable | intros _].
      eapply (status_step _ _ no_alive); [auto with grows | apply no_alive_stable | intros s2].
      eapply (status_step _ _ no_alive); [apply grows_lift | apply no_alive_stable | intros started].
      now apply status_end.
  - eapply (status_step _ _ no_alive); [apply grows_lift | apply no_alive_stable | intros last]. cbn zeta.
    eapply (status_step _ _ no_alive); [apply grows_lift | apply no_alive_stable | intros started].
    apply status_end. intros c tr H. unfold status_meaning. cbn -[jis_str].
    destruct (jis_str "RUNNING" last) eqn:R; cbn -[jis_str]; rewrite ?R; now split.
Qed.
End status_answers.

(** STATUS answers RUNNING exactly when, during this very invocation, the
    pid read from the strategy's PID file was probed and found alive, and it
    answers that pid; any other answer has no pid, and no probe was positive.
    The stored state, whatever it claims, never makes it say RUNNING. *)
Theorem status_truth {machine : Machine} a h j h' :
  status a h = (Ok j, h') ->
  exists tr, h_trace h' = h_trace h ++ tr /\
    if jis_str "RUNNING" (jget "status" j)
    then exists q, jget "pid" j = JInt q /\ recorded a q tr /\ exists t, In (t, Probe q true) tr
    else jget "pid" j = JNull /\ acts no_alive tr.
Proof.
  intros E. pose proof (status_means (h_trace h) a h) as Hs.
  assert (since (h_trace h) (fun _ => acts no_alive) h) as H0.
  { exists []. rewrite app_nil_r. split; [reflexivity | constructor]. }
  specialize (Hs H0). rewrite E in Hs. destruct Hs as (tr & Et & Hm). exists tr. split; [exact Et | exact Hm].
Qed.

(** ** Invariants of the disk *)
Section disk_invariants.
Context {machine : Machine} (I : Disk -> Prop) (Hothers : forall tr d, I d -> I (others tr d)).
Definition on_disk (h : Host) : Prop := I (h_disk h).

Lemma keeps_syscall {A} (run : Disk -> result exn A * Disk) log :
  (forall d, I d -> I (snd (run d))) -> preserves on_disk (syscall run log).
Proof.
  intros Hr h Hh. unfold syscall. specialize (Hr _ (Hothers (h_trace h) _ Hh)). now destruct (run _).
Qed.
Lemma keeps_flock path : preserves on_disk (flock path).
Proof.
  intros h Hh. unfold flock. destruct (lock_granted _); [|exact Hh].
  now apply (keeps_syscall (fun d => (Ok tt, d)) (fun _ => Flock path)).
Qed.
Lemma keeps_file_call {A} (run : Disk -> result exn A * Disk) log :
  (forall d, I d -> I (snd (run d))) -> preserves on_disk (file_call run log).
Proof.
  intros Hr h. unfold file_call. apply keeps_syscall. intros d. unfold guard. destruct (io_refused _); auto.
Qed.
Lemma keeps_except {A} q (m : HostM A) k :
  preserves on_disk m -> (forall e, preserves on_disk (k e)) -> preserves on_disk (except q m k).
Proof.
  intros Hm Hk. unfold except. apply preserves_try; [exact Hm|]. intros e. destruct (q e); [apply Hk|].
  apply preserves_raise.
Qed.
Lemma keeps_exists path : preserves on_disk (exists_ path).
Proof. now apply keeps_syscall. Qed.
Lemma keeps_read_text path : preserves on_disk (read_text path).
Proof. apply keeps_file_call. intros d Hd. now destruct (files d !! path). Qed.
Lemma keeps_is_running q : preserves on_disk (is_process_running q).
Proof. unfold is_process_running. destruct (q <=? 0); [apply preserves_ret | now apply keeps_syscall]. Qed.
Lemma keeps_sleep us : preserves on_disk (sleep us).
Proof.
  intros h Hh. unfold sleep. pose proof (keeps_syscall (fun d => (Ok tt, d)) (fun _ => SleepUs us) ltac:(auto) h Hh) as K.
  now destruct (syscall _ _ h).
Qed.
Lemma keeps_poll : preserves on_disk poll_launcher.
Proof. intros h. now apply keeps_syscall. Qed.
Lemma keeps_spawn argv : preserves on_disk (spawn argv).
Proof. now apply keeps_syscall. Qed.
Hint Resolve keeps_exists keeps_read_text keeps_is_running keeps_sleep keeps_poll keeps_spawn : preserves.
Lemma keeps_read_pid a : preserves on_disk (read_pid_file a).
Proof.
  unfold read_pid_file. apply preserves_bind; [auto with preserves|]. intros f. destruct (negb f); [auto with preserves|].
  apply keeps_except; preserve.
Qed.
Lemma keeps_read_state a : preserves on_disk (_read_state a).
Proof.
  unfold _read_state. apply preserves_bind; [auto with preserves|]. intros f. destruct (negb f); [auto with preserves|].
  apply keeps_except; preserve.
Qed.
Hint Resolve keeps_read_pid keeps_read_state : preserves.
Lemma keeps_current_pid a : preserves on_disk (_current_pid_if_alive a).
Proof. unfold _current_pid_if_alive. preserve. Qed.
Lemma keeps_main_path a : preserves on_disk (_algo_main_path a).
Proof. unfold _algo_main_path. cbn zeta. preserve. Qed.
Hint Resolve keeps_current_pid keeps_main_path : preserves.
Lemma keeps_tail path n : preserves on_disk (_tail_file path n).
Proof. unfold _tail_file. preserve. Qed.
Lemma keeps_await_pid n : forall dl a, preserves on_disk (await_pid n dl a).
Proof.
  induction n as [|n IH]; intros; cbn [await_pid]; preserve. all: try apply IH; unfold monotonic; auto with preserves.
Qed.
Lemma keeps_await_death n : forall dl i q, preserves on_disk (await_death n dl i q).
Proof.
  induction n as [|n IH]; intros; cbn [await_death]; preserve. all: try apply IH; unfold monotonic; auto with preserves.
Qed.
End disk_invariants.
#[export] Hint Resolve keeps_exists keeps_read_text keeps_is_running keeps_sleep keeps_poll keeps_spawn keeps_read_pid
  keeps_read_state keeps_current_pid keeps_main_path keeps_tail keeps_await_pid keeps_await_death : preserves.

Ltac keep :=
  repeat first
    [ progress intros
    | solve [eauto 6 with preserves]
    | match goal with
      | |- preserves _ (bind _ _) => apply preserves_bind
      | |- preserves _ (except _ _ _) => apply keeps_except
      | |- preserves _ (match ?x with _ => _ end) => destruct x eqn:?
      end ].

(** ** Paths *)
Lemma suffix_inj (x s t : string) : x +:+ s = x +:+ t -> s = t.
Proof. induction x as [|c x IH]; cbn; [auto | intros [= H]; auto]. Qed.
Lemma startswith_slash c (a r : string) : startswith "/" (String c a +:+ r) = startswith "/" (String c "").
Proof.
  unfold startswith. change (String c a +:+ r) with (String c (a +:+ r)). cbn [String.prefix].
  destruct (Ascii.ascii_dec _ _); [|reflexivity]. now destruct (a +:+ r).
Qed.
Lemma join_suffix d a s t : join_path d (a +:+ String "."%char s) = join_path d (a +:+ String "."%char t) -> s = t.
Proof.
  unfold join_path. destruct a as [|c a].
  - cbn. intros H. apply suffix_inj in H. now injection H.
  - rewrite !startswith_slash. destruct (startswith _ _); intros H.
    + apply suffix_inj in H. now injection H.
    + apply suffix_inj in H. cbn in H. injection H as H. apply suffix_inj in H. now injection H.
Qed.
Lemma pid_state_paths `{machine : Machine} a : pid_file_path a <> _state_file_path a /\ pid_file_path a <> stop_flag_path a.
Proof. split; intros E; apply join_suffix in E; discriminate. Qed.

Lemma app_str_assoc (x y z : string) : (x +:+ y) +:+ z = x +:+ (y +:+ z).
Proof. induction x as [|c x IH]; [reflexivity | exact (f_equal (String c) IH)]. Qed.
Lemma launch_log_paths `{machine : Machine} a : _launch_log_path a <> pid_file_path a.
Proof.
  unfold _launch_log_path, pid_file_path.
  assert (LOGS_DIR = PROJECT_ROOT +:+ "/" +:+ "trading/logs") as -> by reflexivity.
  assert (DATA_DIR = PROJECT_ROOT +:+ "/" +:+ "trading/data") as -> by reflexivity.
  unfold join_path. destruct a as [|c a]; [|rewrite !startswith_slash; destruct (startswith "/" (String c ""))];
    cbn [startswith]; intros E.
  - change (startswith "/" ("" +:+ ".agent-launch.log")) with false in E.
    change (startswith "/" ("" +:+ ".pid")) with false in E. rewrite !app_str_assoc in E.
    apply suffix_inj in E. discriminate E.
  - apply suffix_inj in E. discriminate E.
  - rewrite !app_str_assoc in E. apply suffix_inj in E. discriminate E.
Qed.

(** ** A process the agent may not signal *)
Lemma triple_fact' {A} (P : Host -> Prop) (F : Prop) (m : HostM A) Q X :
  (F -> triple P m Q X) -> triple (fun h => F /\ P h) m Q X.
Proof. intros Hm h [HF Hh]. now apply Hm. Qed.

Section foreign_process.
Context {machine : Machine} (a : string) (q : Z).

(** The rest of the host neither touches the PID file nor ends the process. *)
Definition left_alone : Prop := forall tr d,
  files (others tr d) !! pid_file_path a = files d !! pid_file_path a /\
  procs (others tr d) !! q = procs d !! q.
Hypothesis Halone : left_alone.

Definition foreign (d : Disk) : Prop := procs d !! q = Some Theirs.
Definition unrecorded (d : Disk) : Prop := foreign d /\ files d !! pid_file_path a = None.

Lemma foreign_others tr d : foreign d -> foreign (others tr d).
Proof. unfold foreign. now rewrite (proj2 (Halone tr d)). Qed.
Lemma unrecorded_others tr d : unrecorded d -> unrecorded (others tr d).
Proof. intros [H1 H2]. split; [now apply foreign_others | now rewrite (proj1 (Halone tr d))]. Qed.
Hint Resolve foreign_others unrecorded_others : preserves.

Lemma foreign_files f d : foreign d -> foreign (on_files f d).
Proof. auto. Qed.
Lemma foreign_unlink path : preserves (on_disk foreign) (unlink path).
Proof. apply keeps_file_call; auto using foreign_others. Qed.
Lemma foreign_write path s : preserves (on_disk foreign) (write_text path s).
Proof. apply keeps_file_call; auto using foreign_others. Qed.
Lemma foreign_append path s : preserves (on_disk foreign) (append_text path s).
Proof. apply keeps_file_call; auto using foreign_others. Qed.
Lemma foreign_kill p : preserves (on_disk foreign) (sigkill p).
Proof.
  apply keeps_syscall; [auto using foreign_others|]. intros d Hd. destruct (procs d !! p) as [[|]|] eqn:E; try exact Hd.
  unfold foreign in *. cbn. rewrite lookup_delete_ne; [exact Hd|]. intros ->. congruence.
Qed.
Lemma unrecorded_write path s : path <> pid_file_path a -> preserves (on_disk unrecorded) (write_text path s).
Proof.
  intros Hne. apply keeps_file_call; [auto using unrecorded_others|]. intros d [H1 H2]. split; [exact H1|].
  cbn. now rewrite lookup_insert_ne.
Qed.
Lemma unrecorded_append path s : path <> pid_file_path a -> preserves (on_disk unrecorded) (append_text path s).
Proof.
  intros Hne. apply keeps_file_call; [auto using unrecorded_others|]. intros d [H1 H2]. split; [exact H1|].
  cbn. now rewrite lookup_insert_ne.
Qed.
Lemma unrecorded_unlink path : preserves (on_disk unrecorded) (unlink path).
Proof.
  apply keeps_file_call; [auto using unrecorded_others|]. intros d [H1 H2]. split; [exact H1|].
  cbn. now rewrite lookup_delete_None; right.
Qed.
Hint Resolve foreign_unlink foreign_write foreign_append foreign_kill unrecorded_unlink : preserves.
Lemma foreign_write_state fs : preserves (on_disk foreign) (_write_state a fs).
Proof. unfold _write_state. keep. Qed.
Lemma unrecorded_write_state fs : preserves (on_disk unrecorded) (_write_state a fs).
Proof.
  unfold _write_state. keep. apply unrecorded_write, not_eq_sym, pid_state_paths.
Qed.
Hint Resolve foreign_write_state unrecorded_write_state : preserves.

(** Removing the PID file of a process that stays. *)
Lemma remove_unrecords : triple (on_disk foreign) (remove_pid_file a) (fun _ => on_disk unrecorded) (fun _ => on_disk foreign).
Proof.
  intros h Hh. unfold remove_pid_file, unlink, file_call, syscall, guard. apply (foreign_others (h_trace h)) in Hh.
  destruct (io_refused (h_trace h)); cbn; [exact Hh|]. split; [exact Hh|]. cbn. apply lookup_delete_eq.
Qed.

Lemma stop_leaves_foreign timeout :
  triple (on_disk foreign) (stop_algo a timeout)
    (fun j h => on_disk unrecorded h /\ jget "status" j = JStr "STOPPED") (fun _ => on_disk foreign).
Proof.
  assert (forall fs j, jget "status" j = JStr "STOPPED" ->
    triple (on_disk unrecorded) (_write_state a fs ;;; ret j)
      (fun j h => on_disk unrecorded h /\ jget "status" j = JStr "STOPPED") (fun _ => on_disk foreign)) as Fin.
  { intros fs j Hj. eapply triple_bind.
    - eapply triple_exn; [apply triple_preserves, unrecorded_write_state|]. now intros e h [H _].
    - intros ?. apply triple_ret. auto. }
  unfold stop_algo. eapply triple_bind; [apply triple_preserves; auto with preserves|]. intros pid.
  eapply triple_bind; [apply triple_preserves; keep; auto with preserves|]. intros [p|].
  - eapply triple_bind; [apply triple_preserves; auto with preserves|]. intros ?.
    eapply triple_bind; [apply triple_preserves; unfold request_stop, _now_iso; preserve|]. intros ?.
    eapply triple_bind; [apply triple_preserves; unfold monotonic; auto with preserves|]. intros t.
    eapply triple_bind; [apply triple_preserves; auto with preserves|]. intros ?.
    eapply triple_bind; [apply triple_preserves; auto with preserves|]. intros alive.
    eapply triple_bind; [apply triple_preserves; unfold monotonic; destruct alive; [|auto with preserves];
      apply preserves_bind; [apply keeps_except; auto with preserves | keep]|]. intros ?.
    eapply triple_bind; [apply remove_unrecords|]. intros ?.
    eapply triple_bind; [eapply triple_exn; [apply triple_preserves; unfold clear_stop_flag; auto with preserves | now intros e h [H _]]|].
    intros ?. eapply triple_bind with (R := fun _ => on_disk unrecorded); [now apply triple_gets|]. intros t'. now apply Fin.
  - eapply triple_bind; [apply remove_unrecords|]. intros ?.
    eapply triple_bind with (R := fun _ => on_disk unrecorded); [now apply triple_gets|]. intros t'. now apply Fin.
Qed.

(** ** ... and is then started a second time *)
Definition has_spawn (c : Z) (tr : Trace) : Prop := exists t argv, In (t, Spawn argv) tr.
Lemma has_spawn_stable : stable (fun _ => true) has_spawn.
Proof. intros c c' u v (t & argv & Hi) _ _. exists t, argv. now apply in_app_l. Qed.
Definition unrecorded_since (T : Trace) (h : Host) : Prop := on_disk unrecorded h /\ since T (fun _ _ => True) h.
#[local] Abbreviation whatever := (fun (_ : exn) (_ : Host) => True).

Lemma unrecorded_step {A B} T (m : HostM A) (k : A -> HostM B) Q :
  preserves (on_disk unrecorded) m -> grows (fun _ => true) m ->
  (forall x, triple (unrecorded_since T) (k x) Q whatever) ->
  triple (unrecorded_since T) (bind m k) Q whatever.
Proof.
  intros Hp Hg Hk. eapply triple_bind; [|exact Hk]. intros h [H1 H2].
  assert (stable (fun _ => true) (fun _ _ => True)) as St by (now intros c c' u v).
  pose proof (triple_grows T (fun _ => true) (fun _ _ => True) m Hg St h H2) as G. specialize (Hp h H1).
  destruct (m h) as [[x|e] h']; [now split | exact I].
Qed.
Lemma current_pid_unrecorded T :
  triple (unrecorded_since T) (_current_pid_if_alive a) (fun r h => r = None /\ unrecorded_since T h) whatever.
Proof.
  unfold _current_pid_if_alive, read_pid_file. apply triple_bind with (R := fun r h => r = None /\ unrecorded_since T h).
  - eapply triple_bind with (R := fun found h => found = false /\ unrecorded_since T h).
    + intros h [H1 (tr & E & _)]. unfold exists_, syscall.
      apply (unrecorded_others (h_trace h)) in H1. destruct H1 as [H1 H2]. rewrite H2. cbn.
      split; [reflexivity|]. split; [now split|]. eapply (since_snoc T _ h tr); [exact E | exact I].
    + intros found. apply triple_fact'. intros ->. apply triple_ret. auto.
  - intros r. apply triple_fact'. intros ->. apply triple_ret. auto.
Qed.
Lemma start_locked_spawns T :
  triple (unrecorded_since T) (_start_algo_locked a) (fun _ => since T has_spawn) whatever.
Proof.
  unfold _start_algo_locked. eapply triple_bind; [apply current_pid_unrecorded|]. intros r.
  apply triple_fact'. intros ->.
  apply unrecorded_step; [keep | auto with grows | intros main]. cbn zeta.
  apply unrecorded_step; [unfold _now_iso; keep | apply grows_gets | intros t].
  apply unrecorded_step; [apply unrecorded_append, launch_log_paths | auto with grows | intros []].
  eapply triple_bind with (R := fun _ => since T has_spawn).
  { intros h [_ (tr & E & _)]. unfold spawn, syscall. cbn. apply (since_snoc T _ h tr); [exact E|].
    eexists _, _. apply in_or_app. right. now left. }
  intros []. eapply triple_exn; [apply (triple_grows T (fun _ => true)); [grow | apply has_spawn_stable] | auto].
Qed.
Lemma start_spawns T : triple (unrecorded_since T) (start_algo a) (fun _ => since T has_spawn) whatever.
Proof.
  unfold start_algo, with_start_lock.
  apply unrecorded_step; [keep | auto with grows | intros _].
  apply unrecorded_step; [apply keeps_flock; auto with preserves | now apply grows_flock | intros _].
  intros h Hh. unfold finally. pose proof (start_locked_spawns T h Hh) as S.
  destruct (_start_algo_locked a h) as [[j|e] h'].
  - pose proof (triple_grows T (fun _ => true) has_spawn (unflock (_start_lock_path a)) ltac:(now apply grows_syscall) has_spawn_stable h' S) as U.
    now destruct (unflock _ h') as [[[]|e] h2].
  - now destruct (unflock _ h') as [[[]|e2] h2].
Qed.
Lemma start_leaves_foreign : preserves (on_disk foreign) (start_algo a).
Proof.
  unfold start_algo, with_start_lock, unflock. apply preserves_bind; [keep | intros _].
  apply preserves_bind; [apply keeps_flock; auto with preserves | intros _].
  assert (preserves (on_disk foreign) (_start_algo_locked a)) as K.
  { unfold _start_algo_locked. cbn zeta. unfold monotonic, _now_iso. keep. }
  intros h Hh. unfold finally. specialize (K h Hh). destruct (_start_algo_locked a h) as [r h'].
  pose proof (keeps_syscall foreign foreign_others (fun d => (Ok tt, d)) (fun _ => Unflock (_start_lock_path a)) ltac:(auto) h' K) as U.
  now destruct (syscall _ _ h') as [[[]|e] h2].
Qed.
End foreign_process.

(** A strategy process owned by another user -- alive, but not the agent's to
    signal -- survives STOP_ALGO, which nevertheless answers STOPPED and deletes
    the PID file; a START_ALGO that then answers has launched a second process
    while the first one is still running. *)
Theorem stop_forgets_foreign_process {machine : Machine} a q timeout h j h1 j2 h2 :
  left_alone a q -> procs (h_disk h) !! q = Some Theirs ->
  stop_algo a timeout h = (Ok j, h1) -> start_algo a h1 = (Ok j2, h2) ->
  jget "status" j = JStr "STOPPED" /\ files (h_disk h1) !! pid_file_path a = None /\
  procs (h_disk h2) !! q = Some Theirs /\
  exists tr t argv, h_trace h2 = h_trace h1 ++ tr /\ In (t, Spawn argv) tr.
Proof.
  intros Ha Hq E1 E2. pose proof (stop_leaves_foreign a q Ha timeout h Hq) as S. rewrite E1 in S.
  destruct S as [[S1 S2] S3]. pose proof (start_leaves_foreign a q Ha h1 S1) as F. rewrite E2 in F.
  assert (unrecorded_since a q (h_trace h1) h1) as U.
  { split; [now split|]. exists []. now rewrite app_nil_r. }
  pose proof (start_spawns a q Ha (h_trace h1) h1 U) as P. rewrite E2 in P.
  destruct P as (tr & Et & t & argv & Hi). repeat split; [exact S3 | exact S2 | exact F | now exists tr, t, argv].
Qed.

(** ** Witnesses and examples *)
Definition demo_machine (git_answer : list string -> Z * string * string) (exited : bool) : Machine := {|
  others := fun _ d => d; elapsed := fun _ => 1000; wall_clock := fun _ => "2026-01-01T00:00:00+00:00";
  io_refused := fun _ => None; launcher_exited := fun _ => exited; lock_granted := fun _ => true;
  git := fun _ a => Ok (git_answer a); python := "/usr/bin/python3"; PROJECT_ROOT := "/srv/app"
|}.
Definition no_git : list string -> Z * string * string := fun _ => (0, "", "").
Definition main_of_s : string * string := ("/srv/app/trading/algos/s/main.py", "").
Definition pid_of_s (n : string) : string * string := ("/srv/app/trading/data/s.pid", n).
Definition host (fs : list (string * string)) (ps : list (Z * proc)) : Host :=
  mkHost (mkDisk (list_to_map fs) (list_to_map ps)) 0 [].

Lemma stop_kills_recorded_pid_example :
  let _ := demo_machine no_git false in
  let r := stop_algo "s" STOP_GRACE_TIMEOUT (host [main_of_s; pid_of_s "77"] [(77, Mine)]) in
  (exists j, fst r = Ok j /\ jget "forced" j = JBool true) /\
  procs (h_disk (snd r)) = ∅ /\
  List.filter (fun x => negb (no_kill (snd x))) (h_trace (snd r)) = [(10048000, Sigkill 77)].
Proof.
  cbv zeta. split; [eexists; split; vm_compute; reflexivity|]. vm_compute. split; reflexivity.
Qed.

Lemma start_launches_under_lock_witness :
  let _ := demo_machine no_git false in
  let h := host [main_of_s] [] in
  let tr := h_trace (snd (start_algo "s" h)) in
  exists u1 t1 u2 v1 t2,
    take 5 tr = u1 ++ (t1, Flock (_start_lock_path "s")) :: u2 /\ acts no_spawn u1 /\ acts unseen u2 /\ looked "s" u2 /\
    drop 6 tr = v1 ++ [(t2, Unflock (_start_lock_path "s"))] /\ acts held v1.
Proof.
  intros M h tr.
  apply (start_launches_under_lock "s" h (take 5 tr) 5000 ["/usr/bin/python3"; "/srv/app/trading/algos/s/main.py"] (drop 6 tr)).
  vm_compute. reflexivity.
Defined.

Lemma status_truth_witness :
  let _ := demo_machine no_git false in
  exists j h', status "s" (host [main_of_s; pid_of_s "77"] [(77, Mine)]) = (Ok j, h') /\
  exists tr, h_trace h' = [] ++ tr /\
    if jis_str "RUNNING" (jget "status" j)
    then exists q, jget "pid" j = JInt q /\ recorded "s" q tr /\ exists t, In (t, Probe q true) tr
    else jget "pid" j = JNull /\ acts no_alive tr.
Proof.
  intros M. eexists _, _. split; [vm_compute; reflexivity|].
  apply (status_truth "s" (host [main_of_s; pid_of_s "77"] [(77, Mine)])). vm_compute. reflexivity.
Defined.

Lemma stop_forgets_foreign_process_witness :
  let _ := demo_machine no_git true in
  let h := host [main_of_s; pid_of_s "77"] [(77, Theirs)] in
  exists j h1 j2 h2, stop_algo "s" STOP_GRACE_TIMEOUT h = (Ok j, h1) /\ start_algo "s" h1 = (Ok j2, h2) /\
    jget "status" j = JStr "STOPPED" /\ files (h_disk h1) !! pid_file_path "s" = None /\
    procs (h_disk h2) !! 77 = Some Theirs /\
    exists tr t argv, h_trace h2 = h_trace h1 ++ tr /\ In (t, Spawn argv) tr.
Proof.
  intros M h. eexists _, _, _, _. split; [vm_compute; reflexivity|]. split; [vm_compute; reflexivity|].
  eapply (stop_forgets_foreign_process "s" 77 STOP_GRACE_TIMEOUT h);
    [now split | vm_compute; reflexivity | vm_compute; reflexivity | vm_compute; reflexivity].
Defined.

(** C12: every command line of the agent ends once what it waits for comes: the
    loops that wait for the PID file and for the process to die stop at their
    deadlines within the fuel they are given, however long each call takes and
    whatever the rest of the host does.  What is waited for without a deadline
    is only, for [START_ALGO] and [RESTART_ALGO], the start lock (whoever holds
    it must release it: [flock(LOCK_EX)] blocks until then) and, for [UPDATE],
    git's answers; [STOP_ALGO], [STATUS], [LOGS] and unknown commands always
    end. *)
Theorem agent_command_ends {machine : Machine} command a lines h :
  (In command ["START_ALGO"; "RESTART_ALGO"] -> forall tr, lock_granted tr = true) ->
  (command = "UPDATE" -> forall tr args, git tr args <> Err OutOfFuel) ->
  fst (_cli command a lines h) <> Err OutOfFuel.
Proof. intros Hl Hg. now apply ends_cli. Qed.

Lemma agent_command_ends_witness :
  let _ := demo_machine no_git false in
  fst (_cli "RESTART_ALGO" "s" 100 (host [main_of_s; pid_of_s "77"] [(77, Mine)])) <> Err OutOfFuel.
Proof. intros M. apply agent_command_ends; [reflexivity | discriminate]. Defined.

(** A START waits for ever behind a start lock that is never released. *)
Theorem start_waits_for_lock {machine : Machine} a h :
  (forall tr, lock_granted tr = false) -> is_ok (fst (_algo_main_path a h)) = true ->
  fst (start_algo a h) = Err OutOfFuel.
Proof.
  intros Hl Hm. unfold start_algo, bind. destruct (_algo_main_path a h) as [[main|e] h1]; [|discriminate Hm].
  now rewrite with_start_lock_hangs.
Qed.

(** A strategy that needs more than two seconds before it writes its PID file is
    reported as having exited, although the launcher is still running. *)
Lemma slow_start_reported_exited :
  let _ := demo_machine no_git false in
  let r := start_algo "s" (host [main_of_s] []) in
  exists j, fst r = Ok j /\ jget "message" j = JStr exited_at_once /\
    forall t, In (t, Poll true) (h_trace (snd r)) -> False.
Proof.
  vm_compute. eexists. split; [reflexivity|]. split; [reflexivity|].
  intros t H. repeat (destruct H as [H|H]; [discriminate H|]). exact H.
Qed.

(** [LOGS --lines 0] answers every line of the file. *)
Lemma logs_zero_is_everything {A} (l : list A) : last_slice 0 l = l.
Proof. reflexivity. Qed.
Lemma logs_positive_is_tail {A} n (l : list A) : 0 < n ->
  (List.length (last_slice n l) = Nat.min (Z.to_nat n) (List.length l))%nat /\ exists u, l = u ++ last_slice n l.
Proof.
  intros Hn. unfold last_slice. apply Z.ltb_lt in Hn. rewrite Hn, length_drop. split; [lia|].
  exists (take (List.length l - Z.to_nat n) l). now rewrite take_drop.
Qed.

(** A file that differs from the incoming one by its line ends counts as
    identical and is deleted. *)
Definition cr : string := String (ascii_of_nat 13) "".
Definition conflicting_git (a : list string) : Z * string * string :=
  match a with
  | ["pull"; _] => (1, "", "error: untracked working tree files would be overwritten by merge:" +:+ nl +:+ "  notes.txt" +:+ nl
                           +:+ "Please move or remove them" +:+ nl)
  | "show" :: _ => (0, "x" +:+ nl, "")
  | _ => (0, "", "")
  end.
Lemma crlf_counts_as_identical :
  let _ := demo_machine conflicting_git false in
  let r := update_algo "s" (host [main_of_s; ("/srv/app/notes.txt", "x" +:+ cr +:+ nl)] []) in
  files (h_disk (snd r)) !! "/srv/app/notes.txt" = None.
Proof. vm_compute. reflexivity. Qed.
