(* ===== verification/MarketTime.v ===== *)
(** * Market hours and the feed scheduler

    [trading/market_data/market_hours.py], [status.py] and [scheduler.py].  An
    instant is a UTC microsecond count, a date its proleptic ordinal, a time of
    day its microseconds since midnight; a zone is a constant offset from UTC in
    microseconds, as [Asia/Kolkata] is. *)
From S2P Require Import Prelude PyStr PyTime.
From Stdlib Require Import Ascii.

(** ** [market_hours.py] *)
Definition IST : Z := 19800 * 1000000.
Definition minute_us : Z := 60000000.

Definition hhmm (h m : Z) : Z := (h * 60 + m) * minute_us.
Definition parse_hhmm (value : string) : result exn Z :=
  match split ":" (strip value) with
  | [hs; ms] =>
      match py_int hs, py_int ms with
      | Some h, Some m =>
          if (0 <=? h) && (h <=? 23) && ((0 <=? m) && (m <=? 59)) then Ok (hhmm h m)
          else Err (ValueError ("HH:MM out of range: '" +:+ value +:+ "'"))
      | _, _ => Err (ValueError "invalid literal for int()")
      end
  | _ => Err (ValueError ("expected HH:MM, got '" +:+ value +:+ "'"))
  end.

Definition semicolon_to_comma (c : ascii) : ascii := if Ascii.eqb c ";" then ","%char else c.
(** Tokens that are not dates are left out. *)
Definition parse_holidays (value : string) : list Z :=
  omap (fun token => let token := strip token in if truthy token then fromisoformat token else None)
       (split "," (str_map semicolon_to_comma value)).

Definition in_dates (d : Z) (l : list Z) : bool := existsb (Z.eqb d) l.
Definition is_trading_day (d : Z) (holidays : list Z) : bool :=
  if 5 <=? weekday d then false else negb (in_dates d holidays).

(** [datetime.combine(day, t, tzinfo=tz)] as an instant. *)
Definition combine (day t tz : Z) : Z := midnight day + t - tz.
Definition local_date (now tz : Z) : Z := date_of (now + tz).
Definition session_window (day start stop tz : Z) : Z * Z := (combine day start tz, combine day stop tz).

Definition market_is_open (now start stop tz : Z) (holidays : list Z) : bool :=
  let day := local_date now tz in
  if negb (is_trading_day day holidays) then false
  else
    let '(open_dt, close_dt) := session_window day start stop tz in
    (open_dt <=? now) && (now <? close_dt).

(** Days [day], [day + 1], ..., [n] of them. *)
Fixpoint first_start (n : nat) (day now start stop tz : Z) (holidays : list Z) : option Z :=
  match n with
  | O => None
  | S k =>
      if negb (is_trading_day day holidays) then first_start k (day + 1) now start stop tz holidays
      else
        let '(open_dt, _) := session_window day start stop tz in
        if now <=? open_dt then Some open_dt else first_start k (day + 1) now start stop tz holidays
  end.
Definition next_market_start (now start stop tz : Z) (holidays : list Z) (max_lookahead_days : nat) : option Z :=
  first_start (S max_lookahead_days) (local_date now tz) now start stop tz holidays.

Definition market_close (now start stop tz : Z) (holidays : list Z) : option Z :=
  let day := local_date now tz in
  if negb (is_trading_day day holidays) then None else Some (snd (session_window day start stop tz)).

(** ** [status.py] *)
Inductive SessionState : Type := S_NOT_CONFIGURED | S_SESSION_REQUIRED | S_VALID | S_ERROR | S_UNKNOWN.
Inductive FeedState : Type :=
| F_NOT_CONFIGURED | F_SESSION_REQUIRED | F_CONNECTING | F_RUNNING | F_STALE | F_ERROR | F_STOPPING | F_STOPPED.
#[global] Instance SessionState_eq_dec : EqDecision SessionState.
Proof. solve_decision. Defined.
#[global] Instance FeedState_eq_dec : EqDecision FeedState.
Proof. solve_decision. Defined.
Definition session_value (s : SessionState) : string :=
  match s with
  | S_NOT_CONFIGURED => "NOT_CONFIGURED" | S_SESSION_REQUIRED => "SESSION_REQUIRED" | S_VALID => "VALID"
  | S_ERROR => "ERROR" | S_UNKNOWN => "UNKNOWN"
  end.
Definition feed_value (s : FeedState) : string :=
  match s with
  | F_NOT_CONFIGURED => "NOT_CONFIGURED" | F_SESSION_REQUIRED => "SESSION_REQUIRED" | F_CONNECTING => "CONNECTING"
  | F_RUNNING => "RUNNING" | F_STALE => "STALE" | F_ERROR => "ERROR" | F_STOPPING => "STOPPING" | F_STOPPED => "STOPPED"
  end.
Record SessionCheck : Type := mkCheck { sc_state : SessionState; checked_at : Z; sc_detail : option string }.

Record MarketFeedStatus : Type := mkFeedStatus {
  session_state : SessionState; feed_state : FeedState; fs_provider : string; fs_enabled : bool;
  credentials_source : string; api_key_set : bool; secret_key_set : bool; session_token_set : bool;
  session_token_fingerprint : option string; last_session_check : option Z; last_error : option string;
  started_at : option Z; stopped_at : option Z; last_tick_at : option Z; symbols_live : Z;
  option_contracts_subscribed : Z; reconnect_count : Z
}.
Definition FEED_STATUS : MarketFeedStatus :=
  mkFeedStatus S_UNKNOWN F_STOPPED "icici_breeze" false "unset" false false false None None None None None None 0 0 0.
Definition set_feed_state (s : FeedState) (f : MarketFeedStatus) : MarketFeedStatus :=
  mkFeedStatus f.(session_state) s f.(fs_provider) f.(fs_enabled) f.(credentials_source) f.(api_key_set)
    f.(secret_key_set) f.(session_token_set) f.(session_token_fingerprint) f.(last_session_check) f.(last_error)
    f.(started_at) f.(stopped_at) f.(last_tick_at) f.(symbols_live) f.(option_contracts_subscribed) f.(reconnect_count).
Definition set_last_error (e : option string) (f : MarketFeedStatus) : MarketFeedStatus :=
  mkFeedStatus f.(session_state) f.(feed_state) f.(fs_provider) f.(fs_enabled) f.(credentials_source) f.(api_key_set)
    f.(secret_key_set) f.(session_token_set) f.(session_token_fingerprint) f.(last_session_check) e
    f.(started_at) f.(stopped_at) f.(last_tick_at) f.(symbols_live) f.(option_contracts_subscribed) f.(reconnect_count).
Definition set_started_stopped (a b : option Z) (f : MarketFeedStatus) : MarketFeedStatus :=
  mkFeedStatus f.(session_state) f.(feed_state) f.(fs_provider) f.(fs_enabled) f.(credentials_source) f.(api_key_set)
    f.(secret_key_set) f.(session_token_set) f.(session_token_fingerprint) f.(last_session_check) f.(last_error)
    a b f.(last_tick_at) f.(symbols_live) f.(option_contracts_subscribed) f.(reconnect_count).
Definition set_ticks (at_ : option Z) (n : Z) (f : MarketFeedStatus) : MarketFeedStatus :=
  mkFeedStatus f.(session_state) f.(feed_state) f.(fs_provider) f.(fs_enabled) f.(credentials_source) f.(api_key_set)
    f.(secret_key_set) f.(session_token_set) f.(session_token_fingerprint) f.(last_session_check) f.(last_error)
    f.(started_at) f.(stopped_at) at_ n f.(option_contracts_subscribed) f.(reconnect_count).
Definition set_subscribed (n : Z) (f : MarketFeedStatus) : MarketFeedStatus :=
  mkFeedStatus f.(session_state) f.(feed_state) f.(fs_provider) f.(fs_enabled) f.(credentials_source) f.(api_key_set)
    f.(secret_key_set) f.(session_token_set) f.(session_token_fingerprint) f.(last_session_check) f.(last_error)
    f.(started_at) f.(stopped_at) f.(last_tick_at) f.(symbols_live) n f.(reconnect_count).
Definition set_reconnects (n : Z) (f : MarketFeedStatus) : MarketFeedStatus :=
  mkFeedStatus f.(session_state) f.(feed_state) f.(fs_provider) f.(fs_enabled) f.(credentials_source) f.(api_key_set)
    f.(secret_key_set) f.(session_token_set) f.(session_token_fingerprint) f.(last_session_check) f.(last_error)
    f.(started_at) f.(stopped_at) f.(last_tick_at) f.(symbols_live) f.(option_contracts_subscribed) n.

(** ** [scheduler.py] *)
Inductive SchedulerAction : Type := START | STOP | RUNNING | IDLE.
#[global] Instance SchedulerAction_eq_dec : EqDecision SchedulerAction.
Proof. solve_decision. Defined.

Record SchedulerConfig : Type := mkSchedulerConfig {
  sch_tz : Z; sch_start : Z; sch_stop : Z; sch_holidays : list Z
}.
Definition is_open (c : SchedulerConfig) (now : Z) : bool :=
  market_is_open now c.(sch_start) c.(sch_stop) c.(sch_tz) c.(sch_holidays).
Definition decide_action (c : SchedulerConfig) (now : Z) (feed_running : bool) : SchedulerAction :=
  let open_now := is_open c now in
  if open_now && negb feed_running then START
  else if negb open_now && feed_running then STOP
  else if open_now then RUNNING else IDLE.
Definition next_start (c : SchedulerConfig) (now : Z) : option Z :=
  next_market_start now c.(sch_start) c.(sch_stop) c.(sch_tz) c.(sch_holidays) 14.

(** The scheduler's state, and the calls of the hooks with their outcomes
    ([None]: returned; [Some cls]: raised an exception of that class). *)
Inductive hook_call : Type := OnStart (now : Z) (raised : option string) | OnStop (now : Z) (raised : option string).
Record Scheduler : Type := mkScheduler {
  sch_status : MarketFeedStatus; sch_feed_running : bool; sch_stopping : bool; sch_hooks : list hook_call
}.

Section scheduler.
Context (c : SchedulerConfig).
(** What the hooks do, as far as the scheduler sees: the status they leave and
    whether they raise. *)
Context (on_start on_stop : Scheduler -> MarketFeedStatus * option string).

Definition _run_start (now : Z) (s : Scheduler) : Scheduler :=
  let s1 := mkScheduler (set_last_error None (set_feed_state F_CONNECTING s.(sch_status)))
              s.(sch_feed_running) s.(sch_stopping) s.(sch_hooks) in
  let '(st, raised) := on_start s1 in
  let hooks := s.(sch_hooks) ++ [OnStart now raised] in
  match raised with
  | Some cls =>
      mkScheduler (set_last_error (Some ("startup failed (" +:+ cls +:+ ")")) (set_feed_state F_ERROR st))
        s.(sch_feed_running) s.(sch_stopping) hooks
  | None => mkScheduler (set_started_stopped (Some now) None (set_feed_state F_RUNNING st)) true s.(sch_stopping) hooks
  end.
Definition _run_stop (now : Z) (s : Scheduler) : Scheduler :=
  let s1 := mkScheduler (set_feed_state F_STOPPING s.(sch_status)) s.(sch_feed_running) s.(sch_stopping) s.(sch_hooks) in
  let '(st, raised) := on_stop s1 in
  let st := match raised with
            | Some cls => set_last_error (Some ("stop flow error (" +:+ cls +:+ ")")) st
            | None => st
            end in
  mkScheduler (set_started_stopped st.(started_at) (Some now) (set_feed_state F_STOPPED st)) false s.(sch_stopping)
    (s.(sch_hooks) ++ [OnStop now raised]).

Definition tick (now : Z) (s : Scheduler) : SchedulerAction * Scheduler :=
  let action := decide_action c now s.(sch_feed_running) in
  (action, match action with START => _run_start now s | STOP => _run_stop now s | _ => s end).
(** The polls at the given instants. *)
Fixpoint run (nows : list Z) (s : Scheduler) : Scheduler :=
  match nows with [] => s | now :: r => run r (snd (tick now s)) end.
Definition shutdown (now : Z) (s : Scheduler) : Scheduler :=
  let s := mkScheduler s.(sch_status) s.(sch_feed_running) true s.(sch_hooks) in
  if s.(sch_feed_running) then _run_stop now s else s.
End scheduler.

(** ** Theorems *)
Example parse_hhmm_0910 : parse_hhmm " 09:10 " = Ok (hhmm 9 10).
Proof. vm_compute. reflexivity. Qed.
Example holidays_parsed :
  parse_holidays "2026-01-26; 20260303,junk,2026-W10-2," = [ymd2ord 2026 1 26; ymd2ord 2026 3 3; ymd2ord 2026 3 3].
Proof. vm_compute. reflexivity. Qed.

Lemma combine_le d d' t tz : d <= d' <-> combine d t tz <= combine d' t tz.
Proof. unfold combine, midnight. unfold US_PER_DAY. lia. Qed.
Lemma local_date_combine d t tz : 0 <= t < US_PER_DAY -> local_date (combine d t tz) tz = d.
Proof.
  intros Ht. unfold local_date, combine, date_of, midnight.
  replace ((d - EPOCH_ORDINAL) * US_PER_DAY + t - tz + tz) with (t + (d - EPOCH_ORDINAL) * US_PER_DAY) by lia.
  rewrite Z.div_add by (unfold US_PER_DAY; lia). rewrite Z.div_small by exact Ht. lia.
Qed.
Lemma local_date_mono a b tz : a <= b -> local_date a tz <= local_date b tz.
Proof. intros H. unfold local_date, date_of. apply Z.add_le_mono_r, Z.div_le_mono; unfold US_PER_DAY; lia. Qed.
Lemma local_midnight now tz : midnight (local_date now tz) <= now + tz < midnight (local_date now tz + 1).
Proof. apply midnight_le. Qed.

Section hours.
Context (start stop tz : Z) (holidays : list Z).
Context (Hstart : 0 <= start < US_PER_DAY) (Hstop : stop <= US_PER_DAY).

(** A session in progress at an instant. *)
Definition in_session (now d : Z) : Prop :=
  is_trading_day d holidays = true /\ combine d start tz <= now < combine d stop tz.

Lemma market_is_open_spec now :
  market_is_open now start stop tz holidays = true <-> exists d, in_session now d.
Proof.
  unfold market_is_open, session_window. split.
  - destruct (is_trading_day _ _) eqn:T; cbn [negb]; [|discriminate].
    rewrite andb_true_iff, Z.leb_le, Z.ltb_lt. intros H. exists (local_date now tz). now split.
  - intros (d & T & H). assert (local_date now tz = d) as ->.
    { unfold combine in H. pose proof (local_midnight now tz) as [H1 H2]. unfold midnight in *.
      unfold US_PER_DAY in *. lia. }
    rewrite T. cbn [negb]. rewrite andb_true_iff, Z.leb_le, Z.ltb_lt. exact H.
Qed.

Lemma first_start_spec now : forall n day,
  match first_start n day now start stop tz holidays with
  | Some t => exists d, t = combine d start tz /\ day <= d < day + Z.of_nat n /\ is_trading_day d holidays = true /\ now <= t /\
                forall d', day <= d' < d -> is_trading_day d' holidays = true -> combine d' start tz < now
  | None => forall d', day <= d' < day + Z.of_nat n -> is_trading_day d' holidays = true -> combine d' start tz < now
  end.
Proof.
  induction n as [|n IH]; intros day; cbn [first_start]; [lia|]. specialize (IH (day + 1)).
  assert ((is_trading_day day holidays = true -> combine day start tz < now) ->
    match first_start n (day + 1) now start stop tz holidays with
    | Some t => exists d, t = combine d start tz /\ day <= d < day + Z.of_nat (S n) /\ is_trading_day d holidays = true /\
        now <= t /\ forall d', day <= d' < d -> is_trading_day d' holidays = true -> combine d' start tz < now
    | None => forall d', day <= d' < day + Z.of_nat (S n) -> is_trading_day d' holidays = true -> combine d' start tz < now
    end) as Next.
  { intros Hday. destruct (first_start n (day + 1) now start stop tz holidays) as [t|].
    - destruct IH as (d & Et & Hd & Td & Hn & Hmin). exists d. repeat split; auto; try lia.
      intros d' Hd' T'. destruct (Z.eq_dec d' day) as [->|]; [now apply Hday | apply Hmin; [lia | exact T']].
    - intros d' Hd' T'. destruct (Z.eq_dec d' day) as [->|]; [now apply Hday | apply IH; [lia | exact T']]. }
  destruct (is_trading_day day holidays) eqn:T; cbn [negb].
  - unfold session_window. destruct (Z.leb_spec now (combine day start tz)).
    + exists day. repeat split; auto; lia.
    + apply Next. auto.
  - apply Next. discriminate.
Qed.

Lemma next_start_spec now n :
  match next_market_start now start stop tz holidays n with
  | Some t => exists d, t = combine d start tz /\ is_trading_day d holidays = true /\ now <= t /\
                forall d', is_trading_day d' holidays = true -> now <= combine d' start tz -> t <= combine d' start tz
  | None => forall d', is_trading_day d' holidays = true -> d' <= local_date now tz + Z.of_nat n ->
                combine d' start tz < now
  end.
Proof.
  assert (forall d', d' < local_date now tz -> combine d' start tz < now) as Past.
  { intros d' Hd. pose proof (local_midnight now tz) as [H _]. unfold combine, midnight in *. unfold US_PER_DAY in *. lia. }
  unfold next_market_start. pose proof (first_start_spec now (S n) (local_date now tz)) as H.
  destruct (first_start _ _ _ _ _ _ _) as [t|].
  - destruct H as (d & -> & Hd & T & Hn & Hmin). exists d. repeat split; auto. intros d' T' Hd'.
    destruct (Z.le_gt_cases d d') as [Hle|Hlt]; [now apply combine_le|].
    destruct (Z.lt_ge_cases d' (local_date now tz)) as [Hp|Hp]; [specialize (Past d' Hp); lia|].
    specialize (Hmin d' ltac:(lia) T'). lia.
  - intros d' T' Hd'. destruct (Z.lt_ge_cases d' (local_date now tz)); [auto | apply H; [lia | exact T']].
Qed.
End hours.

(** ** The scheduler *)
(** Calls alternate: the startup flow runs only while the feed is down, the stop
    flow only while it is up. *)
Fixpoint alternates (running : bool) (hooks : list hook_call) : option bool :=
  match hooks with
  | [] => Some running
  | OnStart _ r :: l => if running then None else alternates (bool_decide (r = None)) l
  | OnStop _ _ :: l => if running then alternates false l else None
  end.
Definition in_window (c : SchedulerConfig) (h : hook_call) : Prop :=
  match h with OnStart t _ => is_open c t = true | OnStop t _ => is_open c t = false end.

Lemma alternates_app r h1 h2 : alternates r (h1 ++ h2) = match alternates r h1 with Some r' => alternates r' h2 | None => None end.
Proof.
  revert r. induction h1 as [|[t x|t x] h1 IH]; intros r; cbn; [reflexivity| |]; destruct r; auto.
Qed.

Section scheduling.
Context (c : SchedulerConfig) (on_start on_stop : Scheduler -> MarketFeedStatus * option string).

Definition scheduler_ok (s : Scheduler) : Prop :=
  alternates false s.(sch_hooks) = Some s.(sch_feed_running) /\ Forall (in_window c) s.(sch_hooks).
(** What a poll leaves. *)
Definition settled (now : Z) (s : Scheduler) : Prop :=
  s.(sch_feed_running) = is_open c now \/
  (exists cls, last s.(sch_hooks) = Some (OnStart now (Some cls)) /\ feed_state s.(sch_status) = F_ERROR).

Lemma run_start_ok now s : scheduler_ok s -> is_open c now = true -> sch_feed_running s = false ->
  let s' := _run_start on_start now s in scheduler_ok s' /\ settled now s'.
Proof.
  intros [H1 H2] Ho Hr. unfold _run_start. destruct (on_start _) as [st [cls|]]; cbn zeta; unfold scheduler_ok, settled; cbn;
    rewrite alternates_app, H1, Hr; cbn.
  - split; [split; [reflexivity|]|]; [apply Forall_app; auto | right]. exists cls. now rewrite last_snoc.
  - split; [split; [reflexivity|]|]; [apply Forall_app; auto | left; now symmetry].
Qed.
Lemma run_stop_ok now s : scheduler_ok s -> is_open c now = false -> sch_feed_running s = true ->
  let s' := _run_stop on_stop now s in scheduler_ok s' /\ settled now s'.
Proof.
  intros [H1 H2] Ho Hr. unfold _run_stop. destruct (on_stop _) as [st r]; cbn zeta; unfold scheduler_ok, settled; cbn.
  rewrite alternates_app, H1, Hr; cbn. split; [split; [reflexivity|]|]; [apply Forall_app; auto | left; now symmetry].
Qed.
Lemma tick_ok now s : scheduler_ok s ->
  let s' := snd (tick c on_start on_stop now s) in scheduler_ok s' /\ settled now s'.
Proof.
  intros Hs. unfold tick, decide_action. cbn [snd].
  destruct (is_open c now) eqn:O, (sch_feed_running s) eqn:R; cbn [andb negb].
  - split; [exact Hs | left; now rewrite R, O].
  - now apply run_start_ok.
  - now apply run_stop_ok.
  - split; [exact Hs | left; now rewrite R, O].
Qed.
Lemma run_ok nows : forall s, scheduler_ok s -> scheduler_ok (run c on_start on_stop nows s).
Proof. induction nows as [|now r IH]; intros s Hs; cbn [run]; [exact Hs | now apply IH, tick_ok]. Qed.
End scheduling.

(** C37: however the polls fall and whatever the flows do, the startup flow runs
    only inside the trading session and only while the feed is down, the stop
    flow only outside it and only while the feed is up; after each poll the feed
    is up exactly when the market is open, unless the startup flow of that very
    poll raised, and then the status is ERROR. *)
Theorem scheduler_follows_market (c : SchedulerConfig) on_start on_stop st nows now :
  let s := run c on_start on_stop nows (mkScheduler st false false []) in
  let s' := snd (tick c on_start on_stop now s) in
  alternates false s'.(sch_hooks) = Some s'.(sch_feed_running) /\ Forall (in_window c) s'.(sch_hooks) /\
  (s'.(sch_feed_running) = is_open c now \/
   exists cls, last s'.(sch_hooks) = Some (OnStart now (Some cls)) /\ feed_state s'.(sch_status) = F_ERROR).
Proof.
  intros s s'. assert (scheduler_ok c s) as Hs by (apply run_ok; repeat split; constructor).
  destruct (tick_ok c on_start on_stop now s Hs) as [[H1 H2] H3]. auto.
Qed.

(** [next_market_start] answers the first session opening that is not in the
    past: it is the opening of a trading day, at [now] or later, no opening of
    another trading day lies between, and the market is open at that instant;
    it answers nothing only when no trading day within the lookahead opens at
    [now] or later. *)
Theorem next_start_is_next_opening start stop tz holidays now n :
  0 <= start < US_PER_DAY -> start < stop <= US_PER_DAY ->
  match next_market_start now start stop tz holidays n with
  | Some t => now <= t /\ market_is_open t start stop tz holidays = true /\
      (exists d, is_trading_day d holidays = true /\ t = combine d start tz) /\
      forall d, is_trading_day d holidays = true -> now <= combine d start tz -> t <= combine d start tz
  | None => forall d, is_trading_day d holidays = true -> d <= local_date now tz + Z.of_nat n -> combine d start tz < now
  end.
Proof.
  intros Hs Hst. pose proof (next_start_spec start stop tz holidays Hs now n) as H.
  destruct (next_market_start _ _ _ _ _ _) as [t|]; [|exact H].
  destruct H as (d & -> & T & Hn & Hmin). split; [exact Hn|]. split; [|split; [now exists d | exact Hmin]].
  apply market_is_open_spec; [exact Hs | lia |]. exists d. split; [exact T|]. unfold combine. lia.
Qed.
Lemma next_start_is_next_opening_witness :
  let now := combine (ymd2ord 2026 1 24) (hhmm 10 0) IST in
  match next_market_start now (hhmm 9 10) (hhmm 15 45) IST [ymd2ord 2026 1 26] 14 with
  | Some t => now <= t /\ market_is_open t (hhmm 9 10) (hhmm 15 45) IST [ymd2ord 2026 1 26] = true /\
      (exists d, is_trading_day d [ymd2ord 2026 1 26] = true /\ t = combine d (hhmm 9 10) IST) /\
      forall d, is_trading_day d [ymd2ord 2026 1 26] = true -> now <= combine d (hhmm 9 10) IST -> t <= combine d (hhmm 9 10) IST
  | None => forall d, is_trading_day d [ymd2ord 2026 1 26] = true -> d <= local_date now IST + Z.of_nat 14 ->
      combine d (hhmm 9 10) IST < now
  end.
Proof. intros now. apply next_start_is_next_opening; vm_compute; split; congruence. Defined.
