(* ===== verification/Symbols.v ===== *)
(** * Instruments and their symbols

    [trading/market_data/symbols.py], [schemas.py] and [underlying_config.py]:
    the provider-agnostic instruments, the canonical option symbols, the quote
    and candle types.  A date is its ordinal, an instant a UTC microsecond
    count. *)
From S2P Require Import Prelude PyStr PyFloat Config PyTime JsonText.
From stdpp Require pretty.
From Stdlib Require Import SpecFloat Ascii.

(** ** [symbols.py] *)
Inductive InstrumentType : Type := T_INDEX | T_OPTION | T_FUTURE | T_EQUITY.
Inductive Exchange : Type := NSE | BSE | NFO | BFO.
#[global] Instance InstrumentType_eq_dec : EqDecision InstrumentType.
Proof. solve_decision. Defined.
#[global] Instance Exchange_eq_dec : EqDecision Exchange.
Proof. solve_decision. Defined.
Definition exchange_value (e : Exchange) : string :=
  match e with NSE => "NSE" | BSE => "BSE" | NFO => "NFO" | BFO => "BFO" end.

Record Instrument : Type := mkInstrument {
  internal_symbol : string; i_exchange : Exchange; instrument_type : InstrumentType;
  i_underlying : option string; i_expiry : option Z; i_strike : option float; i_option_type : option string;
  lot_size : option Z; tick_size : option float; i_provider : option string; provider_token : option string
}.
#[global] Instance Instrument_eq_dec : EqDecision Instrument.
Proof. solve_decision. Defined.
Definition plain_instrument (s : string) (e : Exchange) (t : InstrumentType) : Instrument :=
  mkInstrument s e t None None None None None None None None.
Definition is_option (i : Instrument) : bool := bool_decide (i.(instrument_type) = T_OPTION).
Definition is_index (i : Instrument) : bool := bool_decide (i.(instrument_type) = T_INDEX).

Definition INDEX_SYMBOLS : list string := ["NIFTY"; "BANKNIFTY"; "FINNIFTY"; "INDIA_VIX"; "SENSEX"].
Definition INDEX_INSTRUMENTS (s : string) : option Instrument :=
  if String.eqb s "SENSEX" then Some (plain_instrument s BSE T_INDEX)
  else if str_in s ["NIFTY"; "BANKNIFTY"; "FINNIFTY"; "INDIA_VIX"] then Some (plain_instrument s NSE T_INDEX)
  else None.
Definition _INDEX_ALIASES : list (string * string) :=
  [("NIFTY", "NIFTY"); ("NIFTY50", "NIFTY"); ("NIFTY_50", "NIFTY"); ("BANKNIFTY", "BANKNIFTY");
   ("NIFTYBANK", "BANKNIFTY"); ("NIFTY_BANK", "BANKNIFTY"); ("FINNIFTY", "FINNIFTY");
   ("NIFTY_FIN_SERVICE", "FINNIFTY"); ("NIFTYFINSERVICE", "FINNIFTY"); ("NIFTY_FINANCIAL_SERVICES", "FINNIFTY");
   ("INDIA_VIX", "INDIA_VIX"); ("INDIAVIX", "INDIA_VIX"); ("VIX", "INDIA_VIX"); ("SENSEX", "SENSEX");
   ("BSESENSEX", "SENSEX")].
Definition alias_of (key : string) : option string :=
  snd <$> List.find (fun kv => String.eqb (fst kv) key) _INDEX_ALIASES.
Definition underscore (c : ascii) : ascii := if Ascii.eqb c " " then "_"%char else c.
Definition normalize_index_symbol (symbol : string) : result exn string :=
  match alias_of (str_map underscore (upper (strip symbol))) with
  | Some s => Ok s
  | None => Err (KeyError ("Unknown index symbol: '" +:+ symbol +:+ "' (known: " +:+
                           String.concat ", " INDEX_SYMBOLS +:+ ")"))
  end.
Definition index_instrument (symbol : string) : result exn Instrument :=
  match normalize_index_symbol symbol with
  | Ok s => match INDEX_INSTRUMENTS s with Some i => Ok i | None => Err (KeyError s) end
  | Err e => Err e
  end.

Definition equity_char (c : ascii) : bool := is_upper c || is_digit c || Ascii.eqb c "&" || Ascii.eqb c "-".
Definition equity_instrument (symbol : string) : result exn Instrument :=
  let sym := upper (strip symbol) in
  if negb (truthy sym) || (32 <? str_len sym) || negb (forallb equity_char (chars sym)) then
    Err (ValueError ("'" +:+ symbol +:+ "' is not a valid NSE equity symbol"))
  else Ok (plain_instrument sym NSE T_EQUITY).

(** [f'{x:g}']: six significant digits, trailing zeros dropped. *)
Definition drop_dot (s : string) : string :=
  let z := strip_zeros s in
  match rev (chars z) with "."%char :: r => unchars (rev r) | _ => z end.
Definition g_digits (num den : Z) : Z * Z :=
  let e := floor_log10 num den in
  let n := scaled num den (5 - e) in
  if n =? 10 ^ 6 then (10 ^ 5, e + 1) else (n, e).
Definition f_g (x : float) : string :=
  match x with
  | S754_nan => "nan"
  | S754_infinity s => if s then "-inf" else "inf"
  | S754_zero s => if s then "-0" else "0"
  | S754_finite s m e =>
      let num := if 0 <=? e then Zpos m * 2 ^ e else Zpos m in
      let den := if 0 <=? e then 1 else 2 ^ (- e) in
      let '(n, e10) := g_digits num den in
      (if s then "-" else "") +:+
      (if (-4 <=? e10) && (e10 <? 6) then
         if e10 =? 5 then str_of_Z n else drop_dot (fmt_scaled (Z.to_nat (5 - e10)) n)
       else
         drop_dot (fmt_scaled 5 n) +:+ "e" +:+ (if e10 <? 0 then "-" else "+") +:+ pad_zeros 2 (str_of_Z (Z.abs e10)))
  end.

Definition bar : ascii := "|"%char.
Definition _OPTION_SEP : string := "|".
Definition _fmt_strike (strike : float) : string := f_g strike.
Definition make_option_symbol (underlying : string) (expiry : Z) (strike : float) (option_type : string)
    : result exn string :=
  let ot := upper (strip option_type) in
  if negb (str_in ot ["CE"; "PE"]) then
    Err (ValueError ("option_type must be 'CE' or 'PE', got '" +:+ option_type +:+ "'"))
  else Ok (String.concat _OPTION_SEP [upper (strip underlying); isoformat expiry; _fmt_strike strike; ot]).
Definition parse_option_symbol (symbol : string) : result exn (string * Z * float * string) :=
  match split bar symbol with
  | [underlying; expiry_s; strike_s; option_type] =>
      match fromisoformat expiry_s, py_float strike_s with
      | Some expiry, Some strike =>
          if negb (str_in option_type ["CE"; "PE"]) then
            Err (ValueError ("Malformed option symbol '" +:+ symbol +:+ "': bad option_type '" +:+ option_type +:+ "'"))
          else Ok (underlying, expiry, strike, option_type)
      | _, _ => Err (ValueError ("Malformed option symbol '" +:+ symbol +:+ "'"))
      end
  | _ => Err (ValueError ("Not an option symbol: '" +:+ symbol +:+ "'"))
  end.
Definition option_instrument (underlying : string) (expiry : Z) (strike : float) (option_type : string)
    (exchange : Exchange) (lot : option Z) (tick : option float) (provider token : option string)
    : result exn Instrument :=
  let ot := upper (strip option_type) in
  match make_option_symbol underlying expiry strike ot with
  | Ok s => Ok (mkInstrument s exchange T_OPTION (Some (upper (strip underlying))) (Some expiry) (Some strike)
                  (Some ot) lot tick provider token)
  | Err e => Err e
  end.

(** ** [schemas.py] *)
Definition hundred : float := f_of_Z 100.
(** Both are [None] without a last price, a previous close, or with a previous
    close of zero. *)
Definition _derive_change (ltp prev_close : option float) : option float * option float :=
  match ltp, prev_close with
  | Some l, Some p =>
      if f_eqb p f_zero then (None, None)
      else
        let change := f_round 4 (f_sub l p) in
        (Some change, Some (f_round 4 (f_mul (f_div change p) hundred)))
  | _, _ => (None, None)
  end.

Record IndexQuote : Type := mkIndexQuote {
  iq_symbol : string; iq_ltp : option float; iq_open : option float; iq_high : option float; iq_low : option float;
  iq_prev_close : option float; iq_change : option float; iq_change_percent : option float; iq_volume : option Z;
  iq_provider_timestamp : option Z; iq_received_at : Z; iq_provider : string
}.
Definition build_index_quote (symbol : string) (ltp open high low prev_close : option float) (volume : option Z)
    (provider_timestamp : option Z) (provider : string) (now_utc : Z) : IndexQuote :=
  let '(change, pct) := _derive_change ltp prev_close in
  mkIndexQuote symbol ltp open high low prev_close change pct volume provider_timestamp now_utc provider.

Record OptionQuote : Type := mkOptionQuote {
  oq_symbol : string; oq_underlying : string; oq_expiry : Z; oq_strike : float; oq_option_type : string;
  oq_ltp : option float; oq_open : option float; oq_high : option float; oq_low : option float;
  oq_prev_close : option float; oq_change : option float; oq_change_percent : option float;
  oq_volume : option Z; oq_oi : option Z; oq_oi_change : option Z; oq_bid : option float; oq_ask : option float;
  oq_iv : option float; oq_vwap : option float; oq_provider_timestamp : option Z; oq_received_at : Z;
  oq_provider : string
}.
Definition build_option_quote (underlying : string) (expiry : Z) (strike : float) (option_type : string)
    (ltp open high low prev_close : option float) (volume oi oi_change : option Z) (bid ask iv vwap : option float)
    (provider_timestamp : option Z) (provider : string) (now_utc : Z) : result exn OptionQuote :=
  let '(change, pct) := _derive_change ltp prev_close in
  match make_option_symbol underlying expiry strike option_type with
  | Ok s => Ok (mkOptionQuote s (upper underlying) expiry strike (upper option_type) ltp open high low prev_close
                  change pct volume oi oi_change bid ask iv vwap provider_timestamp now_utc provider)
  | Err e => Err e
  end.

Record OptionChainRow : Type := mkChainRow { row_strike : float; row_call : option OptionQuote; row_put : option OptionQuote }.
Record OptionChain : Type := mkChain {
  oc_underlying : string; oc_expiry : Z; oc_spot : option float; oc_atm_strike : option float; oc_generated_at : Z;
  oc_rows : list OptionChainRow; oc_provider : string
}.
Record Candle : Type := mkCandle {
  c_symbol : string; c_interval : string; c_timestamp : Z; c_open : float; c_high : float; c_low : float;
  c_close : float; c_volume : option Z; c_oi : option Z
}.

(** ** [underlying_config.py] *)
Record UnderlyingConfig : Type := mkUnderlyingConfig {
  u_symbol : string; spot_exchange : Exchange; option_exchange : Exchange; strike_range_setting_name : string
}.
Definition UNDERLYING_CONFIGS : list (string * UnderlyingConfig) :=
  [("NIFTY", mkUnderlyingConfig "NIFTY" NSE NFO "nifty_option_strike_range");
   ("SENSEX", mkUnderlyingConfig "SENSEX" BSE BFO "sensex_option_strike_range")].
Definition STRADDLE_PULSE_UNDERLYINGS : list string := map fst UNDERLYING_CONFIGS.
Definition underlying_config (symbol : string) : result exn UnderlyingConfig :=
  match List.find (fun kv => String.eqb (fst kv) (upper (strip symbol))) UNDERLYING_CONFIGS with
  | Some (_, c) => Ok c
  | None => Err (KeyError ("Unknown Straddle Pulse underlying: '" +:+ symbol +:+ "'"))
  end.
Definition strike_range (c : UnderlyingConfig) (s : Settings) : Z :=
  if String.eqb c.(strike_range_setting_name) "nifty_option_strike_range" then s.(s_nifty_option_strike_range)
  else s.(s_sensex_option_strike_range).

(** ** Theorems *)
Example fmt_strikes :
  map _fmt_strike [f_of_Z 25100; f_dec 251125 1; f_dec 1000005 1; f_of_Z 1234567; f_dec 1234 8; f_zero; f_dec 5 1]
  = ["25100"; "25112.5"; "100000"; "1.23457e+06"; "1.234e-05"; "0"; "0.5"].
Proof. vm_compute. reflexivity. Qed.

(** ** Splitting what was joined *)
Definition no_bar (s : string) : Prop := ~ In bar (chars s).
Lemma split_go_app sep l : forall cur r, ~ In sep l ->
  split_go sep cur (l ++ sep :: r) = unchars (rev cur ++ l) :: split_go sep [] r.
Proof.
  induction l as [|c l IH]; intros cur r H; cbn.
  - rewrite Ascii.eqb_refl. now rewrite app_nil_r.
  - destruct (Ascii.eqb_spec c sep) as [->|]; [destruct H; now left|].
    rewrite IH by (intros Hi; apply H; now right). cbn. now rewrite <- app_assoc.
Qed.
Lemma split_go_last sep l : forall cur, ~ In sep l -> split_go sep cur l = [unchars (rev cur ++ l)].
Proof.
  induction l as [|c l IH]; intros cur H; cbn; [now rewrite app_nil_r|].
  destruct (Ascii.eqb_spec c sep) as [->|]; [destruct H; now left|].
  rewrite IH by (intros Hi; apply H; now right). cbn. now rewrite <- app_assoc.
Qed.
Lemma split_join4 a b c d : no_bar a -> no_bar b -> no_bar c -> no_bar d ->
  split bar (String.concat _OPTION_SEP [a; b; c; d]) = [a; b; c; d].
Proof.
  unfold no_bar, split. intros Ha Hb Hc Hd. cbn [String.concat]. unfold _OPTION_SEP.
  rewrite !chars_app. change (chars "|") with [bar]. cbn [app].
  rewrite split_go_app by exact Ha. rewrite split_go_app by exact Hb. rewrite split_go_app by exact Hc.
  rewrite split_go_last by exact Hd. cbn. now rewrite !unchars_chars.
Qed.

(** Nothing written in a symbol has a bar. *)
Lemma no_bar_app a b : no_bar a -> no_bar b -> no_bar (a +:+ b).
Proof. unfold no_bar. rewrite chars_app. intros Ha Hb Hi. apply in_app_or in Hi. tauto. Qed.
Lemma no_bar_digits l : forallb is_digit l = true -> no_bar (unchars l).
Proof.
  unfold no_bar. rewrite chars_unchars, List.forallb_forall. intros H Hi. specialize (H bar Hi). discriminate H.
Qed.
Lemma no_bar_sub l s : (forall c, In c l -> In c (chars s)) -> no_bar s -> no_bar (unchars l).
Proof. unfold no_bar. rewrite chars_unchars. auto. Qed.
Lemma no_bar_str_of_Z n : no_bar (str_of_Z n).
Proof.
  unfold str_of_Z, pretty.pretty, pretty.pretty_Z. assert (forall x : N, no_bar (pretty.pretty x)) as H.
  { intros x. rewrite <- (unchars_chars (pretty.pretty x)). apply no_bar_digits, pretty_N_digits. }
  destruct n; [now intros [|[]] | apply H | apply no_bar_app; [now intros [|[]] | apply H]].
Qed.
Lemma no_bar_pad n s : no_bar s -> no_bar (pad_zeros n s).
Proof.
  intros Hs. unfold pad_zeros. apply no_bar_app; [|exact Hs]. apply no_bar_digits.
  induction (n - String.length s)%nat as [|k IH]; [reflexivity | exact IH].
Qed.
Lemma in_drop_while p l c : In c (drop_while p l) -> In c l.
Proof. induction l as [|d l IH]; cbn; [tauto|]. destruct (p d); [right; auto | auto]. Qed.
Lemma no_bar_strip_zeros s : no_bar s -> no_bar (strip_zeros s).
Proof.
  apply no_bar_sub. intros c Hi. apply in_rev, in_drop_while in Hi. now apply in_rev in Hi.
Qed.
Lemma no_bar_drop_dot s : no_bar s -> no_bar (drop_dot s).
Proof.
  intros Hs. apply no_bar_strip_zeros in Hs. unfold drop_dot. destruct (rev (chars (strip_zeros s))) as [|c r] eqn:E; [exact Hs|].
  assert (no_bar (unchars (rev r))) as Hr.
  { revert Hs. apply no_bar_sub. intros x Hi. apply in_rev in Hi. apply in_rev. rewrite E. now right. }
  repeat (match goal with |- no_bar (match ?b with _ => _ end) => destruct b end; try assumption).
Qed.
Lemma no_bar_fmt k n : no_bar (fmt_scaled k n).
Proof.
  unfold fmt_scaled. destruct k; [apply no_bar_str_of_Z|].
  apply no_bar_app; [apply no_bar_str_of_Z|]. apply no_bar_app; [now intros [|[]] | apply no_bar_pad, no_bar_str_of_Z].
Qed.
Lemma no_bar_lit s : existsb (Ascii.eqb bar) (chars s) = false -> no_bar s.
Proof.
  intros E Hi. assert (existsb (Ascii.eqb bar) (chars s) = true); [|congruence].
  apply existsb_exists. exists bar. now rewrite Ascii.eqb_refl.
Qed.
Lemma no_bar_strike k : no_bar (_fmt_strike k).
Proof.
  unfold _fmt_strike, f_g. destruct k as [s|s| |s m e]; try (destruct s); try now apply no_bar_lit.
  all: cbv zeta; destruct (g_digits _ _) as [n e10]; apply no_bar_app; [now apply no_bar_lit|].
  all: destruct (_ && _); [destruct (e10 =? 5); [apply no_bar_str_of_Z | apply no_bar_drop_dot, no_bar_fmt]|].
  all: apply no_bar_app; [apply no_bar_drop_dot, no_bar_fmt|]; apply no_bar_app; [now apply no_bar_lit|];
    apply no_bar_app; [destruct (e10 <? 0); now apply no_bar_lit | apply no_bar_pad, no_bar_str_of_Z].
Qed.
Lemma no_bar_isoformat o : 1 <= o <= MAX_ORDINAL -> no_bar (isoformat o).
Proof.
  intros Ho. destruct (isoformat_shape o Ho) as (y1 & y2 & y3 & y4 & m1 & m2 & d1 & d2 & y & m & d & -> & D & _).
  unfold no_bar. rewrite chars_unchars. cbn [forallb] in D. rewrite !andb_true_iff in D.
  cbn. intros Hi. repeat destruct Hi as [Hi|Hi]; subst; try discriminate; try tauto; cbn in D; intuition discriminate.
Qed.

Lemma chars_str_map f s : chars (str_map f s) = map f (chars s).
Proof. induction s as [|c s IH]; cbn; [reflexivity | now rewrite IH]. Qed.
Lemma no_bar_upper_strip s : no_bar s -> no_bar (upper (strip s)).
Proof.
  unfold no_bar, upper. rewrite chars_str_map. intros Hs Hi. apply in_map_iff in Hi as (c & E & Hc). apply Hs.
  assert (c = bar) as <-.
  { revert E. unfold ascii_upper. destruct (is_lower c) eqn:L; [|auto]. intros E. exfalso.
    destruct c as [[] [] [] [] [] [] [] []]; try discriminate L; discriminate E. }
  unfold strip, strip_chars in Hc. rewrite chars_unchars in Hc. apply in_rev, in_drop_while, in_rev, in_drop_while in Hc.
  exact Hc.
Qed.

(** The canonical option symbol reads back: [parse_option_symbol] answers
    the normalised underlying and option type, the expiry and the strike that
    [make_option_symbol] was given, whenever the strike is one that six
    significant digits keep. *)
Theorem option_symbol_roundtrip underlying expiry strike option_type s :
  no_bar underlying -> 1 <= expiry <= MAX_ORDINAL -> py_float (_fmt_strike strike) = Some strike ->
  make_option_symbol underlying expiry strike option_type = Ok s ->
  parse_option_symbol s = Ok (upper (strip underlying), expiry, strike, upper (strip option_type)).
Proof.
  intros Hu He Hk. unfold make_option_symbol. cbv zeta. destruct (str_in (upper (strip option_type)) _) eqn:Hot; cbn [negb]; [|discriminate].
  remember (String.concat _ _) as t eqn:Et. intros [= <-]. unfold parse_option_symbol. rewrite Et, split_join4.
  - now rewrite (fromisoformat_isoformat expiry He), Hk, Hot.
  - now apply no_bar_upper_strip.
  - now apply no_bar_isoformat.
  - apply no_bar_strike.
  - apply str_in_spec in Hot as [<-|[<-|[]]]; now apply no_bar_lit.
Qed.
(** The listed spacings are kept: every multiple of 50 below 100000. *)
Lemma listed_strikes_kept :
  forallb (fun n => bool_decide (py_float (_fmt_strike (f_of_Z (50 * n))) = Some (f_of_Z (50 * n)))) (seqZ 1 1999) = true.
Proof. vm_compute. reflexivity. Qed.
Lemma option_symbol_roundtrip_witness :
  no_bar " nifty" /\ make_option_symbol " nifty" (ymd2ord 2026 9 3) (f_of_Z 25100) "ce" = Ok "NIFTY|2026-09-03|25100|CE" /\
  parse_option_symbol "NIFTY|2026-09-03|25100|CE" =
    Ok (upper (strip " nifty"), ymd2ord 2026 9 3, f_of_Z 25100, upper (strip "ce")).
Proof.
  assert (no_bar " nifty") as H by now apply no_bar_lit.
  split; [exact H|]. split; [vm_compute; reflexivity|].
  apply option_symbol_roundtrip; [exact H | vm_compute; split; congruence | vm_compute; reflexivity | vm_compute; reflexivity].
Defined.

(** Beyond six digits two strikes share one symbol. *)
Lemma strikes_share_symbol :
  make_option_symbol "SENSEX" (ymd2ord 2026 9 3) (f_dec 1000005 1) "CE" =
  make_option_symbol "SENSEX" (ymd2ord 2026 9 3) (f_of_Z 100000) "CE".
Proof. vm_compute. reflexivity. Qed.
