(* ===== verification/MarketCache.v ===== *)
(** * Live quotes, the instrument master and the option chain

    [trading/market_data/cache.py], [instruments.py] and [option_chain.py].  The
    cache and the master are process-wide objects guarded by a lock: each method
    is one atomic operation here.  Dictionaries are association lists in
    insertion order; a float key is compared as Python compares it. *)
From S2P Require Import Prelude PyStr PyFloat Config PyTime Symbols.

(** ** Dictionaries *)
Section dict.
Context {K V : Type} (eqb : K -> K -> bool).
Fixpoint dget (k : K) (d : list (K * V)) : option V :=
  match d with [] => None | (k', v) :: r => if eqb k k' then Some v else dget k r end.
Fixpoint dset (k : K) (v : V) (d : list (K * V)) : list (K * V) :=
  match d with
  | [] => [(k, v)]
  | (k', v') :: r => if eqb k k' then (k', v) :: r else (k', v') :: dset k v r
  end.
End dict.

(** [(b - a).total_seconds()] *)
Definition total_seconds (us : Z) : float := if us <? 0 then f_opp (dec_value (- us) (-6)) else dec_value us (-6).

(** ** [cache.py] *)
Inductive Quote : Type := QIndex (q : IndexQuote) | QOption (q : OptionQuote).
Definition q_symbol (q : Quote) : string := match q with QIndex q => q.(iq_symbol) | QOption q => q.(oq_symbol) end.
Definition q_ltp (q : Quote) : option float := match q with QIndex q => q.(iq_ltp) | QOption q => q.(oq_ltp) end.
Definition q_provider_timestamp (q : Quote) : option Z :=
  match q with QIndex q => q.(iq_provider_timestamp) | QOption q => q.(oq_provider_timestamp) end.
Definition q_received_at (q : Quote) : Z := match q with QIndex q => q.(iq_received_at) | QOption q => q.(oq_received_at) end.

Record CachedQuote : Type := mkCached { cq_quote : Quote; cq_provider_timestamp : option Z; cq_received_at : Z }.
Definition age_seconds (now : Z) (e : CachedQuote) : float := total_seconds (now - e.(cq_received_at)).
Definition entry_is_stale (stale_seconds : float) (now : Z) (e : CachedQuote) : bool :=
  f_gtb (age_seconds now e) stale_seconds.
Definition entry_status (stale_seconds : float) (now : Z) (e : CachedQuote) : string :=
  if entry_is_stale stale_seconds now e then "stale" else "live".

Record LiveCache : Type := mkCache {
  stale_seconds : float; lc_indices : list (string * CachedQuote); lc_options : list (string * CachedQuote);
  lc_last_tick_at : option Z
}.
Definition empty_cache (stale : float) : LiveCache := mkCache stale [] [] None.
Definition put (q : Quote) (c : LiveCache) : LiveCache :=
  let entry := mkCached q (q_provider_timestamp q) (q_received_at q) in
  let set := dset String.eqb (q_symbol q) entry in
  match q with
  | QIndex _ => mkCache c.(stale_seconds) (set c.(lc_indices)) c.(lc_options) (Some entry.(cq_received_at))
  | QOption _ => mkCache c.(stale_seconds) c.(lc_indices) (set c.(lc_options)) (Some entry.(cq_received_at))
  end.
Definition get_option_quote (symbol : string) (c : LiveCache) : option CachedQuote :=
  dget String.eqb symbol c.(lc_options).
Definition get_latest_quote (symbol : string) (c : LiveCache) : option CachedQuote :=
  match dget String.eqb symbol c.(lc_indices) with Some e => Some e | None => get_option_quote symbol c end.
Definition symbol_is_stale (symbol : string) (now : Z) (c : LiveCache) : bool :=
  match get_latest_quote symbol c with None => true | Some e => entry_is_stale c.(stale_seconds) now e end.
Definition cache_symbols_live (now : Z) (c : LiveCache) : Z :=
  Z.of_nat (List.length (List.filter (fun kv => negb (entry_is_stale c.(stale_seconds) now (snd kv)))
                           (c.(lc_indices) ++ c.(lc_options)))).
Definition clear_cache (c : LiveCache) : LiveCache := mkCache c.(stale_seconds) [] [] None.

(** ** [instruments.py] *)
Definition by_ot : Type := list (string * Instrument).
Definition by_strike : Type := list (float * by_ot).
Definition by_expiry : Type := list (Z * by_strike).
Record InstrumentMaster : Type := mkMaster {
  _by_symbol : list (string * Instrument); _tree : list (string * by_expiry);
  refreshed_on : option Z; last_source : option string
}.
Definition empty_master : InstrumentMaster := mkMaster [] [] None None.

(** An option instrument with every contract field. *)
Definition contract_of (i : Instrument) : option (string * Z * float * string) :=
  if negb (is_option i) then None
  else
    u ← i.(i_underlying); e ← i.(i_expiry); k ← i.(i_strike); ot ← i.(i_option_type);
    if str_in ot ["CE"; "PE"] then Some (u, e, k, ot) else None.
Definition tree_get (u : string) (t : list (string * by_expiry)) : by_expiry := default [] (dget String.eqb u t).
Definition expiry_get (e : Z) (t : by_expiry) : by_strike := default [] (dget Z.eqb e t).
Definition strike_get (k : float) (t : by_strike) : by_ot := default [] (dget f_eqb k t).
Definition tree_set (u : string) (e : Z) (k : float) (ot : string) (i : Instrument) (t : list (string * by_expiry)) :
    list (string * by_expiry) :=
  let te := tree_get u t in
  let tk := expiry_get e te in
  let to := strike_get k tk in
  dset String.eqb u (dset Z.eqb e (dset f_eqb k (dset String.eqb ot i to) tk) te) t.

Definition load_one (i : Instrument) (acc : list (string * Instrument) * list (string * by_expiry) * Z) :=
  match contract_of i with
  | None => acc
  | Some (u, e, k, ot) =>
      let '(by_symbol, tree, count) := acc in
      (dset String.eqb i.(internal_symbol) i by_symbol, tree_set u e k ot i tree, count + 1)
  end.
(** The universe is replaced; the count of contracts is returned. *)
Definition load (instruments : list Instrument) (as_of : option Z) (source : option string) (m : InstrumentMaster)
    : Z * InstrumentMaster :=
  let '(by_symbol, tree, count) := fold_left (fun acc i => load_one i acc) instruments ([], [], 0) in
  (count, mkMaster by_symbol tree (match as_of with Some d => Some d | None => m.(refreshed_on) end)
            (match source with Some s => Some s | None => m.(last_source) end)).
(** [refresh]: the provider's answers, one underlying after the other; nothing
    is replaced when it raises. *)
Fixpoint collect (get_option_instruments : string -> result exn (list Instrument)) (us : list string)
    : result exn (list Instrument) :=
  match us with
  | [] => Ok []
  | u :: r =>
      match get_option_instruments u with
      | Ok l => match collect get_option_instruments r with Ok l' => Ok (l ++ l') | Err e => Err e end
      | Err e => Err e
      end
  end.
Definition refresh (get_option_instruments : string -> result exn (list Instrument)) (name : string)
    (underlyings : list string) (as_of : option Z) (m : InstrumentMaster) : result exn Z * InstrumentMaster :=
  match collect get_option_instruments underlyings with
  | Ok l => let '(n, m') := load l as_of (Some name) m in (Ok n, m')
  | Err e => (Err e, m)
  end.

Definition needs_refresh (today : Z) (m : InstrumentMaster) : bool := negb (bool_decide (m.(refreshed_on) = Some today)).
Definition is_empty (m : InstrumentMaster) : bool := match m.(_by_symbol) with [] => true | _ => false end.
Definition key_of (underlying : string) : string := upper (strip underlying).
Definition count (underlying : option string) (m : InstrumentMaster) : Z :=
  match underlying with
  | None => Z.of_nat (List.length m.(_by_symbol))
  | Some u => Z.of_nat (list_sum (map (fun te : Z * by_strike => list_sum (map (fun tk : float * by_ot => List.length (snd tk)) (snd te)))
                                   (tree_get (key_of u) m.(_tree))))
  end.
Definition list_expiries (underlying : string) (m : InstrumentMaster) : list Z :=
  sort_by Z.leb (map fst (tree_get (key_of underlying) m.(_tree))).
Definition list_strikes (underlying : string) (expiry : Z) (m : InstrumentMaster) : list float :=
  sort_by f_leb (map fst (expiry_get expiry (tree_get (key_of underlying) m.(_tree)))).
Definition resolve (underlying : string) (expiry : Z) (strike : float) (option_type : string) (m : InstrumentMaster)
    : option Instrument :=
  dget String.eqb (upper (strip option_type)) (strike_get strike (expiry_get expiry (tree_get (key_of underlying) m.(_tree)))).
Definition get_instrument (symbol : string) (m : InstrumentMaster) : option Instrument :=
  dget String.eqb symbol m.(_by_symbol).

(** ** [option_chain.py] *)
(** [min(l, key=key)]: the first of the least. *)
Fixpoint min_by {A} (key : A -> float) (best : A) (l : list A) : A :=
  match l with
  | [] => best
  | x :: r => min_by key (if f_ltb (key x) (key best) then x else best) r
  end.
Definition distance (spot s : float) : float := f_abs (f_sub s spot).
Definition nearest_strike (strikes : list float) (spot : option float) : option float :=
  match strikes, spot with
  | x :: r, Some p => Some (min_by (distance p) x r)
  | _, _ => None
  end.
(** The gaps between consecutive strikes, positive ones. *)
Fixpoint gaps (l : list float) : list float :=
  match l with
  | a :: ((b :: _) as r) => (if f_gtb b a then [f_round 6 (f_sub b a)] else []) ++ gaps r
  | _ => []
  end.
Definition strike_step (sorted_strikes : list float) : option float :=
  match gaps sorted_strikes with [] => None | g :: r => Some (min_by (fun x => x) g r) end.
Fixpoint index_of (x : float) (l : list float) : option nat :=
  match l with [] => None | y :: r => if f_eqb x y then Some O else S <$> index_of x r end.
(** [l[lo:hi]] for [0 <= lo]; a negative [hi] counts from the end. *)
Definition slice_of {A} (lo hi : Z) (l : list A) : list A :=
  let hi := if hi <? 0 then Z.max 0 (Z.of_nat (List.length l) + hi) else hi in
  take (Z.to_nat (hi - lo)) (drop (Z.to_nat lo) l).
Definition select_strike_window (sorted_strikes : list float) (atm : float) (n : Z) : list float :=
  let atm := match index_of atm sorted_strikes with Some _ => Some atm | None => nearest_strike sorted_strikes (Some atm) end in
  match atm with
  | None => []
  | Some a =>
      match index_of a sorted_strikes with
      | None => []
      | Some i =>
          let i := Z.of_nat i in
          slice_of (Z.max 0 (i - n)) (Z.min (Z.of_nat (List.length sorted_strikes)) (i + n + 1)) sorted_strikes
      end
  end.

Fixpoint nearest_date (target best : Z) (l : list Z) : Z :=
  match l with
  | [] => best
  | x :: r => nearest_date target (if Z.abs (x - target) <? Z.abs (best - target) then x else best) r
  end.
Definition nearest_expiry (expiries : list Z) (target : Z) : option Z :=
  match expiries with [] => None | x :: r => Some (nearest_date target x r) end.

Inductive expiry_arg : Type := NoExpiry | ExpiryText (s : string) | ExpiryDate (d : Z).
Definition resolve_expiry (today : Z) (m : InstrumentMaster) (underlying : string) (expiry : expiry_arg) : option Z :=
  let expiries := list_expiries underlying m in
  let upcoming := List.filter (fun e => today <=? e) expiries in
  let on_date d := if existsb (Z.eqb d) expiries then Some d else nearest_expiry expiries d in
  match expiries with
  | [] => None
  | _ =>
      match expiry with
      | ExpiryDate d => on_date d
      | ExpiryText s =>
          if str_in s ["current"; "nearest"] then
            match upcoming with e :: _ => Some e | [] => last expiries end
          else if String.eqb s "next" then
            match upcoming with _ :: e :: _ => Some e | e :: _ => Some e | [] => last expiries end
          else match fromisoformat s with None => None | Some d => on_date d end
      | NoExpiry => match upcoming with e :: _ => Some e | [] => last expiries end
      end
  end.

Definition _row_quote (c : LiveCache) (underlying : string) (expiry : Z) (strike : float) (ot : string)
    : result exn (option OptionQuote) :=
  match make_option_symbol underlying expiry strike ot with
  | Err e => Err e
  | Ok s =>
      match get_option_quote s c with
      | Some e => Ok (match e.(cq_quote) with QOption q => Some q | QIndex _ => None end)
      | None => Ok None
      end
  end.
Fixpoint chain_rows (c : LiveCache) (underlying : string) (expiry : Z) (window : list float)
    : result exn (list OptionChainRow) :=
  match window with
  | [] => Ok []
  | k :: r =>
      match _row_quote c underlying expiry k "CE", _row_quote c underlying expiry k "PE", chain_rows c underlying expiry r with
      | Ok call, Ok put_, Ok rows => Ok (mkChainRow k call put_ :: rows)
      | Err e, _, _ => Err e
      | _, Err e, _ => Err e
      | _, _, Err e => Err e
      end
  end.
Definition build_option_chain (underlying : string) (expiry : Z) (spot : option float) (c : LiveCache)
    (m : InstrumentMaster) (strike_range : Z) (provider_name : string) (now_utc : Z) : result exn OptionChain :=
  let under := upper underlying in
  let all_strikes := list_strikes under expiry m in
  let atm := nearest_strike all_strikes spot in
  let window := match atm with Some a => select_strike_window all_strikes a strike_range | None => all_strikes end in
  match chain_rows c under expiry window with
  | Ok rows => Ok (mkChain under expiry spot atm now_utc rows provider_name)
  | Err e => Err e
  end.

(** ** Dictionaries *)
Section dict_lemmas.
Context {K V : Type} (eqb : K -> K -> bool).
Context (eqb_sym : forall x y, eqb x y = eqb y x) (eqb_trans : forall x y z, eqb x y = true -> eqb y z = true -> eqb x z = true).
Implicit Types (d : list (K * V)).

Lemma dget_dset k k' (v : V) d : dget eqb k' (dset eqb k v d) = if eqb k' k then Some v else dget eqb k' d.
Proof.
  assert (forall x y z, eqb x y = true -> eqb z x = eqb z y) as Same.
  { intros x y z E. apply eq_true_iff_eq. split; intros H;
      [exact (eqb_trans z x y H E) | rewrite eqb_sym in E; exact (eqb_trans z y x H E)]. }
  induction d as [|[k0 v0] d IH]; cbn; [reflexivity|]. destruct (eqb k k0) eqn:E; cbn.
  - rewrite (Same k k0 k' E). now destruct (eqb k' k0).
  - rewrite IH. destruct (eqb k' k0) eqn:E0; [|reflexivity]. destruct (eqb k' k) eqn:E1; [|reflexivity].
    rewrite eqb_sym in E1. rewrite (eqb_trans k k' k0 E1 E0) in E. discriminate.
Qed.
Lemma dget_None k d : dget eqb k d = None <-> forall x, In x (map fst d) -> eqb k x = false.
Proof.
  induction d as [|[k0 v0] d IH]; cbn; [split; [tauto | reflexivity]|]. destruct (eqb k k0) eqn:E.
  - split; [discriminate|]. intros H. specialize (H k0 (or_introl eq_refl)). congruence.
  - rewrite IH. split; [|auto]. intros H x [<-|Hx]; auto.
Qed.
Lemma dget_Some k v d : dget eqb k d = Some v -> exists k', In (k', v) d /\ eqb k k' = true.
Proof.
  induction d as [|[k0 v0] d IH]; cbn; [discriminate|]. destruct (eqb k k0) eqn:E.
  - intros [= ->]. exists k0. auto.
  - intros H. destruct (IH H) as (k' & Hi & He). exists k'. auto.
Qed.
(** The keys: a new key goes last, an equal one keeps its place. *)
Lemma keys_dset k v d : map fst (dset eqb k v d) = if existsb (eqb k) (map fst d) then map fst d else map fst d ++ [k].
Proof.
  induction d as [|[k0 v0] d IH]; cbn; [reflexivity|]. destruct (eqb k k0); cbn; [reflexivity|].
  rewrite IH. now destruct (existsb _ _).
Qed.
End dict_lemmas.

Lemma eqb_string_sym (x y : string) : String.eqb x y = String.eqb y x.
Proof. apply String.eqb_sym. Qed.
Lemma eqb_string_trans x y z : String.eqb x y = true -> String.eqb y z = true -> String.eqb x z = true.
Proof. rewrite !String.eqb_eq. congruence. Qed.
Lemma eqb_Z_trans x y z : Z.eqb x y = true -> Z.eqb y z = true -> Z.eqb x z = true.
Proof. rewrite !Z.eqb_eq. congruence. Qed.
Lemma dget_dset_string {V} k k' (v : V) d : dget String.eqb k' (dset String.eqb k v d) = if String.eqb k' k then Some v else dget String.eqb k' d.
Proof. apply dget_dset; [apply eqb_string_sym | apply eqb_string_trans]. Qed.
Lemma dget_dset_Z {V} k k' (v : V) d : dget Z.eqb k' (dset Z.eqb k v d) = if Z.eqb k' k then Some v else dget Z.eqb k' d.
Proof. apply dget_dset; [apply Z.eqb_sym | apply eqb_Z_trans]. Qed.
Lemma dget_dset_float {V} k k' (v : V) d : dget f_eqb k' (dset f_eqb k v d) = if f_eqb k' k then Some v else dget f_eqb k' d.
Proof. apply dget_dset; [apply f_eqb_sym | apply f_eqb_trans]. Qed.

(** ** The instrument master *)
Definition tget (u : string) (e : Z) (k : float) (ot : string) (t : list (string * by_expiry)) : option Instrument :=
  dget String.eqb ot (strike_get k (expiry_get e (tree_get u t))).
Definition same_contract (u : string) (e : Z) (k : float) (ot : string) (c : string * Z * float * string) : bool :=
  let '(u', e', k', ot') := c in String.eqb u u' && (e =? e') && f_eqb k k' && String.eqb ot ot'.
Definition is_contract (u : string) (e : Z) (k : float) (ot : string) (i : Instrument) : bool :=
  match contract_of i with Some c => same_contract u e k ot c | None => false end.

Lemma tget_tree_set u e k ot i t u' e' k' ot' :
  tget u' e' k' ot' (tree_set u e k ot i t) =
  if same_contract u' e' k' ot' (u, e, k, ot) then Some i else tget u' e' k' ot' t.
Proof.
  unfold tget, tree_set, tree_get, expiry_get, strike_get, same_contract. rewrite dget_dset_string.
  destruct (String.eqb_spec u' u) as [->|]; cbn [andb from_option id]; [|reflexivity]. rewrite dget_dset_Z.
  destruct (Z.eqb_spec e' e) as [->|]; cbn [andb from_option id]; [|reflexivity]. rewrite dget_dset_float.
  destruct (f_eqb k' k) eqn:E; cbn [andb from_option id]; [|reflexivity]. rewrite dget_dset_string.
  destruct (String.eqb_spec ot' ot) as [->|]; [reflexivity|].
  assert (dget f_eqb k (default [] (dget Z.eqb e (default [] (dget String.eqb u t)))) =
          dget f_eqb k' (default [] (dget Z.eqb e (default [] (dget String.eqb u t))))) as ->; [|reflexivity].
  induction (default [] (dget Z.eqb e (default [] (dget String.eqb u t)))) as [|[k0 v0] d IH]; cbn; [reflexivity|].
  assert (f_eqb k k0 = f_eqb k' k0) as ->; [|now rewrite IH].
  apply eq_true_iff_eq. split; intros H; [exact (f_eqb_trans k' k k0 E H)|].
  rewrite f_eqb_sym in E. exact (f_eqb_trans k k' k0 E H).
Qed.

Definition last_such {A} (p : A -> bool) (l : list A) : option A := last (List.filter p l).
Lemma last_such_snoc {A} (p : A -> bool) l x : last_such p (l ++ [x]) = if p x then Some x else last_such p l.
Proof.
  unfold last_such. rewrite List.filter_app. cbn. destruct (p x); [apply last_snoc | now rewrite app_nil_r].
Qed.

Lemma load_snoc acc l i : fold_left (fun acc i => load_one i acc) (l ++ [i]) acc =
  load_one i (fold_left (fun acc i => load_one i acc) l acc).
Proof. apply fold_left_app. Qed.

Lemma load_tree l u e k ot :
  tget u e k ot (snd (fst (fold_left (fun acc i => load_one i acc) l ([], [], 0)))) = last_such (is_contract u e k ot) l.
Proof.
  induction l as [|i l IH] using rev_ind; [reflexivity|]. rewrite load_snoc, last_such_snoc.
  destruct (fold_left _ l _) as [[bs t] n]. cbn [fst snd] in IH. unfold load_one, is_contract.
  destruct (contract_of i) as [[[[u' e'] k'] ot']|]; [|exact IH]. cbn [fst snd]. rewrite tget_tree_set, IH. reflexivity.
Qed.
Lemma load_symbols l s :
  dget String.eqb s (fst (fst (fold_left (fun acc i => load_one i acc) l ([], [], 0)))) =
  last_such (fun i => match contract_of i with Some _ => String.eqb s i.(internal_symbol) | None => false end) l.
Proof.
  induction l as [|i l IH] using rev_ind; [reflexivity|]. rewrite load_snoc, last_such_snoc.
  destruct (fold_left _ l _) as [[bs t] n]. cbn [fst snd] in IH. unfold load_one.
  destruct (contract_of i) as [[[[u' e'] k'] ot']|]; [|exact IH]. cbn [fst snd]. rewrite dget_dset_string, IH. reflexivity.
Qed.
Lemma load_count l : snd (fold_left (fun acc i => load_one i acc) l ([], [], 0)) =
  Z.of_nat (List.length (List.filter (fun i => bool_decide (is_Some (contract_of i))) l)).
Proof.
  induction l as [|i l IH] using rev_ind; [reflexivity|]. rewrite load_snoc, List.filter_app, length_app.
  destruct (fold_left _ l _) as [[bs t] n]. cbn [snd] in IH. unfold load_one.
  destruct (contract_of i) as [[[[u' e'] k'] ot']|] eqn:E; cbn [List.filter]; rewrite ?E; cbn [snd].
  - rewrite bool_decide_eq_true_2 by eauto. cbn [List.length]. lia.
  - rewrite bool_decide_eq_false_2 by (intros [? [=]]). cbn [List.length]. lia.
Qed.

Definition keys_at (u : string) (e : Z) (t : list (string * by_expiry)) : list float := map fst (expiry_get e (tree_get u t)).
Lemma keys_tree_set u e k ot i t u' e' :
  keys_at u' e' (tree_set u e k ot i t) =
  if String.eqb u' u && (e' =? e) then
    if existsb (f_eqb k) (keys_at u e t) then keys_at u e t else keys_at u e t ++ [k]
  else keys_at u' e' t.
Proof.
  unfold keys_at, tree_set, tree_get, expiry_get. rewrite dget_dset_string.
  destruct (String.eqb_spec u' u) as [->|]; cbn [andb from_option id]; [|reflexivity]. rewrite dget_dset_Z.
  destruct (Z.eqb_spec e' e) as [->|]; cbn [andb from_option id]; [|reflexivity]. apply keys_dset.
Qed.
Definition at_expiry (u : string) (e : Z) (k : float) (i : Instrument) : Prop :=
  exists ot, contract_of i = Some (u, e, k, ot).

Lemma existsb_app_true {A} (p : A -> bool) l x : existsb p l = true -> existsb p (l ++ [x]) = true.
Proof. intros H. rewrite existsb_app, H. reflexivity. Qed.

(** The strikes of an expiry: each is a loaded contract's, each loaded
    contract's is there, and no two are equal. *)
Lemma load_keys l u e :
  let keys := keys_at u e (snd (fst (fold_left (fun acc i => load_one i acc) l ([], [], 0)))) in
  (forall k, In k keys -> exists i, In i l /\ at_expiry u e k i) /\
  (forall i k, In i l -> at_expiry u e k i -> f_num k -> existsb (f_eqb k) keys = true) /\
  ForallOrdPairs (fun a b => f_eqb b a = false) keys.
Proof.
  induction l as [|i l (IH1 & IH2 & IH3)] using rev_ind; [cbn; repeat split; try tauto; constructor|].
  rewrite load_snoc. destruct (fold_left _ l _) as [[bs t] n]. cbn [fst snd] in *. unfold load_one.
  assert (forall k, (exists j, In j l /\ at_expiry u e k j) -> exists j, In j (l ++ [i]) /\ at_expiry u e k j) as Wide.
  { intros k (j & Hj & Ha). exists j. split; [apply in_or_app; now left | exact Ha]. }
  destruct (contract_of i) as [[[[u' e'] k'] ot']|] eqn:C; cbn [fst snd].
  2: { split; [auto|]. split; [|exact IH3]. intros j k Hj Ha. apply in_app_or in Hj as [Hj|[<-|[]]]; [now apply IH2 with j|].
       destruct Ha as [ot Ha]. congruence. }
  rewrite keys_tree_set. destruct (String.eqb_spec u u') as [<-|Hu]; cbn [andb].
  2: { split; [auto|]. split; [|exact IH3]. intros j k Hj Ha. apply in_app_or in Hj as [Hj|[<-|[]]]; [now apply IH2 with j|].
       destruct Ha as [ot Ha]. congruence. }
  destruct (Z.eqb_spec e e') as [<-|He].
  2: { split; [auto|]. split; [|exact IH3]. intros j k Hj Ha. apply in_app_or in Hj as [Hj|[<-|[]]]; [now apply IH2 with j|].
       destruct Ha as [ot Ha]. congruence. }
  destruct (existsb (f_eqb k') (keys_at u e t)) eqn:X.
  - split; [auto|]. split; [|exact IH3]. intros j k Hj Ha Hk. apply in_app_or in Hj as [Hj|[<-|[]]]; [now apply IH2 with j|].
    destruct Ha as [ot Ha]. rewrite C in Ha. injection Ha as -> ->. exact X.
  - split; [|split].
    + intros k Hk. apply in_app_or in Hk as [Hk|[<-|[]]]; [auto|]. exists i. split; [apply in_or_app; right; now left | now exists ot'].
    + intros j k Hj Ha Hk. apply in_app_or in Hj as [Hj|[<-|[]]].
      * apply existsb_app_true. now apply IH2 with j.
      * destruct Ha as [ot Ha]. rewrite C in Ha. injection Ha as -> ->. rewrite existsb_app. cbn.
        rewrite f_eqb_refl by exact Hk. now rewrite orb_true_r.
    + clear -IH3 X. induction IH3 as [|a r Ha Hr IH]; cbn; [repeat constructor|]. cbn in X. apply orb_false_elim in X as [X1 X2].
      constructor; [|auto]. apply Forall_app. split; [exact Ha | now repeat constructor].
Qed.

Lemma Sorted_sort_by_in {A} (leb : A -> A -> bool) l :
  (forall a b, In a l -> In b l -> leb a b = true \/ leb b a = true) ->
  (forall a b c, leb a b = true -> leb b c = true -> leb a c = true) ->
  StronglySorted (fun a b => leb a b = true) (sort_by leb l).
Proof.
  intros Htot Htr. induction l as [|x r IH]; cbn; [constructor|].
  assert (StronglySorted (fun a b => leb a b = true) (sort_by leb r)) as Hs by (apply IH; intros; apply Htot; now right).
  assert (forall y, In y (sort_by leb r) -> leb x y = true \/ leb y x = true) as Hx.
  { intros y Hy. apply In_sort_by in Hy. apply Htot; [now left | now right]. }
  clear IH Htot. induction Hs as [|y l Hl IHl Hy]; cbn; [repeat constructor|].
  destruct (leb x y) eqn:E.
  - constructor; [now constructor|]. constructor; [exact E|]. eapply Forall_impl; [exact Hy|]. eauto.
  - constructor; [apply IHl; intros; apply Hx; now right|]. rewrite insert_by_Permutation. constructor; [|exact Hy].
    destruct (Hx y (or_introl eq_refl)); congruence.
Qed.

(** Sorting floats no two of which are equal gives a strictly increasing list. *)
Lemma sort_strictly ks : Forall f_num ks -> ForallOrdPairs (fun a b => f_eqb b a = false) ks ->
  StronglySorted (fun a b => f_ltb a b = true) (sort_by f_leb ks).
Proof.
  intros Hall Hne.
  assert (StronglySorted (fun a b => f_leb a b = true) (sort_by f_leb ks)) as S1.
  { apply Sorted_sort_by_in; [|apply f_leb_trans]. rewrite List.Forall_forall in Hall. intros a b Ha Hb. now apply f_leb_total; apply Hall. }
  assert (NoDup (map f_key (sort_by f_leb ks))) as ND.
  { rewrite sort_by_Permutation. clear -Hne Hall. induction Hne as [|a r Ha Hr IH]; cbn; [constructor|].
    apply Forall_cons in Hall as [Na Nr]. apply NoDup_cons. split; [|auto]. intros Hin.
    apply list_elem_of_In, in_map_iff in Hin as (b & Eb & Hb). rewrite List.Forall_forall in Ha, Nr.
    specialize (Ha b Hb). assert (f_eqb b a = true); [|congruence]. apply f_eqb_key. auto. }
  assert (Forall f_num (sort_by f_leb ks)) as Hall' by now rewrite sort_by_Permutation.
  clear -S1 ND Hall'. induction S1 as [|a r Hr IH Ha]; cbn in *; [constructor|].
  apply NoDup_cons in ND as [Na ND]. apply Forall_cons in Hall' as [Fa Fr]. constructor; [auto|].
  apply List.Forall_forall. intros b Hb. rewrite List.Forall_forall in Ha, Fr. apply f_ltb_key; auto.
  specialize (Ha b Hb). rewrite f_leb_key in Ha by auto. assert (f_key a <> f_key b) as Hk.
  { intros E. apply Na. rewrite E. apply list_elem_of_In. now apply in_map. }
  destruct (f_key a) as [[x y] z], (f_key b) as [[x' y'] z']. cbn in *.
  assert (x <> x' \/ y <> y' \/ z <> z') by (destruct (Z.eq_dec x x'), (Z.eq_dec y y'), (Z.eq_dec z z'); subst; tauto). lia.
Qed.

(** The instrument master answers from exactly the universe it was last
    loaded with: [resolve] gives the last loaded contract of the underlying,
    expiry, strike and type asked for, and nothing else; [list_strikes] is
    strictly increasing, each strike it lists belongs to a loaded contract of that
    expiry, and every loaded contract's strike is listed; [count] counts the
    contracts. *)
Theorem master_answers_universe l as_of source m u e ot k :
  (forall i k, In i l -> i.(i_strike) = Some k -> f_num k) ->
  let '(n, m') := load l as_of source m in
  let strikes := list_strikes u e m' in
  resolve u e k ot m' = last_such (is_contract (key_of u) e k (upper (strip ot))) l /\
  StronglySorted (fun a b => f_ltb a b = true) strikes /\
  (forall x, In x strikes -> exists i, In i l /\ at_expiry (key_of u) e x i) /\
  (forall i x, In i l -> at_expiry (key_of u) e x i -> existsb (f_eqb x) strikes = true) /\
  n = Z.of_nat (List.length (List.filter (fun i => bool_decide (is_Some (contract_of i))) l)).
Proof.
  intros Hnum. unfold load. pose proof (load_tree l (key_of u) e k (upper (strip ot))) as HT.
  pose proof (load_keys l (key_of u) e) as (K1 & K2 & K3). pose proof (load_count l) as HC.
  destruct (fold_left _ l _) as [[bs t] n]. cbn [fst snd] in *. split; [exact HT|]. cbn zeta.
  assert (forall i x, In i l -> at_expiry (key_of u) e x i -> f_num x) as HN.
  { intros i x Hi [o Ha]. unfold contract_of in Ha. destruct (negb _); [discriminate|].
    destruct (i_underlying i), (i_expiry i), (i_strike i) eqn:S, (i_option_type i); try discriminate. cbn -[str_in] in Ha.
    destruct (str_in _ _); [|discriminate]. injection Ha as _ _ <- _. now apply (Hnum i). }
  unfold list_strikes. cbn [_tree]. change (map fst (expiry_get e (tree_get (key_of u) t))) with (keys_at (key_of u) e t).
  split; [|split; [|split; [|exact HC]]].
  - apply sort_strictly; [|exact K3]. apply List.Forall_forall. intros x Hx.
    destruct (K1 x Hx) as (i & Hi & Ha). now apply (HN i).
  - intros x Hx. apply In_sort_by in Hx. now apply K1.
  - intros i x Hi Ha. specialize (K2 i x Hi Ha (HN i x Hi Ha)). apply existsb_exists in K2 as (y & Hy & E).
    apply existsb_exists. exists y. split; [now apply In_sort_by | exact E].
Qed.

Definition demo_contract (strike : Z) (ot token : string) : Instrument :=
  mkInstrument ("NIFTY|2026-09-03|" +:+ str_of_Z strike +:+ "|" +:+ ot) NFO T_OPTION (Some "NIFTY") (Some (ymd2ord 2026 9 3))
    (Some (f_of_Z strike)) (Some ot) (Some 75) None (Some "icici_breeze") (Some token).
Definition demo_universe : list Instrument :=
  [demo_contract 25200 "CE" "1"; demo_contract 25100 "CE" "2"; demo_contract 25100 "PE" "3";
   plain_instrument "NIFTY" NSE T_INDEX; demo_contract 25100 "CE" "4"; demo_contract 25150 "PE" "5"].
Lemma master_answers_universe_witness :
  let '(n, m') := load demo_universe None None empty_master in
  let strikes := list_strikes " nifty" (ymd2ord 2026 9 3) m' in
  resolve " nifty" (ymd2ord 2026 9 3) (f_of_Z 25100) "ce" m' =
    last_such (is_contract (key_of " nifty") (ymd2ord 2026 9 3) (f_of_Z 25100) (upper (strip "ce"))) demo_universe /\
  StronglySorted (fun a b => f_ltb a b = true) strikes /\
  (forall x, In x strikes -> exists i, In i demo_universe /\ at_expiry (key_of " nifty") (ymd2ord 2026 9 3) x i) /\
  (forall i x, In i demo_universe -> at_expiry (key_of " nifty") (ymd2ord 2026 9 3) x i -> existsb (f_eqb x) strikes = true) /\
  n = Z.of_nat (List.length (List.filter (fun i => bool_decide (is_Some (contract_of i))) demo_universe)).
Proof.
  apply (master_answers_universe demo_universe None None empty_master " nifty" (ymd2ord 2026 9 3) "ce" (f_of_Z 25100)).
  intros i k Hi. repeat (destruct Hi as [<-|Hi]; [intros [= <-]; reflexivity|]). destruct Hi.
Defined.
Example demo_strikes :
  let m := snd (load demo_universe None None empty_master) in
  list_strikes "NIFTY" (ymd2ord 2026 9 3) m = map f_of_Z [25100; 25150; 25200] /\
  (resolve "NIFTY" (ymd2ord 2026 9 3) (f_of_Z 25100) "CE" m ≫= provider_token) = Some "4" /\
  count (Some "NIFTY") m = 4.
Proof. vm_compute. repeat split. Qed.

(** ** The option chain *)
Lemma min_by_In {A} (key : A -> float) l : forall best, In (min_by key best l) (best :: l).
Proof.
  induction l as [|x l IH]; intros best; cbn [min_by]; [now left|]. destruct (IH (if f_ltb (key x) (key best) then x else best)) as [<-|H].
  - destruct (f_ltb _ _); [right; now left | now left].
  - right. now right.
Qed.
Lemma min_by_least {A} (key : A -> float) l : forall best, (forall x, In x (best :: l) -> f_num (key x)) ->
  forall x, In x (best :: l) -> f_leb (key (min_by key best l)) (key x) = true.
Proof.
  induction l as [|y l IH]; intros best Hn x Hx; cbn [min_by].
  - destruct Hx as [<-|[]]. now apply f_leb_refl, Hn; left.
  - assert (f_num (key best)) as Nb by (apply Hn; now left). assert (f_num (key y)) as Ny by (apply Hn; right; now left).
    set (b := if f_ltb (key y) (key best) then y else best).
    assert (f_leb (key b) (key best) = true /\ f_leb (key b) (key y) = true) as [H1 H2].
    { unfold b. destruct (f_ltb (key y) (key best)) eqn:E.
      - split; [now apply f_ltb_leb | now apply f_leb_refl].
      - split; [now apply f_leb_refl | now apply f_ltb_false]. }
    assert (forall z, In z (b :: l) -> f_num (key z)) as Hn'.
    { intros z [<-|Hz]; [unfold b; now destruct (f_ltb _ _) | apply Hn; right; now right]. }
    destruct Hx as [<-|[<-|Hx]].
    + eapply f_leb_trans; [apply (IH b Hn' b); now left | exact H1].
    + eapply f_leb_trans; [apply (IH b Hn' b); now left | exact H2].
    + apply (IH b Hn'). now right.
Qed.
Lemma nearest_strike_least strikes spot a :
  (forall s, In s strikes -> f_num (distance spot s)) -> nearest_strike strikes (Some spot) = Some a ->
  In a strikes /\ forall s, In s strikes -> f_leb (distance spot a) (distance spot s) = true.
Proof.
  intros Hn. destruct strikes as [|x r]; [discriminate|]. cbn [nearest_strike]. intros [= <-].
  split; [apply min_by_In | now apply min_by_least].
Qed.

Lemma index_of_nth x l : forall i, index_of x l = Some i -> (i < List.length l)%nat /\ exists y, l !! i = Some y /\ f_eqb x y = true.
Proof.
  induction l as [|y l IH]; intros i; cbn; [discriminate|]. destruct (f_eqb x y) eqn:E.
  - intros [= <-]. split; [lia|]. now exists y.
  - destruct (index_of x l) as [j|]; [|discriminate]. intros [= <-]. destruct (IH j eq_refl) as [H1 H2]. split; [lia | exact H2].
Qed.
Lemma index_of_In x l : In x l -> f_num x -> exists i, index_of x l = Some i.
Proof.
  induction l as [|y l IH]; intros Hi Hx; [destruct Hi|]. cbn. destruct (f_eqb x y) eqn:E; [eauto|].
  destruct Hi as [->|Hi]; [now rewrite f_eqb_refl in E|]. destruct (IH Hi Hx) as [i ->]. cbn. eauto.
Qed.
(** The window: a contiguous run of the strikes around the ATM, [n] on each side
    where there are as many. *)
Lemma window_spec strikes a n i : 0 <= n -> index_of a strikes = Some i ->
  let w := select_strike_window strikes a n in
  (exists u v, strikes = u ++ w ++ v /\ Z.of_nat (List.length u) = Z.max 0 (Z.of_nat i - n) /\
     Z.of_nat (List.length v) = Z.max 0 (Z.of_nat (List.length strikes) - (Z.of_nat i + n + 1))) /\
  Z.of_nat (List.length w) <= 2 * n + 1 /\ exists y, In y w /\ f_eqb a y = true.
Proof.
  intros Hn Hi w.
  assert (w = slice_of (Z.max 0 (Z.of_nat i - n)) (Z.min (Z.of_nat (List.length strikes)) (Z.of_nat i + n + 1)) strikes) as Ew.
  { unfold w, select_strike_window. rewrite Hi. cbv iota zeta. now rewrite Hi. }
  clearbody w. subst w. unfold slice_of.
  destruct (index_of_nth a strikes i Hi) as [Hlt (y & Hy & Ey)].
  set (lo := Z.max 0 (Z.of_nat i - n)) in *. set (hi := Z.min (Z.of_nat (List.length strikes)) (Z.of_nat i + n + 1)) in *.
  assert ((hi <? 0) = false) as Hh by (apply Z.ltb_ge; unfold hi; lia). rewrite Hh.
  set (w := take _ _). set (k := Z.to_nat (hi - lo)) in *. set (u := take (Z.to_nat lo) strikes). set (v := drop k (drop (Z.to_nat lo) strikes)).
  assert (strikes = u ++ w ++ v) as E by (unfold u, v, w; now rewrite !take_drop).
  assert (List.length u = Z.to_nat lo) as Lu by (unfold u; rewrite length_take; lia).
  assert (List.length w = k) as Lw by (unfold w; rewrite length_take, length_drop; lia).
  split; [|split].
  - exists u, v. split; [exact E|]. split; [lia|]. assert (List.length strikes = List.length u + (List.length w + List.length v))%nat as L
      by (rewrite E at 1; now rewrite !length_app). lia.
  - lia.
  - exists y. split; [|exact Ey]. apply list_elem_of_In, list_elem_of_lookup. exists (i - Z.to_nat lo)%nat.
    unfold w. rewrite lookup_take_lt by lia. rewrite lookup_drop. rewrite <- Hy. f_equal. lia.
Qed.

(** What a row holds for one side: the cached option quote under the canonical
    symbol of that contract. *)
Definition side_quote (c : LiveCache) (u : string) (e : Z) (k : float) (ot : string) (q : option OptionQuote) : Prop :=
  exists s, make_option_symbol u e k ot = Ok s /\
    q = match get_option_quote s c with Some (mkCached (QOption q) _ _) => Some q | _ => None end.
Definition row_ok (c : LiveCache) (u : string) (e : Z) (r : OptionChainRow) : Prop :=
  side_quote c u e r.(row_strike) "CE" r.(row_call) /\ side_quote c u e r.(row_strike) "PE" r.(row_put).

Lemma row_quote_ok c u e k ot q : _row_quote c u e k ot = Ok q -> side_quote c u e k ot q.
Proof.
  unfold _row_quote, side_quote. destruct (make_option_symbol u e k ot) as [s|]; [|discriminate].
  intros H. exists s. split; [reflexivity|]. destruct (get_option_quote s c) as [[[q'|q'] t r]|]; now injection H as <-.
Qed.
Lemma chain_rows_ok c u e window : forall rows, chain_rows c u e window = Ok rows ->
  map row_strike rows = window /\ Forall (row_ok c u e) rows.
Proof.
  induction window as [|k w IH]; intros rows; cbn [chain_rows]; [intros [= <-]; now split|].
  destruct (_row_quote c u e k "CE") as [call|] eqn:C; [|discriminate].
  destruct (_row_quote c u e k "PE") as [put_|] eqn:P; [|discriminate].
  destruct (chain_rows c u e w) as [rs|]; [|discriminate]. intros [= <-].
  destruct (IH rs eq_refl) as [H1 H2]. cbn. rewrite H1. split; [reflexivity|]. constructor; [|exact H2].
  split; cbn; now apply row_quote_ok.
Qed.

(** The option chain is centred on the money: the ATM strike is a listed
    strike nearest to the spot, the rows are a contiguous run of the listed
    strikes that contains it, with [n] strikes on each side where as many are
    listed, and each side of a row is the live quote cached under that
    contract's canonical symbol, or nothing. *)
Theorem chain_is_atm_window underlying e p c m n provider now ch :
  let strikes := list_strikes (upper underlying) e m in
  0 <= n -> strikes <> [] -> (forall s, In s strikes -> f_num s /\ f_num (distance p s)) ->
  build_option_chain underlying e (Some p) c m n provider now = Ok ch ->
  exists a i u v, oc_atm_strike ch = Some a /\ index_of a strikes = Some i /\ In a strikes /\
    (forall s, In s strikes -> f_leb (distance p a) (distance p s) = true) /\
    strikes = u ++ map row_strike ch.(oc_rows) ++ v /\ (exists y, In y (map row_strike ch.(oc_rows)) /\ f_eqb a y = true) /\
    Z.of_nat (List.length u) = Z.max 0 (Z.of_nat i - n) /\
    Z.of_nat (List.length v) = Z.max 0 (Z.of_nat (List.length strikes) - (Z.of_nat i + n + 1)) /\
    Forall (row_ok c (upper underlying) e) ch.(oc_rows).
Proof.
  intros strikes Hn Hne Hnum. unfold build_option_chain. fold strikes.
  destruct (nearest_strike strikes (Some p)) as [a|] eqn:A; [|destruct strikes; [congruence | discriminate A]].
  destruct (nearest_strike_least strikes p a) as [Ha Hmin]; [intros s Hs; now apply Hnum | exact A |].
  destruct (index_of_In a strikes Ha) as [i Hi]; [now apply Hnum|].
  destruct (window_spec strikes a n i Hn Hi) as ((u & v & E & Lu & Lv) & _ & Hin).
  destruct (chain_rows c (upper underlying) e (select_strike_window strikes a n)) as [rows|] eqn:R; [|discriminate].
  intros [= <-]. cbn [oc_rows oc_atm_strike]. destruct (chain_rows_ok _ _ _ _ _ R) as [Em Hrows]. rewrite Em.
  now exists a, i, u, v.
Qed.
Definition demo_master : InstrumentMaster := snd (load demo_universe None None empty_master).
Lemma chain_is_atm_window_witness :
  let strikes := list_strikes (upper "nifty") (ymd2ord 2026 9 3) demo_master in
  exists ch, build_option_chain "nifty" (ymd2ord 2026 9 3) (Some (f_of_Z 25160)) (empty_cache (f_of_Z 10)) demo_master 1 "p" 0 = Ok ch /\
  exists a i u v, oc_atm_strike ch = Some a /\ index_of a strikes = Some i /\ In a strikes /\
    (forall s, In s strikes -> f_leb (distance (f_of_Z 25160) a) (distance (f_of_Z 25160) s) = true) /\
    strikes = u ++ map row_strike ch.(oc_rows) ++ v /\ (exists y, In y (map row_strike ch.(oc_rows)) /\ f_eqb a y = true) /\
    Z.of_nat (List.length u) = Z.max 0 (Z.of_nat i - 1) /\
    Z.of_nat (List.length v) = Z.max 0 (Z.of_nat (List.length strikes) - (Z.of_nat i + 1 + 1)) /\
    Forall (row_ok (empty_cache (f_of_Z 10)) (upper "nifty") (ymd2ord 2026 9 3)) ch.(oc_rows).
Proof.
  intros strikes. eexists. split; [vm_compute; reflexivity|].
  apply (chain_is_atm_window "nifty" (ymd2ord 2026 9 3) (f_of_Z 25160) (empty_cache (f_of_Z 10)) demo_master 1 "p" 0);
    [lia | discriminate | | vm_compute; reflexivity].
  assert (strikes = map f_of_Z [25100; 25150; 25200]) as E by (vm_compute; reflexivity). fold strikes. rewrite E.
  intros s Hs. repeat (destruct Hs as [<-|Hs]; [split; vm_compute; reflexivity|]). destruct Hs.
Defined.

(** Without a spot the whole expiry is listed. *)
Lemma chain_without_spot underlying e c m n provider now ch :
  build_option_chain underlying e None c m n provider now = Ok ch ->
  oc_atm_strike ch = None /\ map row_strike ch.(oc_rows) = list_strikes (upper underlying) e m.
Proof.
  unfold build_option_chain. assert (nearest_strike (list_strikes (upper underlying) e m) None = None) as ->
    by now destruct (list_strikes _ _ _).
  destruct (chain_rows _ _ _ _) as [rows|] eqn:R; [|discriminate]. intros [= <-].
  split; [reflexivity|]. apply (chain_rows_ok _ _ _ _ _ R).
Qed.
(** The quote a key holds is the last one put under it. *)
Lemma put_get_option q c s : get_option_quote s (put q c) =
  match q with
  | QOption o => if String.eqb s o.(oq_symbol) then Some (mkCached q o.(oq_provider_timestamp) o.(oq_received_at)) else get_option_quote s c
  | QIndex _ => get_option_quote s c
  end.
Proof. destruct q; [reflexivity|]. unfold get_option_quote, put. cbn. apply dget_dset_string. Qed.

(** An expiry is resolved to a listed one. *)
Lemma nearest_date_In target l : forall best, nearest_date target best l = best \/ In (nearest_date target best l) l.
Proof.
  induction l as [|x l IH]; intros best; cbn; [auto|]. destruct (_ <? _).
  - destruct (IH x) as [->|Hi]; auto.
  - destruct (IH best) as [->|Hi]; auto.
Qed.
Lemma resolve_expiry_listed today m u arg e : resolve_expiry today m u arg = Some e -> In e (list_expiries u m).
Proof.
  unfold resolve_expiry. cbv zeta. set (l := list_expiries u m). destruct l as [|x l']; [discriminate|]. set (es := x :: l') in *.
  assert (forall e, last es = Some e -> In e es) as Hlast.
  { intros e0 E0. apply last_Some in E0 as (l0 & ->). apply in_or_app. right. now left. }
  assert (forall y, In y (List.filter (fun e => today <=? e) es) -> In y es) as Hup by (intros y Hy; now apply List.filter_In in Hy).
  assert (forall d, (if existsb (Z.eqb d) es then Some d else nearest_expiry es d) = Some e -> In e es) as Hon.
  { intros d. destruct (existsb (Z.eqb d) es) eqn:Ex.
    - intros [= <-]. apply existsb_exists in Ex as (y & Hy & E%Z.eqb_eq). now subst y.
    - intros [= <-]. destruct (nearest_date_In d l' x) as [->|Hi]; [now left | now right]. }
  destruct arg as [|t|d]; [intros H | destruct (str_in t _); [intros H | destruct (String.eqb t "next"); [intros H|]] | apply Hon].
  - destruct (List.filter _ es) as [|y r]; [now apply Hlast | injection H as <-; apply Hup; now left].
  - destruct (List.filter _ es) as [|y r]; [now apply Hlast | injection H as <-; apply Hup; now left].
  - destruct (List.filter _ es) as [|y [|z r]]; [now apply Hlast | |]; injection H as <-; apply Hup; [now left | right; now left].
  - destruct (fromisoformat t); [apply Hon | discriminate].
Qed.

(** ** What the name of an expiry means

    Among the listed expiries [es]: the first one not yet past, the second one,
    or the one nearest a written date (that very date when it is listed); the
    latest when all are past. *)
Definition expiry_asked (today : Z) (es : list Z) (text : string) (e : Z) : Prop :=
  let first x := In x es /\ today <= x /\ forall d, In d es -> today <= d -> x <= d in
  let all_past := forall d, In d es -> d < today /\ d <= e in
  In e es /\
  if String.eqb text "current" || String.eqb text "nearest" then first e \/ all_past
  else if String.eqb text "next" then
    (exists x, first x /\ x < e /\ forall d, In d es -> x < d -> e <= d) \/ (forall d, In d es -> today <= d <-> d = e) \/ all_past
  else exists d, fromisoformat text = Some d /\ forall d', In d' es -> Z.abs (e - d) <= Z.abs (d' - d).
Lemma nearest_date_least target l : forall best x, x = best \/ In x l -> Z.abs (nearest_date target best l - target) <= Z.abs (x - target).
Proof.
  induction l as [|y l IH]; intros best x Hx; cbn; [destruct Hx as [->|[]]; lia|].
  destruct (Z.ltb_spec (Z.abs (y - target)) (Z.abs (best - target))) as [L|L]; destruct Hx as [->|[->|Hx]];
    try (apply IH; now right); try (apply IH; now left).
  - pose proof (IH y y (or_introl eq_refl)). lia.
  - pose proof (IH best best (or_introl eq_refl)). lia.
Qed.
Lemma sorted_last (l : list Z) e : StronglySorted Z.le l -> last l = Some e -> forall d, In d l -> d <= e.
Proof.
  intros S (l0 & ->)%last_Some d Hd. apply StronglySorted_app in S as (_ & _ & S). apply in_app_or in Hd as [Hd|[->|[]]]; [|lia].
  apply S; [exact Hd | now left].
Qed.
Lemma resolve_expiry_asked today m u text e : let es := map fst (tree_get (key_of u) m.(_tree)) in
  NoDup es -> resolve_expiry today m u (ExpiryText text) = Some e -> expiry_asked today es text e.
Proof.
  cbv zeta. set (es := map fst _). intros N E. pose proof (resolve_expiry_listed _ _ _ _ _ E) as He. revert E. unfold resolve_expiry.
  unfold list_expiries in *. fold es in He |- *. cbv zeta.
  assert (StronglySorted Z.le (sort_by Z.leb es)) as S.
  { eapply StronglySorted_weaken; [|apply Sorted_sort_by_in; [intros a b _ _|intros a b c]; rewrite ?Z.leb_le; lia]. intros a b. apply Z.leb_le. }
  assert (forall d, In d (sort_by Z.leb es) <-> In d es) as I by (intros; apply In_sort_by).
  assert (NoDup (sort_by Z.leb es)) as N' by now rewrite sort_by_Permutation.
  clear N. revert S I N' He. generalize (sort_by Z.leb es). intros l S I N He.
  assert (forall d, last l = Some d -> (forall x, In x l -> x < today) -> forall d', In d' es -> d' < today /\ d' <= d) as Past.
  { intros d L P d' Hd. apply I in Hd. split; [now apply P | now apply (sorted_last l)]. }
  assert (forall x, In x (List.filter (fun e => today <=? e) l) <-> In x es /\ today <= x) as U by (intros x; rewrite List.filter_In, I, Z.leb_le; tauto).
  assert (StronglySorted Z.le (List.filter (fun e => today <=? e) l) /\ NoDup (List.filter (fun e => today <=? e) l)) as [SU NU].
  { split; [now apply StronglySorted_filter | now apply NoDup_ListNoDup, List.NoDup_filter, NoDup_ListNoDup]. }
  unfold expiry_asked. destruct l as [|x0 l0]; [discriminate|]. set (l := x0 :: l0) in *. intros E. split; [now apply I|]. revert E.
  assert (List.filter (fun e => today <=? e) l = [] -> forall x, In x l -> x < today) as None'.
  { intros F x Hx. destruct (Z.lt_ge_cases x today) as [C|C]; [exact C|]. assert (In x []) as []. rewrite <- F. now apply U; split; [apply I|]. }
  assert (match List.filter (fun e => today <=? e) l with e :: _ => Some e | [] => last l end = Some e ->
          (In e es /\ today <= e /\ (forall d, In d es -> today <= d -> e <= d)) \/ (forall d, In d es -> d < today /\ d <= e)) as First.
  { destruct (List.filter _ l) as [|x r] eqn:F; [intros L; right; now apply Past; auto|]. intros [= ->]. left. destruct (proj1 (U e)) as [H1 H2]; [now left|].
    split; [exact H1|]. split; [exact H2|]. intros d H3 H4. apply StronglySorted_inv in SU as [_ SU]. rewrite Forall_forall in SU.
    destruct (proj2 (U d) (conj H3 H4)) as [->|Hd]; [lia | now apply SU, list_elem_of_In]. }
  unfold str_in. cbn [existsb]. rewrite orb_false_r. destruct (String.eqb text "current" || String.eqb text "nearest"); [exact First|].
  destruct (String.eqb text "next").
  - destruct (List.filter _ l) as [|x [|y r]] eqn:F; intros E; [right; right; now apply Past; auto| |]; injection E as ->.
    + right; left. intros d Hd. split; [intros T | intros ->; now apply U; left]. destruct (proj2 (U d) (conj Hd T)) as [->|[]]. reflexivity.
    + left. exists x. apply StronglySorted_inv in SU as [SU Hx]. apply StronglySorted_inv in SU as [_ Hy]. rewrite Forall_forall in Hx, Hy.
      apply NoDup_cons in NU as [Nx _]. destruct (proj1 (U x)) as [X1 X2]; [now left|].
      assert (x < e) as L by (assert (x <= e) by (apply Hx, list_elem_of_In; now left); assert (x <> e) by (intros ->; apply Nx; now left); lia).
      assert (forall d, In d es -> today <= d -> d = x \/ e <= d) as K.
      { intros d H1 H2. destruct (proj2 (U d) (conj H1 H2)) as [->|[->|Hd]]; [now left | right; lia|]. right. now apply Hy, list_elem_of_In. }
      split; [|split; [exact L|]].
      * split; [exact X1|]. split; [exact X2|]. intros d H1 H2. destruct (K d H1 H2); lia.
      * intros d H1 H2. destruct (K d H1); lia.
  - destruct (fromisoformat text) as [d|]; [|discriminate]. intros E. exists d. split; [reflexivity|]. intros d' Hd. apply I in Hd. revert E.
    destruct (existsb (Z.eqb d) l) eqn:X; intros [= <-]; [lia|]. apply nearest_date_least. destruct Hd as [->|Hd]; auto.
Qed.
(** A loaded universe lists each expiry once: they are the keys of a dictionary. *)
Lemma keys_dset_Z {V} k (v : V) d : NoDup (map fst d) -> NoDup (map fst (dset Z.eqb k v d)).
Proof.
  intros N. rewrite keys_dset. destruct (existsb _ _) eqn:X; [exact N|]. rewrite Permutation_app_comm. constructor; [|exact N]. intros Hk.
  apply not_true_iff_false in X. apply X, existsb_exists. exists k. split; [now apply list_elem_of_In | apply Z.eqb_refl].
Qed.
Lemma load_lists_once l as_of source m u : NoDup (map fst (tree_get u (snd (load l as_of source m)).(_tree))).
Proof.
  unfold load. assert (forall acc, (forall u, NoDup (map fst (tree_get u (snd (fst acc))))) ->
    forall u, NoDup (map fst (tree_get u (snd (fst (fold_left (fun acc i => load_one i acc) l acc)))))) as K.
  { induction l as [|i l IH]; intros acc H; [exact H|]. apply IH. unfold load_one. destruct (contract_of i) as [[[[u' e] k] ot]|]; [|exact H].
    destruct acc as [[a t] n]. cbn in *. intros w. unfold tree_get, tree_set at 1. rewrite dget_dset_string. destruct (String.eqb w u').
    - cbn. apply keys_dset_Z, H.
    - apply H. }
  specialize (K ([], [], 0) (fun u => NoDup_nil_2)). destruct (fold_left _ l _) as [[a t] n]. apply K.
Qed.
