(* ===== verification/MarketDb.v ===== *)
(** * The market-data tables

    [trading/market_data/models.py] and a session on them.  Reads and commits of
    this session interleave with the commits of other connections: one of them
    may run before each database operation ([w_others]).  A commit applies the
    pending rows when every constraint holds and raises [IntegrityError]
    otherwise, leaving the committed tables as they are. *)
From S2P Require Import Prelude PyStr PyFloat Symbols.

Record MarketCandleRow : Type := mkMarketCandle {
  mc_id : Z; mc_timestamp : Z; mc_symbol : string; mc_exchange : string; mc_interval : string;
  mc_open : float; mc_high : float; mc_low : float; mc_close : float; mc_volume : option Z; mc_oi : option Z
}.
Record OptionContractRow : Type := mkOptionContract {
  ct_id : Z; ct_underlying : string; ct_exchange : string; ct_provider : string; ct_provider_token : option string;
  ct_symbol : string; ct_expiry : Z; ct_strike : float; ct_option_type : string; ct_lot_size : option Z;
  ct_tick_size : option float
}.
Record OptionCandleRow : Type := mkOptionCandle {
  oc_id : Z; oc_timestamp : Z; oc_contract_id : Z; oc_open : float; oc_high : float; oc_low : float; oc_close : float;
  oc_volume : option Z; oc_oi : option Z
}.
Record ExpiryCycle : Type := mkCycle {
  cy_id : Z; cy_underlying : string; cy_exchange : string; cy_expiry_date : Z; cy_cycle_start_date : Z;
  cy_cycle_end_date : Z; cy_status : string; cy_completed_at : option Z
}.
Record DailySession : Type := mkSession {
  ds_id : Z; ds_cycle_id : Z; ds_underlying : string; ds_trading_date : Z; ds_spot_0916 : option float;
  ds_atm_strike : option float; ds_atm_ce_contract_id : option Z; ds_atm_pe_contract_id : option Z;
  ds_atm_ce_symbol : option string; ds_atm_pe_symbol : option string; ds_session_status : string
}.
Record OISnapshot : Type := mkSnapshot {
  oi_id : Z; oi_cycle_id : Z; oi_underlying : string; oi_expiry_date : Z; oi_trading_date : Z; oi_timestamp : Z;
  call_oi_total : Z; put_oi_total : Z; call_oi_change : Z; put_oi_change : Z; pcr : option float
}.

Record MDb : Type := mkMDb {
  market_candles : list MarketCandleRow; option_contracts : list OptionContractRow;
  option_candles : list OptionCandleRow; expiry_cycles : list ExpiryCycle;
  daily_sessions : list DailySession; oi_snapshots : list OISnapshot
}.
Definition on_market_candles f (d : MDb) : MDb :=
  mkMDb (f d.(market_candles)) d.(option_contracts) d.(option_candles) d.(expiry_cycles) d.(daily_sessions) d.(oi_snapshots).
Definition on_option_contracts f (d : MDb) : MDb :=
  mkMDb d.(market_candles) (f d.(option_contracts)) d.(option_candles) d.(expiry_cycles) d.(daily_sessions) d.(oi_snapshots).
Definition on_option_candles f (d : MDb) : MDb :=
  mkMDb d.(market_candles) d.(option_contracts) (f d.(option_candles)) d.(expiry_cycles) d.(daily_sessions) d.(oi_snapshots).
Definition on_expiry_cycles f (d : MDb) : MDb :=
  mkMDb d.(market_candles) d.(option_contracts) d.(option_candles) (f d.(expiry_cycles)) d.(daily_sessions) d.(oi_snapshots).
Definition on_daily_sessions f (d : MDb) : MDb :=
  mkMDb d.(market_candles) d.(option_contracts) d.(option_candles) d.(expiry_cycles) (f d.(daily_sessions)) d.(oi_snapshots).
Definition on_oi_snapshots f (d : MDb) : MDb :=
  mkMDb d.(market_candles) d.(option_contracts) d.(option_candles) d.(expiry_cycles) d.(daily_sessions) (f d.(oi_snapshots)).

(** ** Constraints *)
Definition mc_key (c : MarketCandleRow) := (mc_symbol c, mc_exchange c, mc_interval c, mc_timestamp c).
Definition oc_key (c : OptionCandleRow) := (oc_contract_id c, oc_timestamp c).
Definition cy_key (c : ExpiryCycle) := (cy_underlying c, cy_expiry_date c).
Definition ds_key (s : DailySession) := (ds_underlying s, ds_trading_date s).
Definition oi_key (s : OISnapshot) := (oi_underlying s, oi_expiry_date s, oi_trading_date s, oi_timestamp s).
Definition active (c : ExpiryCycle) : bool := String.eqb c.(cy_status) "ACTIVE".
(** A token is unique per provider where it is not null. *)
Definition ct_token (c : OptionContractRow) : option (string * string) := (fun t => (ct_provider c, t)) <$> ct_provider_token c.
Definition ct_natural (c : OptionContractRow) := (ct_underlying c, ct_exchange c, ct_expiry c, ct_strike c, ct_option_type c).
Definition id_in {A} (id : A -> Z) (rows : list A) (x : Z) : bool := existsb (fun r => id r =? x) rows.
Definition fk_null {A} (id : A -> Z) (rows : list A) (x : option Z) : bool := match x with Some i => id_in id rows i | None => true end.

Definition mdb_ok (d : MDb) : bool :=
  (unique_on mc_id d.(market_candles) && unique_on mc_key d.(market_candles)) &&
  (unique_on ct_id d.(option_contracts) && unique_on ct_symbol d.(option_contracts) &&
   bool_decide (NoDup (omap ct_token d.(option_contracts))) && unique_on ct_natural d.(option_contracts)) &&
  (unique_on oc_id d.(option_candles) && unique_on oc_key d.(option_candles) &&
   forallb (fun c => id_in ct_id d.(option_contracts) c.(oc_contract_id)) d.(option_candles)) &&
  (unique_on cy_id d.(expiry_cycles) && unique_on cy_key d.(expiry_cycles) &&
   unique_on cy_underlying (List.filter active d.(expiry_cycles))) &&
  (unique_on ds_id d.(daily_sessions) && unique_on ds_key d.(daily_sessions) &&
   forallb (fun s => id_in cy_id d.(expiry_cycles) s.(ds_cycle_id) &&
                     fk_null ct_id d.(option_contracts) s.(ds_atm_ce_contract_id) &&
                     fk_null ct_id d.(option_contracts) s.(ds_atm_pe_contract_id)) d.(daily_sessions)) &&
  (unique_on oi_id d.(oi_snapshots) && unique_on oi_key d.(oi_snapshots) &&
   forallb (fun s => id_in cy_id d.(expiry_cycles) s.(oi_cycle_id)) d.(oi_snapshots)).

(** ** The session *)
Record MWorld : Type := mkMWorld { m_db : MDb; m_others : list (MDb -> MDb); m_now : Z }.
Definition MM (A : Type) : Type := M MWorld exn A.

(** The next commit of another connection, when its constraints hold. *)
Definition settle (w : MWorld) : MWorld :=
  match w.(m_others) with
  | [] => w
  | o :: r => mkMWorld (if mdb_ok (o w.(m_db)) then o w.(m_db) else w.(m_db)) r w.(m_now)
  end.
Definition query {A} (f : MDb -> A) : MM A := fun w => let w := settle w in (Ok (f w.(m_db)), w).
Definition scalar_one_or_none {A} (table : MDb -> list A) (p : A -> bool) : MM (option A) :=
  let! rows := query table in lift (one_or_none p rows).
(** [db.add(...)] / attribute writes / [db.execute(delete ...)], then [db.commit()]. *)
Definition commit_returning {A} (f : MDb -> A * MDb) : MM A := fun w =>
  let w := settle w in
  let '(a, d) := f w.(m_db) in
  if mdb_ok d then (Ok a, mkMWorld d w.(m_others) w.(m_now)) else (Err IntegrityError, w).
Definition commit_with (f : MDb -> MDb) : MM unit := commit_returning (fun d => (tt, f d)).
Definition utcnow : MM Z := gets m_now.

(** ** Lemmas *)
Definition w_ok (w : MWorld) : Prop := mdb_ok w.(m_db) = true.
Lemma settle_ok w : w_ok w -> w_ok (settle w).
Proof. unfold w_ok, settle. destruct (m_others w); [auto|]. cbn. destruct (mdb_ok (m _)) eqn:E; auto. Qed.
Lemma query_ok {A} (f : MDb -> A) : preserves w_ok (query f).
Proof. intros w Hw. cbn. now apply settle_ok. Qed.
Lemma scalar_ok {A} table (p : A -> bool) : preserves w_ok (scalar_one_or_none table p).
Proof. unfold scalar_one_or_none. apply preserves_bind; [apply query_ok | intros; apply preserves_lift]. Qed.
Lemma commit_returning_ok {A} (f : MDb -> A * MDb) : preserves w_ok (commit_returning f).
Proof.
  intros w Hw. unfold commit_returning. destruct (f (m_db (settle w))) as [a d].
  destruct (mdb_ok d) eqn:E; cbn; [exact E | now apply settle_ok].
Qed.
Lemma commit_with_ok f : preserves w_ok (commit_with f).
Proof. apply commit_returning_ok. Qed.
Lemma utcnow_ok : preserves w_ok utcnow.
Proof. apply preserves_gets. Qed.
#[export] Hint Resolve query_ok scalar_ok commit_returning_ok commit_with_ok utcnow_ok : preserves.

(** Alone, nothing happens between two operations. *)
Definition alone (w : MWorld) : Prop := w.(m_others) = [].
Lemma settle_alone w : alone w -> settle w = w.
Proof. unfold alone, settle. now intros ->. Qed.
