(* ===== verification/Candles.v ===== *)
(** * One-minute candles

    [trading/market_data/aggregator.py] and [retention.py]: the buckets of the
    aggregator, their closing, the batched and idempotent writes, the purge of
    old rows.  Each call of the aggregator is one step, the forced close of the day
    included.  A time stamp is a UTC microsecond count, so the backends' naive and
    aware values compare alike. *)
From S2P Require Import Prelude PyStr PyFloat Symbols MarketTime MarketCache MarketDb.

(** ** Buckets *)
Definition _minute_start (ts : Z) : Z := ts - ts mod minute_us.

Record _Bucket : Type := mkBucket {
  b_minute : Z; b_open : float; b_high : float; b_low : float; b_close : float; b_volume : option Z; b_oi : option Z
}.
Definition or_else {A} (new old : option A) : option A := match new with Some _ => new | None => old end.
Definition update (price : float) (volume oi : option Z) (b : _Bucket) : _Bucket :=
  mkBucket b.(b_minute) b.(b_open) (f_max b.(b_high) price) (f_min b.(b_low) price) price
    (or_else volume b.(b_volume)) (or_else oi b.(b_oi)).
Definition new_bucket (m : Z) (price : float) (volume oi : option Z) : _Bucket :=
  mkBucket m price price price price volume oi.

Record _Series : Type := mkSeries { s_current : option _Bucket; s_finished : list _Bucket; s_last_closed : option Z }.
Definition new_series : _Series := mkSeries None [] None.
Definition already_closed (m : Z) (s : _Series) : bool :=
  match s.(s_last_closed) with Some c => m <=? c | None => false end.

Definition add (ts : Z) (price : float) (volume oi : option Z) (s : _Series) : _Series :=
  let m := _minute_start ts in
  if already_closed m s then s
  else
    match s.(s_current) with
    | None => mkSeries (Some (new_bucket m price volume oi)) s.(s_finished) s.(s_last_closed)
    | Some b =>
        if m =? b.(b_minute) then mkSeries (Some (update price volume oi b)) s.(s_finished) s.(s_last_closed)
        else if b.(b_minute) <? m then
          mkSeries (Some (new_bucket m price volume oi)) (s.(s_finished) ++ [b]) s.(s_last_closed)
        else s
    end.
Definition later (last_closed : option Z) (b : _Bucket) : option Z :=
  match last_closed with
  | None => Some b.(b_minute)
  | Some c => if c <? b.(b_minute) then Some b.(b_minute) else Some c
  end.
Definition close_through (now_minute : Z) (s : _Series) : list _Bucket * _Series :=
  let '(out, current) := match s.(s_current) with
                         | Some b => if b.(b_minute) <? now_minute then (s.(s_finished) ++ [b], None)
                                     else (s.(s_finished), Some b)
                         | None => (s.(s_finished), None)
                         end in
  (out, mkSeries current [] (fold_left later out s.(s_last_closed))).
(** [series.finished.append(series.current)], at the end of the day. *)
Definition finish (s : _Series) : _Series :=
  match s.(s_current) with Some b => mkSeries None (s.(s_finished) ++ [b]) s.(s_last_closed) | None => s end.

(** ** [CandleAggregator] *)
Record CandleAggregator : Type := mkAggregator {
  ag_interval : string; _index : list ((string * string) * _Series); _option : list (Z * _Series)
}.
Definition new_aggregator : CandleAggregator := mkAggregator "1minute" [] [].
Definition key_eqb (a b : string * string) : bool := String.eqb (fst a) (fst b) && String.eqb (snd a) (snd b).
Definition on_index_tick (symbol exchange : string) (price : float) (ts : Z) (volume oi : option Z)
    (a : CandleAggregator) : CandleAggregator :=
  let key := (symbol, exchange) in
  let s := default new_series (dget key_eqb key a.(_index)) in
  mkAggregator a.(ag_interval) (dset key_eqb key (add ts price volume oi s) a.(_index)) a.(_option).
Definition on_option_tick (contract_id : Z) (price : float) (ts : Z) (volume oi : option Z)
    (a : CandleAggregator) : CandleAggregator :=
  let s := default new_series (dget Z.eqb contract_id a.(_option)) in
  mkAggregator a.(ag_interval) a.(_index) (dset Z.eqb contract_id (add ts price volume oi s) a.(_option)).

Definition _to_candle (symbol interval : string) (b : _Bucket) : Candle :=
  mkCandle symbol interval b.(b_minute) b.(b_open) b.(b_high) b.(b_low) b.(b_close) b.(b_volume) b.(b_oi).
Definition index_item : Type := string * string * Candle.
Definition option_item : Type := Z * Candle.
Definition close_all {K} (now_minute : Z) (d : list (K * _Series)) : list (K * list _Bucket) * list (K * _Series) :=
  (map (fun kv => (fst kv, fst (close_through now_minute (snd kv)))) d,
   map (fun kv => (fst kv, snd (close_through now_minute (snd kv)))) d).
Definition flush (now : Z) (a : CandleAggregator) : list index_item * list option_item * CandleAggregator :=
  let now_minute := _minute_start now in
  let '(idx, index') := close_all now_minute a.(_index) in
  let '(opt, option') := close_all now_minute a.(_option) in
  (flat_map (fun kv : (string * string) * list _Bucket =>
     map (fun b => (fst (fst kv), snd (fst kv), _to_candle (fst (fst kv)) a.(ag_interval) b)) (snd kv)) idx,
   flat_map (fun kv : Z * list _Bucket =>
     map (fun b => (fst kv, _to_candle ("contract:" +:+ str_of_Z (fst kv)) a.(ag_interval) b)) (snd kv)) opt,
   mkAggregator a.(ag_interval) index' option').
(** The end of the day: every series is finished under the lock, then flushed
    under the lock taken again.  The two are one step here, as when no tick comes
    in between; [tick_between_finish_and_flush] shows one that does. *)
Definition finish_all (a : CandleAggregator) : CandleAggregator :=
  mkAggregator a.(ag_interval) (map (fun kv => (fst kv, finish (snd kv))) a.(_index))
    (map (fun kv => (fst kv, finish (snd kv))) a.(_option)).
Definition force_close_all (now : Z) (a : CandleAggregator) : list index_item * list option_item * CandleAggregator :=
  flush (now + minute_us) (finish_all a).

(** ** Persistence *)
Definition market_row (id : Z) (i : index_item) : MarketCandleRow :=
  let '(symbol, exchange, c) := i in
  mkMarketCandle id c.(c_timestamp) symbol exchange c.(c_interval) c.(c_open) c.(c_high) c.(c_low) c.(c_close)
    c.(c_volume) c.(c_oi).
Definition option_row (id : Z) (i : option_item) : OptionCandleRow :=
  let '(cid, c) := i in
  mkOptionCandle id c.(c_timestamp) cid c.(c_open) c.(c_high) c.(c_low) c.(c_close) c.(c_volume) c.(c_oi).
Definition add_market (i : index_item) : MDb -> MDb :=
  on_market_candles (fun rows => rows ++ [market_row (next_id mc_id rows) i]).
Definition add_option (i : option_item) : MDb -> MDb :=
  on_option_candles (fun rows => rows ++ [option_row (next_id oc_id rows) i]).
Definition add_all {A} (add1 : A -> MDb -> MDb) (items : list A) (d : MDb) : MDb :=
  fold_left (fun d i => add1 i d) items d.
(** One row at a time; a row that conflicts is already there. *)
Fixpoint commit_each {A} (add1 : A -> MDb -> MDb) (items : list A) (written : Z) : MM Z :=
  match items with
  | [] => ret written
  | i :: r =>
      let! ok := try_except (commit_with (add1 i) ;;; ret true)
                   (fun e => match e with IntegrityError => ret false | _ => raise e end) in
      commit_each add1 r (if ok then written + 1 else written)
  end.
Definition _commit_rows {A} (add1 : A -> MDb -> MDb) (items : list A) : MM Z :=
  match items with
  | [] => ret 0
  | _ =>
      try_except (commit_with (add_all add1 items) ;;; ret (Z.of_nat (List.length items)))
        (fun e => match e with IntegrityError => commit_each add1 items 0 | _ => raise e end)
  end.

Definition list_min (d : Z) (l : list Z) : Z := fold_left Z.min l d.
Definition list_max (d : Z) (l : list Z) : Z := fold_left Z.max l d.
Definition item_ts (i : index_item) : Z := c_timestamp (snd i).
Definition span (ts : list Z) : Z * Z := match ts with [] => (0, 0) | t :: r => (list_min t r, list_max t r) end.
Definition item_key (i : index_item) := let '(s, x, c) := i in (s, x, c.(c_interval), c.(c_timestamp)).
Definition _existing_index_keys (items : list index_item) : MM (list (string * string * string * Z)) :=
  let '(lo, hi) := span (map item_ts items) in
  query (fun d => map mc_key (List.filter (fun r => str_in r.(mc_symbol) (map (fun i => fst (fst i)) items) &&
                                            (lo <=? r.(mc_timestamp)) && (r.(mc_timestamp) <=? hi)) d.(market_candles))).
Definition _existing_option_keys (items : list option_item) : MM (list (Z * Z)) :=
  let '(lo, hi) := span (map (fun i => c_timestamp (snd i)) items) in
  query (fun d => map oc_key (List.filter (fun r => existsb (Z.eqb r.(oc_contract_id)) (map fst items) &&
                                            (lo <=? r.(oc_timestamp)) && (r.(oc_timestamp) <=? hi)) d.(option_candles))).
Definition persist_index_candles (items : list index_item) : MM Z :=
  match items with
  | [] => ret 0
  | _ =>
      let! existing := _existing_index_keys items in
      _commit_rows add_market (List.filter (fun i => negb (bool_decide (item_key i ∈ existing))) items)
  end.
Definition persist_option_candles (items : list option_item) : MM Z :=
  match items with
  | [] => ret 0
  | _ =>
      let! existing := _existing_option_keys items in
      _commit_rows add_option (List.filter (fun i => negb (bool_decide ((fst i, c_timestamp (snd i)) ∈ existing))) items)
  end.

(** ** [retention.py] *)
Definition older {A} (ts : A -> Z) (before : Z) (r : A) : bool := ts r <? before.
Definition purge_market_candles (before : Z) : MM Z :=
  commit_returning (fun d =>
    (Z.of_nat (List.length (List.filter (older mc_timestamp before) d.(market_candles))),
     on_market_candles (delete_where (older mc_timestamp before)) d)).
Definition purge_option_candles (before : Z) : MM Z :=
  commit_returning (fun d =>
    (Z.of_nat (List.length (List.filter (older oc_timestamp before) d.(option_candles))),
     on_option_candles (delete_where (older oc_timestamp before)) d)).
Definition day_us : Z := 86400 * 1000000.
(** The counts, and the two cutoffs. *)
Definition run_retention (index_days option_days : Z) (now : option Z) (dry_run : bool) : MM (bool * Z * Z * Z * Z) :=
  let! now := match now with Some t => ret t | None => utcnow end in
  let idx_before := now - index_days * day_us in
  let opt_before := now - option_days * day_us in
  if dry_run then
    let! idx_n := query (fun d => List.length (List.filter (older mc_timestamp idx_before) d.(market_candles))) in
    let! opt_n := query (fun d => List.length (List.filter (older oc_timestamp opt_before) d.(option_candles))) in
    ret (true, Z.of_nat idx_n, Z.of_nat opt_n, idx_before, opt_before)
  else
    let! idx_n := purge_market_candles idx_before in
    let! opt_n := purge_option_candles opt_before in
    ret (false, idx_n, opt_n, idx_before, opt_before).

(** ** The reference candle

    The ticks of a minute, in the order they arrived. *)
Record Tick : Type := mkTick { t_ts : Z; t_price : float; t_volume : option Z; t_oi : option Z }.
Definition minute_of (t : Tick) : Z := _minute_start t.(t_ts).
Definition ticks_at (m : Z) (acc : list Tick) : list Tick := List.filter (fun t => minute_of t =? m) acc.
Definition last_some {A} (l : list (option A)) : option A := fold_left (fun a v => or_else v a) l None.
Definition candle_of (m : Z) (ticks : list Tick) : option _Bucket :=
  match ticks with
  | [] => None
  | t :: r =>
      Some (mkBucket m t.(t_price) (fold_left f_max (map t_price r) t.(t_price)) (fold_left f_min (map t_price r) t.(t_price))
              (List.last (map t_price ticks) t.(t_price)) (last_some (map t_volume ticks)) (last_some (map t_oi ticks)))
  end.
Definition reference (acc : list Tick) (m : Z) : option _Bucket := candle_of m (ticks_at m acc).

Lemma ticks_at_snoc m acc t : ticks_at m (acc ++ [t]) = ticks_at m acc ++ (if minute_of t =? m then [t] else []).
Proof. unfold ticks_at. rewrite List.filter_app. cbn. now destruct (minute_of t =? m). Qed.
Lemma last_some_snoc {A} (l : list (option A)) v : last_some (l ++ [v]) = or_else v (last_some l).
Proof. unfold last_some. now rewrite fold_left_app. Qed.
Lemma candle_of_snoc m ticks t b : candle_of m ticks = Some b ->
  candle_of m (ticks ++ [t]) = Some (update t.(t_price) t.(t_volume) t.(t_oi) b).
Proof.
  destruct ticks as [|t0 r]; [discriminate|]. cbn [candle_of]. intros [= <-]. cbn [app candle_of]. unfold update. cbn [b_minute b_open b_high b_low b_close b_volume b_oi].
  rewrite map_app, !fold_left_app. cbn [fold_left map t_price].
  assert (forall A (f : Tick -> A), f t0 :: map f r ++ [f t] = (f t0 :: map f r) ++ [f t]) as E by reflexivity.
  rewrite !map_app. cbn [map]. rewrite !E, List.last_last, !last_some_snoc. reflexivity.
Qed.
Lemma reference_other acc t m : minute_of t <> m -> reference (acc ++ [t]) m = reference acc m.
Proof. intros H. unfold reference. rewrite ticks_at_snoc. apply Z.eqb_neq in H. now rewrite H, app_nil_r. Qed.
Lemma reference_more acc t b : reference acc (minute_of t) = Some b ->
  reference (acc ++ [t]) (minute_of t) = Some (update t.(t_price) t.(t_volume) t.(t_oi) b).
Proof. intros H. unfold reference. rewrite ticks_at_snoc, Z.eqb_refl. now apply candle_of_snoc. Qed.
Lemma reference_first acc t : (forall x, In x acc -> minute_of x <> minute_of t) ->
  reference (acc ++ [t]) (minute_of t) = Some (new_bucket (minute_of t) t.(t_price) t.(t_volume) t.(t_oi)).
Proof.
  intros H. unfold reference. rewrite ticks_at_snoc, Z.eqb_refl.
  assert (ticks_at (minute_of t) acc = []) as ->.
  { unfold ticks_at. induction acc as [|x acc IH]; [reflexivity|]. cbn.
    rewrite (proj2 (Z.eqb_neq _ _) (H x (or_introl eq_refl))). apply IH. intros y Hy. apply H. now right. }
  destruct t as [ts p [v|] [o|]]; reflexivity.
Qed.

(** ** A series under ticks and closings *)
Inductive op : Type := OTick (t : Tick) | OClose (now_minute : Z) | OForce (now_minute : Z).
(** The ticks a series takes: not for a closed minute, nor before the open one. *)
Definition takes (t : Tick) (s : _Series) : bool :=
  negb (already_closed (minute_of t) s) &&
  match s.(s_current) with Some b => b.(b_minute) <=? minute_of t | None => true end.
Record History : Type := mkHistory { h_taken : list Tick; h_emitted : list _Bucket; h_series : _Series }.
Definition step (h : History) (o : op) : History :=
  match o with
  | OTick t =>
      mkHistory (if takes t h.(h_series) then h.(h_taken) ++ [t] else h.(h_taken)) h.(h_emitted)
        (add t.(t_ts) t.(t_price) t.(t_volume) t.(t_oi) h.(h_series))
  | OClose m => let '(out, s) := close_through m h.(h_series) in mkHistory h.(h_taken) (h.(h_emitted) ++ out) s
  | OForce m => let '(out, s) := close_through m (finish h.(h_series)) in mkHistory h.(h_taken) (h.(h_emitted) ++ out) s
  end.
Definition history (ops : list op) : History := fold_left step ops (mkHistory [] [] new_series).
Definition held (s : _Series) : list _Bucket := s.(s_finished) ++ match s.(s_current) with Some b => [b] | None => [] end.

Definition below (l : list _Bucket) (m : Z) : Prop := Forall (fun b => b.(b_minute) < m) l.
Fixpoint increasing (l : list _Bucket) : Prop :=
  match l with [] => True | b :: r => Forall (fun c => b.(b_minute) < c.(b_minute)) r /\ increasing r end.
Lemma increasing_snoc l b : increasing (l ++ [b]) <-> increasing l /\ below l b.(b_minute).
Proof.
  unfold below. induction l as [|c l IH]; cbn; [repeat split; auto|]. rewrite IH, Forall_app, !Forall_cons, Forall_nil. tauto.
Qed.

Record good (h : History) : Prop := {
  g_increasing : increasing (h.(h_emitted) ++ held h.(h_series));
  g_reference : Forall (fun b => reference h.(h_taken) b.(b_minute) = Some b) (h.(h_emitted) ++ held h.(h_series));
  g_complete : forall t, In t h.(h_taken) -> In (minute_of t) (map b_minute (h.(h_emitted) ++ held h.(h_series)));
  g_finished : s_current h.(h_series) = None -> s_finished h.(h_series) = [];
  g_closed : match s_last_closed h.(h_series) with
             | Some c => Forall (fun b => b.(b_minute) <= c) h.(h_emitted) /\ Forall (fun b => c < b.(b_minute)) (held h.(h_series)) /\
                         In c (map b_minute h.(h_emitted))
             | None => h.(h_emitted) = []
             end
}.

Lemma held_snoc_current s b : s_current s = Some b -> held s = s_finished s ++ [b].
Proof. unfold held. now intros ->. Qed.
Lemma in_minutes l b : In b l -> In (b_minute b) (map b_minute l).
Proof. apply in_map. Qed.
Lemma increasing_below l b : increasing (l ++ [b]) -> below l (b_minute b).
Proof. now intros [_ H]%increasing_snoc. Qed.

Lemma reference_keep acc t l : Forall (fun b => b.(b_minute) <> minute_of t) l ->
  Forall (fun b => reference acc b.(b_minute) = Some b) l ->
  Forall (fun b => reference (acc ++ [t]) b.(b_minute) = Some b) l.
Proof.
  intros Hne H. apply List.Forall_forall. intros b Hb. rewrite List.Forall_forall in *.
  rewrite reference_other; [auto | apply not_eq_sym, Hne, Hb].
Qed.
Lemma below_ne l m : below l m -> Forall (fun b => b.(b_minute) <> m) l.
Proof. intros H. eapply Forall_impl; [exact H|]. cbn. lia. Qed.
Lemma reference_minute acc m b : reference acc m = Some b -> b.(b_minute) = m.
Proof. unfold reference, candle_of. destruct (ticks_at m acc); [discriminate|]. now intros [= <-]. Qed.

(** A tick that opens a minute later than everything so far. *)
Lemma good_open h t fin c : good h ->
  below (h_emitted h ++ held (h_series h)) (minute_of t) ->
  fin = held (h_series h) -> c = new_bucket (minute_of t) t.(t_price) t.(t_volume) t.(t_oi) ->
  match s_last_closed (h_series h) with Some x => x < minute_of t | None => True end ->
  good (mkHistory (h_taken h ++ [t]) (h_emitted h) (mkSeries (Some c) fin (s_last_closed (h_series h)))).
Proof.
  intros [G1 G2 G3 G4 G5] Hb -> -> Hc. assert (h_emitted h ++ held (h_series h) ++ [new_bucket (minute_of t) (t_price t) (t_volume t) (t_oi t)]
    = (h_emitted h ++ held (h_series h)) ++ [new_bucket (minute_of t) (t_price t) (t_volume t) (t_oi t)]) as E by now rewrite app_assoc.
  constructor; cbn [h_emitted h_series h_taken s_current s_last_closed s_finished]; unfold held at 1; cbn [s_current s_finished]; rewrite ?E.
  - apply increasing_snoc. split; [exact G1 | exact Hb].
  - apply Forall_app. split; [now apply reference_keep; [apply below_ne|]|]. constructor; [|constructor]. cbn.
    apply reference_first. intros x Hx Hm. specialize (G3 x Hx). apply in_map_iff in G3 as (b & Eb & Hbin).
    unfold below in Hb. rewrite List.Forall_forall in Hb. specialize (Hb b Hbin). lia.
  - intros x Hx. apply in_app_or in Hx as [Hx|[<-|[]]]; rewrite map_app; apply in_or_app; [left; now apply G3 | right; now left].
  - discriminate.
  - destruct (s_last_closed (h_series h)) as [x|]; [|exact G5]. destruct G5 as (G5a & G5b & G5c). split; [exact G5a|]. split; [|exact G5c].
    unfold held at 1. cbn. apply Forall_app. split; [exact G5b | now repeat constructor].
Qed.
Lemma good_update h t b : good h -> s_current (h_series h) = Some b -> minute_of t = b.(b_minute) ->
  good (mkHistory (h_taken h ++ [t]) (h_emitted h)
    (mkSeries (Some (update t.(t_price) t.(t_volume) t.(t_oi) b)) (s_finished (h_series h)) (s_last_closed (h_series h)))).
Proof.
  intros [G1 G2 G3 G4 G5] Hb Hm. rewrite (held_snoc_current _ _ Hb) in *. set (b' := update _ _ _ b).
  assert (held (mkSeries (Some b') (s_finished (h_series h)) (s_last_closed (h_series h))) = s_finished (h_series h) ++ [b']) as Hh by reflexivity.
  rewrite app_assoc in G1, G2, G3. apply increasing_snoc in G1 as [G1 G1b]. apply Forall_app in G2 as [G2 G2b].
  apply Forall_cons in G2b as [G2b _].
  constructor; cbn [h_emitted h_series h_taken s_current s_last_closed s_finished]; rewrite ?Hh, ?app_assoc.
  - apply increasing_snoc. split; [exact G1 | exact G1b].
  - apply Forall_app. split; [apply reference_keep; [rewrite Hm; now apply below_ne | exact G2]|]. constructor; [|constructor].
    change (b_minute b') with (b_minute b). rewrite <- Hm in G2b |- *. apply reference_more, G2b.
  - intros x Hx. rewrite map_app. apply in_app_or in Hx as [Hx|[<-|[]]].
    + specialize (G3 x Hx). rewrite map_app in G3. exact G3.
    + apply in_or_app. right. left. exact (eq_sym Hm).
  - discriminate.
  - destruct (s_last_closed (h_series h)) as [x|]; [|exact G5]. destruct G5 as (G5a & G5b & G5c). split; [exact G5a|]. split; [|exact G5c].
    apply Forall_app in G5b as [H1 H2]. apply Forall_cons in H2 as [H2 _].
    apply Forall_app. split; [exact H1 | constructor; [exact H2 | constructor]].
Qed.
Lemma good_tick h t : good h -> good (step h (OTick t)).
Proof.
  intros G. pose proof G as [G1 G2 G3 G4 G5]. cbn [step]. unfold takes, add. fold (minute_of t).
  destruct (already_closed (minute_of t) (h_series h)) eqn:A; cbn [negb andb]; [now destruct h|].
  assert (match s_last_closed (h_series h) with Some x => x < minute_of t | None => True end) as Hc.
  { unfold already_closed in A. destruct (s_last_closed _); [|exact I]. apply Z.leb_gt in A. exact A. }
  assert (below (h_emitted h) (minute_of t)) as He.
  { destruct (s_last_closed (h_series h)) as [x|]; [|rewrite G5; constructor]. destruct G5 as [G5 _].
    eapply Forall_impl; [exact G5|]. cbn. lia. }
  destruct (s_current (h_series h)) as [b|] eqn:Hb.
  - destruct (Z.eqb_spec (minute_of t) (b_minute b)) as [Hm|Hm].
    + rewrite (proj2 (Z.leb_le _ _)) by lia. now apply good_update.
    + destruct (Z.ltb_spec (b_minute b) (minute_of t)) as [Hlt|Hge].
      * rewrite (proj2 (Z.leb_le _ _)) by lia. apply good_open; auto; [|now rewrite (held_snoc_current _ _ Hb)].
        apply Forall_app. split; [exact He|]. rewrite (held_snoc_current _ _ Hb) in *. rewrite app_assoc in G1.
        apply increasing_below in G1. unfold below in G1. apply Forall_app in G1 as [_ G1]. apply Forall_app.
        split; [eapply Forall_impl; [exact G1|]; cbn; lia | now repeat constructor].
      * rewrite (proj2 (Z.leb_gt _ _)) by lia. now destruct h.
  - assert (held (h_series h) = []) as Hh by (unfold held; now rewrite Hb, (G4 eq_refl)).
    apply good_open; auto; [now rewrite Hh, app_nil_r | now rewrite (G4 eq_refl), Hh].
Qed.

(** [last_closed] becomes the newest minute emitted. *)
Lemma fold_later out : forall lc,
  match fold_left later out lc with
  | Some c => Forall (fun b => b.(b_minute) <= c) out /\ match lc with Some c0 => c0 <= c | None => True end /\
              (lc = Some c \/ exists b, In b out /\ b.(b_minute) = c)
  | None => out = [] /\ lc = None
  end.
Proof.
  induction out as [|b out IH]; intros lc; cbn [fold_left].
  - destruct lc; [repeat split; auto; lia | auto].
  - specialize (IH (later lc b)). destruct (fold_left later out (later lc b)) as [c|].
    + destruct IH as (H1 & H2 & H3). unfold later in *. destruct lc as [c0|].
      * destruct (Z.ltb_spec c0 (b_minute b)); (split; [constructor; [lia | exact H1]|]); (split; [lia|]);
          destruct H3 as [[= <-]|(b' & Hi & E)]; try (now left); right; try (exists b; split; [now left | reflexivity]);
          (exists b'; split; [now right | exact E]).
      * split; [constructor; [lia | exact H1]|]. split; [exact I|]. right.
        destruct H3 as [[= <-]|(b' & Hi & E)]; [exists b; split; [now left | reflexivity] | exists b'; split; [now right | exact E]].
    + destruct IH as [_ E]. unfold later in E. destruct lc; [destruct (_ <? _); discriminate | discriminate].
Qed.

(** Emitting the first buckets held and keeping the rest. *)
Lemma good_emit h out cur : good h -> out ++ cur = held (h_series h) ->
  (List.length cur <= 1)%nat ->
  good (mkHistory (h_taken h) (h_emitted h ++ out)
    (mkSeries (head cur) [] (fold_left later out (s_last_closed (h_series h))))).
Proof.
  intros [G1 G2 G3 G4 G5] E Hc. set (s' := mkSeries _ _ _).
  assert (held s' = cur) as Hh by (unfold held; cbn; destruct cur as [|b [|b2 r]]; [reflexivity | reflexivity | cbn in Hc; lia]).
  rewrite <- E in G1, G2, G3, G5. constructor; cbn [h_emitted h_taken h_series]; rewrite ?Hh, <- ?app_assoc; auto.
  pose proof (fold_later out (s_last_closed (h_series h))) as F. unfold s'. cbn [s_last_closed].
  destruct (fold_left later out _) as [c|].
  - destruct F as (F1 & F2 & F3). destruct (s_last_closed (h_series h)) as [c0|].
    + destruct G5 as (G5a & G5b & G5d). apply Forall_app in G5b as [G5b G5c]. split; [|split].
      * apply Forall_app. split; [eapply Forall_impl; [exact G5a|]; cbn; lia | exact F1].
      * destruct F3 as [[= <-]|(b & Hb & <-)]; [exact G5c|]. rewrite app_assoc in G1.
        clear -G1 Hb. induction cur as [|x cur IH] using rev_ind; [constructor|]. rewrite app_assoc in G1.
        apply increasing_snoc in G1 as [G1 Gx]. apply Forall_app. split; [now apply IH|]. constructor; [|constructor].
        unfold below in Gx. rewrite List.Forall_forall in Gx. apply Gx. apply in_or_app. left. apply in_or_app. now right.
      * rewrite map_app. apply in_or_app. destruct F3 as [[= <-]|(b & Hb & <-)]; [now left | right; now apply in_map].
    + rewrite G5 in *. split; [exact F1|]. split; [|destruct F3 as [[=]|(b & Hb & <-)]; now apply in_map]. destruct F3 as [[=]|(b & Hb & <-)].
      clear -G1 Hb. cbn in G1. induction cur as [|x cur IH] using rev_ind; [constructor|]. rewrite app_assoc in G1.
      apply increasing_snoc in G1 as [G1 Gx]. apply Forall_app. split; [now apply IH|]. constructor; [|constructor].
      unfold below in Gx. rewrite List.Forall_forall in Gx. apply Gx. apply in_or_app. now left.
  - destruct F as [-> F]. rewrite F in G5. now rewrite G5.
Qed.
Lemma good_close h m : good h -> good (step h (OClose m)).
Proof.
  intros G. cbn [step]. unfold close_through. destruct (s_current (h_series h)) as [b|] eqn:Hb.
  - destruct (b_minute b <? m).
    + apply (good_emit h (s_finished (h_series h) ++ [b]) []); [exact G | | cbn; lia].
      now rewrite app_nil_r, (held_snoc_current _ _ Hb).
    + apply (good_emit h (s_finished (h_series h)) [b]); [exact G | now rewrite (held_snoc_current _ _ Hb) | cbn; lia].
  - apply (good_emit h (s_finished (h_series h)) []); [exact G | unfold held; now rewrite Hb | cbn; lia].
Qed.
Lemma good_force h m : good h -> good (step h (OForce m)).
Proof.
  intros G. cbn [step]. unfold finish. destruct (s_current (h_series h)) as [b|] eqn:Hb; unfold close_through; cbn [s_current s_finished s_last_closed]; rewrite ?Hb.
  - apply (good_emit h (s_finished (h_series h) ++ [b]) []); [exact G | | cbn; lia].
    now rewrite app_nil_r, (held_snoc_current _ _ Hb).
  - apply (good_emit h (s_finished (h_series h)) []); [exact G | unfold held; now rewrite Hb | cbn; lia].
Qed.
Lemma history_snoc ops o : history (ops ++ [o]) = step (history ops) o.
Proof. unfold history. now rewrite fold_left_app. Qed.
Lemma history_good ops : good (history ops).
Proof.
  induction ops as [|o ops IH] using rev_ind; [constructor; cbn; auto; now intros t []|]. rewrite history_snoc.
  destruct o as [t|m|m]; [now apply good_tick | now apply good_close | now apply good_force].
Qed.

Lemma refused_same h t : takes t h.(h_series) = false -> step h (OTick t) = h.
Proof.
  intros E. cbn [step]. rewrite E. destruct h as [tk em s]. cbn in *. f_equal. unfold takes in E. unfold add. fold (minute_of t).
  destruct (already_closed (minute_of t) s); [reflexivity|]. cbn in E. destruct (s_current s) as [b|]; [|discriminate].
  apply Z.leb_gt in E. rewrite (proj2 (Z.eqb_neq _ _)), (proj2 (Z.ltb_ge _ _)) by lia. reflexivity.
Qed.

(** C33: the candles are what the ticks say: after any sequence of ticks and
    flushes, everything a series has emitted, followed by what it still holds, is
    exactly the reference candle -- open the first price, high and low the
    extremes, close the last price, volume and open interest the last ones given
    -- of each minute in which a tick was taken, once per minute and in strictly
    increasing order of minutes; a tick is refused -- and then changes
    nothing -- only when its minute is not later than one already built. *)
Theorem candles_match_ticks ops :
  let h := history ops in
  let all := h.(h_emitted) ++ held h.(h_series) in
  increasing all /\ Forall (fun b => reference h.(h_taken) b.(b_minute) = Some b) all /\
  (forall t, In t h.(h_taken) -> In (minute_of t) (map b_minute all)) /\
  (forall t, takes t h.(h_series) = false ->
     step h (OTick t) = h /\ exists b, In b all /\ minute_of t <= b.(b_minute)).
Proof.
  intros h all. destruct (history_good ops) as [G1 G2 G3 G4 G5]. split; [exact G1|]. split; [exact G2|]. split; [exact G3|].
  intros t Ht. split; [now apply refused_same|]. unfold takes in Ht. apply andb_false_iff in Ht as [Ht|Ht].
  - apply negb_false_iff in Ht. unfold already_closed in Ht. fold h in G5.
    destruct (s_last_closed (h_series h)) as [c|]; [|discriminate]. destruct G5 as (_ & _ & G5).
    apply in_map_iff in G5 as (b & <- & Hb). exists b. split; [apply in_or_app; now left | now apply Z.leb_le].
  - destruct (s_current (h_series h)) as [b|] eqn:Hb; [|discriminate]. exists b. apply Z.leb_gt in Ht.
    split; [|lia]. unfold all. rewrite (held_snoc_current _ _ Hb). apply in_or_app. right. apply in_or_app. right. now left.
Qed.

(** ** Persistence under concurrent writers

    The other connections may write in between, but not delete candles or
    contracts. *)
Definition keeps (d d' : MDb) : Prop :=
  incl d.(market_candles) d'.(market_candles) /\ incl d.(option_candles) d'.(option_candles) /\
  incl d.(option_contracts) d'.(option_contracts).
#[global] Instance keeps_preorder : PreOrder keeps.
Proof.
  split; [intros d; repeat split; apply incl_refl|]. intros a b c (H1 & H2 & H3) (K1 & K2 & K3).
  repeat split; eapply incl_tran; eauto.
Qed.
Definition appending (w : MWorld) : Prop := Forall (fun o => forall d, keeps d (o d)) w.(m_others).

Lemma settle_keeps w : appending w -> appending (settle w) /\ keeps w.(m_db) (settle w).(m_db).
Proof.
  unfold appending, settle. destruct (m_others w) as [|o r] eqn:E; [intros _; split; [now rewrite E | reflexivity]|].
  intros [Ho Hr]%Forall_cons. cbn. split; [exact Hr|]. destruct (mdb_ok (o (m_db w))); [apply Ho | reflexivity].
Qed.

Section writing.
Context {A : Type} (add1 : A -> MDb -> MDb) (has : A -> MDb -> Prop) (can : A -> MDb -> Prop).
Hypothesis add_keeps : forall i d, keeps d (add1 i d).
Hypothesis add_has : forall i d, has i (add1 i d).
Hypothesis has_keeps : forall i d d', keeps d d' -> has i d -> has i d'.
Hypothesis can_keeps : forall i d d', keeps d d' -> can i d -> can i d'.
(** A refused row is one already there. *)
Hypothesis conflict : forall i d, mdb_ok d = true -> can i d -> mdb_ok (add1 i d) = false -> has i d.

(** [n] rows written at most, every item in the table, nothing lost. *)
Definition written (items : list A) (bound : Z) (w : MWorld) (out : result exn Z * MWorld) : Prop :=
  exists n, fst out = Ok n /\ n <= bound /\ w_ok (snd out) /\ appending (snd out) /\
    keeps w.(m_db) (snd out).(m_db) /\ forall i, In i items -> has i (snd out).(m_db).

Lemma written_intro items bound w n w' : n <= bound -> w_ok w' -> appending w' -> keeps w.(m_db) w'.(m_db) ->
  (forall i, In i items -> has i w'.(m_db)) -> written items bound w (Ok n, w').
Proof. intros. exists n. auto 7. Qed.
Lemma add_all_keeps items : forall d, keeps d (add_all add1 items d) /\ forall i, In i items -> has i (add_all add1 items d).
Proof.
  induction items as [|i r IH]; intros d; [now split|]. cbn. destruct (IH (add1 i d)) as [H1 H2]. split.
  - now transitivity (add1 i d).
  - intros j [<-|Hj]; [eapply has_keeps; [exact H1 | apply add_has] | now apply H2].
Qed.
Lemma commit_each_written items : forall n w, w_ok w -> appending w -> (forall i, In i items -> can i w.(m_db)) ->
  written items (n + Z.of_nat (List.length items)) w (commit_each add1 items n w).
Proof.
  induction items as [|i r IH]; intros n w Hw Ha Hc; cbn [commit_each List.length].
  - apply written_intro; auto; [lia | reflexivity | intros i []].
  - pose proof (settle_keeps w Ha) as [Ha' Hk']. pose proof (settle_ok w Hw) as Hw'.
    unfold bind, try_except, commit_with, commit_returning. cbn.
    assert (can i (m_db (settle w))) as Hci by (eapply can_keeps; [exact Hk'|]; apply Hc; now left).
    assert (forall b w1, w_ok w1 -> appending w1 -> keeps (m_db w) (m_db w1) -> has i (m_db w1) ->
      written (i :: r) (n + Z.of_nat (S (List.length r))) w (commit_each add1 r (if b : bool then n + 1 else n) w1)) as K.
    { intros b w1 H1 H2 H3 H4.
      destruct (IH (if b then n + 1 else n) w1 H1 H2) as (k & E & Hle & Hk1 & Hk2 & Hk3 & Hk4).
      { intros j Hj. eapply can_keeps; [exact H3|]. apply Hc. now right. }
      destruct (commit_each _ _ _ _) as [out w2]. cbn in *. subst out. apply written_intro; auto; [destruct b; lia | now transitivity (m_db w1) |].
      intros j [<-|Hj]; [now apply (has_keeps _ (m_db w1)) | now apply Hk4]. }
    destruct (mdb_ok (add1 i (m_db (settle w)))) eqn:E; cbn.
    + apply (K true); [exact E | exact Ha' | | apply add_has]. cbn. now transitivity (m_db (settle w)).
    + apply (K false); auto.
Qed.
Lemma commit_rows_written items w : w_ok w -> appending w -> (forall i, In i items -> can i w.(m_db)) ->
  written items (Z.of_nat (List.length items)) w (_commit_rows add1 items w).
Proof.
  intros Hw Ha Hc. destruct items as [|i0 r0] eqn:Ei.
  - apply written_intro; auto; [lia | reflexivity | intros i []].
  - unfold _commit_rows. rewrite <- Ei in *. clear Ei i0 r0.
    pose proof (settle_keeps w Ha) as [Ha' Hk']. pose proof (settle_ok w Hw) as Hw'.
    unfold try_except, bind, commit_with, commit_returning. cbn.
    destruct (add_all_keeps items (m_db (settle w))) as [K1 K2].
    destruct (mdb_ok (add_all add1 items (m_db (settle w)))) eqn:E; cbn.
    + apply written_intro; auto; first [lia | cbn; now transitivity (m_db (settle w))].
    + destruct (commit_each_written items 0 (settle w) Hw' Ha') as (k & Ek & Hle & H1 & H2 & H3 & H4).
      { intros i Hi. eapply can_keeps; [exact Hk'|]. now apply Hc. }
      destruct (commit_each _ _ _ _) as [out w2]. cbn in *. subst out. apply written_intro; auto; first [lia | cbn; now transitivity (m_db (settle w))].
Qed.
End writing.

Lemma written_impl {A} (has has' : A -> MDb -> Prop) items bound w out : (forall i d, has i d -> has' i d) ->
  written has items bound w out -> written has' items bound w out.
Proof. intros H (n & H1 & H2 & H3 & H4 & H5 & H6). exists n. auto 8. Qed.

Definition has_index (i : index_item) (d : MDb) : Prop := In (item_key i) (map mc_key d.(market_candles)).
Definition has_option (i : option_item) (d : MDb) : Prop := In (fst i, c_timestamp (snd i)) (map oc_key d.(option_candles)).
Definition listed (i : option_item) (d : MDb) : Prop := In (fst i) (map ct_id d.(option_contracts)).

Lemma unique_on_snoc {A K} `{EqDecision K} (k : A -> K) l x :
  unique_on k l = true -> unique_on k (l ++ [x]) = false -> In (k x) (map k l).
Proof.
  unfold unique_on. intros H1%bool_decide_eq_true H2%bool_decide_eq_false.
  destruct (in_dec EqDecision0 (k x) (map k l)) as [Hi|Hn]; [exact Hi|]. exfalso. apply H2.
  apply NoDup_map_app_one; [exact H1|]. intros y Hy E. apply Hn. rewrite <- E. now apply in_map.
Qed.
Lemma next_id_fresh {A} (id : A -> Z) l x : id x = next_id id l -> unique_on id l = true -> unique_on id (l ++ [x]) = true.
Proof.
  intros E H. destruct (unique_on id (l ++ [x])) eqn:U; [reflexivity|].
  pose proof (unique_on_snoc _ _ _ H U) as Hi. apply in_map_iff in Hi as (y & Ey & Hy).
  pose proof (next_id_above id l y Hy). lia.
Qed.
Lemma mdb_ok_parts d : mdb_ok d = true ->
  (unique_on mc_id d.(market_candles) = true /\ unique_on mc_key d.(market_candles) = true) /\
  unique_on oc_id d.(option_candles) = true /\ unique_on oc_key d.(option_candles) = true /\
  forallb (fun c => id_in ct_id d.(option_contracts) c.(oc_contract_id)) d.(option_candles) = true.
Proof. unfold mdb_ok. rewrite !andb_true_iff. tauto. Qed.
Lemma mdb_ok_add_market i d : mdb_ok d = true ->
  unique_on mc_key (d.(market_candles) ++ [market_row (next_id mc_id d.(market_candles)) i]) = true -> mdb_ok (add_market i d) = true.
Proof.
  intros H1 H2. pose proof (mdb_ok_parts d H1) as [[P1 _] _]. unfold mdb_ok, add_market in *.
  cbn [market_candles option_contracts option_candles expiry_cycles daily_sessions oi_snapshots on_market_candles].
  rewrite !andb_true_iff in *. rewrite next_id_fresh by (auto; now destruct i as [[s x] c]). tauto.
Qed.
Lemma mdb_ok_add_option i d : mdb_ok d = true -> listed i d ->
  unique_on oc_key (d.(option_candles) ++ [option_row (next_id oc_id d.(option_candles)) i]) = true -> mdb_ok (add_option i d) = true.
Proof.
  intros H1 Hl H2. pose proof (mdb_ok_parts d H1) as (_ & P1 & _ & P2). unfold mdb_ok, add_option in *.
  cbn [market_candles option_contracts option_candles expiry_cycles daily_sessions oi_snapshots on_option_candles].
  rewrite forallb_app, P2. cbn [forallb].
  assert (id_in ct_id (option_contracts d) (oc_contract_id (option_row (next_id oc_id (option_candles d)) i)) = true) as ->.
  { destruct i as [cid c]. unfold listed in Hl. cbn in *. unfold id_in. apply existsb_exists.
    apply in_map_iff in Hl as (r & E & Hr). exists r. split; [exact Hr | now apply Z.eqb_eq]. }
  rewrite !andb_true_iff in *. rewrite next_id_fresh by (auto; now destruct i). tauto.
Qed.
Lemma mc_key_row n i : mc_key (market_row n i) = item_key i.
Proof. now destruct i as [[s x] c]. Qed.
Lemma oc_key_row n i : oc_key (option_row n i) = (fst i, c_timestamp (snd i)).
Proof. now destruct i. Qed.
Lemma market_conflict i d : mdb_ok d = true -> mdb_ok (add_market i d) = false -> has_index i d.
Proof.
  intros H1 H2. unfold has_index. rewrite <- (mc_key_row (next_id mc_id d.(market_candles))).
  apply unique_on_snoc; [now destruct (mdb_ok_parts d H1) as [[_ H] _]|].
  destruct (unique_on mc_key _) eqn:E; [|reflexivity]. rewrite mdb_ok_add_market in H2; auto.
Qed.
Lemma option_conflict i d : mdb_ok d = true -> listed i d -> mdb_ok (add_option i d) = false -> has_option i d.
Proof.
  intros H1 Hl H2. unfold has_option. rewrite <- (oc_key_row (next_id oc_id d.(option_candles))).
  apply unique_on_snoc; [now destruct (mdb_ok_parts d H1) as (_ & _ & H & _)|].
  destruct (unique_on oc_key _) eqn:E; [|reflexivity]. rewrite mdb_ok_add_option in H2; auto.
Qed.
Lemma has_index_keeps i d d' : keeps d d' -> has_index i d -> has_index i d'.
Proof. intros (H & _ & _). apply (incl_map mc_key H). Qed.
Lemma has_option_keeps i d d' : keeps d d' -> has_option i d -> has_option i d'.
Proof. intros (_ & H & _). apply (incl_map oc_key H). Qed.
Lemma listed_keeps i d d' : keeps d d' -> listed i d -> listed i d'.
Proof. intros (_ & _ & H). apply (incl_map ct_id H). Qed.
Lemma add_market_keeps i d : keeps d (add_market i d).
Proof. repeat split; try apply incl_refl. cbn. apply incl_appl, incl_refl. Qed.
Lemma add_option_keeps i d : keeps d (add_option i d).
Proof. repeat split; try apply incl_refl. cbn. apply incl_appl, incl_refl. Qed.
Lemma add_market_has i d : has_index i (add_market i d).
Proof. unfold has_index. cbn. rewrite map_app. apply in_or_app. right. left. apply mc_key_row. Qed.
Lemma add_option_has i d : has_option i (add_option i d).
Proof. unfold has_option. cbn. rewrite map_app. apply in_or_app. right. left. apply oc_key_row. Qed.

(** A row kept by the pre-check is among the existing ones. *)
Lemma list_min_le l : forall d x, In x (d :: l) -> list_min d l <= x.
Proof.
  unfold list_min. assert (forall l d, fold_left Z.min l d <= d) as H.
  { clear. induction l as [|a l IH]; intros d; cbn; [lia | specialize (IH (Z.min d a)); lia]. }
  induction l as [|a l IH]; intros d x Hx; cbn; [destruct Hx as [->|[]]; lia|].
  destruct Hx as [->|[->|Hx]]; [specialize (H l (Z.min x a)); lia | specialize (H l (Z.min d x)); lia | apply IH; now right].
Qed.
Lemma list_max_ge l : forall d x, In x (d :: l) -> x <= list_max d l.
Proof.
  unfold list_max. assert (forall l d, d <= fold_left Z.max l d) as H.
  { clear. induction l as [|a l IH]; intros d; cbn; [lia | specialize (IH (Z.max d a)); lia]. }
  induction l as [|a l IH]; intros d x Hx; cbn; [destruct Hx as [->|[]]; lia|].
  destruct Hx as [->|[->|Hx]]; [specialize (H l (Z.max x a)); lia | specialize (H l (Z.max d x)); lia | apply IH; now right].
Qed.
Lemma span_in ts t : In t ts -> fst (span ts) <= t <= snd (span ts).
Proof. destruct ts as [|a r]; [intros []|]. intros H. cbn. split; [now apply list_min_le | now apply list_max_ge]. Qed.

(** The keys the pre-check reads: rows of the table, and every item already there. *)
Definition read_index_keys (items : list index_item) (d : MDb) :=
  map mc_key (List.filter (fun r => str_in r.(mc_symbol) (map (fun i => fst (fst i)) items) &&
     (fst (span (map item_ts items)) <=? r.(mc_timestamp)) && (r.(mc_timestamp) <=? snd (span (map item_ts items)))) d.(market_candles)).
Definition read_option_keys (items : list option_item) (d : MDb) :=
  map oc_key (List.filter (fun r => existsb (Z.eqb r.(oc_contract_id)) (map fst items) &&
     (fst (span (map (fun i => c_timestamp (snd i)) items)) <=? r.(oc_timestamp)) &&
     (r.(oc_timestamp) <=? snd (span (map (fun i => c_timestamp (snd i)) items)))) d.(option_candles)).
Lemma read_index_spec items d i : In i items -> item_key i ∈ read_index_keys items d <-> has_index i d.
Proof.
  intros Hi. unfold read_index_keys, has_index. rewrite list_elem_of_In, !in_map_iff.
  split; intros (r & E & Hr); exists r; (split; [exact E|]); [now apply List.filter_In in Hr|].
  apply List.filter_In. split; [exact Hr|]. pose proof (span_in _ _ (in_map item_ts _ _ Hi)) as Hs.
  destruct i as [[s x] c]. unfold mc_key, item_key, item_ts in *. cbn in *. injection E as E1 E2 E3 E4. rewrite E1, E4.
  rewrite (proj2 (Z.leb_le _ _) (proj1 Hs)), (proj2 (Z.leb_le _ _) (proj2 Hs)), !andb_true_r.
  apply existsb_exists. exists s. split; [apply in_map_iff; now exists (s, x, c) | apply String.eqb_refl].
Qed.
Lemma read_option_spec items d i : In i items ->
  (fst i, c_timestamp (snd i)) ∈ read_option_keys items d <-> has_option i d.
Proof.
  intros Hi. unfold read_option_keys, has_option. rewrite list_elem_of_In, !in_map_iff.
  split; intros (r & E & Hr); exists r; (split; [exact E|]); [now apply List.filter_In in Hr|].
  apply List.filter_In. split; [exact Hr|]. pose proof (span_in _ _ (in_map (fun i => c_timestamp (snd i)) _ _ Hi)) as Hs.
  unfold oc_key in E. injection E as E1 E2. rewrite E1, E2.
  rewrite (proj2 (Z.leb_le _ _) (proj1 Hs)), (proj2 (Z.leb_le _ _) (proj2 Hs)), !andb_true_r.
  apply existsb_exists. exists (fst i). split; [now apply in_map | apply Z.eqb_refl].
Qed.

Section persist.
Context {A K : Type} `{EqDecision K} (add1 : A -> MDb -> MDb) (has can : A -> MDb -> Prop) (key : A -> K)
  (read : list A -> MDb -> list K).
Hypothesis add_keeps : forall i d, keeps d (add1 i d).
Hypothesis add_has : forall i d, has i (add1 i d).
Hypothesis has_keeps : forall i d d', keeps d d' -> has i d -> has i d'.
Hypothesis can_keeps : forall i d d', keeps d d' -> can i d -> can i d'.
Hypothesis conflict : forall i d, mdb_ok d = true -> can i d -> mdb_ok (add1 i d) = false -> has i d.
Hypothesis read_spec : forall items d i, In i items -> key i ∈ read items d <-> has i d.
Definition persist (items : list A) : MM Z :=
  bind (query (read items)) (fun existing => _commit_rows add1 (List.filter (fun i => negb (bool_decide (key i ∈ existing))) items)).

Lemma persist_written items w : w_ok w -> appending w -> (forall i, In i items -> can i w.(m_db)) ->
  written has items (Z.of_nat (List.length items)) w (persist items w).
Proof.
  intros Hw Ha Hc. unfold persist, bind. cbn. pose proof (settle_keeps w Ha) as [Ha' Hk']. pose proof (settle_ok w Hw) as Hw'.
  set (new := List.filter _ items).
  destruct (commit_rows_written add1 has can add_keeps add_has has_keeps can_keeps conflict new (settle w) Hw' Ha')
    as (n & E & Hle & H1 & H2 & H3 & H4).
  { intros i Hi. eapply can_keeps; [exact Hk'|]. apply Hc. now apply List.filter_In in Hi. }
  destruct (_commit_rows _ _ _) as [out w2]. cbn in *. subst out. apply written_intro; auto.
  - pose proof (List.filter_length_le (fun i => negb (bool_decide (key i ∈ read items (m_db (settle w))))) items). unfold new in Hle. lia.
  - now transitivity (m_db (settle w)).
  - intros i Hi. destruct (bool_decide (key i ∈ read items (m_db (settle w)))) eqn:E.
    + apply (has_keeps _ (m_db (settle w))); [exact H3|]. apply (read_spec items); [exact Hi|]. now apply bool_decide_eq_true in E.
    + apply H4. apply List.filter_In. now rewrite E.
Qed.
Lemma persist_again items w : alone w -> (forall i, In i items -> has i w.(m_db)) -> persist items w = (Ok 0, w).
Proof.
  intros Ha Hh. unfold persist, bind. cbn. rewrite (settle_alone w Ha).
  assert (List.filter (fun i => negb (bool_decide (key i ∈ read items (m_db w)))) items = []) as ->; [|reflexivity].
  induction items as [|i r IH] using rev_ind; [reflexivity|].
  assert (forall l, (forall j, In j l -> In j (r ++ [i])) -> List.filter (fun j => negb (bool_decide (key j ∈ read (r ++ [i]) (m_db w)))) l = []) as H.
  { induction l as [|j l IHl]; intros Hl; [reflexivity|]. cbn.
    rewrite bool_decide_eq_true_2; [cbn; apply IHl; intros k Hk; apply Hl; now right|].
    apply read_spec; [apply Hl; now left | apply Hh, Hl; now left]. }
  apply H. auto.
Qed.
End persist.

Lemma persist_index_unfold items : items <> [] -> persist_index_candles items = persist add_market item_key read_index_keys items.
Proof.
  destruct items as [|i r]; [easy|]. intros _. unfold persist_index_candles, persist, _existing_index_keys, read_index_keys.
  now destruct (span (map item_ts (i :: r))).
Qed.
Lemma persist_option_unfold items : items <> [] ->
  persist_option_candles items = persist add_option (fun i => (fst i, c_timestamp (snd i))) read_option_keys items.
Proof.
  destruct items as [|i r]; [easy|]. intros _. unfold persist_option_candles, persist, _existing_option_keys, read_option_keys.
  now destruct (span (map (fun i => c_timestamp (snd i)) (i :: r))).
Qed.

Lemma index_written idx w : w_ok w -> appending w ->
  written has_index idx (Z.of_nat (List.length idx)) w (persist_index_candles idx w).
Proof.
  intros Hw Ha. destruct idx as [|i r]; [apply written_intro; auto; [lia | reflexivity | intros j []]|].
  rewrite persist_index_unfold by discriminate.
  eapply (persist_written add_market has_index (fun _ _ => True)); auto using add_market_keeps, add_market_has, read_index_spec.
  - intros j d d'. apply has_index_keeps.
  - intros j d H _. now apply market_conflict.
Qed.
Lemma option_written opt w : w_ok w -> appending w -> (forall i, In i opt -> listed i w.(m_db)) ->
  written has_option opt (Z.of_nat (List.length opt)) w (persist_option_candles opt w).
Proof.
  intros Hw Ha Hl. destruct opt as [|i r]; [apply written_intro; auto; [lia | reflexivity | intros j []]|].
  rewrite persist_option_unfold by discriminate.
  eapply (persist_written add_option has_option listed); auto using add_option_keeps, add_option_has, read_option_spec, option_conflict.
  - intros j d d'. apply has_option_keeps.
  - intros j d d'. apply listed_keeps.
Qed.

(** ** Where the rows of a table come from

    A property of rows that those already there have, that the other connections
    keep and that the rows of the given candles have, all rows have afterwards:
    so a row is one that was there, one another connection wrote, or carries a
    candle given. *)
Section provenance.
Context {R : Type} (rows : MDb -> list R).
Definition all_rows (P : R -> Prop) (d : MDb) : Prop := Forall P (rows d).
Definition others_keep (P : R -> Prop) (w : MWorld) : Prop := Forall (fun o => forall d, all_rows P d -> all_rows P (o d)) w.(m_others).
Definition rows_from {A} (carries : A -> R -> Prop) (items : list A) (w w' : MWorld) : Prop :=
  forall P, all_rows P w.(m_db) -> others_keep P w -> (forall i r, In i items -> carries i r -> P r) -> all_rows P w'.(m_db).
Context (P : R -> Prop).
Definition all_kept (w : MWorld) : Prop := all_rows P w.(m_db) /\ others_keep P w.
Lemma settle_kept w : all_kept w -> all_kept (settle w).
Proof.
  unfold all_kept, others_keep, settle. destruct (m_others w) as [|o r] eqn:E; [now rewrite E|]. intros [H [Ho Hr]%Forall_cons]. cbn.
  split; [|exact Hr]. destruct (mdb_ok _); auto.
Qed.
Context {A : Type} (add1 : A -> MDb -> MDb) (items : list A) (add_ok : forall i d, In i items -> all_rows P d -> all_rows P (add1 i d)).
Lemma add_all_kept l d : incl l items -> all_rows P d -> all_rows P (add_all add1 l d).
Proof.
  unfold add_all. revert d. induction l as [|i l IH]; intros d Hl H; [exact H|]. cbn. apply IH; [intros j Hj; apply Hl; now right|].
  apply add_ok; [apply Hl; now left | exact H].
Qed.
Lemma commit_with_kept f w : (forall d, all_rows P d -> all_rows P (f d)) -> all_kept w -> all_kept (snd (commit_with f w)).
Proof.
  intros Hf H. apply settle_kept in H as [H1 H2]. unfold commit_with, commit_returning.
  destruct (mdb_ok (f (m_db (settle w)))); (split; [|exact H2]); [exact (Hf _ H1) | exact H1].
Qed.
Lemma commit_each_kept l : forall n w, incl l items -> all_kept w -> all_kept (snd (commit_each add1 l n w)).
Proof.
  induction l as [|i l IH]; intros n w Hl H; [exact H|]. cbn [commit_each]. unfold bind at 1, try_except, bind at 1.
  pose proof (commit_with_kept (add1 i) w (fun d => add_ok i d (Hl i (or_introl eq_refl))) H) as K.
  assert (incl l items) as Hl' by (intros j Hj; apply Hl; now right).
  destruct (commit_with (add1 i) w) as [[[]|e] w1]; cbn [ret snd] in *; [now apply IH|]. destruct e; cbn; try exact K. now apply IH.
Qed.
Lemma commit_rows_kept l w : incl l items -> all_kept w -> all_kept (snd (_commit_rows add1 l w)).
Proof.
  intros Hl H. unfold _commit_rows. destruct l as [|i l]; [exact H|]. unfold try_except, bind at 1.
  pose proof (commit_with_kept (add_all add1 (i :: l)) w (fun d => add_all_kept (i :: l) d Hl) H) as K.
  destruct (commit_with _ w) as [[[]|e] w1]; cbn [ret snd] in *; [exact K|]. destruct e; cbn [raise snd]; try exact K. now apply commit_each_kept.
Qed.
Lemma persist_kept {K} `{EqDecision K} (key : A -> K) read w : all_kept w -> all_kept (snd (persist add1 key read items w)).
Proof.
  intros H. unfold persist, bind, query. cbn. apply commit_rows_kept; [|now apply settle_kept]. intros i Hi. now apply List.filter_In in Hi.
Qed.
End provenance.

(** What a row says of a candle: its key, and its figures. *)
Definition index_key_of (i : index_item) (r : MarketCandleRow) : Prop :=
  r.(mc_symbol) = fst (fst i) /\ r.(mc_exchange) = snd (fst i) /\ r.(mc_interval) = (snd i).(c_interval) /\ r.(mc_timestamp) = (snd i).(c_timestamp).
Definition carries_index (i : index_item) (r : MarketCandleRow) : Prop :=
  index_key_of i r /\ r.(mc_open) = (snd i).(c_open) /\ r.(mc_high) = (snd i).(c_high) /\ r.(mc_low) = (snd i).(c_low) /\
  r.(mc_close) = (snd i).(c_close) /\ r.(mc_volume) = (snd i).(c_volume) /\ r.(mc_oi) = (snd i).(c_oi).
Definition option_key_of (i : option_item) (r : OptionCandleRow) : Prop := r.(oc_contract_id) = fst i /\ r.(oc_timestamp) = (snd i).(c_timestamp).
Definition carries_option (i : option_item) (r : OptionCandleRow) : Prop :=
  option_key_of i r /\ r.(oc_open) = (snd i).(c_open) /\ r.(oc_high) = (snd i).(c_high) /\ r.(oc_low) = (snd i).(c_low) /\
  r.(oc_close) = (snd i).(c_close) /\ r.(oc_volume) = (snd i).(c_volume) /\ r.(oc_oi) = (snd i).(c_oi).
Definition stored_index (i : index_item) (d : MDb) : Prop := exists r, In r d.(market_candles) /\ index_key_of i r.
Definition stored_option (i : option_item) (d : MDb) : Prop := exists r, In r d.(option_candles) /\ option_key_of i r.
Lemma has_index_stored i d : has_index i d -> stored_index i d.
Proof.
  unfold has_index. rewrite in_map_iff. intros (r & E & Hr). exists r. split; [exact Hr|]. destruct i as [[s x] c]. unfold mc_key, item_key in E.
  injection E as E1 E2 E3 E4. now repeat split.
Qed.
Lemma has_option_stored i d : has_option i d -> stored_option i d.
Proof. unfold has_option. rewrite in_map_iff. intros (r & E & Hr). exists r. split; [exact Hr|]. unfold oc_key in E. injection E as E1 E2. now split. Qed.
(** Each write touches its own table, and puts there what it was given. *)
Lemma index_rows_kept (P : MarketCandleRow -> Prop) idx w : (forall i r, In i idx -> carries_index i r -> P r) ->
  all_kept market_candles P w -> all_kept market_candles P (snd (persist_index_candles idx w)).
Proof.
  intros Hc H. destruct idx as [|i0 l] eqn:E; [exact H|]. rewrite <- E in *. rewrite persist_index_unfold by now rewrite E. apply persist_kept; [|exact H].
  intros i d Hi Hd. unfold all_rows in *. cbn. apply Forall_app. split; [exact Hd|]. constructor; [|constructor].
  apply (Hc i _ Hi). destruct i as [[s x] c]. repeat split.
Qed.
Lemma option_rows_kept (P : OptionCandleRow -> Prop) opt w : (forall i r, In i opt -> carries_option i r -> P r) ->
  all_kept option_candles P w -> all_kept option_candles P (snd (persist_option_candles opt w)).
Proof.
  intros Hc H. destruct opt as [|i0 l] eqn:E; [exact H|]. rewrite <- E in *. rewrite persist_option_unfold by now rewrite E. apply persist_kept; [|exact H].
  intros i d Hi Hd. unfold all_rows in *. cbn. apply Forall_app. split; [exact Hd|]. constructor; [|constructor].
  apply (Hc i _ Hi). destruct i as [x c]. repeat split.
Qed.
Lemma index_rows_after_option (P : MarketCandleRow -> Prop) opt w : all_kept market_candles P w -> all_kept market_candles P (snd (persist_option_candles opt w)).
Proof.
  intros H. destruct opt as [|i0 l] eqn:E; [exact H|]. rewrite <- E in *. rewrite persist_option_unfold by now rewrite E. now apply persist_kept.
Qed.
Lemma option_rows_after_index (P : OptionCandleRow -> Prop) idx w : all_kept option_candles P w -> all_kept option_candles P (snd (persist_index_candles idx w)).
Proof.
  intros H. destruct idx as [|i0 l] eqn:E; [exact H|]. rewrite <- E in *. rewrite persist_index_unfold by now rewrite E. now apply persist_kept.
Qed.

(** C34: no minute is lost, none is written twice, and what is written is the
    candle.  Where the contract of every option candle given is in the table, and
    the other connections, whatever they commit in between, delete neither candles
    nor contracts, the batched write of finished candles returns, counts at most
    the candles given, keeps every row already in the tables, satisfies the unique
    constraints, and leaves a row for every candle given; every row of the table
    is then one that was there, one another connection wrote, or one with the
    key, prices, volume and open interest of a candle given; and once nobody else
    writes, writing the same candles again writes nothing.  (A candle whose
    contract is not in the table is dropped without a word:
    [unlisted_candle_dropped].) *)
Theorem candles_persisted_once idx opt w : w_ok w -> appending w -> (forall i, In i opt -> In (fst i) (map ct_id w.(m_db).(option_contracts))) ->
  written stored_index idx (Z.of_nat (List.length idx)) w (persist_index_candles idx w) /\
  rows_from market_candles carries_index idx w (snd (persist_index_candles idx w)) /\
  written stored_option opt (Z.of_nat (List.length opt)) w (persist_option_candles opt w) /\
  rows_from option_candles carries_option opt w (snd (persist_option_candles opt w)) /\
  (let w' := snd (persist_index_candles idx w) in alone w' -> persist_index_candles idx w' = (Ok 0, w')) /\
  (let w' := snd (persist_option_candles opt w) in alone w' -> persist_option_candles opt w' = (Ok 0, w')).
Proof.
  intros Hw Ha Hl. pose proof (index_written idx w Hw Ha) as W1. pose proof (option_written opt w Hw Ha Hl) as W2.
  split; [eapply written_impl, W1; apply has_index_stored|].
  split; [intros P H1 H2 H3; now apply (index_rows_kept P idx w)|].
  split; [eapply written_impl, W2; apply has_option_stored|].
  split; [intros P H1 H2 H3; now apply (option_rows_kept P opt w)|]. split; intros w' Hal.
  - destruct W1 as (n & _ & _ & _ & _ & _ & H). destruct idx as [|i r]; [reflexivity|].
    rewrite persist_index_unfold by discriminate. apply (persist_again add_market has_index); auto using read_index_spec.
  - destruct W2 as (n & _ & _ & _ & _ & _ & H). destruct opt as [|i r]; [reflexivity|].
    rewrite persist_option_unfold by discriminate. apply (persist_again add_option has_option); auto using read_option_spec.
Qed.
(** Another connection writes one of the candles first, so the batch conflicts. *)
Definition demo_candle (m : Z) (p : Z) : Candle :=
  mkCandle "NIFTY" "1minute" (m * minute_us) (f_of_Z p) (f_of_Z p) (f_of_Z p) (f_of_Z p) None None.
Definition demo_items : list index_item := [("NIFTY", "NSE", demo_candle 1 100); ("NIFTY", "NSE", demo_candle 2 101)].
Definition demo_contract_row : OptionContractRow :=
  mkOptionContract 7 "NIFTY" "NFO" "p" (Some "1") "NIFTY-1" 740000 (f_of_Z 25000) "CE" None None.
Definition demo_writing : MWorld :=
  mkMWorld (mkMDb [] [demo_contract_row] [] [] [] []) [(fun d => d); add_market ("NIFTY", "NSE", demo_candle 1 99)] 0.
Lemma candles_persisted_once_witness :
  let w := demo_writing in let idx := demo_items in let opt := [(7, demo_candle 1 20)] in
  written stored_index idx 2 w (persist_index_candles idx w) /\ rows_from market_candles carries_index idx w (snd (persist_index_candles idx w)) /\
  written stored_option opt 1 w (persist_option_candles opt w) /\ rows_from option_candles carries_option opt w (snd (persist_option_candles opt w)) /\
  (let w' := snd (persist_index_candles idx w) in alone w' -> persist_index_candles idx w' = (Ok 0, w')) /\
  (let w' := snd (persist_option_candles opt w) in alone w' -> persist_option_candles opt w' = (Ok 0, w')).
Proof.
  apply (candles_persisted_once demo_items [(7, demo_candle 1 20)] demo_writing).
  - vm_compute. reflexivity.
  - repeat constructor; try apply incl_refl. apply add_market_keeps.
  - intros i [<-|[]]. left. reflexivity.
Defined.
(** The foreign key refuses a candle whose contract is not in the table, and the
    refusal is taken for a row already there. *)
Example unlisted_candle_dropped :
  let w := mkMWorld (mkMDb [] [] [] [] [] []) [] 0 in
  fst (persist_option_candles [(7, demo_candle 1 20)] w) = Ok 0 /\ (snd (persist_option_candles [(7, demo_candle 1 20)] w)).(m_db) = w.(m_db).
Proof. vm_compute. now split. Qed.
(** A tick between the two halves of the forced close reopens the minute just
    finished: two candles of the same minute come out, and the second is not stored. *)
Example tick_between_finish_and_flush :
  let a := on_index_tick "NIFTY" "NSE" (f_of_Z 100) 0 None None new_aggregator in
  let '(idx, _, _) := flush minute_us (on_index_tick "NIFTY" "NSE" (f_of_Z 105) 1 None None (finish_all a)) in
  map (fun i => ((snd i).(c_timestamp), (snd i).(c_close))) idx = [(0, f_of_Z 100); (0, f_of_Z 105)] /\
  map mc_close (snd (persist_index_candles idx (mkMWorld (mkMDb [] [] [] [] [] []) [] 0))).(m_db).(market_candles) = [f_of_Z 100].
Proof. vm_compute. now split. Qed.
(** The conflicting batch falls back to single rows. *)
Example conflicting_batch_keeps_the_rest :
  fst (persist_index_candles demo_items demo_writing) = Ok 1 /\
  map mc_timestamp (snd (persist_index_candles demo_items demo_writing)).(m_db).(market_candles) = [minute_us; 2 * minute_us].
Proof. vm_compute. now split. Qed.
