(* ===== verification/StraddlePulse.v ===== *)
(** * Straddle Pulse

    [trading/market_data/expiry_cycle.py], [daily_session.py], [atm_lock.py],
    [oi_pcr.py] and [straddle_pulse.py]: the expiry cycle, the trading day, the
    ATM locked at 09:16, the open-interest snapshots and the engine that advances
    them.  The sessions do not expire objects on commit and do not autoflush
    ([database/connection.py]), so an object's attributes are those last loaded. *)
From S2P Require Import Prelude PyStr PyFloat Config PyTime JsonText Symbols MarketTime MarketCache MarketDb.

(** [db.refresh(row)]: the row by its id. *)
Definition refresh_row {A} (table : MDb -> list A) (id : A -> Z) (n : Z) : MM A :=
  let! o := scalar_one_or_none table (fun r => id r =? n) in
  match o with
  | Some r => ret r
  | None => raise (OtherError "InvalidRequestError" "Could not refresh instance")
  end.
(** [db.add(row)], then the commit under [except Exception] that rolls back and
    reads again what another connection may have created. *)
Definition create_or_refetch {A} (table : MDb -> list A) (id : A -> Z) (add : MDb -> A * MDb) (again : A -> bool)
    (missing : exn -> MM (option A)) : MM (option A) :=
  let! created := try_except (let! r := commit_returning add in ret (inl r))
     (fun e =>
        let! existing := scalar_one_or_none table again in
        match existing with Some r => ret (inr (Some r)) | None => let! o := missing e in ret (inr o) end) in
  match created with
  | inl r => let! r := refresh_row table id (id r) in ret (Some r)
  | inr o => ret o
  end.

(** ** [expiry_cycle.py] *)
Definition insert_cycle (underlying exchange : string) (expiry start : Z) (d : MDb) : ExpiryCycle * MDb :=
  let row := mkCycle (next_id cy_id d.(expiry_cycles)) underlying exchange expiry start expiry "ACTIVE" None in
  (row, on_expiry_cycles (fun l => l ++ [row]) d).
Definition is_cycle (underlying : string) (expiry : Z) (c : ExpiryCycle) : bool :=
  String.eqb c.(cy_underlying) underlying && (c.(cy_expiry_date) =? expiry).
Definition upcoming (expiries : list Z) (today : Z) : list Z := sort_by Z.leb (List.filter (fun e => today <=? e) expiries).
Definition cycle_start (expiries : list Z) (expiry : Z) : Z :=
  match last (sort_by Z.leb (List.filter (fun e => e <? expiry) expiries)) with Some e => e + 1 | None => expiry end.
Definition get_or_create_active_cycle (underlying : string) (expiries : list Z) (today : Z) : MM (option ExpiryCycle) :=
  let underlying := upper (strip underlying) in
  match upcoming expiries today with
  | [] => ret None
  | expiry_date :: _ =>
      let! existing := scalar_one_or_none expiry_cycles (is_cycle underlying expiry_date) in
      match existing with
      | Some c => ret (Some c)
      | None =>
          let! cfg := lift (underlying_config underlying) in
          create_or_refetch expiry_cycles cy_id
            (insert_cycle underlying (exchange_value cfg.(option_exchange)) expiry_date (cycle_start expiries expiry_date))
            (is_cycle underlying expiry_date) (fun e => raise e)
      end
  end.

Definition is_past (underlying : string) (today : Z) (c : ExpiryCycle) : bool :=
  String.eqb c.(cy_underlying) underlying && String.eqb c.(cy_status) "ACTIVE" && (c.(cy_cycle_end_date) <? today).
Definition complete (now : Z) (c : ExpiryCycle) : ExpiryCycle :=
  mkCycle c.(cy_id) c.(cy_underlying) c.(cy_exchange) c.(cy_expiry_date) c.(cy_cycle_start_date) c.(cy_cycle_end_date)
    "COMPLETED" (Some now).
Definition complete_past_cycles (underlying : string) (today : Z) : MM Z :=
  let underlying := upper (strip underlying) in
  let! rows := query (fun d => List.filter (is_past underlying today) d.(expiry_cycles)) in
  match rows with
  | [] => ret 0
  | _ =>
      let! now := utcnow in
      commit_with (on_expiry_cycles (update_where (fun c => id_in cy_id rows c.(cy_id)) (complete now))) ;;;
      ret (Z.of_nat (List.length rows))
  end.

(** ** [daily_session.py] *)
Definition insert_session (cycle_id : Z) (underlying : string) (day : Z) (d : MDb) : DailySession * MDb :=
  let row := mkSession (next_id ds_id d.(daily_sessions)) cycle_id underlying day None None None None None None "PENDING" in
  (row, on_daily_sessions (fun l => l ++ [row]) d).
Definition is_session (underlying : string) (day : Z) (s : DailySession) : bool :=
  String.eqb s.(ds_underlying) underlying && (s.(ds_trading_date) =? day).
Definition get_or_create_today (underlying : string) (cycle : ExpiryCycle) (trading_date : Z) (holidays : list Z)
    : MM (option DailySession) :=
  let underlying := upper (strip underlying) in
  if negb (is_trading_day trading_date holidays) then ret None
  else
    let! existing := scalar_one_or_none daily_sessions (is_session underlying trading_date) in
    match existing with
    | Some s => ret (Some s)
    | None =>
        create_or_refetch daily_sessions ds_id (insert_session cycle.(cy_id) underlying trading_date)
          (is_session underlying trading_date) (fun e => raise e)
    end.

(** ** [atm_lock.py] *)
Definition _LOCK_TIME : Z := hhmm 9 16.
Definition _CANDLE_MINUTE : Z := hhmm 9 15.
Definition locked (s : DailySession) : bool := String.eqb s.(ds_session_status) "LOCKED".
Definition _contract_id (symbol : string) : MM (option Z) :=
  let! row := scalar_one_or_none option_contracts (fun c => String.eqb c.(ct_symbol) symbol) in
  ret (ct_id <$> row).
(** [session.cycle] *)
Definition cycle_of (s : DailySession) : MM ExpiryCycle :=
  let! c := scalar_one_or_none expiry_cycles (fun c => c.(cy_id) =? s.(ds_cycle_id)) in
  match c with Some c => ret c | None => raise (OtherError "AttributeError" "expiry_date") end.
Definition side_symbol (m : InstrumentMaster) (underlying : string) (expiry : Z) (atm : float) (ot : string) : MM string :=
  match resolve underlying expiry atm ot m with
  | Some i => ret i.(internal_symbol)
  | None => lift (make_option_symbol underlying expiry atm ot)
  end.
(** The [UPDATE] writes the columns whose value is not the one loaded. *)
Definition column {A} `{EqDecision A} (loaded new current : A) : A := if decide (loaded = new) then current else new.
Definition lock_row (s : DailySession) (spot atm : float) (ce pe : option Z) (ce_symbol pe_symbol : string) (r : DailySession)
    : DailySession :=
  mkSession r.(ds_id) r.(ds_cycle_id) r.(ds_underlying) r.(ds_trading_date)
    (column s.(ds_spot_0916) (Some spot) r.(ds_spot_0916)) (column s.(ds_atm_strike) (Some atm) r.(ds_atm_strike))
    (column s.(ds_atm_ce_contract_id) ce r.(ds_atm_ce_contract_id))
    (column s.(ds_atm_pe_contract_id) pe r.(ds_atm_pe_contract_id))
    (column s.(ds_atm_ce_symbol) (Some ce_symbol) r.(ds_atm_ce_symbol))
    (column s.(ds_atm_pe_symbol) (Some pe_symbol) r.(ds_atm_pe_symbol))
    (column s.(ds_session_status) "LOCKED" r.(ds_session_status)).
Definition lock_if_due (session : DailySession) (m : InstrumentMaster) (now_ist tz : Z) : MM DailySession :=
  if locked session then ret session
  else if now_ist <? combine session.(ds_trading_date) _LOCK_TIME tz then ret session
  else
    let candle_minute := combine session.(ds_trading_date) _CANDLE_MINUTE tz in
    let! candle := scalar_one_or_none market_candles
                     (fun c => String.eqb c.(mc_symbol) session.(ds_underlying) && (c.(mc_timestamp) =? candle_minute)) in
    match candle with
    | None => ret session
    | Some candle =>
        let spot := candle.(mc_close) in
        let! cycle := cycle_of session in
        let expiry := cycle.(cy_expiry_date) in
        match nearest_strike (list_strikes session.(ds_underlying) expiry m) (Some spot) with
        | None => ret session
        | Some atm =>
            let! ce_symbol := side_symbol m session.(ds_underlying) expiry atm "CE" in
            let! pe_symbol := side_symbol m session.(ds_underlying) expiry atm "PE" in
            let! ce := _contract_id ce_symbol in
            let! pe := _contract_id pe_symbol in
            commit_with (on_daily_sessions (update_where (fun r => r.(ds_id) =? session.(ds_id))
                          (lock_row session spot atm ce pe ce_symbol pe_symbol))) ;;;
            refresh_row daily_sessions ds_id session.(ds_id)
        end
    end.

(** ** [oi_pcr.py] *)
Definition _oi (c : LiveCache) (underlying : string) (expiry : Z) (strike : float) (ot : string) : result exn Z :=
  match make_option_symbol underlying expiry strike ot with
  | Err e => Err e
  | Ok symbol =>
      Ok match get_option_quote symbol c with
         | Some e => match e.(cq_quote) with QOption q => default 0 q.(oq_oi) | QIndex _ => 0 end
         | None => 0
         end
  end.
Fixpoint oi_total (c : LiveCache) (underlying : string) (expiry : Z) (ot : string) (window : list float) (acc : Z) : result exn Z :=
  match window with
  | [] => Ok acc
  | k :: r => match _oi c underlying expiry k ot with Ok n => oi_total c underlying expiry ot r (acc + n) | Err e => Err e end
  end.
Definition of_day (underlying : string) (expiry day : Z) (o : OISnapshot) : bool :=
  String.eqb o.(oi_underlying) underlying && (o.(oi_expiry_date) =? expiry) && (o.(oi_trading_date) =? day).
Definition at_minute (underlying : string) (expiry day ts : Z) (o : OISnapshot) : bool :=
  of_day underlying expiry day o && (o.(oi_timestamp) =? ts).
Definition earlier_snapshot (a b : OISnapshot) : bool := a.(oi_timestamp) <=? b.(oi_timestamp).
(** The quotient of two integers; the totals are far below 2^53. *)
Definition ratio (put call : Z) : option float := if 0 <? call then Some (f_div (f_of_Z put) (f_of_Z call)) else None.
Definition insert_snapshot (cycle_id : Z) (underlying : string) (expiry day ts call put base_call base_put : Z) (d : MDb)
    : OISnapshot * MDb :=
  let row := mkSnapshot (next_id oi_id d.(oi_snapshots)) cycle_id underlying expiry day ts call put
               (call - base_call) (put - base_put) (ratio put call) in
  (row, on_oi_snapshots (fun l => l ++ [row]) d).
Definition snapshot (session : DailySession) (m : InstrumentMaster) (c : LiveCache) (strike_range : Z) (now_utc : option Z)
    : MM (option OISnapshot) :=
  match session.(ds_atm_strike) with
  | Some atm =>
      if negb (locked session) then ret None
      else
        let underlying := session.(ds_underlying) in
        let! cycle := cycle_of session in
        let expiry := cycle.(cy_expiry_date) in
        let window := select_strike_window (list_strikes underlying expiry m) atm strike_range in
        let! call_total := lift (oi_total c underlying expiry "CE" window 0) in
        let! put_total := lift (oi_total c underlying expiry "PE" window 0) in
        let! now := match now_utc with Some t => ret t | None => utcnow end in
        let ts := now - now mod minute_us in
        let! already := scalar_one_or_none oi_snapshots (at_minute underlying expiry session.(ds_trading_date) ts) in
        match already with
        | Some o => ret (Some o)
        | None =>
            let! day := query (fun d => sort_by earlier_snapshot (List.filter (of_day underlying expiry session.(ds_trading_date)) d.(oi_snapshots))) in
            let first_of_day := head day in
            create_or_refetch oi_snapshots oi_id
              (insert_snapshot session.(ds_cycle_id) underlying expiry session.(ds_trading_date) ts call_total put_total
                 (from_option call_oi_total call_total first_of_day) (from_option put_oi_total put_total first_of_day))
              (at_minute underlying expiry session.(ds_trading_date) ts) (fun _ => ret None)
        end
  | None => ret None
  end.

(** ** [straddle_pulse.py] *)
Record StraddlePulseEngine : Type := mkPulse { sp_settings : Settings; sp_tz : Z }.
Definition _holidays (e : StraddlePulseEngine) : list Z := parse_holidays e.(sp_settings).(s_market_data_holidays).
Definition _advance (e : StraddlePulseEngine) (m : InstrumentMaster) (c : LiveCache) (underlying : string) (now_ist : option Z)
    : MM unit :=
  let! now_ist := match now_ist with Some t => ret t | None => utcnow end in
  let today := local_date now_ist e.(sp_tz) in
  let! cfg := lift (underlying_config underlying) in
  let n := strike_range cfg e.(sp_settings) in
  complete_past_cycles underlying today ;;;
  let! cycle := get_or_create_active_cycle underlying (list_expiries underlying m) today in
  match cycle with
  | None => ret tt
  | Some cycle =>
      let! session := get_or_create_today underlying cycle today (_holidays e) in
      match session with
      | None => ret tt
      | Some session =>
          let! session := lock_if_due session m now_ist e.(sp_tz) in
          snapshot session m c n None ;;; ret tt
      end
  end.
Definition recover := _advance.
Definition pulse_tick := _advance.
(** One underlying's failure does not block the other. *)
Definition tick_all (e : StraddlePulseEngine) (m : InstrumentMaster) (c : LiveCache) (now_ist : option Z) : MM unit :=
  for_each STRADDLE_PULSE_UNDERLYINGS (fun u => try_except (pulse_tick e m c u now_ist) (fun _ => ret tt)).

(** ** The ATM of a locked session never changes

    The other connections may add sessions but not alter them. *)
Definition sessions_stay (w : MWorld) : Prop := Forall (fun o => forall d, incl d.(daily_sessions) (daily_sessions (o d))) w.(m_others).
(** [r] is a row of the table; the constraints hold. *)
Definition has_row (r : DailySession) (w : MWorld) : Prop := w_ok w /\ sessions_stay w /\ In r w.(m_db).(daily_sessions).

Lemma settle_has_row r w : has_row r w -> has_row r (settle w).
Proof.
  intros (Hw & Hs & Hr). split; [now apply settle_ok|]. unfold sessions_stay, settle in *.
  destruct (m_others w) as [|o l] eqn:E; [now rewrite E|]. cbn. apply Forall_cons in Hs as [Ho Hl]. split; [exact Hl|].
  destruct (mdb_ok _); [now apply Ho | exact Hr].
Qed.
Lemma query_row {A} r (f : MDb -> A) : preserves (has_row r) (query f).
Proof. intros w Hw. cbn. now apply settle_has_row. Qed.
Lemma scalar_row {A} r table (p : A -> bool) : preserves (has_row r) (scalar_one_or_none table p).
Proof. unfold scalar_one_or_none. apply preserves_bind; [apply query_row | intros; apply preserves_lift]. Qed.
Lemma commit_row {A} r (f : MDb -> A * MDb) :
  (forall d, In r d.(daily_sessions) -> In r (snd (f d)).(daily_sessions)) -> preserves (has_row r) (commit_returning f).
Proof.
  intros Hf w Hw. apply settle_has_row in Hw as (H1 & H2 & H3). unfold commit_returning. specialize (Hf _ H3).
  destruct (f (m_db (settle w))) as [a d]. destruct (mdb_ok d) eqn:E; cbn in *; repeat split; auto.
Qed.
Lemma utcnow_row r : preserves (has_row r) utcnow.
Proof. apply preserves_gets. Qed.
#[local] Hint Resolve query_row scalar_row utcnow_row : preserves.
Lemma refresh_row_row {A} r (table : MDb -> list A) id n : preserves (has_row r) (refresh_row table id n).
Proof. unfold refresh_row. preserve. Qed.
Lemma create_row {A} r (table : MDb -> list A) id add again missing :
  (forall d, In r d.(daily_sessions) -> In r (snd (add d)).(daily_sessions)) -> (forall e, preserves (has_row r) (missing e)) ->
  preserves (has_row r) (create_or_refetch table id add again missing).
Proof.
  intros Ha Hm. unfold create_or_refetch. pose proof (commit_row r add Ha). pose proof @refresh_row_row. preserve; auto.
Qed.
Lemma cycles_row r u expiries today : preserves (has_row r) (get_or_create_active_cycle u expiries today).
Proof.
  unfold get_or_create_active_cycle. preserve. apply create_row; [auto | intros; apply preserves_raise].
Qed.
Lemma past_row r u today : preserves (has_row r) (complete_past_cycles u today).
Proof. unfold complete_past_cycles. preserve. unfold commit_with. now apply commit_row. Qed.
Lemma today_row r u c day hol : preserves (has_row r) (get_or_create_today u c day hol).
Proof.
  unfold get_or_create_today. preserve. apply create_row; [|intros; apply preserves_raise].
  intros d Hd. cbn. apply in_or_app. now left.
Qed.
Lemma cycle_of_row r s : preserves (has_row r) (cycle_of s).
Proof. unfold cycle_of. preserve. Qed.
Lemma side_row r m u e a ot : preserves (has_row r) (side_symbol m u e a ot).
Proof. unfold side_symbol. preserve. Qed.
Lemma contract_row r s : preserves (has_row r) (_contract_id s).
Proof. unfold _contract_id. preserve. Qed.
#[local] Hint Resolve cycles_row past_row today_row cycle_of_row side_row contract_row : preserves.
Lemma snapshot_row r s m c n t : preserves (has_row r) (snapshot s m c n t).
Proof. unfold snapshot. preserve. apply create_row; [auto | intros; apply preserves_ret]. Qed.
#[local] Hint Resolve snapshot_row : preserves.

Definition both_rows (r s : DailySession) (w : MWorld) : Prop := has_row r w /\ has_row s w.
Lemma triple_both {A} r s (m : MM A) : (forall x, preserves (has_row x) m) ->
  triple (both_rows r s) m (fun _ => both_rows r s) (fun _ => has_row r).
Proof.
  intros H w [Hr Hs]. pose proof (H r w Hr) as H1. pose proof (H s w Hs) as H2.
  destruct (m w) as [[a|e] w']; [now split | exact H1].
Qed.
(** A query returns a row of its table. *)
Lemma scalar_found {A} r (table : MDb -> list A) (p : A -> bool) :
  triple (has_row r) (scalar_one_or_none table p)
    (fun o w => has_row r w /\ forall x, o = Some x -> In x (table w.(m_db))) (fun _ => has_row r).
Proof.
  intros w Hw. pose proof (settle_has_row r w Hw) as Hw'. unfold scalar_one_or_none. mrun.
  destruct (one_or_none p (table (m_db (settle w)))) as [o|e] eqn:E; [|exact Hw'].
  split; [exact Hw'|]. intros x ->. now apply one_or_none_Some in E.
Qed.
Lemma today_found r u c day hol :
  triple (has_row r) (get_or_create_today u c day hol)
    (fun o w => has_row r w /\ forall s, o = Some s -> In s w.(m_db).(daily_sessions)) (fun _ => has_row r).
Proof.
  unfold get_or_create_today. destruct (negb _); [now apply triple_ret; auto|].
  eapply triple_bind; [apply scalar_found|]. intros [s|].
  - apply triple_ret. intros w [H1 H2]. split; [exact H1 | intros x [= <-]; now apply H2].
  - unfold create_or_refetch. eapply triple_bind with (R := fun x w => has_row r w /\ forall s, x = inr (Some s) -> In s w.(m_db).(daily_sessions)).
    + eapply triple_try with (Y := fun _ => has_row r).
      * intros w [Hw _]. assert (preserves (has_row r) (commit_returning (insert_session (cy_id c) (upper (strip u)) day))) as P.
        { apply commit_row. intros d Hd. cbn. apply in_or_app. now left. }
        specialize (P w Hw). unfold bind. destruct (commit_returning _ w) as [[x|e] w']; cbn in *; [split; [exact P | discriminate] | exact P].
      * intros e. eapply triple_bind; [apply scalar_found|]. intros [s|].
        -- apply triple_ret. intros w [H1 H2]. split; [exact H1 | intros x [= <-]; now apply H2].
        -- intros w [H _]. exact H.
    + intros [x|o].
      * unfold refresh_row. eapply triple_bind with (R := fun y w => has_row r w /\ forall s, y = s -> In s w.(m_db).(daily_sessions)).
        -- eapply triple_bind; [eapply triple_pre; [apply scalar_found | now intros w [H _]]|]. intros [y|].
           ++ apply triple_ret. intros w [H1 H2]. split; [exact H1 | intros s <-; now apply H2].
           ++ apply triple_raise. now intros w [H _].
        -- intros y. apply triple_ret. intros w [H1 H2]. split; [exact H1 | intros s [= <-]; now apply H2].
      * apply triple_ret. intros w [H1 H2]. split; [exact H1 | intros s ->; now apply H2].
Qed.
Lemma ids_of_rows w : w_ok w -> NoDup (map ds_id w.(m_db).(daily_sessions)).
Proof. unfold w_ok, mdb_ok, unique_on. rewrite !andb_true_iff, !bool_decide_eq_true. tauto. Qed.
Lemma lock_row_kept r s m now tz : locked r = true ->
  triple (both_rows r s) (lock_if_due s m now tz) (fun _ => has_row r) (fun _ => has_row r).
Proof.
  intros Hr. unfold lock_if_due. destruct (locked s) eqn:Hs; [apply triple_ret; now intros w [H _]|].
  destruct (_ <? _); [apply triple_ret; now intros w [H _]|].
  eapply triple_bind; [apply triple_both; intros x; apply scalar_row|]. intros [c|]; [|apply triple_ret; now intros w [H _]].
  eapply triple_bind; [apply triple_both; intros x; apply cycle_of_row|]. intros cy.
  destruct (nearest_strike _ _) as [atm|]; [|apply triple_ret; now intros w [H _]].
  eapply triple_bind; [apply triple_both; intros x; apply side_row|]. intros ces.
  eapply triple_bind; [apply triple_both; intros x; apply side_row|]. intros pes.
  eapply triple_bind; [apply triple_both; intros x; apply contract_row|]. intros ce.
  eapply triple_bind; [apply triple_both; intros x; apply contract_row|]. intros pe.
  eapply triple_bind with (R := fun _ => has_row r); [|intros _; apply triple_preserves, refresh_row_row].
  intros w [Wr Ws]. apply settle_has_row in Wr as (H1 & H2 & H3). apply settle_has_row in Ws as (_ & _ & H4).
  unfold commit_with, commit_returning. cbn. set (w' := settle w) in *.
  destruct (mdb_ok _) eqn:E; cbn; [|now repeat split]. repeat split; auto. cbn.
  assert (ds_id r <> ds_id s) as Hne.
  { intros Ei. assert (r = s) by (now apply (NoDup_map_inj_in ds_id _ _ _ (ids_of_rows w' H1))). congruence. }
  pose proof (update_where_In (fun x => ds_id x =? ds_id s) (lock_row s (mc_close c) atm ce pe ces pes) _ _ H3) as Hin.
  cbn in Hin. now rewrite (proj2 (Z.eqb_neq _ _) Hne) in Hin.
Qed.
Lemma advance_row r e m c u now : locked r = true -> preserves (has_row r) (_advance e m c u now).
Proof.
  intros Hr. apply preserves_triple. unfold _advance.
  eapply triple_bind; [apply triple_preserves; destruct now; preserve|]. intros t.
  eapply triple_bind; [apply triple_preserves; preserve|]. intros cfg.
  eapply triple_bind; [apply triple_preserves, past_row|]. intros ?.
  eapply triple_bind; [apply triple_preserves, cycles_row|]. intros [cy|]; [|now apply triple_ret].
  eapply triple_bind; [apply today_found|]. intros [s|]; [|apply triple_ret; now intros w [H _]].
  eapply triple_bind; [eapply triple_pre; [now apply (lock_row_kept r s)|]|].
  - intros w [H1 H2]. split; [exact H1|]. destruct H1 as (A & B & _). repeat split; auto.
  - intros s'. apply triple_preserves. preserve.
Qed.

(** A call of the engine, as the feed makes it: with the instruments and quotes
    of the moment, its failure logged. *)
Record pulse_call : Type := mkCall { pc_master : InstrumentMaster; pc_cache : LiveCache; pc_underlying : string; pc_now : option Z }.
Definition pulses (e : StraddlePulseEngine) (calls : list pulse_call) : MM unit :=
  for_each calls (fun k => try_except (_advance e k.(pc_master) k.(pc_cache) k.(pc_underlying) k.(pc_now)) (fun _ => ret tt)).

(** C35: the locked ATM is immutable: once a day's session is LOCKED, no later
    call of the engine -- at any time, with any listed strikes, any quotes, any
    candles, succeeding or failing, and with other connections working in
    between as long as they leave existing sessions alone -- changes its row, and
    it stays the only session of its underlying and day. *)
Theorem atm_never_moves e calls r w : w_ok w -> sessions_stay w -> In r w.(m_db).(daily_sessions) -> locked r = true ->
  let rows := (snd (pulses e calls w)).(m_db).(daily_sessions) in
  In r rows /\ forall s, In s rows -> ds_key s = ds_key r -> s = r.
Proof.
  intros Hw Hs Hr Hl rows. assert (has_row r (snd (pulses e calls w))) as (H1 & _ & H3).
  { unfold pulses. assert (has_row r w) as H by now repeat split. revert w Hw Hs Hr rows H. intros w _ _ _ _. revert w.
    change (preserves (has_row r) (pulses e calls)). apply preserves_for_each. intros k. apply preserves_try; [now apply advance_row|].
    intros; apply preserves_ret. }
  split; [exact H3|]. intros s Hin E. apply (NoDup_map_inj_in ds_key rows); auto.
  unfold w_ok, mdb_ok, unique_on in H1. rewrite !andb_true_iff, !bool_decide_eq_true in H1. tauto.
Qed.

(** ** A day of NIFTY *)
Definition demo_day : Z := ymd2ord 2026 9 3.
Definition default_settings : Settings :=
  Eval vm_compute in
    match load_settings ∅ as r return match fst r with Ok _ => Settings | Err _ => unit end
    with (Ok s, _) => s | (Err _, _) => tt end.
Definition demo_pulse : StraddlePulseEngine := mkPulse default_settings IST.
Definition clock (h m : Z) : Z := combine demo_day (hhmm h m) IST.
Definition demo_call (h m : Z) : pulse_call := mkCall demo_master (empty_cache (f_of_Z 10)) "NIFTY" (Some (clock h m)).
Definition opening_row (close : Z) : MarketCandleRow :=
  mkMarketCandle 1 (clock 9 15) "NIFTY" "NSE" "1minute" (f_of_Z 25100) (f_of_Z close) (f_of_Z 25000) (f_of_Z close) None None.
Definition opened (close : Z) : MWorld :=
  mkMWorld (mkMDb [opening_row close] [] [] [] [] []) [] (clock 9 20).
(** The pulse at 09:20, the row it leaves, and a stored close that changes later. *)
Definition at_0920 : MDb := Eval vm_compute in (snd (pulses demo_pulse [demo_call 9 20] (opened 25160))).(m_db).
Definition moved : MWorld :=
  mkMWorld (on_market_candles (fun _ => [opening_row 25199]) at_0920) [fun d => d] (clock 9 30).
Example locked_at_0920 :
  (snd (pulses demo_pulse [demo_call 9 20] (opened 25160))).(m_db) = at_0920 /\
  map (fun s => (ds_session_status s, ds_atm_strike s, ds_atm_ce_symbol s)) at_0920.(daily_sessions) =
    [("LOCKED", Some (f_of_Z 25150), Some "NIFTY|2026-09-03|25150|CE")] /\
  map (fun o => (oi_timestamp o, call_oi_total o, pcr o)) at_0920.(oi_snapshots) = [(clock 9 20, 0, None)].
Proof. vm_compute. now repeat split. Qed.
Definition demo_session : DailySession :=
  Eval vm_compute in
    match at_0920.(daily_sessions) as l return match l with [] => unit | _ => DailySession end with s :: _ => s | [] => tt end.
Lemma atm_never_moves_witness :
  let calls := [demo_call 9 31; demo_call 9 10; mkCall empty_master (empty_cache f_zero) "SENSEX" None] in
  let rows := (snd (pulses demo_pulse calls moved)).(m_db).(daily_sessions) in
  In demo_session rows /\ forall s, In s rows -> ds_key s = ds_key demo_session -> s = demo_session.
Proof.
  apply (atm_never_moves demo_pulse [demo_call 9 31; demo_call 9 10; mkCall empty_master (empty_cache f_zero) "SENSEX" None] demo_session moved).
  - vm_compute. reflexivity.
  - repeat constructor. intros d. apply incl_refl.
  - left. vm_compute. reflexivity.
  - vm_compute. reflexivity.
Defined.

(** Two processes: a session loaded as PENDING is overwritten although another
    connection locked it in the meantime. *)
Definition lock_elsewhere (d : MDb) : MDb :=
  on_daily_sessions (map (fun s => mkSession s.(ds_id) s.(ds_cycle_id) s.(ds_underlying) s.(ds_trading_date) (Some (f_of_Z 25199))
    (Some (f_of_Z 25200)) None None (Some "NIFTY|2026-09-03|25200|CE") (Some "NIFTY|2026-09-03|25200|PE") "LOCKED")) d.
Definition racing : MWorld :=
  mkMWorld (snd (pulses demo_pulse [demo_call 9 10] (opened 25160))).(m_db) (repeat (fun d => d) 6 ++ [lock_elsewhere]) (clock 9 20).
Example lock_is_overwritten_by_a_race :
  map ds_atm_strike racing.(m_db).(daily_sessions) = [None] /\
  map ds_atm_strike (lock_elsewhere racing.(m_db)).(daily_sessions) = [Some (f_of_Z 25200)] /\
  mdb_ok (lock_elsewhere racing.(m_db)) = true /\
  map ds_atm_strike (snd (pulses demo_pulse [demo_call 9 20] racing)).(m_db).(daily_sessions) = [Some (f_of_Z 25150)].
Proof. vm_compute. repeat split. Qed.

(** ** One process at a time *)
Definition set_db (d : MDb) (w : MWorld) : MWorld := mkMWorld d w.(m_others) w.(m_now).
Lemma run_query {A} (f : MDb -> A) w : alone w -> query f w = (Ok (f w.(m_db)), w).
Proof. intros H. unfold query. now rewrite settle_alone. Qed.
Lemma run_scalar {A} table (p : A -> bool) w : alone w -> scalar_one_or_none table p w = (one_or_none p (table w.(m_db)), w).
Proof. intros H. unfold scalar_one_or_none, bind. now rewrite run_query. Qed.
Lemma run_commit {A} (f : MDb -> A * MDb) w : alone w ->
  commit_returning f w = if mdb_ok (snd (f w.(m_db))) then (Ok (fst (f w.(m_db))), set_db (snd (f w.(m_db))) w) else (Err IntegrityError, w).
Proof. intros H. unfold commit_returning. rewrite settle_alone by exact H. now destruct (f (m_db w)). Qed.
Lemma run_refresh {A} (table : MDb -> list A) id r w : alone w -> NoDup (map id (table w.(m_db))) -> In r (table w.(m_db)) ->
  refresh_row table id (id r) w = (Ok r, w).
Proof.
  intros H Hn Hr. unfold refresh_row, bind. rewrite run_scalar by exact H.
  rewrite (one_or_none_found id _ _ r Hn Hr (Z.eqb_refl _)); [reflexivity|]. intros y _ E. now apply Z.eqb_eq in E.
Qed.
Lemma mdb_ok_ids d : mdb_ok d = true -> NoDup (map cy_id d.(expiry_cycles)) /\ NoDup (map ds_id d.(daily_sessions)) /\ NoDup (map oi_id d.(oi_snapshots)).
Proof. unfold mdb_ok, unique_on. rewrite !andb_true_iff, !bool_decide_eq_true. tauto. Qed.

(** A create without competition: the row is there, or the constraint fails. *)
Lemma run_create {A} (table : MDb -> list A) id add again missing w r d' : alone w ->
  one_or_none again (table w.(m_db)) = Ok None -> add w.(m_db) = (r, d') -> table d' = table w.(m_db) ++ [r] ->
  (mdb_ok d' = true -> NoDup (map id (table d'))) ->
  create_or_refetch table id add again missing w = if mdb_ok d' then (Ok (Some r), set_db d' w) else missing IntegrityError w.
Proof.
  intros H Hn Ha Ht Hid. unfold create_or_refetch, bind, try_except. rewrite run_commit by exact H. rewrite Ha. cbn [fst snd].
  destruct (mdb_ok d') eqn:E.
  - unfold ret. cbv beta iota. rewrite run_refresh; [reflexivity | exact H | now apply Hid | cbn; rewrite Ht; apply in_or_app; right; now left].
  - rewrite run_scalar by exact H. rewrite Hn. destruct (missing IntegrityError w) as [[o|e] w']; reflexivity.
Qed.
Lemma one_or_none_snoc {A} (p : A -> bool) l r : one_or_none p l = Ok None -> p r = true -> one_or_none p (l ++ [r]) = Ok (Some r).
Proof. intros H Hr. apply one_or_none_filter in H. unfold one_or_none. rewrite List.filter_app, H. cbn. now rewrite Hr. Qed.

(** What each step leaves, and that it then finds its work done. *)
Lemma same_cycles d : on_expiry_cycles (fun _ => expiry_cycles d) d = d.
Proof. now destruct d. Qed.
Lemma same_sessions d : on_daily_sessions (fun _ => daily_sessions d) d = d.
Proof. now destruct d. Qed.
Lemma same_snapshots d : on_oi_snapshots (fun _ => oi_snapshots d) d = d.
Proof. now destruct d. Qed.
Lemma set_db_same w : set_db w.(m_db) w = w.
Proof. now destruct w. Qed.

Lemma no_past_after u today now rows l : rows = List.filter (is_past u today) l ->
  List.filter (is_past u today) (update_where (fun c => id_in cy_id rows c.(cy_id)) (complete now) l) = [].
Proof.
  intros E.
  destruct (List.filter (is_past u today) (update_where (fun c => id_in cy_id rows c.(cy_id)) (complete now) l)) as [|x r] eqn:F; [reflexivity|].
  assert (In x (x :: r)) as Hx by now left. rewrite <- F in Hx. apply List.filter_In in Hx as [Hx Hp].
  apply In_update_where in Hx as (y & Hy & ->). destruct (id_in cy_id rows (cy_id y)) eqn:I.
  - unfold is_past, complete in Hp. cbn in Hp. now rewrite andb_false_r in Hp.
  - exfalso. unfold id_in in I. assert (In y rows) as Hr by (rewrite E; now apply List.filter_In).
    assert (existsb (fun r => cy_id r =? cy_id y) rows = true) by (apply existsb_exists; exists y; split; [exact Hr | apply Z.eqb_refl]).
    congruence.
Qed.
Lemma past_alone u today w n w1 : alone w -> complete_past_cycles u today w = (Ok n, w1) ->
  exists l, w1 = set_db (on_expiry_cycles (fun _ => l) w.(m_db)) w /\ List.filter (is_past (upper (strip u)) today) l = [].
Proof.
  intros H. unfold complete_past_cycles, bind. rewrite run_query by exact H.
  destruct (List.filter _ _) as [|x r] eqn:F.
  - intros [= _ <-]. exists (expiry_cycles (m_db w)). split; [now rewrite same_cycles, set_db_same | exact F].
  - unfold utcnow, gets, commit_with. cbv beta iota. rewrite run_commit by exact H. cbn [fst snd].
    destruct (mdb_ok _); [|discriminate]. unfold ret. intros [= _ <-]. eexists. split; [unfold set_db, on_expiry_cycles; reflexivity|].
    now apply (no_past_after _ _ _ (x :: r)).
Qed.
Lemma past_nothing u today w : alone w -> List.filter (is_past (upper (strip u)) today) w.(m_db).(expiry_cycles) = [] ->
  complete_past_cycles u today w = (Ok 0, w).
Proof. intros H E. unfold complete_past_cycles, bind. rewrite run_query by exact H. now rewrite E. Qed.

Lemma upcoming_ge expiries today e r : upcoming expiries today = e :: r -> today <= e.
Proof.
  intros E. assert (In e (upcoming expiries today)) as H by (rewrite E; now left). unfold upcoming in H.
  apply In_sort_by, List.filter_In in H as [_ H]. now apply Z.leb_le in H.
Qed.
Lemma cycle_alone u expiries today w o w2 : alone w -> get_or_create_active_cycle u expiries today w = (Ok o, w2) ->
  exists l, w2 = set_db (on_expiry_cycles (fun _ => l) w.(m_db)) w /\
    (List.filter (is_past (upper (strip u)) today) w.(m_db).(expiry_cycles) = [] -> List.filter (is_past (upper (strip u)) today) l = []) /\
    match upcoming expiries today with
    | [] => o = None
    | e :: _ => exists c, o = Some c /\ one_or_none (is_cycle (upper (strip u)) e) l = Ok (Some c)
    end.
Proof.
  intros H. unfold get_or_create_active_cycle. destruct (upcoming expiries today) as [|e r] eqn:U.
  - intros [= <- <-]. exists (expiry_cycles (m_db w)). now rewrite same_cycles, set_db_same.
  - unfold bind at 1. rewrite run_scalar by exact H.
    destruct (one_or_none _ _) as [[c|]|x] eqn:E; [| |discriminate].
    + intros [= <- <-]. exists (expiry_cycles (m_db w)). rewrite same_cycles, set_db_same. eauto.
    + destruct (underlying_config (upper (strip u))) as [cfg|x]; [|discriminate]. cbn.
      erewrite run_create; [|exact H | exact E | reflexivity | reflexivity | intros K; now apply mdb_ok_ids].
      destruct (mdb_ok _) eqn:K; [|discriminate]. intros [= <- <-]. eexists. split; [reflexivity|]. split.
      * intros F. rewrite List.filter_app, F. cbn. unfold is_past. cbn [cy_cycle_end_date].
        rewrite (proj2 (Z.ltb_ge _ _)) by now apply upcoming_ge in U. now rewrite andb_false_r.
      * eexists. split; [reflexivity|]. apply one_or_none_snoc; [exact E|]. unfold is_cycle. cbn. now rewrite String.eqb_refl, Z.eqb_refl.
Qed.
Lemma cycle_again u expiries today e r c w : alone w -> upcoming expiries today = e :: r ->
  one_or_none (is_cycle (upper (strip u)) e) w.(m_db).(expiry_cycles) = Ok (Some c) ->
  get_or_create_active_cycle u expiries today w = (Ok (Some c), w).
Proof. intros H U E. unfold get_or_create_active_cycle, bind. rewrite U, run_scalar by exact H. now rewrite E. Qed.

Lemma today_alone u c day hol w o w2 : alone w -> get_or_create_today u c day hol w = (Ok o, w2) ->
  exists l, w2 = set_db (on_daily_sessions (fun _ => l) w.(m_db)) w /\
    if is_trading_day day hol then exists s, o = Some s /\ one_or_none (is_session (upper (strip u)) day) l = Ok (Some s)
    else o = None.
Proof.
  intros H. unfold get_or_create_today. destruct (is_trading_day day hol); cbn [negb].
  - unfold bind at 1. rewrite run_scalar by exact H. destruct (one_or_none _ _) as [[s|]|x] eqn:E; [| |discriminate].
    + intros [= <- <-]. exists (daily_sessions (m_db w)). rewrite same_sessions, set_db_same. eauto.
    + cbn. erewrite run_create; [|exact H | exact E | reflexivity | reflexivity | intros K; now apply mdb_ok_ids].
      destruct (mdb_ok _) eqn:K; [|discriminate]. intros [= <- <-]. eexists. split; [reflexivity|].
      eexists. split; [reflexivity|]. apply one_or_none_snoc; [exact E|]. unfold is_session. cbn. now rewrite String.eqb_refl, Z.eqb_refl.
  - intros [= <- <-]. exists (daily_sessions (m_db w)). now rewrite same_sessions, set_db_same.
Qed.
Lemma today_again u c day hol s w : alone w -> is_trading_day day hol = true ->
  one_or_none (is_session (upper (strip u)) day) w.(m_db).(daily_sessions) = Ok (Some s) ->
  get_or_create_today u c day hol w = (Ok (Some s), w).
Proof. intros H T E. unfold get_or_create_today, bind. rewrite T. cbn [negb]. rewrite run_scalar by exact H. now rewrite E. Qed.

(** *** The lock *)
Lemma run_cycle_of s w : alone w ->
  cycle_of s w = (match one_or_none (fun c => cy_id c =? ds_cycle_id s) w.(m_db).(expiry_cycles) with
                  | Ok (Some c) => Ok c | Ok None => Err (OtherError "AttributeError" "expiry_date") | Err e => Err e end, w).
Proof. intros H. unfold cycle_of, bind. rewrite run_scalar by exact H. now destruct (one_or_none _ _) as [[c|]|e]. Qed.
Lemma run_contract_id s w : alone w ->
  _contract_id s w = (match one_or_none (fun c => String.eqb (ct_symbol c) s) w.(m_db).(option_contracts) with
                      | Ok o => Ok (ct_id <$> o) | Err e => Err e end, w).
Proof. intros H. unfold _contract_id, bind. rewrite run_scalar by exact H. now destruct (one_or_none _ _). Qed.
Definition symbol_of (m : InstrumentMaster) (underlying : string) (expiry : Z) (atm : float) (ot : string) : result exn string :=
  match resolve underlying expiry atm ot m with
  | Some i => Ok i.(internal_symbol)
  | None => make_option_symbol underlying expiry atm ot
  end.
Lemma run_side_symbol m u e a ot w : side_symbol m u e a ot w = (symbol_of m u e a ot, w).
Proof. unfold side_symbol, symbol_of. now destruct (resolve _ _ _ _ _). Qed.

(** What the lock decides from the tables: nothing to do, or the row to store. *)
Inductive lock_choice : Type := Wait | Lock (spot atm : float) (ce pe : option Z) (ce_symbol pe_symbol : string).
Definition sides (d : MDb) (m : InstrumentMaster) (u : string) (e : Z) (spot atm : float) : result exn lock_choice :=
  match symbol_of m u e atm "CE", symbol_of m u e atm "PE" with
  | Ok ces, Ok pes =>
      match one_or_none (fun c => String.eqb (ct_symbol c) ces) d.(option_contracts),
            one_or_none (fun c => String.eqb (ct_symbol c) pes) d.(option_contracts) with
      | Ok ce, Ok pe => Ok (Lock spot atm (ct_id <$> ce) (ct_id <$> pe) ces pes)
      | Err e, _ => Err e
      | _, Err e => Err e
      end
  | Err e, _ => Err e
  | _, Err e => Err e
  end.
Definition choose_lock (d : MDb) (m : InstrumentMaster) (now tz : Z) (s : DailySession) : result exn lock_choice :=
  if locked s || (now <? combine s.(ds_trading_date) _LOCK_TIME tz) then Ok Wait
  else
    match one_or_none (fun c => String.eqb c.(mc_symbol) s.(ds_underlying) &&
                                (c.(mc_timestamp) =? combine s.(ds_trading_date) _CANDLE_MINUTE tz)) d.(market_candles) with
    | Err e => Err e
    | Ok None => Ok Wait
    | Ok (Some candle) =>
        match one_or_none (fun c => cy_id c =? ds_cycle_id s) d.(expiry_cycles) with
        | Err e => Err e
        | Ok None => Err (OtherError "AttributeError" "expiry_date")
        | Ok (Some cycle) =>
            match nearest_strike (list_strikes s.(ds_underlying) cycle.(cy_expiry_date) m) (Some candle.(mc_close)) with
            | None => Ok Wait
            | Some atm => sides d m s.(ds_underlying) cycle.(cy_expiry_date) candle.(mc_close) atm
            end
        end
    end.
Definition locked_as (s : DailySession) (ch : lock_choice) : DailySession :=
  match ch with Wait => s | Lock spot atm ce pe ces pes => lock_row s spot atm ce pe ces pes s end.
Definition store_lock (s : DailySession) (ch : lock_choice) (d : MDb) : MDb :=
  on_daily_sessions (update_where (fun r => ds_id r =? ds_id s) (fun _ => locked_as s ch)) d.

Lemma update_where_at {A} (id : A -> Z) f l s : NoDup (map id l) -> In s l ->
  update_where (fun r => id r =? id s) f l = update_where (fun r => id r =? id s) (fun _ => f s) l.
Proof.
  intros Hn Hs. apply map_ext_in. intros x Hx. destruct (Z.eqb_spec (id x) (id s)) as [E|E]; [|reflexivity].
  now rewrite (NoDup_map_inj_in id l x s Hn Hx Hs E).
Qed.
Lemma locked_as_key s ch : ds_id (locked_as s ch) = ds_id s /\ ds_key (locked_as s ch) = ds_key s /\
  ds_cycle_id (locked_as s ch) = ds_cycle_id s /\ ds_underlying (locked_as s ch) = ds_underlying s /\
  ds_trading_date (locked_as s ch) = ds_trading_date s.
Proof. now destruct ch. Qed.
Lemma in_where_same {A} (id : A -> Z) (s : A) l : NoDup (map id l) -> In s l -> forall x, In x l -> (id x =? id s) = true -> x = s.
Proof. intros Hn Hs x Hx E. apply Z.eqb_eq in E. now apply (NoDup_map_inj_in id l). Qed.
Lemma map_update_at {A K} (k : A -> K) (id : A -> Z) (s s' : A) l : NoDup (map id l) -> In s l -> k s' = k s ->
  map k (update_where (fun r => id r =? id s) (fun _ => s') l) = map k l.
Proof.
  intros Hn Hs E. unfold update_where. rewrite map_map. apply map_ext_in. intros x Hx.
  destruct (id x =? id s) eqn:Ei; [|reflexivity]. now rewrite (in_where_same id s l Hn Hs x Hx Ei).
Qed.
Lemma contract_fk d p o : one_or_none p d.(option_contracts) = Ok o -> fk_null ct_id d.(option_contracts) (ct_id <$> o) = true.
Proof.
  destruct o as [c|]; [|reflexivity]. intros E. apply one_or_none_Some in E as [H _]. cbn. unfold id_in. apply existsb_exists.
  exists c. split; [exact H | apply Z.eqb_refl].
Qed.
Definition fk_ok (d : MDb) (s : DailySession) : bool :=
  id_in cy_id d.(expiry_cycles) s.(ds_cycle_id) && fk_null ct_id d.(option_contracts) s.(ds_atm_ce_contract_id) &&
  fk_null ct_id d.(option_contracts) s.(ds_atm_pe_contract_id).
Lemma mdb_ok_session_update d s s' : mdb_ok d = true -> In s d.(daily_sessions) -> ds_id s' = ds_id s -> ds_key s' = ds_key s ->
  fk_ok d s' = true -> mdb_ok (on_daily_sessions (update_where (fun r => ds_id r =? ds_id s) (fun _ => s')) d) = true.
Proof.
  intros H Hs Ei Ek Hf. pose proof (mdb_ok_ids d H) as (_ & Hn & _). unfold mdb_ok in *.
  cbn [market_candles option_contracts option_candles expiry_cycles daily_sessions oi_snapshots on_daily_sessions].
  unfold unique_on in *. rewrite !map_update_at by auto. rewrite !andb_true_iff in *. decompose [and] H. repeat split; auto.
  rewrite forallb_forall in *. intros x Hx. apply In_update_where in Hx as (y & Hy & ->). destruct (_ =? _); [exact Hf | auto].
Qed.
Lemma column_some {A} `{EqDecision A} (x y : option A) : column x y x = y.
Proof. unfold column. now destruct (decide (x = y)). Qed.
Lemma column_str (x y : string) : column x y x = y.
Proof. unfold column. now destruct (decide (x = y)). Qed.
(** The row after the lock: every column as computed. *)
Lemma locked_as_row s spot atm ce pe ces pes : locked_as s (Lock spot atm ce pe ces pes) =
  mkSession s.(ds_id) s.(ds_cycle_id) s.(ds_underlying) s.(ds_trading_date) (Some spot) (Some atm) ce pe (Some ces) (Some pes) "LOCKED".
Proof. unfold locked_as, lock_row. now rewrite !column_some, column_str. Qed.
Lemma locked_as_locked s spot atm ce pe ces pes : locked (locked_as s (Lock spot atm ce pe ces pes)) = true.
Proof. now rewrite locked_as_row. Qed.

Lemma sides_fk d m u e spot atm s ch : mdb_ok d = true -> In s d.(daily_sessions) -> sides d m u e spot atm = Ok ch ->
  fk_ok d (locked_as s ch) = true.
Proof.
  intros H Hs. unfold sides. destruct (symbol_of m u e atm "CE") as [ces|]; [|discriminate].
  destruct (symbol_of m u e atm "PE") as [pes|]; [|discriminate].
  destruct (one_or_none _ _) as [ce|] eqn:E1; [|discriminate]. destruct (one_or_none (fun c => _ =? pes)%string _) as [pe|] eqn:E2; [|discriminate].
  intros [= <-]. rewrite locked_as_row. unfold fk_ok. cbn [ds_cycle_id ds_atm_ce_contract_id ds_atm_pe_contract_id].
  rewrite (contract_fk d _ _ E1), (contract_fk d _ _ E2), !andb_true_r.
  unfold mdb_ok in H. rewrite !andb_true_iff in H. decompose [and] H. clear H.
  match goal with F : forallb _ (daily_sessions d) = true |- _ => rewrite forallb_forall in F; specialize (F s Hs) end.
  rewrite !andb_true_iff in *. tauto.
Qed.

Lemma run_lock s m now tz w : alone w -> w_ok w -> In s w.(m_db).(daily_sessions) ->
  lock_if_due s m now tz w =
  match choose_lock w.(m_db) m now tz s with
  | Err e => (Err e, w)
  | Ok Wait => (Ok s, w)
  | Ok ch => (Ok (locked_as s ch), set_db (store_lock s ch w.(m_db)) w)
  end.
Proof.
  intros H Hw Hs. unfold lock_if_due, choose_lock. destruct (locked s) eqn:L; [reflexivity|]. cbn [orb].
  destruct (now <? _); [reflexivity|]. unfold bind. rewrite run_scalar by exact H.
  destruct (one_or_none _ (market_candles _)) as [[c|]|]; [|reflexivity|reflexivity].
  rewrite run_cycle_of by exact H. destruct (one_or_none _ (expiry_cycles _)) as [[cy|]|]; [|reflexivity|reflexivity].
  destruct (nearest_strike _ _) as [atm|]; [|reflexivity].
  pose proof (fun ch => sides_fk (m_db w) m (ds_underlying s) (cy_expiry_date cy) (mc_close c) atm s ch Hw Hs) as Hfk.
  unfold sides in *. rewrite run_side_symbol. destruct (symbol_of _ _ _ _ "CE") as [ces|]; [|reflexivity].
  cbv beta iota. try rewrite run_side_symbol. destruct (symbol_of _ _ _ _ "PE") as [pes|]; [|reflexivity].
  rewrite run_contract_id by exact H. destruct (one_or_none _ (option_contracts _)) as [ce|]; [|reflexivity].
  rewrite run_contract_id by exact H. destruct (one_or_none (fun c0 => _ =? pes)%string _) as [pe|]; [|reflexivity].
  specialize (Hfk _ eq_refl). unfold commit_with. rewrite run_commit by exact H. cbn [fst snd].
  pose proof (mdb_ok_ids _ Hw) as (_ & Hn & _). set (ch := Lock _ _ _ _ _ _) in *.
  assert (on_daily_sessions (update_where (fun r => ds_id r =? ds_id s)
            (lock_row s (mc_close c) atm (ct_id <$> ce) (ct_id <$> pe) ces pes)) (m_db w) = store_lock s ch (m_db w)) as E.
  { unfold store_lock, on_daily_sessions. f_equal. now apply (update_where_at ds_id). }
  destruct (locked_as_key s ch) as (K1 & K2 & _).
  rewrite E. assert (mdb_ok (store_lock s ch (m_db w)) = true) as K by (unfold store_lock; now apply mdb_ok_session_update).
  rewrite K. cbv beta iota. pose proof (run_refresh daily_sessions ds_id (locked_as s ch) (set_db (store_lock s ch (m_db w)) w)) as R.
  rewrite K1 in R. apply R; [exact H | | ].
  - unfold store_lock. cbn. rewrite map_update_at; auto.
  - unfold store_lock. cbn. pose proof (update_where_In (fun r => ds_id r =? ds_id s) (fun _ => locked_as s ch) _ _ Hs) as Hi.
    cbv beta in Hi. now rewrite Z.eqb_refl in Hi.
Qed.

(** *** The open interest *)
(** The open interest quoted for a contract, 0 when there is none. *)
Definition quoted_oi (c : LiveCache) (u : string) (e : Z) (ot : string) (k : float) : Z :=
  match make_option_symbol u e k ot with
  | Ok symbol => match get_option_quote symbol c with
                 | Some q => match q.(cq_quote) with QOption q => default 0 q.(oq_oi) | QIndex _ => 0 end
                 | None => 0
                 end
  | Err _ => 0
  end.
Definition window_oi (c : LiveCache) (u : string) (e : Z) (ot : string) (window : list float) : Z :=
  foldr Z.add 0 (map (quoted_oi c u e ot) window).
Lemma oi_total_sum c u e ot window : In ot ["CE"; "PE"] -> forall acc,
  oi_total c u e ot window acc = Ok (acc + window_oi c u e ot window).
Proof.
  intros Hot. unfold window_oi. induction window as [|k r IH]; intros acc; cbn; [f_equal; lia|].
  assert (exists s, make_option_symbol u e k ot = Ok s) as [s Hs] by (destruct Hot as [<-|[<-|[]]]; eexists; reflexivity).
  unfold _oi, quoted_oi at 1. rewrite Hs. rewrite IH. f_equal. lia.
Qed.
Definition minute_floor (t : Z) : Z := t - t mod minute_us.
Definition new_snapshot (d : MDb) (c : LiveCache) (s : DailySession) (e ts : Z) (window : list float) : OISnapshot :=
  let u := s.(ds_underlying) in
  let call := window_oi c u e "CE" window in
  let put := window_oi c u e "PE" window in
  let first := head (sort_by earlier_snapshot (List.filter (of_day u e s.(ds_trading_date)) d.(oi_snapshots))) in
  mkSnapshot (next_id oi_id d.(oi_snapshots)) s.(ds_cycle_id) u e s.(ds_trading_date) ts call put
    (call - from_option call_oi_total call first) (put - from_option put_oi_total put first) (ratio put call).
Definition append_snapshot (o : OISnapshot) (d : MDb) : MDb := on_oi_snapshots (fun l => l ++ [o]) d.
Lemma run_snapshot s m c n now w atm cy : alone w -> locked s = true -> s.(ds_atm_strike) = Some atm ->
  one_or_none (fun c => cy_id c =? ds_cycle_id s) w.(m_db).(expiry_cycles) = Ok (Some cy) ->
  let ts := minute_floor (default w.(m_now) now) in
  let window := select_strike_window (list_strikes s.(ds_underlying) cy.(cy_expiry_date) m) atm n in
  let o := new_snapshot w.(m_db) c s cy.(cy_expiry_date) ts window in
  snapshot s m c n now w =
  match one_or_none (at_minute s.(ds_underlying) cy.(cy_expiry_date) s.(ds_trading_date) ts) w.(m_db).(oi_snapshots) with
  | Err e => (Err e, w)
  | Ok (Some old) => (Ok (Some old), w)
  | Ok None => if mdb_ok (append_snapshot o w.(m_db)) then (Ok (Some o), set_db (append_snapshot o w.(m_db)) w) else (Ok None, w)
  end.
Proof.
  intros H L A C ts window o. unfold snapshot. rewrite A, L. cbn [negb]. unfold bind at 1. rewrite run_cycle_of, C by exact H.
  cbv beta iota. unfold bind at 1, lift at 1. rewrite oi_total_sum by (left; reflexivity). cbv beta iota.
  unfold bind at 1, lift at 1. rewrite oi_total_sum by (right; left; reflexivity). cbv beta iota.
  unfold bind at 1. assert ((match now with Some t => ret t | None => utcnow end) w = (Ok (default (m_now w) now), w)) as -> by (now destruct now).
  cbv beta iota. fold (minute_floor (default (m_now w) now)). fold ts. unfold bind at 1. rewrite run_scalar by exact H.
  destruct (one_or_none _ (oi_snapshots _)) as [[old|]|] eqn:E; [reflexivity| |reflexivity].
  cbv beta iota. unfold bind at 1. rewrite run_query by exact H. cbv beta iota.
  erewrite (run_create oi_snapshots oi_id _ _ _ w o (append_snapshot o (m_db w))); [reflexivity | exact H | exact E | | reflexivity | intros K; now apply mdb_ok_ids].
  reflexivity.
Qed.

Lemma snapshot_alone s m c n now w o w' : alone w -> snapshot s m c n now w = (Ok o, w') ->
  exists l, w' = set_db (on_oi_snapshots (fun _ => l) w.(m_db)) w /\ snapshot s m c n now w' = (Ok o, w').
Proof.
  intros H E. destruct (ds_atm_strike s) as [atm|] eqn:A; [destruct (locked s) eqn:L|].
  2,3: unfold snapshot in *; rewrite A, ?L in *; injection E as <- <-; exists (oi_snapshots (m_db w)); now rewrite same_snapshots, set_db_same.
  assert (exists cy, one_or_none (fun c => cy_id c =? ds_cycle_id s) (expiry_cycles (m_db w)) = Ok (Some cy)) as [cy C].
  { unfold snapshot in E. rewrite A, L in E. cbn [negb] in E. unfold bind at 1 in E. rewrite run_cycle_of in E by exact H.
    destruct (one_or_none _ (expiry_cycles _)) as [[cy|]|]; [eauto | discriminate | discriminate]. }
  pose proof E as E0. rewrite (run_snapshot s m c n now w atm cy H L A C) in E. cbv zeta in E. set (ts := minute_floor _) in E.
  set (row := new_snapshot _ _ _ _ _ _) in E.
  destruct (one_or_none _ (oi_snapshots _)) as [[old|]|] eqn:F in E; [| |discriminate].
  - injection E as <- <-. exists (oi_snapshots (m_db w)). now rewrite same_snapshots, set_db_same.
  - destruct (mdb_ok _); injection E as <- <-; [|exists (oi_snapshots (m_db w)); now rewrite same_snapshots, set_db_same].
    eexists. split; [reflexivity|]. rewrite (run_snapshot s m c n now (set_db (append_snapshot row (m_db w)) w) atm cy H L A C).
    cbv zeta. cbn [set_db m_now]. fold ts. cbn [append_snapshot m_db oi_snapshots on_oi_snapshots set_db].
    rewrite (one_or_none_snoc _ _ row F); [reflexivity|]. unfold at_minute, of_day. cbn. now rewrite String.eqb_refl, !Z.eqb_refl.
Qed.
Lemma advance_ok e m c u now : preserves w_ok (_advance e m c u now).
Proof.
  unfold _advance, complete_past_cycles, get_or_create_active_cycle, get_or_create_today, lock_if_due, snapshot, create_or_refetch,
    refresh_row, cycle_of, side_symbol, _contract_id. preserve.
Qed.
Lemma past_ok u today : preserves w_ok (complete_past_cycles u today).
Proof. unfold complete_past_cycles. preserve. Qed.
Lemma create_ok {A} (table : MDb -> list A) id add again missing : (forall e, preserves w_ok (missing e)) ->
  preserves w_ok (create_or_refetch table id add again missing).
Proof. intros H. unfold create_or_refetch, refresh_row. preserve. Qed.
Lemma cycle_ok u expiries today : preserves w_ok (get_or_create_active_cycle u expiries today).
Proof. unfold get_or_create_active_cycle. preserve. apply create_ok. intros. apply preserves_raise. Qed.
Lemma today_ok u c day hol : preserves w_ok (get_or_create_today u c day hol).
Proof. unfold get_or_create_today. preserve. apply create_ok. intros. apply preserves_raise. Qed.

(** A world in which every step finds its work done. *)
Definition settled_for (e : StraddlePulseEngine) m c u (cfg : UnderlyingConfig) (t : Z) (v : MWorld) : Prop :=
  let today := local_date t e.(sp_tz) in
  List.filter (is_past (upper (strip u)) today) v.(m_db).(expiry_cycles) = [] /\
  match upcoming (list_expiries u m) today with
  | [] => True
  | x :: _ =>
      (exists cy, one_or_none (is_cycle (upper (strip u)) x) v.(m_db).(expiry_cycles) = Ok (Some cy)) /\
      (is_trading_day today (_holidays e) = true ->
       exists s o, one_or_none (is_session (upper (strip u)) today) v.(m_db).(daily_sessions) = Ok (Some s) /\
         lock_if_due s m t e.(sp_tz) v = (Ok s, v) /\ snapshot s m c (strike_range cfg e.(sp_settings)) None v = (Ok o, v))
  end.
Lemma advance_settled e m c u cfg now v : alone v -> underlying_config u = Ok cfg ->
  settled_for e m c u cfg (default (m_now v) now) v -> _advance e m c u now v = (Ok tt, v).
Proof.
  intros H C (F & G). unfold _advance. set (t := default (m_now v) now) in *. set (today := local_date t (sp_tz e)) in *.
  unfold bind at 1. assert ((match now with Some t => ret t | None => utcnow end) v = (Ok t, v)) as -> by (unfold t; now destruct now).
  cbv beta iota. unfold bind at 1, lift at 1. rewrite C. cbv beta iota. unfold bind at 1. fold today.
  rewrite past_nothing by assumption. cbv beta iota. unfold bind at 1.
  destruct (upcoming (list_expiries u m) today) as [|x r] eqn:U.
  { unfold get_or_create_active_cycle. now rewrite U. }
  destruct G as [[cy Hcy] G]. rewrite (cycle_again u _ today x r cy v H U Hcy). cbv beta iota. unfold bind at 1.
  destruct (is_trading_day today (_holidays e)) eqn:T.
  - destruct (G eq_refl) as (s & o & Hs & Hl & Ho). rewrite (today_again u cy today _ s v H T Hs). cbv beta iota.
    unfold bind at 1. rewrite Hl. cbv beta iota. unfold bind. now rewrite Ho.
  - unfold get_or_create_today. now rewrite T.
Qed.
(** The lock leaves a row that it then leaves alone, whatever the snapshots. *)
Lemma lock_alone s m t tz u day w s' w' : alone w -> w_ok w -> one_or_none (is_session u day) w.(m_db).(daily_sessions) = Ok (Some s) ->
  lock_if_due s m t tz w = (Ok s', w') ->
  exists l, w' = set_db (on_daily_sessions (fun _ => l) w.(m_db)) w /\ one_or_none (is_session u day) l = Ok (Some s') /\
    In s' l /\ forall k, choose_lock (on_oi_snapshots k (on_daily_sessions (fun _ => l) w.(m_db))) m t tz s' = Ok Wait.
Proof.
  intros H Hw E. pose proof (one_or_none_Some _ _ _ E) as [Hs Hp]. rewrite (run_lock s m t tz w H Hw Hs).
  destruct (choose_lock _ m t tz s) as [[|spot atm ce pe ces pes]|] eqn:C; [| |discriminate].
  - intros [= <- <-]. exists (daily_sessions (m_db w)). rewrite same_sessions, set_db_same. repeat split; auto.
  - set (ch := Lock _ _ _ _ _ _). intros E'. assert (s' = locked_as s ch /\ w' = set_db (store_lock s ch (m_db w)) w) as [-> ->] by (split; congruence). clear E'. pose proof (mdb_ok_ids _ Hw) as (_ & Hn & _).
    destruct (locked_as_key s ch) as (K1 & K2 & _ & K3 & K4).
    exists (update_where (fun r => ds_id r =? ds_id s) (fun _ => locked_as s ch) (daily_sessions (m_db w))).
    assert (In (locked_as s ch) (update_where (fun r => ds_id r =? ds_id s) (fun _ => locked_as s ch) (daily_sessions (m_db w)))) as Hi.
    { pose proof (update_where_In (fun r => ds_id r =? ds_id s) (fun _ => locked_as s ch) _ _ Hs) as Hi. cbv beta in Hi. now rewrite Z.eqb_refl in Hi. }
    assert (forall x, is_session u day x = true <-> ds_key x = (u, day)) as Kp.
    { intros x. unfold is_session, ds_key. rewrite andb_true_iff, String.eqb_eq, Z.eqb_eq. split; [intros [-> ->]; reflexivity | now intros [= -> ->]]. }
    split; [reflexivity|]. split; [|split; [exact Hi|]].
    + apply (one_or_none_found ds_key); [| exact Hi | apply (proj2 (Kp _)); etransitivity; [exact K2 | now apply (proj1 (Kp _))] |].
      * rewrite map_update_at by auto. unfold w_ok, mdb_ok, unique_on in Hw. rewrite !andb_true_iff, !bool_decide_eq_true in Hw. tauto.
      * intros y _ Hy. apply Kp in Hy. etransitivity; [exact Hy|]. symmetry. etransitivity; [exact K2 | now apply (proj1 (Kp _))].
    + intros k. unfold choose_lock. now rewrite (locked_as_locked s spot atm ce pe ces pes : locked (locked_as s ch) = true).
Qed.

(** C36: the engine is idempotent: when no other connection writes, repeating
    a call that succeeded -- same instant, same instruments and quotes --
    succeeds again and changes nothing: no second cycle, session or snapshot, and
    no other locked strike. *)
Theorem pulse_idempotent e m c u now w w' : w_ok w -> alone w ->
  _advance e m c u now w = (Ok tt, w') -> _advance e m c u now w' = (Ok tt, w').
Proof.
  intros Hw H E0. assert (exists cfg, underlying_config u = Ok cfg /\ settled_for e m c u cfg (default (m_now w') now) w' /\ alone w') as (cfg & C & G & Ha).
  2:{ now apply (advance_settled e m c u cfg). }
  pose proof (advance_ok e m c u now w Hw) as Hw'. rewrite E0 in Hw'. cbn [snd] in Hw'. revert E0. unfold _advance. unfold bind at 1. set (t := default (m_now w) now).
  assert ((match now with Some t => ret t | None => utcnow end) w = (Ok t, w)) as -> by (unfold t; now destruct now).
  cbv beta iota. set (today := local_date t (sp_tz e)).
  unfold bind at 1, lift at 1. destruct (underlying_config u) as [cfg|] eqn:C; [|discriminate]. cbv beta iota.
  unfold bind at 1. pose proof (past_ok u today w Hw) as Hw1.
  destruct (complete_past_cycles u today w) as [[n1|] w1] eqn:E1; [|discriminate].
  destruct (past_alone u today w n1 w1 H E1) as (l1 & -> & P1). cbn [snd] in Hw1. set (w1 := set_db _ w) in *.
  unfold bind at 1. pose proof (cycle_ok u (list_expiries u m) today w1 Hw1) as Hw2.
  destruct (get_or_create_active_cycle u (list_expiries u m) today w1) as [[o2|] w2] eqn:E2; [|discriminate].
  destruct (cycle_alone u _ today w1 o2 w2 H E2) as (l2 & -> & P2 & Q2). specialize (P2 P1). cbn [snd] in Hw2. set (w2 := set_db _ w1) in *.
  destruct o2 as [cy|].
  2:{ intros [= <-]. exists cfg. split; [reflexivity|]. split; [|exact H]. split; [exact P2|].
      destruct (upcoming _ _); [exact I | now destruct Q2 as (c0 & [=] & _)]. }
  destruct (upcoming (list_expiries u m) today) as [|x r] eqn:U; [discriminate Q2|]. destruct Q2 as (cy' & [= <-] & Q2).
  unfold bind at 1. pose proof (today_ok u cy today (_holidays e) w2 Hw2) as Hw3.
  destruct (get_or_create_today u cy today (_holidays e) w2) as [[o3|] w3] eqn:E3; [|discriminate].
  destruct (today_alone u cy today _ w2 o3 w3 H E3) as (l3 & -> & Q3). cbn [snd] in Hw3. set (w3 := set_db _ w2) in *.
  destruct (is_trading_day today (_holidays e)) eqn:T.
  2:{ subst o3. intros [= <-]. exists cfg. split; [reflexivity|]. split; [|exact H]. split; [exact P2|].
      change (default (m_now w3) now) with t. fold today. rewrite U, T. split; [now exists cy | discriminate]. }
  destruct Q3 as (s & -> & Q3). unfold bind at 1. 
  destruct (lock_if_due s m t (sp_tz e) w3) as [[s'|] w4] eqn:E4; [|discriminate].
  destruct (lock_alone s m t _ _ _ w3 s' w4 H Hw3 Q3 E4) as (l4 & -> & Q4 & Hin & Q4'). set (w4 := set_db _ w3) in *.
  unfold bind at 1. destruct (snapshot s' m c _ None w4) as [[o|] w5] eqn:E5; [|discriminate].
  destruct (snapshot_alone _ _ _ _ _ w4 o w5 H E5) as (l5 & -> & E5'). set (w5 := set_db _ w4) in *.
  intros [= <-]. exists cfg. split; [reflexivity|]. split; [|exact H]. split; [exact P2|].
  change (default (m_now w5) now) with t. fold today. rewrite U. split; [now exists cy|]. intros _. exists s', o.
  split; [exact Q4|]. split; [|exact E5'].
  rewrite (run_lock s' m t _ w5 H Hw' Hin). change (m_db w5) with (on_oi_snapshots (fun _ => l5) (on_daily_sessions (fun _ => l4) (m_db w3))).
  now rewrite Q4'.
Qed.
Lemma pulse_idempotent_witness :
  let w' := mkMWorld at_0920 [] (clock 9 20) in
  _advance demo_pulse demo_master (empty_cache (f_of_Z 10)) "NIFTY" None (opened 25160) = (Ok tt, w') /\
  _advance demo_pulse demo_master (empty_cache (f_of_Z 10)) "NIFTY" None w' = (Ok tt, w').
Proof.
  assert (_advance demo_pulse demo_master (empty_cache (f_of_Z 10)) "NIFTY" None (opened 25160) = (Ok tt, mkMWorld at_0920 [] (clock 9 20))) as E
    by (vm_compute; reflexivity).
  split; [exact E|].
  apply (pulse_idempotent demo_pulse demo_master (empty_cache (f_of_Z 10)) "NIFTY" None (opened 25160)); [vm_compute; reflexivity | reflexivity | exact E].
Defined.

Lemma symbol_of_side m u e a ot : In ot ["CE"; "PE"] -> exists s, symbol_of m u e a ot = Ok s.
Proof.
  intros H. unfold symbol_of. destruct (resolve _ _ _ _ _); [eauto|]. destruct H as [<-|[<-|[]]]; eexists; reflexivity.
Qed.
Lemma contract_by_symbol d s : mdb_ok d = true -> exists o, one_or_none (fun c => String.eqb (ct_symbol c) s) d.(option_contracts) = Ok o.
Proof.
  intros H. apply (one_or_none_unique ct_symbol).
  - unfold mdb_ok, unique_on in H. rewrite !andb_true_iff, !bool_decide_eq_true in H. tauto.
  - intros x y _ _ Hx Hy. apply String.eqb_eq in Hx, Hy. congruence.
Qed.

(** The 09:15 candles stored for a session's underlying. *)
Definition opening_candles (s : DailySession) (tz : Z) (d : MDb) : list MarketCandleRow :=
  List.filter (fun c => String.eqb c.(mc_symbol) s.(ds_underlying) && (c.(mc_timestamp) =? combine s.(ds_trading_date) _CANDLE_MINUTE tz)) d.(market_candles).

(** The ATM is taken once, from the opening minute: a pending session is
    left as it is before 09:16, while the 09:15 candle is not stored, and while no
    strikes are listed for its expiry; otherwise -- however late the call -- it
    becomes LOCKED with the close of that candle and a listed strike nearest to
    it, with contract ids of stored contracts of the two symbols, and this row is
    the only change to the tables. *)
Theorem atm_locked_at_open s m now tz cy w :
  w_ok w -> alone w -> In s w.(m_db).(daily_sessions) -> locked s = false ->
  In cy w.(m_db).(expiry_cycles) -> cy.(cy_id) = s.(ds_cycle_id) ->
  let strikes := list_strikes s.(ds_underlying) cy.(cy_expiry_date) m in
  let r := lock_if_due s m now tz w in
  (now < combine s.(ds_trading_date) (hhmm 9 16) tz \/ opening_candles s tz w.(m_db) = [] -> r = (Ok s, w)) /\
  (forall c, combine s.(ds_trading_date) (hhmm 9 16) tz <= now -> opening_candles s tz w.(m_db) = [c] ->
   (strikes = [] -> r = (Ok s, w)) /\
   ((forall k, In k strikes -> f_num (distance c.(mc_close) k)) -> strikes <> [] ->
    exists s' atm, r = (Ok s', set_db (on_daily_sessions (update_where (fun x => ds_id x =? ds_id s) (fun _ => s')) w.(m_db)) w) /\
      locked s' = true /\ ds_key s' = ds_key s /\ ds_cycle_id s' = ds_cycle_id s /\
      ds_spot_0916 s' = Some c.(mc_close) /\ ds_atm_strike s' = Some atm /\ In atm strikes /\
      (forall k, In k strikes -> f_leb (distance c.(mc_close) atm) (distance c.(mc_close) k) = true) /\
      (forall i, ds_atm_ce_contract_id s' = Some i \/ ds_atm_pe_contract_id s' = Some i ->
        exists x, In x w.(m_db).(option_contracts) /\ ct_id x = i /\ (ds_atm_ce_symbol s' = Some (ct_symbol x) \/ ds_atm_pe_symbol s' = Some (ct_symbol x))))).
Proof.
  intros Hw H Hs L Hcy Ecy strikes r. subst r. rewrite (run_lock s m now tz w H Hw Hs). unfold choose_lock. rewrite L. cbn [orb].
  assert (forall l, opening_candles s tz (m_db w) = l -> one_or_none (fun c => String.eqb c.(mc_symbol) s.(ds_underlying) &&
    (c.(mc_timestamp) =? combine s.(ds_trading_date) _CANDLE_MINUTE tz)) (market_candles (m_db w)) =
    match l with [] => Ok None | [x] => Ok (Some x) | _ => Err MultipleResultsFound end) as Eo by (now intros l <-). change (hhmm 9 16) with _LOCK_TIME. split.
  - intros [Hn|E]; [now rewrite (proj2 (Z.ltb_lt _ _) Hn)|]. rewrite (Eo _ E). now destruct (now <? _).
  - intros c Hn E. rewrite (proj2 (Z.ltb_ge _ _) Hn), (Eo _ E). pose proof (mdb_ok_ids _ Hw) as (Hnd & _).
    rewrite (one_or_none_found cy_id _ _ cy Hnd Hcy); [| now apply Z.eqb_eq | intros y _ Hy; apply Z.eqb_eq in Hy; congruence].
    fold strikes. split; [now intros ->|]. intros Hnum Hne.
    destruct (nearest_strike strikes (Some (mc_close c))) as [atm|] eqn:A; [|now destruct strikes].
    destruct (nearest_strike_least strikes _ atm Hnum A) as [Hin Hmin]. unfold sides.
    destruct (symbol_of_side m (ds_underlying s) (cy_expiry_date cy) atm "CE") as [ces ->]; [now left|].
    destruct (symbol_of_side m (ds_underlying s) (cy_expiry_date cy) atm "PE") as [pes ->]; [right; now left|].
    destruct (contract_by_symbol (m_db w) ces Hw) as [ce Ece]. destruct (contract_by_symbol (m_db w) pes Hw) as [pe Epe]. rewrite Ece, Epe.
    set (ch := Lock _ _ _ _ _ _). exists (locked_as s ch), atm. split; [reflexivity|]. unfold ch. rewrite locked_as_row. repeat split; auto.
    cbn [ds_atm_ce_contract_id ds_atm_pe_contract_id ds_atm_ce_symbol ds_atm_pe_symbol].
    assert (forall o sym i, one_or_none (fun c => String.eqb (ct_symbol c) sym) (option_contracts (m_db w)) = Ok o -> ct_id <$> o = Some i ->
      exists x, In x (option_contracts (m_db w)) /\ ct_id x = i /\ sym = ct_symbol x) as K.
    { intros [x|] sym i Eq; [|discriminate]. cbn. intros [= <-]. apply one_or_none_Some in Eq as [Hx Ex]. apply String.eqb_eq in Ex. eauto. }
    intros i [Ei|Ei]; [destruct (K ce ces i Ece Ei) as (x & H1 & H2 & ->) | destruct (K pe pes i Epe Ei) as (x & H1 & H2 & ->)]; exists x; auto.
Qed.
(** At 09:10 the session waits. *)
Definition at_0910 : MDb := Eval vm_compute in (snd (pulses demo_pulse [demo_call 9 10] (opened 25160))).(m_db).
Definition waiting : DailySession :=
  Eval vm_compute in match at_0910.(daily_sessions) as l return match l with [] => unit | _ => DailySession end with s :: _ => s | [] => tt end.
Definition demo_cycle : ExpiryCycle :=
  Eval vm_compute in match at_0910.(expiry_cycles) as l return match l with [] => unit | _ => ExpiryCycle end with s :: _ => s | [] => tt end.
Lemma atm_locked_at_open_witness :
  let w := mkMWorld at_0910 [] (clock 15 0) in
  let r := lock_if_due waiting demo_master (clock 15 0) IST w in
  exists s' atm, r = (Ok s', set_db (on_daily_sessions (update_where (fun x => ds_id x =? ds_id waiting) (fun _ => s')) w.(m_db)) w) /\
    ds_spot_0916 s' = Some (f_of_Z 25160) /\ ds_atm_strike s' = Some atm.
Proof.
  destruct (atm_locked_at_open waiting demo_master (clock 15 0) IST demo_cycle (mkMWorld at_0910 [] (clock 15 0))) as [_ T].
  - vm_compute. reflexivity.
  - reflexivity.
  - left. reflexivity.
  - reflexivity.
  - left. reflexivity.
  - reflexivity.
  - destruct (T (opening_row 25160)) as [_ T2]; [vm_compute; discriminate | vm_compute; reflexivity |].
    destruct T2 as (s' & atm & E & _ & _ & _ & H1 & H2 & _).
    + assert (list_strikes (ds_underlying waiting) (cy_expiry_date demo_cycle) demo_master = map f_of_Z [25100; 25150; 25200]) as -> by (vm_compute; reflexivity).
      intros k Hk. repeat (destruct Hk as [<-|Hk]; [vm_compute; reflexivity|]). destruct Hk.
    + vm_compute. discriminate.
    + exists s', atm. auto.
Defined.

(** ** A cycle that blocks *)
Lemma filter_nil {A} (p : A -> bool) l : (forall x, In x l -> p x = false) -> List.filter p l = [].
Proof.
  intros H. induction l as [|x l IH]; [reflexivity|]. cbn. rewrite (H x (or_introl eq_refl)). apply IH. intros y Hy. apply H. now right.
Qed.
Lemma active_unique d x y : mdb_ok d = true -> In x d.(expiry_cycles) -> In y d.(expiry_cycles) -> active x = true -> active y = true ->
  cy_underlying x = cy_underlying y -> x = y.
Proof.
  intros H Hx Hy Ax Ay E. apply (NoDup_map_inj_in cy_underlying (List.filter active (expiry_cycles d))); auto; try (now apply List.filter_In).
  unfold mdb_ok, unique_on in H. rewrite !andb_true_iff, !bool_decide_eq_true in H. tauto.
Qed.
(** Only one cycle may be ACTIVE, so a nearer expiry listed while a later
    cycle is ACTIVE -- an expiry moved to an earlier day, or missing from the
    first load of the instruments -- cannot get its cycle: the call raises
    [IntegrityError] and changes nothing, and so does every later call until the
    later expiry has passed; no session is created, no ATM locked, no open
    interest stored. *)
Theorem nearer_expiry_blocks e m c u cfg now w cy x r :
  let today := local_date (default w.(m_now) now) e.(sp_tz) in
  w_ok w -> alone w -> underlying_config u = Ok cfg ->
  In cy w.(m_db).(expiry_cycles) -> active cy = true -> cy.(cy_underlying) = upper (strip u) -> today <= cy.(cy_cycle_end_date) ->
  upcoming (list_expiries u m) today = x :: r ->
  (forall k, In k w.(m_db).(expiry_cycles) -> is_cycle (upper (strip u)) x k = false) ->
  _advance e m c u now w = (Err IntegrityError, w).
Proof.
  intros today Hw H C Hcy Ha Hu Hend U Hno. unfold _advance. set (t := default (m_now w) now) in *.
  unfold bind at 1. assert ((match now with Some t => ret t | None => utcnow end) w = (Ok t, w)) as -> by (unfold t; now destruct now).
  cbv beta iota. fold today. unfold bind at 1, lift at 1. rewrite C. cbv beta iota. unfold bind at 1.
  rewrite past_nothing; [|exact H|].
  2:{ apply filter_nil. intros k Hk. destruct (is_past _ today k) eqn:P; [|reflexivity]. exfalso. unfold is_past in P.
      rewrite !andb_true_iff, String.eqb_eq, Z.ltb_lt in P. destruct P as [[P1 P2] P3].
      assert (k = cy) as -> by (apply (active_unique (m_db w)); auto; congruence). lia. }
  cbv beta iota. unfold bind at 1. unfold get_or_create_active_cycle. rewrite U. unfold bind at 1. rewrite run_scalar by exact H.
  assert (one_or_none (is_cycle (upper (strip u)) x) (expiry_cycles (m_db w)) = Ok None) as E by (unfold one_or_none; now rewrite filter_nil).
  rewrite E. cbv beta iota. unfold bind at 1, lift at 1.
  assert (underlying_config (upper (strip u)) = Ok cfg) as ->.
  { unfold underlying_config in C |- *. destruct (List.find _ _) as [[k v]|] eqn:F in C; [|discriminate]. injection C as ->.
    apply List.find_some in F as [F1 F2]. apply String.eqb_eq in F2. cbn [fst] in F2. rewrite <- F2.
    destruct F1 as [[= <- <-]|[[= <- <-]|[]]]; reflexivity. }
  cbv beta iota. erewrite run_create; [|exact H | exact E | reflexivity | reflexivity | intros K; now apply mdb_ok_ids].
  destruct (mdb_ok _) eqn:K; [|reflexivity]. exfalso. set (d := m_db w) in *.
  match type of K with mdb_ok (on_expiry_cycles ?f d) = true => pose proof (active_unique _ cy (List.last (f (expiry_cycles d)) cy) K) as N end.
  cbn [expiry_cycles on_expiry_cycles] in N. rewrite List.last_last in N.
  specialize (Hno cy Hcy). rewrite N in Hno; auto.
  - unfold is_cycle in Hno. cbn in Hno. now rewrite String.eqb_refl, Z.eqb_refl in Hno.
  - apply in_or_app. now left.
  - apply in_or_app. right. now left.
Qed.
Definition later_cycle : ExpiryCycle := mkCycle 1 "NIFTY" "NFO" (demo_day + 1) (demo_day - 6) (demo_day + 1) "ACTIVE" None.
Definition blocked : MWorld := mkMWorld (mkMDb [opening_row 25160] [] [] [later_cycle] [] []) [] (clock 9 20).
Lemma nearer_expiry_blocks_witness :
  _advance demo_pulse demo_master (empty_cache (f_of_Z 10)) "NIFTY" None blocked = (Err IntegrityError, blocked).
Proof.
  apply (nearer_expiry_blocks demo_pulse demo_master (empty_cache (f_of_Z 10)) "NIFTY" (mkUnderlyingConfig "NIFTY" NSE NFO "nifty_option_strike_range")
    None blocked later_cycle demo_day []).
  - vm_compute. reflexivity.
  - reflexivity.
  - reflexivity.
  - left. reflexivity.
  - reflexivity.
  - reflexivity.
  - vm_compute. discriminate.
  - vm_compute. reflexivity.
  - intros k [<-|[]]. vm_compute. reflexivity.
Defined.

(** ** Open interest *)
Lemma mdb_ok_append_snapshot d o : mdb_ok d = true -> oi_id o = next_id oi_id d.(oi_snapshots) ->
  (forall x, In x d.(oi_snapshots) -> oi_key x <> oi_key o) -> id_in cy_id d.(expiry_cycles) o.(oi_cycle_id) = true ->
  mdb_ok (append_snapshot o d) = true.
Proof.
  intros H Ei Hk Hf. unfold mdb_ok, append_snapshot in *.
  cbn [market_candles option_contracts option_candles expiry_cycles daily_sessions oi_snapshots on_oi_snapshots].
  rewrite forallb_app. cbn [forallb]. rewrite Hf.
  assert (unique_on oi_id (oi_snapshots d) = true /\ unique_on oi_key (oi_snapshots d) = true) as [U1 U2] by (rewrite !andb_true_iff in H; tauto).
  unfold unique_on in *. rewrite bool_decide_eq_true in U1, U2.
  rewrite (bool_decide_eq_true_2 (NoDup (map oi_id (oi_snapshots d ++ [o])))), (bool_decide_eq_true_2 (NoDup (map oi_key (oi_snapshots d ++ [o])))).
  - rewrite !andb_true_iff in *. tauto.
  - now apply NoDup_map_app_one.
  - apply NoDup_map_app_one; [exact U1|]. intros y Hy. pose proof (next_id_above oi_id _ _ Hy). lia.
Qed.
Lemma at_minute_key u e day ts x : at_minute u e day ts x = true <-> oi_key x = (u, e, day, ts).
Proof.
  unfold at_minute, of_day, oi_key. rewrite !andb_true_iff, String.eqb_eq, !Z.eqb_eq.
  split; [intros [[[-> ->] ->] ->]; reflexivity | now intros [= -> -> -> ->]].
Qed.

Lemma earliest_of l : l <> [] -> exists first, In first l /\ head (sort_by earlier_snapshot l) = Some first /\
  forall x, In x l -> oi_timestamp first <= oi_timestamp x.
Proof.
  intros Hne. assert (StronglySorted (fun a b => earlier_snapshot a b = true) (sort_by earlier_snapshot l)) as Hs.
  { apply Sorted_sort_by; unfold earlier_snapshot; intros *; rewrite !Z.leb_le; lia. }
  destruct (sort_by earlier_snapshot l) as [|f r] eqn:E.
  - exfalso. apply Hne. apply Permutation_nil. rewrite <- E. apply sort_by_Permutation.
  - exists f. split; [apply (In_sort_by earlier_snapshot); rewrite E; now left|]. split; [reflexivity|].
    intros x Hx. apply (In_sort_by earlier_snapshot) in Hx. rewrite E in Hx. destruct Hx as [->|Hx]; [lia|].
    inversion Hs as [|? ? _ Hf]; subst. rewrite List.Forall_forall in Hf. now apply Z.leb_le, (Hf x).
Qed.

(** The open-interest snapshot of a minute: for a locked session it is
    stored once per minute -- a second call in the minute returns the stored row
    and writes nothing -- with the sum of the quoted open interest of the calls,
    and of the puts, over the strike window around the locked ATM; its changes
    are measured from the earliest snapshot of that expiry and day, the first of
    the day having no change; and its put-call ratio is the quotient of the
    totals, absent when no call interest is quoted. *)
Theorem snapshot_of_minute s m c n now w atm cy :
  w_ok w -> alone w -> locked s = true -> s.(ds_atm_strike) = Some atm ->
  In cy w.(m_db).(expiry_cycles) -> cy.(cy_id) = s.(ds_cycle_id) ->
  let u := s.(ds_underlying) in
  let day := List.filter (of_day u cy.(cy_expiry_date) s.(ds_trading_date)) w.(m_db).(oi_snapshots) in
  let ts := minute_floor (default w.(m_now) now) in
  let window := select_strike_window (list_strikes u cy.(cy_expiry_date) m) atm n in
  let total ot := window_oi c u cy.(cy_expiry_date) ot window in
  exists o w', snapshot s m c n now w = (Ok (Some o), w') /\ oi_key o = (u, cy.(cy_expiry_date), s.(ds_trading_date), ts) /\
    In o w'.(m_db).(oi_snapshots) /\ snapshot s m c n now w' = (Ok (Some o), w') /\
    ((exists old, In old day /\ oi_timestamp old = ts /\ o = old /\ w' = w) \/
     (w' = set_db (append_snapshot o w.(m_db)) w /\
      call_oi_total o = total "CE" /\ put_oi_total o = total "PE" /\
      pcr o = (if 0 <? total "CE" then Some (f_div (f_of_Z (total "PE")) (f_of_Z (total "CE"))) else None) /\
      (day = [] -> call_oi_change o = 0 /\ put_oi_change o = 0) /\
      (day <> [] -> exists first, In first day /\ (forall x, In x day -> oi_timestamp first <= oi_timestamp x) /\
         call_oi_change o = total "CE" - call_oi_total first /\ put_oi_change o = total "PE" - put_oi_total first))).
Proof.
  intros Hw H L A Hcy Ecy u day ts window total. pose proof (mdb_ok_ids _ Hw) as (Hnd & _ & Hno).
  assert (one_or_none (fun c => cy_id c =? ds_cycle_id s) (expiry_cycles (m_db w)) = Ok (Some cy)) as C.
  { apply (one_or_none_found cy_id); auto; [now apply Z.eqb_eq | intros y _ Hy; apply Z.eqb_eq in Hy; congruence]. }
  pose proof (run_snapshot s m c n now w atm cy H L A C) as E. cbv zeta in E. fold u ts window in E.
  set (o := new_snapshot _ _ _ _ _ _) in E.
  destruct (one_or_none_unique oi_key (at_minute u (cy_expiry_date cy) (ds_trading_date s) ts) (oi_snapshots (m_db w))) as [[old|] F].
  - unfold w_ok, mdb_ok, unique_on in Hw. rewrite !andb_true_iff, !bool_decide_eq_true in Hw. tauto.
  - intros x y _ _ Hx%at_minute_key Hy%at_minute_key. congruence.
  - rewrite F in E. apply one_or_none_Some in F as [F1 F2]. exists old, w. split; [exact E|]. split; [now apply at_minute_key|].
    split; [exact F1|]. split; [exact E|]. left. exists old. split; [|split; [now apply at_minute_key in F2; injection F2|auto]].
    apply List.filter_In. split; [exact F1|]. unfold at_minute in F2. now apply andb_true_iff in F2.
  - rewrite F in E. assert (oi_key o = (u, cy_expiry_date cy, ds_trading_date s, ts)) as Ko by reflexivity.
    rewrite mdb_ok_append_snapshot in E; [|exact Hw | reflexivity | |].
    2:{ intros x Hx. rewrite Ko, <- at_minute_key. now rewrite (one_or_none_None _ _ _ F Hx). }
    2:{ unfold id_in. apply existsb_exists. exists cy. split; [exact Hcy | now apply Z.eqb_eq]. }
    exists o. eexists. split; [exact E|]. split; [exact Ko|]. split; [cbn; apply in_or_app; right; now left|]. split.
    { destruct (snapshot_alone _ _ _ _ _ _ _ _ H E) as (l & _ & E2). exact E2. }
    right. split; [reflexivity|]. unfold o, new_snapshot. cbn [call_oi_total put_oi_total pcr call_oi_change put_oi_change]. fold u window. fold day.
    split; [reflexivity|]. split; [reflexivity|]. split; [reflexivity|]. split.
    + intros ->. cbn. unfold total. lia.
    + intros Hne. destruct (earliest_of day Hne) as (first & Hf & -> & Hmin). exists first. auto.
Qed.
Lemma snapshot_of_minute_witness :
  let w := mkMWorld at_0920 [] (clock 9 21) in
  exists o w', snapshot demo_session demo_master (empty_cache (f_of_Z 10)) 10 None w = (Ok (Some o), w') /\
    snapshot demo_session demo_master (empty_cache (f_of_Z 10)) 10 None w' = (Ok (Some o), w').
Proof.
  destruct (snapshot_of_minute demo_session demo_master (empty_cache (f_of_Z 10)) 10 None (mkMWorld at_0920 [] (clock 9 21)) (f_of_Z 25150) demo_cycle)
    as (o & w' & E1 & _ & _ & E2 & _).
  - vm_compute. reflexivity.
  - reflexivity.
  - reflexivity.
  - vm_compute. reflexivity.
  - left. reflexivity.
  - reflexivity.
  - exists o, w'. now split.
Defined.
