(* ===== verification/MarketSession.v ===== *)
(** * The broker session

    [trading/market_data/session.py]: which credentials are current, whether a
    session can be established with them, and what the feed status publishes
    about it.  The broker's SDK, the Secrets Manager client and the headless
    login are the external code of [SessionEnv]; each call sees the calls made
    before it ([sm_calls]), so every sequence of answers is covered. *)
From S2P Require Import Prelude PyStr Config MarketTime.

Record BreezeCredentials : Type := mkCreds { cr_api_key : string; cr_secret_key : string; cr_session_token : string; cr_source : string }.
#[global] Instance BreezeCredentials_eq_dec : EqDecision BreezeCredentials.
Proof. solve_decision. Defined.
Definition has_app_creds (c : BreezeCredentials) : bool := truthy c.(cr_api_key) && truthy c.(cr_secret_key).
Definition is_complete (c : BreezeCredentials) : bool := has_app_creds c && truthy c.(cr_session_token).

(** How a try to establish a session ends. *)
Inductive attempt : Type :=
| InitRaised (cls : string)                 (* the provider's constructor raised *)
| ConnectRaised (cls msg : string)          (* [provider.connect()] raised *)
| Connected.

Inductive scall : Type :=
| ReadSecret (ok : bool)
| ReadClock
| Establish (creds : BreezeCredentials) (a : attempt)
| Login (ok : bool).
(** The runtime overrides: three of the keys of [_runtime] are ever written. *)
Record Runtime : Type := mkRuntime { rt_api_key : option string; rt_secret_key : option string; rt_session_token : option string }.
Record Manager : Type := mkManager { _runtime : Runtime; _last_check : option SessionCheck; sm_status : MarketFeedStatus; sm_calls : list scall }.
Definition SM (A : Type) : Type := M Manager exn A.

Class SessionEnv : Type := {
  secrets_loader : list scall -> string -> string -> result exn (gmap string string);
  establish : list scall -> string -> BreezeCredentials -> attempt;
  login_zerodha_headless : list scall -> string -> string -> string -> string -> string -> result exn string;
  redact_text : string -> string;           (* the log redactor: regular expressions *)
  token_fingerprint : string -> string;     (* the first 12 digits of the SHA-256 *)
  clock_at : list scall -> Z
}.
Definition opt_or (a : option string) (b : string) : string := match a with Some x => str_or x b | None => b end.

Section session.
Context {env : SessionEnv} (s : Settings).

Definition external {A} (f : list scall -> A) (log : A -> scall) : SM A := fun m =>
  let a := f m.(sm_calls) in
  (Ok a, mkManager m.(_runtime) m.(_last_check) m.(sm_status) (m.(sm_calls) ++ [log a])).
Definition fingerprint (secret : string) : option string := if truthy secret then Some (token_fingerprint secret) else None.
Definition provider_key : string := lower (str_or s.(s_market_data_provider) "zerodha").
Definition is_zerodha : bool := str_in provider_key ["zerodha"; "kite"; "zerodha_kite"].

Definition set_credentials (session_token : string) (api_key secret_key : option string) : SM unit :=
  modify (fun m =>
    let set (v old : option string) := match v with Some x => if truthy x then Some (strip x) else old | None => old end in
    mkManager (mkRuntime (set api_key m.(_runtime).(rt_api_key)) (set secret_key m.(_runtime).(rt_secret_key)) (Some (strip session_token)))
      m.(_last_check) m.(sm_status) m.(sm_calls)).
Definition clear_runtime : SM unit :=
  modify (fun m => mkManager (mkRuntime None None None) m.(_last_check) m.(sm_status) m.(sm_calls)).

Definition env_credentials : BreezeCredentials :=
  let '(k, q, t) := if is_zerodha then (s.(s_zerodha_api_key), s.(s_zerodha_api_secret), s.(s_zerodha_access_token))
                    else (s.(s_breeze_api_key), s.(s_breeze_secret_key), s.(s_breeze_session_token)) in
  mkCreds k q t (if truthy k || truthy q || truthy t then "env" else "unset").
Definition secret_id : string := if is_zerodha then s.(s_zerodha_secret_id) else s.(s_breeze_secret_id).
(** A failed read of the secret leaves what the environment gave. *)
Definition with_secret (answer : result exn (gmap string string)) (c : BreezeCredentials) : BreezeCredentials :=
  match answer with
  | Ok d => mkCreds (opt_or (d !! "api_key") c.(cr_api_key)) (opt_or (d !! "secret_key") c.(cr_secret_key))
              (opt_or (d !! "session_token") c.(cr_session_token)) "secrets_manager"
  | Err _ => c
  end.
Definition with_runtime (r : Runtime) (c : BreezeCredentials) : BreezeCredentials :=
  mkCreds (opt_or r.(rt_api_key) c.(cr_api_key)) (opt_or r.(rt_secret_key) c.(cr_secret_key))
    (opt_or r.(rt_session_token) c.(cr_session_token))
    (if truthy (default "" r.(rt_session_token)) then "runtime" else c.(cr_source)).
Definition credentials : SM BreezeCredentials :=
  let! c := if truthy secret_id then
              let! answer := external (fun t => secrets_loader t secret_id s.(s_aws_region)) (fun a => ReadSecret (is_ok a)) in
              ret (with_secret answer env_credentials)
            else ret env_credentials in
  let! r := gets _runtime in
  ret (with_runtime r c).

Definition can_auto_login : SM bool :=
  if negb is_zerodha then ret false
  else
    let! creds := credentials in
    ret (has_app_creds creds && truthy s.(s_zerodha_user_id) && truthy s.(s_zerodha_password) && truthy s.(s_zerodha_totp_key)).

(** [str(exc)] and [type(exc).__name__] of what a call may raise. *)
Definition class_of (e : exn) : string := match e with
  | OtherError c _ => c | ValueError _ => "ValueError" | KeyError _ => "KeyError" | ZeroDivisionError => "ZeroDivisionError"
  | IntegrityError => "IntegrityError" | MultipleResultsFound => "MultipleResultsFound" | NoResultFound => "NoResultFound"
  | HTTPErr _ _ _ => "HTTPException" | _ => "Exception"
  end.
Definition text_of (e : exn) : string := match e with OtherError _ m => m | ValueError m => m | KeyError k => "'" +:+ k +:+ "'" | _ => "" end.
Definition _sanitize (msg : string) : string := str_take 240 (redact_text msg).
Definition _PROVIDER_ERRORS : list string :=
  ["ProviderError"; "ProviderConnectionError"; "ProviderRateLimitError"; "ProviderDataError"].

Definition _probe (creds : BreezeCredentials) (now : Z) : SM SessionCheck :=
  let! a := external (fun t => establish t s.(s_market_data_provider) creds) (Establish creds) in
  ret match a with
      | InitRaised cls => mkCheck S_ERROR now (Some ("provider init failed (" +:+ cls +:+ ")"))
      | ConnectRaised cls msg =>
          if String.eqb cls "ProviderAuthError" then
            mkCheck S_SESSION_REQUIRED now
              (Some ((if is_zerodha then "Zerodha" else "Breeze") +:+ " rejected the session (" +:+
                     (if is_zerodha then "access token" else "session token") +:+ " missing, invalid or expired). " +:+
                     "Provision today's token via POST /api/market/session."))
          else if str_in cls _PROVIDER_ERRORS then mkCheck S_ERROR now (Some (_sanitize msg))
          else mkCheck S_ERROR now (Some ("unexpected (" +:+ cls +:+ ")"))
      | Connected => mkCheck S_VALID now (Some ((if is_zerodha then "Zerodha Kite" else "Breeze") +:+ " session established"))
      end.

Definition auto_login (user_id password totp_key : option string) : SM SessionCheck :=
  let! now := external clock_at (fun _ => ReadClock) in
  if negb is_zerodha then ret (mkCheck S_ERROR now (Some "Auto-login is only supported for Zerodha Kite"))
  else
    let! creds := credentials in
    let uid := strip (opt_or user_id s.(s_zerodha_user_id)) in
    let pwd := opt_or password s.(s_zerodha_password) in
    let totp := strip (opt_or totp_key s.(s_zerodha_totp_key)) in
    if negb (has_app_creds creds && truthy uid && truthy pwd && truthy totp) then
      ret (mkCheck S_SESSION_REQUIRED now
        (Some "Auto-login requires ZERODHA_API_KEY, ZERODHA_API_SECRET, ZERODHA_USER_ID, ZERODHA_PASSWORD, and ZERODHA_TOTP_KEY."))
    else
      try_except
        (let! answer := external (fun t => login_zerodha_headless t creds.(cr_api_key) creds.(cr_secret_key) uid pwd totp)
                          (fun a => Login (is_ok a)) in
         let! access_token := lift answer in
         set_credentials access_token None None ;;;
         let! c := credentials in
         _probe c now)
        (fun e => ret (mkCheck S_SESSION_REQUIRED now (Some ("Zerodha auto-login failed: " +:+ _sanitize (text_of e))))).

Definition publish_session (creds : BreezeCredentials) (r : SessionCheck) : SM unit :=
  modify (fun m => let f := m.(sm_status) in
    mkManager m.(_runtime) m.(_last_check)
      (mkFeedStatus r.(sc_state) f.(feed_state) s.(s_market_data_provider) s.(s_market_data_enabled) creds.(cr_source)
         (truthy creds.(cr_api_key)) (truthy creds.(cr_secret_key)) (truthy creds.(cr_session_token))
         (fingerprint creds.(cr_session_token)) (Some r.(checked_at))
         (if bool_decide (r.(sc_state) = S_ERROR \/ r.(sc_state) = S_SESSION_REQUIRED) then r.(sc_detail) else None)
         f.(started_at) f.(stopped_at) f.(last_tick_at) f.(symbols_live) f.(option_contracts_subscribed) f.(reconnect_count))
      m.(sm_calls)).
Definition verdict_on (creds : BreezeCredentials) (now : Z) : SM SessionCheck :=
  if negb (has_app_creds creds) then
    ret (mkCheck S_NOT_CONFIGURED now
      (Some (if is_zerodha then "ZERODHA_API_KEY is not set" else "BREEZE_API_KEY / BREEZE_SECRET_KEY are not set")))
  else if negb (truthy creds.(cr_session_token)) then
    let! auto := if is_zerodha then can_auto_login else ret false in
    if auto then auto_login None None None
    else ret (mkCheck S_SESSION_REQUIRED now
           (Some (if is_zerodha then "No Zerodha access token. Generate today's access token and POST it to /api/market/session."
                  else "No Breeze session token. Generate today's token and POST it to /api/market/session.")))
  else
    let! r := _probe creds now in
    if bool_decide (r.(sc_state) = S_SESSION_REQUIRED) && is_zerodha then
      let! auto := can_auto_login in
      if auto then auto_login None None None else ret r
    else ret r.
Definition check (publish : bool) : SM SessionCheck :=
  let! creds := credentials in
  let! now := external clock_at (fun _ => ReadClock) in
  let! result := verdict_on creds now in
  modify (fun m => mkManager m.(_runtime) (Some result) m.(sm_status) m.(sm_calls)) ;;;
  (when publish do publish_session creds result) ;;;
  ret result.
Definition state (m : Manager) : SessionState := match m.(_last_check) with Some c => c.(sc_state) | None => S_UNKNOWN end.
End session.

(** ** Theorems *)
Section session_theorems.
Context {env : SessionEnv} (s : Settings).

(** [extends P m]: what a computation appends to the calls satisfies [P], and it
    returns. *)
Definition extends {A} (m : SM A) (P : A -> list scall -> Prop) : Prop :=
  forall x, exists a t y, m x = (Ok a, y) /\ sm_calls y = sm_calls x ++ t /\ P a t.
Lemma extends_ret {A} (a : A) (P : A -> list scall -> Prop) : P a [] -> extends (ret a) P.
Proof. intros H x. exists a, [], x. now rewrite app_nil_r. Qed.
Lemma extends_bind {A B} (m : SM A) (k : A -> SM B) (P : A -> list scall -> Prop) (Q : B -> list scall -> Prop) :
  extends m P -> (forall a t, P a t -> extends (k a) (fun b u => Q b (t ++ u))) -> extends (bind m k) Q.
Proof.
  intros Hm Hk x. destruct (Hm x) as (a & t & y & E & Et & HP). destruct (Hk a t HP y) as (b & u & z & E2 & Eu & HQ).
  exists b, (t ++ u), z. unfold bind. rewrite E, E2. split; [reflexivity|]. split; [now rewrite Eu, Et, app_assoc | exact HQ].
Qed.
Lemma extends_weaken {A} (m : SM A) (P Q : A -> list scall -> Prop) : extends m P -> (forall a t, P a t -> Q a t) -> extends m Q.
Proof. intros H HQ x. destruct (H x) as (a & t & y & E & Et & HP). exists a, t, y. auto. Qed.
Lemma extends_external {A} (f : list scall -> A) log (P : A -> list scall -> Prop) : (forall a, P a [log a]) -> extends (external f log) P.
Proof. intros H x. exists (f (sm_calls x)), [log (f (sm_calls x))]. eexists. split; [reflexivity|]. auto. Qed.
Lemma extends_gets {A} (f : Manager -> A) (P : A -> list scall -> Prop) : (forall a, P a []) -> extends (gets f) P.
Proof. intros H x. exists (f x), [], x. rewrite app_nil_r. auto. Qed.
Lemma extends_modify f (P : unit -> list scall -> Prop) : (forall m, sm_calls (f m) = sm_calls m) -> P tt [] -> extends (modify f) P.
Proof. intros H HP x. exists tt, [], (f x). rewrite app_nil_r. auto. Qed.

Definition logins (t : list scall) : nat := List.length (List.filter (fun c => match c with Login _ => true | _ => false end) t).
Definition probes (t : list scall) : list attempt := omap (fun c => match c with Establish _ a => Some a | _ => None end) t.
Lemma logins_app a b : logins (a ++ b) = (logins a + logins b)%nat.
Proof. unfold logins. now rewrite List.filter_app, length_app. Qed.
Lemma probes_app a b : probes (a ++ b) = probes a ++ probes b.
Proof. unfold probes. now rewrite omap_app. Qed.
(** Neither a probe nor a login. *)
Definition quiet {A} (_ : A) (t : list scall) : Prop := logins t = O /\ probes t = [].
Lemma quiet_app {A B} (a : A) (b : B) t u : quiet a t -> quiet b u -> quiet b (t ++ u).
Proof. unfold quiet. rewrite logins_app, probes_app. intros [-> ->] [-> ->]. auto. Qed.

Lemma credentials_quiet : extends (credentials s) quiet.
Proof.
  unfold credentials. eapply extends_bind with (P := quiet).
  - destruct (truthy (secret_id s)); [|now apply extends_ret].
    eapply extends_bind; [apply (extends_external _ _ quiet); intros a; now split|].
    intros a t H. apply extends_ret. now rewrite app_nil_r.
  - intros c t H. eapply extends_bind; [apply (extends_gets _ quiet); now split|]. intros r u Hu. apply extends_ret.
    rewrite app_nil_r. eapply quiet_app; eauto.
Qed.
Lemma can_auto_login_quiet : extends (can_auto_login s) quiet.
Proof.
  unfold can_auto_login. destruct (negb _); [now apply extends_ret|]. eapply extends_bind; [apply credentials_quiet|].
  intros c t H. apply extends_ret. now rewrite app_nil_r.
Qed.

(** A verdict with the probe it rests on, if any. *)
Definition verdict (r : SessionCheck) (ps : list attempt) : Prop := (sc_state r = S_VALID <-> last ps = Some Connected).
Lemma probe_extends creds now : extends (_probe s creds now) (fun r t => logins t = O /\ exists a, probes t = [a] /\ (sc_state r = S_VALID <-> a = Connected)).
Proof.
  unfold _probe. eapply extends_bind; [apply (extends_external _ _ (fun a t => logins t = O /\ probes t = [a])); intros a; now split|].
  intros a t [H1 H2]. apply extends_ret. rewrite app_nil_r. split; [exact H1|]. exists a. split; [exact H2|].
  destruct a as [cls|cls msg|]; [split; discriminate | destruct (String.eqb _ _); [|destruct (str_in _ _)]; split; discriminate | now split].
Qed.
(** At most one login, and a probe only after it succeeded. *)
Definition login_verdict (r : SessionCheck) (t : list scall) : Prop :=
  (logins t <= 1)%nat /\
  (probes t = [] /\ sc_state r <> S_VALID \/ exists a, probes t = [a] /\ logins t = 1%nat /\ (sc_state r = S_VALID <-> a = Connected)).
Lemma extends_prefix {A} (m : SM A) u (P : A -> list scall -> Prop) : quiet tt u ->
  (forall a t, P a t -> P a (u ++ t)) -> extends m P -> extends m (fun a t => P a (u ++ t)).
Proof. intros _ H. intros E. eapply extends_weaken; [exact E | auto]. Qed.
Lemma login_verdict_prefix r u t : quiet tt u -> login_verdict r t -> login_verdict r (u ++ t).
Proof. unfold quiet, login_verdict. rewrite logins_app, probes_app. now intros [-> ->]. Qed.
Lemma no_login r : sc_state r <> S_VALID -> login_verdict r [].
Proof. intros H. split; [cbn; lia | left; split; [reflexivity | exact H]]. Qed.
Lemma auto_login_extends u p k : extends (auto_login s u p k) login_verdict.
Proof.
  unfold auto_login. eapply extends_bind; [apply (extends_external _ _ quiet); intros a; now split|]. intros now t Ht.
  apply extends_prefix; [exact Ht | intros; now apply login_verdict_prefix|]. clear t Ht.
  destruct (negb (is_zerodha s)); [apply extends_ret, no_login; discriminate|].
  eapply extends_bind; [apply credentials_quiet|]. intros c t Ht.
  apply extends_prefix; [exact Ht | intros; now apply login_verdict_prefix|]. clear t Ht.
  destruct (negb _); [apply extends_ret, no_login; discriminate|].
  intros x. set (f := fun t => login_zerodha_headless t (cr_api_key c) (cr_secret_key c) _ _ _).
  unfold try_except, bind at 1, external. set (y := mkManager _ _ _ _). unfold bind at 1, lift at 1.
  destruct (f (sm_calls x)) as [token|e] eqn:E.
  - assert (extends (set_credentials token None None ;;; (let! c := credentials s in _probe s c now))
      (fun r t => logins t = O /\ exists a, probes t = [a] /\ (sc_state r = S_VALID <-> a = Connected))) as X.
    { eapply extends_bind; [apply (extends_modify _ quiet); [reflexivity | now split]|]. intros [] t [H1 H2].
      eapply extends_bind; [apply credentials_quiet|]. intros c' t' [H3 H4].
      eapply extends_weaken; [apply probe_extends|]. intros r t2 (H5 & a & H6 & H7).
      rewrite !logins_app, !probes_app, H1, H2, H3, H4, H5, H6. split; [reflexivity | now exists a]. }
    destruct (X y) as (r & t & z & Ez & Et & H1 & a & H2 & H3). rewrite Ez. exists r, (Login true :: t), z.
    split; [reflexivity|]. split; [unfold y in Et; cbn in Et; now rewrite Et, <- app_assoc|].
    unfold login_verdict. change (Login true :: t) with ([Login true] ++ t). rewrite logins_app, probes_app, H1, H2.
    split; [cbn; lia|]. right. exists a. split; [reflexivity|]. split; [reflexivity | exact H3].
  - eexists _, [Login false], y. split; [reflexivity|]. split; [reflexivity|]. split; [cbn; lia|]. left. split; [reflexivity | discriminate].
Qed.

Definition verdict_ok (r : SessionCheck) (t : list scall) : Prop :=
  (logins t <= 1)%nat /\ (List.length (probes t) <= 2)%nat /\ (sc_state r = S_VALID <-> last (probes t) = Some Connected).
Lemma verdict_ok_prefix r u t : quiet tt u -> verdict_ok r t -> verdict_ok r (u ++ t).
Proof. unfold quiet, verdict_ok. rewrite logins_app, probes_app. now intros [-> ->]. Qed.
Lemma verdict_ok_login r t : login_verdict r t -> verdict_ok r t.
Proof.
  intros [H1 [[H2 H3]|(a & H2 & H3 & H4)]]; (split; [exact H1|]); rewrite H2; (split; [cbn; lia|]); cbn.
  - split; [easy | discriminate].
  - rewrite H4. split; [now intros -> | now intros [= ->]].
Qed.
Lemma verdict_ok_none r : sc_state r <> S_VALID -> verdict_ok r [].
Proof. intros H. split; [cbn; lia|]. split; [cbn; lia|]. split; [easy | discriminate]. Qed.
(** A login after a probe that was refused. *)
Lemma verdict_ok_relogin r a t : login_verdict r t -> a <> Connected -> forall u, logins u = O -> probes u = [a] -> verdict_ok r (u ++ t).
Proof.
  intros [H1 H2] Ha u Hu Hp. unfold verdict_ok. rewrite logins_app, probes_app, Hu, Hp. split; [exact H1|].
  destruct H2 as [[-> H3]|(b & -> & H3 & H4)]; (split; [cbn; lia|]); cbn.
  - split; [easy | intros [= ->]; easy].
  - rewrite H4. split; [now intros -> | now intros [= ->]].
Qed.
Lemma verdict_on_extends creds now : extends (verdict_on s creds now) verdict_ok.
Proof.
  unfold verdict_on. destruct (negb (has_app_creds creds)); [apply extends_ret, verdict_ok_none; discriminate|].
  destruct (negb (truthy (cr_session_token creds))).
  - eapply extends_bind with (P := quiet); [destruct (is_zerodha s); [apply can_auto_login_quiet | now apply extends_ret]|].
    intros auto t Ht. apply extends_prefix; [exact Ht | intros; now apply verdict_ok_prefix|].
    destruct auto; [eapply extends_weaken; [apply auto_login_extends | apply verdict_ok_login]|].
    apply extends_ret, verdict_ok_none. discriminate.
  - eapply extends_bind; [apply probe_extends|]. intros r t (H1 & a & H2 & H3).
    assert (verdict_ok r t) as Hr.
    { split; [lia|]. rewrite H2. split; [cbn; lia|]. cbn. rewrite H3. split; [now intros -> | now intros [= ->]]. }
    destruct (bool_decide _ && _) eqn:E; [|apply extends_ret; now rewrite app_nil_r].
    apply andb_true_iff in E as [E _]. apply bool_decide_eq_true in E.
    assert (a <> Connected) as Ha by (intros Ea; apply H3 in Ea; congruence).
    eapply extends_bind; [apply can_auto_login_quiet|]. intros auto u Hu. destruct auto.
    + eapply extends_weaken; [apply auto_login_extends|]. intros r' t' H. rewrite app_assoc. 
      apply (verdict_ok_relogin r' a t' H Ha); [rewrite logins_app | rewrite probes_app]; destruct Hu as [Hu1 Hu2].
      * lia.
      * now rewrite H2, Hu2, app_nil_r.
    + apply extends_ret. rewrite app_nil_r. destruct Hu as [Hu1 Hu2], Hr as (R1 & R2 & R3). unfold verdict_ok.
      now rewrite logins_app, probes_app, Hu1, Hu2, app_nil_r, Nat.add_0_r.
Qed.

(** A session is VALID only if the broker accepted it: whatever the Secrets
    Manager, the broker and the login answer, [check] returns and never raises,
    records its verdict and -- when asked to publish -- publishes it, tries the
    headless login at most once and the broker at most twice; and the verdict is
    VALID exactly when the last attempt to connect with the current credentials
    succeeded. *)
Theorem session_valid_means_connected publish m :
  exists r t m', check s publish m = (Ok r, m') /\ sm_calls m' = sm_calls m ++ t /\
    _last_check m' = Some r /\ (publish = true -> session_state (sm_status m') = sc_state r) /\
    (logins t <= 1)%nat /\ (List.length (probes t) <= 2)%nat /\ (sc_state r = S_VALID <-> last (probes t) = Some Connected).
Proof.
  destruct (credentials_quiet m) as (c & t1 & m1 & E1 & T1 & Q1).
  set (m2 := snd (external clock_at (fun _ => ReadClock) m1)).
  destruct (verdict_on_extends c (clock_at (sm_calls m1)) m2) as (r & t2 & m3 & E2 & T2 & V).
  exists r, ((t1 ++ [ReadClock]) ++ t2).
  exists (let m4 := mkManager (_runtime m3) (Some r) (sm_status m3) (sm_calls m3) in if publish then snd (publish_session s c r m4) else m4). split.
  { unfold check, bind at 1. rewrite E1. unfold bind at 1, external. unfold m2, external in E2. cbn [snd] in E2. unfold bind at 1. rewrite E2.
    unfold bind, modify, ret. now destruct publish. }
  assert (quiet tt (t1 ++ [ReadClock])) as Q by (eapply (quiet_app c tt); [exact Q1 | now split]).
  pose proof (verdict_ok_prefix r _ _ Q V) as (V1 & V2 & V3).
  assert (sm_calls m3 = sm_calls m ++ (t1 ++ [ReadClock]) ++ t2) as T3 by (rewrite T2; unfold m2, external; cbn; rewrite T1, <- !app_assoc; reflexivity).
  destruct publish; cbn; repeat split; try assumption; try apply V3; easy.
Qed.
End session_theorems.

(** ** A Zerodha session without a token, and a login that succeeds *)
Definition zerodha_env : environ :=
  <["MARKET_DATA_PROVIDER" := "zerodha"]> (<["ZERODHA_API_KEY" := "k"]> (<["ZERODHA_API_SECRET" := "q"]>
  (<["ZERODHA_USER_ID" := "u"]> (<["ZERODHA_PASSWORD" := "p"]> (<["ZERODHA_TOTP_KEY" := "t"]> ∅))))).
Definition zerodha_settings : Settings :=
  Eval vm_compute in
    match load_settings zerodha_env as r return match fst r with Ok _ => Settings | Err _ => unit end
    with (Ok s, _) => s | (Err _, _) => tt end.
Definition demo_session_env : SessionEnv := {|
  secrets_loader := fun _ _ _ => Err (OtherError "NoCredentialsError" "");
  establish := fun _ _ c => if String.eqb c.(cr_session_token) "fresh" then Connected else ConnectRaised "ProviderAuthError" "";
  login_zerodha_headless := fun _ _ _ _ _ _ => Ok "fresh";
  redact_text := fun x => x;
  token_fingerprint := fun x => x;
  clock_at := fun t => Z.of_nat (List.length t) |}.
Definition unchecked : Manager := mkManager (mkRuntime None None None) None FEED_STATUS [].
(** The published credentials are those resolved before the login: a VALID
    session without a token. *)
Example auto_login_publishes_old_credentials :
  let '(r, m) := check (env := demo_session_env) zerodha_settings true unchecked in
  (match r with Ok c => Some (sc_state c) | Err _ => None end) = Some S_VALID /\
  session_state m.(sm_status) = S_VALID /\ session_token_set m.(sm_status) = false /\
  session_token_fingerprint m.(sm_status) = None /\ credentials_source m.(sm_status) = "env" /\
  rt_session_token m.(_runtime) = Some "fresh" /\
  sm_calls m = [ReadClock; ReadClock; Login true; Establish (mkCreds "k" "q" "fresh" "runtime") Connected].
Proof. vm_compute. repeat split. Qed.
