(* ===== verification/Providers.v ===== *)
(** * The market-data provider interface

    [trading/market_data/providers/base.py] and [__init__.py]: the error
    taxonomy, what a provider promises to the service above it, and the
    registry.  A provider is an object: its operations are computations over its
    state, which holds the trace of the calls it made to the broker's SDK. *)
From S2P Require Import Prelude PyStr MarketSession Symbols.

(** ** Errors *)
Definition ProviderAuthError (m : string) : exn := OtherError "ProviderAuthError" m.
Definition ProviderConnectionError (m : string) : exn := OtherError "ProviderConnectionError" m.
Definition ProviderRateLimitError (m : string) : exn := OtherError "ProviderRateLimitError" m.
Definition ProviderDataError (m : string) : exn := OtherError "ProviderDataError" m.
(** [isinstance(e, ProviderError)] *)
Definition is_ProviderError (e : exn) : bool :=
  str_in (class_of e) ["ProviderError"; "ProviderAuthError"; "ProviderConnectionError"; "ProviderRateLimitError"; "ProviderDataError"].

(** ** The interface *)
Definition symbols_of (l : list Instrument) : gset string := list_to_set (map internal_symbol l).
Class MarketDataProvider (P : Type) : Type := {
  p_name : string;
  p_is_connected : P -> bool;
  p_subscribed : P -> gset string;          (* the symbols of the realtime feed *)
  p_new : BreezeCredentials -> P;            (* the constructor *)
  p_connect : M P exn unit;
  p_disconnect : M P exn unit;
  p_subscribe : list Instrument -> M P exn unit;
  p_unsubscribe : list Instrument -> M P exn unit;
  p_get_option_instruments : string -> M P exn (list Instrument);
  p_get_index_quote : Instrument -> M P exn IndexQuote;
  p_get_option_quote : Instrument -> M P exn OptionQuote;
  p_get_option_chain : string -> Z -> option string -> M P exn OptionChain;
  p_get_historical_candles : Instrument -> string -> Z -> Z -> M P exn (list Candle)
}.
(** A computation that leaves the connection and the feed's symbols alone. *)
Definition keeps_feed {P A} `{MarketDataProvider P} (m : M P exn A) : Prop :=
  forall p, p_is_connected (snd (m p)) = p_is_connected p /\ p_subscribed (snd (m p)) = p_subscribed p.
(** What the service relies on. *)
Class ProviderLaws (P : Type) `{MarketDataProvider P} : Prop := {
  new_idle : forall c, p_is_connected (p_new c) = false /\ p_subscribed (p_new c) = ∅;
  connect_connects : forall p u, fst (p_connect p) = Ok u -> p_is_connected (snd (p_connect p)) = true;
  connect_failed : forall p e, fst (p_connect p) = Err e -> p_is_connected (snd (p_connect p)) = p_is_connected p;
  connect_subscribed : forall p, p_subscribed (snd (p_connect p)) = p_subscribed p;
  disconnect_total : forall p, fst (p_disconnect p) = Ok tt;
  disconnect_disconnects : forall p, p_is_connected (snd (p_disconnect p)) = false;
  disconnect_forgets : forall p, p_subscribed (snd (p_disconnect p)) = ∅;
  subscribe_connected : forall l p, p_is_connected (snd (p_subscribe l p)) = p_is_connected p;
  subscribe_subscribed : forall l p, p_subscribed (snd (p_subscribe l p)) ⊆ p_subscribed p ∪ symbols_of l;
  unsubscribe_connected : forall l p, p_is_connected (snd (p_unsubscribe l p)) = p_is_connected p;
  unsubscribe_subscribed : forall l p, p_subscribed (snd (p_unsubscribe l p)) ⊆ p_subscribed p;
  instruments_keep_feed : forall u, keeps_feed (p_get_option_instruments u);
  index_quote_keeps_feed : forall i, keeps_feed (p_get_index_quote i);
  option_quote_keeps_feed : forall i, keeps_feed (p_get_option_quote i);
  chain_keeps_feed : forall u e r, keeps_feed (p_get_option_chain u e r);
  history_keeps_feed : forall i interval start stop, keeps_feed (p_get_historical_candles i interval start stop)
}.

(** What a computation may do to the connection and to the feed's symbols: [R]
    relates the symbols before and after. *)
Section feed.
Context {P : Type} (connected : P -> bool) (feed : P -> gset string).
Definition feed_step {A} (R : gset string -> gset string -> Prop) (m : M P exn A) : Prop :=
  forall p, connected (snd (m p)) = connected p /\ R (feed p) (feed (snd (m p))).
Section steps.
Context (R : gset string -> gset string -> Prop) `{!Reflexive R}.
Lemma feed_still {A} (m : M P exn A) : (forall p, connected (snd (m p)) = connected p /\ feed (snd (m p)) = feed p) -> feed_step R m.
Proof. intros H p. destruct (H p) as [H1 H2]. rewrite H2. now split. Qed.
Lemma feed_ret {A} (a : A) : feed_step R (ret a).
Proof. now apply feed_still. Qed.
Lemma feed_raise {A} e : feed_step (A := A) R (raise e).
Proof. now apply feed_still. Qed.
Lemma feed_lift {A} (r : result exn A) : feed_step R (lift r).
Proof. now apply feed_still. Qed.
Lemma feed_gets {A} (f : P -> A) : feed_step R (gets f).
Proof. now apply feed_still. Qed.
Context `{!Transitive R}.
Lemma feed_bind {A B} (m : M P exn A) (k : A -> M P exn B) :
  feed_step R m -> (forall a, feed_step R (k a)) -> feed_step R (bind m k).
Proof.
  intros Hm Hk b. unfold bind. destruct (Hm b) as [H1 H2]. destruct (m b) as [[a|e] b1]; cbn in *; [|now split].
  destruct (Hk a b1) as [H3 H4]. split; [congruence | now transitivity (feed b1)].
Qed.
Lemma feed_try {A} (m : M P exn A) h : feed_step R m -> (forall e, feed_step R (h e)) -> feed_step R (try_except m h).
Proof.
  intros Hm Hk b. unfold try_except. destruct (Hm b) as [H1 H2]. destruct (m b) as [[a|e] b1]; cbn in *; [now split|].
  destruct (Hk e b1) as [H3 H4]. split; [congruence | now transitivity (feed b1)].
Qed.
Lemma feed_map_m {A B} (f : A -> M P exn B) l : (forall a, feed_step R (f a)) -> feed_step R (map_m f l).
Proof.
  intros Hf. induction l as [|x l IH]; cbn; [apply feed_ret|].
  apply feed_bind; [apply Hf|]. intros y. apply feed_bind; [exact IH|]. intros ys. apply feed_ret.
Qed.
Lemma feed_for_each {A} (f : A -> M P exn unit) l : (forall a, In a l -> feed_step R (f a)) -> feed_step R (for_each l f).
Proof.
  induction l as [|x l IH]; intros Hf; cbn; [apply feed_ret|].
  apply feed_bind; [apply Hf; now left|]. intros _. apply IH. intros a Ha. apply Hf. now right.
Qed.
End steps.
End feed.
(** [within S]: only symbols of [S] are added. *)
Definition within (S a b : gset string) : Prop := b ⊆ a ∪ S.
#[export] Instance within_refl S : Reflexive (within S).
Proof. intros a. unfold within. set_solver. Qed.
#[export] Instance within_trans S : Transitive (within S).
Proof. intros a b c. unfold within. set_solver. Qed.
#[export] Instance subset_refl : Reflexive (fun a b : gset string => b ⊆ a).
Proof. intros a. set_solver. Qed.
#[export] Instance subset_trans : Transitive (fun a b : gset string => b ⊆ a).
Proof. intros a b c. set_solver. Qed.
(** Walk a computation that leaves the connection and the feed alone; [tac]
    closes the steps of the provider's own. *)
Ltac feed_with tac :=
  repeat first
    [ progress intros
    | apply feed_bind; [apply _ .. | |] | apply feed_try; [apply _ .. | |]
    | apply feed_ret; apply _ | apply feed_raise; apply _ | apply feed_lift; apply _ | apply feed_gets; apply _
    | apply feed_map_m; [apply _ .. |] | tac
    | match goal with |- feed_step _ _ _ (match ?x with _ => _ end) => destruct x end ].

(** ** Shared by the providers *)
(** [except Exception: pass] *)
Definition quietly {S A} (m : M S exn A) : M S exn unit := try_except (m ;;; ret tt) (fun _ => ret tt).
Definition TYPE_NAME (t : InstrumentType) : string :=
  "InstrumentType." +:+ match t with T_INDEX => "INDEX" | T_OPTION => "OPTION" | T_FUTURE => "FUTURE" | T_EQUITY => "EQUITY" end.
Definition keep_some {A} (l : list (option A)) : list A := omap id l.

(** ** The registry *)
Inductive provider_class : Type := ICICIBreezeProvider | ZerodhaKiteProvider.
Definition _PROVIDERS : list (string * provider_class) :=
  [("icici_breeze", ICICIBreezeProvider); ("breeze", ICICIBreezeProvider); ("zerodha", ZerodhaKiteProvider);
   ("kite", ZerodhaKiteProvider); ("zerodha_kite", ZerodhaKiteProvider)].
Definition create_market_data_provider (name : string) : result exn provider_class :=
  match List.find (fun kv => String.eqb (fst kv) (lower (strip name))) _PROVIDERS with
  | Some (_, c) => Ok c
  | None => Err (ValueError ("Unknown market-data provider '" +:+ name +:+ "'. Known: " +:+
                             String.concat ", " (sorted_set (map fst _PROVIDERS))))
  end.

Example registry :
  create_market_data_provider " Kite" = Ok ZerodhaKiteProvider /\
  create_market_data_provider "upstox" =
    Err (ValueError "Unknown market-data provider 'upstox'. Known: breeze, icici_breeze, kite, zerodha, zerodha_kite").
Proof. vm_compute. repeat split. Qed.
