(* ===== verification/BreezeProvider.v ===== *)
(** * The ICICI Breeze provider

    [trading/market_data/providers/icici_breeze.py]: the session, the feed, the
    reads and the normalisation of what the SDK answers.  The SDK
    ([breeze_connect]) and the two downloads of the security master are the
    external code of [BreezeSdk]: an oracle that sees every call made before. *)
From S2P Require Import Prelude PyStr PyFloat PyNum Config Json PyTime JsonText PyParse Symbols MarketCache MarketSession Providers.
From stdpp Require pretty.
From Stdlib Require Import SpecFloat Ascii.

Definition _INDEX_CODES : list (string * (string * string)) :=
  [("NIFTY", ("NIFTY", "NSE")); ("BANKNIFTY", ("CNXBAN", "NSE")); ("FINNIFTY", ("NIFFIN", "NSE"));
   ("INDIA_VIX", ("INDVIX", "NSE")); ("SENSEX", ("BSESEN", "BSE"))].
Definition index_codes (s : string) : option (string * string) := dget String.eqb s _INDEX_CODES.
Definition _RIGHT_TO_OT : list (string * string) := [("call", "CE"); ("ce", "CE"); ("put", "PE"); ("pe", "PE")].
Definition _OT_TO_RIGHT : list (string * string) := [("CE", "call"); ("PE", "put")].
Definition right_of (ot : option string) : string := default "" (dget String.eqb (upper (default "" ot)) _OT_TO_RIGHT).

(** ** Value coercers *)
(** [float(v)]: an integer may be too large for it. *)
Definition _f (v : json) : result exn (option float) :=
  match v with
  | JNull | JArr _ | JObj _ => Ok None
  | JBool b => Ok (Some (f_of_Z (Z.b2z b)))
  | JInt n => match f_of_Z n with
              | S754_infinity _ => Err (OverflowError "int too large to convert to float")
              | x => Ok (Some x)
              end
  | JFloat x => Ok (Some x)
  | JStr s => Ok (py_float s)
  end.
Definition int_of (x : float) : result exn Z :=
  match x with
  | S754_nan => Err (ValueError "cannot convert float NaN to integer")
  | S754_infinity _ => Err (OverflowError "cannot convert float infinity to integer")
  | _ => Ok (default 0 (f_trunc x))
  end.
Definition _i (v : json) : result exn (option Z) :=
  let? f := _f v in
  match f with Some x => let? n := int_of x in Ok (Some n) | None => Ok None end.
Definition DT_FORMATS : list string :=
  ["%Y-%m-%dT%H:%M:%S.%fZ"; "%Y-%m-%dT%H:%M:%S.000Z"; "%Y-%m-%dT%H:%M:%S"; "%d-%b-%Y %H:%M:%S"; "%Y-%m-%d %H:%M:%S"].
Definition _dt (v : json) : option stamp :=
  if negb (jtruthy v) then None
  else
    let s := strip (py_str v) in
    match strptime_any DT_FORMATS s with
    | Some t => Some (mkStamp t (Some 0))
    | None => datetime_fromisoformat (replace_Z s)
    end.
Definition _breeze_date (d : Z) : string := isoformat d +:+ "T00:00:00.000Z".
Definition _strike_str (strike : float) : string := f_g strike.

(** [_f(row.get(a)) or _f(row.get(b))]: a zero counts as missing. *)
Definition float_or (a b : result exn (option float)) : result exn (option float) :=
  let? x := a in match x with Some f => if f_eqb f f_zero then b else Ok (Some f) | None => b end.
Definition int_or (a b : result exn (option Z)) : result exn (option Z) :=
  let? x := a in match x with Some n => if n =? 0 then b else Ok (Some n) | None => b end.
Definition stamp_or (a b : option stamp) : option stamp := match a with Some _ => a | None => b end.
(** [v not in (None, "")] *)
Definition present (v : json) : bool := match v with JNull => false | JStr s => truthy s | _ => true end.
Definition f_present (a : json) (b : result exn (option float)) : result exn (option float) := if present a then _f a else b.
Definition i_present (a : json) (b : result exn (option Z)) : result exn (option Z) := if present a then _i a else b.

(** ** Symbols and dates *)
Definition TICK_ALIASES : list (string * string) :=
  [("NIFTY", "NIFTY"); ("NIFTY 50", "NIFTY"); ("NIFTY50", "NIFTY"); ("CNXNIF", "NIFTY");
   ("CNXBAN", "BANKNIFTY"); ("BANKNIFTY", "BANKNIFTY"); ("NIFTY BANK", "BANKNIFTY"); ("NIFTYBANK", "BANKNIFTY");
   ("INDVIX", "INDIA_VIX"); ("INDIA VIX", "INDIA_VIX"); ("INDIAVIX", "INDIA_VIX"); ("NIFVIX", "INDIA_VIX");
   ("BSESEN", "SENSEX"); ("SENSEX", "SENSEX")].
Definition _tick_symbol_to_internal (sym : string) : string :=
  let s := upper (default "" (last (split "!" sym))) in
  match List.find (fun kv : string * (string * string) => String.eqb (upper (fst (snd kv))) s) _INDEX_CODES with
  | Some (k, _) => k
  | None => default s (dget String.eqb s TICK_ALIASES)
  end.
Definition _index_for_underlying (underlying : string) : result exn Instrument :=
  index_instrument (if str_in (upper underlying) ["NIFTY"; "NIFTY50"] then "NIFTY" else underlying).
Definition _nearest (sorted_values : list float) (target : option float) : option float :=
  match sorted_values, target with x :: r, Some t => Some (min_by (distance t) x r) | _, _ => None end.

Definition EXPIRY_FORMATS : list string :=
  ["%Y-%m-%d"; "%d-%b-%Y"; "%d-%B-%Y"; "%d%b%Y"; "%Y-%m-%dT%H:%M:%S.000Z"; "%d/%m/%Y"].
Definition _parse_expiry (value : json) : option Z :=
  if negb (present value) then None
  else
    let s := strip (py_str value) in
    match strptime_any EXPIRY_FORMATS s with
    | Some t => Some (date_of t)
    | None => fromisoformat (str_take 10 s)
    end.

(** A row of the security master. *)
Definition OT_NAMES : list (string * string) := [("CALL", "CE"); ("PUT", "PE"); ("CE", "CE"); ("PE", "PE")].
Definition text_of_value (v : json) : string := py_str (jor v (JStr "")).
Definition _row_to_instrument (row : json) (want_underlying : string) : result exn (option Instrument) :=
  let raw_under := upper (strip (text_of_value (jor (jor (jget "underlying" row) (jget "stock_code" row)) (jget "short_name" row)))) in
  let under := if truthy raw_under then _tick_symbol_to_internal raw_under else "" in
  if negb (truthy under) || negb (String.eqb under want_underlying) then Ok None
  else
    let ot := default "" (dget String.eqb (upper (strip (text_of_value (jor (jget "option_type" row) (jget "right" row))))) OT_NAMES) in
    if negb (str_in ot ["CE"; "PE"]) then Ok None
    else
      let expiry := _parse_expiry (jor (jget "expiry" row) (jget "expiry_date" row)) in
      let? strike := _f (jor (jget "strike" row) (jget "strike_price" row)) in
      match expiry, strike with
      | Some e, Some k =>
          let exch_raw := upper (strip (py_str (jor (jor (jget "exchange" row) (jget "exchange_code" row)) (JStr "NFO")))) in
          let exchange := if str_in exch_raw ["BFO"; "BSE"] then BFO else NFO in
          let? lot := _i (jget "lot_size" row) in
          let? tick := _f (jget "tick_size" row) in
          let token := jget "token" row in
          let? i := option_instrument under e k ot exchange lot tick (Some "icici_breeze")
                      (if present token then Some (strip (py_str token)) else None) in
          Ok (Some i)
      | _, _ => Ok None
      end.

(** ** The provider object *)
Record FeedArgs : Type := mkFeedArgs {
  fa_exchange : string; fa_stock : string; fa_product : string; fa_expiry : option string; fa_right : option string;
  fa_strike : option string
}.
Inductive breq : Type :=
| ImportSdk
| Client (api_key : string)
| GenerateSession (api_secret session_token : string)
| WsConnect
| WsDisconnect
| SubscribeFeeds (a : FeedArgs)
| UnsubscribeFeeds (a : FeedArgs)
| GetQuotes (stock exchange product expiry right strike : string)
| GetOptionChainQuotes (stock exchange product expiry right strike : string)
| GetHistoricalDataV2 (interval from_date to_date : string) (a : FeedArgs)
| MasterLoader
| EquityMasterLoader
| ReadNow.
(** What the trace keeps: the request and whether it raised. *)
Definition bcall : Type := breq * bool.
Class BreezeSdk : Type := {
  sdk_answer : list bcall -> breq -> result exn json;
  sdk_master : list bcall -> result exn (list json);
  sdk_equity_master : list bcall -> result exn (gmap string string);
  sdk_now : list bcall -> Z;
  host_zone : Z                     (* the host's offset, for naive timestamps *)
}.
Record Breeze : Type := mkBreeze {
  _client : bool; _connected : bool; _ws_connected : bool; _on_tick_set : bool; _resolver_set : bool;
  _subscribed : gset string; _equity_master_cache : option (gmap string string); b_calls : list bcall
}.
Definition new_breeze : Breeze := mkBreeze false false false false false ∅ None [].
Definition BM (A : Type) : Type := M Breeze exn A.

Section breeze.
Context {sdk : BreezeSdk} (api_key api_secret session_token : string).

Definition logged (q : breq) (ok : bool) (b : Breeze) : Breeze :=
  mkBreeze b.(_client) b.(_connected) b.(_ws_connected) b.(_on_tick_set) b.(_resolver_set) b.(_subscribed)
    b.(_equity_master_cache) (b.(b_calls) ++ [(q, ok)]).
Definition call_with {A} (answer : list bcall -> result exn A) (q : breq) : BM A := fun b =>
  let a := answer b.(b_calls) in (a, logged q (is_ok a) b).
Definition sdk_call (q : breq) : BM json := call_with (fun t => sdk_answer t q) q.
Definition now_utc : BM Z := call_with (fun t => Ok (sdk_now t)) ReadNow.
Definition set_client (v : bool) : BM unit := modify (fun b =>
  mkBreeze v b.(_connected) b.(_ws_connected) b.(_on_tick_set) b.(_resolver_set) b.(_subscribed) b.(_equity_master_cache) b.(b_calls)).
Definition set_connected (v : bool) : BM unit := modify (fun b =>
  mkBreeze b.(_client) v b.(_ws_connected) b.(_on_tick_set) b.(_resolver_set) b.(_subscribed) b.(_equity_master_cache) b.(b_calls)).
Definition set_ws (v : bool) : BM unit := modify (fun b =>
  mkBreeze b.(_client) b.(_connected) v b.(_on_tick_set) b.(_resolver_set) b.(_subscribed) b.(_equity_master_cache) b.(b_calls)).
Definition set_subscribed (f : gset string -> gset string) : BM unit := modify (fun b =>
  mkBreeze b.(_client) b.(_connected) b.(_ws_connected) b.(_on_tick_set) b.(_resolver_set) (f b.(_subscribed)) b.(_equity_master_cache) b.(b_calls)).
Definition set_callback (on_tick resolver : bool) : BM unit := modify (fun b =>
  mkBreeze b.(_client) b.(_connected) b.(_ws_connected) on_tick resolver b.(_subscribed) b.(_equity_master_cache) b.(b_calls)).

(** ** Lifecycle *)
Definition connect : BM unit :=
  if negb (truthy api_key && truthy api_secret && truthy session_token) then
    raise (ProviderAuthError ("BREEZE_API_KEY / BREEZE_SECRET_KEY / BREEZE_SESSION_TOKEN are not all set. " +:+
                              "Provision today's Breeze session (see Phase 3)."))
  else
    let! _ := try_except (sdk_call ImportSdk)
      (fun e => if String.eqb (class_of e) "ImportError" then
                  raise (ProviderConnectionError "breeze-connect is not installed; run `pip install breeze-connect`")
                else raise e) in
    let! _ := sdk_call (Client api_key) in
    set_client true ;;;
    try_except (sdk_call (GenerateSession api_secret session_token) ;;; ret tt)
      (fun e => raise (ProviderAuthError ("Breeze session generation failed (" +:+ class_of e +:+ "). " +:+
                                          "The daily session token is likely missing or expired."))) ;;;
    set_connected true.
Definition disconnect : BM unit :=
  let! ws := gets _ws_connected in
  let! client := gets _client in
  (when ws && client do quietly (sdk_call WsDisconnect)) ;;;
  set_ws false ;;;
  set_connected false ;;;
  set_subscribed (fun _ => ∅) ;;;
  let! r := gets _resolver_set in
  set_callback false r.
Definition is_connected (b : Breeze) : bool := b.(_connected).
Definition _require_client : BM unit :=
  let! c := gets _connected in
  let! k := gets _client in
  if negb c || negb k then raise (ProviderConnectionError "Breeze provider is not connected; call connect() first")
  else ret tt.

(** ** Responses *)
Definition _unwrap (resp : json) : result exn json :=
  match resp with
  | JObj _ =>
      let err := jget "Error" resp in
      if jtruthy err then
        let text := lower (py_str err) in
        if contains "rate" text || contains "throttl" text ||
           match jget "Status" resp with JInt n => n =? 429 | JFloat x => f_eqb x (f_of_Z 429) | _ => false end then
          Err (ProviderRateLimitError ("Breeze rate limited: " +:+ py_str err))
        else Err (ProviderDataError ("Breeze error: " +:+ py_str err))
      else match jlookup "Success" resp with Some s => Ok s | None => Ok resp end
  | _ => Ok resp
  end.
(** A read: a provider error passes, any other becomes a connection error. *)
Definition read_call (what : string) (q : breq) : BM json :=
  try_except (_require_client ;;; sdk_call q)
    (fun e => if is_ProviderError e then raise e
              else raise (ProviderConnectionError ("Breeze " +:+ what +:+ " failed (" +:+ class_of e +:+ ")"))).
Definition first_row (rows : json) : json := match rows with JArr (r :: _) => r | _ => rows end.
Definition is_dict (j : json) : bool := match j with JObj _ => true | _ => false end.
Definition ts_of (x : option stamp) : option Z := instant_of host_zone <$> x.

(** ** Normalisation *)
Definition g (row : json) (k : string) : json := jget k row.
Definition norm_index_row (symbol : string) (row : json) (now : Z) : result exn IndexQuote :=
  let? ltp := f_present (g row "ltp") (float_or (_f (g row "last")) (_f (g row "spot_price"))) in
  let? o := _f (g row "open") in let? h := _f (g row "high") in let? l := _f (g row "low") in
  let? pc := f_present (g row "previous_close") (_f (g row "close")) in
  let? v := int_or (_i (g row "total_quantity_traded")) (_i (g row "volume")) in
  Ok (build_index_quote symbol ltp o h l pc v
        (ts_of (stamp_or (stamp_or (_dt (g row "ltt")) (_dt (g row "exchange_time"))) (_dt (g row "datetime")))) "icici_breeze" now).
Definition _norm_option_row (row : json) (underlying : string) (expiry : Z) (strike : float) (option_type : string) (now : Z)
    : result exn OptionQuote :=
  let? ltp := float_or (_f (g row "ltp")) (_f (g row "last")) in
  let? o := _f (g row "open") in let? h := _f (g row "high") in let? l := _f (g row "low") in
  let? pc := f_present (g row "previous_close") (_f (g row "close")) in
  let? v := int_or (_i (g row "total_quantity_traded")) (_i (g row "volume")) in
  let? oi := i_present (g row "open_interest") (_i (g row "oi")) in
  let? oic := i_present (g row "oi_change") (_i (g row "open_interest_change")) in
  let? bid := float_or (_f (g row "best_bid_price")) (_f (g row "bid")) in
  let? ask := float_or (_f (g row "best_offer_price")) (_f (g row "ask")) in
  let? iv := f_present (g row "implied_volatility") (_f (g row "iv")) in
  let? vwap := f_present (g row "vwap") (_f (g row "average_price")) in
  build_option_quote (upper underlying) expiry strike option_type ltp o h l pc v oi oic bid ask iv vwap
    (ts_of (stamp_or (_dt (g row "ltt")) (_dt (g row "datetime")))) "icici_breeze" now.
(** [resolver] names the contract of an option tick. *)
Definition _norm_tick (resolver : option (json -> option Instrument)) (tick : json) (now : Z) : result exn (option Quote) :=
  let sym := upper (text_of_value (jor (g tick "stock_code") (g tick "symbol"))) in
  let internal := _tick_symbol_to_internal sym in
  let? ltp := float_or (float_or (_f (g tick "last")) (_f (g tick "ltp"))) (_f (g tick "close")) in
  let? pc := float_or (_f (g tick "previous_close")) (_f (g tick "prev_close")) in
  let ts := ts_of (stamp_or (_dt (g tick "ltt")) (_dt (g tick "datetime"))) in
  match index_codes internal with
  | Some _ =>
      let? o := _f (g tick "open") in let? h := _f (g tick "high") in let? l := _f (g tick "low") in
      let? v := int_or (_i (g tick "totalTradedQuantity")) (_i (g tick "volume")) in
      Ok (Some (QIndex (build_index_quote internal ltp o h l pc v ts "icici_breeze" now)))
  | None =>
      match (match resolver with Some f => f tick | None => None end) with
      | Some inst =>
          match inst.(i_expiry), inst.(i_strike) with
          | Some e, Some k =>
              if is_option inst && negb (f_eqb k f_zero) then
                let? o := _f (g tick "open") in let? h := _f (g tick "high") in let? l := _f (g tick "low") in
                let? v := int_or (_i (g tick "totalTradedQuantity")) (_i (g tick "volume")) in
                let? oi := int_or (int_or (_i (g tick "OI")) (_i (g tick "oi"))) (_i (g tick "open_interest")) in
                let? bid := float_or (_f (g tick "bPrice")) (_f (g tick "best_bid_price")) in
                let? ask := float_or (_f (g tick "sPrice")) (_f (g tick "best_offer_price")) in
                let? q := build_option_quote (default "" inst.(i_underlying)) e k (str_or (default "" inst.(i_option_type)) "CE")
                            ltp o h l pc v oi None bid ask None None ts "icici_breeze" now in
                Ok (Some (QOption q))
              else Ok None
          | _, _ => Ok None
          end
      | None => Ok None
      end
  end.

(** ** Reads *)
Definition get_index_quote (i : Instrument) : BM IndexQuote :=
  if negb (is_index i) then raise (ValueError ("get_index_quote requires an INDEX instrument, got " +:+ TYPE_NAME i.(instrument_type)))
  else match index_codes i.(internal_symbol) with
  | None => raise (ValueError ("No Breeze mapping for index '" +:+ i.(internal_symbol) +:+ "'"))
  | Some (stock_code, exch) =>
      let! raw := read_call "get_quotes" (GetQuotes stock_code exch "cash" "" "" "") in
      let! rows := lift (_unwrap raw) in
      let row := first_row rows in
      if negb (is_dict row) then raise (ProviderDataError ("Unexpected Breeze quote payload for " +:+ i.(internal_symbol)))
      else let! now := now_utc in lift (norm_index_row i.(internal_symbol) row now)
  end.
Definition option_exchange_of (e : Exchange) : string :=
  match e with NFO | BFO => exchange_value e | _ => "NFO" end.
Definition get_option_quote (i : Instrument) : BM OptionQuote :=
  match i.(i_expiry), i.(i_strike) with
  | Some e, Some k =>
      if negb (is_option i) then raise (ValueError "get_option_quote requires a fully-specified OPTION instrument")
      else
        let right := right_of i.(i_option_type) in
        if negb (truthy right) then
          raise (ValueError ("Bad option_type " +:+ match i.(i_option_type) with Some s => str_repr s | None => "None" end))
        else
          let! raw := read_call "get_quotes(option)"
            (GetQuotes (upper (default "" i.(i_underlying))) (option_exchange_of i.(i_exchange)) "options" (_breeze_date e) right (_strike_str k)) in
          let! rows := lift (_unwrap raw) in
          let row := first_row rows in
          if negb (is_dict row) then raise (ProviderDataError "Unexpected Breeze option-quote payload")
          else
            let! now := now_utc in
            lift (_norm_option_row row (default "" i.(i_underlying)) e k (default "" i.(i_option_type)) now)
  | _, _ => raise (ValueError "get_option_quote requires a fully-specified OPTION instrument")
  end.

Definition chain_acc : Type := list (float * list (string * OptionQuote)).
(** One row of the chain; what cannot be placed is skipped. *)
Definition chain_item (under : string) (expiry : Z) (it : json) (acc : chain_acc) : BM chain_acc :=
  if negb (is_dict it) then ret acc
  else
    let ot := dget String.eqb (lower (py_str (jget_or "right" (JStr "") it))) _RIGHT_TO_OT in
    let! strike := lift (_f (g it "strike_price")) in
    match ot, strike with
    | Some ot, Some k =>
        let! now := now_utc in
        let! q := lift (_norm_option_row it under expiry k ot now) in
        ret (dset f_eqb k (dset String.eqb ot q (default [] (dget f_eqb k acc))) acc)
    | _, _ => ret acc
    end.
Fixpoint chain_items (under : string) (expiry : Z) (items : list json) (acc : chain_acc) : BM chain_acc :=
  match items with
  | [] => ret acc
  | it :: r => let! acc := chain_item under expiry it acc in chain_items under expiry r acc
  end.
Definition spot_of (under : string) : BM (option float) :=
  try_except (let! i := lift (_index_for_underlying under) in let! q := get_index_quote i in ret q.(iq_ltp)) (fun _ => ret None).
Definition get_option_chain (underlying : string) (expiry : Z) (right : option string) : BM OptionChain :=
  _require_client ;;;
  let under := upper (strip underlying) in
  let breeze_right := match right with Some r => right_of (Some r) | None => "" end in
  let! raw := read_call "get_option_chain_quotes"
                (GetOptionChainQuotes under "NFO" "options" (_breeze_date expiry) breeze_right "") in
  let! items := lift (_unwrap raw) in
  match items with
  | JArr items =>
      let! by_strike := chain_items under expiry items [] in
      let! spot := spot_of under in
      let sorted := sort_by (fun a b => f_leb (fst a) (fst b)) by_strike in
      let! now := now_utc in
      ret (mkChain under expiry spot (_nearest (map fst sorted) spot) now
             (map (fun kv => mkChainRow (fst kv) (dget String.eqb "CE" (snd kv)) (dget String.eqb "PE" (snd kv))) sorted)
             "icici_breeze")
  | _ => raise (ProviderDataError "Unexpected Breeze option-chain payload")
  end.

(** NSE symbol to Breeze code, from a map loaded once. *)
Definition _resolve_equity_stock_code (nse_symbol : string) : BM string :=
  let! cache := gets _equity_master_cache in
  let! m := match cache with
            | Some m => ret m
            | None =>
                let! m := try_except (call_with sdk_equity_master EquityMasterLoader)
                  (fun e => raise (ProviderConnectionError ("Could not load the ICICI equity security master (" +:+ class_of e +:+ ")"))) in
                modify (fun b => mkBreeze b.(_client) b.(_connected) b.(_ws_connected) b.(_on_tick_set) b.(_resolver_set)
                                   b.(_subscribed) (Some m) b.(b_calls)) ;;;
                ret m
            end in
  match m !! upper (strip nse_symbol) with
  | Some c => ret c
  | None => raise (ProviderDataError ("No Breeze equity mapping found for NSE symbol " +:+ str_repr nse_symbol))
  end.

(** [%Y-%m-%dT%H:%M:%S.000Z] of an instant. *)
Definition breeze_time (t : Z) : string :=
  let s := (t / US_PER_SECOND) mod 86400 in
  let two n := pad_zeros 2 (str_of_Z n) in
  isoformat (date_of t) +:+ "T" +:+ two (s / 3600) +:+ ":" +:+ two (s / 60 mod 60) +:+ ":" +:+ two (s mod 60) +:+ ".000Z".
Definition no_attribute (a : string) : exn := AttributeError ("'NoneType' object has no attribute '" +:+ a +:+ "'").
Definition history_args (i : Instrument) : BM FeedArgs :=
  match i.(instrument_type) with
  | T_INDEX =>
      match index_codes i.(internal_symbol) with
      | Some (stock_code, exch) => ret (mkFeedArgs exch stock_code "cash" None None None)
      | None => raise (KeyError i.(internal_symbol))
      end
  | T_EQUITY => let! c := _resolve_equity_stock_code i.(internal_symbol) in ret (mkFeedArgs "NSE" c "cash" None None None)
  | T_OPTION =>
      match i.(i_expiry), i.(i_strike) with
      | None, _ => raise (no_attribute "year")
      | _, None => raise (TypeError "unsupported format string passed to NoneType.__format__")
      | Some e, Some k =>
          ret (mkFeedArgs "NFO" (upper (default "" i.(i_underlying))) "options" (Some (_breeze_date e))
                 (Some (right_of i.(i_option_type))) (Some (_strike_str k)))
      end
  | T_FUTURE => raise (ValueError ("Unsupported instrument type for history: " +:+ TYPE_NAME T_FUTURE))
  end.
(** A candle needs its time and its four prices. *)
Definition candle_of (symbol interval : string) (it : json) : result exn (option Candle) :=
  if negb (is_dict it) then Ok None
  else
    let ts := ts_of (stamp_or (_dt (g it "datetime")) (_dt (g it "date"))) in
    let? o := _f (g it "open") in let? h := _f (g it "high") in let? l := _f (g it "low") in let? c := _f (g it "close") in
    match ts, o, h, l, c with
    | Some t, Some o, Some h, Some l, Some c =>
        let? v := _i (g it "volume") in
        let? oi := i_present (g it "open_interest") (_i (g it "oi")) in
        Ok (Some (mkCandle symbol interval t o h l c v oi))
    | _, _, _, _, _ => Ok None
    end.
Definition get_historical_candles (i : Instrument) (interval : string) (start end_ : Z) : BM (list Candle) :=
  _require_client ;;;
  let! args := history_args i in
  let! raw := read_call "get_historical_data_v2" (GetHistoricalDataV2 interval (breeze_time start) (breeze_time end_) args) in
  let! items := lift (_unwrap raw) in
  match items with
  | JArr items => let! cs := map_m (fun it => lift (candle_of i.(internal_symbol) interval it)) items in ret (keep_some cs)
  | _ => raise (ProviderDataError "Unexpected Breeze historical payload")
  end.

(** The contracts of an underlying; a row that raises [KeyError], [ValueError] or
    [TypeError] is skipped. *)
Definition row_instrument (under : string) (row : json) : result exn (option Instrument) :=
  match _row_to_instrument row under with
  | Err e => if str_in (class_of e) ["KeyError"; "ValueError"; "TypeError"] then Ok None else Err e
  | r => r
  end.
Definition get_option_instruments (underlying : string) : BM (list Instrument) :=
  let under := upper (strip underlying) in
  let! rows := try_except (call_with sdk_master MasterLoader)
    (fun e => raise (ProviderConnectionError ("Could not load the ICICI security master (" +:+ class_of e +:+ ")"))) in
  let! found := map_m (fun row => lift (row_instrument under row)) rows in
  ret (keep_some found).

(** ** Streaming *)
Definition month_abbr (m : Z) : string :=
  match MONTHS3 !! Z.to_nat (m - 1) with
  | Some (n, _) => match chars n with c :: r => unchars (ascii_upper c :: r) | [] => "" end
  | None => ""
  end.
(** [%d-%b-%Y] *)
Definition feed_date (d : Z) : string :=
  let '(y, m, dd) := ord2ymd d in pad_zeros 2 (str_of_Z dd) +:+ "-" +:+ month_abbr m +:+ "-" +:+ str_of_Z y.
Definition _feed_args (i : Instrument) : result exn FeedArgs :=
  if is_index i then
    match index_codes i.(internal_symbol) with
    | Some (stock_code, exch) => Ok (mkFeedArgs exch stock_code "cash" None None None)
    | None => Err (KeyError i.(internal_symbol))
    end
  else
    match i.(i_expiry), i.(i_strike) with
    | None, _ => Err (no_attribute "strftime")
    | _, None => Err (TypeError "unsupported format string passed to NoneType.__format__")
    | Some e, Some k =>
        Ok (mkFeedArgs "NFO" (upper (default "" i.(i_underlying))) "options" (Some (feed_date e))
              (Some (right_of i.(i_option_type))) (Some (_strike_str k)))
    end.
Definition subscribe_one (i : Instrument) : BM unit :=
  quietly (let! a := lift (_feed_args i) in
           let! _ := sdk_call (SubscribeFeeds a) in
           set_subscribed (fun s => {[ i.(internal_symbol) ]} ∪ s)).
Definition unsubscribe_one (i : Instrument) : BM unit :=
  quietly (let! a := lift (_feed_args i) in sdk_call (UnsubscribeFeeds a)) ;;;
  set_subscribed (fun s => s ∖ {[ i.(internal_symbol) ]}).
Definition subscribe (instruments : list Instrument) : BM unit :=
  _require_client ;;;
  set_callback true true ;;;
  let! ws := gets _ws_connected in
  (when negb ws do (try_except (sdk_call WsConnect ;;; ret tt)
       (fun e => raise (ProviderConnectionError ("Breeze ws_connect failed (" +:+ class_of e +:+ ")"))) ;;;
     set_ws true)) ;;;
  for_each instruments subscribe_one.
Definition unsubscribe (instruments : list Instrument) : BM unit :=
  let! ws := gets _ws_connected in
  let! client := gets _client in
  if negb ws || negb client then ret tt else for_each instruments unsubscribe_one.
(** The quote given to [on_tick], if any: a tick that cannot be normalised is
    dropped. *)
Definition _handle_tick (resolver : json -> option Instrument) (tick : json) : BM (option Quote) :=
  let! on_tick := gets _on_tick_set in
  let! r := gets _resolver_set in
  if negb on_tick || negb (is_dict tick) then ret None
  else
    let! now := now_utc in
    match _norm_tick (if r then Some resolver else None) tick now with
    | Ok q => ret q
    | Err _ => ret None
    end.
End breeze.

(** ** The interface

    The object is its credentials and its state. *)
Definition BreezeObject : Type := BreezeCredentials * Breeze.
Definition on_object {A} (m : BreezeCredentials -> BM A) : M BreezeObject exn A := fun o =>
  let '(a, b) := m (fst o) (snd o) in (a, (fst o, b)).
#[global] Instance breeze_provider `{BreezeSdk} : MarketDataProvider BreezeObject := {
  p_name := "icici_breeze";
  p_is_connected := fun o => is_connected (snd o);
  p_subscribed := fun o => _subscribed (snd o);
  p_new := fun c => (c, new_breeze);
  p_connect := on_object (fun c => connect c.(cr_api_key) c.(cr_secret_key) c.(cr_session_token));
  p_disconnect := on_object (fun _ => disconnect);
  p_subscribe := fun l => on_object (fun _ => subscribe l);
  p_unsubscribe := fun l => on_object (fun _ => unsubscribe l);
  p_get_option_instruments := fun u => on_object (fun _ => get_option_instruments u);
  p_get_index_quote := fun i => on_object (fun _ => get_index_quote i);
  p_get_option_quote := fun i => on_object (fun _ => get_option_quote i);
  p_get_option_chain := fun u e r => on_object (fun _ => get_option_chain u e r);
  p_get_historical_candles := fun i interval start stop => on_object (fun _ => get_historical_candles i interval start stop)
}.

Section breeze_theorems.
Context {sdk : BreezeSdk}.

Abbreviation feed_step := (Providers.feed_step _connected _subscribed).
Lemma feed_call {A} R `{!Reflexive R} (f : list bcall -> result exn A) q : feed_step R (call_with f q).
Proof. intros b. now split. Qed.

Lemma require_client_feed R `{!Reflexive R} : feed_step R _require_client.
Proof. intros b. unfold _require_client. mrun. destruct (_ || _); now split. Qed.
Lemma subscribe_one_feed S i : internal_symbol i ∈ S -> feed_step (within S) (subscribe_one i).
Proof.
  intros Hi. apply feed_try; [apply _..| |intros e; now apply feed_ret, _].
  apply feed_bind; [apply _..| |intros []; now apply feed_ret, _].
  apply feed_bind; [apply _..| now apply feed_lift, _ |]. intros a.
  apply feed_bind; [apply _..| now apply feed_call, _ |]. intros j.
  intros b. cbn. split; [reflexivity|]. unfold within. set_solver.
Qed.
Lemma unsubscribe_one_feed i : feed_step (fun a b => b ⊆ a) (unsubscribe_one i).
Proof.
  apply feed_bind; [apply _..| |intros []; intros b; cbn; split; [reflexivity | set_solver]].
  apply feed_try; [apply _..| |intros e; now apply feed_ret, _].
  apply feed_bind; [apply _..| |intros []; now apply feed_ret, _].
  apply feed_bind; [apply _..| now apply feed_lift, _ | intros a; now apply feed_call, _].
Qed.

Lemma connect_spec k q t b :
  _subscribed (snd (connect k q t b)) = _subscribed b /\ (fst (connect k q t b) = Ok tt -> _connected (snd (connect k q t b)) = true).
Proof.
  unfold connect. destruct (negb _); [now split|]. mrun. unfold sdk_call, call_with.
  destruct (sdk_answer _ ImportSdk) as [i|e]; cbn; [|destruct (String.eqb _ _); now split].
  destruct (sdk_answer _ (Client k)) as [x|e]; cbn; [|now split]. destruct (sdk_answer _ (GenerateSession q t)) as [y|e]; cbn; now split.
Qed.
Lemma disconnect_spec b :
  fst (disconnect b) = Ok tt /\ _connected (snd (disconnect b)) = false /\ _subscribed (snd (disconnect b)) = ∅.
Proof.
  unfold disconnect, quietly. mrun. destruct (_ && _); [|repeat split]. cbn.
  destruct (sdk_answer _ WsDisconnect); repeat split.
Qed.
Lemma subscribe_feed l : feed_step (within (symbols_of l)) (subscribe l).
Proof.
  apply feed_bind; [apply _..| apply require_client_feed, _|]. intros [].
  apply feed_bind; [apply _..| intros b; now split|]. intros [].
  apply feed_bind; [apply _..| apply feed_gets, _|]. intros ws.
  apply feed_bind; [apply _..| |].
  - destruct ws; cbn [negb]; [apply feed_ret, _|].
    apply feed_bind; [apply _..| |intros []; intros b; now split].
    apply feed_try; [apply _..| |intros e; apply feed_raise, _].
    apply feed_bind; [apply _..| apply feed_call, _ | intros j; apply feed_ret, _].
  - intros []. apply feed_for_each; [apply _..|]. intros i Hi. apply subscribe_one_feed.
    unfold symbols_of. rewrite elem_of_list_to_set. apply list_elem_of_In. now apply in_map.
Qed.
Lemma unsubscribe_feed l : feed_step (fun a b => b ⊆ a) (unsubscribe l).
Proof.
  apply feed_bind; [apply _..| apply feed_gets, _|]. intros ws.
  apply feed_bind; [apply _..| apply feed_gets, _|]. intros cl.
  destruct (_ || _); [apply feed_ret, _|]. apply feed_for_each; [apply _..|]. intros i _. apply unsubscribe_one_feed.
Qed.
Lemma get_option_instruments_feed u : feed_step eq (get_option_instruments u).
Proof.
  apply feed_bind; [apply _..| |].
  - apply feed_try; [apply _..| apply feed_call, _ | intros e; apply feed_raise, _].
  - intros rows. apply feed_bind; [apply _..| |intros found; apply feed_ret, _].
    apply feed_map_m; [apply _..|]. intros row. apply feed_lift, _.
Qed.
Ltac feed := feed_with ltac:(first [apply feed_call; apply _ | apply require_client_feed; apply _]).
Lemma read_call_feed what q : feed_step eq (read_call what q).
Proof. unfold read_call, sdk_call. feed. Qed.
Lemma get_index_quote_feed i : feed_step eq (get_index_quote i).
Proof. unfold get_index_quote, now_utc. feed; apply read_call_feed. Qed.
Lemma get_option_quote_feed i : feed_step eq (get_option_quote i).
Proof. unfold get_option_quote, now_utc. feed; apply read_call_feed. Qed.
Lemma chain_items_feed under expiry items : forall acc, feed_step eq (chain_items under expiry items acc).
Proof.
  induction items as [|it r IH]; intros acc; cbn [chain_items]; [feed|].
  apply feed_bind; [apply _ .. | | intros; apply IH]. unfold chain_item, now_utc. feed.
Qed.
Lemma get_option_chain_feed u e r : feed_step eq (get_option_chain u e r).
Proof.
  unfold get_option_chain, spot_of, now_utc. feed;
    first [apply read_call_feed | apply chain_items_feed | apply get_index_quote_feed].
Qed.
Lemma equity_code_feed s : feed_step eq (_resolve_equity_stock_code s).
Proof. unfold _resolve_equity_stock_code. feed. intros b. now split. Qed.
Lemma history_args_feed i : feed_step eq (history_args i).
Proof. unfold history_args. destruct (instrument_type i); try (solve [feed]). apply feed_bind; [apply _ .. | apply equity_code_feed |]. feed. Qed.
Lemma get_historical_candles_feed i interval start stop : feed_step eq (get_historical_candles i interval start stop).
Proof.
  unfold get_historical_candles. apply feed_bind; [apply _ .. | apply require_client_feed; apply _ |]. intros _.
  apply feed_bind; [apply _ .. | apply history_args_feed |]. intros args.
  apply feed_bind; [apply _ .. | apply read_call_feed |]. feed.
Qed.
Lemma connect_failed_spec k q t b e : fst (connect k q t b) = Err e -> _connected (snd (connect k q t b)) = _connected b.
Proof.
  unfold connect. destruct (negb _); [now cbn|]. mrun. unfold sdk_call, call_with.
  destruct (sdk_answer _ ImportSdk) as [i|x]; cbn; [|destruct (String.eqb _ _); now cbn].
  destruct (sdk_answer _ (Client k)) as [x|x]; cbn; [|now cbn].
  destruct (sdk_answer _ (GenerateSession q t)) as [y|y]; cbn; [discriminate | reflexivity].
Qed.
Lemma on_object_snd {A} (m : BreezeCredentials -> BM A) o :
  fst (on_object m o) = fst (m (fst o) (snd o)) /\ snd (snd (on_object m o)) = snd (m (fst o) (snd o)).
Proof. unfold on_object. now destruct (m (fst o) (snd o)). Qed.
#[global] Instance breeze_laws : ProviderLaws BreezeObject.
Proof.
  split; cbn; intros; try (match goal with |- keeps_feed _ => intros p; cbn end);
    repeat match goal with |- context [on_object ?m ?o] => destruct (on_object_snd m o) as [-> ->] || destruct (on_object_snd m o) as [_ ->] || destruct (on_object_snd m o) as [-> _] end.
  - now split.
  - match goal with H : fst (on_object ?m ?o) = _ |- _ => rewrite (proj1 (on_object_snd m o)) in H end. destruct u. now apply connect_spec.
  - match goal with H : fst (on_object ?m ?o) = _ |- _ => rewrite (proj1 (on_object_snd m o)) in H end. eapply connect_failed_spec; eauto.
  - apply connect_spec.
  - apply disconnect_spec.
  - apply disconnect_spec.
  - apply disconnect_spec.
  - apply subscribe_feed.
  - apply subscribe_feed.
  - apply unsubscribe_feed.
  - apply unsubscribe_feed.
  - split; [apply get_option_instruments_feed | symmetry; apply get_option_instruments_feed].
  - split; [apply get_index_quote_feed | symmetry; apply get_index_quote_feed].
  - split; [apply get_option_quote_feed | symmetry; apply get_option_quote_feed].
  - split; [apply get_option_chain_feed | symmetry; apply get_option_chain_feed].
  - split; [apply get_historical_candles_feed | symmetry; apply get_historical_candles_feed].
Qed.
End breeze_theorems.

(** ** The expiry of the feed reads back *)
Lemma month_scans m : 1 <= m <= 12 -> forall l, named MONTHS3 (chars (month_abbr m) ++ l) = [(m, l)].
Proof.
  intros H l. assert (In m (seqZ 1 12)) as Hi by (apply list_elem_of_In, elem_of_seqZ; lia). vm_compute in Hi. clear H.
  repeat (destruct Hi as [<-|Hi]; [reflexivity|]). destruct Hi.
Qed.
Lemma year_first_fails c1 c2 r : w_year (c1 :: c2 :: "-"%char :: r) = [].
Proof.
  unfold w_year, digits_n. destruct r as [|c3 r]; cbn; [reflexivity|]. now rewrite !andb_false_r.
Qed.

Lemma strptime_feed y m d : 1000 <= y <= 9999 -> 1 <= m <= 12 -> 1 <= d <= days_in_month y m ->
  let s := pad_zeros 2 (str_of_Z d) +:+ "-" +:+ month_abbr m +:+ "-" +:+ str_of_Z y in
  strptime "%Y-%m-%d" s = None /\ strptime "%d-%b-%Y" s = Some (midnight (ymd2ord y m d)).
Proof.
  intros Hy Hm Hd s. assert (days_in_month y m <= 31) as H31 by (unfold days_in_month; repeat case_match; lia).
  destruct (day_scans d ltac:(lia)) as (c1 & c2 & Ec & Hw).
  assert (chars s = c1 :: c2 :: "-"%char :: chars (month_abbr m) ++ "-"%char :: chars (str_of_Z y)) as Es.
  { unfold s. rewrite !chars_app, Ec. reflexivity. }
  unfold strptime. rewrite Es. split.
  - set (r := chars (month_abbr m) ++ _). change (format_of (chars "%Y-%m-%d")) with
      (Dir FYear w_year :: Lit "-" :: Dir FMonth w_month :: Lit "-" :: [Dir FDay w_day]).
    cbn [scan]. now rewrite year_first_fails.
  - change (format_of (chars "%d-%b-%Y")) with
      (Dir FDay w_day :: Lit "-" :: Dir FMonthName (named MONTHS3) :: Lit "-" :: [Dir FYear w_year]).
    destruct (Hw ("-"%char :: chars (month_abbr m) ++ "-"%char :: chars (str_of_Z y))) as [rest E].
    erewrite (scan_dir FDay _ _ _ _ d _ rest); [|exact E|].
    2:{ rewrite scan_lit. eapply scan_dir; [apply month_scans, Hm|]. rewrite scan_lit.
        eapply scan_dir; [rewrite <- (app_nil_r (chars (str_of_Z y))); apply year_scans, Hy|]. cbn. reflexivity. }
    cbn [f_y f_mo f_d f_h f_mi f_s f_us set_field].
    assert (valid_date y m d = true) as ->.
    { unfold valid_date. rewrite !andb_true_iff, !Z.leb_le. lia. }
    cbn [andb Z.leb]. f_equal. unfold time_us. cbn. lia.
Qed.
Lemma feed_date_strip e : four_digit_year e -> strip (feed_date e) = feed_date e.
Proof.
  intros [He Hy]. pose proof (ymd2ord_ord2ymd e He) as H. unfold feed_date. destruct (ord2ymd e) as [[y m] d].
  destruct H as (_ & Hm & Hd & _). cbn [fst] in Hy. assert (days_in_month y m <= 31) as H31 by (unfold days_in_month; repeat case_match; lia).
  apply strip_chars_none. rewrite !chars_app, !forallb_app.
  assert (forall l, forallb is_digit l = true -> forallb (fun c => negb (is_space c)) l = true) as D.
  { intros l Hl. rewrite List.forallb_forall in *. intros c Hc. now rewrite is_digit_not_space by auto. }
  rewrite !andb_true_iff. split; [|split; [reflexivity|split; [|split; [reflexivity|]]]].
  - apply D. destruct (field_spec 2 d (table_at (field_ok 2) 100 d field2_table ltac:(lia))) as (l & -> & _ & _ & K). now rewrite chars_unchars.
  - assert (In m (seqZ 1 12)) as Hi by (apply list_elem_of_In, elem_of_seqZ; lia). vm_compute in Hi.
    repeat (destruct Hi as [<-|Hi]; [reflexivity|]). destruct Hi.
  - apply D. pose proof (table_at (fun k => year_ok (1000 + k)) 9000 (y - 1000) year_table ltac:(lia)) as K. cbn beta in K.
    replace (1000 + (y - 1000)) with y in K by lia. unfold year_ok in K. rewrite !andb_true_iff in K. tauto.
Qed.
(** The expiry a contract is subscribed with is parsed back to its date. *)
Lemma parse_feed_date e : four_digit_year e -> _parse_expiry (JStr (feed_date e)) = Some e.
Proof.
  intros He. pose proof (feed_date_strip e He) as Hs. destruct He as [H1 Hy]. pose proof (ymd2ord_ord2ymd e H1) as H.
  unfold _parse_expiry, py_str. rewrite Hs. unfold feed_date in *. destruct (ord2ymd e) as [[y m] d]. cbn [fst] in Hy.
  destruct H as (_ & Hm & Hd & E). destruct (strptime_feed y m d Hy Hm Hd) as [N1 N2].
  set (s := pad_zeros 2 _ +:+ _) in *. assert (truthy s = true) as T.
  { unfold s. destruct (day_scans d) as (c1 & c2 & Ec & _); [unfold days_in_month in Hd; repeat case_match; lia|].
    rewrite <- (unchars_chars (pad_zeros 2 (str_of_Z d))), Ec. reflexivity. }
  cbn [present]. rewrite T. cbn [negb]. unfold EXPIRY_FORMATS. cbn [strptime_any]. rewrite N1, N2, date_of_midnight, E. reflexivity.
Qed.

(** ** The symbols of an index tick *)
Example tick_symbols :
  map _tick_symbol_to_internal ["4.1!NIFTY 50"; "4.1!NIFTY BANK"; "1.1!SENSEX"; "INDVIX"; "4.1!40083"] =
  ["NIFTY"; "BANKNIFTY"; "SENSEX"; "INDIA_VIX"; "40083"].
Proof. vm_compute. reflexivity. Qed.
(** A subscribed index is known again by the code it was subscribed with. *)
Lemma index_code_roundtrip s code exch : index_codes s = Some (code, exch) -> _tick_symbol_to_internal code = s.
Proof.
  unfold index_codes. intros H. apply dget_Some in H as (k & Hi & He). apply String.eqb_eq in He as ->.
  repeat (destruct Hi as [[= <- <- <-]|Hi]; [reflexivity|]). destruct Hi.
Qed.

(** ** An SDK that answers what it is told *)
Definition replying (a : json) : BreezeSdk := {|
  sdk_answer := fun _ q => match q with GetOptionChainQuotes _ _ _ _ _ _ | GetHistoricalDataV2 _ _ _ _ => Ok (JObj [("Success", a)]) | _ => Ok JNull end;
  sdk_master := fun _ => Ok []; sdk_equity_master := fun _ => Err (OtherError "URLError" ""); sdk_now := fun _ => 0; host_zone := 0 |}.
Definition open_breeze : Breeze := mkBreeze true true false false false ∅ None [].
Definition sensex_call : Instrument :=
  Eval vm_compute in
    match option_instrument "SENSEX" (ymd2ord 2026 9 3) (f_of_Z 80000) "CE" BFO None None None None as r
    return match r with Ok _ => Instrument | Err _ => unit end with Ok i => i | Err _ => tt end.
(** A SENSEX option is quoted on BFO and streamed from NFO. *)
Example sensex_feed_exchange :
  last (b_calls (snd (get_option_quote (sdk := replying (JArr [])) sensex_call open_breeze))) =
    Some (GetQuotes "SENSEX" "BFO" "options" "2026-09-03T00:00:00.000Z" "call" "80000", true) /\
  _feed_args sensex_call = Ok (mkFeedArgs "NFO" "SENSEX" "options" (Some "03-Sep-2026") (Some "call") (Some "80000")).
Proof. vm_compute. repeat split. Qed.
Definition chain_row (volume : string) : json :=
  JObj [("right", JStr "Call"); ("strike_price", JStr "25100"); ("ltp", JStr "12.5"); ("volume", JStr volume)].
(** One value that is not a number makes the whole chain fail, with an error
    that is not a provider error. *)
Example nan_volume_fails_chain :
  fst (get_option_chain (sdk := replying (JArr [chain_row "nan"])) "NIFTY" (ymd2ord 2026 9 3) None open_breeze) =
    Err (ValueError "cannot convert float NaN to integer") /\
  is_ok (fst (get_option_chain (sdk := replying (JArr [chain_row "n/a"])) "NIFTY" (ymd2ord 2026 9 3) None open_breeze)) = true.
Proof. vm_compute. repeat split. Qed.
(** A timestamp without seconds stays naive: in the host's zone, not UTC. *)
Example naive_timestamp :
  _dt (JStr "2026-09-03 09:15") = Some (mkStamp (midnight (ymd2ord 2026 9 3) + time_us 9 15 0 0) None) /\
  _dt (JStr "2026-09-03 09:15:00") = Some (mkStamp (midnight (ymd2ord 2026 9 3) + time_us 9 15 0 0) (Some 0)).
Proof. vm_compute. repeat split. Qed.
