(* ===== verification/ZerodhaProvider.v ===== *)
(** * The Zerodha Kite provider

    [trading/market_data/providers/zerodha_kite.py]: the session, the reads and
    the normalisation of what the SDK answers, the instrument list, and the
    streaming socket with the callbacks its thread makes.  The SDK
    ([kiteconnect]) and the Twisted reactor are the external code of [KiteSdk]:
    an oracle that sees every call made before.  The SDK answers Python values
    ([kval]); those of a quote, a tick or a candle may hold datetimes, those of
    the instrument list hold dates. *)
From S2P Require Import Prelude PyStr PyFloat PyNum Config Json PyTime JsonText PyParse Symbols MarketCache MarketSession Providers.
From Stdlib Require Import SpecFloat Ascii.

Definition _INDEX_KITE_SYMBOLS : list (string * string) :=
  [("NIFTY", "NSE:NIFTY 50"); ("BANKNIFTY", "NSE:NIFTY BANK"); ("FINNIFTY", "NSE:NIFTY FIN SERVICE");
   ("INDIA_VIX", "NSE:INDIA VIX"); ("SENSEX", "BSE:SENSEX")].
Definition _INDEX_TOKENS : list (string * Z) :=
  [("NIFTY", 256265); ("BANKNIFTY", 260105); ("FINNIFTY", 257801); ("INDIA_VIX", 264969); ("SENSEX", 265)].
Definition _TOKEN_TO_INDEX : list (Z * string) := map (fun kv => (snd kv, fst kv)) _INDEX_TOKENS.
Definition _KITE_INTERVALS : list (string * string) :=
  [("1minute", "minute"); ("5minute", "5minute"); ("15minute", "15minute"); ("30minute", "30minute");
   ("60minute", "60minute"); ("1day", "day")].
Definition BACKTEST_SUPPORTED_INTERVALS : list string := map fst _KITE_INTERVALS.

(** ** Values

    [T] is the type of the moments a value may hold. *)
Inductive kval (T : Type) : Type :=
| KNone
| KBool (b : bool)
| KInt (n : Z)
| KFloat (x : float)
| KStr (s : string)
| KMoment (t : T)
| KList (l : list (kval T))
| KDict (kvs : list (string * kval T)).
Arguments KNone {T}.
Arguments KBool {T} b.
Arguments KInt {T} n.
Arguments KFloat {T} x.
Arguments KStr {T} s.
Arguments KMoment {T} t.
Arguments KList {T} l.
Arguments KDict {T} kvs.

Section values.
Context {T : Type} (moment_type : string).   (* [datetime.datetime] or [datetime.date] *)
Definition ktruthy (v : kval T) : bool :=
  match v with
  | KNone => false
  | KBool b => b
  | KInt n => negb (n =? 0)
  | KFloat x => negb (f_eqb x f_zero)
  | KStr s => truthy s
  | KMoment _ => true
  | KList l => match l with [] => false | _ => true end
  | KDict kvs => match kvs with [] => false | _ => true end
  end.
Definition kor (a b : kval T) : kval T := if ktruthy a then a else b.
Definition type_name (v : kval T) : string :=
  match v with
  | KNone => "NoneType" | KBool _ => "bool" | KInt _ => "int" | KFloat _ => "float" | KStr _ => "str"
  | KMoment _ => moment_type | KList _ => "list" | KDict _ => "dict"
  end.
Definition is_kdict (v : kval T) : bool := match v with KDict _ => true | _ => false end.
(** [v.get(k)] *)
Definition kget (k : string) (v : kval T) : result exn (kval T) :=
  match v with
  | KDict kvs => Ok (default KNone (dget String.eqb k kvs))
  | _ => Err (AttributeError ("'" +:+ type_name v +:+ "' object has no attribute 'get'"))
  end.
(** [v[0]] of a value that is not empty. *)
Definition kfirst (v : kval T) : result exn (kval T) :=
  match v with
  | KList (x :: _) => Ok x
  | KStr s => match chars s with c :: _ => Ok (KStr (unchars [c])) | [] => Err (OtherError "IndexError" "string index out of range") end
  | KDict _ => Err (KeyError "0")
  | KList [] => Err (OtherError "IndexError" "list index out of range")
  | _ => Err (TypeError ("'" +:+ type_name v +:+ "' object is not subscriptable"))
  end.
(** [float(v)] *)
Definition kfloat (v : kval T) : result exn float :=
  match v with
  | KBool b => Ok (f_of_Z (Z.b2z b))
  | KInt n => py_float_of_int n
  | KFloat x => Ok x
  | KStr s => match py_float s with Some x => Ok x | None => Err (ValueError ("could not convert string to float: " +:+ str_repr s)) end
  | _ => Err (TypeError ("float() argument must be a string or a real number, not '" +:+ type_name v +:+ "'"))
  end.

(** ** Value coercers *)
Definition _f (v : kval T) : result exn (option float) :=
  match v with
  | KNone | KStr "" => Ok None
  | _ =>
      match kfloat v with
      | Ok x => Ok (Some x)
      | Err e => if str_in (class_of e) ["TypeError"; "ValueError"] then Ok None else Err e
      end
  end.
Definition _i (v : kval T) : result exn (option Z) :=
  let? f := _f v in
  match f with Some x => let? n := py_int_of_float x in Ok (Some n) | None => Ok None end.
(** The text of a value that is not a container or a moment. *)
Definition scalar_text (v : kval T) : option string :=
  match v with
  | KNone => Some "None"
  | KBool b => Some (if b then "True" else "False")
  | KInt n => Some (str_of_Z n)
  | KFloat x => Some (f_repr x)
  | KStr s => Some s
  | KMoment _ | KList _ | KDict _ => None
  end.
(** [_f(a) or _f(b)], [_i(a) or _i(b)]: a zero counts as missing. *)
Definition f_or (a b : kval T) : result exn (option float) :=
  let? x := _f a in match x with Some f => if f_eqb f f_zero then _f b else Ok (Some f) | None => _f b end.
Definition i_or (a b : kval T) : result exn (option Z) :=
  let? x := _i a in match x with Some n => if n =? 0 then _i b else Ok (Some n) | None => _i b end.
End values.
(** The formats of [_dt]; an aware datetime is kept, a naive one is taken as
    UTC.  The text of a list or a dictionary starts with a bracket, which no
    format reads. *)
Definition DT_FORMATS : list string :=
  ["%Y-%m-%dT%H:%M:%S.%fZ"; "%Y-%m-%dT%H:%M:%S.000Z"; "%Y-%m-%dT%H:%M:%S"; "%Y-%m-%d %H:%M:%S"; "%d-%b-%Y %H:%M:%S"].
Definition _dt (v : kval stamp) : option stamp :=
  if negb (ktruthy v) then None
  else
    match v with
    | KMoment t => Some (mkStamp t.(st_local) (Some (default 0 t.(st_offset))))
    | _ =>
        s ← scalar_text v;
        match strptime_any DT_FORMATS (strip s) with
        | Some t => Some (mkStamp t (Some 0))
        | None => datetime_fromisoformat (replace_Z (strip s))
        end
    end.
Definition dt_or (a b : kval stamp) : option stamp := match _dt a with Some t => Some t | None => _dt b end.
(** [str] of a value of the instrument list. *)
Fixpoint date_repr (v : kval Z) : string :=
  match v with
  | KStr s => str_repr s
  | KMoment d => let '(y, m, dd) := ord2ymd d in "datetime.date(" +:+ String.concat ", " (map str_of_Z [y; m; dd]) +:+ ")"
  | KList l => "[" +:+ String.concat ", " (map date_repr l) +:+ "]"
  | KDict kvs => "{" +:+ String.concat ", " (map (fun kv => str_repr (fst kv) +:+ ": " +:+ date_repr (snd kv)) kvs) +:+ "}"
  | _ => default "" (scalar_text v)
  end.
Definition date_text (v : kval Z) : string :=
  match v with KStr s => s | KMoment d => isoformat d | _ => date_repr v end.
Definition DATE_FORMATS : list string := ["%Y-%m-%d"; "%d-%b-%Y"; "%d%b%Y"; "%d/%m/%Y"].
Definition _parse_date (v : kval Z) : option Z :=
  if negb (ktruthy v) then None
  else
    match v with
    | KMoment d => Some d
    | _ =>
        let s := strip (date_text v) in
        match strptime_any DATE_FORMATS s with Some t => Some (date_of t) | None => fromisoformat (str_take 10 s) end
    end.

(** ** The provider object *)
Inductive kreq : Type :=
| ImportSdk
| NewClient (api_key : string)
| SetAccessToken (token : string)
| Profile
| QuoteOf (keys : list string + list Z)
| HistoricalData (token : Z) (from_date to_date : Z) (interval : string)
| InstrumentsOf (exchange : string)
| ImportTicker
| NewTicker (api_key token : string)
| ReactorRunning
| CallFromThread
| TickerConnect
| TickerSubscribe (tokens : list Z)
| TickerMode (tokens : list Z)
| TickerUnsubscribe (tokens : list Z)
| TickerClose.
(** What the trace keeps: the request and whether it raised. *)
Definition kcall : Type := kreq * bool.
Class KiteSdk : Type := {
  kite_answer : list kcall -> kreq -> result exn (kval stamp);
  kite_instruments : list kcall -> result exn (kval Z);
  reactor_running : list kcall -> bool;
  kite_now : list kcall -> Z;
  kite_today : list kcall -> Z;             (* the host's own date *)
  kite_host_zone : Z                        (* the host's offset, for naive timestamps *)
}.
Record Kite : Type := mkKite {
  k_client : bool; k_connected : bool; k_ticker : bool; k_ws_connected : bool; k_on_tick : bool; k_resolver : bool;
  k_subscribed_tokens : gset Z; k_token_to_instrument : gmap Z Instrument; k_instruments_cache : gmap string (list Instrument);
  k_calls : list kcall
}.
Definition new_kite : Kite := mkKite false false false false false false ∅ ∅ ∅ [].
Definition KM (A : Type) : Type := M Kite exn A.

Definition set_client (v : bool) : KM unit := modify (fun k => mkKite v k.(k_connected) k.(k_ticker) k.(k_ws_connected)
  k.(k_on_tick) k.(k_resolver) k.(k_subscribed_tokens) k.(k_token_to_instrument) k.(k_instruments_cache) k.(k_calls)).
Definition set_connected (v : bool) : KM unit := modify (fun k => mkKite k.(k_client) v k.(k_ticker) k.(k_ws_connected)
  k.(k_on_tick) k.(k_resolver) k.(k_subscribed_tokens) k.(k_token_to_instrument) k.(k_instruments_cache) k.(k_calls)).
Definition set_ticker (v : bool) : KM unit := modify (fun k => mkKite k.(k_client) k.(k_connected) v k.(k_ws_connected)
  k.(k_on_tick) k.(k_resolver) k.(k_subscribed_tokens) k.(k_token_to_instrument) k.(k_instruments_cache) k.(k_calls)).
Definition set_ws (v : bool) : KM unit := modify (fun k => mkKite k.(k_client) k.(k_connected) k.(k_ticker) v
  k.(k_on_tick) k.(k_resolver) k.(k_subscribed_tokens) k.(k_token_to_instrument) k.(k_instruments_cache) k.(k_calls)).
Definition set_callback (on_tick resolver : bool) : KM unit := modify (fun k => mkKite k.(k_client) k.(k_connected) k.(k_ticker)
  k.(k_ws_connected) on_tick resolver k.(k_subscribed_tokens) k.(k_token_to_instrument) k.(k_instruments_cache) k.(k_calls)).
(** The recorded tokens and what they stand for. *)
Definition record (f : gset Z -> gset Z) (g : gmap Z Instrument -> gmap Z Instrument) : KM unit := modify (fun k =>
  mkKite k.(k_client) k.(k_connected) k.(k_ticker) k.(k_ws_connected) k.(k_on_tick) k.(k_resolver)
    (f k.(k_subscribed_tokens)) (g k.(k_token_to_instrument)) k.(k_instruments_cache) k.(k_calls)).
Definition remember_instruments (under : string) (l : list Instrument) : KM unit := modify (fun k =>
  mkKite k.(k_client) k.(k_connected) k.(k_ticker) k.(k_ws_connected) k.(k_on_tick) k.(k_resolver) k.(k_subscribed_tokens)
    k.(k_token_to_instrument) (<[under := l]> k.(k_instruments_cache)) k.(k_calls)).

(** ** Normalisation *)
Definition DATETIME : string := "datetime.datetime".
(** [(v.get(k) or {})], and a field of it. *)
Definition sub_dict (k : string) (v : kval stamp) : result exn (kval stamp) := let? x := kget DATETIME k v in Ok (kor x (KDict [])).
Definition f_field (k : string) (v : kval stamp) : result exn (option float) := let? x := kget DATETIME k v in _f DATETIME x.
Definition i_field (k : string) (v : kval stamp) : result exn (option Z) := let? x := kget DATETIME k v in _i DATETIME x.
(** The price of the first order of one side of the depth. *)
Definition best_price (side : string) (depth : kval stamp) : result exn (option float) :=
  let? x := kget DATETIME side depth in
  if negb (ktruthy x) then Ok None
  else let? o := kfirst DATETIME x in f_field "price" o.
Definition stamp_field (k : string) (v : kval stamp) : result exn (option stamp) := let? x := kget DATETIME k v in Ok (_dt x).
Definition f_or_zero (x : option float) : float := match x with Some f => if f_eqb f f_zero then f_zero else f | None => f_zero end.

Section kite.
Context {sdk : KiteSdk} (api_key access_token : string).

Definition logged (q : kreq) (ok : bool) (k : Kite) : Kite :=
  mkKite k.(k_client) k.(k_connected) k.(k_ticker) k.(k_ws_connected) k.(k_on_tick) k.(k_resolver) k.(k_subscribed_tokens)
    k.(k_token_to_instrument) k.(k_instruments_cache) (k.(k_calls) ++ [(q, ok)]).
Definition call_with {A} (answer : list kcall -> result exn A) (q : kreq) : KM A := fun k =>
  let a := answer k.(k_calls) in (a, logged q (is_ok a) k).
Definition sdk_call (q : kreq) : KM (kval stamp) := call_with (fun t => kite_answer t q) q.
Definition now_utc : KM Z := gets (fun k => kite_now k.(k_calls)).
Definition today : KM Z := gets (fun k => kite_today k.(k_calls)).
Definition ts_of (x : option stamp) : option Z := instant_of kite_host_zone <$> x.

(** ** Lifecycle *)
(** [except ImportError] *)
Definition import_of (q : kreq) : KM unit :=
  try_except (sdk_call q ;;; ret tt)
    (fun e => raise (if String.eqb (class_of e) "ImportError"
                     then ProviderConnectionError "kiteconnect is not installed; run `pip install kiteconnect`" else e)).
Definition session_refused (e : exn) : exn :=
  let name := class_of e in
  if contains "TokenException" name || contains "PermissionException" name then
    ProviderAuthError ("Zerodha session validation failed (" +:+ name +:+ "). The daily access token is missing or expired.")
  else if contains "NetworkException" name || contains "Connection" name then
    ProviderConnectionError ("Zerodha connection error (" +:+ name +:+ ")")
  else ProviderAuthError ("Zerodha session check failed (" +:+ name +:+ ").").
Definition connect : KM unit :=
  if negb (truthy api_key && truthy access_token) then
    raise (ProviderAuthError ("ZERODHA_API_KEY / ZERODHA_ACCESS_TOKEN are not set. " +:+
                              "Provision today's Kite access token (via POST /api/market/session or env)."))
  else
    import_of ImportSdk ;;;
    let! _ := sdk_call (NewClient api_key) in
    set_client true ;;;
    try_except (let! _ := sdk_call (SetAccessToken access_token) in let! _ := sdk_call Profile in ret tt)
      (fun e => raise (session_refused e)) ;;;
    set_connected true.
Definition disconnect : KM unit :=
  let! ticker := gets k_ticker in
  (when ticker do quietly (sdk_call TickerClose)) ;;;
  set_ticker false ;;;
  set_ws false ;;;
  set_connected false ;;;
  record (fun _ => ∅) (fun _ => ∅) ;;;
  let! r := gets k_resolver in
  set_callback false r.
Definition is_connected (k : Kite) : bool := k.(k_connected).
Definition _require_client : KM unit :=
  let! c := gets k_connected in
  let! k := gets k_client in
  if negb c || negb k then raise (ProviderConnectionError "Zerodha provider is not connected; call connect() first")
  else ret tt.

(** ** Snapshot reads *)
(** A provider error passes, any other becomes a connection error. *)
Definition quote_call (what : string) (keys : list string + list Z) : KM (kval stamp) :=
  try_except (_require_client ;;; sdk_call (QuoteOf keys))
    (fun e => if is_ProviderError e then raise e
              else raise (ProviderConnectionError ("Zerodha " +:+ what +:+ " failed (" +:+ class_of e +:+ ")"))).
Definition norm_index (i : Instrument) (data : kval stamp) (now : Z) : result exn IndexQuote :=
  let? ohlc := sub_dict "ohlc" data in
  let? ltp := f_field "last_price" data in
  let? o := f_field "open" ohlc in let? h := f_field "high" ohlc in let? l := f_field "low" ohlc in
  let? pc := f_field "close" ohlc in
  let? v := i_field "volume" data in
  let? ts := stamp_field "timestamp" data in
  Ok (build_index_quote i.(internal_symbol) ltp o h l pc v (ts_of ts) "zerodha" now).
Definition get_index_quote (i : Instrument) : KM IndexQuote :=
  if negb (is_index i) then raise (ValueError ("get_index_quote requires an INDEX instrument, got " +:+ TYPE_NAME i.(instrument_type)))
  else match dget String.eqb i.(internal_symbol) _INDEX_KITE_SYMBOLS with
  | None => raise (ValueError ("No Zerodha mapping for index " +:+ str_repr i.(internal_symbol)))
  | Some kite_sym =>
      let! raw := quote_call "quote" (inl [kite_sym]) in
      let! data := lift (kget DATETIME kite_sym raw) in
      if negb (is_kdict data) then raise (ProviderDataError ("Unexpected Zerodha quote payload for " +:+ i.(internal_symbol)))
      else let! now := now_utc in lift (norm_index i data now)
  end.

Definition norm_option (expiry : Z) (i : Instrument) (data : kval stamp) (now : Z) : result exn OptionQuote :=
  let? ohlc := sub_dict "ohlc" data in
  let? depth := sub_dict "depth" data in
  let? bid := best_price "buy" depth in
  let? ask := best_price "sell" depth in
  let? ltp := f_field "last_price" data in
  let? o := f_field "open" ohlc in let? h := f_field "high" ohlc in let? l := f_field "low" ohlc in
  let? pc := f_field "close" ohlc in
  let? v := i_field "volume" data in
  let? oi := i_field "oi" data in
  let? vwap := f_field "average_price" data in
  let? ts := stamp_field "timestamp" data in
  build_option_quote (default "" i.(i_underlying)) expiry (f_or_zero i.(i_strike)) (str_or (default "" i.(i_option_type)) "CE")
    ltp o h l pc v oi None bid ask None vwap (ts_of ts) "zerodha" now.
Definition _norm_option_data (data : kval stamp) (i : Instrument) : KM OptionQuote :=
  let! expiry := match i.(i_expiry) with Some e => ret e | None => today end in
  let! now := now_utc in
  lift (norm_option expiry i data now).
(** [int(token) if token and token.isdigit()] *)
Definition digits_token (i : Instrument) : option Z :=
  t ← i.(provider_token);
  if truthy t && forallb is_digit (chars t) then Some (digits_Z (chars t)) else None.
Definition get_option_quote (i : Instrument) : KM OptionQuote :=
  if negb (is_option i) then raise (ValueError ("get_option_quote requires an OPTION instrument, got " +:+ TYPE_NAME i.(instrument_type)))
  else
    let nfo := "NFO:" +:+ i.(internal_symbol) in
    let '(query, key) := match digits_token i with Some t => (inr [t], str_of_Z t) | None => (inl [nfo], nfo) end in
    let! raw := quote_call "option quote" query in
    let! data := lift (kget DATETIME key raw) in
    if negb (is_kdict data) then raise (ProviderDataError ("Unexpected Zerodha quote payload for " +:+ i.(internal_symbol)))
    else _norm_option_data data i.

(** ** The instrument list *)
Definition mfield (k : string) (kvs : list (string * kval Z)) : kval Z := default KNone (dget String.eqb k kvs).
Definition DATE : string := "datetime.date".
Definition row_instrument (under : string) (r : kval Z) : result exn (option Instrument) :=
  match r with
  | KDict kvs =>
      let name := upper (strip (date_text (kor (mfield "name" kvs) (KStr "")))) in
      if negb (String.eqb name under) then Ok None
      else
        let ot := upper (strip (date_text (kor (mfield "instrument_type" kvs) (KStr "")))) in
        if negb (str_in ot ["CE"; "PE"]) then Ok None
        else
          let exp := _parse_date (mfield "expiry" kvs) in
          let? strike := _f DATE (mfield "strike" kvs) in
          match exp, strike, mfield "instrument_token" kvs with
          | None, _, _ | _, None, _ | _, _, KNone => Ok None
          | Some e, Some x, token =>
              let? lot := _i DATE (mfield "lot_size" kvs) in
              let? tick := _f DATE (mfield "tick_size" kvs) in
              let? i := option_instrument under e x ot NFO lot tick (Some "zerodha") (Some (date_text token)) in
              Ok (Some i)
          end
  | _ => Ok None
  end.
(** [for r in raw_list]: the keys of a dictionary and the characters of a text
    are not dictionaries. *)
Definition rows_of (raw : kval Z) : result exn (list (kval Z)) :=
  match raw with
  | KList l => Ok l
  | KDict _ | KStr _ => Ok []
  | _ => Err (TypeError ("'" +:+ type_name DATE raw +:+ "' object is not iterable"))
  end.
(** What was listed once is answered again. *)
Definition get_option_instruments (underlying : string) : KM (list Instrument) :=
  let under := upper underlying in
  let! cache := gets k_instruments_cache in
  match cache !! under with
  | Some l => ret l
  | None =>
      _require_client ;;;
      let! raw := try_except (call_with kite_instruments (InstrumentsOf "NFO"))
        (fun e => raise (ProviderConnectionError ("Zerodha instruments fetch failed (" +:+ class_of e +:+ ")"))) in
      let! rows := lift (rows_of raw) in
      let! found := lift (map_r (row_instrument under) rows) in
      remember_instruments under (keep_some found) ;;;
      ret (keep_some found)
  end.

(** ** The option chain *)
Definition CHUNK : nat := 200.
(** [l[i : i + n] for i in range(0, len(l), n)] *)
Fixpoint chunks_go {A} (fuel n : nat) (l : list A) : list (list A) :=
  match fuel, l with
  | S k, _ :: _ => take n l :: chunks_go k n (drop n l)
  | _, _ => []
  end.
Definition chunks {A} (n : nat) (l : list A) : list (list A) := chunks_go (List.length l) n l.
Definition quotes : Type := list (string * kval stamp).
Definition add_quotes (resp : kval stamp) (m : quotes) : quotes :=
  match resp with KDict kvs => fold_left (fun m kv => dset String.eqb (fst kv) (snd kv) m) kvs m | _ => m end.
Fixpoint batch_quotes (batches : list (list Z)) (m : quotes) : KM quotes :=
  match batches with
  | [] => ret m
  | b :: r =>
      let! resp := try_except (sdk_call (QuoteOf (inr b)))
        (fun e => raise (ProviderConnectionError ("Zerodha batch quote failed (" +:+ class_of e +:+ ")"))) in
      batch_quotes r (add_quotes resp m)
  end.
Definition index_spot (under : string) : KM (option float) :=
  match dget String.eqb under _INDEX_KITE_SYMBOLS with
  | None => ret None
  | Some kite_sym =>
      try_except
        (let! resp := sdk_call (QuoteOf (inl [kite_sym])) in
         lift match resp with
              | KDict kvs => match dget String.eqb kite_sym kvs with Some d => f_field "last_price" d | None => Ok None end
              | _ => Ok None
              end)
        (fun _ => ret None)
  end.
(** [quotes_map.get(str(token)) or quotes_map.get(token or '')] *)
Definition quote_data (i : Instrument) (m : quotes) : kval stamp :=
  let at_key k := default KNone (dget String.eqb k m) in
  kor (at_key (default "None" i.(provider_token))) (at_key (default "" i.(provider_token))).
Definition side_map : Type := list (float * list (string * option OptionQuote)).
Definition place (i : Instrument) (q : option OptionQuote) (acc : side_map) : side_map :=
  match i.(i_strike) with
  | Some x =>
      if opt_truthy i.(i_option_type) then
        dset f_eqb x (dset String.eqb (default "" i.(i_option_type)) q (default [] (dget f_eqb x acc))) acc
      else acc
  | None => acc
  end.
Fixpoint group (l : list Instrument) (m : quotes) (acc : side_map) : KM side_map :=
  match l with
  | [] => ret acc
  | i :: r =>
      let data := quote_data i m in
      let! q := if ktruthy data then let! q := _norm_option_data data i in ret (Some q) else ret None in
      group r m (place i q acc)
  end.
Definition wanted (expiry : Z) (right : option string) (i : Instrument) : bool :=
  bool_decide (i.(i_expiry) = Some expiry) &&
  match right with None => true | Some r => bool_decide (i.(i_option_type) = Some (upper r)) end.
Definition side (k : string) (l : list (string * option OptionQuote)) : option OptionQuote := default None (dget String.eqb k l).
Definition get_option_chain (underlying : string) (expiry : Z) (right : option string) : KM OptionChain :=
  let under := upper underlying in
  let! all := get_option_instruments under in
  let contracts := List.filter (wanted expiry right) all in
  match contracts with
  | [] => let! now := now_utc in ret (mkChain under expiry None None now [] "zerodha")
  | _ =>
      _require_client ;;;
      let! m := batch_quotes (chunks CHUNK (omap digits_token contracts)) [] in
      let! spot := index_spot under in
      let! by_strike := group contracts m [] in
      let sorted := sort_by (fun a b => f_leb (fst a) (fst b)) by_strike in
      let! now := now_utc in
      ret (mkChain under expiry spot (nearest_strike (map fst sorted) spot) now
             (map (fun kv => mkChainRow (fst kv) (side "CE" (snd kv)) (side "PE" (snd kv))) sorted) "zerodha")
  end.

(** ** History *)
Definition index_token (i : Instrument) : option Z := if is_index i then dget String.eqb i.(internal_symbol) _INDEX_TOKENS else None.
Definition token_of (i : Instrument) : option Z := match digits_token i with Some t => Some t | None => index_token i end.
(** [float(r.get(k, 0.0))] *)
Definition price_of (k : string) (r : kval stamp) : result exn float :=
  match r with KDict kvs => kfloat DATETIME (default (KFloat f_zero) (dget String.eqb k kvs)) | _ => Ok f_zero end.
Definition candle_of (symbol interval : string) (r : kval stamp) : result exn (option Candle) :=
  if negb (is_kdict r) then Ok None
  else
    let? t := stamp_field "date" r in
    match ts_of t with
    | None => Ok None
    | Some t =>
        let? o := price_of "open" r in let? h := price_of "high" r in let? l := price_of "low" r in let? c := price_of "close" r in
        let? v := i_field "volume" r in
        let? oi := i_field "oi" r in
        Ok (Some (mkCandle symbol interval t o h l c v oi))
    end.
Definition get_historical_candles (i : Instrument) (interval : string) (start end_ : Z) : KM (list Candle) :=
  match token_of i with
  | None => raise (ValueError ("Cannot resolve Zerodha instrument token for " +:+ i.(internal_symbol)))
  | Some token =>
      match dget String.eqb interval _KITE_INTERVALS with
      | None => raise (ValueError ("Unsupported interval " +:+ str_repr interval +:+ " for Zerodha. Supported: " +:+
                                   String.concat ", " (sorted_set BACKTEST_SUPPORTED_INTERVALS)))
      | Some kite_interval =>
          _require_client ;;;
          let! raw := try_except (sdk_call (HistoricalData token start end_ kite_interval))
            (fun e => raise (ProviderConnectionError ("Zerodha historical_data failed (" +:+ class_of e +:+ ")"))) in
          match raw with
          | KList l => let! cs := lift (map_r (candle_of i.(internal_symbol) interval) l) in ret (keep_some cs)
          | _ => raise (ProviderDataError ("Unexpected historical data shape for " +:+ i.(internal_symbol)))
          end
      end
  end.

(** ** Streaming *)
(** [_connect_ticker], on the reactor's thread if it runs. *)
Definition _run_on_reactor : KM unit :=
  let! running := gets (fun k => reactor_running k.(k_calls)) in
  if (running : bool) then sdk_call CallFromThread ;;; ret tt else quietly (sdk_call TickerConnect).
Definition _start_ticker : KM unit :=
  import_of ImportTicker ;;;
  let! _ := sdk_call (NewTicker api_key access_token) in
  set_ticker true ;;;
  try_except _run_on_reactor
    (fun e => set_ticker false ;;;
              raise (ProviderConnectionError ("Zerodha KiteTicker connect failed (" +:+ class_of e +:+ ")"))).
Definition record_one (i : Instrument) (t : Z) : KM unit := record (fun s => {[ t ]} ∪ s) (fun m => <[t := i]> m).
Definition forget_one (t : Z) : KM unit := record (fun s => s ∖ {[ t ]}) (fun m => delete t m).
(** The recorded tokens of these instruments, and the recording itself. *)
Definition record_all (l : list Instrument) : KM (list Z) :=
  for_each l (fun i => match token_of i with Some t => record_one i t | None => ret tt end) ;;;
  ret (omap token_of l).
Definition ask_full (tokens : list Z) : KM unit :=
  let! _ := sdk_call (TickerSubscribe tokens) in
  let! _ := sdk_call (TickerMode tokens) in
  ret tt.
Definition subscribe (instruments : list Instrument) : KM unit :=
  set_callback true true ;;;
  let! tokens := record_all instruments in
  let! ticker := gets k_ticker in
  let! ws := gets k_ws_connected in
  if negb ticker then _start_ticker
  else if ws && negb (bool_decide (tokens = [])) then quietly (ask_full tokens)
  else ret tt.
Definition unsubscribe (instruments : list Instrument) : KM unit :=
  for_each (omap token_of instruments) forget_one ;;;
  let! ws := gets k_ws_connected in
  let! ticker := gets k_ticker in
  if ws && ticker && negb (bool_decide (omap token_of instruments = [])) then
    quietly (sdk_call (TickerUnsubscribe (omap token_of instruments)))
  else ret tt.
(** The callbacks the socket's thread makes. *)
Definition on_connect : KM unit :=
  set_ws true ;;;
  let! tokens := gets (fun k => elements k.(k_subscribed_tokens)) in
  when negb (bool_decide (tokens = [])) do ask_full tokens.
Definition on_close : KM unit := set_ws false.

(** A key of a dictionary of integers; a float or a boolean equal to one finds
    it. *)
Definition int_key (v : kval stamp) : result exn (option Z) :=
  match v with
  | KInt n => Ok (Some n)
  | KBool b => Ok (Some (Z.b2z b))
  | KFloat x => Ok (match f_trunc x with Some n => if f_eqb (f_of_Z n) x then Some n else None | None => None end)
  | KNone | KStr _ | KMoment _ => Ok None
  | KList _ | KDict _ => Err (TypeError ("unhashable type: '" +:+ type_name DATETIME v +:+ "'"))
  end.
Section ticks.
Variable resolver : kval stamp -> result exn (option Instrument).
Definition tick_instrument (known : gmap Z Instrument) (has_resolver : bool) (tick : kval stamp) : result exn (option Instrument) :=
  let? token := kget DATETIME "instrument_token" tick in
  let? n := if ktruthy token then int_key token else Ok None in
  let? found := match n ≫= (known !!.) with
                | Some i => Ok (Some i)
                | None => if has_resolver then resolver tick else Ok None
                end in
  match found with
  | Some i => Ok (Some i)
  | None =>
      let? n := int_key token in
      match n ≫= (fun n => dget Z.eqb n _TOKEN_TO_INDEX) with
      | Some s => let? i := index_instrument s in Ok (Some i)
      | None => Ok None
      end
  end.
Definition norm_tick (i : Instrument) (tick : kval stamp) (now : Z) : result exn (option Quote) :=
  let? ltp := f_field "last_price" tick in
  let? ohlc := sub_dict "ohlc" tick in
  let? o := f_field "open" ohlc in let? h := f_field "high" ohlc in let? l := f_field "low" ohlc in
  let? pc := f_field "close" ohlc in
  let? a := kget DATETIME "volume_traded" tick in let? b := kget DATETIME "volume" tick in
  let? v := i_or DATETIME a b in
  let? a := kget DATETIME "last_trade_time" tick in let? b := kget DATETIME "timestamp" tick in
  let ts := ts_of (dt_or a b) in
  if is_index i then Ok (Some (QIndex (build_index_quote i.(internal_symbol) ltp o h l pc v ts "zerodha" now)))
  else
    match i.(i_expiry), i.(i_strike) with
    | Some e, Some k =>
        if is_option i && negb (f_eqb k f_zero) then
          let? depth := sub_dict "depth" tick in
          let? bid := best_price "buy" depth in
          let? ask := best_price "sell" depth in
          let? a := kget DATETIME "average_traded_price" tick in let? b := kget DATETIME "average_price" tick in
          let? vwap := f_or DATETIME a b in
          let? oi := i_field "oi" tick in
          let? q := build_option_quote (default "" i.(i_underlying)) e k (str_or (default "" i.(i_option_type)) "CE")
                      ltp o h l pc v oi None bid ask None vwap ts "zerodha" now in
          Ok (Some (QOption q))
        else Ok None
    | _, _ => Ok None
    end.
(** The quote given to [on_tick], if any; whatever goes wrong drops the tick. *)
Definition _handle_tick (tick : kval stamp) : KM (option Quote) := fun k =>
  let q :=
    if negb k.(k_on_tick) || negb (is_kdict tick) then None
    else
      match (let? i := tick_instrument k.(k_token_to_instrument) k.(k_resolver) tick in
             match i with Some i => norm_tick i tick (kite_now k.(k_calls)) | None => Ok None end) with
      | Ok q => q
      | Err _ => None
      end in
  (Ok q, k).
Definition on_ticks (ticks : list (kval stamp)) : KM (list Quote) := let! l := map_m _handle_tick ticks in ret (keep_some l).
End ticks.
End kite.

(** ** The interface

    The object is its credentials and its state; Kite's access token is the
    session token. *)
Definition KiteObject : Type := BreezeCredentials * Kite.
Definition on_kite {A} (m : BreezeCredentials -> KM A) : M KiteObject exn A := fun o =>
  let '(a, k) := m (fst o) (snd o) in (a, (fst o, k)).
Definition feed_symbols (k : Kite) : gset string := list_to_set (map (fun kv => internal_symbol (snd kv)) (map_to_list k.(k_token_to_instrument))).
#[global] Instance zerodha_provider `{KiteSdk} : MarketDataProvider KiteObject := {
  p_name := "zerodha";
  p_is_connected := fun o => is_connected (snd o);
  p_subscribed := fun o => feed_symbols (snd o);
  p_new := fun c => (c, new_kite);
  p_connect := on_kite (fun c => connect c.(cr_api_key) c.(cr_session_token));
  p_disconnect := on_kite (fun _ => disconnect);
  p_subscribe := fun l => on_kite (fun c => subscribe c.(cr_api_key) c.(cr_session_token) l);
  p_unsubscribe := fun l => on_kite (fun _ => unsubscribe l);
  p_get_option_instruments := fun u => on_kite (fun _ => get_option_instruments u);
  p_get_index_quote := fun i => on_kite (fun _ => get_index_quote i);
  p_get_option_quote := fun i => on_kite (fun _ => get_option_quote i);
  p_get_option_chain := fun u e r => on_kite (fun _ => get_option_chain u e r);
  p_get_historical_candles := fun i interval start stop => on_kite (fun _ => get_historical_candles i interval start stop)
}.

Section kite_theorems.
Context {sdk : KiteSdk}.

(** ** What leaves the socket alone *)
(** What a call asks of the socket. *)
Definition ask (s : gset Z) (c : kcall) : gset Z :=
  match fst c with
  | TickerSubscribe l => list_to_set l ∪ s
  | TickerUnsubscribe l => s ∖ list_to_set l
  | _ => s
  end.
Definition silent (q : kreq) : bool := match q with TickerSubscribe _ | TickerUnsubscribe _ => false | _ => true end.
Lemma ask_silent l s : Forall (fun c => silent (fst c) = true) l -> fold_left ask l s = s.
Proof. intros H. revert s. induction H as [|[q b] l Hq H IH]; intros s; [reflexivity|]. cbn in *. rewrite IH. now destruct q. Qed.
(** Since [k0] the socket, its tokens and what they stand for are the same, and
    nothing was asked of it; the connection satisfies [P]. *)
Definition same_socket (P : bool -> Prop) (k0 k : Kite) : Prop :=
  P k.(k_connected) /\ k.(k_ticker) = k0.(k_ticker) /\ k.(k_ws_connected) = k0.(k_ws_connected) /\
  k.(k_subscribed_tokens) = k0.(k_subscribed_tokens) /\ k.(k_token_to_instrument) = k0.(k_token_to_instrument) /\
  exists l, k.(k_calls) = k0.(k_calls) ++ l /\ Forall (fun c => silent (fst c) = true) l.
Section socket.
Context (P : bool -> Prop) (k0 : Kite).
Lemma still_call {A} (f : list kcall -> result exn A) q : silent q = true -> preserves (same_socket P k0) (call_with f q).
Proof.
  intros Q k (H1 & H2 & H3 & H4 & H5 & l & H6 & H7). unfold call_with. cbn. repeat (split; [assumption|]).
  exists (l ++ [(q, is_ok (f (k_calls k)))]). cbn. rewrite H6, app_assoc. split; [reflexivity|]. apply List.Forall_app. split; [exact H7|]. now constructor.
Qed.
Lemma still_sdk q : silent q = true -> preserves (same_socket P k0) (sdk_call q).
Proof. apply still_call. Qed.
Lemma still_client v : preserves (same_socket P k0) (set_client v).
Proof. now apply preserves_modify. Qed.
Lemma still_callback a b : preserves (same_socket P k0) (set_callback a b).
Proof. now apply preserves_modify. Qed.
Lemma still_remember u l : preserves (same_socket P k0) (remember_instruments u l).
Proof. now apply preserves_modify. Qed.
Lemma still_require : preserves (same_socket P k0) _require_client.
Proof. unfold _require_client. preserve. Qed.
End socket.
#[local] Hint Resolve still_client still_callback still_remember still_require : preserves.
#[local] Hint Extern 1 (preserves _ (sdk_call _)) => apply still_sdk; reflexivity : preserves.
#[local] Hint Extern 1 (preserves _ (call_with _ _)) => apply still_call; reflexivity : preserves.
Section reads.
Context (P : bool -> Prop) (k0 : Kite).
#[local] Abbreviation still := (preserves (same_socket P k0)).
Lemma still_instruments u : still (get_option_instruments u).
Proof. unfold get_option_instruments. preserve. Qed.
Lemma still_quote_call what keys : still (quote_call what keys).
Proof. unfold quote_call. preserve. Qed.
Lemma still_index_quote i : still (get_index_quote i).
Proof. unfold get_index_quote, now_utc. preserve; apply still_quote_call. Qed.
Lemma still_norm data i : still (_norm_option_data data i).
Proof. unfold _norm_option_data, now_utc, today. preserve. Qed.
#[local] Hint Resolve still_norm : preserves.
Lemma still_option_quote i : still (get_option_quote i).
Proof. unfold get_option_quote. preserve; apply still_quote_call. Qed.
Lemma still_batches bs : forall m, still (batch_quotes bs m).
Proof. induction bs as [|b bs IH]; intros m; cbn [batch_quotes]; preserve. Qed.
Lemma still_spot u : still (index_spot u).
Proof. unfold index_spot. preserve. Qed.
Lemma still_group l m : forall acc, still (group l m acc).
Proof. induction l as [|i l IH]; intros acc; cbn [group]; preserve. Qed.
Lemma still_chain u e r : still (get_option_chain u e r).
Proof.
  unfold get_option_chain, now_utc. preserve; first [apply still_instruments | apply still_batches | apply still_spot | apply still_group].
Qed.
Lemma still_history i interval a b : still (get_historical_candles i interval a b).
Proof. unfold get_historical_candles. preserve. Qed.
End reads.
Lemma still_connect key token k0 : preserves (same_socket (fun _ => True) k0) (connect key token).
Proof.
  unfold connect, import_of. preserve. apply preserves_modify. intros k (_ & H). now split.
Qed.

Lemma same_socket_refl (P : bool -> Prop) k : P k.(k_connected) -> same_socket P k k.
Proof. intros H. repeat (split; [easy|]). exists []. now rewrite app_nil_r. Qed.
Lemma reads_keep {A} (m : KM A) : (forall P k0, preserves (same_socket P k0) m) ->
  forall k, k_connected (snd (m k)) = k.(k_connected) /\ feed_symbols (snd (m k)) = feed_symbols k.
Proof.
  intros H k. destruct (H (fun c => c = k.(k_connected)) k k (same_socket_refl _ _ eq_refl)) as (H1 & _ & _ & _ & H5 & _).
  unfold feed_symbols. now rewrite H5.
Qed.

(** ** The laws of the interface *)
Abbreviation kfeed := (Providers.feed_step k_connected feed_symbols).
Lemma elem_of_feed s k : s ∈ feed_symbols k <-> exists t i, k.(k_token_to_instrument) !! t = Some i /\ internal_symbol i = s.
Proof.
  unfold feed_symbols. rewrite elem_of_list_to_set, list_elem_of_In, in_map_iff. split.
  - intros ([t i] & E & H). apply list_elem_of_In, elem_of_map_to_list in H. now exists t, i.
  - intros (t & i & H & E). exists (t, i). split; [exact E|]. apply list_elem_of_In. now apply elem_of_map_to_list.
Qed.
Lemma record_one_feed S i t : internal_symbol i ∈ S -> kfeed (within S) (record_one i t).
Proof.
  intros H k. split; [reflexivity|]. intros s Hs. apply elem_of_feed in Hs as (t' & i' & Hl & <-). cbn in Hl.
  apply lookup_insert_Some in Hl as [[_ <-] | [_ Hl]]; apply elem_of_union; [now right|left]. apply elem_of_feed. eauto.
Qed.
Lemma forget_one_feed t : kfeed (fun a b => b ⊆ a) (forget_one t).
Proof.
  intros k. split; [reflexivity|]. intros s Hs. apply elem_of_feed in Hs as (t' & i' & Hl & <-). cbn in Hl.
  apply lookup_delete_Some in Hl as [_ Hl]. apply elem_of_feed. eauto.
Qed.
Lemma kcall_feed {A} R `{!Reflexive R} (f : list kcall -> result exn A) q : kfeed R (call_with f q).
Proof. intros k. now split. Qed.
Lemma callback_feed R `{!Reflexive R} a b : kfeed R (set_callback a b).
Proof. now apply feed_still. Qed.
Lemma ticker_feed R `{!Reflexive R} v : kfeed R (set_ticker v).
Proof. now apply feed_still. Qed.
Ltac kite_feed := unfold quietly, sdk_call; feed_with ltac:(first [apply kcall_feed; apply _ | apply callback_feed; apply _ | apply ticker_feed; apply _]).
Lemma start_ticker_feed R `{!Reflexive R} `{!Transitive R} key token : kfeed R (_start_ticker key token).
Proof. unfold _start_ticker, import_of, _run_on_reactor. kite_feed. Qed.
Lemma kite_subscribe_feed key token l : kfeed (within (symbols_of l)) (subscribe key token l).
Proof.
  unfold subscribe, record_all, ask_full. kite_feed; try (apply start_ticker_feed; apply _).
  apply feed_for_each; [apply _ ..|]. intros i Hi. destruct (token_of i); [|apply feed_ret; apply _].
  apply record_one_feed. unfold symbols_of. rewrite elem_of_list_to_set. apply list_elem_of_In. now apply in_map.
Qed.
Lemma kite_unsubscribe_feed l : kfeed (fun a b => b ⊆ a) (unsubscribe l).
Proof.
  unfold unsubscribe. kite_feed. apply feed_for_each; [apply _ ..|]. intros t _. apply forget_one_feed.
Qed.
Lemma connect_ends key token k : (snd (connect key token k)).(k_connected) = is_ok (fst (connect key token k)) || k.(k_connected).
Proof.
  unfold connect, import_of. destruct (negb _); [reflexivity|]. unfold sdk_call, call_with, bind, try_except, ret, raise.
  destruct (kite_answer _ ImportSdk); cbn; [|reflexivity]. destruct (kite_answer _ (NewClient key)); cbn; [|reflexivity].
  destruct (kite_answer _ (SetAccessToken token)); cbn; [|reflexivity]. destruct (kite_answer _ Profile); reflexivity.
Qed.
Lemma connect_feed key token k : feed_symbols (snd (connect key token k)) = feed_symbols k.
Proof.
  destruct (still_connect key token k k (same_socket_refl _ _ I)) as (_ & _ & _ & _ & H & _). unfold feed_symbols. now rewrite H.
Qed.
Lemma disconnect_ends k : exists k', disconnect k = (Ok tt, k') /\ k'.(k_connected) = false /\ k'.(k_ticker) = false /\
  k'.(k_ws_connected) = false /\ k'.(k_subscribed_tokens) = ∅ /\ k'.(k_token_to_instrument) = ∅.
Proof.
  assert (forall k1, exists k', (set_ticker false ;;; set_ws false ;;; set_connected false ;;; record (fun _ => ∅) (fun _ => ∅) ;;;
      let! r := gets k_resolver in set_callback false r) k1 = (Ok tt, k') /\ k'.(k_connected) = false /\ k'.(k_ticker) = false /\
      k'.(k_ws_connected) = false /\ k'.(k_subscribed_tokens) = ∅ /\ k'.(k_token_to_instrument) = ∅) as H.
  { intros k1. eexists (mkKite _ false false false _ _ ∅ ∅ _ _). repeat split. }
  unfold disconnect, quietly. unfold bind at 1, gets at 1. destruct (k_ticker k); [|exact (H k)].
  unfold bind at 1, try_except. unfold bind at 1, sdk_call, call_with. destruct (kite_answer _ TickerClose); apply H.
Qed.
Lemma on_kite_snd {A} (m : BreezeCredentials -> KM A) o :
  fst (on_kite m o) = fst (m (fst o) (snd o)) /\ snd (snd (on_kite m o)) = snd (m (fst o) (snd o)).
Proof. unfold on_kite. now destruct (m (fst o) (snd o)). Qed.
#[global] Instance zerodha_laws : ProviderLaws KiteObject.
Proof.
  split; cbn; intros; try (match goal with |- keeps_feed _ => intros p; cbn end);
    repeat match goal with
      | |- context [on_kite ?m ?o] => destruct (on_kite_snd m o) as [-> ->] || destruct (on_kite_snd m o) as [_ ->] || destruct (on_kite_snd m o) as [-> _]
      | H : fst (on_kite ?m ?o) = _ |- _ => rewrite (proj1 (on_kite_snd m o)) in H
      end.
  - now split.
  - unfold is_connected. now rewrite connect_ends, H.
  - unfold is_connected. now rewrite connect_ends, H.
  - apply connect_feed.
  - destruct (disconnect_ends (snd p)) as (k' & -> & _). reflexivity.
  - destruct (disconnect_ends (snd p)) as (k' & -> & H & _). exact H.
  - destruct (disconnect_ends (snd p)) as (k' & -> & _ & _ & _ & _ & H). unfold feed_symbols. cbn. now rewrite H.
  - apply kite_subscribe_feed.
  - apply kite_subscribe_feed.
  - apply kite_unsubscribe_feed.
  - apply kite_unsubscribe_feed.
  - apply reads_keep. intros P k0. apply still_instruments.
  - apply reads_keep. intros P k0. apply still_index_quote.
  - apply reads_keep. intros P k0. apply still_option_quote.
  - apply reads_keep. intros P k0. apply still_chain.
  - apply reads_keep. intros P k0. apply still_history.
Qed.

(** ** What the socket was asked for *)
Inductive kevent : Type :=
| E_connect | E_disconnect | E_subscribe (l : list Instrument) | E_unsubscribe (l : list Instrument)
| E_open | E_close                      (* the callbacks of the socket *)
| E_instruments (u : string) | E_index (i : Instrument) | E_option (i : Instrument)
| E_chain (u : string) (e : Z) (r : option string) | E_history (i : Instrument) (interval : string) (a b : Z)
| E_ticks (resolver : kval stamp -> result exn (option Instrument)) (l : list (kval stamp)).
Definition finished {A} (m : KM A) : KM unit := m ;;; ret tt.
Definition operate (c : BreezeCredentials) (e : kevent) : KM unit :=
  match e with
  | E_connect => connect c.(cr_api_key) c.(cr_session_token)
  | E_disconnect => disconnect
  | E_subscribe l => subscribe c.(cr_api_key) c.(cr_session_token) l
  | E_unsubscribe l => unsubscribe l
  | E_open => let! t := gets k_ticker in when t do on_connect
  | E_close => on_close
  | E_instruments u => finished (get_option_instruments u)
  | E_index i => finished (get_index_quote i)
  | E_option i => finished (get_option_quote i)
  | E_chain u e r => finished (get_option_chain u e r)
  | E_history i interval a b => finished (get_historical_candles i interval a b)
  | E_ticks resolver l => finished (on_ticks resolver l)
  end.
(** A state with the tokens the socket has been asked for since it opened. *)
Definition kstate : Type := Kite * gset Z.
Definition asked_since (k k' : Kite) (s : gset Z) : gset Z := fold_left ask (drop (List.length k.(k_calls)) k'.(k_calls)) s.
Definition kstep (c : BreezeCredentials) (x : kstate) (e : kevent) : kstate :=
  let k' := snd (operate c e (fst x)) in
  (k', asked_since (fst x) k' (match e with E_open => if (fst x).(k_ticker) then ∅ else snd x | _ => snd x end)).
Definition socket_ok (x : kstate) : Prop :=
  let '(k, asked) := x in
  dom k.(k_token_to_instrument) = k.(k_subscribed_tokens) /\
  (k.(k_ws_connected) = true -> k.(k_ticker) = true /\ asked = k.(k_subscribed_tokens)).

Definition recorded (k : Kite) (s : gset Z) (m : gmap Z Instrument) : Kite :=
  mkKite k.(k_client) k.(k_connected) k.(k_ticker) k.(k_ws_connected) k.(k_on_tick) k.(k_resolver) s m k.(k_instruments_cache) k.(k_calls).
Definition calls_added (l : list kcall) (k : Kite) : Kite :=
  mkKite k.(k_client) k.(k_connected) k.(k_ticker) k.(k_ws_connected) k.(k_on_tick) k.(k_resolver) k.(k_subscribed_tokens)
    k.(k_token_to_instrument) k.(k_instruments_cache) (k.(k_calls) ++ l).
Lemma recorded_same k : recorded k k.(k_subscribed_tokens) k.(k_token_to_instrument) = k.
Proof. now destruct k. Qed.
Lemma record_all_run l k : exists m,
  record_all l k = (Ok (omap token_of l), recorded k (list_to_set (omap token_of l) ∪ k.(k_subscribed_tokens)) m) /\
  (dom k.(k_token_to_instrument) = k.(k_subscribed_tokens) -> dom m = list_to_set (omap token_of l) ∪ k.(k_subscribed_tokens)).
Proof.
  unfold record_all, bind. enough (exists m, for_each l (fun i => match token_of i with Some t => record_one i t | None => ret tt end) k =
    (Ok tt, recorded k (list_to_set (omap token_of l) ∪ k_subscribed_tokens k) m) /\ (dom k.(k_token_to_instrument) = k.(k_subscribed_tokens) ->
      dom m = list_to_set (omap token_of l) ∪ k_subscribed_tokens k)) as (m & -> & H) by (now exists m).
  revert k. induction l as [|i l IH]; intros k.
  - exists k.(k_token_to_instrument). cbn. rewrite (union_empty_l_L (k_subscribed_tokens k)), recorded_same. now split.
  - cbn [for_each omap list_omap]. unfold bind. destruct (token_of i) as [t|]; [|exact (IH k)].
    cbn. destruct (IH (recorded k ({[t]} ∪ k_subscribed_tokens k) (<[t:=i]> (k_token_to_instrument k)))) as (m & E & D).
    exists m. cbn in *. unfold recorded in E at 1. rewrite E. split; [unfold recorded; cbn; do 2 f_equal; set_solver|].
    intros H. rewrite D; [set_solver|]. rewrite dom_insert_L. set_solver.
Qed.
Lemma forget_all_run ts : forall k, exists m,
  for_each ts forget_one k = (Ok tt, recorded k (k.(k_subscribed_tokens) ∖ list_to_set ts) m) /\
  (dom k.(k_token_to_instrument) = k.(k_subscribed_tokens) -> dom m = k.(k_subscribed_tokens) ∖ list_to_set ts).
Proof.
  induction ts as [|t ts IH]; intros k.
  - exists k.(k_token_to_instrument). cbn. rewrite (difference_empty_L (k_subscribed_tokens k)), recorded_same. now split.
  - cbn [for_each]. unfold bind. cbn.
    destruct (IH (recorded k (k_subscribed_tokens k ∖ {[t]}) (delete t (k_token_to_instrument k)))) as (m & E & D).
    exists m. cbn in *. unfold recorded in E at 1. rewrite E. split; [unfold recorded; cbn; do 2 f_equal; set_solver|].
    intros H. rewrite D; [set_solver|]. rewrite dom_delete_L. set_solver.
Qed.
Lemma asked_calls l k s : asked_since k (calls_added l k) s = fold_left ask l s.
Proof. unfold asked_since. cbn. now rewrite drop_app_length. Qed.
Lemma ask_full_run ts k : exists r l, ask_full ts k = (r, calls_added l k) /\ forall s, fold_left ask l s = list_to_set ts ∪ s.
Proof.
  unfold ask_full, sdk_call, call_with, bind, ret. destruct (kite_answer (k_calls k) _) as [v|e]; cbn.
  - exists (match kite_answer (k_calls k ++ [(TickerSubscribe ts, true)]) (TickerMode ts) with Ok _ => Ok tt | Err e => Err e end).
    exists [(TickerSubscribe ts, true); (TickerMode ts, is_ok (kite_answer (k_calls k ++ [(TickerSubscribe ts, true)]) (TickerMode ts)))].
    split; [|reflexivity]. destruct (kite_answer _ (TickerMode ts)); unfold logged, calls_added; cbn; now rewrite <- app_assoc.
  - do 2 eexists. split; reflexivity.
Qed.
Lemma start_ticker_still key token k :
  let k' := snd (_start_ticker key token k) in
  k'.(k_ws_connected) = k.(k_ws_connected) /\ k'.(k_subscribed_tokens) = k.(k_subscribed_tokens) /\ k'.(k_token_to_instrument) = k.(k_token_to_instrument).
Proof.
  enough (preserves (fun k' => k'.(k_ws_connected) = k.(k_ws_connected) /\ k'.(k_subscribed_tokens) = k.(k_subscribed_tokens) /\
    k'.(k_token_to_instrument) = k.(k_token_to_instrument)) (_start_ticker key token)) as H by now apply H.
  unfold _start_ticker, import_of, _run_on_reactor, quietly, sdk_call. preserve;
    try (now apply preserves_modify); intros k' H; exact H.
Qed.

Lemma still_keeps (P : bool -> Prop) k k' s : same_socket P k k' -> socket_ok (k, s) -> socket_ok (k', asked_since k k' s).
Proof.
  intros (_ & H2 & H3 & H4 & H5 & l & H6 & H7) [D S]. unfold asked_since. rewrite H6, drop_app_length, (ask_silent l s H7).
  cbn. now rewrite H2, H3, H4, H5.
Qed.
Lemma still_op {A} (m : KM A) k s : (forall P k0, preserves (same_socket P k0) m) -> socket_ok (k, s) ->
  socket_ok (snd (finished m k), asked_since k (snd (finished m k)) s).
Proof.
  intros H. apply (still_keeps (fun _ => True)).
  assert (preserves (same_socket (fun _ => True) k) (finished m)) as F by (unfold finished; preserve; apply H). now apply F, same_socket_refl.
Qed.
Lemma still_ticks resolver l (P : bool -> Prop) k0 : preserves (same_socket P k0) (on_ticks resolver l).
Proof. unfold on_ticks. preserve. intros k H. exact H. Qed.
Lemma quietly_run {A} (m : KM A) k : quietly m k = (Ok tt, snd (m k)).
Proof. unfold quietly, try_except, bind, ret. now destruct (m k) as [[]]. Qed.
Lemma subscribe_keeps key token l k s r k' : socket_ok (k, s) -> subscribe key token l k = (r, k') -> socket_ok (k', asked_since k k' s).
Proof.
  intros [D S]. unfold subscribe, bind at 1. cbn [set_callback modify].
  set (k1 := mkKite _ _ _ _ _ _ _ _ _ _). unfold bind at 1. destruct (record_all_run l k1) as (m & -> & Dm).
  specialize (Dm D). unfold bind, gets. cbn [k_ticker k_ws_connected recorded k1]. set (ts := omap token_of l) in *.
  set (k2 := recorded k1 _ m). destruct (k_ticker k) eqn:T; cbn [negb].
  - destruct (k_ws_connected k) eqn:W; cbn [andb].
    + destruct (S eq_refl) as [_ ->]. destruct (decide (ts = [])) as [E|E].
      * rewrite (bool_decide_eq_true_2 _ E). intros [= <- <-]. unfold asked_since. cbn. rewrite drop_all. cbn. split; [exact Dm|]. intros _. split; [assumption || reflexivity|].
        rewrite E. set_solver.
      * rewrite (bool_decide_eq_false_2 _ E). cbn [negb]. rewrite quietly_run. destruct (ask_full_run ts k2) as (r' & q & -> & F). intros [= <- <-].
        split; [exact Dm|]. intros _. split; [assumption || reflexivity|].
        transitivity (asked_since k2 (calls_added q k2) (k_subscribed_tokens k)); [reflexivity|]. now rewrite asked_calls, F.
    + intros [= <- <-]. cbn. split; [exact Dm|]. cbn; congruence.
  - assert (k_ws_connected k = false) as W. { destruct (k_ws_connected k) eqn:W; [|reflexivity]. destruct (S eq_refl) as [C _]. congruence. }
    destruct (start_ticker_still key token k2) as (W' & T' & I'). intros E. rewrite E in *. cbn in *. rewrite W', T', I'. split; [exact Dm|]. cbn; congruence.
Qed.
Lemma unsubscribe_keeps l k s r k' : socket_ok (k, s) -> unsubscribe l k = (r, k') -> socket_ok (k', asked_since k k' s).
Proof.
  intros [D S]. unfold unsubscribe, bind at 1. destruct (forget_all_run (omap token_of l) k) as (m & -> & Dm). specialize (Dm D).
  unfold bind, gets. cbn [k_ticker k_ws_connected recorded]. set (ts := omap token_of l) in *. set (k2 := recorded k _ m).
  destruct (k_ws_connected k) eqn:W; cbn [andb].
  - destruct (S eq_refl) as [T ->]. rewrite T. cbn [andb]. destruct (decide (ts = [])) as [E|E].
    + rewrite (bool_decide_eq_true_2 _ E). intros [= <- <-]. unfold asked_since. cbn. rewrite drop_all. cbn. split; [exact Dm|]. intros _. split; [assumption || reflexivity|].
      rewrite E. set_solver.
    + rewrite (bool_decide_eq_false_2 _ E). cbn [negb]. rewrite quietly_run. intros [= <- <-]. cbn. split; [exact Dm|]. intros _. split; [assumption || reflexivity|].
      unfold asked_since. cbn. now rewrite drop_app_length.
  - intros [= <- <-]. cbn. split; [exact Dm|]. cbn; congruence.
Qed.
Lemma open_keeps c k s r k' : socket_ok (k, s) -> operate c E_open k = (r, k') ->
  socket_ok (k', asked_since k k' (if k.(k_ticker) then ∅ else s)).
Proof.
  intros [D S]. cbn [operate]. unfold bind at 1, gets. destruct (k_ticker k) eqn:T.
  - unfold on_connect, bind, gets. cbn [set_ws modify]. set (k1 := mkKite _ _ _ true _ _ _ _ _ _). cbn [k1 k_subscribed_tokens].
    destruct (decide (elements (k_subscribed_tokens k) = [])) as [E|E].
    + rewrite (bool_decide_eq_true_2 _ E). intros [= <- <-]. unfold asked_since. cbn. rewrite drop_all. cbn. split; [exact D|]. intros _. split; [assumption || reflexivity|].
      apply elements_empty_inv in E. set_solver.
    + rewrite (bool_decide_eq_false_2 _ E). cbn [negb]. destruct (ask_full_run (elements (k_subscribed_tokens k)) k1) as (r' & q & -> & F). intros [= <- <-].
      split; [exact D|]. intros _. split; [assumption || reflexivity|]. transitivity (asked_since k1 (calls_added q k1) ∅); [reflexivity|].
      rewrite asked_calls, F, list_to_set_elements_L. set_solver.
  - intros [= <- <-]. unfold asked_since. rewrite drop_all. split; [exact D|]. cbn. now rewrite ?T in *.
Qed.
(** C23: the open socket has been asked for exactly what is recorded.  After any
    sequence of the provider's operations and the callbacks of its current
    socket, whatever the SDK answers or raises, the recorded tokens are those
    whose instrument is known; and while the socket counts as open, the tokens
    it was asked for since it opened, less those it was asked to drop, are
    exactly the recorded ones -- whether they were subscribed before it opened,
    while it was opening, or since. *)
Theorem socket_asked_for_what_is_recorded c es :
  let '(k, asked) := fold_left (kstep c) es (new_kite, ∅) in
  dom k.(k_token_to_instrument) = k.(k_subscribed_tokens) /\
  (k.(k_ws_connected) = true -> k.(k_ticker) = true /\ asked = k.(k_subscribed_tokens)).
Proof.
  change (socket_ok (fold_left (kstep c) es (new_kite, ∅))). assert (socket_ok (new_kite, ∅)) as H by (split; [reflexivity | discriminate]).
  revert H. generalize (new_kite, ∅ : gset Z). induction es as [|e es IH]; intros [k s] H; [exact H|]. apply IH. clear IH. unfold kstep. cbn [fst snd].
  destruct e; cbn [operate].
  - apply (still_keeps (fun _ => True)); [|exact H]. now apply still_connect, same_socket_refl.
  - destruct (disconnect_ends k) as (k' & -> & _ & _ & W & T & I). cbn. rewrite T, I, W. split; [apply dom_empty_L | discriminate].
  - eapply subscribe_keeps; [exact H | apply surjective_pairing].
  - eapply unsubscribe_keeps; [exact H | apply surjective_pairing].
  - eapply (open_keeps c); [exact H | apply surjective_pairing].
  - cbn. split; [apply H | discriminate].
  - apply still_op, H. intros; apply still_instruments.
  - apply still_op, H. intros; apply still_index_quote.
  - apply still_op, H. intros; apply still_option_quote.
  - apply still_op, H. intros; apply still_chain.
  - apply still_op, H. intros; apply still_history.
  - apply still_op, H. intros; apply still_ticks.
Qed.
End kite_theorems.

(** ** An SDK that answers what it is told *)
Definition kite_replying (quote history : kval stamp) (rows : list (kval Z)) : KiteSdk := {|
  kite_answer := fun _ q => match q with QuoteOf _ => Ok quote | HistoricalData _ _ _ _ => Ok history | _ => Ok KNone end;
  kite_instruments := fun _ => Ok (KList rows); reactor_running := fun _ => false; kite_now := fun _ => 0; kite_today := fun _ => 1; kite_host_zone := 0 |}.
Definition kite_row (name : string) (strike token : Z) (ot : string) : kval Z :=
  KDict [("instrument_token", KInt token); ("name", KStr name); ("expiry", KMoment (ymd2ord 2026 9 3)); ("strike", KFloat (f_of_Z strike));
         ("tick_size", KFloat (f_dec 5 2)); ("lot_size", KInt 75); ("instrument_type", KStr ot); ("segment", KStr "NFO-OPT")].
Definition kite_rows : list (kval Z) :=
  [kite_row "NIFTY" 25000 11 "CE"; kite_row "NIFTY" 25000 12 "PE"; kite_row "NIFTY" 25100 13 "CE"; kite_row "BANKNIFTY" 55000 14 "CE"].
Definition kite_quotes : kval stamp :=
  KDict [("11", KDict [("last_price", KFloat (f_dec 1255 1)); ("volume", KInt 10); ("depth", KDict [("buy", KList [KDict [("price", KFloat (f_of_Z 125))]])])]);
         ("13", KDict [("last_price", KFloat (f_of_Z 60))]); ("NSE:NIFTY 50", KDict [("last_price", KFloat (f_of_Z 25080))])].
Definition kite_demo : KiteSdk := kite_replying kite_quotes KNone kite_rows.
Definition creds : BreezeCredentials := mkCreds "key" "secret" "token" "env".
Definition after (es : list kevent) : kstate := fold_left (kstep (sdk := kite_demo) creds) es (new_kite, ∅).
Definition NIFTY : Instrument := plain_instrument "NIFTY" NSE T_INDEX.
Definition SENSEX : Instrument := plain_instrument "SENSEX" BSE T_INDEX.
Definition socket_view (x : kstate) := ((fst x).(k_ws_connected), elements (fst x).(k_subscribed_tokens), elements (snd x)).
(** Tokens recorded before the socket opens are asked for when it does. *)
Example kite_socket :
  map (fun n => socket_view (after (take n [E_connect; E_subscribe [NIFTY]; E_subscribe [SENSEX]; E_open; E_unsubscribe [NIFTY]]))) [3; 4; 5]%nat =
    [(false, [256265; 265], []); (true, [256265; 265], [256265; 265]); (true, [265], [265])].
Proof. vm_compute. reflexivity. Qed.
(** The close of a dropped socket may come after the new one has opened: the new
    one counts as closed from then on, and what is subscribed later is never
    asked for. *)
Example late_close_starves_the_feed :
  socket_view (after [E_connect; E_subscribe [NIFTY]; E_open; E_disconnect; E_connect; E_subscribe [NIFTY]; E_open; E_close; E_subscribe [SENSEX]]) =
    (false, [256265; 265], [256265]).
Proof. vm_compute. reflexivity. Qed.
(** The chain of an expiry: quoted by token, rows by strike. *)
Example kite_chain :
  match fst (get_option_chain (sdk := kite_demo) "nifty" (ymd2ord 2026 9 3) None (fst (after [E_connect]))) with
  | Ok ch => (ch.(oc_spot), ch.(oc_atm_strike),
      map (fun r => (r.(row_strike), oq_ltp <$> r.(row_call), oq_bid <$> r.(row_call), oq_ltp <$> r.(row_put))) ch.(oc_rows)) =
      (Some (f_of_Z 25080), Some (f_of_Z 25100),
       [(f_of_Z 25000, Some (Some (f_dec 1255 1)), Some (Some (f_of_Z 125)), None); (f_of_Z 25100, Some (Some (f_of_Z 60)), Some None, None)])
  | Err _ => False
  end.
Proof. vm_compute. reflexivity. Qed.
(** Only the NFO list is asked for: SENSEX options, listed on BFO, are never
    found. *)
Example sensex_options_never_listed :
  let '(r, k) := get_option_instruments (sdk := kite_demo) "SENSEX" (fst (after [E_connect])) in
  r = Ok [] /\ last k.(k_calls) = Some (InstrumentsOf "NFO", true) /\ option_exchange <$> (dget String.eqb "SENSEX" UNDERLYING_CONFIGS) = Some BFO.
Proof. vm_compute. repeat split. Qed.
(** A candle without a price gets a price of zero; a price that is not a number
    escapes as an error that is not a provider error. *)
Definition kite_candles (close : list (string * kval stamp)) : kval stamp :=
  KList [KDict ([("date", KStr "2026-09-03 09:15:00"); ("open", KInt 1); ("high", KInt 1); ("low", KInt 1)] ++ close)].
Definition history_of (close : list (string * kval stamp)) :=
  let ask := get_historical_candles (sdk := kite_replying KNone (kite_candles close) []) NIFTY "1minute" 0 0 (fst (after [E_connect])) in
  match fst ask with Ok l => Ok (map c_close l) | Err e => Err e end.
Example candle_without_price :
  history_of [] = Ok [f_zero] /\
  history_of [("close", KNone)] = Err (TypeError "float() argument must be a string or a real number, not 'NoneType'").
Proof. vm_compute. repeat split. Qed.

Section chain_theorems.
Context {sdk : KiteSdk}.

(** ** The option chain *)
Lemma upper_again s : upper (upper s) = upper s.
Proof.
  unfold upper. induction s as [|c s IH]; cbn; [reflexivity|]. rewrite IH. f_equal. now destruct c as [[] [] [] [] [] [] [] []].
Qed.
Lemma chunks_spec {A} n (l : list A) : (0 < n)%nat -> List.concat (chunks n l) = l /\ Forall (fun c => (List.length c <= n)%nat) (chunks n l).
Proof.
  intros Hn. unfold chunks. enough (forall fuel (l : list A), (List.length l <= fuel)%nat -> List.concat (chunks_go fuel n l) = l /\
    Forall (fun c => (List.length c <= n)%nat) (chunks_go fuel n l)) as H by now apply H. clear l.
  induction fuel as [|f IH]; intros l Hl; [destruct l; [now split | cbn in Hl; lia]|]. destruct l as [|x l]; [now split|].
  cbn [chunks_go List.concat]. destruct (IH (drop n (x :: l))) as [C F]. { rewrite length_drop. cbn in *. lia. }
  rewrite C, take_drop. split; [reflexivity|]. constructor; [rewrite length_take; lia | exact F].
Qed.

Definition at_strike (x : float) (ot : string) (i : Instrument) : bool :=
  match i.(i_strike) with Some y => f_eqb x y && truthy ot && bool_decide (i.(i_option_type) = Some ot) | None => false end.
Definition sides (x : float) (ot : string) (acc : side_map) : option (option OptionQuote) := dget String.eqb ot (default [] (dget f_eqb x acc)).
Lemma dget_float_same {V} x y (d : list (float * V)) : f_eqb x y = true -> dget f_eqb x d = dget f_eqb y d.
Proof.
  intros E. induction d as [|[k v] d IH]; cbn; [reflexivity|]. assert (f_eqb x k = f_eqb y k) as ->; [|now rewrite IH].
  apply eq_true_iff_eq. split; intros H; [rewrite f_eqb_sym in E; exact (f_eqb_trans y x k E H) | exact (f_eqb_trans x y k E H)].
Qed.
Lemma sides_place x ot i q acc : sides x ot (place i q acc) = if at_strike x ot i then Some q else sides x ot acc.
Proof.
  unfold place, at_strike, sides. destruct (i_strike i) as [y|]; [|reflexivity]. unfold opt_truthy. destruct (i_option_type i) as [t|]; cbn [from_option id].
  2:{ rewrite bool_decide_eq_false_2 by discriminate. now rewrite !andb_false_r. }
  destruct (truthy t) eqn:T; [|destruct (f_eqb x y); cbn [andb]; [|reflexivity];
    destruct (truthy ot) eqn:T'; cbn [andb]; [|reflexivity]; rewrite bool_decide_eq_false_2; [reflexivity | intros [= ->]; congruence]].
  rewrite dget_dset_float. destruct (f_eqb x y) eqn:E; cbn [andb]; [|reflexivity]. cbn [default from_option id]. rewrite dget_dset_string.
  destruct (String.eqb_spec ot t) as [->|N].
  - now rewrite T, bool_decide_eq_true_2.
  - rewrite bool_decide_eq_false_2 by (intros [= ->]; congruence). rewrite andb_false_r. now rewrite (dget_float_same x y acc E).
Qed.
Lemma sides_fold x ot (f : Instrument -> option OptionQuote) l :
  sides x ot (fold_left (fun acc i => place i (f i) acc) l []) = f <$> last_such (at_strike x ot) l.
Proof.
  induction l as [|i l IH] using rev_ind; [reflexivity|]. rewrite fold_left_app, last_such_snoc. cbn [fold_left]. rewrite sides_place, IH.
  now destruct (at_strike x ot i).
Qed.
(** No two keys are equal. *)
Definition keys_apart (acc : side_map) : Prop := ForallOrdPairs (fun a b => f_eqb b a = false) (map fst acc).
Lemma apart_snoc (l : list float) x : ForallOrdPairs (fun a b => f_eqb b a = false) l -> existsb (f_eqb x) l = false -> ForallOrdPairs (fun a b => f_eqb b a = false) (l ++ [x]).
Proof.
  induction 1 as [|a l H1 H2 IH]; intros E; [repeat constructor|]. cbn in E. apply orb_false_iff in E as [E1 E2]. constructor; [|now apply IH].
  apply List.Forall_app. split; [exact H1|]. now repeat constructor.
Qed.
Lemma place_apart i q acc : keys_apart acc -> keys_apart (place i q acc).
Proof.
  unfold keys_apart, place. intros H. destruct (i_strike i) as [y|]; [|exact H]. destruct (opt_truthy _); [|exact H].
  rewrite keys_dset. destruct (existsb _ _) eqn:E; [exact H|]. now apply apart_snoc.
Qed.
Lemma fold_apart (f : Instrument -> option OptionQuote) l acc : keys_apart acc -> keys_apart (fold_left (fun acc i => place i (f i) acc) l acc).
Proof. revert acc. induction l as [|i l IH]; intros acc H; [exact H|]. now apply IH, place_apart. Qed.
Lemma dget_apart x v (acc : side_map) : keys_apart acc -> f_num x -> In (x, v) acc -> dget f_eqb x acc = Some v.
Proof.
  unfold keys_apart. intros H Hx. induction acc as [|[k w] acc IH]; intros Hi; [destruct Hi|]. cbn in H. inversion H as [|? ? H1 H2]; subst. cbn.
  destruct Hi as [[= -> ->]|Hi]; [now rewrite f_eqb_refl|]. rewrite Forall_forall in H1. rewrite H1; [now apply IH|].
  apply list_elem_of_In. now apply (in_map fst) in Hi.
Qed.
(** A key of the grouping is the strike of a contract. *)
Lemma keys_fold (f : Instrument -> option OptionQuote) l x : In x (map fst (fold_left (fun acc i => place i (f i) acc) l [])) ->
  exists i, In i l /\ i.(i_strike) = Some x.
Proof.
  induction l as [|i l IH] using rev_ind; [intros []|]. rewrite fold_left_app. cbn [fold_left].
  assert ((exists j, In j l /\ i_strike j = Some x) -> exists j, In j (l ++ [i]) /\ i_strike j = Some x) as W.
  { intros (j & H1 & H2). exists j. split; [apply in_app_iff; now left | exact H2]. }
  unfold place at 1. destruct (i_strike i) as [y|] eqn:Y; [|auto]. destruct (opt_truthy _); [|auto].
  rewrite keys_dset. destruct (existsb _ _); [auto|]. intros [H|[<-|[]]]%in_app_iff; [auto|].
  exists i. split; [apply in_app_iff; right; now left | exact Y].
Qed.

(** What the chain shows of a contract: its normalised data, if any came. *)
Definition priced (m : quotes) (e now : Z) (i : Instrument) : option OptionQuote :=
  if ktruthy (quote_data i m) then match norm_option e i (quote_data i m) now with Ok q => Some q | Err _ => None end else None.
Definition priceable (m : quotes) (e now : Z) (i : Instrument) : Prop :=
  ktruthy (quote_data i m) = true -> is_ok (norm_option e i (quote_data i m) now) = true.
Lemma group_run m e k l : Forall (fun i => i.(i_expiry) = Some e) l -> forall acc r k', group l m acc k = (Ok r, k') ->
  let now := kite_now k.(k_calls) in
  k' = k /\ Forall (priceable m e now) l /\ r = fold_left (fun acc i => place i (priced m e now i) acc) l acc.
Proof.
  intros He. induction He as [|i l Hi He IH]; intros acc r k'; cbn [group].
  - intros [= <- <-]. now repeat split.
  - unfold priceable. cbn [fold_left]. unfold bind at 1. destruct (ktruthy (quote_data i m)) eqn:T.
    + unfold _norm_option_data, bind, ret, now_utc, gets, lift. rewrite Hi. destruct (norm_option e i _ _) as [q|x] eqn:N; [|discriminate].
      intros H. apply IH in H as (-> & F & ->). split; [reflexivity|]. split; [constructor; [intros _; now rewrite N | exact F]|].
      assert (priced m e (kite_now (k_calls k)) i = Some q) as -> by (unfold priced; now rewrite T, N). reflexivity.
    + unfold ret. intros H. apply IH in H as (-> & F & ->). split; [reflexivity|]. split; [constructor; [intros C; congruence | exact F]|].
      assert (priced m e (kite_now (k_calls k)) i = None) as -> by (unfold priced; now rewrite T). reflexivity.
Qed.
Lemma batches_run bs : forall m r k k', batch_quotes bs m k = (Ok r, k') ->
  k' = calls_added (map (fun b => (QuoteOf (inr b), true)) bs) k /\
  exists resps, r = fold_left (fun m v => add_quotes v m) resps m /\
    Forall2 (fun b v => exists past, kite_answer past (QuoteOf (inr b)) = Ok v) bs resps.
Proof.
  induction bs as [|b bs IH]; intros m r k k'; cbn [batch_quotes].
  - intros [= <- <-]. split; [unfold calls_added; cbn; rewrite app_nil_r; now destruct k|]. exists []. now split.
  - unfold bind, try_except, sdk_call, call_with. destruct (kite_answer _ _) as [v|x] eqn:A; [|discriminate]. intros H.
    apply IH in H as (-> & resps & -> & F). split; [unfold calls_added, logged; cbn; now rewrite <- app_assoc|].
    exists (v :: resps). split; [reflexivity|]. constructor; [now exists (k_calls k) | exact F].
Qed.
Lemma spot_run u k : exists r post, index_spot u k = (Ok r, calls_added post k) /\ (post = [] \/ exists y b, post = [(QuoteOf (inl [y]), b)]).
Proof.
  unfold index_spot. assert (forall k, k = calls_added [] k) as Z by (intros []; unfold calls_added; cbn; now rewrite app_nil_r).
  destruct (dget _ u _) as [y|]; [|exists None, []; split; [now rewrite <- Z | now left]].
  unfold try_except, bind, sdk_call, call_with, lift. destruct (kite_answer _ _) as [v|x]; cbn.
  - destruct (match v with KDict _ => _ | _ => _ end) as [o|x]; cbn; (do 2 eexists; split; [reflexivity | right; eauto]).
  - do 2 eexists; split; [reflexivity | right; eauto].
Qed.
Lemma instruments_run u k l k' : get_option_instruments u k = (Ok l, k') -> k'.(k_instruments_cache) !! upper u = Some l /\
  exists pre, k'.(k_calls) = k.(k_calls) ++ pre /\ (pre = [] \/ pre = [(InstrumentsOf "NFO", true)]).
Proof.
  unfold get_option_instruments. unfold bind at 1, gets. destruct (k_instruments_cache k !! upper u) as [c|] eqn:C.
  - intros [= <- <-]. split; [exact C|]. exists []. rewrite app_nil_r. split; [reflexivity | now left].
  - unfold _require_client, bind at 1, gets, bind at 1. unfold bind at 1.
    destruct (negb _ || negb _); [discriminate|]. unfold ret at 1. unfold try_except, call_with, bind, lift.
    destruct (kite_instruments _) as [raw|x]; [|discriminate]. destruct (rows_of raw) as [rows|x]; [|discriminate].
    destruct (map_r _ rows) as [found|x]; [|discriminate]. intros [= <- <-]. cbn. split; [apply lookup_insert_eq|].
    eexists. split; [reflexivity | now right].
Qed.

(** The rows built from a grouping. *)
Definition rows_of_sides (acc : side_map) : list OptionChainRow :=
  map (fun kv => mkChainRow (fst kv) (side "CE" (snd kv)) (side "PE" (snd kv))) (sort_by (fun a b => f_leb (fst a) (fst b)) acc).
Lemma rows_are (f : Instrument -> option OptionQuote) l : let rows := rows_of_sides (fold_left (fun acc i => place i (f i) acc) l []) in
  (forall row, In row rows -> (exists i, In i l /\ i.(i_strike) = Some row.(row_strike)) /\
     (f_num row.(row_strike) -> row.(row_call) = last_such (at_strike row.(row_strike) "CE") l ≫= f /\
                                row.(row_put) = last_such (at_strike row.(row_strike) "PE") l ≫= f)) /\
  (forall i x, In i l -> i.(i_strike) = Some x -> f_num x -> opt_truthy i.(i_option_type) = true -> exists row, In row rows /\ f_eqb x row.(row_strike) = true).
Proof.
  cbv zeta. set (acc := fold_left (fun acc i => place i (f i) acc) l []). assert (keys_apart acc) as K by (apply fold_apart; constructor).
  assert (forall x v, In (x, v) acc -> In (mkChainRow x (side "CE" v) (side "PE" v)) (rows_of_sides acc)) as R.
  { intros x v H. apply in_map_iff. exists (x, v). split; [reflexivity | now apply In_sort_by]. }
  split.
  - intros row H. apply in_map_iff in H as ([x v] & <- & H). apply In_sort_by in H. cbn [row_strike row_call row_put fst snd]. split.
    + apply (keys_fold f). now apply (in_map fst) in H.
    + intros Hx. assert (forall ot, side ot v = last_such (at_strike x ot) l ≫= f) as S.
      { intros ot. pose proof (sides_fold x ot f l) as E. fold acc in E. unfold sides in E. rewrite (dget_apart x v acc K Hx H) in E.
        unfold side. cbn in E. rewrite E. now destruct (last_such _ l). }
      split; apply S.
  - intros i x Hi Hx Nx T. destruct (i_option_type i) as [ot|] eqn:O; [|discriminate]. cbn in T.
    assert (is_Some (last_such (at_strike x ot) l)) as [j Hj].
    { unfold last_such. apply last_is_Some. intros E. assert (In i (List.filter (at_strike x ot) l)) as C; [|now rewrite E in C].
      apply List.filter_In. split; [exact Hi|]. unfold at_strike. now rewrite Hx, O, f_eqb_refl, T, bool_decide_eq_true_2. }
    pose proof (sides_fold x ot f l) as E. fold acc in E. rewrite Hj in E. unfold sides in E.
    destruct (dget f_eqb x acc) as [v|] eqn:D; [|discriminate]. apply dget_Some in D as (y & Hy & Exy). eexists. split; [apply R, Hy | exact Exy].
Qed.
Lemma require_run k : exists r, _require_client k = (r, k).
Proof. unfold _require_client, bind, gets. destruct (negb _ || negb _); eexists; reflexivity. Qed.
(** ** What a chain has to show, read off the batch answers themselves *)
(** The contracts asked for: this expiry and, when one is named, this side. *)
Definition listed_for (e : Z) (right : option string) (i : Instrument) : bool :=
  match i.(i_expiry) with Some d => d =? e | None => false end &&
  match right, i.(i_option_type) with None, _ => true | Some r, Some t => String.eqb t (upper r) | Some _, None => false end.
(** The last entry the answers hold under a key. *)
Definition entries (resp : kval stamp) : list (string * kval stamp) := match resp with KDict kvs => kvs | _ => [] end.
Definition held (key : string) (resps : list (kval stamp)) : kval stamp :=
  match last_such (fun kv => String.eqb key (fst kv)) (flat_map entries resps) with Some kv => snd kv | None => KNone end.
(** A contract's entry is the one under the text of its own token; a contract
    without a token has the one under "None", or else the one under "". *)
Definition entry_of (resps : list (kval stamp)) (i : Instrument) : kval stamp :=
  match i.(provider_token) with
  | Some t => held t resps
  | None => if ktruthy (held "None" resps) then held "None" resps else held "" resps
  end.
(** The quote of an entry: the contract's own terms, the entry's own figures. *)
Definition quote_of_entry (d : kval stamp) (e now : Z) (i : Instrument) (q : OptionQuote) : Prop :=
  norm_option e i d now = Ok q /\ f_field "last_price" d = Ok q.(oq_ltp) /\ i_field "volume" d = Ok q.(oq_volume) /\ i_field "oi" d = Ok q.(oq_oi) /\
  q.(oq_underlying) = upper (default "" i.(i_underlying)) /\ q.(oq_expiry) = e /\ q.(oq_strike) = f_or_zero i.(i_strike).
(** What a row shows on one side: the quote of the last contract listed there,
    and nothing when there is none or its entry is empty. *)
Definition shows (resps : list (kval stamp)) (e now : Z) (contracts : list Instrument) (x : float) (ot : string) (shown : option OptionQuote) : Prop :=
  match last_such (at_strike x ot) contracts with
  | Some i => if ktruthy (entry_of resps i) then exists q, shown = Some q /\ quote_of_entry (entry_of resps i) e now i q else shown = None
  | None => shown = None
  end.
Lemma wanted_listed e right i : wanted e right i = listed_for e right i.
Proof.
  unfold wanted, listed_for. f_equal.
  - destruct (i_expiry i) as [d|]; [|now rewrite bool_decide_eq_false_2]. apply eq_true_iff_eq. rewrite bool_decide_eq_true, Z.eqb_eq. split; congruence.
  - destruct right as [r|]; [|reflexivity]. destruct (i_option_type i) as [t|]; [|now rewrite bool_decide_eq_false_2].
    apply eq_true_iff_eq. rewrite bool_decide_eq_true, String.eqb_eq. split; congruence.
Qed.
Lemma dget_written (key : string) kvs : forall m : quotes, dget String.eqb key (fold_left (fun m kv => dset String.eqb (fst kv) (snd kv) m) kvs m) =
  match last_such (fun kv => String.eqb key (fst kv)) kvs with Some kv => Some (snd kv) | None => dget String.eqb key m end.
Proof.
  induction kvs as [|[k' v] kvs IH] using rev_ind; intros m; [reflexivity|]. rewrite fold_left_app, last_such_snoc. cbn [fold_left fst snd].
  rewrite dget_dset_string, IH. now destruct (String.eqb key k').
Qed.
Lemma add_quotes_all resps : forall m, fold_left (fun m v => add_quotes v m) resps m =
  fold_left (fun m kv => dset String.eqb (fst kv) (snd kv) m) (flat_map entries resps) m.
Proof. induction resps as [|v resps IH]; intros m; [reflexivity|]. cbn. rewrite fold_left_app, IH. now destruct v. Qed.
Lemma quote_data_held resps i : quote_data i (fold_left (fun m v => add_quotes v m) resps []) = entry_of resps i.
Proof.
  assert (forall key, default KNone (dget String.eqb key (fold_left (fun m v => add_quotes v m) resps [])) = held key resps) as H.
  { intros key. rewrite add_quotes_all, dget_written. unfold held. now destruct (last_such _ _). }
  unfold quote_data, entry_of. rewrite !H. unfold kor. destruct (provider_token i) as [t|]; cbn [default from_option id]; [|reflexivity].
  now destruct (ktruthy (held t resps)).
Qed.
Lemma quote_of_norm d e now i q : norm_option e i d now = Ok q -> quote_of_entry d e now i q.
Proof.
  intros H. split; [exact H|]. revert H. unfold norm_option, rbind. repeat (case_match; try discriminate).
  unfold build_option_quote. destruct (_derive_change _ _). case_match; [|discriminate]. intros [= <-]. now cbn.
Qed.
Lemma priced_shows resps e now cs x ot shown : let m := fold_left (fun m v => add_quotes v m) resps [] in
  Forall (priceable m e now) cs -> shown = last_such (at_strike x ot) cs ≫= priced m e now -> shows resps e now cs x ot shown.
Proof.
  cbv zeta. intros F ->. unfold shows. destruct (last_such _ cs) as [i|] eqn:L; [|reflexivity]. cbn [mbind option_bind].
  assert (In i cs) as Hi. { apply last_Some_elem_of, list_elem_of_In, List.filter_In in L. apply L. }
  rewrite Forall_forall in F. specialize (F i ltac:(now apply list_elem_of_In)). unfold priceable, priced in *. rewrite quote_data_held in *.
  destruct (ktruthy (entry_of resps i)); [|reflexivity]. specialize (F eq_refl). destruct (norm_option e i _ now) as [q|] eqn:N; [|discriminate].
  exists q. split; [reflexivity | now apply quote_of_norm].
Qed.
(** C24: an option chain is the quotes of its contracts.  When a chain is
    answered, it names the underlying and the expiry asked for; the calls made
    are at most one for the instrument list, one per batch -- at most 200 tokens
    each, every contract's numeric token once and in order -- and at most one for
    the index; its rows are the strikes of the contracts listed for that expiry
    and side, none left out; and at each strike the call and the put carry the
    contract's own terms with the price, volume and open interest of the last
    entry the batches answered under that contract's own token, and are absent
    exactly when no contract is listed there or that entry is missing or empty. *)
Theorem chain_is_its_quotes u e right k ch k' : get_option_chain u e right k = (Ok ch, k') ->
  ch.(oc_underlying) = upper u /\ ch.(oc_expiry) = e /\
  exists all batches resps now pre post,
  let contracts := List.filter (listed_for e right) all in
  k'.(k_instruments_cache) !! upper u = Some all /\
  k'.(k_calls) = k.(k_calls) ++ pre ++ map (fun b => (QuoteOf (inr b), true)) batches ++ post /\
  (pre = [] \/ pre = [(InstrumentsOf "NFO", true)]) /\ (post = [] \/ exists y b, post = [(QuoteOf (inl [y]), b)]) /\
  List.concat batches =
    omap (fun i => t ← i.(provider_token); if truthy t && forallb is_digit (chars t) then Some (digits_Z (chars t)) else None) contracts /\
  Forall (fun b => (List.length b <= 200)%nat) batches /\
  Forall2 (fun b v => exists past, kite_answer past (QuoteOf (inr b)) = Ok v) batches resps /\
  (forall row, In row ch.(oc_rows) -> (exists i, In i contracts /\ i.(i_strike) = Some row.(row_strike)) /\
  (f_num row.(row_strike) -> shows resps e now contracts row.(row_strike) "CE" row.(row_call) /\
  shows resps e now contracts row.(row_strike) "PE" row.(row_put))) /\
  (forall i x, In i contracts -> i.(i_strike) = Some x -> f_num x -> opt_truthy i.(i_option_type) = true ->
     exists row, In row ch.(oc_rows) /\ f_eqb x row.(row_strike) = true).
Proof.
  unfold get_option_chain. unfold bind at 1. destruct (get_option_instruments (upper u) k) as [[all|x] k1] eqn:G; [|discriminate].
  apply instruments_run in G as (C & pre & P & Pre). rewrite upper_again in C. rewrite (List.filter_ext _ _ (wanted_listed e right)).
  set (contracts := List.filter (listed_for e right) all). destruct contracts as [|i0 l0] eqn:E.
  - intros [= <- <-]. split; [reflexivity|]. split; [reflexivity|]. exists all, [], [], 0, pre, []. cbv zeta. fold contracts. rewrite E. split; [exact C|].
    split; [cbn; now rewrite P, app_nil_r|]. split; [exact Pre|]. split; [now left|]. do 3 (split; [constructor|]).
    split; [intros row [] | intros i x []].
  - rewrite <- E. clear E i0 l0. unfold bind at 1. destruct (require_run k1) as [[[]|x] ->]; [|discriminate].
    unfold bind at 1. destruct (batch_quotes _ [] k1) as [[m|x] k2] eqn:B; [|discriminate]. apply batches_run in B as (-> & resps & -> & Fr).
    set (k2 := calls_added _ k1). set (m := fold_left (fun m v => add_quotes v m) resps []). unfold bind at 1. destruct (spot_run (upper u) k2) as (spot & post & -> & Post).
    unfold bind at 1. destruct (group contracts m [] _) as [[acc|x] k4] eqn:Gr; [|discriminate].
    apply (group_run m e) in Gr as (-> & Pr & ->).
    2:{ apply Forall_forall. intros i Hi. apply list_elem_of_In, List.filter_In in Hi as [_ Hi]. rewrite <- wanted_listed in Hi. unfold wanted in Hi.
        apply andb_true_iff in Hi as [Hi _]. now apply bool_decide_eq_true in Hi. }
    unfold bind, now_utc, gets, ret. intros [= <- <-]. set (now := kite_now _) in *. split; [reflexivity|]. split; [reflexivity|].
    exists all, (chunks CHUNK (omap digits_token contracts)), resps, now, pre, post. cbv zeta.
    fold contracts. destruct (chunks_spec CHUNK (omap digits_token contracts) ltac:(unfold CHUNK; lia)) as [Ch Fc].
    split; [exact C|]. split; [cbn; rewrite P, <- !app_assoc; reflexivity|]. repeat (split; [assumption|]).
    destruct (rows_are (priced m e now) contracts) as [R1 R2]. split; [|exact R2]. intros row Hr. destruct (R1 row Hr) as [S1 S2]. split; [exact S1|].
    intros Hn. destruct (S2 Hn). split; now apply priced_shows.
Qed.
End chain_theorems.
Definition kite_connected : Kite := Eval vm_compute in fst (after [E_connect]).
Definition kite_asked : result exn OptionChain * Kite := Eval vm_compute in get_option_chain (sdk := kite_demo) "nifty" (ymd2ord 2026 9 3) None kite_connected.
Lemma chain_is_its_quotes_witness : exists ch, fst kite_asked = Ok ch /\ exists all, (snd kite_asked).(k_instruments_cache) !! "NIFTY" = Some all /\
  List.length ch.(oc_rows) = 2%nat /\
  forall row, In row ch.(oc_rows) -> exists i, In i (List.filter (listed_for (ymd2ord 2026 9 3) None) all) /\ i.(i_strike) = Some row.(row_strike).
Proof.
  assert (get_option_chain (sdk := kite_demo) "nifty" (ymd2ord 2026 9 3) None kite_connected = kite_asked) as E by (vm_compute; reflexivity).
  destruct kite_asked as [[ch|x] k'] eqn:K; [|discriminate K]. exists ch. split; [reflexivity|].
  destruct (chain_is_its_quotes "nifty" (ymd2ord 2026 9 3) None kite_connected ch k' E) as (_ & _ & all & batches & resps & now & pre & post & H).
  exists all. cbv zeta in H. destruct H as (H1 & _ & _ & _ & _ & _ & _ & H2 & _). split; [exact H1|]. split; [now injection K as <- <-|].
  intros row Hr. apply (H2 row Hr).
Defined.

Section tick_theorems.
Context {sdk : KiteSdk} (resolver : kval stamp -> result exn (option Instrument)).
(** The symbol of a contract is made of its own fields. *)
Definition named_by_its_fields (i : Instrument) : Prop :=
  is_index i = true \/
  make_option_symbol (default "" i.(i_underlying)) (default 0 i.(i_expiry)) (default f_zero i.(i_strike)) (str_or (default "" i.(i_option_type)) "CE") =
    Ok i.(internal_symbol).
Lemma built_option_symbol u e x ot ltp o h l pc v oi oic bid ask iv vwap ts pr now q :
  build_option_quote u e x ot ltp o h l pc v oi oic bid ask iv vwap ts pr now = Ok q -> make_option_symbol u e x ot = Ok q.(oq_symbol).
Proof. unfold build_option_quote. destruct (_derive_change _ _) as [c p]. destruct (make_option_symbol u e x ot) as [s|er]; [|discriminate]. now intros [= <-]. Qed.
Lemma norm_tick_symbol i tick now q : named_by_its_fields i -> norm_tick i tick now = Ok (Some q) -> q_symbol q = i.(internal_symbol).
Proof.
  intros N. unfold norm_tick, rbind. repeat case_match; try discriminate.
  - intros [= <-]. unfold build_index_quote. now destruct (_derive_change _ _).
  - match goal with H : build_option_quote _ _ _ _ _ _ _ _ _ _ _ _ _ _ _ _ _ _ _ = Ok _ |- _ => apply built_option_symbol in H as B end.
    intros [= <-]. cbn. destruct N as [N|N]; [congruence|]. repeat match goal with H : i_expiry i = _ |- _ => rewrite H in N | H : i_strike i = _ |- _ => rewrite H in N end.
    cbn in N. congruence.
Qed.
(** A tick of a recorded token is the contract's it was recorded for, whatever
    the resolver would say; it changes nothing. *)
Theorem tick_of_a_recorded_token k kvs t i : k.(k_token_to_instrument) !! t = Some i -> named_by_its_fields i -> t <> 0 ->
  dget String.eqb "instrument_token" kvs = Some (KInt t) ->
  exists q, _handle_tick resolver (KDict kvs) k = (Ok q, k) /\ forall y, q = Some y -> k.(k_on_tick) = true /\ q_symbol y = i.(internal_symbol).
Proof.
  intros K N Ht Hk. unfold _handle_tick. eexists. split; [reflexivity|]. intros y. destruct (k_on_tick k); [|discriminate]. cbn [negb orb is_kdict].
  unfold tick_instrument. cbn [kget rbind]. rewrite Hk. change (default KNone (Some (KInt t))) with (KInt (T := stamp) t).
  assert (ktruthy (KInt (T := stamp) t) = true) as -> by (apply Z.eqb_neq in Ht; cbn; now rewrite Ht). cbn [int_key rbind mbind option_bind].
  rewrite K. cbn [rbind]. destruct (norm_tick i (KDict kvs) _) as [o|e] eqn:Q; [|discriminate]. intros ->. split; [reflexivity|]. now apply (norm_tick_symbol i _ _ _ N Q).
Qed.
End tick_theorems.
Lemma tick_of_a_recorded_token_witness :
  let k := fst (after [E_connect; E_subscribe [NIFTY]]) in
  exists q, _handle_tick (sdk := kite_demo) (fun _ => Ok None) (KDict [("instrument_token", KInt 256265); ("last_price", KFloat (f_of_Z 25080))]) k = (Ok q, k) /\
    forall y, q = Some y -> k.(k_on_tick) = true /\ q_symbol y = "NIFTY".
Proof.
  apply (tick_of_a_recorded_token (sdk := kite_demo) (fun _ => Ok None) (fst (after [E_connect; E_subscribe [NIFTY]])) _ 256265 NIFTY);
    [vm_compute; reflexivity | left; reflexivity | discriminate | reflexivity].
Defined.
Example kite_tick :
  let k := fst (after [E_connect; E_subscribe [NIFTY]]) in
  match fst (_handle_tick (sdk := kite_demo) (fun _ => Ok None) (KDict [("instrument_token", KInt 256265); ("last_price", KFloat (f_of_Z 25080))]) k) with
  | Ok (Some q) => (q_symbol q, q_ltp q) = ("NIFTY", Some (f_of_Z 25080))
  | _ => False
  end.
Proof. vm_compute. reflexivity. Qed.
