(* ===== verification/MarketService.v ===== *)
(** * The market-data service

    [trading/market_data/service.py]: the tick pipeline, the flush loop, the
    recovery, the option universe and the daily start and stop.  The asyncio
    tasks and the provider's threads interleave: [World] holds the service's
    state, the feed status, the database session, the clocks, what was published
    and the suspended tasks ([w_tasks]); an [action] is what runs next -- a tick,
    a task resumed until it awaits again, an operator's request, the passing of
    time -- and [perform] runs it.  The provider is any instance of
    [MarketDataProvider]; the theorems use its laws. *)
From S2P Require Import Prelude PyStr PyFloat PyNum Config Json PyTime JsonText PyParse Symbols MarketTime MarketCache MarketDb Candles StraddlePulse MarketSession Providers BreezeProvider.
From Stdlib Require Import Ascii.

Definition _INDEX_SUBSCRIBE : list string := ["NIFTY"; "BANKNIFTY"; "INDIA_VIX"; "SENSEX"].
Definition _OPTION_UNDERLYINGS : list string := STRADDLE_PULSE_UNDERLYINGS.
Definition second : Z := 1000000.
Definition _RECONNECT_COOLDOWN_SECONDS : Z := 300.

(** ** State *)
Inductive publication : Type :=
| PubQuote (symbol : string) (ltp change change_percent : option float) (kind : string) (timestamp at_ : Z)
| PubStatus (feed : FeedState) (session : SessionState) (reconnects : Z).
Record Feed : Type := mkFeed {
  _accepting : bool; _contract_ids : list (string * Z); _option_universe : gmap string (gset string);
  _last_publish : gmap string Z; _reconnects : Z; _reconnect_not_before : Z
}.
(** Where a reconnect loop is suspended: not begun, asleep after the disconnect of
    an attempt, between the calls of [_reconnect_blocking], back on the loop. *)
Inductive rphase : Type :=
| R_new
| R_sleep (attempt delay wake : Z)
| R_subscribe (attempt delay : Z)
| R_resubscribe (attempt delay : Z)
| R_done (attempt : Z).
Inductive task : Type :=
| T_startup (scheduled : option Z) (deadline wake : Z)   (* in [_wait_first_tick]; the scheduler's instant *)
| T_flush (wake : Z)
| T_reconnect (p : rphase).
Record World (P : Type) : Type := mkWorld {
  w_provider : option P; w_cache : LiveCache; w_agg : CandleAggregator; w_master : InstrumentMaster; w_feed : Feed;
  w_sm : Manager; w_db : MWorld; w_mono : Z; w_pub : list publication; w_tasks : list task; w_running : bool
}.
Arguments mkWorld {P}. Arguments w_provider {P}. Arguments w_cache {P}. Arguments w_agg {P}. Arguments w_master {P}.
Arguments w_feed {P}. Arguments w_sm {P}. Arguments w_db {P}. Arguments w_mono {P}. Arguments w_pub {P}.
Arguments w_tasks {P}. Arguments w_running {P}.

Section service.
Context {P : Type} `{MarketDataProvider P} {env : SessionEnv} (s : Settings) (tz : Z).
Definition SV (A : Type) : Type := M (World P) exn A.

(** A computation on one component. *)
Definition zoom {X A} (get_x : World P -> X) (set_x : X -> World P -> World P) (m : M X exn A) : SV A := fun w =>
  let '(r, x) := m (get_x w) in (r, set_x x w).
Definition put_provider (p : option P) (w : World P) : World P :=
  mkWorld p w.(w_cache) w.(w_agg) w.(w_master) w.(w_feed) w.(w_sm) w.(w_db) w.(w_mono) w.(w_pub) w.(w_tasks) w.(w_running).
Definition put_cache (c : LiveCache) (w : World P) : World P :=
  mkWorld w.(w_provider) c w.(w_agg) w.(w_master) w.(w_feed) w.(w_sm) w.(w_db) w.(w_mono) w.(w_pub) w.(w_tasks) w.(w_running).
Definition put_agg (a : CandleAggregator) (w : World P) : World P :=
  mkWorld w.(w_provider) w.(w_cache) a w.(w_master) w.(w_feed) w.(w_sm) w.(w_db) w.(w_mono) w.(w_pub) w.(w_tasks) w.(w_running).
Definition put_master (m : InstrumentMaster) (w : World P) : World P :=
  mkWorld w.(w_provider) w.(w_cache) w.(w_agg) m w.(w_feed) w.(w_sm) w.(w_db) w.(w_mono) w.(w_pub) w.(w_tasks) w.(w_running).
Definition put_feed (f : Feed) (w : World P) : World P :=
  mkWorld w.(w_provider) w.(w_cache) w.(w_agg) w.(w_master) f w.(w_sm) w.(w_db) w.(w_mono) w.(w_pub) w.(w_tasks) w.(w_running).
Definition put_sm (m : Manager) (w : World P) : World P :=
  mkWorld w.(w_provider) w.(w_cache) w.(w_agg) w.(w_master) w.(w_feed) m w.(w_db) w.(w_mono) w.(w_pub) w.(w_tasks) w.(w_running).
Definition put_db (d : MWorld) (w : World P) : World P :=
  mkWorld w.(w_provider) w.(w_cache) w.(w_agg) w.(w_master) w.(w_feed) w.(w_sm) d w.(w_mono) w.(w_pub) w.(w_tasks) w.(w_running).
Definition put_pub (l : list publication) (w : World P) : World P :=
  mkWorld w.(w_provider) w.(w_cache) w.(w_agg) w.(w_master) w.(w_feed) w.(w_sm) w.(w_db) w.(w_mono) l w.(w_tasks) w.(w_running).
Definition put_tasks (l : list task) (w : World P) : World P :=
  mkWorld w.(w_provider) w.(w_cache) w.(w_agg) w.(w_master) w.(w_feed) w.(w_sm) w.(w_db) w.(w_mono) w.(w_pub) l w.(w_running).
Definition put_running (b : bool) (w : World P) : World P :=
  mkWorld w.(w_provider) w.(w_cache) w.(w_agg) w.(w_master) w.(w_feed) w.(w_sm) w.(w_db) w.(w_mono) w.(w_pub) w.(w_tasks) b.
Definition on_db {A} (m : MM A) : SV A := zoom w_db put_db m.
Definition on_sm {A} (m : SM A) : SV A := zoom w_sm put_sm m.
(** A method of [self._provider], which may be [None]. *)
Definition on_provider {A} (m : M P exn A) : SV A := fun w =>
  match w.(w_provider) with
  | Some p => let '(r, p') := m p in (r, put_provider (Some p') w)
  | None => (Err (AttributeError "'NoneType' object"), w)
  end.
Definition set_feed (f : Feed -> Feed) : SV unit := modify (fun w => put_feed (f w.(w_feed)) w).
Definition set_accepting (b : bool) : SV unit := set_feed (fun f =>
  mkFeed b f.(_contract_ids) f.(_option_universe) f.(_last_publish) f.(_reconnects) f.(_reconnect_not_before)).
Definition set_ids (ids : list (string * Z)) : SV unit := set_feed (fun f =>
  mkFeed f.(_accepting) ids f.(_option_universe) f.(_last_publish) f.(_reconnects) f.(_reconnect_not_before)).
Definition set_universe (u : gmap string (gset string)) : SV unit := set_feed (fun f =>
  mkFeed f.(_accepting) f.(_contract_ids) u f.(_last_publish) f.(_reconnects) f.(_reconnect_not_before)).
Definition set_last_publish (symbol : string) (t : Z) : SV unit := set_feed (fun f =>
  mkFeed f.(_accepting) f.(_contract_ids) f.(_option_universe) (<[symbol := t]> f.(_last_publish)) f.(_reconnects) f.(_reconnect_not_before)).
Definition set_reconnected (n : Z) : SV unit := set_feed (fun f =>
  mkFeed f.(_accepting) f.(_contract_ids) f.(_option_universe) f.(_last_publish) n f.(_reconnect_not_before)).
Definition set_not_before (t : Z) : SV unit := set_feed (fun f =>
  mkFeed f.(_accepting) f.(_contract_ids) f.(_option_universe) f.(_last_publish) f.(_reconnects) t).
Definition feed {A} (f : Feed -> A) : SV A := gets (fun w => f w.(w_feed)).
Definition _clock : SV Z := gets (fun w => w.(w_db).(m_now)).
Definition monotonic : SV Z := gets w_mono.
Definition status : SV MarketFeedStatus := gets (fun w => w.(w_sm).(sm_status)).
Definition update_status (f : MarketFeedStatus -> MarketFeedStatus) : SV unit :=
  modify (fun w => put_sm (mkManager w.(w_sm).(_runtime) w.(w_sm).(_last_check) (f w.(w_sm).(sm_status)) w.(w_sm).(sm_calls)) w).
Definition publish (p : publication) : SV unit := modify (fun w => put_pub (w.(w_pub) ++ [p]) w).
Definition create_task (t : task) : SV unit := modify (fun w => put_tasks (w.(w_tasks) ++ [t]) w).
Definition is_flush (t : task) : bool := match t with T_flush _ => true | _ => false end.
Definition is_reconnect (t : task) : bool := match t with T_reconnect _ => true | _ => false end.

(** ** Ticks *)
Definition _publish_status (f : FeedState) : SV unit :=
  let! st := gets (fun w => state w.(w_sm)) in
  let! n := feed _reconnects in
  publish (PubStatus f st n).
Definition interval_us : Z := s.(s_market_ws_update_interval_ms) * 1000.
Definition q_change (q : Quote) : option float * option float :=
  match q with QIndex q => (q.(iq_change), q.(iq_change_percent)) | QOption q => (q.(oq_change), q.(oq_change_percent)) end.
Definition _maybe_publish_quote (q : Quote) (kind : string) : SV unit :=
  let! now := monotonic in
  let! last := feed (fun f => default 0 (f.(_last_publish) !! q_symbol q)) in
  if now - last <? interval_us then ret tt
  else
    set_last_publish (q_symbol q) now ;;;
    let! clock := _clock in
    publish (PubQuote (q_symbol q) (q_ltp q) (fst (q_change q)) (snd (q_change q)) kind (default clock (q_provider_timestamp q)) now).
Definition q_volume (q : Quote) : option Z := match q with QIndex q => q.(iq_volume) | QOption q => q.(oq_volume) end.
(** What the candles take from a quote. *)
Definition aggregate (ids : list (string * Z)) (now : Z) (q : Quote) (a : CandleAggregator) : CandleAggregator :=
  let ts := default now (q_provider_timestamp q) in
  match q, q_ltp q with
  | QIndex _, Some ltp =>
      let exch := match INDEX_INSTRUMENTS (q_symbol q) with Some i => exchange_value i.(i_exchange) | None => "NSE" end in
      on_index_tick (q_symbol q) exch ltp ts (q_volume q) None a
  | QOption o, Some ltp =>
      match dget String.eqb (q_symbol q) ids with
      | Some cid => on_option_tick cid ltp ts (q_volume q) o.(oq_oi) a
      | None => a
      end
  | _, None => a
  end.
Definition kind_of (q : Quote) : string := match q with QIndex _ => "index" | QOption _ => "option" end.
Definition _on_tick (q : Quote) : SV unit :=
  let! accepting := feed _accepting in
  if negb accepting then ret tt
  else
    modify (fun w => put_cache (put q w.(w_cache)) w) ;;;
    let! now := _clock in
    let! ids := feed _contract_ids in
    modify (fun w => put_agg (aggregate ids now q w.(w_agg)) w) ;;;
    (when (match q_ltp q with Some _ => true | None => false end) do _maybe_publish_quote q (kind_of q)) ;;;
    let! live := gets (fun w => cache_symbols_live now w.(w_cache)) in
    update_status (set_ticks (Some now) live) ;;;
    let! st := status in
    when bool_decide (st.(feed_state) = F_CONNECTING) do
      (update_status (fun f => set_started_stopped (Some now) f.(stopped_at) (set_feed_state F_RUNNING f)) ;;;
       _publish_status F_RUNNING).

(** ** Candles written *)
Definition _persist (idx : list index_item) (opt : list option_item) : SV unit :=
  match idx, opt with
  | [], [] => ret tt
  | _, _ => try_except (on_db (let! n1 := persist_index_candles idx in let! n2 := persist_option_candles opt in ret tt)) (fun _ => ret tt)
  end.

(** ** Contracts *)
Definition contract_row (id : Z) (i : Instrument) : option OptionContractRow :=
  match i.(i_underlying), i.(i_expiry), i.(i_strike), i.(i_option_type) with
  | Some u, Some e, Some k, Some ot =>
      Some (mkOptionContract id u (exchange_value i.(i_exchange)) (str_or (default "" i.(i_provider)) "icici_breeze")
              i.(provider_token) i.(internal_symbol) e k ot i.(lot_size) i.(tick_size))
  | _, _, _, _ => None
  end.
Definition add_contract (r : OptionContractRow) : MDb -> MDb := on_option_contracts (fun rows => rows ++ [r]).
(** Get or create, one instrument after the other: the ids recorded, the pending
    rows, and whether it got through; a row that a constraint refuses stops it. *)
Fixpoint ensure (existing : list (string * Z)) (insts : list Instrument) (ids : list (string * Z)) (d : MDb)
    : bool * list (string * Z) * MDb :=
  match insts with
  | [] => (true, ids, d)
  | i :: r =>
      let sym := i.(internal_symbol) in
      match dget String.eqb sym existing with
      | Some id => ensure existing r (dset String.eqb sym id ids) d
      | None =>
          match dget String.eqb sym ids with
          | Some _ => ensure existing r ids d
          | None =>
              let id := next_id ct_id d.(option_contracts) in
              match contract_row id i with
              | None => (false, ids, d)
              | Some row =>
                  if mdb_ok (add_contract row d) then ensure existing r (dset String.eqb sym id ids) (add_contract row d)
                  else (false, ids, d)
              end
          end
      end
  end.
(** The ids recorded stay when the transaction is rolled back. *)
Definition _ensure_contract_ids (insts : list Instrument) : SV unit :=
  match insts with
  | [] => ret tt
  | _ =>
      let! existing := on_db (query (fun d => map (fun c => (c.(ct_symbol), c.(ct_id))) d.(option_contracts))) in
      let! ids := feed _contract_ids in
      let! r := on_db (query (fun d => ensure existing insts ids d)) in
      let '(ok, ids', d') := r in
      set_ids ids' ;;;
      when ok do modify (fun w => put_db (mkMWorld d' w.(w_db).(m_others) w.(w_db).(m_now)) w)
  end.
Definition _persist_contracts : SV unit :=
  let! l := gets (fun w => map snd w.(w_master).(_by_symbol)) in
  _ensure_contract_ids l.

(** ** The option universe *)
Definition window_of (m : InstrumentMaster) (c : LiveCache) (today : Z) (underlying : string) : list Instrument :=
  match get_latest_quote underlying c ≫= (fun e => q_ltp e.(cq_quote)), resolve_expiry today m underlying (ExpiryText "current") with
  | Some spot, Some expiry =>
      let strikes := list_strikes underlying expiry m in
      match nearest_strike strikes (Some spot), underlying_config underlying with
      | Some atm, Ok cfg =>
          flat_map (fun k => keep_some [resolve underlying expiry k "CE" m; resolve underlying expiry k "PE" m])
            (select_strike_window strikes atm (strike_range cfg s))
      | _, _ => []
      end
  | _, _ => []
  end.
Definition _current_option_window (underlying : string) : SV (list Instrument) :=
  let! now := _clock in gets (fun w => window_of w.(w_master) w.(w_cache) (date_of now) underlying).
Definition resubscribe_one (underlying : string) : SV Z :=
  let! wanted := _current_option_window underlying in
  let wanted_syms := symbols_of wanted in
  let! current := feed (fun f => default ∅ (f.(_option_universe) !! underlying)) in
  let add := List.filter (fun i => negb (bool_decide (i.(internal_symbol) ∈ current))) wanted in
  let drop_syms := current ∖ wanted_syms in
  (when negb (bool_decide (add = [])) do
     (_ensure_contract_ids add ;;;
      quietly (on_provider (p_subscribe add)))) ;;;
  (when negb (bool_decide (drop_syms = ∅)) do
     (let! gone := gets (fun w => keep_some (map (fun y => get_instrument y w.(w_master)) (elements drop_syms))) in
      quietly (on_provider (p_unsubscribe gone)))) ;;;
  let! u := feed _option_universe in
  set_universe (<[underlying := wanted_syms]> u) ;;;
  ret (Z.of_nat (size wanted_syms)).
Definition _resubscribe_option_universe : SV unit :=
  let! p := gets w_provider in
  let! accepting := feed _accepting in
  match p with
  | None => ret tt
  | Some _ =>
      if negb accepting then ret tt
      else
        let! ns := map_m resubscribe_one _OPTION_UNDERLYINGS in
        update_status (MarketTime.set_subscribed (fold_left Z.add ns 0))
  end.
(** ** Recovery *)
Definition _flush_interval : Z := 15 * second.
Definition _first_tick_timeout : Z := 20 * second.
Definition _poll_interval : Z := 250000.
Definition index_instruments : list Instrument := keep_some (map INDEX_INSTRUMENTS _INDEX_SUBSCRIBE).
Definition stale_after (n : Z) (age : float) : bool := f_gtb age (f_of_Z (n * s.(s_market_data_stale_seconds))).
Definition _check_staleness : SV unit :=
  let! last := gets (fun w => w.(w_cache).(lc_last_tick_at)) in
  let! now := _clock in
  match last with
  | None => ret tt
  | Some last =>
      let age := total_seconds (now - last) in
      let! st := status in
      (when stale_after 1 age && bool_decide (st.(feed_state) = F_RUNNING) do
         (update_status (set_feed_state F_STALE) ;;; _publish_status F_STALE)) ;;;
      when stale_after 3 age do
        (let! tasks := gets w_tasks in
         let! mono := monotonic in
         let! not_before := feed _reconnect_not_before in
         when negb (existsb is_reconnect tasks) && (not_before <=? mono) do create_task (T_reconnect R_new))
  end.
(** An attempt failed: the next one sleeps twice as long, at most 30 seconds;
    after the fifth the loop gives up for five minutes. *)
Definition failed (attempt delay : Z) : SV (option task) :=
  let delay := Z.min (delay * 2) (30 * second) in
  let! now := monotonic in
  if attempt <? 5 then
    quietly (on_provider p_disconnect) ;;;
    ret (Some (T_reconnect (R_sleep (attempt + 1) delay (now + delay))))
  else
    update_status (fun f => set_last_error (Some "reconnect attempts exhausted") (set_feed_state F_ERROR f)) ;;;
    set_not_before (now + _RECONNECT_COOLDOWN_SECONDS * second) ;;;
    ret None.
(** One call of [_reconnect_blocking]. *)
Definition blocking {A} (m : SV A) (attempt delay : Z) (next : rphase) : SV (option task) :=
  try_except (let! _ := m in ret (Some (T_reconnect next))) (fun _ => failed attempt delay).
Definition _reconnect (ph : rphase) : SV (option task) :=
  match ph with
  | R_new =>
      let! accepting := feed _accepting in
      let! p := gets w_provider in
      let! now := monotonic in
      match p with
      | Some _ =>
          if negb accepting then ret None
          else quietly (on_provider p_disconnect) ;;; ret (Some (T_reconnect (R_sleep 1 second (now + second))))
      | None => ret None
      end
  | R_sleep attempt delay wake =>
      let! now := monotonic in
      if now <? wake then ret (Some (T_reconnect ph))
      else blocking (on_provider p_connect) attempt delay (R_subscribe attempt delay)
  | R_subscribe attempt delay =>
      blocking (on_provider (p_subscribe index_instruments)) attempt delay (R_resubscribe attempt delay)
  | R_resubscribe attempt delay => blocking _resubscribe_option_universe attempt delay (R_done attempt)
  | R_done attempt =>
      let! n := feed _reconnects in
      set_reconnected (n + 1) ;;;
      update_status (fun f => set_feed_state F_RUNNING (set_reconnects (n + 1) f)) ;;;
      ret None
  end.

(** ** The flush loop *)
Definition engine : StraddlePulseEngine := mkPulse s tz.
Definition flush_once : SV unit :=
  let! now := _clock in
  let! a := gets w_agg in
  let '(idx, opt, a') := flush now a in
  modify (put_agg a') ;;;
  _persist idx opt ;;;
  _check_staleness ;;;
  _resubscribe_option_universe ;;;
  let! now := _clock in
  let! m := gets w_master in
  let! c := gets w_cache in
  on_db (tick_all engine m c (Some now)).
Definition _flush_loop (wake : Z) : SV (option task) :=
  let! now := monotonic in
  if now <? wake then ret (Some (T_flush wake))
  else
    quietly flush_once ;;;
    ret (Some (T_flush (now + _flush_interval))).

(** ** The daily start and stop *)
Fixpoint collect_instruments (us : list string) : SV (list Instrument) :=
  match us with
  | [] => ret []
  | u :: r =>
      let! l := on_provider (p_get_option_instruments u) in
      let! l' := collect_instruments r in
      ret (l ++ l')
  end.
Definition refresh_master : SV unit :=
  let! now := _clock in
  let! l := collect_instruments _OPTION_UNDERLYINGS in
  modify (fun w => put_master (snd (load l (Some (local_date now tz)) (Some p_name) w.(w_master))) w).
Definition verify_session : SV unit :=
  let! chk := on_sm (check s true) in
  if bool_decide (chk.(sc_state) = S_VALID) then ret tt
  else
    update_status (fun f => set_last_error chk.(sc_detail) (set_feed_state F_SESSION_REQUIRED f)) ;;;
    raise (OtherError "RuntimeError" (s.(s_market_data_provider) +:+ " session not usable: " +:+ session_value chk.(sc_state))).
Definition init_provider : SV unit :=
  let! p := gets w_provider in
  (match p with
   | Some _ => ret tt
   | None =>
       let! creds := on_sm (credentials s) in
       let! _ := lift (create_market_data_provider s.(s_market_data_provider)) in
       modify (put_provider (Some (p_new creds)))
   end) ;;;
  let! p := gets w_provider in
  when (match p with Some p => negb (p_is_connected p) | None => false end) do on_provider p_connect.
(** The end of the start: options, straddle pulse, flush loop, status. *)
Definition startup_finish : SV unit :=
  _resubscribe_option_universe ;;;
  for_each _OPTION_UNDERLYINGS (fun u =>
    let! m := gets w_master in
    let! c := gets w_cache in
    quietly (on_db (recover engine m c u None))) ;;;
  let! tasks := gets w_tasks in
  let! mono := monotonic in
  (when negb (existsb is_flush tasks) do create_task (T_flush (mono + _flush_interval))) ;;;
  let! last := gets (fun w => w.(w_cache).(lc_last_tick_at)) in
  match last with
  | Some _ =>
      let! now := _clock in
      let! n := feed _reconnects in
      update_status (fun f => set_reconnects n (set_last_error None (set_started_stopped (Some now) f.(stopped_at) (set_feed_state F_RUNNING f)))) ;;;
      _publish_status F_RUNNING
  | None => update_status (set_feed_state F_CONNECTING)
  end.
(** [_wait_first_tick], then the end of the start; the scheduler then declares
    the feed running. *)
Definition _wait_first_tick (scheduled : option Z) (deadline : Z) : SV (option task) :=
  let! now := monotonic in
  let! last := gets (fun w => w.(w_cache).(lc_last_tick_at)) in
  if (now <? deadline) && match last with None => true | Some _ => false end then
    ret (Some (T_startup scheduled deadline (now + _poll_interval)))
  else
    startup_finish ;;;
    (match scheduled with
     | Some at_ => modify (put_running true) ;;; update_status (fun f => set_started_stopped (Some at_) None (set_feed_state F_RUNNING f))
     | None => ret tt
     end) ;;;
    ret None.
Definition startup_begin (scheduled : option Z) : SV (option task) :=
  verify_session ;;;
  init_provider ;;;
  set_accepting true ;;;
  on_provider (p_subscribe index_instruments) ;;;
  try_except (refresh_master ;;; _persist_contracts) (fun e => if is_ProviderError e then ret tt else raise e) ;;;
  let! now := monotonic in
  _wait_first_tick scheduled (now + _first_tick_timeout).
(** [MarketScheduler._run_start] around a piece of the start. *)
Definition guarded (scheduled : option Z) (m : SV (option task)) : SV (option task) :=
  try_except m (fun e =>
    match scheduled with
    | Some _ => update_status (fun f => set_last_error (Some ("startup failed (" +:+ class_of e +:+ ")")) (set_feed_state F_ERROR f)) ;;; ret None
    | None => raise e
    end).
Definition no_options : gmap string (gset string) := list_to_map (map (fun u => (u, ∅)) _OPTION_UNDERLYINGS).
Definition stop_flow : SV unit :=
  update_status (set_feed_state F_STOPPING) ;;;
  set_accepting false ;;;
  modify (fun w => put_tasks (List.filter (fun t => negb (is_flush t)) w.(w_tasks)) w) ;;;
  let! now := _clock in
  let! a := gets w_agg in
  let '(idx, opt, a') := force_close_all now a in
  modify (put_agg a') ;;;
  _persist idx opt ;;;
  quietly (on_provider p_disconnect) ;;;
  modify (put_provider None) ;;;
  modify (fun w => put_cache (clear_cache w.(w_cache)) w) ;;;
  set_ids [] ;;;
  set_universe no_options ;;;
  let! now := _clock in
  update_status (fun f => set_started_stopped f.(started_at) (Some now) (set_feed_state F_STOPPED f)) ;;;
  _publish_status F_STOPPED.
Definition reset_provider : SV unit :=
  let! p := gets w_provider in
  match p with
  | Some _ => quietly (on_provider p_disconnect) ;;; modify (put_provider None)
  | None => ret tt
  end.

(** ** What runs next *)
Definition resume (t : task) : SV (option task) :=
  match t with
  | T_startup scheduled deadline wake =>
      let! now := monotonic in
      if now <? wake then ret (Some t) else guarded scheduled (_wait_first_tick scheduled deadline)
  | T_flush wake => _flush_loop wake
  | T_reconnect ph => _reconnect ph
  end.
Inductive action : Type :=
| Tick (q : Quote)                (* the provider's thread *)
| Elapse (us : N)
| Resume (i : nat)                (* the i-th suspended task *)
| SchedulerStart
| SchedulerStop
| Reconnect                       (* POST /api/market/session *)
| ResetProvider.
Definition scheduler_busy (l : list task) : bool :=
  existsb (fun t => match t with T_startup (Some _) _ _ => true | _ => false end) l.
(** A task's first piece: what remains is suspended. *)
Definition spawn (m : SV (option task)) : SV unit :=
  let! r := m in match r with Some t => create_task t | None => ret tt end.
Definition elapse (us : N) (w : World P) : World P :=
  mkWorld w.(w_provider) w.(w_cache) w.(w_agg) w.(w_master) w.(w_feed) w.(w_sm)
    (mkMWorld w.(w_db).(m_db) w.(w_db).(m_others) (w.(w_db).(m_now) + Z.of_N us)) (w.(w_mono) + Z.of_N us) w.(w_pub) w.(w_tasks) w.(w_running).
Definition perform (a : action) (w : World P) : World P :=
  match a with
  | Tick q => snd (_on_tick q w)
  | Elapse us => elapse us w
  | Resume i =>
      match w.(w_tasks) !! i with
      | None => w
      | Some t =>
          let '(r, w') := resume t w in
          put_tasks (match r with Ok (Some t') => <[i := t']> w'.(w_tasks) | _ => delete i w'.(w_tasks) end) w'
      end
  | SchedulerStart =>
      if w.(w_running) || scheduler_busy w.(w_tasks) then w
      else snd ((let! now := _clock in
                 update_status (fun f => set_last_error None (set_feed_state F_CONNECTING f)) ;;;
                 spawn (guarded (Some now) (startup_begin (Some now)))) w)
  | SchedulerStop =>
      if negb w.(w_running) || scheduler_busy w.(w_tasks) then w
      else snd ((let! now := _clock in
                 update_status (set_feed_state F_STOPPING) ;;;
                 try_except stop_flow (fun e => update_status (set_last_error (Some ("stop flow error (" +:+ class_of e +:+ ")")))) ;;;
                 modify (put_running false) ;;;
                 update_status (fun f => set_started_stopped f.(started_at) (Some now) (set_feed_state F_STOPPED f))) w)
  | Reconnect => snd ((reset_provider ;;; spawn (startup_begin None)) w)
  | ResetProvider => snd (reset_provider w)
  end.
Fixpoint run (l : list action) (w : World P) : World P :=
  match l with [] => w | a :: r => run r (perform a w) end.
End service.

(** ** The contract of a raw option tick *)
Definition token_matches (t : string) (i : Instrument) : bool := bool_decide (i.(provider_token) = Some t).
Definition by_token (tick : json) (m : InstrumentMaster) : option Instrument :=
  match jget "instrument_token" tick with
  | JNull => None
  | t => List.find (token_matches (py_str t)) (map snd m.(_by_symbol))
  end.
Definition by_contract (tick : json) (m : InstrumentMaster) : option Instrument :=
  let underlying := _tick_symbol_to_internal (py_str (jor (jor (jget "stock_code" tick) (jget "stock_name" tick)) (JStr "NIFTY"))) in
  let right := lower (text_of_value (jor (jget "right" tick) (jget "option_type" tick))) in
  let strike := jor (jget "strike_price" tick) (jget "strike" tick) in
  let expiry_raw := jor (jget "expiry_date" tick) (jget "expiry" tick) in
  match dget String.eqb right _RIGHT_TO_OT with
  | None => None
  | Some ot =>
      if negb (jtruthy strike) || negb (jtruthy expiry_raw) then None
      else
        match _parse_expiry expiry_raw, BreezeProvider._f strike with
        | Some e, Ok (Some k) =>
            match make_option_symbol underlying e k ot with Ok sym => get_instrument sym m | Err _ => None end
        | _, _ => None
        end
  end.
Definition _resolve_tick (m : InstrumentMaster) (tick : json) : option Instrument :=
  match by_token tick m with Some i => Some i | None => by_contract tick m end.
