(* ===== verification/ServiceSafety.v ===== *)
(** * Properties of the market-data service

    What holds of [MarketService] whatever the order of ticks, tasks and
    operator requests, for any provider that keeps the laws of the interface;
    and what does not, as computed runs. *)
From S2P Require Import Prelude PyStr PyFloat PyNum Config Json PyTime JsonText PyParse Symbols MarketTime MarketCache MarketDb Candles StraddlePulse MarketSession Providers BreezeProvider MarketService.

(** ** What most computations leave alone

    The quotes published, the publication times, the tasks, the clocks and the
    cool-down: [obs]. *)
Definition quote_pub (p : publication) : option (string * Z) :=
  match p with PubQuote y _ _ _ _ _ t => Some (y, t) | PubStatus _ _ _ => None end.
Record Obs : Type := mkObs {
  o_quotes : list (string * Z); o_last : gmap string Z; o_tasks : list task; o_mono : Z; o_not_before : Z
}.
Definition obs {P} (w : World P) : Obs :=
  mkObs (omap quote_pub w.(w_pub)) w.(w_feed).(_last_publish) w.(w_tasks) w.(w_mono) w.(w_feed).(_reconnect_not_before).

Section quiet.
Context {P : Type} `{MarketDataProvider P} {env : SessionEnv} (s : Settings) (tz : Z).
Context (c : Obs).
Definition at_obs (w : World P) : Prop := obs w = c.
Abbreviation quiet m := (preserves at_obs m).

Lemma quiet_zoom {X A} (g : World P -> X) (p : X -> World P -> World P) (m : M X exn A) :
  (forall x w, obs (p x w) = obs w) -> quiet (zoom g p m).
Proof. intros Hp w Hw. unfold zoom. destruct (m (g w)) as [r x]. cbn. unfold at_obs. now rewrite Hp. Qed.
Lemma quiet_on_db {A} (m : MM A) : quiet (on_db m).
Proof. now apply quiet_zoom. Qed.
Lemma quiet_on_sm {A} (m : SM A) : quiet (on_sm m).
Proof. now apply quiet_zoom. Qed.
Lemma quiet_on_provider {A} (m : M P exn A) : quiet (on_provider m).
Proof. intros w Hw. unfold on_provider. destruct (w_provider w) as [p|]; [|exact Hw]. now destruct (m p). Qed.
Lemma quiet_modify (f : World P -> World P) : (forall w, obs (f w) = obs w) -> quiet (modify (E := exn) f).
Proof. intros Hf w Hw. cbn. unfold at_obs. now rewrite Hf. Qed.
Lemma quiet_feed {A} (f : Feed -> A) : quiet (feed f).
Proof. apply preserves_gets. Qed.
Lemma quiet_clock : quiet _clock.
Proof. apply preserves_gets. Qed.
Lemma quiet_monotonic : quiet monotonic.
Proof. apply preserves_gets. Qed.
Lemma quiet_status : quiet status.
Proof. apply preserves_gets. Qed.
Lemma quiet_update f : quiet (update_status f).
Proof. now apply quiet_modify. Qed.
Lemma quiet_publish_status f : quiet (_publish_status f).
Proof.
  intros w Hw. unfold _publish_status, publish, feed. mrun. unfold at_obs, obs in *. cbn. now rewrite omap_app, app_nil_r.
Qed.
Lemma quiet_set_accepting b : quiet (set_accepting b).
Proof. now apply quiet_modify. Qed.
Lemma quiet_set_ids l : quiet (set_ids l).
Proof. now apply quiet_modify. Qed.
Lemma quiet_set_universe u : quiet (set_universe u).
Proof. now apply quiet_modify. Qed.
Lemma quiet_set_reconnected n : quiet (set_reconnected n).
Proof. now apply quiet_modify. Qed.
Lemma quiet_quietly {A} (m : SV A) : quiet m -> quiet (quietly m).
Proof. intros Hm. unfold quietly. preserve. Qed.
#[local] Hint Resolve quiet_on_db quiet_on_sm quiet_on_provider quiet_feed quiet_clock quiet_monotonic quiet_status quiet_update
  quiet_publish_status quiet_set_accepting quiet_set_ids quiet_set_universe quiet_set_reconnected quiet_quietly : preserves.
Ltac quieten := repeat (preserve; try (apply quiet_quietly); try (apply quiet_modify; reflexivity)).

Lemma quiet_persist idx opt : quiet (_persist idx opt).
Proof. unfold _persist. quieten. Qed.
Lemma quiet_ensure l : quiet (_ensure_contract_ids l).
Proof. unfold _ensure_contract_ids. quieten. Qed.
Lemma quiet_persist_contracts : quiet _persist_contracts.
Proof. unfold _persist_contracts. pose proof quiet_ensure. quieten. Qed.
#[local] Hint Resolve quiet_persist quiet_ensure quiet_persist_contracts : preserves.
Lemma quiet_resubscribe_one u : quiet (resubscribe_one s u).
Proof. unfold resubscribe_one, _current_option_window. quieten. Qed.
#[local] Hint Resolve quiet_resubscribe_one : preserves.
Lemma quiet_resubscribe : quiet (_resubscribe_option_universe s).
Proof. unfold _resubscribe_option_universe. quieten. Qed.
Lemma quiet_collect us : quiet (collect_instruments us).
Proof. induction us as [|u us IH]; cbn [collect_instruments]; quieten. Qed.
#[local] Hint Resolve quiet_resubscribe quiet_collect : preserves.
Lemma quiet_refresh : quiet (refresh_master tz).
Proof. unfold refresh_master. quieten. Qed.
Lemma quiet_verify : quiet (verify_session s).
Proof. unfold verify_session. quieten. Qed.
Lemma quiet_init : quiet (init_provider s).
Proof. unfold init_provider. quieten. Qed.
Lemma quiet_reset : quiet reset_provider.
Proof. unfold reset_provider. quieten. Qed.
End quiet.
#[export] Hint Resolve quiet_on_db quiet_on_sm quiet_on_provider quiet_feed quiet_clock quiet_monotonic quiet_status quiet_update
  quiet_publish_status quiet_set_accepting quiet_set_ids quiet_set_universe quiet_set_reconnected quiet_quietly quiet_persist
  quiet_ensure quiet_persist_contracts quiet_resubscribe quiet_refresh quiet_verify quiet_init quiet_reset : preserves.

(** ** What the others do to it *)
Inductive ostep (interval : Z) : Obs -> Obs -> Prop :=
| o_publish y q l t m n : interval <= m - default 0 (l !! y) ->
    ostep interval (mkObs q l t m n) (mkObs (q ++ [(y, m)]) (<[y := m]> l) t m n)
| o_new_reconnect q l t m n : existsb is_reconnect t = false -> n <= m ->
    ostep interval (mkObs q l t m n) (mkObs q l (t ++ [T_reconnect R_new]) m n)
| o_new_flush wake q l t m n : existsb is_flush t = false ->
    ostep interval (mkObs q l t m n) (mkObs q l (t ++ [T_flush wake]) m n)
| o_new_startup sched deadline wake q l t m n :
    ostep interval (mkObs q l t m n) (mkObs q l (t ++ [T_startup sched deadline wake]) m n).

Section steps.
Context {P : Type} `{MarketDataProvider P} {env : SessionEnv} (s : Settings) (tz : Z).
(** [moves R m]: [R] relates the observations before and after. *)
Definition moves (R : Obs -> Obs -> Prop) {A} (m : SV (P := P) A) : Prop := forall w, R (obs w) (obs (snd (m w))).
Section moves.
Context (R : Obs -> Obs -> Prop) `{!PreOrder R}.
Lemma moves_quiet {A} (m : SV A) : (forall c, preserves (at_obs c) m) -> moves R m.
Proof. intros Hm w. now rewrite (Hm (obs w) w eq_refl). Qed.
Lemma moves_bind {A B} (m : SV A) (k : A -> SV B) : moves R m -> (forall a, moves R (k a)) -> moves R (bind m k).
Proof.
  intros Hm Hk w. unfold bind. specialize (Hm w). destruct (m w) as [[a|e] w']; cbn in *; [|exact Hm].
  etransitivity; [exact Hm | apply Hk].
Qed.
Lemma moves_try {A} (m : SV A) h : moves R m -> (forall e, moves R (h e)) -> moves R (try_except m h).
Proof.
  intros Hm Hk w. unfold try_except. specialize (Hm w). destruct (m w) as [[a|e] w']; cbn in *; [exact Hm|].
  etransitivity; [exact Hm | apply Hk].
Qed.
Lemma moves_ret {A} (a : A) : moves R (ret a).
Proof. intros w. reflexivity. Qed.
Lemma moves_quietly {A} (m : SV A) : moves R m -> moves R (quietly m).
Proof. intros Hm. apply moves_try; [|intros e; apply moves_ret]. apply moves_bind; [exact Hm | intros a; apply moves_ret]. Qed.
End moves.
Abbreviation osteps := (rtc (ostep (interval_us s))).
Abbreviation steps := (moves osteps).
Abbreviation steps_quiet := (moves_quiet osteps).
Abbreviation steps_bind := (moves_bind osteps).
Abbreviation steps_try := (moves_try osteps).
Abbreviation steps_quietly := (moves_quietly osteps).

Lemma steps_publish q k : steps (_maybe_publish_quote s q k).
Proof.
  intros w. unfold _maybe_publish_quote, feed, monotonic, _clock, set_last_publish, MarketService.set_feed, publish. mrun.
  destruct (_ <? _) eqn:E; [reflexivity|]. apply Z.ltb_ge in E. apply rtc_once. unfold obs. cbn. rewrite omap_app. cbn. now constructor.
Qed.
Ltac stepped := apply steps_quiet; intros c; preserve; try (apply quiet_modify; reflexivity).
Lemma steps_on_tick q : steps (_on_tick s q).
Proof.
  unfold _on_tick. apply steps_bind; [stepped|]. intros [|]; cbn [negb]; [|stepped].
  apply steps_bind; [stepped|]. intros _. apply steps_bind; [stepped|]. intros now. apply steps_bind; [stepped|]. intros ids.
  apply steps_bind; [stepped|]. intros _. apply steps_bind; [destruct (q_ltp q); [apply steps_publish | stepped]|]. intros _.
  apply steps_bind; [stepped|]. intros live. apply steps_bind; [stepped|]. intros _. stepped.
Qed.
Lemma steps_staleness : steps (_check_staleness s).
Proof.
  unfold _check_staleness. apply steps_bind; [stepped|]. intros last. apply steps_bind; [stepped|]. intros now.
  destruct last as [last|]; [|stepped]. apply steps_bind; [stepped|]. intros st. apply steps_bind; [stepped|]. intros _.
  destruct (stale_after s 3 _); [|stepped]. intros w. unfold monotonic, feed, create_task. mrun.
  destruct (existsb is_reconnect (w_tasks w)) eqn:E1; cbn; [reflexivity|].
  destruct (_ <=? _) eqn:E2; cbn; [|reflexivity]. apply Z.leb_le in E2. apply rtc_once. unfold obs. cbn. now constructor.
Qed.
Lemma steps_flush_once : steps (flush_once s tz).
Proof.
  unfold flush_once. apply steps_bind; [stepped|]. intros now. apply steps_bind; [stepped|]. intros a.
  destruct (flush now a) as [[idx opt] a']. apply steps_bind; [stepped|]. intros _. apply steps_bind; [stepped|]. intros _.
  apply steps_bind; [apply steps_staleness|]. intros _. apply steps_bind; [stepped|]. intros _. stepped.
Qed.
Lemma steps_flush_loop wake : steps (_flush_loop s tz wake).
Proof.
  unfold _flush_loop. apply steps_bind; [stepped|]. intros now. destruct (now <? wake); [stepped|].
  apply steps_bind; [apply steps_quietly, steps_flush_once | intros _; stepped].
Qed.
Lemma steps_new_flush (k : SV unit) : steps k ->
  steps (let! tasks := gets w_tasks in
         let! mono := monotonic in
         (when negb (existsb is_flush tasks) do create_task (T_flush (mono + _flush_interval))) ;;; k).
Proof.
  intros Hk w. unfold monotonic. mrun. destruct (existsb is_flush (w_tasks w)) eqn:E; cbn; [apply Hk|].
  unfold create_task, modify. eapply rtc_l; [|apply Hk]. unfold obs. cbn. now constructor.
Qed.
Lemma steps_startup_finish : steps (startup_finish s tz).
Proof.
  unfold startup_finish. apply steps_bind; [stepped|]. intros _. apply steps_bind; [stepped|].
  intros _. apply steps_new_flush. stepped.
Qed.
Lemma steps_wait sched deadline : steps (_wait_first_tick s tz sched deadline).
Proof.
  unfold _wait_first_tick. apply steps_bind; [stepped|]. intros now. apply steps_bind; [stepped|]. intros last.
  destruct (_ && _); [stepped|]. apply steps_bind; [apply steps_startup_finish|]. intros _. stepped.
Qed.
Lemma steps_begin sched : steps (startup_begin s tz sched).
Proof.
  unfold startup_begin. apply steps_bind; [stepped|]. intros _. apply steps_bind; [stepped|]. intros _.
  apply steps_bind; [stepped|]. intros _. apply steps_bind; [stepped|]. intros _. apply steps_bind; [stepped|]. intros _.
  apply steps_bind; [stepped|]. intros now. apply steps_wait.
Qed.
Lemma steps_guarded sched m : steps m -> steps (guarded sched m).
Proof. intros Hm. apply steps_try; [exact Hm|]. intros e. destruct sched; stepped. Qed.

(** The reconnect loop, up to giving up. *)
Lemma quiet_failed attempt delay w :
  let '(r, w') := failed attempt delay w in
  if attempt <? 5 then
    obs w' = obs w /\ r = Ok (Some (T_reconnect (R_sleep (attempt + 1) (Z.min (delay * 2) (30 * second)) (w.(w_mono) + Z.min (delay * 2) (30 * second)))))
  else r = Ok None /\ obs w' = mkObs (o_quotes (obs w)) (o_last (obs w)) (o_tasks (obs w)) (o_mono (obs w))
                                 (w.(w_mono) + _RECONNECT_COOLDOWN_SECONDS * second).
Proof.
  unfold failed, monotonic. cbv zeta. unfold bind at 1, gets. destruct (attempt <? 5).
  - unfold bind. pose proof (quiet_quietly (obs w) (on_provider p_disconnect) (quiet_on_provider _ _) w eq_refl) as Q.
    unfold quietly, try_except, bind in *. destruct (on_provider p_disconnect w) as [[[]|e] w']; cbn in *; now split.
  - mrun. now split.
Qed.
End steps.

(** ** The shape of what is suspended *)
Definition backoff (attempt : Z) : Z := Z.min (2 ^ (attempt - 1) * second) (30 * second).
Definition attempt_ok (attempt delay : Z) : Prop := 1 <= attempt <= 5 /\ delay = backoff attempt.
Definition phase_ok (mono : Z) (p : rphase) : Prop :=
  match p with
  | R_new => True
  | R_sleep a d wake => attempt_ok a d /\ wake <= mono + d
  | R_subscribe a d | R_resubscribe a d => attempt_ok a d
  | R_done a => 1 <= a <= 5
  end.
Definition task_ok (mono : Z) (t : task) : Prop := match t with T_reconnect p => phase_ok mono p | _ => True end.
Definition same_kind (t t' : task) : Prop := is_flush t = is_flush t' /\ is_reconnect t = is_reconnect t'.

Lemma next_backoff a d : attempt_ok a d -> a < 5 -> attempt_ok (a + 1) (Z.min (d * 2) (30 * second)).
Proof.
  intros [H1 ->] H2. split; [lia|]. unfold backoff. assert (a = 1 \/ a = 2 \/ a = 3 \/ a = 4) as [->|[->|[->| ->]]] by lia; reflexivity.
Qed.

Section shapes.
Context {P : Type} `{MarketDataProvider P} {env : SessionEnv} (s : Settings) (tz : Z).
(** [returns m Q]: every value [m] returns satisfies [Q]. *)
Definition returns {A} (m : SV (P := P) A) (Q : A -> Prop) : Prop := forall w a, fst (m w) = Ok a -> Q a.
Lemma returns_ret {A} (a : A) (Q : A -> Prop) : Q a -> returns (ret a) Q.
Proof. now intros Ha w b [= <-]. Qed.
Lemma returns_raise {A} e (Q : A -> Prop) : returns (raise e) Q.
Proof. now intros w b. Qed.
Lemma returns_bind {A B} (m : SV A) (k : A -> SV B) Q : (forall a, returns (k a) Q) -> returns (bind m k) Q.
Proof. intros Hk w b. unfold bind. destruct (m w) as [[a|e] w']; [apply Hk | discriminate]. Qed.
Lemma returns_try {A} (m : SV A) h Q : returns m Q -> (forall e, returns (h e) Q) -> returns (try_except m h) Q.
Proof. intros Hm Hh w b E. specialize (Hm w). unfold try_except in E. destruct (m w) as [[a|e] w']; [apply Hm, E | now apply (Hh e w')]. Qed.

Definition startup_task (t : option task) : Prop := forall t', t = Some t' -> exists a d w, t' = T_startup a d w.
Lemma wait_returns sched deadline : returns (_wait_first_tick s tz sched deadline) startup_task.
Proof.
  unfold _wait_first_tick. do 2 (apply returns_bind; intros ?). destruct (_ && _).
  - apply returns_ret. intros t' [= <-]. eauto.
  - do 2 (apply returns_bind; intros ?). now apply returns_ret.
Qed.
Lemma guarded_returns sched m : returns m startup_task -> returns (guarded sched m) startup_task.
Proof.
  intros Hm. apply returns_try; [exact Hm|]. intros e. destruct sched; [|apply returns_raise]. apply returns_bind. intros _. now apply returns_ret.
Qed.
Lemma begin_returns sched : returns (startup_begin s tz sched) startup_task.
Proof. unfold startup_begin. do 6 (apply returns_bind; intros ?). apply wait_returns. Qed.

(** A piece of the reconnect loop: it gives up, or goes on. *)
Definition gives_up (w w' : World P) : Prop :=
  obs w' = mkObs (o_quotes (obs w)) (o_last (obs w)) (o_tasks (obs w)) (o_mono (obs w)) (w.(w_mono) + _RECONNECT_COOLDOWN_SECONDS * second).
Definition goes_on (r : result exn (option task)) (w w' : World P) : Prop :=
  obs w' = obs w /\ forall t', r = Ok (Some t') -> exists ph, t' = T_reconnect ph /\ phase_ok w.(w_mono) ph.
Lemma blocking_spec {A} (m : SV A) attempt delay next w :
  (forall c, preserves (at_obs c) m) -> attempt_ok attempt delay -> phase_ok w.(w_mono) next ->
  let '(r, w') := blocking m attempt delay next w in (r = Ok None /\ gives_up w w') \/ goes_on r w w'.
Proof.
  intros Hm Ha Hn. unfold blocking, try_except, bind at 1. pose proof (Hm (obs w) w eq_refl) as Q.
  destruct (m w) as [[a|e] w1]; cbn in Q.
  - right. split; [exact Q|]. intros t' [= <-]. eauto.
  - pose proof (quiet_failed attempt delay w1) as F. destruct (failed attempt delay w1) as [r w'].
    assert (w_mono w1 = w_mono w) as Em by now injection Q.
    destruct (attempt <? 5) eqn:E.
    + destruct F as [F ->]. right. split; [congruence|]. intros t' [= <-]. eexists. split; [reflexivity|]. apply Z.ltb_lt in E.
      split; [now apply next_backoff | lia].
    + destruct F as [-> F]. left. split; [reflexivity|]. unfold gives_up. now rewrite F, Q, Em.
Qed.
Lemma reconnect_spec ph w : phase_ok w.(w_mono) ph ->
  let '(r, w') := _reconnect s ph w in (r = Ok None /\ gives_up w w') \/ goes_on r w w'.
Proof.
  intros Hp. destruct ph as [|a d wake|a d|a d|a]; cbn [_reconnect phase_ok] in *.
  - unfold monotonic, feed. unfold bind at 1 2 3, gets. destruct (w_provider w); [|right; now split].
    destruct (negb _); [right; now split|]. pose proof (quiet_quietly (obs w) (on_provider p_disconnect) (quiet_on_provider _ _) w eq_refl) as Q.
    unfold bind. destruct (quietly _ w) as [[[]|e] w']; cbn in *; right; (split; [exact Q|]); [|discriminate].
    intros t' [= <-]. eexists. split; [reflexivity|]. cbn. split; [|lia]. split; [lia | reflexivity].
  - unfold bind at 1, monotonic, gets. destruct (_ <? wake).
    + right. split; [reflexivity|]. intros t' [= <-]. eauto.
    + apply blocking_spec; [intros c; apply quiet_on_provider | apply Hp | apply Hp].
  - apply blocking_spec; [intros c; apply quiet_on_provider | exact Hp | exact Hp].
  - apply blocking_spec; [intros c; apply quiet_resubscribe | exact Hp | apply Hp].
  - right. split; [reflexivity | discriminate].
Qed.
End shapes.

(** ** Tasks *)
Definition count_of (p : task -> bool) (l : list task) : nat := List.length (List.filter p l).
Record tasks_ok (o : Obs) : Prop := mkTasksOk {
  one_loop : (count_of is_reconnect o.(o_tasks) <= 1)%nat;
  one_flush : (count_of is_flush o.(o_tasks) <= 1)%nat;
  cooled_down : existsb is_reconnect o.(o_tasks) = true -> o.(o_not_before) <= o.(o_mono);
  phases_ok : Forall (task_ok o.(o_mono)) o.(o_tasks)
}.
Lemma count_app p l l' : count_of p (l ++ l') = (count_of p l + count_of p l')%nat.
Proof. unfold count_of. now rewrite List.filter_app, length_app. Qed.
Lemma count_none p l : existsb p l = false <-> count_of p l = O.
Proof.
  unfold count_of. induction l as [|x l IH]; cbn; [easy|]. destruct (p x); cbn; [easy | exact IH].
Qed.
Lemma count_insert p l i t t' : l !! i = Some t -> p t = p t' -> count_of p (<[i := t']> l) = count_of p l.
Proof.
  revert i. unfold count_of. induction l as [|x l IH]; intros [|i] Hi Hp; try discriminate.
  - injection Hi as ->. cbn. rewrite Hp. now destruct (p t').
  - specialize (IH i Hi Hp). change (<[S i := t']> (x :: l)) with (x :: <[i := t']> l). cbn. destruct (p x); cbn; lia.
Qed.
Lemma count_delete p l i t : l !! i = Some t -> count_of p l = ((if p t then 1 else 0) + count_of p (delete i l))%nat.
Proof.
  revert i. unfold count_of. induction l as [|x l IH]; intros [|i] Hi; try discriminate.
  - injection Hi as ->. cbn. now destruct (p t).
  - specialize (IH i Hi). change (delete (S i) (x :: l)) with (x :: delete i l). cbn. destruct (p x); cbn; lia.
Qed.
Lemma count_filter p q l : (count_of p (List.filter q l) <= count_of p l)%nat.
Proof.
  unfold count_of. induction l as [|x l IH]; cbn; [lia|]. destruct (q x); cbn; destruct (p x); cbn; lia.
Qed.
Lemma ostep_tasks d o o' : ostep d o o' -> tasks_ok o -> tasks_ok o' /\ (exists l, o_tasks o' = o_tasks o ++ l) /\ o_mono o' = o_mono o.
Proof.
  intros St [H1 H2 H3 H4]. destruct St as [y q l t m n Hy|q l t m n Ht Hn|wake q l t m n Ht|sc dl wake q l t m n]; cbn [o_tasks o_mono o_not_before] in *.
  - split; [now split|]. split; [exists []; now rewrite app_nil_r | reflexivity].
  - apply count_none in Ht. split; [|eauto]. split; cbn [o_tasks o_mono o_not_before]; rewrite ?count_app, ?Ht, ?Forall_app; cbn; try lia; auto; try (split; [exact H4 | repeat constructor]).
  - apply count_none in Ht. split; [|eauto]. split; cbn [o_tasks o_mono o_not_before]; rewrite ?count_app, ?Ht, ?Forall_app, ?existsb_app; cbn;
      rewrite ?orb_false_r; try lia; auto; try (split; [exact H4 | repeat constructor]).
  - split; [|eauto]. split; cbn [o_tasks o_mono o_not_before]; rewrite ?count_app, ?Forall_app, ?existsb_app; cbn; rewrite ?orb_false_r; try lia; auto; try (split; [exact H4 | repeat constructor]).
Qed.
Lemma osteps_tasks d o o' : rtc (ostep d) o o' -> tasks_ok o -> tasks_ok o' /\ (exists l, o_tasks o' = o_tasks o ++ l) /\ o_mono o' = o_mono o.
Proof.
  induction 1 as [o|o o1 o2 St _ IH]; intros Ho; [split; [exact Ho|]; split; [exists []; now rewrite app_nil_r | reflexivity]|].
  destruct (ostep_tasks d o o1 St Ho) as (H1 & [l1 E1] & M1). destruct (IH H1) as (H2 & [l2 E2] & M2).
  split; [exact H2|]. split; [exists (l1 ++ l2); now rewrite E2, E1, app_assoc | congruence].
Qed.

(** ** Every action *)
Definition drop_flush (o : Obs) : Obs :=
  mkObs o.(o_quotes) o.(o_last) (List.filter (fun t => negb (is_flush t)) o.(o_tasks)) o.(o_mono) o.(o_not_before).
Definition may_drop (o o' : Obs) : Prop := o' = o \/ o' = drop_flush o.
Lemma drop_flush_twice o : drop_flush (drop_flush o) = drop_flush o.
Proof.
  unfold drop_flush. cbn. f_equal. induction (o_tasks o) as [|t l IH]; cbn; [reflexivity|].
  destruct (negb (is_flush t)) eqn:E; cbn; rewrite ?E; congruence.
Qed.
#[export] Instance may_drop_preorder : PreOrder may_drop.
Proof.
  split; [intros o; now left|]. intros o1 o2 o3 [-> | ->] [-> | ->]; unfold may_drop; rewrite ?drop_flush_twice; auto.
Qed.

Section actions.
Context {P : Type} `{MarketDataProvider P} {env : SessionEnv} (s : Settings) (tz : Z).

Ltac stepped := apply moves_quiet; [apply _|]; intros c; preserve; try (apply quiet_modify; reflexivity).
Lemma stop_drops : moves may_drop (P := P) (stop_flow).
Proof.
  unfold stop_flow. apply moves_bind; [apply _|stepped|]. intros _. apply moves_bind; [apply _|stepped|]. intros _.
  apply moves_bind; [apply _|intros w; right; reflexivity|]. intros _. apply moves_bind; [apply _|stepped|]. intros now.
  apply moves_bind; [apply _|stepped|]. intros a. destruct (force_close_all now a) as [[idx opt] a']. stepped.
Qed.
Lemma stop_action_drops : moves may_drop (P := P)
  (let! now := _clock in
   update_status (set_feed_state F_STOPPING) ;;;
   try_except stop_flow (fun e => update_status (set_last_error (Some ("stop flow error (" +:+ class_of e +:+ ")")))) ;;;
   modify (put_running false) ;;;
   update_status (fun f => set_started_stopped f.(started_at) (Some now) (set_feed_state F_STOPPED f))).
Proof.
  apply moves_bind; [apply _|stepped|]. intros now. apply moves_bind; [apply _|stepped|]. intros _.
  apply moves_bind; [apply _| |intros _; stepped].
  apply moves_try; [apply _| exact stop_drops | intros e; stepped].
Qed.
Lemma spawn_steps m : moves (P := P) (rtc (ostep (interval_us s))) m -> returns m startup_task -> moves (rtc (ostep (interval_us s))) (spawn m).
Proof.
  intros Hm Hr w. specialize (Hm w). specialize (Hr w). unfold spawn, bind. destruct (m w) as [[[t|]|e] w']; cbn in *; [|exact Hm|exact Hm].
  destruct (Hr _ eq_refl t eq_refl) as (a & d & k & ->). etransitivity; [exact Hm|]. apply rtc_once. unfold obs. cbn. constructor.
Qed.
Lemma start_action_steps : moves (P := P) (rtc (ostep (interval_us s)))
  (let! now := _clock in
   update_status (fun f => set_last_error None (set_feed_state F_CONNECTING f)) ;;;
   spawn (guarded (Some now) (startup_begin s tz (Some now)))).
Proof.
  apply moves_bind; [apply _|stepped|]. intros now. apply moves_bind; [apply _|stepped|]. intros _.
  apply spawn_steps; [apply steps_guarded, steps_begin | apply guarded_returns, begin_returns].
Qed.
Lemma reconnect_action_steps : moves (P := P) (rtc (ostep (interval_us s))) (reset_provider ;;; spawn (startup_begin s tz None)).
Proof.
  apply moves_bind; [apply _|stepped|]. intros _. apply spawn_steps; [apply steps_begin | apply begin_returns].
Qed.

(** A resumed task: it moves as above and leaves a task of its kind, or it is a
    reconnect loop that gives up. *)
Lemma resume_spec t w : task_ok w.(w_mono) t ->
  let '(r, w') := resume s tz t w in
  (is_reconnect t = true /\ r = Ok None /\ gives_up w w') \/
  (rtc (ostep (interval_us s)) (obs w) (obs w') /\
   forall t', r = Ok (Some t') -> same_kind t t' /\ task_ok w.(w_mono) t').
Proof.
  intros Ht. destruct t as [sched dl wake|wake|ph]; cbn [resume].
  - pose proof (steps_guarded s sched _ (steps_wait s tz sched dl) w) as St.
    pose proof (guarded_returns sched _ (wait_returns s tz sched dl) w) as R.
    unfold monotonic, bind at 1, gets. destruct (w_mono w <? wake).
    + right. split; [reflexivity|]. intros t' [= <-]. now split.
    + destruct (guarded sched _ w) as [r w']. right. split; [exact St|]. intros t' ->.
      destruct (R _ eq_refl t' eq_refl) as (a & d & k & ->). now split.
  - pose proof (steps_flush_loop s tz wake w) as St.
    assert (returns (P := P) (_flush_loop s tz wake) (fun t => forall t', t = Some t' -> is_flush t' = true)) as R.
    { unfold _flush_loop. apply returns_bind. intros now. destruct (now <? wake); [apply returns_ret; now intros t' [= <-]|].
      apply returns_bind. intros _. apply returns_ret. now intros t' [= <-]. }
    specialize (R w). destruct (_flush_loop s tz wake w) as [r w']. right. split; [exact St|]. intros t' ->.
    specialize (R _ eq_refl t' eq_refl). destruct t'; try discriminate R. now split.
  - pose proof (reconnect_spec s ph w Ht) as R. destruct (_reconnect s ph w) as [r w'].
    destruct R as [[-> R]|[R1 R2]]; [left; now repeat split|]. right. split; [now rewrite R1|].
    intros t' ->. destruct (R2 t' eq_refl) as (ph' & -> & Hp). now split.
Qed.
Lemma phase_later m m' t : m <= m' -> task_ok m t -> task_ok m' t.
Proof. intros Hm. destruct t as [| |[]]; cbn; intuition lia. Qed.
Lemma put_tasks_obs l (w : World P) : obs (put_tasks l w) = mkObs (o_quotes (obs w)) (o_last (obs w)) l (o_mono (obs w)) (o_not_before (obs w)).
Proof. reflexivity. Qed.
Lemma replaced_ok o i t t' : tasks_ok o -> o_tasks o !! i = Some t -> same_kind t t' -> task_ok (o_mono o) t' ->
  tasks_ok (mkObs (o_quotes o) (o_last o) (<[i := t']> (o_tasks o)) (o_mono o) (o_not_before o)).
Proof.
  intros [H1 H2 H3 H4] Hi [K1 K2] Ht. split; cbn [o_tasks o_mono o_not_before].
  - now rewrite (count_insert _ _ _ t).
  - now rewrite (count_insert _ _ _ t).
  - intros E. apply H3. destruct (existsb is_reconnect (o_tasks o)) eqn:E'; [reflexivity|].
    apply count_none in E'. rewrite <- (count_insert is_reconnect _ i t t') in E' by auto. apply count_none in E'. congruence.
  - now apply Forall_insert.
Qed.
Lemma deleted_ok o i t : tasks_ok o -> o_tasks o !! i = Some t ->
  tasks_ok (mkObs (o_quotes o) (o_last o) (delete i (o_tasks o)) (o_mono o) (o_not_before o)).
Proof.
  intros [H1 H2 H3 H4] Hi. pose proof (count_delete is_reconnect _ i t Hi). pose proof (count_delete is_flush _ i t Hi).
  split; cbn [o_tasks o_mono o_not_before]; [lia | lia | | now apply Forall_delete].
  intros E. apply H3. destruct (existsb is_reconnect (o_tasks o)) eqn:E'; [reflexivity|]. apply count_none in E'.
  assert (count_of is_reconnect (delete i (o_tasks o)) = O) as Z by lia. apply count_none in Z. congruence.
Qed.
Lemma perform_tasks a w : tasks_ok (obs w) -> tasks_ok (obs (perform (P := P) s tz a w)).
Proof.
  intros Hw. destruct a as [q|us|i| | | |]; cbn [perform].
  - now apply (osteps_tasks (interval_us s) (obs w)); [apply steps_on_tick|].
  - destruct Hw as [H1 H2 H3 H4]. split; cbn [obs elapse o_tasks o_mono o_not_before w_tasks w_mono w_feed] in *; try assumption.
    + intros E. specialize (H3 E). lia.
    + eapply Forall_impl; [exact H4|]. intros t. apply phase_later. cbn. lia.
  - destruct (w_tasks w !! i) as [t|] eqn:Ei; [|exact Hw].
    assert (task_ok (w_mono w) t) as Ht by (eapply Forall_lookup_1; [apply Hw | exact Ei]).
    pose proof (resume_spec t w Ht) as R. destruct (resume s tz t w) as [r w']. destruct R as [(K & -> & G)|[St R]].
    + rewrite put_tasks_obs, G. cbn [o_quotes o_last o_tasks o_mono o_not_before].
      assert (w_tasks w' = w_tasks w) as -> by now injection G.
      pose proof (count_delete is_reconnect _ i t Ei) as Cd. rewrite K in Cd. destruct Hw as [H1 H2 H3 H4].
      pose proof (count_delete is_flush _ i t Ei). change (o_tasks (obs w)) with (w_tasks w) in *.
      split; cbn [o_tasks o_mono o_not_before]; [lia | lia | | now apply Forall_delete].
      intros E. assert (count_of is_reconnect (delete i (w_tasks w)) = O) as Z by lia. apply count_none in Z. congruence.
    + destruct (osteps_tasks _ _ _ St Hw) as (Hw' & [l El] & Em).
      assert (o_tasks (obs w') !! i = Some t) as Ei' by (rewrite El; apply lookup_app_l_Some, Ei).
      assert (tasks_ok (mkObs (o_quotes (obs w')) (o_last (obs w')) (delete i (o_tasks (obs w'))) (o_mono (obs w')) (o_not_before (obs w')))) as Hd
        by now apply (deleted_ok _ _ t).
      rewrite put_tasks_obs. destruct r as [[t'|]|e]; [|exact Hd|exact Hd].
      destruct (R t' eq_refl) as [K1 K2]. apply (replaced_ok (obs w') i t t'); auto. now rewrite Em.
  - destruct (_ || _); [exact Hw|]. now apply (osteps_tasks (interval_us s) (obs w)); [apply start_action_steps|].
  - destruct (_ || _); [exact Hw|]. destruct (stop_action_drops w) as [-> | ->]; [exact Hw|].
    destruct Hw as [H1 H2 H3 H4]. pose proof (count_filter is_reconnect (fun t => negb (is_flush t)) (o_tasks (obs w))).
    pose proof (count_filter is_flush (fun t => negb (is_flush t)) (o_tasks (obs w))).
    split; cbn [drop_flush o_tasks o_mono o_not_before]; [lia | lia | |].
    + intros E. apply H3. apply existsb_exists in E as (t & Hi & E). apply List.filter_In in Hi as [Hi _]. apply existsb_exists. eauto.
    + rewrite List.Forall_forall in *. intros t Hi. apply List.filter_In in Hi as [Hi _]. auto.
  - now apply (osteps_tasks (interval_us s) (obs w)); [apply reconnect_action_steps|].
  - now rewrite (quiet_reset (obs w) w eq_refl).
Qed.
End actions.

(** ** Publications *)
Definition times (y : string) (q : list (string * Z)) : list Z := map snd (List.filter (fun p => String.eqb (fst p) y) q).
(** Consecutive instants are at least [d] apart. *)
Fixpoint spaced (d : Z) (l : list Z) : Prop :=
  match l with a :: ((b :: _) as r) => a + d <= b /\ spaced d r | _ => True end.
Lemma spaced_snoc d l m : spaced d l -> (forall t, last l = Some t -> t + d <= m) -> spaced d (l ++ [m]).
Proof.
  induction l as [|a [|b l] IH]; intros Hs Hl; [exact I | split; [now apply Hl | exact I] |].
  destruct Hs as [Hab Hs]. split; [exact Hab|]. apply IH; [exact Hs|]. intros t Ht. apply Hl. exact Ht.
Qed.
Definition published_ok (d : Z) (o : Obs) : Prop :=
  forall y, spaced d (times y o.(o_quotes)) /\ forall t, last (times y o.(o_quotes)) = Some t -> o.(o_last) !! y = Some t.
Lemma times_snoc y q x m : times y (q ++ [(x, m)]) = if String.eqb x y then times y q ++ [m] else times y q.
Proof. unfold times. rewrite List.filter_app, map_app. cbn. destruct (String.eqb x y); [reflexivity | apply app_nil_r]. Qed.
Lemma ostep_published d o o' : ostep d o o' -> published_ok d o -> published_ok d o'.
Proof.
  intros St Ho. destruct St as [x q l t m n Hy| | |]; try exact Ho. intros y. destruct (Ho y) as [H1 H2]. cbn [o_quotes o_last] in *. rewrite times_snoc.
  destruct (String.eqb_spec x y) as [->|Hne].
  - split.
    + apply spaced_snoc; [exact H1|]. intros t' Ht'. rewrite (H2 t' Ht') in Hy. cbn in Hy. lia.
    + intros t'. rewrite last_snoc. intros [= <-]. now rewrite lookup_insert_eq.
  - split; [exact H1|]. intros t' Ht'. rewrite lookup_insert_ne by congruence. auto.
Qed.
Lemma osteps_published d o o' : rtc (ostep d) o o' -> published_ok d o -> published_ok d o'.
Proof. induction 1; eauto using ostep_published. Qed.

Section service_theorems.
Context {P : Type} `{MarketDataProvider P} {env : SessionEnv} (s : Settings) (tz : Z).
Lemma perform_published a w : tasks_ok (obs w) -> published_ok (interval_us s) (obs w) ->
  published_ok (interval_us s) (obs (perform (P := P) s tz a w)).
Proof.
  intros Ht Hw. destruct a as [q|us|i| | | |]; cbn [perform].
  - eapply osteps_published; [apply steps_on_tick | exact Hw].
  - exact Hw.
  - destruct (w_tasks w !! i) as [t|] eqn:Ei; [|exact Hw].
    assert (task_ok (w_mono w) t) as Hok by (eapply Forall_lookup_1; [apply Ht | exact Ei]).
    pose proof (resume_spec s tz t w Hok) as R. destruct (resume s tz t w) as [r w'].
    assert (published_ok (interval_us s) (obs w')) as H'.
    { destruct R as [(K & -> & G)|[St R]]; [now rewrite G | eapply osteps_published; [exact St | exact Hw]]. }
    exact H'.
  - destruct (_ || _); [exact Hw|]. eapply osteps_published; [apply start_action_steps | exact Hw].
  - destruct (_ || _); [exact Hw|]. now destruct (stop_action_drops w) as [-> | ->].
  - eapply osteps_published; [apply reconnect_action_steps | exact Hw].
  - now rewrite (quiet_reset (obs w) w eq_refl).
Qed.
Lemma run_keeps l : forall w, tasks_ok (obs w) -> published_ok (interval_us s) (obs w) ->
  tasks_ok (obs (run (P := P) s tz l w)) /\ published_ok (interval_us s) (obs (run (P := P) s tz l w)).
Proof.
  induction l as [|a l IH]; intros w H1 H2; [now split|]. cbn [run]. apply IH; [now apply perform_tasks | now apply perform_published].
Qed.
(** A service just constructed. *)
Definition fresh (w : World P) : Prop :=
  w.(w_tasks) = [] /\ w.(w_pub) = [] /\ w.(w_feed).(_last_publish) = ∅ /\ w.(w_feed).(_accepting) = false /\ w.(w_running) = false.
Lemma fresh_ok w : fresh w -> tasks_ok (obs w) /\ published_ok (interval_us s) (obs w).
Proof.
  intros (H1 & H2 & H3 & _). unfold obs. rewrite H1, H2, H3. split.
  - split; cbn; try lia; try easy; constructor.
  - intros y. cbn. now split.
Qed.

(** Clients are never flooded: whatever the order of ticks, tasks, start,
    stop, reconnect and reset requests, and whatever the provider, the session
    and the database answer, two consecutive realtime publications of one symbol
    are at least the configured interval apart. *)
Theorem quotes_spaced l w y : fresh w ->
  spaced (interval_us s) (times y (omap quote_pub (w_pub (run (P := P) s tz l w)))).
Proof. intros Hw. apply fresh_ok in Hw as [H1 H2]. now apply (run_keeps l w H1 H2). Qed.

(** *** How a reconnect loop ends *)
Definition looping (w : World P) : Prop := existsb is_reconnect w.(w_tasks) = true.
(** It gave up now: the feed is in error, and the next loop may start in five minutes. *)
Definition gave_up (w : World P) : Prop :=
  w.(w_feed).(_reconnect_not_before) = w.(w_mono) + 300 * 1000000 /\
  feed_state (sm_status w.(w_sm)) = F_ERROR /\ last_error (sm_status w.(w_sm)) = Some "reconnect attempts exhausted".
Definition ended (w w' : World P) : Prop :=
  (w'.(w_feed).(_reconnects) = w.(w_feed).(_reconnects) + 1 /\ feed_state (sm_status w'.(w_sm)) = F_RUNNING) \/
  (In (T_reconnect R_new) w.(w_tasks) /\ (w.(w_feed).(_accepting) = false \/ w.(w_provider) = None)) \/ gave_up w'.
Lemma quietly_ok {A} (m : SV (P := P) A) w : fst (quietly m w) = Ok tt.
Proof. unfold quietly, try_except, bind. now destruct (m w) as [[a|e] w']. Qed.
Definition still_there (r : result exn (option task)) : Prop := exists ph, r = Ok (Some (T_reconnect ph)).
Lemma failed_ends attempt delay (w : World P) : let '(r, w') := failed attempt delay w in still_there r \/ gave_up w'.
Proof.
  unfold failed, monotonic. cbv zeta. unfold bind at 1, gets. destruct (attempt <? 5).
  - unfold bind. pose proof (quietly_ok (on_provider p_disconnect) w) as Q. destruct (quietly _ w) as [r w']. cbn in Q. subst r. left. eexists. reflexivity.
  - unfold gave_up. mrun. right. repeat split.
Qed.
Lemma blocking_ends {A} (m : SV A) attempt delay next w : let '(r, w') := blocking m attempt delay next w in still_there r \/ gave_up w'.
Proof.
  unfold blocking, try_except, bind at 1. destruct (m w) as [[a|e] w1]; [left; eexists; reflexivity | apply failed_ends].
Qed.
Lemma reconnect_ends ph w : In (T_reconnect ph) w.(w_tasks) -> let '(r, w') := _reconnect s ph w in still_there r \/ ended w w'.
Proof.
  intros Hi. unfold ended. destruct ph as [|a d wake|a d|a d|a]; cbn [_reconnect].
  - unfold monotonic, feed. unfold bind at 1 2 3, gets. destruct (w_provider w) eqn:Ep; [|right; right; left; auto].
    destruct (_accepting (w_feed w)) eqn:Ea; cbn [negb]; [|right; right; left; auto].
    unfold bind. pose proof (quietly_ok (on_provider p_disconnect) w) as Q. destruct (quietly _ w) as [r w']. cbn in Q. subst r. left. eexists. reflexivity.
  - unfold bind at 1, monotonic, gets. destruct (_ <? wake); [left; eexists; reflexivity|].
    match goal with |- context [blocking ?m ?a ?d ?n w] => pose proof (blocking_ends m a d n w) as B; destruct (blocking m a d n w) as [r w'] end. tauto.
  - match goal with |- context [blocking ?m ?a ?d ?n w] => pose proof (blocking_ends m a d n w) as B; destruct (blocking m a d n w) as [r w'] end. tauto.
  - match goal with |- context [blocking ?m ?a ?d ?n w] => pose proof (blocking_ends m a d n w) as B; destruct (blocking m a d n w) as [r w'] end. tauto.
  - unfold feed. mrun. right. left. split; reflexivity.
Qed.
Lemma osteps_still d o o' : rtc (ostep d) o o' -> o_not_before o' = o_not_before o /\ o_mono o' = o_mono o /\ exists l, o_tasks o' = o_tasks o ++ l.
Proof.
  induction 1 as [o|o o1 o2 St _ (H1 & H2 & l & H3)]; [split; [reflexivity|]; split; [reflexivity | exists []; now rewrite app_nil_r]|].
  rewrite H1, H2, H3. destruct St; cbn; (split; [reflexivity|]); (split; [reflexivity|]); [now exists l| | |]; rewrite <- app_assoc; eauto.
Qed.
Lemma looping_count (l : list task) : existsb is_reconnect l = true <-> count_of is_reconnect l <> O.
Proof. rewrite <- count_none. destruct (existsb _ _); easy. Qed.
(** An action ends a loop only as [ended] says. *)
Lemma perform_ends a w : tasks_ok (obs w) -> looping w -> ~ looping (perform s tz a w) -> ended w (perform s tz a w).
Proof.
  intros Hw L N. unfold looping in *.
  assert (forall (w' : World P) d, rtc (ostep d) (obs w) (obs w') -> existsb is_reconnect (w_tasks w') = true) as Keep.
  { intros w' d (_ & _ & l & E)%osteps_still. change (w_tasks w' = w_tasks w ++ l) in E. now rewrite E, existsb_app, L. }
  destruct a as [q|us|i| | | |]; cbn [perform] in *; try contradiction.
  - exfalso. apply N. eapply Keep, steps_on_tick.
  - destruct (w_tasks w !! i) as [t|] eqn:Ei; [|contradiction].
    assert (task_ok (w_mono w) t) as Ht by (eapply Forall_lookup_1; [apply Hw | exact Ei]). pose proof (resume_spec s tz t w Ht) as R.
    destruct (is_reconnect t) eqn:K.
    + destruct t as [| |ph]; try discriminate K. cbn [resume] in *. pose proof (reconnect_ends ph w (proj1 (list_elem_of_In _ _) (list_elem_of_lookup_2 _ _ _ Ei))) as E. destruct (_reconnect s ph w) as [r w'].
      destruct E as [[ph' ->]|E]; [|exact E]. exfalso. apply N. destruct R as [(_ & [=] & _)|[St _]].
      apply osteps_still in St as (_ & _ & l & El). change (w_tasks w' = w_tasks w ++ l) in El. cbn. apply existsb_exists. exists (T_reconnect ph').
      split; [|reflexivity]. apply list_elem_of_In, list_elem_of_insert. rewrite El, length_app. apply lookup_lt_Some in Ei. lia.
    + destruct (resume s tz t w) as [r w']. destruct R as [[C _]|[St R]]; [congruence|]. exfalso. apply N.
      pose proof (Keep _ _ St) as L'. apply osteps_still in St as (_ & _ & l & El). change (w_tasks w' = w_tasks w ++ l) in El.
      assert (w_tasks w' !! i = Some t) as Ei' by (rewrite El; apply lookup_app_l_Some, Ei).
      apply looping_count in L'. apply looping_count. cbn [w_tasks put_tasks]. pose proof (count_delete is_reconnect _ i t Ei') as Cd. rewrite K in Cd.
      destruct r as [[t'|]|e]; cbn; [rewrite (count_insert _ _ _ t) by (auto; destruct (R t' eq_refl) as [[_ K'] _]; congruence)| |]; lia.
  - exfalso. apply N. destruct (_ || _); [exact L|]. eapply Keep, start_action_steps.
  - exfalso. apply N. destruct (_ || _); [exact L|]. match goal with |- existsb _ (w_tasks (snd (?m w))) = _ => set (w' := snd (m w)); assert (obs w' = obs w \/ obs w' = drop_flush (obs w)) as D by exact (stop_action_drops w) end.
    assert (w_tasks w' = w_tasks w \/ w_tasks w' = List.filter (fun t => negb (is_flush t)) (w_tasks w)) as [-> | ->] by (destruct D as [D|D]; injection D; auto); [exact L|].
    apply existsb_exists in L as (t & Hi & E). apply existsb_exists. exists t. split; [|exact E]. apply List.filter_In. split; [exact Hi|]. now destruct t.
  - exfalso. apply N. eapply Keep, reconnect_action_steps.
  - exfalso. apply N. assert (obs (snd (reset_provider w)) = obs w) as E by exact (quiet_reset (obs w) w eq_refl). injection E as _ _ E _ _. now rewrite E.
Qed.
(** The clock goes forward, and the cool-down is moved only by giving up. *)
Lemma perform_clock a w : tasks_ok (obs w) -> let w' := perform s tz a w in w_mono w <= w_mono w' /\
  (_reconnect_not_before (w_feed w') = _reconnect_not_before (w_feed w) \/ _reconnect_not_before (w_feed w') = w_mono w + 300 * 1000000).
Proof.
  intros Hw. cbv zeta.
  assert (forall w' : World P, o_mono (obs w') = o_mono (obs w) -> o_not_before (obs w') = o_not_before (obs w) -> w_mono w <= w_mono w' /\
    (_reconnect_not_before (w_feed w') = _reconnect_not_before (w_feed w) \/ _reconnect_not_before (w_feed w') = w_mono w + 300 * 1000000)) as Same.
  { intros w' E1 E2. cbn in E1, E2. split; [lia | now left]. }
  assert (forall (w' : World P) d, rtc (ostep d) (obs w) (obs w') -> w_mono w <= w_mono w' /\
    (_reconnect_not_before (w_feed w') = _reconnect_not_before (w_feed w) \/ _reconnect_not_before (w_feed w') = w_mono w + 300 * 1000000)) as Keep
    by (intros w' d (H1 & H2 & _)%osteps_still; now apply Same).
  destruct a as [q|us|i| | | |]; cbn [perform] in *.
  - eapply Keep, steps_on_tick.
  - cbn. split; [lia | now left].
  - destruct (w_tasks w !! i) as [t|] eqn:Ei; [|now apply Same].
    assert (task_ok (w_mono w) t) as Ht by (eapply Forall_lookup_1; [apply Hw | exact Ei]). pose proof (resume_spec s tz t w Ht) as R.
    destruct (resume s tz t w) as [r w']. destruct R as [(_ & _ & G)|[St _]]; [|exact (Keep w' _ St)].
    unfold gives_up in G. injection G as _ _ _ G1 G2. cbn. rewrite G1, G2. split; [lia | now right].
  - destruct (_ || _); [now apply Same|]. eapply Keep, start_action_steps.
  - destruct (_ || _); [now apply Same|]. match goal with |- context [snd (?m w)] => set (w' := snd (m w)); assert (obs w' = obs w \/ obs w' = drop_flush (obs w)) as D by exact (stop_action_drops w) end.
    destruct D as [D|D]; apply Same; now rewrite D.
  - eapply Keep, reconnect_action_steps.
  - apply Same; now rewrite (quiet_reset (obs w) w eq_refl).
Qed.
Lemma run_cools l : forall w d, tasks_ok (obs w) -> published_ok (interval_us s) (obs w) -> d <= _reconnect_not_before (w_feed w) -> d <= w_mono w + 300 * 1000000 ->
  d <= _reconnect_not_before (w_feed (run s tz l w)).
Proof.
  induction l as [|a l IH]; intros w d H1 H2 H3 H4; [exact H3|]. cbn [run]. destruct (perform_clock a w H1) as [C1 C2].
  apply IH; [now apply perform_tasks | now apply perform_published | | lia]. destruct C2; lia.
Qed.

(** C39: recovery is bounded: whatever happens and in whatever order, at most one
    reconnect loop and at most one flush loop exist; a loop is in one of at most
    five attempts, sleeping before the n-th for 2^(n-1) seconds, at most thirty;
    whatever action ends a loop, it ends because it reconnected, because it had not
    begun and the feed takes no ticks or has no provider, or because it gave up:
    then the feed is in error with "reconnect attempts exhausted", and in
    whatever follows no reconnect loop exists until five minutes later. *)
Theorem recovery_bounded l w : fresh w ->
  let w' := run (P := P) s tz l w in
  (count_of is_reconnect (w_tasks w') <= 1)%nat /\ (count_of is_flush (w_tasks w') <= 1)%nat /\
  (forall ph, In (T_reconnect ph) (w_tasks w') -> phase_ok (w_mono w') ph) /\
  (looping w' -> forall a, let w2 := perform s tz a w' in ~ looping w2 ->
     (w2.(w_feed).(_reconnects) = w'.(w_feed).(_reconnects) + 1 /\ feed_state (sm_status w2.(w_sm)) = F_RUNNING) \/
     (In (T_reconnect R_new) w'.(w_tasks) /\ (w'.(w_feed).(_accepting) = false \/ w'.(w_provider) = None)) \/
     (feed_state (sm_status w2.(w_sm)) = F_ERROR /\ last_error (sm_status w2.(w_sm)) = Some "reconnect attempts exhausted" /\
      forall l2, looping (run s tz l2 w2) -> w_mono w2 + 300 * 1000000 <= w_mono (run s tz l2 w2))).
Proof.
  intros Hw. apply fresh_ok in Hw as [H1 H2]. destruct (run_keeps l w H1 H2) as [T Pb]. pose proof T as [K1 K2 _ K4]. cbv zeta.
  split; [exact K1|]. split; [exact K2|]. split; [intros ph Hi; rewrite List.Forall_forall in K4; exact (K4 _ Hi)|].
  intros L a N. destruct (perform_ends a _ T L N) as [E|[E|(E1 & E2 & E3)]]; [now left | right; now left|]. right. right.
  split; [exact E2|]. split; [exact E3|]. intros l2 L2. set (w2 := perform s tz a (run s tz l w)) in *.
  pose proof (perform_tasks s tz a _ T) as T2. pose proof (perform_published a _ T Pb) as P2. fold w2 in T2, P2.
  destruct (run_keeps l2 w2 T2 P2) as [[_ _ C _] _]. specialize (C L2). cbn in C.
  pose proof (run_cools l2 w2 (w_mono w2 + 300 * 1000000) T2 P2 ltac:(lia) ltac:(lia)). lia.
Qed.
End service_theorems.

(** ** A Breeze feed *)
Definition breeze_env : environ :=
  <["MARKET_DATA_PROVIDER" := "icici_breeze"]> (<["BREEZE_API_KEY" := "k"]> (<["BREEZE_SECRET_KEY" := "q"]>
  (<["BREEZE_SESSION_TOKEN" := "fresh"]> (<["NIFTY_OPTION_STRIKE_RANGE" := "1"]> ∅)))).
Definition breeze_settings : Settings :=
  Eval vm_compute in
    match load_settings breeze_env as r return match fst r with Ok _ => Settings | Err _ => unit end
    with (Ok s, _) => s | (Err _, _) => tt end.
Definition master_row (ot strike : string) : json :=
  JObj [("underlying", JStr "NIFTY"); ("expiry", JStr "08-Sep-2026"); ("strike", JStr strike); ("option_type", JStr ot);
        ("token", JStr (ot +:+ strike)); ("exchange", JStr "NFO")].
Definition master_rows : list json :=
  flat_map (fun k => [master_row "CE" k; master_row "PE" k]) ["25000"; "25050"; "25100"; "25150"; "25200"].
Definition demo_sdk : BreezeSdk := {|
  sdk_answer := fun _ _ => Ok JNull; sdk_master := fun _ => Ok master_rows; sdk_equity_master := fun _ => Ok ∅;
  sdk_now := fun _ => 0; host_zone := IST |}.
Definition ten_o_clock : Z := Eval vm_compute in midnight (ymd2ord 2026 9 3) + hhmm 10 0 - IST.
Definition no_rows : MDb := mkMDb [] [] [] [] [] [].
Definition idle : World BreezeObject :=
  mkWorld None (empty_cache (f_of_Z 60)) new_aggregator empty_master (mkFeed false [] no_options ∅ 0 0) unchecked
    (mkMWorld no_rows [] ten_o_clock) (1000 * second) [] [] false.
Definition spot (at_ : Z) (price : Z) : Quote :=
  QIndex (build_index_quote "NIFTY" (Some (f_of_Z price)) None None None None None None "icici_breeze" (ten_o_clock + at_ * second)).
Definition play (l : list action) (w : World BreezeObject) : World BreezeObject :=
  run (env := demo_session_env) (H := breeze_provider (H := demo_sdk)) breeze_settings IST l w.
Definition started : World BreezeObject :=
  Eval vm_compute in play [SchedulerStart; Tick (spot 0 25101); Elapse 1000000; Resume 0] idle.
Definition p_symbols (w : World BreezeObject) : list string := from_option (fun p : BreezeObject => elements (BreezeProvider._subscribed (snd p))) [] w.(w_provider).
Definition universe (w : World BreezeObject) : list string := elements (default ∅ ((w_feed w).(_option_universe) !! "NIFTY")).
(** Started: the window around the money is streamed and recorded. *)
Example start_subscribes_window :
  feed_state (sm_status (w_sm started)) = F_RUNNING /\ w_tasks started = [T_flush (1016 * second)] /\
  sorted_set (universe started) = ["NIFTY|2026-09-08|25050|CE"; "NIFTY|2026-09-08|25050|PE"; "NIFTY|2026-09-08|25100|CE";
                                   "NIFTY|2026-09-08|25100|PE"; "NIFTY|2026-09-08|25150|CE"; "NIFTY|2026-09-08|25150|PE"] /\
  sorted_set (p_symbols started) = sorted_set (_INDEX_SUBSCRIBE ++ universe started).
Proof. vm_compute. repeat split. Qed.
Lemma idle_fresh : fresh idle.
Proof. repeat split. Qed.
Definition day : list action :=
  [SchedulerStart; Tick (spot 0 25101); Tick (spot 0 25102); Elapse 1000000; Resume 0; Tick (spot 1 25103); Elapse 200000000; Resume 0; Resume 1;
   Elapse 1000000; Resume 1].
(** In this run the feed starts, publishes, goes stale and reconnects. *)
Lemma quotes_spaced_witness :
  times "NIFTY" (omap quote_pub (w_pub (play day idle))) = [1000 * second; 1001 * second] /\
  spaced (interval_us breeze_settings) (times "NIFTY" (omap quote_pub (w_pub (play day idle)))).
Proof.
  split; [vm_compute; reflexivity|].
  exact (quotes_spaced (env := demo_session_env) (H := breeze_provider (H := demo_sdk)) breeze_settings IST day idle "NIFTY" idle_fresh).
Defined.
(** The feed stops while its loop sleeps; the loop fails five times, and gives up. *)
Definition giving_up : list action :=
  [SchedulerStart; Tick (spot 0 25101); Elapse 1000000; Resume 0; Elapse 200000000; Resume 0; Resume 1; SchedulerStop] ++
  flat_map (fun _ => [Elapse 30000000; Resume 0]) (seq 0 4) ++ [Elapse 30000000].
Definition act (a : action) (w : World BreezeObject) : World BreezeObject :=
  perform (env := demo_session_env) (H := breeze_provider (H := demo_sdk)) breeze_settings IST a w.
Lemma recovery_bounded_witness :
  let w := play giving_up idle in
  w_tasks w = [T_reconnect (R_sleep 5 (16 * second) (w.(w_mono) - 14 * second))] /\
  w_tasks (act (Resume 0) w) = [] /\ last_error (sm_status (w_sm (act (Resume 0) w))) = Some "reconnect attempts exhausted" /\
  (forall l2, looping (play l2 (act (Resume 0) w)) -> w_mono (act (Resume 0) w) + 300 * 1000000 <= w_mono (play l2 (act (Resume 0) w))).
Proof.
  pose proof (recovery_bounded (env := demo_session_env) (H := breeze_provider (H := demo_sdk)) breeze_settings IST giving_up idle idle_fresh) as R.
  cbv zeta. split; [vm_compute; reflexivity|]. split; [vm_compute; reflexivity|]. split; [vm_compute; reflexivity|].
  destruct R as (_ & _ & _ & R). destruct (R ltac:(vm_compute; reflexivity) (Resume 0) ltac:(vm_compute; discriminate)) as [[R1 _]|[[R1 _]|(_ & _ & R1)]].
  - exfalso. revert R1. vm_compute. discriminate.
  - exfalso. revert R1. vm_compute. intros [C|[]]. discriminate.
  - unfold play, act. exact R1.
Defined.

(** ** Defects, as runs *)
Definition recovered : World BreezeObject := Eval vm_compute in play [Elapse 200000000; Resume 0; Resume 1; Elapse 1000000; Resume 1; Resume 1; Resume 1; Resume 1] started.
(** After a reconnect the service believes its option universe subscribed; the
    provider streams the indices only, and the next flush changes nothing. *)
Example reconnect_loses_options :
  feed_state (sm_status (w_sm recovered)) = F_RUNNING /\ _reconnects (w_feed recovered) = 1 /\
  sorted_set (p_symbols recovered) = sorted_set _INDEX_SUBSCRIBE /\ universe recovered = universe started /\
  p_symbols (play [Elapse 15000000; Resume 0] recovered) = p_symbols recovered.
Proof. vm_compute. repeat split. Qed.
(** A feed stopped while its reconnect loop sleeps: the loop goes on without a
    provider and the stopped feed ends in ERROR. *)
Example stop_leaves_reconnect_loop :
  let stopped := play [Elapse 200000000; Resume 0; Resume 1; SchedulerStop] started in
  let later := play (flat_map (fun _ => [Elapse 30000000; Resume 0]) (seq 0 5)) stopped in
  feed_state (sm_status (w_sm stopped)) = F_STOPPED /\ w_running stopped = false /\
  feed_state (sm_status (w_sm later)) = F_ERROR /\ last_error (sm_status (w_sm later)) = Some "reconnect attempts exhausted".
Proof. vm_compute. repeat split. Qed.
(** Without a tick the start leaves CONNECTING; the scheduler declares the feed
    running all the same. *)
Example running_without_a_tick :
  let w := play [SchedulerStart; Elapse 21000000; Resume 0] idle in
  feed_state (sm_status (w_sm w)) = F_RUNNING /\ lc_last_tick_at (w_cache w) = None /\ last_tick_at (sm_status (w_sm w)) = None.
Proof. vm_compute. repeat split. Qed.
(** The token of a new contract is that of an older row: the transaction is
    rolled back, the ids recorded before the conflict stay, and point to nothing. *)
Definition reused_token : OptionContractRow :=
  mkOptionContract 1 "NIFTY" "NFO" "icici_breeze" (Some "PE25000") "NIFTY|2026-08-25|24000|PE" (ymd2ord 2026 8 25) (f_of_Z 24000) "PE" None None.
Example rolled_back_ids_stay :
  let w := play [SchedulerStart] (put_db (mkMWorld (add_contract reused_token no_rows) [] ten_o_clock) idle) in
  _contract_ids (w_feed w) = [("NIFTY|2026-09-08|25000|CE", 2)] /\ option_contracts (m_db (w_db w)) = [reused_token].
Proof. vm_compute. repeat split. Qed.
(** A contract the broker refused to stream is recorded as subscribed and never
    asked for again. *)
Definition refusing_sdk : BreezeSdk := {|
  sdk_answer := fun _ q => match q with SubscribeFeeds a => if String.eqb a.(fa_product) "options" then Err (OtherError "Exception" "") else Ok JNull | _ => Ok JNull end;
  sdk_master := fun _ => Ok master_rows; sdk_equity_master := fun _ => Ok ∅; sdk_now := fun _ => 0; host_zone := IST |}.
Example refused_contract_not_retried :
  let go := run (env := demo_session_env) (H := breeze_provider (H := refusing_sdk)) breeze_settings IST in
  let w := go [SchedulerStart; Tick (spot 0 25101); Elapse 1000000; Resume 0] idle in
  let w' := go [Elapse 15000000; Resume 0] w in
  sorted_set (p_symbols w) = sorted_set _INDEX_SUBSCRIBE /\ universe w = universe started /\ w_provider w' = w_provider w.
Proof. vm_compute. repeat split. Qed.

(** ** The tick of a subscribed contract *)
(** The names the option feed shows for the two underlyings ([service.py:477],
    [icici_breeze.py:730]): the display name, not the code subscribed with,
    possibly behind the feed's channel prefix. *)
Definition display_names (u : string) : list string :=
  if String.eqb u "NIFTY" then ["NIFTY 50"; "4.1!NIFTY 50"] else if String.eqb u "SENSEX" then ["SENSEX"; "1.1!SENSEX"] else [].
(** A tick about a subscribed contract: the terms of the contract as subscribed,
    the side in letters of any case, under the given name. *)
Definition tick_about (name right : string) (a : FeedArgs) : json :=
  JObj [("stock_name", JStr name); ("product_type", JStr "Options"); ("expiry_date", JStr (default "" a.(fa_expiry)));
        ("right", JStr right); ("strike_price", JStr (default "" a.(fa_strike)))].
Lemma f_g_nonempty k x : py_float (f_g k) = Some x -> truthy (f_g k) = true.
Proof. intros E. apply truthy_spec. intros Z. rewrite Z in E. discriminate E. Qed.

Lemma jor_str x v : truthy x = true -> jor (JStr x) v = JStr x.
Proof. intros E. unfold jor. cbn [jtruthy]. now rewrite E. Qed.
(** The four values of such a tick. *)
Lemma by_contract_of m u date right strike :
  truthy u = true -> truthy date = true -> truthy right = true -> truthy strike = true ->
  by_contract (JObj [("stock_name", JStr u); ("product_type", JStr "Options"); ("expiry_date", JStr date); ("right", JStr right);
                     ("strike_price", JStr strike)]) m =
  match dget String.eqb (lower right) _RIGHT_TO_OT, _parse_expiry (JStr date), py_float strike with
  | Some ot, Some e, Some k =>
      match make_option_symbol (_tick_symbol_to_internal u) e k ot with Ok sym => get_instrument sym m | Err _ => None end
  | _, _, _ => None
  end.
Proof.
  intros Hu Hd Hr Hk. unfold by_contract. set (t := JObj _).
  change (jget "stock_code" t) with JNull. change (jget "stock_name" t) with (JStr u). change (jget "right" t) with (JStr right).
  change (jget "strike_price" t) with (JStr strike). change (jget "expiry_date" t) with (JStr date).
  change (jor JNull (JStr u)) with (JStr u). unfold text_of_value. rewrite !jor_str by assumption. cbn [py_str jtruthy]. rewrite Hk, Hd. cbn [negb orb].
  destruct (dget _ _ _); [|reflexivity]. cbn [BreezeProvider._f]. destruct (_parse_expiry (JStr date)); [|reflexivity].
  now destruct (py_float strike).
Qed.
Lemma feed_date_truthy e : four_digit_year e -> truthy (feed_date e) = true.
Proof.
  intros He. pose proof (parse_feed_date e He) as E. unfold _parse_expiry, present in E. now destruct (truthy (feed_date e)).
Qed.

Lemma lower_nonempty x y : lower x = lower y -> truthy y = true -> truthy x = true.
Proof. destruct x; [|reflexivity]. destruct y; [discriminate|]. discriminate. Qed.
(** C40: the feed's ticks find their contract.  A NIFTY or SENSEX option of the
    instrument master, whose strike six significant digits keep and whose expiry has
    a four-digit year, is subscribed under its own underlying, expiry, side and
    strike; and a tick that shows those terms, the side in letters of any case,
    under the feed's display name of the underlying - "NIFTY 50" or "SENSEX", with
    or without the channel prefix, which for NIFTY is not the name the master is
    keyed by - is resolved by [_resolve_tick] to that very contract. *)
Theorem feed_tick_resolves m u e k ot i a name right :
  ot = "CE" \/ ot = "PE" -> In name (display_names u) ->
  four_digit_year e -> py_float (f_g k) = Some k ->
  i.(i_underlying) = Some u -> i.(i_expiry) = Some e -> i.(i_strike) = Some k -> i.(i_option_type) = Some ot -> is_index i = false ->
  (forall sym, make_option_symbol u e k ot = Ok sym -> get_instrument sym m = Some i) ->
  _feed_args i = Ok a -> lower right = lower (default "" a.(fa_right)) ->
  a.(fa_stock) = u /\ a.(fa_right) = Some (if String.eqb ot "CE" then "call" else "put") /\ _resolve_tick m (tick_about name right a) = Some i.
Proof.
  intros Hot Hn He Hk Iu Ie Ik Io Ii Hm. unfold _feed_args. rewrite Ii, Ie, Ik, Iu, Io. intros [= <-].
  cbn [fa_stock fa_expiry fa_right fa_strike default from_option id]. intros Hr.
  assert (upper u = u /\ truthy name = true /\ _tick_symbol_to_internal name = u) as (Huu & Ht & Hi).
  { unfold display_names in Hn. destruct (String.eqb_spec u "NIFTY") as [->|_]; [|destruct (String.eqb_spec u "SENSEX") as [->|_]; [|destruct Hn]];
      (destruct Hn as [<-|[<-|[]]]; vm_compute; auto). }
  split; [exact Huu|]. split; [now destruct Hot as [-> | ->]|].
  unfold _resolve_tick, tick_about. cbn [fa_stock fa_expiry fa_right fa_strike default from_option id]. unfold by_token.
  match goal with |- context [jget "instrument_token" ?t] => change (jget "instrument_token" t) with JNull end. cbn match.
  rewrite by_contract_of; [|exact Ht | now apply feed_date_truthy | eapply lower_nonempty; [exact Hr|]; now destruct Hot as [-> | ->] | exact (f_g_nonempty k k Hk)].
  rewrite (parse_feed_date e He), Hi, Hr. unfold _strike_str. rewrite Hk.
  assert (dget String.eqb (lower (right_of (Some ot))) _RIGHT_TO_OT = Some ot) as -> by (destruct Hot as [-> | ->]; reflexivity).
  destruct (make_option_symbol u e k ot) as [sym|x] eqn:E; [now apply Hm|]. exfalso.
  unfold make_option_symbol in E. destruct Hot as [-> | ->]; discriminate E.
Qed.
Definition demo_call : Instrument :=
  Eval vm_compute in
    match option_instrument "NIFTY" (ymd2ord 2026 9 8) (f_of_Z 25100) "CE" NFO None None None (Some "7") as r
    return match r with Ok _ => Instrument | Err _ => unit end with Ok i => i | Err _ => tt end.
Lemma feed_tick_resolves_witness :
  let m := snd (load [demo_call] None None empty_master) in
  let a := mkFeedArgs "NFO" "NIFTY" "options" (Some "08-Sep-2026") (Some "call") (Some "25100") in
  _feed_args demo_call = Ok a /\ _resolve_tick m (tick_about "NIFTY 50" "Call" a) = Some demo_call.
Proof.
  cbv zeta. split; [vm_compute; reflexivity|].
  apply (feed_tick_resolves _ "NIFTY" (ymd2ord 2026 9 8) (f_of_Z 25100) "CE" demo_call); try reflexivity.
  - now left.
  - now left.
  - split; [|split]; vm_compute; congruence.
  - intros sym. vm_compute. now intros [= <-].
Defined.

(** ** The daily stop *)
Definition holds_nothing (a : CandleAggregator) : Prop :=
  Forall (fun kv => held (snd kv) = []) a.(_index) /\ Forall (fun kv => held (snd kv) = []) a.(_option).
Lemma finished_held now se : held (snd (close_through now (finish se))) = [].
Proof. unfold finish. destruct (s_current se) eqn:E; unfold close_through; cbn; rewrite ?E; reflexivity. Qed.
Lemma force_close_holds_nothing now a idx opt a' : force_close_all now a = (idx, opt, a') -> holds_nothing a'.
Proof.
  unfold force_close_all, flush, close_all. cbn. intros [= _ _ <-]. split; cbn; rewrite map_map; apply List.Forall_forall;
    intros kv Hi; apply in_map_iff in Hi as (x & <- & _); apply finished_held.
Qed.
#[local] Arguments force_close_all : simpl never.
#[local] Arguments no_options : simpl never.
#[local] Arguments quietly : simpl never.
Section stop.
Context {P : Type} `{MarketDataProvider P} {env : SessionEnv}.
(** Both writes, one after the other, and nothing else. *)
Lemma persist_saves idx opt (w : World P) : w_ok w.(w_db) -> appending w.(w_db) -> (forall i, In i opt -> listed i (m_db w.(w_db))) ->
  exists d, _persist idx opt w = (Ok tt, put_db d w) /\ w_ok d /\ keeps (m_db w.(w_db)) (m_db d) /\
    (forall i, In i idx -> stored_index i (m_db d)) /\ (forall i, In i opt -> stored_option i (m_db d)) /\
    rows_from market_candles carries_index idx w.(w_db) d /\ rows_from option_candles carries_option opt w.(w_db) d.
Proof.
  intros Hw Ha Hl.
  destruct (index_written idx (w_db w) Hw Ha) as (n1 & E1 & _ & W1 & A1 & K1 & I1).
  destruct (option_written opt (snd (persist_index_candles idx (w_db w))) W1 A1) as (n2 & E2 & _ & W2 & A2 & K2 & I2).
  { intros i Hi. eapply listed_keeps; [exact K1 | now apply Hl]. }
  assert (rows_from market_candles carries_index idx (w_db w) (snd (persist_option_candles opt (snd (persist_index_candles idx (w_db w))))) /\
          rows_from option_candles carries_option opt (w_db w) (snd (persist_option_candles opt (snd (persist_index_candles idx (w_db w)))))) as [R1 R2].
  { split; intros Q H1 H2 H3.
    - now apply index_rows_after_option, index_rows_kept.
    - now apply option_rows_kept, option_rows_after_index. }
  destruct (persist_index_candles idx (w_db w)) as [r1 d1] eqn:P1. cbn [fst snd] in *. subst r1.
  destruct (persist_option_candles opt d1) as [r2 d2] eqn:P2. cbn [fst snd] in *. subst r2.
  assert (idx = [] /\ opt = [] \/ _persist idx opt w = (Ok tt, put_db d2 w)) as [[-> ->]|E].
  { assert ((let! n1 := persist_index_candles idx in let! n2 := persist_option_candles opt in ret tt) (w_db w) = (Ok tt, d2)) as E.
    { unfold bind. rewrite P1. now rewrite P2. }
    destruct idx; [destruct opt; [now left|]|]; right; unfold _persist, try_except, on_db, zoom; now rewrite E. }
  - injection P1 as <-. injection P2 as <-. exists (w_db w). cbn. split; [now destruct w|]. split; [exact Hw|]. split; [reflexivity|].
    split; [intros i []|]. split; [intros i []|]. now split.
  - exists d2. split; [exact E|]. split; [exact W2|]. split; [now transitivity (m_db d1)|].
    split; [|split; [intros i Hi; now apply has_option_stored, I2 | now split]].
    intros i Hi. apply has_index_stored. eapply has_index_keeps; [exact K2 | now apply I1].
Qed.
Lemma quietly_on_provider {A} (m : M P exn A) (w : World P) : exists p, quietly (on_provider m) w = (Ok tt, put_provider p w).
Proof.
  unfold quietly, try_except, bind, on_provider. destruct (w_provider w) as [p|] eqn:E.
  - destruct (m p) as [[a|e] p']; now exists (Some p').
  - exists None. cbn. rewrite <- E. now destruct w.
Qed.

(** What the aggregator holds: the finished candles not yet flushed and the one
    being built, of every series. *)
Definition candle_held (symbol interval : string) (b : _Bucket) : Candle :=
  mkCandle symbol interval b.(b_minute) b.(b_open) b.(b_high) b.(b_low) b.(b_close) b.(b_volume) b.(b_oi).
Definition held_index (a : CandleAggregator) : list index_item :=
  flat_map (fun kv => map (fun b => (fst (fst kv), snd (fst kv), candle_held (fst (fst kv)) a.(ag_interval) b))
                        (s_finished (snd kv) ++ option_list (s_current (snd kv)))) a.(_index).
Definition held_option (a : CandleAggregator) : list option_item :=
  flat_map (fun kv => map (fun b => (fst kv, candle_held ("contract:" +:+ str_of_Z (fst kv)) a.(ag_interval) b))
                        (s_finished (snd kv) ++ option_list (s_current (snd kv)))) a.(_option).
Lemma holds_nothing_held a : holds_nothing a -> held_index a = [] /\ held_option a = [].
Proof.
  assert (forall {K B : Type} (g : K * _Series -> _Bucket -> B) l, Forall (fun kv => held (snd kv) = []) l ->
    flat_map (fun kv => map (g kv) (s_finished (snd kv) ++ option_list (s_current (snd kv)))) l = []) as K0.
  { intros K B g l. induction 1 as [|kv l E _ IH]; [reflexivity|]. cbn. rewrite IH, app_nil_r. unfold held in E.
    destruct (s_finished (snd kv)); [|discriminate]. now destruct (s_current (snd kv)). }
  intros [H1 H2]. split; now apply K0.
Qed.
Lemma no_options_empty u : default ∅ (no_options !! u) = (∅ : gset string).
Proof.
  unfold no_options. destruct (list_to_map _ !! u) as [x|] eqn:E; [|reflexivity]. apply elem_of_list_to_map_2, list_elem_of_fmap in E as (v & [= _ ->] & _).
  reflexivity.
Qed.
Lemma close_finished m s : fst (close_through m (finish s)) = s_finished s ++ option_list (s_current s).
Proof. unfold finish, close_through. destruct (s_current s) eqn:E; cbn; [reflexivity|]. now rewrite E, app_nil_r. Qed.
Lemma force_close_held now a : fst (force_close_all now a) = (held_index a, held_option a).
Proof.
  unfold force_close_all, finish_all, flush, close_all. cbn [_index _option ag_interval fst]. rewrite !map_map. cbn [fst snd].
  unfold held_index, held_option. f_equal; rewrite flat_map_concat_map, map_map, <- flat_map_concat_map; apply flat_map_ext; intros [k s]; cbn [fst snd];
    now rewrite close_finished.
Qed.

(** C38: nothing is lost at the close.  Where the contract of every option candle
    still held is in the table, and the other connections, whatever they commit
    meanwhile, delete neither candles nor contracts, the stop of the day returns
    whatever the provider does and leaves a row for every candle the aggregator
    held, finished or still being built; every row of the tables is then one that
    was there, one another connection wrote, or one with the key and the figures of
    a held candle; nothing is held any more; ticks are no longer taken nor flushed;
    the provider, the cache, the contract ids and the option universe are dropped;
    and the feed is reported stopped.  The forced close is taken as one step: a
    tick already past the check of [_accepting] may still come between its halves
    ([Candles.tick_between_finish_and_flush]). *)
Theorem stop_saves_everything (w : World P) :
  w_ok w.(w_db) -> appending w.(w_db) ->
  (forall i, In i (held_option w.(w_agg)) -> In (fst i) (map ct_id (m_db w.(w_db)).(option_contracts))) ->
  exists w', stop_flow w = (Ok tt, w') /\
    (forall i, In i (held_index w.(w_agg)) -> stored_index i (m_db w'.(w_db))) /\
    (forall i, In i (held_option w.(w_agg)) -> stored_option i (m_db w'.(w_db))) /\
    rows_from market_candles carries_index (held_index w.(w_agg)) w.(w_db) w'.(w_db) /\
    rows_from option_candles carries_option (held_option w.(w_agg)) w.(w_db) w'.(w_db) /\
    w_ok w'.(w_db) /\ keeps (m_db w.(w_db)) (m_db w'.(w_db)) /\ held_index w'.(w_agg) = [] /\ held_option w'.(w_agg) = [] /\
    w'.(w_feed).(_accepting) = false /\ existsb is_flush w'.(w_tasks) = false /\ w'.(w_provider) = None /\
    w'.(w_cache) = clear_cache w.(w_cache) /\ w'.(w_feed).(_contract_ids) = [] /\
    (forall u, default ∅ (w'.(w_feed).(_option_universe) !! u) = ∅) /\ feed_state (sm_status w'.(w_sm)) = F_STOPPED.
Proof.
  intros Hw Ha Hl. pose proof (force_close_held (m_now w.(w_db)) w.(w_agg)) as Hh.
  destruct (force_close_all (m_now w.(w_db)) w.(w_agg)) as [[idx opt] a'] eqn:Hf. injection Hh as -> ->.
  set (idx := held_index (w_agg w)) in *. set (opt := held_option (w_agg w)) in *. unfold stop_flow. mrun. rewrite Hf. cbn.
  match goal with |- context [_persist idx opt ?w1] => destruct (persist_saves idx opt w1 Hw Ha Hl) as (d & -> & D1 & D2 & D3 & D4 & D5 & D6); set (w2 := put_db d w1) end.
  cbn beta iota zeta.
  match goal with |- context [quietly (on_provider ?m) ?w3] => destruct (quietly_on_provider m w3) as [p ->] end.
  eexists. split; [reflexivity|]. cbn. repeat (split; [assumption || reflexivity|]).
  apply force_close_holds_nothing, holds_nothing_held in Hf as [N1 N2]. split; [exact N1|]. split; [exact N2|]. split; [reflexivity|].
  split; [|repeat split; apply no_options_empty]. apply not_true_is_false. intros E. apply existsb_exists in E as (t & Hi & E).
  apply List.filter_In in Hi as [_ Hi]. now rewrite E in Hi.
Qed.
End stop.

(** An option tick of the window, then the close. *)
Definition option_spot (at_ : Z) (price : Z) : Quote :=
  match build_option_quote "NIFTY" (ymd2ord 2026 9 8) (f_of_Z 25100) "CE" (Some (f_of_Z price)) None None None None (Some 50) (Some 900) None None None None None
          None "icici_breeze" (ten_o_clock + at_ * second) with
  | Ok q => QOption q
  | Err _ => spot at_ price
  end.
Definition evening : World BreezeObject := Eval vm_compute in play [Tick (spot 1 25105); Tick (option_spot 1 120); Elapse 30000000; Tick (option_spot 31 125)] started.
Lemma stop_saves_everything_witness :
  map (fun i => fst i) (held_option evening.(w_agg)) = [5] /\
  exists w', stop_flow (H := breeze_provider (H := demo_sdk)) evening = (Ok tt, w') /\
    (forall i, In i (held_option evening.(w_agg)) -> stored_option i (m_db w'.(w_db))) /\
    rows_from option_candles carries_option (held_option evening.(w_agg)) evening.(w_db) w'.(w_db) /\
    held_option w'.(w_agg) = [] /\ feed_state (sm_status w'.(w_sm)) = F_STOPPED.
Proof.
  split; [vm_compute; reflexivity|].
  destruct (stop_saves_everything (H := breeze_provider (H := demo_sdk)) evening) as (w' & H1 & _ & H2 & _ & H3 & _ & _ & _ & H4 & H5).
  - vm_compute. reflexivity.
  - constructor.
  - intros i Hi. vm_compute in Hi. repeat (destruct Hi as [<-|Hi]; [vm_compute; tauto|]). destruct Hi.
  - exists w'. repeat (split; [assumption|]). apply H5.
Defined.

(** ** What a reconnect leaves subscribed *)
Section reconnect.
Context {P : Type} `{HP : ProviderLaws P} {env : SessionEnv} (s : Settings).
(** While the window does not move, resubscribing does not reach the provider. *)
Lemma resubscribe_one_same (w : World P) u :
  symbols_of (window_of s w.(w_master) w.(w_cache) (date_of (m_now w.(w_db))) u) = default ∅ ((w_feed w).(_option_universe) !! u) ->
  is_Some ((w_feed w).(_option_universe) !! u) ->
  exists n, resubscribe_one s u w = (Ok n, w).
Proof.
  intros E [x Ex]. unfold resubscribe_one, _current_option_window, _clock, feed. mrun. set (wanted := window_of _ _ _ _ _) in *.
  rewrite <- E.
  assert (List.filter (fun i => negb (bool_decide (internal_symbol i ∈ symbols_of wanted))) wanted = []) as ->.
  { assert (forall l, (forall i, In i l -> In i wanted) -> List.filter (fun i => negb (bool_decide (internal_symbol i ∈ symbols_of wanted))) l = []) as K; [|now apply K].
    induction l as [|i l IH]; intros Hl; [reflexivity|]. cbn. rewrite bool_decide_eq_true_2; [cbn; apply IH; intros j Hj; apply Hl; now right|].
    unfold symbols_of. rewrite elem_of_list_to_set. apply list_elem_of_In, in_map, Hl. now left. }
  rewrite difference_diag_L, bool_decide_eq_true_2 by reflexivity. cbn. rewrite bool_decide_eq_true_2 by reflexivity. cbn.
  eexists. f_equal. unfold put_feed. rewrite Ex in E. cbn in E. rewrite E. rewrite insert_id by exact Ex.
  destruct w as [? ? ? ? [] ? ? ? ? ? ?]; reflexivity.
Qed.
Definition window_unmoved (w : World P) : Prop :=
  forall u, In u _OPTION_UNDERLYINGS -> exists x, (w_feed w).(_option_universe) !! u = Some x /\
    symbols_of (window_of s w.(w_master) w.(w_cache) (date_of (m_now w.(w_db))) u) = x.
Lemma resubscribe_same (w : World P) : window_unmoved w ->
  exists w', _resubscribe_option_universe s w = (Ok tt, w') /\ w_provider w' = w_provider w /\ w_feed w' = w_feed w.
Proof.
  intros Hw. unfold _resubscribe_option_universe, feed, gets, bind at 1 2. destruct (w_provider w) as [p|] eqn:Ep; [|now exists w].
  destruct (negb _); [now exists w|].
  assert (forall l, (forall u, In u l -> In u _OPTION_UNDERLYINGS) -> exists ns, map_m (resubscribe_one s) l w = (Ok ns, w)) as K.
  { induction l as [|u l IH]; intros Hl; [now exists []|]. destruct (Hw u (Hl u (or_introl eq_refl))) as (x & Ex & Ew).
    destruct (resubscribe_one_same w u) as [n En]; [now rewrite Ex|now rewrite Ex|].
    destruct IH as [ns Ens]; [intros v Hv; apply Hl; now right|]. exists (n :: ns). cbn [map_m]. unfold bind. now rewrite En, Ens. }
  destruct (K _OPTION_UNDERLYINGS) as [ns Ens]; [auto|]. unfold bind. rewrite Ens. cbn. eexists. split; [reflexivity|]. now split.
Qed.
(** The calls of a successful reconnect, one after the other: with the window
    where it was, the provider streams nothing but the indices, and what the
    service records as subscribed is unchanged. *)
Theorem reconnect_forgets_options (w : World P) p w' :
  w_provider w = Some p -> window_unmoved w ->
  (on_provider p_disconnect ;;; on_provider p_connect ;;; on_provider (p_subscribe index_instruments) ;;; _resubscribe_option_universe s) w = (Ok tt, w') ->
  exists p', w_provider w' = Some p' /\ p_subscribed p' ⊆ symbols_of index_instruments /\ w_feed w' = w_feed w.
Proof.
  intros Hp Hw E. apply bind_inv_Ok in E as ([] & w1 & E1 & E). apply bind_inv_Ok in E as ([] & w2 & E2 & E).
  apply bind_inv_Ok in E as ([] & w3 & E3 & E).
  unfold on_provider in *. rewrite Hp in E1. pose proof (disconnect_forgets p) as D. destruct (p_disconnect p) as [r1 p1]. injection E1 as -> <-.
  cbn [w_provider put_provider] in E2. pose proof (connect_subscribed p1) as C. destruct (p_connect p1) as [r2 p2]. injection E2 as -> <-.
  cbn [w_provider put_provider] in E3. pose proof (subscribe_subscribed index_instruments p2) as S3. destruct (p_subscribe _ p2) as [r3 p3]. injection E3 as -> <-.
  cbn [snd] in *.
  destruct (resubscribe_same (put_provider (Some p3) (put_provider (Some p2) (put_provider (Some p1) w)))) as (w4 & E4 & F1 & F2); [exact Hw|].
  rewrite E4 in E. injection E as <-. exists p3. split; [exact F1|]. split; [|exact F2]. rewrite C, D in S3. set_solver.
Qed.
End reconnect.
