(* ===== verification/OptionsIntel.v ===== *)
(** * Option analytics

    [trading/market_data/options_intelligence.py]: every figure computed from an
    option chain that was already fetched - at-the-money strike and moneyness,
    expiry facts, open-interest totals, put/call ratios, max pain, the
    Black-Scholes price with its implied volatility (bisection) and Greeks,
    expected move, IV rank, data quality - and the summary that assembles them.
    The functions of the C library are the class [Libm] of [PyNum]. *)
From S2P Require Import Prelude PyStr PyFloat PyNum Config PyTime PyParse Symbols MarketTime MarketCache.
From Stdlib Require Import SpecFloat.

(** ** Canonical enums *)
Definition CALCULATION_VERSION : string := "phase9.1".
Inductive OptionType : Type := CALL | PUT.
Definition to_ce_pe (ot : OptionType) : string := match ot with CALL => "CE" | PUT => "PE" end.
Definition from_ce_pe (ce_pe : string) : result exn OptionType :=
  let s := upper (strip ce_pe) in
  if String.eqb s "CE" then Ok CALL
  else if String.eqb s "PE" then Ok PUT
  else Err (ValueError ("Not a CE/PE option type: '" +:+ s +:+ "'")).
Inductive Moneyness : Type := ITM | ATM | OTM.
Inductive IVSource : Type := PROVIDER | CALCULATED | UNAVAILABLE.
Inductive DataQuality : Type := COMPLETE | PARTIAL | STALE | MISSING.
#[global] Instance OptionType_eq_dec : EqDecision OptionType.
Proof. solve_decision. Defined.
#[global] Instance DataQuality_eq_dec : EqDecision DataQuality.
Proof. solve_decision. Defined.
Definition iv_source_value (s : IVSource) : string :=
  match s with PROVIDER => "PROVIDER" | CALCULATED => "CALCULATED" | UNAVAILABLE => "UNAVAILABLE" end.
Definition quality_value (q : DataQuality) : string :=
  match q with COMPLETE => "COMPLETE" | PARTIAL => "PARTIAL" | STALE => "STALE" | MISSING => "MISSING" end.
Definition TIMESTAMP_ALIGNMENT_TOLERANCE_SECONDS : Z := 5 * 60.

(** ** Results *)
Record ExpiryInfo : Type := mkExpiryInfo {
  ei_expiry : Z; days_to_expiry_calendar : Z; days_to_expiry_trading : option Z; is_nearest : bool; is_monthly : bool
}.
Record GreeksResult : Type := mkGreeks {
  delta : option float; gamma : option float; theta_per_day : option float; vega_per_1pct : option float; rho : option float
}.
Record OptionAnalyticsRow : Type := mkAnalyticsRow {
  ar_strike : float; ar_option_type : OptionType; ar_quote : option OptionQuote; ar_moneyness : option Moneyness;
  ar_iv : option float; ar_iv_source : IVSource; ar_greeks : option GreeksResult
}.
Record OIAnalytics : Type := mkOI {
  total_call_oi : Z; total_put_oi : Z; total_call_oi_change : option Z; total_put_oi_change : option Z;
  top_call_oi_strikes : list (float * Z); top_put_oi_strikes : list (float * Z);
  call_oi_concentration : option float; put_oi_concentration : option float
}.
Record PCRResult : Type := mkPCR { oi_pcr : option float; volume_pcr : option float }.
Record MaxPainResult : Type := mkMaxPain { max_pain_strike : option float; payouts : list (float * float) }.
Record SupportResistance : Type := mkSR { oi_support : list float; oi_resistance : list float }.
Record ExpectedMoveResult : Type := mkMove { expected_move : option float; method : string }.
Record IVRankResult : Type := mkIVRank {
  iv_rank : option float; iv_percentile : option float; ivr_status : string; ivr_reason : option string
}.
Record DataQualityReport : Type := mkQuality { dq_status : DataQuality; dq_reasons : list string }.
Record Provenance : Type := mkProvenance {
  underlying_source : string; option_chain_source : string; pv_spot_timestamp : option Z; chain_timestamp : option Z;
  calculation_version : string; risk_free_rate : float; provider_call_count : Z
}.
Record MarketStructureSummary : Type := mkSummary {
  ms_underlying : string; ms_spot : option float; ms_spot_timestamp : option Z; ms_expiry : Z;
  ms_expiry_info : option ExpiryInfo; ms_atm_strike : option float; ms_oi : OIAnalytics; ms_pcr : PCRResult;
  ms_max_pain : MaxPainResult; ms_support_resistance : SupportResistance; ms_atm_iv : option float;
  ms_atm_iv_source : IVSource; ms_expected_move : ExpectedMoveResult; ms_iv_rank : IVRankResult;
  ms_quality : DataQualityReport; ms_provenance : Provenance; ms_rows : list OptionAnalyticsRow; ms_as_of : option stamp
}.

(** ** At the money, moneyness *)
Definition atm_key (spot s : float) : float * float := (distance spot s, s).
Definition atm_strike (strikes : list float) (spot : option float) : option float :=
  match strikes, spot with
  | x :: r, Some p => Some (min_lt (fun a b => pair_ltb (atm_key p a) (atm_key p b)) x r)
  | _, _ => None
  end.
Definition classify_moneyness (strike : float) (spot : option float) (ot : OptionType) (atm : option float)
    : option Moneyness :=
  match spot with
  | None => None
  | Some p =>
      if match atm with Some a => f_eqb strike a | None => false end then Some ATM
      else match ot with
           | CALL => Some (if f_ltb strike p then ITM else OTM)
           | PUT => Some (if f_gtb strike p then ITM else OTM)
           end
  end.

(** ** Expiries *)
(** 15:30 in Asia/Kolkata, as a UTC instant. *)
Definition settlement_datetime (expiry : Z) : Z := midnight expiry + time_us 15 30 0 0 - IST.
Definition year_month (e : Z) : Z * Z := let '(y, m, _) := ord2ymd e in (y, m).
Definition same_month (expiry e : Z) : bool := bool_decide (year_month e = year_month expiry).
Definition is_monthly_expiry (expiry : Z) (all_expiries : list Z) : bool :=
  match List.filter (same_month expiry) all_expiries with
  | [] => false
  | e :: r => expiry =? fold_left Z.max r e
  end.
(** [(e < today, abs(days))], compared as a tuple. *)
Definition expiry_closer (today a b : Z) : bool :=
  if Bool.eqb (a <? today) (b <? today) then Z.abs (a - today) <? Z.abs (b - today)
  else negb (a <? today).
Definition stamp_date (t : stamp) : Z := date_of t.(st_local).
Definition build_expiry_info (expiry : Z) (all_expiries : list Z) (as_of : stamp) (trading_days : option (list Z))
    : ExpiryInfo :=
  let today := stamp_date as_of in
  let nearest := match all_expiries with [] => None | e :: r => Some (min_lt (expiry_closer today) e r) end in
  mkExpiryInfo expiry (expiry - today)
    ((fun days => Z.of_nat (List.length (List.filter (fun d => (today <? d) && (d <=? expiry)) days))) <$> trading_days)
    (bool_decide (nearest = Some expiry)) (is_monthly_expiry expiry all_expiries).
Definition SECONDS_PER_YEAR : float := f_of_Z (365 * 24 * 3600).
(** A naive [as_of] is taken as UTC. *)
Definition time_to_expiry_years (as_of : stamp) (expiry : Z) : float :=
  f_div (f_max (total_seconds (settlement_datetime expiry - instant_of 0 as_of)) f_zero) SECONDS_PER_YEAR.

(** ** Open interest *)
Definition chain_pairs (chain : OptionChain) : list (float * option OptionQuote * option OptionQuote) :=
  map (fun r => (r.(row_strike), r.(row_call), r.(row_put))) chain.(oc_rows).
(** One side of the accumulation: the open interest by strike, the sum of the
    changes, and whether any change was seen. *)
Definition oi_side : Type := list (float * Z) * Z * bool.
Definition add_oi (strike : float) (q : option OptionQuote) (acc : oi_side) : oi_side :=
  let '(oi, change, any) := acc in
  match q with
  | Some q =>
      match q.(oq_oi) with
      | Some n =>
          let oi := dset f_eqb strike n oi in
          match q.(oq_oi_change) with Some c => (oi, change + c, true) | None => (oi, change, any) end
      | None => acc
      end
  | None => acc
  end.
Definition sum_Z (l : list Z) : Z := fold_right Z.add 0 l.
(** Descending open interest, then ascending strike. *)
Definition oi_before (a b : float * Z) : bool :=
  if snd a =? snd b then f_ltb (fst a) (fst b) else snd b <? snd a.
Definition oi_sorted (l : list (float * Z)) : list (float * Z) := sort_by (fun a b => negb (oi_before b a)) l.
Definition concentration (top : list (float * Z)) (total : Z) : result exn (option float) :=
  match top with
  | (_, n) :: _ => if total =? 0 then Ok None else let? x := int_div n total in Ok (Some x)
  | [] => Ok None
  end.
Definition calculate_oi_analytics (chain : OptionChain) (top_n : Z) : result exn OIAnalytics :=
  let '(call_oi, call_change, any_call) :=
    fold_left (fun acc p => add_oi (fst (fst p)) (snd (fst p)) acc) (chain_pairs chain) ([], 0, false) in
  let '(put_oi, put_change, any_put) :=
    fold_left (fun acc p => add_oi (fst (fst p)) (snd p) acc) (chain_pairs chain) ([], 0, false) in
  let total_call := sum_Z (map snd call_oi) in
  let total_put := sum_Z (map snd put_oi) in
  let top_calls := slice_of 0 top_n (oi_sorted call_oi) in
  let top_puts := slice_of 0 top_n (oi_sorted put_oi) in
  let? cc := concentration top_calls total_call in
  let? pc := concentration top_puts total_put in
  Ok (mkOI total_call total_put (if any_call then Some call_change else None)
        (if any_put then Some put_change else None) top_calls top_puts cc pc).
Definition calculate_support_resistance (oi : OIAnalytics) (top_n : Z) : SupportResistance :=
  mkSR (map fst (slice_of 0 top_n oi.(top_put_oi_strikes))) (map fst (slice_of 0 top_n oi.(top_call_oi_strikes))).

(** ** Put/call ratios *)
Definition known (f : OptionQuote -> option Z) (q : option OptionQuote) : list Z :=
  match q with Some q => match f q with Some n => [n] | None => [] end | None => [] end.
Definition ratio (have : bool) (puts calls : Z) : result exn (option float) :=
  if have && negb (calls =? 0) then let? x := int_div puts calls in Ok (Some (f_round 4 x)) else Ok None.
Definition calculate_pcr (chain : OptionChain) : result exn PCRResult :=
  let calls f := flat_map (fun p => known f (snd (fst p))) (chain_pairs chain) in
  let puts f := flat_map (fun p => known f (snd p)) (chain_pairs chain) in
  let have f := negb (bool_decide (calls f ++ puts f = [])) in
  let? oi := ratio (have oq_oi) (sum_Z (puts oq_oi)) (sum_Z (calls oq_oi)) in
  let? vol := ratio (have oq_volume) (sum_Z (puts oq_volume)) (sum_Z (calls oq_volume)) in
  Ok (mkPCR oi vol).

(** ** Max pain *)
Definition oi_or_zero (q : option OptionQuote) : Z :=
  match q with Some q => default 0 q.(oq_oi) | None => 0 end.
Definition oi_by_strike (chain : OptionChain) : list (float * (Z * Z)) :=
  fold_left (fun d p => dset f_eqb (fst (fst p)) (oi_or_zero (snd (fst p)), oi_or_zero (snd p)) d) (chain_pairs chain) [].
Definition add_pain (candidate : float) (total : float) (e : float * (Z * Z)) : result exn float :=
  let '(strike, (call_oi, put_oi)) := e in
  let? c := py_float_of_int call_oi in
  let total := f_add total (f_mul (f_max (f_sub candidate strike) f_zero) c) in
  let? p := py_float_of_int put_oi in
  Ok (f_add total (f_mul (f_max (f_sub strike candidate) f_zero) p)).
Definition payout (d : list (float * (Z * Z))) (candidate : float) : result exn float :=
  fold_r (add_pain candidate) f_zero d.
Definition calculate_max_pain (chain : OptionChain) : result exn MaxPainResult :=
  let strikes := sort_by f_leb (map row_strike chain.(oc_rows)) in
  let d := oi_by_strike chain in
  let? payouts := map_r (fun k => let? p := payout d k in Ok (k, p)) strikes in
  match payouts with
  | [] => Ok (mkMaxPain None [])
  | (_, p) :: r =>
      let least := min_float p (map snd r) in
      match map fst (List.filter (fun kp => f_eqb (snd kp) least) payouts) with
      | [] => Err (ValueError "min() iterable argument is empty")
      | k :: ks => Ok (mkMaxPain (Some (min_float k ks)) payouts)
      end
  end.

(** ** Black-Scholes *)
Section black_scholes.
Context `{Libm}.
Definition _norm_cdf (x : float) : float := f_mul half (f_add f_one (c_erf (f_div x (f_sqrt f_two)))).
Definition _norm_pdf (x : float) : result exn float :=
  let? e := m_exp (f_mul (f_mul (f_opp half) x) x) in Ok (f_div e (f_sqrt (f_mul f_two pi))).
Definition intrinsic (spot strike : float) (ot : OptionType) : float :=
  match ot with CALL => f_max (f_sub spot strike) f_zero | PUT => f_max (f_sub strike spot) f_zero end.
(** [(log(spot / strike) + (r + 0.5 * sigma * sigma) * t) / scale] *)
Definition d1_of (spot strike t r sigma scale : float) : result exn float :=
  let? q := py_div spot strike in
  let? l := m_log q in
  py_div (f_add l (f_mul (f_add r (f_mul (f_mul half sigma) sigma)) t)) scale.
Definition black_scholes_price (spot strike t r sigma : float) (ot : OptionType) : result exn float :=
  if f_leb t f_zero || f_leb sigma f_zero then Ok (intrinsic spot strike ot)
  else
    let? st := m_sqrt t in
    let? d1 := d1_of spot strike t r sigma (f_mul sigma st) in
    let d2 := f_sub d1 (f_mul sigma st) in
    let? disc := m_exp (f_mul (f_opp r) t) in
    Ok (match ot with
        | CALL => f_sub (f_mul spot (_norm_cdf d1)) (f_mul (f_mul strike disc) (_norm_cdf d2))
        | PUT => f_sub (f_mul (f_mul strike disc) (_norm_cdf (f_opp d2))) (f_mul spot (_norm_cdf (f_opp d1)))
        end).

(** One halving of the bracket: the volatility found, or the next bracket. *)
Definition bisect_step (price : float -> result exn float) (target tolerance lo hi : float)
    : result exn (float + float * float) :=
  let mid := f_div (f_add lo hi) f_two in
  let? p := price mid in
  Ok (if f_ltb (f_abs (f_sub p target)) tolerance then inl mid
      else if f_gtb p target then inr (lo, mid) else inr (mid, hi)).
Fixpoint bisect (n : nat) (price : float -> result exn float) (target tolerance lo hi : float) : result exn float :=
  match n with
  | O => Ok (f_div (f_add lo hi) f_two)
  | S n =>
      let? s := bisect_step price target tolerance lo hi in
      match s with inl mid => Ok mid | inr (lo, hi) => bisect n price target tolerance lo hi end
  end.
Definition IV_LO : float := f_dec 1 4.
Definition IV_HI : float := f_of_Z 5.
Definition IV_TOLERANCE : float := f_dec 1 4.
Definition IV_ITERATIONS : nat := 100.
Definition implied_volatility (option_price spot strike t r : float) (ot : OptionType) : result exn (option float) :=
  if f_leb option_price f_zero || f_leb spot f_zero || f_leb strike f_zero || f_leb t f_zero then Ok None
  else if f_ltb option_price (f_sub (intrinsic spot strike ot) IV_TOLERANCE) then Ok None
  else
    let price sigma := black_scholes_price spot strike t r sigma ot in
    let? price_lo := price IV_LO in
    let? price_hi := price IV_HI in
    if f_ltb option_price (f_sub price_lo IV_TOLERANCE) || f_gtb option_price (f_add price_hi IV_TOLERANCE) then Ok None
    else let? sigma := bisect IV_ITERATIONS price option_price IV_TOLERANCE IV_LO IV_HI in Ok (Some (f_round 6 sigma)).

Definition no_greeks : GreeksResult := mkGreeks None None None None None.
Definition black_scholes_greeks (spot strike t r sigma : float) (ot : OptionType) : result exn GreeksResult :=
  if f_leb t f_zero || f_leb sigma f_zero || f_leb spot f_zero || f_leb strike f_zero then Ok no_greeks
  else
    let? sqrt_t := m_sqrt t in
    let? d1 := d1_of spot strike t r sigma (f_mul sigma sqrt_t) in
    let d2 := f_sub d1 (f_mul sigma sqrt_t) in
    let? pdf_d1 := _norm_pdf d1 in
    let? decay := py_div (f_opp (f_mul (f_mul spot pdf_d1) sigma)) (f_mul f_two sqrt_t) in
    let? disc := m_exp (f_mul (f_opp r) t) in
    let carry x := f_mul (f_mul (f_mul r strike) disc) x in
    let '(delta, theta_annual, rho) :=
      match ot with
      | CALL => (_norm_cdf d1, f_sub decay (carry (_norm_cdf d2)),
                 f_div (f_mul (f_mul (f_mul strike t) disc) (_norm_cdf d2)) hundred)
      | PUT => (f_sub (_norm_cdf d1) f_one, f_add decay (carry (_norm_cdf (f_opp d2))),
                f_div (f_mul (f_mul (f_mul (f_opp strike) t) disc) (_norm_cdf (f_opp d2))) hundred)
      end in
    let? gamma := py_div pdf_d1 (f_mul (f_mul spot sigma) sqrt_t) in
    let vega := f_mul (f_mul spot pdf_d1) sqrt_t in
    Ok (mkGreeks (Some (f_round 6 delta)) (Some (f_round 8 gamma)) (Some (f_round 6 (f_div theta_annual (f_of_Z 365))))
          (Some (f_round 6 (f_div vega hundred))) (Some (f_round 6 rho))).
End black_scholes.

(** ** Expected move *)
Definition ltp_of (q : option OptionQuote) : option float := q ← q; q.(oq_ltp).
Definition row_at (strike : float) (chain : OptionChain) : option OptionChainRow :=
  List.find (fun r => f_eqb r.(row_strike) strike) chain.(oc_rows).
Definition calculate_expected_move (chain : OptionChain) (atm : option float) : ExpectedMoveResult :=
  mkMove (a ← atm; r ← row_at a chain; c ← ltp_of r.(row_call); p ← ltp_of r.(row_put); Some (f_round 4 (f_add c p)))
    "ATM_STRADDLE".

(** ** Implied-volatility rank *)
Definition _IV_HISTORY_MIN_POINTS : Z := 20.
Definition no_rank (reason : string) : IVRankResult := mkIVRank None None "NOT_AVAILABLE" (Some reason).
Definition calculate_iv_rank (current_iv : option float) (historical_iv : list float) : result exn IVRankResult :=
  let n := Z.of_nat (List.length historical_iv) in
  match current_iv, historical_iv with
  | None, _ => Ok (no_rank "current ATM IV unavailable")
  | Some iv, x :: r =>
      if n <? _IV_HISTORY_MIN_POINTS then
        Ok (no_rank ("insufficient historical IV history (" +:+ str_of_Z n +:+ "/20 observations)"))
      else
        let lo := min_float x r in
        let hi := max_float x r in
        let? rank := if f_eqb hi lo then Ok f_zero
                     else let? q := py_div (f_sub iv lo) (f_sub hi lo) in Ok (f_mul q hundred) in
        let? share := int_div (Z.of_nat (List.length (List.filter (fun v => f_leb v iv) historical_iv))) n in
        Ok (mkIVRank (Some (f_round 2 rank)) (Some (f_round 2 (f_mul share hundred))) "AVAILABLE" None)
  | Some _, [] => Ok (no_rank "insufficient historical IV history (0/20 observations)")
  end.

(** ** Data quality *)
Definition no_quote (q : option OptionQuote) : bool := match q with None => true | Some _ => false end.
Definition no_iv (q : option OptionQuote) : bool := match q ≫= oq_iv with None => true | Some _ => false end.
Definition count_rows (p : OptionChainRow -> bool) (chain : OptionChain) : Z :=
  Z.of_nat (List.length (List.filter p chain.(oc_rows))).
Definition note (n : Z) (text : string) : list string :=
  if n =? 0 then [] else [text +:+ " missing for " +:+ str_of_Z n +:+ " strikes"].
Definition tolerance_s : float := f_of_Z TIMESTAMP_ALIGNMENT_TOLERANCE_SECONDS.
(** The reason written when a gap in seconds exceeds the tolerance. *)
Definition too_late (gap : float) (before after : string) : result exn (list string) :=
  if f_gtb gap tolerance_s then let? n := py_int_of_float gap in Ok [before +:+ str_of_Z n +:+ after] else Ok [].
Definition assess_data_quality (chain : OptionChain) (spot_timestamp chain_timestamp : option Z) (now : Z)
    : result exn DataQualityReport :=
  match chain.(oc_rows) with
  | [] => Ok (mkQuality MISSING ["No strikes in chain"])
  | _ =>
      let missing_call := count_rows (fun r => no_quote r.(row_call)) chain in
      let missing_put := count_rows (fun r => no_quote r.(row_put)) chain in
      let missing_iv := count_rows (fun r => no_iv r.(row_call) || no_iv r.(row_put)) chain in
      let no_spot := match chain.(oc_spot) with None => true | Some _ => false end in
      let? misaligned :=
        match spot_timestamp, chain_timestamp with
        | Some s, Some c => too_late (f_abs (total_seconds (c - s))) "Spot/chain timestamps misaligned by " "s (tolerance 300s)"
        | _, _ => Ok []
        end in
      let? old :=
        match chain_timestamp with
        | Some c => too_late (total_seconds (now - c)) "Chain data stale by " "s"
        | None => Ok []
        end in
      let reasons := note missing_call "Call quote" ++ note missing_put "Put quote" ++ note missing_iv "IV" ++
        (if no_spot then ["Spot price unavailable"] else []) ++ misaligned ++ old in
      let status :=
        if no_spot || (missing_call + missing_put =? 2 * Z.of_nat (List.length chain.(oc_rows))) then MISSING
        else if negb (bool_decide (misaligned ++ old = [])) then STALE
        else if negb (missing_call =? 0) || negb (missing_put =? 0) || negb (missing_iv =? 0) then PARTIAL
        else COMPLETE in
      Ok (mkQuality status reasons)
  end.

(** ** The summary *)
Section summary.
Context `{Libm}.
(** The implied volatility of one quote with where it comes from. *)
Definition quote_iv (spot : option float) (strike t_years r : float) (ot : OptionType) (q : option OptionQuote)
    : result exn (option float * IVSource) :=
  match q with
  | None => Ok (None, UNAVAILABLE)
  | Some q =>
      match q.(oq_iv), q.(oq_ltp), spot with
      | Some iv, _, _ => Ok (Some iv, PROVIDER)
      | None, Some ltp, Some p =>
          if f_gtb t_years f_zero then
            let? calc := implied_volatility ltp p strike t_years r ot in
            Ok (match calc with Some v => (Some v, CALCULATED) | None => (None, UNAVAILABLE) end)
          else Ok (None, UNAVAILABLE)
      | _, _, _ => Ok (None, UNAVAILABLE)
      end
  end.
Definition quote_greeks (spot : option float) (strike t_years r : float) (ot : OptionType) (q : option OptionQuote)
    (iv : option float) : result exn (option GreeksResult) :=
  match q, iv, spot with
  | Some _, Some iv, Some p =>
      if f_gtb t_years f_zero then let? g := black_scholes_greeks p strike t_years r iv ot in Ok (Some g) else Ok None
  | _, _, _ => Ok None
  end.
Definition analyse (spot : option float) (strike t_years r : float) (atm : option float) (ot : OptionType)
    (q : option OptionQuote) : result exn OptionAnalyticsRow :=
  let? ivs := quote_iv spot strike t_years r ot q in
  let? greeks := quote_greeks spot strike t_years r ot q (fst ivs) in
  Ok (mkAnalyticsRow strike ot q (classify_moneyness strike spot ot atm) (fst ivs) (snd ivs) greeks).
(** The two legs of a chain row, in the order they are read. *)
Definition legs (r : OptionChainRow) : list (float * OptionType * option OptionQuote) :=
  [(r.(row_strike), CALL, r.(row_call)); (r.(row_strike), PUT, r.(row_put))].
(** The call leg of the at-the-money row is preferred; otherwise the first leg
    whose volatility resolved. *)
Definition note_atm_iv (atm : option float) (acc : option float * IVSource) (r : OptionAnalyticsRow)
    : option float * IVSource :=
  match atm, r.(ar_iv) with
  | Some a, Some iv =>
      if f_eqb r.(ar_strike) a &&
         (match fst acc with None => true | Some _ => false end || bool_decide (r.(ar_option_type) = CALL))
      then (Some iv, r.(ar_iv_source)) else acc
  | _, _ => acc
  end.
Definition summary_atm (chain : OptionChain) : option float :=
  match chain.(oc_atm_strike) with
  | Some a => Some a
  | None => atm_strike (map row_strike chain.(oc_rows)) chain.(oc_spot)
  end.
Definition utc_stamp (t : Z) : stamp := mkStamp t (Some 0).
Definition build_market_structure_summary (chain : OptionChain) (as_of : option stamp) (risk_free_rate : float)
    (all_expiries : list Z) (trading_days : option (list Z)) (underlying_source option_chain_source : string)
    (provider_call_count : Z) (historical_iv : list float) (now : Z) : result exn MarketStructureSummary :=
  let effective_as_of := default (utc_stamp chain.(oc_generated_at)) as_of in
  let atm := summary_atm chain in
  let t_years := time_to_expiry_years effective_as_of chain.(oc_expiry) in
  let? rows := map_r (fun l => analyse chain.(oc_spot) (fst (fst l)) t_years risk_free_rate atm (snd (fst l)) (snd l))
                 (flat_map legs chain.(oc_rows)) in
  let '(atm_iv, atm_iv_source) := fold_left (note_atm_iv atm) rows (None, UNAVAILABLE) in
  let? oi := calculate_oi_analytics chain 3 in
  let? pcr := calculate_pcr chain in
  let? max_pain := calculate_max_pain chain in
  let expiry_info := build_expiry_info chain.(oc_expiry)
    (match all_expiries with [] => [chain.(oc_expiry)] | _ => all_expiries end) effective_as_of trading_days in
  let? rank := calculate_iv_rank atm_iv historical_iv in
  let? quality := assess_data_quality chain None (Some chain.(oc_generated_at)) now in
  Ok (mkSummary chain.(oc_underlying) chain.(oc_spot) None chain.(oc_expiry) (Some expiry_info) atm oi pcr max_pain
        (calculate_support_resistance oi 2) atm_iv atm_iv_source (calculate_expected_move chain atm) rank quality
        (mkProvenance underlying_source option_chain_source None (Some chain.(oc_generated_at)) CALCULATION_VERSION
           risk_free_rate provider_call_count) rows as_of).
End summary.

(** The max-pain strike is a listed strike whose aggregate payout no
    other candidate undercuts, the lowest of those that tie with it; the
    payouts are reported for every strike of the chain in ascending order, each
    the sum of the intrinsic values times the open interest; and a chain has no
    max-pain strike only when it has no rows. *)
Theorem max_pain_is_least chain r : calculate_max_pain chain = Ok r ->
  Forall2 (fun k kp => exists p, payout (oi_by_strike chain) k = Ok p /\ kp = (k, p))
    (sort_by f_leb (map row_strike chain.(oc_rows))) r.(payouts) /\
  match r.(max_pain_strike) with
  | None => chain.(oc_rows) = []
  | Some k => In k (map row_strike chain.(oc_rows)) /\
      exists p, In (k, p) r.(payouts) /\
        forall s q, In (s, q) r.(payouts) -> f_ltb q p = false /\ (f_eqb q p = true -> f_ltb s k = false)
  end.
Proof.
  unfold calculate_max_pain. cbv zeta.
  destruct (map_r _ _) as [ps|] eqn:E; [|discriminate]. cbn [rbind]. apply map_r_Ok in E.
  assert (Forall2 (fun k kp => exists p, payout (oi_by_strike chain) k = Ok p /\ kp = (k, p))
            (sort_by f_leb (map row_strike chain.(oc_rows))) ps) as F.
  { eapply Forall2_impl; [exact E|]. intros k kp. cbn. destruct (payout _ k) as [p|]; [|discriminate]. intros [= <-]. eauto. }
  clear E. destruct ps as [|[k0 p0] rest].
  { intros [= <-]. cbn. split; [exact F|]. apply Forall2_length in F. cbn in F.
    rewrite (Permutation_length (sort_by_Permutation _ _)), length_map in F. now destruct (oc_rows chain). }
  set (ps := (k0, p0) :: rest) in *. set (least := min_float p0 (map snd rest)).
  destruct (map fst (List.filter _ ps)) as [|k ks] eqn:Ek; [discriminate|]. intros [= <-]. cbn [payouts max_pain_strike].
  split; [exact F|].
  assert (forall s, In s (k :: ks) <-> exists p, In (s, p) ps /\ f_eqb p least = true) as Mem.
  { intros s. rewrite <- Ek, in_map_iff. split.
    - intros ([s' p] & <- & Hi). apply List.filter_In in Hi. exists p. exact Hi.
    - intros (p & Hi). exists (s, p). split; [reflexivity|]. now apply List.filter_In. }
  destruct (proj1 (Mem (min_float k ks)) (min_float_In k ks)) as (p & Hp & Ep). split.
  - destruct (Forall2_In_r _ _ _ _ F Hp) as (k' & Hk' & q & _ & [= -> _]). now apply In_sort_by in Hk'.
  - exists p. split; [exact Hp|]. intros s q Hs.
    assert (f_ltb q least = false) as Hq by (apply min_float_least; change (p0 :: map snd rest) with (map snd ps); now apply (in_map snd _ (s, q))).
    split.
    + destruct (f_ltb q p) eqn:L; [|reflexivity]. exfalso. destruct (f_ltb_nan_l _ _ L) as [Hqn _].
      apply f_eqb_key in Ep as (H1 & H2 & H3). rewrite f_ltb_key in L by assumption. rewrite H3 in L.
      apply f_ltb_key in L; auto. congruence.
    + intros Eqp. apply min_float_least. apply Mem. exists q. split; [exact Hs|]. eapply f_eqb_trans; eauto.
Qed.

(** A small chain: three strikes, the money at 25100. *)
Definition demo_leg (strike : Z) (ot : string) (ltp : float) (volume oi : Z) (iv : option float) : option OptionQuote :=
  match build_option_quote "NIFTY" (ymd2ord 2026 9 8) (f_of_Z strike) ot (Some ltp) None None None None (Some volume) (Some oi)
          (Some 10) None None iv None None "icici_breeze" (midnight (ymd2ord 2026 9 3)) with
  | Ok q => Some q | Err _ => None end.
Definition demo_chain : OptionChain := Eval vm_compute in
  mkChain "NIFTY" (ymd2ord 2026 9 8) (Some (f_of_Z 25110)) (Some (f_of_Z 25100)) (midnight (ymd2ord 2026 9 3) + time_us 6 0 0 0)
    [mkChainRow (f_of_Z 25050) (demo_leg 25050 "CE" (f_of_Z 120) 900 4000 (Some (f_dec 12 2))) (demo_leg 25050 "PE" (f_of_Z 60) 500 9000 None);
     mkChainRow (f_of_Z 25100) (demo_leg 25100 "CE" (f_of_Z 90) 1000 7000 None) (demo_leg 25100 "PE" (f_of_Z 80) 1500 7000 (Some (f_dec 13 2)));
     mkChainRow (f_of_Z 25150) (demo_leg 25150 "CE" (f_of_Z 60) 700 9000 None) None] "icici_breeze".
Lemma max_pain_is_least_witness :
  exists r, calculate_max_pain demo_chain = Ok r /\ r.(max_pain_strike) = Some (f_of_Z 25100) /\
    exists p, In (f_of_Z 25100, p) r.(payouts) /\ forall s q, In (s, q) r.(payouts) -> f_ltb q p = false.
Proof.
  destruct (calculate_max_pain demo_chain) as [r|] eqn:E; [|vm_compute in E; discriminate].
  exists r. pose proof (proj2 (max_pain_is_least demo_chain r E)) as H. split; [reflexivity|].
  vm_compute in E. injection E as <-. split; [vm_compute; reflexivity|].
  destruct H as (_ & p & Hp & Hl). exists p. split; [exact Hp|]. intros s q Hs. exact (proj1 (Hl s q Hs)).
Defined.

(** The reference: the pain of each row, added in the order of the chain. *)
Definition row_pain (candidate total : float) (r : OptionChainRow) : result exn float :=
  add_pain candidate total (r.(row_strike), (oi_or_zero r.(row_call), oi_or_zero r.(row_put))).
Definition distinct_strikes (chain : OptionChain) : Prop :=
  ForallOrdPairs (fun a b => f_eqb b.(row_strike) a.(row_strike) = false) chain.(oc_rows).
Lemma dset_new {V} k (v : V) d : forallb (fun e => negb (f_eqb k (fst e))) d = true -> dset f_eqb k v d = d ++ [(k, v)].
Proof.
  induction d as [|[k' v'] d IH]; cbn; [reflexivity|]. intros [H1 H2]%andb_prop. apply negb_true_iff in H1.
  now rewrite H1, IH.
Qed.
Definition strike_oi (r : OptionChainRow) : float * (Z * Z) := (r.(row_strike), (oi_or_zero r.(row_call), oi_or_zero r.(row_put))).
Lemma oi_by_strike_rows chain : distinct_strikes chain -> oi_by_strike chain = map strike_oi chain.(oc_rows).
Proof.
  unfold distinct_strikes, oi_by_strike, chain_pairs. generalize (oc_rows chain). intros rows Hd.
  enough (forall d, (forall r e, In r rows -> In e d -> f_eqb r.(row_strike) (fst e) = false) ->
    fold_left (fun d p => dset f_eqb (fst (fst p)) (oi_or_zero (snd (fst p)), oi_or_zero (snd p)) d)
      (map (fun r => (r.(row_strike), r.(row_call), r.(row_put))) rows) d = d ++ map strike_oi rows) as H
    by (apply (H []); cbn; tauto).
  induction Hd as [|r rows Hr _ IH]; intros d Hx; cbn; [now rewrite app_nil_r|].
  rewrite dset_new.
  - rewrite IH; [now rewrite <- app_assoc|]. intros r' e Hr' He. apply in_app_or in He as [He|[<-|[]]]; [auto with datatypes|].
    rewrite Forall_forall in Hr. apply Hr. now apply list_elem_of_In.
  - apply forallb_forall. intros e He. rewrite Hx; [reflexivity | now left | exact He].
Qed.
(** On a chain whose strikes are distinct, the payout of a candidate
    settlement is the sum over the chain's rows of the intrinsic values times
    the open interest: indexing the open interest by strike loses no row. *)
Theorem payout_sums_the_rows chain k : distinct_strikes chain ->
  payout (oi_by_strike chain) k = fold_r (row_pain k) f_zero chain.(oc_rows).
Proof. intros H. unfold payout. rewrite (oi_by_strike_rows chain H), fold_r_map. reflexivity. Qed.
Lemma demo_distinct : distinct_strikes demo_chain.
Proof. unfold distinct_strikes. repeat constructor. Qed.
Lemma payout_sums_the_rows_witness :
  distinct_strikes demo_chain /\ payout (oi_by_strike demo_chain) (f_of_Z 25150) = Ok (f_of_Z 750000) /\
  payout (oi_by_strike demo_chain) (f_of_Z 25150) = fold_r (row_pain (f_of_Z 25150)) f_zero demo_chain.(oc_rows).
Proof. split; [exact demo_distinct|]. split; [vm_compute; reflexivity|]. apply payout_sums_the_rows, demo_distinct. Defined.

(** ** The solver *)
Section solver.
Context `{Libm}.
Definition midpoint (lo hi : float) : float := f_div (f_add lo hi) f_two.
(** The brackets the bisection passes through: each one halves the previous
    one on the side the price at its middle tells. *)
Inductive bracket (price : float -> result exn float) (target : float) : nat -> float -> float -> Prop :=
| bracket_start : bracket price target 0 IV_LO IV_HI
| bracket_above n lo hi q : bracket price target n lo hi ->
    price (midpoint lo hi) = Ok q -> f_gtb q target = true -> bracket price target (S n) lo (midpoint lo hi)
| bracket_below n lo hi q : bracket price target n lo hi ->
    price (midpoint lo hi) = Ok q -> f_gtb q target = false -> bracket price target (S n) (midpoint lo hi) hi.
Definition priced (price : float -> result exn float) (target sigma : float) : Prop :=
  exists q, price sigma = Ok q /\ f_ltb (f_abs (f_sub q target)) IV_TOLERANCE = true.

Lemma bisect_Ok price target n : forall k lo hi v, bracket price target k lo hi ->
  bisect n price target IV_TOLERANCE lo hi = Ok v ->
  exists m lo' hi', bracket price target m lo' hi' /\ v = midpoint lo' hi' /\ (m <= k + n)%nat /\
    (m = (k + n)%nat \/ priced price target v).
Proof.
  induction n as [|n IH]; intros k lo hi v Hb; cbn [bisect].
  - intros [= <-]. exists k, lo, hi. repeat split; auto with lia.
  - unfold bisect_step. fold (midpoint lo hi). destruct (price (midpoint lo hi)) as [q|] eqn:Eq; [|discriminate]. cbn [rbind].
    destruct (f_ltb (f_abs (f_sub q target)) IV_TOLERANCE) eqn:Et.
    + intros [= <-]. exists k, lo, hi. split; [exact Hb|]. split; [reflexivity|]. split; [lia|]. right. now exists q.
    + intros E. assert (exists m lo' hi', bracket price target m lo' hi' /\ v = midpoint lo' hi' /\ (m <= S k + n)%nat /\
        (m = (S k + n)%nat \/ priced price target v)) as (m & lo' & hi' & Hm).
      { destruct (f_gtb q target) eqn:Eg; (eapply IH; [|exact E]); [eapply bracket_above | eapply bracket_below]; eauto. }
      exists m, lo', hi'. replace (k + S n)%nat with (S k + n)%nat by lia. exact Hm.
Qed.
(** The price at the ends, as long as they moved. *)
Lemma bracket_ends price target n lo hi : bracket price target n lo hi ->
  (lo = IV_LO \/ exists q, price lo = Ok q /\ f_gtb q target = false) /\
  (hi = IV_HI \/ exists q, price hi = Ok q /\ f_gtb q target = true).
Proof. induction 1 as [|n lo hi q _ [H1 H2] E G|n lo hi q _ [H1 H2] E G]; split; eauto. Qed.

(** Why a price has no implied volatility. *)
Inductive no_volatility (p s k t r : float) (ot : OptionType) : Prop :=
| nv_input : f_leb p f_zero || f_leb s f_zero || f_leb k f_zero || f_leb t f_zero = true -> no_volatility p s k t r ot
| nv_intrinsic : f_ltb p (f_sub (intrinsic s k ot) IV_TOLERANCE) = true -> no_volatility p s k t r ot
| nv_low q : black_scholes_price s k t r IV_LO ot = Ok q -> f_ltb p (f_sub q IV_TOLERANCE) = true -> no_volatility p s k t r ot
| nv_high q : black_scholes_price s k t r IV_HI ot = Ok q -> f_gtb p (f_add q IV_TOLERANCE) = true -> no_volatility p s k t r ot.

(** An implied volatility is never made up: the solver answers [None]
    exactly for a price with a non-positive input, below the intrinsic value or
    outside the prices at the two ends of the search interval; otherwise the
    answer is the rounded middle of a bracket reached by at most 100 halvings,
    whose moved ends lie on the two sides of the price, and - unless all 100
    were spent - the model price there is within the tolerance of the price
    asked. *)
Theorem implied_volatility_certified p s k t r ot res : implied_volatility p s k t r ot = Ok res ->
  match res with
  | None => no_volatility p s k t r ot
  | Some v => ~ no_volatility p s k t r ot /\
      exists n lo hi, bracket (fun sigma => black_scholes_price s k t r sigma ot) p n lo hi /\ (n <= IV_ITERATIONS)%nat /\
        v = f_round 6 (midpoint lo hi) /\
        (lo = IV_LO \/ exists q, black_scholes_price s k t r lo ot = Ok q /\ f_gtb q p = false) /\
        (hi = IV_HI \/ exists q, black_scholes_price s k t r hi ot = Ok q /\ f_gtb q p = true) /\
        (n = IV_ITERATIONS \/ priced (fun sigma => black_scholes_price s k t r sigma ot) p (midpoint lo hi))
  end.
Proof.
  unfold implied_volatility. destruct (_ || _) eqn:E1; [intros [= <-]; now apply nv_input|].
  destruct (f_ltb p _) eqn:E2; [intros [= <-]; now apply nv_intrinsic|]. cbv zeta.
  destruct (black_scholes_price _ _ _ _ IV_LO _) as [ql|] eqn:El; [|discriminate]. cbn [rbind].
  destruct (black_scholes_price _ _ _ _ IV_HI _) as [qh|] eqn:Eh; [|discriminate]. cbn [rbind].
  destruct (f_ltb p (f_sub ql _)) eqn:E3; [intros [= <-]; eapply nv_low; eauto|].
  destruct (f_gtb p (f_add qh _)) eqn:E4; [intros [= <-]; eapply nv_high; eauto|]. cbn [orb].
  destruct (bisect _ _ _ _ _ _) as [v|] eqn:Eb; [|discriminate]. cbn [rbind]. intros [= <-]. split.
  - intros [H1|H2|q H3 H3'|q H4 H4']; congruence.
  - apply (bisect_Ok _ p IV_ITERATIONS 0) in Eb; [|constructor]. destruct Eb as (n & lo & hi & Hb & -> & Hn & Hx).
    destruct (bracket_ends _ _ _ _ _ Hb) as [Hl Hh]. exists n, lo, hi. auto 6.
Qed.
End solver.

(** Stand-ins for the C library, for evaluation only: any functions do. *)
#[local] Instance demo_libm : Libm := {|
  c_log := fun x => f_sub x f_one; c_exp := fun x => f_add f_one x;
  c_erf := fun x => f_div x (f_add f_one (f_abs x)) |}.
Definition demo_t : float := f_dec 14 3.
Lemma implied_volatility_certified_witness :
  exists v, implied_volatility (f_of_Z 90) (f_of_Z 25110) (f_of_Z 25100) demo_t (f_dec 65 3) CALL = Ok (Some v) /\
    ~ no_volatility (f_of_Z 90) (f_of_Z 25110) (f_of_Z 25100) demo_t (f_dec 65 3) CALL.
Proof.
  destruct (implied_volatility (f_of_Z 90) (f_of_Z 25110) (f_of_Z 25100) demo_t (f_dec 65 3) CALL) as [[v|]|] eqn:E;
    try (vm_compute in E; discriminate).
  exists v. split; [reflexivity|]. exact (proj1 (implied_volatility_certified _ _ _ _ _ _ (Some v) E)).
Defined.

(** ** Open interest *)
(** [top] are [n] rows of [l] with the most open interest, in descending order. *)
Definition more_oi (a b : float * Z) : Prop := snd b <= snd a.
Definition top_of (n : Z) (l top : list (float * Z)) : Prop :=
  Z.of_nat (List.length top) = Z.min n (Z.of_nat (List.length l)) /\ StronglySorted more_oi top /\
  exists rest, Permutation l (top ++ rest) /\ forall a b, In a top -> In b rest -> more_oi a b.
Lemma Sorted_sort_by_rel {A} (leb : A -> A -> bool) (R : A -> A -> Prop) l :
  (forall a b, leb a b = true -> R a b) -> (forall a b, leb a b = false -> R b a) ->
  (forall a b c, R a b -> R b c -> R a c) -> StronglySorted R (sort_by leb l).
Proof.
  intros Ht Hf Htr. induction l as [|x l IH]; cbn; [constructor|].
  induction IH as [|y l' Hl IHl Hy]; cbn; [repeat constructor|]. destruct (leb x y) eqn:E.
  - constructor; [now constructor|]. constructor; [now apply Ht|]. eapply Forall_impl; [exact Hy|]. intros z. apply Htr. now apply Ht.
  - constructor; [exact IHl|]. rewrite insert_by_Permutation. constructor; [now apply Hf | exact Hy].
Qed.
Lemma StronglySorted_split {A} (R : A -> A -> Prop) l1 l2 : StronglySorted R (l1 ++ l2) ->
  StronglySorted R l1 /\ forall a b, In a l1 -> In b l2 -> R a b.
Proof.
  induction l1 as [|x l1 IH]; cbn; intros Hs; [split; [constructor | tauto]|]. inversion Hs as [|? ? Hs' Hx]; subst.
  destruct (IH Hs') as [H1 H2]. apply Forall_app in Hx as [Hx1 Hx2]. split; [now constructor|].
  intros a b [<-|Ha] Hb; [|auto]. rewrite Forall_forall in Hx2. apply Hx2. now apply list_elem_of_In.
Qed.
Lemma oi_sorted_sorted l : StronglySorted more_oi (oi_sorted l).
Proof.
  apply Sorted_sort_by_rel; unfold more_oi, oi_before; intros [k1 n1] [k2 n2]; cbn.
  - destruct (Z.eqb_spec n2 n1); [lia|]. rewrite negb_true_iff, Z.ltb_ge. lia.
  - destruct (Z.eqb_spec n2 n1); [lia|]. rewrite negb_false_iff, Z.ltb_lt. lia.
  - intros [k3 n3]. cbn. lia.
Qed.
Lemma top_of_sorted n l : 0 <= n -> top_of n l (slice_of 0 n (oi_sorted l)).
Proof.
  intros Hn. unfold top_of, slice_of. rewrite (proj2 (Z.ltb_ge n 0) Hn), Z.sub_0_r. change (Z.to_nat 0) with 0%nat. rewrite drop_0.
  assert (List.length (oi_sorted l) = List.length l) as Hl by apply Permutation_length, sort_by_Permutation.
  pose proof (oi_sorted_sorted l) as Hs. rewrite <- (take_drop (Z.to_nat n) (oi_sorted l)) in Hs.
  apply StronglySorted_split in Hs as [Hs Hr]. split; [rewrite length_take, Hl; lia|]. split; [exact Hs|].
  exists (drop (Z.to_nat n) (oi_sorted l)). split; [|exact Hr]. rewrite take_drop. symmetry. apply sort_by_Permutation.
Qed.

(** One side of the chain, and what is known of it. *)
Definition side_of (call : bool) (r : OptionChainRow) : option OptionQuote := if call then r.(row_call) else r.(row_put).
Definition listed_oi (call : bool) (chain : OptionChain) : list (float * Z) :=
  flat_map (fun r => map (fun n => (r.(row_strike), n)) (known oq_oi (side_of call r))) chain.(oc_rows).
Lemma add_oi_listed call rows d c b :
  ForallOrdPairs (fun x y => f_eqb y.(row_strike) x.(row_strike) = false) rows ->
  (forall r e, In r rows -> In e d -> f_eqb r.(row_strike) (fst e) = false) ->
  fst (fst (fold_left (fun acc r => add_oi r.(row_strike) (side_of call r) acc) rows (d, c, b))) =
  d ++ flat_map (fun r => map (fun n => (r.(row_strike), n)) (known oq_oi (side_of call r))) rows.
Proof.
  intros Hd. revert d c b. induction Hd as [|r rows Hr _ IH]; intros d c b Hx; cbn; [now rewrite app_nil_r|].
  rewrite Forall_forall in Hr.
  assert (forall r' e, In r' rows -> In e d -> f_eqb r'.(row_strike) (fst e) = false) as Hx' by (intros; apply Hx; [now right | assumption]).
  unfold add_oi at 1. destruct (side_of call r) as [q|]; cbn; [|now apply IH]. destruct (oq_oi q) as [n|]; cbn; [|now apply IH].
  assert (dset f_eqb r.(row_strike) n d = d ++ [(r.(row_strike), n)]) as ->.
  { apply dset_new, forallb_forall. intros e He. rewrite Hx; [reflexivity | now left | exact He]. }
  destruct (oq_oi_change q); (rewrite IH; [now rewrite <- app_assoc|]);
    (intros r' e Hr' He; apply in_app_or in He as [He|[<-|[]]]; [auto | apply Hr; now apply list_elem_of_In]).
Qed.
Lemma fold_left_map {A B C} (f : A -> C -> A) (g : B -> C) l : forall acc, fold_left f (map g l) acc = fold_left (fun a x => f a (g x)) l acc.
Proof. induction l as [|x l IH]; intros acc; cbn; [reflexivity | apply IH]. Qed.
Lemma map_snd_listed call chain : map snd (listed_oi call chain) = flat_map (fun r => known oq_oi (side_of call r)) chain.(oc_rows).
Proof.
  unfold listed_oi. induction (oc_rows chain) as [|r l IH]; cbn; [reflexivity|]. rewrite map_app, IH, map_map. cbn. now rewrite map_id.
Qed.

(** On a chain with distinct strikes the totals are the sums of the open
    interest of the quotes that have one, and the strikes reported for each
    side are those with the most, in descending order. *)
Theorem oi_totals_and_top chain n oi : distinct_strikes chain -> 0 <= n -> calculate_oi_analytics chain n = Ok oi ->
  oi.(total_call_oi) = sum_Z (flat_map (fun r => known oq_oi r.(row_call)) chain.(oc_rows)) /\
  oi.(total_put_oi) = sum_Z (flat_map (fun r => known oq_oi r.(row_put)) chain.(oc_rows)) /\
  top_of n (listed_oi true chain) oi.(top_call_oi_strikes) /\ top_of n (listed_oi false chain) oi.(top_put_oi_strikes).
Proof.
  intros Hd Hn. unfold calculate_oi_analytics, chain_pairs. rewrite !fold_left_map. cbn [fst snd].
  pose proof (add_oi_listed true _ [] 0 false Hd) as Hc. pose proof (add_oi_listed false _ [] 0 false Hd) as Hp.
  cbn [side_of] in Hc, Hp.
  destruct (fold_left _ _ _) as [[call_oi cc] ac]. destruct (fold_left _ _ _) as [[put_oi pc] ap]. cbn [fst] in Hc, Hp.
  rewrite Hc, Hp by (cbn; tauto).
  destruct (concentration _ _) as [x|]; [|discriminate]. cbn [rbind]. destruct (concentration _ _) as [y|]; [|discriminate].
  cbn [rbind]. intros [= <-]. cbn [total_call_oi total_put_oi top_call_oi_strikes top_put_oi_strikes]. cbn [app].
  fold (listed_oi true chain) (listed_oi false chain).
  split; [exact (f_equal sum_Z (map_snd_listed true chain))|]. split; [exact (f_equal sum_Z (map_snd_listed false chain))|].
  split; now apply top_of_sorted.
Qed.
Lemma oi_totals_and_top_witness :
  exists oi, calculate_oi_analytics demo_chain 2 = Ok oi /\
    oi.(top_call_oi_strikes) = [(f_of_Z 25150, 9000); (f_of_Z 25100, 7000)] /\
    top_of 2 (listed_oi true demo_chain) oi.(top_call_oi_strikes).
Proof.
  destruct (calculate_oi_analytics demo_chain 2) as [oi|] eqn:E; [|vm_compute in E; discriminate]. exists oi.
  pose proof (oi_totals_and_top demo_chain 2 oi demo_distinct ltac:(lia) E) as (_ & _ & H & _). split; [reflexivity|].
  split; [|exact H]. vm_compute in E. injection E as <-. reflexivity.
Defined.

(** ** Quality *)
Definition quoted (r : OptionChainRow) : bool := negb (no_iv r.(row_call) || no_iv r.(row_put)).
Definition is_late (gap : float) : bool := f_gtb gap tolerance_s.
Definition late (spot_timestamp chain_timestamp : option Z) (now : Z) : bool :=
  match chain_timestamp with
  | None => false
  | Some c => is_late (total_seconds (now - c)) ||
      match spot_timestamp with Some s => is_late (f_abs (total_seconds (c - s))) | None => false end
  end.
Lemma too_late_spec gap b a l : too_late gap b a = Ok l -> bool_decide (l = []) = negb (is_late gap).
Proof.
  unfold too_late, is_late. destruct (f_gtb gap tolerance_s); [|now intros [= <-]].
  destruct (py_int_of_float gap); [|discriminate]. now intros [= <-].
Qed.
Lemma count_rows_zero p chain : count_rows p chain = 0 <-> forallb (fun r => negb (p r)) chain.(oc_rows) = true.
Proof.
  unfold count_rows. induction (oc_rows chain) as [|r l IH]; cbn; [easy|]. destruct (p r); cbn; [split; [lia | discriminate] | exact IH].
Qed.
Lemma no_iv_quote q : no_iv q = false -> no_quote q = false.
Proof. now destruct q. Qed.
Lemma note_nil n s : bool_decide (note n s = []) = (n =? 0).
Proof. unfold note. now destruct (n =? 0). Qed.
Lemma bool_decide_app {A} (l l' : list A) : bool_decide (l ++ l' = []) = bool_decide (l = []) && bool_decide (l' = []).
Proof. now destruct l. Qed.

(** A chain is reported COMPLETE exactly when it has rows, a spot, both
    quotes with an implied volatility on every row and no timestamp later than
    the tolerance; and COMPLETE is exactly the report without a reason. *)
Theorem complete_means_complete chain spot_ts chain_ts now rep :
  assess_data_quality chain spot_ts chain_ts now = Ok rep ->
  (rep.(dq_status) = COMPLETE <->
    chain.(oc_rows) <> [] /\ chain.(oc_spot) <> None /\ forallb quoted chain.(oc_rows) = true /\ late spot_ts chain_ts now = false) /\
  (rep.(dq_status) = COMPLETE <-> rep.(dq_reasons) = []).
Proof.
  unfold assess_data_quality. destruct (oc_rows chain) as [|row rows] eqn:Er; [intros [= <-]; cbn; split; split; intros; [discriminate | tauto | discriminate | discriminate]|].
  rewrite <- Er. cbv zeta. set (mc := count_rows (fun r => no_quote (row_call r)) chain). set (mp := count_rows (fun r => no_quote (row_put r)) chain).
  set (mi := count_rows _ chain). set (spot := match oc_spot chain with None => true | Some _ => false end).
  destruct (match spot_ts with Some _ => _ | None => _ end) as [mis|] eqn:E1; [|discriminate]. cbn [rbind].
  destruct (match chain_ts with Some _ => _ | None => _ end) as [old|] eqn:E2; [|discriminate]. cbn [rbind]. intros [= <-].
  assert (bool_decide (mis ++ old = []) = negb (late spot_ts chain_ts now)) as Hl.
  { rewrite bool_decide_app. unfold late. destruct chain_ts as [c|]; [apply too_late_spec in E2 | injection E2 as <-].
    - destruct spot_ts as [s|]; [apply too_late_spec in E1; rewrite E1, E2, negb_orb; apply andb_comm|].
      injection E1 as <-. rewrite E2. now rewrite orb_false_r.
    - destruct spot_ts; injection E1 as <-; reflexivity. }
  assert (mi = 0 <-> forallb quoted chain.(oc_rows) = true) as Hi.
  { unfold mi. apply count_rows_zero. }
  assert (mi = 0 -> mc = 0 /\ mp = 0) as Hq.
  { rewrite Hi. unfold mc, mp. rewrite !count_rows_zero, !forallb_forall. intros H. split; intros r Hr; specialize (H r Hr);
      unfold quoted in H; apply negb_true_iff, orb_false_elim in H as [H1 H2]; now rewrite no_iv_quote. }
  assert (spot = false <-> oc_spot chain <> None) as Hs by (unfold spot; destruct (oc_spot chain); split; congruence).
  assert (0 < Z.of_nat (List.length (oc_rows chain))) as Hlen by (rewrite Er; cbn; lia).
  assert (oc_rows chain <> []) as Hne by (rewrite Er; discriminate).
  set (n := Z.of_nat (List.length (oc_rows chain))) in *. cbn [dq_status dq_reasons].
  assert (forall x, (if spot || (mc + mp =? 2 * n) then MISSING else if negb (bool_decide (mis ++ old = [])) then STALE
            else if negb (mc =? 0) || negb (mp =? 0) || negb (mi =? 0) then PARTIAL else COMPLETE) = x ->
          (x = COMPLETE <-> spot = false /\ mi = 0 /\ late spot_ts chain_ts now = false)) as Main.
  { intros x <-. rewrite Hl, negb_involutive. destruct spot; cbn [orb]; [split; [discriminate | easy]|].
    destruct (Z.eqb_spec (mc + mp) (2 * n)); [split; [discriminate|]; intros (_ & H & _); apply Hq in H as [-> ->]; lia|].
    destruct (late _ _ _); [split; [discriminate | easy]|].
    destruct (Z.eqb_spec mi 0) as [H|H]; [|rewrite orb_true_r; split; [discriminate | easy]].
    destruct (Hq H) as [-> ->]. cbn. easy. }
  specialize (Main _ eq_refl). split.
  - rewrite Main, Hs, Hi. tauto.
  - rewrite Main. split.
    + intros (H1 & H2 & H3). destruct (Hq H2) as [-> ->]. rewrite H1, H2. cbn [note Z.eqb app]. apply (bool_decide_eq_true _).
      now rewrite Hl, H3.
    + intros H. apply (f_equal (fun l => bool_decide (l = []))) in H. rewrite !bool_decide_app, !note_nil in H.
      change (bool_decide ([] = [])) with true in H. rewrite <- bool_decide_app, Hl in H.
      rewrite !andb_true_iff, negb_true_iff, !Z.eqb_eq in H. destruct H as (_ & _ & H & Hsp & H'). split; [|now split].
      now destruct spot.
Qed.
Lemma complete_means_complete_witness :
  exists rep, assess_data_quality demo_chain None (Some demo_chain.(oc_generated_at)) demo_chain.(oc_generated_at) = Ok rep /\
    rep.(dq_status) = PARTIAL /\ (rep.(dq_status) = COMPLETE <-> rep.(dq_reasons) = []).
Proof.
  destruct (assess_data_quality demo_chain None (Some demo_chain.(oc_generated_at)) demo_chain.(oc_generated_at)) as [rep|] eqn:E;
    [|vm_compute in E; discriminate].
  exists rep. pose proof (proj2 (complete_means_complete _ _ _ _ _ E)) as H. split; [reflexivity|]. split; [|exact H].
  vm_compute in E. now injection E as <-.
Defined.

(** ** Nothing is fabricated *)
Section grounded.
Context `{Libm}.
(** A volatility belongs to its source: the provider's own, or the solver's
    from the traded price when the provider gave none. *)
Definition iv_grounded (spot : option float) (t r : float) (row : OptionAnalyticsRow) : Prop :=
  match row.(ar_iv_source) with
  | UNAVAILABLE => row.(ar_iv) = None
  | PROVIDER => exists q v, row.(ar_quote) = Some q /\ q.(oq_iv) = Some v /\ row.(ar_iv) = Some v
  | CALCULATED => exists q p s v, row.(ar_quote) = Some q /\ q.(oq_iv) = None /\ q.(oq_ltp) = Some p /\ spot = Some s /\
      f_gtb t f_zero = true /\ row.(ar_iv) = Some v /\
      implied_volatility p s row.(ar_strike) t r row.(ar_option_type) = Ok (Some v)
  end.
(** Greeks are those of the volatility shown. *)
Definition greeks_grounded (spot : option float) (t r : float) (row : OptionAnalyticsRow) : Prop :=
  match row.(ar_greeks) with
  | None => True
  | Some g => exists s v, spot = Some s /\ row.(ar_iv) = Some v /\ f_gtb t f_zero = true /\
      black_scholes_greeks s row.(ar_strike) t r v row.(ar_option_type) = Ok g
  end.
Definition is_leg (l : float * OptionType * option OptionQuote) (row : OptionAnalyticsRow) : Prop :=
  (row.(ar_strike), row.(ar_option_type), row.(ar_quote)) = l.

Lemma analyse_ok spot strike t r atm ot q row : analyse spot strike t r atm ot q = Ok row ->
  is_leg (strike, ot, q) row /\ row.(ar_moneyness) = classify_moneyness strike spot ot atm /\
  iv_grounded spot t r row /\ greeks_grounded spot t r row.
Proof.
  unfold analyse. destruct (quote_iv spot strike t r ot q) as [[iv src]|] eqn:Ei; [|discriminate]. cbn [rbind fst snd].
  destruct (quote_greeks spot strike t r ot q iv) as [g|] eqn:Eg; [|discriminate]. cbn [rbind]. intros [= <-].
  split; [reflexivity|]. split; [reflexivity|]. split.
  - unfold iv_grounded. cbn. unfold quote_iv in Ei. destruct q as [q|]; [|now injection Ei as <- <-].
    destruct (oq_iv q) as [v|] eqn:Eqv; [injection Ei as <- <-; eauto|].
    destruct (oq_ltp q) as [p|] eqn:Ep; [|now injection Ei as <- <-].
    destruct spot as [s|]; [|now injection Ei as <- <-].
    destruct (f_gtb t f_zero) eqn:Et; [|now injection Ei as <- <-].
    destruct (implied_volatility p s strike t r ot) as [[v|]|] eqn:Ev; [| |discriminate]; injection Ei as <- <-; [|reflexivity].
    exists q, p, s, v. auto 8.
  - unfold greeks_grounded. cbn. destruct g as [g|]; [|exact I]. unfold quote_greeks in Eg.
    destruct q; [|discriminate]. destruct iv as [v|]; [|discriminate]. destruct spot as [s|]; [|discriminate].
    destruct (f_gtb t f_zero) eqn:Et; [|discriminate].
    destruct (black_scholes_greeks s strike t r v ot) as [g'|] eqn:Eb; [|discriminate]. injection Eg as <-.
    exists s, v. auto.
Qed.

(** The at-the-money volatility after a list of rows: it comes from a row at
    the money, and the call leg's replaces the put's. *)
Definition atm_rows (atm : option float) (rows : list OptionAnalyticsRow) : list OptionAnalyticsRow :=
  List.filter (fun r => match atm, r.(ar_iv) with Some a, Some _ => f_eqb r.(ar_strike) a | _, _ => false end) rows.
Lemma note_atm_iv_spec atm rows :
  let acc := fold_left (note_atm_iv atm) rows (None, UNAVAILABLE) in
  (fst acc = None <-> atm_rows atm rows = []) /\
  (fst acc = None -> snd acc = UNAVAILABLE) /\
  (fst acc <> None -> exists r, In r (atm_rows atm rows) /\ acc = (r.(ar_iv), r.(ar_iv_source)) /\
     (r.(ar_option_type) = CALL \/ forall r', In r' (atm_rows atm rows) -> r'.(ar_option_type) <> CALL)).
Proof.
  cbv zeta. induction rows as [|r rows IH] using rev_ind; [cbn; split; [easy|]; split; [easy | congruence]|].
  rewrite fold_left_app. cbn [fold_left]. unfold atm_rows in *. rewrite List.filter_app. cbn [List.filter].
  set (acc := fold_left _ rows _) in *. destruct IH as (IH1 & IH2 & IH3). unfold note_atm_iv.
  destruct atm as [a|]; [|rewrite app_nil_r; auto]. destruct (ar_iv r) as [v|] eqn:Ev; [|rewrite app_nil_r; auto].
  destruct (f_eqb (ar_strike r) a); cbn [andb]; [|rewrite app_nil_r; auto].
  destruct (fst acc) as [w|] eqn:Ea; cbn [orb].
  - destruct (bool_decide (ar_option_type r = CALL)) eqn:Ec.
    + apply bool_decide_eq_true in Ec. cbn [fst snd]. split; [split; [discriminate|]; intros E; now apply app_eq_nil in E as [_ E]|].
      split; [discriminate|]. intros _. exists r. rewrite Ev. split; [apply in_or_app; right; now left|]. auto.
    + apply bool_decide_eq_false in Ec. rewrite Ea. split; [split; [discriminate|]; intros E; now apply app_eq_nil in E as [_ E]|].
      split; [discriminate|]. intros _. destruct IH3 as (r0 & Hi & E & Hr); [discriminate|]. exists r0.
      split; [apply in_or_app; now left|]. split; [exact E|]. destruct Hr as [Hr|Hr]; [now left|]. right.
      intros r' Hr'. apply in_app_or in Hr' as [Hr'|[<-|[]]]; auto.
  - cbn [fst snd]. split; [split; [discriminate|]; intros E; now apply app_eq_nil in E as [_ E]|]. split; [discriminate|].
    intros _. exists r. rewrite Ev. split; [apply in_or_app; right; now left|]. split; [reflexivity|].
    rewrite (proj1 IH1 eq_refl). cbn. destruct (ar_option_type r) eqn:Eo; [now left|]. right. intros r' [<-|[]]. congruence.
Qed.

Lemma summary_legs chain as_of r exps days us os calls hist now s :
  build_market_structure_summary chain as_of r exps days us os calls hist now = Ok s ->
  Forall2 is_leg (flat_map legs chain.(oc_rows)) s.(ms_rows).
Proof.
  unfold build_market_structure_summary. cbv zeta. destruct (map_r _ _) as [rows|] eqn:Er; [|discriminate]. cbn [rbind].
  destruct (fold_left _ rows _) as [iv src]. destruct (calculate_oi_analytics chain 3); [|discriminate]. cbn [rbind].
  destruct (calculate_pcr chain); [|discriminate]. cbn [rbind]. destruct (calculate_max_pain chain); [|discriminate]. cbn [rbind].
  destruct (calculate_iv_rank iv hist); [|discriminate]. cbn [rbind]. destruct (assess_data_quality _ _ _ _); [|discriminate].
  cbn [rbind]. intros [= <-]. apply map_r_Ok in Er. eapply Forall2_impl; [exact Er|]. intros [[k ot] quote] row E. now apply analyse_ok in E.
Qed.

(** Nothing in a summary is fabricated.  Every leg of the chain has
    exactly one row, in order; a row's volatility is absent, the provider's own,
    or the solver's from the traded price, and its source says which; Greeks
    appear only with a volatility, a spot and time left; and the at-the-money
    volatility is that of a row at the money, of its call leg when that leg has
    one. *)
Theorem summary_grounded chain as_of r exps days us os calls hist now s :
  build_market_structure_summary chain as_of r exps days us os calls hist now = Ok s ->
  let t := time_to_expiry_years (default (utc_stamp chain.(oc_generated_at)) as_of) chain.(oc_expiry) in
  let at_money := atm_rows s.(ms_atm_strike) s.(ms_rows) in
  Forall2 is_leg (flat_map legs chain.(oc_rows)) s.(ms_rows) /\
  Forall (fun row => row.(ar_moneyness) = classify_moneyness row.(ar_strike) chain.(oc_spot) row.(ar_option_type) s.(ms_atm_strike) /\
                     iv_grounded chain.(oc_spot) t r row /\ greeks_grounded chain.(oc_spot) t r row) s.(ms_rows) /\
  match s.(ms_atm_iv) with
  | None => at_money = [] /\ s.(ms_atm_iv_source) = UNAVAILABLE
  | Some v => exists row, In row at_money /\ row.(ar_iv) = Some v /\ row.(ar_iv_source) = s.(ms_atm_iv_source) /\
      (row.(ar_option_type) = CALL \/ forall row', In row' at_money -> row'.(ar_option_type) <> CALL)
  end.
Proof.
  unfold build_market_structure_summary. cbv zeta. set (t := time_to_expiry_years _ _). set (atm := summary_atm chain).
  destruct (map_r _ _) as [rows|] eqn:Er; [|discriminate]. cbn [rbind]. pose proof (note_atm_iv_spec atm rows) as Ha. cbv zeta in Ha.
  destruct (fold_left _ rows _) as [iv src]. cbn [fst snd] in Ha.
  destruct (calculate_oi_analytics chain 3) as [oi|]; [|discriminate]. cbn [rbind].
  destruct (calculate_pcr chain) as [pcr|]; [|discriminate]. cbn [rbind].
  destruct (calculate_max_pain chain) as [mp|]; [|discriminate]. cbn [rbind].
  destruct (calculate_iv_rank iv hist) as [rank|]; [|discriminate]. cbn [rbind].
  destruct (assess_data_quality _ _ _ _) as [q|]; [|discriminate]. cbn [rbind]. intros [= <-].
  cbn [ms_rows ms_atm_strike ms_atm_iv ms_atm_iv_source]. apply map_r_Ok in Er. split; [|split].
  - eapply Forall2_impl; [exact Er|]. intros [[k ot] quote] row E. now apply analyse_ok in E.
  - apply Forall_forall. intros row Hrow. apply list_elem_of_In in Hrow.
    destruct (Forall2_In_r _ _ _ _ Er Hrow) as ([[k ot] quote] & _ & E). apply analyse_ok in E as (L & Hm & Hv & Hg).
    injection L as <- <- <-. auto.
  - destruct Ha as (H1 & H2 & H3). destruct iv as [v|].
    + destruct H3 as (row & Hi & E & Hc); [discriminate|]. injection E as E1 E2. eauto 6.
    + split; [now apply H1 | now apply H2].
Qed.
End grounded.
Lemma summary_grounded_witness :
  exists s, build_market_structure_summary demo_chain None (f_dec 65 3) [] None "ICICI_BREEZE" "ICICI_BREEZE" 2 []
      demo_chain.(oc_generated_at) = Ok s /\
    map ar_iv_source s.(ms_rows) = [PROVIDER; CALCULATED; CALCULATED; PROVIDER; CALCULATED; UNAVAILABLE] /\
    s.(ms_atm_iv_source) = CALCULATED /\ Forall2 is_leg (flat_map legs demo_chain.(oc_rows)) s.(ms_rows).
Proof.
  destruct (build_market_structure_summary demo_chain None (f_dec 65 3) [] None "ICICI_BREEZE" "ICICI_BREEZE" 2 []
      demo_chain.(oc_generated_at)) as [s|] eqn:E; [|vm_compute in E; discriminate].
  exists s. pose proof (proj1 (summary_grounded _ _ _ _ _ _ _ _ _ _ _ E)) as H. split; [reflexivity|].
  assert (map ar_iv_source s.(ms_rows) = [PROVIDER; CALCULATED; CALCULATED; PROVIDER; CALCULATED; UNAVAILABLE] /\
          s.(ms_atm_iv_source) = CALCULATED) as [H1 H2].
  { vm_compute in E. injection E as <-. vm_compute. split; reflexivity. }
  split; [exact H1|]. split; [exact H2|]. exact H.
Defined.

(** A complete chain that is reported on five minutes later, as every
    point-in-time request is: the age is measured from the clock and not from
    the requested instant, so the report is STALE. *)
Definition full_chain : OptionChain := Eval vm_compute in
  mkChain "NIFTY" (ymd2ord 2026 9 8) (Some (f_of_Z 25110)) (Some (f_of_Z 25100)) (midnight (ymd2ord 2026 9 3))
    [mkChainRow (f_of_Z 25100) (demo_leg 25100 "CE" (f_of_Z 90) 1000 7000 (Some (f_dec 12 2)))
       (demo_leg 25100 "PE" (f_of_Z 80) 1500 7000 (Some (f_dec 13 2)))] "timescaledb".
Example point_in_time_is_stale :
  let report now as_of :=
    match build_market_structure_summary full_chain as_of (f_dec 65 3) [] None "TIMESCALEDB" "TIMESCALEDB" 0 [] now with
    | Ok s => Some (s.(ms_quality).(dq_status), s.(ms_quality).(dq_reasons)) | Err _ => None end in
  report (midnight (ymd2ord 2026 9 3)) None = Some (COMPLETE, []) /\
  report (midnight (ymd2ord 2026 9 4)) (Some (utc_stamp (midnight (ymd2ord 2026 9 3)))) = Some (STALE, ["Chain data stale by 86400s"]).
Proof. vm_compute. repeat split. Qed.
(** A rank is not confined to [0, 100]: the current volatility is not part of
    the history. *)
Example rank_beyond_hundred :
  option_map (fun x => f_fmt 1 x)
    (match calculate_iv_rank (Some (f_dec 4 1)) (map (fun n => f_dec (100 + n) 3) (seqZ 0 20)) with Ok x => x.(iv_rank) | Err _ => None end)
  = Some "1579.0".
Proof. vm_compute. reflexivity. Qed.
Example int_division :
  int_div 1 3 = Ok (f_div (f_of_Z 1) (f_of_Z 3)) /\ int_div (-7) 2 = Ok (f_opp (f_dec 35 1)) /\ int_div 5 0 = Err ZeroDivisionError /\
  int_div (10 ^ 400) (10 ^ 399) = Ok (f_of_Z 10) /\
  int_div (10 ^ 400) 3 = Err (OverflowError "integer division result too large for a float").
Proof. vm_compute. repeat split. Qed.
Example expiry_examples :
  let exps := [ymd2ord 2026 9 1; ymd2ord 2026 9 8; ymd2ord 2026 9 29; ymd2ord 2026 10 6] in
  let as_of := mkStamp (midnight (ymd2ord 2026 9 3)) (Some (time_us 5 30 0 0)) in
  build_expiry_info (ymd2ord 2026 9 8) exps as_of None = mkExpiryInfo (ymd2ord 2026 9 8) 5 None true false /\
  build_expiry_info (ymd2ord 2026 9 29) exps as_of (Some [ymd2ord 2026 9 3; ymd2ord 2026 9 4; ymd2ord 2026 9 29]) =
    mkExpiryInfo (ymd2ord 2026 9 29) 26 (Some 2) false true /\
  f_fmt 9 (time_to_expiry_years (mkStamp (midnight (ymd2ord 2026 9 8) + time_us 14 0 0 0) (Some (time_us 5 30 0 0))) (ymd2ord 2026 9 8)) = "0.000171233" /\
  time_to_expiry_years (mkStamp (midnight (ymd2ord 2026 9 8) + time_us 16 0 0 0) (Some (time_us 5 30 0 0))) (ymd2ord 2026 9 8) = f_zero.
Proof. vm_compute. repeat split. Qed.
Example atm_examples :
  atm_strike (map f_of_Z [25150; 25100; 25050]) (Some (f_of_Z 25125)) = Some (f_of_Z 25100) /\
  classify_moneyness (f_of_Z 25100) (Some (f_of_Z 25125)) PUT (Some (f_of_Z 25050)) = Some OTM /\
  classify_moneyness (f_of_Z 25100) None CALL None = None.
Proof. vm_compute. repeat split. Qed.
