(* ===== verification/OptionsService.v ===== *)
(** * Option chains: acquisition and persistence

    [trading/market_data/options_service.py]: a chain fetched from the provider
    with one call per side, read from the live cache, or rebuilt from the
    persisted candles as of an instant; the facts-only text for research; and
    the snapshot written to the database.  The provider is any instance of
    [MarketDataProvider]; a request makes its own object, kept in [ls_providers]
    in the state the request leaves it in.  A transaction is one step between
    the commits of other connections. *)
From S2P Require Import Prelude PyStr PyFloat PyNum Config Json PyTime JsonText PyParse Symbols MarketTime MarketCache MarketDb MarketSession Providers BreezeProvider OptionsIntel.

Definition OptionsDataError (m : string) : exn := OtherError "OptionsDataError" m.
Record ChainResult : Type := mkChainResult { cr_chain : OptionChain; cr_source_name : string; cr_provider_call_count : Z }.

(** [dt.isoformat()] *)
Definition two_digit (n : Z) : string := pad_zeros 2 (str_of_Z n).
Definition clock_text (us : Z) : string :=
  let s := us / US_PER_SECOND in
  two_digit (s / 3600) +:+ ":" +:+ two_digit (s / 60 mod 60) +:+ ":" +:+ two_digit (s mod 60) +:+
  (if us mod US_PER_SECOND =? 0 then "" else "." +:+ pad_zeros 6 (str_of_Z (us mod US_PER_SECOND))).
Definition offset_text (us : Z) : string :=
  let a := Z.abs us in
  (if us <? 0 then "-" else "+") +:+
  (if a mod (60 * US_PER_SECOND) =? 0 then
     two_digit (a / (3600 * US_PER_SECOND)) +:+ ":" +:+ two_digit (a / (60 * US_PER_SECOND) mod 60)
   else clock_text a).
Definition stamp_isoformat (t : stamp) : string :=
  isoformat (stamp_date t) +:+ "T" +:+ clock_text (t.(st_local) - midnight (stamp_date t)) +:+
  match t.(st_offset) with Some o => offset_text o | None => "" end.

(** ** The provider's chain *)
Record LiveState (P : Type) : Type := mkLive { ls_session : Manager; ls_providers : list P }.
Arguments mkLive {P} _ _.
Arguments ls_session {P} _.
Arguments ls_providers {P} _.

(** [try: m finally: f] *)
Definition try_finally {S A} (m : M S exn A) (f : M S exn unit) : M S exn A := fun st =>
  let '(r, st) := m st in
  let '(q, st) := f st in
  (match q with Ok _ => r | Err e => Err e end, st).
(** Quotes of both sides by strike. *)
Definition sides : Type := list (float * (option OptionQuote * option OptionQuote)).
Definition set_call (k : float) (q : OptionQuote) (d : sides) : sides :=
  dset f_eqb k (Some q, snd (default (None, None) (dget f_eqb k d))) d.
Definition set_put (k : float) (q : OptionQuote) (d : sides) : sides :=
  dset f_eqb k (fst (default (None, None) (dget f_eqb k d)), Some q) d.
Definition merge_sides (calls puts : OptionChain) : sides :=
  let d := fold_left (fun d r => match r.(row_call) with Some q => set_call r.(row_strike) q d | None => d end) calls.(oc_rows) [] in
  fold_left (fun d r => match r.(row_put) with Some q => set_put r.(row_strike) q d | None => d end) puts.(oc_rows) d.
Definition row_of (d : sides) (k : float) : OptionChainRow :=
  let q := default (None, None) (dget f_eqb k d) in mkChainRow k (fst q) (snd q).
(** [a or b] on optional numbers: zero is false. *)
Definition f_truthy (x : option float) : bool := match x with Some v => negb (f_eqb v f_zero) | None => false end.
Definition f_or (a b : option float) : option float := if f_truthy a then a else b.
Definition merged_chain (underlying : string) (expiry strike_window : Z) (calls puts : OptionChain) : OptionChain :=
  let d := merge_sides calls puts in
  let spot := match calls.(oc_spot) with Some s => Some s | None => puts.(oc_spot) end in
  let strikes := sort_by f_leb (map fst d) in
  let atm := f_or (f_or calls.(oc_atm_strike) puts.(oc_atm_strike))
               (if f_truthy spot then nearest_strike strikes spot else None) in
  let window := match atm with Some a => select_strike_window strikes a strike_window | None => strikes end in
  mkChain (upper underlying) expiry spot atm calls.(oc_generated_at) (map (row_of d) window) calls.(oc_provider).

Section live.
Context {P : Type} `{MarketDataProvider P} {env : SessionEnv} (s : Settings).
Definition LM (A : Type) : Type := M (LiveState P) exn A.
Definition on_session {A} (m : SM A) : LM A := fun st =>
  let '(r, sm) := m st.(ls_session) in (r, mkLive sm st.(ls_providers)).
(** A block on a provider object of its own. *)
Definition with_new_provider {A} (p : P) (m : M P exn A) : LM A := fun st =>
  let '(r, p) := m p in (r, mkLive st.(ls_session) (st.(ls_providers) ++ [p])).
Definition fetch_sides (underlying : string) (expiry : Z) : M P exn (OptionChain * OptionChain) :=
  p_connect ;;;
  try_finally
    (let! calls := p_get_option_chain underlying expiry (Some "CE") in
     let! puts := p_get_option_chain underlying expiry (Some "PE") in
     ret (calls, puts))
    p_disconnect.
Definition get_live_chain_via_provider (underlying : string) (expiry strike_window : Z) : LM ChainResult :=
  let! creds := on_session (credentials s) in
  let! _ := lift (create_market_data_provider s.(s_market_data_provider)) in
  let! both := with_new_provider (p_new creds) (fetch_sides underlying expiry) in
  let '(calls, puts) := both in
  ret (mkChainResult (merged_chain underlying expiry strike_window calls puts) (upper (str_or p_name "provider")) 2).
End live.

(** ** The live cache's chain *)
Definition get_live_chain_from_cache (underlying : string) (expiry strike_window : Z) (c : LiveCache) (m : InstrumentMaster)
    (now : Z) : result exn ChainResult :=
  let spot := e ← get_latest_quote (upper underlying) c; q_ltp e.(cq_quote) in
  let? chain := build_option_chain underlying expiry spot c m strike_window "icici_breeze" now in
  Ok (mkChainResult chain "LIVE_CACHE" 0).

(** ** The persisted chain *)
(** [... ORDER BY timestamp DESC LIMIT 1] *)
Definition latest_by {A} (time : A -> Z) (l : list A) : option A :=
  match l with [] => None | x :: r => Some (min_lt (fun a b => time b <? time a) x r) end.
Definition at_or_before {A} (time : A -> Z) (t : Z) (l : list A) : list A := List.filter (fun x => time x <=? t) l.
Section historical.
Context (db_zone : Z).
Definition latest_candle (contract_id as_of : Z) (d : MDb) : option OptionCandleRow :=
  latest_by oc_timestamp (at_or_before oc_timestamp as_of
    (List.filter (fun c => c.(MarketDb.oc_contract_id) =? contract_id) d.(option_candles))).
Definition _historical_spot (underlying : string) (as_of : Z) : MM (option float) :=
  query (fun d => mc_close <$> latest_by mc_timestamp (at_or_before mc_timestamp as_of
                    (List.filter (fun c => String.eqb c.(mc_symbol) underlying) d.(market_candles)))).
(** The instant of a quote's construction is the clock's. *)
Definition candle_quote (under : string) (expiry : Z) (c : OptionContractRow) (k : OptionCandleRow) (now : Z) : result exn OptionQuote :=
  build_option_quote under expiry c.(ct_strike) c.(ct_option_type) (Some k.(oc_close)) (Some k.(oc_open)) (Some k.(oc_high))
    (Some k.(oc_low)) None k.(oc_volume) k.(MarketDb.oc_oi) None None None None None (Some k.(oc_timestamp)) "timescaledb" now.
Definition by_type : Type := list (string * OptionQuote).
Definition hist_acc : Type := list (float * by_type) * option Z.
Definition later (latest : option Z) (t : Z) : option Z :=
  match latest with Some l => if l <? t then Some t else latest | None => Some t end.
Definition add_contract_quote (under : string) (expiry as_of : Z) (c : OptionContractRow) (acc : hist_acc) : MM hist_acc :=
  let! k := query (latest_candle c.(ct_id) as_of) in
  match k with
  | None => ret acc
  | Some k =>
      let! now := utcnow in
      let! q := lift (candle_quote under expiry c k now) in
      let types := default [] (dget f_eqb c.(ct_strike) (fst acc)) in
      ret (dset f_eqb c.(ct_strike) (dset String.eqb c.(ct_option_type) q types) (fst acc), later (snd acc) k.(oc_timestamp))
  end.
Fixpoint add_contract_quotes (under : string) (expiry as_of : Z) (cs : list OptionContractRow) (acc : hist_acc) : MM hist_acc :=
  match cs with
  | [] => ret acc
  | c :: r => let! acc := add_contract_quote under expiry as_of c acc in add_contract_quotes under expiry as_of r acc
  end.
Definition typed_row (d : list (float * by_type)) (k : float) : OptionChainRow :=
  let t := default [] (dget f_eqb k d) in mkChainRow k (dget String.eqb "CE" t) (dget String.eqb "PE" t).
Definition get_historical_chain (underlying : string) (expiry : Z) (as_of : stamp) (strike_window : option Z) : MM ChainResult :=
  let under := upper (strip underlying) in
  let t := instant_of db_zone as_of in
  let! contracts := query (fun d => List.filter (fun c => String.eqb c.(ct_underlying) under && (c.(ct_expiry) =? expiry)) d.(option_contracts)) in
  match contracts with
  | [] => raise (OptionsDataError ("No persisted contracts for " +:+ under +:+ " expiry " +:+ isoformat expiry))
  | _ =>
      let! acc := add_contract_quotes under expiry t contracts ([], None) in
      let '(by_strike, latest_ts) := acc in
      match by_strike with
      | [] => raise (OptionsDataError ("No persisted candle at/before " +:+ stamp_isoformat as_of +:+ " for " +:+ under +:+
                                       " expiry " +:+ isoformat expiry))
      | _ =>
          let strikes := sort_by f_leb (map fst by_strike) in
          let! spot := _historical_spot under t in
          let atm := nearest_strike strikes spot in
          let window := match atm, strike_window with
                        | Some a, Some n => select_strike_window strikes a n
                        | _, _ => strikes
                        end in
          ret (mkChainResult (mkChain under expiry spot atm (default t latest_ts) (map (typed_row by_strike) window) "timescaledb")
                 "TIMESCALEDB" 0)
      end
  end.
End historical.

(** ** The snapshot written *)
(** A transaction on the tables as they are when it runs: [f] answers what it
    returns and leaves, or raises, and nothing is kept then. *)
Definition transaction {A} (f : MDb -> result exn (A * MDb)) : MM A := fun w =>
  let w := settle w in
  match f w.(m_db) with
  | Ok (a, d) => if mdb_ok d then (Ok a, mkMWorld d w.(m_others) w.(m_now)) else (Err IntegrityError, w)
  | Err e => (Err e, w)
  end.
Definition is_snapshot_contract (chain : OptionChain) (strike : float) (ot : string) (c : OptionContractRow) : bool :=
  String.eqb c.(ct_underlying) chain.(oc_underlying) && String.eqb c.(ct_exchange) "NFO" && (c.(ct_expiry) =? chain.(oc_expiry)) &&
  f_eqb c.(ct_strike) strike && String.eqb c.(ct_option_type) ot.
Definition snapshot_contract (chain : OptionChain) (strike : float) (ot : string) (q : OptionQuote) (id : Z) : OptionContractRow :=
  mkOptionContract id chain.(oc_underlying) "NFO" (str_or chain.(oc_provider) "icici_breeze") None q.(oq_symbol)
    chain.(oc_expiry) strike ot None None.
(** Get or create, and flush. *)
Definition snapshot_contract_id (chain : OptionChain) (strike : float) (ot : string) (q : OptionQuote) (d : MDb)
    : result exn (Z * MDb) :=
  let? found := one_or_none (is_snapshot_contract chain strike ot) d.(option_contracts) in
  match found with
  | Some c => Ok (c.(ct_id), d)
  | None =>
      let id := next_id ct_id d.(option_contracts) in
      let d' := on_option_contracts (fun rows => rows ++ [snapshot_contract chain strike ot q id]) d in
      if mdb_ok d' then Ok (id, d') else Err IntegrityError
  end.
Definition or_else {A} (a b : option A) : option A := match a with Some _ => a | None => b end.
Definition is_candle_at (contract_id ts : Z) (k : OptionCandleRow) : bool :=
  (k.(MarketDb.oc_contract_id) =? contract_id) && (k.(oc_timestamp) =? ts).
Definition refresh_candle (q : OptionQuote) (k : OptionCandleRow) : OptionCandleRow :=
  mkOptionCandle k.(oc_id) k.(oc_timestamp) k.(MarketDb.oc_contract_id) k.(oc_open) k.(oc_high) k.(oc_low)
    (default k.(oc_close) q.(oq_ltp)) (or_else q.(oq_volume) k.(oc_volume)) (or_else q.(oq_oi) k.(MarketDb.oc_oi)).
Definition fresh_candle (id contract_id ts : Z) (q : OptionQuote) : OptionCandleRow :=
  let price := default f_zero q.(oq_ltp) in mkOptionCandle id ts contract_id price price price price q.(oq_volume) q.(oq_oi).
(** A candle added for an earlier leg is visible here at once, while the session
    shows it after a flush: the strikes of a chain being distinct, no two legs
    share a contract and the two agree. *)
Definition persist_leg (chain : OptionChain) (acc : Z * MDb) (leg : float * OptionType * option OptionQuote) : result exn (Z * MDb) :=
  let '(strike, ot, quote) := leg in
  match quote with
  | None => Ok acc
  | Some q =>
      let? found := snapshot_contract_id chain strike (to_ce_pe ot) q (snd acc) in
      let '(contract_id, d) := found in
      let ts := chain.(oc_generated_at) in
      let? existing := one_or_none (is_candle_at contract_id ts) d.(option_candles) in
      match existing with
      | Some k => Ok (fst acc, on_option_candles (update_where (fun c => c.(oc_id) =? k.(oc_id)) (refresh_candle q)) d)
      | None =>
          Ok (fst acc + 1,
              on_option_candles (fun rows => rows ++ [fresh_candle (next_id oc_id rows) contract_id ts q]) d)
      end
  end.
Definition persist_rows (chain : OptionChain) (d : MDb) : result exn (Z * MDb) :=
  fold_r (persist_leg chain) (0, d) (flat_map legs chain.(oc_rows)).
Definition persist_option_chain_snapshot (chain : OptionChain) : MM Z := transaction (persist_rows chain).

(** ** The text for research *)
Definition f_json (x : option float) : json := match x with Some v => JFloat v | None => JNull end.
Definition show_float (x : option float) : string := py_str (f_json x).
Definition show_floats (l : list float) : string := py_str (JArr (map JFloat l)).
Definition context_lines (m : MarketStructureSummary) : list string :=
  ["## Options Market Context (" +:+ m.(ms_underlying) +:+ ", expiry " +:+ isoformat m.(ms_expiry) +:+ ")";
   "Spot: " +:+ show_float m.(ms_spot) +:+ "  ATM strike: " +:+ show_float m.(ms_atm_strike);
   "OI PCR: " +:+ show_float m.(ms_pcr).(oi_pcr) +:+ "  Volume PCR: " +:+ show_float m.(ms_pcr).(volume_pcr);
   "Max Pain strike: " +:+ show_float m.(ms_max_pain).(max_pain_strike);
   "OI-derived support (highest Put OI): " +:+ show_floats m.(ms_support_resistance).(oi_support);
   "OI-derived resistance (highest Call OI): " +:+ show_floats m.(ms_support_resistance).(oi_resistance);
   "ATM IV: " +:+ show_float m.(ms_atm_iv) +:+ " (source: " +:+ iv_source_value m.(ms_atm_iv_source) +:+ ")";
   "Expected move (" +:+ m.(ms_expected_move).(method) +:+ "): " +:+ show_float m.(ms_expected_move).(expected_move);
   "Data quality: " +:+ quality_value m.(ms_quality).(dq_status);
   "These are deterministic facts/calculations only -- no options-strategy recommendation."].
Record ContextProvenance : Type := mkContext {
  options_context_included : bool; cp_underlying : string; cp_reason : option string; options_quality : option string
}.
Definition newline : string := unchars [Ascii.ascii_of_nat 10].
Definition any_quote (chain : OptionChain) : bool := existsb (fun r => negb (no_quote r.(row_call) && no_quote r.(row_put))) chain.(oc_rows).
Section context.
Context {P : Type} `{MarketDataProvider P} {env : SessionEnv} `{Libm} (s : Settings).
(** The instants read from the clock are the one of the request. *)
Definition current_summary (underlying : string) (c : LiveCache) (m : InstrumentMaster) (now : Z)
    : M (LiveState P) exn (option MarketStructureSummary) :=
  let expiries := list_expiries underlying m in
  match resolve_expiry (date_of now) m underlying (ExpiryText "current") with
  | None => ret None
  | Some expiry =>
      let! cached := lift (get_live_chain_from_cache underlying expiry s.(s_options_chain_strike_window) c m now) in
      let! result := if any_quote cached.(cr_chain) then ret cached
                     else get_live_chain_via_provider s underlying expiry s.(s_options_chain_strike_window) in
      let! summary := lift (build_market_structure_summary result.(cr_chain) None s.(s_options_risk_free_rate)
                              (match expiries with [] => [expiry] | _ => expiries end) None result.(cr_source_name)
                              result.(cr_source_name) result.(cr_provider_call_count) [] now) in
      ret (Some summary)
  end.
Definition build_options_market_context (underlying : string) (research_date : Z) (c : LiveCache) (m : InstrumentMaster) (now : Z)
    : M (LiveState P) exn (option string * ContextProvenance) :=
  let without reason := (None, mkContext false (upper underlying) (Some reason) None) in
  if negb (research_date =? date_of now) then
    ret (without "options context is only attached for a live/current research date")
  else
    try_except
      (let! summary := current_summary underlying c m now in
       ret match summary with
           | None => without "no expiries known yet for this underlying"
           | Some x => (Some (String.concat newline (context_lines x)),
                        mkContext true (upper underlying) None (Some (quality_value x.(ms_quality).(dq_status))))
           end)
      (fun e => ret (without ("options context unavailable (" +:+ class_of e +:+ ")"))).
End context.

(** ** The provider is always closed *)
Section live_theorems.
Context {P : Type} `{HP : ProviderLaws P} {env : SessionEnv} (s : Settings).
Definition closed (p : P) : Prop := p_is_connected p = false.
Lemma try_finally_snd {S A} (m : M S exn A) f st : snd (try_finally m f st) = snd (f (snd (m st))).
Proof. unfold try_finally. destruct (m st) as [r st1]. cbn. now destruct (f st1). Qed.
Lemma fetch_sides_closed u e c : closed (snd (fetch_sides u e (p_new c))).
Proof.
  unfold fetch_sides, closed, bind. destruct (p_connect (p_new c)) as [[[]|x] p1] eqn:E; cbn.
  - rewrite try_finally_snd. apply disconnect_disconnects.
  - pose proof (connect_failed (p_new c) x) as F. rewrite E in F. cbn in F. rewrite F by reflexivity. apply (new_idle c).
Qed.
(** What a request of the live chain does to the providers: one at most is
    made, and it is closed. *)
Definition makes_closed {A} (m : LM (P := P) A) : Prop := forall st,
  exists made, (snd (m st)).(ls_providers) = st.(ls_providers) ++ made /\ (List.length made <= 1)%nat /\ Forall closed made.
Lemma makes_none {A} (m : LM (P := P) A) : (forall st, (snd (m st)).(ls_providers) = st.(ls_providers)) -> makes_closed m.
Proof. intros K st. exists []. rewrite app_nil_r. repeat split; [apply K | cbn; lia | constructor]. Qed.
Lemma live_chain_closed u e n : makes_closed (get_live_chain_via_provider s u e n).
Proof.
  intros st. unfold get_live_chain_via_provider, on_session, bind. destruct (credentials s (ls_session st)) as [[creds|x] sm]; cbn;
    [|exists []; rewrite app_nil_r; repeat split; [cbn; lia | constructor]].
  unfold lift. destruct (create_market_data_provider _); cbn; [|exists []; rewrite app_nil_r; repeat split; [cbn; lia | constructor]].
  unfold with_new_provider. pose proof (fetch_sides_closed u e creds) as C. destruct (fetch_sides u e (p_new creds)) as [r p]. cbn in C.
  exists [p]. destruct r as [[calls puts]|x]; cbn; repeat split; auto.
Qed.

(** C30: the research text never blocks and leaks no provider session:
    [build_options_market_context] always returns, makes at most one provider
    object - none for a past date - and leaves it disconnected, whatever the
    broker, the session store or the analytics raise. *)
Theorem context_is_safe `{Libm} u d c m now st :
  let '(r, st') := build_options_market_context s u d c m now st in
  (exists text prov, r = Ok (text, prov) /\ (text = None <-> prov.(options_context_included) = false)) /\
  exists made, st'.(ls_providers) = st.(ls_providers) ++ made /\ (List.length made <= 1)%nat /\ Forall closed made /\
    (d <> date_of now -> made = []).
Proof.
  unfold build_options_market_context. destruct (Z.eqb_spec d (date_of now)) as [->|Hd]; cbn [negb].
  2: { cbn. split; [eexists _, _; split; [reflexivity | easy]|]. exists []. rewrite app_nil_r. repeat split; [cbn; lia | constructor]. }
  assert (makes_closed (current_summary s u c m now)) as K.
  { unfold current_summary. destruct (resolve_expiry _ _ _ _) as [expiry|]; [|now apply makes_none].
    unfold lift. intros st0. unfold bind. destruct (get_live_chain_from_cache _ _ _ _ _ _) as [cached|];
      [|exists []; rewrite app_nil_r; cbn; repeat split; [lia | constructor]].
    destruct (any_quote (cr_chain cached)).
    - cbn. destruct (build_market_structure_summary _ _ _ _ _ _ _ _ _ _); cbn; exists []; rewrite app_nil_r; repeat split; cbn; try lia; constructor.
    - destruct (live_chain_closed u expiry (s_options_chain_strike_window s) st0) as (made & H1 & H2 & H3).
      destruct (get_live_chain_via_provider _ _ _ _ st0) as [[res|x] st1]; cbn in *; [|now exists made].
      destruct (build_market_structure_summary _ _ _ _ _ _ _ _ _ _); cbn; now exists made. }
  unfold try_except, bind, ret. destruct (K st) as (made & H1 & H2 & H3).
  destruct (current_summary s u c m now st) as [[[x|]|x] st']; cbn in *;
    (split; [eexists _, _; split; [reflexivity | easy] | exists made; repeat split; auto; tauto]).
Qed.
End live_theorems.

(** ** Nothing later than the instant asked for *)
Lemma latest_by_spec {A} (time : A -> Z) l x : latest_by time l = Some x -> In x l /\ forall y, In y l -> time y <= time x.
Proof.
  destruct l as [|a l]; [discriminate|]. intros [= <-].
  split; [apply min_lt_In|]. intros y Hy.
  enough ((time (min_lt (fun a b => time b <? time a) a l) <? time y) = false) as H by (apply Z.ltb_ge in H; exact H).
  apply (min_lt_least (fun a b => time b <? time a)); [intros; apply Z.ltb_irrefl | intros u v w; rewrite !Z.ltb_lt; lia | exact Hy].
Qed.
Lemma latest_by_None {A} (time : A -> Z) l : latest_by time l = None -> l = [].
Proof. now destruct l. Qed.
Lemma In_dset {K V} (eqb : K -> K -> bool) k (v : V) d k' v' :
  In (k', v') (dset eqb k v d) -> In (k', v') d \/ (v' = v /\ (k' = k \/ eqb k k' = true)).
Proof.
  induction d as [|[k0 v0] d IH]; cbn; [intros [[= <- <-]|[]]; auto|]. destruct (eqb k k0) eqn:E; cbn.
  - intros [[= <- <-]|Hi]; auto.
  - intros [Hi|Hi]; [auto|]. destruct (IH Hi); auto.
Qed.

(** A quote drawn from the tables: the newest candle of a contract of the
    chain, at or before the instant. *)
Definition newest {A} (time : A -> Z) (t : Z) (p : A -> bool) (l : list A) (x : A) : Prop :=
  In x l /\ p x = true /\ time x <= t /\ forall y, In y l -> p y = true -> time y <= t -> time y <= time x.
Definition drawn (d : MDb) (under : string) (expiry t : Z) (strike : float) (ot : string) (q : OptionQuote) : Prop :=
  exists c k, In c d.(option_contracts) /\ ct_underlying c = under /\ ct_expiry c = expiry /\
    (strike = ct_strike c \/ f_eqb strike (ct_strike c) = true) /\ ct_option_type c = ot /\
    newest oc_timestamp t (fun k => k.(MarketDb.oc_contract_id) =? ct_id c) d.(option_candles) k /\
    oq_provider_timestamp q = Some (oc_timestamp k) /\ oq_ltp q = Some (oc_close k) /\ oq_oi q = MarketDb.oc_oi k /\
    oq_volume q = oc_volume k.
Lemma newest_latest {A} (time : A -> Z) t p l x : latest_by time (at_or_before time t (List.filter p l)) = Some x -> newest time t p l x.
Proof.
  intros [Hi Hm]%latest_by_spec. unfold at_or_before in *. apply List.filter_In in Hi as [Hi Ht]. apply List.filter_In in Hi as [Hi Hp].
  apply Z.leb_le in Ht. split; [exact Hi|]. split; [exact Hp|]. split; [exact Ht|].
  intros y Hy Hpy Hty. apply Hm. apply List.filter_In. split; [now apply List.filter_In | now apply Z.leb_le].
Qed.

Section point_in_time.
Context (d : MDb) (under : string) (expiry t : Z).
Definition acc_ok (acc : hist_acc) : Prop :=
  (forall k types ot q, In (k, types) (fst acc) -> In (ot, q) types -> drawn d under expiry t k ot q) /\
  match snd acc with Some l => l <= t | None => fst acc = [] end.
Lemma candle_quote_fields c k now q : candle_quote under expiry c k now = Ok q ->
  oq_provider_timestamp q = Some (oc_timestamp k) /\ oq_ltp q = Some (oc_close k) /\ oq_oi q = MarketDb.oc_oi k /\ oq_volume q = oc_volume k.
Proof.
  unfold candle_quote, build_option_quote. destruct (_derive_change _ _) as [ch pct]. destruct (make_option_symbol _ _ _ _); [|discriminate].
  intros [= <-]. auto.
Qed.
Lemma drawn_same_strike k k' ot q : f_eqb k k' = true -> drawn d under expiry t k' ot q -> drawn d under expiry t k ot q.
Proof.
  intros E (c & x & H1 & H2 & H3 & Hk & H4). exists c, x.
  split; [exact H1|]. split; [exact H2|]. split; [exact H3|]. split; [|exact H4]. right.
  destruct Hk as [->|Hk]; [exact E | eapply f_eqb_trans; eauto].
Qed.
Lemma add_contract_quote_ok c acc w acc' w' : alone w -> m_db w = d -> acc_ok acc ->
  In c d.(option_contracts) -> ct_underlying c = under -> ct_expiry c = expiry ->
  add_contract_quote under expiry t c acc w = (Ok acc', w') -> w' = w /\ acc_ok acc'.
Proof.
  intros Hw Hd [Ha Hl] Hc Hu He. unfold add_contract_quote, query, bind, utcnow, gets, lift, ret.
  rewrite (settle_alone w Hw), Hd. destruct (latest_candle (ct_id c) t d) as [k|] eqn:Ek; [|intros [= <- <-]; now split].
  destruct (candle_quote under expiry c k (m_now w)) as [q|] eqn:Eq; [|discriminate]. intros [= <- <-]. split; [reflexivity|].
  unfold latest_candle in Ek. apply newest_latest in Ek. apply candle_quote_fields in Eq.
  assert (forall k0, (k0 = ct_strike c \/ f_eqb k0 (ct_strike c) = true) -> drawn d under expiry t k0 (ct_option_type c) q) as Dq
    by (intros k0 Hk0; exists c, k; tauto).
  split; cbn [fst snd].
  - intros k0 types ot q0 Hi Hq. apply In_dset in Hi as [Hi|[-> Hk0]]; [eapply Ha; eauto|].
    apply In_dset in Hq as [Hq|[-> Hot]].
    + destruct (dget f_eqb (ct_strike c) (fst acc)) as [old|] eqn:Ed; [|destruct Hq].
      destruct (dget_Some f_eqb _ _ _ Ed) as (k1 & Hi1 & E1). specialize (Ha k1 old ot q0 Hi1 Hq).
      destruct Hk0 as [->|Hk0]; [eapply drawn_same_strike; eauto|].
      eapply drawn_same_strike; [|exact Ha]. rewrite f_eqb_sym in Hk0. eapply f_eqb_trans; eauto.
    + assert (ot = ct_option_type c) as -> by (destruct Hot as [|Hot]; [assumption | now apply String.eqb_eq in Hot]).
      apply Dq. destruct Hk0 as [->|Hk0]; [now left | right; now rewrite f_eqb_sym].
  - destruct Ek as (_ & _ & Ek & _). unfold later. destruct (snd acc) as [l|]; [destruct (l <? oc_timestamp k); assumption | exact Ek].
Qed.
Lemma add_contract_quotes_ok cs : forall acc w acc' w', alone w -> m_db w = d -> acc_ok acc ->
  (forall c, In c cs -> In c d.(option_contracts) /\ ct_underlying c = under /\ ct_expiry c = expiry) ->
  add_contract_quotes under expiry t cs acc w = (Ok acc', w') -> w' = w /\ acc_ok acc'.
Proof.
  induction cs as [|c cs IH]; intros acc w acc' w' Hw Hd Ha Hc; cbn [add_contract_quotes]; [intros [= <- <-]; now split|].
  intros E. apply bind_inv_Ok in E as (acc1 & w1 & E1 & E2). destruct (Hc c (or_introl eq_refl)) as (H1 & H2 & H3).
  apply add_contract_quote_ok in E1 as [-> Ha1]; auto. eapply IH; eauto. intros c' Hc'. apply Hc. now right.
Qed.
Lemma typed_row_ok acc k : acc_ok acc ->
  (forall q, (typed_row (fst acc) k).(row_call) = Some q -> drawn d under expiry t k "CE" q) /\
  (forall q, (typed_row (fst acc) k).(row_put) = Some q -> drawn d under expiry t k "PE" q).
Proof.
  intros [Ha _]. unfold typed_row. cbn. destruct (dget f_eqb k (fst acc)) as [types|] eqn:E; [|now split].
  destruct (dget_Some f_eqb _ _ _ E) as (k1 & Hi & E1). cbn.
  split; intros q Hq; destruct (dget_Some String.eqb _ _ _ Hq) as (ot & Hot & Eot); apply String.eqb_eq in Eot as <-;
    eapply drawn_same_strike; eauto.
Qed.
End point_in_time.

(** C27: a chain rebuilt as of an instant is drawn from the database alone and
    lets nothing later leak in: each quote is the newest persisted candle, at or
    before the instant, of a contract of that underlying, expiry, strike and
    type; the spot is the newest index close at or before it; and the chain is
    not stamped later. *)
Theorem historical_chain_point_in_time zone u e as_of n w res w' : alone w ->
  get_historical_chain zone u e as_of n w = (Ok res, w') ->
  let t := instant_of zone as_of in
  let under := upper (strip u) in
  w' = w /\ res.(cr_provider_call_count) = 0 /\ res.(cr_chain).(oc_generated_at) <= t /\
  (forall r, In r res.(cr_chain).(oc_rows) ->
     (forall q, r.(row_call) = Some q -> drawn w.(m_db) under e t r.(row_strike) "CE" q) /\
     (forall q, r.(row_put) = Some q -> drawn w.(m_db) under e t r.(row_strike) "PE" q)) /\
  (forall p, res.(cr_chain).(oc_spot) = Some p ->
     exists k, newest mc_timestamp t (fun k => String.eqb k.(mc_symbol) under) w.(m_db).(market_candles) k /\ mc_close k = p).
Proof.
  intros Hw. cbv zeta. unfold get_historical_chain. set (t := instant_of zone as_of). set (under := upper (strip u)). cbv zeta.
  intros E. apply bind_inv_Ok in E as (cs & w1 & E1 & E). unfold query in E1. rewrite (settle_alone w Hw) in E1. injection E1 as <- <-.
  set (cs := List.filter _ _) in E.
  assert (forall c, In c cs -> In c (m_db w).(option_contracts) /\ ct_underlying c = under /\ ct_expiry c = e) as Hcs.
  { intros c Hc. apply List.filter_In in Hc as [H1 H2]. apply andb_prop in H2 as [H2 H3]. split; [exact H1|].
    split; [now apply String.eqb_eq | now apply Z.eqb_eq]. }
  clearbody cs. destruct cs as [|c0 cs]; [discriminate|].
  apply bind_inv_Ok in E as ([by_strike latest] & w1 & E1 & E).
  apply (add_contract_quotes_ok (m_db w)) in E1 as [-> Ha]; auto; [|split; cbn; tauto].
  destruct by_strike as [|kt by_strike]; [discriminate|]. set (bs := kt :: by_strike) in *.
  apply bind_inv_Ok in E as (spot & w1 & E1 & E). unfold _historical_spot, query in E1. rewrite (settle_alone w Hw) in E1.
  injection E1 as <- <-. injection E as <- <-. cbn [cr_chain cr_provider_call_count oc_generated_at oc_rows oc_spot].
  split; [reflexivity|]. split; [reflexivity|]. split; [|split].
  - destruct Ha as [_ Hl]. cbn in Hl. destruct latest; [exact Hl | discriminate].
  - intros r Hr. apply in_map_iff in Hr as (k & <- & _). exact (typed_row_ok _ _ _ _ (bs, latest) k Ha).
  - intros p Hp. destruct (latest_by _ _) as [k|] eqn:Ek; [|discriminate]. injection Hp as <-. exists k. split; [|reflexivity].
    now apply newest_latest.
Qed.

(** ** Writing the same snapshot twice *)
Section snapshot.
Context (chain : OptionChain).
Definition leg_type : Type := float * OptionType * option OptionQuote.
#[local] Abbreviation ts := (oc_generated_at chain).
(** The rows of a leg are there and hold what it says. *)
Definition stored (d : MDb) (l : leg_type) : Prop :=
  match snd l with
  | None => True
  | Some q => exists c k,
      List.filter (is_snapshot_contract chain (fst (fst l)) (to_ce_pe (snd (fst l)))) d.(option_contracts) = [c] /\
      List.filter (is_candle_at (ct_id c) ts) d.(option_candles) = [k] /\ refresh_candle q k = k
  end.
Definition ids_ok (d : MDb) : Prop := NoDup (map ct_id d.(option_contracts)) /\ NoDup (map oc_id d.(option_candles)).
Definition differ (a b : leg_type) : Prop := f_eqb (fst (fst b)) (fst (fst a)) = false \/ snd (fst a) <> snd (fst b).

Lemma one_found {A} (p : A -> bool) l x : List.filter p l = [x] -> one_or_none p l = Ok (Some x).
Proof. unfold one_or_none. now intros ->. Qed.
Lemma filter_one_In {A} (p : A -> bool) l x : List.filter p l = [x] -> In x l /\ p x = true.
Proof. intros E. apply List.filter_In. rewrite E. now left. Qed.
Lemma update_where_id {A} (p : A -> bool) f l : (forall x, In x l -> p x = true -> f x = x) -> update_where p f l = l.
Proof.
  unfold update_where. intros H. induction l as [|x l IH]; cbn; [reflexivity|]. rewrite IH by (intros; apply H; auto with datatypes).
  destruct (p x) eqn:E; [|reflexivity]. now rewrite H by auto with datatypes.
Qed.
Lemma ids_ok_db d : mdb_ok d = true -> ids_ok d.
Proof. unfold mdb_ok, unique_on. intros H. to_prop. now split. Qed.
Lemma refresh_idem q k : refresh_candle q (refresh_candle q k) = refresh_candle q k.
Proof. unfold refresh_candle. cbn. destruct (oq_ltp q), (oq_volume q), (oq_oi q); reflexivity. Qed.
Lemma refresh_fresh q id cid t : refresh_candle q (fresh_candle id cid t q) = fresh_candle id cid t q.
Proof. unfold refresh_candle, fresh_candle. cbn. destruct (oq_ltp q), (oq_volume q), (oq_oi q); reflexivity. Qed.

(** A stored leg is written without a change. *)
Lemma stored_again n d l : ids_ok d -> stored d l -> persist_leg chain (n, d) l = Ok (n, d).
Proof.
  destruct l as [[strike ot] [q|]]; [|reflexivity]. intros [_ Hids] (c & k & Hc & Hk & Hr). cbn [fst snd] in *.
  unfold persist_leg, snapshot_contract_id. cbn [snd fst]. rewrite (one_found _ _ _ Hc). cbn [rbind].
  rewrite (one_found _ _ _ Hk). cbn [rbind]. do 2 f_equal. destruct d as [mc ct ocs cy ds ois]. unfold on_option_candles. cbn in *.
  f_equal. apply update_where_id. intros x Hx Hp. apply Z.eqb_eq in Hp. apply filter_one_In in Hk as [Hk _].
  rewrite (NoDup_map_inj_in oc_id ocs x k Hids Hx Hk Hp). exact Hr.
Qed.

(** One leg written: its rows are there, the ids stay unique, and the other
    legs' rows are as they were. *)
Lemma contract_step strike ot q d id d' : f_num strike -> ids_ok d -> snapshot_contract_id chain strike ot q d = Ok (id, d') ->
  ids_ok d' /\ d'.(option_candles) = d.(option_candles) /\
  (exists c, List.filter (is_snapshot_contract chain strike ot) d'.(option_contracts) = [c] /\ ct_id c = id) /\
  (forall k2 ot2, f_eqb k2 strike = false \/ ot2 <> ot ->
     List.filter (is_snapshot_contract chain k2 ot2) d'.(option_contracts) = List.filter (is_snapshot_contract chain k2 ot2) d.(option_contracts)).
Proof.
  intros Hn [H1 H2]. unfold snapshot_contract_id. destruct (one_or_none _ _) as [[c|]|] eqn:E; cbn [rbind]; [| |discriminate].
  - intros [= <- <-]. apply one_or_none_filter in E. split; [now split|]. split; [reflexivity|]. split; [now exists c | reflexivity].
  - apply one_or_none_filter in E. cbv zeta. set (c := snapshot_contract _ _ _ _ _). destruct (mdb_ok _) eqn:Hm; [|discriminate].
    intros [= <- <-]. split; [now apply ids_ok_db|]. split; [reflexivity|].
    assert (is_snapshot_contract chain strike ot c = true) as Hc.
    { unfold is_snapshot_contract, c, snapshot_contract. cbn. rewrite !String.eqb_refl, Z.eqb_refl, f_eqb_refl by exact Hn. reflexivity. }
    split.
    + exists c. split; [|reflexivity]. cbn. rewrite List.filter_app, E. cbn. now rewrite Hc.
    + intros k2 ot2 Hd. cbn. rewrite List.filter_app. cbn.
      assert (is_snapshot_contract chain k2 ot2 c = false) as ->; [|now rewrite app_nil_r].
      unfold is_snapshot_contract, c, snapshot_contract. cbn. rewrite f_eqb_sym. destruct Hd as [->|Hd]; [now rewrite andb_false_r|].
      apply not_eq_sym, String.eqb_neq in Hd. rewrite Hd. apply andb_false_r.
Qed.
Lemma to_ce_pe_inj a b : to_ce_pe a = to_ce_pe b -> a = b.
Proof. now destruct a, b. Qed.
Lemma candle_other id1 id2 k : id1 <> id2 -> k.(MarketDb.oc_contract_id) = id2 -> is_candle_at id1 ts k = false.
Proof. intros Hne Hk. unfold is_candle_at. rewrite Hk. apply not_eq_sym, Z.eqb_neq in Hne. now rewrite Hne. Qed.
Lemma filter_refresh cid p q rows : List.filter (is_candle_at cid ts) (update_where p (refresh_candle q) rows) =
  update_where p (refresh_candle q) (List.filter (is_candle_at cid ts) rows).
Proof.
  unfold update_where. induction rows as [|x xs IH]; [reflexivity|]. cbn.
  assert (is_candle_at cid ts (if p x then refresh_candle q x else x) = is_candle_at cid ts x) as -> by (destruct (p x); reflexivity).
  destruct (is_candle_at cid ts x); cbn; now rewrite IH.
Qed.
Lemma leg_step n d l n' d' : f_num (fst (fst l)) -> ids_ok d -> persist_leg chain (n, d) l = Ok (n', d') ->
  ids_ok d' /\ stored d' l /\ forall l2, differ l2 l -> stored d l2 -> stored d' l2.
Proof.
  destruct l as [[strike ot] [q|]]; cbn [fst snd]; intros Hn Hi; [|intros [= <- <-]; split; [exact Hi|]; split; [exact I | auto]].
  unfold persist_leg. cbn [snd fst]. destruct (snapshot_contract_id _ _ _ _ _) as [[cid d1]|] eqn:Ec; [|discriminate]. cbn [rbind].
  apply contract_step in Ec as ([Hi1 Hi2] & Hoc & (c & Hc & <-) & Hother); [|exact Hn|exact Hi].
  destruct (one_or_none (is_candle_at (ct_id c) ts) d1.(option_candles)) as [ex|] eqn:Ek; [|discriminate]. cbn [rbind].
  apply one_or_none_filter in Ek.
  (* the contract of another leg is another contract *)
  assert (forall l2 c2, differ l2 (strike, ot, Some q) ->
    List.filter (is_snapshot_contract chain (fst (fst l2)) (to_ce_pe (snd (fst l2)))) d1.(option_contracts) = [c2] -> ct_id c2 <> ct_id c) as Hcc.
  { intros [[k2 ot2] q2] c2 Hd Hc2 E. cbn [fst snd] in *. apply filter_one_In in Hc2 as [Hin2 Hp2]. apply filter_one_In in Hc as [Hin Hp].
    assert (c2 = c) as -> by (eapply (NoDup_map_inj_in ct_id); eauto).
    unfold is_snapshot_contract in Hp, Hp2. rewrite !andb_true_iff in Hp, Hp2. destruct Hp as [[_ Hk] Ho], Hp2 as [[_ Hk2] Ho2].
    apply String.eqb_eq in Ho, Ho2. destruct Hd as [Hd|Hd]; cbn in Hd; [|apply Hd, to_ce_pe_inj; congruence].
    rewrite f_eqb_sym in Hk. pose proof (f_eqb_trans _ _ _ Hk Hk2). congruence. }
  assert (forall l2, differ l2 (strike, ot, Some q) ->
    List.filter (is_snapshot_contract chain (fst (fst l2)) (to_ce_pe (snd (fst l2)))) d1.(option_contracts) =
    List.filter (is_snapshot_contract chain (fst (fst l2)) (to_ce_pe (snd (fst l2)))) d.(option_contracts)) as Hsame.
  { intros [[k2 ot2] q2] Hd. apply Hother. cbn. destruct Hd as [Hd|Hd]; cbn in Hd; [left; now rewrite f_eqb_sym | right].
    intros E. now apply Hd, to_ce_pe_inj. }
  destruct ex as [k|]; intros [= <- <-].
  - destruct (filter_one_In _ _ _ Ek) as [Hkin Hkp].
    assert (map oc_id (update_where (fun c0 => c0.(oc_id) =? k.(oc_id)) (refresh_candle q) d1.(option_candles)) = map oc_id d1.(option_candles)) as Hm
      by (now apply map_update_where).
    assert (forall cid, List.filter (is_candle_at cid ts) (update_where (fun c0 => c0.(oc_id) =? k.(oc_id)) (refresh_candle q) d1.(option_candles)) =
        update_where (fun c0 => c0.(oc_id) =? k.(oc_id)) (refresh_candle q) (List.filter (is_candle_at cid ts) d1.(option_candles))) as Hf.
    { intros cid. apply filter_refresh. }
    split; [|split].
    + split; [exact Hi1|]. cbn. now rewrite Hm.
    + exists c, (refresh_candle q k). cbn [fst snd]. split; [exact Hc|]. cbn. rewrite Hf, Ek. unfold update_where. cbn.
      rewrite Z.eqb_refl. split; [reflexivity | apply refresh_idem].
    + intros [[k2 ot2] [q2|]] Hd Hst; [destruct Hst as (c2 & x & H1 & H2 & H3)|exact I]. cbn [fst snd] in *. specialize (Hsame _ Hd). cbn [fst snd] in Hsame.
      rewrite <- Hsame in H1. rewrite <- Hoc in H2. exists c2, x. cbn. rewrite Hf, H2. split; [exact H1|].
      destruct (filter_one_In _ _ _ H2) as [Hx1 Hx2]. unfold update_where. cbn. destruct (Z.eqb_spec (oc_id x) (oc_id k)) as [E|_]; [|now split].
      exfalso. assert (x = k) as -> by (eapply (NoDup_map_inj_in oc_id); eauto).
      apply (Hcc _ c2 Hd H1). unfold is_candle_at in Hkp, Hx2. apply andb_prop in Hkp as [E1%Z.eqb_eq _], Hx2 as [E2%Z.eqb_eq _]. congruence.
  - set (x := fresh_candle (next_id oc_id (option_candles d1)) (ct_id c) ts q). set (d2 := on_option_candles _ d1).
    assert (option_candles d2 = option_candles d1 ++ [x]) as Eo by reflexivity.
    assert (option_contracts d2 = option_contracts d1) as Ec by reflexivity. clearbody d2.
    assert (is_candle_at (ct_id c) ts x = true) as Hx by (unfold is_candle_at, x, fresh_candle; cbn; now rewrite !Z.eqb_refl).
    split; [|split].
    + split; [now rewrite Ec|]. rewrite Eo. apply NoDup_map_app_one; [exact Hi2|]. intros y Hy. cbn. pose proof (next_id_above oc_id _ y Hy). lia.
    + exists c, x. cbn [fst snd]. rewrite Ec, Eo, List.filter_app, Ek. cbn [List.filter app]. rewrite Hx.
      split; [exact Hc|]. split; [reflexivity | apply refresh_fresh].
    + intros [[k2 ot2] [q2|]] Hd Hst; [destruct Hst as (c2 & y & H1 & H2 & H3)|exact I]. cbn [fst snd] in *. specialize (Hsame _ Hd). cbn [fst snd] in Hsame.
      rewrite <- Hsame in H1. rewrite <- Hoc in H2. exists c2, y. rewrite Ec, Eo, List.filter_app, H2. cbn [List.filter].
      rewrite (candle_other (ct_id c2) (ct_id c) x); [now rewrite app_nil_r | now apply (Hcc _ c2 Hd) | reflexivity].
Qed.
Lemma legs_stored l : forall done n d n' d', Forall (fun x => f_num (fst (fst x))) l -> ids_ok d -> ForallOrdPairs differ (done ++ l) ->
  Forall (stored d) done -> fold_r (persist_leg chain) (n, d) l = Ok (n', d') -> ids_ok d' /\ Forall (stored d') (done ++ l).
Proof.
  induction l as [|x l IH]; intros done n d n' d' Hn Hi Hp Hs; cbn [fold_r]; [intros [= <- <-]; rewrite app_nil_r; now split|].
  destruct (persist_leg chain (n, d) x) as [[n1 d1]|] eqn:E; [|discriminate]. cbn [rbind]. intros E2. inversion Hn as [|? ? Hx Hl]; subst.
  apply leg_step in E as (Hi1 & Hx1 & Hrest); auto. rewrite cons_middle, app_assoc in Hp |- *. eapply IH in E2; eauto.
  apply Forall_app. split; [|now repeat constructor]. rewrite Forall_forall in Hs |- *. intros y Hy. apply Hrest; [|auto].
  rewrite <- app_assoc in Hp. clear -Hp Hy. induction done as [|z done IH]; [now apply not_elem_of_nil in Hy|].
  inversion Hp as [|? ? Hz Hp']; subst. apply elem_of_cons in Hy as [->|Hy]; [|auto]. rewrite Forall_forall in Hz. apply Hz.
  apply elem_of_app. right. apply list_elem_of_here.
Qed.
Lemma again_same l : forall d, ids_ok d -> Forall (stored d) l -> fold_r (persist_leg chain) (0, d) l = Ok (0, d).
Proof.
  induction l as [|x l IH]; intros d Hi Hs; cbn [fold_r]; [reflexivity|]. inversion Hs; subst. rewrite stored_again by assumption.
  cbn [rbind]. now apply IH.
Qed.
End snapshot.
Lemma legs_differ rows : ForallOrdPairs (fun a b => f_eqb b.(row_strike) a.(row_strike) = false) rows ->
  ForallOrdPairs differ (flat_map legs rows).
Proof.
  induction 1 as [|r rows Hr _ IH]; cbn; [constructor|].
  assert (forall (x : leg_type), fst (fst x) = r.(row_strike) -> Forall (differ x) (flat_map legs rows)) as Hx.
  { intros x Ex. apply Forall_forall. intros y Hy. apply list_elem_of_In, in_flat_map in Hy as (r' & Hr' & Hy).
    rewrite Forall_forall in Hr. left. rewrite Ex. apply list_elem_of_In in Hr'. specialize (Hr r' Hr').
    destruct Hy as [<-|[<-|[]]]; exact Hr. }
  constructor; [constructor; [right; discriminate | now apply Hx]|]. constructor; [now apply Hx | exact IH].
Qed.

(** Persisting a snapshot is idempotent: once it has been written, writing
    it again adds no row and leaves every table as it is. *)
Theorem snapshot_idempotent chain w n w1 : distinct_strikes chain -> Forall f_num (map row_strike chain.(oc_rows)) ->
  alone w -> w_ok w -> persist_option_chain_snapshot chain w = (Ok n, w1) ->
  persist_option_chain_snapshot chain w1 = (Ok 0, w1).
Proof.
  intros Hd Hn Hw Hok. unfold persist_option_chain_snapshot, transaction. rewrite (settle_alone w Hw).
  destruct (persist_rows chain (m_db w)) as [[n' d]|] eqn:E; [|discriminate]. destruct (mdb_ok d) eqn:Hm; [|discriminate].
  intros [= <- <-]. rewrite settle_alone by exact Hw. cbn [m_db m_others m_now]. unfold persist_rows in E.
  apply (legs_stored chain (flat_map legs (oc_rows chain)) []) in E as [Hi Hs].
  - cbn [app] in Hs. unfold persist_rows. rewrite (again_same chain _ d Hi Hs). now rewrite Hm.
  - clear -Hn. induction (oc_rows chain) as [|r rows IH]; cbn in *; [constructor|]. inversion Hn; subst. repeat constructor; cbn; auto.
  - now apply ids_ok_db.
  - now apply legs_differ.
  - constructor.
Qed.

(** ** Analytics rows by leg

    The dictionary both the intelligence answer and the candidate generator build:
    [{(r.strike, r.option_type): r for r in rows}]. *)
Definition leg_key : Type := float * OptionType.
Definition leg_eqb (a b : leg_key) : bool := f_eqb (fst a) (fst b) && bool_decide (snd a = snd b).
Section index_by.
Context {K A : Type} (eqb : K -> K -> bool) (key : A -> K).
Context (eqb_sym : forall x y, eqb x y = eqb y x) (eqb_trans : forall x y z, eqb x y = true -> eqb y z = true -> eqb x z = true).
Definition index_by (l : list A) (d : list (K * A)) : list (K * A) := fold_left (fun d x => dset eqb (key x) x d) l d.
Lemma index_by_other k l : forall d, (forall x, In x l -> eqb k (key x) = false) -> dget eqb k (index_by l d) = dget eqb k d.
Proof.
  induction l as [|x l IH]; intros d Hl; cbn; [reflexivity|]. unfold index_by in IH. rewrite IH by (intros; apply Hl; now right).
  rewrite dget_dset by assumption. now rewrite (Hl x (or_introl eq_refl)).
Qed.
Lemma index_by_distinct l x : ForallOrdPairs (fun a b => eqb (key b) (key a) = false) l -> eqb (key x) (key x) = true ->
  In x l -> forall d, dget eqb (key x) (index_by l d) = Some x.
Proof.
  intros Hd Hx. induction Hd as [|y l Hy _ IH]; intros Hi d; [destruct Hi|]. destruct Hi as [->|Hi]; [|now apply IH].
  change (dget eqb (key x) (index_by l (dset eqb (key x) x d)) = Some x). rewrite index_by_other.
  - rewrite dget_dset by assumption. now rewrite Hx.
  - intros z Hz. rewrite Forall_forall in Hy. rewrite eqb_sym. apply Hy. now apply list_elem_of_In.
Qed.
End index_by.
Lemma leg_eqb_sym a b : leg_eqb a b = leg_eqb b a.
Proof. unfold leg_eqb. rewrite f_eqb_sym. f_equal. apply bool_decide_ext. split; congruence. Qed.
Lemma leg_eqb_trans a b c : leg_eqb a b = true -> leg_eqb b c = true -> leg_eqb a c = true.
Proof.
  unfold leg_eqb. rewrite !andb_true_iff, !bool_decide_eq_true. intros [H1 ->] [H2 H3]. split; [|exact H3]. eapply f_eqb_trans; eauto.
Qed.
Definition analytics_key (r : OptionAnalyticsRow) : leg_key := (r.(ar_strike), r.(ar_option_type)).
(** One row per leg of a chain with distinct strikes: no two share a key. *)
Lemma legs_keys_differ chain rows : distinct_strikes chain -> Forall2 is_leg (flat_map legs chain.(oc_rows)) rows ->
  ForallOrdPairs (fun a b => leg_eqb (analytics_key b) (analytics_key a) = false) rows.
Proof.
  intros Hd F. apply legs_differ in Hd. revert rows F. induction Hd as [|l ls Hl _ IH]; intros rows F; inversion F as [|? row ? rows' L F']; subst;
    constructor; [|now apply IH].
  apply Forall_forall. intros r' Hr'. apply list_elem_of_In in Hr'. destruct (Forall2_In_r _ _ _ _ F' Hr') as (l' & Hl' & L').
  rewrite Forall_forall in Hl. apply list_elem_of_In in Hl'. specialize (Hl l' Hl'). unfold is_leg in L, L'. subst l l'.
  unfold leg_eqb, analytics_key. cbn in *. destruct Hl as [Hl|Hl]; cbn in Hl; [now rewrite Hl|].
  rewrite bool_decide_eq_false_2 by congruence. apply andb_false_r.
Qed.

(** ** On concrete tables *)
Definition empty_db : MDb := mkMDb [] [] [] [] [] [].
Definition quiet_world (d : MDb) : MWorld := mkMWorld d [] (midnight (ymd2ord 2026 9 4)).
Lemma snapshot_idempotent_witness :
  exists w1, persist_option_chain_snapshot demo_chain (quiet_world empty_db) = (Ok 5, w1) /\
    persist_option_chain_snapshot demo_chain w1 = (Ok 0, w1).
Proof.
  destruct (persist_option_chain_snapshot demo_chain (quiet_world empty_db)) as [[n|] w1] eqn:E; [|vm_compute in E; discriminate].
  assert (n = 5) as -> by (vm_compute in E; congruence). exists w1. split; [reflexivity|].
  apply (snapshot_idempotent demo_chain (quiet_world empty_db) 5 w1); [exact demo_distinct | repeat constructor | reflexivity | vm_compute; reflexivity | exact E].
Defined.
Definition stored_world : MWorld := Eval vm_compute in snd (persist_option_chain_snapshot demo_chain (quiet_world empty_db)).
Definition snapshot_instant : stamp := utc_stamp demo_chain.(oc_generated_at).
Lemma historical_chain_point_in_time_witness :
  exists res w1, get_historical_chain 0 " nifty" (ymd2ord 2026 9 8) snapshot_instant None stored_world = (Ok res, w1) /\
    map row_strike res.(cr_chain).(oc_rows) = map f_of_Z [25050; 25100; 25150] /\
    forall r, In r res.(cr_chain).(oc_rows) -> forall q, r.(row_call) = Some q ->
      drawn stored_world.(m_db) "NIFTY" (ymd2ord 2026 9 8) demo_chain.(oc_generated_at) r.(row_strike) "CE" q.
Proof.
  destruct (get_historical_chain 0 " nifty" (ymd2ord 2026 9 8) snapshot_instant None stored_world) as [[res|] w1] eqn:E;
    [|vm_compute in E; discriminate].
  exists res, w1. pose proof (historical_chain_point_in_time 0 " nifty" _ _ _ stored_world res w1 eq_refl E) as (_ & _ & _ & H & _).
  split; [reflexivity|]. split; [vm_compute in E; injection E as <- _; vm_compute; reflexivity|].
  intros r Hr q Hq. exact (proj1 (H r Hr) q Hq).
Defined.
Example historical_before_the_snapshot :
  fst (get_historical_chain 0 "NIFTY" (ymd2ord 2026 9 8) (mkStamp (demo_chain.(oc_generated_at) - 1) (Some 0)) None stored_world) =
    Err (OptionsDataError "No persisted candle at/before 2026-09-03T05:59:59.999999+00:00 for NIFTY expiry 2026-09-08") /\
  stamp_isoformat (mkStamp (midnight (ymd2ord 2026 9 3) + time_us 9 15 0 0) (Some (time_us 5 30 0 0))) = "2026-09-03T09:15:00+05:30".
Proof. vm_compute. repeat split. Qed.

(** The exchange is always NFO: the contracts of SENSEX, which the service
    stores under BFO, are not found, and inserting them again under the same
    symbol is refused. *)
Definition sensex_chain : OptionChain := Eval vm_compute in
  mkChain "SENSEX" (ymd2ord 2026 9 10) (Some (f_of_Z 82000)) None (midnight (ymd2ord 2026 9 3))
    [mkChainRow (f_of_Z 82000)
       (match build_option_quote "SENSEX" (ymd2ord 2026 9 10) (f_of_Z 82000) "CE" (Some (f_of_Z 300)) None None None None None None
                None None None None None None "icici_breeze" 0 with Ok q => Some q | Err _ => None end) None] "icici_breeze".
Definition sensex_world : MWorld := Eval vm_compute in
  quiet_world (mkMDb [] [mkOptionContract 1 "SENSEX" "BFO" "icici_breeze" (Some "861234") "SENSEX|2026-09-10|82000|CE" (ymd2ord 2026 9 10)
                           (f_of_Z 82000) "CE" (Some 20) None] [] [] [] []).
Example sensex_snapshot_refused :
  mdb_ok sensex_world.(m_db) = true /\
  persist_option_chain_snapshot sensex_chain sensex_world = (Err IntegrityError, sensex_world) /\
  is_ok (fst (persist_option_chain_snapshot sensex_chain (quiet_world empty_db))) = true.
Proof. vm_compute. repeat split. Qed.

(** A broker that refuses the session: the text is withheld, and the object made
    for the request is left closed. *)
Definition refusing_broker : BreezeSdk := {|
  sdk_answer := fun _ q => match q with GenerateSession _ _ => Err (OtherError "AuthError" "") | _ => Ok JNull end;
  sdk_master := fun _ => Ok []; sdk_equity_master := fun _ => Ok ∅; sdk_now := fun _ => 0; host_zone := 0 |}.
Definition demo_now : Z := midnight (ymd2ord 2026 9 3) + time_us 6 0 0 0.
Definition ask_context (d : Z) :=
  build_options_market_context (P := BreezeObject) (H := breeze_provider (H := refusing_broker)) (env := demo_session_env)
    (H0 := demo_libm) zerodha_settings "nifty" d (empty_cache (f_of_Z 10)) demo_master demo_now (mkLive unchecked []).
Lemma context_is_safe_witness :
  fst (ask_context (ymd2ord 2026 9 3)) =
    Ok (None, mkContext false "NIFTY" (Some "options context unavailable (ProviderAuthError)") None) /\
  fst (ask_context (ymd2ord 2026 9 2)) =
    Ok (None, mkContext false "NIFTY" (Some "options context is only attached for a live/current research date") None) /\
  (let '(r, st') := ask_context (ymd2ord 2026 9 3) in
   exists made, st'.(ls_providers) = [] ++ made /\ (List.length made <= 1)%nat /\ Forall (closed (P := BreezeObject) (H := breeze_provider (H := refusing_broker))) made).
Proof.
  split; [vm_compute; reflexivity|]. split; [vm_compute; reflexivity|].
  pose proof (context_is_safe (P := BreezeObject) (H := breeze_provider (H := refusing_broker)) (HP := breeze_laws (sdk := refusing_broker)) (env := demo_session_env)
    (H0 := demo_libm) zerodha_settings "nifty" (ymd2ord 2026 9 3) (empty_cache (f_of_Z 10)) demo_master demo_now (mkLive unchecked [])) as H.
  unfold ask_context. destruct (build_options_market_context _ _ _ _ _ _ _) as [r st'].
  destruct H as (_ & made & H1 & H2 & H3 & _). exists made. exact (conj H1 (conj H2 H3)).
Defined.
