(* ===== verification/OptionsRoutes.v ===== *)
(** * The options-intelligence routes

    [trading/api/options_routes.py]: the enabling flag, the resolution of the
    underlying and of the expiry, the three lanes a chain comes from (the tables
    for a past instant, the short-lived snapshot cache, the live cache or the
    provider) and the responses.  [OptState] is what the handlers change: the
    tables' session, the session manager with the provider objects made, and the
    snapshot cache.  The service's live cache, its instrument master, the clock
    and the monotonic clock are read once per request and are arguments; requests
    run one after the other. *)
From S2P Require Import Prelude PyStr PyFloat PyNum Config Json PyTime JsonText PyParse Permissions ApiWorld RateLimit Auth Symbols MarketTime MarketCache MarketDb MarketSession Providers BreezeProvider OptionsIntel OptionsService.

(** ** Guards *)
(** The dependencies of a read-only router of the market side: the principal, the
    rate limit, the router's own check, the permission; then the handler. *)
Definition both {S T A} (m : M S exn A) : M (S * T) exn A := fun st =>
  let '(r, s) := m (fst st) in (r, (s, snd st)).
Definition on_market {S T A} (m : M T exn A) : M (S * T) exn A := fun st =>
  let '(r, t) := m (snd st) in (r, (fst st, t)).
Definition guarded_route {env : Env} {T A} (perm : Permission) (check : result exn unit) (r : Request)
    (body : Principal -> M (World * T) exn A) : M (World * T) exn A :=
  let! p := both (limited_route (fun r p => lift check ;;; require_permission perm r p) r ret) in
  body p.
Definition _require_enabled (s : Settings) : result exn unit :=
  if s.(s_options_intelligence_enabled) then Ok tt else Err (HTTPException 503 "Options Intelligence is disabled").

(** ** Resolution *)
Definition _validate_underlying (underlying : string) : result exn string :=
  let under := upper (strip underlying) in
  if existsb (fun kv => String.eqb (fst kv) under) UNDERLYING_CONFIGS then Ok under
  else Err (HTTPException 400 ("Unsupported underlying " +:+ py_repr underlying +:+ ". Supported: " +:+
              String.concat ", " (sort_by String.leb (map fst UNDERLYING_CONFIGS)))).
Definition _resolve_expiry_or_404 (today : Z) (m : InstrumentMaster) (underlying expiry : string) : result exn Z :=
  match resolve_expiry today m underlying (ExpiryText expiry) with
  | Some e => Ok e
  | None => Err (HTTPException 404 ("No expiries known yet for " +:+ underlying))
  end.

(** The part of the service a request reads. *)
Record View : Type := mkView { v_cache : LiveCache; v_master : InstrumentMaster; v_now : Z; v_mono : Z }.
Definition snapshot_key : Type := string * string * Z.
Definition snapshots : Type := list (snapshot_key * (Z * ChainResult)).
Definition key_eqb (a b : snapshot_key) : bool := bool_decide (a = b).
Record OptState (P : Type) : Type := mkOpt { os_tables : MWorld; os_live : LiveState P; os_snapshots : snapshots }.
Arguments mkOpt {P} _ _ _.
Arguments os_tables {P} _.
Arguments os_live {P} _.
Arguments os_snapshots {P} _.

Section routes.
Context {P : Type} `{MarketDataProvider P} {env : SessionEnv} (s : Settings) (db_zone : Z).
Definition OM (A : Type) : Type := M (OptState P) exn A.
Definition on_tables {A} (m : MM A) : OM A := fun st =>
  let '(r, w) := m st.(os_tables) in (r, mkOpt w st.(os_live) st.(os_snapshots)).
Definition on_live {A} (m : LM (P := P) A) : OM A := fun st =>
  let '(r, l) := m st.(os_live) in (r, mkOpt st.(os_tables) l st.(os_snapshots)).
Definition remember (k : snapshot_key) (t : Z) (c : ChainResult) : OM unit :=
  modify (fun st => mkOpt st.(os_tables) st.(os_live) (dset key_eqb k (t, c) st.(os_snapshots))).
Definition is_options_error (e : exn) : bool := String.eqb (class_of e) "OptionsDataError".
Definition fresh (mono : Z) (e : Z * ChainResult) : bool :=
  mono - fst e <? s.(s_options_snapshot_cache_seconds) * US_PER_SECOND.
(** Past the snapshot cache: the live cache when it has any quote, else the
    provider; what is answered is remembered. *)
Definition fetch_chain (v : View) (key : snapshot_key) (underlying : string) (expiry strike_window : Z) : OM ChainResult :=
  let! cached := lift (get_live_chain_from_cache underlying expiry strike_window v.(v_cache) v.(v_master) v.(v_now)) in
  if any_quote cached.(cr_chain) then remember key v.(v_mono) cached ;;; ret cached
  else
    let! result := try_except (on_live (get_live_chain_via_provider s underlying expiry strike_window))
                     (fun e => raise (HTTPException 502 ("Provider fetch failed: " +:+ class_of e +:+ ": " +:+ text_of e))) in
    remember key v.(v_mono) result ;;; ret result.
Definition _resolve_chain (v : View) (underlying : string) (expiry strike_window : Z) (as_of : option stamp) : OM ChainResult :=
  match as_of with
  | Some t =>
      try_except (on_tables (get_historical_chain db_zone underlying expiry t (Some strike_window)))
        (fun e => raise (if is_options_error e then HTTPException 404 (text_of e) else e))
  | None =>
      let key := (underlying, PyTime.isoformat expiry, strike_window) in
      let! cached := gets (fun st => dget key_eqb key st.(os_snapshots)) in
      match cached with
      | Some e => if fresh v.(v_mono) e then ret (snd e) else fetch_chain v key underlying expiry strike_window
      | None => fetch_chain v key underlying expiry strike_window
      end
  end.
End routes.

(** ** Responses *)
Record OptionQuoteOut : Type := mkQuoteOut {
  qo_ltp : option float; qo_bid : option float; qo_ask : option float; qo_volume : option Z; open_interest : option Z;
  change_in_oi : option Z; qo_iv : option float; iv_source : option string; qo_delta : option float; qo_gamma : option float;
  qo_theta : option float; qo_vega : option float; qo_moneyness : option string
}.
Record ChainRowOut : Type := mkChainRowOut { ro_strike : float; ro_call : option OptionQuoteOut; ro_put : option OptionQuoteOut }.
Record ChainOut : Type := mkChainOut {
  co_underlying : string; co_expiry : Z; co_spot : option float; co_atm_strike : option float; co_timestamp : Z;
  co_source : string; co_calls : Z; co_rows : list ChainRowOut
}.
Record IntelligenceOut : Type := mkIntelligenceOut {
  io_underlying : string; io_spot : option float; io_expiry : Z; io_atm_strike : option float; io_expiry_info : option ExpiryInfo;
  io_oi_pcr : option float; io_volume_pcr : option float; io_total_call_oi : Z; io_total_put_oi : Z;
  io_call_oi_concentration : option float; io_put_oi_concentration : option float; io_oi_support : list float;
  io_oi_resistance : list float; io_max_pain_strike : option float; io_max_pain_diagnostics : list (list float);
  io_atm_iv : option float; io_atm_iv_source : string; io_expected_move : option float; io_expected_move_method : string;
  io_iv_rank : option float; io_iv_percentile : option float; io_iv_rank_status : string; io_iv_rank_reason : option string;
  io_quality : string; io_quality_reasons : list string; io_provenance : list (string * json); io_chain : ChainOut;
  io_as_of : option stamp
}.
Definition moneyness_value (m : Moneyness) : string := match m with ITM => "ITM" | ATM => "ATM" | OTM => "OTM" end.
Definition _quote_out (row_iv : option float) (row_iv_source : option string) (greeks : option GreeksResult)
    (quote : option OptionQuote) (moneyness : option Moneyness) : option OptionQuoteOut :=
  match quote, row_iv with
  | None, None => None
  | _, _ =>
      Some (mkQuoteOut (quote ≫= oq_ltp) (quote ≫= oq_bid) (quote ≫= oq_ask) (quote ≫= oq_volume) (quote ≫= oq_oi) (quote ≫= oq_oi_change)
              row_iv row_iv_source (greeks ≫= delta) (greeks ≫= gamma) (greeks ≫= theta_per_day) (greeks ≫= vega_per_1pct)
              (moneyness_value <$> moneyness))
  end.
Definition chain_out_with (rows : list ChainRowOut) (c : ChainResult) : ChainOut :=
  let chain := c.(cr_chain) in
  mkChainOut chain.(oc_underlying) chain.(oc_expiry) chain.(oc_spot) chain.(oc_atm_strike) chain.(oc_generated_at)
    c.(cr_source_name) c.(cr_provider_call_count) rows.
Definition bare_row (r : OptionChainRow) : ChainRowOut :=
  mkChainRowOut r.(row_strike) (_quote_out None None None r.(row_call) None) (_quote_out None None None r.(row_put) None).
Definition _chain_out (c : ChainResult) : ChainOut := chain_out_with (map bare_row c.(cr_chain).(oc_rows)) c.
(** The analytics rows by (strike, option type). *)
Definition rows_by_key (rows : list OptionAnalyticsRow) : list (leg_key * OptionAnalyticsRow) :=
  index_by leg_eqb analytics_key rows [].
Definition analysed_quote (row : option OptionAnalyticsRow) (quote : option OptionQuote) : option OptionQuoteOut :=
  _quote_out (row ≫= ar_iv) ((fun r => iv_source_value r.(ar_iv_source)) <$> row) (row ≫= ar_greeks) quote (row ≫= ar_moneyness).
Definition analysed_row (d : list (leg_key * OptionAnalyticsRow)) (r : OptionChainRow) : ChainRowOut :=
  mkChainRowOut r.(row_strike) (analysed_quote (dget leg_eqb (r.(row_strike), CALL) d) r.(row_call))
    (analysed_quote (dget leg_eqb (r.(row_strike), PUT) d) r.(row_put)).
Definition stamp_json (t : option Z) : json := match t with Some t => JStr (stamp_isoformat (utc_stamp t)) | None => JNull end.
Definition provenance_out (p : Provenance) : list (string * json) :=
  [("underlying_source", JStr p.(underlying_source)); ("option_chain_source", JStr p.(option_chain_source));
   ("spot_timestamp", stamp_json p.(pv_spot_timestamp)); ("chain_timestamp", stamp_json p.(chain_timestamp));
   ("calculation_version", JStr p.(calculation_version)); ("risk_free_rate", JFloat p.(risk_free_rate));
   ("provider_call_count", JInt p.(provider_call_count))].
Definition _summary_out (m : MarketStructureSummary) (c : ChainResult) : IntelligenceOut :=
  mkIntelligenceOut m.(ms_underlying) m.(ms_spot) m.(ms_expiry) m.(ms_atm_strike) m.(ms_expiry_info)
    m.(ms_pcr).(oi_pcr) m.(ms_pcr).(volume_pcr) m.(ms_oi).(total_call_oi) m.(ms_oi).(total_put_oi)
    m.(ms_oi).(call_oi_concentration) m.(ms_oi).(put_oi_concentration)
    m.(ms_support_resistance).(oi_support) m.(ms_support_resistance).(oi_resistance)
    m.(ms_max_pain).(max_pain_strike) (map (fun kp => [fst kp; snd kp]) m.(ms_max_pain).(payouts))
    m.(ms_atm_iv) (iv_source_value m.(ms_atm_iv_source)) m.(ms_expected_move).(expected_move) m.(ms_expected_move).(method)
    m.(ms_iv_rank).(iv_rank) m.(ms_iv_rank).(iv_percentile) m.(ms_iv_rank).(ivr_status) m.(ms_iv_rank).(ivr_reason)
    (quality_value m.(ms_quality).(dq_status)) m.(ms_quality).(dq_reasons) (provenance_out m.(ms_provenance))
    (chain_out_with (map (analysed_row (rows_by_key m.(ms_rows))) c.(cr_chain).(oc_rows)) c) m.(ms_as_of).

(** ** Handlers *)
Section handlers.
Context {P : Type} `{MarketDataProvider P} {senv : SessionEnv} `{Libm} (s : Settings) (db_zone : Z).
Definition get_expiries (v : View) (underlying : string) : OM (P := P) (list ExpiryInfo) :=
  let! under := lift (_validate_underlying underlying) in
  let expiries := list_expiries under v.(v_master) in
  match expiries with
  | [] => raise (HTTPException 404 ("No expiries known yet for " +:+ under))
  | _ => ret (map (fun e => build_expiry_info e expiries (utc_stamp v.(v_now)) None) expiries)
  end.
(** The chain a request asks for, with the underlying and the expiry it resolved. *)
Definition requested_chain (v : View) (underlying expiry : string) (strike_window : option Z) (as_of : option stamp)
    : OM (P := P) (string * Z * ChainResult) :=
  let! under := lift (_validate_underlying underlying) in
  let! resolved := lift (_resolve_expiry_or_404 (date_of v.(v_now)) v.(v_master) under expiry) in
  let n := default s.(s_options_chain_strike_window) strike_window in
  let! c := _resolve_chain s db_zone v under resolved n as_of in
  ret (under, resolved, c).
Definition get_chain (v : View) (underlying expiry : string) (strike_window : option Z) (as_of : option stamp) : OM (P := P) ChainOut :=
  let! a := requested_chain v underlying expiry strike_window as_of in ret (_chain_out (snd a)).
Definition get_intelligence (v : View) (underlying expiry : string) (strike_window : option Z) (as_of : option stamp)
    : OM (P := P) IntelligenceOut :=
  let! a := requested_chain v underlying expiry strike_window as_of in
  let '(under, resolved, c) := a in
  let! summary := lift (build_market_structure_summary c.(cr_chain) as_of s.(s_options_risk_free_rate)
                          (match list_expiries under v.(v_master) with [] => [resolved] | l => l end) None
                          c.(cr_source_name) c.(cr_source_name) c.(cr_provider_call_count) [] v.(v_now)) in
  ret (_summary_out summary c).
End handlers.
(** The three routes behind their guards: reading, while the flag is on. *)
Definition options_route {env : Env} {T A} (r : Request) (handler : M T exn A) : M (World * T) exn A :=
  guarded_route VIEW (_require_enabled settings) r (fun _ => on_market handler).

(** ** The chain answered is the one asked for *)
Definition of_chain (underlying : string) (expiry : Z) (c : ChainResult) : Prop :=
  c.(cr_chain).(oc_underlying) = underlying /\ c.(cr_chain).(oc_expiry) = expiry.
(** What the snapshot cache holds under a key is a chain of that key. *)
Definition snapshots_ok (d : snapshots) : Prop :=
  forall u e n x, In ((u, PyTime.isoformat e, n), x) d -> exists e', PyTime.isoformat e' = PyTime.isoformat e /\ of_chain u e' (snd x).
Lemma validated_underlying u under : _validate_underlying u = Ok under -> under = upper (strip u) /\ (upper (strip u) = "NIFTY" \/ upper (strip u) = "SENSEX").
Proof.
  unfold _validate_underlying. destruct (existsb _ _) eqn:E; [|discriminate]. intros [= <-]. split; [reflexivity|].
  apply existsb_exists in E as (kv & Hi & E%String.eqb_eq). destruct Hi as [<-|[<-|[]]]; auto.
Qed.
Lemma refused_underlying u x : _validate_underlying u = Err x ->
  (exists text, x = HTTPException 400 text) /\ upper (strip u) <> "NIFTY" /\ upper (strip u) <> "SENSEX".
Proof.
  unfold _validate_underlying. destruct (existsb _ _) eqn:E; [discriminate|]. intros [= <-]. split; [eauto|]. cbn in E.
  split; intros C; rewrite C in E; discriminate.
Qed.
Lemma cached_chain_names u e n c m now r : upper u = u -> get_live_chain_from_cache u e n c m now = Ok r ->
  of_chain u e r /\ r.(cr_source_name) = "LIVE_CACHE" /\ r.(cr_provider_call_count) = 0.
Proof.
  intros Hu. unfold get_live_chain_from_cache, build_option_chain. cbv zeta. destruct (chain_rows _ _ _ _) as [rows|]; [|discriminate].
  cbn. intros [= <-]. unfold of_chain. cbn. now rewrite Hu.
Qed.
Lemma historical_chain_names zone u e as_of n w r w' : get_historical_chain zone u e as_of n w = (Ok r, w') ->
  of_chain (upper (strip u)) e r /\ r.(cr_source_name) = "TIMESCALEDB" /\ r.(cr_provider_call_count) = 0.
Proof.
  unfold get_historical_chain. cbv zeta. intros E. apply bind_inv_Ok in E as ([|c0 cs] & w1 & _ & E); [discriminate|].
  apply bind_inv_Ok in E as ([[|k bs] latest] & w2 & _ & E); [discriminate|]. apply bind_inv_Ok in E as (spot & w3 & _ & E).
  injection E as <- _. repeat split.
Qed.
Section answer.
Context {P : Type} `{HP : ProviderLaws P} {senv : SessionEnv} (s : Settings) (db_zone : Z).
Lemma live_chain_names u e n st r st' : upper u = u -> get_live_chain_via_provider s u e n st = (Ok r, st') ->
  of_chain u e r /\ r.(cr_provider_call_count) = 2.
Proof.
  intros Hu E. unfold get_live_chain_via_provider in E. apply bind_inv_Ok in E as (creds & st1 & _ & E).
  apply bind_inv_Ok in E as (x & st2 & _ & E). apply bind_inv_Ok in E as ([calls puts] & st3 & _ & E).
  injection E as <- _. unfold of_chain. cbn. now rewrite Hu.
Qed.

(** What any request does: the tables stay out of a live request and the rest of
    a past one, and the provider objects made are at most one, closed. *)
Definition answered (v : View) (u : string) (e n : Z) (as_of : option stamp) (st : OptState P)
    (res : result exn ChainResult) (st' : OptState P) : Prop :=
  let key := (u, PyTime.isoformat e, n) in
  match as_of with
  | Some _ => st'.(os_live) = st.(os_live) /\ st'.(os_snapshots) = st.(os_snapshots) /\
      forall c, res = Ok c -> of_chain u e c /\ c.(cr_source_name) = "TIMESCALEDB"
  | None => st'.(os_tables) = st.(os_tables) /\
      match res with
      | Ok c =>
          (st' = st /\ exists t, dget key_eqb key st.(os_snapshots) = Some (t, c) /\
             v.(v_mono) - t < s.(s_options_snapshot_cache_seconds) * US_PER_SECOND) \/
          (of_chain u e c /\ st'.(os_snapshots) = dset key_eqb key (v.(v_mono), c) st.(os_snapshots) /\
           ((c.(cr_source_name) = "LIVE_CACHE" /\ any_quote c.(cr_chain) = true /\ st'.(os_live) = st.(os_live)) \/
            c.(cr_provider_call_count) = 2))
      | Err x => st'.(os_snapshots) = st.(os_snapshots)
      end
  end /\
  exists made, st'.(os_live).(ls_providers) = st.(os_live).(ls_providers) ++ made /\ (List.length made <= 1)%nat /\ Forall closed made.
Lemma none_made (st st' : OptState P) : st'.(os_live) = st.(os_live) ->
  exists made, st'.(os_live).(ls_providers) = st.(os_live).(ls_providers) ++ made /\ (List.length made <= 1)%nat /\ Forall closed made.
Proof. intros ->. exists []. rewrite app_nil_r. repeat split; [cbn; lia | constructor]. Qed.
Lemma fetch_chain_answers v u e n st : upper u = u ->
  let '(res, st') := fetch_chain s v (u, PyTime.isoformat e, n) u e n st in answered v u e n None st res st'.
Proof.
  intros Hu. unfold fetch_chain, lift, bind. destruct (get_live_chain_from_cache _ _ _ _ _ _) as [cached|x] eqn:Ec.
  2: { cbn. repeat split. now apply none_made. }
  apply cached_chain_names in Ec as (Hc & Hs & _); [|exact Hu]. destruct (any_quote (cr_chain cached)) eqn:Eq.
  - cbn. split; [split; [reflexivity|]; right; auto 6 | now apply none_made].
  - unfold try_except, on_live. destruct (live_chain_closed s u e n st.(os_live)) as (made & H1 & H2 & H3).
    destruct (get_live_chain_via_provider s u e n (os_live st)) as [[r|x] l] eqn:El; cbn in *.
    + apply live_chain_names in El as [Hr Hn]; [|exact Hu]. split; [split; [reflexivity|]; right; auto | eauto].
    + split; [split; reflexivity | eauto].
Qed.
Lemma resolve_chain_answers v u e n as_of st : upper (strip u) = u -> upper u = u ->
  let '(res, st') := _resolve_chain s db_zone v u e n as_of st in answered v u e n as_of st res st'.
Proof.
  intros Hs Hu. unfold _resolve_chain. destruct as_of as [t|].
  - unfold try_except, on_tables. destruct (get_historical_chain _ _ _ _ _ _) as [[c|x] w] eqn:E; cbn.
    + apply historical_chain_names in E as (H1 & H2 & _). rewrite Hs in H1. split; [|now apply none_made].
      split; [reflexivity|]. split; [reflexivity|]. intros c' [= <-]. auto.
    + split; [|now apply none_made]. split; [reflexivity|]. split; [reflexivity | discriminate].
  - cbv zeta. unfold bind at 1. unfold gets. destruct (dget key_eqb _ _) as [[t c]|] eqn:Ed; [|now apply fetch_chain_answers].
    destruct (fresh s (v_mono v) (t, c)) eqn:Ef; [|now apply fetch_chain_answers].
    cbn. apply Z.ltb_lt in Ef. split; [|now apply none_made]. split; [reflexivity|]. left. split; [reflexivity|]. eauto.
Qed.

End answer.

(** ** The rows shown are the rows analysed *)
(** What is shown of a leg comes from its own analytics row and its own quote. *)
Definition shows (rows : list OptionAnalyticsRow) (strike : float) (ot : OptionType) (q : option OptionQuote)
    (o : option OptionQuoteOut) : Prop :=
  exists row, In row rows /\ is_leg (strike, ot, q) row /\
    o = _quote_out row.(ar_iv) (Some (iv_source_value row.(ar_iv_source))) row.(ar_greeks) q row.(ar_moneyness).
Lemma leg_shown chain rows r ot : distinct_strikes chain -> Forall f_num (map row_strike chain.(oc_rows)) ->
  Forall2 is_leg (flat_map legs chain.(oc_rows)) rows -> In r chain.(oc_rows) ->
  shows rows r.(row_strike) ot (match ot with CALL => r.(row_call) | PUT => r.(row_put) end)
    (analysed_quote (dget leg_eqb (r.(row_strike), ot) (rows_by_key rows)) (match ot with CALL => r.(row_call) | PUT => r.(row_put) end)).
Proof.
  intros Hd Hn F Hr. set (q := match ot with CALL => _ | PUT => _ end).
  assert (In (r.(row_strike), ot, q) (flat_map legs chain.(oc_rows))) as Hl.
  { apply in_flat_map. exists r. split; [exact Hr|]. destruct ot; [now left | right; now left]. }
  assert (exists row, In row rows /\ is_leg (r.(row_strike), ot, q) row) as (row & Hi & L).
  { clear -F Hl. induction F as [|l row ls rows L F IH]; [destruct Hl|]. destruct Hl as [->|Hl].
    - exists row. split; [now left | exact L].
    - destruct (IH Hl) as (row' & Hi & L'). exists row'. split; [now right | exact L']. }
  exists row. split; [exact Hi|]. split; [exact L|]. unfold is_leg in L. injection L as L1 L2 L3.
  assert (dget leg_eqb (analytics_key row) (index_by leg_eqb analytics_key rows []) = Some row) as E.
  { apply index_by_distinct; [apply leg_eqb_sym | apply leg_eqb_trans | now apply (legs_keys_differ chain) | | exact Hi].
    unfold leg_eqb, analytics_key. cbn. rewrite L1, bool_decide_eq_true_2 by reflexivity. rewrite f_eqb_refl; [reflexivity|].
    rewrite Forall_forall in Hn. apply Hn, list_elem_of_In, in_map, Hr. }
  unfold analytics_key in E at 1. rewrite L1, L2 in E. unfold analysed_quote, rows_by_key. now rewrite E.
Qed.

(** The intelligence answer shows every row of the chain, in order, and
    beside each leg the volatility, source, Greeks and moneyness of the analytics
    row of that very leg, never of another strike or side. *)
Theorem intelligence_rows_aligned `{Libm} c as_of r exps days us os calls hist now m :
  distinct_strikes c.(cr_chain) -> Forall f_num (map row_strike c.(cr_chain).(oc_rows)) ->
  build_market_structure_summary c.(cr_chain) as_of r exps days us os calls hist now = Ok m ->
  Forall2 (fun row out => out.(ro_strike) = row.(row_strike) /\
             shows m.(ms_rows) row.(row_strike) CALL row.(row_call) out.(ro_call) /\
             shows m.(ms_rows) row.(row_strike) PUT row.(row_put) out.(ro_put))
    c.(cr_chain).(oc_rows) (_summary_out m c).(io_chain).(co_rows).
Proof.
  intros Hd Hn E. assert (Forall2 is_leg (flat_map legs c.(cr_chain).(oc_rows)) m.(ms_rows)) as F by (eapply summary_legs; eauto).
  cbn. assert (forall r, In r c.(cr_chain).(oc_rows) -> In r c.(cr_chain).(oc_rows)) as Hin by auto. revert Hin.
  generalize (oc_rows (cr_chain c)) at 1 3 4. intros rows Hin. induction rows as [|x rows IH]; cbn; constructor.
  - split; [reflexivity|]. split; [apply (leg_shown c.(cr_chain) m.(ms_rows) x CALL) | apply (leg_shown c.(cr_chain) m.(ms_rows) x PUT)];
      auto; apply Hin; now left.
  - apply IH. intros y Hy. apply Hin. now right.
Qed.

(** ** Nothing runs behind a closed guard *)
Lemma limited_route_passes {env : Env} perm check r w q w' :
  limited_route (fun r p => lift check ;;; require_permission perm r p) r ret w = (Ok q, w') ->
  fst (get_principal r w) = Ok q /\ check = Ok tt /\ has q perm = true.
Proof.
  unfold limited_route, request_session. destruct (bind _ _ w) as [res w1] eqn:E. intros [= -> _].
  apply bind_inv_Ok in E as (p & w2 & E1 & E). apply bind_inv_Ok in E as ([] & w3 & _ & E).
  apply bind_inv_Ok in E as (p' & w4 & E2 & E). injection E as <- _. apply bind_inv_Ok in E2 as ([] & w5 & E3 & E2).
  injection E3 as Hc _. apply require_permission_Ok in E2 as (-> & Hp & _). rewrite E1. auto.
Qed.

(** An options route runs its handler only for a caller with the VIEW
    permission while the flag is on; whatever its guards refuse (an unknown
    caller, the rate limit, the flag, the permission) leaves the market side as
    it is. *)
Theorem options_route_guarded {env : Env} {T A} r (handler : M T exn A) w t :
  let '(res, st') := options_route r handler (w, t) in
  (is_ok res = false /\ snd st' = t) \/
  (settings.(s_options_intelligence_enabled) = true /\
   exists p, fst (get_principal r w) = Ok p /\ has p VIEW = true /\ (res, snd st') = handler t).
Proof.
  unfold options_route, guarded_route, bind, both. cbn [fst snd].
  destruct (limited_route _ r ret w) as [[p|x] w1] eqn:E; cbn; [|left; now split]. unfold on_market. cbn. destruct (handler t) as [res t1]. right.
  apply limited_route_passes in E as (H1 & H2 & H3). unfold _require_enabled in H2.
  destruct (s_options_intelligence_enabled settings); [|discriminate]. split; [reflexivity|]. exists p.
  split; [exact H1|]. split; [exact H3|]. reflexivity.
Qed.

(** ** On concrete requests *)
#[local] Existing Instance demo_libm.
Definition september_chain : ChainResult := Eval vm_compute in
  mkChainResult (mkChain "NIFTY" (ymd2ord 2026 9 3) demo_chain.(oc_spot) demo_chain.(oc_atm_strike) demo_chain.(oc_generated_at)
                   demo_chain.(oc_rows) demo_chain.(oc_provider)) "LIVE_CACHE" 0.
Definition remembered_state : OptState BreezeObject :=
  mkOpt stored_world (mkLive unchecked []) [(("NIFTY", "2026-09-03", 5), (1000000, september_chain))].
Definition demo_view (mono : Z) : View := mkView (empty_cache (f_of_Z 10)) demo_master demo_now mono.
Definition ask_chain (mono : Z) (u : string) (as_of : option stamp) :=
  requested_chain (P := BreezeObject) (H := breeze_provider (H := refusing_broker)) (senv := demo_session_env) zerodha_settings 0
    (demo_view mono) u "current" None as_of remembered_state.
Lemma remembered_ok : snapshots_ok remembered_state.(os_snapshots).
Proof. intros u e n x [[= <- He <- <-]|[]]. exists (ymd2ord 2026 9 3). rewrite <- He. split; [vm_compute; reflexivity | split; reflexivity]. Qed.
Lemma intelligence_rows_aligned_witness :
  exists m, build_market_structure_summary demo_chain None (f_dec 65 3) [] None "LIVE_CACHE" "LIVE_CACHE" 0 [] demo_chain.(oc_generated_at) = Ok m /\
    let out := (_summary_out m (mkChainResult demo_chain "LIVE_CACHE" 0)).(io_chain).(co_rows) in
    map (fun o => (o.(ro_strike), o.(ro_call) ≫= iv_source, o.(ro_put) ≫= qo_moneyness)) out =
      [(f_of_Z 25050, Some "PROVIDER", Some "OTM"); (f_of_Z 25100, Some "CALCULATED", Some "ATM"); (f_of_Z 25150, Some "CALCULATED", None)] /\
    Forall2 (fun row o => o.(ro_strike) = row.(row_strike) /\ shows m.(ms_rows) row.(row_strike) CALL row.(row_call) o.(ro_call) /\
               shows m.(ms_rows) row.(row_strike) PUT row.(row_put) o.(ro_put)) demo_chain.(oc_rows) out.
Proof.
  destruct (build_market_structure_summary demo_chain None (f_dec 65 3) [] None "LIVE_CACHE" "LIVE_CACHE" 0 [] demo_chain.(oc_generated_at))
    as [m|] eqn:E; [|vm_compute in E; discriminate].
  exists m. split; [reflexivity|]. cbv zeta. split; [vm_compute in E; injection E as <-; vm_compute; reflexivity|].
  eapply (intelligence_rows_aligned (mkChainResult demo_chain "LIVE_CACHE" 0) _ _ _ _ _ _ _ _ _ m); [exact demo_distinct | repeat constructor | exact E].
Defined.
