(* ===== verification/MarketRoutes.v ===== *)
(** * The market-data and straddle-pulse routes

    [trading/api/market_routes.py] and [trading/api/straddle_pulse_routes.py]: the
    session routes, which change the session manager and restart the feed, and
    the read-only views over the live cache, the instrument master and the
    tables.  A handler that reads the service takes the [View] of one request; the
    session handlers run on the control plane's world (the audit log) and the
    service's. *)
From S2P Require Import Prelude PyStr PyFloat PyNum Config Json PyTime JsonText PyParse Permissions ApiWorld Security RateLimit Auth Symbols MarketTime MarketCache MarketDb Candles StraddlePulse MarketSession Providers BreezeProvider MarketService OptionsIntel OptionsService OptionsRoutes.
From Stdlib Require Import Ascii.

(** ** Session *)
Record MarketSessionIn : Type := mkSessionIn { in_session_token : string; in_api_key : option string; in_secret_key : option string }.
Record MarketSessionAutoLoginIn : Type := mkAutoLoginIn { in_user_id : option string; in_password : option string; in_totp_key : option string }.
Record MarketSessionStatusOut : Type := mkStatusOut {
  so_provider : string; so_enabled : bool; so_session_state : string; so_feed_state : string;
  so_credentials : list (string * json); so_last_session_check : option Z; so_last_error : option string
}.
Definition _derive_feed_state (f : MarketFeedStatus) : string :=
  if negb f.(fs_enabled) then feed_value F_NOT_CONFIGURED
  else match f.(session_state) with
       | S_NOT_CONFIGURED => feed_value F_NOT_CONFIGURED
       | S_SESSION_REQUIRED | S_UNKNOWN => feed_value F_SESSION_REQUIRED
       | S_ERROR => feed_value F_ERROR
       | S_VALID => feed_value f.(feed_state)
       end.
Definition credentials_view (f : MarketFeedStatus) : list (string * json) :=
  [("source", JStr f.(credentials_source)); ("api_key_set", JBool f.(api_key_set)); ("secret_key_set", JBool f.(secret_key_set));
   ("session_token_set", JBool f.(session_token_set));
   ("session_token_fingerprint", match f.(session_token_fingerprint) with Some x => JStr x | None => JNull end)].
Definition _payload (f : MarketFeedStatus) : MarketSessionStatusOut :=
  mkStatusOut f.(fs_provider) f.(fs_enabled) (session_value f.(session_state)) (_derive_feed_state f) (credentials_view f)
    f.(last_session_check) f.(last_error).

Definition ServiceWorld (P : Type) : Type := MarketService.World P.
Section session_routes.
Context {aenv : Env} {P : Type} `{MarketDataProvider P} {senv : SessionEnv} (s : Settings) (tz : Z).
Definition RM (A : Type) : Type := M (ApiWorld.World * ServiceWorld P) exn A.
Definition on_service {A} (m : SV (P := P) A) : RM A := on_market m.
Definition payload : SV (P := P) MarketSessionStatusOut := let! f := status in ret (_payload f).
Definition session_status : RM MarketSessionStatusOut :=
  on_service
    (let! last := gets (fun w => w.(w_sm).(_last_check)) in
     (match last with
      | None => when s.(s_market_data_enabled) do (let! _ := on_sm (check s true) in ret tt)
      | Some _ => ret tt
      end) ;;;
     payload).
(** [await get_service().reconnect()], every exception logged and dropped: its
    first piece runs at once, and [meanwhile] is what runs until the awaited
    start is over (its own further pieces among the rest). *)
Definition reconnect (meanwhile : list action) : SV (P := P) unit :=
  try_except (reset_provider ;;; spawn (startup_begin s tz None) ;;; modify (MarketService.run s tz meanwhile)) (fun _ => ret tt).
Definition MARKET_SESSION_UPDATED : string := "MARKET_SESSION_UPDATED".
Definition session_target : string := s.(s_market_data_provider) +:+ ":session".
Definition opt_truthy (x : option string) : bool := match x with Some t => truthy t | None => false end.
Definition opt_json (x : option string) : json := match x with Some t => JStr t | None => JNull end.
Definition record_session (p : Principal) (r : Request) (action : string) (detail : json) : RM unit :=
  both (audit_record (actor p) action (Some p.(pr_label)) (Some session_target) "success" (Some (client_ip r)) (header r "user-agent") detail).
Definition update_session (meanwhile : list action) (body : MarketSessionIn) (r : Request) (p : Principal) : RM MarketSessionStatusOut :=
  let! chk := on_service
    (on_sm (set_credentials body.(in_session_token) body.(in_api_key) body.(in_secret_key)) ;;;
     let! chk := on_sm (check s true) in
     (when bool_decide (chk.(sc_state) = S_VALID) do reconnect meanwhile) ;;;
     ret chk) in
  record_session p r MARKET_SESSION_UPDATED
    (JObj [("result", JStr (session_value chk.(sc_state)));
           ("session_token_fingerprint", opt_json (fingerprint body.(in_session_token)));
           ("rotated_api_key", JBool (opt_truthy body.(in_api_key))); ("rotated_secret_key", JBool (opt_truthy body.(in_secret_key)))]) ;;;
  on_service payload.
Definition auto_login (meanwhile : list action) (body : option MarketSessionAutoLoginIn) (r : Request) (p : Principal) : RM MarketSessionStatusOut :=
  let! chk := on_service
    (let! chk := on_sm (MarketSession.auto_login s (body ≫= in_user_id) (body ≫= in_password) (body ≫= in_totp_key)) in
     (when bool_decide (chk.(sc_state) = S_VALID) do reconnect meanwhile) ;;;
     ret chk) in
  record_session p r "MARKET_SESSION_AUTO_LOGIN" (JObj [("result", JStr (session_value chk.(sc_state)))]) ;;;
  on_service payload.
(** The router's guards: reading for the status, administration to change it. *)
Definition market_route {A} (perm : Permission) (r : Request) (body : Principal -> RM A) : RM A := guarded_route perm (Ok tt) r body.
End session_routes.

(** ** Live views *)
Record IndexQuoteOut : Type := mkIndexOut {
  ix_symbol : string; ix_exchange : string; ix_ltp : option float; ix_open : option float; ix_high : option float; ix_low : option float;
  ix_prev_close : option float; ix_change : option float; ix_change_percent : option float; ix_status : string;
  ix_provider_timestamp : option Z; ix_received_at : option Z
}.
(** What an index quote and an option quote share. *)
Definition quote_prices (q : Quote) : list (option float) :=
  match q with
  | QIndex q => [q.(iq_open); q.(iq_high); q.(iq_low); q.(iq_prev_close); q.(iq_change); q.(iq_change_percent)]
  | QOption q => [q.(oq_open); q.(oq_high); q.(oq_low); q.(oq_prev_close); q.(oq_change); q.(oq_change_percent)]
  end.
Definition price_at (n : nat) (q : Quote) : option float := default None (quote_prices q !! n).
Definition _index_out (v : View) (symbol : string) : result exn IndexQuoteOut :=
  match INDEX_INSTRUMENTS symbol with
  | None => Err (KeyError symbol)
  | Some i =>
      let exch := exchange_value i.(i_exchange) in
      Ok (match get_latest_quote symbol v.(v_cache) with
          | None => mkIndexOut symbol exch None None None None None None None "no_data" None None
          | Some e =>
              let q := e.(cq_quote) in
              mkIndexOut symbol exch (q_ltp q) (price_at 0 q) (price_at 1 q) (price_at 2 q) (price_at 3 q) (price_at 4 q) (price_at 5 q)
                (entry_status v.(v_cache).(stale_seconds) v.(v_now) e) e.(cq_provider_timestamp) (Some e.(cq_received_at))
          end)
  end.
Definition get_indices (v : View) : result exn (list IndexQuoteOut) := map_r (_index_out v) INDEX_SYMBOLS.
Definition get_index (v : View) (symbol : string) : result exn IndexQuoteOut :=
  match normalize_index_symbol symbol with
  | Ok canonical => _index_out v canonical
  | Err (KeyError _) => Err (HTTPException 404 ("Unknown index: " +:+ symbol))
  | Err e => Err e
  end.
Definition get_nifty_expiries (v : View) : list Z := list_expiries "NIFTY" v.(v_master).
Definition nifty_expiry (v : View) (expiry : string) : result exn Z :=
  match resolve_expiry (date_of v.(v_now)) v.(v_master) "NIFTY" (ExpiryText expiry) with
  | Some e => Ok e
  | None => Err (HTTPException 404 "No expiries known yet (instrument master not loaded)")
  end.
Definition get_nifty_strikes (v : View) (expiry : string) : result exn (list float) :=
  let? resolved := nifty_expiry v expiry in Ok (list_strikes "NIFTY" resolved v.(v_master)).
Record OptionOut : Type := mkOptOut {
  op_ltp : option float; op_open : option float; op_high : option float; op_low : option float; op_prev_close : option float;
  op_volume : option Z; op_oi : option Z; op_oi_change : option Z; op_bid : option float; op_ask : option float;
  op_iv : option float; op_vwap : option float
}.
Definition _opt_out (q : option OptionQuote) : option OptionOut :=
  (fun q => mkOptOut q.(oq_ltp) q.(oq_open) q.(oq_high) q.(oq_low) q.(oq_prev_close) q.(oq_volume) q.(oq_oi) q.(oq_oi_change)
              q.(oq_bid) q.(oq_ask) q.(oq_iv) q.(oq_vwap)) <$> q.
Record OptionChainOut : Type := mkOptionChainOut {
  on_underlying : string; on_spot : option float; on_expiry : Z; on_atm_strike : option float; on_timestamp : Z;
  on_strikes : list (float * option OptionOut * option OptionOut)
}.
Definition get_nifty_option_chain (s : Settings) (v : View) (expiry : string) (range_ : option Z) : result exn OptionChainOut :=
  let? resolved := nifty_expiry v expiry in
  let n := default s.(s_nifty_option_strike_range) range_ in
  let spot := get_latest_quote "NIFTY" v.(v_cache) ≫= (fun e => q_ltp e.(cq_quote)) in
  let? chain := build_option_chain "NIFTY" resolved spot v.(v_cache) v.(v_master) n "icici_breeze" v.(v_now) in
  Ok (mkOptionChainOut chain.(oc_underlying) chain.(oc_spot) chain.(oc_expiry) chain.(oc_atm_strike) chain.(oc_generated_at)
        (map (fun r => (r.(row_strike), _opt_out r.(row_call), _opt_out r.(row_put))) chain.(oc_rows))).
Record MarketHealthOut : Type := mkHealthOut {
  h_status : string; h_provider : string; h_session : string; h_feed : string; h_timezone : string; h_start_time : string;
  h_stop_time : string; h_symbols : list (string * (string * option string)); h_chain_status : string; h_chain_expiry : option string;
  h_atm_strike : option float; h_contracts_subscribed : Z; h_last_error : option string
}.
Definition symbol_health (v : View) (symbol : string) : string * (string * option string) :=
  match get_latest_quote symbol v.(v_cache) with
  | None => (symbol, ("no_data", None))
  | Some e => (symbol, (entry_status v.(v_cache).(stale_seconds) v.(v_now) e, Some (stamp_isoformat (utc_stamp e.(cq_received_at)))))
  end.
Definition market_health (s : Settings) (v : View) (f : MarketFeedStatus) : MarketHealthOut :=
  let expiries := get_nifty_expiries v in
  let spot := get_latest_quote "NIFTY" v.(v_cache) ≫= (fun e => q_ltp e.(cq_quote)) in
  let atm := match expiries with e :: _ => nearest_strike (list_strikes "NIFTY" e v.(v_master)) spot | [] => None end in
  let overall := match f.(feed_state) with F_RUNNING => "healthy" | F_NOT_CONFIGURED => "not_configured" | _ => "degraded" end in
  mkHealthOut overall f.(fs_provider) (session_value f.(session_state)) (feed_value f.(feed_state)) s.(s_market_data_timezone)
    s.(s_market_data_start_time) s.(s_market_data_stop_time) (map (symbol_health v) INDEX_SYMBOLS)
    (match expiries with [] => "not_loaded" | _ => "live" end) (PyTime.isoformat <$> head expiries) atm
    f.(option_contracts_subscribed) f.(last_error).

(** ** Candles *)
Record CandleOut : Type := mkCandleOut {
  cd_timestamp : Z; cd_open : float; cd_high : float; cd_low : float; cd_close : float; cd_volume : option Z; cd_oi : option Z
}.
Definition option_candle_out (r : OptionCandleRow) : CandleOut :=
  mkCandleOut r.(oc_timestamp) r.(oc_open) r.(oc_high) r.(oc_low) r.(oc_close) r.(oc_volume) r.(oc_oi).
Definition market_candle_out (r : MarketCandleRow) : CandleOut :=
  mkCandleOut r.(mc_timestamp) r.(mc_open) r.(mc_high) r.(mc_low) r.(mc_close) r.(mc_volume) r.(mc_oi).
(** [ORDER BY time ASC / DESC] *)
Definition order_asc {A} (time : A -> Z) (l : list A) : list A := sort_by (fun a b => time a <=? time b) l.
Definition order_desc {A} (time : A -> Z) (l : list A) : list A := sort_by (fun a b => time b <=? time a) l.
(** The newest [limit] rows, oldest first. *)
Definition newest_rows {A} (time : A -> Z) (limit : Z) (l : list A) : list A := rev (take (Z.to_nat limit) (order_desc time l)).
Definition has_bar (symbol : string) : bool := existsb (Ascii.eqb "|"%char) (chars symbol).
Definition get_candles (symbol interval : string) (limit : Z) : MM (list CandleOut) :=
  if has_bar symbol then
    match parse_option_symbol symbol with
    | Err (ValueError _) => raise (HTTPException 400 "Malformed option symbol")
    | Err e => raise e
    | Ok _ =>
        let! contract := scalar_one_or_none option_contracts (fun c => String.eqb c.(ct_symbol) symbol) in
        match contract with
        | None => raise (HTTPException 404 ("Unknown contract: " +:+ symbol))
        | Some c =>
            let! rows := query (fun d => newest_rows oc_timestamp limit
                                  (List.filter (fun k => k.(MarketDb.oc_contract_id) =? c.(ct_id)) d.(option_candles))) in
            ret (map option_candle_out rows)
        end
    end
  else
    match normalize_index_symbol symbol with
    | Err (KeyError _) => raise (HTTPException 404 ("Unknown symbol: " +:+ symbol))
    | Err e => raise e
    | Ok canonical =>
        let! rows := query (fun d => newest_rows mc_timestamp limit
                              (List.filter (fun k => String.eqb k.(mc_symbol) canonical && String.eqb k.(mc_interval) interval) d.(market_candles))) in
        ret (map market_candle_out rows)
    end.

(** ** Straddle pulse *)
Definition _underlying (value : string) : result exn string :=
  let key := upper (strip value) in
  if str_in key STRADDLE_PULSE_UNDERLYINGS then Ok key else Err (HTTPException 404 ("Unknown underlying: " +:+ value)).
Record UnderlyingOut : Type := mkUnderlyingOut { uo_symbol : string; uo_spot_exchange : string; uo_option_exchange : string }.
Definition list_underlyings : result exn (list UnderlyingOut) :=
  map_r (fun sym => let? c := underlying_config sym in
                    Ok (mkUnderlyingOut sym (exchange_value c.(spot_exchange)) (exchange_value c.(option_exchange))))
    STRADDLE_PULSE_UNDERLYINGS.
(** The responses carry the row's own columns. *)
Record CycleOut : Type := mkCycleOut {
  cyo_id : Z; cyo_underlying : string; cyo_exchange : string; cyo_expiry_date : Z; cyo_start : Z; cyo_end : Z; cyo_status : string
}.
Definition _cycle_out (c : ExpiryCycle) : CycleOut :=
  mkCycleOut c.(cy_id) c.(cy_underlying) c.(cy_exchange) c.(cy_expiry_date) c.(cy_cycle_start_date) c.(cy_cycle_end_date) c.(cy_status).
Record SessionOut : Type := mkSessionOut {
  dso_id : Z; dso_cycle_id : Z; dso_underlying : string; dso_trading_date : Z; dso_spot_0916 : option float; dso_atm_strike : option float;
  dso_ce_symbol : option string; dso_pe_symbol : option string; dso_status : string
}.
Definition _session_out (x : DailySession) : SessionOut :=
  mkSessionOut x.(ds_id) x.(ds_cycle_id) x.(ds_underlying) x.(ds_trading_date) x.(ds_spot_0916) x.(ds_atm_strike)
    x.(ds_atm_ce_symbol) x.(ds_atm_pe_symbol) x.(ds_session_status).
Definition list_cycles (underlying : string) : MM (list CycleOut) :=
  let! u := lift (_underlying underlying) in
  let! rows := query (fun d => order_desc cy_expiry_date (List.filter (fun c => String.eqb c.(cy_underlying) u) d.(expiry_cycles))) in
  ret (map _cycle_out rows).
(** [db.get] *)
Definition get_row {A} (table : MDb -> list A) (id : A -> Z) (i : Z) (what : string) : MM A :=
  let! row := query (fun d => List.find (fun x => id x =? i) (table d)) in
  match row with
  | Some x => ret x
  | None => raise (HTTPException 404 ("Unknown " +:+ what +:+ ": " +:+ str_of_Z i))
  end.
Definition _get_cycle (i : Z) : MM ExpiryCycle := get_row expiry_cycles cy_id i "cycle".
Definition _get_session (i : Z) : MM DailySession := get_row daily_sessions ds_id i "session".
Definition get_cycle (i : Z) : MM CycleOut := let! c := _get_cycle i in ret (_cycle_out c).
Definition get_session (i : Z) : MM SessionOut := let! x := _get_session i in ret (_session_out x).
Definition get_cycle_sessions (i : Z) : MM (list SessionOut) :=
  let! c := _get_cycle i in
  let! rows := query (fun d => order_asc ds_trading_date (List.filter (fun x => x.(ds_cycle_id) =? c.(cy_id)) d.(daily_sessions))) in
  ret (map _session_out rows).
Definition _day_bounds_utc (trading_date : Z) : Z * Z := let start := midnight trading_date - IST in (start, start + US_PER_DAY).
Definition within (bounds : Z * Z) (t : Z) : bool := (fst bounds <=? t) && (t <? snd bounds).
Definition _candles_for_symbol (symbol : option string) (trading_date : Z) : MM (list CandleOut) :=
  match symbol with
  | None => ret []
  | Some symbol =>
      let day := within (_day_bounds_utc trading_date) in
      if has_bar symbol then
        match parse_option_symbol symbol with
        | Err (ValueError _) => ret []
        | Err e => raise e
        | Ok _ =>
            let! contract := scalar_one_or_none option_contracts (fun c => String.eqb c.(ct_symbol) symbol) in
            match contract with
            | None => ret []
            | Some c =>
                let! rows := query (fun d => order_asc oc_timestamp
                  (List.filter (fun k => (k.(MarketDb.oc_contract_id) =? c.(ct_id)) && day k.(oc_timestamp)) d.(option_candles))) in
                ret (map option_candle_out rows)
            end
        end
      else
        let! rows := query (fun d => order_asc mc_timestamp
          (List.filter (fun k => String.eqb k.(mc_symbol) symbol && String.eqb k.(mc_interval) "1minute" && day k.(mc_timestamp)) d.(market_candles))) in
        ret (map market_candle_out rows)
  end.
Record SessionChartOut : Type := mkChartOut {
  ch_session_id : Z; ch_underlying : string; ch_trading_date : Z; ch_atm_strike : option float;
  ch_spot : list CandleOut; ch_atm_ce : list CandleOut; ch_atm_pe : list CandleOut
}.
Definition get_session_chart (i : Z) : MM SessionChartOut :=
  let! x := _get_session i in
  let! spot := _candles_for_symbol (Some x.(ds_underlying)) x.(ds_trading_date) in
  let! ce := _candles_for_symbol x.(ds_atm_ce_symbol) x.(ds_trading_date) in
  let! pe := _candles_for_symbol x.(ds_atm_pe_symbol) x.(ds_trading_date) in
  ret (mkChartOut x.(ds_id) x.(ds_underlying) x.(ds_trading_date) x.(ds_atm_strike) spot ce pe).
Record OIPointOut : Type := mkPoint {
  pt_timestamp : Z; pt_call_oi_total : Z; pt_put_oi_total : Z; pt_call_oi_change : Z; pt_put_oi_change : Z; pt_pcr : option float
}.
Definition point_out (r : OISnapshot) : OIPointOut :=
  mkPoint r.(oi_timestamp) r.(call_oi_total) r.(put_oi_total) r.(call_oi_change) r.(put_oi_change) r.(pcr).
Record SessionOIOut : Type := mkSessionOI { soi_session_id : Z; soi_underlying : string; soi_trading_date : Z; soi_points : list OIPointOut }.
Definition of_session (x : DailySession) (r : OISnapshot) : bool :=
  (r.(oi_cycle_id) =? x.(ds_cycle_id)) && String.eqb r.(oi_underlying) x.(ds_underlying) && (r.(oi_trading_date) =? x.(ds_trading_date)).
Definition get_session_oi (i : Z) : MM SessionOIOut :=
  let! x := _get_session i in
  let! rows := query (fun d => order_asc oi_timestamp (List.filter (of_session x) d.(oi_snapshots))) in
  ret (mkSessionOI x.(ds_id) x.(ds_underlying) x.(ds_trading_date) (map point_out rows)).

(** ** The newest candles *)
Definition ascending {A} (time : A -> Z) (l : list A) : Prop := StronglySorted (fun a b => time a <= time b) l.
Lemma order_asc_ascending {A} (time : A -> Z) l : ascending time (order_asc time l).
Proof.
  eapply StronglySorted_weaken; [|apply (Sorted_sort_by (fun a b => time a <=? time b))].
  - cbn. intros a b H. now apply Z.leb_le.
  - intros a b. destruct (Z.leb_spec (time a) (time b)); [now left|]. right. apply Z.leb_le. lia.
  - intros a b c. rewrite !Z.leb_le. lia.
Qed.
Lemma order_desc_sorted {A} (time : A -> Z) l : StronglySorted (fun a b => time b <= time a) (order_desc time l).
Proof.
  eapply StronglySorted_weaken; [|apply (Sorted_sort_by (fun a b => time b <=? time a))].
  - cbn. intros a b H. now apply Z.leb_le.
  - intros a b. destruct (Z.leb_spec (time b) (time a)); [now left|]. right. apply Z.leb_le. lia.
  - intros a b c. rewrite !Z.leb_le. lia.
Qed.
(** What [newest_rows] keeps: the rest is not later. *)
Definition newest_of {A} (time : A -> Z) (limit : Z) (all kept : list A) : Prop :=
  ascending time kept /\ Z.of_nat (List.length kept) = Z.min (Z.max 0 limit) (Z.of_nat (List.length all)) /\
  exists rest, Permutation (rest ++ kept) all /\ forall x y, In x rest -> In y kept -> time x <= time y.
Lemma newest_rows_spec {A} (time : A -> Z) limit l : newest_of time limit l (newest_rows time limit l).
Proof.
  unfold newest_rows, newest_of. set (n := Z.to_nat limit). pose proof (order_desc_sorted time l) as S.
  rewrite <- (take_drop n (order_desc time l)) in S. apply StronglySorted_app in S as (S1 & S2 & S3).
  split; [|split].
  - apply StronglySorted_rev in S1. exact S1.
  - rewrite length_rev, length_take. unfold order_desc. rewrite (Permutation_length (sort_by_Permutation _ _)). lia.
  - exists (drop n (order_desc time l)). split.
    + rewrite <- Permutation_rev, Permutation_app_comm, take_drop. apply sort_by_Permutation.
    + intros x y Hx Hy. apply in_rev in Hy. now apply S3.
Qed.
Lemma newest_of_map {A B} (f : A -> B) (t : A -> Z) (u : B -> Z) limit all kept : (forall a, u (f a) = t a) ->
  newest_of t limit all kept -> newest_of u limit (map f all) (map f kept).
Proof.
  intros E (H1 & H2 & rest & H3 & H4). split; [|split].
  - unfold ascending in *. clear -E H1. induction H1 as [|x l _ IH Hx]; cbn; constructor; [exact IH|].
    apply Forall_map. eapply Forall_impl; [exact Hx|]. cbn. intros y. now rewrite !E.
  - now rewrite !length_map.
  - exists (map f rest). split; [rewrite <- map_app; now apply Permutation_map|].
    intros x y Hx Hy. apply in_map_iff in Hx as (a & <- & Ha), Hy as (b & <- & Hb). rewrite !E. auto.
Qed.
(** The reference: the persisted candles of a symbol. *)
Definition persisted_candles (d : MDb) (symbol interval : string) : list CandleOut :=
  if has_bar symbol then
    map option_candle_out
      (List.filter (fun k => existsb (fun c => String.eqb c.(ct_symbol) symbol && (c.(ct_id) =? k.(MarketDb.oc_contract_id))) d.(option_contracts))
         d.(option_candles))
  else
    match normalize_index_symbol symbol with
    | Ok name => map market_candle_out
        (List.filter (fun k => String.eqb k.(mc_symbol) name && String.eqb k.(mc_interval) interval) d.(market_candles))
    | Err _ => []
    end.

(** The candle view answers the newest [limit] persisted candles of the
    symbol, oldest first: as many as there are up to the limit, none of those left
    out later than one that is shown. *)
Theorem candles_are_the_newest symbol interval limit w out w' : alone w ->
  get_candles symbol interval limit w = (Ok out, w') ->
  w' = w /\ newest_of cd_timestamp limit (persisted_candles w.(m_db) symbol interval) out.
Proof.
  intros Hw. unfold get_candles, persisted_candles. destruct (has_bar symbol).
  - destruct (parse_option_symbol symbol) as [?|[]]; try discriminate. intros E. apply bind_inv_Ok in E as (c & w1 & E1 & E).
    apply bind_inv_Ok in E1 as (rows & w2 & E0 & E1). unfold query in E0. rewrite (settle_alone w Hw) in E0. injection E0 as <- <-.
    unfold lift in E1. injection E1 as E1 <-. destruct c as [c|]; [|discriminate].
    apply bind_inv_Ok in E as (rows & w2 & E0 & E). unfold query in E0. rewrite (settle_alone w Hw) in E0. injection E0 as <- <-.
    injection E as <- <-. split; [reflexivity|]. apply (newest_of_map option_candle_out oc_timestamp); [reflexivity|].
    apply one_or_none_filter in E1.
    rewrite (filter_ext (fun k => existsb _ (option_contracts (m_db w))) (fun k => MarketDb.oc_contract_id k =? ct_id c)).
    + apply newest_rows_spec.
    + intros k. destruct (Z.eqb_spec (MarketDb.oc_contract_id k) (ct_id c)) as [->|Hne].
      * apply existsb_exists. exists c. assert (In c [c]) as Hc by now left. rewrite <- E1 in Hc. apply List.filter_In in Hc as [H1 H2].
        split; [exact H1|]. now rewrite H2, Z.eqb_refl.
      * apply not_true_is_false. intros Hx. apply existsb_exists in Hx as (c' & H1 & H2). apply andb_prop in H2 as [H2 H3%Z.eqb_eq].
        assert (In c' (List.filter (fun c => String.eqb (ct_symbol c) symbol) (option_contracts (m_db w)))) as Hc by (now apply List.filter_In).
        rewrite E1 in Hc. destruct Hc as [->|[]]. congruence.
  - destruct (normalize_index_symbol symbol) as [name|[]]; try discriminate. intros E. apply bind_inv_Ok in E as (rows & w1 & E0 & E).
    unfold query in E0. rewrite (settle_alone w Hw) in E0. injection E0 as <- <-. injection E as <- <-. split; [reflexivity|].
    apply (newest_of_map market_candle_out mc_timestamp); [reflexivity | apply newest_rows_spec].
Qed.

(** ** The chart of a session *)
Lemma within_day d t : within (_day_bounds_utc d) t = true <-> local_date t IST = d.
Proof.
  unfold within, _day_bounds_utc, local_date, date_of, midnight. cbn [fst snd]. rewrite andb_true_iff, Z.leb_le, Z.ltb_lt.
  assert (0 < US_PER_DAY) as Hp by reflexivity. split.
  - intros [H1 H2]. enough ((t + IST) / US_PER_DAY = d - EPOCH_ORDINAL) by lia.
    symmetry. apply (Z.div_unique_pos _ _ _ (t + IST - (d - EPOCH_ORDINAL) * US_PER_DAY)); lia.
  - intros <-. pose proof (Z.div_mod (t + IST) US_PER_DAY ltac:(lia)) as E. pose proof (Z.mod_pos_bound (t + IST) US_PER_DAY Hp).
    rewrite Z.add_simpl_r. lia.
Qed.
(** The candles of a symbol on an Indian calendar day, whichever table they are in. *)
Definition contract_candle (d : MDb) (name : string) (c : CandleOut) : Prop :=
  exists k ct, In k d.(option_candles) /\ In ct d.(option_contracts) /\ ct.(ct_symbol) = name /\
    k.(MarketDb.oc_contract_id) = ct.(ct_id) /\ c = option_candle_out k.
Definition index_candle (d : MDb) (name : string) (c : CandleOut) : Prop :=
  exists k, In k d.(market_candles) /\ k.(mc_symbol) = name /\ k.(mc_interval) = "1minute" /\ c = market_candle_out k.
Definition candle_of_day (d : MDb) (symbol : option string) (day : Z) (c : CandleOut) : Prop :=
  exists name, symbol = Some name /\ local_date c.(cd_timestamp) IST = day /\
    if has_bar name then is_ok (parse_option_symbol name) = true /\ contract_candle d name c else index_candle d name c.
Lemma ascending_map {A B} (f : A -> B) (t : A -> Z) (u : B -> Z) l : (forall a, u (f a) = t a) -> ascending t l -> ascending u (map f l).
Proof.
  intros E. unfold ascending. induction 1 as [|x l _ IH Hx]; cbn; constructor; [exact IH|]. apply Forall_map.
  eapply Forall_impl; [exact Hx|]. cbn. intros y. now rewrite !E.
Qed.
Lemma in_sorted_rows {A} (out : A -> CandleOut) (time : A -> Z) (p : A -> bool) day l c :
  In c (map out (order_asc time (List.filter (fun k => p k && within (_day_bounds_utc day) (time k)) l))) <->
  exists k, In k l /\ p k = true /\ local_date (time k) IST = day /\ c = out k.
Proof.
  rewrite in_map_iff. split.
  - intros (k & <- & Hk). apply In_sort_by, List.filter_In in Hk as [H1 H2]. apply andb_prop in H2 as [H2 H3].
    apply within_day in H3. eauto.
  - intros (k & Hk & Hp & Hd & ->). exists k. split; [reflexivity|]. apply In_sort_by, List.filter_In. split; [exact Hk|].
    rewrite Hp. now apply within_day.
Qed.
Lemma contract_day d name day ct : List.filter (fun c => String.eqb c.(ct_symbol) name) d.(option_contracts) = [ct] ->
  forall c, In c (map option_candle_out (order_asc oc_timestamp
      (List.filter (fun k => (k.(MarketDb.oc_contract_id) =? ct.(ct_id)) && within (_day_bounds_utc day) k.(oc_timestamp)) d.(option_candles)))) <->
    local_date c.(cd_timestamp) IST = day /\ contract_candle d name c.
Proof.
  intros E c. rewrite (in_sorted_rows option_candle_out oc_timestamp (fun k => k.(MarketDb.oc_contract_id) =? ct.(ct_id))). split.
  - intros (k & Hk & Hp%Z.eqb_eq & Hd & ->). split; [exact Hd|]. destruct (filter_one_In _ _ _ E) as [H1 H2%String.eqb_eq]. exists k, ct. auto.
  - intros (Hd & k & ct' & Hk & Hct & Hs & Hid & ->). exists k. split; [exact Hk|]. assert (In ct' [ct]) as [->|[]].
    { rewrite <- E. apply List.filter_In. split; [exact Hct | now apply String.eqb_eq]. }
    rewrite Hid, Z.eqb_refl. auto.
Qed.
Lemma no_candle d name day : (has_bar name = true -> is_ok (parse_option_symbol name) = false \/
    List.filter (fun c => String.eqb c.(ct_symbol) name) d.(option_contracts) = []) ->
  has_bar name = true -> forall c, ~ candle_of_day d (Some name) day c.
Proof.
  intros H Eb c (n & [= <-] & _ & Hc). rewrite Eb in Hc. destruct Hc as (Hp & k & ct & _ & Hct & Hs & _).
  destruct (H Eb) as [H1|H1]; [congruence|]. assert (In ct []) as []. rewrite <- H1. apply List.filter_In. split; [exact Hct | now apply String.eqb_eq].
Qed.
Lemma candles_for_symbol_spec symbol day w out w' : alone w -> _candles_for_symbol symbol day w = (Ok out, w') ->
  w' = w /\ ascending cd_timestamp out /\ forall c, In c out <-> candle_of_day w.(m_db) symbol day c.
Proof.
  intros Hw. unfold _candles_for_symbol. destruct symbol as [name|].
  2: { intros [= <- <-]. split; [reflexivity|]. split; [constructor|]. intros c. split; [intros [] | intros (? & [=] & _)]. }
  assert (forall w1, (@Ok exn _ [], w) = (Ok out, w1) -> (forall c, ~ candle_of_day (m_db w) (Some name) day c) ->
    w1 = w /\ ascending cd_timestamp out /\ forall c, In c out <-> candle_of_day (m_db w) (Some name) day c) as Hnone.
  { intros w1 [= <- <-] H. split; [reflexivity|]. split; [constructor|]. intros c. split; [intros [] | apply H]. }
  cbv zeta. destruct (has_bar name) eqn:Eb.
  - destruct (parse_option_symbol name) as [x|[]] eqn:Ep; try discriminate.
    2: { intros E. apply Hnone; [exact E|]. apply no_candle; [|exact Eb]. rewrite Ep. now left. }
    intros E. apply bind_inv_Ok in E as (ct & w1 & E1 & E).
    apply bind_inv_Ok in E1 as (rows & w2 & E0 & E1). unfold query in E0. rewrite (settle_alone w Hw) in E0. injection E0 as <- <-.
    unfold lift in E1. injection E1 as E1 <-. apply one_or_none_filter in E1. destruct ct as [ct|].
    2: { apply Hnone; [exact E|]. apply no_candle; [|exact Eb]. now right. }
    apply bind_inv_Ok in E as (rows & w2 & E0 & E). unfold query in E0. rewrite (settle_alone w Hw) in E0. injection E0 as <- <-.
    injection E as <- <-. split; [reflexivity|]. split; [apply (ascending_map option_candle_out oc_timestamp); [reflexivity | apply order_asc_ascending]|].
    intros c. rewrite (contract_day (m_db w) name day ct E1 c). unfold candle_of_day. split.
    + intros [H1 H2]. exists name. rewrite Eb, Ep. auto.
    + intros (n0 & [= <-] & H1 & H2). rewrite Eb in H2. split; [exact H1 | apply H2].
  - intros E. apply bind_inv_Ok in E as (rows & w2 & E0 & E). unfold query in E0. rewrite (settle_alone w Hw) in E0. injection E0 as <- <-.
    injection E as <- <-. split; [reflexivity|]. split; [apply (ascending_map market_candle_out mc_timestamp); [reflexivity | apply order_asc_ascending]|].
    intros c. rewrite (in_sorted_rows market_candle_out mc_timestamp (fun k => String.eqb k.(mc_symbol) name && String.eqb k.(mc_interval) "1minute")).
    unfold candle_of_day. split.
    + intros (k & Hk & Hp & Hd & ->). apply andb_prop in Hp as [H1%String.eqb_eq H2%String.eqb_eq]. exists name. rewrite Eb.
      split; [reflexivity|]. split; [exact Hd|]. now exists k.
    + intros (n0 & [= <-] & Hd & Hx). rewrite Eb in Hx. destruct Hx as (k & Hk & Hs & Hi & ->). exists k. now rewrite Hs, Hi, !String.eqb_refl.
Qed.

(** A session's chart holds exactly that session's Indian calendar day: the
    one-minute candles of the underlying and the candles of the two locked
    contracts whose time falls on the trading date in India, in order, and none of
    another day; without a lock the two option curves are empty. *)
Theorem chart_is_the_session_day i w out w' : alone w -> get_session_chart i w = (Ok out, w') ->
  w' = w /\ exists x, In x w.(m_db).(daily_sessions) /\ x.(ds_id) = i /\
    out.(ch_session_id) = i /\ out.(ch_underlying) = x.(ds_underlying) /\ out.(ch_trading_date) = x.(ds_trading_date) /\
    out.(ch_atm_strike) = x.(ds_atm_strike) /\
    (forall c, In c out.(ch_spot) <-> candle_of_day w.(m_db) (Some x.(ds_underlying)) x.(ds_trading_date) c) /\
    (forall c, In c out.(ch_atm_ce) <-> candle_of_day w.(m_db) x.(ds_atm_ce_symbol) x.(ds_trading_date) c) /\
    (forall c, In c out.(ch_atm_pe) <-> candle_of_day w.(m_db) x.(ds_atm_pe_symbol) x.(ds_trading_date) c) /\
    ascending cd_timestamp out.(ch_spot) /\ ascending cd_timestamp out.(ch_atm_ce) /\ ascending cd_timestamp out.(ch_atm_pe).
Proof.
  intros Hw E. apply bind_inv_Ok in E as (x & w1 & E1 & E).
  apply bind_inv_Ok in E1 as (row & w2 & E0 & E1). unfold query in E0. rewrite (settle_alone w Hw) in E0. injection E0 as <- <-.
  destruct (List.find _ _) as [x'|] eqn:Ef; [|discriminate]. injection E1 as <- <-. apply List.find_some in Ef as [Hx Hid%Z.eqb_eq].
  apply bind_inv_Ok in E as (spot & w1 & E1 & E). apply candles_for_symbol_spec in E1 as (-> & A1 & S1); [|exact Hw].
  apply bind_inv_Ok in E as (ce & w1 & E1 & E). apply candles_for_symbol_spec in E1 as (-> & A2 & S2); [|exact Hw].
  apply bind_inv_Ok in E as (pe & w1 & E1 & E). apply candles_for_symbol_spec in E1 as (-> & A3 & S3); [|exact Hw].
  injection E as <- <-. split; [reflexivity|]. exists x'. cbn. auto 15.
Qed.

(** ** Posting a session *)
Section posting.
Context {aenv : Env} {P : Type} `{MarketDataProvider P} {senv : SessionEnv} (s : Settings) (tz : Z).
Lemma check_returns publish m : exists r m', check s publish m = (Ok r, m').
Proof.
  destruct (credentials_quiet s m) as (c & t1 & m1 & E1 & _).
  destruct (verdict_on_extends s c (clock_at (sm_calls m1)) (snd (external clock_at (fun _ => ReadClock) m1))) as (r & t2 & m3 & E2 & _).
  enough (fst (check s publish m) = Ok r) as H1.
  { destruct (check s publish m) as [r' m']. cbn in H1. subst r'. now exists r, m'. }
  unfold check, bind at 1. rewrite E1. unfold bind at 1, external. unfold external in E2. cbn [snd] in E2.
  unfold bind at 1. rewrite E2. unfold bind, modify, ret. now destruct publish.
Qed.
Lemma reconnect_returns meanwhile w : exists w', reconnect s tz meanwhile w = (Ok tt, w').
Proof.
  unfold reconnect, try_except. destruct (bind _ _ w) as [[[]|e] w']; [now exists w' | cbn; now exists w'].
Qed.
(** What the audit row says of a posted session. *)
Definition session_detail (body : MarketSessionIn) (verdict : SessionState) : json :=
  JObj [("result", JStr (session_value verdict)); ("session_token_fingerprint", opt_json (fingerprint body.(in_session_token)));
        ("rotated_api_key", JBool (opt_truthy body.(in_api_key))); ("rotated_secret_key", JBool (opt_truthy body.(in_secret_key)))].
Definition posted (body : MarketSessionIn) (m : Manager) : Manager :=
  snd (set_credentials body.(in_session_token) body.(in_api_key) body.(in_secret_key) m).

(** A posted session is always answered and audited, whatever the broker
    and the restart of the feed raise: the credentials are replaced, one check
    gives the verdict, the audit row names that verdict and the fingerprint of the
    token, never the token itself, and the answer is the status as it then stands;
    with any other verdict than VALID the running feed - provider, subscriptions,
    candles, tasks - is left as it was. *)
Theorem posted_session_is_audited meanwhile body r p aw sw :
  exists chk m', check s true (posted body sw.(w_sm)) = (Ok chk, m') /\
  let '(res, (aw', sw')) := update_session s tz meanwhile body r p (aw, sw) in
  res = Ok (_payload sw'.(w_sm).(sm_status)) /\
  aw' = snd (audit_record (actor p) MARKET_SESSION_UPDATED (Some p.(pr_label)) (Some (session_target s)) "success" (Some (client_ip r))
               (header r "user-agent") (session_detail body chk.(sc_state)) aw) /\
  (chk.(sc_state) <> S_VALID -> sw' = put_sm m' sw).
Proof.
  destruct (check_returns true (posted body sw.(w_sm))) as (chk & m' & E). exists chk, m'. split; [exact E|].
  unfold update_session, bind at 1, on_service, on_market. cbn [fst snd]. unfold on_sm, zoom, bind at 1. fold (posted body (w_sm sw)).
  destruct (set_credentials _ _ _ (w_sm sw)) as [[[]|x] m0] eqn:E0; [|discriminate]. unfold posted in E. rewrite E0 in E. cbn [snd] in E.
  unfold bind at 1. cbn [w_sm put_sm]. rewrite E. set (sw1 := put_sm m' (put_sm m0 sw)).
  assert (exists sw2, (when bool_decide (sc_state chk = S_VALID) do reconnect s tz meanwhile) sw1 = (Ok tt, sw2) /\
            (sc_state chk <> S_VALID -> sw2 = sw1)) as (sw2 & E2 & Hw).
  { destruct (bool_decide_reflect (sc_state chk = S_VALID)) as [Hv|Hv]; cbn.
    - destruct (reconnect_returns meanwhile sw1) as (sw2 & ->). exists sw2. split; [reflexivity | congruence].
    - exists sw1. now split. }
  unfold bind at 1. match goal with |- context [?m sw1] => change (m sw1) with ((when bool_decide (sc_state chk = S_VALID) do reconnect s tz meanwhile) sw1) end. rewrite E2. cbn [ret fst snd]. unfold bind at 1, record_session, both. cbn [fst snd]. fold (session_detail body (sc_state chk)).
  pose proof (audit_record_ok (actor p) MARKET_SESSION_UPDATED (Some p.(pr_label)) (Some (session_target s)) "success" (Some (client_ip r))
    (header r "user-agent") (session_detail body chk.(sc_state)) aw) as Ha.
  destruct (audit_record _ _ _ _ _ _ _ _ aw) as [ra aw']. cbn [fst snd] in *. subst ra. cbn. split; [reflexivity|]. split; [reflexivity|].
  intros Hv. rewrite (Hw Hv). reflexivity.
Qed.
End posting.

(** ** On concrete tables *)
Definition index_row (id t : Z) (close : Z) : MarketCandleRow :=
  let p := f_of_Z close in mkMarketCandle id t "NIFTY" "NSE" "1minute" p p p p None None.
Definition september_3 : Z := ymd2ord 2026 9 3.
Definition at_ist (day hh mm : Z) : Z := midnight day + time_us hh mm 0 0 - IST.
(** Minutes of two days, the last of the first and the first of the second a
    calendar day apart in India and not in UTC. *)
Definition chart_db : MDb := Eval vm_compute in
  mkMDb [index_row 1 (at_ist september_3 9 15) 25100; index_row 2 (at_ist (september_3 - 1) 15 29) 25050;
         index_row 3 (at_ist september_3 9 16) 25110; index_row 4 (at_ist (september_3 + 1) 0 0) 25120]
    [] [] [mkCycle 7 "NIFTY" "NFO" (september_3 + 5) (september_3 - 1) (september_3 + 5) "ACTIVE" None]
    [mkSession 3 7 "NIFTY" september_3 (Some (f_of_Z 25110)) None None None None None "PENDING"] [].
Lemma candles_are_the_newest_witness :
  mdb_ok chart_db = true /\ exists out w', get_candles "nifty 50" "1minute" 2 (quiet_world chart_db) = (Ok out, w') /\
    map cd_timestamp out = [at_ist september_3 9 16; at_ist (september_3 + 1) 0 0] /\
    newest_of cd_timestamp 2 (persisted_candles chart_db "nifty 50" "1minute") out.
Proof.
  split; [vm_compute; reflexivity|]. destruct (get_candles "nifty 50" "1minute" 2 (quiet_world chart_db)) as [[out|] w'] eqn:E;
    [|vm_compute in E; discriminate].
  exists out, w'. split; [reflexivity|]. split; [vm_compute in E; injection E as <- _; vm_compute; reflexivity|].
  exact (proj2 (candles_are_the_newest "nifty 50" "1minute" 2 (quiet_world chart_db) out w' eq_refl E)).
Defined.
Lemma chart_is_the_session_day_witness :
  exists out w', get_session_chart 3 (quiet_world chart_db) = (Ok out, w') /\
    map cd_timestamp out.(ch_spot) = [at_ist september_3 9 15; at_ist september_3 9 16] /\ out.(ch_atm_ce) = [] /\
    forall c, In c out.(ch_spot) -> local_date c.(cd_timestamp) IST = september_3.
Proof.
  destruct (get_session_chart 3 (quiet_world chart_db)) as [[out|] w'] eqn:E; [|vm_compute in E; discriminate].
  exists out, w'. split; [reflexivity|]. destruct (chart_is_the_session_day 3 (quiet_world chart_db) out w' eq_refl E) as (_ & x & Hx & _ & _ & _ & _ & _ & Hs & _).
  split; [vm_compute in E; injection E as <- _; vm_compute; reflexivity|].
  split; [vm_compute in E; injection E as <- _; vm_compute; reflexivity|].
  intros c Hc. apply Hs in Hc as (name & _ & Hd & _). destruct Hx as [<-|[]]. exact Hd.
Defined.
Example views_examples :
  get_index (mkView (empty_cache (f_of_Z 10)) demo_master 0 0) "nifty 51" = Err (HTTPException 404 "Unknown index: nifty 51") /\
  (exists l, get_indices (mkView (empty_cache (f_of_Z 10)) demo_master 0 0) = Ok l /\ map ix_status l = repeat "no_data" 5 /\
     map ix_exchange l = ["NSE"; "NSE"; "NSE"; "NSE"; "BSE"]) /\
  get_nifty_strikes (mkView (empty_cache (f_of_Z 10)) demo_master demo_now 0) "current" = Ok (map f_of_Z [25100; 25150; 25200]) /\
  _payload FEED_STATUS = mkStatusOut "icici_breeze" false "UNKNOWN" "NOT_CONFIGURED" (credentials_view FEED_STATUS) None None /\
  fst (get_session_chart 4 (quiet_world chart_db)) = Err (HTTPException 404 "Unknown session: 4") /\
  list_underlyings = Ok [mkUnderlyingOut "NIFTY" "NSE" "NFO"; mkUnderlyingOut "SENSEX" "BSE" "BFO"].
Proof. split; [vm_compute; reflexivity|]. split; [eexists; vm_compute; repeat split|]. vm_compute. repeat split. Qed.
