(* ===== verification/Payoff.v ===== *)
(** * The payoff engine of the options research

    [trading/ai_options_research/payoff.py]: what a leg is priced at, the profit
    and loss of a combination of legs at expiry, its extremes, its break-even
    points and its curve.  The engine is written over a class of arithmetics: the
    instance [float_arith] is the code's (doubles, [round]); [exact_arith] is the
    same engine on the rationals, without rounding, on which the module's claim -
    that the extremes and the crossings it finds are those of the whole half-line
    of prices - is proved. *)
From S2P Require Import Prelude PyStr PyFloat PyNum PyTime Symbols MarketCache OptionsIntel.
From Stdlib Require Import QArith Lqa.
#[local] Open Scope Z_scope.

(** ** Arithmetic *)
Class Arith (F : Type) : Type := {
  a_add : F -> F -> F; a_sub : F -> F -> F; a_mul : F -> F -> F; a_opp : F -> F;
  a_div : F -> F -> result exn F;
  a_ltb : F -> F -> bool; a_eqb : F -> F -> bool;
  a_of_Z : Z -> F;
  a_dec : Z -> Z -> F;                 (* the literal m * 10^-k *)
  a_round : Z -> F -> F                (* [round(x, k)] *)
}.
#[export] Instance float_arith : Arith float := {|
  a_add := f_add; a_sub := f_sub; a_mul := f_mul; a_opp := f_opp; a_div := py_div; a_ltb := f_ltb; a_eqb := f_eqb;
  a_of_Z := f_of_Z; a_dec := f_dec; a_round := f_round |}.
#[export] Instance exact_arith : Arith Q := {|
  a_add := Qplus; a_sub := Qminus; a_mul := Qmult; a_opp := Qopp;
  a_div := fun x y => if Qeq_bool y 0 then Err ZeroDivisionError else Ok (Qdiv x y);
  a_ltb := fun x y => negb (Qle_bool y x); a_eqb := Qeq_bool; a_of_Z := inject_Z;
  a_dec := fun m k => Qdiv (inject_Z m) (inject_Z (10 ^ k)); a_round := fun _ x => x |}.

Inductive Side : Type := BUY | SELL.
#[global] Instance Side_eq_dec : EqDecision Side.
Proof. solve_decision. Defined.

(** ** Pricing a leg *)
Definition price_leg (side : Side) (bid ask ltp : option float) : option float * string :=
  match side, bid, ask with
  | SELL, Some b, _ => (Some b, "bid")
  | BUY, _, Some a => (Some a, "ask")
  | _, _, _ => match ltp with Some p => (Some p, "ltp") | None => (None, "unavailable") end
  end.
Definition PRICING_METHOD : string :=
  "short legs priced at bid (fallback: LTP); long legs priced at ask (fallback: LTP) -- a research ESTIMATE, never a guaranteed fill".

Section engine.
Context {F : Type} `{Arith F}.
Record ResolvedLeg : Type := mkLeg {
  rl_side : Side; rl_option_type : OptionType; rl_strike : F; rl_price : option F; rl_price_source : string;
  rl_liquidity_ok : bool; rl_liquidity_reasons : list string
}.
Record PayoffPoint : Type := mkPayoffPoint { pp_underlying_price : F; pp_pnl : F }.
Record PayoffResult : Type := mkPayoff {
  net_premium : option F; max_profit : option F; max_profit_unbounded : bool; max_loss : option F; max_loss_unbounded : bool;
  breakevens : list F; pricing_method : string; payoff_curve : list PayoffPoint; priced : bool; pr_detail : option string
}.
Definition a_zero : F := a_of_Z 0.
Definition a_max (a b : F) : F := if a_ltb a b then b else a.
Definition a_leb (a b : F) : bool := negb (a_ltb b a).
Definition a_sum (l : list F) : F := fold_left a_add l a_zero.
(** [max(l)] and [min(l)] of a non-empty list. *)
Definition a_greatest (x : F) (l : list F) : F := min_lt (fun a b => a_ltb b a) x l.
Definition a_least (x : F) (l : list F) : F := min_lt a_ltb x l.
(** The first of each class of equal numbers. *)
Definition add_new (seen : list F) (x : F) : list F := if existsb (a_eqb x) seen then seen else seen ++ [x].
Definition distinct (l : list F) : list F := fold_left add_new l [].
Definition sorted_set (l : list F) : list F := sort_by a_leb (distinct l).
(** [x or 0.0] *)
Definition or_zero (p : option F) : F := match p with Some x => if a_eqb x a_zero then a_zero else x | None => a_zero end.

Definition _FAR_MULTIPLE : F := a_of_Z 4.
Definition _EPS : F := a_dec 1 9.
Definition leg_intrinsic (leg : ResolvedLeg) (s : F) : F :=
  match leg.(rl_option_type) with CALL => a_max (a_sub s leg.(rl_strike)) a_zero | PUT => a_max (a_sub leg.(rl_strike) s) a_zero end.
Definition _leg_payoff (leg : ResolvedLeg) (s : F) : F :=
  let sign := match leg.(rl_side) with BUY => a_of_Z 1 | SELL => a_opp (a_of_Z 1) end in
  let premium_term := match leg.(rl_side) with BUY => a_opp (or_zero leg.(rl_price)) | SELL => or_zero leg.(rl_price) end in
  a_add (a_mul sign (leg_intrinsic leg s)) premium_term.
Definition _total_pnl (legs : list ResolvedLeg) (s : F) : F := a_sum (map (fun leg => _leg_payoff leg s) legs).
Definition pnl_at (legs : list ResolvedLeg) (p : F) : F * F := (p, _total_pnl legs p).

(** The crossings between consecutive points, each with its value. *)
Fixpoint crossings (l : list (F * F)) : result exn (list F) :=
  match l with
  | (p0, v0) :: (((p1, v1) :: _) as r) =>
      let? rest := crossings r in
      if a_eqb v0 a_zero then Ok (a_round 4 p0 :: rest)
      else if xorb (a_ltb v0 a_zero) (a_ltb v1 a_zero) && negb (a_eqb v1 v0) then
        let? q := a_div (a_mul (a_sub a_zero v0) (a_sub p1 p0)) (a_sub v1 v0) in
        Ok (a_round 4 (a_add p0 q) :: rest)
      else Ok rest
  | _ => Ok []
  end.
(** A zero at the last point, unless it was the last one found. *)
Definition add_far (far v_far : F) (found : list F) : list F :=
  let again := match last found with Some b => negb (a_eqb b (a_round 4 far)) | None => true end in
  if a_eqb v_far a_zero && again then found ++ [a_round 4 far] else found.
Definition _find_breakevens (legs : list ResolvedLeg) (strikes : list F) (far : F) : result exn (list F) :=
  let? found := crossings (map (pnl_at legs) (a_zero :: strikes ++ [far])) in
  Ok (sorted_set (add_far far (_total_pnl legs far) found)).
Definition curve_point (legs : list ResolvedLeg) (start step : F) (i : nat) : PayoffPoint :=
  let s := a_add start (a_mul (a_of_Z (Z.of_nat i)) step) in mkPayoffPoint (a_round 2 s) (a_round 4 (_total_pnl legs s)).
Definition _build_curve (legs : list ResolvedLeg) (lo hi : F) (n : nat) : result exn (list PayoffPoint) :=
  let span := a_max (a_sub hi lo) (a_of_Z 1) in
  let start := a_max (a_sub lo span) a_zero in
  let end_ := a_add hi span in
  let? step := a_div (a_sub end_ start) (a_of_Z (Z.max (Z.of_nat n - 1) 1)) in
  Ok (map (curve_point legs start step) (seq 0 n)).

Definition unpriced (detail : string) : PayoffResult := mkPayoff None None false None false [] PRICING_METHOD [] false (Some detail).
Definition signed_price (leg : ResolvedLeg) : F :=
  match leg.(rl_side) with SELL => default a_zero leg.(rl_price) | BUY => a_opp (default a_zero leg.(rl_price)) end.
Definition has_price (leg : ResolvedLeg) : bool := match leg.(rl_price) with Some _ => true | None => false end.
(** How far beyond the highest strike the tail is probed. *)
Definition far_point (lo hi : F) : F :=
  a_add hi (a_max (a_max (a_mul _FAR_MULTIPLE (a_sub hi lo)) (a_mul _FAR_MULTIPLE hi)) (a_of_Z 1000)).
Definition priced_payoff (legs : list ResolvedLeg) (strikes : list F) (lo hi : F) (curve_points : nat) : result exn PayoffResult :=
  let far := far_point lo hi in
  let? slope_right := a_div (a_sub (_total_pnl legs far) (_total_pnl legs hi)) (a_sub far hi) in
  let up := a_ltb _EPS slope_right in
  let down := a_ltb slope_right (a_opp _EPS) in
  let tail := if negb up && negb down then [far] else [] in
  let v0 := _total_pnl legs a_zero in
  let values := map (_total_pnl legs) (strikes ++ tail) in
  let profit := if up then None else Some (a_round 4 (a_greatest v0 values)) in
  let loss := if down then None else Some (a_round 4 (a_max (a_opp (a_least v0 values)) a_zero)) in
  let? bes := _find_breakevens legs strikes far in
  let? curve := _build_curve legs lo hi curve_points in
  Ok (mkPayoff (Some (a_round 4 (a_sum (map signed_price legs)))) profit up loss down bes PRICING_METHOD curve true None).
Definition compute_payoff (legs : list ResolvedLeg) (curve_points : nat) : result exn PayoffResult :=
  match legs with
  | [] => Ok (unpriced "no legs")
  | _ =>
      if forallb has_price legs then
        let strikes := sorted_set (map rl_strike legs) in
        match strikes, last strikes with
        | lo :: _, Some hi => priced_payoff legs strikes lo hi curve_points
        | _, _ => Err (OtherError "IndexError" "list index out of range")
        end
      else Ok (unpriced "one or more legs have no usable price (bid/ask/ltp all missing)")
  end.
End engine.
Arguments ResolvedLeg F : clear implicits.
Arguments PayoffPoint F : clear implicits.
Arguments PayoffResult F : clear implicits.

(** ** Exact arithmetic *)
Section exact.
#[local] Open Scope Q_scope.
Implicit Types (x y k p q s : Q) (leg : ResolvedLeg Q) (legs : list (ResolvedLeg Q)).
Lemma ltb_lt x y : a_ltb x y = true <-> x < y.
Proof.
  cbn. rewrite negb_true_iff. split.
  - intros E. apply Qnot_le_lt. intros L. apply Qle_bool_iff in L. congruence.
  - intros L. apply not_true_is_false. intros E. apply Qle_bool_iff in E. lra.
Qed.
Lemma ltb_ge x y : a_ltb x y = false <-> y <= x.
Proof. cbn. rewrite negb_false_iff. apply Qle_bool_iff. Qed.
Lemma leb_le x y : a_leb x y = true <-> x <= y.
Proof. unfold a_leb. cbn. rewrite negb_involutive. apply Qle_bool_iff. Qed.
Lemma eqb_eq x y : a_eqb x y = true <-> x == y.
Proof. apply Qeq_bool_iff. Qed.
Lemma eqb_neq x y : a_eqb x y = false <-> ~ x == y.
Proof. rewrite <- eqb_eq. now destruct (a_eqb x y). Qed.
Lemma max_spec x y : x <= a_max x y /\ y <= a_max x y /\ (a_max x y = x \/ a_max x y = y).
Proof. unfold a_max. destruct (a_ltb x y) eqn:E; [apply ltb_lt in E | apply ltb_ge in E]; repeat split; auto; lra. Qed.
Lemma greatest_spec l : forall x, In (a_greatest x l) (x :: l) /\ forall y, In y (x :: l) -> y <= a_greatest x l.
Proof.
  unfold a_greatest. intros x. split; [apply min_lt_In|]. intros y Hy. apply ltb_ge.
  apply (min_lt_least (fun a b : Q => a_ltb b a)); [intros a; apply ltb_ge; lra | intros a b c; rewrite !ltb_lt; lra | exact Hy].
Qed.
Lemma least_spec l : forall x, In (a_least x l) (x :: l) /\ forall y, In y (x :: l) -> a_least x l <= y.
Proof.
  unfold a_least. intros x. split; [apply min_lt_In|]. intros y Hy. apply ltb_ge.
  apply (min_lt_least a_ltb); [intros a; apply ltb_ge; lra | intros a b c; rewrite !ltb_lt; lra | exact Hy].
Qed.
Lemma distinct_in l : (forall x, In x (distinct l) -> In x l) /\ forall x, In x l -> exists y, In y (distinct l) /\ x == y.
Proof.
  unfold distinct. induction l as [|z l IH] using rev_ind; [split; cbn; tauto|]. rewrite fold_left_app. cbn [fold_left].
  set (d := fold_left add_new l []) in *. destruct IH as [H1 H2]. unfold add_new. destruct (existsb (a_eqb z) d) eqn:E; split.
  - intros x Hx. apply in_or_app. auto.
  - intros x Hx. apply in_app_or in Hx as [Hx|[->|[]]]; [auto|]. apply existsb_exists in E as (y & Hy & Ey%eqb_eq). eauto.
  - intros x Hx. apply in_app_or in Hx as [Hx|Hx]; apply in_or_app; auto.
  - intros x Hx. apply in_app_or in Hx as [Hx|[->|[]]].
    + destruct (H2 x Hx) as (y & Hy & Ey). exists y. split; [apply in_or_app; auto | exact Ey].
    + exists x. split; [apply in_or_app; right; now left | reflexivity].
Qed.
Definition increasing (l : list Q) : Prop := StronglySorted Qle l.
Lemma sorted_set_increasing l : increasing (sorted_set l).
Proof.
  eapply StronglySorted_weaken; [|apply (Sorted_sort_by a_leb)].
  - cbn. intros a b E. now apply leb_le.
  - intros a b. rewrite !leb_le. lra.
  - intros a b c. rewrite !leb_le. lra.
Qed.
Lemma sorted_set_in l : (forall x, In x (sorted_set l) -> In x l) /\ forall x, In x l -> exists y, In y (sorted_set l) /\ x == y.
Proof.
  destruct (distinct_in l) as [H1 H2]. unfold sorted_set. split.
  - intros x Hx. apply H1. now apply In_sort_by in Hx.
  - intros x Hx. destruct (H2 x Hx) as (y & Hy & E). exists y. split; [now apply In_sort_by | exact E].
Qed.

(** *** The payoff is affine between strikes *)
Lemma sum_from l : forall acc, fold_left Qplus l acc == acc + fold_left Qplus l 0.
Proof. induction l as [|x l IH]; intros acc; cbn; [lra|]. rewrite (IH (acc + x)), (IH (0 + x)). lra. Qed.
Lemma total_cons leg legs s : _total_pnl (leg :: legs) s == _leg_payoff leg s + _total_pnl legs s.
Proof. unfold _total_pnl, a_sum. cbn [map fold_left]. change a_add with Qplus. rewrite sum_from. change a_zero with 0. lra. Qed.
Lemma total_nil s : _total_pnl [] s == 0.
Proof. reflexivity. Qed.
Definition sgn leg : Q := match leg.(rl_side) with BUY => 1 | SELL => - (1) end.
Definition prem leg : Q := match leg.(rl_side) with BUY => - or_zero leg.(rl_price) | SELL => or_zero leg.(rl_price) end.
Lemma leg_value leg s : _leg_payoff leg s = sgn leg * leg_intrinsic leg s + prem leg.
Proof. unfold _leg_payoff, sgn, prem. now destruct (rl_side leg). Qed.
(** On either side of the strike the intrinsic value is one affine function. *)
Definition call_slope leg : Q := match leg.(rl_option_type) with CALL => 1 | PUT => 0 end.
Lemma intrinsic_above leg s : rl_strike leg <= s -> leg_intrinsic leg s == call_slope leg * (s - rl_strike leg).
Proof.
  intros L. unfold leg_intrinsic, call_slope, a_max. change a_sub with Qminus. change a_zero with 0. destruct (rl_option_type leg).
  - destruct (a_ltb (s - rl_strike leg) 0) eqn:E; [apply ltb_lt in E; lra | lra].
  - destruct (a_ltb (rl_strike leg - s) 0) eqn:E; [lra | apply ltb_ge in E; lra].
Qed.
Lemma intrinsic_below leg s : s <= rl_strike leg -> leg_intrinsic leg s == (1 - call_slope leg) * (rl_strike leg - s).
Proof.
  intros L. unfold leg_intrinsic, call_slope, a_max. change a_sub with Qminus. change a_zero with 0. destruct (rl_option_type leg).
  - destruct (a_ltb (s - rl_strike leg) 0) eqn:E; [lra | apply ltb_ge in E; lra].
  - destruct (a_ltb (rl_strike leg - s) 0) eqn:E; [apply ltb_lt in E; lra | lra].
Qed.
Lemma leg_affine leg p q s : rl_strike leg <= p \/ q <= rl_strike leg -> p <= s -> s <= q ->
  _leg_payoff leg s * (q - p) == _leg_payoff leg p * (q - s) + _leg_payoff leg q * (s - p).
Proof.
  intros Hk H1 H2. rewrite !leg_value. destruct Hk as [Hk|Hk].
  - rewrite !intrinsic_above by lra. ring.
  - rewrite !intrinsic_below by lra. ring.
Qed.
Definition outside p q legs : Prop := forall leg, In leg legs -> rl_strike leg <= p \/ q <= rl_strike leg.
Lemma total_affine legs p q s : outside p q legs -> p <= s -> s <= q ->
  _total_pnl legs s * (q - p) == _total_pnl legs p * (q - s) + _total_pnl legs q * (s - p).
Proof.
  intros Ho H1 H2. induction legs as [|leg legs IH]; [rewrite !total_nil; ring|]. rewrite !total_cons.
  pose proof (leg_affine leg p q s (Ho leg (or_introl eq_refl)) H1 H2). assert (outside p q legs) as Ho' by (intros l Hl; apply Ho; now right).
  specialize (IH Ho'). lra.
Qed.
(** Beyond the strikes the slope counts the calls, bought less sold. *)
Fixpoint tail_slope legs : Q := match legs with [] => 0 | leg :: r => sgn leg * call_slope leg + tail_slope r end.
Lemma total_tail legs h s : (forall leg, In leg legs -> rl_strike leg <= h) -> h <= s ->
  _total_pnl legs s == _total_pnl legs h + tail_slope legs * (s - h).
Proof.
  intros Hk Hs. induction legs as [|leg legs IH]; [rewrite !total_nil; cbn; ring|]. rewrite !total_cons, !leg_value. cbn [tail_slope].
  assert (rl_strike leg <= h) as Hl by (apply Hk; now left). rewrite !intrinsic_above by lra.
  rewrite IH by (intros l Hl'; apply Hk; now right). ring.
Qed.
Lemma tail_slope_integer legs : exists z : Z, tail_slope legs == inject_Z z.
Proof.
  induction legs as [|leg legs [z IH]]; [now exists 0%Z|]. cbn [tail_slope]. unfold sgn, call_slope.
  destruct (rl_side leg), (rl_option_type leg).
  - exists (1 + z)%Z. rewrite inject_Z_plus, IH. reflexivity.
  - exists z. rewrite IH. ring.
  - exists (-1 + z)%Z. rewrite inject_Z_plus, IH. reflexivity.
  - exists z. rewrite IH. ring.
Qed.
End exact.

(** *** The extremes *)
Section extremes.
#[local] Open Scope Q_scope.
Implicit Types (x y k p q s : Q) (leg : ResolvedLeg Q) (legs : list (ResolvedLeg Q)).
(** Consecutive points around a price. *)
Lemma segment l : forall x, increasing (x :: l) -> forall s, x <= s ->
  (exists a p q b, x :: l = a ++ p :: q :: b /\ p <= s /\ s <= q) \/ (exists a h, x :: l = a ++ [h] /\ h <= s).
Proof.
  induction l as [|y l IH]; intros x Hi s Hs; [right; now exists [], x|].
  inversion Hi as [|? ? Hi' Hx]; subst. destruct (Qlt_le_dec s y) as [L|L].
  - left. exists [], x, y, l. repeat split; [exact Hs | now apply Qlt_le_weak].
  - destruct (IH y Hi' s L) as [(a & p & q & b & E & H1 & H2)|(a & h & E & H1)].
    + left. exists (x :: a), p, q, b. cbn. now rewrite E.
    + right. exists (x :: a), h. cbn. now rewrite E.
Qed.
Lemma increasing_mid a p q b : increasing (a ++ p :: q :: b) -> p <= q /\ forall y, In y (a ++ p :: q :: b) -> y <= p \/ q <= y.
Proof.
  intros H. apply StronglySorted_app in H as (_ & H2 & H3). inversion H2 as [|? ? H4 H5]; subst. inversion H4 as [|? ? _ H6]; subst.
  inversion H5 as [|? ? Hpq _]; subst. split; [exact Hpq|]. intros y Hy. apply in_app_or in Hy as [Hy|[<-|[<-|Hy]]].
  - left. apply H3; [exact Hy | now left].
  - left. lra.
  - right. lra.
  - right. rewrite Forall_forall in H6. apply H6. now apply list_elem_of_In.
Qed.
Lemma increasing_last a h : increasing (a ++ [h]) -> forall y, In y (a ++ [h]) -> y <= h.
Proof. intros H y Hy. apply StronglySorted_app in H as (_ & _ & H3). apply in_app_or in Hy as [Hy|[<-|[]]]; [apply H3; [exact Hy | now left] | lra]. Qed.
(** Every strike is one of the points. *)
Definition covers legs (pts : list Q) : Prop := forall leg, In leg legs -> exists y, In y pts /\ rl_strike leg == y.
Lemma covers_outside legs a p q b : increasing (a ++ p :: q :: b) -> covers legs (a ++ p :: q :: b) -> outside p q legs.
Proof.
  intros Hi Hc leg Hl. destruct (Hc leg Hl) as (y & Hy & E). destruct (increasing_mid a p q b Hi) as [_ H].
  destruct (H y Hy); [left | right]; lra.
Qed.
Lemma total_eq legs p s : p == s -> _total_pnl legs p == _total_pnl legs s.
Proof.
  intros Es. induction legs as [|leg legs IH]; [reflexivity|]. rewrite !total_cons, IH, !leg_value.
  assert (leg_intrinsic leg p == leg_intrinsic leg s) as ->; [|reflexivity].
  destruct (Qlt_le_dec p (rl_strike leg)) as [L|L]; [rewrite !intrinsic_below by lra | rewrite !intrinsic_above by lra]; rewrite Es; reflexivity.
Qed.
(** Between two points an affine function stays between its values there. *)
Lemma affine_le v a b p q s m : v * (q - p) == a * (q - s) + b * (s - p) -> p < q -> p <= s -> s <= q -> a <= m -> b <= m -> v <= m.
Proof.
  intros E L H1 H2 Ha Hb. apply (Qmult_le_r _ _ (q - p)); [lra|]. rewrite E.
  assert (a * (q - s) <= m * (q - s)) by (apply Qmult_le_compat_r; lra).
  assert (b * (s - p) <= m * (s - p)) by (apply Qmult_le_compat_r; lra). lra.
Qed.
Lemma total_between legs p q s : outside p q legs -> p <= s -> s <= q ->
  (forall m, _total_pnl legs p <= m -> _total_pnl legs q <= m -> _total_pnl legs s <= m) /\
  (forall m, m <= _total_pnl legs p -> m <= _total_pnl legs q -> m <= _total_pnl legs s).
Proof.
  intros Ho H1 H2. destruct (Qlt_le_dec p q) as [L|L].
  - pose proof (total_affine legs p q s Ho H1 H2) as E. split; intros m Ha Hb.
    + now apply (affine_le _ _ _ p q s m E).
    + apply Qopp_le_compat in Ha, Hb. apply Qopp_le_compat in Ha, Hb. enough (- _total_pnl legs s <= - m) by lra.
      apply (affine_le _ (- _total_pnl legs p) (- _total_pnl legs q) p q s); lra.
  - assert (s == p) as Es by lra. pose proof (total_eq legs s p Es). split; intros; lra.
Qed.
(** Over the whole half-line: the points bound it, and past the last of them the
    tail's slope decides. *)
Definition at_points legs (pts : list Q) (P : Q -> Prop) : Prop := forall y, In y pts -> P (_total_pnl legs y).
Lemma half_line legs x l h : increasing (x :: l) -> covers legs (x :: l) -> last (x :: l) = Some h ->
  (forall m, at_points legs (x :: l) (fun v => v <= m) -> tail_slope legs <= 0 -> forall s, x <= s -> _total_pnl legs s <= m) /\
  (forall m, at_points legs (x :: l) (fun v => m <= v) -> 0 <= tail_slope legs -> forall s, x <= s -> m <= _total_pnl legs s).
Proof.
  intros Hi Hc Hl.
  assert (forall s, x <= s -> (exists p q, In p (x :: l) /\ In q (x :: l) /\ outside p q legs /\ p <= s /\ s <= q) \/
            (h <= s /\ _total_pnl legs s == _total_pnl legs h + tail_slope legs * (s - h))) as Cases.
  { intros s Hs. destruct (segment l x Hi s Hs) as [(a & p & q & b & E & H1 & H2)|(a & h' & E & H1)].
    - left. exists p, q. rewrite E in *. repeat split; auto; [apply in_or_app; right; now left | apply in_or_app; right; right; now left |].
      eapply covers_outside; eauto.
    - right. assert (h' = h) as -> by (rewrite E, last_snoc in Hl; congruence). split; [exact H1|]. apply total_tail; [|exact H1].
      intros leg Hleg. destruct (Hc leg Hleg) as (y & Hy & ->). rewrite E in Hi, Hy. now apply (increasing_last a h Hi). }
  assert (In h (x :: l)) as Hh by (apply last_Some in Hl as (l' & ->); apply in_or_app; right; now left).
  split; intros m Hm Hslope s Hs; (destruct (Cases s Hs) as [(p & q & Hp & Hq & Ho & H1 & H2)|[H1 E]];
    [destruct (total_between legs p q s Ho H1 H2) as [U D]; first [apply U; now apply Hm | apply D; now apply Hm] | rewrite E]).
  - assert (tail_slope legs * (s - h) <= 0 * (s - h)) by (apply Qmult_le_compat_r; lra). specialize (Hm h Hh). cbn in Hm. lra.
  - assert (0 * (s - h) <= tail_slope legs * (s - h)) by (apply Qmult_le_compat_r; lra). specialize (Hm h Hh). cbn in Hm. lra.
Qed.
(** A sloped tail passes every bound. *)
Lemma sloped_tail legs h B : (forall leg, In leg legs -> rl_strike leg <= h) -> 1 <= tail_slope legs -> 0 <= h ->
  exists s, 0 <= s /\ B < _total_pnl legs s.
Proof.
  intros Hk Hs Hh. set (d := a_max (B - _total_pnl legs h + 1) 0). destruct (max_spec (B - _total_pnl legs h + 1) 0) as (H1 & H2 & _).
  fold d in H1, H2. exists (h + d). split; [lra|]. rewrite (total_tail legs h) by (auto; lra).
  assert (1 * d <= tail_slope legs * d) as M by (apply Qmult_le_compat_r; lra). assert (h + d - h == d) as -> by ring. lra.
Qed.
Lemma sloped_tail_down legs h B : (forall leg, In leg legs -> rl_strike leg <= h) -> tail_slope legs <= -(1) -> 0 <= h ->
  exists s, 0 <= s /\ _total_pnl legs s < B.
Proof.
  intros Hk Hs Hh. set (d := a_max (_total_pnl legs h - B + 1) 0). destruct (max_spec (_total_pnl legs h - B + 1) 0) as (H1 & H2 & _).
  fold d in H1, H2. exists (h + d). split; [lra|]. rewrite (total_tail legs h) by (auto; lra).
  assert (tail_slope legs * d <= -(1) * d) as M by (apply Qmult_le_compat_r; lra). assert (h + d - h == d) as -> by ring. lra.
Qed.
End extremes.

(** *** The engine's figures *)
Section figures.
#[local] Open Scope Q_scope.
Implicit Types (legs : list (ResolvedLeg Q)) (r : PayoffResult Q).
Lemma far_beyond lo hi : hi + 1000 <= far_point lo hi.
Proof.
  unfold far_point. change a_add with Qplus. match goal with |- _ <= hi + a_max ?a ?b => destruct (max_spec a b) as (_ & L & _) end.
  assert ((a_of_Z 1000 : Q) == 1000) as E by reflexivity. lra.
Qed.
Lemma EPS_small z : a_ltb _EPS (inject_Z z) = true <-> 1 <= inject_Z z.
Proof.
  rewrite ltb_lt. change _EPS with (1 / 1000000000). assert (1 / 1000000000 == 1 # 1000000000) as -> by reflexivity.
  change 1 with (inject_Z 1). rewrite <- Zle_Qle. split.
  - intros L. assert (0 < inject_Z z) as P by lra. change 0 with (inject_Z 0) in P. rewrite <- Zlt_Qlt in P. lia.
  - intros L. rewrite Zle_Qle in L. change (inject_Z 1) with 1 in L. lra.
Qed.
Lemma EPS_small_neg z : a_ltb (inject_Z z) (a_opp _EPS) = true <-> inject_Z z <= -(1).
Proof.
  rewrite ltb_lt. change (a_opp _EPS) with (- (1 / 1000000000)). assert (1 / 1000000000 == 1 # 1000000000) as -> by reflexivity.
  change (-(1)) with (inject_Z (-1)). rewrite <- Zle_Qle. split.
  - intros L. assert (inject_Z z < 0) as P by lra. change 0 with (inject_Z 0) in P. rewrite <- Zlt_Qlt in P. lia.
  - intros L. rewrite Zle_Qle in L. change (inject_Z (-1)) with (-(1)) in L. lra.
Qed.
Lemma ltb_ext x x' y y' : x == x' -> y == y' -> a_ltb x y = a_ltb x' y'.
Proof. intros E1 E2. apply eq_true_iff_eq. rewrite !ltb_lt, E1, E2. reflexivity. Qed.

(** The strikes of the legs, in order, and what the engine takes from them. *)
Record layout legs (strikes : list Q) (lo hi : Q) : Prop := {
  ly_increasing : increasing (a_zero :: strikes);
  ly_covers : covers legs (a_zero :: strikes);
  ly_last : last (a_zero :: strikes) = Some hi;
  ly_in : forall y, In y strikes -> 0 <= y;
  ly_below : forall leg, In leg legs -> rl_strike leg <= hi;
  ly_hi : 0 <= hi
}.
Lemma layout_of legs lo rest hi : Forall (fun leg => 0 <= rl_strike leg) legs -> sorted_set (map rl_strike legs) = lo :: rest ->
  last (lo :: rest) = Some hi -> layout legs (lo :: rest) lo hi.
Proof.
  intros Hp E El. rewrite <- E. destruct (sorted_set_in (map rl_strike legs)) as [H1 H2]. rewrite Forall_forall in Hp.
  assert (forall y, In y (sorted_set (map rl_strike legs)) -> 0 <= y) as Hin.
  { intros y Hy. apply H1, in_map_iff in Hy as (leg & <- & Hl). apply Hp. now apply list_elem_of_In. }
  assert (increasing (a_zero :: sorted_set (map rl_strike legs))) as Hi.
  { constructor; [apply sorted_set_increasing|]. apply Forall_forall. intros y Hy. apply list_elem_of_In in Hy. now apply Hin. }
  assert (last (a_zero :: sorted_set (map rl_strike legs)) = Some hi) as Hl by (rewrite E; exact El).
  assert (covers legs (a_zero :: sorted_set (map rl_strike legs))) as Hc.
  { intros leg Hleg. destruct (H2 (rl_strike leg)) as (y & Hy & Ey); [now apply in_map|]. exists y. split; [now right | exact Ey]. }
  split; auto.
  - intros leg Hleg. destruct (Hc leg Hleg) as (y & Hy & ->). apply last_Some in Hl as (l' & El'). rewrite El' in Hi, Hy. now apply (increasing_last l' hi Hi).
  - apply last_Some in Hl as (l' & El'). rewrite El' in Hi. apply (increasing_last l' hi Hi). rewrite <- El'. now left.
Qed.
Lemma slope_is_tail legs strikes lo hi : layout legs strikes lo hi ->
  exists q, a_div (a_sub (_total_pnl legs (far_point lo hi)) (_total_pnl legs hi)) (a_sub (far_point lo hi) hi) = Ok q /\ q == tail_slope legs.
Proof.
  intros L. pose proof (far_beyond lo hi) as Hf. cbn [a_div a_sub exact_arith]. destruct (Qeq_bool _ 0) eqn:E.
  { apply Qeq_bool_iff in E. lra. }
  eexists. split; [reflexivity|]. rewrite (total_tail legs hi (far_point lo hi)); [|apply L | lra]. field. lra.
Qed.
(** What a priced answer is made of. *)
Lemma compute_payoff_inv legs n r : Forall (fun leg => 0 <= rl_strike leg) legs -> compute_payoff legs n = Ok r -> r.(priced) = true ->
  exists strikes lo hi tail, layout legs strikes lo hi /\ sorted_set (map rl_strike legs) = strikes /\
    r.(max_profit_unbounded) = a_ltb _EPS (tail_slope legs) /\ r.(max_loss_unbounded) = a_ltb (tail_slope legs) (a_opp _EPS) /\
    tail = (if negb r.(max_profit_unbounded) && negb r.(max_loss_unbounded) then [far_point lo hi] else []) /\
    (let values := map (_total_pnl legs) (strikes ++ tail) in
     r.(max_profit) = (if r.(max_profit_unbounded) then None else Some (a_greatest (_total_pnl legs a_zero) values)) /\
     r.(max_loss) = (if r.(max_loss_unbounded) then None else Some (a_max (a_opp (a_least (_total_pnl legs a_zero) values)) a_zero))) /\
    _find_breakevens legs strikes (far_point lo hi) = Ok r.(breakevens).
Proof.
  intros Hp. unfold compute_payoff. destruct legs as [|leg0 legs0]; [intros [= <-]; discriminate|]. set (legs := leg0 :: legs0) in *.
  destruct (forallb has_price legs); [|intros [= <-]; discriminate]. cbv zeta.
  destruct (sorted_set (map rl_strike legs)) as [|lo rest] eqn:Es; [discriminate|]. destruct (last (lo :: rest)) as [hi|] eqn:El; [|discriminate].
  pose proof (layout_of legs lo rest hi Hp Es El) as L. unfold priced_payoff. cbv zeta.
  destruct (slope_is_tail legs (lo :: rest) lo hi L) as (q & -> & Eq). cbn [rbind].
  rewrite (ltb_ext _EPS _EPS q (tail_slope legs)), (ltb_ext q (tail_slope legs) (a_opp _EPS) (a_opp _EPS)) by (assumption || reflexivity).
  destruct (_find_breakevens _ _ _) as [bes|] eqn:Eb; [|discriminate]. cbn [rbind].
  destruct (_build_curve _ _ _ _) as [curve|]; [|discriminate]. cbn [rbind]. intros [= <-] _. cbn.
  eexists (lo :: rest), lo, hi, _. split; [exact L|]. split; [reflexivity|]. split; [reflexivity|]. split; [reflexivity|].
  split; [reflexivity|]. split; [split; reflexivity | exact Eb].
Qed.
End figures.

Section claims.
#[local] Open Scope Q_scope.
Implicit Types (legs : list (ResolvedLeg Q)) (r : PayoffResult Q).
(** The points evaluated: zero, the strikes, and the far point under a flat tail. *)
Lemma evaluated_points legs strikes lo hi tail : layout legs strikes lo hi -> (tail = [] \/ tail = [far_point lo hi]) ->
  let values := map (_total_pnl legs) (strikes ++ tail) in
  (forall v, In v (_total_pnl legs a_zero :: values) -> exists s, 0 <= s /\ _total_pnl legs s == v) /\
  at_points legs (a_zero :: strikes) (fun v => In v (_total_pnl legs a_zero :: values)).
Proof.
  intros L Ht. cbv zeta. split.
  - intros v [<-|Hv]; [exists 0; split; [lra | reflexivity]|]. apply in_map_iff in Hv as (s & <- & Hs). exists s. split; [|reflexivity].
    apply in_app_or in Hs as [Hs|Hs]; [now apply L|]. destruct Ht as [->| ->]; [destruct Hs | destruct Hs as [<-|[]]].
    pose proof (far_beyond lo hi). pose proof (ly_hi _ _ _ _ L). lra.
  - intros y [<-|Hy]; [now left | right]. apply in_map, in_or_app. now left.
Qed.

(** C25: the extremes the payoff engine reports are those of the position over
    every underlying price from zero up, in exact arithmetic.  When the maximum
    profit is a figure, no price yields more and some price yields it; it is absent
    exactly when the profit grows beyond every bound, and then the flag is set; and
    likewise for the maximum loss, a magnitude that is never negative. *)
Theorem payoff_extremes_exact legs n r : Forall (fun leg => 0 <= rl_strike leg) legs -> compute_payoff legs n = Ok r -> r.(priced) = true ->
  (match r.(max_profit) with
   | Some m => r.(max_profit_unbounded) = false /\ (forall s, 0 <= s -> _total_pnl legs s <= m) /\ exists s, 0 <= s /\ _total_pnl legs s == m
   | None => r.(max_profit_unbounded) = true /\ forall B, exists s, 0 <= s /\ B < _total_pnl legs s
   end) /\
  match r.(max_loss) with
  | Some m => r.(max_loss_unbounded) = false /\ 0 <= m /\ (forall s, 0 <= s -> - m <= _total_pnl legs s) /\
      (0 < m -> exists s, 0 <= s /\ _total_pnl legs s == - m)
  | None => r.(max_loss_unbounded) = true /\ forall B, exists s, 0 <= s /\ _total_pnl legs s < B
  end.
Proof.
  intros Hp E Hr. destruct (compute_payoff_inv legs n r Hp E Hr) as (strikes & lo & hi & tail & L & _ & Eu & Ed & Et & [Em El] & _).
  assert (tail = [] \/ tail = [far_point lo hi]) as Ht by (rewrite Et; destruct (negb _ && negb _); auto).
  destruct (evaluated_points legs strikes lo hi tail L Ht) as [Hv Hpts]. set (values := map _ _) in *.
  destruct (half_line legs a_zero strikes hi (ly_increasing _ _ _ _ L) (ly_covers _ _ _ _ L) (ly_last _ _ _ _ L)) as [Up Down].
  destruct (tail_slope_integer legs) as [z Ez]. rewrite Em, El, Eu, Ed.
  rewrite (ltb_ext _EPS _EPS _ (inject_Z z)), (ltb_ext (tail_slope legs) (inject_Z z) (a_opp _EPS) (a_opp _EPS)) by (assumption || reflexivity).
  destruct (greatest_spec values (_total_pnl legs a_zero)) as [G1 G2], (least_spec values (_total_pnl legs a_zero)) as [L1 L2].
  split.
  - destruct (a_ltb _EPS (inject_Z z)) eqn:Eup.
    + split; [reflexivity|]. apply EPS_small in Eup. intros B. apply (sloped_tail legs hi); [exact (ly_below _ _ _ _ L) | lra | exact (ly_hi _ _ _ _ L)].
    + split; [reflexivity|]. split; [|now apply Hv].
      assert (tail_slope legs <= 0) as Hs.
      { destruct (Z_le_gt_dec z 0) as [Hz|Hz]; [rewrite Ez; change 0 with (inject_Z 0); now rewrite <- Zle_Qle|].
        enough (a_ltb _EPS (inject_Z z) = true) by congruence. apply EPS_small. change 1 with (inject_Z 1). rewrite <- Zle_Qle. lia. }
      apply Up; [|exact Hs]. intros y Hy. apply G2. now apply Hpts.
  - destruct (a_ltb (inject_Z z) (a_opp _EPS)) eqn:Edn.
    + split; [reflexivity|]. apply EPS_small_neg in Edn. intros B. apply (sloped_tail_down legs hi); [exact (ly_below _ _ _ _ L) | lra | exact (ly_hi _ _ _ _ L)].
    + split; [reflexivity|]. set (least := a_least _ values) in *. change a_zero with 0. change (a_opp least) with (- least).
      destruct (max_spec (- least) 0) as (M1 & M2 & M3). split; [exact M2|]. split.
      * assert (0 <= tail_slope legs) as Hs.
        { destruct (Z_le_gt_dec 0 z) as [Hz|Hz]; [rewrite Ez; change 0 with (inject_Z 0); now rewrite <- Zle_Qle|].
          enough (a_ltb (inject_Z z) (a_opp _EPS) = true) by congruence. apply EPS_small_neg. change (-(1)) with (inject_Z (-1)).
          rewrite <- Zle_Qle. lia. }
        apply Down; [|exact Hs]. intros y Hy. specialize (L2 _ (Hpts y Hy)). lra.
      * intros Hm. destruct (Hv least L1) as (s & Hs & Es). exists s. split; [exact Hs|]. destruct M3 as [M3|M3]; rewrite M3 in *; lra.
Qed.
End claims.

(** *** The break-even points *)
Section breakeven.
#[local] Open Scope Q_scope.
Implicit Types (p q s b : Q) (legs : list (ResolvedLeg Q)) (r : PayoffResult Q).
Definition pieces legs (pts : list Q) : Prop := increasing pts /\ forall a p q rest, pts = a ++ p :: q :: rest -> outside p q legs.
Lemma pieces_tail legs x l : pieces legs (x :: l) -> pieces legs l.
Proof. intros [H1 H2]. split; [now inversion H1|]. intros a p q rest E. apply (H2 (x :: a) p q rest). cbn. now rewrite E. Qed.
Lemma pieces_first legs p q l : pieces legs (p :: q :: l) -> p <= q /\ outside p q legs.
Proof. intros [H1 H2]. split; [inversion H1 as [|? ? _ F]; now inversion F | now apply (H2 [] p q l)]. Qed.
(** The zero of the line through two points of opposite signs. *)
Lemma crossing_zero legs p q c v0 v1 : v0 = _total_pnl legs p -> v1 = _total_pnl legs q -> outside p q legs -> p <= q ->
  a_div (a_mul (a_sub a_zero v0) (a_sub q p)) (a_sub v1 v0) = Ok c -> xorb (a_ltb v0 a_zero) (a_ltb v1 a_zero) = true -> ~ v0 == 0 ->
  p <= p + c /\ p + c <= q /\ _total_pnl legs (p + c) == 0 /\
  forall s, p <= s -> s <= q -> _total_pnl legs s == 0 -> s == p + c.
Proof.
  intros E0 E1 Ho Hpq. cbn [a_div a_mul a_sub exact_arith]. change (a_zero : Q) with 0. destruct (Qeq_bool (v1 - v0) 0) eqn:D; [discriminate|].
  apply Qeq_bool_neq in D. intros [= <-] Hx Hn. change (a_zero : Q) with 0 in *.
  assert ((v0 < 0 /\ 0 <= v1) \/ (0 <= v0 /\ v1 < 0)) as Hs.
  { destruct (a_ltb v0 0) eqn:A; destruct (a_ltb v1 0) eqn:B; try discriminate Hx; [left | right].
    - now apply ltb_lt in A; apply ltb_ge in B.
    - now apply ltb_ge in A; apply ltb_lt in B. }
  set (d := v1 - v0) in *. set (c := (0 - v0) * (q - p) / d).
  assert (c * d == (0 - v0) * (q - p)) as Ec by (unfold c; field; exact D).
  assert (0 <= c) as C0.
  { destruct Hs as [[H1 H2]|[H1 H2]].
    - apply (Qmult_le_r _ _ d); [unfold d; lra|]. rewrite Ec. assert (0 * d == 0) as -> by ring. apply Qmult_le_0_compat; lra.
    - apply (Qmult_le_r _ _ (- d)); [unfold d; lra|]. assert (c * - d == v0 * (q - p)) as -> by (transitivity (- (c * d)); [ring | rewrite Ec; ring]).
      assert (0 * - d == 0) as -> by ring. apply Qmult_le_0_compat; lra. }
  assert (c <= q - p) as C1.
  { destruct Hs as [[H1 H2]|[H1 H2]].
    - apply (Qmult_le_r _ _ d); [unfold d; lra|]. rewrite Ec. assert (0 <= v1 * (q - p)) by (apply Qmult_le_0_compat; lra). unfold d. lra.
    - apply (Qmult_le_r _ _ (- d)); [unfold d; lra|]. assert (c * - d == v0 * (q - p)) as -> by (transitivity (- (c * d)); [ring | rewrite Ec; ring]).
      assert (0 <= - v1 * (q - p)) by (apply Qmult_le_0_compat; lra). unfold d. lra. }
  assert (p < q) as L.
  { destruct (Qlt_le_dec p q) as [L|L]; [exact L|]. exfalso. apply D. assert (p == q) as E by lra. pose proof (total_eq legs p q E).
    unfold d. rewrite E0, E1. lra. }
  split; [lra|]. split; [lra|]. split.
  - pose proof (total_affine legs p q (p + c) Ho ltac:(lra) ltac:(lra)) as A. rewrite <- E0, <- E1 in A.
    assert (v0 * (q - (p + c)) + v1 * (p + c - p) == 0) as Z.
    { assert (v0 * (q - (p + c)) + v1 * (p + c - p) == (v0 * (q - p) + c * d)) as -> by (unfold d; ring). rewrite Ec. ring. }
    rewrite Z in A. apply Qmult_integral in A as [A|A]; [exact A | lra].
  - intros s H1 H2 Hz. pose proof (total_affine legs p q s Ho H1 H2) as A. rewrite <- E0, <- E1, Hz in A.
    assert ((s - (p + c)) * d == 0) as Z.
    { assert ((s - (p + c)) * d == (v0 * (q - s) + v1 * (s - p) - (v0 * (q - p) + c * d))) as -> by (unfold d; ring).
      rewrite Ec. assert (v0 * (q - p) + (0 - v0) * (q - p) == 0) as -> by ring. lra. }
    apply Qmult_integral in Z as [Z|Z]; [lra | contradiction].
Qed.
Definition flat_at legs s : Prop := exists p q, p <= s /\ s <= q /\ p < q /\ forall x, p <= x -> x <= q -> _total_pnl legs x == 0.
Lemma flat_segment legs p q s : outside p q legs -> p < q -> _total_pnl legs p == 0 -> _total_pnl legs q == 0 -> p <= s -> s <= q -> flat_at legs s.
Proof.
  intros Ho L H0 H1 Hp Hq. exists p, q. repeat split; auto. intros x Hx1 Hx2. pose proof (total_affine legs p q x Ho Hx1 Hx2) as A.
  rewrite H0, H1 in A. assert (_total_pnl legs x * (q - p) == 0) as Z by (rewrite A; ring). apply Qmult_integral in Z as [Z|Z]; [exact Z | lra].
Qed.
End breakeven.

Section breakeven_claim.
#[local] Open Scope Q_scope.
Implicit Types (p q s : Q) (legs : list (ResolvedLeg Q)) (r : PayoffResult Q).
Lemma crossings_cons p0 v0 p1 v1 (l : list (Q * Q)) : crossings ((p0, v0) :: (p1, v1) :: l) =
  (let? rest := crossings ((p1, v1) :: l) in
   if a_eqb v0 a_zero then Ok (a_round 4 p0 :: rest)
   else if xorb (a_ltb v0 a_zero) (a_ltb v1 a_zero) && negb (a_eqb v1 v0) then
     let? q := a_div (a_mul (a_sub a_zero v0) (a_sub p1 p0)) (a_sub v1 v0) in Ok (a_round 4 (a_add p0 q) :: rest)
   else Ok rest).
Proof. reflexivity. Qed.
(** No zero strictly before the end of a segment whose values have one sign. *)
Lemma no_zero_between legs p q s : outside p q legs -> p <= s -> s < q -> _total_pnl legs s == 0 -> ~ _total_pnl legs p == 0 ->
  xorb (a_ltb (_total_pnl legs p) a_zero) (a_ltb (_total_pnl legs q) a_zero) && negb (a_eqb (_total_pnl legs q) (_total_pnl legs p)) = false -> False.
Proof.
  intros Ho H1 L Hz Z0 Cr. pose proof (total_affine legs p q s Ho H1 ltac:(lra)) as A. rewrite Hz in A.
  set (v0 := _total_pnl legs p) in *. set (v1 := _total_pnl legs q) in *.
  destruct (Qeq_dec s p) as [Ex|Nx]; [apply Z0; unfold v0; rewrite <- (total_eq legs s p Ex); exact Hz|].
  assert (v0 * (q - s) + v1 * (s - p) == 0) as A' by lra. clear A. apply andb_false_iff in Cr as [Cr|Cr].
  - change (a_zero : Q) with 0 in Cr. destruct (a_ltb v0 0) eqn:S0; destruct (a_ltb v1 0) eqn:S1; try discriminate Cr.
    + apply ltb_lt in S0, S1. assert (0 < (- v0) * (q - s)) by (apply Qmult_lt_0_compat; lra).
      assert (0 <= (- v1) * (s - p)) by (apply Qmult_le_0_compat; lra). lra.
    + apply ltb_ge in S0, S1. assert (0 < v0 * (q - s)) by (apply Qmult_lt_0_compat; lra).
      assert (0 <= v1 * (s - p)) by (apply Qmult_le_0_compat; lra). lra.
  - apply negb_false_iff, eqb_eq in Cr. apply Z0. assert (v0 * (q - p) == 0) as B by (rewrite Cr in A'; lra).
    apply Qmult_integral in B as [B|B]; [exact B | lra].
Qed.
Lemma crossings_spec legs l : forall x, pieces legs (x :: l) ->
  exists found, crossings (map (pnl_at legs) (x :: l)) = Ok found /\
    (forall b, In b found -> x <= b /\ _total_pnl legs b == 0) /\
    forall s h, last (x :: l) = Some h -> x <= s -> s <= h -> _total_pnl legs s == 0 ->
      (exists b, In b found /\ s == b) \/ s == h \/ flat_at legs s.
Proof.
  induction l as [|y l IH]; intros x Hp.
  { exists []. split; [reflexivity|]. split; [intros b []|]. intros s h [= <-] H1 H2 _. right. left. lra. }
  destruct (IH y (pieces_tail _ _ _ Hp)) as (found & E & Hb & Hs). destruct (pieces_first _ _ _ _ Hp) as [Hxy Ho].
  change (map (pnl_at legs) (y :: l)) with ((y, _total_pnl legs y) :: map (pnl_at legs) l) in E.
  change (map (pnl_at legs) (x :: y :: l)) with ((x, _total_pnl legs x) :: (y, _total_pnl legs y) :: map (pnl_at legs) l).
  rewrite crossings_cons, E. cbn [rbind].
  assert (forall b, In b found -> x <= b /\ _total_pnl legs b == 0) as Hb' by (intros b Hi; destruct (Hb b Hi); split; [lra | assumption]).
  assert (forall s h, last (x :: y :: l) = Some h -> y <= s -> s <= h -> _total_pnl legs s == 0 ->
            (exists b, In b found /\ s == b) \/ s == h \/ flat_at legs s) as Hs' by (intros s h Hl; apply Hs; exact Hl).
  destruct (a_eqb (_total_pnl legs x) a_zero) eqn:Z0.
  - apply eqb_eq in Z0. change (a_zero : Q) with 0 in Z0. exists (x :: found). split; [reflexivity|]. split.
    + intros b [<-|Hi]; [split; [change (a_round 4 x) with x; lra | exact Z0] | auto].
    + intros s h Hl H1 H2 Hz. destruct (Qlt_le_dec s y) as [L|L].
      * destruct (Qeq_dec s x) as [Ex|Nx]; [left; exists x; split; [now left | exact Ex]|]. right. right.
        pose proof (total_affine legs x y s Ho H1 ltac:(lra)) as A. rewrite Z0, Hz in A.
        assert (_total_pnl legs y * (s - x) == 0) as A' by lra. apply Qmult_integral in A' as [A'|A']; [|exfalso; apply Nx; lra].
        apply (flat_segment legs x y s Ho); auto; lra.
      * destruct (Hs' s h Hl L H2 Hz) as [(b & Hi & Eb)|K]; [left; exists b; split; [now right | exact Eb] | auto].
  - apply eqb_neq in Z0. change (a_zero : Q) with 0 in Z0.
    destruct (xorb _ _ && negb _) eqn:Cr.
    + apply andb_prop in Cr as [Cr1 Cr2]. apply negb_true_iff, eqb_neq in Cr2.
      destruct (a_div (a_mul (a_sub a_zero (_total_pnl legs x)) (a_sub y x)) (a_sub (_total_pnl legs y) (_total_pnl legs x))) as [c|] eqn:D.
      2: { exfalso. cbn [a_div a_sub exact_arith] in D. destruct (Qeq_bool _ 0) eqn:D0; [|discriminate]. apply Qeq_bool_iff in D0. apply Cr2. lra. }
      destruct (crossing_zero legs x y c _ _ eq_refl eq_refl Ho Hxy D Cr1 Z0) as (C1 & C2 & C3 & C4). cbn [rbind].
      exists ((x + c) :: found). split; [reflexivity|]. split; [intros b [<-|Hi]; auto|].
      intros s h Hl H1 H2 Hz. destruct (Qlt_le_dec s y) as [L|L].
      * left. exists (x + c). split; [now left | apply C4; auto; lra].
      * destruct (Hs' s h Hl L H2 Hz) as [(b & Hi & Eb)|K]; [left; exists b; split; [now right | exact Eb] | auto].
    + exists found. split; [reflexivity|]. split; [exact Hb'|]. intros s h Hl H1 H2 Hz.
      destruct (Qlt_le_dec s y) as [L|L]; [|now apply Hs']. exfalso. now apply (no_zero_between legs x y s).
Qed.

Lemma layout_pieces legs strikes lo hi : layout legs strikes lo hi -> pieces legs (a_zero :: strikes ++ [far_point lo hi]).
Proof.
  intros L. pose proof (far_beyond lo hi) as Hf. set (far := far_point lo hi) in *.
  assert (increasing (a_zero :: strikes ++ [far])) as Hi.
  { change (increasing ((a_zero :: strikes) ++ [far])). apply StronglySorted_snoc; [apply L|]. apply Forall_forall. intros y Hy.
    apply list_elem_of_In in Hy. destruct (proj1 (last_Some _ _) (ly_last _ _ _ _ L)) as (l' & El). pose proof (ly_increasing _ _ _ _ L) as Hi.
    rewrite El in Hi, Hy. pose proof (increasing_last l' hi Hi y Hy). lra. }
  split; [exact Hi|]. intros a p q rest Ep. rewrite Ep in Hi. apply (covers_outside legs a p q rest Hi). rewrite <- Ep.
    intros leg Hleg. destruct (ly_covers _ _ _ _ L leg Hleg) as (y & Hy & Ey). exists y. split; [|exact Ey].
    destruct Hy as [<-|Hy]; [now left | right; apply in_or_app; now left].
Qed.
Lemma add_far_spec (far v : Q) (found : list Q) :
  (forall b, In b (add_far far v found) -> In b found \/ (b = far /\ v == 0)) /\ (forall b, In b found -> In b (add_far far v found)) /\
  (v == 0 -> exists b, In b (add_far far v found) /\ b == far).
Proof.
  unfold add_far. change (a_round 4 far) with far. destruct (a_eqb v a_zero) eqn:Z.
  - apply eqb_eq in Z. change (a_zero : Q) with 0 in Z. cbn [andb]. destruct (last found) as [c|] eqn:El.
    + destruct (a_eqb c far) eqn:Ec; cbn [negb].
      * split; [auto|]. split; [auto|]. intros _. exists c. apply eqb_eq in Ec. split; [|exact Ec]. apply last_Some in El as (l & ->). apply in_or_app. right. now left.
      * split; [intros b Hb; apply in_app_or in Hb as [Hb|[<-|[]]]; auto|]. split; [intros b Hb; apply in_or_app; now left|].
        intros _. exists far. split; [apply in_or_app; right; now left | reflexivity].
    + split; [intros b Hb; apply in_app_or in Hb as [Hb|[<-|[]]]; auto|]. split; [intros b Hb; apply in_or_app; now left|].
      intros _. exists far. split; [apply in_or_app; right; now left | reflexivity].
  - apply eqb_neq in Z. split; [auto|]. split; [auto|]. intros K. contradiction.
Qed.
(** C29: the break-even points the engine reports are, in exact arithmetic,
    prices at which the position neither gains nor loses, in increasing order; and
    up to a price well beyond every strike none is missed: wherever the position
    breaks even, that price is reported, or the position breaks even all along a
    whole stretch of prices around it. *)
Theorem breakevens_exact legs n r : Forall (fun leg => 0 <= rl_strike leg) legs -> compute_payoff legs n = Ok r -> r.(priced) = true ->
  increasing r.(breakevens) /\
  (forall b, In b r.(breakevens) -> 0 <= b /\ _total_pnl legs b == 0) /\
  exists far, (forall leg, In leg legs -> rl_strike leg + 1000 <= far) /\
    forall s, 0 <= s -> s <= far -> _total_pnl legs s == 0 -> (exists b, In b r.(breakevens) /\ s == b) \/ flat_at legs s.
Proof.
  intros Hp E Hr. destruct (compute_payoff_inv legs n r Hp E Hr) as (strikes & lo & hi & tail & L & _ & _ & _ & _ & _ & Eb).
  pose proof (far_beyond lo hi) as Hf. set (far := far_point lo hi) in *.
  pose proof (layout_pieces legs strikes lo hi L) as Hpc. fold far in Hpc.
  destruct (crossings_spec legs (strikes ++ [far]) a_zero Hpc) as (found & Ec & Hb & Hs).
  unfold _find_breakevens in Eb. rewrite Ec in Eb. cbn [rbind] in Eb. injection Eb as <-.
  set (all := add_far far (_total_pnl legs far) found). destruct (add_far_spec far (_total_pnl legs far) found) as (A1 & A2 & A3). fold all in A1, A2, A3.
  assert (forall b, In b all -> 0 <= b /\ _total_pnl legs b == 0) as Hall.
  { intros b Hi'. destruct (A1 b Hi') as [Hf'|[-> Z]]; [now apply Hb|]. split; [|exact Z]. pose proof (ly_hi _ _ _ _ L). lra. }
  assert (forall s, 0 <= s -> s <= far -> _total_pnl legs s == 0 -> (exists b, In b all /\ s == b) \/ flat_at legs s) as Hcomplete.
  { intros s H1 H2 Hz. destruct (Hs s far) as [(b & Hi' & Eb)|[Ef|Fl]]; auto.
    - change (a_zero :: strikes ++ [far]) with ((a_zero :: strikes) ++ [far]). apply last_snoc.
    - left. exists b. auto.
    - left. destruct A3 as (b & Hi' & Eb); [rewrite <- (total_eq legs s far Ef); exact Hz|]. exists b. split; [exact Hi' | lra]. }
  split; [apply sorted_set_increasing|]. destruct (sorted_set_in all) as [S1 S2]. split; [intros b Hi'; apply Hall; now apply S1|].
  exists far. split; [intros leg Hleg; pose proof (ly_below _ _ _ _ L leg Hleg); lra|].
  intros s H1 H2 Hz. destruct (Hcomplete s H1 H2 Hz) as [(b & Hi' & Eb)|Fl]; [left | now right].
  destruct (S2 b Hi') as (b' & Hb' & E'). exists b'. split; [exact Hb'|]. rewrite Eb. exact E'.
Qed.
End breakeven_claim.

(** *** Every position is answered *)
Section answered.
#[local] Open Scope Q_scope.
Implicit Types (legs : list (ResolvedLeg Q)).
Lemma curve_returns legs lo hi n : exists c, _build_curve legs lo hi n = Ok c /\ List.length c = n.
Proof.
  unfold _build_curve. cbn [a_div exact_arith]. destruct (Qeq_bool _ 0) eqn:E.
  { exfalso. apply Qeq_bool_iff in E. change (0 : Q) with (inject_Z 0) in E. apply (proj1 (inject_Z_injective _ _)) in E. lia. }
  cbn [rbind]. eexists. split; [reflexivity|]. now rewrite length_map, length_seq.
Qed.
Lemma add_new_nonempty (l : list Q) d : d <> [] \/ l <> [] -> fold_left add_new l d <> [].
Proof.
  revert d. induction l as [|x l IH]; intros d Hd; cbn; [destruct Hd; congruence|]. apply IH. left. unfold add_new.
  destruct (existsb (a_eqb x) d) eqn:E; [|now destruct d]. intros ->. discriminate.
Qed.

(** The engine answers every position, with figures exactly when there is at
    least one leg and every leg has a price; otherwise there is no premium, no
    extreme, no break-even and no curve, and the reason is given. *)
Theorem payoff_always_answers legs n : Forall (fun leg => 0 <= rl_strike leg) legs ->
  exists r, compute_payoff legs n = Ok r /\
    if r.(priced) then legs <> [] /\ Forall (fun leg => rl_price leg <> None) legs /\ r.(net_premium) <> None /\ List.length r.(payoff_curve) = n
    else (legs = [] \/ Exists (fun leg => rl_price leg = None) legs) /\ r.(net_premium) = None /\ r.(max_profit) = None /\
         r.(max_loss) = None /\ r.(breakevens) = [] /\ r.(payoff_curve) = [] /\ r.(pr_detail) <> None.
Proof.
  intros Hp. unfold compute_payoff. destruct legs as [|leg0 legs0]; [eexists; split; [reflexivity|]; cbn; split; [now left | repeat split; discriminate]|].
  set (legs := leg0 :: legs0) in *. destruct (forallb has_price legs) eqn:Ep.
  2: { eexists. split; [reflexivity|]. cbn. split; [|repeat split; discriminate]. right.
       assert (Exists (fun leg => has_price leg = false) legs) as Hx.
       { clearbody legs. clear -Ep. induction legs as [|l ls IH]; [discriminate|]. cbn in Ep. destruct (has_price l) eqn:E; [right; now apply IH | now left]. }
       eapply Exists_impl; [exact Hx|]. intros l Hl. unfold has_price in Hl. now destruct (rl_price l). }
  cbv zeta. destruct (sorted_set (map rl_strike legs)) as [|lo rest] eqn:Es.
  { exfalso. apply (add_new_nonempty (map rl_strike legs) []); [right; discriminate|]. apply Permutation_nil.
    unfold sorted_set, distinct in Es. pose proof (sort_by_Permutation a_leb (fold_left add_new (map rl_strike legs) [])) as Pm.
    now rewrite Es in Pm. }
  destruct (last (lo :: rest)) as [hi|] eqn:El; [|now apply last_None in El].
  pose proof (layout_of legs lo rest hi Hp Es El) as L. unfold priced_payoff. cbv zeta.
  destruct (slope_is_tail legs (lo :: rest) lo hi L) as (q & -> & _). cbn [rbind].
  assert (exists bes, _find_breakevens legs (lo :: rest) (far_point lo hi) = Ok bes) as (bes & ->).
  { unfold _find_breakevens. destruct (crossings_spec legs ((lo :: rest) ++ [far_point lo hi]) a_zero (layout_pieces legs (lo :: rest) lo hi L)) as (found & -> & _).
    now eexists. }
  destruct (curve_returns legs lo hi n) as (curve & -> & Hn). cbn [rbind]. eexists. split; [reflexivity|]. cbn.
  split; [discriminate|]. split; [|split; [discriminate | exact Hn]]. apply Forall_forall. intros l Hl E. rewrite forallb_forall in Ep.
  apply list_elem_of_In in Hl. specialize (Ep l Hl). unfold has_price in Ep. now rewrite E in Ep.
Qed.
End answered.

(** ** On concrete positions *)
Definition leg_at {F} (side : Side) (ot : OptionType) (strike price : F) : ResolvedLeg F := mkLeg side ot strike (Some price) "ltp" true [].
(** A bull put credit spread, in rationals and in doubles. *)
Definition put_spread {F} `{Arith F} : list (ResolvedLeg F) :=
  [leg_at SELL PUT (a_of_Z 25100) (a_of_Z 120); leg_at BUY PUT (a_of_Z 25000) (a_of_Z 80)].
Definition short_call {F} `{Arith F} : list (ResolvedLeg F) := [leg_at SELL CALL (a_of_Z 25100) (a_of_Z 120)].
Definition figures {F} (r : result exn (PayoffResult F)) :=
  match r with Ok r => Some (r.(net_premium), r.(max_profit), r.(max_loss), r.(max_loss_unbounded), r.(breakevens)) | Err _ => None end.
Definition nonneg_strikes (legs : list (ResolvedLeg Q)) : bool := forallb (fun leg => Qle_bool 0 (rl_strike leg)) legs.
Lemma nonneg_Forall legs : nonneg_strikes legs = true -> Forall (fun leg => Qle 0 (rl_strike leg)) legs.
Proof. intros E. apply Forall_forall. intros l Hl. unfold nonneg_strikes in E. rewrite forallb_forall in E. apply Qle_bool_iff, E. now apply list_elem_of_In. Qed.
Lemma payoff_extremes_exact_witness :
  exists r, compute_payoff (put_spread (F := Q)) 5 = Ok r /\ (exists m, r.(max_profit) = Some m /\ Qeq m 40) /\
    (exists m, r.(max_loss) = Some m /\ Qeq m 60 /\ forall s, Qle 0 s -> Qle (- m) (_total_pnl put_spread s)).
Proof.
  destruct (compute_payoff (put_spread (F := Q)) 5) as [r|] eqn:E; [|vm_compute in E; discriminate]. exists r.
  assert (priced r = true) as Hr by (vm_compute in E; injection E as <-; reflexivity).
  pose proof (payoff_extremes_exact (put_spread (F := Q)) 5 r (nonneg_Forall put_spread eq_refl) E Hr) as [H1 H2].
  split; [reflexivity|].
  assert ((exists m, max_profit r = Some m /\ Qeq m 40) /\ (exists m, max_loss r = Some m /\ Qeq m 60)) as [Em (m & El & Hm)].
  { vm_compute in E. injection E as <-. split; eexists; (split; [reflexivity | reflexivity]). }
  split; [exact Em|]. exists m. split; [exact El|]. split; [exact Hm|]. rewrite El in H2. exact (proj1 (proj2 (proj2 H2))).
Defined.
Lemma breakevens_exact_witness :
  exists r b, compute_payoff (put_spread (F := Q)) 5 = Ok r /\ r.(breakevens) = [b] /\ Qeq b 25060 /\ Qeq (_total_pnl put_spread b) 0.
Proof.
  destruct (compute_payoff (put_spread (F := Q)) 5) as [r|] eqn:E; [|vm_compute in E; discriminate]. exists r.
  assert (priced r = true) as Hr by (vm_compute in E; injection E as <-; reflexivity).
  pose proof (breakevens_exact (put_spread (F := Q)) 5 r (nonneg_Forall put_spread eq_refl) E Hr) as (_ & H & _).
  assert (exists b, breakevens r = [b] /\ Qeq b 25060) as (b & Eb & Hb) by (vm_compute in E; injection E as <-; eexists; split; reflexivity).
  exists b. split; [reflexivity|]. split; [exact Eb|]. split; [exact Hb|]. apply H. rewrite Eb. now left.
Defined.
Lemma payoff_always_answers_witness :
  nonneg_strikes put_spread = true /\ exists r, compute_payoff (put_spread (F := Q)) 5 = Ok r /\
    if r.(priced) then put_spread (F := Q) <> [] /\ Forall (fun leg => rl_price leg <> None) (put_spread (F := Q)) /\ r.(net_premium) <> None /\
      List.length r.(payoff_curve) = 5%nat
    else (put_spread (F := Q) = [] \/ Exists (fun leg => rl_price leg = None) (put_spread (F := Q))) /\ r.(net_premium) = None /\
      r.(max_profit) = None /\ r.(max_loss) = None /\ r.(breakevens) = [] /\ r.(payoff_curve) = [] /\ r.(pr_detail) <> None.
Proof. split; [reflexivity|]. apply (payoff_always_answers (put_spread (F := Q)) 5), nonneg_Forall. reflexivity. Defined.
(** The code's own arithmetic on the same positions; a naked short call has no
    maximum loss; and two legs on one strike, which the candidate generator makes
    when no strike lies on the protective side, report a negative maximum profit. *)
Example float_figures :
  figures (compute_payoff (put_spread (F := float)) 61) =
    Some (Some (f_of_Z 40), Some (f_of_Z 40), Some (f_of_Z 60), false, [f_of_Z 25060]) /\
  figures (compute_payoff (short_call (F := float)) 61) = Some (Some (f_of_Z 120), Some (f_of_Z 120), None, true, [f_of_Z 25220]) /\
  figures (compute_payoff [leg_at SELL PUT (f_of_Z 25000) (f_of_Z 100); leg_at BUY PUT (f_of_Z 25000) (f_of_Z 105)] 61) =
    Some (Some (f_of_Z (-5)), Some (f_of_Z (-5)), Some (f_of_Z 5), false, []) /\
  price_leg SELL None (Some (f_of_Z 5)) (Some (f_of_Z 4)) = (Some (f_of_Z 4), "ltp") /\
  price_leg BUY None None None = (None, "unavailable").
Proof. vm_compute. repeat split. Qed.
