(* ===== verification/Candidates.v ===== *)
(** * Strategy templates and candidates

    [trading/ai_options_research/strategy_templates.py] and [candidates.py]: the
    fixed leg structures, and the candidates resolved from them against the rows
    of a market-structure summary - at-the-money legs, delta targets, wings - with
    their liquidity checks, prices and payoff. *)
From S2P Require Import Prelude PyStr PyFloat PyNum Json PyTime JsonText PyParse Symbols MarketTime MarketCache OptionsIntel OptionsService Payoff.

(** ** Templates *)
Inductive StrategyType : Type :=
| BULL_PUT_CREDIT_SPREAD | BEAR_CALL_CREDIT_SPREAD | IRON_CONDOR | IRON_FLY | SHORT_STRADDLE | HEDGED_SHORT_STRADDLE
| SHORT_STRANGLE | HEDGED_SHORT_STRANGLE | LONG_CALL | LONG_PUT | BULL_CALL_DEBIT_SPREAD | BEAR_PUT_DEBIT_SPREAD
| LONG_STRADDLE | LONG_STRANGLE | CALENDAR_SPREAD | DOUBLE_CALENDAR.
#[global] Instance StrategyType_eq_dec : EqDecision StrategyType.
Proof. solve_decision. Defined.
Definition UNSUPPORTED_STRATEGIES : list StrategyType := [CALENDAR_SPREAD; DOUBLE_CALENDAR].
Definition UNDEFINED_RISK_STRATEGIES : list StrategyType := [SHORT_STRADDLE; SHORT_STRANGLE; LONG_CALL].
Inductive StrikeSelector : Type := SEL_ATM | DELTA_TARGET | WING.
Record LegTemplate : Type := mkTemplate {
  lt_side : Side; lt_option_type : OptionType; selector : StrikeSelector; wing_of : option nat; use_hedge_width : bool
}.
Definition atm_leg (s : Side) (ot : OptionType) : LegTemplate := mkTemplate s ot SEL_ATM None false.
Definition delta_leg (s : Side) (ot : OptionType) : LegTemplate := mkTemplate s ot DELTA_TARGET None false.
Definition wing_leg (s : Side) (ot : OptionType) (i : nat) : LegTemplate := mkTemplate s ot WING (Some i) false.
Definition hedge_leg (s : Side) (ot : OptionType) (i : nat) : LegTemplate := mkTemplate s ot WING (Some i) true.
Definition STRATEGY_TEMPLATES (s : StrategyType) : option (list LegTemplate) :=
  match s with
  | BULL_PUT_CREDIT_SPREAD => Some [delta_leg SELL PUT; wing_leg BUY PUT 0]
  | BEAR_CALL_CREDIT_SPREAD => Some [delta_leg SELL CALL; wing_leg BUY CALL 0]
  | IRON_CONDOR => Some [delta_leg SELL PUT; wing_leg BUY PUT 0; delta_leg SELL CALL; wing_leg BUY CALL 2]
  | IRON_FLY => Some [atm_leg SELL PUT; atm_leg SELL CALL; wing_leg BUY PUT 0; wing_leg BUY CALL 1]
  | SHORT_STRADDLE => Some [atm_leg SELL PUT; atm_leg SELL CALL]
  | HEDGED_SHORT_STRADDLE => Some [atm_leg SELL PUT; atm_leg SELL CALL; hedge_leg BUY PUT 0; hedge_leg BUY CALL 1]
  | SHORT_STRANGLE => Some [delta_leg SELL PUT; delta_leg SELL CALL]
  | HEDGED_SHORT_STRANGLE => Some [delta_leg SELL PUT; delta_leg SELL CALL; hedge_leg BUY PUT 0; hedge_leg BUY CALL 1]
  | LONG_CALL => Some [atm_leg BUY CALL]
  | LONG_PUT => Some [atm_leg BUY PUT]
  | BULL_CALL_DEBIT_SPREAD => Some [atm_leg BUY CALL; wing_leg SELL CALL 0]
  | BEAR_PUT_DEBIT_SPREAD => Some [atm_leg BUY PUT; wing_leg SELL PUT 0]
  | LONG_STRADDLE => Some [atm_leg BUY PUT; atm_leg BUY CALL]
  | LONG_STRANGLE => Some [delta_leg BUY PUT; delta_leg BUY CALL]
  | CALENDAR_SPREAD | DOUBLE_CALENDAR => None
  end.
Definition is_supported (s : StrategyType) : bool := negb (bool_decide (s ∈ UNSUPPORTED_STRATEGIES)).

(** ** Candidates *)
Record CandidateGenerationConfig : Type := mkCandidateConfig {
  min_delta : float; max_delta : float; minimum_volume : Z; minimum_oi : Z; maximum_bid_ask_spread : option float;
  wing_width : float; hedge_wing_width : float; strike_window : Z
}.
Definition default_config : CandidateGenerationConfig :=
  mkCandidateConfig (f_dec 15 2) (f_dec 30 2) 0 0 None (f_of_Z 100) (f_of_Z 300) 10.
Record CandidateLeg : Type := mkCandidateLeg {
  cl_side : Side; cl_option_type : OptionType; cl_strike : float; cl_price : option float; cl_price_source : string;
  cl_delta : option float; cl_iv : option float; cl_volume : option Z; cl_open_interest : option Z; cl_bid : option float;
  cl_ask : option float; cl_liquidity_ok : bool; cl_liquidity_reasons : list string
}.
Record StrategyCandidate : Type := mkCandidate {
  sc_strategy : StrategyType; sc_underlying : string; sc_expiry : Z; sc_supported : bool; sc_legs : list CandidateLeg;
  sc_payoff : option (PayoffResult float); sc_liquidity_ok : bool; generation_notes : list string; unsupported_reason : option string
}.
Definition _rows_by_strike (m : MarketStructureSummary) : list (leg_key * OptionAnalyticsRow) :=
  index_by leg_eqb analytics_key m.(ms_rows) [].
Definition show_int (n : option Z) : string := match n with Some n => str_of_Z n | None => "None" end.
(** A minimum of zero is not enforced. *)
Definition below_minimum (what : string) (n : option Z) (minimum : Z) : list string :=
  if negb (minimum =? 0) && match n with Some n => n <? minimum | None => true end
  then [what +:+ " " +:+ show_int n +:+ " below minimum " +:+ str_of_Z minimum] else [].
Definition _check_liquidity (row : option OptionAnalyticsRow) (config : CandidateGenerationConfig) : bool * list string :=
  match row ≫= ar_quote with
  | None => (false, ["no quote available for this strike"])
  | Some q =>
      let reasons :=
        below_minimum "volume" q.(oq_volume) config.(minimum_volume) ++
        below_minimum "open interest" q.(oq_oi) config.(minimum_oi) ++
        match config.(maximum_bid_ask_spread) with
        | None => []
        | Some most =>
            match q.(oq_bid), q.(oq_ask) with
            | Some bid, Some ask =>
                if f_gtb (f_sub ask bid) most
                then ["bid/ask spread " +:+ f_fmt 2 (f_sub ask bid) +:+ " exceeds maximum " +:+ py_str (JFloat most)] else []
            | _, _ => ["bid/ask unavailable to evaluate spread"]
            end
        end in
      (match reasons with [] => true | _ => false end, reasons)
  end.
(** The rows with a delta, beside it. *)
Definition delta_rows (ot : OptionType) (m : MarketStructureSummary) : list (OptionAnalyticsRow * float) :=
  omap (fun r => if bool_decide (r.(ar_option_type) = ot) then
                   _ ← r.(ar_quote); g ← r.(ar_greeks); d ← g.(delta); Some (r, f_abs d)
                 else None) m.(ms_rows).
Definition least_by {A} (key : A -> float) (x : A) (l : list A) : A := min_lt (fun a b => f_ltb (key a) (key b)) x l.
Definition _resolve_delta_target (ot : OptionType) (m : MarketStructureSummary) (config : CandidateGenerationConfig)
    : option float * option string :=
  let lo := config.(min_delta) in
  let hi := config.(max_delta) in
  let mid := f_div (f_add lo hi) f_two in
  match delta_rows ot m with
  | [] => (None, Some "no delta data available on this chain (IV/Greeks could not be computed for any strike)")
  | x :: r =>
      match List.filter (fun c => f_leb lo (snd c) && f_leb (snd c) hi) (x :: r) with
      | y :: s => (Some (fst (least_by (fun c => f_abs (f_sub (snd c) mid)) y s)).(ar_strike), None)
      | [] =>
          let best := least_by (fun c => f_min (f_abs (f_sub (snd c) lo)) (f_abs (f_sub (snd c) hi))) x r in
          (Some (fst best).(ar_strike),
           Some ("no strike found with |delta| in [" +:+ py_str (JFloat lo) +:+ ", " +:+ py_str (JFloat hi) +:+
                 "]; used nearest available strike " +:+ py_str (JFloat (fst best).(ar_strike)) +:+ " (|delta|=" +:+ f_fmt 3 (snd best) +:+ ")"))
      end
  end.
Definition _nearest_real_strike (target x : float) (strikes : list float) : float :=
  min_lt (fun a b => pair_ltb (atm_key target a) (atm_key target b)) x strikes.
Definition refused (s : StrategyType) (m : MarketStructureSummary) (notes : list string) (reason : string) : StrategyCandidate :=
  mkCandidate s m.(ms_underlying) m.(ms_expiry) false [] None false notes (Some reason).
(** The strikes of the legs, one after the other, with the notes; or why not. *)
Fixpoint resolve_strikes (m : MarketStructureSummary) (config : CandidateGenerationConfig) (atm x : float) (all : list float)
    (templates : list LegTemplate) (resolved : list float) (notes : list string) : result exn (list float * list string + list string * string) :=
  match templates with
  | [] => Ok (inl (resolved, notes))
  | leg :: rest =>
      match leg.(selector) with
      | SEL_ATM => resolve_strikes m config atm x all rest (resolved ++ [atm]) notes
      | DELTA_TARGET =>
          match _resolve_delta_target leg.(lt_option_type) m config with
          | (None, note) => Ok (inr (notes, str_or (default "" note) "could not resolve a delta-target strike"))
          | (Some k, note) => resolve_strikes m config atm x all rest (resolved ++ [k]) (notes ++ option_list note)
          end
      | WING =>
          match leg.(wing_of) with
          | None => Err (TypeError "list indices must be integers or slices, not NoneType")
          | Some i =>
              match resolved !! i with
              | None => Err (OtherError "IndexError" "list index out of range")
              | Some ref =>
                  let width := if leg.(use_hedge_width) then config.(hedge_wing_width) else config.(wing_width) in
                  let target := match leg.(lt_option_type) with PUT => f_sub ref width | CALL => f_add ref width end in
                  resolve_strikes m config atm x all rest (resolved ++ [_nearest_real_strike target x all]) notes
              end
          end
      end
  end.
Definition candidate_leg (d : list (leg_key * OptionAnalyticsRow)) (config : CandidateGenerationConfig) (leg : LegTemplate) (strike : float)
    : CandidateLeg :=
  let row := dget leg_eqb (strike, leg.(lt_option_type)) d in
  let '(ok, reasons) := _check_liquidity row config in
  let q := row ≫= ar_quote in
  let '(price, source) := price_leg leg.(lt_side) (q ≫= oq_bid) (q ≫= oq_ask) (q ≫= oq_ltp) in
  mkCandidateLeg leg.(lt_side) leg.(lt_option_type) strike price source (row ≫= (fun r => r.(ar_greeks) ≫= delta)) (row ≫= ar_iv)
    (q ≫= oq_volume) (q ≫= oq_oi) (q ≫= oq_bid) (q ≫= oq_ask) ok reasons.
Definition payoff_leg (l : CandidateLeg) : ResolvedLeg float :=
  mkLeg l.(cl_side) l.(cl_option_type) l.(cl_strike) l.(cl_price) l.(cl_price_source) l.(cl_liquidity_ok) l.(cl_liquidity_reasons).
Definition LIQUIDITY_NOTE : string := "one or more legs fail the configured liquidity gate (see per-leg liquidity_reasons)".
Definition CURVE_POINTS : nat := 61.
Definition generate_candidate (s : StrategyType) (m : MarketStructureSummary) (config : CandidateGenerationConfig) : result exn StrategyCandidate :=
  if negb (is_supported s) then
    Ok (refused s m [] "this platform does not model multi-expiry structures from a single-expiry snapshot")
  else
    match STRATEGY_TEMPLATES s with
    | None => Ok (refused s m [] "no template defined for this strategy")
    | Some templates =>
        match sorted_set (map ar_strike m.(ms_rows)), m.(ms_atm_strike) with
        | x :: all, Some atm =>
            let? r := resolve_strikes m config atm x all templates [] [] in
            match r with
            | inr (notes, reason) => Ok (refused s m notes reason)
            | inl (strikes, notes) =>
                let legs := map (fun p => candidate_leg (_rows_by_strike m) config (fst p) (snd p)) (List.combine templates strikes) in
                let? payoff := compute_payoff (map payoff_leg legs) CURVE_POINTS in
                let liquidity_ok := forallb cl_liquidity_ok legs in
                Ok (mkCandidate s m.(ms_underlying) m.(ms_expiry) true legs (Some payoff) liquidity_ok
                      (if liquidity_ok then notes else notes ++ [LIQUIDITY_NOTE]) None)
            end
        | _, _ => Ok (refused s m [] "no chain data available to generate candidate strikes")
        end
    end.
Definition generate_candidates (strategies : list StrategyType) (m : MarketStructureSummary) (config : CandidateGenerationConfig) (limit : Z)
    : result exn (list StrategyCandidate) :=
  let? generated := map_r (fun s => generate_candidate s m config) strategies in
  let supported := List.filter sc_supported generated in
  let unsupported := List.filter (fun c => negb c.(sc_supported)) generated in
  Ok (slice_of 0 limit (supported ++ unsupported)).

(** ** Where a candidate comes from *)
Lemma sorted_set_incl {F} `{Arith F} (l : list F) x : In x (sorted_set l) -> In x l.
Proof.
  unfold sorted_set. intros Hx. apply In_sort_by in Hx. revert Hx. unfold distinct.
  enough (forall acc, In x (fold_left add_new l acc) -> In x acc \/ In x l) as K by (intros Hx; destruct (K [] Hx) as [[]|]; assumption).
  induction l as [|y l IH]; intros acc Hx; cbn in *; [now left|]. destruct (IH _ Hx) as [Ha|Hl]; [|auto].
  unfold add_new in Ha. destruct (existsb (a_eqb y) acc); [auto|]. apply in_app_or in Ha as [Ha|[->|[]]]; auto.
Qed.
Lemma sorted_set_covers {F} `{Arith F} (l : list F) x : In x l -> exists y, In y (sorted_set l) /\ (y = x \/ a_eqb x y = true).
Proof.
  intros Hx. enough (exists y, In y (distinct l) /\ (y = x \/ a_eqb x y = true)) as (y & Hy & E) by (exists y; split; [now apply In_sort_by | exact E]).
  unfold distinct. induction l as [|z l IH] using rev_ind; [destruct Hx|]. rewrite fold_left_app. cbn [fold_left].
  set (acc := fold_left add_new l []) in *. assert (forall y, In y acc -> In y (add_new acc z)) as W.
  { intros y Hy. unfold add_new. destruct (existsb _ _); [exact Hy | apply in_app_iff; now left]. }
  apply in_app_or in Hx as [Hx|[->|[]]].
  - destruct (IH Hx) as (y & Hy & E). exists y. auto.
  - unfold add_new. destruct (existsb (a_eqb x) acc) eqn:E; [apply existsb_exists in E as (y & Hy & E); eauto|].
    exists x. split; [apply in_app_iff; right; now left | now left].
Qed.
(** A dictionary built row by row holds the last row of each key. *)
Lemma dget_index_by {K A} (eqb : K -> K -> bool) (key : A -> K) (eqb_sym : forall x y, eqb x y = eqb y x)
    (eqb_trans : forall x y z, eqb x y = true -> eqb y z = true -> eqb x z = true) l k :
  dget eqb k (index_by eqb key l []) = last_such (fun x => eqb k (key x)) l.
Proof.
  induction l as [|y l IH] using rev_ind; [reflexivity|]. unfold index_by in *. rewrite fold_left_app, last_such_snoc. cbn.
  rewrite dget_dset by assumption. now rewrite IH.
Qed.
Lemma f_ltb_eqb_r x y z : f_eqb y z = true -> f_ltb x y = f_ltb x z.
Proof.
  intros (Hx & Hy & E)%f_eqb_key. apply eq_true_iff_eq. split; intros L; destruct (f_ltb_nan_l _ _ L) as [Hz _];
    rewrite f_ltb_key in * by assumption; [now rewrite <- E | now rewrite E].
Qed.
Lemma pair_ltb_irrefl a : pair_ltb a a = false.
Proof. unfold pair_ltb. rewrite !f_ltb_irrefl. now destruct (f_eqb _ _). Qed.
Lemma f_ltb_neqb x y : f_ltb x y = true -> f_eqb x y = false.
Proof. intros L. destruct (f_eqb x y) eqn:E; [|reflexivity]. apply f_eqb_ltb in E. congruence. Qed.
Lemma pair_ltb_trans a b c : pair_ltb a b = true -> pair_ltb b c = true -> pair_ltb a c = true.
Proof.
  unfold pair_ltb. destruct (f_eqb (fst a) (fst b)) eqn:Eab, (f_eqb (fst b) (fst c)) eqn:Ebc.
  - rewrite (f_eqb_trans _ _ _ Eab Ebc). apply f_ltb_trans.
  - intros _ H. rewrite <- (f_ltb_eqb_l _ _ (fst c) Eab) in H. now rewrite f_ltb_neqb.
  - intros H _. rewrite (f_ltb_eqb_r _ _ _ Ebc) in H. now rewrite f_ltb_neqb.
  - intros H1 H2. pose proof (f_ltb_trans _ _ _ H1 H2) as H. now rewrite f_ltb_neqb.
Qed.

(** ** What a candidate has to be

    Stated on its legs, the summary and the configuration alone. *)
Section required.
Context (m : MarketStructureSummary) (config : CandidateGenerationConfig).
(** A listed strike at that distance: none is nearer the target, and of the
    equally near ones it is the lowest. *)
Definition nearest_to (target k : float) : Prop :=
  exists strikes, In k strikes /\ (forall k', In k' strikes -> In k' (map ar_strike m.(ms_rows))) /\
    (forall k', In k' (map ar_strike m.(ms_rows)) -> exists k'', In k'' strikes /\ (k'' = k' \/ f_eqb k' k'' = true)) /\
    forall k', In k' strikes -> let far x := f_abs (f_sub x target) in
      if f_eqb (far k') (far k) then f_ltb k' k = false else f_ltb (far k') (far k) = false.
(** A quoted row of that type with that delta. *)
Definition has_delta (ot : OptionType) (r : OptionAnalyticsRow) (d : float) : Prop :=
  In r m.(ms_rows) /\ r.(ar_option_type) = ot /\ is_Some r.(ar_quote) /\ exists g, r.(ar_greeks) = Some g /\ g.(delta) = Some d.
Definition in_band (d : float) : bool := f_leb config.(min_delta) (f_abs d) && f_leb (f_abs d) config.(max_delta).
(** The strike whose delta is in the band, nearest its middle; or, when no
    delta is in the band, the strike whose delta is nearest the band. *)
Definition delta_strike (ot : OptionType) (k : float) : Prop :=
  exists r d, has_delta ot r d /\ k = r.(ar_strike) /\
    let off_middle x := f_abs (f_sub (f_abs x) (f_div (f_add config.(min_delta) config.(max_delta)) f_two)) in
    let off_band x := f_min (f_abs (f_sub (f_abs x) config.(min_delta))) (f_abs (f_sub (f_abs x) config.(max_delta))) in
    if in_band d then forall r' d', has_delta ot r' d' -> in_band d' = true -> f_ltb (off_middle d') (off_middle d) = false
    else forall r' d', has_delta ot r' d' -> in_band d' = false /\ f_ltb (off_band d') (off_band d) = false.
Definition leg_is (s : Side) (ot : OptionType) (l : CandidateLeg) : Prop := l.(cl_side) = s /\ l.(cl_option_type) = ot.
Definition money (s : Side) (ot : OptionType) (l : CandidateLeg) : Prop := leg_is s ot l /\ m.(ms_atm_strike) = Some l.(cl_strike).
Definition by_delta (s : Side) (ot : OptionType) (l : CandidateLeg) : Prop := leg_is s ot l /\ delta_strike ot l.(cl_strike).
(** Below the other leg for a put, above it for a call. *)
Definition wing (s : Side) (ot : OptionType) (width : float) (other l : CandidateLeg) : Prop :=
  leg_is s ot l /\ nearest_to (match ot with PUT => f_sub other.(cl_strike) width | CALL => f_add other.(cl_strike) width end) l.(cl_strike).
Definition strategy_shape (s : StrategyType) (legs : list CandidateLeg) : Prop :=
  let near := config.(wing_width) in
  let far := config.(hedge_wing_width) in
  match s, legs with
  | BULL_PUT_CREDIT_SPREAD, [a; b] => by_delta SELL PUT a /\ wing BUY PUT near a b
  | BEAR_CALL_CREDIT_SPREAD, [a; b] => by_delta SELL CALL a /\ wing BUY CALL near a b
  | IRON_CONDOR, [a; b; c; d] => by_delta SELL PUT a /\ wing BUY PUT near a b /\ by_delta SELL CALL c /\ wing BUY CALL near c d
  | IRON_FLY, [a; b; c; d] => money SELL PUT a /\ money SELL CALL b /\ wing BUY PUT near a c /\ wing BUY CALL near b d
  | SHORT_STRADDLE, [a; b] => money SELL PUT a /\ money SELL CALL b
  | HEDGED_SHORT_STRADDLE, [a; b; c; d] => money SELL PUT a /\ money SELL CALL b /\ wing BUY PUT far a c /\ wing BUY CALL far b d
  | SHORT_STRANGLE, [a; b] => by_delta SELL PUT a /\ by_delta SELL CALL b
  | HEDGED_SHORT_STRANGLE, [a; b; c; d] => by_delta SELL PUT a /\ by_delta SELL CALL b /\ wing BUY PUT far a c /\ wing BUY CALL far b d
  | LONG_CALL, [a] => money BUY CALL a
  | LONG_PUT, [a] => money BUY PUT a
  | BULL_CALL_DEBIT_SPREAD, [a; b] => money BUY CALL a /\ wing SELL CALL near a b
  | BEAR_PUT_DEBIT_SPREAD, [a; b] => money BUY PUT a /\ wing SELL PUT near a b
  | LONG_STRADDLE, [a; b] => money BUY PUT a /\ money BUY CALL b
  | LONG_STRANGLE, [a; b] => by_delta BUY PUT a /\ by_delta BUY CALL b
  | _, _ => False
  end.
(** The configured gate: a minimum of zero and an absent maximum ask nothing. *)
Definition liquid (q : OptionQuote) : Prop :=
  (config.(minimum_volume) <> 0 -> exists v, q.(oq_volume) = Some v /\ config.(minimum_volume) <= v) /\
  (config.(minimum_oi) <> 0 -> exists o, q.(oq_oi) = Some o /\ config.(minimum_oi) <= o) /\
  (forall most, config.(maximum_bid_ask_spread) = Some most ->
     exists bid ask, q.(oq_bid) = Some bid /\ q.(oq_ask) = Some ask /\ f_ltb most (f_sub ask bid) = false).
(** A leg says what the last row of its strike and type says; sold at the bid,
    bought at the ask, and at the last price when that side is not quoted. *)
Definition leg_grounded (l : CandidateLeg) : Prop :=
  let row := last_such (fun r => f_eqb l.(cl_strike) r.(ar_strike) && bool_decide (l.(cl_option_type) = r.(ar_option_type))) m.(ms_rows) in
  let q := row ≫= ar_quote in
  let touch := match l.(cl_side) with SELL => q ≫= oq_bid | BUY => q ≫= oq_ask end in
  l.(cl_price) = match touch with Some x => Some x | None => q ≫= oq_ltp end /\
  l.(cl_volume) = (q ≫= oq_volume) /\ l.(cl_open_interest) = (q ≫= oq_oi) /\ l.(cl_bid) = (q ≫= oq_bid) /\ l.(cl_ask) = (q ≫= oq_ask) /\
  l.(cl_iv) = (row ≫= ar_iv) /\ l.(cl_delta) = (row ≫= (fun r => r.(ar_greeks) ≫= delta)) /\
  (l.(cl_liquidity_ok) = true <-> exists q', q = Some q' /\ liquid q') /\ (l.(cl_liquidity_ok) = true <-> l.(cl_liquidity_reasons) = []).

(** *** That the generator meets it *)
Lemma has_delta_row ot c : In c (delta_rows ot m) <-> exists d, has_delta ot (fst c) d /\ snd c = f_abs d.
Proof.
  unfold delta_rows, has_delta. rewrite <- list_elem_of_In, list_elem_of_omap. split.
  - intros (r & Hr & E). apply list_elem_of_In in Hr. case_bool_decide; [|discriminate]. destruct (ar_quote r) eqn:Q; [|discriminate].
    cbn in E. destruct (ar_greeks r) as [g|] eqn:G; [|discriminate]. cbn in E. destruct (delta g) eqn:D; [|discriminate]. injection E as <-. cbn. rewrite Q. eauto 8.
  - intros (d & (Hr & E & [q Q] & g & G & D) & Ed). exists (fst c). split; [now apply list_elem_of_In|]. rewrite bool_decide_eq_true_2 by exact E.
    rewrite Q, G. cbn. rewrite D. cbn. rewrite <- Ed. now destruct c.
Qed.
Lemma delta_target_strike ot k note : _resolve_delta_target ot m config = (Some k, note) -> delta_strike ot k.
Proof.
  unfold _resolve_delta_target. cbv zeta. destruct (delta_rows ot m) as [|x r] eqn:Er; [discriminate|].
  assert (forall key y s, forall z, In z (y :: s) -> f_ltb (key z) (key (@least_by (OptionAnalyticsRow * float) key y s)) = false) as Least.
  { intros key y s. unfold least_by. apply (min_lt_least (fun a b => f_ltb (key a) (key b)) (fun a => f_ltb_irrefl (key a))
      (fun a b c => f_ltb_trans (key a) (key b) (key c))). }
  destruct (List.filter _ (x :: r)) as [|y s] eqn:E; intros [= <- _].
  - match goal with |- context [least_by ?f x r] => set (key := f); set (best := least_by f x r) end.
    assert (In best (delta_rows ot m)) as Hb by (rewrite Er; apply min_lt_In). apply has_delta_row in Hb as (d & Hd & Ed).
    exists (fst best), d. split; [exact Hd|]. split; [reflexivity|]. cbv zeta.
    assert (forall r' d', has_delta ot r' d' -> In (r', f_abs d') (x :: r)) as Hin by (intros r' d' H; rewrite <- Er; apply has_delta_row; now exists d').
    assert (forall r' d', has_delta ot r' d' -> in_band d' = false) as Out.
    { intros r' d' H. apply Hin in H. unfold in_band. destruct (_ && _) eqn:B; [|reflexivity].
      assert (In (r', f_abs d') []) as []. rewrite <- E. apply List.filter_In. now split. }
    rewrite (Out _ _ Hd). intros r' d' H. split; [now apply (Out r')|]. apply Hin in H. apply (Least key x r) in H. change (f_ltb (key (r', f_abs d')) (key best) = false) in H.
    clearbody best. unfold key in H. cbn [fst snd] in H. now rewrite Ed in H.
  - match goal with |- context [least_by ?f y s] => set (key := f); set (best := least_by f y s) end.
    assert (In best (y :: s)) as Hb by apply min_lt_In. rewrite <- E, <- Er in Hb. apply List.filter_In in Hb as [Hb Band].
    apply has_delta_row in Hb as (d & Hd & Ed). exists (fst best), d. split; [exact Hd|]. split; [reflexivity|]. cbv zeta.
    rewrite Ed in Band. unfold in_band at 1. rewrite Band. intros r' d' H Hi. assert (In (r', f_abs d') (y :: s)) as Hin.
    { rewrite <- E, <- Er. apply List.filter_In. split; [apply has_delta_row; now exists d' | exact Hi]. }
    apply (Least key y s) in Hin. change (f_ltb (key (r', f_abs d')) (key best) = false) in Hin.
    clearbody best. unfold key in Hin. cbn [fst snd] in Hin. now rewrite Ed in Hin.
Qed.
Lemma delta_target_none ot note : _resolve_delta_target ot m config = (None, note) -> forall r d, ~ has_delta ot r d.
Proof.
  unfold _resolve_delta_target. cbv zeta. destruct (delta_rows ot m) as [|x r] eqn:E; [|destruct (List.filter _ _); discriminate].
  intros _ r d H. assert (In (r, f_abs d) (delta_rows ot m)) as C by (apply has_delta_row; now exists d). now rewrite E in C.
Qed.
Lemma nearest_strike_is target x all : sorted_set (map ar_strike m.(ms_rows)) = x :: all -> nearest_to target (_nearest_real_strike target x all).
Proof.
  intros E. exists (x :: all). rewrite <- E. split; [rewrite E; apply min_lt_In|]. split; [intros k'; apply sorted_set_incl|].
  split; [exact (sorted_set_covers (map ar_strike (ms_rows m)))|]. intros k' Hk. rewrite E in Hk. cbv zeta.
  apply (min_lt_least (fun a b => pair_ltb (atm_key target a) (atm_key target b)) (fun a => pair_ltb_irrefl _) (fun a b c => pair_ltb_trans _ _ _)) in Hk.
  fold (_nearest_real_strike target x all) in Hk. unfold pair_ltb, atm_key, distance in Hk. cbn [fst snd] in Hk. now destruct (f_eqb _ _).
Qed.
Lemma below_minimum_nil what n minimum : below_minimum what n minimum = [] <-> (minimum <> 0 -> exists v, n = Some v /\ minimum <= v).
Proof.
  unfold below_minimum. destruct (Z.eqb_spec minimum 0) as [->|N]; cbn; [tauto|]. destruct n as [v|].
  - destruct (Z.ltb_spec v minimum); (split; [intros E H' | intros H']); try discriminate; eauto. destruct (H' N) as (? & [= <-] & ?). lia.
  - split; [discriminate|]. intros H'. destruct (H' N) as (? & [=] & _).
Qed.
Lemma liquidity_verdict row : let c := _check_liquidity row config in
  (fst c = true <-> exists q, row ≫= ar_quote = Some q /\ liquid q) /\ (fst c = true <-> snd c = []).
Proof.
  cbv zeta. unfold _check_liquidity. destruct (row ≫= ar_quote) as [q|]; cbn.
  2: { split; (split; [discriminate|]); [intros (? & [=] & _) | discriminate]. }
  set (reasons := below_minimum _ _ _ ++ _).
  assert (reasons = [] <-> liquid q) as Hr.
  { unfold reasons, liquid. split.
    - intros [H1 [H2 H3]%app_nil]%app_nil. rewrite below_minimum_nil in H1, H2. split; [exact H1|]. split; [exact H2|]. intros most Hm. rewrite Hm in H3.
      destruct (oq_bid q) as [bid|], (oq_ask q) as [ask|]; try discriminate. exists bid, ask. unfold f_gtb in H3. destruct (f_ltb _ _); [discriminate | auto].
    - intros (H1 & H2 & H3). pose proof (proj2 (below_minimum_nil "volume" _ _) H1) as ->.
      pose proof (proj2 (below_minimum_nil "open interest" _ _) H2) as ->. cbn. destruct (maximum_bid_ask_spread config) as [most|]; [|reflexivity].
      destruct (H3 most eq_refl) as (bid & ask & -> & -> & H). unfold f_gtb. now rewrite H. }
  split.
  - transitivity (reasons = []); [destruct reasons; (split; [easy | easy])|]. rewrite Hr. split; [eauto | intros (? & [= <-] & ?); assumption].
  - destruct reasons; easy.
Qed.
Lemma candidate_leg_grounded t k : leg_grounded (candidate_leg (_rows_by_strike m) config t k) /\
  leg_is t.(lt_side) t.(lt_option_type) (candidate_leg (_rows_by_strike m) config t k) /\ (candidate_leg (_rows_by_strike m) config t k).(cl_strike) = k.
Proof.
  unfold candidate_leg, leg_grounded, leg_is, _rows_by_strike. rewrite (dget_index_by leg_eqb analytics_key leg_eqb_sym leg_eqb_trans).
  set (row := last_such _ _). pose proof (liquidity_verdict row) as L. destruct (_check_liquidity row config) as [ok reasons]. cbn in L.
  destruct (price_leg _ _ _ _) as [price source] eqn:P. cbn.
  change (last_such (fun r => f_eqb k (ar_strike r) && bool_decide (lt_option_type t = ar_option_type r)) (ms_rows m)) with row.
  split; [|auto]. split; [|tauto]. unfold price_leg in P.
  destruct (lt_side t), ((row ≫= ar_quote) ≫= oq_bid), ((row ≫= ar_quote) ≫= oq_ask), ((row ≫= ar_quote) ≫= oq_ltp); now injection P as <- _.
Qed.
End required.
(** Why a strategy is not resolved: a leg's delta target finds no delta. *)
Lemma resolve_strikes_refused m config atm x all templates : forall resolved notes notes' reason,
  resolve_strikes m config atm x all templates resolved notes = Ok (inr (notes', reason)) -> exists ot, forall r d, ~ has_delta m ot r d.
Proof.
  induction templates as [|t ts IH]; intros resolved notes notes' reason; [discriminate|]. cbn [resolve_strikes]. destruct (selector t); [apply IH| |].
  - destruct (_resolve_delta_target _ m config) as [[k|] note] eqn:D; [apply IH|]. intros _. exists (lt_option_type t). eapply delta_target_none, D.
  - destruct (wing_of t) as [i|]; [|discriminate]. destruct (resolved !! i); [apply IH | discriminate].
Qed.
Definition built (m : MarketStructureSummary) (config : CandidateGenerationConfig) (templates : list LegTemplate) (strikes : list float) : list CandidateLeg :=
  map (fun p => candidate_leg (_rows_by_strike m) config (fst p) (snd p)) (List.combine templates strikes).
Lemma built_grounded m config templates strikes : Forall (leg_grounded m config) (built m config templates strikes).
Proof. apply Forall_forall. intros l Hl. apply list_elem_of_In, in_map_iff in Hl as ([t k] & <- & _). apply candidate_leg_grounded. Qed.
Lemma built_shape s m config atm x all templates strikes notes : m.(ms_atm_strike) = Some atm -> sorted_set (map ar_strike m.(ms_rows)) = x :: all ->
  STRATEGY_TEMPLATES s = Some templates -> resolve_strikes m config atm x all templates [] [] = Ok (inl (strikes, notes)) ->
  strategy_shape m config s (built m config templates strikes).
Proof.
  intros Ha Ex Et. pose proof (fun t => nearest_strike_is m t x all Ex) as N.
  assert (forall t k, leg_is (lt_side t) (lt_option_type t) (candidate_leg (_rows_by_strike m) config t k)) as L by (intros; apply candidate_leg_grounded).
  assert (forall t k, cl_strike (candidate_leg (_rows_by_strike m) config t k) = k) as K by (intros; apply candidate_leg_grounded).
  destruct s; (discriminate Et || injection Et as <-); cbn;
    repeat match goal with |- context [_resolve_delta_target ?ot m config] =>
      let k := fresh "k" in let n := fresh "n" in let D := fresh "D" in
      destruct (_resolve_delta_target ot m config) as [[k|] n] eqn:D; [apply delta_target_strike in D|discriminate]; cbn end;
    intros [= <- _]; cbn; unfold money, by_delta, wing; rewrite !K; repeat split; first [apply L | exact Ha | apply N | assumption].
Qed.


(** No template refers to a leg it does not have. *)
Lemma templates_resolve s templates m config atm x all : STRATEGY_TEMPLATES s = Some templates ->
  exists r, resolve_strikes m config atm x all templates [] [] = Ok r.
Proof.
  destruct s; intros [= <-]; cbn; repeat (match goal with |- context [_resolve_delta_target ?a ?b ?c] =>
    destruct (_resolve_delta_target a b c) as [[?|] ?]; cbn end); eexists; reflexivity.
Qed.

(** The shortlist is bounded and puts what can be traded first: at most
    [limit] candidates, each generated for one of the requested strategies, in the
    order requested within each group; and an unsupported one is kept only when
    every supported one is. *)
Theorem shortlist_supported_first strategies m config limit out : 0 <= limit -> generate_candidates strategies m config limit = Ok out ->
  Z.of_nat (List.length out) <= limit /\
  exists generated, Forall2 (fun s c => generate_candidate s m config = Ok c) strategies generated /\
    (forall c, In c out -> In c generated) /\
    (exists u v, out = u ++ v /\ Forall (fun c => c.(sc_supported) = true) u /\ Forall (fun c => c.(sc_supported) = false) v /\
       u `prefix_of` List.filter sc_supported generated /\ v `prefix_of` List.filter (fun c => negb c.(sc_supported)) generated /\
       (v <> [] -> u = List.filter sc_supported generated)).
Proof.
  intros Hl. unfold generate_candidates. destruct (map_r _ strategies) as [gen|] eqn:E; [|discriminate]. cbn [rbind]. cbv zeta.
  set (sup := List.filter sc_supported gen). set (uns := List.filter (fun c => negb (sc_supported c)) gen). intros [= <-].
  unfold slice_of. destruct (Z.ltb_spec limit 0); [lia|]. rewrite drop_0, Z.sub_0_r. set (n := Z.to_nat limit).
  split; [rewrite length_take; lia|]. exists gen. apply map_r_Ok in E. split; [exact E|]. split.
  { intros c Hc. apply list_elem_of_In, elem_of_take in Hc as (i & Hc & _). apply list_elem_of_lookup_2, list_elem_of_In, in_app_or in Hc as [Hc|Hc];
      now apply List.filter_In in Hc. }
  exists (take n sup), (take (n - List.length sup) uns). split; [apply take_app|].
  assert (Forall (fun c => sc_supported c = true) sup) as F1.
  { apply Forall_forall. intros c Hc. apply list_elem_of_In, List.filter_In in Hc. apply Hc. }
  assert (Forall (fun c => sc_supported c = false) uns) as F2.
  { apply Forall_forall. intros c Hc. apply list_elem_of_In, List.filter_In in Hc as [_ Hc]. now apply negb_true_iff in Hc. }
  split; [now apply Forall_take|]. split; [now apply Forall_take|]. split; [apply prefix_take|]. split; [apply prefix_take|].
  intros Hv. apply take_ge. destruct (Nat.le_gt_cases (List.length sup) n) as [L|L]; [exact L|]. exfalso. apply Hv.
  assert (n - List.length sup = 0)%nat as -> by lia. reflexivity.
Qed.

(** ** On the demonstration chain *)
#[local] Existing Instance demo_libm.
Definition demo_summary : MarketStructureSummary := Eval vm_compute in
  match build_market_structure_summary demo_chain None (f_dec 65 3) [] None "LIVE_CACHE" "LIVE_CACHE" 0 [] demo_chain.(oc_generated_at) with
  | Ok m => m
  | Err _ => mkSummary "" None None 0 None None (mkOI 0 0 None None [] [] None None) (mkPCR None None) (mkMaxPain None []) (mkSR [] []) None
               UNAVAILABLE (mkMove None "") (mkIVRank None None "" None) (mkQuality MISSING []) (mkProvenance "" "" None None "" f_zero 0) [] None
  end.
Definition strikes_of (r : result exn StrategyCandidate) : option (bool * list float * option (option float)) :=
  match r with Ok c => Some (c.(sc_supported), map cl_strike c.(sc_legs), max_profit <$> c.(sc_payoff)) | Err _ => None end.
(** The wing of a put spread whose short leg sits on the lowest strike is that
    strike again: the spread has no width, and is a supported candidate. *)
Example degenerate_wing :
  strikes_of (generate_candidate BULL_PUT_CREDIT_SPREAD demo_summary default_config) =
    Some (true, [f_of_Z 25050; f_of_Z 25050], Some (Some f_zero)) /\
  strikes_of (generate_candidate CALENDAR_SPREAD demo_summary default_config) = Some (false, [], None).
Proof. vm_compute. repeat split. Qed.
Lemma shortlist_supported_first_witness :
  exists out, generate_candidates [CALENDAR_SPREAD; LONG_PUT; SHORT_STRADDLE] demo_summary default_config 2 = Ok out /\
    map sc_strategy out = [LONG_PUT; SHORT_STRADDLE] /\ Z.of_nat (List.length out) <= 2.
Proof.
  destruct (generate_candidates [CALENDAR_SPREAD; LONG_PUT; SHORT_STRADDLE] demo_summary default_config 2) as [out|] eqn:E; [|vm_compute in E; discriminate].
  exists out. split; [reflexivity|]. split; [vm_compute in E; injection E as <-; vm_compute; reflexivity|].
  exact (proj1 (shortlist_supported_first _ demo_summary default_config 2 out ltac:(lia) E)).
Defined.
