(* ===== verification/ResearchMarket.v ===== *)
(** * Research: the trading calendar and the instruments

    [trading/ai_research/market/calendar_nse.py], [instruments.py] and
    [symbols.py]: the verified NSE calendar, which refuses dates it has no data
    for; the canonical instruments of the research engine; and the symbols of
    the data providers.  A date is its ordinal. *)
From S2P Require Import Prelude PyStr PyTime PyParse MarketTime.
From Stdlib Require Import Ascii.

(** [except cls as e]: the text of an exception of that class. *)
Definition caught (cls : string) (e : exn) : option string :=
  match e with OtherError c m => if String.eqb c cls then Some m else None | _ => None end.

(** ** [calendar_nse.py] *)
Definition CalendarCoverageError (m : string) : exn := OtherError "CalendarCoverageError" m.
Definition MARKET_OPEN_TIME : Z := hhmm 9 15.
Definition MARKET_CLOSE_TIME : Z := hhmm 15 30.
Definition _COVERED_YEARS : list Z := [2025; 2026].
Definition _d (text : string) : option Z := date_of <$> strptime "%d-%b-%Y" text.
Definition holiday_texts : list (string * string) :=
  [("26-Jan-2025", "Republic Day"); ("26-Feb-2025", "Mahashivratri"); ("14-Mar-2025", "Holi");
   ("31-Mar-2025", "Id-Ul-Fitr (Ramadan Eid)"); ("06-Apr-2025", "Shri Ram Navami");
   ("10-Apr-2025", "Shri Mahavir Jayanti"); ("14-Apr-2025", "Dr. Baba Saheb Ambedkar Jayanti");
   ("18-Apr-2025", "Good Friday"); ("01-May-2025", "Maharashtra Day"); ("07-Jun-2025", "Bakri Id");
   ("06-Jul-2025", "Muharram"); ("15-Aug-2025", "Independence Day / Parsi New Year");
   ("27-Aug-2025", "Shri Ganesh Chaturthi"); ("02-Oct-2025", "Mahatma Gandhi Jayanti/Dussehra");
   ("21-Oct-2025", "Diwali Laxmi Pujan"); ("22-Oct-2025", "Balipratipada");
   ("05-Nov-2025", "Prakash Gurpurb Sri Guru Nanak Dev"); ("25-Dec-2025", "Christmas");
   ("15-Jan-2026", "Municipal Corporation Election - Maharashtra"); ("26-Jan-2026", "Republic Day");
   ("15-Feb-2026", "Mahashivratri"); ("03-Mar-2026", "Holi"); ("21-Mar-2026", "Id-Ul-Fitr (Ramadan Eid)");
   ("26-Mar-2026", "Shri Ram Navami"); ("31-Mar-2026", "Shri Mahavir Jayanti"); ("03-Apr-2026", "Good Friday");
   ("14-Apr-2026", "Dr. Baba Saheb Ambedkar Jayanti"); ("01-May-2026", "Maharashtra Day");
   ("28-May-2026", "Bakri Id"); ("26-Jun-2026", "Muharram"); ("15-Aug-2026", "Independence Day");
   ("14-Sep-2026", "Ganesh Chaturthi"); ("02-Oct-2026", "Mahatma Gandhi Jayanti"); ("20-Oct-2026", "Dussehra");
   ("08-Nov-2026", "Diwali Laxmi Pujan"); ("10-Nov-2026", "Diwali-Balipratipada");
   ("24-Nov-2026", "Prakash Gurpurb Sri Guru Nanak Dev"); ("25-Dec-2026", "Christmas")].
Definition _TRADING_HOLIDAYS : list (Z * string) :=
  Eval vm_compute in omap (fun '(text, name) => (fun d => (d, name)) <$> _d text) holiday_texts.

Definition year_of (d : Z) : Z := fst (fst (ord2ymd d)).
Definition covered (d : Z) : bool := existsb (Z.eqb (year_of d)) _COVERED_YEARS.
Definition _check_coverage (d : Z) : result exn unit :=
  if covered d then Ok tt
  else Err (CalendarCoverageError
    ("no verified NSE trading-calendar data for " +:+ str_of_Z (year_of d) +:+
     " (covered years: (2025, 2026)); refusing to guess whether " +:+ isoformat d +:+ " is a trading day")).
Definition holiday_of (d : Z) : option string := snd <$> List.find (fun h => fst h =? d) _TRADING_HOLIDAYS.
(** The verdict once coverage is known. *)
Definition trades_on (d : Z) : bool :=
  if 5 <=? weekday d then false else bool_decide (holiday_of d = None).
Definition is_trading_day (d : Z) : result exn bool := let? _ := _check_coverage d in Ok (trades_on d).
Definition holiday_name (d : Z) : result exn (option string) := let? _ := _check_coverage d in Ok (holiday_of d).

(** [for _ in range(n): if is_trading_day(cursor): return cursor; cursor += step] *)
Fixpoint seek (n : nat) (step cursor : Z) (exhausted : exn) : result exn Z :=
  match n with
  | O => Err exhausted
  | S k => let? t := is_trading_day cursor in if t then Ok cursor else seek k step (cursor + step) exhausted
  end.
Definition LOOKBACK : nat := 30.
Definition previous_trading_day (d : Z) : result exn Z :=
  seek LOOKBACK (-1) (d - 1) (CalendarCoverageError ("no trading day found within 30 days before " +:+ isoformat d)).
Definition next_trading_day (d : Z) : result exn Z :=
  seek LOOKBACK 1 (d + 1) (CalendarCoverageError ("no trading day found within 30 days after " +:+ isoformat d)).
Definition market_open (d : Z) : result exn Z := let? _ := _check_coverage d in Ok (combine d MARKET_OPEN_TIME IST).
Definition market_close (d : Z) : result exn Z := let? _ := _check_coverage d in Ok (combine d MARKET_CLOSE_TIME IST).

Record TradingDateValidation : Type := mkValidation {
  td_requested : Z; td_is_valid : bool; td_reason : option string; td_previous : option Z; td_next : option Z
}.
Definition non_trading_reason (d : Z) : string :=
  match holiday_of d with
  | Some name => str_or name (if 5 <=? weekday d then "weekend" else "non-trading day")
  | None => if 5 <=? weekday d then "weekend" else "non-trading day"
  end.
Definition validate_research_date (d : Z) : result exn TradingDateValidation :=
  let? _ := _check_coverage d in
  let? t := is_trading_day d in
  if t then Ok (mkValidation d true None None None)
  else
    let reason := isoformat d +:+ " is not an NSE trading day (" +:+ non_trading_reason d +:+ ")" in
    let? p := previous_trading_day d in
    let? n := next_trading_day d in
    Ok (mkValidation d false (Some reason) (Some p) (Some n)).
(** The days from [cursor] on, [n] of them. *)
Fixpoint trading_days (n : nat) (cursor : Z) : result exn (list Z) :=
  match n with
  | O => Ok []
  | S k =>
      let? t := is_trading_day cursor in
      let? r := trading_days k (cursor + 1) in
      Ok (if t then cursor :: r else r)
  end.
Definition trading_days_in_range (start stop : Z) : result exn (list Z) :=
  if stop <? start then Err (ValueError ("end (" +:+ isoformat stop +:+ ") is before start (" +:+ isoformat start +:+ ")"))
  else
    let? _ := _check_coverage start in
    let? _ := _check_coverage stop in
    trading_days (Z.to_nat (stop - start + 1)) start.

(** ** The calendar's lemmas *)
Lemma every_holiday_reads : List.length _TRADING_HOLIDAYS = List.length holiday_texts.
Proof. reflexivity. Qed.
Definition FIRST_COVERED : Z := Eval vm_compute in ymd2ord 2025 1 1.
Definition LAST_COVERED : Z := Eval vm_compute in ymd2ord 2026 12 31.
Lemma covered_within d : 1 <= d -> covered d = true -> FIRST_COVERED <= d <= LAST_COVERED.
Proof.
  intros H C. pose proof (ymd2ord_ord2ymd d H) as E. unfold covered, year_of in C. destruct (ord2ymd d) as [[y m] dd].
  destruct E as (_ & Hm & Hd & <-). cbn [fst existsb _COVERED_YEARS] in C.
  assert (y = 2025 \/ y = 2026) as Hy by (rewrite orb_false_r, orb_true_iff, !Z.eqb_eq in C; tauto).
  assert (m = 1 \/ m = 2 \/ m = 3 \/ m = 4 \/ m = 5 \/ m = 6 \/ m = 7 \/ m = 8 \/ m = 9 \/ m = 10 \/ m = 11 \/ m = 12) as Hm' by lia.
  assert (days_in_month y m <= 31) by (unfold days_in_month; repeat case_match; lia).
  assert (ymd2ord y m dd = ymd2ord y m 0 + dd) as -> by (unfold ymd2ord; lia). clear Hm. unfold FIRST_COVERED, LAST_COVERED.
  destruct Hy as [-> | ->]; repeat (destruct Hm' as [-> | Hm']); subst;
    match goal with |- context [ymd2ord ?y ?m 0] => let v := eval vm_compute in (ymd2ord y m 0) in change (ymd2ord y m 0) with v end; lia.
Qed.
Lemma is_trading_day_Ok d b : is_trading_day d = Ok b -> covered d = true /\ b = trades_on d.
Proof. unfold is_trading_day, _check_coverage. destruct (covered d); [|discriminate]. intros [= <-]. now split. Qed.
Lemma is_trading_day_covered d : covered d = true -> is_trading_day d = Ok (trades_on d).
Proof. unfold is_trading_day, _check_coverage. now intros ->. Qed.
(** What a search finds is the first trading day in its direction. *)
Lemma seek_first n step c x r : seek n step c x = Ok r ->
  exists k, (k < n)%nat /\ r = c + Z.of_nat k * step /\ covered r = true /\ trades_on r = true /\
    forall i, (i < k)%nat -> trades_on (c + Z.of_nat i * step) = false.
Proof.
  revert c. induction n as [|n IH]; intros c; [discriminate|]. cbn [seek]. unfold rbind.
  destruct (is_trading_day c) as [t|] eqn:E; [|discriminate]. apply is_trading_day_Ok in E as [Hc ->].
  destruct (trades_on c) eqn:T.
  - intros [= <-]. exists O. repeat split; [lia | lia | exact Hc | exact T | lia].
  - intros H. apply IH in H as (k & Hk & -> & C & T' & F). exists (S k).
    repeat split; [lia | lia | exact C | exact T'|]. intros [|i] Hi.
    + now replace (c + Z.of_nat 0 * step) with c by lia.
    + replace (c + Z.of_nat (S i) * step) with (c + step + Z.of_nat i * step) by lia. apply F. lia.
Qed.
Lemma previous_trading_day_first d p : previous_trading_day d = Ok p ->
  p < d /\ covered p = true /\ trades_on p = true /\ forall x, p < x < d -> trades_on x = false.
Proof.
  intros H. apply seek_first in H as (k & _ & -> & C & T & F). repeat split; [lia | exact C | exact T|].
  intros x Hx. replace x with (d - 1 + Z.of_nat (Z.to_nat (d - 1 - x)) * -1) by lia. apply F. lia.
Qed.
Lemma next_trading_day_first d n : next_trading_day d = Ok n ->
  d < n /\ covered n = true /\ trades_on n = true /\ forall x, d < x < n -> trades_on x = false.
Proof.
  intros H. apply seek_first in H as (k & _ & -> & C & T & F). repeat split; [lia | exact C | exact T|].
  intros x Hx. replace x with (d + 1 + Z.of_nat (Z.to_nat (x - d - 1)) * 1) by lia. apply F. lia.
Qed.
Lemma trading_days_all n c l : trading_days n c = Ok l ->
  StronglySorted Z.lt l /\ forall x, In x l <-> c <= x < c + Z.of_nat n /\ trades_on x = true.
Proof.
  revert c l. induction n as [|n IH]; intros c l; cbn [trading_days].
  - intros [= <-]. split; [constructor|]. intros x. split; [intros [] | lia].
  - unfold rbind. destruct (is_trading_day c) as [t|] eqn:E; [|discriminate]. apply is_trading_day_Ok in E as [_ ->].
    destruct (trading_days n (c + 1)) as [r|] eqn:R; [|discriminate]. destruct (IH _ _ R) as [S A]. intros [= <-].
    destruct (trades_on c) eqn:T.
    + split; [constructor; [exact S|]; apply Forall_forall; intros x Hx%list_elem_of_In%A; lia|].
      intros x. cbn. rewrite A. split; [intros [<- | H]; [split; [lia | exact T] | split; [lia | apply H]]|].
      intros [H Tx]. destruct (Z.eq_dec c x); [now left | right; split; [lia | exact Tx]].
    + split; [exact S|]. intros x. rewrite A. split; [intros [H Tx]; split; [lia | exact Tx]|].
      intros [H Tx]. split; [|exact Tx]. destruct (Z.eq_dec c x); [congruence | lia].
Qed.
(** Every covered day has a verdict. *)
Definition answers (d : Z) : bool := is_ok (previous_trading_day d) && is_ok (next_trading_day d).
Lemma covered_days_answer : forallb (fun d => trades_on d || answers d) (seqZ FIRST_COVERED (LAST_COVERED - FIRST_COVERED + 1)) = true.
Proof. vm_compute. reflexivity. Qed.
Lemma non_trading_answers d : 1 <= d -> covered d = true -> trades_on d = false ->
  exists p n, previous_trading_day d = Ok p /\ next_trading_day d = Ok n.
Proof.
  intros H C T. apply covered_within in C; [|exact H]. pose proof covered_days_answer as A. rewrite forallb_forall in A.
  specialize (A d ltac:(apply list_elem_of_In, elem_of_seqZ; lia)). rewrite T in A. unfold answers in A.
  destruct (previous_trading_day d) as [p|], (next_trading_day d) as [n|]; try discriminate. eauto.
Qed.

(** A research date is judged on verified data alone: outside the covered
    years the calendar refuses; inside, it always answers, valid exactly for a
    trading day; and for any other day it gives a reason and the two trading
    days that enclose it, with none between them. *)
Theorem research_date_verdict d : 1 <= d ->
  match validate_research_date d with
  | Err e => covered d = false /\ exists m, e = CalendarCoverageError m
  | Ok v =>
      covered d = true /\ v.(td_requested) = d /\ is_trading_day d = Ok v.(td_is_valid) /\
      if v.(td_is_valid) then v.(td_reason) = None /\ v.(td_previous) = None /\ v.(td_next) = None
      else v.(td_reason) <> None /\ exists p n, v.(td_previous) = Some p /\ v.(td_next) = Some n /\ p < d < n /\
             is_trading_day p = Ok true /\ is_trading_day n = Ok true /\ (forall x, p < x < n -> trades_on x = false)
  end.
Proof.
  intros H. unfold validate_research_date, _check_coverage. destruct (covered d) eqn:C; cbn [rbind]; [|now eauto].
  rewrite (is_trading_day_covered d C). cbn [rbind]. destruct (trades_on d) eqn:T; [now repeat split|].
  destruct (non_trading_answers d H C T) as (p & n & P & N). rewrite P, N. cbn [rbind td_requested td_is_valid td_reason td_previous td_next].
  apply previous_trading_day_first in P as (Lp & Cp & Tp & Fp). apply next_trading_day_first in N as (Ln & Cn & Tn & Fn).
  do 3 (split; [auto|]). split; [discriminate|]. exists p, n. rewrite !is_trading_day_covered, Tp, Tn by assumption. repeat split; auto.
  intros x Hx. destruct (Z.lt_trichotomy x d) as [Hd | [-> | Hd]]; [apply Fp | exact T | apply Fn]; lia.
Qed.
(** Good Friday 2026 falls before a weekend. *)
Definition good_friday : Z := Eval vm_compute in ymd2ord 2026 4 3.
Lemma research_date_verdict_witness :
  validate_research_date good_friday =
    Ok (mkValidation good_friday false (Some "2026-04-03 is not an NSE trading day (Good Friday)")
          (Some (good_friday - 1)) (Some (good_friday + 3))) /\
  is_trading_day (good_friday + 3) = Ok true.
Proof.
  pose proof (research_date_verdict good_friday ltac:(vm_compute; discriminate)) as V.
  assert (validate_research_date good_friday =
    Ok (mkValidation good_friday false (Some "2026-04-03 is not an NSE trading day (Good Friday)")
          (Some (good_friday - 1)) (Some (good_friday + 3)))) as E by (vm_compute; reflexivity).
  split; [exact E|]. rewrite E in V. destruct V as (_ & _ & _ & _ & p & n & _ & N & _ & _ & T & _). injection N as <-. exact T.
Defined.
(** The days of a range, when both ends are covered. *)
Lemma trading_days_in_range_spec start stop l : trading_days_in_range start stop = Ok l ->
  start <= stop /\ StronglySorted Z.lt l /\ forall x, In x l <-> start <= x <= stop /\ trades_on x = true.
Proof.
  unfold trading_days_in_range. destruct (stop <? start) eqn:E; [discriminate|]. apply Z.ltb_ge in E. unfold rbind.
  destruct (_check_coverage start), (_check_coverage stop); try discriminate. intros H. apply trading_days_all in H as [S A].
  split; [exact E|]. split; [exact S|]. intros x. rewrite A. rewrite Z2Nat.id by lia. split; intros [Hx T]; (split; [lia | exact T]).
Qed.

Lemma covered_table : forallb covered (seqZ FIRST_COVERED (LAST_COVERED - FIRST_COVERED + 1)) = true.
Proof. vm_compute. reflexivity. Qed.
Lemma covered_all d : FIRST_COVERED <= d <= LAST_COVERED -> covered d = true.
Proof. intros H. pose proof covered_table as T. rewrite forallb_forall in T. apply T, list_elem_of_In, elem_of_seqZ. lia. Qed.
Lemma trading_days_Ok n c : FIRST_COVERED <= c -> c + Z.of_nat n <= LAST_COVERED + 1 -> is_ok (trading_days n c) = true.
Proof.
  revert c. induction n as [|n IH]; intros c H1 H2; cbn [trading_days]; [reflexivity|].
  rewrite is_trading_day_covered by (apply covered_all; lia). cbn [rbind].
  specialize (IH (c + 1) ltac:(lia) ltac:(lia)). now destruct (trading_days n (c + 1)).
Qed.
Lemma trading_days_in_range_covered start stop : 1 <= start -> start <= stop -> covered start = true -> covered stop = true ->
  exists l, trading_days_in_range start stop = Ok l.
Proof.
  intros H1 H C1 C2. pose proof (covered_within start H1 C1). pose proof (covered_within stop ltac:(lia) C2).
  unfold trading_days_in_range, _check_coverage. replace (stop <? start) with false by (symmetry; apply Z.ltb_ge; lia).
  rewrite C1, C2. cbn [rbind]. pose proof (trading_days_Ok (Z.to_nat (stop - start + 1)) start ltac:(lia) ltac:(lia)) as K.
  destruct (trading_days _ start); [eauto | discriminate].
Qed.

(** ** [instruments.py] *)
Inductive Market : Type := US | INDIA.
Inductive Exchange : Type := NSE | GENERIC.
Inductive InstrumentType : Type := EQUITY | INDEX.
#[global] Instance Market_eq_dec : EqDecision Market.
Proof. solve_decision. Defined.
#[global] Instance Exchange_eq_dec : EqDecision Exchange.
Proof. solve_decision. Defined.
#[global] Instance InstrumentType_eq_dec : EqDecision InstrumentType.
Proof. solve_decision. Defined.
Definition market_value (m : Market) : string := match m with US => "US" | INDIA => "INDIA" end.
Definition exchange_value (e : Exchange) : string := match e with NSE => "NSE" | GENERIC => "GENERIC" end.
Record Instrument : Type := mkInstrument {
  canonical_id : string; market : Market; exchange : Exchange; instrument_type : InstrumentType; symbol : string;
  display_name : string; currency : string; timezone : string
}.
#[global] Instance Instrument_eq_dec : EqDecision Instrument.
Proof. solve_decision. Defined.
Definition india_index (id sym display : string) : Instrument := mkInstrument id INDIA NSE INDEX sym display "INR" "Asia/Kolkata".
Definition NIFTY_50 : Instrument := india_index "NIFTY_50" "NIFTY 50" "NIFTY 50".
Definition NIFTY_BANK : Instrument := india_index "NIFTY_BANK" "NIFTY BANK" "NIFTY Bank (Bank Nifty)".
Definition NIFTY_FIN_SERVICE : Instrument := india_index "NIFTY_FIN_SERVICE" "NIFTY FIN SERVICE" "NIFTY Financial Services (FinNifty)".
Definition _INDEX_ALIASES : list (string * Instrument) :=
  [("NIFTY", NIFTY_50); ("NIFTY50", NIFTY_50); ("NIFTY 50", NIFTY_50); ("NIFTY_50", NIFTY_50);
   ("BANKNIFTY", NIFTY_BANK); ("NIFTY BANK", NIFTY_BANK); ("NIFTY_BANK", NIFTY_BANK); ("BANK NIFTY", NIFTY_BANK);
   ("FINNIFTY", NIFTY_FIN_SERVICE); ("NIFTY FIN SERVICE", NIFTY_FIN_SERVICE);
   ("NIFTY FINANCIAL SERVICES", NIFTY_FIN_SERVICE); ("NIFTY_FIN_SERVICE", NIFTY_FIN_SERVICE)].
Definition _EQUITY_SEARCH_SEED : list (string * string) :=
  [("RELIANCE", "Reliance Industries"); ("TCS", "Tata Consultancy Services"); ("HDFCBANK", "HDFC Bank");
   ("ICICIBANK", "ICICI Bank"); ("INFY", "Infosys"); ("HINDUNILVR", "Hindustan Unilever"); ("ITC", "ITC");
   ("SBIN", "State Bank of India"); ("BHARTIARTL", "Bharti Airtel"); ("KOTAKBANK", "Kotak Mahindra Bank");
   ("LT", "Larsen & Toubro"); ("AXISBANK", "Axis Bank"); ("ASIANPAINT", "Asian Paints");
   ("MARUTI", "Maruti Suzuki India"); ("TITAN", "Titan Company")].
Definition find_key {A} (k : string) (d : list (string * A)) : option A := snd <$> List.find (fun kv => String.eqb (fst kv) k) d.
Definition nse_char (c : ascii) : bool := is_upper c || is_digit c || Ascii.eqb c "&" || Ascii.eqb c "-".
Definition InvalidSymbolError (m : string) : exn := OtherError "InvalidSymbolError" m.
Definition InvalidMarketError (m : string) : exn := OtherError "InvalidMarketError" m.

Definition resolve_index (query : string) : option Instrument := find_key (upper (strip query)) _INDEX_ALIASES.
Definition resolve_equity (s : string) : result exn Instrument :=
  let sym := upper (strip s) in
  if negb (truthy sym) || (32 <? str_len sym) || negb (forallb nse_char (chars sym)) then
    Err (InvalidSymbolError (str_repr s +:+ " is not a valid NSE equity symbol"))
  else Ok (mkInstrument ("NSE_EQ_" +:+ sym) INDIA NSE EQUITY sym (default sym (find_key sym _EQUITY_SEARCH_SEED)) "INR" "Asia/Kolkata").
Definition resolve_instrument (m : Market) (s : string) : result exn Instrument :=
  match m with
  | US =>
      let sym := upper (strip s) in
      Ok (mkInstrument ("GENERIC_" +:+ sym) US GENERIC EQUITY sym sym "USD" "America/New_York")
  | INDIA => match resolve_index s with Some i => Ok i | None => resolve_equity s end
  end.
(** [Market(value)]; the market may be given by its value. *)
Definition market_named (value : string) : option Market :=
  if String.eqb value "US" then Some US else if String.eqb value "INDIA" then Some INDIA else None.
Definition resolve_named (value s : string) : result exn Instrument :=
  match market_named value with
  | Some m => resolve_instrument m s
  | None => Err (InvalidMarketError ("unsupported market " +:+ str_repr value))
  end.
(** [a in b] on strings. *)
Definition add_alias (q : string) (results : list Instrument) (e : string * Instrument) : list Instrument :=
  if contains q (fst e) && negb (bool_decide (snd e ∈ results)) then results ++ [snd e] else results.
Definition add_seed (q : string) (results : list Instrument) (e : string * string) : result exn (list Instrument) :=
  if contains q (fst e) || contains q (upper (snd e)) then let? i := resolve_equity (fst e) in Ok (results ++ [i]) else Ok results.
Definition add_direct (q : string) (results : list Instrument) : list Instrument :=
  match resolve_equity q with
  | Ok direct =>
      if forallb (fun r => negb (String.eqb r.(canonical_id) direct.(canonical_id))) results then results ++ [direct] else results
  | Err _ => results
  end.
Definition search_instruments (m : Market) (query : string) (limit : nat) : result exn (list Instrument) :=
  match m with
  | US => Ok []
  | INDIA =>
      let q := upper (strip query) in
      if negb (truthy q) then Ok []
      else
        let? results := fold_r (add_seed q) (fold_left (add_alias q) _INDEX_ALIASES []) _EQUITY_SEARCH_SEED in
        Ok (take limit (add_direct q results))
  end.

(** ** [symbols.py] *)
Definition UnmappedProviderSymbolError (m : string) : exn := OtherError "UnmappedProviderSymbolError" m.
Definition _YAHOO_INDEX_SYMBOLS : list (string * string) :=
  [("NIFTY_50", "^NSEI"); ("NIFTY_BANK", "^NSEBANK"); ("NIFTY_FIN_SERVICE", "NIFTY_FIN_SERVICE.NS")].
Definition unmapped_index (provider : string) (i : Instrument) : exn :=
  UnmappedProviderSymbolError ("no " +:+ provider +:+ " mapping for index " +:+ str_repr i.(canonical_id)).
Definition is_generic (i : Instrument) : bool := bool_decide (i.(market) = US) || bool_decide (i.(exchange) = GENERIC).
(** An exchange that is not generic is the NSE. *)
Definition to_yahoo_symbol (i : Instrument) : result exn string :=
  if is_generic i then Ok i.(symbol)
  else
    match i.(instrument_type) with
    | INDEX => match find_key i.(canonical_id) _YAHOO_INDEX_SYMBOLS with Some s => Ok s | None => Err (unmapped_index "Yahoo" i) end
    | EQUITY => Ok (i.(symbol) +:+ ".NS")
    end.
Definition to_tradingagents_symbol (i : Instrument) : result exn string := to_yahoo_symbol i.
Definition _BREEZE_INDEX_INTERNAL_SYMBOLS : list (string * string) :=
  [("NIFTY_50", "NIFTY"); ("NIFTY_BANK", "BANKNIFTY"); ("NIFTY_FIN_SERVICE", "FINNIFTY")].
Definition to_breeze_symbol (i : Instrument) : result exn string :=
  if is_generic i then Err (UnmappedProviderSymbolError "Breeze has no US/generic market-data coverage in this system")
  else
    match i.(instrument_type) with
    | INDEX => match find_key i.(canonical_id) _BREEZE_INDEX_INTERNAL_SYMBOLS with Some s => Ok s | None => Err (unmapped_index "Breeze" i) end
    | EQUITY => Ok i.(symbol)
    end.

(** ** [router.py]: the handlers behind the VIEW guard *)
Record CalendarOut : Type := mkCalendarOut {
  ca_market : Market; ca_timezone : string; covered_years : list Z; ca_validation : option TradingDateValidation
}.
Definition UNPROCESSABLE : Z := 422.
Definition get_markets : list string * string := (map market_value [US; INDIA], market_value US).
Definition get_instruments (m : Market) (query : string) : result exn (list Instrument) :=
  match search_instruments m query 20 with
  | Err e => Err (match caught "InvalidSymbolError" e with Some msg => HTTPException UNPROCESSABLE msg | None => e end)
  | r => r
  end.
Definition get_calendar (m : Market) (date : option Z) : result exn CalendarOut :=
  match m with
  | US => Err (HTTPException UNPROCESSABLE "no trading calendar for market 'US'")
  | INDIA =>
      let? v := match date with
                | None => Ok None
                | Some d => match validate_research_date d with
                            | Ok v => Ok (Some v)
                            | Err e => Err (match caught "CalendarCoverageError" e with
                                            | Some msg => HTTPException UNPROCESSABLE msg
                                            | None => e
                                            end)
                            end
                end in
      Ok (mkCalendarOut INDIA "Asia/Kolkata" [2025; 2026] v)
  end.

(** ** The instruments' lemmas *)
Lemma nse_char_upper c : nse_char c = true -> ascii_upper c = c /\ is_space c = false.
Proof. destruct c as [[] [] [] [] [] [] [] []]; vm_compute; intros; split; congruence. Qed.
Lemma nse_symbol_fixed s : forallb nse_char (chars s) = true -> upper (strip s) = s.
Proof.
  intros H. assert (strip s = s) as ->.
  { apply strip_chars_none. apply forallb_forall. intros c Hc. rewrite forallb_forall in H. now rewrite (proj2 (nse_char_upper c (H c Hc))). }
  unfold upper. induction s as [|c s IH]; [reflexivity|]. cbn [chars forallb] in H. apply andb_true_iff in H as [Hc Hs].
  cbn [str_map]. rewrite (proj1 (nse_char_upper c Hc)), IH; auto.
Qed.
Definition equity (sym : string) : Instrument :=
  mkInstrument ("NSE_EQ_" +:+ sym) INDIA NSE EQUITY sym (default sym (find_key sym _EQUITY_SEARCH_SEED)) "INR" "Asia/Kolkata".
Definition equity_symbol (sym : string) : Prop :=
  forallb nse_char (chars sym) = true /\ truthy sym = true /\ str_len sym <= 32 /\ find_key sym _INDEX_ALIASES = None.
Lemma find_key_In {A} k (d : list (string * A)) v : find_key k d = Some v -> In (k, v) d.
Proof.
  unfold find_key. destruct (List.find _ d) as [[k' v']|] eqn:E; [|discriminate]. intros [= <-].
  apply List.find_some in E as [Hi Hk]. apply String.eqb_eq in Hk. cbn in Hk. now subst.
Qed.
(** The instruments of the Indian market: three indices, and every equity whose
    symbol is not an index's alias. *)
Lemma resolved_india s i : resolve_instrument INDIA s = Ok i ->
  In i [NIFTY_50; NIFTY_BANK; NIFTY_FIN_SERVICE] \/ exists sym, equity_symbol sym /\ i = equity sym.
Proof.
  cbn [resolve_instrument]. unfold resolve_index, resolve_equity. destruct (find_key (upper (strip s)) _INDEX_ALIASES) as [x|] eqn:E.
  - intros [= <-]. left. apply find_key_In in E. cbn [In _INDEX_ALIASES] in E.
    repeat (destruct E as [E|E]; [injection E as _ <-; cbn; tauto|]). destruct E.
  - destruct (_ || _) eqn:B; [discriminate|]. apply orb_false_iff in B as [B B3]. apply orb_false_iff in B as [B1 B2].
    intros [= <-]. right. exists (upper (strip s)). split; [|reflexivity]. apply negb_false_iff in B1, B3. apply Z.ltb_ge in B2. now repeat split.
Qed.
Lemma resolve_equity_symbol sym : equity_symbol sym -> resolve_instrument INDIA sym = Ok (equity sym).
Proof.
  intros (N & T & L & A). cbn [resolve_instrument]. unfold resolve_index, resolve_equity. rewrite (nse_symbol_fixed sym N), A, N, T. cbn [negb orb].
  replace (32 <? str_len sym) with false by (symmetry; apply Z.ltb_ge; lia). reflexivity.
Qed.
Lemma append_inj_r s t u : s +:+ u = t +:+ u -> s = t.
Proof. intros H. apply (f_equal chars) in H. rewrite !JsonText.chars_app in H. apply app_inv_tail in H. rewrite <- (unchars_chars s), H. apply unchars_chars. Qed.
Lemma append_inj_l s t u : s +:+ t = s +:+ u -> t = u.
Proof. intros H. apply (f_equal chars) in H. rewrite !JsonText.chars_app in H. apply app_inv_head in H. rewrite <- (unchars_chars t), H. apply unchars_chars. Qed.
Lemma equity_not_index_yahoo sym y : equity_symbol sym -> In y (map snd _YAHOO_INDEX_SYMBOLS) -> sym +:+ ".NS" <> y.
Proof.
  intros (N & _) [<- | [<- | [<- | []]]] E.
  - destruct sym as [|c r]; [discriminate|]. injection E as -> _. discriminate N.
  - destruct sym as [|c r]; [discriminate|]. injection E as -> _. discriminate N.
  - apply (append_inj_r sym "NIFTY_FIN_SERVICE" ".NS") in E. subst. discriminate N.
Qed.
Lemma equity_not_index_breeze sym b : equity_symbol sym -> In b (map snd _BREEZE_INDEX_INTERNAL_SYMBOLS) -> sym <> b.
Proof. intros (_ & _ & _ & A) [<- | [<- | [<- | []]]] ->; discriminate A. Qed.

Definition indices : list Instrument := [NIFTY_50; NIFTY_BANK; NIFTY_FIN_SERVICE].
Lemma index_symbols i : In i indices -> resolve_instrument INDIA i.(symbol) = Ok i /\
  exists y b, to_yahoo_symbol i = Ok y /\ to_breeze_symbol i = Ok b /\
    In y (map snd _YAHOO_INDEX_SYMBOLS) /\ In b (map snd _BREEZE_INDEX_INTERNAL_SYMBOLS).
Proof. intros [<- | [<- | [<- | []]]]; (split; [reflexivity|]); eexists _, _; cbn; tauto. Qed.
(** An index and an equity share nothing. *)
Lemma index_not_equity i sym : In i indices -> equity_symbol sym ->
  to_yahoo_symbol i <> to_yahoo_symbol (equity sym) /\ to_breeze_symbol i <> to_breeze_symbol (equity sym) /\
  i.(canonical_id) <> (equity sym).(canonical_id).
Proof.
  intros Hi Hs. destruct (index_symbols i Hi) as (_ & y & b & -> & -> & Hy & Hb). split; [|split].
  - intros [= E]. now apply (equity_not_index_yahoo sym y).
  - intros [= E]. now apply (equity_not_index_breeze sym b).
  - destruct Hi as [<- | [<- | [<- | []]]]; discriminate.
Qed.
(** A provider's symbol names one instrument: every instrument the Indian
    market resolves has a Yahoo and a Breeze symbol, resolves again from its own
    symbol, and two that share either provider's symbol, or the canonical id,
    are the same instrument. *)
Theorem provider_symbol_names_one s s' i i' :
  resolve_instrument INDIA s = Ok i -> resolve_instrument INDIA s' = Ok i' ->
  is_ok (to_yahoo_symbol i) = true /\ is_ok (to_breeze_symbol i) = true /\ resolve_instrument INDIA i.(symbol) = Ok i /\
  (to_yahoo_symbol i = to_yahoo_symbol i' -> i = i') /\ (to_breeze_symbol i = to_breeze_symbol i' -> i = i') /\
  (i.(canonical_id) = i'.(canonical_id) -> i = i').
Proof.
  intros R R'. apply resolved_india in R as [Hi | (a & Ha & ->)], R' as [Hi' | (b & Hb & ->)].
  - destruct Hi as [<- | [<- | [<- | []]]], Hi' as [<- | [<- | [<- | []]]]; vm_compute; repeat split; congruence.
  - destruct (index_symbols i Hi) as (Hr & y & c & E1 & E2 & _). destruct (index_not_equity i b Hi Hb) as (N1 & N2 & N3).
    rewrite E1, E2 in *. repeat (split; [first [reflexivity | exact Hr | tauto]|]). tauto.
  - destruct (index_not_equity i' a Hi' Ha) as (N1 & N2 & N3). split; [reflexivity|]. split; [reflexivity|].
    split; [now apply resolve_equity_symbol|]. repeat split; intros E; symmetry in E; tauto.
  - split; [reflexivity|]. split; [reflexivity|]. split; [now apply resolve_equity_symbol|].
    repeat split; intros E; [injection E as E%append_inj_r | injection E as E | apply (append_inj_l "NSE_EQ_") in E]; now subst.
Qed.
Lemma provider_symbol_names_one_witness :
  to_yahoo_symbol (equity "M&M") = Ok "M&M.NS" /\ (to_yahoo_symbol NIFTY_BANK = to_yahoo_symbol (equity "M&M") -> NIFTY_BANK = equity "M&M").
Proof. split; [reflexivity|]. apply (provider_symbol_names_one " bank nifty" "m&m"); reflexivity. Defined.
(** Two markets share symbols: a U.S. request may name an Indian ticker. *)
Example markets_share_symbols :
  (let? i := resolve_instrument US "reliance.ns" in to_yahoo_symbol i) = (let? i := resolve_instrument INDIA "RELIANCE" in to_yahoo_symbol i).
Proof. reflexivity. Qed.
(** The literal query is offered as an equity even when it is an index's alias,
    which resolves to the index: no such equity exists. *)
Example search_offers_an_index_as_equity :
  (let? l := search_instruments INDIA "nifty" 20 in Ok (map (fun i => (i.(canonical_id), i.(instrument_type))) l)) =
    Ok [("NIFTY_50", INDEX); ("NIFTY_BANK", INDEX); ("NIFTY_FIN_SERVICE", INDEX); ("NSE_EQ_NIFTY", EQUITY)] /\
  resolve_instrument INDIA "NIFTY" = Ok NIFTY_50.
Proof. split; reflexivity. Qed.
