(* ===== verification/ResearchData.v ===== *)
(** * Research: historical market data

    [trading/ai_research/market_data/service.py] and [router.py]: the candles a
    research run may see, read from the tables and backfilled from the provider
    with a bounded number of calls.  The provider is any instance of
    [MarketDataProvider]; each call makes its own object, kept in [ds_providers]
    in the state it was left in.  A candle's instant and prices are never
    [None]. *)
From S2P Require Import Prelude PyStr PyFloat Json ResearchMarket Config PyTime JsonText PyParse Symbols MarketTime MarketDb Candles MarketSession Providers BreezeProvider OptionsService.

(** ** [schemas.py] *)
Inductive DataStatus : Type := AVAILABLE | PARTIAL | MISSING | STALE | PROVIDER_ERROR | RATE_LIMITED | UNSUPPORTED.
#[global] Instance DataStatus_eq_dec : EqDecision DataStatus.
Proof. solve_decision. Defined.
Inductive DataSource : Type := FROM_DB | FROM_PROVIDER | MIXED | NONE.
Definition status_value (s : DataStatus) : string :=
  match s with
  | AVAILABLE => "AVAILABLE" | PARTIAL => "PARTIAL" | MISSING => "MISSING" | STALE => "STALE"
  | PROVIDER_ERROR => "PROVIDER_ERROR" | RATE_LIMITED => "RATE_LIMITED" | UNSUPPORTED => "UNSUPPORTED"
  end.
Definition source_value (s : DataSource) : string :=
  match s with FROM_DB => "TIMESCALEDB" | FROM_PROVIDER => "ICICI_BREEZE" | MIXED => "MIXED" | NONE => "NONE" end.
Record HistoricalDataResult : Type := mkHistorical {
  h_status : DataStatus; h_source : DataSource; h_provider : string; h_canonical_id : string; h_symbol : string;
  h_interval : string; requested_from : Z; requested_to : Z; cutoff_applied : option Z; h_candles : list Candle;
  db_hit_count : Z; provider_call_count : Z; candles_fetched : Z; candles_stored : Z; missing_days : list Z;
  h_detail : option string
}.

(** ** Instruments *)
Definition MarketDataUnavailableError (m : string) : exn := OtherError "MarketDataUnavailableError" m.
Definition _resolve_stage19_instrument (i : ResearchMarket.Instrument) : result exn Instrument :=
  if negb (bool_decide (i.(market) = INDIA)) then
    Err (MarketDataUnavailableError ("no Breeze market-data coverage for market=" +:+ str_repr (market_value i.(market)) +:+
                                     " (this system's Breeze integration is India-only)"))
  else
    match to_breeze_symbol i with
    | Err e => Err (match caught "UnmappedProviderSymbolError" e with Some m => MarketDataUnavailableError m | None => e end)
    | Ok s => match i.(ResearchMarket.instrument_type) with INDEX => index_instrument s | EQUITY => equity_instrument s end
    end.

(** ** Validation and grouping *)
Definition well_formed (c : Candle) : bool :=
  negb (f_ltb c.(c_high) c.(c_low)) && (f_leb c.(c_low) c.(c_open) && f_leb c.(c_open) c.(c_high)) &&
  (f_leb c.(c_low) c.(c_close) && f_leb c.(c_close) c.(c_high)).
Definition take_candle (acc : list Candle * list Z) (c : Candle) : list Candle * list Z :=
  let '(out, seen) := acc in
  if well_formed c && negb (existsb (Z.eqb c.(c_timestamp)) seen) then (out ++ [c], c.(c_timestamp) :: seen) else acc.
Definition by_instant (a b : Candle) : bool := c_timestamp a <=? c_timestamp b.
Definition _validate_candles (raw : list Candle) : list Candle := sort_by by_instant (fst (fold_left take_candle raw ([], []))).
(** Runs of missing days: a gap of up to three days does not end one. *)
Fixpoint grow_runs (start stop : Z) (days : list Z) : list (Z * Z) :=
  match days with
  | [] => [(start, stop)]
  | d :: r => if d - stop <=? 3 then grow_runs start d r else (start, stop) :: grow_runs d d r
  end.
Definition _contiguous_runs (days : list Z) : list (Z * Z) :=
  match sort_by Z.leb days with [] => [] | d :: r => grow_runs d d r end.

(** ** The tables *)
Definition end_of_day (d : Z) : Z := midnight (d + 1) - 1.
Definition research_row (sym ex interval : string) (start stop : Z) (r : MarketCandleRow) : bool :=
  String.eqb r.(mc_symbol) sym && String.eqb r.(mc_exchange) ex && String.eqb r.(mc_interval) interval &&
  (midnight start <=? r.(mc_timestamp)) && (r.(mc_timestamp) <=? end_of_day stop).
Definition before_cutoff {A} (time : A -> Z) (cutoff : option Z) (l : list A) : list A :=
  match cutoff with Some t => List.filter (fun x => time x <=? t) l | None => l end.
Definition by_time (a b : MarketCandleRow) : bool := mc_timestamp a <=? mc_timestamp b.
Definition _query_db (sym ex interval : string) (start stop : Z) (cutoff : option Z) : MM (list MarketCandleRow) :=
  let! rows := query (fun d => sort_by by_time (List.filter (research_row sym ex interval start stop) d.(market_candles))) in
  ret (before_cutoff mc_timestamp cutoff rows).
Definition have_day (rows : list MarketCandleRow) (d : Z) : bool := existsb (fun r => local_date r.(mc_timestamp) IST =? d) rows.
(** Outside the calendar's coverage no day is expected. *)
Definition _missing_trading_days (rows : list MarketCandleRow) (start stop : Z) : result exn (list Z) :=
  match trading_days_in_range start stop with
  | Ok expected => Ok (List.filter (fun d => negb (have_day rows d)) expected)
  | Err e => if bool_decide (is_Some (caught "CalendarCoverageError" e)) then Ok [] else Err e
  end.
Definition candle_of_row (sym interval : string) (r : MarketCandleRow) : Candle :=
  mkCandle sym interval r.(mc_timestamp) r.(mc_open) r.(mc_high) r.(mc_low) r.(mc_close) r.(mc_volume) r.(mc_oi).

(** ** The provider *)
Record DataState (P : Type) : Type := mkData { ds_world : MWorld; ds_providers : list P; ds_sleeps : nat }.
Arguments mkData {P} _ _ _.
Arguments ds_world {P} _.
Arguments ds_providers {P} _.
Arguments ds_sleeps {P} _.
Definition _CONNECTION_RETRY_ATTEMPTS : nat := 2.

Section data.
Context {P : Type} `{MarketDataProvider P} (s : Settings).
Definition DM (A : Type) : Type := M (DataState P) exn A.
Definition on_tables {A} (m : MM A) : DM A := fun st =>
  let '(r, w) := m st.(ds_world) in (r, mkData w st.(ds_providers) st.(ds_sleeps)).
(** A request's own provider object and the seconds slept. *)
Definition on_new_provider {A} (p : P) (m : M (P * nat) exn A) : DM A := fun st =>
  let '(r, (p, n)) := m (p, O) in (r, mkData st.(ds_world) (st.(ds_providers) ++ [p]) (st.(ds_sleeps) + n)%nat).
Definition on_provider {A} (m : M P exn A) : M (P * nat) exn A := fun st => let '(r, p) := m (fst st) in (r, (p, snd st)).
Definition sleep_1s {A} : M (A * nat) exn unit := modify (fun st => (fst st, S (snd st))).
Definition fetch_once (i : Instrument) (interval : string) (start stop : Z) : M P exn (list Candle) :=
  p_connect ;;; try_finally (p_get_historical_candles i interval start stop) p_disconnect.
(** [retries] attempts are left after this one. *)
Fixpoint fetch_attempts (i : Instrument) (interval : string) (start stop : Z) (retries : nat)
    : M (P * nat) exn (list Candle * option DataStatus) := fun st =>
  match on_provider (fetch_once i interval start stop) st with
  | (Ok candles, st) => (Ok (candles, None), st)
  | (Err e, st) =>
      if String.eqb (class_of e) "ProviderAuthError" then (Ok ([], Some PROVIDER_ERROR), st)
      else if String.eqb (class_of e) "ProviderRateLimitError" then (Ok ([], Some RATE_LIMITED), st)
      else if String.eqb (class_of e) "ProviderConnectionError" then
        match retries with
        | S k => (sleep_1s ;;; fetch_attempts i interval start stop k) st
        | O => (Ok ([], Some PROVIDER_ERROR), st)
        end
      else if String.eqb (class_of e) "ProviderDataError" then (Ok ([], Some PROVIDER_ERROR), st)
      else (Err e, st)
  end.
Definition research_credentials : BreezeCredentials :=
  mkCreds s.(s_breeze_api_key) s.(s_breeze_secret_key) s.(s_breeze_session_token) "".
Definition _fetch_range (i : Instrument) (interval : string) (run_start run_stop : Z) : DM (list Candle * option DataStatus) :=
  let! _ := lift (create_market_data_provider s.(s_market_data_provider)) in
  on_new_provider (p_new research_credentials)
    (fetch_attempts i interval (midnight run_start) (end_of_day run_stop) _CONNECTION_RETRY_ATTEMPTS).

(** What the loop over the runs has counted. *)
Record Backfill : Type := mkBackfill { b_calls : Z; b_fetched : Z; b_stored : Z; b_error : option DataStatus }.
Definition failed_call (e : DataStatus) (b : Backfill) : Backfill := mkBackfill (b.(b_calls) + 1) b.(b_fetched) b.(b_stored) (Some e).
Fixpoint fetch_runs (i : Instrument) (sym ex interval : string) (cutoff : option Z) (runs : list (Z * Z)) (b : Backfill)
    : DM Backfill :=
  match runs with
  | [] => ret b
  | (run_start, run_stop) :: rest =>
      if s.(s_market_data_max_provider_calls) <=? b.(b_calls) then ret b
      else
        let! answer := _fetch_range i interval run_start run_stop in
        match snd answer with
        | Some e =>
            let b := failed_call e b in
            if bool_decide (e = RATE_LIMITED) then ret b else fetch_runs i sym ex interval cutoff rest b
        | None =>
            let valid := _validate_candles (fst answer) in
            let kept := before_cutoff c_timestamp cutoff valid in
            let! stored := on_tables (persist_index_candles (map (fun c => (sym, ex, c)) kept)) in
            fetch_runs i sym ex interval cutoff rest
              (mkBackfill (b.(b_calls) + 1) (b.(b_fetched) + Z.of_nat (List.length valid)) (b.(b_stored) + stored) b.(b_error))
        end
  end.

Definition until_cutoff (cutoff : option Z) (days : list Z) : list Z :=
  match cutoff with Some t => List.filter (fun d => d <=? local_date t IST) days | None => days end.
Definition to_fetch (allow_backfill : bool) (missing : list Z) : list (Z * Z) :=
  if allow_backfill && (Z.of_nat (List.length missing) <=? s.(s_market_data_max_backfill_days)) then _contiguous_runs missing else [].
Definition source_of (calls hits : Z) (candles : list Candle) : DataSource :=
  if calls =? 0 then match candles with [] => NONE | _ => FROM_DB end else if hits =? 0 then FROM_PROVIDER else MIXED.
Definition status_of (candles : list Candle) (missing : list Z) (error : option DataStatus) : DataStatus :=
  match candles, missing with
  | [], _ => default MISSING error
  | _, _ :: _ => default PARTIAL error
  | _, [] => AVAILABLE
  end.
Definition missing_detail (missing : list Z) : option string :=
  match missing with
  | [] => None
  | _ => Some (str_of_Z (Z.of_nat (List.length missing)) +:+ " NSE trading day(s) in range have no data: " +:+
               String.concat ", " (map isoformat (take 5 missing)) +:+ (if 5 <? Z.of_nat (List.length missing) then "..." else ""))
  end.
(** [rows, missing_days] *)
Definition read_range (sym ex interval : string) (start stop : Z) (cutoff : option Z) : DM (list MarketCandleRow * list Z) :=
  let! rows := on_tables (_query_db sym ex interval start stop cutoff) in
  let! missing := lift (_missing_trading_days rows start stop) in
  ret (rows, until_cutoff cutoff missing).
Definition _run (ai : ResearchMarket.Instrument) (i : Instrument) (sym ex interval : string) (start stop : Z)
    (cutoff : option Z) (allow_backfill : bool) : DM HistoricalDataResult :=
  let! found := read_range sym ex interval start stop cutoff in
  let hits := Z.of_nat (List.length (fst found)) in
  let runs := to_fetch allow_backfill (snd found) in
  let! b := fetch_runs i sym ex interval cutoff runs (mkBackfill 0 0 0 None) in
  let! final := match runs with [] => ret found | _ => read_range sym ex interval start stop cutoff end in
  let candles := map (candle_of_row sym interval) (fst final) in
  ret (mkHistorical (status_of candles (snd final) b.(b_error)) (source_of b.(b_calls) hits candles) s.(s_market_data_provider)
         ai.(canonical_id) sym interval start stop cutoff candles hits b.(b_calls) b.(b_fetched) b.(b_stored) (snd final)
         (missing_detail (snd final))).
Definition nothing (st : DataStatus) (ai : ResearchMarket.Instrument) (sym interval : string) (start stop : Z) (cutoff : option Z)
    (why : string) : HistoricalDataResult :=
  mkHistorical st NONE s.(s_market_data_provider) ai.(canonical_id) sym interval start stop cutoff [] 0 0 0 0 [] (Some why).
Definition get_historical_candles (ai : ResearchMarket.Instrument) (interval : string) (start stop : Z) (research_date_cutoff : option Z)
    (allow_backfill : bool) : DM HistoricalDataResult :=
  match _resolve_stage19_instrument ai with
  | Err e =>
      match caught "MarketDataUnavailableError" e with
      | Some m => ret (nothing UNSUPPORTED ai ai.(symbol) interval start stop None m)
      | None => raise e
      end
  | Ok i =>
      let sym := i.(internal_symbol) in
      let ex := Symbols.exchange_value i.(i_exchange) in
      match research_date_cutoff with
      | None => _run ai i sym ex interval start stop None allow_backfill
      | Some d =>
          match ResearchMarket.market_close d with
          | Err e =>
              match caught "CalendarCoverageError" e with
              | Some m => ret (nothing MISSING ai sym interval start stop None m)
              | None => raise e
              end
          | Ok t =>
              let stop := Z.min stop (local_date t IST) in
              if stop <? start then
                ret (nothing MISSING ai sym interval start stop (Some t) "requested range is entirely after the research-date cutoff")
              else _run ai i sym ex interval start stop (Some t) allow_backfill
          end
      end
  end.

(** ** The text for a research run *)
Record DataProvenance : Type := mkProvenance {
  dp_status : string; dp_source : string; dp_provider : string; dp_symbol : string; dp_interval : string; dp_from : string;
  dp_to : string; dp_cutoff : option string; dp_candle_count : Z
}.
Definition utc_text (t : Z) : string := stamp_isoformat (mkStamp t (Some 0)).
Definition ist_text (t : Z) : string := stamp_isoformat (mkStamp (t + IST) (Some IST)).
Definition provenance_of (r : HistoricalDataResult) : DataProvenance :=
  mkProvenance (status_value r.(h_status)) (source_value r.(h_source)) r.(h_provider) r.(h_symbol) r.(h_interval)
    (isoformat r.(requested_from)) (isoformat r.(requested_to)) (ist_text <$> r.(cutoff_applied)) (Z.of_nat (List.length r.(h_candles))).
Definition last_n {A} (n : nat) (l : list A) : list A := drop (List.length l - n) l.
Definition price_text (x : float) : string := f_fmt 2 x.
Definition candle_line (c : Candle) : string :=
  "  " +:+ utc_text c.(c_timestamp) +:+ "  " +:+ price_text c.(c_open) +:+ "  " +:+ price_text c.(c_high) +:+ "  " +:+
  price_text c.(c_low) +:+ "  " +:+ price_text c.(c_close) +:+ "  " +:+ str_of_Z (default 0 c.(c_volume)).
Definition context_text (ai : ResearchMarket.Instrument) (r : HistoricalDataResult) : string :=
  let p := provenance_of r in
  let recent := last_n 5 r.(h_candles) in
  String.concat newline
    (["## Market Data (" +:+ p.(dp_provider) +:+ " via " +:+ p.(dp_source) +:+ ")";
      "Instrument: " +:+ ai.(display_name) +:+ " (" +:+ r.(h_symbol) +:+ ") | Interval: " +:+ r.(h_interval);
      "Coverage: " +:+ p.(dp_from) +:+ " to " +:+ p.(dp_to) +:+ " | Cutoff: " +:+ default "None" p.(dp_cutoff);
      "Last " +:+ str_of_Z (Z.of_nat (List.length recent)) +:+ " candles (timestamp, O, H, L, C, V):"] ++ map candle_line recent).
Definition LOOKBACK_DAYS : Z := 10.
Definition build_market_data_context (ai : ResearchMarket.Instrument) (research_date : Z) : DM (option string * DataProvenance) :=
  let! r := get_historical_candles ai "5minute" (research_date - LOOKBACK_DAYS) research_date (Some research_date) true in
  ret (match r.(h_candles) with [] => None | _ => Some (context_text ai r) end, provenance_of r).

(** ** [router.py]: the handlers behind the VIEW guard *)
Record MarketDataOut : Type := mkDataOut {
  mo_status : string; mo_source : string; mo_provider : string; mo_canonical_id : string; mo_symbol : string;
  mo_interval : string; mo_from : Z; mo_to : Z; mo_cutoff_applied : option string; mo_candle_count : Z; mo_db_hit_count : Z;
  mo_provider_call_count : Z; mo_missing_days : list Z; mo_detail : option string; mo_candles : list Candle
}.
(** A candle is answered with its instant as text; the record keeps the instant. *)
Definition _to_out (r : HistoricalDataResult) (include_candles : bool) : MarketDataOut :=
  mkDataOut (status_value r.(h_status)) (source_value r.(h_source)) r.(h_provider) r.(h_canonical_id) r.(h_symbol) r.(h_interval)
    r.(requested_from) r.(requested_to) (ist_text <$> r.(cutoff_applied)) (Z.of_nat (List.length r.(h_candles))) r.(db_hit_count)
    r.(provider_call_count) r.(missing_days) r.(h_detail) (if include_candles then r.(h_candles) else []).
Definition _resolve_or_422 (m : Market) (name : string) : result exn ResearchMarket.Instrument :=
  match resolve_instrument m name with
  | Err e => Err (match caught "InvalidSymbolError" e with Some msg => HTTPException UNPROCESSABLE msg | None => e end)
  | r => r
  end.
Definition BACKTEST_SUPPORTED_INTERVALS : list string := ["1minute"; "5minute"; "30minute"; "1day"].
Definition get_candles (m : Market) (name interval : string) (date_from date_to : Z) (research_date : option Z) : DM MarketDataOut :=
  if negb (str_in interval BACKTEST_SUPPORTED_INTERVALS) then
    raise (HTTPException UNPROCESSABLE ("unsupported interval " +:+ str_repr interval +:+ "; supported: " +:+
                                        repr_list (sorted_set BACKTEST_SUPPORTED_INTERVALS)))
  else
    let! ai := lift (_resolve_or_422 m name) in
    let! r := get_historical_candles ai interval date_from date_to research_date true in
    ret (_to_out r true).
Definition get_status (m : Market) (name interval : string) (date_from date_to : Z) : DM MarketDataOut :=
  let! ai := lift (_resolve_or_422 m name) in
  let! r := get_historical_candles ai interval date_from date_to None false in
  ret (_to_out r false).
End data.

(** ** What a result shows *)
Lemma market_close_Ok d t : ResearchMarket.market_close d = Ok t -> covered d = true /\ t = combine d MARKET_CLOSE_TIME IST.
Proof. unfold ResearchMarket.market_close, _check_coverage. destruct (covered d); [|discriminate]. intros [= <-]. now split. Qed.
Lemma close_day d : local_date (combine d MARKET_CLOSE_TIME IST) IST = d.
Proof.
  unfold local_date, combine. replace (midnight d + MARKET_CLOSE_TIME - IST + IST) with (midnight d + MARKET_CLOSE_TIME) by lia.
  pose proof (midnight_le (midnight d + MARKET_CLOSE_TIME)). unfold midnight, MARKET_CLOSE_TIME, hhmm, minute_us, US_PER_DAY in *. lia.
Qed.
Lemma In_before {A} (time : A -> Z) cutoff l x : In x (before_cutoff time cutoff l) <->
  In x l /\ match cutoff with Some t => time x <= t | None => True end.
Proof. unfold before_cutoff. destruct cutoff; [rewrite List.filter_In, Z.leb_le; tauto | tauto]. Qed.
Definition sorted_by {A} (time : A -> Z) : list A -> Prop := StronglySorted (fun a b => time a <= time b).
(** The rows of a range: of that series, inside it, not past the cutoff. *)
Definition seen_row (sym ex interval : string) (start stop : Z) (cutoff : option Z) (d : MDb) (r : MarketCandleRow) : Prop :=
  In r d.(market_candles) /\ research_row sym ex interval start stop r = true /\
  match cutoff with Some t => mc_timestamp r <= t | None => True end.
Lemma query_db_spec sym ex interval start stop cutoff w rows w' :
  _query_db sym ex interval start stop cutoff w = (Ok rows, w') ->
  (forall r, In r rows <-> seen_row sym ex interval start stop cutoff w'.(m_db) r) /\ sorted_by mc_timestamp rows.
Proof.
  unfold _query_db, query, bind. intros [= <- <-]. split.
  - intros r. rewrite In_before, In_sort_by, List.filter_In. unfold seen_row. tauto.
  - assert (sorted_by mc_timestamp (sort_by by_time (List.filter (research_row sym ex interval start stop) (m_db (settle w)).(market_candles)))) as S.
    { eapply StronglySorted_weaken; [|apply (Sorted_sort_by by_time); unfold by_time; intros *; rewrite !Z.leb_le; lia].
      unfold by_time. intros a b. now rewrite Z.leb_le. }
    unfold before_cutoff. destruct cutoff; [now apply StronglySorted_filter | exact S].
Qed.
Lemma missing_spec rows start stop m : _missing_trading_days rows start stop = Ok m -> 1 <= start -> covered start = true -> covered stop = true ->
  start <= stop /\ forall x, In x m <-> start <= x <= stop /\ trades_on x = true /\ have_day rows x = false.
Proof.
  unfold _missing_trading_days. intros H H1 C1 C2. destruct (Z_lt_le_dec stop start) as [L|L].
  { unfold trading_days_in_range in H. apply Z.ltb_lt in L. rewrite L in H. discriminate. }
  destruct (trading_days_in_range_covered start stop H1 L C1 C2) as (l & E). rewrite E in H. injection H as <-. split; [exact L|].
  apply trading_days_in_range_spec in E as (_ & _ & A). intros x. rewrite List.filter_In, A, negb_true_iff. tauto.
Qed.
Lemma have_day_iff sym interval rows d : have_day rows d = false <->
  forall c, In c (map (candle_of_row sym interval) rows) -> local_date c.(c_timestamp) IST <> d.
Proof.
  unfold have_day. rewrite <- not_true_iff_false, existsb_exists. split.
  - intros H c Hc. apply in_map_iff in Hc as (r & <- & Hr). intros E. apply H. exists r. split; [exact Hr | now apply Z.eqb_eq].
  - intros H (r & Hr & E). apply Z.eqb_eq in E. apply (H (candle_of_row sym interval r)); [now apply in_map | exact E].
Qed.

Section data_theorems.
Context {P : Type} `{MarketDataProvider P} (s : Settings).
Implicit Types st : DataState P.
(** The tables a request leaves. *)
Definition left_db st : MDb := st.(ds_world).(m_db).
Lemma read_range_spec sym ex interval start stop cutoff st rows missing st' :
  read_range sym ex interval start stop cutoff st = (Ok (rows, missing), st') ->
  (forall r, In r rows <-> seen_row sym ex interval start stop cutoff (left_db st') r) /\ sorted_by mc_timestamp rows /\
  exists m, _missing_trading_days rows start stop = Ok m /\ missing = until_cutoff cutoff m.
Proof.
  unfold read_range. intros R. apply bind_inv_Ok in R as (rows' & st1 & R1 & R). apply bind_inv_Ok in R as (m & st2 & R2 & R).
  unfold lift in R2. injection R2 as E <-. injection R as <- <- <-.
  unfold on_tables in R1. destruct (_query_db _ _ _ _ _ _ (ds_world st)) as [q w] eqn:Q. injection R1 as -> <-.
  apply query_db_spec in Q as [Q1 Q2]. eauto.
Qed.
(** The provider's refusals never read as success. *)
Definition refusal (e : option DataStatus) : Prop := e <> Some AVAILABLE.
Lemma fetch_attempts_refusal i interval a b retries : forall p cs e p',
  fetch_attempts (P := P) i interval a b retries p = (Ok (cs, e), p') -> refusal e.
Proof.
  induction retries as [|k IH]; intros p cs e p'; cbn [fetch_attempts]; destruct (on_provider _ p) as [[c|x] q];
    try (intros [= <- <- <-]; discriminate); repeat (destruct (String.eqb _ _); try (intros [= <- <- <-]; discriminate)); try discriminate.
  unfold bind, sleep_1s, modify. apply IH.
Qed.
Lemma fetch_runs_refusal i sym ex interval cutoff runs : forall b st b' st', refusal b.(b_error) ->
  fetch_runs s i sym ex interval cutoff runs b st = (Ok b', st') -> refusal b'.(b_error).
Proof.
  induction runs as [|[x y] rest IH]; intros b st b' st' Hb; cbn [fetch_runs]; [now intros [= <- _]|].
  destruct (_ <=? _); [now intros [= <- _]|]. intros R. apply bind_inv_Ok in R as ([raw e] & st1 & R1 & R). cbn [snd fst] in R.
  assert (refusal e) as He.
  { unfold _fetch_range in R1. apply bind_inv_Ok in R1 as (c & st2 & _ & R1). unfold on_new_provider in R1.
    destruct (fetch_attempts _ _ _ _ _ _) as [q [p n]] eqn:F. injection R1 as -> _. exact (fetch_attempts_refusal _ _ _ _ _ _ _ _ _ F). }
  destruct e as [e|].
  - destruct (bool_decide (e = RATE_LIMITED)); [injection R as <- _; exact He | exact (IH (failed_call e b) _ _ _ He R)].
  - apply bind_inv_Ok in R as (n & st2 & _ & R). refine (IH _ _ _ _ _ R). exact Hb.
Qed.
Lemma map_nil {A B} (f : A -> B) l : map f l <> [] -> l <> [].
Proof. now destruct l. Qed.
Lemma until_cutoff_id d l : (forall x, In x l -> x <= d) -> until_cutoff (Some (combine d MARKET_CLOSE_TIME IST)) l = l.
Proof.
  intros Hd. unfold until_cutoff. rewrite close_day. induction l as [|x l IH]; [reflexivity|]. cbn.
  replace (x <=? d) with true by (symmetry; apply Z.leb_le; apply Hd; now left). f_equal. apply IH. intros y Hy. apply Hd. now right.
Qed.
Lemma status_available candles missing e : candles <> [] -> refusal e -> status_of candles missing e = AVAILABLE <-> missing = [].
Proof.
  intros Hc He. unfold status_of. destruct candles; [easy|]. destruct missing; [easy|]. split; [|discriminate].
  destruct e as [e|]; cbn; [|discriminate]. intros ->. now contradict He.
Qed.
Lemma run_spec ai i sym ex interval start stop cutoff allow st r st' :
  _run s ai i sym ex interval start stop cutoff allow st = (Ok r, st') ->
  exists rows m error, refusal error /\
    (forall row, In row rows <-> seen_row sym ex interval start stop cutoff (left_db st') row) /\ sorted_by mc_timestamp rows /\
    _missing_trading_days rows start stop = Ok m /\ r.(h_candles) = map (candle_of_row sym interval) rows /\
    r.(missing_days) = until_cutoff cutoff m /\ r.(h_status) = status_of r.(h_candles) r.(missing_days) error /\
    r.(h_symbol) = sym /\ r.(h_interval) = interval /\ r.(requested_from) = start /\ r.(requested_to) = stop /\ r.(cutoff_applied) = cutoff.
Proof.
  unfold _run. intros R. apply bind_inv_Ok in R as ([rows0 missing0] & st1 & R1 & R). apply bind_inv_Ok in R as (b & st2 & R2 & R).
  apply bind_inv_Ok in R as ([rows missing] & st3 & R3 & R). injection R as <- <-.
  assert (read_range sym ex interval start stop cutoff st = (Ok (rows, missing), st3) \/
          read_range sym ex interval start stop cutoff st2 = (Ok (rows, missing), st3)) as K.
  { cbn [snd] in *. destruct (to_fetch s allow missing0); [|now right]. left. injection R2 as _ <-. now injection R3 as <- <- <-. }
  assert (exists st0, read_range sym ex interval start stop cutoff st0 = (Ok (rows, missing), st3)) as (st0 & F) by (destruct K; eauto).
  apply read_range_spec in F as (F1 & F2 & m & F3 & ->). exists rows, m, b.(b_error).
  split; [eapply fetch_runs_refusal; [|exact R2]; discriminate|]. cbn. auto 20.
Qed.

(** ** What a request writes *)
(** Rows that were there, or are not past the cutoff. *)
Definition only_past (old : list MarketCandleRow) (cutoff : option Z) (w : MWorld) : Prop :=
  alone w /\ forall r, In r w.(m_db).(market_candles) -> In r old \/ match cutoff with Some t => mc_timestamp r <= t | None => True end.
Definition past_item (cutoff : option Z) (i : index_item) : Prop := match cutoff with Some t => item_ts i <= t | None => True end.
Lemma query_only_past {A} old cutoff (f : MDb -> A) : preserves (only_past old cutoff) (query f).
Proof. intros w [Ha Hp]. unfold query. cbn. rewrite settle_alone by exact Ha. now split. Qed.
Lemma commit_only_past old cutoff items : Forall (past_item cutoff) items -> preserves (only_past old cutoff) (commit_with (add_all add_market items)).
Proof.
  intros F w [Ha Hp]. unfold commit_with, commit_returning. rewrite settle_alone by exact Ha.
  destruct (mdb_ok (add_all add_market items (m_db w))); cbn; [|now split]. split; [exact Ha|]. cbn. clear Ha.
  unfold add_all. revert F Hp. generalize (m_db w) as d. induction items as [|i l IH]; cbn; [auto|]. intros d F Hp r Hr.
  apply Forall_cons in F as [Fi F]. revert r Hr. apply (IH (add_market i d) F). intros r Hr. cbn in Hr. apply in_app_iff in Hr as [Hr | [<- | []]]; [auto|].
  right. destruct i as [[sy e] c]. exact Fi.
Qed.
Lemma commit_one_only_past old cutoff i : past_item cutoff i -> preserves (only_past old cutoff) (commit_with (add_market i)).
Proof. intros F. apply (commit_only_past old cutoff [i]). now constructor. Qed.
Lemma commit_each_only_past old cutoff items : Forall (past_item cutoff) items -> forall n,
  preserves (only_past old cutoff) (commit_each add_market items n).
Proof.
  induction 1 as [|i l Hi _ IH]; intros n; cbn [commit_each]; [apply preserves_ret|]. apply preserves_bind; [|intros ok; apply IH].
  apply preserves_try; [apply preserves_bind; [now apply commit_one_only_past | intros; apply preserves_ret]|].
  intros []; first [apply preserves_ret | apply preserves_raise].
Qed.
Lemma persist_only_past old cutoff items : Forall (past_item cutoff) items -> preserves (only_past old cutoff) (persist_index_candles items).
Proof.
  intros F. unfold persist_index_candles. destruct items as [|x l]; [apply preserves_ret|]. set (items := x :: l) in *.
  apply preserves_bind; [unfold _existing_index_keys; destruct (span _); apply query_only_past|]. intros existing.
  set (kept := List.filter _ items).
  assert (Forall (past_item cutoff) kept) as K.
  { apply List.Forall_forall. intros i Hi. apply List.filter_In in Hi as [Hi _]. rewrite List.Forall_forall in F. auto. }
  unfold _commit_rows. destruct kept as [|y m] eqn:E; [apply preserves_ret|]. rewrite <- E in *.
  apply preserves_try; [apply preserves_bind; [now apply commit_only_past | intros; apply preserves_ret]|].
  intros []; first [now apply commit_each_only_past | apply preserves_raise].
Qed.
Definition tables_past (old : list MarketCandleRow) (cutoff : option Z) st : Prop := only_past old cutoff st.(ds_world).
Lemma on_tables_past {A} old cutoff (m : MM A) : preserves (only_past old cutoff) m -> preserves (tables_past old cutoff) (on_tables (P := P) m).
Proof. intros Hm st Hs. unfold on_tables. specialize (Hm (ds_world st) Hs). now destruct (m (ds_world st)). Qed.
Lemma read_range_past old cutoff sym ex interval start stop : preserves (tables_past old cutoff) (read_range (P := P) sym ex interval start stop cutoff).
Proof.
  unfold read_range. apply preserves_bind; [|intros rows; apply preserves_bind; [apply preserves_lift | intros; apply preserves_ret]].
  apply on_tables_past. unfold _query_db. apply preserves_bind; [apply query_only_past | intros; apply preserves_ret].
Qed.
Lemma fetch_range_past old cutoff i interval a b : preserves (tables_past old cutoff) (_fetch_range s i interval a b).
Proof.
  unfold _fetch_range. apply preserves_bind; [apply preserves_lift|]. intros _ st Hs. unfold on_new_provider.
  destruct (fetch_attempts i interval _ _ _ _) as [r [p n]]. exact Hs.
Qed.
Lemma fetch_runs_past old cutoff i sym ex interval runs : forall b,
  preserves (tables_past old cutoff) (fetch_runs s i sym ex interval cutoff runs b).
Proof.
  induction runs as [|[x y] rest IH]; intros b; cbn [fetch_runs]; [apply preserves_ret|]. destruct (_ <=? _); [apply preserves_ret|].
  apply preserves_bind; [apply fetch_range_past|]. intros [raw [e|]]; cbn [snd fst].
  - destruct (bool_decide _); [apply preserves_ret | apply IH].
  - apply preserves_bind; [|intros; apply IH]. apply on_tables_past, persist_only_past. apply List.Forall_forall. intros it Hi.
    apply in_map_iff in Hi as (c & <- & Hc). apply In_before in Hc as [_ Hc]. exact Hc.
Qed.
Lemma run_past old cutoff ai i sym ex interval start stop allow :
  preserves (tables_past old cutoff) (_run s ai i sym ex interval start stop cutoff allow).
Proof.
  unfold _run. apply preserves_bind; [apply read_range_past|]. intros found. apply preserves_bind; [apply fetch_runs_past|]. intros b.
  apply preserves_bind; [destruct (to_fetch _ _ _); [apply preserves_ret | apply read_range_past] | intros; apply preserves_ret].
Qed.

(** Nothing is seen in an empty range. *)
Lemma seen_row_empty sym ex interval start stop cutoff d row : stop < start -> ~ seen_row sym ex interval start stop cutoff d row.
Proof.
  intros L (_ & R & _). unfold research_row in R. rewrite !andb_true_iff, !Z.leb_le in R.
  unfold end_of_day, midnight, US_PER_DAY in R. lia.
Qed.

(** C16: a research run dated [d] sees nothing later: for a supported instrument
    and a date the calendar covers, the candles it gets are exactly the rows of
    the tables it leaves of that symbol, exchange and interval, inside the range
    and not past the market's close on [d], in order, whatever the provider
    answered or refused; for an unsupported instrument or an uncovered date it
    gets none. When the calendar covers the range, the days reported missing are
    exactly its trading days without such a candle, and when there are candles the answer is
    AVAILABLE exactly when no day is reported missing. A request that runs alone stores
    no row past that close either. *)
Theorem research_sees_nothing_later ai interval start stop d allow st r st' :
  get_historical_candles s ai interval start stop (Some d) allow st = (Ok r, st') ->
  let close := combine d MARKET_CLOSE_TIME IST in
  let last := Z.min stop d in
  (r.(h_candles) <> [] -> covered d = true /\ exists i, _resolve_stage19_instrument ai = Ok i) /\
  (forall i, _resolve_stage19_instrument ai = Ok i -> covered d = true ->
     r.(cutoff_applied) = Some close /\ r.(requested_to) = last /\
     (forall c, In c r.(h_candles) <-> exists row, c = candle_of_row i.(internal_symbol) interval row /\
        seen_row i.(internal_symbol) (Symbols.exchange_value i.(i_exchange)) interval start last (Some close) (left_db st') row) /\
     sorted_by c_timestamp r.(h_candles) /\
     (r.(h_candles) <> [] -> r.(h_status) = AVAILABLE <-> r.(missing_days) = []) /\
     (1 <= start -> covered start = true -> covered last = true ->
        forall x, In x r.(missing_days) <-> start <= x <= last /\ trades_on x = true /\
          forall c, In c r.(h_candles) -> local_date c.(c_timestamp) IST <> x)) /\
  (alone st.(ds_world) -> forall row, In row (left_db st').(market_candles) ->
     In row (left_db st).(market_candles) \/ mc_timestamp row <= close).
Proof.
  cbv zeta. unfold get_historical_candles. intros R.
  destruct (_resolve_stage19_instrument ai) as [i|e] eqn:E; [|destruct (caught _ e); [injection R as <- <-; repeat split; try easy; auto | discriminate]].
  destruct (ResearchMarket.market_close d) as [t|e] eqn:C.
  2: { destruct (caught _ e); [|discriminate]. injection R as <- <-. split; [easy|]. split; [|auto]. intros j _ Cd.
       unfold ResearchMarket.market_close, _check_coverage in C. now rewrite Cd in C. }
  apply market_close_Ok in C as [C ->]. rewrite close_day in R. set (close := combine d MARKET_CLOSE_TIME IST) in *.
  destruct (_ <? start) eqn:L.
  { apply Z.ltb_lt in L. injection R as <- <-. split; [easy|]. split; [|auto]. intros j [= <-] _. cbn [nothing cutoff_applied requested_to h_candles missing_days].
    split; [reflexivity|]. split; [reflexivity|]. split; [|split; [constructor|]; split; [easy|]; intros _ _ _ x; split; [easy | lia]].
    intros c. split; [easy|]. intros (row & _ & Hr). now apply (seen_row_empty _ _ _ _ _ _ _ _ L) in Hr. }
  split; [split; [exact C | eauto]|]. split.
  - intros j [= <-] _. apply run_spec in R as (rows & m & error & He & Hrows & Hs & Hm & Hcs & Hmiss & Hst & Hsym & _ & _ & Hto & Hcut).
    split; [exact Hcut|]. split; [exact Hto|]. split; [|split; [|split]].
    + intros c. rewrite Hcs, in_map_iff. split; [intros (row & <- & Hr) | intros (row & -> & Hr)]; exists row; (split; [reflexivity | now apply Hrows]).
    + rewrite Hcs. clear -Hs. induction Hs as [|x l _ IH Hx]; cbn; constructor; [exact IH|]. now apply Forall_map.
    + intros Hc. rewrite Hst. now apply status_available.
    + intros H1 C1 C2 x. pose proof (missing_spec _ _ _ _ Hm H1 C1 C2) as [_ K]. rewrite Hmiss. unfold close. rewrite until_cutoff_id.
      2: { intros y Hy. apply K in Hy. lia. }
      rewrite K, (have_day_iff i.(internal_symbol) interval), <- Hcs. reflexivity.
  - intros Ha row Hr. pose proof (run_past (left_db st).(market_candles) (Some close) ai i (internal_symbol i)
      (Symbols.exchange_value (i_exchange i)) interval start (Z.min stop d) allow st) as K. rewrite R in K.
    destruct K as [_ K]; [split; [exact Ha | auto]|]. now apply K.
Qed.
End data_theorems.

(** ** The provider's calls *)
Section call_theorems.
Context {P : Type} `{HP : ProviderLaws P} (s : Settings).
Lemma fetch_once_closed i interval a b (p : P) : closed p -> closed (snd (fetch_once i interval a b p)).
Proof.
  unfold fetch_once, closed, bind. intros Hp. destruct (p_connect p) as [[[]|x] p1] eqn:E; cbn.
  - rewrite try_finally_snd. apply disconnect_disconnects.
  - pose proof (connect_failed p x) as F. rewrite E in F. cbn in F. now rewrite F.
Qed.
Lemma fetch_attempts_closed i interval a b retries : forall (p : P) n, closed p ->
  let st := snd (fetch_attempts i interval a b retries (p, n)) in closed (fst st) /\ (snd st <= n + retries)%nat.
Proof.
  induction retries as [|k IH]; intros p n Hp; cbn [fetch_attempts]; unfold on_provider; cbn [fst snd];
    pose proof (fetch_once_closed i interval a b p Hp) as C; destruct (fetch_once i interval a b p) as [[cs|x] q]; cbn in C |- *;
    repeat (destruct (String.eqb _ _); cbn); try (split; [exact C | lia]).
  unfold bind, sleep_1s, modify. cbn [fst snd]. specialize (IH q (S n) C). cbv zeta in IH. destruct IH as [I1 I2]. split; [exact I1 | lia].
Qed.
(** [n] calls at most: an object each, left closed, and two seconds of sleep. *)
Definition calls {A} (n : nat) (m : DM (P := P) A) : Prop := forall st, exists made,
  (snd (m st)).(ds_providers) = st.(ds_providers) ++ made /\ Forall closed made /\ (List.length made <= n)%nat /\
  ((snd (m st)).(ds_sleeps) <= st.(ds_sleeps) + 2 * List.length made)%nat.
Lemma calls_none {A} n (m : DM (P := P) A) :
  (forall st, (snd (m st)).(ds_providers) = st.(ds_providers) /\ (snd (m st)).(ds_sleeps) = st.(ds_sleeps)) -> calls n m.
Proof. intros K st. destruct (K st) as [K1 K2]. exists []. rewrite app_nil_r, K1, K2. cbn. repeat split; auto; lia. Qed.
Lemma calls_bind {A B} n k (m : DM (P := P) A) (f : A -> DM B) : calls n m -> (forall a, calls k (f a)) -> calls (n + k) (bind m f).
Proof.
  intros Hm Hf st. unfold bind. destruct (Hm st) as (u & U1 & U2 & U3 & U4). destruct (m st) as [[a|e] st1]; cbn [snd] in *.
  - destruct (Hf a st1) as (v & V1 & V2 & V3 & V4). exists (u ++ v). rewrite V1, U1, app_assoc, length_app. repeat split; [now apply Forall_app | lia | lia].
  - exists u. repeat split; auto; lia.
Qed.
Lemma calls_weaken {A} n k (m : DM (P := P) A) : (n <= k)%nat -> calls n m -> calls k m.
Proof. intros L Hm st. destruct (Hm st) as (u & U1 & U2 & U3 & U4). exists u. repeat split; auto; lia. Qed.
Lemma calls_tables {A} n (m : MM A) : calls n (on_tables m).
Proof. apply calls_none. intros st. unfold on_tables. now destruct (m (ds_world st)). Qed.
Lemma calls_ret {A} n (a : A) : calls n (ret a).
Proof. now apply calls_none. Qed.
Lemma calls_lift {A} n (r : result exn A) : calls n (lift r).
Proof. now apply calls_none. Qed.
Lemma fetch_range_calls i interval a b : calls 1 (_fetch_range s i interval a b).
Proof.
  apply (calls_bind 0 1); [apply calls_lift|]. intros _ st. unfold on_new_provider.
  pose proof (fetch_attempts_closed i interval (midnight a) (end_of_day b) _CONNECTION_RETRY_ATTEMPTS (p_new (research_credentials s)) 0
                (proj1 (new_idle _))) as F. cbv zeta in F.
  destruct (fetch_attempts _ _ _ _ _ _) as [r [p n]]. cbn [snd fst] in F. destruct F as [F1 F2]. exists [p]. cbn.
  repeat split; auto. unfold _CONNECTION_RETRY_ATTEMPTS in F2. lia.
Qed.
Definition budget_left (b : Backfill) : nat := Z.to_nat (s.(s_market_data_max_provider_calls) - b.(b_calls)).
(** As many calls as counted. *)
Lemma fetch_runs_calls i sym ex interval cutoff runs : forall b,
  calls (Nat.min (List.length runs) (budget_left b)) (fetch_runs s i sym ex interval cutoff runs b).
Proof.
  induction runs as [|[x y] rest IH]; intros b; cbn [fetch_runs List.length]; [apply calls_ret|].
  destruct (_ <=? _) eqn:E; [apply calls_ret|]. apply Z.leb_gt in E.
  apply (calls_weaken (1 + (Nat.min (List.length rest) (budget_left b - 1)))); [unfold budget_left; lia|].
  apply calls_bind; [apply fetch_range_calls|]. intros [raw [e|]]; cbn [snd fst].
  - destruct (bool_decide _); [apply calls_ret|]. eapply calls_weaken; [|apply IH]. unfold budget_left, failed_call; cbn [b_calls]; lia.
  - apply (calls_bind 0 (Nat.min (List.length rest) (budget_left b - 1))); [apply calls_tables|]. intros n. eapply calls_weaken; [|apply IH]. unfold budget_left; cbn [b_calls]; lia.
Qed.
Lemma fetch_range_count i interval a b st r st' : _fetch_range s i interval a b st = (Ok r, st') ->
  List.length st'.(ds_providers) = S (List.length st.(ds_providers)).
Proof.
  unfold _fetch_range. intros R. apply bind_inv_Ok in R as (c & st1 & R1 & R). injection R1 as _ <-. unfold on_new_provider in R.
  destruct (fetch_attempts _ _ _ _ _ _) as [q [p n]]. injection R as _ <-. cbn. rewrite length_app. cbn. lia.
Qed.
Lemma on_tables_count {A} (m : MM A) st r st' : on_tables (P := P) m st = (Ok r, st') -> ds_providers st' = ds_providers st.
Proof. unfold on_tables. destruct (m (ds_world st)). now intros [= _ <-]. Qed.
Lemma fetch_runs_count i sym ex interval cutoff runs : forall b st b' st',
  fetch_runs s i sym ex interval cutoff runs b st = (Ok b', st') ->
  b'.(b_calls) - b.(b_calls) = Z.of_nat (List.length st'.(ds_providers)) - Z.of_nat (List.length st.(ds_providers)).
Proof.
  induction runs as [|[x y] rest IH]; intros b st b' st'; cbn [fetch_runs]; [intros [= <- <-]; lia|].
  destruct (_ <=? _); [intros [= <- <-]; lia|]. intros R. apply bind_inv_Ok in R as ([raw e] & st1 & R1 & R). cbn [snd fst] in R.
  apply fetch_range_count in R1. destruct e as [e|].
  - destruct (bool_decide _); [injection R as <- <-; cbn; lia | apply IH in R; cbn in R; lia].
  - apply bind_inv_Ok in R as (n & st2 & R2 & R). apply on_tables_count in R2. apply IH in R. cbn in R. rewrite R2 in R. lia.
Qed.
Lemma grow_runs_length start stop days : (List.length (grow_runs start stop days) <= S (List.length days))%nat.
Proof.
  revert start stop. induction days as [|d r IH]; intros start stop; cbn; [lia|].
  destruct (_ <=? _); [specialize (IH start d) | specialize (IH d d); cbn]; lia.
Qed.
Lemma contiguous_runs_length days : (List.length (_contiguous_runs days) <= List.length days)%nat.
Proof.
  unfold _contiguous_runs. pose proof (Permutation_length (sort_by_Permutation Z.leb days)) as L.
  destruct (sort_by Z.leb days) as [|d r]; [cbn; lia|]. pose proof (grow_runs_length d d r) as G. cbn [List.length] in L. rewrite <- L. exact G.
Qed.
(** The calls a request is allowed. *)
Definition allowance (allow_backfill : bool) : nat :=
  if allow_backfill then Z.to_nat (Z.min s.(s_market_data_max_provider_calls) s.(s_market_data_max_backfill_days)) else O.
Lemma to_fetch_allowed allow missing : (Nat.min (List.length (to_fetch s allow missing)) (budget_left (mkBackfill 0 0 0 None)) <= allowance allow)%nat.
Proof.
  unfold to_fetch, allowance, budget_left. destruct allow; cbn [andb]; [|apply Nat.le_0_l]. destruct (_ <=? _) eqn:E; [|apply Nat.le_0_l].
  apply Z.leb_le in E. pose proof (contiguous_runs_length missing). cbn [b_calls]. lia.
Qed.
(** The days a request finds missing are days of its range on which the market
    trades and the tables it reads hold no row, each once. *)
Lemma missing_days_found sym ex interval start stop cutoff (st : DataState P) rows missing st1 days :
  read_range sym ex interval start stop cutoff st = (Ok (rows, missing), st1) ->
  (forall x, start <= x <= stop -> trades_on x = true ->
     (forall row, seen_row sym ex interval start stop cutoff (settle st.(ds_world)).(m_db) row -> local_date row.(mc_timestamp) IST <> x) ->
     In x days) ->
  (List.length missing <= List.length days)%nat.
Proof.
  intros R Hd. assert (left_db st1 = (settle st.(ds_world)).(m_db)) as Ew.
  { unfold read_range, _query_db, query, bind, on_tables, lift, ret in R. destruct (_missing_trading_days _ _ _); [|discriminate].
    now injection R as _ _ <-. }
  apply read_range_spec in R as (Hrows & _ & m & Hm & ->). rewrite Ew in Hrows.
  assert (List.NoDup m /\ forall x, In x m -> start <= x <= stop /\ trades_on x = true /\ have_day rows x = false) as [Hn Hin].
  { unfold _missing_trading_days in Hm. destruct (trading_days_in_range start stop) as [l|e] eqn:E.
    - injection Hm as <-. apply trading_days_in_range_spec in E as (_ & S & A). split.
      + apply List.NoDup_filter. clear -S. induction S as [|x l _ IH Hx]; constructor; [|exact IH].
        intros Hi. rewrite List.Forall_forall in Hx. apply Hx in Hi. lia.
      + intros x. rewrite List.filter_In, A, negb_true_iff. tauto.
    - destruct (bool_decide _); [|discriminate]. injection Hm as <-. split; [constructor | easy]. }
  assert (incl (until_cutoff cutoff m) days) as Hincl.
  { intros x Hx. assert (In x m) as Hxm by (unfold until_cutoff in Hx; destruct cutoff; [now apply List.filter_In in Hx | exact Hx]).
    destruct (Hin x Hxm) as (H1 & H2 & H3). apply Hd; [exact H1 | exact H2|]. intros row Hr E. apply Hrows in Hr.
    unfold have_day in H3. apply not_true_iff_false in H3. apply H3, existsb_exists. exists row. split; [exact Hr | now apply Z.eqb_eq]. }
  apply List.NoDup_incl_length; [|exact Hincl]. unfold until_cutoff. destruct cutoff; [now apply List.NoDup_filter | exact Hn].
Qed.
Lemma read_range_calls sym ex interval start stop cutoff : calls 0 (read_range (P := P) sym ex interval start stop cutoff).
Proof. apply (calls_bind 0 0); [apply calls_tables|]. intros. apply (calls_bind 0 0); [apply calls_lift | intros; apply calls_ret]. Qed.
Lemma run_calls ai i sym ex interval start stop cutoff allow :
  calls (allowance allow) (_run s ai i sym ex interval start stop cutoff allow).
Proof.
  apply (calls_bind 0 (allowance allow)); [apply read_range_calls|]. intros found. apply (calls_weaken (allowance allow + 0)); [lia|].
  apply calls_bind; [eapply calls_weaken; [apply to_fetch_allowed | apply fetch_runs_calls]|]. intros b.
  apply (calls_bind 0 0); [destruct (to_fetch _ _ _); [apply calls_ret | apply read_range_calls] | intros; apply calls_ret].
Qed.

(** One call at most per day found missing. *)
Lemma run_calls_missing ai i sym ex interval start stop cutoff allow (st : DataState P) days :
  (forall x, start <= x <= stop -> trades_on x = true ->
     (forall row, seen_row sym ex interval start stop cutoff (settle st.(ds_world)).(m_db) row -> local_date row.(mc_timestamp) IST <> x) ->
     In x days) ->
  exists made, (snd (_run s ai i sym ex interval start stop cutoff allow st)).(ds_providers) = st.(ds_providers) ++ made /\
    (List.length made <= List.length days)%nat.
Proof.
  intros Hd. unfold _run. unfold bind at 1. destruct (read_range_calls sym ex interval start stop cutoff st) as (u & U1 & _ & U3 & _).
  assert (u = []) as -> by now destruct u; [|cbn in U3; lia]. rewrite app_nil_r in U1.
  destruct (read_range sym ex interval start stop cutoff st) as [[[rows missing]|e] st1] eqn:R; cbn [snd] in U1 |- *.
  2: { exists []. rewrite app_nil_r. split; [exact U1 | cbn; lia]. }
  apply missing_days_found with (days := days) in R; [|exact Hd].
  assert (List.length (to_fetch s allow missing) <= List.length missing)%nat as Hf.
  { unfold to_fetch. destruct (_ && _); [apply contiguous_runs_length | cbn; lia]. }
  match goal with |- context [snd (?m st1)] => assert (calls (List.length days + 0) m) as K end.
  { apply calls_bind; [eapply calls_weaken; [|apply fetch_runs_calls]; cbn [snd]; lia|]. intros b.
    apply (calls_bind 0 0); [destruct (to_fetch _ _ _); [apply calls_ret | apply read_range_calls] | intros; apply calls_ret]. }
  destruct (K st1) as (made & M1 & _ & M3 & _). exists made. rewrite M1, U1. split; [reflexivity | lia].
Qed.

(** The answer counts the objects made. *)
Definition counted (st st' : DataState P) (r : HistoricalDataResult) : Prop :=
  r.(provider_call_count) = Z.of_nat (List.length st'.(ds_providers)) - Z.of_nat (List.length st.(ds_providers)) /\
  (r.(provider_call_count) = 0 -> r.(h_candles) <> [] -> r.(h_source) = FROM_DB).
Lemma read_range_count sym ex interval start stop cutoff st q st' :
  read_range (P := P) sym ex interval start stop cutoff st = (Ok q, st') -> ds_providers st' = ds_providers st.
Proof.
  unfold read_range. intros R. apply bind_inv_Ok in R as (rows & st1 & R1 & R). apply on_tables_count in R1.
  apply bind_inv_Ok in R as (m & st2 & R2 & R). injection R2 as _ <-. now injection R as _ <-.
Qed.
Lemma run_count ai i sym ex interval start stop cutoff allow st r st' :
  _run s ai i sym ex interval start stop cutoff allow st = (Ok r, st') -> counted st st' r.
Proof.
  unfold _run, counted. intros R. apply bind_inv_Ok in R as (found & st1 & R1 & R). apply bind_inv_Ok in R as (b & st2 & R2 & R).
  apply bind_inv_Ok in R as (final & st3 & R3 & R). injection R as <- <-. apply fetch_runs_count in R2. apply read_range_count in R1.
  assert (ds_providers st3 = ds_providers st2) as ->.
  { destruct (to_fetch _ _ _); [now injection R3 as _ <- | exact (read_range_count _ _ _ _ _ _ _ _ _ R3)]. }
  rewrite R1 in R2. cbn [b_calls provider_call_count h_candles h_source] in R2 |- *. split; [lia|]. intros -> Hc. unfold source_of.
  now destruct (map _ _).
Qed.
Lemma history_count ai interval start stop cutoff allow st r st' :
  get_historical_candles s ai interval start stop cutoff allow st = (Ok r, st') -> counted st st' r.
Proof.
  unfold get_historical_candles. repeat case_match; try discriminate; first [apply run_count | intros [= <- <-]; split; [cbn; lia | easy]].
Qed.

Lemma history_calls_missing ai interval start stop cutoff allow (st : DataState P) :
  let st' := snd (get_historical_candles s ai interval start stop cutoff allow st) in
  let last := match cutoff with Some d => Z.min stop d | None => stop end in
  let close := (fun d => combine d MARKET_CLOSE_TIME IST) <$> cutoff in
  ((forall i, _resolve_stage19_instrument ai <> Ok i) -> st'.(ds_providers) = st.(ds_providers)) /\
  (forall i days, _resolve_stage19_instrument ai = Ok i ->
     (forall x, start <= x <= last -> trades_on x = true ->
        (forall row, seen_row i.(internal_symbol) (Symbols.exchange_value i.(i_exchange)) interval start last close
           (settle st.(ds_world)).(m_db) row -> local_date row.(mc_timestamp) IST <> x) -> In x days) ->
     exists made, st'.(ds_providers) = st.(ds_providers) ++ made /\ (List.length made <= List.length days)%nat).
Proof.
  cbv zeta. unfold get_historical_candles. destruct (_resolve_stage19_instrument ai) as [i|e].
  2: { split; [|easy]. intros _. now destruct (caught _ e). }
  split; [intros Hn; now destruct (Hn i)|]. intros j days [= <-] Hd.
  assert (forall (m : DM (P := P) HistoricalDataResult), calls 0 m -> exists made,
    (snd (m st)).(ds_providers) = st.(ds_providers) ++ made /\ (List.length made <= List.length days)%nat) as Z0.
  { intros m Hm. destruct (Hm st) as (made & M1 & _ & M3 & _). exists made. split; [exact M1 | lia]. }
  destruct cutoff as [d|]; [|now apply run_calls_missing].
  destruct (ResearchMarket.market_close d) as [t|e] eqn:C.
  2: { apply Z0. destruct (caught _ e); [apply calls_ret | now apply calls_none]. }
  apply market_close_Ok in C as [_ ->]. rewrite close_day. destruct (_ <? start); [apply Z0, calls_ret|].
  now apply run_calls_missing.
Qed.

(** C18: asking for history costs a bounded number of provider calls, whatever
    the provider answers or raises: none when backfill is not allowed or the
    instrument is not supported; never more than the configured calls or the
    configured days, nor more than one per missing day, a missing day being one
    of the range (cut at the research date) on which the market trades and of
    which the tables, as the request first reads them, hold no candle of that
    symbol, exchange and interval (not past the cutoff) -- so none when no day
    is missing.  Each call has an object of its own, which it leaves
    disconnected after at most two one-second retries, and the answer counts
    them; an answer with candles that cost no call is from the database. *)
Theorem backfill_is_bounded ai interval start stop cutoff allow (st : DataState P) :
  let '(r, st') := get_historical_candles s ai interval start stop cutoff allow st in
  let last := match cutoff with Some d => Z.min stop d | None => stop end in
  let close := (fun d => combine d MARKET_CLOSE_TIME IST) <$> cutoff in
  exists made, st'.(ds_providers) = st.(ds_providers) ++ made /\ Forall closed made /\
    (allow = false -> made = []) /\ ((forall i, _resolve_stage19_instrument ai <> Ok i) -> made = []) /\
    Z.of_nat (List.length made) <= Z.max 0 s.(s_market_data_max_provider_calls) /\
    Z.of_nat (List.length made) <= Z.max 0 s.(s_market_data_max_backfill_days) /\
    (forall i days, _resolve_stage19_instrument ai = Ok i ->
       (forall x, start <= x <= last -> trades_on x = true ->
          (forall row, seen_row i.(internal_symbol) (Symbols.exchange_value i.(i_exchange)) interval start last close
             (settle st.(ds_world)).(m_db) row -> local_date row.(mc_timestamp) IST <> x) -> In x days) ->
       (List.length made <= List.length days)%nat) /\
    (st'.(ds_sleeps) <= st.(ds_sleeps) + 2 * List.length made)%nat /\
    forall h, r = Ok h -> h.(provider_call_count) = Z.of_nat (List.length made) /\
      (h.(provider_call_count) = 0 -> h.(h_candles) <> [] -> h.(h_source) = FROM_DB).
Proof.
  cbv zeta.
  assert (calls (allowance allow) (get_historical_candles s ai interval start stop cutoff allow)) as C.
  { unfold get_historical_candles. repeat case_match; first [apply calls_ret | apply run_calls | now apply calls_none]. }
  specialize (C st). pose proof (history_count ai interval start stop cutoff allow st) as N.
  pose proof (history_calls_missing ai interval start stop cutoff allow st) as D. cbv zeta in D.
  destruct (get_historical_candles s ai interval start stop cutoff allow st) as [r st']. cbn [snd] in C, D.
  destruct C as (made & M1 & M2 & M3 & M4). exists made. split; [exact M1|]. split; [exact M2|].
  split. { intros ->. destruct made; [reflexivity | cbn in M3; lia]. }
  destruct D as [D0 D]. rewrite M1 in D0, D.
  split. { intros E. apply (app_inv_head st.(ds_providers)). rewrite app_nil_r. now apply D0. }
  split. { unfold allowance in M3. destruct allow; lia. }
  split. { unfold allowance in M3. destruct allow; lia. }
  split.
  { intros i days Ei Hd. destruct (D i days Ei Hd) as (made' & E & L). apply app_inv_head in E. now subst made'. }
  split; [exact M4|]. intros h ->.
  destruct (N h st' eq_refl) as [N1 N2]. split; [|exact N2]. rewrite N1, M1, length_app. lia.
Qed.
End call_theorems.

(** ** Three days in February 2026 *)
Definition research_env : environ :=
  <["MARKET_DATA_PROVIDER" := "icici_breeze"]> (<["BREEZE_API_KEY" := "k"]> (<["BREEZE_SECRET_KEY" := "q"]>
  (<["BREEZE_SESSION_TOKEN" := "fresh"]> ∅))).
Definition research_settings : Settings :=
  Eval vm_compute in
    match load_settings research_env as r return match fst r with Ok _ => Settings | Err _ => unit end
    with (Ok s, _) => s | (Err _, _) => tt end.
Definition history_item (at_ : string) : json :=
  JObj [("datetime", JStr at_); ("open", JInt 100); ("high", JInt 102); ("low", JInt 99); ("close", JInt 101); ("volume", JInt 5)].
(** The broker's history holds the 25th, the 26th and a candle after the close of
    the 27th. *)
Definition february : BreezeSdk := replying (JArr (map history_item
  ["2026-02-27T12:00:00.000Z"; "2026-02-25T04:00:00.000Z"; "2026-02-26T04:00:00.000Z"])).
Definition fresh_data (w : MWorld) : DataState BreezeObject := mkData w [] 0.
Definition feb (d : Z) : Z := ymd2ord 2026 2 d.
#[local] Abbreviation ask_february st :=
  (get_historical_candles (H := breeze_provider (H := february)) research_settings NIFTY_50 "5minute" (feb 25) (feb 28) (Some (feb 27)) true st).
Definition february_answer : HistoricalDataResult :=
  Eval vm_compute in
    match ask_february (fresh_data (quiet_world empty_db)) as r return match fst r with Ok _ => HistoricalDataResult | Err _ => unit end
    with (Ok h, _) => h | (Err _, _) => tt end.
Lemma february_asked : exists st', ask_february (fresh_data (quiet_world empty_db)) = (Ok february_answer, st').
Proof. eexists. vm_compute. reflexivity. Qed.
Example february_shown :
  february_answer.(h_status) = PARTIAL /\ february_answer.(h_source) = FROM_PROVIDER /\ february_answer.(requested_to) = feb 27 /\
  map c_timestamp february_answer.(h_candles) = map (fun d => midnight (feb d) + time_us 4 0 0 0) [25; 26] /\
  february_answer.(missing_days) = [feb 27] /\ february_answer.(candles_stored) = 2 /\ february_answer.(provider_call_count) = 1.
Proof. vm_compute. repeat split. Qed.
Lemma research_sees_nothing_later_witness :
  exists st', ask_february (fresh_data (quiet_world empty_db)) = (Ok february_answer, st') /\
    forall row, In row (left_db st').(market_candles) -> mc_timestamp row <= combine (feb 27) MARKET_CLOSE_TIME IST.
Proof.
  destruct february_asked as (st' & E). exists st'. split; [exact E|]. intros row Hr.
  pose proof (research_sees_nothing_later (H := breeze_provider (H := february)) research_settings NIFTY_50 "5minute" (feb 25) (feb 28) (feb 27) true
                (fresh_data (quiet_world empty_db)) february_answer st' E) as (_ & _ & K).
  destruct (K eq_refl row Hr) as [[] | L]. exact L.
Defined.
Lemma backfill_is_bounded_witness :
  let '(r, st') := ask_february (fresh_data (quiet_world empty_db)) in
  exists made, st'.(ds_providers) = [] ++ made /\ Z.of_nat (List.length made) <= Z.max 0 5 /\
    (List.length made <= List.length [feb 25; feb 26; feb 27])%nat /\
    Forall (closed (P := BreezeObject) (H := breeze_provider (H := february))) made.
Proof.
  pose proof (backfill_is_bounded (HP := breeze_laws (sdk := february)) research_settings NIFTY_50 "5minute" (feb 25) (feb 28) (Some (feb 27)) true
                (fresh_data (quiet_world empty_db))) as B.
  destruct (ask_february (fresh_data (quiet_world empty_db))) as [r st'].
  destruct B as (made & M1 & M2 & _ & _ & M3 & _ & D & _). exists made. split; [exact M1|]. split; [exact M3|]. split; [|exact M2].
  eapply D; [reflexivity|]. intros x Hx _ _.
  change (feb 25) with 739672 in *. change (feb 26) with 739673. change (feb 27) with 739674 in *. change (feb 28) with 739675 in *.
  cbn. lia.
Defined.

(** Early in January the range reaches back before the covered years: no day is
    expected, nothing is fetched, and a single candle counts as complete. *)
Definition one_candle : MWorld := Eval vm_compute in
  snd (persist_index_candles [("NIFTY", "NSE", mkCandle "NIFTY" "5minute" (midnight (ymd2ord 2025 1 2) + time_us 4 0 0 0)
         (f_of_Z 100) (f_of_Z 102) (f_of_Z 99) (f_of_Z 101) None None)] (quiet_world empty_db)).
Example early_january_counts_as_complete :
  let ask w := match fst (get_historical_candles (H := breeze_provider (H := february)) research_settings NIFTY_50 "5minute"
                            (ymd2ord 2024 12 27) (ymd2ord 2025 1 6) (Some (ymd2ord 2025 1 6)) true (fresh_data w)) with
               | Ok h => Some (h.(h_status), h.(provider_call_count), h.(missing_days)) | Err _ => None end in
  ask one_candle = Some (AVAILABLE, 0, []) /\ ask (quiet_world empty_db) = Some (MISSING, 0, []).
Proof. vm_compute. split; reflexivity. Qed.
(** A range given backwards raises unless a research date is given. *)
Example backwards_range_raises :
  fst (get_candles (H := breeze_provider (H := february)) research_settings INDIA "NIFTY" "5minute" (feb 27) (feb 25) None
         (fresh_data (quiet_world empty_db))) = Err (ValueError "end (2026-02-25) is before start (2026-02-27)").
Proof. vm_compute. reflexivity. Qed.
(** With the Kite provider, the default, the credentials passed are Breeze's. *)
Example research_ignores_kite_credentials :
  s_market_data_provider zerodha_settings = "zerodha" /\ s_zerodha_api_key zerodha_settings = "k" /\
  research_credentials zerodha_settings = mkCreds "" "" "" "".
Proof. repeat split. Qed.
