(* ===== verification/ResearchSchema.v ===== *)
(** * Research: settings, requests, the agents' plan

    [trading/ai_research/config.py], [schemas.py] and the part of
    [trading_agents_adapter.py] that is this system's own: the node plan and its
    coarse stages, the checks of a request, the settings handed to the agents,
    the report, error categories, the decision memory and the backtest's grid of
    dates.  The agent framework itself is the parameter [Agents]. *)
From S2P Require Import Prelude PyStr PyFloat Config Json PyTime JsonText PyParse ResearchMarket.
From Stdlib Require Import Ascii.

(** ** [config.py] *)
Record AIResearchSettings : Type := mkAISettings {
  ai_enabled : bool; ai_workloads_enabled : bool; ai_backtest_enabled : bool; ai_options_research_enabled : bool;
  ai_llm_provider : string; max_concurrent : Z; timeout_seconds : Z; ai_backtest_max_symbols : Z; ai_backtest_max_dates : Z;
  ai_backtest_max_runs : Z; ai_backtest_max_concurrent : Z; ai_backtest_default_holding_days : Z;
  ai_options_max_debate_rounds : Z; ai_options_max_candidates : Z; ai_options_max_concurrent : Z; ai_options_timeout_seconds : Z
}.
(** [data_dir] only names the directory the agents write to. *)
Definition load_ai_research_settings : M environ exn AIResearchSettings :=
  let! enabled := gets (_env_bool "AI_RESEARCH_ENABLED") in
  let! workloads := gets (_env_bool_default_true "AI_WORKLOADS_ENABLED") in
  let! backtest := gets (_env_bool_default_true "AI_BACKTEST_ENABLED") in
  let! options := gets (_env_bool_default_true "AI_OPTIONS_RESEARCH_ENABLED") in
  let! provider := gets (_env "AI_RESEARCH_LLM_PROVIDER" "openai") in
  let! concurrent := _env_int "AI_RESEARCH_MAX_CONCURRENT" 1 in
  let! timeout := _env_int "AI_RESEARCH_TIMEOUT_SECONDS" 300 in
  let! symbols := _env_int "AI_BACKTEST_MAX_SYMBOLS" 3 in
  let! dates := _env_int "AI_BACKTEST_MAX_DATES" 12 in
  let! runs := _env_int "AI_BACKTEST_MAX_RUNS" 20 in
  let! backtests := _env_int "AI_BACKTEST_MAX_CONCURRENT" 1 in
  let! holding := _env_int "AI_BACKTEST_HOLDING_DAYS" 5 in
  let! rounds := _env_int "AI_OPTIONS_MAX_DEBATE_ROUNDS" 3 in
  let! candidates := _env_int "AI_OPTIONS_MAX_CANDIDATES" 5 in
  let! options_concurrent := _env_int "AI_OPTIONS_MAX_CONCURRENT" 1 in
  let! options_timeout := _env_int "AI_OPTIONS_TIMEOUT_SECONDS" 420 in
  ret (mkAISettings enabled workloads backtest options provider concurrent timeout symbols dates runs backtests holding rounds candidates
         options_concurrent options_timeout).

(** ** [schemas.py] *)
Definition SUPPORTED_LLM_PROVIDERS : list string :=
  ["openai"; "google"; "anthropic"; "xai"; "deepseek"; "qwen"; "glm"; "minimax"; "openrouter"; "mistral"; "moonshot"; "groq";
   "nvidia"; "ollama"; "openai_compatible"; "bedrock"; "azure"].
Inductive ResearchDepth : Type := QUICK | STANDARD | DEEP.
Inductive AnalystKey : Type := A_MARKET | A_SOCIAL | A_NEWS | A_FUNDAMENTALS.
#[global] Instance ResearchDepth_eq_dec : EqDecision ResearchDepth.
Proof. solve_decision. Defined.
#[global] Instance AnalystKey_eq_dec : EqDecision AnalystKey.
Proof. solve_decision. Defined.
Definition _DEPTH_DEBATE_ROUNDS (d : ResearchDepth) : Z := match d with DEEP => 2 | _ => 1 end.
Definition _DEPTH_RISK_ROUNDS (d : ResearchDepth) : Z := match d with DEEP => 2 | _ => 1 end.
Record PortfolioPositionIn : Type := mkPosition { pp_ticker : string; pp_quantity : float; pp_average_price : option float }.
Record PortfolioContextIn : Type := mkPortfolio { pf_cash : option float; pf_currency : option string; pf_positions : list PortfolioPositionIn }.
Record ResearchRequestIn : Type := mkRequest {
  rq_symbol : string; rq_research_date : Z; rq_depth : ResearchDepth; rq_market : Market;
  rq_selected_analysts : option (list AnalystKey); rq_llm_provider : option string; rq_deep_think_llm : option string;
  rq_quick_think_llm : option string; rq_temperature : option float; rq_debate_rounds : option Z; rq_risk_debate_rounds : option Z;
  rq_retry_count : option Z; rq_data_vendors : option (list (string * string)); rq_checkpoint_enabled : bool;
  rq_portfolio : option PortfolioContextIn
}.
Definition SUPPORTED_DATA_VENDOR_CATEGORIES : list (string * list string) :=
  [("core_stock_apis", ["yfinance"; "alpha_vantage"]); ("technical_indicators", ["yfinance"; "alpha_vantage"]);
   ("fundamental_data", ["yfinance"; "alpha_vantage"]); ("news_data", ["yfinance"; "alpha_vantage"]); ("macro_data", ["fred"]);
   ("prediction_markets", ["polymarket"])].
Definition vendor_ok (e : string * string) : bool :=
  match find_key (fst e) SUPPORTED_DATA_VENDOR_CATEGORIES with Some allowed => str_in (snd e) allowed | None => false end.
Definition symbol_char (c : ascii) : bool := is_alnum c || existsb (Ascii.eqb c) ["."; "^"; "-"; "&"]%char.
(** [_SYMBOL_PATTERN] *)
Definition symbol_ok (s : string) : bool := forallb symbol_char (chars s) && (1 <=? str_len s) && (str_len s <=? 32).
Definition in_range (lo hi : Z) (o : option Z) : bool := match o with Some n => (lo <=? n) && (n <=? hi) | None => true end.
Definition short (n : Z) (o : option string) : bool := match o with Some s => str_len s <=? n | None => true end.
Definition f_at_least_zero (o : option float) : bool := match o with Some x => f_leb f_zero x | None => true end.
Definition portfolio_ok (p : PortfolioContextIn) : bool :=
  f_at_least_zero p.(pf_cash) && short 8 p.(pf_currency) && (Z.of_nat (List.length p.(pf_positions)) <=? 50) &&
  forallb (fun x => symbol_ok x.(pp_ticker) && f_at_least_zero x.(pp_average_price)) p.(pf_positions).
Definition fields_ok (q : ResearchRequestIn) : bool :=
  symbol_ok q.(rq_symbol) && match q.(rq_selected_analysts) with Some l => Z.of_nat (List.length l) <=? 4 | None => true end &&
  short 32 q.(rq_llm_provider) && short 64 q.(rq_deep_think_llm) && short 64 q.(rq_quick_think_llm) &&
  match q.(rq_temperature) with Some x => f_leb f_zero x && f_leb x (f_of_Z 2) | None => true end &&
  in_range 1 5 q.(rq_debate_rounds) && in_range 1 5 q.(rq_risk_debate_rounds) && in_range 0 10 q.(rq_retry_count) &&
  match q.(rq_data_vendors) with Some l => (Z.of_nat (List.length l) <=? 6) && forallb vendor_ok l | None => true end &&
  match q.(rq_llm_provider) with Some p => str_in (lower p) SUPPORTED_LLM_PROVIDERS | None => true end &&
  match q.(rq_portfolio) with Some p => portfolio_ok p | None => true end.
Definition ValidationError : exn := OtherError "ValidationError" "".
(** The constructor: the fields' bounds, the validators, the provider in lower
    case.  [today] is the host's date. *)
Definition ResearchRequest (today : Z) (q : ResearchRequestIn) : result exn ResearchRequestIn :=
  if fields_ok q && (q.(rq_research_date) <=? today) then
    Ok (mkRequest q.(rq_symbol) q.(rq_research_date) q.(rq_depth) q.(rq_market) q.(rq_selected_analysts) (lower <$> q.(rq_llm_provider))
          q.(rq_deep_think_llm) q.(rq_quick_think_llm) q.(rq_temperature) q.(rq_debate_rounds) q.(rq_risk_debate_rounds)
          q.(rq_retry_count) q.(rq_data_vendors) q.(rq_checkpoint_enabled) q.(rq_portfolio))
  else Err ValidationError.
Definition resolved_debate_rounds (q : ResearchRequestIn) : Z := default (_DEPTH_DEBATE_ROUNDS q.(rq_depth)) q.(rq_debate_rounds).
Definition resolved_risk_debate_rounds (q : ResearchRequestIn) : Z := default (_DEPTH_RISK_ROUNDS q.(rq_depth)) q.(rq_risk_debate_rounds).
Inductive ResearchJobStatus : Type := J_QUEUED | J_RUNNING | J_COMPLETED | J_FAILED.
Inductive ResearchStage : Type :=
| R_QUEUED | R_ANALYSTS | R_RESEARCH_DEBATE | R_TRADER | R_RISK | R_PORTFOLIO_MANAGER | R_COMPLETED | R_FAILED.
Inductive NodeStageStatus : Type := N_PENDING | N_RUNNING | N_COMPLETED | N_FAILED | N_SKIPPED.
#[global] Instance ResearchJobStatus_eq_dec : EqDecision ResearchJobStatus.
Proof. solve_decision. Defined.
#[global] Instance ResearchStage_eq_dec : EqDecision ResearchStage.
Proof. solve_decision. Defined.
#[global] Instance NodeStageStatus_eq_dec : EqDecision NodeStageStatus.
Proof. solve_decision. Defined.
Definition job_status_value (s : ResearchJobStatus) : string :=
  match s with J_QUEUED => "QUEUED" | J_RUNNING => "RUNNING" | J_COMPLETED => "COMPLETED" | J_FAILED => "FAILED" end.
Record ResearchReport : Type := mkReport {
  rp_market : option string; rp_news : option string; rp_sentiment : option string; rp_fundamentals : option string;
  rp_bull : option string; rp_bear : option string; rp_manager : option string; rp_trader : option string;
  rp_aggressive : option string; rp_conservative : option string; rp_neutral : option string; rp_judge : option string;
  rp_final : option string; rp_signal : option string
}.
#[global] Instance ResearchReport_eq_dec : EqDecision ResearchReport.
Proof. solve_decision. Defined.

(** ** [trading_agents_adapter.py]: the plan *)
Definition analyst_value (a : AnalystKey) : string :=
  match a with A_MARKET => "market" | A_SOCIAL => "social" | A_NEWS => "news" | A_FUNDAMENTALS => "fundamentals" end.
Definition SUPPORTED_ANALYSTS : list string := ["market"; "social"; "news"; "fundamentals"].
Definition ANALYST_NODE_NAMES : list (string * string) :=
  [("market", "Market Analyst"); ("social", "Sentiment Analyst"); ("news", "News Analyst"); ("fundamentals", "Fundamentals Analyst")].
Definition RESEARCH_DEBATE_NODES : list string := ["Bull Researcher"; "Bear Researcher"; "Research Manager"].
Definition TRADER_NODES : list string := ["Trader"].
Definition RISK_NODES : list string := ["Aggressive Analyst"; "Conservative Analyst"; "Neutral Analyst"].
Definition PORTFOLIO_NODES : list string := ["Portfolio Manager"].
Definition real_node_order (selected : list string) : list string :=
  omap (fun a => if str_in a selected then find_key a ANALYST_NODE_NAMES else None) SUPPORTED_ANALYSTS ++
  RESEARCH_DEBATE_NODES ++ TRADER_NODES ++ RISK_NODES ++ PORTFOLIO_NODES.
Definition stage_bucket_for_node (name : string) : option ResearchStage :=
  if str_in name (map snd ANALYST_NODE_NAMES) then Some R_ANALYSTS
  else if str_in name RESEARCH_DEBATE_NODES then Some R_RESEARCH_DEBATE
  else if str_in name TRADER_NODES then Some R_TRADER
  else if str_in name RISK_NODES then Some R_RISK
  else if str_in name PORTFOLIO_NODES then Some R_PORTFOLIO_MANAGER
  else None.

(** ** Errors *)
Definition AIResearchDisabledError (m : string) : exn := OtherError "AIResearchDisabledError" m.
(** [AIResearchConfigError] carries a message and a category. *)
Record ConfigError : Type := mkConfigError { ce_message : string; ce_provider_error : option string }.
Definition AIResearchConfigError (m : string) : exn := OtherError "AIResearchConfigError" m.
Definition _classify_provider_error (type_name message : string) : option string :=
  let text := lower message in
  if contains "rate_limit" text || contains "429" text || contains "too many requests" text then Some "RATE_LIMIT"
  else if contains "413" text || contains "request too large" text || contains "tokens per minute" text then Some "RATE_LIMIT"
  else if contains "401" text || contains "invalid api key" text || contains "authentication" text || contains "unauthorized" text
  then Some "AUTH_ERROR"
  else if contains "404" text && contains "model" text then Some "MODEL_NOT_FOUND"
  else if contains "timeout" text || contains "timed out" (lower type_name) then Some "PROVIDER_TIMEOUT"
  else None.

(** ** One run of the agents *)
(** What the agents are given, and the state they leave. *)
Record AgentConfig : Type := mkAgentConfig {
  ac_instrument : string; ac_as_of_date : string; ac_analysts : list string; ac_llm_provider : string;
  ac_deep_think_llm : option string; ac_quick_think_llm : option string; ac_temperature : option float; ac_debate_rounds : option Z;
  ac_risk_rounds : option Z; ac_max_retries : option Z; ac_data_vendors : list (string * string); ac_checkpoint : bool;
  ac_portfolio : option PortfolioContextIn; ac_market_context : option string
}.
Record AgentState : Type := mkAgentState {
  market_report : option string; news_report : option string; sentiment_report : option string; fundamentals_report : option string;
  bull_history : option string; bear_history : option string; debate_judge_decision : option string; investment_plan : option string;
  trader_investment_plan : option string; aggressive_history : option string; conservative_history : option string;
  neutral_history : option string; risk_judge_decision : option string; final_trade_decision : option string
}.
(** How a run of the graph ends: the final state and the signal read from it, or
    an exception: its type's name and its text. *)
Inductive graph_end : Type :=
| Finished (state : AgentState) (signal : option string)
| GraphRaised (type_name message : string).
(** The framework sees every call made of it. *)
Inductive agent_call : Type := Ran (c : AgentConfig) | Settled (ticker : string).
Class Agents : Type := {
  tradingagents_installed : bool;
  agents_graph : list agent_call -> AgentConfig -> list string * graph_end;  (* the nodes completed, in order, and the end *)
  settle_pending : list agent_call -> string -> option (string * string);    (* an exception's type and text *)
  decision_log : list agent_call -> list json                                (* the entries of the decision memory *)
}.
Definition or_none (o : option string) : option string := if opt_truthy o then o else None.
Definition report_of (st : AgentState) (signal : option string) : ResearchReport :=
  mkReport (or_none st.(market_report)) (or_none st.(news_report)) (or_none st.(sentiment_report)) (or_none st.(fundamentals_report))
    (or_none st.(bull_history)) (or_none st.(bear_history)) (opt_str_or st.(investment_plan) (or_none st.(debate_judge_decision)))
    (or_none st.(trader_investment_plan)) (or_none st.(aggressive_history)) (or_none st.(conservative_history))
    (or_none st.(neutral_history)) (or_none st.(risk_judge_decision)) (or_none st.(final_trade_decision)) signal.
(** What [run_research] is called with. *)
Record RunArgs : Type := mkRunArgs {
  ra_instrument : string; ra_as_of_date : string; ra_analysts : option (list string); ra_llm_provider : option string;
  ra_deep : option string; ra_quick : option string; ra_temperature : option float; ra_debate_rounds : option Z; ra_risk_rounds : option Z;
  ra_retry_count : option Z; ra_data_vendors : option (list (string * string)); ra_checkpoint : bool;
  ra_portfolio : option PortfolioContextIn; ra_context : option string
}.
Definition chosen_analysts (o : option (list string)) : list string := match o with Some (a :: l) => a :: l | _ => SUPPORTED_ANALYSTS end.
(** [repr] of a tuple of strings. *)
Definition tuple_repr (l : list string) : string :=
  match l with [x] => "(" +:+ str_repr x +:+ ",)" | _ => "(" +:+ String.concat ", " (map str_repr l) +:+ ")" end.
Definition no_category (m : string) : ConfigError := mkConfigError m None.
Definition unknown_analysts (l : list string) : list string := List.filter (fun a => negb (str_in a SUPPORTED_ANALYSTS)) l.
Definition vendor_error (e : string * string) : option ConfigError :=
  match find_key (fst e) SUPPORTED_DATA_VENDOR_CATEGORIES with
  | None => Some (no_category ("unsupported data vendor category " +:+ str_repr (fst e)))
  | Some allowed =>
      if str_in (snd e) allowed then None
      else Some (no_category ("unsupported vendor " +:+ str_repr (snd e) +:+ " for category " +:+ str_repr (fst e) +:+ "; supported: " +:+
                              tuple_repr allowed))
  end.
Definition first_error {A} (f : A -> option ConfigError) (l : list A) : option ConfigError := List.hd_error (omap f l).
(** The checks before anything of the framework is touched. *)
Definition run_args_error (a : RunArgs) : option ConfigError :=
  match unknown_analysts (chosen_analysts a.(ra_analysts)) with
  | _ :: _ as unknown =>
      Some (no_category ("unsupported analyst(s) " +:+ repr_list (sorted_set unknown) +:+ "; supported: " +:+ tuple_repr SUPPORTED_ANALYSTS))
  | [] =>
      if negb (in_range 0 10 a.(ra_retry_count)) then
        Some (no_category ("retry_count must be between 0 and 10, got " +:+ str_of_Z (default 0 a.(ra_retry_count))))
      else first_error vendor_error (default [] a.(ra_data_vendors))
  end.
Section run.
Context {agents : Agents} (ai : AIResearchSettings).
(** Options left out keep the framework's own defaults, [None] here. *)
Definition agent_config (a : RunArgs) : AgentConfig :=
  mkAgentConfig a.(ra_instrument) a.(ra_as_of_date) (chosen_analysts a.(ra_analysts))
    (match a.(ra_llm_provider) with Some p => str_or p ai.(ai_llm_provider) | None => ai.(ai_llm_provider) end)
    (or_none a.(ra_deep)) (or_none a.(ra_quick)) a.(ra_temperature) a.(ra_debate_rounds) a.(ra_risk_rounds) a.(ra_retry_count)
    (default [] a.(ra_data_vendors)) a.(ra_checkpoint) a.(ra_portfolio) a.(ra_context).
Inductive run_end : Type :=
| RunDone (report : ResearchReport)
| RunDisabled (message : string)
| RunError (e : ConfigError).
(** The nodes reported, and how the call ends. *)
Definition run_research (past : list agent_call) (a : RunArgs) : list string * run_end * list agent_call :=
  if negb ai.(ai_enabled) then
    ([], RunDisabled ("AI_RESEARCH_ENABLED is false -- research will not run. " +:+
                      "This is the default; set AI_RESEARCH_ENABLED=true to opt in."), past)
  else
    match run_args_error a with
    | Some e => ([], RunError e, past)
    | None =>
        if negb tradingagents_installed then ([], RunError (no_category "tradingagents package is not installed or importable: "), past)
        else
          let '(nodes, e) := agents_graph past (agent_config a) in
          (nodes, match e with
                  | Finished st signal => RunDone (report_of st signal)
                  | GraphRaised type_name message =>
                      RunError (mkConfigError ("TradingAgents research failed: " +:+ message) (_classify_provider_error type_name message))
                  end, past ++ [Ran (agent_config a)])
    end.

(** [settle_pending_decisions]: its outcome, an error or none. *)
Definition settle_pending_decisions (past : list agent_call) (ticker : string) : option ConfigError * list agent_call :=
  if negb ai.(ai_enabled) then (Some (no_category "AI_RESEARCH_ENABLED is false -- research will not run."), past)
  else if negb tradingagents_installed then (Some (no_category "tradingagents package is not installed or importable: "), past)
  else
    ((fun '(type_name, message) =>
        mkConfigError ("settling pending decisions for " +:+ str_repr ticker +:+ " failed: " +:+ message)
          (_classify_provider_error type_name message)) <$> settle_pending past ticker,
     past ++ [Settled ticker]).

(** ** The decision memory *)
Record MemoryEntry : Type := mkMemory {
  me_id : string; me_ticker : json; me_trade_date : json; me_rating : json; me_pending : bool; me_decision : json; me_reflection : json
}.
Definition memory_entry (e : json) : MemoryEntry :=
  let ticker := jget_or "ticker" (JStr "") e in
  let trade_date := jget_or "trade_date" (JStr "") e in
  mkMemory (py_str trade_date +:+ ":" +:+ py_str ticker) ticker trade_date (jget "rating" e) (jtruthy (jget "pending" e))
    (jget "decision" e) (jget "reflection" e).
(** The last [limit] entries; [limit] is positive. *)
Definition list_memory_entries (limit : nat) (log : list json) : list MemoryEntry :=
  map memory_entry (drop (List.length log - limit) log).
Definition MEMORY_LIMIT : N := 10000.
Definition get_memory_entry (id : string) (log : list json) : option MemoryEntry :=
  List.find (fun m => String.eqb m.(me_id) id) (list_memory_entries (N.to_nat MEMORY_LIMIT) log).
End run.

(** ** The grid of a backtest *)
Definition BACKTEST_FREQUENCY_DAYS : list (string * Z) := [("daily", 1); ("weekly", 7); ("monthly", 30)].
(** [strftime('%Y-%m-%d')]: the year is not padded. *)
Definition strftime_ymd (d : Z) : string :=
  let '(y, m, day) := ord2ymd d in
  str_of_Z y +:+ "-" +:+ pad_zeros 2 (str_of_Z m) +:+ "-" +:+ pad_zeros 2 (str_of_Z day).
Definition grid_date_error (value : string) : exn :=
  AIResearchConfigError ("grid dates must be in YYYY-MM-DD format, got " +:+ str_repr value).
Definition _canonical (value : string) : result exn Z :=
  match strptime "%Y-%m-%d" value with
  | None => Err (grid_date_error value)
  | Some t => let d := date_of t in if String.eqb (strftime_ymd d) value then Ok d else Err (grid_date_error value)
  end.
(** From [cursor] by steps, [n] of them. *)
Fixpoint stepped (n : nat) (cursor step : Z) : list Z := match n with O => [] | S k => cursor :: stepped k (cursor + step) step end.
Definition grid_days (start last step : Z) : list Z :=
  if last <? start then [] else stepped (Z.to_nat ((last - start) / step + 1)) start step.
Fixpoint filter_r {A} (f : A -> result exn bool) (l : list A) : result exn (list A) :=
  match l with
  | [] => Ok []
  | x :: r => let? b := f x in let? r := filter_r f r in Ok (if b then x :: r else r)
  end.
(** [today] is the UTC date. *)
Definition backtest_date_grid (today : Z) (start_date end_date frequency : string) (market : string) : result exn (list string) :=
  match find_key frequency BACKTEST_FREQUENCY_DAYS with
  | None => Err (AIResearchConfigError ("unsupported backtest frequency " +:+ str_repr frequency +:+ "; supported: ('daily', 'weekly', 'monthly')"))
  | Some step =>
      let? start := _canonical start_date in
      let? stop := _canonical end_date in
      if stop <? start then
        Err (AIResearchConfigError ("the grid ends before it starts: " +:+ end_date +:+ " is before " +:+ start_date))
      else
        let days := grid_days start (Z.min stop today) step in
        if String.eqb market "INDIA" then
          match filter_r is_trading_day days with
          | Ok days => Ok (map strftime_ymd days)
          | Err e => Err (match caught "CalendarCoverageError" e with Some m => AIResearchConfigError m | None => e end)
          end
        else Ok (map strftime_ymd days)
  end.

(** A timeout the SDK words as "timed out" has no category: the text is looked
    for in the name of the exception's type. *)
Example timed_out_is_unclassified :
  _classify_provider_error "APITimeoutError" "Request timed out." = None /\
  _classify_provider_error "ReadTimeout" "read timeout" = Some "PROVIDER_TIMEOUT".
Proof. split; reflexivity. Qed.
(** An entry of the memory dated under [date], as the evaluation reads it, is
    found under no date. *)
Example memory_date_key :
  let log := [JObj [("date", JStr "2026-02-25"); ("ticker", JStr "^NSEI"); ("rating", JStr "Buy")]] in
  get_memory_entry "2026-02-25:^NSEI" log = None /\ (me_rating <$> get_memory_entry ":^NSEI" log) = Some (JStr "Buy").
Proof. vm_compute. split; reflexivity. Qed.

(** ** The grid's lemmas *)
Lemma stepped_In n step : 0 < step -> forall c x, In x (stepped n c step) <-> exists k, 0 <= k < Z.of_nat n /\ x = c + k * step.
Proof.
  intros Hs. induction n as [|n IH]; intros c x; cbn [stepped In].
  - split; [intros [] | intros (k & Hk & _); lia].
  - rewrite IH. split.
    + intros [<- | (k & Hk & ->)]; [exists 0; lia | exists (k + 1); lia].
    + intros (k & Hk & ->). destruct (Z.eq_dec k 0) as [->|]; [left; lia | right; exists (k - 1); lia].
Qed.
Lemma stepped_sorted n step : 0 < step -> forall c, StronglySorted Z.lt (stepped n c step).
Proof.
  intros Hs. induction n as [|n IH]; intros c; cbn [stepped]; constructor; [apply IH|].
  apply List.Forall_forall. intros x Hx. apply stepped_In in Hx as (k & Hk & ->); nia.
Qed.
Lemma grid_days_spec start last step : 0 < step ->
  StronglySorted Z.lt (grid_days start last step) /\
  forall x, In x (grid_days start last step) <-> x <= last /\ exists k, 0 <= k /\ x = start + k * step.
Proof.
  intros Hs. unfold grid_days. destruct (last <? start) eqn:E.
  - apply Z.ltb_lt in E. split; [constructor|]. intros x. cbn. split; [easy|]. intros (Hx & k & Hk & ->). nia.
  - apply Z.ltb_ge in E. split; [now apply stepped_sorted|]. intros x. rewrite stepped_In by exact Hs.
    pose proof (Z.div_mod (last - start) step ltac:(lia)) as D. pose proof (Z.mod_pos_bound (last - start) step Hs) as B.
    pose proof (Z.div_pos (last - start) step ltac:(lia) Hs) as P. split.
    + intros (k & Hk & ->). split; [nia | exists k; lia].
    + intros (Hx & k & Hk & ->). exists k. split; [|reflexivity]. nia.
Qed.
Lemma filter_r_trading l l' : filter_r is_trading_day l = Ok l' -> l' = List.filter trades_on l.
Proof.
  revert l'. induction l as [|x l IH]; intros l'; cbn [filter_r List.filter]; [now intros [= <-]|].
  unfold rbind. destruct (is_trading_day x) as [b|] eqn:E; [|discriminate]. apply is_trading_day_Ok in E as [_ ->].
  destruct (filter_r is_trading_day l) as [r|]; [|discriminate]. intros [= <-]. now rewrite (IH r eq_refl).
Qed.
Lemma canonical_text v d : _canonical v = Ok d -> strftime_ymd d = v.
Proof. unfold _canonical. repeat case_match; try discriminate. intros [= <-]. now apply String.eqb_eq. Qed.
Lemma frequency_positive f step : find_key f BACKTEST_FREQUENCY_DAYS = Some step -> 0 < step.
Proof. intros H. apply find_key_In in H. cbn in H. repeat destruct H as [[= _ <-] | H]; lia || easy. Qed.

(** The dates of a backtest are the days reached from the start by whole
    steps of the frequency, up to the end and never past today; in the Indian
    market those among them that are trading days, none of them shifted; in
    order, each once. *)
Theorem grid_is_stepped today s e f m l : backtest_date_grid today s e f m = Ok l ->
  exists start stop step days, strftime_ymd start = s /\ strftime_ymd stop = e /\ start <= stop /\
    find_key f BACKTEST_FREQUENCY_DAYS = Some step /\ l = map strftime_ymd days /\ StronglySorted Z.lt days /\
    forall x, In x days <-> x <= stop /\ x <= today /\ (exists k, 0 <= k /\ x = start + k * step) /\ (m = "INDIA" -> trades_on x = true).
Proof.
  unfold backtest_date_grid. destruct (find_key f _) as [step|] eqn:F; [|discriminate].
  destruct (_canonical s) as [start|] eqn:S1; [|discriminate]. destruct (_canonical e) as [stop|] eqn:S2; [|discriminate]. cbn [rbind].
  destruct (stop <? start) eqn:L; [discriminate|]. apply Z.ltb_ge in L. pose proof (frequency_positive f step F) as Hs.
  destruct (grid_days_spec start (Z.min stop today) step Hs) as [G1 G2]. apply canonical_text in S1, S2.
  destruct (String.eqb m "INDIA") eqn:M.
  - destruct (filter_r is_trading_day _) as [days|] eqn:D; [|discriminate]. intros [= <-]. apply filter_r_trading in D as ->.
    exists start, stop, step. eexists. do 4 (split; [eassumption || reflexivity|]). split; [reflexivity|]. split; [now apply StronglySorted_filter|].
    intros x. rewrite List.filter_In, G2. apply String.eqb_eq in M. split; [intros [[H1 H2] T]; repeat split; auto; lia|].
    intros (H1 & H2 & H3 & T). split; [split; [lia | exact H3] | auto].
  - intros [= <-]. exists start, stop, step. eexists. do 4 (split; [eassumption || reflexivity|]). split; [reflexivity|]. split; [exact G1|].
    intros x. rewrite G2. apply String.eqb_neq in M. split; [intros [H1 H2]; repeat split; auto; lia || easy|].
    intros (H1 & H2 & H3 & _). split; [lia | exact H3].
Qed.
Lemma grid_is_stepped_witness :
  backtest_date_grid (ymd2ord 2026 4 30) "2026-03-27" "2026-04-17" "weekly" "INDIA" = Ok ["2026-03-27"; "2026-04-10"; "2026-04-17"] /\
  exists days, ["2026-03-27"; "2026-04-10"; "2026-04-17"] = map strftime_ymd days /\ StronglySorted Z.lt days.
Proof.
  assert (backtest_date_grid (ymd2ord 2026 4 30) "2026-03-27" "2026-04-17" "weekly" "INDIA" = Ok ["2026-03-27"; "2026-04-10"; "2026-04-17"])
    as E by (vm_compute; reflexivity).
  split; [exact E|]. destruct (grid_is_stepped _ _ _ _ _ _ E) as (a & b & c & days & _ & _ & _ & _ & M & S & _). exists days. split; [exact M | exact S].
Defined.
