(* ===== verification/ResearchDb.v ===== *)
(** * Research: the tables

    [trading/ai_research/models.py] and [backtest/models.py], and a session on
    them: each operation opens its own.  The commits of other connections run in
    between ([r_others]); a commit writes the attributes that were changed, by
    primary key, over whatever the row has become.  Instants are UTC
    microseconds. *)
From S2P Require Import Prelude PyStr PyFloat Json ResearchMarket ResearchSchema.

(** ** Rows *)
(** The columns a run is created with. *)
Record RunConfig : Type := mkRunConfig {
  rc_symbol : string; rc_research_date : Z; rc_depth : ResearchDepth; rc_market : option Market; rc_exchange : option Exchange;
  rc_canonical_id : option string; rc_currency : option string; rc_llm_provider : option string; rc_quick : option string;
  rc_deep : option string; rc_analysts : option (list AnalystKey); rc_data_vendors : option (list (string * string));
  rc_debate_rounds : option Z; rc_risk_rounds : option Z; rc_retry_count : option Z; rc_checkpoint : bool;
  rc_portfolio : option PortfolioContextIn; rc_created_at : Z
}.
Definition provenance : Type := list (string * json).
Record AIResearchRun : Type := mkRun {
  rn_id : string; rn_config : RunConfig; rn_status : ResearchJobStatus; rn_stage : ResearchStage; rn_current_stage : option string;
  rn_provenance : option provenance; rn_report : option ResearchReport; rn_error_category : option string;
  rn_error_message : option string; rn_started_at : option Z; rn_completed_at : option Z
}.
Record AIResearchStage : Type := mkStage {
  sg_id : Z; sg_run : string; sg_sequence : Z; sg_name : string; sg_status : NodeStageStatus; sg_started_at : option Z;
  sg_completed_at : option Z; sg_duration_ms : option Z
}.
Inductive BacktestFrequency : Type := B_DAILY | B_WEEKLY | B_MONTHLY.
Inductive BacktestJobStatus : Type := B_QUEUED | B_RUNNING | B_COMPLETED | B_FAILED | B_CANCELLED.
Inductive BacktestCellStatus : Type := C_PENDING | C_RUNNING | C_COMPLETED | C_FAILED.
#[global] Instance BacktestJobStatus_eq_dec : EqDecision BacktestJobStatus.
Proof. solve_decision. Defined.
#[global] Instance BacktestCellStatus_eq_dec : EqDecision BacktestCellStatus.
Proof. solve_decision. Defined.
Record DirectionalAccuracy : Type := mkAccuracy { da_count : Z; da_hit_rate : option float; da_mean_alpha : float }.
#[global] Instance DirectionalAccuracy_eq_dec : EqDecision DirectionalAccuracy.
Proof. solve_decision. Defined.
Record BacktestMetrics : Type := mkMetrics {
  total_decisions : Z; counts_by_decision : list (string * Z); bm_resolved : Z; pending_evaluation : Z; unscored : Z;
  by_decision : list (string * DirectionalAccuracy); overall_mean_alpha : option float; overall_median_alpha : option float;
  positive_decision_rate : option float; bm_holding_days : Z
}.
#[global] Instance BacktestMetrics_eq_dec : EqDecision BacktestMetrics.
Proof. solve_decision. Defined.
Record JobConfig : Type := mkJobConfig {
  jc_symbols : list string; jc_start_date : Z; jc_end_date : Z; jc_frequency : BacktestFrequency; jc_market : option Market;
  jc_analysts : option (list AnalystKey); jc_depth : ResearchDepth; jc_llm_provider : option string; jc_quick : option string;
  jc_deep : option string; jc_debate_rounds : option Z; jc_risk_rounds : option Z; jc_retry_count : option Z;
  jc_data_vendors : option (list (string * string)); jc_holding_days : Z; jc_total_runs : Z; jc_created_at : Z
}.
Record AIBacktestJob : Type := mkJob {
  bj_id : string; bj_config : JobConfig; bj_status : BacktestJobStatus; completed_runs : Z; failed_runs : Z;
  bj_current_symbol : option string; bj_current_date : option Z; cancel_requested : bool; bj_metrics : option BacktestMetrics;
  bj_error_message : option string; bj_started_at : option Z; bj_completed_at : option Z
}.
Record AIBacktestRun : Type := mkCell {
  ce_id : Z; ce_job : string; ce_symbol : string; ce_date : Z; ce_status : BacktestCellStatus; ce_research_id : option string;
  ce_raw_decision : option string; ce_normalized_decision : option string; ce_evaluation_status : option string;
  ce_raw_return : option float; ce_alpha_return : option float; ce_benchmark : option string; ce_holding_days : option Z;
  ce_resolution_date : option Z; ce_error_message : option string; ce_started_at : option Z; ce_completed_at : option Z
}.
Record RDb : Type := mkRDb {
  runs : list AIResearchRun; stages : list AIResearchStage; backtest_jobs : list AIBacktestJob; backtest_cells : list AIBacktestRun
}.
Definition on_runs f (d : RDb) : RDb := mkRDb (f d.(runs)) d.(stages) d.(backtest_jobs) d.(backtest_cells).
Definition on_stages f (d : RDb) : RDb := mkRDb d.(runs) (f d.(stages)) d.(backtest_jobs) d.(backtest_cells).
Definition on_jobs f (d : RDb) : RDb := mkRDb d.(runs) d.(stages) (f d.(backtest_jobs)) d.(backtest_cells).
Definition on_cells f (d : RDb) : RDb := mkRDb d.(runs) d.(stages) d.(backtest_jobs) (f d.(backtest_cells)).

(** ** Constraints *)
Definition sg_key (s : AIResearchStage) := (sg_run s, sg_sequence s).
Definition ce_key (c : AIBacktestRun) := (ce_job c, ce_symbol c, ce_date c).
Definition named_in {A} (key : A -> string) (rows : list A) (x : string) : bool := existsb (fun r => String.eqb (key r) x) rows.
Definition rdb_ok (d : RDb) : bool :=
  unique_on rn_id d.(runs) &&
  (unique_on sg_id d.(stages) && unique_on sg_key d.(stages) && forallb (fun s => named_in rn_id d.(runs) s.(sg_run)) d.(stages)) &&
  unique_on bj_id d.(backtest_jobs) &&
  (unique_on ce_id d.(backtest_cells) && unique_on ce_key d.(backtest_cells) &&
   forallb (fun c => named_in bj_id d.(backtest_jobs) c.(ce_job)) d.(backtest_cells)).

(** ** The session *)
(** [r_ticks]: how far the clock moves before each time it is read. *)
Record RWorld : Type := mkRWorld {
  r_db : RDb; r_others : list (RDb -> RDb); r_now : Z; r_ticks : list nat; r_uuids : list string; r_calls : list agent_call
}.
Definition RM (A : Type) : Type := M RWorld exn A.
Definition put_db (d : RDb) (others : list (RDb -> RDb)) (w : RWorld) : RWorld :=
  mkRWorld d others w.(r_now) w.(r_ticks) w.(r_uuids) w.(r_calls).
Definition settle (w : RWorld) : RWorld :=
  match w.(r_others) with
  | [] => w
  | o :: r => put_db (if rdb_ok (o w.(r_db)) then o w.(r_db) else w.(r_db)) r w
  end.
Definition query {A} (f : RDb -> A) : RM A := fun w => let w := settle w in (Ok (f w.(r_db)), w).
Definition commit_with (f : RDb -> RDb) : RM unit := fun w =>
  let w := settle w in
  let d := f w.(r_db) in
  if rdb_ok d then (Ok tt, put_db d w.(r_others) w) else (Err IntegrityError, w).
Definition utcnow : RM Z := fun w =>
  match w.(r_ticks) with
  | [] => (Ok w.(r_now), w)
  | k :: r => let t := w.(r_now) + Z.of_nat k in (Ok t, mkRWorld w.(r_db) w.(r_others) t r w.(r_uuids) w.(r_calls))
  end.
Definition uuid4 : RM string := fun w =>
  match w.(r_uuids) with
  | [] => (Ok "", w)
  | u :: r => (Ok u, mkRWorld w.(r_db) w.(r_others) w.(r_now) w.(r_ticks) r w.(r_calls))
  end.
(** The framework, called outside any transaction. *)
Definition on_agents {A} (f : list agent_call -> A * list agent_call) : RM A := fun w =>
  let '(a, calls) := f w.(r_calls) in (Ok a, mkRWorld w.(r_db) w.(r_others) w.(r_now) w.(r_ticks) w.(r_uuids) calls).

(** An attribute is written when the session changed it. *)
Definition changed {A} `{EqDecision A} (old new cur : A) : A := if decide (old = new) then cur else new.
Lemma changed_same {A} `{EqDecision A} (o n : A) : changed o n o = n.
Proof. unfold changed. now case_decide. Qed.
Lemma changed_none {A} `{EqDecision A} (o c : A) : changed o o c = c.
Proof. unfold changed. now rewrite decide_True. Qed.
