(* ===== verification/ResearchRuns.v ===== *)
(** * Research: runs

    [trading/ai_research/repository.py], [service.py], [jobs.py] and
    [router.py]: a run is recorded with its checklist of nodes, executed in the
    background, and ends COMPLETED or FAILED; a restart fails what it finds
    unfinished; a failed run can be submitted again.  Every operation reads its
    rows, then commits what it changed ([write_back]).  The semaphore of
    [_run_job] only delays when it has a slot to give, never gives one when it has
    none and cannot be made with a negative number of them; a timeout abandons the
    agents' thread, whose nodes go on being reported ([deadline]). *)
From S2P Require Import Prelude PyStr PyFloat Config Json PyTime MarketCache OptionsService ResearchMarket ResearchSchema ResearchDb.

(** ** Rows read and written back *)
Definition by_sequence (a b : AIResearchStage) : bool := sg_sequence a <=? sg_sequence b.
Definition stages_of (id : string) (d : RDb) : list AIResearchStage :=
  sort_by by_sequence (List.filter (fun s => String.eqb s.(sg_run) id) d.(stages)).
(** [db.get(AIResearchRun, id)] and its stages. *)
Definition run_of (id : string) (d : RDb) : option (AIResearchRun * list AIResearchStage) :=
  (fun r => (r, stages_of id d)) <$> List.find (fun r => String.eqb r.(rn_id) id) d.(runs).
Definition merge_run (o n c : AIResearchRun) : AIResearchRun :=
  mkRun c.(rn_id) c.(rn_config) (changed o.(rn_status) n.(rn_status) c.(rn_status)) (changed o.(rn_stage) n.(rn_stage) c.(rn_stage))
    (changed o.(rn_current_stage) n.(rn_current_stage) c.(rn_current_stage))
    (match n.(rn_provenance) with Some p => Some p | None => c.(rn_provenance) end)
    (changed o.(rn_report) n.(rn_report) c.(rn_report)) (changed o.(rn_error_category) n.(rn_error_category) c.(rn_error_category))
    (changed o.(rn_error_message) n.(rn_error_message) c.(rn_error_message))
    (changed o.(rn_started_at) n.(rn_started_at) c.(rn_started_at)) (changed o.(rn_completed_at) n.(rn_completed_at) c.(rn_completed_at)).
Definition merge_stage (o n c : AIResearchStage) : AIResearchStage :=
  mkStage c.(sg_id) c.(sg_run) c.(sg_sequence) c.(sg_name) (changed o.(sg_status) n.(sg_status) c.(sg_status))
    (changed o.(sg_started_at) n.(sg_started_at) c.(sg_started_at)) (changed o.(sg_completed_at) n.(sg_completed_at) c.(sg_completed_at))
    (changed o.(sg_duration_ms) n.(sg_duration_ms) c.(sg_duration_ms)).
Definition write_stage (old new : list AIResearchStage) (c : AIResearchStage) : AIResearchStage :=
  match List.find (fun p => sg_id (fst p) =? sg_id c) (List.combine old new) with
  | Some (o, n) => merge_stage o n c
  | None => c
  end.
Definition row : Type := AIResearchRun * list AIResearchStage.
Definition write_back (old new : row) (d : RDb) : RDb :=
  on_stages (map (write_stage (snd old) (snd new)))
    (on_runs (update_where (fun r => String.eqb r.(rn_id) (fst old).(rn_id)) (merge_run (fst old) (fst new))) d).
(** Load, change as of now, commit; nothing when the run is unknown or [f] leaves
    it alone. *)
Definition update_run (id : string) (f : Z -> row -> option row) : RM unit :=
  let! found := query (run_of id) in
  match found with
  | None => ret tt
  | Some old =>
      let! now := utcnow in
      match f now old with
      | None => ret tt
      | Some new => commit_with (write_back old new)
      end
  end.

(** ** [repository.py] *)
Definition set_status (st : NodeStageStatus) (started completed : option Z) (s : AIResearchStage) : AIResearchStage :=
  mkStage s.(sg_id) s.(sg_run) s.(sg_sequence) s.(sg_name) st started completed s.(sg_duration_ms).
Definition start_stage (now : Z) (s : AIResearchStage) : AIResearchStage := set_status N_RUNNING (Some now) s.(sg_completed_at) s.
Definition running (now : Z) (x : row) : option row :=
  let '(r, sgs) := x in
  let first_name := match sgs with s :: _ => Some s.(sg_name) | [] => r.(rn_current_stage) end in
  Some (mkRun r.(rn_id) r.(rn_config) J_RUNNING R_ANALYSTS first_name r.(rn_provenance) r.(rn_report) r.(rn_error_category)
          r.(rn_error_message) (Some now) r.(rn_completed_at),
        match sgs with s :: l => start_stage now s :: l | [] => [] end).
Definition mark_running (id : string) : RM unit := update_run id running.

Definition open_stage (s : AIResearchStage) : bool := bool_decide (s.(sg_status) = N_PENDING) || bool_decide (s.(sg_status) = N_RUNNING).
(** [int((now - started_at).total_seconds() * 1000)] *)
Definition duration_ms (now started : Z) : Z := default 0 (f_trunc (f_mul (total_seconds (now - started)) (f_of_Z 1000))).
Definition finish_stage (now : Z) (s : AIResearchStage) : AIResearchStage :=
  let started := default now s.(sg_started_at) in
  mkStage s.(sg_id) s.(sg_run) s.(sg_sequence) s.(sg_name) N_COMPLETED (Some started) (Some now) (Some (duration_ms now started)).
(** The first open stage of that name is completed and a pending successor
    starts; the current stage is then the successor. *)
Fixpoint complete_node (now : Z) (name : string) (l : list AIResearchStage) : option (list AIResearchStage * string) :=
  match l with
  | [] => None
  | s :: r =>
      if String.eqb s.(sg_name) name && open_stage s then
        match r with
        | n :: r' =>
            if bool_decide (n.(sg_status) = N_PENDING) then Some (finish_stage now s :: start_stage now n :: r', n.(sg_name))
            else Some (finish_stage now s :: r, name)
        | [] => Some ([finish_stage now s], name)
        end
      else (fun p => (s :: fst p, snd p)) <$> complete_node now name r
  end.
Definition node_complete (name : string) (now : Z) (x : row) : option row :=
  let '(r, sgs) := x in
  if negb (bool_decide (r.(rn_status) = J_RUNNING)) then None
  else
    '(sgs', current) ← complete_node now name sgs;
    Some (mkRun r.(rn_id) r.(rn_config) r.(rn_status) (default r.(rn_stage) (stage_bucket_for_node name)) (Some current) r.(rn_provenance)
            r.(rn_report) r.(rn_error_category) r.(rn_error_message) r.(rn_started_at) r.(rn_completed_at), sgs').
Definition mark_node_complete (id name : string) : RM unit := update_run id (node_complete name).

Definition settle_stage (now : Z) (s : AIResearchStage) : AIResearchStage :=
  if bool_decide (s.(sg_status) = N_COMPLETED) then s else set_status N_COMPLETED s.(sg_started_at) (Some now) s.
Definition completed (report : ResearchReport) (prov : option provenance) (now : Z) (x : row) : option row :=
  let '(r, sgs) := x in
  Some (mkRun r.(rn_id) r.(rn_config) J_COMPLETED R_COMPLETED r.(rn_current_stage)
          (match prov with Some p => Some p | None => r.(rn_provenance) end) (Some report) r.(rn_error_category) r.(rn_error_message)
          r.(rn_started_at) (Some now),
        map (settle_stage now) sgs).
(** The rollback leaves nothing behind; the error is raised again. *)
Definition mark_completed (id : string) (report : ResearchReport) (prov : option provenance) : RM unit :=
  update_run id (completed report prov).

Fixpoint fail_first (now : Z) (l : list AIResearchStage) : list AIResearchStage :=
  match l with
  | [] => []
  | s :: r =>
      if bool_decide (s.(sg_status) = N_RUNNING) then set_status N_FAILED s.(sg_started_at) (Some now) s :: r else s :: fail_first now r
  end.
Definition failed (error : string) (category : option string) (now : Z) (x : row) : option row :=
  let '(r, sgs) := x in
  Some (mkRun r.(rn_id) r.(rn_config) J_FAILED R_FAILED r.(rn_current_stage) r.(rn_provenance) r.(rn_report) category (Some error)
          r.(rn_started_at) (Some now), fail_first now sgs).
Definition mark_failed (id error : string) (category : option string) : RM unit := update_run id (failed error category).

(** *** Creation *)
Definition DEFAULT_ANALYSTS : list string := ["market"; "social"; "news"; "fundamentals"].
(** [[...] if request.selected_analysts else None] *)
Definition some_analysts (o : option (list AnalystKey)) : option (list AnalystKey) := match o with Some [] => None | _ => o end.
Definition config_of (q : ResearchRequestIn) (i : Instrument) (now : Z) : RunConfig :=
  mkRunConfig q.(rq_symbol) q.(rq_research_date) q.(rq_depth) (Some i.(market)) (Some i.(exchange)) (Some i.(canonical_id))
    (Some i.(currency)) q.(rq_llm_provider) q.(rq_quick_think_llm) q.(rq_deep_think_llm) (some_analysts q.(rq_selected_analysts))
    q.(rq_data_vendors) q.(rq_debate_rounds) q.(rq_risk_debate_rounds) q.(rq_retry_count) q.(rq_checkpoint_enabled) q.(rq_portfolio) now.
Definition queued_run (id : string) (c : RunConfig) : AIResearchRun := mkRun id c J_QUEUED R_QUEUED None None None None None None None.
Fixpoint pending_stages (run : string) (id seq : Z) (names : list string) : list AIResearchStage :=
  match names with
  | [] => []
  | n :: r => mkStage id run seq n N_PENDING None None None :: pending_stages run (id + 1) (seq + 1) r
  end.
Definition plan_of (q : ResearchRequestIn) : list string :=
  real_node_order (match some_analysts q.(rq_selected_analysts) with Some l => map analyst_value l | None => DEFAULT_ANALYSTS end).
Definition insert_run (r : AIResearchRun) (names : list string) (d : RDb) : RDb :=
  on_stages (fun rows => rows ++ pending_stages r.(rn_id) (next_id sg_id rows) 0 names) (on_runs (fun rows => rows ++ [r]) d).
(** The row as the API reads it. *)
Record ResearchJob : Type := mkResearchJob {
  rj_id : string; rj_symbol : string; rj_research_date : Z; rj_depth : ResearchDepth; rj_status : ResearchJobStatus; rj_created_at : Z;
  rj_stage : ResearchStage; rj_market : string; rj_exchange : string; rj_canonical_id : option string; rj_currency : string;
  rj_provenance : option provenance; rj_current_stage : option string; rj_node_stages : list AIResearchStage; rj_started_at : option Z;
  rj_completed_at : option Z; rj_report : option ResearchReport; rj_error : option string; rj_provider_error : option string
}.
Definition _row_to_job (x : row) : ResearchJob :=
  let '(r, sgs) := x in
  let c := r.(rn_config) in
  mkResearchJob r.(rn_id) c.(rc_symbol) c.(rc_research_date) c.(rc_depth) r.(rn_status) c.(rc_created_at) r.(rn_stage)
    (match c.(rc_market) with Some m => market_value m | None => "US" end)
    (match c.(rc_exchange) with Some e => exchange_value e | None => "GENERIC" end) c.(rc_canonical_id)
    (match c.(rc_currency) with Some s => str_or s "USD" | None => "USD" end) r.(rn_provenance) r.(rn_current_stage) sgs r.(rn_started_at)
    r.(rn_completed_at) r.(rn_report) r.(rn_error_message) r.(rn_error_category).
Definition create_run (q : ResearchRequestIn) : RM ResearchJob :=
  let! i := lift (resolve_instrument q.(rq_market) q.(rq_symbol)) in
  let! id := uuid4 in
  let! now := utcnow in
  let r := queued_run id (config_of q i now) in
  commit_with (insert_run r (plan_of q)) ;;;
  let! found := query (run_of id) in
  match found with Some x => ret (_row_to_job x) | None => raise (OtherError "InvalidRequestError" "Could not refresh instance") end.
Definition get_run (id : string) : RM (option ResearchJob) := let! x := query (run_of id) in ret (_row_to_job <$> x).
Definition _row_to_request (today : Z) (c : RunConfig) : result exn ResearchRequestIn :=
  ResearchRequest today
    (mkRequest c.(rc_symbol) c.(rc_research_date) c.(rc_depth) (default US c.(rc_market)) (some_analysts c.(rc_analysts)) c.(rc_llm_provider)
       c.(rc_deep) c.(rc_quick) None c.(rc_debate_rounds) c.(rc_risk_rounds) c.(rc_retry_count) c.(rc_data_vendors) c.(rc_checkpoint)
       c.(rc_portfolio)).
Definition get_request_for_resume (today : Z) (id : string) : RM (option (ResearchRequestIn * ResearchJobStatus)) :=
  let! x := query (run_of id) in
  match x with
  | None => ret None
  | Some (r, _) => let! q := lift (_row_to_request today r.(rn_config)) in ret (Some (q, r.(rn_status)))
  end.

(** *** Listing, recovery, retention *)
Record HistoryFilter : Type := mkFilter {
  hf_symbol : option string; hf_status : option ResearchJobStatus; hf_from : option Z; hf_to : option Z; hf_provider : option string
}.
Definition asked (o : option string) (p : string -> bool) : bool := match o with Some s => negb (truthy s) || p s | None => true end.
Definition listed_run (f : HistoryFilter) (r : AIResearchRun) : bool :=
  let c := r.(rn_config) in
  asked f.(hf_symbol) (fun s => String.eqb c.(rc_symbol) (upper s)) &&
  match f.(hf_status) with Some s => bool_decide (r.(rn_status) = s) | None => true end &&
  asked f.(hf_provider) (fun p => bool_decide (c.(rc_llm_provider) = Some p)) &&
  match f.(hf_from) with Some d => d <=? c.(rc_research_date) | None => true end &&
  match f.(hf_to) with Some d => c.(rc_research_date) <=? d | None => true end.
Definition newest_first (a b : AIResearchRun) : bool := rc_created_at (rn_config b) <=? rc_created_at (rn_config a).
Definition page_of {A} (page page_size : Z) (l : list A) : list A :=
  let page := Z.max page 1 in
  let size := Z.min (Z.max page_size 1) 200 in
  take (Z.to_nat size) (drop (Z.to_nat ((page - 1) * size)) l).
Definition list_runs (page page_size : Z) (f : HistoryFilter) : RM (list AIResearchRun * Z) :=
  let! total := query (fun d => Z.of_nat (List.length (List.filter (listed_run f) d.(runs)))) in
  let! rows := query (fun d => page_of page page_size (sort_by newest_first (List.filter (listed_run f) d.(runs)))) in
  ret (rows, total).

Definition unfinished (r : AIResearchRun) : bool := bool_decide (r.(rn_status) = J_QUEUED) || bool_decide (r.(rn_status) = J_RUNNING).
Definition interrupt_stage (now : Z) (s : AIResearchStage) : AIResearchStage :=
  if bool_decide (s.(sg_status) = N_RUNNING) then set_status N_FAILED s.(sg_started_at) (Some now) s else s.
Definition interrupted (now : Z) (x : row) : row :=
  let '(r, sgs) := x in
  (mkRun r.(rn_id) r.(rn_config) J_FAILED R_FAILED r.(rn_current_stage) r.(rn_provenance) r.(rn_report) (Some "INTERRUPTED")
     (Some ("Research was interrupted by a backend restart while " +:+
            (if bool_decide (r.(rn_status) = J_RUNNING) then "RUNNING" else "QUEUED") +:+ ".")) r.(rn_started_at) (Some now),
   map (interrupt_stage now) sgs).
Definition recover_interrupted_jobs : RM Z :=
  let! stale := query (fun d => map (fun r => (r, stages_of r.(rn_id) d)) (List.filter unfinished d.(runs))) in
  let! now := utcnow in
  commit_with (fun d => fold_left (fun d old => write_back old (interrupted now old) d) stale d) ;;;
  ret (Z.of_nat (List.length stale)).
(** Deleting a run deletes its stages. *)
Definition purge_older_than (retention_days : Z) : RM Z :=
  if retention_days <=? 0 then ret 0
  else
    let! now := utcnow in
    let cutoff := now - retention_days * US_PER_DAY in
    let! old := query (fun d => map rn_id (List.filter (fun r => rc_created_at (rn_config r) <? cutoff) d.(runs))) in
    commit_with (fun d => on_stages (delete_where (fun s => str_in s.(sg_run) old)) (on_runs (delete_where (fun r => str_in r.(rn_id) old)) d)) ;;;
    ret (Z.of_nat (List.length old)).

(** ** [service.py] *)
Definition is_enabled (ai : AIResearchSettings) : bool := ai.(ai_enabled) && ai.(ai_workloads_enabled).
(** [NonTradingDateError] carries the validation. *)
Inductive submission : Type := Submitted (job : ResearchJob) | NonTradingDate (v : TradingDateValidation).
Definition submit_research (ai : AIResearchSettings) (q : ResearchRequestIn) : RM submission :=
  if negb (is_enabled ai) then raise (AIResearchDisabledError "AI_RESEARCH_ENABLED is false")
  else
    let! _ := lift (resolve_instrument q.(rq_market) q.(rq_symbol)) in
    match q.(rq_market) with
    | US => let! job := create_run q in ret (Submitted job)
    | INDIA =>
        let! v := lift (validate_research_date q.(rq_research_date)) in
        if v.(td_is_valid) then let! job := create_run q in ret (Submitted job) else ret (NonTradingDate v)
    end.
Definition ResumeNotAllowedError (m : string) : exn := OtherError "ResumeNotAllowedError" m.
Definition resume_research (ai : AIResearchSettings) (today : Z) (id : string) : RM (submission * bool) :=
  let! found := get_request_for_resume today id in
  match found with
  | None => raise (ResumeNotAllowedError ("unknown research_id: " +:+ PyParse.str_repr id))
  | Some (q, st) =>
      if negb (bool_decide (st = J_FAILED)) then
        raise (ResumeNotAllowedError ("only a FAILED job may be resumed (current status: " +:+ job_status_value st +:+ ")"))
      else let! new := submit_research ai q in ret (new, q.(rq_checkpoint_enabled))
  end.

(** *** The background job *)
(** The two context builders, and when the time runs out: after how many nodes,
    if it does. *)
Class JobEnv : Type := {
  data_context : Instrument -> Z -> result exn (option string * provenance);
  options_context : string -> Z -> result exn (option string * json);
  deadline : AgentConfig -> option nat
}.
(** Market data, then options for the NIFTY; what fails is left out. *)
Definition set_key (k : string) (v : json) (p : provenance) : provenance := MarketCache.dset String.eqb k v p.
Definition gather_context {je : JobEnv} (i : Instrument) (q : ResearchRequestIn) : option string * option provenance :=
  match q.(rq_market) with
  | US => (None, None)
  | INDIA =>
      let '(text, prov) := match data_context i q.(rq_research_date) with Ok (t, p) => (t, Some p) | Err _ => (None, None) end in
      if negb (String.eqb i.(canonical_id) "NIFTY_50") then (text, prov)
      else
        match options_context "NIFTY" q.(rq_research_date) with
        | Err _ => (text, prov)
        | Ok (options, options_prov) =>
            (if opt_truthy options then Some (String.concat (newline +:+ newline) (omap or_none [text; options])) else text,
             Some (set_key "options_intelligence" options_prov (default [] prov)))
        end
  end.
Definition args_of (q : ResearchRequestIn) (provider_symbol : string) (temperature : option float) (checkpoint : bool)
    (portfolio : option PortfolioContextIn) (context : option string) : RunArgs :=
  mkRunArgs provider_symbol (isoformat q.(rq_research_date)) (map analyst_value <$> some_analysts q.(rq_selected_analysts))
    q.(rq_llm_provider) q.(rq_deep_think_llm) q.(rq_quick_think_llm) temperature (Some (resolved_debate_rounds q))
    (Some (resolved_risk_debate_rounds q)) q.(rq_retry_count) q.(rq_data_vendors) checkpoint portfolio context.
Definition on_node_complete (id name : string) : RM unit := try_except (mark_node_complete id name) (fun _ => ret tt).
Definition _sanitize_error (m : string) : string := str_take 1000 m.
Section job.
Context {agents : Agents} {je : JobEnv} (ai : AIResearchSettings).
Definition end_job (id : string) (prov : option provenance) (e : run_end) : RM unit :=
  match e with
  | RunDone report => try_except (mark_completed id report prov) (fun _ => ret tt)
  | RunError e => mark_failed id (_sanitize_error e.(ce_message)) e.(ce_provider_error)
  | RunDisabled m => mark_failed id (_sanitize_error m) None
  end.
(** What remains once the agents have answered, or run out of time. *)
Definition wind_up (id : string) (prov : option provenance) (nodes : list string) (e : run_end) (out : option nat) : RM unit :=
  match out with
  | None => for_each nodes (on_node_complete id) ;;; end_job id prov e
  | Some k =>
      for_each (take k nodes) (on_node_complete id) ;;;
      mark_failed id ("research timed out after " +:+ str_of_Z ai.(timeout_seconds) +:+ "s") (Some "TIMEOUT") ;;;
      for_each (drop k nodes) (on_node_complete id)
  end.
(** [_get_semaphore] refuses a negative size; with no slot at all the job waits
    for ever and does nothing; with slots it waits until one is free. *)
Definition _run_job (id : string) (q : ResearchRequestIn) : RM unit :=
  if ai.(max_concurrent) <? 0 then raise (ValueError "Semaphore initial value must be >= 0")
  else if ai.(max_concurrent) =? 0 then ret tt
  else
  mark_running id ;;;
  let! i := lift (resolve_instrument q.(rq_market) q.(rq_symbol)) in
  let! provider_symbol := lift (to_tradingagents_symbol i) in
  let '(context, prov) := gather_context i q in
  let a := args_of q provider_symbol q.(rq_temperature) q.(rq_checkpoint_enabled) q.(rq_portfolio) context in
  let! ran := on_agents (fun past => let '(nodes, e, calls) := run_research ai past a in ((nodes, e), calls)) in
  let '(nodes, e) := ran in
  wind_up id prov nodes e (deadline (agent_config ai a)).
End job.

(** ** [router.py]: the handlers behind the VIEW guard *)
Definition NOT_FOUND : Z := 404.
Definition CONFLICT : Z := 409.
(** [None] is the answer that research is disabled; [NonTradingDate] the refusal
    that carries the reason and the neighbouring trading days. *)
Definition submit_research_route (ai : AIResearchSettings) (q : ResearchRequestIn) : RM (option submission) :=
  if negb (is_enabled ai) then ret None
  else
    try_except (let! s := submit_research ai q in ret (Some s))
      (fun e => raise (match caught "InvalidSymbolError" e with Some m => HTTPException UNPROCESSABLE m | None => e end)).
Definition known (id : string) (x : option ResearchJob) : RM ResearchJob :=
  match x with Some job => ret job | None => raise (HTTPException NOT_FOUND ("unknown research_id: " +:+ PyParse.str_repr id)) end.
Definition get_research (ai : AIResearchSettings) (id : string) : RM (option ResearchJob) :=
  if negb (is_enabled ai) then ret None else let! x := get_run id in let! job := known id x in ret (Some job).
(** A failed date of a resumed request is not caught. *)
Definition NonTradingDateError (v : TradingDateValidation) : exn := OtherError "NonTradingDateError" (default "None" v.(td_reason)).
Definition resume_research_route (ai : AIResearchSettings) (today : Z) (id : string) : RM (option (ResearchJob * bool)) :=
  if negb (is_enabled ai) then ret None
  else
    try_except
      (let! found := resume_research ai today id in
       match fst found with
       | Submitted job => ret (Some (job, snd found))
       | NonTradingDate v => raise (NonTradingDateError v)
       end)
      (fun e => raise (match caught "ResumeNotAllowedError" e with Some m => HTTPException CONFLICT m | None => e end)).
Definition get_research_status : AIResearchSettings -> string -> RM (option ResearchJob) := get_research.
Definition get_history (ai : AIResearchSettings) (page page_size : Z) (f : HistoryFilter) : RM (option (list AIResearchRun * Z)) :=
  if negb (is_enabled ai) then ret None else let! x := list_runs page page_size f in ret (Some x).
(** The memory, of the decision log as it is. *)
Definition get_memory_list (ai : AIResearchSettings) (log : list json) (limit : Z) : option (list MemoryEntry) :=
  if negb (is_enabled ai) then None else Some (list_memory_entries (Z.to_nat (Z.min (Z.max limit 1) 200)) log).
Definition get_memory_one (ai : AIResearchSettings) (log : list json) (memory_id : string) : result exn (option MemoryEntry) :=
  if negb (is_enabled ai) then Ok None
  else
    match get_memory_entry memory_id log with
    | Some m => Ok (Some m)
    | None => Err (HTTPException NOT_FOUND ("unknown memory_id: " +:+ PyParse.str_repr memory_id))
    end.

(** ** What a write leaves *)
Definition rw_ok (w : RWorld) : Prop := rdb_ok w.(r_db) = true.
(** The rows' keys decide the constraints. *)
Definition same_keys (d d' : RDb) : Prop :=
  map rn_id d'.(runs) = map rn_id d.(runs) /\ map (fun s => (sg_id s, sg_key s)) d'.(stages) = map (fun s => (sg_id s, sg_key s)) d.(stages) /\
  d'.(backtest_jobs) = d.(backtest_jobs) /\ d'.(backtest_cells) = d.(backtest_cells).
Lemma named_in_keys {A} (key : A -> string) rows x : named_in key rows x = str_in x (map key rows).
Proof. unfold named_in, str_in. induction rows as [|r l IH]; cbn; [reflexivity|]. now rewrite IH, String.eqb_sym. Qed.
Lemma forallb_map {A B} (f : A -> B) p l : forallb p (map f l) = forallb (fun x => p (f x)) l.
Proof. induction l; cbn; [reflexivity | now f_equal]. Qed.
Lemma same_keys_ok d d' : same_keys d d' -> rdb_ok d' = rdb_ok d.
Proof.
  intros (K1 & K2 & K3 & K4). unfold rdb_ok, unique_on. rewrite K1, K3, K4.
  assert (map sg_id (stages d') = map sg_id (stages d)) as -> by (apply (f_equal (map fst)) in K2; now rewrite !map_map in K2).
  assert (map sg_key (stages d') = map sg_key (stages d)) as E by (apply (f_equal (map snd)) in K2; now rewrite !map_map in K2).
  assert (forall l : list (string * Z), forallb (fun k => named_in rn_id (runs d') (fst k)) l = forallb (fun k => named_in rn_id (runs d) (fst k)) l) as N.
  { induction l as [|k l IH]; cbn; [reflexivity|]. now rewrite IH, !named_in_keys, K1. }
  change (fun s => named_in rn_id (runs d') (sg_run s)) with (fun s => named_in rn_id (runs d') (fst (sg_key s))).
  change (fun s => named_in rn_id (runs d) (sg_run s)) with (fun s => named_in rn_id (runs d) (fst (sg_key s))).
  rewrite <- (forallb_map sg_key (fun k => named_in rn_id (runs d') (fst k))), <- (forallb_map sg_key (fun k => named_in rn_id (runs d) (fst k))), E, N.
  reflexivity.
Qed.
Lemma write_stage_keys old new c : sg_id (write_stage old new c) = sg_id c /\ sg_key (write_stage old new c) = sg_key c.
Proof. unfold write_stage. destruct (List.find _ _) as [[o n]|]; now split. Qed.
Lemma write_back_keys old new d : same_keys d (write_back old new d).
Proof.
  unfold write_back, same_keys. cbn. repeat split.
  - unfold update_where. rewrite map_map. apply map_ext. intros r. now destruct (String.eqb _ _).
  - rewrite map_map. apply map_ext. intros s. now destruct (write_stage_keys (snd old) (snd new) s) as [-> ->].
Qed.

(** Another run's rows stay; this run's become what was computed. *)
Lemma find_update {A} (p q : A -> bool) (f : A -> A) l : (forall x, In x l -> q (f x) = q x) -> (forall x, q x = true -> p x = true -> f x = x) ->
  List.find q (update_where p f l) = List.find q l.
Proof.
  unfold update_where. intros K1 K2. induction l as [|x l IH]; [reflexivity|]. cbn [map List.find].
  assert (q (if p x then f x else x) = q x) as ->. { destruct (p x); [apply K1; now left | reflexivity]. }
  destruct (q x) eqn:Q; [|apply IH; intros; apply K1; now right]. destruct (p x) eqn:E; [now rewrite K2 | reflexivity].
Qed.
Lemma filter_map_keep {A} (p : A -> bool) (f : A -> A) l : (forall x, p (f x) = p x) -> List.filter p (map f l) = map f (List.filter p l).
Proof. intros H. induction l as [|x l IH]; [reflexivity|]. cbn. rewrite H, IH. now destruct (p x). Qed.
Lemma insert_by_map {A} (leb : A -> A -> bool) (f : A -> A) x l : (forall a b, leb (f a) (f b) = leb a b) ->
  insert_by leb (f x) (map f l) = map f (insert_by leb x l).
Proof. intros H. induction l as [|y l IH]; cbn; [reflexivity|]. rewrite H. destruct (leb x y); cbn; [reflexivity | now rewrite IH]. Qed.
Lemma sort_by_map {A} (leb : A -> A -> bool) (f : A -> A) l : (forall a b, leb (f a) (f b) = leb a b) -> sort_by leb (map f l) = map f (sort_by leb l).
Proof. intros H. induction l as [|x l IH]; cbn; [reflexivity|]. now rewrite IH, insert_by_map. Qed.
Lemma stages_of_write id old new d : stages_of id (write_back old new d) = map (write_stage (snd old) (snd new)) (stages_of id d).
Proof.
  unfold stages_of, write_back. cbn. rewrite filter_map_keep, sort_by_map; [reflexivity| |].
  - intros a b. unfold by_sequence. destruct (write_stage_keys (snd old) (snd new) a) as [_ [= _ ->]].
    now destruct (write_stage_keys (snd old) (snd new) b) as [_ [= _ ->]].
  - intros s. now destruct (write_stage_keys (snd old) (snd new) s) as [_ [= -> _]].
Qed.
Definition same_stage (o n : AIResearchStage) : Prop := sg_id n = sg_id o /\ sg_key n = sg_key o /\ sg_name n = sg_name o.
(** What an operation computes keeps the rows' identity. *)
Definition keeps_rows (x y : row) : Prop :=
  (fst y).(rn_id) = (fst x).(rn_id) /\ (fst y).(rn_config) = (fst x).(rn_config) /\
  ((fst y).(rn_provenance) = None -> (fst x).(rn_provenance) = None) /\ Forall2 same_stage (snd x) (snd y).
Lemma merge_run_new o n : n.(rn_id) = o.(rn_id) -> n.(rn_config) = o.(rn_config) -> (n.(rn_provenance) = None -> o.(rn_provenance) = None) ->
  merge_run o n o = n.
Proof.
  destruct n as [a b c e f p g h i j k]. cbn. intros -> -> K. unfold merge_run. cbn. rewrite !changed_same. f_equal.
  destruct p; [reflexivity | now apply K].
Qed.
Lemma merge_stage_new o n : same_stage o n -> merge_stage o n o = n.
Proof. destruct n. intros (H1 & [= H2 H3] & H4). cbn in *. subst. unfold merge_stage. cbn. now rewrite !changed_same. Qed.
Lemma find_pair {A B} (id : A -> Z) (l : list A) (l' : list B) (R : A -> B -> Prop) : NoDup (map id l) -> Forall2 R l l' ->
  Forall2 (fun a b => List.find (fun p => id (fst p) =? id a) (List.combine l l') = Some (a, b)) l l'.
Proof.
  intros N F. revert N. induction F as [|a b l l' _ F IH]; cbn; intros N; [constructor|]. apply NoDup_cons in N as [Na N]. constructor.
  - now rewrite Z.eqb_refl.
  - specialize (IH N). assert (Forall (fun x => id a <> id x) l) as D.
    { apply List.Forall_forall. intros x Hx E. apply Na. rewrite E. apply list_elem_of_In, in_map, Hx. }
    clear -IH D. set (cs := List.combine l l') in *. clearbody cs. induction IH; [constructor|].
    apply Forall_cons in D as [D1 D2]. constructor; [|auto]. apply Z.eqb_neq in D1. now rewrite D1.
Qed.
Lemma write_stages_new old new : NoDup (map sg_id old) -> Forall2 same_stage old new -> map (write_stage old new) old = new.
Proof.
  intros N F. pose proof (find_pair sg_id old new same_stage N F) as P. revert P. unfold write_stage.
  generalize (List.combine old new) as cs. intros cs P. clear N. induction F as [|a b l l' S F IH]; [reflexivity|].
  inversion P as [|? ? ? ? P1 P2]; subst. cbn. rewrite P1, merge_stage_new by exact S. f_equal. now apply IH.
Qed.
Lemma rdb_ok_runs d : rdb_ok d = true -> NoDup (map rn_id d.(runs)) /\ NoDup (map sg_id d.(stages)).
Proof.
  unfold rdb_ok, unique_on. rewrite !andb_true_iff. intros [[[H1 [[H2 _] _]] _] _]. apply bool_decide_eq_true in H1, H2. now split.
Qed.
Lemma NoDup_sort_filter {A} (id : A -> Z) leb p l : NoDup (map id l) -> NoDup (map id (sort_by leb (List.filter p l))).
Proof.
  intros N. assert (map id (sort_by leb (List.filter p l)) ≡ₚ map id (List.filter p l)) as -> by now rewrite sort_by_Permutation.
  induction l as [|x l IH]; cbn in *; [constructor|]. apply NoDup_cons in N as [N1 N2]. destruct (p x); [|auto]. cbn. constructor; [|auto].
  intros H. apply N1. apply list_elem_of_In, in_map_iff in H as (y & E & Hy). apply List.filter_In in Hy as [Hy _].
  apply list_elem_of_In, in_map_iff. eauto.
Qed.
Lemma write_back_view id old new d : rdb_ok d = true -> run_of id d = Some old -> keeps_rows old new -> run_of id (write_back old new d) = Some new.
Proof.
  intros Hd V (K1 & K2 & K3 & K4). apply rdb_ok_runs in Hd as [N1 N2]. unfold run_of in *. rewrite stages_of_write.
  destruct (List.find _ (runs d)) as [r|] eqn:F; [|discriminate]. injection V as <-. cbn [fst snd] in *.
  assert (List.find (fun r => String.eqb (rn_id r) id) (runs (write_back (r, stages_of id d) new d)) = Some (fst new)) as ->.
  { unfold write_back. cbn. unfold update_where. revert F. clear -K1 K2 K3. induction (runs d) as [|x l IH]; [discriminate|].
    cbn [map List.find]. destruct (String.eqb (rn_id x) id) eqn:E.
    - intros [= ->]. rewrite String.eqb_refl. cbn. rewrite E. f_equal. now apply merge_run_new.
    - intros F. assert ((if String.eqb (rn_id x) (rn_id r) then merge_run r (fst new) x else x).(rn_id) = rn_id x) as -> by (destruct (String.eqb (rn_id x) (rn_id r)); reflexivity).
      rewrite E. now apply IH. }
  cbn. rewrite write_stages_new; [now destruct new | unfold stages_of; now apply NoDup_sort_filter | exact K4].
Qed.

(** ** One operation *)
(** The commits of the other connections leave run [id] alone. *)
Definition spares (id : string) (o : RDb -> RDb) : Prop := forall d, run_of id (o d) = run_of id d.
Record owned (id : string) (w : RWorld) (x : row) : Prop := {
  ow_ok : rw_ok w; ow_spared : Forall (spares id) w.(r_others); ow_row : run_of id w.(r_db) = Some x
}.
Lemma settle_owned id w x : owned id w x -> owned id (settle w) x.
Proof.
  intros [Hok Hs Hv]. unfold settle. destruct (r_others w) as [|o r] eqn:E; [now split; [| rewrite E |]|].
  apply Forall_cons in Hs as [Ho Hr]. destruct (rdb_ok (o (r_db w))) eqn:D; split; cbn; auto. now rewrite Ho.
Qed.
Lemma r_settle_keeps w : r_now (settle w) = r_now w /\ r_calls (settle w) = r_calls w.
Proof. unfold settle. now destruct (r_others w). Qed.
(** It leaves the world's clock not behind, and calls nothing. *)
Definition later_than (w w' : RWorld) : Prop := w.(r_now) <= w'.(r_now) /\ w'.(r_calls) = w.(r_calls).
#[global] Instance later_preorder : PreOrder later_than.
Proof. unfold later_than. split; [intros w; split; [lia | reflexivity]|]. intros a b c [H1 H2] [K1 K2]. split; [lia | congruence]. Qed.
Lemma settle_later w : later_than w (settle w).
Proof. destruct (r_settle_keeps w) as [H1 H2]. split; [lia | exact H2]. Qed.
Lemma utcnow_owned id w x : owned id w x -> let '(r, w') := utcnow w in
  exists t, r = Ok t /\ w.(r_now) <= t /\ owned id w' x /\ later_than w w' /\ w'.(r_now) = t.
Proof.
  intros [Hok Hs Hv]. unfold utcnow. destruct (r_ticks w); eexists; (split; [reflexivity|]); cbn; repeat split; auto; cbn; lia.
Qed.
Lemma update_run_owned id f w x : owned id w x -> (forall now y, f now x = Some y -> keeps_rows x y) ->
  let '(r, w') := update_run id f w in
  r = Ok tt /\ later_than w w' /\ exists t, w.(r_now) <= t <= w'.(r_now) /\ owned id w' (default x (f t x)).
Proof.
  intros Ho K. unfold update_run, query, bind. pose proof (settle_owned id w x Ho) as O1. pose proof (settle_later w) as L1.
  destruct O1 as [Hok Hs Hv]. rewrite Hv. pose proof (utcnow_owned id (settle w) x (Build_owned _ _ _ Hok Hs Hv)) as U.
  destruct (utcnow (settle w)) as [r w1]. destruct U as (t & -> & Ht & O2 & L2 & Nt). destruct (f t x) as [y|] eqn:F; cbn.
  - pose proof (settle_owned id w1 x O2) as [Hok3 Hs3 Hv3]. pose proof (settle_later w1) as L3. unfold commit_with.
    rewrite (same_keys_ok (r_db (settle w1))), Hok3 by apply write_back_keys. cbn.
    split; [reflexivity|]. split; [etransitivity; [exact L1|]; etransitivity; [exact L2|]; exact L3|].
    exists t. rewrite F. cbn. destruct L1 as [L1 _], L3 as [L3 _]. split; [lia|].
    split; [unfold rw_ok; cbn; rewrite (same_keys_ok (r_db (settle w1))); [exact Hok3 | apply write_back_keys] | exact Hs3 |].
    cbn. apply write_back_view; [exact Hok3 | exact Hv3 | exact (K t y F)].
  - split; [reflexivity|]. split; [etransitivity; [exact L1 | exact L2]|]. exists t. rewrite F. cbn. destruct L1 as [L1 _]. split; [lia | exact O2].
Qed.

(** ** What each operation computes *)
Lemma same_stages l : Forall2 same_stage l l.
Proof. induction l; constructor; [now split | assumption]. Qed.
Lemma same_stages_map f l : (forall s, same_stage s (f s)) -> Forall2 same_stage l (map f l).
Proof. intros H. induction l; constructor; auto. Qed.
Lemma running_keeps now x y : running now x = Some y -> keeps_rows x y.
Proof.
  destruct x as [r sgs]. intros [= <-]. repeat split; auto. cbn. destruct sgs; constructor; [now split | apply same_stages].
Qed.
Lemma complete_node_keeps now name l l' c : complete_node now name l = Some (l', c) -> Forall2 same_stage l l'.
Proof.
  revert l' c. induction l as [|s r IH]; intros l' c; cbn [complete_node]; [discriminate|]. destruct (_ && _).
  - destruct r as [|n r]; [|destruct (bool_decide _)]; intros [= <- _]; repeat constructor; try apply same_stages.
  - destruct (complete_node now name r) as [[k d]|]; [|discriminate]. intros [= <- _]. constructor; [now split | eapply IH; reflexivity].
Qed.
(** A node's end is recorded while the run is RUNNING and touches neither its
    status nor its result. *)
Lemma node_complete_run name now r sgs y : node_complete name now (r, sgs) = Some y ->
  keeps_rows (r, sgs) y /\ r.(rn_status) = J_RUNNING /\ (fst y).(rn_status) = J_RUNNING /\ (fst y).(rn_report) = r.(rn_report) /\
  (fst y).(rn_error_message) = r.(rn_error_message) /\ (fst y).(rn_error_category) = r.(rn_error_category) /\
  (fst y).(rn_provenance) = r.(rn_provenance) /\ (fst y).(rn_started_at) = r.(rn_started_at).
Proof.
  unfold node_complete. destruct (bool_decide _) eqn:B; [|discriminate]. apply bool_decide_eq_true in B. cbn.
  destruct (complete_node now name sgs) as [[l c]|] eqn:C; [|discriminate]. intros [= <-]. cbn. repeat split; auto.
  eapply complete_node_keeps; exact C.
Qed.
Lemma completed_keeps rep prov now x y : completed rep prov now x = Some y -> keeps_rows x y.
Proof.
  destruct x as [r sgs]. intros [= <-]. repeat split; cbn; [now destruct prov|]. apply same_stages_map. intros s. unfold settle_stage.
  destruct (bool_decide _); now split.
Qed.
Lemma fail_first_keeps now l : Forall2 same_stage l (fail_first now l).
Proof. induction l as [|s r IH]; cbn; [constructor|]. destruct (bool_decide _); constructor; try exact IH; try apply same_stages; now split. Qed.
Lemma failed_keeps e c now x y : failed e c now x = Some y -> keeps_rows x y.
Proof. destruct x as [r sgs]. intros [= <-]. repeat split; auto. apply fail_first_keeps. Qed.

(** ** The nodes of a run *)
Definition on_row (id : string) {A} (m : RM A) (w : RWorld) (x : row) (P : row -> Prop) : Prop :=
  let '(r, w') := m w in is_ok r = true /\ later_than w w' /\ exists y, owned id w' y /\ P y.
(** What nodes may change: the checklist of a RUNNING run. *)
Record by_nodes (x y : row) : Prop := {
  bn_keeps : keeps_rows x y; bn_status : (fst y).(rn_status) = (fst x).(rn_status); bn_report : (fst y).(rn_report) = (fst x).(rn_report);
  bn_provenance : (fst y).(rn_provenance) = (fst x).(rn_provenance); bn_started : (fst y).(rn_started_at) = (fst x).(rn_started_at);
  bn_idle : (fst x).(rn_status) <> J_RUNNING -> y = x
}.
Lemma keeps_rows_refl x : keeps_rows x x.
Proof. repeat split; auto. apply same_stages. Qed.
Lemma keeps_rows_trans x y z : keeps_rows x y -> keeps_rows y z -> keeps_rows x z.
Proof.
  intros (A1 & A2 & A3 & A4) (B1 & B2 & B3 & B4). repeat split; [congruence | congruence | auto |].
  revert B4. generalize (snd z). induction A4 as [|a b l l' S _ IH]; intros k F; inversion F as [|? ? ? ? S' F']; subst; constructor; [|auto].
  destruct S as (? & ? & ?), S' as (? & ? & ?). repeat split; congruence.
Qed.
Lemma by_nodes_refl x : by_nodes x x.
Proof. split; auto. apply keeps_rows_refl. Qed.
Lemma by_nodes_trans x y z : by_nodes x y -> by_nodes y z -> by_nodes x z.
Proof.
  intros [A1 A2 A3 A4 A5 A6] [B1 B2 B3 B4 B5 B6]. split; try congruence; [eapply keeps_rows_trans; eauto|].
  intros N. rewrite (B6 ltac:(congruence)). now apply A6.
Qed.
Lemma node_by_nodes name now x y : node_complete name now x = Some y -> by_nodes x y.
Proof.
  destruct x as [r sgs]. intros H. apply node_complete_run in H as (K & S & S' & R & _ & _ & P & St). split; cbn; auto; try congruence.
Qed.
Lemma on_node_owned id name w x : owned id w x -> on_row id (on_node_complete id name) w x (by_nodes x).
Proof.
  intros Ho. unfold on_row, on_node_complete, mark_node_complete, try_except.
  pose proof (update_run_owned id (node_complete name) w x Ho (fun now y H => bn_keeps _ _ (node_by_nodes _ _ _ _ H))) as U.
  destruct (update_run id _ w) as [r w']. destruct U as (-> & L & t & _ & O). split; [reflexivity|]. split; [exact L|].
  exists (default x (node_complete name t x)). split; [exact O|]. destruct (node_complete name t x) as [y|] eqn:E; [|apply by_nodes_refl].
  exact (node_by_nodes _ _ _ _ E).
Qed.
Lemma nodes_owned id names : forall w x, owned id w x -> on_row id (for_each names (on_node_complete id)) w x (by_nodes x).
Proof.
  induction names as [|n l IH]; intros w x Ho; cbn [for_each].
  - cbn. split; [reflexivity|]. split; [reflexivity|]. exists x. split; [exact Ho | apply by_nodes_refl].
  - unfold on_row, bind. pose proof (on_node_owned id n w x Ho) as U. unfold on_row in U.
    destruct (on_node_complete id n w) as [[[]|e] w1]; destruct U as (H & L & y & O & B); [|discriminate].
    specialize (IH w1 y O). unfold on_row in IH. destruct (for_each l _ w1) as [r w2]. destruct IH as (H2 & L2 & z & O2 & B2).
    split; [exact H2|]. split; [etransitivity; eauto|]. exists z. split; [exact O2 | eapply by_nodes_trans; eauto].
Qed.

(** ** A job ends *)
Section job_theorems.
Context {agents : Agents} {je : JobEnv} (ai : AIResearchSettings).
(** The row after a step that is certain to answer. *)
Lemma step_owned id f g w x : owned id w x -> (forall now, f now x = Some (g now)) -> (forall now y, f now x = Some y -> keeps_rows x y) ->
  let '(r, w') := update_run id f w in r = Ok tt /\ later_than w w' /\ exists t, owned id w' (g t) /\ keeps_rows x (g t).
Proof.
  intros Ho E K. pose proof (update_run_owned id f w x Ho K) as U.
  destruct (update_run id f w) as [r w']. destruct U as (-> & L & t & _ & O). rewrite E in O. cbn in O.
  split; [reflexivity|]. split; [exact L|]. exists t. split; [exact O | exact (K t _ (E t))].
Qed.
(** How a job leaves its run: what the agents answered, or that time ran out. *)
Definition all_completed (sgs : list AIResearchStage) : Prop := Forall (fun s => s.(sg_status) = N_COMPLETED) sgs.
Definition failed_with (m : string) (category : option string) (y : row) : Prop :=
  (fst y).(rn_status) = J_FAILED /\ (fst y).(rn_error_message) = Some m /\ (fst y).(rn_error_category) = category /\
  (fst y).(rn_report) = None.
Definition ended (out : option nat) (e : run_end) (y : row) : Prop :=
  match out, e with
  | Some _, _ => failed_with ("research timed out after " +:+ str_of_Z ai.(timeout_seconds) +:+ "s") (Some "TIMEOUT") y
  | None, RunDone report => (fst y).(rn_status) = J_COMPLETED /\ (fst y).(rn_report) = Some report /\ all_completed (snd y)
  | None, RunError e => failed_with (_sanitize_error e.(ce_message)) e.(ce_provider_error) y
  | None, RunDisabled m => failed_with (_sanitize_error m) None y
  end.
Lemma ended_status out e y : ended out e y -> (fst y).(rn_status) <> J_RUNNING /\ (fst y).(rn_status) <> J_QUEUED.
Proof. destruct out; [intros (H & _)|destruct e; intros (H & _)]; now rewrite H. Qed.
Lemma settled_all now sgs : all_completed (map (settle_stage now) sgs).
Proof.
  apply Forall_map. apply List.Forall_forall. intros s _. unfold settle_stage. cbn.
  destruct (bool_decide _) eqn:B; [now apply bool_decide_eq_true in B | reflexivity].
Qed.
Lemma mark_failed_owned id m c w x : owned id w x -> (fst x).(rn_report) = None ->
  on_row id (mark_failed id m c) w x (fun y => keeps_rows x y /\ failed_with m c y).
Proof.
  intros Ho R. destruct x as [r sgs]. unfold on_row, mark_failed.
  epose proof (step_owned id (failed m c) _ w (r, sgs) Ho (fun _ => eq_refl) (fun now => failed_keeps m c now _)) as U.
  destruct (update_run id _ w) as [r' w']. destruct U as (-> & L & t & O & K). split; [reflexivity|]. split; [exact L|].
  eexists. split; [exact O|]. split; [exact K | now repeat split].
Qed.
Lemma end_job_owned id prov e w x : owned id w x -> (fst x).(rn_report) = None ->
  on_row id (end_job id prov e) w x (fun y => keeps_rows x y /\ ended None e y).
Proof.
  intros Ho R. destruct e as [report | m | e]; cbn [end_job]; [|now apply mark_failed_owned..].
  destruct x as [r sgs]. unfold on_row, try_except, mark_completed.
  epose proof (step_owned id (completed report prov) _ w (r, sgs) Ho (fun _ => eq_refl) (fun now => completed_keeps report prov now _)) as U.
  destruct (update_run id _ w) as [r' w']. destruct U as (-> & L & t & O & K). split; [reflexivity|]. split; [exact L|].
  eexists. split; [exact O|]. split; [exact K|]. repeat split. apply settled_all.
Qed.
Lemma on_row_bind id {A B} (m : RM A) (k : A -> RM B) w x (P Q : row -> Prop) : on_row id m w x P ->
  (forall a w y, owned id w y -> P y -> on_row id (k a) w y Q) -> on_row id (bind m k) w x Q.
Proof.
  unfold on_row, bind. intros H K. destruct (m w) as [[a|e] w1]; destruct H as (S & L & y & O & Py); [|discriminate].
  specialize (K a w1 y O Py). destruct (k a w1) as [r w2]. destruct K as (S2 & L2 & z & O2 & Qz). split; [exact S2|].
  split; [etransitivity; eauto | eauto].
Qed.
Lemma on_row_weaken id {A} (m : RM A) w x (P Q : row -> Prop) : on_row id m w x P -> (forall y, P y -> Q y) -> on_row id m w x Q.
Proof.
  unfold on_row. intros H K. destruct (m w) as [r w']. destruct H as (S & L & y & O & Py). split; [exact S|]. split; [exact L | eauto].
Qed.
Lemma mark_running_owned id w x : owned id w x -> (fst x).(rn_report) = None ->
  on_row id (mark_running id) w x (fun y => keeps_rows x y /\ (fst y).(rn_report) = None).
Proof.
  intros Ho R. destruct x as [r sgs]. unfold on_row, mark_running.
  epose proof (step_owned id running _ w (r, sgs) Ho (fun _ => eq_refl) (fun now => running_keeps now _)) as U.
  destruct (update_run id _ w) as [r' w']. destruct U as (-> & L & t & O & K). split; [reflexivity|]. split; [exact L|].
  eexists. split; [exact O|]. split; [exact K | exact R].
Qed.
Lemma wind_up_owned id prov nodes e out w x : owned id w x -> (fst x).(rn_report) = None ->
  on_row id (wind_up ai id prov nodes e out) w x (fun y => keeps_rows x y /\ ended out e y).
Proof.
  intros Ho R. destruct out as [k|]; cbn [wind_up].
  - eapply on_row_bind; [now apply nodes_owned|]. intros [] w1 y O1 B1.
    eapply on_row_bind; [apply mark_failed_owned; [exact O1 | now rewrite (bn_report _ _ B1)]|]. intros [] w2 z O2 [K Z].
    eapply on_row_weaken; [now apply nodes_owned|]. intros v B. rewrite (bn_idle _ _ B (proj1 (ended_status (Some k) e z Z))).
    split; [exact (keeps_rows_trans _ _ _ (bn_keeps _ _ B1) K) | exact Z].
  - eapply on_row_bind; [now apply nodes_owned|]. intros [] w1 y O1 B1.
    eapply on_row_weaken; [apply end_job_owned; [exact O1 | now rewrite (bn_report _ _ B1)]|]. intros v [K V].
    split; [exact (keeps_rows_trans _ _ _ (bn_keeps _ _ B1) K) | exact V].
Qed.
(** What resolves has a symbol for the agents' data vendors. *)
Lemma resolved_symbol m s i : resolve_instrument m s = Ok i -> exists y, to_tradingagents_symbol i = Ok y.
Proof.
  unfold to_tradingagents_symbol, to_yahoo_symbol. destruct m; cbn [resolve_instrument].
  - intros [= <-]. eexists. reflexivity.
  - unfold resolve_index. destruct (find_key _ _INDEX_ALIASES) as [x|] eqn:E.
    + intros [= <-]. apply find_key_In in E. cbn [In _INDEX_ALIASES] in E.
      repeat (destruct E as [[= _ <-] | E]; [eexists; reflexivity|]). destruct E.
    + unfold resolve_equity. destruct (_ || _); [discriminate|]. intros [= <-]. eexists. reflexivity.
Qed.

(** C13: a job that was recorded settles its run once it holds a slot.  Whatever
    the agents do -- whichever nodes they report, in whatever order, with
    whatever other connections commit about other runs in between -- the
    background job returns, and leaves the run COMPLETED with the agents' report
    and every node of the checklist COMPLETED, or FAILED with the message and
    category of what went wrong, or FAILED as timed out; never QUEUED or RUNNING.
    Nodes that the abandoned thread reports after a timeout change nothing, and
    the run's parameters are those it was created with.  The symbol of the
    request resolves, which submission checked before recording it; the
    configured number of concurrent jobs is positive (with none the run stays
    QUEUED, [job_without_slots]), a slot becomes free, and the row, which has no
    report yet, is nobody else's meanwhile. *)
Theorem job_settles id q i w x : owned id w x -> (fst x).(rn_report) = None ->
  resolve_instrument q.(rq_market) q.(rq_symbol) = Ok i -> 0 < ai.(max_concurrent) ->
  exists y, to_tradingagents_symbol i = Ok y /\
  let '(context, _) := gather_context i q in
  let a := args_of q y q.(rq_temperature) q.(rq_checkpoint_enabled) q.(rq_portfolio) context in
  let '(_, e, calls) := run_research ai w.(r_calls) a in
  let '(r, w') := _run_job ai id q w in
  r = Ok tt /\ w'.(r_calls) = calls /\
  exists z, run_of id w'.(r_db) = Some z /\ ended (deadline (agent_config ai a)) e z /\
    (fst z).(rn_status) <> J_QUEUED /\ (fst z).(rn_status) <> J_RUNNING /\ (fst z).(rn_config) = (fst x).(rn_config).
Proof.
  intros Ho R Hi Hmax. destruct (resolved_symbol _ _ _ Hi) as [y Hy]. exists y. split; [exact Hy|].
  destruct (gather_context i q) as [context prov] eqn:G. cbv zeta.
  assert ((ai.(max_concurrent) <? 0) = false) as S1 by now apply Z.ltb_ge, Z.lt_le_incl.
  assert ((ai.(max_concurrent) =? 0) = false) as S2 by now apply Z.eqb_neq, not_eq_sym, Z.lt_neq.
  unfold _run_job. rewrite S1, S2.
  unfold bind at 1. pose proof (mark_running_owned id w x Ho R) as U. unfold on_row in U.
  destruct (mark_running id w) as [[[]|er] w1]; destruct U as (S & L & x1 & O1 & K1 & R1); [|discriminate].
  unfold bind, lift, on_agents, ret. rewrite Hi, Hy, G. destruct L as [_ L]. rewrite L.
  destruct (run_research ai (r_calls w) _) as [[nodes e] calls] eqn:Run. 
  match goal with |- context [wind_up _ _ _ _ _ ?out ?w2] => pose proof (wind_up_owned id prov nodes e out w2 x1) as W end.
  unfold on_row in W. destruct (wind_up _ _ _ _ _ _ _) as [r w3]. destruct W as (S3 & [_ L3] & z & O3 & K3 & E3).
  { destruct O1. now split. } { exact R1. }
  split; [destruct r as [[]|]; [reflexivity | discriminate]|]. split; [exact L3|]. exists z. split; [apply O3|]. split; [exact E3|].
  destruct (ended_status _ _ _ E3) as [N1 N2]. destruct K1 as (_ & K1 & _), K3 as (_ & K3 & _). repeat split; congruence.
Qed.

(** With no slot to give, a recorded job leaves its run as it is, QUEUED: for
    ever when [AI_RESEARCH_MAX_CONCURRENT] is zero, with a [ValueError] nobody
    sees when it is negative. *)
Theorem job_without_slots id q w : ai.(max_concurrent) <= 0 ->
  _run_job ai id q w =
    (if ai.(max_concurrent) <? 0 then Err (ValueError "Semaphore initial value must be >= 0") else Ok tt, w).
Proof.
  intros H. unfold _run_job. destruct (Z.ltb_spec (max_concurrent ai) 0); [reflexivity|].
  now replace (max_concurrent ai) with 0 by lia.
Qed.
End job_theorems.

(** ** A run is recorded, and can be asked for again *)
(** [id] names no run, and no other connection takes it. *)
Record untaken (id : string) (w : RWorld) : Prop := {
  un_ok : rw_ok w; un_spared : Forall (spares id) w.(r_others); un_none : run_of id w.(r_db) = None
}.
Lemma run_of_None id d : run_of id d = None -> ~ In id (map rn_id d.(runs)).
Proof.
  unfold run_of. destruct (List.find _ _) eqn:F; [discriminate|]. intros _ H. apply in_map_iff in H as (r & <- & H).
  apply (List.find_none _ _ F) in H. now rewrite String.eqb_refl in H.
Qed.
Lemma stages_need_runs d s : rdb_ok d = true -> In s d.(stages) -> In s.(sg_run) (map rn_id d.(runs)).
Proof.
  unfold rdb_ok. rewrite !andb_true_iff, forallb_forall. intros [[[_ [_ H]] _] _] Hs. specialize (H s Hs).
  rewrite named_in_keys in H. now apply str_in_spec in H.
Qed.
Lemma sort_pending run id seq names : sort_by by_sequence (pending_stages run id seq names) = pending_stages run id seq names.
Proof.
  revert id seq. induction names as [|n l IH]; intros id seq; [reflexivity|]. cbn [pending_stages sort_by]. rewrite IH.
  destruct l as [|n' l]; [reflexivity|]. cbn [pending_stages insert_by]. unfold by_sequence at 1. cbn.
  now rewrite (proj2 (Z.leb_le seq (seq + 1)) ltac:(lia)).
Qed.
Lemma filter_pending run id seq names : List.filter (fun s => String.eqb s.(sg_run) run) (pending_stages run id seq names) = pending_stages run id seq names.
Proof. revert id seq. induction names as [|n l IH]; intros id seq; [reflexivity|]. cbn. now rewrite String.eqb_refl, IH. Qed.
Lemma filter_none {A} (p : A -> bool) l : (forall x, In x l -> p x = false) -> List.filter p l = [].
Proof. induction l as [|x l IH]; intros H; [reflexivity|]. cbn. rewrite (H x (or_introl eq_refl)). apply IH. intros y Hy. apply H. now right. Qed.
Lemma pending_In run id seq names s : In s (pending_stages run id seq names) -> sg_run s = run /\ id <= sg_id s /\ seq <= sg_sequence s.
Proof.
  revert id seq. induction names as [|n l IH]; intros id seq; [intros []|].
  intros [<- | H]; [cbn; repeat split; lia|]. apply IH in H as (-> & H1 & H2). repeat split; lia.
Qed.
Lemma pending_NoDup run id seq names :
  NoDup (map sg_id (pending_stages run id seq names)) /\ NoDup (map sg_key (pending_stages run id seq names)).
Proof.
  revert id seq. induction names as [|n l IH]; intros id seq; cbn; [split; constructor|]. destruct (IH (id + 1) (seq + 1)) as [I1 I2].
  split; constructor; auto; intros (s & E & H)%list_elem_of_In%in_map_iff; apply pending_In in H as (R & H1 & H2); cbn in E; [lia|].
  unfold sg_key in E. cbn in E. injection E as E1 E2. lia.
Qed.
Lemma NoDup_map_app {A B} (f : A -> B) l k : NoDup (map f l) -> NoDup (map f k) -> (forall x y, In x l -> In y k -> f x <> f y) -> NoDup (map f (l ++ k)).
Proof.
  intros N1 N2 D. rewrite map_app. apply NoDup_app. split; [exact N1|]. split; [|exact N2].
  intros z (x & <- & Hx)%list_elem_of_In%in_map_iff (y & E & Hy)%list_elem_of_In%in_map_iff. now apply (D x y).
Qed.

Lemma insert_run_ok r names d : rdb_ok d = true -> ~ In r.(rn_id) (map rn_id d.(runs)) -> rdb_ok (insert_run r names d) = true.
Proof.
  intros Hd N. assert (forall s, In s d.(stages) -> In s.(sg_run) (map rn_id d.(runs))) as F by (intros s; now apply stages_need_runs).
  destruct (pending_NoDup r.(rn_id) (next_id sg_id d.(stages)) 0 names) as [P1 P2]. unfold rdb_ok, insert_run, unique_on in *. cbn.
  rewrite !andb_true_iff, !bool_decide_eq_true, !forallb_forall in *. destruct Hd as [[[H1 [[H2 H3] _]] H5] H6].
  repeat split; [| | | | exact H5 | apply H6 | apply H6 | apply H6].
  - apply NoDup_map_app; [exact H1 | repeat constructor; set_solver|]. intros x y Hx [<- | []] E. apply N. rewrite <- E. now apply in_map.
  - apply NoDup_map_app; [exact H2 | exact P1|]. intros x y Hx Hy E. apply (next_id_above sg_id) in Hx. apply pending_In in Hy. lia.
  - apply NoDup_map_app; [exact H3 | exact P2|]. intros x y Hx Hy [= E _]. apply N. apply pending_In in Hy as (<- & _). rewrite <- E. now apply F.
  - intros s Hs. change (named_in rn_id (runs d ++ [r]) (sg_run s) = true). apply in_app_or in Hs as [Hs | Hs]; rewrite named_in_keys, str_in_spec, map_app; apply in_or_app; [left; now apply F|].
    right. apply pending_In in Hs as (-> & _). now left.
Qed.
Lemma insert_run_view r names d : rdb_ok d = true -> ~ In r.(rn_id) (map rn_id d.(runs)) ->
  run_of r.(rn_id) (insert_run r names d) = Some (r, pending_stages r.(rn_id) (next_id sg_id d.(stages)) 0 names).
Proof.
  intros Hd N. unfold run_of, stages_of, insert_run. cbn. rewrite List.filter_app, filter_pending, filter_none, app_nil_l, sort_pending.
  - replace (List.find _ (runs d ++ [r])) with (Some r); [reflexivity|]. revert N. clear. induction (runs d) as [|x l IH]; cbn.
    + intros _. now rewrite String.eqb_refl.
    + intros N. destruct (String.eqb_spec (rn_id x) (rn_id r)); [exfalso; apply N; now left | apply IH; tauto].
  - intros s Hs. apply (stages_need_runs _ _ Hd) in Hs. destruct (String.eqb_spec (sg_run s) (rn_id r)) as [E|]; [|reflexivity].
    exfalso. apply N. now rewrite <- E.
Qed.
Lemma resolved_market m s i : resolve_instrument m s = Ok i -> i.(market) = m.
Proof.
  destruct m; [intros [= <-]; reflexivity|]. intros H. apply resolved_india in H as [H | (sym & _ & ->)]; [|reflexivity].
  repeat destruct H as [<- | H]; try reflexivity. destruct H.
Qed.
Lemma lower_again s : lower (lower s) = lower s.
Proof. unfold lower. induction s as [|c s IH]; cbn; [reflexivity|]. rewrite IH. f_equal. now destruct c as [[] [] [] [] [] [] [] []]. Qed.
Lemma lower_len s : str_len (lower s) = str_len s.
Proof. unfold str_len, lower. f_equal. induction s as [|c s IH]; cbn; [reflexivity | now rewrite IH]. Qed.
(** The request that a stored run stands for: all of it but the temperature. *)
Definition asked_again (q : ResearchRequestIn) : ResearchRequestIn :=
  mkRequest q.(rq_symbol) q.(rq_research_date) q.(rq_depth) q.(rq_market) (some_analysts q.(rq_selected_analysts)) q.(rq_llm_provider)
    q.(rq_deep_think_llm) q.(rq_quick_think_llm) None q.(rq_debate_rounds) q.(rq_risk_debate_rounds) q.(rq_retry_count)
    q.(rq_data_vendors) q.(rq_checkpoint_enabled) q.(rq_portfolio).
Lemma some_analysts_again o : some_analysts (some_analysts o) = some_analysts o.
Proof. now destruct o as [[|a l]|]. Qed.
Lemma request_rebuilt today0 today q0 q i now : ResearchRequest today0 q0 = Ok q -> today0 <= today ->
  resolve_instrument q.(rq_market) q.(rq_symbol) = Ok i -> _row_to_request today (config_of q i now) = Ok (asked_again q).
Proof.
  unfold ResearchRequest at 1. intros H T R. destruct (fields_ok q0 && _) eqn:F; [|discriminate]. apply andb_true_iff in F as [F D].
  injection H as <-. apply resolved_market in R. unfold _row_to_request, config_of. cbn in *. rewrite R. cbn.
  rewrite some_analysts_again. unfold ResearchRequest.
  match goal with |- (if fields_ok ?q1 && ?b then _ else _) = _ => assert (fields_ok q1 = true) as ->; [|assert (b = true) as ->] end.
  - unfold fields_ok in *. cbn. repeat rewrite andb_true_iff in *. destruct F as [[[[[[[[[[[F1 F2] F3] F4] F5] F6] F7] F8] F9] F10] F11] F12].
    repeat split; auto; [now destruct (rq_selected_analysts q0) as [[|a l]|] | |];
      (destruct (rq_llm_provider q0) as [p|]; [cbn in *; rewrite ?lower_again, ?lower_len; assumption | reflexivity]).
  - cbn. apply Z.leb_le in D. apply Z.leb_le. lia.
  - unfold asked_again. cbn. f_equal. f_equal. destruct (rq_llm_provider q0) as [p|]; [|reflexivity]. cbn. now rewrite lower_again.
Qed.
Lemma settle_untaken id w : untaken id w -> untaken id (settle w).
Proof.
  intros [H1 H2 H3]. unfold settle. destruct (r_others w) as [|o r] eqn:E; [split; auto; now rewrite E|].
  apply Forall_cons in H2 as [Ho Hr]. destruct (rdb_ok (o (r_db w))) eqn:D; split; cbn; auto. now rewrite Ho.
Qed.
(** The checklist of a run that was just recorded. *)
Definition checklist_of (names : list string) (sgs : list AIResearchStage) : Prop :=
  map sg_name sgs = names /\ Forall (fun s => s.(sg_status) = N_PENDING) sgs /\ StronglySorted (fun a b => sg_sequence a < sg_sequence b) sgs.
Lemma pending_checklist run id seq names : checklist_of names (pending_stages run id seq names).
Proof.
  unfold checklist_of. revert id seq. induction names as [|n l IH]; intros id seq; [repeat constructor|].
  destruct (IH (id + 1) (seq + 1)) as (H1 & H2 & H3). cbn. repeat split; [now rewrite H1 | now constructor|]. constructor; [exact H3|].
  apply List.Forall_forall. intros s Hs. apply pending_In in Hs. cbn. lia.
Qed.
Lemma insert_run_owned id w c names : untaken id w -> let '(r, w') := commit_with (insert_run (queued_run id c) names) w in
  r = Ok tt /\ exists sgs, owned id w' (queued_run id c, sgs) /\ checklist_of names sgs.
Proof.
  intros F. apply settle_untaken in F as [H1 H2 H3]. unfold commit_with. apply run_of_None in H3.
  pose proof (insert_run_ok (queued_run id c) names (r_db (settle w)) H1 H3) as K. rewrite K. split; [reflexivity|].
  eexists. split; [|apply (pending_checklist id (next_id sg_id (r_db (settle w)).(stages)) 0)]. split; [exact K | exact H2|].
  exact (insert_run_view (queued_run id c) names (r_db (settle w)) H1 H3).
Qed.
Lemma run_query_row id w x : owned id w x -> let '(r, w') := query (run_of id) w in r = Ok (Some x) /\ owned id w' x.
Proof. intros O. apply settle_owned in O. unfold query. split; [f_equal; apply O | exact O]. Qed.
(** Recording: the run is QUEUED, with the plan's nodes PENDING. *)
Lemma create_run_owned id q i w : untaken id w -> hd_error w.(r_uuids) = Some id -> resolve_instrument q.(rq_market) q.(rq_symbol) = Ok i ->
  let '(r, w') := create_run q w in
  exists now sgs, let x := (queued_run id (config_of q i now), sgs) in
    r = Ok (_row_to_job x) /\ owned id w' x /\ checklist_of (plan_of q) sgs.
Proof.
  intros [F1 F2 F3] U R. unfold create_run, bind, lift, uuid4. rewrite R. destruct (r_uuids w) as [|u l]; [discriminate|]. injection U as ->.
  set (w1 := mkRWorld _ _ _ _ _ _). assert (exists now w2, utcnow w1 = (Ok now, w2) /\ untaken id w2) as (now & w2 & -> & F).
  { unfold utcnow. subst w1. cbn. destruct (r_ticks w); do 2 eexists; (split; [reflexivity | now split]). }
  pose proof (insert_run_owned id w2 (config_of q i now) (plan_of q) F) as I. cbv beta iota zeta in I |- *.
  destruct (commit_with _ w2) as [r w3]. destruct I as (-> & sgs & O & C). pose proof (run_query_row _ _ _ O) as V.
  destruct (query (run_of id) w3) as [r w4]. destruct V as [-> O4]. exists now, sgs. split; [reflexivity | now split].
Qed.
(** C17: what is asked can be asked again.  A validated request is recorded as a
    QUEUED run with the plan's nodes PENDING in order; and from then on, whatever
    has become of the run, the request read back from its row is the one that was
    made -- every field of it but the temperature, which is not stored, an empty
    list of analysts being none. *)
Theorem request_survives_its_run today0 today q0 q i id w : ResearchRequest today0 q0 = Ok q -> today0 <= today ->
  resolve_instrument q.(rq_market) q.(rq_symbol) = Ok i -> untaken id w -> hd_error w.(r_uuids) = Some id ->
  let '(r, w1) := create_run q w in
  exists now sgs, let x := (queued_run id (config_of q i now), sgs) in
    r = Ok (_row_to_job x) /\ owned id w1 x /\ checklist_of (plan_of q) sgs /\
    forall w2 y, owned id w2 y -> (fst y).(rn_config) = (fst x).(rn_config) ->
      fst (get_request_for_resume today id w2) = Ok (Some (asked_again q, (fst y).(rn_status))).
Proof.
  intros Hq T R F U. pose proof (create_run_owned id q i w F U R) as C. destruct (create_run q w) as [r w1].
  destruct C as (now & sgs & H1 & H2 & H3). exists now, sgs. split; [exact H1|]. split; [exact H2|]. split; [exact H3|].
  intros w2 y O K. unfold get_request_for_resume, bind. pose proof (run_query_row _ _ _ O) as V. destruct (query (run_of id) w2) as [r2 w3].
  destruct V as [-> _]. destruct y as [y l]. cbn in *. rewrite K. unfold lift. cbn.
  now rewrite (request_rebuilt today0 today q0 q i now Hq T R).
Qed.

(** ** After a restart *)
Lemma run_of_key id d x : run_of id d = Some x -> (fst x).(rn_id) = id /\ snd x = stages_of id d /\ In (fst x) d.(runs).
Proof.
  unfold run_of. destruct (List.find _ _) as [r|] eqn:F; [|discriminate]. intros [= <-]. apply List.find_some in F as [H E].
  apply String.eqb_eq in E. now repeat split.
Qed.
Lemma run_of_In d r : rdb_ok d = true -> In r d.(runs) -> run_of r.(rn_id) d = Some (r, stages_of r.(rn_id) d).
Proof.
  intros Hd H. apply rdb_ok_runs in Hd as [N _]. unfold run_of. destruct (List.find _ _) as [x|] eqn:F.
  - apply List.find_some in F as [Hx E]. apply String.eqb_eq in E. cbn. repeat f_equal. exact (NoDup_map_inj_in _ _ _ _ N Hx H E).
  - apply (List.find_none _ _ F) in H. now rewrite String.eqb_refl in H.
Qed.
Lemma stages_of_In id d s : In s (stages_of id d) -> In s d.(stages) /\ sg_run s = id.
Proof. unfold stages_of. rewrite In_sort_by, List.filter_In, String.eqb_eq. tauto. Qed.
(** Another run's row is not touched. *)
Lemma write_back_other id old new d : rdb_ok d = true -> run_of (fst old).(rn_id) d = Some old -> id <> (fst old).(rn_id) ->
  run_of id (write_back old new d) = run_of id d.
Proof.
  intros Hd V N. apply run_of_key in V as (_ & V & _). apply rdb_ok_runs in Hd as [_ U]. unfold run_of. rewrite stages_of_write.
  assert (map (write_stage (snd old) (snd new)) (stages_of id d) = stages_of id d) as ->.
  { rewrite <- (map_id (stages_of id d)) at 2. apply map_ext_in. intros s [Hs Es]%stages_of_In. unfold write_stage.
    destruct (List.find _ _) as [[o n]|] eqn:F; [|reflexivity]. exfalso. apply List.find_some in F as [F E]. apply Z.eqb_eq in E. cbn in E.
    apply in_combine_l in F. rewrite V in F. apply stages_of_In in F as [Ho Eo]. pose proof (NoDup_map_inj_in _ _ _ _ U Ho Hs E). congruence. }
  unfold write_back. cbn. rewrite find_update; [reflexivity | |].
  - intros r _. reflexivity.
  - intros r E1 E2. apply String.eqb_eq in E1, E2. congruence.
Qed.
Lemma same_keys_trans a b c : same_keys a b -> same_keys b c -> same_keys a c.
Proof. intros (A1 & A2 & A3 & A4) (B1 & B2 & B3 & B4). repeat split; congruence. Qed.
Lemma interrupted_keeps now x : keeps_rows x (interrupted now x).
Proof.
  destruct x as [r sgs]. repeat split; auto. cbn. apply same_stages_map. intros s. unfold interrupt_stage. destruct (bool_decide _); now split.
Qed.
Definition interrupt_all (now : Z) (stale : list row) (d : RDb) : RDb := fold_left (fun d old => write_back old (interrupted now old) d) stale d.
Lemma interrupt_all_spec now stale : forall d, rdb_ok d = true -> NoDup (map (fun x => rn_id (fst x)) stale) ->
  Forall (fun x => run_of (fst x).(rn_id) d = Some x) stale ->
  same_keys d (interrupt_all now stale d) /\
  (forall x, In x stale -> run_of (fst x).(rn_id) (interrupt_all now stale d) = Some (interrupted now x)) /\
  forall id, ~ In id (map (fun x => rn_id (fst x)) stale) -> run_of id (interrupt_all now stale d) = run_of id d.
Proof.
  induction stale as [|x l IH]; intros d Hd N F; cbn [interrupt_all fold_left map].
  - split; [now repeat split | split; [intros x [] | reflexivity]].
  - apply NoDup_cons in N as [Nx N]. apply Forall_cons in F as [Fx F]. set (d1 := write_back x (interrupted now x) d).
    assert (rdb_ok d1 = true) as Hd1 by (unfold d1; rewrite (same_keys_ok d) by apply write_back_keys; exact Hd).
    assert (Forall (fun y => run_of (fst y).(rn_id) d1 = Some y) l) as F1.
    { apply List.Forall_forall. intros y Hy. unfold d1. rewrite write_back_other; [|exact Hd | exact Fx|].
      - rewrite List.Forall_forall in F. now apply F.
      - intros E. apply Nx. apply list_elem_of_In, in_map_iff. exists y. split; [exact E | exact Hy]. }
    destruct (IH d1 Hd1 N F1) as (K1 & K2 & K3). fold (interrupt_all now l d1). split; [|split].
    + exact (same_keys_trans _ _ _ (write_back_keys _ _ _) K1).
    + intros y [<- | Hy]; [|now apply K2]. rewrite K3 by (now rewrite <- list_elem_of_In). apply write_back_view; [exact Hd | exact Fx|].
      apply interrupted_keeps.
    + intros id H. cbn in H. rewrite K3 by tauto. apply write_back_other; [exact Hd | exact Fx|]. intros E. apply H. now left.
Qed.
Definition after_restart (now : Z) (x : row) : row := if unfinished (fst x) then interrupted now x else x.
(** A restart leaves nothing unfinished.  The recovery run before any other
    session is open marks exactly the runs that were QUEUED or RUNNING as FAILED
    and interrupted, with their RUNNING nodes FAILED, reports how many there were,
    and leaves every other run, and every completed node, as it was. *)
Theorem recovery_leaves_none w : rw_ok w -> w.(r_others) = [] ->
  let '(r, w') := recover_interrupted_jobs w in
  exists now, w.(r_now) <= now /\ r = Ok (Z.of_nat (List.length (List.filter unfinished w.(r_db).(runs)))) /\ rw_ok w' /\
    (forall id, run_of id w'.(r_db) = after_restart now <$> run_of id w.(r_db)) /\ List.filter unfinished w'.(r_db).(runs) = [].
Proof.
  intros Hd Ho. unfold rw_ok in Hd. unfold recover_interrupted_jobs, query, bind, settle. rewrite Ho. cbv beta iota zeta.
  assert (exists now w1, utcnow w = (Ok now, w1) /\ w.(r_now) <= now /\ w1.(r_db) = w.(r_db) /\ w1.(r_others) = []) as (now & w1 & -> & Ht & E1 & E2).
  { unfold utcnow. destruct (r_ticks w); do 2 eexists; (split; [reflexivity|]); cbn; repeat split; auto; lia. }
  unfold commit_with, settle, ret. rewrite E2, E1. cbv beta iota zeta. set (d := r_db w) in *. set (stale := map _ _).
  assert (map (fun x => rn_id (fst x)) stale = map rn_id (List.filter unfinished (runs d))) as Ks by (unfold stale; rewrite map_map; reflexivity).
  destruct (interrupt_all_spec now stale d Hd) as (K1 & K2 & K3).
  { rewrite Ks. apply NoDup_map_filter. exact (proj1 (rdb_ok_runs _ Hd)). }
  { apply List.Forall_forall. intros x (r & <- & Hr)%in_map_iff. apply List.filter_In in Hr as [Hr _]. now apply run_of_In. }
  fold (interrupt_all now stale d). assert (rdb_ok (interrupt_all now stale d) = true) as Hd' by (rewrite (same_keys_ok d); assumption).
  rewrite Hd'. cbn. exists now. split; [exact Ht|]. split; [unfold stale; now rewrite length_map|]. split; [exact Hd'|].
  assert (forall id, run_of id (interrupt_all now stale d) = after_restart now <$> run_of id d) as V.
  { intros id. destruct (run_of id d) as [x|] eqn:E.
    - pose proof (run_of_key _ _ _ E) as (Ex & Es & Hx). cbn. unfold after_restart. destruct (unfinished (fst x)) eqn:Ux.
      + rewrite <- Ex. apply K2. unfold stale. apply in_map_iff. exists (fst x). split; [rewrite Ex, <- Es; now destruct x|].
        now apply List.filter_In.
      + rewrite K3; [exact E|]. rewrite Ks. intros (r & Er & Hr)%in_map_iff. apply List.filter_In in Hr as [Hr Ur].
        apply rdb_ok_runs in Hd as [N _]. rewrite (NoDup_map_inj_in _ _ _ _ N Hr Hx (eq_trans Er (eq_sym Ex))) in Ur. congruence.
    - rewrite K3; [exact E|]. rewrite Ks. intros (r & Er & Hr)%in_map_iff. apply List.filter_In in Hr as [Hr _].
      apply run_of_None in E. apply E. rewrite <- Er. now apply in_map. }
  split; [exact V|]. apply filter_none. intros r Hr. pose proof (run_of_In _ _ Hd' Hr) as R. rewrite V in R.
  destruct (run_of (rn_id r) d) as [x|]; [|discriminate]. cbn in R. injection R as R. apply (f_equal fst) in R. cbn in R. subst r.
  unfold after_restart. destruct (unfinished (fst x)) eqn:Ux; [|exact Ux]. now destruct x.
Qed.

(** ** At work *)
Definition demo_request (symbol : string) (date : Z) : ResearchRequestIn :=
  mkRequest symbol date QUICK INDIA (Some [A_MARKET]) (Some "OpenAI") None None (Some (f_of_Z 1)) None None None None false None.
Definition demo_world (others : list (RDb -> RDb)) : RWorld := mkRWorld (mkRDb [] [] [] []) others 1000 [5; 7]%nat ["run-1"] [].
Definition demo_state : AgentState :=
  mkAgentState (Some "flat") None None None None None None None None None None None None (Some "HOLD").
#[local] Instance demo_agents : Agents := {
  tradingagents_installed := true;
  agents_graph := fun _ _ => (["Market Analyst"; "Trader"], Finished demo_state (Some "Hold"));
  settle_pending := fun _ _ => None; decision_log := fun _ => []
}.
#[local] Instance demo_env : JobEnv := {
  data_context := fun _ _ => Ok (None, []); options_context := fun _ _ => Err (ValueError "no chain"); deadline := fun _ => None
}.
Definition demo_settings : AIResearchSettings := mkAISettings true true true true "openai" 1 300 3 12 20 1 5 3 5 1 420.
Definition demo_row : row :=
  (queued_run "run-1" (config_of (demo_request "RELIANCE" (ymd2ord 2026 2 25)) (equity "RELIANCE") 1005),
   pending_stages "run-1" 1 0 (plan_of (demo_request "RELIANCE" (ymd2ord 2026 2 25)))).
#[local] Abbreviation DAY := 739672.
#[local] Abbreviation typed := (demo_request "RELIANCE" DAY).
#[local] Abbreviation checked := (mkRequest "RELIANCE" DAY QUICK INDIA (Some [A_MARKET]) (Some "openai") None None (Some (f_of_Z 1)) None None None None false None).
Example the_day : isoformat DAY = "2026-02-25".
Proof. vm_compute. reflexivity. Qed.
Lemma demo_untaken : untaken "run-1" (demo_world []).
Proof. split; [reflexivity | constructor | reflexivity]. Qed.
Lemma request_survives_its_run_witness :
  (ResearchRequest DAY typed = Ok checked /\ untaken "run-1" (demo_world []) /\ resolve_instrument INDIA "RELIANCE" = Ok (equity "RELIANCE")) /\
  let '(r, w1) := create_run checked (demo_world []) in
  exists now sgs, let x := (queued_run "run-1" (config_of checked (equity "RELIANCE") now), sgs) in
    r = Ok (_row_to_job x) /\ owned "run-1" w1 x /\ checklist_of (plan_of checked) sgs /\
    forall w2 y, owned "run-1" w2 y -> (fst y).(rn_config) = (fst x).(rn_config) ->
      fst (get_request_for_resume DAY "run-1" w2) = Ok (Some (asked_again checked, (fst y).(rn_status))).
Proof.
  split; [split; [vm_compute; reflexivity | split; [apply demo_untaken | reflexivity]]|].
  apply (request_survives_its_run DAY DAY typed checked (equity "RELIANCE")); [vm_compute; reflexivity | lia | reflexivity | apply demo_untaken | reflexivity].
Defined.
(** The run as it is recorded, then settled. *)
#[local] Abbreviation recorded := (snd (create_run checked (demo_world []))).
#[local] Abbreviation recorded_row := (queued_run "run-1" (config_of checked (equity "RELIANCE") 1005),
  pending_stages "run-1" 1 0 ["Market Analyst"; "Bull Researcher"; "Bear Researcher"; "Research Manager"; "Trader"; "Aggressive Analyst";
    "Conservative Analyst"; "Neutral Analyst"; "Portfolio Manager"]).
Lemma recorded_owned : owned "run-1" recorded recorded_row.
Proof. split; [vm_compute; reflexivity | constructor | vm_compute; reflexivity]. Qed.
Lemma job_settles_witness :
  owned "run-1" recorded recorded_row /\
  exists y, to_tradingagents_symbol (equity "RELIANCE") = Ok y /\
  let '(context, _) := gather_context (equity "RELIANCE") checked in
  let a := args_of checked y checked.(rq_temperature) checked.(rq_checkpoint_enabled) checked.(rq_portfolio) context in
  let '(_, e, calls) := run_research demo_settings recorded.(r_calls) a in
  let '(r, w') := _run_job demo_settings "run-1" checked recorded in
  r = Ok tt /\ w'.(r_calls) = calls /\
  exists z, run_of "run-1" w'.(r_db) = Some z /\ ended demo_settings (deadline (agent_config demo_settings a)) e z /\
    (fst z).(rn_status) <> J_QUEUED /\ (fst z).(rn_status) <> J_RUNNING /\ (fst z).(rn_config) = (fst recorded_row).(rn_config).
Proof.
  split; [exact recorded_owned|].
  apply (job_settles demo_settings "run-1" checked (equity "RELIANCE") recorded recorded_row recorded_owned); reflexivity.
Defined.
Example settled_by_the_agents :
  let '(_, w') := _run_job demo_settings "run-1" checked recorded in
  (fun x => ((fst x).(rn_status), (fst x).(rn_current_stage), rp_signal <$> (fst x).(rn_report), List.length (snd x))) <$> run_of "run-1" w'.(r_db) =
    Some (J_COMPLETED, Some "Aggressive Analyst", Some (Some "Hold"), 9%nat).
Proof. vm_compute. reflexivity. Qed.
Lemma recovery_leaves_none_witness :
  (rw_ok recorded /\ recorded.(r_others) = []) /\
  let '(r, w') := recover_interrupted_jobs recorded in
  exists now, recorded.(r_now) <= now /\ r = Ok 1 /\ rw_ok w' /\
    (forall id, run_of id w'.(r_db) = after_restart now <$> run_of id recorded.(r_db)) /\ List.filter unfinished w'.(r_db).(runs) = [].
Proof. split; [split; [vm_compute; reflexivity | reflexivity]|]. apply (recovery_leaves_none recorded); [vm_compute; reflexivity | reflexivity]. Defined.

(** A node that is reported while a timeout is being recorded -- read before the
    failure, committed after it -- leaves a FAILED run with a RUNNING node. *)
Example late_node_runs_on :
  let w := snd (mark_running "run-1" recorded) in
  let fail d := match run_of "run-1" d with Some x => match failed "timed out" None 9 x with Some y => write_back x y d | None => d end | None => d end in
  let '(_, w') := mark_node_complete "run-1" "Market Analyst" (put_db w.(r_db) [(fun d => d); fail] w) in
  (fun x => ((fst x).(rn_status), map sg_status (take 3 (snd x)))) <$> run_of "run-1" w'.(r_db) = Some (J_FAILED, [N_COMPLETED; N_RUNNING; N_PENDING]).
Proof. vm_compute. reflexivity. Qed.
(** A symbol is recorded as it was typed and looked for in upper case. *)
Example lower_case_symbol_unlisted :
  let w := snd (create_run (demo_request "reliance" DAY) (demo_world [])) in
  let listed s := fst (list_runs 1 20 (mkFilter (Some s) None None None None) w) in
  listed "reliance" = Ok ([], 0) /\ listed "RELIANCE" = Ok ([], 0).
Proof. vm_compute. split; reflexivity. Qed.
(** A date the calendar does not cover is not one of the errors the route knows. *)
Example uncovered_date_escapes :
  match fst (submit_research_route demo_settings (demo_request "RELIANCE" (ymd2ord 2024 2 26)) (demo_world [])) with
  | Err (OtherError cls _) => cls
  | _ => ""
  end = "CalendarCoverageError".
Proof. vm_compute. reflexivity. Qed.
