(* ===== verification/Backtest.v ===== *)
(** * Research: backtests

    [trading/ai_research/backtest/schemas.py] and [evaluator.py], and the part of
    [service.py] that decides before anything is recorded: a request and its
    checks, the limits, the grid, the estimate; and the metrics computed from the
    cells of a finished backtest.  [sum] adds from the left, as the interpreter
    of the image does. *)
From S2P Require Import Prelude PyStr PyFloat PyNum Config Json PyTime JsonText PyParse ResearchMarket ResearchSchema ResearchDb.
From Stdlib Require Import SpecFloat.

(** ** [schemas.py] *)
Definition frequency_value (f : BacktestFrequency) : string :=
  match f with B_DAILY => "daily" | B_WEEKLY => "weekly" | B_MONTHLY => "monthly" end.
Record BacktestRequestIn : Type := mkBacktest {
  bq_symbols : list string; bq_start_date : Z; bq_end_date : Z; bq_frequency : BacktestFrequency; bq_market : Market;
  bq_analysts : option (list AnalystKey); bq_depth : ResearchDepth; bq_llm_provider : option string; bq_deep : option string;
  bq_quick : option string; bq_temperature : option float; bq_debate_rounds : option Z; bq_risk_rounds : option Z;
  bq_retry_count : option Z; bq_data_vendors : option (list (string * string)); bq_holding_days : option Z
}.
Definition _STRUCTURAL_MAX_SYMBOLS : Z := 50.
(** Symbols in upper case, each valid and none twice. *)
Definition normal_symbol (raw : string) : string := upper (strip raw).
Definition _valid_symbols (value : list string) : option (list string) :=
  let l := map normal_symbol value in
  if forallb symbol_ok l && bool_decide (NoDup l) then Some l else None.
Definition backtest_fields_ok (q : BacktestRequestIn) : bool :=
  match q.(bq_symbols) with [] => false | l => Z.of_nat (List.length l) <=? _STRUCTURAL_MAX_SYMBOLS end &&
  match q.(bq_analysts) with Some l => Z.of_nat (List.length l) <=? 4 | None => true end &&
  short 32 q.(bq_llm_provider) && short 64 q.(bq_deep) && short 64 q.(bq_quick) &&
  match q.(bq_temperature) with Some x => f_leb f_zero x && f_leb x (f_of_Z 2) | None => true end &&
  in_range 1 5 q.(bq_debate_rounds) && in_range 1 5 q.(bq_risk_rounds) && in_range 0 10 q.(bq_retry_count) &&
  match q.(bq_data_vendors) with Some l => (Z.of_nat (List.length l) <=? 6) && forallb vendor_ok l | None => true end &&
  match q.(bq_llm_provider) with Some p => str_in (lower p) SUPPORTED_LLM_PROVIDERS | None => true end &&
  in_range 1 60 q.(bq_holding_days).
Definition BacktestRequest (today : Z) (q : BacktestRequestIn) : result exn BacktestRequestIn :=
  match _valid_symbols q.(bq_symbols) with
  | Some symbols =>
      if backtest_fields_ok q && (q.(bq_end_date) <=? today) && (q.(bq_start_date) <=? today) && (q.(bq_start_date) <=? q.(bq_end_date)) then
        Ok (mkBacktest symbols q.(bq_start_date) q.(bq_end_date) q.(bq_frequency) q.(bq_market) q.(bq_analysts) q.(bq_depth)
              (lower <$> q.(bq_llm_provider)) q.(bq_deep) q.(bq_quick) q.(bq_temperature) q.(bq_debate_rounds) q.(bq_risk_rounds)
              q.(bq_retry_count) q.(bq_data_vendors) q.(bq_holding_days))
      else Err ValidationError
  | None => Err ValidationError
  end.

(** ** [service.py]: before a backtest is recorded *)
Definition BacktestLimitExceededError (m : string) : exn := OtherError "BacktestLimitExceededError" m.
Definition BacktestNotFoundError (m : string) : exn := OtherError "BacktestNotFoundError" m.
Definition BacktestActionNotAllowedError (m : string) : exn := OtherError "BacktestActionNotAllowedError" m.
Definition backtests_enabled (ai : AIResearchSettings) : bool := ai.(ai_enabled) && ai.(ai_workloads_enabled) && ai.(ai_backtest_enabled).
Record BacktestLimits : Type := mkLimits {
  max_symbols : Z; max_dates : Z; max_runs : Z; max_concurrent_backtests : Z; default_holding_days : Z
}.
Definition _limits (ai : AIResearchSettings) : BacktestLimits :=
  mkLimits ai.(ai_backtest_max_symbols) ai.(ai_backtest_max_dates) ai.(ai_backtest_max_runs) ai.(ai_backtest_max_concurrent)
    ai.(ai_backtest_default_holding_days).
Definition len_Z {A} (l : list A) : Z := Z.of_nat (List.length l).
Definition limit_violation (limits : BacktestLimits) (symbols dates : Z) : option string :=
  if limits.(max_symbols) <? symbols then
    Some (str_of_Z symbols +:+ " symbols exceeds the configured limit of " +:+ str_of_Z limits.(max_symbols) +:+ " (AI_BACKTEST_MAX_SYMBOLS)")
  else if limits.(max_dates) <? dates then
    Some (str_of_Z dates +:+ " dates exceeds the configured limit of " +:+ str_of_Z limits.(max_dates) +:+ " (AI_BACKTEST_MAX_DATES)")
  else
    let total := symbols * dates in
    if limits.(max_runs) <? total then
      Some (str_of_Z symbols +:+ " symbols x " +:+ str_of_Z dates +:+ " dates = " +:+ str_of_Z total +:+
            " research runs exceeds the configured limit of " +:+ str_of_Z limits.(max_runs) +:+ " (AI_BACKTEST_MAX_RUNS)")
    else None.
Definition _grid_and_check (ai : AIResearchSettings) (today : Z) (q : BacktestRequestIn) : result exn (list string * BacktestLimits * option string) :=
  let limits := _limits ai in
  let? dates := backtest_date_grid today (isoformat q.(bq_start_date)) (isoformat q.(bq_end_date)) (frequency_value q.(bq_frequency))
                  (market_value q.(bq_market)) in
  Ok (dates, limits, limit_violation limits (len_Z q.(bq_symbols)) (len_Z dates)).
Record BacktestEstimate : Type := mkEstimate {
  es_total_runs : Z; es_symbol_count : Z; es_date_count : Z; es_dates : list Z; es_exceeds_limit : bool; es_limit_message : option string;
  es_limits : BacktestLimits
}.
Definition iso_date (s : string) : result exn Z :=
  match fromisoformat s with Some d => Ok d | None => Err (ValueError ("Invalid isoformat string: " +:+ str_repr s)) end.
Definition estimate (ai : AIResearchSettings) (today : Z) (q : BacktestRequestIn) : result exn BacktestEstimate :=
  let? checked := _grid_and_check ai today q in
  let '(dates, limits, violation) := checked in
  let? days := map_r iso_date dates in
  Ok (mkEstimate (len_Z q.(bq_symbols) * len_Z dates) (len_Z q.(bq_symbols)) (len_Z dates) days (match violation with Some _ => true | None => false end) violation limits).

(** ** [evaluator.py] *)
Definition DIRECTION : list (string * Z) := [("Buy", 1); ("Overweight", 1); ("Hold", 0); ("Underweight", -1); ("Sell", -1)].
Definition REVIEW : string := "REVIEW".
Definition direction_of (rating : string) : Z := default 0 (find_key rating DIRECTION).
Definition is_completed (c : AIBacktestRun) : bool := bool_decide (c.(ce_status) = C_COMPLETED).
Definition decision_of (c : AIBacktestRun) : string := match c.(ce_normalized_decision) with Some s => str_or s REVIEW | None => REVIEW end.
Fixpoint add_count (k : string) (d : list (string * Z)) : list (string * Z) :=
  match d with
  | [] => [(k, 1)]
  | (k', n) :: r => if String.eqb k' k then (k', n + 1) :: r else (k', n) :: add_count k r
  end.
Definition sum_float (l : list float) : float := fold_left f_add l f_zero.
(** [sum(alphas) / len(alphas)], [count / len], of a non-empty list; counts are
    exact as floats. *)
Definition mean (l : list float) : float := f_div (sum_float l) (f_of_Z (len_Z l)).
Definition rate (hits all : Z) : float := f_div (f_of_Z hits) (f_of_Z all).
(** [a * direction > 0] *)
Definition called_right (direction : Z) (a : float) : bool := f_gtb (f_mul a (f_of_Z direction)) f_zero.
Definition count_if {A} (p : A -> bool) (l : list A) : Z := len_Z (List.filter p l).
(** [statistics.median] of a non-empty list. *)
Definition median (l : list float) : float :=
  let data := sort_by (fun a b => negb (f_ltb b a)) l in
  let n := List.length data in
  let at_ i := nth i data f_zero in
  if Nat.odd n then at_ (n / 2)%nat else f_div (f_add (at_ (n / 2 - 1)%nat) (at_ (n / 2)%nat)) (f_of_Z 2).
Definition rated (rating : string) (x : AIBacktestRun * float) : bool := bool_decide ((fst x).(ce_normalized_decision) = Some rating).
Definition rating_accuracy (resolved : list (AIBacktestRun * float)) (rating : string) : string * DirectionalAccuracy :=
  let alphas := map snd (List.filter (rated rating) resolved) in
  let direction := direction_of rating in
  (rating,
   mkAccuracy (len_Z alphas)
     (match alphas with
      | [] => None
      | _ => if direction =? 0 then None else Some (rate (count_if (called_right direction) alphas) (len_Z alphas))
      end)
     (match alphas with [] => f_zero | _ => mean alphas end)).
Definition resolved_cells (completed : list AIBacktestRun) : list (AIBacktestRun * float) :=
  omap (fun c => (fun a => (c, a)) <$> c.(ce_alpha_return)) completed.
Definition cell_direction (x : AIBacktestRun * float) : Z := direction_of (default "" (fst x).(ce_normalized_decision)).
Definition compute_metrics (cells : list AIBacktestRun) (holding_days : Z) : BacktestMetrics :=
  let completed := List.filter is_completed cells in
  let counts := fold_left (fun d c => add_count (decision_of c) d) completed [] in
  let resolved := resolved_cells completed in
  let unscored := count_if (fun c => String.eqb (decision_of c) REVIEW) completed in
  let pending := len_Z completed - len_Z resolved - unscored in
  let ratings := sorted_set (omap (fun x => or_none (ce_normalized_decision (fst x))) resolved) in
  let all_alphas := map snd resolved in
  let directional := List.filter (fun x => negb (cell_direction x =? 0)) resolved in
  let positive :=
    match directional with
    | [] => None
    | _ => Some (rate (count_if (fun x => called_right (cell_direction x) (snd x)) directional) (len_Z directional))
    end in
  mkMetrics (len_Z completed) counts (len_Z resolved) pending unscored (map (rating_accuracy resolved) ratings)
    (match all_alphas with [] => None | _ => Some (mean all_alphas) end)
    (match all_alphas with [] => None | _ => Some (median all_alphas) end) positive holding_days.

(** ** What the metrics count *)
Lemma add_count_keys k d : map fst (add_count k d) = if str_in k (map fst d) then map fst d else map fst d ++ [k].
Proof.
  induction d as [|[k' n] d IH]; [reflexivity|]. cbn. rewrite String.eqb_sym. destruct (String.eqb k k') eqn:E; cbn; [reflexivity|].
  rewrite IH. unfold str_in. now destruct (existsb _ _).
Qed.
Definition count_of (k : string) (d : list (string * Z)) : Z := default 0 (find_key k d).
Lemma count_of_add k k' d : count_of k (add_count k' d) = count_of k d + (if String.eqb k' k then 1 else 0).
Proof.
  unfold count_of, find_key. induction d as [|[q n] d IH]; cbn.
  - destruct (String.eqb k' k); reflexivity.
  - destruct (String.eqb_spec q k') as [->|N]; cbn.
    + destruct (String.eqb k' k); cbn; lia.
    + destruct (String.eqb_spec q k) as [->|]; cbn; [|exact IH]. destruct (String.eqb_spec k' k); [congruence | lia].
Qed.
Definition counted (cells : list AIBacktestRun) (d : list (string * Z)) : list (string * Z) := fold_left (fun d c => add_count (decision_of c) d) cells d.
Lemma counted_spec cells : forall d, NoDup (map fst d) ->
  NoDup (map fst (counted cells d)) /\ (forall k, count_of k (counted cells d) = count_of k d + count_if (fun c => String.eqb (decision_of c) k) cells) /\
  fold_right Z.add 0 (map snd (counted cells d)) = fold_right Z.add 0 (map snd d) + len_Z cells.
Proof.
  induction cells as [|c l IH]; intros d N; cbn [counted fold_left]; [unfold count_if, len_Z; repeat split; [exact N | intros k; cbn; lia | cbn; lia]|].
  assert (NoDup (map fst (add_count (decision_of c) d))) as N'.
  { rewrite add_count_keys. destruct (str_in _ _) eqn:E; [exact N|]. apply NoDup_app. split; [exact N|]. split; [|repeat constructor; set_solver].
    intros x Hx%list_elem_of_In Hs%list_elem_of_singleton. subst. apply str_in_spec in Hx. congruence. }
  destruct (IH _ N') as (I1 & I2 & I3). fold (counted l (add_count (decision_of c) d)). repeat split; [exact I1 | |].
  - intros k. rewrite I2, count_of_add. unfold count_if, len_Z. cbn. destruct (String.eqb (decision_of c) k); cbn [List.length]; lia.
  - rewrite I3. unfold len_Z. cbn [List.length]. enough (forall k, fold_right Z.add 0 (map snd (add_count k d)) = fold_right Z.add 0 (map snd d) + 1) as -> by lia.
    clear. intros k. induction d as [|[q n] d IH]; cbn; [lia|]. destruct (String.eqb q k); cbn; [lia | rewrite IH; lia].
Qed.
Lemma count_if_split {A} (p q : A -> bool) l :
  count_if p l = count_if (fun x => p x && q x) l + count_if (fun x => p x && negb (q x)) l.
Proof. unfold count_if, len_Z. induction l as [|x l IH]; [reflexivity|]. cbn. destruct (p x), (q x); cbn; lia. Qed.
Lemma count_if_ext {A} (p q : A -> bool) l : (forall x, p x = q x) -> count_if p l = count_if q l.
Proof. intros H. unfold count_if, len_Z. induction l as [|x l IH]; [reflexivity|]. cbn. rewrite H. destruct (q x); cbn; lia. Qed.
Lemma count_if_all {A} (p : A -> bool) l : len_Z l = count_if p l + count_if (fun x => negb (p x)) l.
Proof. unfold count_if, len_Z. induction l as [|x l IH]; [reflexivity|]. cbn. destruct (p x); cbn; lia. Qed.
Definition has_alpha (c : AIBacktestRun) : bool := match c.(ce_alpha_return) with Some _ => true | None => false end.
Definition unrated (c : AIBacktestRun) : bool := String.eqb (decision_of c) REVIEW.
Lemma resolved_count l : len_Z (resolved_cells l) = count_if has_alpha l.
Proof.
  unfold count_if, len_Z, resolved_cells, has_alpha. induction l as [|c l IH]; [reflexivity|]. cbn. destruct (ce_alpha_return c); cbn; lia.
Qed.
(** C19: the metrics account for every completed cell once per question asked.
    The decisions' counts are each decision's number of completed cells, and add
    up to the total; resolved, pending and unscored add up to the total; and what
    is reported as pending is the number of cells with neither an outcome nor
    lack of a rating, less the number of cells with both -- the count is not of
    the cells that are pending when an unrated cell has been resolved. *)
Theorem metrics_account cells holding :
  let m := compute_metrics cells holding in
  let completed := List.filter is_completed cells in
  m.(total_decisions) = len_Z completed /\ NoDup (map fst m.(counts_by_decision)) /\
  (forall k, count_of k m.(counts_by_decision) = count_if (fun c => String.eqb (decision_of c) k) completed) /\
  fold_right Z.add 0 (map snd m.(counts_by_decision)) = m.(total_decisions) /\
  m.(bm_resolved) + m.(pending_evaluation) + m.(unscored) = m.(total_decisions) /\
  m.(pending_evaluation) = count_if (fun c => negb (has_alpha c) && negb (unrated c)) completed - count_if (fun c => has_alpha c && unrated c) completed /\
  Forall (fun e => (snd e).(da_count) = count_if (rated (fst e)) (resolved_cells completed) /\ 0 < (snd e).(da_count)) m.(by_decision).
Proof.
  cbn zeta. unfold compute_metrics. set (completed := List.filter is_completed cells). cbn.
  destruct (counted_spec completed [] ltac:(constructor)) as (N & C & S). fold (counted completed []).
  split; [reflexivity|]. split; [exact N|]. split; [intros k; exact (C k)|]. split; [exact S|]. split; [lia|]. split.
  - rewrite resolved_count, (count_if_all has_alpha), (count_if_split has_alpha unrated).
    change (count_if (fun c => String.eqb (decision_of c) REVIEW) completed) with (count_if unrated completed).
    rewrite (count_if_split (fun c => negb (has_alpha c)) unrated completed).
    assert (count_if unrated completed = count_if (fun c => has_alpha c && unrated c) completed + count_if (fun c => negb (has_alpha c) && unrated c) completed) as ->.
    { rewrite (count_if_split unrated has_alpha). f_equal; apply count_if_ext; intros c; apply andb_comm. }
    lia.
  - apply Forall_map, List.Forall_forall. intros rating Hr. unfold rating_accuracy. cbn. unfold len_Z at 1. rewrite length_map. split; [reflexivity|].
    apply list_elem_of_In, elem_of_sorted_set, list_elem_of_omap in Hr as (x & Hx & E). unfold len_Z. rewrite length_map.
    assert (In x (List.filter (rated rating) (resolved_cells completed))) as H.
    { apply List.filter_In. split; [now apply list_elem_of_In|]. unfold rated. apply bool_decide_eq_true. unfold or_none in E. now destruct (opt_truthy _). }
    destruct (List.filter (rated rating) _); [destruct H | cbn; lia].
Qed.
(** A cell that was resolved though it has no rating makes the pending count
    negative. *)
Example pending_below_zero :
  let cell := mkCell 1 "b1" "AAPL" 739672 C_COMPLETED (Some "r1") (Some "HOLD") None (Some "RESOLVED") (Some f_zero) (Some f_zero)
                (Some "SPY") (Some 5) (Some 739679) None None None in
  let m := compute_metrics [cell] 5 in
  (m.(total_decisions), m.(bm_resolved), m.(unscored), m.(pending_evaluation)) = (1, 1, 1, -1).
Proof. vm_compute. reflexivity. Qed.

(** ** The limits *)
Lemma limit_violation_None limits s d : limit_violation limits s d = None <-> s <= limits.(max_symbols) /\ d <= limits.(max_dates) /\ s * d <= limits.(max_runs).
Proof.
  unfold limit_violation. destruct (max_symbols limits <? s) eqn:E1; [apply Z.ltb_lt in E1; split; [discriminate | lia]|].
  destruct (max_dates limits <? d) eqn:E2; [apply Z.ltb_lt in E2; split; [discriminate | lia]|].
  destruct (max_runs limits <? s * d) eqn:E3; [apply Z.ltb_lt in E3; split; [discriminate | lia]|].
  apply Z.ltb_ge in E1, E2, E3. split; [lia | reflexivity].
Qed.
