(* ===== verification/BacktestRuns.v ===== *)
(** * Research: running backtests

    [trading/ai_research/backtest/repository.py], the rest of [service.py], and
    [router.py]: a backtest is recorded with one cell per symbol and date; a sweep
    runs each symbol's dates in order, every uncompleted cell as a research run of
    its own, until it is done or asked to stop; outcomes are read from the
    decision log; a stopped or failed backtest is taken up again.  The sweeps of
    several symbols run one after the other, as under the default semaphore of
    one; with a wider one another's commits are among [r_others].  Cells' dates
    stay dates: the texts passed around are the [isoformat] of a column. *)
From S2P Require Import Prelude PyStr PyFloat PyNum Config Json PyTime PyParse JsonText OptionsService ResearchMarket ResearchSchema ResearchDb ResearchRuns Backtest.
From Stdlib Require Import SpecFloat Ascii.

(** ** Rows read and written back *)
Definition job_row (id : string) (d : RDb) : option AIBacktestJob := List.find (fun j => String.eqb j.(bj_id) id) d.(backtest_jobs).
Definition by_symbol_date (a b : AIBacktestRun) : bool :=
  if String.eqb a.(ce_symbol) b.(ce_symbol) then a.(ce_date) <=? b.(ce_date) else String.leb a.(ce_symbol) b.(ce_symbol).
Definition cells_of (id : string) (d : RDb) : list AIBacktestRun :=
  sort_by by_symbol_date (List.filter (fun c => String.eqb c.(ce_job) id) d.(backtest_cells)).
Definition cell_at (id symbol : string) (date : Z) (c : AIBacktestRun) : bool :=
  String.eqb c.(ce_job) id && String.eqb c.(ce_symbol) symbol && (c.(ce_date) =? date).
Definition _find_cell (id symbol : string) (date : Z) (d : RDb) : option AIBacktestRun := List.find (cell_at id symbol date) d.(backtest_cells).
Definition merge_job (o n c : AIBacktestJob) : AIBacktestJob :=
  mkJob c.(bj_id) c.(bj_config) (changed o.(bj_status) n.(bj_status) c.(bj_status))
    (changed o.(completed_runs) n.(completed_runs) c.(completed_runs)) (changed o.(failed_runs) n.(failed_runs) c.(failed_runs))
    (changed o.(bj_current_symbol) n.(bj_current_symbol) c.(bj_current_symbol)) (changed o.(bj_current_date) n.(bj_current_date) c.(bj_current_date))
    (changed o.(cancel_requested) n.(cancel_requested) c.(cancel_requested)) (changed o.(bj_metrics) n.(bj_metrics) c.(bj_metrics))
    (changed o.(bj_error_message) n.(bj_error_message) c.(bj_error_message)) (changed o.(bj_started_at) n.(bj_started_at) c.(bj_started_at))
    (changed o.(bj_completed_at) n.(bj_completed_at) c.(bj_completed_at)).
Definition merge_cell (o n c : AIBacktestRun) : AIBacktestRun :=
  mkCell c.(ce_id) c.(ce_job) c.(ce_symbol) c.(ce_date) (changed o.(ce_status) n.(ce_status) c.(ce_status))
    (changed o.(ce_research_id) n.(ce_research_id) c.(ce_research_id)) (changed o.(ce_raw_decision) n.(ce_raw_decision) c.(ce_raw_decision))
    (changed o.(ce_normalized_decision) n.(ce_normalized_decision) c.(ce_normalized_decision))
    (changed o.(ce_evaluation_status) n.(ce_evaluation_status) c.(ce_evaluation_status))
    (changed o.(ce_raw_return) n.(ce_raw_return) c.(ce_raw_return)) (changed o.(ce_alpha_return) n.(ce_alpha_return) c.(ce_alpha_return))
    (changed o.(ce_benchmark) n.(ce_benchmark) c.(ce_benchmark)) (changed o.(ce_holding_days) n.(ce_holding_days) c.(ce_holding_days))
    (changed o.(ce_resolution_date) n.(ce_resolution_date) c.(ce_resolution_date))
    (changed o.(ce_error_message) n.(ce_error_message) c.(ce_error_message)) (changed o.(ce_started_at) n.(ce_started_at) c.(ce_started_at))
    (changed o.(ce_completed_at) n.(ce_completed_at) c.(ce_completed_at)).
Definition write_job (o n : AIBacktestJob) (d : RDb) : RDb :=
  on_jobs (update_where (fun j => String.eqb j.(bj_id) o.(bj_id)) (merge_job o n)) d.
Definition write_cell (o n : AIBacktestRun) (d : RDb) : RDb :=
  on_cells (update_where (fun c => ce_id c =? ce_id o) (merge_cell o n)) d.
(** [db.get], then [f], and the commit; nothing when the job is unknown or [f]
    leaves it alone. *)
Definition update_job (id : string) (f : AIBacktestJob -> RM AIBacktestJob) : RM unit :=
  let! found := query (job_row id) in
  match found with
  | None => ret tt
  | Some job => let! new := f job in commit_with (write_job job new)
  end.
(** The cell is found and changed, then its job. *)
Definition update_cell (id symbol : string) (date : Z) (f : AIBacktestRun -> RM AIBacktestRun)
    (g : AIBacktestRun -> AIBacktestJob -> AIBacktestJob) : RM unit :=
  let! found := query (_find_cell id symbol date) in
  match found with
  | None => ret tt
  | Some cell =>
      let! new := f cell in
      let! found := query (job_row id) in
      match found with
      | None => commit_with (write_cell cell new)
      | Some job => commit_with (fun d => write_job job (g cell job) (write_cell cell new d))
      end
  end.

(** *** What is set on a row *)
Definition j_state (st : BacktestJobStatus) (j : AIBacktestJob) : AIBacktestJob :=
  mkJob j.(bj_id) j.(bj_config) st j.(completed_runs) j.(failed_runs) j.(bj_current_symbol) j.(bj_current_date) j.(cancel_requested)
    j.(bj_metrics) j.(bj_error_message) j.(bj_started_at) j.(bj_completed_at).
Definition j_times (started completed : option Z) (j : AIBacktestJob) : AIBacktestJob :=
  mkJob j.(bj_id) j.(bj_config) j.(bj_status) j.(completed_runs) j.(failed_runs) j.(bj_current_symbol) j.(bj_current_date)
    j.(cancel_requested) j.(bj_metrics) j.(bj_error_message) started completed.
Definition j_at (symbol : option string) (date : option Z) (j : AIBacktestJob) : AIBacktestJob :=
  mkJob j.(bj_id) j.(bj_config) j.(bj_status) j.(completed_runs) j.(failed_runs) symbol date j.(cancel_requested)
    j.(bj_metrics) j.(bj_error_message) j.(bj_started_at) j.(bj_completed_at).
Definition j_counts (completed failed : Z) (j : AIBacktestJob) : AIBacktestJob :=
  mkJob j.(bj_id) j.(bj_config) j.(bj_status) (j.(completed_runs) + completed) (j.(failed_runs) + failed) j.(bj_current_symbol)
    j.(bj_current_date) j.(cancel_requested) j.(bj_metrics) j.(bj_error_message) j.(bj_started_at) j.(bj_completed_at).
Definition j_flag (b : bool) (j : AIBacktestJob) : AIBacktestJob :=
  mkJob j.(bj_id) j.(bj_config) j.(bj_status) j.(completed_runs) j.(failed_runs) j.(bj_current_symbol) j.(bj_current_date) b
    j.(bj_metrics) j.(bj_error_message) j.(bj_started_at) j.(bj_completed_at).
Definition j_result (metrics : option BacktestMetrics) (error : option string) (j : AIBacktestJob) : AIBacktestJob :=
  mkJob j.(bj_id) j.(bj_config) j.(bj_status) j.(completed_runs) j.(failed_runs) j.(bj_current_symbol) j.(bj_current_date)
    j.(cancel_requested) metrics error j.(bj_started_at) j.(bj_completed_at).
Definition c_state (st : BacktestCellStatus) (started completed : option Z) (error : option string) (c : AIBacktestRun) : AIBacktestRun :=
  mkCell c.(ce_id) c.(ce_job) c.(ce_symbol) c.(ce_date) st c.(ce_research_id) c.(ce_raw_decision) c.(ce_normalized_decision)
    c.(ce_evaluation_status) c.(ce_raw_return) c.(ce_alpha_return) c.(ce_benchmark) c.(ce_holding_days) c.(ce_resolution_date) error
    started completed.
Definition c_decision (research_id : string) (raw normalized : option string) (c : AIBacktestRun) : AIBacktestRun :=
  mkCell c.(ce_id) c.(ce_job) c.(ce_symbol) c.(ce_date) c.(ce_status) (Some research_id) raw normalized (Some "PENDING")
    c.(ce_raw_return) c.(ce_alpha_return) c.(ce_benchmark) c.(ce_holding_days) c.(ce_resolution_date) c.(ce_error_message)
    c.(ce_started_at) c.(ce_completed_at).
Definition c_outcome (raw alpha : float) (benchmark : string) (holding resolution : Z) (c : AIBacktestRun) : AIBacktestRun :=
  mkCell c.(ce_id) c.(ce_job) c.(ce_symbol) c.(ce_date) c.(ce_status) c.(ce_research_id) c.(ce_raw_decision) c.(ce_normalized_decision)
    (Some "RESOLVED") (Some raw) (Some alpha) (Some benchmark) (Some holding) (Some resolution) c.(ce_error_message) c.(ce_started_at)
    c.(ce_completed_at).

(** ** [repository.py] *)
Definition config_of_backtest (q : BacktestRequestIn) (dates holding_days now : Z) : JobConfig :=
  mkJobConfig q.(bq_symbols) q.(bq_start_date) q.(bq_end_date) q.(bq_frequency) (Some q.(bq_market)) (some_analysts q.(bq_analysts)) q.(bq_depth)
    q.(bq_llm_provider) q.(bq_quick) q.(bq_deep) q.(bq_debate_rounds) q.(bq_risk_rounds) q.(bq_retry_count) q.(bq_data_vendors)
    holding_days (len_Z q.(bq_symbols) * dates) now.
Definition queued_job (id : string) (c : JobConfig) : AIBacktestJob := mkJob id c B_QUEUED 0 0 None None false None None None None.
Definition pending_cell (job : string) (x : Z * (string * Z)) : AIBacktestRun :=
  let '(id, (symbol, date)) := x in
  mkCell id job symbol date C_PENDING None None None None None None None None None None None None.
(** [for symbol in symbols: for d in dates] *)
Definition grid_cells (symbols : list string) (dates : list Z) : list (string * Z) :=
  flat_map (fun s => map (fun d => (s, d)) dates) symbols.
Definition insert_backtest (job : AIBacktestJob) (grid : list (string * Z)) (d : RDb) : RDb :=
  on_cells (fun rows => rows ++ map (pending_cell job.(bj_id)) (List.combine (seqZ (next_id ce_id rows) (len_Z grid)) grid))
    (on_jobs (fun rows => rows ++ [job]) d).
Definition parsed_date (s : string) : result exn Z :=
  match strptime "%Y-%m-%d" s with
  | Some t => Ok (date_of t)
  | None => Err (ValueError ("time data " +:+ str_repr s +:+ " does not match format '%Y-%m-%d'"))
  end.
Definition create_backtest (q : BacktestRequestIn) (dates : list string) (holding_days : Z) : RM string :=
  let! id := uuid4 in
  let! now := utcnow in
  let! days := lift (map_r parsed_date dates) in
  commit_with (insert_backtest (queued_job id (config_of_backtest q (len_Z dates) holding_days now)) (grid_cells q.(bq_symbols) days)) ;;;
  ret id.
Definition get_backtest (id : string) : RM (option (AIBacktestJob * list AIBacktestRun)) :=
  query (fun d => (fun j => (j, cells_of id d)) <$> job_row id d).
Definition get_cells (id : string) : RM (list AIBacktestRun) :=
  query (fun d => match job_row id d with Some _ => cells_of id d | None => [] end).
Definition list_cells_page (id : string) (page page_size : Z) (symbol : option string) : RM (list AIBacktestRun * Z) :=
  let listed c := String.eqb c.(ce_job) id && asked symbol (fun s => String.eqb c.(ce_symbol) (upper s)) in
  let! total := query (fun d => len_Z (List.filter listed d.(backtest_cells))) in
  let! rows := query (fun d => page_of page page_size (sort_by by_symbol_date (List.filter listed d.(backtest_cells)))) in
  ret (rows, total).
Definition get_not_completed_cells (id : string) : RM (list (string * Z)) :=
  query (fun d => map (fun c => (c.(ce_symbol), c.(ce_date)))
                    (List.filter (fun c => String.eqb c.(ce_job) id && negb (is_completed c)) d.(backtest_cells))).
Definition clear_cancel_flag (id : string) : RM unit := update_job id (fun j => ret (j_flag false j)).
Definition mark_backtest_running (id : string) : RM unit :=
  update_job id (fun j =>
    let j := j_state B_RUNNING j in
    match j.(bj_started_at) with
    | Some _ => ret j
    | None => let! now := utcnow in ret (j_times (Some now) j.(bj_completed_at) j)
    end).
Definition mark_cell_running (id symbol : string) (date : Z) : RM unit :=
  update_cell id symbol date
    (fun c => let! now := utcnow in ret (c_state C_RUNNING (Some now) c.(ce_completed_at) c.(ce_error_message) c))
    (fun c => j_at (Some symbol) (Some c.(ce_date))).
(** [(raw_decision or "")[:2000] or None] *)
Definition trimmed (n : nat) (o : option string) : option string := or_none (Some (str_take n (default "" o))).
Definition mark_cell_completed (id symbol : string) (date : Z) (research_id : string) (raw normalized : option string) : RM unit :=
  update_cell id symbol date
    (fun c => let! now := utcnow in
              ret (c_decision research_id (trimmed 2000 raw) normalized (c_state C_COMPLETED c.(ce_started_at) (Some now) c.(ce_error_message) c)))
    (fun _ => j_counts 1 0).
Definition mark_cell_failed (id symbol : string) (date : Z) (error : string) : RM unit :=
  update_cell id symbol date
    (fun c => let! now := utcnow in ret (c_state C_FAILED c.(ce_started_at) (Some now) (Some (str_take 1000 error)) c))
    (fun _ => j_counts 0 1).
Definition mark_cell_evaluated (id symbol : string) (date : Z) (raw alpha : float) (benchmark : string) (holding : Z) (resolution : string) : RM unit :=
  let! found := query (_find_cell id symbol date) in
  match found with
  | None => ret tt
  | Some cell =>
      let! day := lift (parsed_date resolution) in
      commit_with (write_cell cell (c_outcome raw alpha benchmark holding day cell))
  end.
Definition mark_backtest_completed (id : string) (metrics : BacktestMetrics) : RM unit :=
  update_job id (fun j =>
    let! now := utcnow in
    ret (j_at None None (j_times j.(bj_started_at) (Some now) (j_result (Some metrics) j.(bj_error_message) (j_state B_COMPLETED j))))).
Definition mark_backtest_failed (id error : string) : RM unit :=
  update_job id (fun j =>
    let! now := utcnow in
    ret (j_times j.(bj_started_at) (Some now) (j_result j.(bj_metrics) (Some (str_take 1000 error)) (j_state B_FAILED j)))).
Definition mark_backtest_cancelled (id : string) : RM unit :=
  update_job id (fun j => let! now := utcnow in ret (j_at None None (j_times j.(bj_started_at) (Some now) (j_state B_CANCELLED j)))).
Definition cancellable (j : AIBacktestJob) : bool := bool_decide (j.(bj_status) = B_QUEUED) || bool_decide (j.(bj_status) = B_RUNNING).
Definition request_cancel (id : string) : RM bool :=
  let! found := query (job_row id) in
  match found with
  | Some job => if cancellable job then commit_with (write_job job (j_flag true job)) ;;; ret true else ret false
  | None => ret false
  end.
Definition is_cancel_requested (id : string) : RM bool :=
  query (fun d => match job_row id d with Some j => j.(cancel_requested) | None => false end).
Definition newest_job_first (a b : AIBacktestJob) : bool := jc_created_at (bj_config b) <=? jc_created_at (bj_config a).
Definition list_backtests (page page_size : Z) (status : option BacktestJobStatus) : RM (list AIBacktestJob * Z) :=
  let listed j := match status with Some s => bool_decide (j.(bj_status) = s) | None => true end in
  let! total := query (fun d => len_Z (List.filter listed d.(backtest_jobs))) in
  let! rows := query (fun d => page_of page page_size (sort_by newest_job_first (List.filter listed d.(backtest_jobs)))) in
  ret (rows, total).
Definition INTERRUPTED_CELL : string := "Interrupted by a backend restart while RUNNING.".
Definition INTERRUPTED_BACKTEST : string := "Backtest was interrupted by a backend restart. Resume to continue pending cells.".
Definition running_cell (c : AIBacktestRun) : bool := bool_decide (c.(ce_status) = C_RUNNING).
Definition interrupt_cell (now : Z) (c : AIBacktestRun) : AIBacktestRun := c_state C_FAILED c.(ce_started_at) (Some now) (Some INTERRUPTED_CELL) c.
Definition interrupt_job (now cells : Z) (j : AIBacktestJob) : AIBacktestJob :=
  j_at None None (j_times j.(bj_started_at) (Some now) (j_result j.(bj_metrics) (Some INTERRUPTED_BACKTEST) (j_counts 0 cells (j_state B_FAILED j)))).
Definition write_interrupted (now : Z) (x : AIBacktestJob * list AIBacktestRun) (d : RDb) : RDb :=
  let stale := List.filter running_cell (snd x) in
  write_job (fst x) (interrupt_job now (len_Z stale) (fst x)) (fold_left (fun d c => write_cell c (interrupt_cell now c) d) stale d).
Definition recover_interrupted_backtests : RM Z :=
  let! stale := query (fun d => map (fun j => (j, cells_of j.(bj_id) d)) (List.filter cancellable d.(backtest_jobs))) in
  let! now := utcnow in
  commit_with (fun d => fold_left (fun d x => write_interrupted now x d) stale d) ;;;
  ret (len_Z stale).
Definition purge_backtests (retention_days : Z) : RM Z :=
  if retention_days <=? 0 then ret 0
  else
    let! now := utcnow in
    let cutoff := now - retention_days * US_PER_DAY in
    let! old := query (fun d => map bj_id (List.filter (fun j => jc_created_at (bj_config j) <? cutoff) d.(backtest_jobs))) in
    commit_with (fun d => on_cells (delete_where (fun c => str_in c.(ce_job) old)) (on_jobs (delete_where (fun j => str_in j.(bj_id) old)) d)) ;;;
    ret (len_Z old).

(** ** [service.py] *)
(** [host_date]: the host's calendar date at an instant, [date.today()]. *)
Section service.
Context {agents : Agents} {je : JobEnv} (ai : AIResearchSettings) (host_date : Z -> Z).
Definition submit_backtest (q : BacktestRequestIn) : RM (option (AIBacktestJob * list AIBacktestRun)) :=
  if negb (backtests_enabled ai) then raise (AIResearchDisabledError "AI_RESEARCH_ENABLED is false -- backtesting will not run.")
  else
    let! now := utcnow in
    let! checked := lift (_grid_and_check ai (date_of now) q) in
    let '(dates, limits, violation) := checked in
    match violation, dates with
    | Some m, _ => raise (BacktestLimitExceededError m)
    | None, [] => raise (BacktestLimitExceededError "the requested date range produced zero research dates (all in the future?)")
    | None, _ =>
        let! id := create_backtest q dates (match q.(bq_holding_days) with Some 0 | None => limits.(default_holding_days) | Some n => n end) in
        get_backtest id
    end.
Definition _build_research_request (today : Z) (c : JobConfig) (symbol : string) (date : Z) : result exn ResearchRequestIn :=
  ResearchRequest today
    (mkRequest symbol date c.(jc_depth) (default US c.(jc_market)) c.(jc_analysts) c.(jc_llm_provider) c.(jc_deep) c.(jc_quick) None
       c.(jc_debate_rounds) c.(jc_risk_rounds) c.(jc_retry_count) c.(jc_data_vendors) false None).
(** The rating of the decision memory's entry, which is a text or nothing. *)
Definition rating_text (j : json) : option string := match j with JStr s => Some s | _ => None end.
Definition remembered (log : list json) (date : Z) (provider_symbol : string) : option string :=
  m ← get_memory_entry (isoformat date +:+ ":" +:+ provider_symbol) log; rating_text m.(me_rating).
Definition cell_context (i : Instrument) (q : ResearchRequestIn) (date : Z) : option string * option provenance :=
  match q.(rq_market) with
  | US => (None, None)
  | INDIA => match data_context i date with Ok (t, p) => (t, Some p) | Err _ => (None, None) end
  end.
Definition cell_failed (id symbol : string) (date : Z) (research_id message : string) (category : option string) : RM unit :=
  mark_failed research_id (_sanitize_error message) category ;;;
  mark_cell_failed id symbol date (_sanitize_error message).
Definition end_cell (id symbol : string) (date : Z) (research_id provider_symbol : string) (prov : option provenance) (e : run_end) : RM unit :=
  match e with
  | RunError e => cell_failed id symbol date research_id e.(ce_message) e.(ce_provider_error)
  | RunDisabled m => cell_failed id symbol date research_id m None
  | RunDone report =>
      let! persisted := try_except (mark_completed research_id report prov ;;; ret true) (fun _ => ret false) in
      if negb persisted then mark_cell_failed id symbol date "failed to persist research result"
      else
        let! log := gets (fun w => decision_log w.(r_calls)) in
        mark_cell_completed id symbol date research_id report.(rp_final) (remembered log date provider_symbol)
  end.
Definition _run_one_cell (job : AIBacktestJob) (symbol : string) (date : Z) : RM unit :=
  mark_cell_running job.(bj_id) symbol date ;;;
  let! now := utcnow in
  let! q := lift (_build_research_request (host_date now) job.(bj_config) symbol date) in
  let! run := create_run q in
  mark_running run.(rj_id) ;;;
  let! i := lift (resolve_instrument q.(rq_market) symbol) in
  let! provider_symbol := lift (to_tradingagents_symbol i) in
  let '(context, prov) := cell_context i q date in
  let! e := on_agents (fun past => let '(_, e, calls) := run_research ai past (args_of q provider_symbol None false None context) in (e, calls)) in
  end_cell job.(bj_id) symbol date run.(rj_id) provider_symbol prov e.
(** What goes wrong is logged. *)
Definition _settle_symbol (provider_symbol : string) : RM unit :=
  let! _ := on_agents (fun past => settle_pending_decisions ai past provider_symbol) in ret tt.

(** [s.rstrip("%")], [rstrip("d")] *)
Fixpoint drop_char (c : ascii) (l : list ascii) : list ascii :=
  match l with x :: r => if Ascii.eqb x c then drop_char c r else l | [] => [] end.
Definition rstrip_char (c : ascii) (s : string) : string := unchars (rev (drop_char c (rev (chars s)))).
Definition percent (j : json) : option float :=
  match j with JStr s => (fun x => f_div x (f_of_Z 100)) <$> py_float (rstrip_char "%"%char (strip s)) | _ => None end.
Record outcome : Type := mkOutcome { oc_raw : float; oc_alpha : float; oc_holding : Z; oc_resolution : string }.
Definition is_text (s : string) (j : json) : bool := match j with JStr t => String.eqb t s | _ => false end.
Definition entry_of (provider_symbol : string) (date : Z) (e : json) : bool :=
  is_text provider_symbol (jget "ticker" e) && is_text (isoformat date) (jget "date" e) && negb (jtruthy (jget "pending" e)).
(** An entry that was resolved; what cannot be read is left for later. *)
Definition outcome_of (date : Z) (e : json) : option outcome :=
  let raw := jget "raw" e in
  let alpha := jget "alpha" e in
  let holding := jget "holding" e in
  if negb (jtruthy raw && jtruthy alpha && jtruthy holding) then None
  else
    r ← percent raw; a ← percent alpha; h ← py_int (rstrip_char "d"%char (py_str holding));
    Some (mkOutcome r a h (if jtruthy (jget "resolved" e) then py_str (jget "resolved" e) else isoformat date)).
Definition BENCHMARK : string := "SPY".
Definition _persist_evaluation_from_log (id symbol provider_symbol : string) (date : Z) : RM unit :=
  let! log := gets (fun w => decision_log w.(r_calls)) in
  if negb tradingagents_installed then ret tt
  else
    match List.find (entry_of provider_symbol date) log ≫= outcome_of date with
    | Some o => mark_cell_evaluated id symbol date o.(oc_raw) o.(oc_alpha) BENCHMARK o.(oc_holding) o.(oc_resolution)
    | None => ret tt
    end.

(** *** The sweep *)
(** The cells of each symbol, in the order its first cell comes. *)
Fixpoint add_cell (symbol : string) (date : Z) (l : list (string * list Z)) : list (string * list Z) :=
  match l with
  | [] => [(symbol, [date])]
  | (s, ds) :: r => if String.eqb s symbol then (s, ds ++ [date]) :: r else (s, ds) :: add_cell symbol date r
  end.
Definition cells_by_symbol (cells : list AIBacktestRun) : list (string * list Z) :=
  map (fun x => (fst x, sort_by Z.leb (snd x))) (fold_left (fun l c => add_cell c.(ce_symbol) c.(ce_date) l) cells []).
Definition already_completed (cells : list AIBacktestRun) (symbol : string) (date : Z) : bool :=
  existsb (fun c => is_completed c && String.eqb c.(ce_symbol) symbol && (c.(ce_date) =? date)) cells.
(** The dates in turn, until a stop is asked for: whether the sweep goes on. *)
Fixpoint sweep_dates (job : AIBacktestJob) (cells : list AIBacktestRun) (symbol : string) (dates : list Z) : RM bool :=
  match dates with
  | [] => ret true
  | date :: r =>
      let! stop := is_cancel_requested job.(bj_id) in
      if stop then ret false
      else
        (if already_completed cells symbol date then ret tt else _run_one_cell job symbol date) ;;;
        sweep_dates job cells symbol r
  end.
Definition _sweep_symbol (job : AIBacktestJob) (cells : list AIBacktestRun) (symbol : string) (dates : list Z) : RM unit :=
  let! i := lift (resolve_instrument (default US job.(bj_config).(jc_market)) symbol) in
  let! provider_symbol := lift (to_tradingagents_symbol i) in
  let! done := sweep_dates job cells symbol dates in
  when done do
    (_settle_symbol provider_symbol ;;;
     for_each dates (_persist_evaluation_from_log job.(bj_id) symbol provider_symbol)).
(** [asyncio.gather]: every sweep runs; the first error is raised. *)
Fixpoint gather (sweeps : list (RM unit)) : RM (option exn) :=
  match sweeps with
  | [] => ret None
  | m :: r =>
      let! e := try_except (m ;;; ret None) (fun e => ret (Some e)) in
      let! e' := gather r in
      ret (match e with Some _ => e | None => e' end)
  end.
Definition EVERY_RUN_FAILED : string := "every research run in this backtest failed".
Definition finish_backtest (job : AIBacktestJob) : RM unit :=
  let id := job.(bj_id) in
  let! stop := is_cancel_requested id in
  if stop then mark_backtest_cancelled id
  else
    let! cells := get_cells id in
    if (0 <? job.(bj_config).(jc_total_runs)) && (count_if is_completed cells =? 0) then mark_backtest_failed id EVERY_RUN_FAILED
    else mark_backtest_completed id (compute_metrics cells job.(bj_config).(jc_holding_days)).
Definition _run_backtest (id : string) : RM unit :=
  let! found := get_backtest id in
  match found with
  | None => ret tt
  | Some (job, cells) =>
      mark_backtest_running id ;;;
      let! e := gather (map (fun x => _sweep_symbol job cells (fst x) (snd x)) (cells_by_symbol cells)) in
      match e with Some e => raise e | None => finish_backtest job end
  end.
Definition backtest_status_value (s : BacktestJobStatus) : string :=
  match s with B_QUEUED => "QUEUED" | B_RUNNING => "RUNNING" | B_COMPLETED => "COMPLETED" | B_FAILED => "FAILED" | B_CANCELLED => "CANCELLED" end.
(** What is left to run; the sweep itself is started in the background. *)
Definition resume_backtest (id : string) : RM (AIBacktestJob * Z) :=
  let! found := get_backtest id in
  match found with
  | None => raise (BacktestNotFoundError id)
  | Some (job, _) =>
      if negb (bool_decide (job.(bj_status) = B_FAILED) || bool_decide (job.(bj_status) = B_CANCELLED)) then
        raise (BacktestActionNotAllowedError ("only a FAILED or CANCELLED backtest may be resumed (current status: " +:+
                                              backtest_status_value job.(bj_status) +:+ ")"))
      else
        let! pending := get_not_completed_cells id in
        clear_cancel_flag id ;;;
        ret (job, len_Z pending)
  end.
Definition cancel_backtest (id : string) : RM (option (AIBacktestJob * list AIBacktestRun)) :=
  let! asked := request_cancel id in
  let! job := get_backtest id in
  if asked then ret job
  else
    match job with
    | None => raise (BacktestNotFoundError id)
    | Some (job, _) =>
        raise (BacktestActionNotAllowedError ("backtest is not in a cancellable state (current status: " +:+
                                              backtest_status_value job.(bj_status) +:+ ")"))
    end.
End service.

(** ** [router.py]: the handlers behind the VIEW guard *)
(** [round(x, 4)]: the nearest multiple of a ten-thousandth, ties to even. *)
Definition round4 (x : float) : float :=
  match x with S754_finite s m e => (if s then f_opp else id) (f_dec (f_scaled 4 m e) 4) | _ => x end.
Record BacktestStatus : Type := mkStatusOut {
  so_id : string; so_status : BacktestJobStatus; so_total : Z; so_completed : Z; so_failed : Z; so_remaining : Z; so_progress : float;
  so_current_symbol : option string; so_current_date : option Z; so_started_at : option Z; so_completed_at : option Z;
  so_error : option string
}.
Definition _job_to_status (j : AIBacktestJob) : BacktestStatus :=
  let total := j.(bj_config).(jc_total_runs) in
  let terminal := j.(completed_runs) + j.(failed_runs) in
  let progress := if total =? 0 then f_zero else rate terminal total in
  mkStatusOut j.(bj_id) j.(bj_status) total j.(completed_runs) j.(failed_runs) (Z.max (total - terminal) 0) (round4 progress)
    j.(bj_current_symbol) j.(bj_current_date) j.(bj_started_at) j.(bj_completed_at) j.(bj_error_message).
Section routes.
Context (ai : AIResearchSettings).
(** [None] is the answer that backtests are disabled. *)
Definition if_enabled {A} (m : RM A) : RM (option A) := if backtests_enabled ai then let! a := m in ret (Some a) else ret None.
Definition unknown_backtest (id : string) : exn := HTTPException NOT_FOUND ("unknown backtest_id: " +:+ str_repr id).
Definition known_backtest {A} (id : string) (o : option A) : RM A := match o with Some x => ret x | None => raise (unknown_backtest id) end.
(** An attribute of what may be [None]. *)
Definition present {A} (o : option A) : RM A :=
  match o with Some x => ret x | None => raise (AttributeError "'NoneType' object has no attribute 'backtest_id'") end.
Definition submit_backtest_route (q : BacktestRequestIn) : RM (option AIBacktestJob) :=
  if_enabled
    (try_except (let! found := submit_backtest ai q in let! x := present found in ret (fst x))
       (fun e => raise (match caught "BacktestLimitExceededError" e with Some m => HTTPException UNPROCESSABLE m | None => e end))).
Definition estimate_backtest_route (q : BacktestRequestIn) : RM (option BacktestEstimate) :=
  if_enabled (let! now := utcnow in lift (estimate ai (date_of now) q)).
Definition get_backtest_route (id : string) : RM (option AIBacktestJob) :=
  if_enabled (let! found := get_backtest id in let! x := known_backtest id found in ret (fst x)).
Definition get_backtest_status (id : string) : RM (option BacktestStatus) :=
  if_enabled (let! found := get_backtest id in let! x := known_backtest id found in ret (_job_to_status (fst x))).
Definition get_backtest_runs (id : string) (page page_size : Z) (symbol : option string) : RM (option (list AIBacktestRun * Z)) :=
  if_enabled (let! found := get_backtest id in let! _ := known_backtest id found in list_cells_page id page page_size symbol).
Definition get_backtest_metrics (id : string) : RM (option BacktestMetrics) :=
  if_enabled
    (let! found := get_backtest id in
     let! x := known_backtest id found in
     match (fst x).(bj_metrics) with
     | Some m => ret m
     | None => raise (HTTPException CONFLICT "metrics are not available until the backtest completes")
     end).
Definition backtest_refusal (id : string) (e : exn) : exn :=
  match caught "BacktestNotFoundError" e, caught "BacktestActionNotAllowedError" e with
  | Some _, _ => unknown_backtest id
  | None, Some m => HTTPException CONFLICT m
  | None, None => e
  end.
Definition resume_backtest_route (id : string) : RM (option (string * Z)) :=
  if_enabled (try_except (let! x := resume_backtest id in ret ((fst x).(bj_id), snd x)) (fun e => raise (backtest_refusal id e))).
Definition cancel_backtest_route (id : string) : RM (option AIBacktestJob) :=
  if_enabled
    (try_except (let! found := cancel_backtest id in let! x := present found in ret (fst x)) (fun e => raise (backtest_refusal id e))).
End routes.

(** ** What a sweep asks of the agents *)
(** The instruments and dates that were researched, in order. *)
Definition ran (l : list agent_call) : list (string * string) :=
  omap (fun c => match c with Ran c => Some (c.(ac_instrument), c.(ac_as_of_date)) | Settled _ => None end) l.
Lemma ran_app a b : ran (a ++ b) = ran a ++ ran b.
Proof. apply omap_app. Qed.
(** [m] only adds to the calls, and what it researches is among [l], in order. *)
Definition within {A} (l : list (string * string)) (m : RM A) : Prop :=
  forall w, exists new, (snd (m w)).(r_calls) = w.(r_calls) ++ new /\ ran new `sublist_of` l.
Definition calls_are (c : list agent_call) (w : RWorld) : Prop := w.(r_calls) = c.
Definition quiet {A} (m : RM A) : Prop := forall c, preserves (calls_are c) m.
Lemma quiet_within {A} (m : RM A) : quiet m -> within [] m.
Proof. intros H w. exists []. rewrite app_nil_r. split; [now apply H | constructor]. Qed.
Lemma within_bind {A B} l1 l2 (m : RM A) (k : A -> RM B) : within l1 m -> (forall a, within l2 (k a)) -> within (l1 ++ l2) (bind m k).
Proof.
  intros Hm Hk w. unfold bind. destruct (Hm w) as (n1 & E1 & S1). destruct (m w) as [[a|e] w1]; cbn in E1.
  - destruct (Hk a w1) as (n2 & E2 & S2). exists (n1 ++ n2). rewrite E2, E1, app_assoc, ran_app. split; [reflexivity | now apply sublist_app].
  - exists n1. split; [exact E1 | now apply sublist_inserts_r].
Qed.
Lemma within_quiet_bind {A B} l (m : RM A) (k : A -> RM B) : quiet m -> (forall a, within l (k a)) -> within l (bind m k).
Proof. intros Hm Hk. apply (within_bind [] l); [now apply quiet_within | exact Hk]. Qed.
Lemma within_then_quiet {A B} l (m : RM A) (k : A -> RM B) : within l m -> (forall a, quiet (k a)) -> within l (bind m k).
Proof. intros Hm Hk. rewrite <- (app_nil_r l). apply within_bind; [exact Hm | intros a; now apply quiet_within]. Qed.
Lemma within_try {A} l (m : RM A) (h : exn -> RM A) : within l m -> (forall e, quiet (h e)) -> within l (try_except m h).
Proof.
  intros Hm Hh w. unfold try_except. destruct (Hm w) as (n & E & S). destruct (m w) as [[a|e] w1]; cbn in E; [now exists n|].
  exists n. split; [now apply Hh | exact S].
Qed.
Lemma quiet_query {A} (f : RDb -> A) : quiet (query f).
Proof. intros c w H. unfold query, calls_are in *. cbn. now rewrite (proj2 (r_settle_keeps w)). Qed.
Lemma quiet_commit f : quiet (commit_with f).
Proof.
  intros c w H. unfold commit_with, calls_are in *. pose proof (proj2 (r_settle_keeps w)) as K. destruct (rdb_ok _); cbn; now rewrite K.
Qed.
Lemma quiet_utcnow : quiet utcnow.
Proof. intros c w H. unfold utcnow, calls_are in *. now destruct (r_ticks w). Qed.
Lemma quiet_uuid4 : quiet uuid4.
Proof. intros c w H. unfold uuid4, calls_are in *. now destruct (r_uuids w). Qed.
#[export] Hint Extern 1 (preserves (calls_are _) (query _)) => apply quiet_query : preserves.
#[export] Hint Extern 1 (preserves (calls_are _) (commit_with _)) => apply quiet_commit : preserves.
#[export] Hint Extern 1 (preserves (calls_are _) utcnow) => apply quiet_utcnow : preserves.
#[export] Hint Extern 1 (preserves (calls_are _) uuid4) => apply quiet_uuid4 : preserves.
Lemma quiet_update_run id f : quiet (update_run id f).
Proof. intros c. unfold update_run. preserve. Qed.
Lemma quiet_update_job id f : (forall j, quiet (f j)) -> quiet (update_job id f).
Proof. intros H c. unfold update_job. preserve. apply H. Qed.
Lemma quiet_update_cell id s d f g : (forall x, quiet (f x)) -> quiet (update_cell id s d f g).
Proof. intros H c. unfold update_cell. preserve. apply H. Qed.
Lemma quiet_create_run q : quiet (create_run q).
Proof. intros c. unfold create_run. preserve. Qed.
#[export] Hint Extern 1 (preserves (calls_are _) (update_run _ _)) => apply quiet_update_run : preserves.
#[export] Hint Extern 1 (preserves (calls_are _) (create_run _)) => apply quiet_create_run : preserves.
Lemma quiet_cell_ops id s d :
  quiet (mark_cell_running id s d) /\ (forall e, quiet (mark_cell_failed id s d e)) /\ (forall r a b, quiet (mark_cell_completed id s d r a b)) /\
  forall r a b h t, quiet (mark_cell_evaluated id s d r a b h t).
Proof.
  repeat split; intros; try (apply quiet_update_cell; intros x c; cbv beta zeta; preserve). intros c. unfold mark_cell_evaluated. preserve.
Qed.
Lemma quiet_job_ops id :
  quiet (mark_backtest_running id) /\ (forall m, quiet (mark_backtest_completed id m)) /\ (forall e, quiet (mark_backtest_failed id e)) /\
  quiet (mark_backtest_cancelled id).
Proof. repeat split; intros; apply quiet_update_job; intros j c; cbv beta zeta; preserve. Qed.
Section sweep_calls.
Context {agents : Agents} {je : JobEnv} (ai : AIResearchSettings) (host_date : Z -> Z).
Lemma quiet_end_cell id s d r p prov e : quiet (end_cell id s d r p prov e).
Proof.
  destruct (quiet_cell_ops id s d) as (_ & F & C & _). intros c. destruct e; unfold end_cell, cell_failed, mark_completed, mark_failed; preserve;
    first [apply F | apply C].
Qed.
Lemma run_research_calls past a : let '(_, _, calls) := run_research ai past a in
  exists new, calls = past ++ new /\ ran new `sublist_of` [(a.(ra_instrument), a.(ra_as_of_date))].
Proof.
  unfold run_research. repeat case_match; simplify_eq; try (exists []; rewrite app_nil_r; split; [reflexivity | apply sublist_nil_l]).
  all: eexists [_]; split; [reflexivity | reflexivity].
Qed.
(** A cell makes one run at most: of its own instrument and date. *)
Lemma within_nil_l {A} l (m : RM A) : quiet m -> within l m.
Proof. intros H w. destruct (quiet_within m H w) as (n & E & S). exists n. split; [exact E|]. apply sublist_nil_r in S. rewrite S. apply sublist_nil_l. Qed.
Lemma within_lift {A B} l (r : result exn A) (k : A -> RM B) : (forall a, r = Ok a -> within l (k a)) -> within l (bind (lift r) k).
Proof.
  intros H w. unfold bind, lift. destruct r as [a|e]; [now apply H|]. exists []. rewrite app_nil_r. split; [reflexivity | apply sublist_nil_l].
Qed.
Lemma cell_within job symbol date i y : resolve_instrument (default US job.(bj_config).(jc_market)) symbol = Ok i ->
  to_tradingagents_symbol i = Ok y -> within [(y, isoformat date)] (_run_one_cell ai host_date job symbol date).
Proof.
  intros Hi Hy. unfold _run_one_cell. apply within_quiet_bind; [apply quiet_cell_ops|]. intros _.
  apply within_quiet_bind; [exact quiet_utcnow|]. intros now. apply within_lift. intros q Hq.
  assert (q.(rq_market) = default US job.(bj_config).(jc_market) /\ q.(rq_research_date) = date) as [Em Ed].
  { unfold _build_research_request, ResearchRequest in Hq. destruct (_ && _); [|discriminate]. now injection Hq as <-. }
  apply within_quiet_bind; [apply quiet_create_run|]. intros run. apply within_quiet_bind; [apply quiet_update_run|]. intros _.
  apply within_lift. intros i' Hi'. apply within_lift. intros y' Hy'. rewrite Em, Hi in Hi'. injection Hi' as <-. rewrite Hy in Hy'. injection Hy' as <-.
  destruct (cell_context i q date) as [context prov]. apply within_then_quiet; [|intros e; apply quiet_end_cell].
  intros w. unfold on_agents. pose proof (run_research_calls (r_calls w) (args_of q y None false None context)) as R.
  destruct (run_research _ _ _) as [[nodes e] calls]. destruct R as (new & -> & S). exists new. split; [reflexivity|]. cbn in S. now rewrite Ed in S.
Qed.
Lemma settle_within y : within [] (_settle_symbol ai y).
Proof.
  unfold _settle_symbol. apply within_then_quiet; [|intros e c; preserve]. intros w. unfold on_agents, settle_pending_decisions.
  repeat case_match; simplify_eq; [exists [] | exists [] | exists [Settled y]]; rewrite ?app_nil_r; (split; [reflexivity | constructor]).
Qed.
Lemma quiet_evaluation id s y d : quiet (_persist_evaluation_from_log id s y d).
Proof. intros c. unfold _persist_evaluation_from_log. preserve. apply quiet_cell_ops. Qed.
(** What is left of a symbol's dates. *)
Definition todo (cells : list AIBacktestRun) (symbol : string) (dates : list Z) : list Z :=
  List.filter (fun d => negb (already_completed cells symbol d)) dates.
Lemma dates_within job cells symbol i y dates : resolve_instrument (default US job.(bj_config).(jc_market)) symbol = Ok i ->
  to_tradingagents_symbol i = Ok y ->
  within (map (fun d => (y, isoformat d)) (todo cells symbol dates)) (sweep_dates ai host_date job cells symbol dates).
Proof.
  intros Hi Hy. induction dates as [|d l IH]; cbn [sweep_dates todo List.filter]; [apply within_nil_l; intros c; preserve|].
  apply within_quiet_bind; [apply quiet_query|]. intros []; [apply within_nil_l; intros c; preserve|]. fold (todo cells symbol l).
  destruct (already_completed cells symbol d) eqn:A; cbn [negb].
  - apply within_quiet_bind; [intros c; preserve | intros _; exact IH].
  - apply (within_bind [(y, isoformat d)]); [now apply (cell_within job symbol d i) | intros _; exact IH].
Qed.
Definition provider_of (job : AIBacktestJob) (symbol : string) : result exn string :=
  let? i := resolve_instrument (default US job.(bj_config).(jc_market)) symbol in to_tradingagents_symbol i.
(** What the agents are asked for a cell. *)
Definition asked_for (job : AIBacktestJob) (x : string * Z) : string * string :=
  (match provider_of job (fst x) with Ok y => y | Err _ => "" end, isoformat (snd x)).
Lemma symbol_within job cells symbol dates :
  within (map (fun d => asked_for job (symbol, d)) (todo cells symbol dates)) (_sweep_symbol ai host_date job cells symbol dates).
Proof.
  unfold _sweep_symbol. apply within_lift. intros i Hi. apply within_lift. intros y Hy.
  assert (map (fun d => asked_for job (symbol, d)) (todo cells symbol dates) = map (fun d => (y, isoformat d)) (todo cells symbol dates) ++ []) as ->.
  { rewrite app_nil_r. apply map_ext. intros d. unfold asked_for, provider_of. cbn [fst snd]. rewrite Hi. cbn [rbind]. now rewrite Hy. }
  apply within_bind; [now apply (dates_within job cells symbol i)|]. intros [|]; [|apply within_nil_l; intros c; preserve].
  apply within_then_quiet; [apply settle_within|]. intros _ c. apply preserves_for_each. intros d. apply quiet_evaluation.
Qed.
Lemma gather_within {A} (f : A -> RM unit) (g : A -> list (string * string)) l : (forall x, within (g x) (f x)) -> within (flat_map g l) (gather (map f l)).
Proof.
  intros H. induction l as [|x l IH]; cbn; [apply within_nil_l; intros c; preserve|]. apply within_bind.
  - apply within_try; [apply within_then_quiet; [apply H | intros [] c; preserve] | intros e c; preserve].
  - intros e. apply within_then_quiet; [exact IH|]. intros e' c. preserve.
Qed.
End sweep_calls.

(** *** The cells of a sweep are the job's cells *)
Definition pairs (l : list (string * list Z)) : list (string * Z) := flat_map (fun x => map (fun d => (fst x, d)) (snd x)) l.
Lemma pairs_add s d l : pairs (add_cell s d l) ≡ₚ pairs l ++ [(s, d)].
Proof.
  unfold pairs. induction l as [|[s' ds] l IH]; [reflexivity|]. cbn. destruct (String.eqb_spec s' s) as [->|]; cbn.
  - rewrite map_app, <- !app_assoc. apply Permutation_app_head. cbn. apply Permutation_cons_append.
  - now rewrite IH, app_assoc.
Qed.
Lemma pairs_sorted l : pairs (map (fun x => (fst x, sort_by Z.leb (snd x))) l) ≡ₚ pairs l.
Proof.
  unfold pairs. induction l as [|[s ds] l IH]; [reflexivity|]. cbn. rewrite IH. apply Permutation_app_tail, Permutation_map, sort_by_Permutation.
Qed.
Lemma cells_by_symbol_pairs cells : pairs (cells_by_symbol cells) ≡ₚ map (fun c => (ce_symbol c, ce_date c)) cells.
Proof.
  unfold cells_by_symbol. rewrite pairs_sorted. enough (forall l, pairs (fold_left (fun l c => add_cell (ce_symbol c) (ce_date c) l) cells l) ≡ₚ
    pairs l ++ map (fun c => (ce_symbol c, ce_date c)) cells) as -> by reflexivity.
  induction cells as [|c cells IH]; intros l; cbn; [now rewrite app_nil_r|]. rewrite IH, pairs_add, <- app_assoc. reflexivity.
Qed.
Definition cell_pair (c : AIBacktestRun) : string * Z := (ce_symbol c, ce_date c).
Lemma cells_of_unique id d : rdb_ok d = true -> NoDup (map cell_pair (cells_of id d)).
Proof.
  unfold rdb_ok, unique_on. rewrite !andb_true_iff, !bool_decide_eq_true. intros [_ [[_ N] _]]. unfold cells_of. rewrite sort_by_Permutation.
  apply NoDup_map_filter with (p := fun c => String.eqb c.(ce_job) id) in N. revert N.
  assert (forall c, In c (List.filter (fun c => String.eqb c.(ce_job) id) (backtest_cells d)) -> ce_job c = id) as K.
  { intros c [_ E]%List.filter_In. now apply String.eqb_eq. }
  revert K. generalize (List.filter (fun c => String.eqb c.(ce_job) id) (backtest_cells d)) as l. induction l as [|c l IH]; intros K N; [constructor|].
  cbn in *. apply NoDup_cons in N as [N1 N2]. constructor; [|apply IH; auto]. intros (c' & E & Hc)%list_elem_of_In%in_map_iff. apply N1.
  apply list_elem_of_In, in_map_iff. exists c'. split; [|exact Hc]. unfold ce_key. unfold cell_pair in E. injection E as -> ->.
  now rewrite (K c' (or_intror Hc)), (K c (or_introl eq_refl)).
Qed.
Lemma already_completed_is cells c : NoDup (map cell_pair cells) -> In c cells -> already_completed cells (ce_symbol c) (ce_date c) = is_completed c.
Proof.
  intros N Hc. unfold already_completed. destruct (is_completed c) eqn:E.
  - apply existsb_exists. exists c. split; [exact Hc|]. now rewrite E, String.eqb_refl, Z.eqb_refl.
  - apply not_true_iff_false. intros (c' & Hc' & K)%existsb_exists. rewrite !andb_true_iff, String.eqb_eq, Z.eqb_eq in K. destruct K as [[K1 K2] K3].
    assert (c' = c) as -> by (apply (NoDup_map_inj_in cell_pair cells); auto; unfold cell_pair; congruence). congruence.
Qed.
Lemma flat_todo job cells l :
  flat_map (fun x => map (fun d => asked_for job (fst x, d)) (todo cells (fst x) (snd x))) l =
  map (asked_for job) (List.filter (fun p => negb (already_completed cells (fst p) (snd p))) (pairs l)).
Proof.
  unfold pairs, todo. induction l as [|[s ds] l IH]; [reflexivity|]. cbn [flat_map fst snd]. rewrite IH, List.filter_app, map_app. f_equal.
  clear. induction ds as [|d ds IH]; [reflexivity|]. cbn. destruct (already_completed cells s d); cbn; [exact IH | now rewrite IH].
Qed.
Lemma filter_Permutation {A} (p : A -> bool) l l' : l ≡ₚ l' -> List.filter p l ≡ₚ List.filter p l'.
Proof. induction 1; cbn; repeat case_match; auto using perm_swap; etransitivity; eassumption. Qed.
Lemma filter_map_pair {A B} (f : A -> B) (p : B -> bool) l : List.filter p (map f l) = map f (List.filter (fun x => p (f x)) l).
Proof. induction l as [|x l IH]; [reflexivity|]. cbn. rewrite IH. now destruct (p (f x)). Qed.
Lemma todo_cells job cells : NoDup (map cell_pair cells) ->
  flat_map (fun x => map (fun d => asked_for job (fst x, d)) (todo cells (fst x) (snd x))) (cells_by_symbol cells) ≡ₚ
  map (fun c => asked_for job (cell_pair c)) (List.filter (fun c => negb (is_completed c)) cells).
Proof.
  intros N. rewrite flat_todo. rewrite (filter_Permutation _ _ _ (cells_by_symbol_pairs cells)).
  rewrite filter_map_pair, map_map. apply reflexive_eq. f_equal. apply List.filter_ext_in. intros c Hc. f_equal. exact (already_completed_is cells c N Hc).
Qed.
Lemma settle_rdb_ok w : rw_ok w -> rdb_ok (settle w).(r_db) = true.
Proof. unfold rw_ok, settle. intros H. destruct (r_others w) as [|o r]; [exact H|]. cbn. destruct (rdb_ok (o _)) eqn:E; auto. Qed.
(** C14: a sweep never reruns a completed cell.  Whatever the agents answer,
    whichever sweeps raise, and whatever other connections commit meanwhile, a
    background run of a backtest adds to the calls made of the agents, and the
    research it asks for is at most once for each cell that was not COMPLETED when
    it started -- of that cell's own provider symbol and date -- and for no other. *)
Theorem completed_cells_are_not_rerun {agents : Agents} {je : JobEnv} (ai : AIResearchSettings) (host_date : Z -> Z) id w : rw_ok w ->
  let '(_, w') := _run_backtest ai host_date id w in
  exists new, w'.(r_calls) = w.(r_calls) ++ new /\
    match job_row id (settle w).(r_db) with
    | None => new = []
    | Some job =>
        ran new ⊆+ map (fun c => asked_for job (cell_pair c)) (List.filter (fun c => negb (is_completed c)) (cells_of id (settle w).(r_db)))
    end.
Proof.
  intros Hw. apply settle_rdb_ok in Hw. unfold _run_backtest, get_backtest, query, bind at 1.
  pose proof (proj2 (r_settle_keeps w)) as K. destruct (job_row id (r_db (settle w))) as [job|] eqn:J; cbn [fmap option_fmap option_map].
  2:{ exists []. cbn. rewrite app_nil_r. now split. }
  set (cells := cells_of id (r_db (settle w))) in *. set (L := cells_by_symbol cells).
  assert (within (flat_map (fun x => map (fun d => asked_for job (fst x, d)) (todo cells (fst x) (snd x))) L)
    (mark_backtest_running id ;;;
     let! e := gather (map (fun x => _sweep_symbol ai host_date job cells (fst x) (snd x)) L) in
     match e with Some e => raise e | None => finish_backtest job end)) as H.
  { apply within_quiet_bind; [apply quiet_job_ops|]. intros _. apply within_then_quiet.
    - apply (gather_within (fun x => _sweep_symbol ai host_date job cells (fst x) (snd x))). intros x. apply symbol_within.
    - intros e c. unfold finish_backtest, is_cancel_requested, get_cells. preserve; apply quiet_job_ops. }
  specialize (H (settle w)). destruct H as (new & E & S). cbv beta iota.
  match type of E with r_calls (snd ?c) = _ => destruct c as [r w'] end. cbn in E. exists new. rewrite E, K. split; [reflexivity|].
  apply sublist_submseteq in S. unfold L in S. rewrite (todo_cells job cells) in S; [exact S | now apply cells_of_unique].
Qed.

(** ** How a sweep leaves its job *)
(** A change that leaves a job's status alone. *)
Definition tame (id : string) (o : RDb -> RDb) : Prop :=
  forall d j, job_row id d = Some j -> exists j', job_row id (o d) = Some j' /\ j'.(bj_status) = j.(bj_status).
Record stands (id : string) (st : BacktestJobStatus) (w : RWorld) : Prop := {
  sd_ok : rw_ok w; sd_others : Forall (tame id) w.(r_others); sd_row : exists j, job_row id w.(r_db) = Some j /\ j.(bj_status) = st
}.
Lemma job_row_write id o n d : job_row id (write_job o n d) =
  (fun j => if String.eqb j.(bj_id) o.(bj_id) then merge_job o n j else j) <$> job_row id d.
Proof.
  unfold job_row, write_job. cbn. unfold update_where. induction (backtest_jobs d) as [|j l IH]; [reflexivity|]. cbn [map List.find].
  assert ((if String.eqb (bj_id j) (bj_id o) then merge_job o n j else j).(bj_id) = bj_id j) as -> by (destruct (String.eqb (bj_id j) (bj_id o)); reflexivity).
  destruct (String.eqb (bj_id j) id); [reflexivity | exact IH].
Qed.
Lemma write_job_ok o n d : rdb_ok (write_job o n d) = rdb_ok d.
Proof.
  assert (map bj_id (backtest_jobs (write_job o n d)) = map bj_id (backtest_jobs d)) as K.
  { unfold write_job. cbn. unfold update_where. rewrite map_map. apply map_ext. intros j. now destruct (String.eqb _ _). }
  unfold rdb_ok, unique_on. rewrite K. cbn [write_job on_jobs runs stages backtest_cells]. do 2 f_equal.
  induction (backtest_cells d) as [|c l IH]; [reflexivity|]. cbn [forallb]. now rewrite IH, !named_in_keys, K.
Qed.
Lemma tame_same_jobs id o : (forall d, (o d).(backtest_jobs) = d.(backtest_jobs)) -> tame id o.
Proof. intros H d j J. exists j. unfold job_row in *. now rewrite H. Qed.
Lemma tame_write_job id o n : n.(bj_status) = o.(bj_status) -> tame id (write_job o n).
Proof.
  intros H d j J. rewrite job_row_write, J. cbn. eexists. split; [reflexivity|]. destruct (String.eqb _ _); [|reflexivity].
  unfold merge_job. cbn. now rewrite H, changed_none.
Qed.
Lemma tame_compose id f g : tame id f -> tame id g -> tame id (fun d => g (f d)).
Proof. intros F G d j J. destruct (F d j J) as (j1 & J1 & E1). destruct (G _ j1 J1) as (j2 & J2 & E2). exists j2. split; [exact J2 | congruence]. Qed.
Lemma settle_stands id st w : stands id st w -> stands id st (settle w).
Proof.
  intros [H1 H2 (j & J & E)]. unfold settle. destruct (r_others w) as [|o r] eqn:O; [split; auto; [now rewrite O | eauto]|].
  apply Forall_cons in H2 as [Ho Hr]. destruct (rdb_ok (o (r_db w))) eqn:D; split; cbn; auto; [|eauto].
  destruct (Ho _ j J) as (j' & J' & E'). exists j'. split; [exact J' | congruence].
Qed.
Section stands.
Context (id : string) (st : BacktestJobStatus).
Lemma stands_query {A} (f : RDb -> A) : preserves (stands id st) (query f).
Proof. intros w H. unfold query. cbn. now apply settle_stands. Qed.
Lemma stands_commit f : tame id f -> preserves (stands id st) (commit_with f).
Proof.
  intros F w H. apply settle_stands in H as [H1 H2 (j & J & E)]. unfold commit_with. destruct (rdb_ok (f _)) eqn:D; [|split; eauto].
  split; cbn; [exact D | exact H2|]. destruct (F _ j J) as (j' & J' & E'). exists j'. split; [exact J' | congruence].
Qed.
Lemma stands_utcnow : preserves (stands id st) utcnow.
Proof. intros w [H1 H2 H3]. unfold utcnow. destruct (r_ticks w); now split. Qed.
Lemma stands_uuid4 : preserves (stands id st) uuid4.
Proof. intros w [H1 H2 H3]. unfold uuid4. destruct (r_uuids w); now split. Qed.
Lemma stands_agents {A} (f : list agent_call -> A * list agent_call) : preserves (stands id st) (on_agents f).
Proof. intros w [H1 H2 H3]. unfold on_agents. destruct (f _). now split. Qed.
End stands.
#[export] Hint Extern 1 (preserves (stands _ _) (query _)) => apply stands_query : preserves.
#[export] Hint Extern 1 (preserves (stands _ _) utcnow) => apply stands_utcnow : preserves.
#[export] Hint Extern 1 (preserves (stands _ _) uuid4) => apply stands_uuid4 : preserves.
#[export] Hint Extern 1 (preserves (stands _ _) (on_agents _)) => apply stands_agents : preserves.
Ltac tame := first
  [ apply tame_same_jobs; intros; reflexivity
  | apply tame_write_job; solve [auto]
  | apply (tame_compose _ (write_cell _ _)); tame ].
#[export] Hint Extern 1 (preserves (stands _ _) (commit_with _)) => apply stands_commit; tame : preserves.
Lemma stands_runs id st : (forall x f, preserves (stands id st) (update_run x f)) /\ (forall q, preserves (stands id st) (create_run q)).
Proof.
  split; intros; unfold update_run, create_run; preserve.
Qed.
#[export] Hint Extern 1 (preserves (stands _ _) (update_run _ _)) => apply stands_runs : preserves.
#[export] Hint Extern 1 (preserves (stands _ _) (create_run _)) => apply stands_runs : preserves.
Lemma stands_update_cell id st x s d f g : (forall c, preserves (stands id st) (f c)) -> (forall c j, (g c j).(bj_status) = j.(bj_status)) ->
  preserves (stands id st) (update_cell x s d f g).
Proof.
  intros F G. unfold update_cell. preserve.
Qed.
Lemma stands_cell_ops id st x s d :
  preserves (stands id st) (mark_cell_running x s d) /\ (forall e, preserves (stands id st) (mark_cell_failed x s d e)) /\
  (forall r a b, preserves (stands id st) (mark_cell_completed x s d r a b)) /\
  forall r a b h t, preserves (stands id st) (mark_cell_evaluated x s d r a b h t).
Proof.
  split; [|split; [intros e | split; [intros r a b | intros r a b h t; unfold mark_cell_evaluated; preserve]]];
    apply stands_update_cell; intros; cbv beta zeta; (preserve || reflexivity).
Qed.
Section ends.
Context {agents : Agents} {je : JobEnv} (ai : AIResearchSettings) (host_date : Z -> Z) (id : string).
Lemma stands_cell st job s d : preserves (stands id st) (_run_one_cell ai host_date job s d).
Proof.
  destruct (stands_cell_ops id st job.(bj_id) s d) as (C1 & C2 & C3 & _).
  unfold _run_one_cell, end_cell, cell_failed, mark_running, mark_completed, mark_failed. preserve.
Qed.
Lemma stands_dates st job cells s dates : preserves (stands id st) (sweep_dates ai host_date job cells s dates).
Proof. induction dates as [|d l IH]; cbn [sweep_dates]; unfold is_cancel_requested; preserve. apply stands_cell. Qed.
Lemma stands_sweep st job cells s dates : preserves (stands id st) (_sweep_symbol ai host_date job cells s dates).
Proof.
  unfold _sweep_symbol, _settle_symbol, _persist_evaluation_from_log. preserve; first [apply stands_dates | apply stands_cell_ops].
Qed.
Lemma stands_gather st l : Forall (preserves (stands id st)) l -> preserves (stands id st) (gather l).
Proof. induction 1; cbn [gather]; preserve. Qed.
(** Setting the status of a job that stands. *)
Lemma update_job_sets st st' f w : stands id st w -> (forall j, preserves (stands id st) (f j)) ->
  (forall j w, exists n, fst (f j w) = Ok n /\ n.(bj_status) = st') -> stands id st' (snd (update_job id f w)) /\ fst (update_job id f w) = Ok tt.
Proof.
  intros H F S. unfold update_job, query, bind. apply settle_stands in H. pose proof H as [_ _ (j & J & E)]. rewrite J. cbv beta iota.
  destruct (S j (settle w)) as (n & N & En). pose proof (F j _ H) as H1. destruct (f j (settle w)) as [r w1]. cbn in N, H1. subst r.
  apply settle_stands in H1 as [H1 H2 (j1 & J1 & E1)]. unfold commit_with. rewrite write_job_ok, H1. cbn -[write_job]. split; [|reflexivity].
  split; cbn -[write_job]; [unfold rw_ok; cbn -[write_job]; now rewrite write_job_ok | exact H2|]. rewrite job_row_write, J1. cbn. eexists. split; [reflexivity|].
  assert (bj_id j1 = id /\ bj_id j = id) as [-> ->].
  { apply List.find_some in J as [_ J], J1 as [_ J1]. apply String.eqb_eq in J, J1. now split. }
  rewrite String.eqb_refl. unfold merge_job. cbn. rewrite En, E, E1. unfold changed. now case_decide.
Qed.
Lemma utcnow_Ok w : exists t w', utcnow w = (Ok t, w').
Proof. unfold utcnow. destruct (r_ticks w); eauto. Qed.
Ltac sets st := apply (update_job_sets st);
  [assumption | intros; cbv beta zeta; preserve
  | intros; cbv beta zeta; unfold bind, ret; repeat case_match; simplify_eq/=; eauto;
    match goal with E : utcnow ?w = _ |- _ => destruct (utcnow_Ok w) as (? & ? & ?); congruence end].
Definition terminal (st : BacktestJobStatus) : Prop := st = B_COMPLETED \/ st = B_FAILED \/ st = B_CANCELLED.
Lemma mark_running_stands st w : stands id st w ->
  stands id B_RUNNING (snd (mark_backtest_running id w)) /\ fst (mark_backtest_running id w) = Ok tt.
Proof. intros H. unfold mark_backtest_running. sets st. Qed.
Definition finishes (x : result exn unit * RWorld) : Prop := exists st, terminal st /\ stands id st (snd x) /\ fst x = Ok tt.
Lemma finish_ends job w : job.(bj_id) = id -> stands id B_RUNNING w ->
  finishes (finish_backtest job w).
Proof.
  intros Hid H. unfold finish_backtest, is_cancel_requested, get_cells, query. rewrite Hid. unfold bind at 1. apply settle_stands in H.
  cbv beta iota. set (w1 := settle w) in *. clearbody w1. destruct (match job_row id (r_db w1) with Some j => cancel_requested j | None => false end).
  - exists B_CANCELLED. split; [unfold terminal; auto|]. unfold mark_backtest_cancelled. sets B_RUNNING.
  - unfold bind at 1. apply settle_stands in H. cbv beta iota. set (w2 := settle w1) in *. clearbody w2. destruct (_ && _).
    + exists B_FAILED. split; [unfold terminal; auto|]. unfold mark_backtest_failed. sets B_RUNNING.
    + exists B_COMPLETED. split; [unfold terminal; auto|]. unfold mark_backtest_completed. sets B_RUNNING.
Qed.
(** A backtest ends, unless a sweep raises.  Whatever the agents answer, and
    whatever the other connections commit that leaves the job's status alone -- a
    stop being asked for is one -- the background run of a recorded backtest,
    whatever its status was, leaves it COMPLETED, FAILED or CANCELLED when it
    returns; and when it raises, which it does only after every sweep has run,
    the job is left RUNNING. *)
Theorem backtest_ends_or_is_left_running w : rw_ok w -> Forall (tame id) w.(r_others) -> job_row id w.(r_db) <> None ->
  let '(r, w') := _run_backtest ai host_date id w in
  exists j, job_row id w'.(r_db) = Some j /\
    match r with Ok _ => terminal j.(bj_status) | Err _ => j.(bj_status) = B_RUNNING end.
Proof.
  intros H1 H2 H3. destruct (job_row id (r_db w)) as [j|] eqn:J; [clear H3|easy].
  assert (stands id j.(bj_status) w) as H by (split; eauto). apply settle_stands in H. pose proof H as [_ _ (j1 & J1 & _)].
  unfold _run_backtest, get_backtest, query, bind at 1. rewrite J1. cbn [fmap option_fmap option_map].
  assert (bj_id j1 = id) as Hid. { apply List.find_some in J1 as [_ J1]. now apply String.eqb_eq in J1. }
  set (cells := cells_of id _). clearbody cells. apply mark_running_stands in H as [R Ok1]. unfold bind at 1.
  destruct (mark_backtest_running id (settle w)) as [r1 w1]. cbn in R, Ok1. subst r1.
  set (l := map _ (cells_by_symbol cells)).
  assert (preserves (stands id B_RUNNING) (gather l)) as G.
  { apply stands_gather, Forall_map, List.Forall_forall. intros x _. apply stands_sweep. }
  specialize (G w1 R). unfold bind at 1. assert (exists e, fst (gather l w1) = Ok e) as [e E].
  { clear. revert w1. induction l as [|m l IH]; intros w; [now eexists|]. cbn [gather]. unfold bind, try_except, ret.
    destruct (m w) as [[[]|e] w1]; cbn; destruct (IH w1) as [e' E']; destruct (gather l w1) as [r w2]; cbn in E'; subst r; now eexists. }
  destruct (gather l w1) as [r w2]. cbn in E, G. subst r. destruct e as [e|].
  - destruct G as [_ _ (j2 & J2 & E2)]. cbn. eauto.
  - destruct (finish_ends j1 w2 Hid G) as (st & T & [_ _ (j2 & J2 & E2)] & E). destruct (finish_backtest j1 w2) as [r w3]. cbn in *. subst r.
    exists j2. split; [exact J2 | now rewrite E2].
Qed.
End ends.

(** ** Submission *)
Lemma job_row_None id d : job_row id d = None -> ~ In id (map bj_id d.(backtest_jobs)).
Proof. intros F (j & <- & H)%in_map_iff. apply (List.find_none _ _ F) in H. now rewrite String.eqb_refl in H. Qed.
Lemma cells_need_jobs d c : rdb_ok d = true -> In c d.(backtest_cells) -> In c.(ce_job) (map bj_id d.(backtest_jobs)).
Proof.
  unfold rdb_ok. rewrite !andb_true_iff. intros [_ [_ H]] Hc. rewrite forallb_forall in H. specialize (H c Hc). rewrite named_in_keys in H. now apply str_in_spec in H.
Qed.
Lemma grid_cells_NoDup symbols dates : NoDup symbols -> NoDup dates -> NoDup (grid_cells symbols dates).
Proof.
  intros Ns Nd. unfold grid_cells. induction symbols as [|s l IH]; [constructor|]. apply NoDup_cons in Ns as [N1 N2]. cbn. apply NoDup_app.
  split; [|split; [|now apply IH]].
  - apply NoDup_fmap_2; [|exact Nd]. now intros x y [= ->].
  - intros [s' d] (x & [= <- <-] & _)%list_elem_of_In%in_map_iff (s2 & Hs & (x' & [= -> _] & _)%in_map_iff)%list_elem_of_In%in_flat_map.
    apply N1. now apply list_elem_of_In.
Qed.
Definition new_cells (id : string) (first : Z) (grid : list (string * Z)) : list AIBacktestRun :=
  map (pending_cell id) (List.combine (seqZ first (len_Z grid)) grid).
Lemma combine_seq {A} first (l : list A) : map fst (List.combine (seqZ first (len_Z l)) l) = seqZ first (len_Z l) /\
  map snd (List.combine (seqZ first (len_Z l)) l) = l.
Proof.
  unfold len_Z. revert first. induction l as [|x l IH]; intros first; [now split|]. cbn [List.length]. rewrite Nat2Z.inj_succ, seqZ_cons by lia.
  replace (Z.pred (Z.succ (Z.of_nat (List.length l)))) with (Z.of_nat (List.length l)) by lia. cbn. destruct (IH (Z.succ first)) as [-> ->]. now split.
Qed.
Lemma new_cells_spec id first grid :
  map ce_id (new_cells id first grid) = seqZ first (len_Z grid) /\ map cell_pair (new_cells id first grid) = grid /\
  Forall (fun c => ce_job c = id /\ ce_status c = C_PENDING) (new_cells id first grid).
Proof.
  destruct (combine_seq first grid) as [C1 C2]. unfold new_cells. repeat split.
  - rewrite map_map. etransitivity; [|exact C1]. apply map_ext. now intros [i [s d]].
  - rewrite map_map. etransitivity; [|exact C2]. apply map_ext. now intros [i [s d]].
  - apply Forall_map, List.Forall_forall. now intros [i [s d]] _.
Qed.
Lemma insert_backtest_ok job grid d : rdb_ok d = true -> ~ In job.(bj_id) (map bj_id d.(backtest_jobs)) -> NoDup grid ->
  rdb_ok (insert_backtest job grid d) = true.
Proof.
  intros Hd N Ng. assert (forall c, In c d.(backtest_cells) -> In c.(ce_job) (map bj_id d.(backtest_jobs))) as F by (intros c; now apply cells_need_jobs).
  destruct (new_cells_spec job.(bj_id) (next_id ce_id d.(backtest_cells)) grid) as (P1 & P2 & P3). rewrite List.Forall_forall in P3.
  unfold rdb_ok, insert_backtest, unique_on in *. cbn [on_cells on_jobs runs stages backtest_jobs backtest_cells].
  fold (new_cells (bj_id job) (next_id ce_id (backtest_cells d)) grid). set (new := new_cells _ _ _) in *.
  rewrite !andb_true_iff, !bool_decide_eq_true in *. destruct Hd as [[Hr H1] [[H2 H3] H4]]. repeat split; try apply Hr.
  - apply NoDup_map_app; [exact H1 | repeat constructor; set_solver|]. intros x y Hx [<- | []] E. apply N. rewrite <- E. now apply in_map.
  - apply NoDup_map_app; [exact H2 | rewrite P1; apply NoDup_seqZ|]. intros x y Hx Hy E. apply (next_id_above ce_id) in Hx.
    apply (in_map ce_id) in Hy. rewrite P1 in Hy. apply list_elem_of_In, elem_of_seqZ in Hy. lia.
  - apply NoDup_map_app; [exact H3 | |].
    + apply (NoDup_fmap_1 (fun k => (snd (fst k), snd k))). rewrite <- list_fmap_compose. cbn. unfold ce_key. cbn.
      change (NoDup (map cell_pair new)). now rewrite P2.
    + intros x y Hx Hy [= E _ _]. apply N. destruct (P3 y Hy) as [<- _]. rewrite <- E. now apply F.
  - apply forallb_forall. intros c Hc. rewrite named_in_keys, str_in_spec, map_app. apply in_or_app. apply in_app_or in Hc as [Hc | Hc].
    + left. now apply F.
    + right. destruct (P3 c Hc) as [-> _]. now left.
Qed.
Lemma insert_backtest_view job grid d : rdb_ok d = true -> ~ In job.(bj_id) (map bj_id d.(backtest_jobs)) ->
  job_row job.(bj_id) (insert_backtest job grid d) = Some job /\
  cells_of job.(bj_id) (insert_backtest job grid d) ≡ₚ new_cells job.(bj_id) (next_id ce_id d.(backtest_cells)) grid.
Proof.
  intros Hd N. split.
  - unfold job_row, insert_backtest. cbn. revert N. clear. induction (backtest_jobs d) as [|x l IH]; cbn; [now rewrite String.eqb_refl|].
    intros N. destruct (String.eqb_spec (bj_id x) (bj_id job)); [exfalso; apply N; now left | apply IH; tauto].
  - unfold cells_of. rewrite sort_by_Permutation. unfold insert_backtest. cbn [on_cells on_jobs backtest_cells].
    fold (new_cells (bj_id job) (next_id ce_id (backtest_cells d)) grid). rewrite List.filter_app, filter_none.
    + destruct (new_cells_spec job.(bj_id) (next_id ce_id d.(backtest_cells)) grid) as (_ & _ & P3). apply reflexive_eq. cbn.
      induction P3 as [|c l [E _] _ IH]; [reflexivity|]. cbn. now rewrite E, String.eqb_refl, IH.
    + intros c Hc. apply (cells_need_jobs _ _ Hd) in Hc. destruct (String.eqb_spec (ce_job c) (bj_id job)) as [E|]; [|reflexivity].
      exfalso. apply N. now rewrite <- E.
Qed.
Lemma strftime_iso o : four_digit_year o -> strftime_ymd o = isoformat o.
Proof. intros [_ Hy]. unfold strftime_ymd, isoformat. destruct (ord2ymd o) as [[y m] d]. cbn in Hy. now rewrite four_digit_padded. Qed.
Lemma canonical_iso o : four_digit_year o -> _canonical (isoformat o) = Ok o.
Proof.
  intros Ho. unfold _canonical. rewrite strptime_isoformat by exact Ho. rewrite date_of_midnight, strftime_iso by exact Ho. now rewrite String.eqb_refl.
Qed.
Definition four_digits (d : Z) : Prop := FIRST_FOUR_DIGIT_DAY <= d <= MAX_ORDINAL.
Lemma grid_days_of today s e f m l : four_digits s -> four_digits e -> backtest_date_grid today (isoformat s) (isoformat e) f m = Ok l ->
  exists days, l = map isoformat days /\ NoDup days /\ Forall four_digits days.
Proof.
  intros Hs He. unfold backtest_date_grid. destruct (find_key f _) as [step|] eqn:F; [|discriminate].
  rewrite !canonical_iso by (now apply four_digit_days). cbn [rbind]. destruct (e <? s); [discriminate|].
  destruct (grid_days_spec s (Z.min e today) step (frequency_positive f step F)) as [G1 G2].
  assert (forall x, In x (grid_days s (Z.min e today) step) -> four_digits x) as B.
  { intros x (H1 & k & Hk & ->)%G2. pose proof (frequency_positive f step F). unfold four_digits in *. nia. }
  assert (forall days, StronglySorted Z.lt days -> (forall x, In x days -> four_digits x) -> Ok (E := exn) (map strftime_ymd days) = Ok l ->
    exists days, l = map isoformat days /\ NoDup days /\ Forall four_digits days) as K.
  { intros days S D [= <-]. exists days. split; [|split; [|now apply List.Forall_forall]].
    - apply map_ext_in. intros x Hx. now apply strftime_iso, four_digit_days, D.
    - clear -S. induction S as [|x r _ IH H]; constructor; [|exact IH]. intros Hx%list_elem_of_In. rewrite List.Forall_forall in H. specialize (H x Hx). lia. }
  destruct (String.eqb m "INDIA"); [|now apply K].
  destruct (filter_r is_trading_day _) as [days|] eqn:D; [|destruct (caught _ _); discriminate]. apply filter_r_trading in D as ->.
  apply K; [now apply StronglySorted_filter|]. intros x [Hx _]%List.filter_In. now apply B.
Qed.
Lemma map_r_texts (f : string -> result exn Z) days : Forall (fun d => f (isoformat d) = Ok d) days -> map_r f (map isoformat days) = Ok days.
Proof. induction 1 as [|d l H _ IH]; [reflexivity|]. cbn. rewrite H. cbn. now rewrite IH. Qed.
Lemma texts_read days : Forall four_digits days -> map_r iso_date (map isoformat days) = Ok days /\ map_r parsed_date (map isoformat days) = Ok days.
Proof.
  intros H. split; apply map_r_texts; eapply Forall_impl; try exact H; intros d D; cbn beta.
  - unfold iso_date. rewrite fromisoformat_isoformat; [reflexivity|]. unfold four_digits, FIRST_FOUR_DIGIT_DAY in D. lia.
  - unfold parsed_date. rewrite strptime_isoformat by now apply four_digit_days. now rewrite date_of_midnight.
Qed.
(** What a submission leaves: its job QUEUED, its cells PENDING, one for each
    symbol and date. *)
Definition recorded_backtest (ai : AIResearchSettings) (es : BacktestEstimate) (q : BacktestRequestIn) (id : string) (w' : RWorld)
    (job : AIBacktestJob) (cells : list AIBacktestRun) : Prop :=
  job.(bj_id) = id /\ job.(bj_status) = B_QUEUED /\ job.(bj_config).(jc_total_runs) = es.(es_total_runs) /\
  es.(es_total_runs) <= ai.(ai_backtest_max_runs) /\ len_Z cells = es.(es_total_runs) /\
  map cell_pair cells ≡ₚ grid_cells q.(bq_symbols) es.(es_dates) /\ Forall (fun c => ce_status c = C_PENDING) cells /\
  job_row id w'.(r_db) = Some job /\ cells_of id w'.(r_db) = cells.
Lemma grid_cells_length symbols dates : len_Z (grid_cells symbols dates) = len_Z symbols * len_Z dates.
Proof.
  unfold len_Z, grid_cells. induction symbols as [|s l IH]; [reflexivity|]. cbn [flat_map List.length]. rewrite length_app, length_map. lia.
Qed.
(** C15: the estimate foretells the submission.  For the same request at the
    same time, asking the only connection: an estimate that fails fails the
    submission with the same error; one that says a limit is exceeded, or that no
    date is left, and the submission is refused and records nothing; otherwise
    the submission records a QUEUED job of exactly the estimated number of runs,
    within the configured limit, with one PENDING cell for each symbol on each of
    the estimated dates. *)
Theorem estimate_foretells_submission ai q id w now w0 : rw_ok w -> w.(r_others) = [] -> hd_error w.(r_uuids) = Some id ->
  job_row id w.(r_db) = None -> backtests_enabled ai = true -> NoDup q.(bq_symbols) -> four_digits q.(bq_start_date) ->
  four_digits q.(bq_end_date) -> utcnow w = (Ok now, w0) ->
  let '(r, w') := submit_backtest ai q w in
  match estimate ai (date_of now) q with
  | Err e => r = Err e /\ w'.(r_db) = w.(r_db)
  | Ok es =>
      if es.(es_exceeds_limit) || (len_Z es.(es_dates) =? 0) then
        (exists m, r = Err (BacktestLimitExceededError m)) /\ w'.(r_db) = w.(r_db)
      else exists job cells, r = Ok (Some (job, cells)) /\ recorded_backtest ai es q id w' job cells
  end.
Proof.
  intros Hw Ho Hu Hn Hen Ns Hs He T. unfold submit_backtest, estimate. rewrite Hen. cbn [negb]. unfold bind at 1. rewrite T. cbv beta iota.
  assert (w0.(r_db) = w.(r_db) /\ w0.(r_others) = [] /\ w0.(r_uuids) = w.(r_uuids)) as (E1 & E2 & E3).
  { unfold utcnow in T. destruct (r_ticks w); injection T as <- <-; cbn; repeat split; auto. }
  unfold bind at 1, lift at 1. destruct (_grid_and_check ai (date_of now) q) as [[[dates limits] violation]|e] eqn:G; cbn [rbind]; [|now split].
  unfold _grid_and_check in G. destruct (backtest_date_grid _ _ _ _ _) as [l|] eqn:GG; [|discriminate]. cbn [rbind] in G. injection G as <- <- <-.
  destruct (grid_days_of _ _ _ _ _ _ Hs He GG) as (days & -> & Nd & Fd). destruct (texts_read days Fd) as [I1 I2]. rewrite I1. cbn [rbind es_exceeds_limit es_dates].
  destruct (limit_violation _ _ _) as [m|] eqn:V; cbn [orb]; [split; [now exists m | exact E1]|].
  apply limit_violation_None in V as (_ & _ & V). cbn [_limits max_runs] in V.
  destruct (map isoformat days) as [|x l'] eqn:Em.
  { destruct days; [|discriminate]. split; [now eexists | exact E1]. }
  assert ((len_Z days =? 0) = false) as -> by (destruct days; [discriminate | reflexivity]).
  rewrite <- Em in *. clear x l' Em. unfold create_backtest, uuid4, bind, lift, ret. rewrite E3. destruct (r_uuids w) as [|u us]; [discriminate|]. injection Hu as ->.
  set (w1 := mkRWorld (r_db w0) _ _ _ _ _). destruct (utcnow_Ok w1) as (t & w2 & U). rewrite U, I2. cbv beta iota.
  assert (w2.(r_db) = w.(r_db) /\ w2.(r_others) = []) as (D1 & D2).
  { unfold utcnow in U. subst w1. cbn in U. destruct (r_ticks w0); injection U as <- <-; cbn; now split. }
  set (job := queued_job id _). set (grid := grid_cells _ _). apply job_row_None in Hn. unfold commit_with, settle. rewrite D2, D1.
  pose proof (insert_backtest_ok job grid (r_db w) Hw Hn (grid_cells_NoDup _ _ Ns Nd)) as K. rewrite K. cbv beta iota.
  unfold get_backtest, query, settle. cbn [put_db r_others r_db]. rewrite D2. cbn [put_db r_others r_db]. destruct (insert_backtest_view job grid (r_db w) Hw Hn) as [J C].
  change (bj_id job) with id in *. rewrite J. cbn [fmap option_fmap option_map]. do 2 eexists. split; [reflexivity|].
  destruct (new_cells_spec id (next_id ce_id (backtest_cells (r_db w))) grid) as (P1 & P2 & P3). unfold recorded_backtest. cbn [es_total_runs es_dates].
  assert (len_Z (map isoformat days) = len_Z days) as Ld by (unfold len_Z; now rewrite length_map).
  assert (len_Z grid = len_Z (bq_symbols q) * len_Z (map isoformat days)) as Lg by (unfold grid; now rewrite grid_cells_length, Ld).
  repeat split; [exact V | | | | exact J].
  - rewrite <- Lg. unfold len_Z. rewrite C. rewrite <- P2 at 2. now rewrite length_map.
  - rewrite C, P2. reflexivity.
  - rewrite C. eapply Forall_impl; [exact P3|]. now intros c [_ H].
Qed.

(** ** At work *)
#[local] Existing Instance demo_agents.
#[local] Existing Instance demo_env.
Definition bt_world (uuids : list string) : RWorld := mkRWorld (mkRDb [] [] [] []) [] (midnight 739673) [1; 2; 3]%nat uuids [].
Definition bt_request (symbols : list string) (m : Market) (last : Z) : BacktestRequestIn :=
  mkBacktest symbols 739671 last B_DAILY m None QUICK None None None None None None None None None.
#[local] Abbreviation two_days := (bt_request ["AAPL"] US 739672).
Lemma estimate_foretells_submission_witness :
  (rw_ok (bt_world ["b1"]) /\ backtests_enabled demo_settings = true /\ job_row "b1" (bt_world ["b1"]).(r_db) = None) /\
  let '(r, w') := submit_backtest demo_settings two_days (bt_world ["b1"]) in
  match estimate demo_settings (date_of (midnight 739673 + 1)) two_days with
  | Err e => r = Err e /\ w'.(r_db) = (bt_world ["b1"]).(r_db)
  | Ok es =>
      if es.(es_exceeds_limit) || (len_Z es.(es_dates) =? 0) then
        (exists m, r = Err (BacktestLimitExceededError m)) /\ w'.(r_db) = (bt_world ["b1"]).(r_db)
      else exists job cells, r = Ok (Some (job, cells)) /\ recorded_backtest demo_settings es two_days "b1" w' job cells
  end.
Proof.
  split; [split; [vm_compute; reflexivity | split; reflexivity]|].
  apply (estimate_foretells_submission demo_settings two_days "b1" (bt_world ["b1"]) _ (snd (utcnow (bt_world ["b1"]))));
    try reflexivity; try (unfold four_digits, FIRST_FOUR_DIGIT_DAY, MAX_ORDINAL; cbn; lia). repeat constructor. set_solver.
Defined.
Definition submitted : RWorld := Eval vm_compute in snd (submit_backtest demo_settings two_days (bt_world ["b1"; "r1"; "r2"])).
Lemma completed_cells_are_not_rerun_witness :
  rw_ok submitted /\
  let '(_, w') := _run_backtest demo_settings date_of "b1" submitted in
  exists new, w'.(r_calls) = submitted.(r_calls) ++ new /\
    match job_row "b1" (settle submitted).(r_db) with
    | None => new = []
    | Some job => ran new ⊆+ map (fun c => asked_for job (cell_pair c))
        (List.filter (fun c => negb (is_completed c)) (cells_of "b1" (settle submitted).(r_db)))
    end.
Proof.
  assert (rw_ok submitted) as H by (vm_compute; reflexivity).
  split; [exact H | exact (@completed_cells_are_not_rerun demo_agents demo_env demo_settings date_of "b1" submitted H)].
Defined.
Lemma backtest_ends_or_is_left_running_witness :
  (rw_ok submitted /\ job_row "b1" submitted.(r_db) <> None) /\
  let '(r, w') := _run_backtest demo_settings date_of "b1" submitted in
  exists j, job_row "b1" w'.(r_db) = Some j /\ match r with Ok _ => terminal j.(bj_status) | Err _ => j.(bj_status) = B_RUNNING end.
Proof.
  assert (rw_ok submitted) as H by (vm_compute; reflexivity). assert (job_row "b1" submitted.(r_db) <> None) as J by (vm_compute; discriminate).
  assert (Forall (tame "b1") submitted.(r_others)) as O by constructor.
  split; [now split | exact (@backtest_ends_or_is_left_running demo_agents demo_env demo_settings date_of "b1" submitted H O J)].
Defined.
Definition job_summary (w : RWorld) (id : string) : option (BacktestJobStatus * Z * Z * option string) :=
  (fun j => (j.(bj_status), j.(completed_runs), j.(failed_runs), j.(bj_error_message))) <$> job_row id w.(r_db).
Example two_cells_run :
  let '(r, w') := _run_backtest demo_settings date_of "b1" submitted in
  r = Ok tt /\ job_summary w' "b1" = Some (B_COMPLETED, 2, 0, None) /\ ran w'.(r_calls) = [("AAPL", "2026-02-24"); ("AAPL", "2026-02-25")].
Proof. vm_compute. repeat split. Qed.
(** An index's own ticker is not a symbol of the Indian market: the sweep raises,
    and the job stays RUNNING. *)
Example unknown_symbol_left_running :
  let w := snd (submit_backtest demo_settings (bt_request ["^NSEI"] INDIA 739671) (bt_world ["b1"; "r1"])) in
  let '(r, w') := _run_backtest demo_settings date_of "b1" w in
  is_ok r = false /\ job_summary w' "b1" = Some (B_RUNNING, 0, 0, None).
Proof. vm_compute. split; reflexivity. Qed.
(** Agents whose first run fails. *)
Definition first_run_fails : Agents := {|
  tradingagents_installed := true;
  agents_graph := fun past _ => match past with [] => ([], GraphRaised "RateLimitError" "429") | _ => ([], Finished demo_state (Some "Hold")) end;
  settle_pending := fun _ _ => None; decision_log := fun _ => []
|}.
(** A cell that fails and is then taken up again is counted in both counters: the
    job's progress is twice its size, and the COMPLETED job keeps its error. *)
Example counted_twice_after_resume :
  let w := snd (submit_backtest demo_settings (bt_request ["AAPL"] US 739671) (bt_world ["b1"; "r1"; "r2"])) in
  let w1 := snd (@_run_backtest first_run_fails demo_env demo_settings date_of "b1" w) in
  let w2 := snd (resume_backtest "b1" w1) in
  let w3 := snd (@_run_backtest first_run_fails demo_env demo_settings date_of "b1" w2) in
  job_summary w1 "b1" = Some (B_FAILED, 0, 1, Some EVERY_RUN_FAILED) /\
  job_summary w3 "b1" = Some (B_COMPLETED, 1, 1, Some EVERY_RUN_FAILED) /\
  ((fun j => (_job_to_status j).(so_progress)) <$> job_row "b1" w3.(r_db)) = Some (f_of_Z 2).
Proof. vm_compute. repeat split. Qed.
(** Nothing stops a second resume before the first one's sweep has begun. *)
Example resumed_twice :
  let w := snd (submit_backtest demo_settings (bt_request ["AAPL"] US 739671) (bt_world ["b1"; "r1"; "r2"])) in
  let w1 := snd (@_run_backtest first_run_fails demo_env demo_settings date_of "b1" w) in
  let '(r1, w2) := resume_backtest "b1" w1 in
  let '(r2, _) := resume_backtest "b1" w2 in
  (is_ok r1, is_ok r2) = (true, true).
Proof. vm_compute. reflexivity. Qed.
(** A range past the covered calendar escapes the route. *)
Example uncovered_grid_escapes :
  match fst (estimate_backtest_route demo_settings (mkBacktest ["RELIANCE"] 738900 738903 B_DAILY INDIA None QUICK None None None None None None None None None) (bt_world [])) with
  | Err (OtherError cls _) => cls
  | _ => ""
  end = "AIResearchConfigError".
Proof. vm_compute. reflexivity. Qed.
