(* ===== verification/OptionsResearch.v ===== *)
(** * Options research: the request, the frozen context and the agents

    [trading/ai_options_research/schemas.py], [context.py], [agent_schemas.py]
    and [agents.py].  A market-structure summary is frozen once; each agent is an
    LLM asked for a value of a schema, twice at most, with a prompt that holds the
    frozen facts; levels and indices that an answer makes up are dropped.  The
    LLM is the class [OptionsLLM], which sees every call made of it; a chat model
    asked for a schema answers a value of it or raises. *)
From S2P Require Import Prelude PyStr PyFloat PyNum Json PyTime JsonText PyParse Symbols MarketTime MarketCache MarketSession OptionsIntel OptionsService OptionsRoutes Payoff Candidates ResearchMarket ResearchSchema.
From Stdlib Require Import Ascii SpecFloat.

(** ** The request *)
Definition ALL_STRATEGIES : list StrategyType :=
  [BULL_PUT_CREDIT_SPREAD; BEAR_CALL_CREDIT_SPREAD; IRON_CONDOR; IRON_FLY; SHORT_STRADDLE; HEDGED_SHORT_STRADDLE; SHORT_STRANGLE;
   HEDGED_SHORT_STRANGLE; LONG_CALL; LONG_PUT; BULL_CALL_DEBIT_SPREAD; BEAR_PUT_DEBIT_SPREAD; LONG_STRADDLE; LONG_STRANGLE;
   CALENDAR_SPREAD; DOUBLE_CALENDAR].
Definition DEFINED_RISK_STRATEGIES : list StrategyType :=
  List.filter (fun s => negb (bool_decide (s ∈ UNDEFINED_RISK_STRATEGIES))) ALL_STRATEGIES.
Inductive StrategyUniversePreset : Type := ALL_SUPPORTED | DEFINED_RISK_ONLY | CUSTOM.
Record OptionsResearchRequestIn : Type := mkOptionsRequest {
  or_underlying : string; or_expiry : string; or_as_of : option stamp; or_preset : StrategyUniversePreset;
  or_universe : option (list StrategyType); or_candidate_limit : Z; or_debate_rounds : Z; or_llm_provider : option string;
  or_quick_think_llm : option string; or_deep_think_llm : option string; or_temperature : option float; or_strike_window : Z;
  or_min_delta : float; or_max_delta : float; or_minimum_volume : Z; or_minimum_oi : Z; or_maximum_bid_ask_spread : option float;
  or_wing_width : float; or_hedge_wing_width : float
}.
Definition between_f (lo hi : float) (x : float) : bool := negb (f_ltb x lo || f_ltb hi x).
Definition delta_ok : float -> bool := between_f (f_dec 1 2) (f_dec 5 1).
Definition opt_all {A} (p : A -> bool) (o : option A) : bool := match o with Some x => p x | None => true end.
(** The bounds of the fields and the validators; the provider is compared in
    lower case. *)
Definition options_fields_ok (q : OptionsResearchRequestIn) : bool :=
  (1 <=? str_len q.(or_underlying)) && (str_len q.(or_underlying) <=? 32) && (str_len q.(or_expiry) <=? 16) &&
  opt_all (fun l => (List.length l <=? List.length ALL_STRATEGIES)%nat) q.(or_universe) &&
  in_range 1 10 (Some q.(or_candidate_limit)) && in_range 1 5 (Some q.(or_debate_rounds)) &&
  short 32 q.(or_llm_provider) && opt_all (fun p => str_in (lower (strip p)) SUPPORTED_LLM_PROVIDERS) q.(or_llm_provider) &&
  short 64 q.(or_quick_think_llm) && short 64 q.(or_deep_think_llm) && opt_all (between_f f_zero f_two) q.(or_temperature) &&
  in_range 1 50 (Some q.(or_strike_window)) && delta_ok q.(or_min_delta) && delta_ok q.(or_max_delta) &&
  negb (f_ltb q.(or_max_delta) q.(or_min_delta)) && (0 <=? q.(or_minimum_volume)) && (0 <=? q.(or_minimum_oi)) &&
  opt_all (fun x => negb (f_ltb x f_zero)) q.(or_maximum_bid_ask_spread) &&
  negb (f_leb q.(or_wing_width) f_zero) && negb (f_leb q.(or_hedge_wing_width) f_zero).
Definition OptionsResearchRequest (q : OptionsResearchRequestIn) : result exn OptionsResearchRequestIn :=
  if options_fields_ok q then
    Ok (mkOptionsRequest q.(or_underlying) q.(or_expiry) q.(or_as_of) q.(or_preset) q.(or_universe) q.(or_candidate_limit)
          q.(or_debate_rounds) ((fun p => lower (strip p)) <$> q.(or_llm_provider)) q.(or_quick_think_llm) q.(or_deep_think_llm)
          q.(or_temperature) q.(or_strike_window) q.(or_min_delta) q.(or_max_delta) q.(or_minimum_volume) q.(or_minimum_oi)
          q.(or_maximum_bid_ask_spread) q.(or_wing_width) q.(or_hedge_wing_width))
  else Err ValidationError.
Definition resolved_strategy_universe (q : OptionsResearchRequestIn) : list StrategyType :=
  match q.(or_preset) with
  | CUSTOM => default [] q.(or_universe)
  | ALL_SUPPORTED => ALL_STRATEGIES
  | DEFINED_RISK_ONLY => DEFINED_RISK_STRATEGIES
  end.

(** ** The frozen context *)
Record ChainRowSnapshot : Type := mkRowSnapshot {
  rs_strike : float; rs_option_type : OptionType; rs_ltp : option float; rs_oi : option Z; rs_iv : option float; rs_delta : option float
}.
Record OptionsResearchContext : Type := mkOptContext {
  cx_snapshot_id : string; cx_underlying : string; cx_timestamp : option stamp; cx_as_of : option stamp; cx_spot : option float;
  cx_spot_timestamp : option Z; cx_expiry : Z; cx_dte_calendar : option Z; cx_dte_trading : option Z; cx_atm_strike : option float;
  cx_total_call_oi : Z; cx_total_put_oi : Z; cx_oi_pcr : option float; cx_volume_pcr : option float; cx_max_pain_strike : option float;
  cx_oi_support : list float; cx_oi_resistance : list float; cx_atm_iv : option float; cx_atm_iv_source : string;
  cx_iv_rank : option float; cx_iv_percentile : option float; cx_iv_rank_status : string; cx_expected_move : option float;
  cx_expected_move_method : string; cx_chain : list ChainRowSnapshot; cx_valid_strikes : list float; cx_data_quality : DataQuality;
  cx_data_quality_reasons : list string; cx_provenance : list (string * json)
}.
Definition snapshot_row (r : OptionAnalyticsRow) : ChainRowSnapshot :=
  mkRowSnapshot r.(ar_strike) r.(ar_option_type) (r.(ar_quote) ≫= oq_ltp) (r.(ar_quote) ≫= oq_oi) r.(ar_iv) (r.(ar_greeks) ≫= delta).
(** The set of strikes is a list of distinct floats; only membership is asked of
    it. *)
Definition freeze_snapshot (snapshot_id : string) (m : MarketStructureSummary) : OptionsResearchContext :=
  let chain := map snapshot_row m.(ms_rows) in
  let p := m.(ms_provenance) in
  mkOptContext snapshot_id m.(ms_underlying)
    (match p.(chain_timestamp), m.(ms_as_of) with
     | Some t, _ => Some (utc_stamp t)
     | None, Some t => Some t
     | None, None => utc_stamp <$> p.(pv_spot_timestamp)
     end)
    m.(ms_as_of) m.(ms_spot) p.(pv_spot_timestamp) m.(ms_expiry) (days_to_expiry_calendar <$> m.(ms_expiry_info))
    (m.(ms_expiry_info) ≫= days_to_expiry_trading) m.(ms_atm_strike) m.(ms_oi).(total_call_oi) m.(ms_oi).(total_put_oi)
    m.(ms_pcr).(oi_pcr) m.(ms_pcr).(volume_pcr) m.(ms_max_pain).(max_pain_strike) m.(ms_support_resistance).(oi_support)
    m.(ms_support_resistance).(oi_resistance) m.(ms_atm_iv) (iv_source_value m.(ms_atm_iv_source)) m.(ms_iv_rank).(iv_rank)
    m.(ms_iv_rank).(iv_percentile) m.(ms_iv_rank).(ivr_status) m.(ms_expected_move).(expected_move) m.(ms_expected_move).(method)
    chain (distinct (map rs_strike chain)) m.(ms_quality).(dq_status) m.(ms_quality).(dq_reasons)
    [("underlying_source", JStr p.(underlying_source)); ("option_chain_source", JStr p.(option_chain_source));
     ("calculation_version", JStr p.(calculation_version)); ("risk_free_rate", JFloat p.(risk_free_rate));
     ("provider_call_count", JInt p.(provider_call_count))].

Inductive EvidenceQuality : Type := E_OK | E_DEGRADED | E_INSUFFICIENT.
#[global] Instance EvidenceQuality_eq_dec : EqDecision EvidenceQuality.
Proof. solve_decision. Defined.
Definition evidence_value (e : EvidenceQuality) : string :=
  match e with E_OK => "OK" | E_DEGRADED => "DEGRADED" | E_INSUFFICIENT => "INSUFFICIENT" end.
Definition evidence_quality_gate (c : OptionsResearchContext) : EvidenceQuality * string :=
  if bool_decide (c.(cx_data_quality) = MISSING) then
    (E_INSUFFICIENT, "option-chain data is MISSING for this underlying/expiry/as_of")
  else
    match c.(cx_atm_strike), c.(cx_spot) with
    | Some _, Some _ =>
        if bool_decide (c.(cx_data_quality) = PARTIAL) || bool_decide (c.(cx_data_quality) = STALE) then
          (E_DEGRADED, "Phase 9 data quality is " +:+ quality_value c.(cx_data_quality) +:+ ": " +:+
             str_or (String.concat "; " c.(cx_data_quality_reasons)) (quality_value c.(cx_data_quality)))
        else (E_OK, "Phase 9 data quality is COMPLETE")
    | _, _ => (E_INSUFFICIENT, "spot/ATM could not be determined")
    end.

(** ** The agents' answers *)
Inductive Confidence : Type := C_HIGH | C_MEDIUM | C_LOW | C_INSUFFICIENT_DATA.
Inductive Trend : Type := BULLISH | BEARISH | T_SIDEWAYS | T_UNCERTAIN.
Inductive VolatilityRegime : Type := V_LOW | V_NORMAL | V_HIGH | V_UNKNOWN.
Inductive MarketStructureClass : Type := TRENDING | RANGE_BOUND | BREAKOUT | S_UNCERTAIN.
Record MarketRegimeOutput : Type := mkRegime {
  mr_trend : Trend; mr_volatility_regime : VolatilityRegime; mr_market_structure : MarketStructureClass; mr_evidence : string;
  mr_confidence : Confidence; mr_limitations : string
}.
(** Of the volatility agent and of the open-interest agent alike. *)
Record InterpretationOutput : Type := mkInterpretation {
  ip_interpretation : string; ip_notable_observations : list string; ip_confidence : Confidence
}.
Record CandidateCommentary : Type := mkCommentary {
  cc_index : Z; cc_fits_reasoning : string; cc_invalidation : string; cc_market_assumptions : string; cc_volatility_assumptions : string;
  cc_key_levels : list float
}.
Record DirectionalCaseOutput : Type := mkCase { dc_thesis : string; dc_supporting_evidence : list string; dc_key_levels : list float }.
Record CandidateRiskAnalysis : Type := mkRisk {
  ra_index : Z; ra_directional_exposure : string; ra_volatility_exposure : string; ra_theta_exposure : string; ra_gamma_risk : string;
  ra_gap_risk : string; ra_expiry_risk : string; ra_liquidity_risk : string; ra_assignment_considerations : string; ra_event_risk : string;
  ra_tail_risk : string
}.
Record FinalReportOutput : Type := mkFinal {
  fr_market_overview : string; fr_technical_context : string; fr_news_sentiment : string; fr_options_market_structure_summary : string;
  fr_invalidation_conditions : list string; fr_final_summary : string
}.

#[global] Instance Confidence_eq_dec : EqDecision Confidence.
Proof. solve_decision. Defined.
#[global] Instance Trend_eq_dec : EqDecision Trend.
Proof. solve_decision. Defined.
#[global] Instance VolatilityRegime_eq_dec : EqDecision VolatilityRegime.
Proof. solve_decision. Defined.
#[global] Instance MarketStructureClass_eq_dec : EqDecision MarketStructureClass.
Proof. solve_decision. Defined.
#[global] Instance MarketRegimeOutput_eq_dec : EqDecision MarketRegimeOutput.
Proof. solve_decision. Defined.
#[global] Instance InterpretationOutput_eq_dec : EqDecision InterpretationOutput.
Proof. solve_decision. Defined.
#[global] Instance CandidateCommentary_eq_dec : EqDecision CandidateCommentary.
Proof. solve_decision. Defined.
#[global] Instance DirectionalCaseOutput_eq_dec : EqDecision DirectionalCaseOutput.
Proof. solve_decision. Defined.
#[global] Instance CandidateRiskAnalysis_eq_dec : EqDecision CandidateRiskAnalysis.
Proof. solve_decision. Defined.

(** ** The hallucination guard *)
(** [round(x, 2)] *)
Definition f_round2 (x : float) : float :=
  match x with
  | S754_finite s m e =>
      let q := if 0 <=? e then Zpos m * 2 ^ e * 100 else round_half_even (Zpos m * 100) (2 ^ (- e)) in
      match int_div q 100 with
      | Ok y => if s then f_opp y else y
      | Err _ => x
      end
  | _ => x
  end.
Definition _LEVEL_TOLERANCE : float := f_dec 1 6.
Definition opt_list {A} (o : option A) : list A := match o with Some x => [x] | None => [] end.
Definition _known_levels (c : OptionsResearchContext) : list float :=
  c.(cx_valid_strikes) ++ opt_list (f_round2 <$> c.(cx_spot)) ++ opt_list c.(cx_atm_strike) ++ opt_list c.(cx_max_pain_strike) ++
  c.(cx_oi_support) ++ c.(cx_oi_resistance).
Definition is_level (level k : float) : bool :=
  f_leb (f_abs (f_sub level k)) (f_max _LEVEL_TOLERANCE (f_mul k (f_dec 1 6))).
Definition known_level (c : OptionsResearchContext) (level : float) : bool := existsb (is_level level) (_known_levels c).
Definition sanitize_key_levels (levels : list float) (c : OptionsResearchContext) : list float * list float :=
  (List.filter (known_level c) levels, List.filter (fun l => negb (known_level c l)) levels).
Definition validate_candidate_index (index count : Z) : bool := (0 <=? index) && (index <? count).
Definition with_levels (i : CandidateCommentary) (levels : list float) : CandidateCommentary :=
  mkCommentary i.(cc_index) i.(cc_fits_reasoning) i.(cc_invalidation) i.(cc_market_assumptions) i.(cc_volatility_assumptions) levels.
Definition dropped (levels : list float) : string := "dropped hallucinated levels " +:+ show_floats levels.
Definition clean_commentary (c : OptionsResearchContext) (count : Z) (i : CandidateCommentary) : list CandidateCommentary * list string :=
  if negb (validate_candidate_index i.(cc_index) count) then
    ([], ["dropped commentary referencing out-of-range candidate_index=" +:+ str_of_Z i.(cc_index)])
  else
    let '(kept, rejected) := sanitize_key_levels i.(cc_key_levels) c in
    ([with_levels i kept], match rejected with [] => [] | _ => ["candidate " +:+ str_of_Z i.(cc_index) +:+ ": " +:+ dropped rejected] end).
Definition sanitize_candidate_commentary (output : list CandidateCommentary) (c : OptionsResearchContext) (count : Z)
    : list CandidateCommentary * list string :=
  (flat_map (fun i => fst (clean_commentary c count i)) output, flat_map (fun i => snd (clean_commentary c count i)) output).
Definition sanitize_directional_case (output : DirectionalCaseOutput) (c : OptionsResearchContext) : DirectionalCaseOutput * list string :=
  let '(kept, rejected) := sanitize_key_levels output.(dc_key_levels) c in
  (mkCase output.(dc_thesis) output.(dc_supporting_evidence) kept, match rejected with [] => [] | _ => [dropped rejected] end).
Definition clean_risk (count : Z) (i : CandidateRiskAnalysis) : list CandidateRiskAnalysis * list string :=
  if negb (validate_candidate_index i.(ra_index) count) then
    ([], ["dropped risk analysis referencing out-of-range candidate_index=" +:+ str_of_Z i.(ra_index)])
  else ([i], []).
Definition sanitize_risk_analysis (output : list CandidateRiskAnalysis) (count : Z) : list CandidateRiskAnalysis * list string :=
  (flat_map (fun i => fst (clean_risk count i)) output, flat_map (fun i => snd (clean_risk count i)) output).

(** ** The texts *)
(** The values of the answers' enumerations: the class and the member. *)
Definition confidence_member (c : Confidence) : string * string :=
  ("Confidence", match c with C_HIGH => "HIGH" | C_MEDIUM => "MEDIUM" | C_LOW => "LOW" | C_INSUFFICIENT_DATA => "INSUFFICIENT_DATA" end).
Definition trend_member (t : Trend) : string * string :=
  ("Trend", match t with BULLISH => "BULLISH" | BEARISH => "BEARISH" | T_SIDEWAYS => "SIDEWAYS" | T_UNCERTAIN => "UNCERTAIN" end).
Definition volatility_member (v : VolatilityRegime) : string * string :=
  ("VolatilityRegime", match v with V_LOW => "LOW" | V_NORMAL => "NORMAL" | V_HIGH => "HIGH" | V_UNKNOWN => "UNKNOWN" end).
Definition structure_member (m : MarketStructureClass) : string * string :=
  ("MarketStructureClass",
   match m with TRENDING => "TRENDING" | RANGE_BOUND => "RANGE_BOUND" | BREAKOUT => "BREAKOUT" | S_UNCERTAIN => "UNCERTAIN" end).
(** The text of [model_dump()]: a dictionary's, members of an enumeration in
    angle brackets. *)
Inductive dumped : Type := D_json (j : json) | D_member (m : string * string) | D_dict (l : list (string * dumped)) | D_list (l : list dumped).
Fixpoint dumped_repr (d : dumped) : string :=
  match d with
  | D_json j => json_repr j
  | D_member (cls, m) => "<" +:+ cls +:+ "." +:+ m +:+ ": '" +:+ m +:+ "'>"
  | D_dict l => "{" +:+ String.concat ", " (map (fun kv => str_repr (fst kv) +:+ ": " +:+ dumped_repr (snd kv)) l) +:+ "}"
  | D_list l => "[" +:+ String.concat ", " (map dumped_repr l) +:+ "]"
  end.
Definition d_str (s : string) : dumped := D_json (JStr s).
Definition d_strs (l : list string) : dumped := D_json (JArr (map JStr l)).
Definition d_floats (l : list float) : dumped := D_json (JArr (map JFloat l)).
Definition dump_regime (r : MarketRegimeOutput) : dumped :=
  D_dict [("trend", D_member (trend_member r.(mr_trend))); ("volatility_regime", D_member (volatility_member r.(mr_volatility_regime)));
          ("market_structure", D_member (structure_member r.(mr_market_structure))); ("evidence", d_str r.(mr_evidence));
          ("confidence", D_member (confidence_member r.(mr_confidence))); ("limitations", d_str r.(mr_limitations))].
Definition dump_interpretation (i : InterpretationOutput) : dumped :=
  D_dict [("interpretation", d_str i.(ip_interpretation)); ("notable_observations", d_strs i.(ip_notable_observations));
          ("confidence", D_member (confidence_member i.(ip_confidence)))].
Definition dump_case (c : DirectionalCaseOutput) : dumped :=
  D_dict [("thesis", d_str c.(dc_thesis)); ("supporting_evidence", d_strs c.(dc_supporting_evidence));
          ("key_levels", d_floats c.(dc_key_levels))].
Definition dump_risk (r : CandidateRiskAnalysis) : dumped :=
  D_dict [("candidate_index", D_json (JInt r.(ra_index))); ("directional_exposure", d_str r.(ra_directional_exposure));
          ("volatility_exposure", d_str r.(ra_volatility_exposure)); ("theta_exposure", d_str r.(ra_theta_exposure));
          ("gamma_risk", d_str r.(ra_gamma_risk)); ("gap_risk", d_str r.(ra_gap_risk)); ("expiry_risk", d_str r.(ra_expiry_risk));
          ("liquidity_risk", d_str r.(ra_liquidity_risk)); ("assignment_considerations", d_str r.(ra_assignment_considerations));
          ("event_risk", d_str r.(ra_event_risk)); ("tail_risk", d_str r.(ra_tail_risk))].
Definition dump_risks (l : list CandidateRiskAnalysis) : dumped := D_dict [("analyses", D_list (map dump_risk l))].

Definition joined (l : list string) : string := String.concat "" l.
(** [str(dt)] *)
Definition stamp_str (t : stamp) : string :=
  joined [isoformat (stamp_date t); " "; clock_text (t.(st_local) - midnight (stamp_date t));
          match t.(st_offset) with Some o => offset_text o | None => "" end].
Definition show_stamp (t : option stamp) (none : string) : string := match t with Some t => stamp_str t | None => none end.
Definition build_context_facts_text (c : OptionsResearchContext) : string :=
  String.concat newline (map joined
    [["Underlying: "; c.(cx_underlying)];
     ["Research timestamp: "; show_stamp c.(cx_timestamp) "None"; " (as_of="; show_stamp c.(cx_as_of) "LIVE"; ")"];
     ["Spot: "; show_float c.(cx_spot)];
     ["Expiry: "; isoformat c.(cx_expiry); "  DTE calendar="; show_int c.(cx_dte_calendar); "  DTE trading="; show_int c.(cx_dte_trading)];
     ["ATM strike: "; show_float c.(cx_atm_strike)];
     ["Total Call OI: "; str_of_Z c.(cx_total_call_oi); "  Total Put OI: "; str_of_Z c.(cx_total_put_oi)];
     ["OI PCR: "; show_float c.(cx_oi_pcr); "  Volume PCR: "; show_float c.(cx_volume_pcr)];
     ["Max Pain: "; show_float c.(cx_max_pain_strike)];
     ["OI-derived support: "; show_floats c.(cx_oi_support); "  OI-derived resistance: "; show_floats c.(cx_oi_resistance)];
     ["ATM IV: "; show_float c.(cx_atm_iv); " (source="; c.(cx_atm_iv_source); ")"];
     ["IV Rank: "; show_float c.(cx_iv_rank); " IV Percentile: "; show_float c.(cx_iv_percentile); " (status="; c.(cx_iv_rank_status); ")"];
     ["Expected Move: "; show_float c.(cx_expected_move); " (method="; c.(cx_expected_move_method); ")"];
     ["Data quality: "; quality_value c.(cx_data_quality); " -- reasons: "; json_repr (JArr (map JStr c.(cx_data_quality_reasons)))]]).

Definition strategy_value (s : StrategyType) : string :=
  match s with
  | BULL_PUT_CREDIT_SPREAD => "BULL_PUT_CREDIT_SPREAD" | BEAR_CALL_CREDIT_SPREAD => "BEAR_CALL_CREDIT_SPREAD" | IRON_CONDOR => "IRON_CONDOR"
  | IRON_FLY => "IRON_FLY" | SHORT_STRADDLE => "SHORT_STRADDLE" | HEDGED_SHORT_STRADDLE => "HEDGED_SHORT_STRADDLE"
  | SHORT_STRANGLE => "SHORT_STRANGLE" | HEDGED_SHORT_STRANGLE => "HEDGED_SHORT_STRANGLE" | LONG_CALL => "LONG_CALL" | LONG_PUT => "LONG_PUT"
  | BULL_CALL_DEBIT_SPREAD => "BULL_CALL_DEBIT_SPREAD" | BEAR_PUT_DEBIT_SPREAD => "BEAR_PUT_DEBIT_SPREAD" | LONG_STRADDLE => "LONG_STRADDLE"
  | LONG_STRANGLE => "LONG_STRANGLE" | CALENDAR_SPREAD => "CALENDAR_SPREAD" | DOUBLE_CALENDAR => "DOUBLE_CALENDAR"
  end.
Definition side_value (s : Side) : string := match s with BUY => "BUY" | SELL => "SELL" end.
Definition option_type_value (t : OptionType) : string := match t with CALL => "CALL" | PUT => "PUT" end.
Definition leg_text (l : CandidateLeg) : string :=
  joined [side_value l.(cl_side); " "; option_type_value l.(cl_option_type); " "; f_repr l.(cl_strike); " @ "; show_float l.(cl_price);
          " ("; l.(cl_price_source); ")"].
Definition payoff_text (p : option (PayoffResult float)) : string :=
  match p with
  | Some p =>
      if p.(priced) then
        joined ["net_premium="; show_float p.(net_premium); " max_profit=";
                if p.(max_profit_unbounded) then "UNBOUNDED" else show_float p.(max_profit);
                " max_loss="; if p.(max_loss_unbounded) then "UNBOUNDED/UNDEFINED" else show_float p.(max_loss);
                " breakevens="; show_floats p.(breakevens)]
      else "not priced (missing quotes)"
  | None => "not priced (missing quotes)"
  end.
Definition candidate_text (i : nat) (c : StrategyCandidate) : string :=
  let index := joined ["["; str_of_Z (Z.of_nat i); "] "; strategy_value c.(sc_strategy); ": "] in
  if negb c.(sc_supported) then joined [index; "UNSUPPORTED ("; default "None" c.(unsupported_reason); ")"]
  else joined [index; "legs=["; String.concat "; " (map leg_text c.(sc_legs)); "] payoff=("; payoff_text c.(sc_payoff); ") liquidity_ok=";
               if c.(sc_liquidity_ok) then "True" else "False"].
Definition _candidates_text (l : list StrategyCandidate) : string :=
  match l with [] => "(no candidates generated)" | _ => String.concat newline (imap candidate_text l) end.

(** ** The LLM *)
Inductive schema : Type -> Type :=
| S_regime : schema MarketRegimeOutput
| S_volatility : schema InterpretationOutput
| S_oi : schema InterpretationOutput
| S_strategy : schema (list CandidateCommentary)
| S_case : schema DirectionalCaseOutput
| S_risk : schema (list CandidateRiskAnalysis)
| S_final : schema FinalReportOutput.
Record ChatModel : Type := mkModel { cm_provider : string; cm_name : string; cm_temperature : option float }.
Inductive llm_call : Type := Created (m : ChatModel) | Asked (m : ChatModel) (prompt : string).
(** The third-party package: whether it can be imported (else the error's text),
    and its clients; both see the calls made before. *)
Class OptionsLLM : Type := {
  tradingagents_import_error : option string;
  create_llm_client : list llm_call -> ChatModel -> result exn unit;
  invoke_llm : forall A, schema A -> list llm_call -> ChatModel -> string -> result exn A
}.
Section agents.
Context `{OptionsLLM}.
Definition TM (A : Type) : Type := M (list llm_call) exn A.
Definition called {A} (call : llm_call) (f : list llm_call -> result exn A) : TM A := fun past => (f past, past ++ [call]).
Definition create_options_research_llm (m : ChatModel) : TM ChatModel :=
  match tradingagents_import_error with
  | Some text => raise (AIResearchConfigError ("tradingagents package is not installed or importable: " +:+ text))
  | None =>
      try_except (called (Created m) (fun past => create_llm_client past m) ;;; ret m)
        (fun e => raise (AIResearchConfigError (joined ["failed to create LLM client ("; class_of e; "): "; text_of e])))
  end.
Definition get_llm (provider model : string) (temperature : option float) : TM ChatModel :=
  create_options_research_llm (mkModel provider model temperature).
Definition _STRUCTURED_OUTPUT_RETRIES : nat := 2.
(** The last attempt's exception is raised again. *)
Fixpoint attempts {A} (n : nat) (llm : ChatModel) (s : schema A) (prompt : string) : TM A :=
  match n with
  | O => raise (OtherError "AssertionError" "unreachable")
  | S k =>
      try_except (called (Asked llm prompt) (fun past => invoke_llm A s past llm prompt))
        (fun e => if (k =? 0)%nat then raise e else attempts k llm s prompt)
  end.
Definition _invoke_structured {A} (llm : ChatModel) (s : schema A) (prompt : string) : TM A :=
  attempts _STRUCTURED_OUTPUT_RETRIES llm s prompt.

(** ** The agents *)
Definition dquoted (s : string) : string := joined [unchars [dq]; s; unchars [dq]].
Definition _SYSTEM_PREAMBLE : string :=
  joined ["You are a specialized options-market research analyst. You ONLY interpret facts already ";
          "given to you -- you never calculate PCR, Max Pain, IV, Greeks, ATM, DTE, expected move, or OI ";
          "totals yourself; those are provided as authoritative, already-computed values. You never ";
          "recommend placing, modifying, or cancelling an order, and you never claim a structure will ";
          "definitely be profitable. Use probabilistic language ("; dquoted "suggests"; ", "; dquoted "consistent with"; ", ";
          dquoted "indicates positioning"; "), never deterministic claims about future price direction. If ";
          "evidence is insufficient for a confident classification, say so explicitly rather than forcing one."].
Definition blank_line : string := newline +:+ newline.
Definition run_market_regime_agent (c : OptionsResearchContext) (llm : ChatModel) : TM MarketRegimeOutput :=
  _invoke_structured llm S_regime (joined
    [_SYSTEM_PREAMBLE; blank_line; "Classify the market regime from these facts:"; newline; build_context_facts_text c; blank_line;
     "Classify trend (BULLISH/BEARISH/SIDEWAYS/UNCERTAIN), volatility_regime (LOW/NORMAL/HIGH/UNKNOWN -- ";
     "base this on ATM IV / IV Rank if available, UNKNOWN if insufficient), and market_structure ";
     "(TRENDING/RANGE_BOUND/BREAKOUT/UNCERTAIN). Do not force a classification the facts do not support."]).
Definition run_volatility_agent (c : OptionsResearchContext) (llm : ChatModel) : TM InterpretationOutput :=
  _invoke_structured llm S_volatility (joined
    [_SYSTEM_PREAMBLE; blank_line; "Analyze volatility from these facts:"; newline; build_context_facts_text c; blank_line;
     "Discuss ATM IV level, expected move, and IV Rank/Percentile if AVAILABLE (if NOT_AVAILABLE, say so ";
     "explicitly rather than guessing a rank). Clearly separate the OBSERVED deterministic values above ";
     "from your own interpretation of what they suggest about current option pricing."]).
Definition run_oi_positioning_agent (c : OptionsResearchContext) (llm : ChatModel) : TM InterpretationOutput :=
  _invoke_structured llm S_oi (joined
    [_SYSTEM_PREAMBLE; blank_line; "Interpret OI positioning from these facts:"; newline; build_context_facts_text c; blank_line;
     "Discuss Call/Put OI, OI PCR, Volume PCR, Max Pain, and OI-derived support/resistance. ";
     "Do NOT state that OI proves future direction -- use probabilistic/positioning language only."]).
Definition count_of (candidates : list StrategyCandidate) : Z := Z.of_nat (List.length candidates).
Definition run_strategy_research_agent (c : OptionsResearchContext) (candidates : list StrategyCandidate) (regime : MarketRegimeOutput)
    (volatility oi : InterpretationOutput) (llm : ChatModel) : TM (list CandidateCommentary * list string) :=
  let! result := _invoke_structured llm S_strategy (joined
    [_SYSTEM_PREAMBLE; blank_line; "Facts:"; newline; build_context_facts_text c; blank_line;
     "Market Regime: "; dumped_repr (dump_regime regime); newline; "Volatility: "; dumped_repr (dump_interpretation volatility); newline;
     "OI Positioning: "; dumped_repr (dump_interpretation oi); blank_line;
     "Candidate structures (index in brackets; use ONLY these exact candidate_index values, ";
     "and ONLY strikes/levels that literally appear in the facts above):"; newline; _candidates_text candidates; blank_line;
     "For EACH candidate index, provide: why it fits the observed conditions, what would invalidate ";
     "the thesis, the market assumptions it relies on, the volatility assumptions it relies on, and ";
     "any key price levels (must be real strikes/spot/ATM/Max Pain/OI levels from the facts, nothing invented)."]) in
  ret (sanitize_candidate_commentary result c (count_of candidates)).
Definition counter_text (who : string) (counter_argument : option string) : string :=
  match counter_argument with
  | Some t => if truthy t then joined [blank_line; "The "; who; " researcher's latest argument to address:"; newline; t] else ""
  | None => ""
  end.
Definition researcher_prompt (c : OptionsResearchContext) (candidates : list StrategyCandidate) (who kind counter : string) : string :=
  joined [_SYSTEM_PREAMBLE; blank_line; "You are the "; who; " researcher. Build the strongest EVIDENCE-SUPPORTED ";
          kind; " interpretation using ONLY these facts (never invent data):"; newline; build_context_facts_text c; blank_line;
          "Candidates for context:"; newline; _candidates_text candidates; counter].
Definition run_bull_researcher (c : OptionsResearchContext) (candidates : list StrategyCandidate) (counter_argument : option string)
    (llm : ChatModel) : TM (DirectionalCaseOutput * list string) :=
  let! result := _invoke_structured llm S_case (researcher_prompt c candidates "BULL" "bullish" (counter_text "Bear" counter_argument)) in
  ret (sanitize_directional_case result c).
Definition run_bear_researcher (c : OptionsResearchContext) (candidates : list StrategyCandidate) (counter_argument : option string)
    (llm : ChatModel) : TM (DirectionalCaseOutput * list string) :=
  let! result := _invoke_structured llm S_case (researcher_prompt c candidates "BEAR" "bearish" (counter_text "Bull" counter_argument)) in
  ret (sanitize_directional_case result c).
(** One round; the first one has no argument to answer. *)
Definition debate : Type := DirectionalCaseOutput * DirectionalCaseOutput * list string.
Definition debate_round (c : OptionsResearchContext) (candidates : list StrategyCandidate) (llm : ChatModel) (bear : option string)
    (warnings : list string) : TM debate :=
  let! bull := run_bull_researcher c candidates bear llm in
  let! bear := run_bear_researcher c candidates (Some (fst bull).(dc_thesis)) llm in
  ret (fst bull, fst bear, warnings ++ snd bull ++ snd bear).
Fixpoint more_rounds (n : nat) (c : OptionsResearchContext) (candidates : list StrategyCandidate) (llm : ChatModel) (d : debate) : TM debate :=
  match n with
  | O => ret d
  | S k =>
      let '(_, bear, warnings) := d in
      let! d := debate_round c candidates llm (Some bear.(dc_thesis)) warnings in
      more_rounds k c candidates llm d
  end.
Definition clamp_rounds (rounds : Z) : Z := Z.max 1 (Z.min rounds 5).
Definition run_debate (c : OptionsResearchContext) (candidates : list StrategyCandidate) (llm : ChatModel) (rounds : Z) : TM debate :=
  let! d := debate_round c candidates llm None [] in
  more_rounds (Z.to_nat (clamp_rounds rounds - 1)) c candidates llm d.
Definition run_risk_agent (c : OptionsResearchContext) (candidates : list StrategyCandidate) (llm : ChatModel)
    : TM (list CandidateRiskAnalysis * list string) :=
  let! result := _invoke_structured llm S_risk (joined
    [_SYSTEM_PREAMBLE; blank_line; "Facts:"; newline; build_context_facts_text c; blank_line;
     "Candidates (deterministic max_profit/max_loss/breakevens are already computed -- interpret them, ";
     "do not recompute):"; newline; _candidates_text candidates; blank_line;
     "For EACH candidate index, analyze: directional exposure, volatility exposure, theta exposure, ";
     "gamma risk, gap risk, expiry risk, liquidity risk, assignment/exercise considerations, event risk, ";
     "and tail risk. Where a candidate's max_loss is UNBOUNDED/UNDEFINED, explicitly say so as HIGH TAIL RISK."]) in
  ret (sanitize_risk_analysis result (count_of candidates)).
Definition run_coordinator (c : OptionsResearchContext) (candidates : list StrategyCandidate) (regime : MarketRegimeOutput)
    (volatility oi : InterpretationOutput) (bull bear : DirectionalCaseOutput) (risk : list CandidateRiskAnalysis) (llm : ChatModel)
    : TM FinalReportOutput :=
  _invoke_structured llm S_final (joined
    [_SYSTEM_PREAMBLE; blank_line; "You are the Research Coordinator. Combine the following into one coherent ";
     "AI OPTIONS RESEARCH report (never call it a trade signal; never suggest executing anything):"; blank_line;
     "Facts:"; newline; build_context_facts_text c; blank_line;
     "Market Regime: "; dumped_repr (dump_regime regime); newline; "Volatility: "; dumped_repr (dump_interpretation volatility); newline;
     "OI Positioning: "; dumped_repr (dump_interpretation oi); newline;
     "Bull Case: "; dumped_repr (dump_case bull); newline; "Bear Case: "; dumped_repr (dump_case bear); newline;
     "Risk Analysis: "; dumped_repr (dump_risks risk); newline; "Candidates:"; newline; _candidates_text candidates; blank_line;
     "Produce: market_overview, technical_context (note if none is available), news_sentiment (say ";
     "'Not available in this phase' if none was supplied), options_market_structure_summary, ";
     "invalidation_conditions (a list), and final_summary. This is AI OPTIONS RESEARCH for research ";
     "purposes only -- never phrase anything as an instruction to place, modify, or cancel an order."]).
End agents.

(** ** The guard keeps what the context knows *)
Definition levels_grounded (c : OptionsResearchContext) (levels : list float) : Prop :=
  Forall (fun l => exists k, In k (_known_levels c) /\ is_level l k = true) levels.
Lemma kept_levels_grounded c levels : levels_grounded c (fst (sanitize_key_levels levels c)).
Proof.
  apply List.Forall_forall. intros l Hl. apply List.filter_In in Hl as [_ Hl]. apply existsb_exists in Hl as (k & Hk & E). eauto.
Qed.
Lemma case_grounded o c : levels_grounded c (dc_key_levels (fst (sanitize_directional_case o c))).
Proof. exact (kept_levels_grounded c (dc_key_levels o)). Qed.
Definition commentary_grounded (c : OptionsResearchContext) (count : Z) (i : CandidateCommentary) : Prop :=
  0 <= i.(cc_index) < count /\ levels_grounded c i.(cc_key_levels).
Lemma valid_index i n : validate_candidate_index i n = true -> 0 <= i < n.
Proof. unfold validate_candidate_index. lia. Qed.
Lemma strategy_grounded o c count : Forall (commentary_grounded c count) (fst (sanitize_candidate_commentary o c count)).
Proof.
  apply List.Forall_forall. intros i Hi. apply in_flat_map in Hi as (x & _ & Hx). unfold clean_commentary in Hx.
  destruct (validate_candidate_index _ _) eqn:V; [|destruct Hx]. destruct Hx as [<-|[]]. split; [now apply valid_index | apply kept_levels_grounded].
Qed.
Lemma risk_grounded o count : Forall (fun i => 0 <= i.(ra_index) < count) (fst (sanitize_risk_analysis o count)).
Proof.
  apply List.Forall_forall. intros i Hi. apply in_flat_map in Hi as (x & _ & Hx). unfold clean_risk in Hx.
  destruct (validate_candidate_index _ _) eqn:V; [|destruct Hx]. destruct Hx as [<-|[]]. now apply valid_index.
Qed.

(** ** What it costs *)
(** [m] makes at most [n] calls, after those made before. *)
Definition costs {S A} (trace : S -> list llm_call) (n : nat) (m : M S exn A) : Prop := forall st,
  exists l, trace (snd (m st)) = trace st ++ l /\ (List.length l <= n)%nat.
Section costs.
Context {S : Type} (trace : S -> list llm_call).
Lemma costs_idle {A} (m : M S exn A) : (forall st, trace (snd (m st)) = trace st) -> costs trace 0 m.
Proof. intros E st. exists []. rewrite E, app_nil_r. now split. Qed.
Lemma costs_ret {A} (a : A) : costs trace 0 (ret a).
Proof. now apply costs_idle. Qed.
Lemma costs_raise {A} e : costs trace 0 (raise e : M S exn A).
Proof. now apply costs_idle. Qed.
Lemma costs_bind {A B} n k (m : M S exn A) (f : A -> M S exn B) : costs trace n m -> (forall a, costs trace k (f a)) -> costs trace (n + k) (bind m f).
Proof.
  intros Hm Hf st. unfold bind. specialize (Hm st) as (l & E & L). destruct (m st) as [[a|e] st']; cbn in *; [|exists l; split; [exact E | lia]].
  destruct (Hf a st') as (l' & E' & L'). exists (l ++ l'). rewrite E', E, app_assoc, length_app. split; [reflexivity | lia].
Qed.
Lemma costs_try {A} n k (m : M S exn A) (h : exn -> M S exn A) : costs trace n m -> (forall e, costs trace k (h e)) -> costs trace (n + k) (try_except m h).
Proof.
  intros Hm Hh st. unfold try_except. specialize (Hm st) as (l & E & L). destruct (m st) as [[a|e] st']; cbn in *; [exists l; split; [exact E | lia]|].
  destruct (Hh e st') as (l' & E' & L'). exists (l ++ l'). rewrite E', E, app_assoc, length_app. split; [reflexivity | lia].
Qed.
Lemma costs_weaken {A} n k (m : M S exn A) : costs trace n m -> (n <= k)%nat -> costs trace k m.
Proof. intros H L st. destruct (H st) as (l & E & Hl). exists l. split; [exact E | lia]. Qed.
End costs.
Section agents_cost.
Context `{OptionsLLM}.
Abbreviation asks := (costs (fun past : list llm_call => past)).
Lemma called_costs {A} call (f : list llm_call -> result exn A) : asks 1 (called call f).
Proof. intros past. exists [call]. now split. Qed.
Lemma attempts_cost {A} n llm (s : schema A) prompt : asks n (attempts n llm s prompt).
Proof.
  induction n as [|k IH]; [apply costs_raise|]. apply (costs_try _ 1 k); [apply called_costs|]. intros e.
  destruct (k =? 0)%nat; [apply (costs_weaken _ 0); [apply costs_raise | lia] | exact IH].
Qed.
Lemma get_llm_cost p m t : asks 1 (get_llm p m t).
Proof.
  unfold get_llm, create_options_research_llm. destruct tradingagents_import_error; [apply (costs_weaken _ 0); [apply costs_raise | lia]|].
  apply (costs_try _ 1 0); [apply (costs_bind _ 1 0); [apply called_costs | intros; apply costs_ret] | intros; apply costs_raise].
Qed.
Lemma asked_then {A B} llm (s : schema A) prompt (f : A -> B) : asks 2 (let! x := _invoke_structured llm s prompt in ret (f x)).
Proof. apply (costs_bind _ 2 0); [apply attempts_cost | intros; apply costs_ret]. Qed.
Lemma round_cost c cs llm b w : asks 4 (debate_round c cs llm b w).
Proof. apply (costs_bind _ 2 2); [apply asked_then|]. intros bull. apply (costs_bind _ 2 0); [apply asked_then | intros; apply costs_ret]. Qed.
Lemma more_rounds_cost n c cs llm d : asks (4 * n) (more_rounds n c cs llm d).
Proof.
  revert d. induction n as [|k IH]; intros d; cbn [more_rounds]; [apply costs_ret|]. destruct d as [[bull bear] w].
  apply (costs_weaken _ (4 + 4 * k)); [apply costs_bind; [apply round_cost | apply IH] | lia].
Qed.
Lemma debate_cost c cs llm rounds : asks (4 * Z.to_nat (clamp_rounds rounds)) (run_debate c cs llm rounds).
Proof.
  apply (costs_weaken _ (4 + 4 * Z.to_nat (clamp_rounds rounds - 1))); [|unfold clamp_rounds; lia].
  apply costs_bind; [apply round_cost | intros; apply more_rounds_cost].
Qed.
End agents_cost.

(** A fact of the context is never dropped. *)
Lemma f_sub_self x : f_num x -> is_inf x = false -> f_sub x x = f_zero.
Proof.
  destruct x as [s|s| |s m e]; try discriminate; [now destruct s|]. intros _ _. unfold f_sub, SFsub. now rewrite Z.sub_diag.
Qed.
Lemma tolerance_positive k : f_leb f_zero (f_max _LEVEL_TOLERANCE k) = true.
Proof.
  unfold f_max. destruct (f_ltb _ _) eqn:L; [|reflexivity]. destruct k as [s|s| |s m e]; try discriminate; destruct s; try discriminate; reflexivity.
Qed.
Lemma fact_kept c k : In k (_known_levels c) -> f_num k -> is_inf k = false -> known_level c k = true.
Proof.
  intros Hk Hn Hi. apply existsb_exists. exists k. split; [exact Hk|]. unfold is_level. rewrite f_sub_self by assumption. apply tolerance_positive.
Qed.
