(* ===== verification/OptionsResearchRuns.v ===== *)
(** * Options research: runs

    [trading/ai_options_research/models.py], [repository.py], [jobs.py],
    [service.py] and [trading/api/ai_options_research_routes.py].  A run and its
    checklist of stages is one row, the stages in the order of their sequence, as
    the relationship loads them; the commits of other connections run before each
    read and each commit ([ow_others]), and a commit writes the attributes that
    were changed.  A job that runs out of time abandons the pipeline's thread,
    which goes on: [pw_alarm] says before which of its writes the two writes of
    the timeout's handler fall.  The semaphore only delays; the service's live
    cache, its instrument master and the clock are those of the view the job
    reads. *)
From S2P Require Import Prelude PyStr PyFloat PyNum Config Json PyTime JsonText PyParse Permissions ApiWorld Symbols MarketTime MarketCache MarketDb MarketSession Providers BreezeProvider OptionsIntel OptionsService OptionsRoutes Payoff Candidates ResearchMarket ResearchSchema ResearchDb ResearchRuns OptionsResearch.

(** ** Rows *)
Record OptConfig : Type := mkOptConfig {
  ox_underlying : string; ox_expiry : option Z; ox_as_of : option stamp; ox_llm_provider : option string; ox_quick : option string;
  ox_deep : option string; ox_debate_rounds : Z; ox_candidate_limit : Z; ox_universe : list string;
  ox_generation_config : list (string * json); ox_created_at : Z
}.
Record AIOptionsResearchStage : Type := mkOptStage {
  os_sequence : Z; os_name : string; os_status : NodeStageStatus; os_started_at : option Z; os_completed_at : option Z
}.
(** A report as it is stored; [None] is the empty dictionary of a part that was
    not researched. *)
Record SerializedPayoff : Type := mkSerializedPayoff {
  sp_net_premium : option float; sp_max_profit : option float; sp_max_profit_unbounded : bool; sp_max_loss : option float;
  sp_max_loss_unbounded : bool; sp_breakevens : list float; sp_pricing_method : string; sp_priced : bool;
  sp_payoff_curve : list (PayoffPoint float)
}.
Record SerializedCandidate : Type := mkSerialized {
  se_strategy : StrategyType; se_supported : bool; se_legs : list CandidateLeg; se_payoff : option SerializedPayoff;
  se_liquidity_ok : bool; se_generation_notes : list string; se_unsupported_reason : option string;
  se_commentary : option CandidateCommentary; se_risk_analysis : option CandidateRiskAnalysis
}.
Record OptReport : Type := mkOptReport {
  re_market_overview : string; re_market_regime : option MarketRegimeOutput; re_technical_context : string; re_news_sentiment : string;
  re_options_market_structure : string * string; re_volatility_analysis : option InterpretationOutput;
  re_oi_positioning_analysis : option InterpretationOutput; re_bull_case : option DirectionalCaseOutput;
  re_bear_case : option DirectionalCaseOutput; re_candidates : list SerializedCandidate; re_invalidation_conditions : list string;
  re_final_summary : string; re_sanitizer_warnings : list string
}.
Record AIOptionsResearchRun : Type := mkOptRun {
  op_id : string; op_config : OptConfig; op_status : ResearchJobStatus; op_current_stage : option string;
  op_snapshot_id : option string; op_evidence_quality : option EvidenceQuality; op_report : option OptReport;
  op_error_category : option string; op_error_message : option string; op_started_at : option Z; op_completed_at : option Z;
  op_stages : list AIOptionsResearchStage
}.
#[global] Instance PayoffPoint_eq_dec : EqDecision (PayoffPoint float).
Proof. solve_decision. Defined.
#[global] Instance CandidateLeg_eq_dec : EqDecision CandidateLeg.
Proof. solve_decision. Defined.
#[global] Instance SerializedPayoff_eq_dec : EqDecision SerializedPayoff.
Proof. solve_decision. Defined.
#[global] Instance SerializedCandidate_eq_dec : EqDecision SerializedCandidate.
Proof. solve_decision. Defined.
#[global] Instance OptReport_eq_dec : EqDecision OptReport.
Proof. solve_decision. Defined.
Definition STAGE_NAMES : list string :=
  ["Snapshot Validation"; "Market Regime"; "Volatility"; "OI Positioning"; "Candidate Generation"; "Strategy Research";
   "Bull/Bear Research"; "Risk"; "Final Coordinator"].

(** ** The session *)
Definition ODb : Type := list AIOptionsResearchRun.
Definition odb_ok (d : ODb) : bool := unique_on op_id d && forallb (fun r => unique_on os_sequence r.(op_stages)) d.
Record OWorld : Type := mkOWorld { ow_db : ODb; ow_others : list (ODb -> ODb); ow_now : Z; ow_ticks : list nat; ow_uuids : list string }.
Definition DM (A : Type) : Type := M OWorld exn A.
Definition settle (w : OWorld) : OWorld :=
  match w.(ow_others) with
  | [] => w
  | o :: r => mkOWorld (if odb_ok (o w.(ow_db)) then o w.(ow_db) else w.(ow_db)) r w.(ow_now) w.(ow_ticks) w.(ow_uuids)
  end.
Definition query {A} (f : ODb -> A) : DM A := fun w => let w := settle w in (Ok (f w.(ow_db)), w).
Definition commit_with (f : ODb -> ODb) : DM unit := fun w =>
  let w := settle w in
  let d := f w.(ow_db) in
  if odb_ok d then (Ok tt, mkOWorld d w.(ow_others) w.(ow_now) w.(ow_ticks) w.(ow_uuids)) else (Err IntegrityError, w).
Definition _now : DM Z := fun w =>
  match w.(ow_ticks) with
  | [] => (Ok w.(ow_now), w)
  | k :: r => let t := w.(ow_now) + Z.of_nat k in (Ok t, mkOWorld w.(ow_db) w.(ow_others) t r w.(ow_uuids))
  end.
Definition uuid4 : DM string := fun w =>
  match w.(ow_uuids) with
  | [] => (Ok "", w)
  | u :: r => (Ok u, mkOWorld w.(ow_db) w.(ow_others) w.(ow_now) w.(ow_ticks) r)
  end.
Definition find_run (id : string) (d : ODb) : option AIOptionsResearchRun := List.find (fun r => String.eqb r.(op_id) id) d.
Definition merge_opt_stage (o n c : AIOptionsResearchStage) : AIOptionsResearchStage :=
  mkOptStage c.(os_sequence) c.(os_name) (changed o.(os_status) n.(os_status) c.(os_status))
    (changed o.(os_started_at) n.(os_started_at) c.(os_started_at)) (changed o.(os_completed_at) n.(os_completed_at) c.(os_completed_at)).
Definition write_opt_stage (old new : list AIOptionsResearchStage) (c : AIOptionsResearchStage) : AIOptionsResearchStage :=
  match List.find (fun p => os_sequence (fst p) =? os_sequence c) (List.combine old new) with
  | Some (o, n) => merge_opt_stage o n c
  | None => c
  end.
Definition merge_opt_run (o n c : AIOptionsResearchRun) : AIOptionsResearchRun :=
  mkOptRun c.(op_id) c.(op_config) (changed o.(op_status) n.(op_status) c.(op_status))
    (changed o.(op_current_stage) n.(op_current_stage) c.(op_current_stage))
    (changed o.(op_snapshot_id) n.(op_snapshot_id) c.(op_snapshot_id))
    (changed o.(op_evidence_quality) n.(op_evidence_quality) c.(op_evidence_quality)) (changed o.(op_report) n.(op_report) c.(op_report))
    (changed o.(op_error_category) n.(op_error_category) c.(op_error_category))
    (changed o.(op_error_message) n.(op_error_message) c.(op_error_message))
    (changed o.(op_started_at) n.(op_started_at) c.(op_started_at)) (changed o.(op_completed_at) n.(op_completed_at) c.(op_completed_at))
    (map (write_opt_stage o.(op_stages) n.(op_stages)) c.(op_stages)).
Definition write_run (old new : AIOptionsResearchRun) : ODb -> ODb :=
  update_where (fun r => String.eqb r.(op_id) old.(op_id)) (merge_opt_run old new).
(** Load, change as of now, commit; nothing for an unknown run, or when [f]
    returns early. *)
Definition update_run (id : string) (f : Z -> AIOptionsResearchRun -> option AIOptionsResearchRun) : DM unit :=
  let! found := query (find_run id) in
  match found with
  | None => ret tt
  | Some old =>
      let! now := _now in
      match f now old with
      | None => ret tt
      | Some new => commit_with (write_run old new)
      end
  end.

(** ** [repository.py] *)
Definition stage_status (st : NodeStageStatus) (started completed : option Z) (s : AIOptionsResearchStage) : AIOptionsResearchStage :=
  mkOptStage s.(os_sequence) s.(os_name) st started completed.
Definition start (now : Z) (s : AIOptionsResearchStage) : AIOptionsResearchStage := stage_status N_RUNNING (Some now) s.(os_completed_at) s.
Definition on_progress (r : AIOptionsResearchRun) (st : ResearchJobStatus) (current : option string) (started completed : option Z)
    (stages : list AIOptionsResearchStage) : AIOptionsResearchRun :=
  mkOptRun r.(op_id) r.(op_config) st current r.(op_snapshot_id) r.(op_evidence_quality) r.(op_report) r.(op_error_category)
    r.(op_error_message) started completed stages.
Definition opt_running (now : Z) (r : AIOptionsResearchRun) : option AIOptionsResearchRun :=
  Some (on_progress r J_RUNNING (match r.(op_stages) with s :: _ => Some s.(os_name) | [] => r.(op_current_stage) end) (Some now)
          r.(op_completed_at) (match r.(op_stages) with s :: l => start now s :: l | [] => [] end)).
Definition mark_running (id : string) : DM unit := update_run id opt_running.
Definition is_open (s : AIOptionsResearchStage) : bool := bool_decide (s.(os_status) = N_PENDING) || bool_decide (s.(os_status) = N_RUNNING).
(** The first open stage of that name is completed, and its successor starts
    whatever its status is. *)
Definition stage_complete (name : string) (now : Z) (r : AIOptionsResearchRun) : option AIOptionsResearchRun :=
  match List.find (fun s => String.eqb s.(os_name) name && is_open s) r.(op_stages) with
  | None => None
  | Some target =>
      let seq := target.(os_sequence) in
      let nxt := List.find (fun s => s.(os_sequence) =? seq + 1) r.(op_stages) in
      let step s :=
        if s.(os_sequence) =? seq then stage_status N_COMPLETED s.(os_started_at) (Some now) s
        else if s.(os_sequence) =? seq + 1 then start now s else s in
      Some (on_progress r r.(op_status) (match nxt with Some n => Some n.(os_name) | None => r.(op_current_stage) end) r.(op_started_at)
              r.(op_completed_at) (map step r.(op_stages)))
  end.
Definition mark_stage_complete (id name : string) : DM unit := update_run id (stage_complete name).
Definition opt_completed (report : OptReport) (snapshot_id : option string) (evidence : option EvidenceQuality) (now : Z)
    (r : AIOptionsResearchRun) : option AIOptionsResearchRun :=
  Some (mkOptRun r.(op_id) r.(op_config) J_COMPLETED None snapshot_id evidence (Some report) r.(op_error_category) r.(op_error_message)
          r.(op_started_at) (Some now) r.(op_stages)).
Definition mark_completed (id : string) (report : OptReport) (snapshot_id : option string) (evidence : option EvidenceQuality) : DM unit :=
  update_run id (opt_completed report snapshot_id evidence).
Definition or_keep {A} (new old : option A) : option A := match new with Some x => Some x | None => old end.
Definition opt_failed (error : string) (category snapshot_id : option string) (evidence : option EvidenceQuality) (now : Z)
    (r : AIOptionsResearchRun) : option AIOptionsResearchRun :=
  Some (mkOptRun r.(op_id) r.(op_config) J_FAILED r.(op_current_stage) (or_keep snapshot_id r.(op_snapshot_id))
          (or_keep evidence r.(op_evidence_quality)) r.(op_report) category (Some (str_take 2000 error)) r.(op_started_at) (Some now)
          r.(op_stages)).
Definition mark_failed (id error : string) (category snapshot_id : option string) (evidence : option EvidenceQuality) : DM unit :=
  update_run id (opt_failed error category snapshot_id evidence).
Definition skip_stage (now : Z) (s : AIOptionsResearchStage) : AIOptionsResearchStage :=
  if is_open s then stage_status N_SKIPPED s.(os_started_at) (Some now) s else s.
Definition opt_skipped (now : Z) (r : AIOptionsResearchRun) : option AIOptionsResearchRun :=
  Some (on_progress r r.(op_status) None r.(op_started_at) r.(op_completed_at) (map (skip_stage now) r.(op_stages))).
Definition mark_remaining_stages_skipped (id : string) : DM unit := update_run id opt_skipped.

(** *** Creation, reading, recovery *)
Definition generation_config (q : OptionsResearchRequestIn) : list (string * json) :=
  [("strike_window", JInt q.(or_strike_window)); ("min_delta", JFloat q.(or_min_delta)); ("max_delta", JFloat q.(or_max_delta));
   ("minimum_volume", JInt q.(or_minimum_volume)); ("minimum_oi", JInt q.(or_minimum_oi));
   ("maximum_bid_ask_spread", f_json q.(or_maximum_bid_ask_spread)); ("wing_width", JFloat q.(or_wing_width));
   ("hedge_wing_width", JFloat q.(or_hedge_wing_width)); ("expiry", JStr q.(or_expiry))].
Fixpoint checklist (seq : Z) (names : list string) : list AIOptionsResearchStage :=
  match names with
  | [] => []
  | n :: r => mkOptStage seq n N_PENDING None None :: checklist (seq + 1) r
  end.
(** The columns for the expiry and the instant are left empty. *)
Definition config_of (q : OptionsResearchRequestIn) (now : Z) : OptConfig :=
  mkOptConfig (upper q.(or_underlying)) None None q.(or_llm_provider) q.(or_quick_think_llm) q.(or_deep_think_llm) q.(or_debate_rounds)
    q.(or_candidate_limit) (map strategy_value (resolved_strategy_universe q)) (generation_config q) now.
Definition queued (id : string) (c : OptConfig) : AIOptionsResearchRun :=
  mkOptRun id c J_QUEUED None None None None None None None None (checklist 0 STAGE_NAMES).
Definition create_run (q : OptionsResearchRequestIn) : DM AIOptionsResearchRun :=
  let! id := uuid4 in
  let! now := _now in
  commit_with (fun d => d ++ [queued id (config_of q now)]) ;;;
  let! found := query (find_run id) in
  match found with Some r => ret r | None => raise (OtherError "InvalidRequestError" "Could not refresh instance") end.
Definition get_run (id : string) : DM (option AIOptionsResearchRun) := query (find_run id).
Definition listed_opt_run (underlying status : option string) (r : AIOptionsResearchRun) : bool :=
  match underlying with Some u => negb (truthy u) || String.eqb r.(op_config).(ox_underlying) (upper u) | None => true end &&
  match status with Some s => negb (truthy s) || String.eqb (job_status_value r.(op_status)) s | None => true end.
Definition latest_first (a b : AIOptionsResearchRun) : bool := ox_created_at (op_config b) <=? ox_created_at (op_config a).
Definition list_runs (page page_size : Z) (underlying status : option string) : DM (list AIOptionsResearchRun * Z) :=
  let! total := query (fun d => Z.of_nat (List.length (List.filter (listed_opt_run underlying status) d))) in
  let! rows := query (fun d => take (Z.to_nat page_size) (drop (Z.to_nat ((page - 1) * page_size))
                                 (sort_by latest_first (List.filter (listed_opt_run underlying status) d)))) in
  ret (rows, total).
Definition opt_interrupted (now : Z) (r : AIOptionsResearchRun) : AIOptionsResearchRun :=
  mkOptRun r.(op_id) r.(op_config) J_FAILED r.(op_current_stage) r.(op_snapshot_id) r.(op_evidence_quality) r.(op_report)
    (Some "INTERRUPTED") (Some "Interrupted by backend restart") r.(op_started_at) (Some now) r.(op_stages).
Definition is_running (r : AIOptionsResearchRun) : bool := bool_decide (r.(op_status) = J_RUNNING).
Definition recover_interrupted_jobs : DM Z :=
  let! stale := query (List.filter is_running) in
  let! now := _now in
  commit_with (fun d => fold_left (fun d old => write_run old (opt_interrupted now old) d) stale d) ;;;
  ret (Z.of_nat (List.length stale)).

(** ** [service.py] *)
Definition options_enabled (ai : AIResearchSettings) : bool :=
  ai.(ai_enabled) && ai.(ai_workloads_enabled) && ai.(ai_options_research_enabled).
Definition OptionsResearchDisabledError (m : string) : exn := OtherError "OptionsResearchDisabledError" m.
(** [OptionsResearchConfigError]: a message and a category. *)
Record OptConfigError : Type := mkOptConfigError { ocx_message : string; ocx_category : option string }.
Definition submission_error (ai : AIResearchSettings) (q : OptionsResearchRequestIn) : option OptConfigError :=
  let under := upper (strip q.(or_underlying)) in
  if negb (existsb (fun kv => String.eqb (fst kv) under) UNDERLYING_CONFIGS) then
    Some (mkOptConfigError (joined ["Unsupported underlying "; str_repr q.(or_underlying); ". Supported: ";
                                    String.concat ", " (sort_by String.leb (map fst UNDERLYING_CONFIGS))]) (Some "UNDERLYING_DATA_MISSING"))
  else if ai.(ai_options_max_candidates) <? q.(or_candidate_limit) then
    Some (mkOptConfigError (joined ["candidate_limit "; str_of_Z q.(or_candidate_limit); " exceeds AI_OPTIONS_MAX_CANDIDATES=";
                                    str_of_Z ai.(ai_options_max_candidates)]) (Some "COST_GUARD"))
  else if ai.(ai_options_max_debate_rounds) <? q.(or_debate_rounds) then
    Some (mkOptConfigError (joined ["debate_rounds "; str_of_Z q.(or_debate_rounds); " exceeds AI_OPTIONS_MAX_DEBATE_ROUNDS=";
                                    str_of_Z ai.(ai_options_max_debate_rounds)]) (Some "COST_GUARD"))
  else None.
(** The job of an accepted request runs as a task of its own, [_run_job]. *)
Definition submit_research (ai : AIResearchSettings) (q : OptionsResearchRequestIn) : DM (OptConfigError + AIOptionsResearchRun) :=
  if negb (options_enabled ai) then raise (OptionsResearchDisabledError "AI Options Research is disabled")
  else
    match submission_error ai q with
    | Some e => ret (inl e)
    | None => let! job := create_run q in ret (inr job)
    end.
Definition _classify_llm_error (e : exn) : option string :=
  let text := lower (text_of e) in
  if contains "rate_limit" text || contains "429" text || contains "too many requests" text then Some "LLM_RATE_LIMIT"
  else if contains "auth" text || contains "401" text || contains "invalid api key" text || contains "unauthorized" text then Some "LLM_AUTH"
  else if contains "timeout" text || contains "timed out" text then Some "LLM_TIMEOUT"
  else None.

Definition _serialize_payoff (p : PayoffResult float) : SerializedPayoff :=
  mkSerializedPayoff p.(net_premium) p.(max_profit) p.(max_profit_unbounded) p.(max_loss) p.(max_loss_unbounded) p.(breakevens)
    p.(pricing_method) p.(priced) p.(payoff_curve).
Definition _serialize_candidate (c : StrategyCandidate) (commentary : option CandidateCommentary) (risk : option CandidateRiskAnalysis)
    : SerializedCandidate :=
  mkSerialized c.(sc_strategy) c.(sc_supported) c.(sc_legs) (_serialize_payoff <$> c.(sc_payoff)) c.(sc_liquidity_ok)
    c.(Candidates.generation_notes) c.(unsupported_reason) commentary risk.
(** [{x.candidate_index: x for x in l}.get(i)]: the last one of an index. *)
Definition by_index {A} (key : A -> Z) (l : list A) (i : nat) : option A := List.find (fun x => key x =? Z.of_nat i) (rev l).
Definition candidate_config (q : OptionsResearchRequestIn) : CandidateGenerationConfig :=
  mkCandidateConfig q.(or_min_delta) q.(or_max_delta) q.(or_minimum_volume) q.(or_minimum_oi) q.(or_maximum_bid_ask_spread)
    q.(or_wing_width) q.(or_hedge_wing_width) q.(or_strike_window).
Definition insufficient_report (reason : string) (candidates : list StrategyCandidate) : OptReport :=
  mkOptReport "INSUFFICIENT DATA -- AI options research was not performed." None "" "Not available in this phase" ("reason", reason) None None
    None None (map (fun c => _serialize_candidate c None None) candidates) [] ("Insufficient data: " +:+ reason) [].
(** What the agents found. *)
Record Findings : Type := mkFindings {
  fi_regime : MarketRegimeOutput; fi_volatility : InterpretationOutput; fi_oi : InterpretationOutput;
  fi_commentary : list CandidateCommentary; fi_bull : DirectionalCaseOutput; fi_bear : DirectionalCaseOutput;
  fi_risk : list CandidateRiskAnalysis; fi_final : FinalReportOutput; fi_warnings : list string
}.
Definition research_report (candidates : list StrategyCandidate) (f : Findings) : OptReport :=
  mkOptReport f.(fi_final).(fr_market_overview) (Some f.(fi_regime)) f.(fi_final).(fr_technical_context) f.(fi_final).(fr_news_sentiment)
    ("summary", f.(fi_final).(fr_options_market_structure_summary)) (Some f.(fi_volatility)) (Some f.(fi_oi)) (Some f.(fi_bull))
    (Some f.(fi_bear))
    (imap (fun i c => _serialize_candidate c (by_index cc_index f.(fi_commentary) i) (by_index ra_index f.(fi_risk) i)) candidates)
    f.(fi_final).(fr_invalidation_conditions) f.(fi_final).(fr_final_summary) f.(fi_warnings).
Definition or_else_str (o : option string) (d : string) : string := match o with Some s => if truthy s then s else d | None => d end.
Definition DEFAULT_MODEL : string := "gpt-4o-mini".
Definition quick_model (q : OptionsResearchRequestIn) : string := or_else_str q.(or_quick_think_llm) DEFAULT_MODEL.
Definition deep_model (q : OptionsResearchRequestIn) : string := or_else_str q.(or_deep_think_llm) (quick_model q).
Definition provider_of (ai : AIResearchSettings) (q : OptionsResearchRequestIn) : string :=
  or_else_str q.(or_llm_provider) ai.(ai_llm_provider).

(** *** A job and its clock *)
(** When the time runs out: never; before the pipeline's write after the next
    [n], the handler's second write falling [k] writes later; and what is left of
    the handler. *)
Inductive alarm : Type := In_time | Fails_after (n k : nat) | Skips_after (k : nat) | Over.
Record PWorld (P : Type) : Type := mkPWorld { pw_db : OWorld; pw_market : OptState P; pw_llm : list llm_call; pw_alarm : alarm }.
Arguments mkPWorld {P} _ _ _ _.
Arguments pw_db {P} _.
Arguments pw_market {P} _.
Arguments pw_llm {P} _.
Arguments pw_alarm {P} _.
Section job.
Context {P : Type} `{MarketDataProvider P} {env : SessionEnv} `{Libm} `{OptionsLLM} (s : Settings) (ai : AIResearchSettings) (db_zone : Z)
        (v : View).
Definition PM (A : Type) : Type := M (PWorld P) exn A.
Definition on_db {A} (m : DM A) : PM A := fun w => let '(r, d) := m w.(pw_db) in (r, mkPWorld d w.(pw_market) w.(pw_llm) w.(pw_alarm)).
Definition on_opts {A} (m : OM (P := P) A) : PM A := fun w =>
  let '(r, o) := m w.(pw_market) in (r, mkPWorld w.(pw_db) o w.(pw_llm) w.(pw_alarm)).
Definition on_llm {A} (m : TM A) : PM A := fun w =>
  let '(r, l) := m w.(pw_llm) in (r, mkPWorld w.(pw_db) w.(pw_market) l w.(pw_alarm)).
Definition set_alarm (a : alarm) : PM unit := modify (fun w => mkPWorld w.(pw_db) w.(pw_market) w.(pw_llm) a).
Definition skip_after (id : string) (k : nat) : PM unit :=
  match k with
  | O => on_db (mark_remaining_stages_skipped id) ;;; set_alarm Over
  | S k => set_alarm (Skips_after k)
  end.
Definition ring (id : string) : PM unit :=
  let! a := gets pw_alarm in
  match a with
  | In_time | Over => ret tt
  | Fails_after O k => on_db (mark_failed id "Research timed out" (Some "LLM_TIMEOUT") None None) ;;; skip_after id k
  | Fails_after (S n) k => set_alarm (Fails_after n k)
  | Skips_after k => skip_after id k
  end.
(** The timeout comes before a write or after it, not inside: the abandoned
    pipeline's read and its commit are one step here.  [torn_stage_write] shows
    what a timeout between the two leaves behind. *)
Definition write (id : string) (m : DM unit) : PM unit := ring id ;;; on_db m.

(** *** The pipeline *)
Definition chain_of : Type := ChainResult * Z * list Z.
Definition config_error (category : string) (message : string) : OptConfigError + chain_of := inl (mkOptConfigError message (Some category)).
Definition _resolve_chain (q : OptionsResearchRequestIn) : PM (OptConfigError + chain_of) :=
  let under := upper (strip q.(or_underlying)) in
  match resolve_expiry (date_of v.(v_now)) v.(v_master) under (ExpiryText q.(or_expiry)) with
  | None => ret (config_error "EXPIRY_NOT_FOUND" ("No expiries known yet for " +:+ under))
  | Some expiry =>
      let answer result := ret (inr (result, expiry, list_expiries under v.(v_master))) in
      match q.(or_as_of) with
      | Some t =>
          try_except (let! result := on_opts (on_tables (get_historical_chain db_zone under expiry t (Some q.(or_strike_window)))) in answer result)
            (fun e => if is_options_error e then ret (config_error "SNAPSHOT_NOT_FOUND" (text_of e)) else raise e)
      | None =>
          let! cached := lift (get_live_chain_from_cache under expiry q.(or_strike_window) v.(v_cache) v.(v_master) v.(v_now)) in
          if any_quote cached.(cr_chain) then answer cached
          else
            try_except (let! result := on_opts (on_live (get_live_chain_via_provider s under expiry q.(or_strike_window))) in answer result)
              (fun e => ret (config_error "MARKET_DATA_MISSING" ("Provider fetch failed: " +:+ text_of e)))
      end
  end.
Definition research (id : string) (q : OptionsResearchRequestIn) (c : OptionsResearchContext) (candidates : list StrategyCandidate) : PM Findings :=
  let! llm := on_llm (get_llm (provider_of ai q) (quick_model q) q.(or_temperature)) in
  let! regime := on_llm (run_market_regime_agent c llm) in
  write id (mark_stage_complete id "Market Regime") ;;;
  let! volatility := on_llm (run_volatility_agent c llm) in
  write id (mark_stage_complete id "Volatility") ;;;
  let! oi := on_llm (run_oi_positioning_agent c llm) in
  write id (mark_stage_complete id "OI Positioning") ;;;
  write id (mark_stage_complete id "Candidate Generation") ;;;
  let! strategy := on_llm (run_strategy_research_agent c candidates regime volatility oi llm) in
  write id (mark_stage_complete id "Strategy Research") ;;;
  let! d := on_llm (run_debate c candidates llm q.(or_debate_rounds)) in
  let '(bull, bear, w) := d in
  write id (mark_stage_complete id "Bull/Bear Research") ;;;
  let! risk := on_llm (run_risk_agent c candidates llm) in
  write id (mark_stage_complete id "Risk") ;;;
  let! deep := on_llm (get_llm (provider_of ai q) (deep_model q) q.(or_temperature)) in
  let! final := on_llm (run_coordinator c candidates regime volatility oi bull bear (fst risk) deep) in
  write id (mark_stage_complete id "Final Coordinator") ;;;
  ret (mkFindings regime volatility oi (fst strategy) bull bear (fst risk) final (snd strategy ++ w ++ snd risk)).
Definition exn_line (e : exn) : string := joined [class_of e; ": "; text_of e].
(** Researching what was frozen, to a report or to a failure. *)
Definition conclude (id : string) (q : OptionsResearchRequestIn) (c : OptionsResearchContext) (level : EvidenceQuality)
    (candidates : list StrategyCandidate) : PM unit :=
  let! found :=
    try_except (let! f := research id q c candidates in ret (Some f))
      (fun e =>
         write id (mark_failed id (exn_line e) (Some (default "LLM_ERROR" (_classify_llm_error e))) (Some c.(cx_snapshot_id)) (Some level)) ;;;
         write id (mark_remaining_stages_skipped id) ;;;
         ret None) in
  match found with
  | None => ret tt
  | Some f => write id (mark_completed id (research_report candidates f) (Some c.(cx_snapshot_id)) (Some level))
  end.
Definition analyse_chain (id : string) (q : OptionsResearchRequestIn) (x : chain_of) : PM unit :=
  let '(chain, expiry, all) := x in
  let! summary := lift (build_market_structure_summary chain.(cr_chain) q.(or_as_of) s.(s_options_risk_free_rate)
                          (match all with [] => [expiry] | _ => all end) None chain.(cr_source_name) chain.(cr_source_name)
                          chain.(cr_provider_call_count) [] v.(v_now)) in
  let! snapshot_id := on_db uuid4 in
  let c := freeze_snapshot snapshot_id summary in
  let '(level, reason) := evidence_quality_gate c in
  write id (mark_stage_complete id "Snapshot Validation") ;;;
  let! candidates := lift (generate_candidates (resolved_strategy_universe q) summary (candidate_config q) q.(or_candidate_limit)) in
  if bool_decide (level = E_INSUFFICIENT) then
    write id (mark_remaining_stages_skipped id) ;;;
    write id (mark_completed id (insufficient_report reason candidates) (Some c.(cx_snapshot_id)) (Some level))
  else conclude id q c level candidates.
Definition _run_pipeline (id : string) (q : OptionsResearchRequestIn) : PM unit :=
  let! chain := _resolve_chain q in
  match chain with
  | inl e =>
      write id (mark_failed id e.(ocx_message) e.(ocx_category) None None) ;;;
      write id (mark_remaining_stages_skipped id)
  | inr x => analyse_chain id q x
  end.
(** A pipeline that has not run out of time ends the job with its own outcome;
    after the timeout nobody sees it.  With no slot at all the job waits for
    ever. *)
Definition _run_job (id : string) (q : OptionsResearchRequestIn) : PM unit :=
  if ai.(ai_options_max_concurrent) <? 0 then raise (ValueError "Semaphore initial value must be >= 0")
  else if ai.(ai_options_max_concurrent) =? 0 then ret tt
  else
    on_db (mark_running id) ;;;
    fun w =>
      let '(r, w') := _run_pipeline id q w in
      match w'.(pw_alarm) with
      | In_time | Fails_after _ _ =>
          match r with
          | Ok _ => (Ok tt, w')
          | Err e => (on_db (mark_failed id (exn_line e) None None None) ;;; on_db (mark_remaining_stages_skipped id)) w'
          end
      | Skips_after _ => on_db (mark_remaining_stages_skipped id) w'
      | Over => (Ok tt, w')
      end.
End job.

(** ** The routes behind the VIEW guard *)
Definition BAD_GATEWAY : Z := 502.
Definition NOT_FOUND : Z := 404.
Record ResearchStatusOut : Type := mkStatusOut {
  st_research_id : string; st_underlying : string; st_status : string; st_current_stage : option string; st_created_at : Z;
  st_started_at : option Z; st_completed_at : option Z; st_error : option string; st_provider_error : option string;
  st_snapshot_id : option string; st_evidence_quality : option string
}.
Definition _job_to_status (r : AIOptionsResearchRun) : ResearchStatusOut :=
  mkStatusOut r.(op_id) r.(op_config).(ox_underlying) (job_status_value r.(op_status)) r.(op_current_stage) r.(op_config).(ox_created_at)
    r.(op_started_at) r.(op_completed_at) r.(op_error_message) r.(op_error_category) r.(op_snapshot_id)
    (evidence_value <$> r.(op_evidence_quality)).
Definition _job_to_result (r : AIOptionsResearchRun) : ResearchStatusOut * option OptReport := (_job_to_status r, r.(op_report)).
Section handlers.
Context (ai : AIResearchSettings).
(** [None] is the answer that research is disabled. *)
Definition when_enabled {S A} (m : M S exn A) : M S exn (option A) :=
  if negb (options_enabled ai) then ret None else let! x := m in ret (Some x).
Definition submit_options_research (q : OptionsResearchRequestIn) : DM (option ResearchStatusOut) :=
  when_enabled
    (let! x := submit_research ai q in
     match x with
     | inl e => raise (HTTPException UNPROCESSABLE e.(ocx_message))
     | inr job => ret (_job_to_status job)
     end).
Definition known_run (id : string) : DM AIOptionsResearchRun :=
  let! x := get_run id in
  match x with Some r => ret r | None => raise (HTTPException NOT_FOUND "Unknown research_id") end.
Definition get_result (id : string) : DM (option (ResearchStatusOut * option OptReport)) :=
  when_enabled (let! r := known_run id in ret (_job_to_result r)).
Definition get_status (id : string) : DM (option ResearchStatusOut) := when_enabled (let! r := known_run id in ret (_job_to_status r)).
Definition get_stages (id : string) : DM (option (list AIOptionsResearchStage * option string)) :=
  when_enabled (let! r := known_run id in ret (r.(op_stages), r.(op_current_stage))).
Record HistoryItemOut : Type := mkHistoryItem {
  hi_research_id : string; hi_underlying : string; hi_expiry : option string; hi_status : string; hi_market_regime_trend : option string;
  hi_candidate_count : Z; hi_created_at : Z
}.
Definition history_item (r : AIOptionsResearchRun) : HistoryItemOut :=
  mkHistoryItem r.(op_id) r.(op_config).(ox_underlying) (PyTime.isoformat <$> r.(op_config).(ox_expiry)) (job_status_value r.(op_status))
    (match r.(op_report) with
     | Some p => option_map (fun g => snd (trend_member g.(mr_trend))) p.(re_market_regime)
     | None => None
     end)
    (match r.(op_report) with Some p => Z.of_nat (List.length p.(re_candidates)) | None => 0 end) r.(op_config).(ox_created_at).
Definition get_history (page page_size : Z) (underlying status : option string) : DM (option (list HistoryItemOut * Z)) :=
  when_enabled (let! x := list_runs page page_size underlying status in ret (map history_item (fst x), snd x)).

Record SnapshotPreviewOut : Type := mkPreview {
  pv_underlying : string; pv_spot : option float; pv_expiry : Z; pv_atm_strike : option float; pv_dte_calendar : option Z;
  pv_dte_trading : option Z; pv_oi_pcr : option float; pv_max_pain_strike : option float; pv_atm_iv : option float;
  pv_expected_move : option float; pv_oi_support : list float; pv_oi_resistance : list float; pv_data_quality : string;
  pv_data_quality_reasons : list string; pv_evidence_quality : string; pv_evidence_reason : string
}.
Context {P : Type} `{MarketDataProvider P} {env : SessionEnv} `{Libm} (s : Settings) (v : View).
Definition preview_of (c : OptionsResearchContext) : SnapshotPreviewOut :=
  let '(level, reason) := evidence_quality_gate c in
  mkPreview c.(cx_underlying) c.(cx_spot) c.(cx_expiry) c.(cx_atm_strike) c.(cx_dte_calendar) c.(cx_dte_trading) c.(cx_oi_pcr)
    c.(cx_max_pain_strike) c.(cx_atm_iv) c.(cx_expected_move) c.(cx_oi_support) c.(cx_oi_resistance) (quality_value c.(cx_data_quality))
    c.(cx_data_quality_reasons) (evidence_value level) reason.
Definition preview_snapshot (underlying expiry : string) (strike_window : Z) (snapshot_id : string)
    : OM (P := P) (option SnapshotPreviewOut) :=
  when_enabled
    (let under := upper (strip underlying) in
     if negb (existsb (fun kv => String.eqb (fst kv) under) UNDERLYING_CONFIGS) then
       raise (HTTPException 400 ("Unsupported underlying " +:+ str_repr underlying))
     else
       let! resolved := lift (_resolve_expiry_or_404 (date_of v.(v_now)) v.(v_master) under expiry) in
       let! cached := lift (get_live_chain_from_cache under resolved strike_window v.(v_cache) v.(v_master) v.(v_now)) in
       let! result := if any_quote cached.(cr_chain) then ret cached
                      else try_except (on_live (get_live_chain_via_provider s under resolved strike_window))
                             (fun e => raise (HTTPException BAD_GATEWAY ("Provider fetch failed: " +:+ class_of e))) in
       let! summary := lift (build_market_structure_summary result.(cr_chain) None s.(s_options_risk_free_rate)
                               (match list_expiries under v.(v_master) with [] => [resolved] | l => l end) None
                               result.(cr_source_name) result.(cr_source_name) result.(cr_provider_call_count) [] v.(v_now)) in
       ret (preview_of (freeze_snapshot snapshot_id summary))).
End handlers.

(** ** One write of an owned run *)
Definition same_opt_stage (o n : AIOptionsResearchStage) : Prop := os_sequence n = os_sequence o /\ os_name n = os_name o.
Definition keeps (x y : AIOptionsResearchRun) : Prop :=
  y.(op_id) = x.(op_id) /\ y.(op_config) = x.(op_config) /\ Forall2 same_opt_stage x.(op_stages) y.(op_stages).
Lemma same_opt_stages l : Forall2 same_opt_stage l l.
Proof. induction l; constructor; [now split | assumption]. Qed.
Lemma same_opt_stages_map f l : (forall s, same_opt_stage s (f s)) -> Forall2 same_opt_stage l (map f l).
Proof. intros H. induction l; constructor; auto. Qed.
Lemma write_opt_stage_key old new c : os_sequence (write_opt_stage old new c) = os_sequence c.
Proof. unfold write_opt_stage. now destruct (List.find _ _) as [[o n]|]. Qed.
Lemma write_opt_stages_new old new : NoDup (map os_sequence old) -> Forall2 same_opt_stage old new -> map (write_opt_stage old new) old = new.
Proof.
  intros N F. pose proof (find_pair os_sequence old new same_opt_stage N F) as K. revert K. unfold write_opt_stage.
  generalize (List.combine old new) as cs. intros cs K. clear N. induction F as [|a b l l' [S1 S2] F IH]; [reflexivity|].
  inversion K as [|? ? ? ? K1 K2]; subst. cbn. rewrite K1. f_equal; [|now apply IH].
  unfold merge_opt_stage. rewrite !changed_same. destruct b. cbn in *. now subst.
Qed.
Lemma merge_opt_run_new o n : NoDup (map os_sequence o.(op_stages)) -> keeps o n -> merge_opt_run o n o = n.
Proof.
  intros N (K1 & K2 & K3). unfold merge_opt_run. rewrite !changed_same, write_opt_stages_new by assumption. destruct n. cbn in *. now subst.
Qed.
Lemma write_run_ids old new d : map op_id (write_run old new d) = map op_id d.
Proof. unfold write_run, update_where. rewrite map_map. apply map_ext. intros r. now destruct (String.eqb _ _). Qed.
Lemma merged_stages_keys o n c : map os_sequence (merge_opt_run o n c).(op_stages) = map os_sequence c.(op_stages).
Proof. cbn. rewrite map_map. apply map_ext. intros s. apply write_opt_stage_key. Qed.
Lemma write_run_ok old new d : odb_ok (write_run old new d) = odb_ok d.
Proof.
  unfold odb_ok, unique_on. rewrite write_run_ids. f_equal. unfold write_run, update_where. induction d as [|r d IH]; [reflexivity|].
  cbn [map forallb]. rewrite IH. f_equal. destruct (String.eqb _ _); [|reflexivity]. now rewrite merged_stages_keys.
Qed.
Lemma odb_ok_rows d r : odb_ok d = true -> In r d -> NoDup (map os_sequence r.(op_stages)).
Proof.
  unfold odb_ok. intros [_ H]%andb_prop Hr. rewrite forallb_forall in H. specialize (H r Hr). now apply bool_decide_eq_true in H.
Qed.
Lemma find_run_In id d r : find_run id d = Some r -> In r d /\ r.(op_id) = id.
Proof. intros F. apply List.find_some in F as [F1 F2]. apply String.eqb_eq in F2. now split. Qed.
Lemma write_run_view id old new d : odb_ok d = true -> find_run id d = Some old -> keeps old new -> find_run id (write_run old new d) = Some new.
Proof.
  intros Hd F K. destruct (find_run_In _ _ _ F) as [Hin <-]. pose proof (odb_ok_rows d old Hd Hin) as N. clear Hd Hin.
  unfold write_run, update_where, find_run in *. induction d as [|r d IH]; [discriminate|]. cbn [map List.find] in *.
  destruct (String.eqb (op_id r) (op_id old)) eqn:E.
  - injection F as ->. assert (String.eqb (op_id (merge_opt_run old new old)) (op_id old) = true) as -> by (cbn; apply String.eqb_refl).
    f_equal. now apply merge_opt_run_new.
  - rewrite E. now apply IH.
Qed.
(** The commits of the other connections leave run [id] alone. *)
Definition spares (id : string) (o : ODb -> ODb) : Prop := forall d, find_run id (o d) = find_run id d.
Record owned (id : string) (w : OWorld) (x : AIOptionsResearchRun) : Prop := {
  ow_ok : odb_ok w.(ow_db) = true; ow_spared : Forall (spares id) w.(ow_others); ow_row : find_run id w.(ow_db) = Some x
}.
Lemma opt_settle_owned id w x : owned id w x -> owned id (settle w) x.
Proof.
  intros [Hok Hs Hv]. unfold settle. destruct (ow_others w) as [|o r] eqn:E; [now split; [| rewrite E |]|].
  apply Forall_cons in Hs as [Ho Hr]. destruct (odb_ok (o (ow_db w))) eqn:D; split; try assumption. cbn [ow_db]. now rewrite Ho.
Qed.
Lemma now_owned id w x : owned id w x -> exists t w', _now w = (Ok t, w') /\ owned id w' x.
Proof. intros [Hok Hs Hv]. unfold _now. destruct (ow_ticks w); do 2 eexists; (split; [reflexivity|]); now split. Qed.
Lemma uuid_owned id w x : owned id w x -> exists u w', uuid4 w = (Ok u, w') /\ owned id w' x.
Proof. intros [Hok Hs Hv]. unfold uuid4. destruct (ow_uuids w); do 2 eexists; (split; [reflexivity|]); now split. Qed.
Lemma opt_update_run_owned id f w x : owned id w x -> (forall now y, f now x = Some y -> keeps x y) ->
  exists t w', update_run id f w = (Ok tt, w') /\ owned id w' (default x (f t x)).
Proof.
  intros Ho K. unfold update_run, query, bind. pose proof (opt_settle_owned id w x Ho) as O1. rewrite (ow_row _ _ _ O1).
  destruct (now_owned _ _ _ O1) as (t & w1 & -> & O2). exists t. destruct (f t x) as [y|] eqn:F; [|now exists w1].
  pose proof (opt_settle_owned id w1 x O2) as [Hok Hs Hv]. unfold commit_with. rewrite write_run_ok, Hok. eexists. split; [reflexivity|].
  split; cbn; [now rewrite write_run_ok | exact Hs | apply write_run_view; [exact Hok | exact Hv | exact (K t y F)]].
Qed.

(** ** What each write computes *)
Lemma opt_running_keeps now x y : opt_running now x = Some y -> keeps x y.
Proof. intros [= <-]. repeat split; auto. cbn. destruct (op_stages x); constructor; [now split | apply same_opt_stages]. Qed.
Lemma stage_complete_keeps name now x y : stage_complete name now x = Some y -> keeps x y.
Proof.
  unfold stage_complete. destruct (List.find _ _) as [t|]; [|discriminate]. intros [= <-]. repeat split; auto. cbn. apply same_opt_stages_map.
  intros s. destruct (_ =? _); [now split|]. now destruct (_ =? _).
Qed.
Lemma opt_completed_keeps rep sid ev now x y : opt_completed rep sid ev now x = Some y -> keeps x y.
Proof. intros [= <-]. repeat split; auto. apply same_opt_stages. Qed.
Lemma opt_failed_keeps e c sid ev now x y : opt_failed e c sid ev now x = Some y -> keeps x y.
Proof. intros [= <-]. repeat split; auto. apply same_opt_stages. Qed.
Lemma opt_skipped_keeps now x y : opt_skipped now x = Some y -> keeps x y.
Proof. intros [= <-]. repeat split; auto. cbn. apply same_opt_stages_map. intros s. unfold skip_stage. now destruct (is_open s). Qed.
(** The keys of the checklist decide what a completed stage does to it. *)
Definition stage_key : Type := Z * string * NodeStageStatus.
Definition key_of_stage (s : AIOptionsResearchStage) : stage_key := (s.(os_sequence), s.(os_name), s.(os_status)).
Definition open_key (k : stage_key) : bool := bool_decide (snd k = N_PENDING) || bool_decide (snd k = N_RUNNING).
Definition key_complete (name : string) (l : list stage_key) : option (list stage_key) :=
  match List.find (fun k => String.eqb (snd (fst k)) name && open_key k) l with
  | None => None
  | Some (seq, _, _) =>
      Some (map (fun k : stage_key =>
                   if fst (fst k) =? seq then (fst k, N_COMPLETED) else if fst (fst k) =? seq + 1 then (fst k, N_RUNNING) else k) l)
  end.
Lemma stage_complete_key name now x :
  map key_of_stage (op_stages (default x (stage_complete name now x))) =
  default (map key_of_stage (op_stages x)) (key_complete name (map key_of_stage (op_stages x))).
Proof.
  unfold stage_complete, key_complete.
  assert (List.find (fun k => String.eqb (snd (fst k)) name && open_key k) (map key_of_stage (op_stages x)) =
          key_of_stage <$> List.find (fun s => String.eqb (os_name s) name && is_open s) (op_stages x)) as ->.
  { induction (op_stages x) as [|s l IH]; [reflexivity|]. cbn [map List.find]. rewrite IH. unfold is_open, open_key. cbn.
    now destruct (String.eqb (os_name s) name && _). }
  destruct (List.find _ _) as [t|]; cbn; [|reflexivity]. rewrite !map_map. apply map_ext. intros s. cbn.
  destruct (_ =? _); [reflexivity|]. now destruct (_ =? _).
Qed.

(** ** The phases of a job *)
Definition ended (y : AIOptionsResearchRun) : Prop :=
  y.(op_status) = J_FAILED \/ (y.(op_status) = J_COMPLETED /\ y.(op_report) <> None).
Definition closed (y : AIOptionsResearchRun) : Prop := Forall (fun s => is_open s = false) y.(op_stages).
Section phases.
Context {P : Type} (G : OptReport -> Prop) (id : string).
Definition reported (y : AIOptionsResearchRun) : Prop := forall rep, y.(op_report) = Some rep -> G rep.
(** Before the time runs out the run is in its phase; after the first write of
    the handler it has ended, and after the second its checklist is closed too. *)
Definition in_phase (R : AIOptionsResearchRun -> Prop) (w : PWorld P) : Prop :=
  exists y, owned id w.(pw_db) y /\ reported y /\
    match w.(pw_alarm) with In_time | Fails_after _ _ => R y | Skips_after _ => ended y | Over => ended y /\ closed y end.
Record good_write (f : Z -> AIOptionsResearchRun -> option AIOptionsResearchRun) : Prop := {
  gw_keeps : forall now x y, f now x = Some y -> keeps x y;
  gw_reported : forall now x y, f now x = Some y -> reported x -> reported y;
  gw_ended : forall now x y, f now x = Some y -> ended x -> ended y;
  gw_closed : forall now x y, f now x = Some y -> closed x -> closed y
}.
Lemma default_step {A} (Q : A -> Prop) x (o : option A) : Q x -> (forall y, o = Some y -> Q x -> Q y) -> Q (default x o).
Proof. destruct o; cbn; auto. Qed.
Lemma db_write f (w : PWorld P) y : owned id w.(pw_db) y -> good_write f ->
  exists t d, on_db (update_run id f) w = (Ok tt, mkPWorld d w.(pw_market) w.(pw_llm) w.(pw_alarm)) /\ owned id d (default y (f t y)).
Proof.
  intros O [K _ _ _]. destruct (opt_update_run_owned id f _ y O (fun now => K now y)) as (t & d & E & O'). exists t, d.
  unfold on_db. now rewrite E.
Qed.
Lemma stage_complete_good name : good_write (stage_complete name).
Proof.
  split; [exact (stage_complete_keeps name) | | |]; unfold stage_complete; intros now x y; destruct (List.find _ _) as [t|] eqn:F; try discriminate.
  1-2: intros [= <-]; auto.
  intros _ C. exfalso. apply List.find_some in F as [Ft Fo]. apply andb_prop in Fo as [_ Fo].
  unfold closed in C. rewrite List.Forall_forall in C. now rewrite (C t Ft) in Fo.
Qed.
Lemma opt_failed_good e c sid ev : good_write (opt_failed e c sid ev).
Proof. split; [exact (opt_failed_keeps e c sid ev) | | |]; intros now x y [= <-]; auto. intros _. now left. Qed.
Lemma skipped_closed now l : Forall (fun s => is_open s = false) (map (skip_stage now) l).
Proof. apply List.Forall_forall. intros s Hs. apply in_map_iff in Hs as (a & <- & _). unfold skip_stage. now destruct (is_open a) eqn:E. Qed.
Lemma opt_skipped_good : good_write opt_skipped.
Proof. split; [exact opt_skipped_keeps | | |]; intros now x y [= <-]; auto. intros _. apply skipped_closed. Qed.
Lemma opt_completed_good rep sid ev : G rep -> good_write (opt_completed rep sid ev).
Proof.
  intros HG. split; [exact (opt_completed_keeps rep sid ev) | | |]; intros now x y [= <-]; auto.
  - intros _ r [= <-]. exact HG.
  - intros _. now right.
Qed.

Lemma skip_phase k R (w : PWorld P) y : owned id w.(pw_db) y -> reported y -> ended y ->
  exists w', skip_after id k w = (Ok tt, w') /\ in_phase R w'.
Proof.
  intros O Hr He. destruct k as [|k]; cbn [skip_after].
  - destruct (db_write opt_skipped w y O opt_skipped_good) as (t & d & E & O'). unfold mark_remaining_stages_skipped, bind. rewrite E.
    eexists. split; [reflexivity|]. exists (default y (opt_skipped t y)). split; [exact O'|]. split; [exact Hr|]. split; [exact He | apply skipped_closed].
  - eexists. split; [reflexivity|]. exists y. now split; [|split].
Qed.
Lemma ring_phase R : triple (in_phase R) (ring (P := P) id) (fun _ => in_phase R) (fun _ _ => False).
Proof.
  intros w (y & O & Hr & Hp). unfold ring, bind, gets. destruct (pw_alarm w) as [|[|n] k|k|] eqn:A.
  - exists y. rewrite A. now split.
  - destruct (db_write _ w y O (opt_failed_good "Research timed out" (Some "LLM_TIMEOUT") None None)) as (t & d & E & O'). unfold mark_failed. rewrite E.
    match goal with |- context [skip_after id k ?w1] => destruct (skip_phase k R w1 _ O' Hr ltac:(now left)) as (w' & -> & I) end. exact I.
  - exists y. now split.
  - destruct (skip_phase k R w y O Hr Hp) as (w' & -> & I). exact I.
  - exists y. rewrite A. now split.
Qed.
Lemma write_phase (R R' : AIOptionsResearchRun -> Prop) f : good_write f -> (forall now y, R y -> R' (default y (f now y))) ->
  triple (in_phase R) (write (P := P) id (update_run id f)) (fun _ => in_phase R') (fun _ _ => False).
Proof.
  intros Gf Hs. eapply triple_bind; [apply ring_phase|]. intros _ w (y & O & Hr & Hp). destruct (db_write f w y O Gf) as (t & d & -> & O').
  exists (default y (f t y)). split; [exact O'|]. split; [apply default_step; [exact Hr | intros; eapply gw_reported; eauto]|]. cbn.
  destruct (pw_alarm w); [now apply Hs | now apply Hs | |].
  - apply default_step; [exact Hp | intros; eapply gw_ended; eauto].
  - destruct Hp as [He Hc]. split; apply default_step; auto; intros; [eapply gw_ended | eapply gw_closed]; eauto.
Qed.
(** What is done beside the database leaves the phase. *)
Lemma beside_db {A} R (m : PM (P := P) A) : (forall w, pw_db (snd (m w)) = pw_db w /\ pw_alarm (snd (m w)) = pw_alarm w) ->
  triple (in_phase R) m (fun _ => in_phase R) (fun _ => in_phase R).
Proof.
  intros H w I. specialize (H w). unfold in_phase in *. destruct (m w) as [[a|e] w']; cbn in H; destruct H as [-> ->]; exact I.
Qed.
Lemma uuid_phase R : triple (in_phase R) (on_db (P := P) uuid4) (fun _ => in_phase R) (fun _ _ => False).
Proof.
  intros w (y & O & Hr & Hp). unfold on_db. destruct (uuid_owned _ _ _ O) as (u & d & -> & O'). exists y. now split.
Qed.
End phases.

(** ** The checklist, stage by stage *)
Definition checkpoint (k : nat) : list stage_key :=
  imap (fun i name => (Z.of_nat i, name, if (i <? k)%nat then N_COMPLETED else if (i =? k)%nat then N_RUNNING else N_PENDING)) STAGE_NAMES.
Definition progress (k : nat) (y : AIOptionsResearchRun) : Prop := map key_of_stage y.(op_stages) = checkpoint k.
Definition anything (y : AIOptionsResearchRun) : Prop := True.
Definition settled (y : AIOptionsResearchRun) : Prop := ended y /\ closed y.
Lemma checklist_step k name now y : STAGE_NAMES !! k = Some name -> progress k y -> progress (S k) (default y (stage_complete name now y)).
Proof.
  intros Hk Hp. unfold progress in *. rewrite stage_complete_key, Hp. do 9 (destruct k as [|k]; [injection Hk as <-; reflexivity|]). discriminate.
Qed.
Lemma all_complete y : progress 9 y -> closed y.
Proof.
  unfold progress, closed. intros E. apply List.Forall_forall. intros s Hs. assert (In (key_of_stage s) (checkpoint 9)) as K by (rewrite <- E; now apply in_map).
  unfold is_open. cbn in K. unfold key_of_stage in K. repeat (destruct K as [[= _ _ <-]|K]; [reflexivity|]). destruct K.
Qed.
Definition fresh_run (x : AIOptionsResearchRun) : Prop := x.(op_report) = None /\ x.(op_stages) = checklist 0 STAGE_NAMES.
Lemma running_first now x : fresh_run x -> progress 0 (default x (opt_running now x)).
Proof. intros [_ E]. unfold progress, opt_running. cbn. rewrite E. reflexivity. Qed.

(** ** What the agents answer *)
Lemma invoked_then {B} `{OptionsLLM} {A} llm (s : schema A) prompt (f : A -> B) (Q : B -> Prop) past b past' : (forall a, Q (f a)) ->
  (let! x := _invoke_structured llm s prompt in ret (f x)) past = (Ok b, past') -> Q b.
Proof. intros HQ E. apply bind_inv_Ok in E as (a & p & _ & [= <- _]). apply HQ. Qed.
Section answers.
Context `{OptionsLLM} (c : OptionsResearchContext) (candidates : list StrategyCandidate).
Definition debate_grounded (d : debate) : Prop :=
  levels_grounded c (fst (fst d)).(dc_key_levels) /\ levels_grounded c (snd (fst d)).(dc_key_levels).
Lemma round_grounded llm b w past d past' : debate_round c candidates llm b w past = (Ok d, past') -> debate_grounded d.
Proof.
  unfold debate_round. intros E. apply bind_inv_Ok in E as (bull & p1 & E1 & E). apply bind_inv_Ok in E as (bear & p2 & E2 & [= <- _]).
  split; cbn; [eapply (invoked_then _ _ _ _ (fun x => levels_grounded c (dc_key_levels (fst x)))); [|exact E1]
              |eapply (invoked_then _ _ _ _ (fun x => levels_grounded c (dc_key_levels (fst x)))); [|exact E2]]; intros a; apply case_grounded.
Qed.
Lemma debate_answers llm rounds past d past' : run_debate c candidates llm rounds past = (Ok d, past') -> debate_grounded d.
Proof.
  unfold run_debate. intros E. apply bind_inv_Ok in E as (d0 & p & E0 & E). apply round_grounded in E0. revert d0 p E0 E.
  induction (Z.to_nat _) as [|n IH]; intros d0 p G0 E; cbn [more_rounds] in E; [now injection E as <- _|].
  destruct d0 as [[bull bear] w]. apply bind_inv_Ok in E as (d1 & p1 & E1 & E). eapply IH; [|exact E]. eapply round_grounded; exact E1.
Qed.
Lemma strategy_answers regime volatility oi llm past x past' :
  run_strategy_research_agent c candidates regime volatility oi llm past = (Ok x, past') ->
  Forall (commentary_grounded c (count_of candidates)) (fst x).
Proof. apply (invoked_then _ _ _ _ (fun x => Forall _ (fst x))). intros a. apply strategy_grounded. Qed.
Lemma risk_answers llm past x past' :
  run_risk_agent c candidates llm past = (Ok x, past') -> Forall (fun i => 0 <= i.(ra_index) < count_of candidates) (fst x).
Proof. apply (invoked_then _ _ _ _ (fun x => Forall _ (fst x))). intros a. apply risk_grounded. Qed.
End answers.

(** ** A report's facts *)
Definition grounded_candidate (c : OptionsResearchContext) (i : nat) (cand : StrategyCandidate) (out : SerializedCandidate) : Prop :=
  out = _serialize_candidate cand out.(se_commentary) out.(se_risk_analysis) /\
  (forall m, out.(se_commentary) = Some m -> m.(cc_index) = Z.of_nat i /\ levels_grounded c m.(cc_key_levels)) /\
  (forall r, out.(se_risk_analysis) = Some r -> r.(ra_index) = Z.of_nat i).
Definition report_grounded (c : OptionsResearchContext) (candidates : list StrategyCandidate) (rep : OptReport) : Prop :=
  (forall x, rep.(re_bull_case) = Some x \/ rep.(re_bear_case) = Some x -> levels_grounded c x.(dc_key_levels)) /\
  List.length rep.(re_candidates) = List.length candidates /\
  (forall i cand, candidates !! i = Some cand -> exists out, rep.(re_candidates) !! i = Some out /\ grounded_candidate c i cand out).
Record findings_grounded (c : OptionsResearchContext) (candidates : list StrategyCandidate) (f : Findings) : Prop := {
  fg_commentary : Forall (commentary_grounded c (count_of candidates)) f.(fi_commentary);
  fg_debate : debate_grounded c (f.(fi_bull), f.(fi_bear), f.(fi_warnings))
}.
Lemma by_index_In {A} (key : A -> Z) l i x : by_index key l i = Some x -> In x l /\ key x = Z.of_nat i.
Proof. intros F. apply List.find_some in F as [F1%in_rev F2%Z.eqb_eq]. now split. Qed.
Lemma research_report_grounded c candidates f : findings_grounded c candidates f -> report_grounded c candidates (research_report candidates f).
Proof.
  intros [Hc [Hb1 Hb2]]. split; [|split].
  - intros x [[= <-]|[= <-]]; assumption.
  - apply length_imap.
  - intros i cand E. cbn. rewrite list_lookup_imap, E. cbn. eexists. split; [reflexivity|]. split; [reflexivity|]. cbn. split.
    + intros m Hm. apply by_index_In in Hm as [Hm <-]. split; [reflexivity|]. rewrite List.Forall_forall in Hc. apply (Hc m Hm).
    + intros r Hr. now apply by_index_In in Hr as [_ <-].
Qed.
Lemma insufficient_grounded c candidates reason : report_grounded c candidates (insufficient_report reason candidates).
Proof.
  split; [intros x [|]; discriminate|]. split; [apply length_map|]. intros i cand E. cbn. change (map ?f candidates) with (f <$> candidates).
  rewrite list_lookup_fmap, E. eexists. split; [reflexivity|]. split; [reflexivity|]. now split.
Qed.

(** ** The pipeline *)
Section pipeline.
Context {P : Type} `{MarketDataProvider P} {env : SessionEnv} `{Libm} `{OptionsLLM} (s : Settings) (ai : AIResearchSettings) (db_zone : Z)
        (v : View) (id : string) (q : OptionsResearchRequestIn).
(** A report is about the candidates drawn from one summary, and says nothing of
    its levels that the context frozen from that summary does not know. *)
Definition drawn_report (rep : OptReport) : Prop :=
  exists chain all source calls m snapshot_id candidates,
    build_market_structure_summary chain q.(or_as_of) s.(s_options_risk_free_rate) all None source source calls [] v.(v_now) = Ok m /\
    generate_candidates (resolved_strategy_universe q) m (candidate_config q) q.(or_candidate_limit) = Ok candidates /\
    report_grounded (freeze_snapshot snapshot_id m) candidates rep.
Abbreviation phase := (in_phase (P := P) drawn_report id).
Lemma phase_weaken (R R' : AIOptionsResearchRun -> Prop) w : (forall y, R y -> R' y) -> phase R w -> phase R' w.
Proof. intros HR (y & O & Hr & Hp). exists y. split; [exact O|]. split; [exact Hr|]. destruct (pw_alarm w); auto. Qed.
Lemma phase_any R w : phase R w -> phase anything w.
Proof. apply phase_weaken. now split. Qed.
Lemma triple_pure {A} (Q : Prop) (I : PWorld P -> Prop) (m : PM (P := P) A) T X : (Q -> triple I m T X) -> triple (fun w => Q /\ I w) m T X.
Proof. intros K w [HQ HI]. now apply K. Qed.
Lemma llm_phase {A} (Q : A -> Prop) R (m : TM A) : (forall past a past', m past = (Ok a, past') -> Q a) ->
  triple (phase R) (on_llm m) (fun a w => Q a /\ phase R w) (fun _ => phase anything).
Proof.
  intros HQ w (y & O & Hr & Hp). unfold on_llm. destruct (m (pw_llm w)) as [[a|e] l] eqn:E.
  - split; [exact (HQ _ _ _ E)|]. now exists y.
  - apply (phase_any R). now exists y.
Qed.
Lemma lift_phase {A} R (r : result exn A) : triple (phase R) (lift r) (fun a w => r = Ok a /\ phase R w) (fun _ => phase anything).
Proof. apply triple_lift. intros w I. destruct r; [now split | now apply phase_any in I]. Qed.
Lemma write_step R R' f : good_write drawn_report f -> (forall now y, R y -> R' (default y (f now y))) ->
  triple (phase R) (write (P := P) id (update_run id f)) (fun _ => phase R') (fun _ => phase anything).
Proof. intros Gf Hs. eapply triple_weaken; [apply (write_phase _ _ R R' f Gf Hs) | auto | auto | intros ? ? []]. Qed.
Lemma stage_phase k name : STAGE_NAMES !! k = Some name ->
  triple (phase (progress k)) (write (P := P) id (mark_stage_complete id name)) (fun _ => phase (progress (S k))) (fun _ => phase anything).
Proof. intros Hk. apply write_step; [apply stage_complete_good|]. intros now y. now apply checklist_step. Qed.

Ltac asked Q := eapply triple_bind; [apply (llm_phase Q); try (now intros) | intros ?x; apply triple_pure; intros ?Hx].
Ltac marked k := eapply triple_bind; [now apply (stage_phase k) | intros ?u; cbv beta].
Lemma research_phase c candidates :
  triple (phase (progress 1)) (research ai id q c candidates)
    (fun f w => findings_grounded c candidates f /\ phase (progress 9) w) (fun _ => phase anything).
Proof.
  unfold research. asked (fun _ : ChatModel => True). asked (fun _ : MarketRegimeOutput => True). marked 1%nat.
  asked (fun _ : InterpretationOutput => True). marked 2%nat. asked (fun _ : InterpretationOutput => True). marked 3%nat. marked 4%nat.
  asked (fun a : list CandidateCommentary * list string => Forall (commentary_grounded c (count_of candidates)) (fst a));
    [intros ? ? ?; apply strategy_answers|]. marked 5%nat.
  asked (debate_grounded c); [intros ? ? ?; apply debate_answers|]. destruct x4 as [[bull bear] w]. marked 6%nat.
  asked (fun _ : list CandidateRiskAnalysis * list string => True). marked 7%nat. asked (fun _ : ChatModel => True).
  asked (fun _ : FinalReportOutput => True). marked 8%nat. apply triple_ret. intros w' I. split; [now split | exact I].
Qed.
Lemma conclude_phase c level candidates : (forall rep, report_grounded c candidates rep -> drawn_report rep) ->
  triple (phase (progress 1)) (conclude ai id q c level candidates) (fun _ => phase settled) (fun _ => phase anything).
Proof.
  intros HG. unfold conclude. eapply (triple_bind _ _ _ (fun found w => match found with
    | Some f => findings_grounded c candidates f /\ phase (progress 9) w | None => phase settled w end)).
  - eapply triple_try.
    + eapply triple_bind; [apply research_phase|]. intros f. apply triple_ret. auto.
    + intros e. eapply triple_bind; [apply (write_step anything ended); [apply opt_failed_good | now left]|]. intros ?; cbv beta.
      eapply triple_bind; [apply (write_step ended settled); [apply opt_skipped_good | intros now y He; split; [exact He | apply skipped_closed]]|].
      intros ?; cbv beta. apply triple_ret. auto.
  - intros [f|]; [|apply triple_ret; auto]. apply triple_pure. intros Hf. apply write_step.
    + apply opt_completed_good, HG, research_report_grounded, Hf.
    + intros now y Hp. split; [now right | exact (all_complete y Hp)].
Qed.
Lemma analyse_phase x : triple (phase (progress 0)) (analyse_chain s ai v id q x) (fun _ => phase settled) (fun _ => phase anything).
Proof.
  destruct x as [[chain expiry] all]. unfold analyse_chain.
  eapply triple_bind; [apply lift_phase|]. intros m. apply triple_pure. intros Hm.
  eapply (triple_bind _ _ _ (fun _ => phase (progress 0))); [eapply triple_weaken; [apply (uuid_phase drawn_report id (progress 0)) | auto | auto | intros ? ? []]|]. intros snapshot_id.
  destruct (evidence_quality_gate _) as [level reason]. marked 0%nat.
  eapply triple_bind; [apply lift_phase|]. intros candidates. apply triple_pure. intros Hc.
  assert (forall rep, report_grounded (freeze_snapshot snapshot_id m) candidates rep -> drawn_report rep) as HG by (intros rep K; exists (cr_chain chain); do 3 eexists; exists m, snapshot_id, candidates; split; [exact Hm | split; [exact Hc | exact K]]).
  destruct (bool_decide _); [|now apply conclude_phase].
  eapply triple_bind; [apply (write_step _ closed); [apply opt_skipped_good | intros; apply skipped_closed]|]. intros ?; cbv beta.
  apply write_step; [apply opt_completed_good, HG, insufficient_grounded | intros now y Hc'; split; [now right | exact Hc']].
Qed.
Lemma resolve_phase R : triple (phase R) (_resolve_chain s db_zone v q) (fun _ => phase R) (fun _ => phase R).
Proof.
  unfold _resolve_chain. destruct (resolve_expiry _ _ _ _) as [expiry|]; [|now apply triple_ret].
  assert (forall (A : Type) (m : OM (P := P) A), triple (phase R) (on_opts m) (fun _ => phase R) (fun _ => phase R)) as K.
  { intros A m. apply beside_db. intros w. unfold on_opts. now destruct (m (pw_market w)) as [r o]. }
  destruct (or_as_of q) as [t|].
  - eapply triple_try; [eapply triple_bind; [apply K | intros a; now apply triple_ret]|]. intros e.
    destruct (is_options_error e); [now apply triple_ret | now apply triple_raise].
  - eapply triple_bind; [apply triple_lift; intros w I; destruct (get_live_chain_from_cache _ _ _ _ _ _); exact I|]. intros cached.
    destruct (any_quote _); [now apply triple_ret|].
    eapply triple_try; [eapply triple_bind; [apply K | intros a; now apply triple_ret]|]. intros e. now apply triple_ret.
Qed.
Lemma pipeline_phase : triple (phase (progress 0)) (_run_pipeline s ai db_zone v id q) (fun _ => phase settled) (fun _ => phase anything).
Proof.
  unfold _run_pipeline. eapply (triple_bind _ _ _ (fun _ => phase (progress 0))); [eapply triple_weaken; [apply (resolve_phase (progress 0)) | auto | auto | intros ? ?; apply phase_any]|].
  intros [e|x]; [|apply analyse_phase]. eapply triple_bind; [apply (write_step _ ended); [apply opt_failed_good | now left]|]. intros ?; cbv beta.
  apply write_step; [apply opt_skipped_good | intros now y He; split; [exact He | apply skipped_closed]].
Qed.
End pipeline.

(** ** What a job costs *)
Section job_cost.
Context {P : Type} `{MarketDataProvider P} {env : SessionEnv} `{Libm} `{OptionsLLM} (s : Settings) (ai : AIResearchSettings) (db_zone : Z)
        (v : View) (id : string) (q : OptionsResearchRequestIn).
Abbreviation price := (costs (@pw_llm P)).
Lemma llm_price {A} n (m : TM A) : costs (fun past => past) n m -> price n (on_llm m).
Proof. intros Hm w. specialize (Hm (pw_llm w)) as (l & E & L). exists l. unfold on_llm. destruct (m (pw_llm w)) as [r p]. now split. Qed.
Lemma db_price {A} (m : DM A) : price 0 (on_db m).
Proof. apply costs_idle. intros w. unfold on_db. now destruct (m (pw_db w)). Qed.
Lemma opts_price {A} (m : OM (P := P) A) : price 0 (on_opts m).
Proof. apply costs_idle. intros w. unfold on_opts. now destruct (m (pw_market w)). Qed.
Lemma lift_price {A} (r : result exn A) : price 0 (lift r).
Proof. now apply costs_idle. Qed.
Lemma alarm_price a : price 0 (set_alarm a).
Proof. now apply costs_idle. Qed.
Lemma then_price {A B} n (m : PM (P := P) A) (k : A -> PM (P := P) B) : price 0 m -> (forall a, price n (k a)) -> price n (bind m k).
Proof. exact (costs_bind _ 0 n m k). Qed.
Lemma skip_price k : price 0 (skip_after id k).
Proof. destruct k; [apply then_price; [apply db_price | intros]|]; apply alarm_price. Qed.
Lemma write_price m : price 0 (write id m).
Proof.
  apply then_price; [|intros; apply db_price]. apply then_price; [now apply costs_idle|]. intros [|[|n] k|k|]; try apply costs_ret.
  - apply then_price; [apply db_price | intros; apply skip_price].
  - apply alarm_price.
  - apply skip_price.
Qed.
Lemma resolve_price : price 0 (_resolve_chain s db_zone v q).
Proof.
  unfold _resolve_chain. destruct (resolve_expiry _ _ _ _) as [expiry|]; [|apply costs_ret]. destruct (or_as_of q).
  - apply (costs_try _ 0 0); [apply then_price; [apply opts_price | intros; apply costs_ret]|]. intros e.
    destruct (is_options_error e); [apply costs_ret | apply costs_raise].
  - apply then_price; [apply lift_price|]. intros cached. destruct (any_quote _); [apply costs_ret|].
    apply (costs_try _ 0 0); [apply then_price; [apply opts_price | intros; apply costs_ret] | intros; apply costs_ret].
Qed.
Definition job_cost : nat := 14 + 4 * Z.to_nat (clamp_rounds q.(or_debate_rounds)).
Ltac spends := eapply costs_bind; [apply llm_price; (apply get_llm_cost || apply attempts_cost || apply asked_then || apply debate_cost) | intros ?x].
Ltac marks := apply then_price; [apply write_price | intros ?u].
Lemma research_price c candidates : price job_cost (research ai id q c candidates).
Proof.
  unfold research, job_cost. set (d := (4 * Z.to_nat (clamp_rounds (or_debate_rounds q)))%nat).
  apply (costs_weaken _ (1 + (2 + (2 + (2 + (2 + (d + (2 + (1 + (2 + 0)))))))))); [|lia].
  spends. spends. marks. spends. marks. spends. marks. marks. spends. marks. spends. destruct x4 as [[bull bear] w]. marks.
  spends. marks. spends. spends. marks. apply costs_ret.
Qed.
Lemma pipeline_price : price job_cost (_run_pipeline s ai db_zone v id q).
Proof.
  assert (forall A (m : PM (P := P) A), price 0 m -> price job_cost m) as W by (intros A m K; apply (costs_weaken _ 0); [exact K | unfold job_cost; lia]).
  unfold _run_pipeline. apply then_price; [apply resolve_price|]. intros [e|[[chain expiry] all]].
  - apply W, then_price; [apply write_price | intros; apply write_price].
  - unfold analyse_chain. apply then_price; [apply lift_price|]. intros m. apply then_price; [apply db_price|]. intros sid.
    destruct (evidence_quality_gate _) as [level reason]. marks. apply then_price; [apply lift_price|]. intros candidates.
    destruct (bool_decide _); [apply W, then_price; [apply write_price | intros; apply write_price]|]. unfold conclude.
    apply (costs_weaken _ (job_cost + 0)); [|lia]. apply costs_bind.
    + apply (costs_weaken _ ((job_cost + 0) + 0)); [|lia]. apply costs_try; [apply costs_bind; [apply research_price | intros; apply costs_ret]|].
      intros e. marks. marks. apply costs_ret.
    + intros [f|]; [apply write_price | apply costs_ret].
Qed.
(** C22: a job asks the LLM a bounded number of times: whatever the LLM
    answers or raises, whatever chain there is and whenever the time runs out,
    the calls made of it are at most fourteen, for two clients and six agents
    asked at most twice, and four for each round of the debate, of which there are
    between one and five. *)
Theorem options_job_cost w : exists calls,
  pw_llm (snd (_run_job s ai db_zone v id q w)) = pw_llm w ++ calls /\ (List.length calls <= job_cost <= 34)%nat.
Proof.
  assert (price job_cost (_run_job s ai db_zone v id q)) as K.
  { unfold _run_job. destruct (_ <? 0); [apply (costs_weaken _ 0); [apply costs_raise | unfold job_cost; lia]|].
    destruct (_ =? 0); [apply (costs_weaken _ 0); [apply costs_ret | unfold job_cost; lia]|]. apply then_price; [apply db_price|]. intros u w0.
    destruct (pipeline_price w0) as (l & E & L). destruct (_run_pipeline s ai db_zone v id q w0) as [r w1]. exists l. split; [|exact L].
    assert (forall m : PM (P := P) unit, price 0 m -> pw_llm (snd (m w1)) = pw_llm w0 ++ l) as D.
    { intros m M. destruct (M w1) as ([|] & E' & L'); [|cbn in L'; lia]. rewrite E', app_nil_r. exact E. }
    destruct (pw_alarm w1); [destruct r; [exact E|] | destruct r; [exact E|] | apply D, db_price | exact E];
      apply D, then_price; [apply db_price | intros; apply db_price | apply db_price | intros; apply db_price]. }
  destruct (K w) as (calls & E & L). exists calls. split; [exact E|]. split; [exact L|]. unfold job_cost, clamp_rounds. lia.
Qed.
End job_cost.

(** ** A job's end *)
Section job_end.
Context {P : Type} `{MarketDataProvider P} {env : SessionEnv} `{Libm} `{OptionsLLM} (s : Settings) (ai : AIResearchSettings) (db_zone : Z)
        (v : View) (id : string) (q : OptionsResearchRequestIn).
Lemma two_writes (w : PWorld P) y error : owned id w.(pw_db) y -> reported (drawn_report s v q) y ->
  exists w', (on_db (mark_failed id error None None None) ;;; on_db (mark_remaining_stages_skipped id)) w = (Ok tt, w') /\
    exists z, owned id w'.(pw_db) z /\ settled z /\ reported (drawn_report s v q) z.
Proof.
  intros O Hr. destruct (db_write (drawn_report s v q) id _ w y O (opt_failed_good _ error None None None)) as (t & d & E & O'). unfold bind, mark_failed. rewrite E.
  match goal with |- context [on_db (mark_remaining_stages_skipped id) ?w1] =>
    destruct (db_write (drawn_report s v q) id _ w1 _ O' (opt_skipped_good _)) as (t' & d' & E' & O'') end.
  unfold mark_remaining_stages_skipped. rewrite E'. eexists. split; [reflexivity|]. eexists. split; [exact O''|].
  split; [split; [now left | apply skipped_closed] | exact Hr].
Qed.
(** What a job of an owned, fresh run leaves. *)
Lemma job_outcome (w : PWorld P) x : owned id w.(pw_db) x -> fresh_run x -> 0 < ai.(ai_options_max_concurrent) ->
  (w.(pw_alarm) = In_time \/ exists n k, w.(pw_alarm) = Fails_after n k) ->
  exists w', _run_job s ai db_zone v id q w = (Ok tt, w') /\
    exists y, owned id w'.(pw_db) y /\ settled y /\ reported (drawn_report s v q) y.
Proof.
  intros O F Hm Ha. unfold _run_job. rewrite (proj2 (Z.ltb_ge _ _)), (proj2 (Z.eqb_neq _ _)) by lia.
  destruct (opt_update_run_owned id opt_running _ x O (fun now y => opt_running_keeps now x y)) as (t & d & E & O1).
  unfold mark_running, bind, on_db at 1. rewrite E. set (w1 := mkPWorld d _ _ _).
  assert (in_phase (drawn_report s v q) id (progress 0) w1) as I.
  { exists (default x (opt_running t x)). split; [exact O1|]. split; [intros rep; cbn; now rewrite (proj1 F)|]. cbn.
    destruct Ha as [-> | (n & k & ->)]; now apply running_first. }
  pose proof (pipeline_phase s ai db_zone v id q w1 I) as T. destruct (_run_pipeline s ai db_zone v id q w1) as [r w2].
  assert (exists y, owned id w2.(pw_db) y /\ reported (drawn_report s v q) y /\
    match w2.(pw_alarm) with In_time | Fails_after _ _ => match r with Ok _ => settled y | Err _ => True end | Skips_after _ => ended y | Over => settled y end) as (y & Oy & Hr & Hp).
  { destruct r; destruct T as (y & Oy & Hr & Hp); exists y; (split; [exact Oy | split; [exact Hr|]]); destruct (pw_alarm w2); auto. }
  destruct (pw_alarm w2) eqn:A.
  1-2: destruct r as [u|e]; [exists w2; split; [reflexivity | now exists y] | apply (two_writes w2 y); assumption].
  - destruct (db_write (drawn_report s v q) id _ w2 y Oy (opt_skipped_good _)) as (t' & d' & E' & O''). unfold mark_remaining_stages_skipped. rewrite E'.
    eexists. split; [reflexivity|]. eexists. split; [exact O''|]. split; [split; [exact Hp | apply skipped_closed] | exact Hr].
  - exists w2. split; [reflexivity | now exists y].
Qed.
(** C21: a job settles: once it holds a slot, the run of a submitted request ends
    COMPLETED with a report or FAILED, with no stage left pending or running,
    whatever the provider and the LLM answer or raise, whatever the chain holds,
    whichever write of the abandoned pipeline the timeout comes before, and
    whatever other connections commit to other runs. *)
Theorem options_job_settles (w : PWorld P) x : owned id w.(pw_db) x -> fresh_run x -> 0 < ai.(ai_options_max_concurrent) ->
  (w.(pw_alarm) = In_time \/ exists n k, w.(pw_alarm) = Fails_after n k) ->
  let '(r, w') := _run_job s ai db_zone v id q w in
  r = Ok tt /\ exists y, find_run id w'.(pw_db).(ow_db) = Some y /\
    (y.(op_status) = J_FAILED \/ (y.(op_status) = J_COMPLETED /\ y.(op_report) <> None)) /\
    Forall (fun g => g.(os_status) <> N_PENDING /\ g.(os_status) <> N_RUNNING) y.(op_stages).
Proof.
  intros O F Hm Ha. destruct (job_outcome w x O F Hm Ha) as (w' & -> & y & Oy & [He Hc] & _). split; [reflexivity|].
  exists y. split; [apply (ow_row _ _ _ Oy)|]. split; [exact He|]. eapply Forall_impl; [exact Hc|]. intros g Hg. unfold is_open in Hg.
  apply orb_false_elim in Hg as [H3 H4]. apply bool_decide_eq_false in H3, H4. now split.
Qed.
(** [l] is within a millionth, or a millionth of [k], of [k]. *)
Definition near_level (l k : float) : Prop :=
  f_leb (f_abs (f_sub l k)) (f_dec 1 6) = true \/ f_leb (f_abs (f_sub l k)) (f_mul k (f_dec 1 6)) = true.
(** The levels a summary knows: a strike of its rows, the spot to two decimals,
    the at-the-money strike, the max pain, a support, a resistance. *)
Definition summary_level (m : MarketStructureSummary) (k : float) : Prop :=
  (exists r, In r m.(ms_rows) /\ k = r.(ar_strike)) \/
  (exists spot, m.(ms_spot) = Some spot /\ k = f_round2 spot) \/
  m.(ms_atm_strike) = Some k \/ m.(ms_max_pain).(max_pain_strike) = Some k \/
  In k m.(ms_support_resistance).(oi_support) \/ In k m.(ms_support_resistance).(oi_resistance).
Definition from_summary (m : MarketStructureSummary) (l : float) : Prop := exists k, summary_level m k /\ near_level l k.
(** The stored candidate is the generated one, field by field. *)
Definition stored_candidate (cand : StrategyCandidate) (out : SerializedCandidate) : Prop :=
  out.(se_strategy) = cand.(sc_strategy) /\ out.(se_supported) = cand.(sc_supported) /\ out.(se_legs) = cand.(sc_legs) /\
  out.(se_liquidity_ok) = cand.(sc_liquidity_ok) /\ out.(se_generation_notes) = cand.(Candidates.generation_notes) /\
  out.(se_unsupported_reason) = cand.(unsupported_reason) /\
  match cand.(sc_payoff), out.(se_payoff) with
  | Some p, Some o =>
      o.(sp_net_premium) = p.(net_premium) /\ o.(sp_max_profit) = p.(max_profit) /\ o.(sp_max_profit_unbounded) = p.(max_profit_unbounded) /\
      o.(sp_max_loss) = p.(max_loss) /\ o.(sp_max_loss_unbounded) = p.(max_loss_unbounded) /\ o.(sp_breakevens) = p.(breakevens) /\
      o.(sp_pricing_method) = p.(pricing_method) /\ o.(sp_priced) = p.(priced) /\ o.(sp_payoff_curve) = p.(payoff_curve)
  | None, None => True
  | _, _ => False
  end.

Lemma known_from_summary snapshot_id m levels :
  levels_grounded (freeze_snapshot snapshot_id m) levels -> Forall (from_summary m) levels.
Proof.
  unfold levels_grounded. rewrite !List.Forall_forall. intros G l Hl. destruct (G l Hl) as (k & Hk & E). exists k. split.
  - unfold _known_levels in Hk. cbn in Hk. rewrite !in_app_iff in Hk. unfold summary_level.
    destruct Hk as [Hk|[Hk|[Hk|[Hk|Hk]]]].
    + left. apply (In_sort_by a_leb) in Hk. apply sorted_set_incl in Hk. rewrite map_map in Hk.
      apply in_map_iff in Hk as (r & <- & Hr). exists r. now split.
    + right. left. destruct (ms_spot m) as [spot|]; [|destruct Hk]. destruct Hk as [<-|[]]. now exists spot.
    + right. right. left. destruct (ms_atm_strike m); [|destruct Hk]. destruct Hk as [<-|[]]. reflexivity.
    + do 3 right. left. destruct (max_pain_strike _); [|destruct Hk]. destruct Hk as [<-|[]]. reflexivity.
    + do 4 right. exact Hk.
  - unfold is_level, f_max in E. unfold near_level. destruct (f_ltb _ _); auto.
Qed.
Lemma serialized_stored cand commentary risk : stored_candidate cand (_serialize_candidate cand commentary risk).
Proof. unfold stored_candidate. cbn. destruct (sc_payoff cand); cbn; auto 20. Qed.

(** C20: a report holds no level an agent made up: whatever the LLM answers, a
    report that a job stores is about the candidates generated from one summary of
    one chain, in their order, each field as it was generated; the commentary and
    the risk analysis attached to a candidate carry its index; and every key level
    of a commentary and of the two cases is, within 1e-6 or a millionth of it, a
    strike of a row of that summary, its spot rounded to two decimals, its
    at-the-money strike, its max pain, or one of its supports or resistances.
    The run is fresh and nobody else's meanwhile, the number of concurrent jobs
    is positive, and the job may run out of time before any of its writes, or
    never. *)
Theorem options_report_is_grounded (w : PWorld P) x : owned id w.(pw_db) x -> fresh_run x -> 0 < ai.(ai_options_max_concurrent) ->
  (w.(pw_alarm) = In_time \/ exists n k, w.(pw_alarm) = Fails_after n k) ->
  let '(_, w') := _run_job s ai db_zone v id q w in
  forall y rep, find_run id w'.(pw_db).(ow_db) = Some y -> y.(op_report) = Some rep ->
  exists chain all source calls m candidates,
    build_market_structure_summary chain q.(or_as_of) s.(s_options_risk_free_rate) all None source source calls [] v.(v_now) = Ok m /\
    generate_candidates (resolved_strategy_universe q) m (candidate_config q) q.(or_candidate_limit) = Ok candidates /\
    (forall c, rep.(re_bull_case) = Some c \/ rep.(re_bear_case) = Some c -> Forall (from_summary m) c.(dc_key_levels)) /\
    List.length rep.(re_candidates) = List.length candidates /\
    forall i cand, candidates !! i = Some cand -> exists out, rep.(re_candidates) !! i = Some out /\ stored_candidate cand out /\
      (forall c, out.(se_commentary) = Some c -> c.(cc_index) = Z.of_nat i /\ Forall (from_summary m) c.(cc_key_levels)) /\
      (forall r, out.(se_risk_analysis) = Some r -> r.(ra_index) = Z.of_nat i).
Proof.
  intros O F Hm Ha. destruct (job_outcome w x O F Hm Ha) as (w' & -> & y & Oy & _ & Hr). intros y' rep Fy Er.
  rewrite (ow_row _ _ _ Oy) in Fy. injection Fy as <-.
  destruct (Hr rep Er) as (chain & all & source & calls & m & sid & candidates & Em & Ec & G1 & G2 & G3).
  exists chain, all, source, calls, m, candidates. split; [exact Em|]. split; [exact Ec|].
  split; [intros c Hc; exact (known_from_summary sid m _ (G1 c Hc))|]. split; [exact G2|].
  intros i cand Hi. destruct (G3 i cand Hi) as (out & Ho & E & G4 & G5). exists out. split; [exact Ho|].
  split; [rewrite E; apply serialized_stored|]. split; [|exact G5].
  intros c Hc. destruct (G4 c Hc) as [G6 G7]. split; [exact G6 | exact (known_from_summary sid m _ G7)].
Qed.
End job_end.

(** ** On a small past chain *)
#[local] Existing Instance demo_libm.
#[local] Instance demo_llm : OptionsLLM := {|
  tradingagents_import_error := None;
  create_llm_client := fun _ _ => Ok tt;
  invoke_llm := fun A (sch : schema A) past _ _ =>
    match sch in schema T return result exn T with
    | S_regime => if (List.length past =? 1)%nat then Err (OtherError "BadRequestError" "model did not call a tool")
                  else Ok (mkRegime T_SIDEWAYS V_NORMAL RANGE_BOUND "flat" C_LOW "")
    | S_volatility => Ok (mkInterpretation "calm" [] C_LOW)
    | S_oi => Ok (mkInterpretation "balanced" [] C_LOW)
    | S_strategy => Ok [mkCommentary 0 "fits" "a break" "a range" "falling" [f_of_Z 25100; f_of_Z 26000]; mkCommentary 7 "" "" "" "" []]
    | S_case => Ok (mkCase "holds" [] [f_of_Z 25110; f_of_Z 24000])
    | S_risk => Ok [mkRisk 1 "" "" "" "" "" "" "" "" "" ""]
    | S_final => Ok (mkFinal "overview" "" "" "" [] "done")
    end
|}.
Definition options_request : OptionsResearchRequestIn :=
  mkOptionsRequest "NIFTY" "2026-09-08" (Some snapshot_instant) CUSTOM (Some [SHORT_STRADDLE; LONG_PUT]) 3 1 None None None None 10
    (f_dec 15 2) (f_dec 30 2) 0 0 None (f_of_Z 100) (f_of_Z 300).
Definition options_master : InstrumentMaster := Eval vm_compute in
  snd (load [Symbols.mkInstrument "NIFTY|2026-09-08|25100|CE" NFO T_OPTION (Some "NIFTY") (Some (ymd2ord 2026 9 8)) (Some (f_of_Z 25100)) (Some "CE")
               (Some 75) None (Some "icici_breeze") (Some "9")] None None empty_master).
Definition options_view : View := mkView (empty_cache (f_of_Z 10)) options_master demo_now 0.
Definition options_tables : MWorld := Eval vm_compute in
  quiet_world (on_market_candles (fun _ => [mkMarketCandle 1 demo_chain.(oc_generated_at) "NIFTY" "NSE" "1m" (f_of_Z 25110) (f_of_Z 25110)
                                              (f_of_Z 25110) (f_of_Z 25110) None None]) stored_world.(m_db)).
Definition submitted : OWorld := Eval vm_compute in
  snd (submit_research demo_settings options_request (mkOWorld [] [] 1000 [] ["run-1"; "snapshot-1"])).
Definition submitted_run : AIOptionsResearchRun := Eval vm_compute in default (queued "" (config_of options_request 0)) (find_run "run-1" submitted.(ow_db)).
Definition job_world (a : alarm) : PWorld BreezeProvider.BreezeObject :=
  mkPWorld submitted (mkOpt options_tables (mkLive unchecked []) []) [] a.
#[local] Abbreviation run_demo ai a :=
  (_run_job (P := BreezeProvider.BreezeObject) (H := BreezeProvider.breeze_provider (H := refusing_broker)) (env := demo_session_env)
     (H0 := demo_libm) (H1 := demo_llm) zerodha_settings ai 0 options_view "run-1" options_request (job_world a)).
Definition row_after (a : alarm) : option AIOptionsResearchRun := find_run "run-1" (snd (run_demo demo_settings a)).(pw_db).(ow_db).
Lemma submitted_owned a : owned "run-1" (pw_db (job_world a)) submitted_run.
Proof. split; [vm_compute; reflexivity | constructor | vm_compute; reflexivity]. Qed.
Lemma submitted_fresh : fresh_run submitted_run.
Proof. split; vm_compute; reflexivity. Qed.
(** The regime agent's first answer fails and is asked again; the levels and the
    candidate that the LLM made up are dropped, with a warning for each. *)
Example demo_research :
  (fun y => (y.(op_status), map os_status y.(op_stages), y.(op_evidence_quality),
             (fun rep => (map (fun o => (o.(se_strategy), option_map cc_key_levels o.(se_commentary), option_map ra_index o.(se_risk_analysis))) rep.(re_candidates),
                          option_map dc_key_levels rep.(re_bull_case), rep.(re_sanitizer_warnings))) <$> y.(op_report))) <$> row_after In_time =
    Some (J_COMPLETED, replicate 9 N_COMPLETED, Some E_DEGRADED,
          Some ([(SHORT_STRADDLE, Some [f_of_Z 25100], None); (LONG_PUT, None, Some 1)], Some [f_of_Z 25110],
                ["candidate 0: dropped hallucinated levels [26000.0]"; "dropped commentary referencing out-of-range candidate_index=7";
                 "dropped hallucinated levels [24000.0]"; "dropped hallucinated levels [24000.0]"])) /\
  List.length (snd (run_demo demo_settings In_time)).(pw_llm) = 11%nat.
Proof. vm_compute. repeat split. Qed.
Lemma options_job_settles_witness :
  (owned "run-1" (pw_db (job_world (Fails_after 2 1))) submitted_run /\ fresh_run submitted_run) /\
  let '(r, w') := run_demo demo_settings (Fails_after 2 1) in
  r = Ok tt /\ exists y, find_run "run-1" w'.(pw_db).(ow_db) = Some y /\
    (y.(op_status) = J_FAILED \/ (y.(op_status) = J_COMPLETED /\ y.(op_report) <> None)) /\
    Forall (fun g => g.(os_status) <> N_PENDING /\ g.(os_status) <> N_RUNNING) y.(op_stages).
Proof.
  split; [split; [apply submitted_owned | exact submitted_fresh]|].
  pose proof (options_job_settles (P := BreezeProvider.BreezeObject) (H := BreezeProvider.breeze_provider (H := refusing_broker))
    (env := demo_session_env) zerodha_settings demo_settings 0 options_view "run-1" options_request (job_world (Fails_after 2 1)) submitted_run
    (submitted_owned (Fails_after 2 1)) submitted_fresh eq_refl (or_intror (ex_intro _ 2%nat (ex_intro _ 1%nat eq_refl)))) as K.
  exact K.
Defined.
(** The timeout's own writes commit between the read and the commit of a stage
    completion of the abandoned pipeline: the failed run keeps a stage RUNNING. *)
Definition timed_out (r : AIOptionsResearchRun) : AIOptionsResearchRun :=
  default r (opt_failed "Research timed out" (Some "LLM_TIMEOUT") None None 1 r ≫= opt_skipped 1).
Example torn_stage_write :
  let running := default submitted_run (opt_running 0 submitted_run) in
  let w := mkOWorld [running] [(fun d => d); map timed_out] 0 [] [] in
  option_map (fun r => (r.(op_status), map os_status (take 3 r.(op_stages))))
    (find_run "run-1" (snd (mark_stage_complete "run-1" "Snapshot Validation" w)).(ow_db)) =
  Some (J_FAILED, [N_COMPLETED; N_RUNNING; N_SKIPPED]).
Proof. vm_compute. reflexivity. Qed.
Lemma options_report_is_grounded_witness :
  (owned "run-1" (pw_db (job_world In_time)) submitted_run /\ fresh_run submitted_run) /\
  let '(_, w') := run_demo demo_settings In_time in
  forall y rep, find_run "run-1" w'.(pw_db).(ow_db) = Some y -> y.(op_report) = Some rep ->
  exists chain all source calls m candidates,
    build_market_structure_summary chain options_request.(or_as_of) zerodha_settings.(s_options_risk_free_rate) all None source source calls []
      options_view.(v_now) = Ok m /\
    generate_candidates (resolved_strategy_universe options_request) m (candidate_config options_request) options_request.(or_candidate_limit) =
      Ok candidates /\
    (forall c, rep.(re_bull_case) = Some c \/ rep.(re_bear_case) = Some c -> Forall (from_summary m) c.(dc_key_levels)) /\
    List.length rep.(re_candidates) = List.length candidates /\
    forall i cand, candidates !! i = Some cand -> exists out, rep.(re_candidates) !! i = Some out /\ stored_candidate cand out /\
      (forall c, out.(se_commentary) = Some c -> c.(cc_index) = Z.of_nat i /\ Forall (from_summary m) c.(cc_key_levels)) /\
      (forall r, out.(se_risk_analysis) = Some r -> r.(ra_index) = Z.of_nat i).
Proof.
  split; [split; [apply submitted_owned | exact submitted_fresh]|].
  pose proof (options_report_is_grounded (P := BreezeProvider.BreezeObject) (H := BreezeProvider.breeze_provider (H := refusing_broker))
    (env := demo_session_env) zerodha_settings demo_settings 0 options_view "run-1" options_request (job_world In_time) submitted_run
    (submitted_owned In_time) submitted_fresh eq_refl (or_introl eq_refl)) as K.
  exact K.
Defined.

(** ** What the code does not mean to do *)
(** A run that timed out is completed by the abandoned thread: COMPLETED, with
    the timeout's error and its stages skipped. *)
Example timed_out_run_completes :
  (fun y => (y.(op_status), y.(op_error_message), map os_status y.(op_stages), bool_decide (y.(op_report) = None))) <$> row_after (Fails_after 2 0) =
    Some (J_COMPLETED, Some "Research timed out", [N_COMPLETED; N_COMPLETED] ++ replicate 7 N_SKIPPED, false).
Proof. vm_compute. reflexivity. Qed.
(** A restart leaves a QUEUED run QUEUED for ever, and a RUNNING one FAILED with
    a stage still RUNNING. *)
Example recovery_misses_the_queue :
  (let '(r, w) := recover_interrupted_jobs submitted in (r, op_status <$> find_run "run-1" w.(ow_db))) = (Ok 0, Some J_QUEUED) /\
  (let '(r, w) := recover_interrupted_jobs (snd (mark_running "run-1" submitted)) in
   (r, (fun y => (y.(op_status), os_status <$> hd_error y.(op_stages))) <$> find_run "run-1" w.(ow_db))) = (Ok 1, Some (J_FAILED, Some N_RUNNING)).
Proof. vm_compute. repeat split. Qed.
(** The expiry and the instant of a request are not stored in their columns:
    the history shows none. *)
Example history_has_no_expiry :
  (let '(r, _) := get_history demo_settings 1 25 None None submitted in r) =
    Ok (Some ([mkHistoryItem "run-1" "NIFTY" None "QUEUED" None 0 1000], 1)) /\
  ox_as_of submitted_run.(op_config) = None /\ or_as_of options_request = Some snapshot_instant.
Proof. vm_compute. repeat split. Qed.
(** The underlying is checked without its blanks and stored with them: the run
    is not found under its underlying. *)
Definition padded_request : OptionsResearchRequestIn :=
  mkOptionsRequest " nifty" "nearest" None DEFINED_RISK_ONLY None 3 1 None None None None 10 (f_dec 15 2) (f_dec 30 2) 0 0 None (f_of_Z 100) (f_of_Z 300).
Example padded_underlying_unlisted :
  OptionsResearchRequest padded_request = Ok padded_request /\
  let '(r, w) := submit_research demo_settings padded_request (mkOWorld [] [] 1000 [] ["run-2"]) in
  is_ok r = true /\ fst (list_runs 1 25 (Some "nifty") None w) = Ok ([], 0).
Proof. vm_compute. repeat split. Qed.
(** A past expiry is looked up in today's instruments: research on an expired
    series is silently done on another one. *)
Example past_expiry_replaced :
  resolve_expiry (date_of demo_now) options_master "NIFTY" (ExpiryText "2026-08-25") = Some (ymd2ord 2026 9 8).
Proof. vm_compute. reflexivity. Qed.
(** With no slot configured a job is accepted and never runs. *)
Example no_slot :
  let ai := mkAISettings true true true true "openai" 1 300 3 12 20 1 5 3 5 0 420 in
  submission_error ai options_request = None /\ (op_status <$> find_run "run-1" (snd (run_demo ai In_time)).(pw_db).(ow_db)) = Some J_QUEUED.
Proof. vm_compute. repeat split. Qed.
